(* ===== verification/_CoqProject ===== *)
-Q . S2P
Prelude.v
GoLib.v
Dates.v
JsonText.v
Json.v
JsonFacts.v
Schema.v
Integrity.v
Effects.v
NetAddr.v
Demo.v
StoreUsers.v
StoreDevices.v
DeviceFacts.v
StoreTokens.v
StoreNotify.v
Auth.v
ServiceDevices.v
ServiceFacts.v
ServiceTokens.v
TokenFacts.v
Notify.v
NotifyFacts.v
Endpoints.v
Email.v
Envelope.v
Transport.v
EmailChange.v
Hub.v
Feed.v
FeedFacts.v
Passkeys.v
Grants.v
Admin.v
SignIn.v
AdminFacts.v
GrantFacts.v
AccountFacts.v
IdentityFacts.v
Stale.v
StaleFacts.v
Pruner.v
Client.v
Oidc.v
ApiCore.v
ApiDevices.v
ApiAdmin.v
ApiSignIn.v
Api.v
ApiFacts.v
ApiSignInFacts.v
ApiDemo.v
FeedApi.v
FeedStream.v
FeedStreamFacts.v
Documents.v
Publication.v
System.v
Columns.v
RegistryFacts.v
Config.v
WebCore.v
WebDevices.v
WebAccount.v
WebAdmin.v
WebUI.v
WebFacts.v
WebPages.v
WebDemo.v
Middleware.v
Server.v
Credentials.v
Enroll.v
Logging.v
Driver.v
Agent.v
Commands.v
Telemetry.v
Serve.v
