(* ===== verification/Prelude.v ===== *)
(** * Verification of diyddns, a self-hosted public-IP registry (Go)

    ** The program

    A client agent (internal/client) asks several providers for its public
    address, takes the one a quorum agrees on, and reports it to the server in a
    request signed with the device's secret.  The server verifies the request
    (internal/auth), merges the report into the device's row, appends to its
    history (internal/server/service, internal/store) and announces the change:
    the fan-out (internal/server/fanout.go) bumps the feed sequence, puts a
    delivery per endpoint into the outbox (internal/server/notify) and
    broadcasts to the open streams (internal/server/feed).  People manage their
    devices, and administrators the accounts, through a JSON API
    (internal/server/api), signed in by a passkey, an identity provider
    (internal/oidc) or an API key.  Gateways read the feed with a token, as a
    document or as a stream.  Background jobs deliver the outbox, expire
    addresses that are no longer confirmed (sweep.go, stale) and prune what is
    old (pruner.go); mail goes out through internal/email.  Everything persistent
    is in one SQLite database reached through the repositories of internal/store.

    ** How it is modelled

    A Go function is a computation [M A] of Effects.v: a function of the world
    (environment, step counter, database, process memory) to a result ([Ok],
    [Err] of the sentinel errors the callers distinguish, or [Panic]) and a new
    world.  The environment gives, per step, the clock, the random bytes, new
    ids and whether the database driver fails; a context [ctx] says, per step,
    whether it is cancelled.  The theorems quantify over environments and
    contexts, hence over all faults, cancellations, clocks and random sources.
    A SQL statement is one atomic step on the rows of Schema.v that checks the
    constraints of the schema (an insert or update that would break a key, a
    CHECK or a reference fails without effect) and applies the referential
    actions; [with_tx] is a transaction: all of its body or nothing.  [wp m Q w]
    is the weakest precondition of a run; [preserves I m] says [m] keeps an
    invariant of the database.  What is concurrent in the program, and matters,
    is a transition system: the calls of the store (System.v), the hub (Hub.v),
    the streams with broadcasts, whose locked section and whose dropping of slow
    subscribers are separate steps, and revocations (FeedStream.v), the sends of the
    mail transport (Transport.v).

    ** The files

    - Prelude.v: 64-bit integers, list and option lemmas, the tactics, the hint
      databases.  The parts of Go's standard library the program uses: GoLib.v
      (strconv, strings, unicode/utf8, hex, base64), Dates.v (time: the calendar
      and the layouts), JsonText.v, Json.v and JsonFacts.v (encoding/json: what
      Marshal writes, the parser, and that they are inverse), NetAddr.v
      (net/netip, and that what an address prints is what it parses).
    - Schema.v: the tables of migrations/, the structs of internal/store and the
      scan functions, the constraints ([TableDef]) and the cascades.
      Integrity.v: the invariant [wf_db] and its lemmas per kind of statement.
      Effects.v: the monad, the statements, [wp] and [preserves].
      Demo.v: a concrete world for the witnesses.
    - StoreUsers.v, StoreDevices.v, StoreTokens.v, StoreNotify.v: internal/store,
      a Module per repository, a Definition per method, with the lemma that each
      keeps [wf_db].  DeviceFacts.v and TokenFacts.v: their properties.
      System.v: all writing calls of internal/store as one transition system,
      and the abstract specification of the store, a map from device
      identifiers to owner, addresses and switch; RegistryFacts.v: the
      refinement.  Columns.v: what the columns hold in every reachable state.
    - Auth.v: internal/shared/hmac.go and internal/auth (secret.go, token.go,
      csrf.go, session.go, hmac.go), over the class [Crypto] of primitives.
    - internal/server/service: ServiceDevices.v (checkin.go, device.go),
      ServiceTokens.v (feed.go, enrollment.go, apikeys.go, registration.go),
      against the interfaces [Notifier] and [DeviceNotifier]; Endpoints.v
      (notification.go); EmailChange.v (email_change.go); Passkeys.v
      (passkey.go), over the class [WebAuthn]; Grants.v (grants.go); Admin.v
      (admin.go); SignIn.v (bootstrap.go, oidc.go, auth.go).  Their properties:
      ServiceFacts.v, TokenFacts.v, AdminFacts.v, GrantFacts.v, AccountFacts.v,
      IdentityFacts.v.
    - Notify.v and NotifyFacts.v: internal/server/notify.  Hub.v: feed/hub.go as
      a transition system.  Feed.v and FeedFacts.v: fanout.go, feed/snapshot.go
      and store/addrs.go; the fan-out is an instance of the interfaces above.
      FeedApi.v: feed/tokenmw.go and handlers.go.  FeedStream.v and
      FeedStreamFacts.v: feed/stream.go interleaved with the hub, the broadcasts
      and the revocations.  Documents.v: the payloads and the documents as a
      JSON parser and a reader of lines find them.  Publication.v: from a
      device's report through the check-in to the lines a gateway reads.
    - Email.v (email/email.go, validate.go, templates.go, duration.go),
      Envelope.v (the checks before a send and the transport's target URL) and
      Transport.v (email/apprise.go: one send, its goroutine, the bounded pool).
    - Stale.v and StaleFacts.v: internal/server/stale and sweep.go, with the
      mail channel.  Pruner.v: pruner.go, the loop over the ticks included.
    - Oidc.v: internal/oidc (manager.go, browser.go, device.go), over the class
      [OIDCLib].
    - internal/server/api: ApiCore.v (the context, the middlewares of authmw.go,
      cookies, errors, routes), ApiDevices.v, ApiAdmin.v, ApiSignIn.v (the
      operations), Api.v ([Build], the table of all of them).  ApiFacts.v and
      ApiSignInFacts.v: their properties; ApiDemo.v: the witnesses.
    - Config.v: internal/config/config.go.
    - internal/server/webui: WebCore.v (handler.go, the session wrappers, forms,
      view.go), WebDevices.v, WebAccount.v, WebAdmin.v (the pages), WebUI.v (the
      static files, the route table and the choice of a route), WebFacts.v, WebPages.v (properties),
      WebDemo.v (witnesses).
    - Middleware.v: internal/server/middleware and notfound.go.  Server.v:
      server.go, what [buildMux] wires.  Serve.v: [New], [Run] and the serve
      command.  Logging.v: logging.go, the slow-statement lines and the opening of
      the store.  Driver.v: the timing driver of slowlog.go over any driver.
      Telemetry.v: internal/telemetry.
    - Credentials.v (the client's world and client/credentials), Enroll.v
      (client/enroll and the enroll command), Agent.v (config/client.go,
      httpprovider.go and the run command), Commands.v (the command trees, the
      version, the exit codes).
    - Client.v: internal/client (discovery, signed check-in, polling).

    A definition has the name of the Go function; a field of a struct has the
    struct's initials before its name ([dev_Label]), a column of a row too
    ([rd_label]).  An empty string and a zero that the Go code stores as NULL
    are [None] in the row and the zero value in the struct.

    ** What the theorems show

    - Authentication: an accepted request is authentic, timely and from an
      enabled device of an enabled user ([verify_sound]); it is never accepted
      twice ([verify_no_replay]); the client's request is accepted
      ([client_request_accepted]); a rotation takes effect ([RotateSecret_spec]),
      except in the race that [rotation_race_keeps_old_secret] exhibits.
    - The API: every operation serves only an identity its path's policy grants
      ([api_authorized]), nobody else's device can be reached
      ([device_requests_isolated]), no two operations claim a request
      ([routes_unambiguous]).
    - Data: the schema's constraints hold in every reachable state
      ([database_consistent]), the columns hold what the conversions expect
      (Columns.v), the store refines the registry
      ([store_refines_registry], and its reader in RegistryFacts.v); the two
      transactions are all-or-nothing and the expiry is pinned
      ([RecordIPChange_atomic], [ExpireFamilies_pinned]); check-in merges and
      confirms as specified ([Checkin_spec]), except in the race that
      [expiry_race_restores_address] exhibits; history pages compose.
    - Accounts: one-time links are spent once ([grant_single_use],
      [RedeemFinish_spec], [replacement_spec]), self-service recovery tells
      nothing ([self_service_recovery_spec]), the first administrator
      ([FinishClaim_spec], [Startup_claimable]), the last one ([admins_kept],
      and the race [admins_race_locks_out]), identity providers
      ([LoginOrLink_spec], [oidc_callback_sound], [oidc_flow_roundtrip],
      [RetryLoop_ready]), registration signs in only whom it registered
      ([register_finish_sound]), the device flow.
    - Credentials: [ConsumeCode_no_orphan], [enrollment_code_single_use],
      [feed_token_lifecycle], [TryPoll_paces], [RegistrationStatuses_spec].
    - Notifications: the destination policy ([Permit_guards]), the back-off
      bounds, one attempt ([deliverOne_spec]) and the outbox under any
      interleaving ([outbox_invariant]).
    - Feed: what a device reports is what a gateway reads ([report_published]);
      documents are fresh ([feed_documents_fresh]) and read back
      ([documents_read_back]); a stream has no gap until the broadcast that finds
      its buffer full has dropped it, and does not outlive its token
      ([stream_gap_free], [no_stream_survives_revocation]), but may start without
      its snapshot ([event_without_snapshot]).
    - Mail: what is sent is one message to one recipient ([checkSendable_safe],
      [notices_unforgeable], the staleness notices included); the transport's slots are bounded and drain
      ([transport_drains]).
    - Expiry and pruning: the sweep finds what it must and never takes a fresh
      address ([candidates_exact], [sweep_keeps_fresh]); pruning ends and never
      takes what is owed or current ([prune_safe]), and the background loop goes
      on after whatever fails ([runPruner_ends]).
    - Configuration: what [Load] accepts the program can run on ([Load_safe]).
    - Web pages: every route asks for the session, role, method and form token its
      path needs, and the four open ones write nothing and show nobody's data
      but to its bearer ([webui_authorized], [web_routes_specific]); nobody else's
      device is reached ([web_devices_isolated]), a reply is a template executed
      on the data it is for, the failure of that execution, a redirect within the
      site or a static file ([web_replies_typed]), the audit page's day filter
      ([audit_filter_days]).
    - The server: the parts are wired with the configured values and enabled by
      the configured switches ([buildMux_spec]), no two of its patterns overlap
      ([server_routes_disjoint]); the serve command starts whole or leaves
      nothing running ([serve_spec]), its telemetry too
      ([telemetry_all_or_nothing], [export_failures_accounted]); a store that is
      refused is closed ([Open_releases]), a slow statement is logged once
      ([slow_statement_once]) and the timing changes nothing else
      ([timed_driver_transparent]); each request is logged and counted once,
      panics included ([requests_recorded]), and the redirect of an unknown page
      changes nothing else ([not_found_transparent]).
    - Client: the quorum ([discoverFamily_spec], [discovered_family]) and the
      loop ([poll_run_spec]); enrolling publishes the credentials whole or leaves
      what was there ([Save_publishes], [finishEnroll_safe]), the device-code
      enrollment ends at its pace ([DeviceCodeEnroll_terminates]), and what the
      server answered is what is stored and what the agent runs with
      ([Save_Load], [enrolled_agent_runs]).

    Each theorem that is a property of the program carries its number [C<n>];
    [<name>_witness] applies it at a concrete input.

    ** Bounds and fuel

    Integers are [Z]; where the code can overflow (clock differences, nonce
    lifetimes, the back-off) the wrap-around [i64] is written out.  The batch
    loops of the pruner take the table's length plus one as fuel, which
    [prune_ends] shows is enough: each batch but the last removes a row.  The
    retry loop of the identity provider takes the number of attempts as fuel and
    [RetryLoop_ready] says how many suffice.  The bounds on the delivery attempts
    and on the retention days are those of the configuration's validation
    ([Load_safe]).

    ** Not modelled, and why

    The declarations of flags and environment variables (cobra, viper), TLS and
    HTTP transport set-up, file modes, the instruments of the OpenTelemetry SDK;
    the bodies of third-party libraries (WebAuthn, OpenID Connect, the HTTP
    framework, the SMTP client, the websocket, goose, the SQLite driver) and the
    parsers of net/mail and net/url, which are parameters with the laws the code
    relies on (what the two parsers accept changes between releases of Go); the HTML of the templates (whether html/template executes
    one on its data is a parameter, [execute_layout]); test support (mockidp.go, logtest.go).
    SQLite's choice among rows that tie in an ORDER BY, and the rows a LIMIT
    without ORDER BY takes, are unspecified: the model takes table order.  A
    panic inside the driver and memory exhaustion are out of scope.  Goroutines
    interleave at the calls of internal/store (System.v, the races of
    ServiceFacts.v, the transition systems of TokenFacts.v and NotifyFacts.v); a
    service operation's own specification is about an uninterrupted run.
 *)

From stdpp Require Export base gmap sets list strings sorting.
From Stdlib Require Export ZArith Lia.

#[export] Set Default Goal Selector "!".

Declare Scope diyddns_scope.
Delimit Scope diyddns_scope with D.
#[global] Open Scope Z_scope.

(** ** Machine integers

    Go's [int64] arithmetic wraps; [i64 z] is the two's-complement value the
    hardware keeps of the mathematical integer [z]. *)

Definition min_int64 : Z := - 2 ^ 63.
Definition max_int64 : Z := 2 ^ 63 - 1.
Definition in_int64 (z : Z) : Prop := min_int64 <= z <= max_int64.

Definition i64 (z : Z) : Z := (z + 2 ^ 63) mod 2 ^ 64 - 2 ^ 63.

Lemma i64_id (z : Z) : in_int64 z -> i64 z = z.
Proof.
  unfold in_int64, min_int64, max_int64, i64. intros H.
  rewrite Z.mod_small; lia.
Qed.

Lemma i64_range (z : Z) : in_int64 (i64 z).
Proof.
  unfold in_int64, min_int64, max_int64, i64.
  pose proof (Z.mod_pos_bound (z + 2 ^ 63) (2 ^ 64) ltac:(lia)). lia.
Qed.

Lemma i64_high (z : Z) :
  max_int64 < z < 2 ^ 64 - min_int64 -> i64 z = z - 2 ^ 64.
Proof.
  unfold min_int64, max_int64, i64. intros H.
  replace (z + 2 ^ 63) with ((z - 2 ^ 63) + 1 * 2 ^ 64) by lia.
  rewrite Z.mod_add by lia. rewrite Z.mod_small; lia.
Qed.

Lemma i64_i64 (z : Z) : i64 (i64 z) = i64 z.
Proof. apply i64_id, i64_range. Qed.

(** ** Tactics of the development *)

(** [case_match_all] splits every [match] and [if] of the goal. *)
Ltac case_match_all := repeat (case_match; simplify_eq/=).

(** ** Predicates on lists decided by booleans

    The tables of the database and the worklists of the handlers are lists;
    the selections of the source are boolean predicates, so the development
    uses the boolean [List.filter] and [List.find]. *)

Section BoolFilter.
Context {A : Type}.
  Implicit Types (p q : A -> bool) (l : list A).

Lemma elem_of_bfilter p l x : x ∈ List.filter p l <-> x ∈ l /\ p x = true.
  Proof. rewrite !list_elem_of_In. apply filter_In. Qed.

Lemma bfilter_sublist p l : List.filter p l `sublist_of` l.
  Proof.
    induction l as [|a l IH]; simpl; [constructor|].
    destruct (p a); by constructor.
  Qed.

Lemma bfilter_all p l : (forall x, x ∈ l -> p x = true) -> List.filter p l = l.
  Proof.
    induction l as [|a l IH]; intros Hall; simpl; [done|].
    rewrite Hall by (left). f_equal. apply IH. intros x Hx. apply Hall. by right.
  Qed.

Lemma bfilter_none p l : (forall x, x ∈ l -> p x = false) -> List.filter p l = [].
  Proof.
    induction l as [|a l IH]; intros Hall; simpl; [done|].
    rewrite Hall by (left). apply IH. intros x Hx. apply Hall. by right.
  Qed.

Lemma bfilter_split_length p l :
    (length (List.filter p l) + length (List.filter (fun x => negb (p x)) l))%nat = length l.
  Proof. induction l as [|a l IH]; simpl; [done|]. destruct (p a); simpl; lia. Qed.

Lemma bfilter_filter p q l :
    List.filter p (List.filter q l) = List.filter (fun x => q x && p x) l.
  Proof.
    induction l as [|a l IH]; simpl; [done|].
    destruct (q a); simpl; [|done]. destruct (p a); simpl; by rewrite IH.
  Qed.

Lemma bfilter_ext p q l :
    (forall x, x ∈ l -> p x = q x) -> List.filter p l = List.filter q l.
  Proof.
    induction l as [|a l IH]; intros Hpq; simpl; [done|].
    rewrite Hpq by (left). rewrite IH; [done|]. intros x Hx. apply Hpq. by right.
  Qed.

Lemma bfilter_perm p l1 l2 : l1 ≡ₚ l2 -> List.filter p l1 ≡ₚ List.filter p l2.
  Proof.
    induction 1 as [|x l1 l2 _ IH|x y l|l1 l2 l3 _ IH1 _ IH2]; simpl; [done| | |by etrans].
    - destruct (p x); [by rewrite IH|done].
    - destruct (p x), (p y); try done. apply Permutation_swap.
  Qed.

Lemma find_some_iff p l x : List.find p l = Some x -> x ∈ l /\ p x = true.
  Proof. intros H%find_some. by rewrite list_elem_of_In. Qed.

Lemma find_none_iff p l : List.find p l = None <-> forall x, x ∈ l -> p x = false.
  Proof.
    split.
    - intros H x Hx%list_elem_of_In. by eapply find_none.
    - induction l as [|a l IH]; intros H; simpl; [done|].
      rewrite H by (left). apply IH. intros x Hx. apply H. by right.
  Qed.

Lemma find_is_head p l : List.find p l = head (List.filter p l).
  Proof. induction l as [|a l IH]; simpl; [done|]. by destruct (p a). Qed.

  (** A key determines its row. *)
Lemma find_by_key {K : Type} `{EqDecision K} (key : A -> K) l x :
    NoDup (key <$> l) -> x ∈ l ->
    List.find (fun y => bool_decide (key y = key x)) l = Some x.
  Proof.
    induction l as [|a l IH]; simpl; [by intros _ ?%elem_of_nil|].
    intros [Hni Hnd]%NoDup_cons [->|Hin]%elem_of_cons.
    - by rewrite bool_decide_eq_true_2.
    - rewrite bool_decide_eq_false_2; [by apply IH|].
      intros Heq. apply Hni. rewrite Heq. apply list_elem_of_fmap. eauto.
  Qed.

Lemma NoDup_fmap_bfilter {K : Type} (key : A -> K) p l :
    NoDup (key <$> l) -> NoDup (key <$> List.filter p l).
  Proof.
    intros Hnd. eapply sublist_NoDup; [exact Hnd|].
    apply (fmap_sublist key), bfilter_sublist.
  Qed.

Lemma NoDup_key_eq {K : Type} (key : A -> K) l x y :
    NoDup (key <$> l) -> x ∈ l -> y ∈ l -> key x = key y -> x = y.
  Proof.
    induction l as [|a l IH]; simpl; [by intros _ ?%elem_of_nil|].
    intros [Hni Hnd]%NoDup_cons [->|Hx]%elem_of_cons [->|Hy]%elem_of_cons Hk; eauto.
    - destruct Hni. rewrite Hk. apply list_elem_of_fmap. eauto.
    - destruct Hni. rewrite <- Hk. apply list_elem_of_fmap. eauto.
  Qed.
End BoolFilter.

(** ** Relational tables

    A table of the database is the list of its rows; the statements of the
    source are the four operations below.  [rows_matched] is what SQLite
    reports as [RowsAffected]: the rows the [WHERE] clause matched, whether or
    not the assignment changed them. *)

Section Tables.
Context {R : Type}.
  Implicit Types (p : R -> bool) (f : R -> R) (t : list R).

Definition rows_update p f t : list R := (fun r => if p r then f r else r) <$> t.
Definition rows_matched p t : nat := length (List.filter p t).
Definition rows_delete p t : list R := List.filter (fun r => negb (p r)) t.

Lemma rows_update_length p f t : length (rows_update p f t) = length t.
  Proof. apply length_fmap. Qed.

Lemma rows_update_unmatched p f t : rows_matched p t = 0%nat -> rows_update p f t = t.
  Proof.
    unfold rows_matched, rows_update. induction t as [|r t IH]; simpl; [done|].
    destruct (p r); simpl; [done|]. intros H. f_equal. by apply IH.
  Qed.

Lemma elem_of_rows_update p f t r :
    r ∈ rows_update p f t <-> exists r0, r0 ∈ t /\ r = if p r0 then f r0 else r0.
  Proof.
    unfold rows_update. rewrite list_elem_of_fmap.
    split; intros (r0 & H1 & H2); exists r0; done.
  Qed.

Lemma elem_of_rows_delete p t r : r ∈ rows_delete p t <-> r ∈ t /\ p r = false.
  Proof. unfold rows_delete. rewrite elem_of_bfilter, negb_true_iff. done. Qed.

Lemma rows_delete_none p t : rows_matched p t = 0%nat -> rows_delete p t = t.
  Proof.
    unfold rows_matched, rows_delete. induction t as [|r t IH]; simpl; [done|].
    destruct (p r); simpl; [done|]. intros H. by rewrite IH.
  Qed.

Lemma rows_matched_zero p t : rows_matched p t = 0%nat <-> forall r, r ∈ t -> p r = false.
  Proof.
    unfold rows_matched. split.
    - intros Hl%nil_length_inv r Hr. destruct (p r) eqn:Hp; [|done].
      assert (Hin : r ∈ List.filter p t) by (apply elem_of_bfilter; done).
      rewrite Hl in Hin. by apply elem_of_nil in Hin.
    - intros H. by rewrite bfilter_none.
  Qed.

Lemma rows_matched_pos p t : rows_matched p t <> 0%nat <-> exists r, r ∈ t /\ p r = true.
  Proof.
    split.
    - intros H. destruct (List.find p t) as [r|] eqn:Hf.
      + exists r. by apply find_some_iff.
      + exfalso. apply H, rows_matched_zero. by apply find_none_iff.
    - intros (r & Hr & Hp) H. rewrite rows_matched_zero in H. rewrite H in Hp; done.
  Qed.

Lemma rows_delete_length p t :
    (length (rows_delete p t) + rows_matched p t)%nat = length t.
  Proof. unfold rows_delete, rows_matched. pose proof (bfilter_split_length p t). lia. Qed.

Lemma rows_update_key {K : Type} (key : R -> K) p f t :
    (forall r, r ∈ t -> key (f r) = key r) -> key <$> rows_update p f t = key <$> t.
  Proof.
    intros Hk. unfold rows_update. induction t as [|r t IH]; simpl; [done|].
    f_equal; [|apply IH; intros; apply Hk; by right].
    destruct (p r); [|done]. apply Hk. left.
  Qed.

Lemma find_rows_update p f q t :
    (forall r, q (f r) = q r) ->
    List.find q (rows_update p f t) =
      match List.find q t with
      | Some r => Some (if p r then f r else r)
      | None => None
      end.
  Proof.
    intros Hq. unfold rows_update. induction t as [|r t IH]; simpl; [done|].
    destruct (p r) eqn:Hp; [rewrite Hq|]; destruct (q r); try done; by rewrite Hp.
  Qed.

Lemma find_rows_delete_other p q t :
    (forall r, q r = true -> p r = false) -> List.find q (rows_delete p t) = List.find q t.
  Proof.
    intros Hpq. unfold rows_delete. induction t as [|r t IH]; simpl; [done|].
    destruct (q r) eqn:Hq.
    - rewrite (Hpq r Hq). simpl. by rewrite Hq.
    - destruct (p r); simpl; [done|]. by rewrite Hq.
  Qed.

Lemma find_rows_delete_same q t : List.find q (rows_delete q t) = None.
  Proof.
    apply find_none_iff. intros r [_ Hr]%elem_of_rows_delete. done.
  Qed.
End Tables.

(** ** [ORDER BY]

    A stable insertion sort by a boolean total preorder. *)

Section OrderBy.
Context {A : Type} (le : A -> A -> bool).

Fixpoint insert_by (x : A) (l : list A) : list A :=
    match l with
    | [] => [x]
    | y :: l' => if le x y then x :: l else y :: insert_by x l'
    end.

Fixpoint order_by (l : list A) : list A :=
    match l with
    | [] => []
    | x :: l' => insert_by x (order_by l')
    end.

Lemma insert_by_perm x l : insert_by x l ≡ₚ x :: l.
  Proof.
    induction l as [|y l IH]; simpl; [done|].
    destruct (le x y); [done|]. rewrite IH. apply Permutation_swap.
  Qed.

Lemma order_by_perm l : order_by l ≡ₚ l.
  Proof. induction l as [|x l IH]; simpl; [done|]. by rewrite insert_by_perm, IH. Qed.

Lemma elem_of_order_by l x : x ∈ order_by l <-> x ∈ l.
  Proof. by rewrite order_by_perm. Qed.

Hypothesis le_total : forall x y, le x y = true \/ le y x = true.
Hypothesis le_trans : forall x y z, le x y = true -> le y z = true -> le x z = true.

Lemma insert_by_sorted x l :
    StronglySorted (fun a b => le a b = true) l ->
    StronglySorted (fun a b => le a b = true) (insert_by x l).
  Proof.
    induction l as [|y l IH]; intros Hs; simpl; [repeat constructor|].
    inversion Hs as [|? ? Hs' Hall]; subst.
    destruct (le x y) eqn:Hxy.
    - constructor; [done|]. constructor; [done|].
      eapply Forall_impl; [exact Hall|]. simpl. intros z Hz. by eapply le_trans.
    - constructor; [by apply IH|]. rewrite insert_by_perm. constructor; [|done].
      destruct (le_total x y) as [?|?]; [congruence|done].
  Qed.

Lemma order_by_sorted l : StronglySorted (fun a b => le a b = true) (order_by l).
  Proof. induction l as [|x l IH]; simpl; [constructor|]. by apply insert_by_sorted. Qed.

  (** On a list already in order, the sort is the identity. *)
Lemma order_by_id l : StronglySorted (fun a b => le a b = true) l -> order_by l = l.
  Proof.
    induction 1 as [|x l Hs IH Hall]; simpl; [done|]. rewrite IH.
    destruct l as [|y l]; simpl; [done|]. inversion Hall; subst.
    by rewrite H1.
  Qed.
End OrderBy.

(** Two orderings of the same rows by a strict total order agree. *)
Lemma sorted_perm_unique {A : Type} (lt : A -> A -> Prop) (l1 l2 : list A) :
  (forall x, ~ lt x x) -> (forall x y z, lt x y -> lt y z -> lt x z) ->
  StronglySorted lt l1 -> StronglySorted lt l2 -> l1 ≡ₚ l2 -> l1 = l2.
Proof.
  intros Hirr Htr Hs1. revert l2. induction Hs1 as [|x l1 Hs1 IH Hall1]; intros l2 Hs2 Hp.
  - by apply Permutation_nil in Hp.
  - destruct l2 as [|y l2]; [by apply Permutation_sym, Permutation_nil in Hp|].
    inversion Hs2 as [|? ? Hs2' Hall2]; subst.
    assert (x = y) as ->.
    { assert (Hx : x ∈ y :: l2) by (rewrite <- Hp; left).
      assert (Hy : y ∈ x :: l1) by (rewrite Hp; left).
      apply elem_of_cons in Hx as [->|Hx]; [done|].
      apply elem_of_cons in Hy as [->|Hy]; [done|].
      rewrite Forall_forall in Hall1, Hall2. exfalso. eapply Hirr, Htr; eauto. }
    f_equal. apply IH; [done|]. by eapply Permutation_cons_inv.
Qed.

Create HintDb tables.
Create Rewrite HintDb tables.
#[export] Hint Resolve elem_of_order_by NoDup_fmap_bfilter : tables.
#[export] Hint Rewrite @elem_of_bfilter @elem_of_rows_update @elem_of_rows_delete : tables.

(** ** Comparing strings *)

Definition str_eq (a b : string) : bool := bool_decide (a = b).

Lemma str_eq_true a b : str_eq a b = true <-> a = b.
Proof. apply bool_decide_eq_true. Qed.
Lemma str_eq_false a b : str_eq a b = false <-> a <> b.
Proof. by rewrite <- str_eq_true, not_true_iff_false. Qed.

Lemma str_eq_refl a : str_eq a a = true.
Proof. by apply str_eq_true. Qed.

#[export] Hint Rewrite str_eq_true : tables.
