(* ===== verification/GoLib.v ===== *)
(** * The parts of Go's standard library the program relies on

    Go strings and byte slices are both sequences of 8-bit values; both are
    Rocq [string]s here, so that the conversions [[]byte(s)] and [string(b)] of
    the source are the identity.  The file models [strconv.FormatInt] and
    [strconv.ParseInt] (base 10, 64 bits), [encoding/hex], [encoding/base64]
    (standard and raw-URL), and the [strings] functions the source calls.
    These are models of documented library behaviour, not of code under src/,
    so they carry no map entry. *)

From S2P Require Import Prelude.
From Stdlib Require Import Ascii String.

#[local] Open Scope Z_scope.

(** ** Characters as numbers *)

Definition code (c : ascii) : Z := Z.of_nat (nat_of_ascii c).
Definition chr (z : Z) : ascii := ascii_of_nat (Z.to_nat z).

Lemma code_range c : 0 <= code c < 256.
Proof. unfold code. pose proof (nat_ascii_bounded c). lia. Qed.

Lemma chr_code c : chr (code c) = c.
Proof. unfold chr, code. by rewrite Nat2Z.id, ascii_nat_embedding. Qed.

Lemma code_chr z : 0 <= z < 256 -> code (chr z) = z.
Proof. intros H. unfold chr, code. rewrite nat_ascii_embedding; lia. Qed.

Lemma code_inj c d : code c = code d -> c = d.
Proof. intros H. by rewrite <- (chr_code c), <- (chr_code d), H. Qed.

(** ** [strconv]: decimal integers *)

Definition digit (d : Z) : ascii := chr (48 + d).

Definition digit_value (c : ascii) : option Z :=
  if (48 <=? code c) && (code c <=? 57) then Some (code c - 48) else None.

Lemma digit_value_digit d : 0 <= d < 10 -> digit_value (digit d) = Some d.
Proof.
  intros H. unfold digit_value, digit. rewrite code_chr by lia.
  replace (48 <=? 48 + d) with true by lia. replace (48 + d <=? 57) with true by lia.
  simpl. f_equal. lia.
Qed.

(** The decimal digits of a non-negative number, most significant first. *)
Fixpoint dec_digits (fuel : nat) (n : Z) (acc : string) : string :=
  match fuel with
  | O => acc
  | S fuel =>
      let acc' := String (digit (n mod 10)) acc in
      if n <? 10 then acc' else dec_digits fuel (n / 10) acc'
  end.

Lemma dec_step f n acc : dec_digits (S f) n acc =
  (let acc' := String (digit (n mod 10)) acc in if n <? 10 then acc' else dec_digits f (n / 10) acc').
Proof. done. Qed.

(** [strconv.FormatInt(z, 10)] (and the [%d] verb): 20 digits cover every
    64-bit integer. *)
Definition format_int (z : Z) : string :=
  if z <? 0 then String "-" (dec_digits 20 (- z) EmptyString)
  else dec_digits 20 z EmptyString.

Fixpoint parse_digits (acc : Z) (s : string) : option Z :=
  match s with
  | EmptyString => Some acc
  | String c s' =>
      match digit_value c with
      | Some d => parse_digits (acc * 10 + d) s'
      | None => None
      end
  end.

Definition parse_uint (s : string) : option Z :=
  match s with EmptyString => None | _ => parse_digits 0 s end.

(** [strconv.ParseInt(s, 10, 64)]: an optional sign, at least one digit, only
    digits, and a value that fits; [None] is any [*NumError]. *)
Definition parse_int (s : string) : option Z :=
  let signed (neg : bool) (r : string) :=
    match parse_uint r with
    | Some n =>
        let z := if neg then - n else n in
        if (min_int64 <=? z) && (z <=? max_int64) then Some z else None
    | None => None
    end in
  match s with
  | String "-" r => signed true r
  | String "+" r => signed false r
  | _ => signed false s
  end.

Lemma parse_digits_dec_digits fuel n acc a :
  0 <= n < 10 ^ Z.of_nat fuel -> 0 <= a ->
  exists k, 0 <= k /\ parse_digits a (dec_digits fuel n acc) = parse_digits (a * 10 ^ k + n) acc.
Proof.
  revert n acc a. induction fuel as [|fuel IH]; intros n acc a Hn Ha.
  - exists 0. split; [lia|]. simpl. f_equal. simpl in Hn. lia.
  - rewrite Nat2Z.inj_succ, Z.pow_succ_r in Hn by lia.
    pose proof (Z.mod_pos_bound n 10 ltac:(lia)) as Hm.
    pose proof (Z.div_mod n 10 ltac:(lia)) as Hd.
    simpl. destruct (n <? 10) eqn:Hlt.
    + exists 1. split; [lia|]. simpl. rewrite digit_value_digit by lia.
      f_equal. rewrite Z.mod_small by lia. lia.
    + destruct (IH (n / 10) (String (digit (n mod 10)) acc) a) as (k & Hk & ->); [|lia|].
      { split; [apply Z.div_pos; lia|]. apply Z.div_lt_upper_bound; lia. }
      exists (k + 1). split; [lia|]. simpl. rewrite digit_value_digit by lia.
      f_equal. rewrite Z.pow_add_r by lia. lia.
Qed.

Lemma dec_digits_cons fuel n acc : exists d r,
  0 <= d < 10 /\ dec_digits (S fuel) n acc = String (digit d) r.
Proof.
  revert n acc. induction fuel as [|fuel IH]; intros n acc.
  - simpl. pose proof (Z.mod_pos_bound n 10 ltac:(lia)).
    destruct (n <? 10); eauto.
  - pose proof (Z.mod_pos_bound n 10 ltac:(lia)).
    change (dec_digits (S (S fuel)) n acc) with
      (let acc' := String (digit (n mod 10)) acc in
       if n <? 10 then acc' else dec_digits (S fuel) (n / 10) acc').
    cbv zeta. destruct (n <? 10); eauto.
Qed.

Lemma parse_uint_dec_digits n :
  0 <= n < 10 ^ 20 -> parse_uint (dec_digits 20 n EmptyString) = Some n.
Proof.
  intros Hn. destruct (parse_digits_dec_digits 20 n EmptyString 0) as (k & _ & Hp); [lia|lia|].
  destruct (dec_digits_cons 19 n EmptyString) as (d & r & _ & Hc).
  unfold parse_uint. rewrite Hc, <- Hc, Hp. done.
Qed.

Lemma digit_not_sign d : 0 <= d < 10 -> digit d <> "-"%char /\ digit d <> "+"%char.
Proof.
  intros H. unfold digit. split; intros Heq; apply (f_equal code) in Heq;
    rewrite code_chr in Heq by lia; vm_compute (code _) in Heq; lia.
Qed.

(** Formatting and parsing an [int64] is the identity. *)
Lemma parse_int_format_int z : in_int64 z -> parse_int (format_int z) = Some z.
Proof.
  unfold in_int64, format_int. intros Hz. pose proof Hz as Hz'.
  unfold min_int64, max_int64 in Hz'.
  assert (Hb : (min_int64 <=? z) && (z <=? max_int64) = true) by lia.
  destruct (z <? 0) eqn:Hneg.
  - pose proof (parse_uint_dec_digits (- z) ltac:(lia)) as Hp.
    remember (dec_digits 20 (- z) EmptyString) as r. simpl.
    by rewrite Hp, Z.opp_involutive, Hb.
  - destruct (dec_digits_cons 19 z EmptyString) as (d & r & Hd & Hc).
    pose proof (parse_uint_dec_digits z ltac:(lia)) as Hp. rewrite Hc in *.
    destruct (digit_not_sign d Hd) as [Hm Hpl].
    assert (Hs : parse_int (String (digit d) r) =
      match parse_uint (String (digit d) r) with
      | Some n => if (min_int64 <=? n) && (n <=? max_int64) then Some n else None
      | None => None
      end) by (unfold parse_int; destruct (digit d) as [[] [] [] [] [] [] [] []]; done).
    by rewrite Hs, Hp, Hb.
Qed.

(** ** [encoding/hex] *)

Definition hex_digit (v : Z) : ascii := if v <? 10 then chr (48 + v) else chr (87 + v).

(** [hex.EncodeToString]: two lowercase digits per byte. *)
Fixpoint hex_encode (s : string) : string :=
  match s with
  | EmptyString => EmptyString
  | String c r => String (hex_digit (code c / 16)) (String (hex_digit (code c mod 16)) (hex_encode r))
  end.

Lemma hex_digit_inj u v :
  0 <= u < 16 -> 0 <= v < 16 -> hex_digit u = hex_digit v -> u = v.
Proof.
  intros Hu Hv. unfold hex_digit.
  destruct (u <? 10) eqn:Eu, (v <? 10) eqn:Ev; intros H; apply (f_equal code) in H;
    rewrite !code_chr in H by lia; lia.
Qed.

Lemma hex_encode_inj s t : hex_encode s = hex_encode t -> s = t.
Proof.
  revert t. induction s as [|c s IH]; intros [|d t] H; simpl in H; try done.
  injection H as H1 H2 H3. f_equal; [|by apply IH].
  apply code_inj. pose proof (code_range c). pose proof (code_range d).
  apply hex_digit_inj in H1; [|split; [apply Z.div_pos|apply Z.div_lt_upper_bound]; lia..].
  apply hex_digit_inj in H2; [|apply Z.mod_pos_bound; lia..].
  rewrite (Z.div_mod (code c) 16), (Z.div_mod (code d) 16) by lia. lia.
Qed.

(** The value of a hexadecimal digit of either case. *)
Definition hex_value (c : ascii) : option Z :=
  let z := code c in
  if (48 <=? z) && (z <=? 57) then Some (z - 48)
  else if (97 <=? z) && (z <=? 102) then Some (z - 87)
  else if (65 <=? z) && (z <=? 70) then Some (z - 55)
  else None.

(** ** [encoding/base64] *)

(** The standard alphabet, and its URL-safe variant. *)
Definition b64_char (url : bool) (v : Z) : ascii :=
  if v <? 26 then chr (65 + v)
  else if v <? 52 then chr (71 + v)
  else if v <? 62 then chr (v - 4)
  else if v =? 62 then (if url then "-" else "+")%char
  else (if url then "_" else "/")%char.

Definition b64_value (c : ascii) : option Z :=
  let z := code c in
  if (65 <=? z) && (z <=? 90) then Some (z - 65)
  else if (97 <=? z) && (z <=? 122) then Some (z - 71)
  else if (48 <=? z) && (z <=? 57) then Some (z + 4)
  else if z =? 43 then Some 62
  else if z =? 47 then Some 63
  else None.

(** [pad] distinguishes [StdEncoding] from the [Raw] encodings. *)
Fixpoint b64_encode (url pad : bool) (s : string) : string :=
  let ch v := b64_char url v in
  let fill p := if pad then p else EmptyString in
  match s with
  | EmptyString => EmptyString
  | String a EmptyString =>
      String (ch (code a / 4)) (String (ch (code a mod 4 * 16)) (fill "=="%string))
  | String a (String b EmptyString) =>
      String (ch (code a / 4)) (String (ch (code a mod 4 * 16 + code b / 16))
        (String (ch (code b mod 16 * 4)) (fill "="%string)))
  | String a (String b (String c r)) =>
      String (ch (code a / 4)) (String (ch (code a mod 4 * 16 + code b / 16))
        (String (ch (code b mod 16 * 4 + code c / 64)) (String (ch (code c mod 64))
          (b64_encode url pad r))))
  end.

Definition b64_std_encode : string -> string := b64_encode false true.
Definition b64_rawurl_encode : string -> string := b64_encode true false.

(** The decoder skips carriage returns and line feeds, reads quantums of four
    characters and accepts padding only at the very end. *)
Fixpoint strip_newlines (s : string) : string :=
  match s with
  | EmptyString => EmptyString
  | String c r =>
      if (code c =? 10) || (code c =? 13) then strip_newlines r else String c (strip_newlines r)
  end.

Fixpoint b64_quantums (s : string) : option string :=
  match s with
  | EmptyString => Some EmptyString
  | String c1 (String c2 (String c3 (String c4 r))) =>
      if Ascii.eqb c4 "="%char then
        match r, b64_value c1, b64_value c2 with
        | EmptyString, Some v1, Some v2 =>
            let b1 := chr (v1 * 4 + v2 / 16) in
            if Ascii.eqb c3 "="%char then Some (String b1 EmptyString)
            else match b64_value c3 with
                 | Some v3 => Some (String b1 (String (chr (v2 mod 16 * 16 + v3 / 4)) EmptyString))
                 | None => None
                 end
        | _, _, _ => None
        end
      else
        match b64_value c1, b64_value c2, b64_value c3, b64_value c4, b64_quantums r with
        | Some v1, Some v2, Some v3, Some v4, Some d =>
            Some (String (chr (v1 * 4 + v2 / 16)) (String (chr (v2 mod 16 * 16 + v3 / 4))
              (String (chr (v3 mod 4 * 64 + v4)) d)))
        | _, _, _, _, _ => None
        end
  | _ => None
  end.

Definition b64_std_decode (s : string) : option string := b64_quantums (strip_newlines s).

(** The unpadded URL-safe decoder: the bits that complete no byte are dropped. *)
Definition b64_url_value (c : ascii) : option Z :=
  if Ascii.eqb c "-" then Some 62 else if Ascii.eqb c "_" then Some 63
  else if Ascii.eqb c "+" || Ascii.eqb c "/" then None else b64_value c.

Fixpoint b64_url_quantums (s : string) : option string :=
  match s with
  | EmptyString => Some EmptyString
  | String c1 (String c2 EmptyString) =>
      v1 ← b64_url_value c1; v2 ← b64_url_value c2; Some (String (chr (v1 * 4 + v2 / 16)) EmptyString)
  | String c1 (String c2 (String c3 EmptyString)) =>
      v1 ← b64_url_value c1; v2 ← b64_url_value c2; v3 ← b64_url_value c3;
      Some (String (chr (v1 * 4 + v2 / 16)) (String (chr (v2 mod 16 * 16 + v3 / 4)) EmptyString))
  | String c1 (String c2 (String c3 (String c4 r))) =>
      v1 ← b64_url_value c1; v2 ← b64_url_value c2; v3 ← b64_url_value c3; v4 ← b64_url_value c4;
      d ← b64_url_quantums r;
      Some (String (chr (v1 * 4 + v2 / 16)) (String (chr (v2 mod 16 * 16 + v3 / 4))
        (String (chr (v3 mod 4 * 64 + v4)) d)))
  | _ => None
  end.

Definition b64_rawurl_decode (s : string) : option string := b64_url_quantums (strip_newlines s).

Lemma b64_char_ok v : 0 <= v < 64 ->
  b64_value (b64_char false v) = Some v /\ b64_char false v <> "="%char /\
  (code (b64_char false v) =? 10) || (code (b64_char false v) =? 13) = false.
Proof.
  intros Hv.
  assert (Hall : forallb (fun n => let c := b64_char false (Z.of_nat n) in
    match b64_value c with Some w => w =? Z.of_nat n | None => false end
    && negb (Ascii.eqb c "="%char) && negb ((code c =? 10) || (code c =? 13)))
    (seq 0 64) = true) by (vm_compute; reflexivity).
  rewrite forallb_forall in Hall. specialize (Hall (Z.to_nat v)).
  rewrite in_seq, Z2Nat.id in Hall by lia. specialize (Hall ltac:(lia)). cbv zeta in Hall.
  rewrite !andb_true_iff, !negb_true_iff in Hall. destruct Hall as [[H1 H2] H3].
  split; [|split; [|done]].
  - destruct (b64_value _); [|done]. f_equal. lia.
  - intros Heq. rewrite Heq in H2. done.
Qed.

(** The six-bit groups of a byte triple, and back. *)
Lemma b64_group1 a b : 0 <= a < 256 -> 0 <= b < 256 ->
  a / 4 * 4 + (a mod 4 * 16 + b / 16) / 16 = a.
Proof.
  intros Ha Hb. rewrite Z.div_add_l by lia.
  rewrite (Z.div_small (b / 16) 16).
  - pose proof (Z.div_mod a 4 ltac:(lia)). lia.
  - split; [apply Z.div_pos; lia|apply Z.div_lt_upper_bound; lia].
Qed.

Lemma b64_group2 a b c : 0 <= b < 256 -> 0 <= c < 256 ->
  (a * 16 + b / 16) mod 16 * 16 + (b mod 16 * 4 + c / 64) / 4 = b.
Proof.
  intros Hb Hc. rewrite (Z.add_comm (a * 16)), Z.mod_add by lia.
  rewrite Z.div_add_l by lia. rewrite (Z.mod_small (b / 16) 16).
  - rewrite (Z.div_small (c / 64) 4).
    + pose proof (Z.div_mod b 16 ltac:(lia)). lia.
    + split; [apply Z.div_pos; lia|apply Z.div_lt_upper_bound; lia].
  - split; [apply Z.div_pos; lia|apply Z.div_lt_upper_bound; lia].
Qed.

Lemma b64_group3 b c : 0 <= c < 256 -> (b * 4 + c / 64) mod 4 * 64 + c mod 64 = c.
Proof.
  intros Hc. rewrite (Z.add_comm (b * 4)), Z.mod_add by lia.
  rewrite (Z.mod_small (c / 64) 4).
  - pose proof (Z.div_mod c 64 ltac:(lia)). lia.
  - split; [apply Z.div_pos; lia|apply Z.div_lt_upper_bound; lia].
Qed.

Lemma b64_group_bounds a b c : 0 <= a < 256 -> 0 <= b < 256 -> 0 <= c < 256 ->
  0 <= a / 4 < 64 /\ 0 <= a mod 4 * 16 + b / 16 < 64 /\
  0 <= b mod 16 * 4 + c / 64 < 64 /\ 0 <= c mod 64 < 64.
Proof.
  intros Ha Hb Hc.
  pose proof (Z.mod_pos_bound a 4). pose proof (Z.mod_pos_bound b 16).
  pose proof (Z.mod_pos_bound c 64).
  pose proof (Z.div_mod a 4). pose proof (Z.div_mod b 16). pose proof (Z.div_mod c 64).
  lia.
Qed.

(** Induction on a byte sequence three bytes at a time. *)
Lemma string_ind3 (P : string -> Prop) :
  P EmptyString -> (forall a, P (String a EmptyString)) ->
  (forall a b, P (String a (String b EmptyString))) ->
  (forall a b c r, P r -> P (String a (String b (String c r)))) ->
  forall s, P s.
Proof.
  intros H0 H1 H2 H3. fix IH 1. intros [|a [|b [|c r]]].
  - exact H0.
  - apply H1.
  - apply H2.
  - apply H3, IH.
Qed.

Ltac b64_char_facts v Hb :=
  let H1 := fresh "Hv" in let H2 := fresh "Hne" in let H3 := fresh "Hnl" in
  destruct (b64_char_ok v Hb) as (H1 & H2 & H3);
  rewrite ?H1, ?H3; apply Ascii.eqb_neq in H2; rewrite ?H2.

(** [DecodeString] inverts [EncodeToString] on every byte sequence. *)
Lemma b64_decode_encode s : b64_std_decode (b64_std_encode s) = Some s.
Proof.
  unfold b64_std_decode, b64_std_encode.
  induction s as [|a|a b|a b c r IH] using string_ind3.
  - done.
  - destruct (b64_group_bounds (code a) 0 0) as (H1 & H2 & _ & _);
      [apply code_range|lia|lia|]. rewrite Z.div_0_l, Z.add_0_r in H2 by lia.
    simpl. b64_char_facts (code a / 4) H1. b64_char_facts (code a mod 4 * 16) H2.
    simpl. rewrite Hv, Hv0. do 2 f_equal.
    pose proof (b64_group1 (code a) 0 (code_range a) ltac:(lia)) as He.
    rewrite Z.div_0_l, Z.add_0_r in He by lia. by rewrite He, chr_code.
  - destruct (b64_group_bounds (code a) (code b) 0) as (H1 & H2 & H3 & _);
      [apply code_range|apply code_range|lia|]. rewrite Z.div_0_l, Z.add_0_r in H3 by lia.
    simpl. b64_char_facts (code a / 4) H1. b64_char_facts (code a mod 4 * 16 + code b / 16) H2.
    b64_char_facts (code b mod 16 * 4) H3. simpl. rewrite Hv, Hv0, Hne1, Hv1.
    pose proof (b64_group2 (code a mod 4) (code b) 0 (code_range b) ltac:(lia)) as He.
    rewrite Z.div_0_l, Z.add_0_r in He by lia.
    rewrite b64_group1 by apply code_range. by rewrite He, !chr_code.
  - destruct (b64_group_bounds (code a) (code b) (code c)) as (H1 & H2 & H3 & H4);
      [apply code_range..|].
    simpl. b64_char_facts (code a / 4) H1. b64_char_facts (code a mod 4 * 16 + code b / 16) H2.
    b64_char_facts (code b mod 16 * 4 + code c / 64) H3. b64_char_facts (code c mod 64) H4.
    simpl. rewrite Hne2, Hv, Hv0, Hv1, Hv2, IH.
    rewrite b64_group1, b64_group2, b64_group3 by apply code_range. by rewrite !chr_code.
Qed.

(** ** [strings] *)

(** [strings.HasPrefix(s, p)]. *)
Definition has_prefix (s p : string) : bool := String.prefix p s.

(** The whitespace [strings.TrimSpace] removes, over ASCII. *)
Definition is_space (c : ascii) : bool :=
  let z := code c in (z =? 32) || ((9 <=? z) && (z <=? 13)).

Fixpoint trim_left (s : string) : string :=
  match s with
  | EmptyString => EmptyString
  | String c r => if is_space c then trim_left r else s
  end.

Fixpoint trim_right (s : string) : string :=
  match s with
  | EmptyString => EmptyString
  | String c r =>
      match trim_right r with
      | EmptyString => if is_space c then EmptyString else String c EmptyString
      | r' => String c r'
      end
  end.

Definition trim_space (s : string) : string := trim_right (trim_left s).

(** [strings.SplitN(s, sep, 2)] for a one-character separator: the pieces
    before and after the first occurrence, or the whole string. *)
Fixpoint split2 (sep : ascii) (s : string) : string * option string :=
  match s with
  | EmptyString => (EmptyString, None)
  | String c r =>
      if Ascii.eqb c sep then (EmptyString, Some r)
      else let (h, t) := split2 sep r in (String c h, t)
  end.

(** [strings.Join(parts, sep)]. *)
Fixpoint join (sep : string) (parts : list string) : string :=
  match parts with
  | [] => EmptyString
  | [p] => p
  | p :: ps => (p ++ sep ++ join sep ps)%string
  end.

Fixpoint has_char (c : ascii) (s : string) : bool :=
  match s with
  | EmptyString => false
  | String d r => Ascii.eqb d c || has_char c r
  end.

Lemma split2_app sep s t :
  has_char sep s = false -> split2 sep (s ++ String sep t) = (s, Some t).
Proof.
  induction s as [|d s IH]; simpl.
  - intros _. by rewrite Ascii.eqb_refl.
  - intros [Hd Hs]%orb_false_iff. by rewrite Hd, IH.
Qed.

Lemma has_char_app c s t : has_char c (s ++ t) = has_char c s || has_char c t.
Proof. induction s as [|d s IH]; simpl; [done|]. by rewrite IH, orb_assoc. Qed.

(** [strings.Split(s, sep)] for a one-character separator. *)
Fixpoint split_all (sep : ascii) (s : string) : list string :=
  match s with
  | EmptyString => [EmptyString]
  | String c r =>
      if Ascii.eqb c sep then EmptyString :: split_all sep r
      else match split_all sep r with [] => [] | h :: t => String c h :: t end
  end.

Lemma split_all_app sep s t :
  has_char sep s = false -> split_all sep (s ++ String sep t) = s :: split_all sep t.
Proof.
  induction s as [|c s IH]; simpl; [by rewrite Ascii.eqb_refl|].
  intros [Hc Hs]%orb_false_iff. by rewrite Hc, IH.
Qed.

Lemma split_all_one sep s : has_char sep s = false -> split_all sep s = [s].
Proof.
  induction s as [|c s IH]; simpl; [done|]. intros [Hc Hs]%orb_false_iff. by rewrite Hc, IH.
Qed.

(** Two strings that agree up to the first separator agree on both sides. *)
Lemma app_sep_inj sep s1 s2 t1 t2 :
  has_char sep s1 = false -> has_char sep s2 = false ->
  (s1 ++ String sep t1 = s2 ++ String sep t2)%string -> s1 = s2 /\ t1 = t2.
Proof.
  intros H1 H2 H. apply (f_equal (split2 sep)) in H.
  rewrite !split2_app in H by done. by simplify_eq.
Qed.

(** A character that is neither a digit nor the sign is in no number. *)
Lemma digit_other c d : digit_value c = None -> 0 <= d < 10 -> Ascii.eqb (digit d) c = false.
Proof. intros Hc Hd. apply Ascii.eqb_neq. intros <-. by rewrite digit_value_digit in Hc. Qed.

Lemma dec_digits_other c fuel n acc : digit_value c = None ->
  has_char c (dec_digits fuel n acc) = has_char c acc.
Proof.
  intros Hc. revert n acc. induction fuel as [|fuel IH]; intros n acc; simpl; [done|].
  pose proof (Z.mod_pos_bound n 10 ltac:(lia)) as Hm.
  destruct (n <? 10); [|rewrite IH]; simpl; by rewrite digit_other.
Qed.

Lemma format_int_other c z : digit_value c = None -> c <> "-"%char -> has_char c (format_int z) = false.
Proof.
  intros Hc Hs. unfold format_int. destruct (z <? 0); [|by rewrite dec_digits_other].
  change (Ascii.eqb "-" c || has_char c (dec_digits 20 (- z) EmptyString) = false).
  rewrite dec_digits_other by done. apply orb_false_iff. split; [|done]. apply Ascii.eqb_neq. by intros <-.
Qed.

Lemma format_int_no_colon z : has_char ":" (format_int z) = false.
Proof. by apply format_int_other. Qed.

(** ** Byte order of strings *)

Lemma ascii_compare_eq a b : Ascii.compare a b = Eq <-> a = b.
Proof.
  unfold Ascii.compare. rewrite N.compare_eq_iff. split; [|by intros ->].
  intros H. by rewrite <- (ascii_N_embedding a), <- (ascii_N_embedding b), H.
Qed.

Lemma string_compare_lt_trans a b c :
  String.compare a b = Lt -> String.compare b c = Lt -> String.compare a c = Lt.
Proof.
  revert b c. induction a as [|x a IH]; intros [|y b] [|z c]; simpl; try done.
  destruct (Ascii.compare x y) eqn:Hxy; destruct (Ascii.compare y z) eqn:Hyz; try done.
  - apply ascii_compare_eq in Hxy as ->. rewrite Hyz. by apply IH.
  - apply ascii_compare_eq in Hxy as ->. by rewrite Hyz.
  - apply ascii_compare_eq in Hyz as <-. by rewrite Hxy.
  - assert (Ascii.compare x z = Lt) as ->; [|done].
    unfold Ascii.compare in *. rewrite N.compare_lt_iff in *. lia.
Qed.

Lemma string_compare_refl a : String.compare a a = Eq.
Proof.
  induction a as [|x a IH]; simpl; [done|]. by rewrite (proj2 (ascii_compare_eq x x) eq_refl).
Qed.

(** The order SQLite's default collation and Go's [<] use. *)
Definition string_lt (a b : string) : Prop := String.compare a b = Lt.

Lemma string_lt_irrefl a : ~ string_lt a a.
Proof. unfold string_lt. by rewrite string_compare_refl. Qed.
Lemma string_lt_trans a b c : string_lt a b -> string_lt b c -> string_lt a c.
Proof. apply string_compare_lt_trans. Qed.

Lemma string_leb_lt a b : String.leb a b = true <-> string_lt a b \/ a = b.
Proof.
  unfold String.leb, string_lt. destruct (String.compare a b) eqn:Hc; split; intros H; try done.
  - right. by apply String.compare_eq_iff.
  - by left.
  - destruct H as [H|H]; [done|subst b]. by rewrite string_compare_refl in Hc.
Qed.

Lemma string_leb_total a b : String.leb a b = true \/ String.leb b a = true.
Proof. unfold String.leb. rewrite (String.compare_antisym b a). destruct (String.compare a b); simpl; auto. Qed.

Lemma string_leb_trans a b c : String.leb a b = true -> String.leb b c = true -> String.leb a c = true.
Proof.
  rewrite !string_leb_lt. intros [H1|Heq1] [H2|Heq2]; subst; eauto using string_lt_trans.
Qed.

Lemma string_length_app s t :
  String.length (s ++ t) = (String.length s + String.length t)%nat.
Proof. induction s as [|a s IH]; simpl; [done|]. by rewrite IH. Qed.

Lemma string_app_cons c s t : (String c s ++ t = String c (s ++ t))%string.
Proof. done. Qed.

Lemma append_nil (b : string) : (EmptyString ++ b = b)%string.
Proof. done. Qed.

Lemma string_app_nil s : (s ++ EmptyString = s)%string.
Proof. induction s as [|c s IH]; [done|]. by rewrite string_app_cons, IH. Qed.

Lemma string_app_assoc (a b c : string) : ((a ++ b) ++ c = a ++ (b ++ c))%string.
Proof. induction a as [|x a IH]; [done|]. by rewrite !string_app_cons, IH. Qed.

(** [strings.TrimRight(s, "/")] *)
Fixpoint trim_slashes (s : string) : string :=
  match s with
  | EmptyString => EmptyString
  | String c r =>
      match trim_slashes r with
      | EmptyString => if Ascii.eqb c "/" then EmptyString else String c EmptyString
      | r' => String c r'
      end
  end.

(** ** [unicode/utf8] *)

(** A continuation byte of UTF-8 within bounds. *)
Definition cont (lo hi : Z) (c : ascii) : bool := (lo <=? code c) && (code c <=? hi).

(** unicode/utf8: the well-formed sequences of two, three and four bytes. *)
Definition rune2 (a b : ascii) : bool := cont 194 223 a && cont 128 191 b.
Definition rune3 (a b d : ascii) : bool :=
  ((cont 224 224 a && cont 160 191 b) || (cont 225 236 a && cont 128 191 b) ||
   (cont 237 237 a && cont 128 159 b) || (cont 238 239 a && cont 128 191 b)) && cont 128 191 d.
Definition rune4 (a b d e : ascii) : bool :=
  ((cont 240 240 a && cont 144 191 b) || (cont 241 243 a && cont 128 191 b) ||
   (cont 244 244 a && cont 128 143 b)) && cont 128 191 d && cont 128 191 e.
