(* ===== verification/Dates.v ===== *)
(** * Package time: the calendar, formats and durations the pages print

    The proleptic Gregorian calendar in UTC: a day is its number since
    1970-01-01, an instant its seconds since that midnight.  [civil] and
    [days_of] count in 400-year eras that start on 1 March. *)

From S2P Require Import Prelude GoLib.
From Stdlib Require Import Ascii.

(** ** Days and dates *)

Record date := MkDate { dt_year : Z; dt_month : Z; dt_day : Z }.

Definition is_leap (y : Z) : bool := (y mod 4 =? 0) && (negb (y mod 100 =? 0) || (y mod 400 =? 0)).

Definition days_in (m y : Z) : Z :=
  if m =? 2 then if is_leap y then 29 else 28
  else if (m =? 4) || (m =? 6) || (m =? 9) || (m =? 11) then 30 else 31.

Definition valid_date (d : date) : bool :=
  (1 <=? dt_month d) && (dt_month d <=? 12) && (1 <=? dt_day d) && (dt_day d <=? days_in (dt_month d) (dt_year d)).

(** Year and day of the year (from 1 March) of a day of an era. *)
Definition era_year (n : Z) : Z := (n - n / 1460 + n / 36524 - n / 146096) / 365.
Definition year_start (y : Z) : Z := 365 * y + y / 4 - y / 100.
Definition month_start (mp : Z) : Z := (153 * mp + 2) / 5.

Definition civil (days : Z) : date :=
  let z := days + 719468 in
  let era := z / 146097 in
  let n := z mod 146097 in
  let y := era_year n in
  let doy := n - year_start y in
  let mp := (5 * doy + 2) / 153 in
  let m := if mp <? 10 then mp + 3 else mp - 9 in
  MkDate (y + era * 400 + (if m <=? 2 then 1 else 0)) m (doy - month_start mp + 1).

Definition days_of (d : date) : Z :=
  let y := dt_year d - (if dt_month d <=? 2 then 1 else 0) in
  let mp := if dt_month d <=? 2 then dt_month d + 9 else dt_month d - 3 in
  y / 400 * 146097 + year_start (y mod 400) + month_start mp + (dt_day d - 1) - 719468.

Lemma era_year_bounds n : 0 <= n < 146097 -> 0 <= era_year n <= 399.
Proof. unfold era_year. intros H. Z.to_euclidean_division_equations. lia. Qed.

(** A year from 1 March has a 366th day when it ends in a leap February. *)
Lemma era_day_bounds n : 0 <= n < 146097 -> 0 <= n - year_start (era_year n) <= 365.
Proof.
  unfold year_start. intros H. pose proof (era_year_bounds n H) as Hy. unfold era_year in *.
  Z.to_euclidean_division_equations. lia.
Qed.

Lemma era_leap_day n : 0 <= n < 146097 -> n - year_start (era_year n) = 365 -> is_leap (era_year n + 1) = true.
Proof.
  unfold year_start, is_leap. intros H Hd. pose proof (era_year_bounds n H) as Hy. unfold era_year in *.
  apply andb_true_iff. rewrite orb_true_iff, negb_true_iff, Z.eqb_neq, !Z.eqb_eq.
  Z.to_euclidean_division_equations. lia.
Qed.

Lemma is_leap_era y k : is_leap (y + k * 400) = is_leap y.
Proof.
  unfold is_leap. replace (y + k * 400) with (y + (k * 100) * 4) at 1 by lia. rewrite Z.mod_add by done.
  replace (y + k * 400) with (y + (k * 4) * 100) at 1 by lia. rewrite Z.mod_add by done.
  by rewrite Z.mod_add.
Qed.

Lemma civil_valid days : valid_date (civil days) = true.
Proof.
  unfold civil. cbv zeta. set (n := (days + 719468) mod 146097). set (e := (days + 719468) / 146097).
  assert (Hn : 0 <= n < 146097) by (apply Z.mod_pos_bound; lia).
  pose proof (era_day_bounds n Hn) as Hd. pose proof (era_leap_day n Hn) as Hl.
  set (y := era_year n) in *. set (doy := n - year_start y) in *. clearbody n e y doy.
  unfold valid_date, days_in, month_start. simpl dt_year. simpl dt_month. simpl dt_day.
  set (mp := (5 * doy + 2) / 153). assert (Hmp : 153 * mp <= 5 * doy + 2 < 153 * mp + 153 /\ 0 <= mp <= 11).
  { unfold mp. Z.to_euclidean_division_equations. lia. }
  clearbody mp. assert (Hc : mp = 0 \/ mp = 1 \/ mp = 2 \/ mp = 3 \/ mp = 4 \/ mp = 5 \/ mp = 6 \/ mp = 7 \/ mp = 8 \/
    mp = 9 \/ mp = 10 \/ mp = 11) by lia.
  repeat (destruct Hc as [->|Hc]); [..|subst mp];
    match goal with |- context [(153 * ?k + 2) / 5] => let v := eval vm_compute in ((153 * k + 2) / 5) in
      change ((153 * k + 2) / 5) with v end; simpl; try lia.
  replace (y + e * 400 + 1) with (y + 1 + e * 400) by lia. rewrite is_leap_era.
  destruct (Z.eq_dec doy 365) as [He|]; [by rewrite Hl by done; rewrite He|destruct (is_leap _); lia].
Qed.

Lemma month_start_inv m : 1 <= m <= 12 ->
  let mp := if m <=? 2 then m + 9 else m - 3 in
  0 <= mp <= 11 /\ (if mp <? 10 then mp + 3 else mp - 9) = m.
Proof. intros H. cbv zeta. 
  destruct (Z.leb_spec m 2); [destruct (Z.ltb_spec (m + 9) 10)|destruct (Z.ltb_spec (m - 3) 10)]; lia.
Qed.

Lemma days_of_civil days : days_of (civil days) = days.
Proof.
  unfold civil, days_of. cbv zeta. set (n := (days + 719468) mod 146097). set (e := (days + 719468) / 146097).
  assert (Hn : 0 <= n < 146097) by (apply Z.mod_pos_bound; lia).
  assert (He : days = e * 146097 + n - 719468).
  { unfold e, n. pose proof (Z.div_mod (days + 719468) 146097). lia. }
  pose proof (era_year_bounds n Hn) as Hy. pose proof (era_day_bounds n Hn) as Hd.
  set (y := era_year n) in *. set (doy := n - year_start y) in *.
  assert (Hmp : 0 <= (5 * doy + 2) / 153 <= 11) by (Z.to_euclidean_division_equations; lia).
  set (mp := (5 * doy + 2) / 153) in *. simpl dt_year. simpl dt_month. simpl dt_day.
  assert (Hm : (if (if mp <? 10 then mp + 3 else mp - 9) <=? 2 then (if mp <? 10 then mp + 3 else mp - 9) + 9
                else (if mp <? 10 then mp + 3 else mp - 9) - 3) = mp).
  { destruct (Z.ltb_spec mp 10); [destruct (Z.leb_spec (mp + 3) 2)|destruct (Z.leb_spec (mp - 9) 2)]; lia. }
  rewrite Hm. replace (y + e * 400 + (if (if mp <? 10 then mp + 3 else mp - 9) <=? 2 then 1 else 0) -
    (if (if mp <? 10 then mp + 3 else mp - 9) <=? 2 then 1 else 0)) with (y + e * 400) by lia.
  rewrite Z.div_add, Z.mod_add, Z.div_small, Z.mod_small by lia. unfold doy. lia.
Qed.

(** The day of a year from 1 March that a valid date falls on. *)
Lemma valid_doy d : valid_date d = true ->
  let y := dt_year d - (if dt_month d <=? 2 then 1 else 0) in
  let mp := if dt_month d <=? 2 then dt_month d + 9 else dt_month d - 3 in
  let doy := month_start mp + (dt_day d - 1) in
  (5 * doy + 2) / 153 = mp /\ 0 <= doy <= (if is_leap (y + 1) then 365 else 364).
Proof.
  destruct d as [y m d]. unfold valid_date, days_in. simpl. intros H.
  assert (Hm : 1 <= m <= 12 /\ 1 <= d) by lia.
  assert (Hc : m = 1 \/ m = 2 \/ m = 3 \/ m = 4 \/ m = 5 \/ m = 6 \/ m = 7 \/ m = 8 \/ m = 9 \/ m = 10 \/ m = 11 \/ m = 12) by lia.
  unfold month_start. repeat (destruct Hc as [->|Hc]); [..|subst m]; simpl in H |- *;
    match goal with |- context [?x / 5 + _] => let v := eval vm_compute in (x / 5) in change (x / 5) with v end;
    try replace (y - 1 + 1) with y by lia;
    repeat match goal with |- context [is_leap ?z] => destruct (is_leap z) end;
    (split; [Z.to_euclidean_division_equations|]; lia).
Qed.

Lemma civil_days_of d : valid_date d = true -> civil (days_of d) = d.
Proof.
  intros Hv. pose proof (valid_doy d Hv) as Hd. cbv zeta in Hd. unfold days_of. cbv zeta.
  assert (Hm : 1 <= dt_month d <= 12) by (unfold valid_date in Hv; lia).
  pose proof (month_start_inv _ Hm) as [Hmp Hinv]. destruct d as [y m d]. simpl in *.
  set (b := if m <=? 2 then 1 else 0) in *. set (mp := if m <=? 2 then m + 9 else m - 3) in *.
  set (doy := month_start mp + (d - 1)) in *. destruct Hd as [Hmid Hdoy].
  set (e := (y - b) / 400). set (yo := (y - b) mod 400).
  assert (Hyo : 0 <= yo < 400) by (apply Z.mod_pos_bound; lia).
  assert (Hye : y - b = yo + e * 400) by (unfold e, yo; pose proof (Z.div_mod (y - b) 400); lia).
  assert (Hleap : is_leap (y - b + 1) = is_leap (yo + 1)).
  { replace (y - b + 1) with (yo + 1 + e * 400) by lia. apply is_leap_era. }
  rewrite Hleap in Hdoy. set (n := year_start yo + doy).
  assert (Hn : 0 <= n < 146097 /\ era_year n = yo).
  { unfold n, era_year, year_start, is_leap in *. clearbody doy yo. revert Hdoy.
    destruct (((yo + 1) mod 4 =? 0) && _) eqn:Hl; intros Hdoy;
      rewrite ?andb_true_iff, ?orb_true_iff, ?negb_true_iff, ?Z.eqb_neq, ?Z.eqb_eq in Hl;
      rewrite ?andb_false_iff, ?orb_false_iff, ?negb_false_iff, ?Z.eqb_neq, ?Z.eqb_eq in Hl;
      Z.to_euclidean_division_equations; lia. }
  destruct Hn as [Hn Hey].
  unfold civil. cbv zeta.
  replace (e * 146097 + year_start yo + month_start mp + (d - 1) - 719468 + 719468) with (n + e * 146097)
    by (unfold n, doy; lia).
  rewrite Z.div_add, Z.mod_add, Z.div_small, Z.mod_small by lia. rewrite Hey.
  replace (n - year_start yo) with doy by (unfold n; lia). rewrite Hmid. fold mp in Hinv.
  assert (Hb : (if (if mp <? 10 then mp + 3 else mp - 9) <=? 2 then 1 else 0) = b) by (by rewrite Hinv).
  rewrite Hb, Hinv. f_equal; [lia|unfold doy; lia].
Qed.

(** ** Formats *)

(** [appendInt]: at least [width] digits. *)
Fixpoint zeros (n : nat) : string := match n with O => EmptyString | S n => String "0"%char (zeros n) end.
Definition pad_int (width : nat) (z : Z) : string :=
  let digits := format_int (Z.abs z) in
  let sign := if z <? 0 then "-"%string else EmptyString in
  (sign ++ zeros (width - String.length digits) ++ digits)%string.

(** [Format("2006-01-02")] of the midnight of a day. *)
Definition format_date (d : date) : string :=
  (pad_int 4 (dt_year d) ++ "-" ++ pad_int 2 (dt_month d) ++ "-" ++ pad_int 2 (dt_day d))%string.

Definition day_of (unix : Z) : Z := unix / 86400.

(** [Format("15:04:05")] *)
Definition format_clock (unix : Z) : string :=
  let s := unix mod 86400 in
  (pad_int 2 (s / 3600) ++ ":" ++ pad_int 2 (s mod 3600 / 60) ++ ":" ++ pad_int 2 (s mod 60))%string.

(** [Format(time.RFC3339)], in UTC. *)
Definition format_rfc3339 (unix : Z) : string :=
  (format_date (civil (day_of unix)) ++ "T" ++ format_clock unix ++ "Z")%string.

Definition weekdays : list string := ["Sun"; "Mon"; "Tue"; "Wed"; "Thu"; "Fri"; "Sat"]%string.
Definition months : list string :=
  ["Jan"; "Feb"; "Mar"; "Apr"; "May"; "Jun"; "Jul"; "Aug"; "Sep"; "Oct"; "Nov"; "Dec"]%string.
Definition weekday (days : Z) : string := nth (Z.to_nat ((days + 4) mod 7)) weekdays EmptyString.
Definition month_name (m : Z) : string := nth (Z.to_nat (m - 1)) months EmptyString.

(** [Format(http.TimeFormat)], in UTC. *)
Definition format_http (unix : Z) : string :=
  let d := civil (day_of unix) in
  (weekday (day_of unix) ++ ", " ++ pad_int 2 (dt_day d) ++ " " ++ month_name (dt_month d) ++ " " ++
   pad_int 4 (dt_year d) ++ " " ++ format_clock unix ++ " GMT")%string.

Definition digits2 (a b : ascii) : option Z :=
  x ← digit_value a; y ← digit_value b; Some (10 * x + y).

(** [Parse("2006-01-02", v)]: the seconds of that midnight. *)
Definition parse_date (v : string) : option Z :=
  match v with
  | String y1 (String y2 (String y3 (String y4 (String h1 (String m1 (String m2 (String h2 (String d1 (String d2 EmptyString))))))))) =>
      if Ascii.eqb h1 "-" && Ascii.eqb h2 "-" then
        yh ← digits2 y1 y2; yl ← digits2 y3 y4; m ← digits2 m1 m2; d ← digits2 d1 d2;
        let dt := MkDate (100 * yh + yl) m d in
        if valid_date dt then Some (days_of dt * 86400) else None
      else None
  | _ => None
  end.

(** ** Formats read back *)

Definition digit_pair (z : Z) : string := String (digit (z / 10)) (String (digit (z mod 10)) EmptyString).

Lemma digit_0 : digit 0 = "0"%char.
Proof. done. Qed.

Lemma pad_int_2 z : 0 <= z < 100 -> pad_int 2 z = digit_pair z.
Proof.
  intros H. unfold pad_int, digit_pair, format_int. rewrite Z.abs_eq by lia.
  rewrite (proj2 (Z.ltb_ge z 0)) by lia. rewrite dec_step. cbv zeta. destruct (Z.ltb_spec z 10).
  - rewrite Z.mod_small, Z.div_small by lia. by rewrite digit_0.
  - rewrite dec_step. cbv zeta. rewrite (proj2 (Z.ltb_lt _ _)) by (Z.to_euclidean_division_equations; lia).
    rewrite (Z.mod_small (z / 10)) by (Z.to_euclidean_division_equations; lia). done.
Qed.

Lemma pad_int_4 y : 0 <= y < 10000 -> pad_int 4 y = (digit_pair (y / 100) ++ digit_pair (y mod 100))%string.
Proof.
  intros H. unfold pad_int, digit_pair, format_int. rewrite Z.abs_eq by lia.
  rewrite (proj2 (Z.ltb_ge y 0)) by lia.
  assert (H1 : y mod 100 / 10 = y / 10 mod 10 /\ y mod 100 mod 10 = y mod 10 /\ y / 100 = y / 10 / 10)
    by (Z.to_euclidean_division_equations; lia).
  destruct H1 as (-> & -> & ->). rewrite dec_step. cbv zeta. destruct (Z.ltb_spec y 10).
  { rewrite !(Z.div_small y 10) by lia. done. }
  rewrite dec_step. cbv zeta. destruct (Z.ltb_spec (y / 10) 10).
  { rewrite !(Z.div_small (y / 10) 10) by (Z.to_euclidean_division_equations; lia). done. }
  rewrite dec_step. cbv zeta. destruct (Z.ltb_spec (y / 10 / 10) 10).
  { rewrite !(Z.div_small (y / 10 / 10) 10) by (Z.to_euclidean_division_equations; lia). done. }
  rewrite dec_step. cbv zeta. rewrite (proj2 (Z.ltb_lt _ _)) by (Z.to_euclidean_division_equations; lia).
  by rewrite (Z.mod_small (y / 10 / 10 / 10)) by (Z.to_euclidean_division_equations; lia).
Qed.

Lemma digits2_pair z : 0 <= z < 100 -> digits2 (digit (z / 10)) (digit (z mod 10)) = Some z.
Proof.
  intros H. unfold digits2. rewrite !digit_value_digit by (Z.to_euclidean_division_equations; lia). simpl.
  f_equal. pose proof (Z.div_mod z 10). lia.
Qed.

Lemma digits2_inv a b z : digits2 a b = Some z -> 0 <= z < 100 /\ digit_pair z = String a (String b EmptyString).
Proof.
  assert (Hd : forall c x, digit_value c = Some x -> 0 <= x < 10 /\ digit x = c).
  { intros c x. unfold digit_value. destruct (_ && _) eqn:Hc; [|done]. intros [= <-]. split; [lia|].
    unfold digit. replace (48 + (code c - 48)) with (code c) by lia. apply chr_code. }
  unfold digits2. destruct (digit_value a) as [x|] eqn:Ha; [|done]. destruct (digit_value b) as [y|] eqn:Hb; [|done].
  apply Hd in Ha as [Hx <-], Hb as [Hy <-]. simpl. intros [= <-]. split; [lia|]. unfold digit_pair.
  rewrite (Z.mul_comm 10), Z.div_add_l, Z.div_small, Z.add_0_r by lia.
  by rewrite Z.add_comm, Z.mod_add, Z.mod_small by lia.
Qed.

Lemma valid_date_bounds d : valid_date d = true -> 1 <= dt_month d <= 12 /\ 1 <= dt_day d <= 31.
Proof. unfold valid_date, days_in. destruct (is_leap _); repeat case_match; lia. Qed.

Lemma format_date_pairs d : valid_date d = true -> 0 <= dt_year d < 10000 ->
  format_date d = (digit_pair (dt_year d / 100) ++ digit_pair (dt_year d mod 100) ++ "-" ++
                   digit_pair (dt_month d) ++ "-" ++ digit_pair (dt_day d))%string.
Proof.
  intros Hv Hy. pose proof (valid_date_bounds d Hv). unfold format_date. by rewrite pad_int_4, !pad_int_2 by lia.
Qed.

Lemma parse_format_date d : valid_date d = true -> 0 <= dt_year d < 10000 ->
  parse_date (format_date d) = Some (days_of d * 86400).
Proof.
  intros Hv Hy. rewrite format_date_pairs by done. unfold digit_pair. pose proof (valid_date_bounds d Hv).
  simpl. rewrite !digits2_pair by (Z.to_euclidean_division_equations; lia). simpl.
  assert (Hd : MkDate (100 * (dt_year d / 100) + dt_year d mod 100) (dt_month d) (dt_day d) = d).
  { rewrite <- Z.div_mod by done. by destruct d. }
  by rewrite Hd, Hv.
Qed.

Lemma parse_date_inv v s : parse_date v = Some s ->
  exists d, valid_date d = true /\ 0 <= dt_year d < 10000 /\ s = days_of d * 86400 /\ v = format_date d.
Proof.
  unfold parse_date. do 10 (destruct v as [|? v]; [done|]). destruct v; [|done].
  destruct (_ && _) eqn:Hh; [|done]. apply andb_true_iff in Hh as [->%Ascii.eqb_eq ->%Ascii.eqb_eq].
  destruct (digits2 a a0) as [yh|] eqn:H1; [|done]. destruct (digits2 a1 a2) as [yl|] eqn:H2; [|done].
  destruct (digits2 a4 a5) as [m|] eqn:H3; [|done]. destruct (digits2 a7 a8) as [d|] eqn:H4; [|done]. simpl.
  destruct (valid_date _) eqn:Hv; [|done]. intros [= <-].
  apply digits2_inv in H1 as [B1 E1], H2 as [B2 E2], H3 as [B3 E3], H4 as [B4 E4].
  exists (MkDate (100 * yh + yl) m d). split_and!; simpl; try done; [lia..|].
  rewrite format_date_pairs by (simpl; done || lia). simpl dt_year. simpl dt_month. simpl dt_day.
  rewrite (Z.mul_comm 100), Z.div_add_l, Z.div_small, Z.add_0_r by lia.
  rewrite (Z.add_comm (yh * 100)), Z.mod_add, Z.mod_small by lia. by rewrite E1, E2, E3, E4.
Qed.

(** An instant is within the day a text names when its date has that text. *)
Lemma parse_date_day v s t : parse_date v = Some s ->
  s <= t <= s + 86399 <-> format_date (civil (day_of t)) = v /\ 0 <= dt_year (civil (day_of t)) < 10000.
Proof.
  intros (d & Hv & Hy & -> & ->)%parse_date_inv. unfold day_of. split.
  - intros Ht. assert (Hd : t / 86400 = days_of d) by (Z.to_euclidean_division_equations; lia).
    rewrite Hd, civil_days_of by done. done.
  - intros [Hf Hy']. pose proof (civil_valid (t / 86400)) as Hv'.
    apply (f_equal parse_date) in Hf. rewrite !parse_format_date in Hf by done. injection Hf as Hf.
    rewrite days_of_civil in Hf. assert (t / 86400 = days_of d) by lia. Z.to_euclidean_division_equations. lia.
Qed.

(** ** Durations, in nanoseconds *)

Definition second : Z := 10 ^ 9.

(** [fmtFrac]: the last [prec] digits without trailing zeros, and the rest. *)
Fixpoint fmt_frac (prec : nat) (v : Z) (acc : string) (printing : bool) : string * Z :=
  match prec with
  | O => ((if printing then String "."%char acc else acc), v)
  | S p =>
      let d := v mod 10 in
      let printing' := printing || negb (d =? 0) in
      fmt_frac p (v / 10) (if printing' then String (digit d) acc else acc) printing'
  end.

(** [Duration.String] *)
Definition duration_string (d : Z) : string :=
  let u := Z.abs d in
  let body :=
    if u =? 0 then "0s"%string
    else if u <? second then
      let '(prec, unit) := if u <? 10 ^ 3 then (0%nat, "ns"%string) else if u <? 10 ^ 6 then (3%nat, "µs"%string) else (6%nat, "ms"%string) in
      let '(frac, v) := fmt_frac prec u EmptyString false in (format_int v ++ frac ++ unit)%string
    else
      let '(frac, s) := fmt_frac 9 u EmptyString false in
      let secs := (format_int (s mod 60) ++ frac ++ "s")%string in
      let m := s / 60 in
      if m =? 0 then secs
      else
        let mins := (format_int (m mod 60) ++ "m" ++ secs)%string in
        if m / 60 =? 0 then mins else (format_int (m / 60) ++ "h" ++ mins)%string in
  if d <? 0 then String "-"%char body else body.

(** [a.Sub(b)] saturates. *)
Definition time_sub (a b : Z) : Z := Z.max min_int64 (Z.min max_int64 (a - b)).

(** [d.Truncate(m)] *)
Definition truncate (d m : Z) : Z := if m <=? 0 then d else d - Z.rem d m.

Example duration_1 : duration_string (90 * 60 * second) = "1h30m0s"%string.
Proof. reflexivity. Qed.
Example duration_2 : duration_string (1500 * 10 ^ 6) = "1.5s"%string.
Proof. reflexivity. Qed.
Example duration_3 : duration_string (- 250 * 10 ^ 3) = "-250µs"%string.
Proof. reflexivity. Qed.
