(* ===== verification/JsonText.v ===== *)
(** * encoding/json: what Marshal writes

    Strings with their escapes, objects, arrays, maps and embedded documents.
    These model the standard library, not code under src/; Json reads the texts
    back. *)

From S2P Require Import Prelude GoLib.
From Stdlib Require Import Ascii.

(** ** Runes

    [for _, r := range s]: the encoded runes of [s], [None] for a byte that
    starts none. *)

Definition str1 (a : ascii) : string := String a EmptyString.
Definition cat (l : list string) : string := foldr String.append EmptyString l.

Fixpoint runes (s : string) : list (option string) :=
  match s with
  | EmptyString => []
  | String a r =>
      if code a <=? 127 then Some (str1 a) :: runes r
      else match r with
        | String b r1 =>
            if rune2 a b then Some (String a (str1 b)) :: runes r1 else
            match r1 with
            | String d r2 =>
                if rune3 a b d then Some (String a (String b (str1 d))) :: runes r2 else
                match r2 with
                | String e r3 =>
                    if rune4 a b d e then Some (String a (String b (String d (str1 e)))) :: runes r3
                    else None :: runes r
                | EmptyString => None :: runes r
                end
            | EmptyString => None :: runes r
            end
        | EmptyString => [None]
        end
  end.

Definition replacement : string := String (chr 239) (String (chr 191) (str1 (chr 189))).

(** The text with U+FFFD for every invalid byte. *)
Definition to_valid_utf8 (s : string) : string := cat (default replacement <$> runes s).

Fixpoint all_ascii (s : string) : bool :=
  match s with EmptyString => true | String c r => (code c <=? 127) && all_ascii r end.

(** ** Marshalling a string *)

Definition dq : ascii := "034"%char.
Definition bslash : ascii := "\"%char.

Definition esc1 (c : ascii) : string := String bslash (str1 c).
Definition esc_u (h1 h2 h3 h4 : ascii) : string :=
  String bslash (String "u" (String h1 (String h2 (String h3 (str1 h4))))).

Definition line_separator (x : string) : option ascii :=
  if bool_decide (x = String (chr 226) (String (chr 128) (str1 (chr 168)))) then Some "8"%char
  else if bool_decide (x = String (chr 226) (String (chr 128) (str1 (chr 169)))) then Some "9"%char
  else None.

(** [appendString] with HTML escaping. *)
Definition escape_rune (x : option string) : string :=
  match x with
  | None => esc_u "f" "f" "f" "d"
  | Some (String c EmptyString) =>
      if Ascii.eqb c dq || Ascii.eqb c bslash then esc1 c
      else if code c =? 8 then esc1 "b" else if code c =? 12 then esc1 "f"
      else if code c =? 10 then esc1 "n" else if code c =? 13 then esc1 "r" else if code c =? 9 then esc1 "t"
      else if (code c <? 32) || Ascii.eqb c "<" || Ascii.eqb c ">" || Ascii.eqb c "&"
      then esc_u "0" "0" (hex_digit (code c / 16)) (hex_digit (code c mod 16))
      else str1 c
  | Some b => match line_separator b with Some d => esc_u "2" "0" "2" d | None => b end
  end.

Definition json_escape (s : string) : string := cat (escape_rune <$> runes s).
Definition json_quote (s : string) : string := String dq (json_escape s ++ str1 dq).

(** ** Objects, arrays and maps *)

Definition json_field (name value : string) : string := (json_quote name ++ ":" ++ value)%string.
Definition json_nullable (s : option string) : string :=
  match s with Some s => json_quote s | None => "null"%string end.
Definition json_object (fields : list string) : string := ("{" ++ join "," fields ++ "}")%string.
Definition json_list (l : list string) : string := ("[" ++ join "," l ++ "]")%string.

(** A map of strings: its keys in ascending order. *)
Definition key_le (x y : string * string) : bool := String.leb x.1 y.1.
Definition json_map (l : list (string * string)) : string :=
  json_object ((fun x => json_field x.1 (json_quote x.2)) <$> order_by key_le l).
