(* ===== verification/Json.v ===== *)
(** * encoding/json: the parser

    The parser behind [Unmarshal] and [Decoder.Decode]: a scanner that checks the
    text byte by byte, driving a stack of open arrays and objects.  Numbers keep
    their literal text.  Decoding a field of a struct, and the check of a raw
    document that Marshal embeds.  These model the standard library, not code
    under src/; JsonFacts has their lemmas. *)

From S2P Require Import Prelude GoLib JsonText.
From Stdlib Require Import Ascii.

(** ** Unquoting *)

Definition hex4 (h1 h2 h3 h4 : ascii) : Z :=
  let v c := default 0 (hex_value c) in ((v h1 * 16 + v h2) * 16 + v h3) * 16 + v h4.

(** utf8.AppendRune for a rune that is no surrogate. *)
Definition utf8_encode (u : Z) : string :=
  if u <? 128 then str1 (chr u)
  else if u <? 2048 then String (chr (192 + u / 64)) (str1 (chr (128 + u mod 64)))
  else if u <? 65536
  then String (chr (224 + u / 4096)) (String (chr (128 + u / 64 mod 64)) (str1 (chr (128 + u mod 64))))
  else String (chr (240 + u / 262144)) (String (chr (128 + u / 4096 mod 64))
         (String (chr (128 + u / 64 mod 64)) (str1 (chr (128 + u mod 64))))).

Definition surrogate (u : Z) : bool := (55296 <=? u) && (u <=? 57343).
Definition high_surrogate (u : Z) : bool := (55296 <=? u) && (u <=? 56319).
Definition low_surrogate (u : Z) : bool := (56320 <=? u) && (u <=? 57343).
Definition combine_surrogates (h l : Z) : Z := (h - 55296) * 1024 + (l - 56320) + 65536.

Definition unescape (c : ascii) : ascii :=
  if Ascii.eqb c "b" then chr 8 else if Ascii.eqb c "f" then chr 12 else if Ascii.eqb c "n" then chr 10
  else if Ascii.eqb c "r" then chr 13 else if Ascii.eqb c "t" then chr 9 else c.

(** The text between the quotes of a string the scanner has accepted. *)
Fixpoint unquote (s : string) : string :=
  match s with
  | EmptyString => EmptyString
  | String a r =>
      if Ascii.eqb a bslash then
        match r with
        | EmptyString => EmptyString
        | String e r' =>
            if Ascii.eqb e "u" then
              match r' with
              | String h1 (String h2 (String h3 (String h4 r4))) =>
                  let u := hex4 h1 h2 h3 h4 in
                  if surrogate u then
                    match r4 with
                    | String b (String c (String g1 (String g2 (String g3 (String g4 r5))))) =>
                        let l := hex4 g1 g2 g3 g4 in
                        if Ascii.eqb b bslash && Ascii.eqb c "u" && high_surrogate u && low_surrogate l
                        then utf8_encode (combine_surrogates u l) ++ unquote r5
                        else replacement ++ unquote r4
                    | _ => replacement ++ unquote r4
                    end
                  else utf8_encode u ++ unquote r4
              | _ => EmptyString
              end
            else String (unescape e) (unquote r')
        end
      else if code a <=? 127 then String a (unquote r)
      else match r with
        | String b r1 =>
            if rune2 a b then String a (String b (unquote r1)) else
            match r1 with
            | String d r2 =>
                if rune3 a b d then String a (String b (String d (unquote r2))) else
                match r2 with
                | String e r3 =>
                    if rune4 a b d e then String a (String b (String d (String e (unquote r3))))
                    else replacement ++ unquote r
                | EmptyString => replacement ++ unquote r
                end
            | EmptyString => replacement ++ unquote r
            end
        | EmptyString => replacement
        end
  end.

(** ** Values *)

#[warnings="-register-all"]
Inductive json :=
  | JNull | JBool (b : bool) | JNumber (literal : string) | JString (s : string)
  | JArray (l : list json) | JObject (l : list (string * json)).

(** ** The scanner and the parser

    The parser's state is what may come next and the stack of the containers
    that are open; a container's container holds what it has so far. *)

Inductive token := TValue (v : json) | TOpenArray | TCloseArray | TOpenObject | TCloseObject | TColon | TComma.
Inductive container := InArray (acc : list json) | InObject (acc : list (string * json)) (key : string).
Inductive expecting := Value | FirstElem | FirstKey | Key | Colon | More | Done (v : json).

Definition maxNestingDepth : Z := 10000.

Definition complete (v : json) (st : list container) : expecting * list container :=
  match st with
  | [] => (Done v, [])
  | InArray acc :: st => (More, InArray (acc ++ [v]) :: st)
  | InObject acc k :: st => (More, InObject (acc ++ [(k, v)]) k :: st)
  end.

Definition open_frame (f : container) (ph : expecting) (st : list container) : option (expecting * list container) :=
  if maxNestingDepth <? Z.of_nat (length st) + 1 then None else Some (ph, f :: st).

Definition step (t : token) (p : expecting * list container) : option (expecting * list container) :=
  let '(ph, st) := p in
  match ph, t with
  | (Value | FirstElem), TValue v => Some (complete v st)
  | (Value | FirstElem), TOpenArray => open_frame (InArray []) FirstElem st
  | (Value | FirstElem), TOpenObject => open_frame (InObject [] EmptyString) FirstKey st
  | (FirstElem | More), TCloseArray =>
      match st with InArray acc :: st' => Some (complete (JArray acc) st') | _ => None end
  | (FirstKey | More), TCloseObject =>
      match st with InObject acc _ :: st' => Some (complete (JObject acc) st') | _ => None end
  | (FirstKey | Key), TValue (JString k) =>
      match st with InObject acc _ :: st' => Some (Colon, InObject acc k :: st') | _ => None end
  | Colon, TColon => Some (Value, st)
  | More, TComma =>
      match st with
      | InArray _ :: _ => Some (Value, st) | InObject _ _ :: _ => Some (Key, st) | [] => None
      end
  | _, _ => None
  end.

Definition json_space (c : ascii) : bool :=
  let z := code c in (z =? 32) || (z =? 9) || (z =? 10) || (z =? 13).

Definition punctuation (c : ascii) : option token :=
  if Ascii.eqb c "[" then Some TOpenArray else if Ascii.eqb c "]" then Some TCloseArray
  else if Ascii.eqb c "{" then Some TOpenObject else if Ascii.eqb c "}" then Some TCloseObject
  else if Ascii.eqb c ":" then Some TColon else if Ascii.eqb c "," then Some TComma else None.

Definition is_digit (c : ascii) : bool := match digit_value c with Some _ => true | None => false end.

Fixpoint skip_digits (s : string) : string :=
  match s with String c r => if is_digit c then skip_digits r else s | EmptyString => s end.

(** One digit at least. *)
Definition digits1 (s : string) : option string :=
  match s with String c r => if is_digit c then Some (skip_digits r) else None | EmptyString => None end.

Definition exponent_ok (s : string) : bool :=
  match s with
  | EmptyString => true
  | String c r =>
      if Ascii.eqb c "e" || Ascii.eqb c "E" then
        let r := match r with
          | String d r' => if Ascii.eqb d "+" || Ascii.eqb d "-" then r' else r | EmptyString => r end in
        bool_decide (digits1 r = Some EmptyString)
      else false
  end.

Definition number_ok (s : string) : bool :=
  let s := match s with String c r => if Ascii.eqb c "-" then r else s | EmptyString => s end in
  let int := match s with String c r => if Ascii.eqb c "0" then Some r else digits1 s | EmptyString => None end in
  match int with
  | None => false
  | Some r =>
      match r with
      | String c r' =>
          if Ascii.eqb c "." then match digits1 r' with Some r'' => exponent_ok r'' | None => false end
          else exponent_ok r
      | EmptyString => true
      end
  end.

Definition number_char (c : ascii) : bool :=
  is_digit c || Ascii.eqb c "-" || Ascii.eqb c "+" || Ascii.eqb c "." || Ascii.eqb c "e" || Ascii.eqb c "E".

Definition literals : list (string * json) := [("null", JNull); ("true", JBool true); ("false", JBool false)]%string.

Definition escapable (c : ascii) : bool :=
  Ascii.eqb c "b" || Ascii.eqb c "f" || Ascii.eqb c "n" || Ascii.eqb c "r" || Ascii.eqb c "t"
  || Ascii.eqb c bslash || Ascii.eqb c "/" || Ascii.eqb c dq.

(** Between tokens, in a literal, in a number, in a string, after a backslash,
    before the remaining digits of a [\u]. *)
Inductive lexer :=
  | Between | Lit (w : string) | Num (w : string) | Str (raw : string) | Esc (raw : string) | Hex (n : nat) (raw : string).

Definition snoc (s : string) (c : ascii) : string := (s ++ str1 c)%string.

(** The parser accepts the token and the scanner is between tokens. *)
Definition accept (t : token) (p : expecting * list container) : option (lexer * (expecting * list container)) :=
  q ← step t p; Some (Between, q).

(** A literal ends with its last letter. *)
Definition extend_literal (w : string) (p : expecting * list container) : option (lexer * (expecting * list container)) :=
  match List.find (fun x => str_eq (fst x) w) literals with
  | Some (_, v) => accept (TValue v) p
  | None => if existsb (fun x => has_prefix (fst x) w) literals then Some (Lit w, p) else None
  end.

Definition end_number (w : string) (p : expecting * list container) : option (expecting * list container) :=
  if number_ok w then step (TValue (JNumber w)) p else None.

Definition start_token (c : ascii) (p : expecting * list container) : option (lexer * (expecting * list container)) :=
  if json_space c then Some (Between, p)
  else if Ascii.eqb c dq then Some (Str EmptyString, p)
  else if is_digit c || Ascii.eqb c "-" then Some (Num (str1 c), p)
  else match punctuation c with Some t => accept t p | None => extend_literal (str1 c) p end.

Definition feed (c : ascii) (l : lexer) (p : expecting * list container) : option (lexer * (expecting * list container)) :=
  match l with
  | Between => start_token c p
  | Lit w => extend_literal (snoc w c) p
  | Num w => if number_char c then Some (Num (snoc w c), p) else q ← end_number w p; start_token c q
  | Str raw =>
      if Ascii.eqb c dq then accept (TValue (JString (unquote raw))) p
      else if Ascii.eqb c bslash then Some (Esc (snoc raw c), p)
      else if code c <? 32 then None
      else Some (Str (snoc raw c), p)
  | Esc raw =>
      if Ascii.eqb c "u" then Some (Hex 4 (snoc raw c), p)
      else if escapable c then Some (Str (snoc raw c), p) else None
  | Hex n raw =>
      match hex_value c with
      | None => None
      | Some _ => Some (if Nat.eqb n 1 then Str (snoc raw c) else Hex (n - 1) (snoc raw c), p)
      end
  end.

Definition done (p : expecting * list container) : option json := match p.1 with Done v => Some v | _ => None end.

(** [first]: stop after the first value, as a Decoder does.  A number that is
    the whole text ends with it. *)
Fixpoint scan (first : bool) (s : string) (l : lexer) (p : expecting * list container) : option json :=
  match s with
  | EmptyString =>
      match l with Between => done p | Num w => q ← end_number w p; done q | _ => None end
  | String c r =>
      match feed c l p with
      | None => None
      | Some (l', q) =>
          match (if first then done q else None) with
          | Some v => Some v
          | None => scan first r l' q
          end
      end
  end.

Definition parse_json (s : string) : option json := scan false s Between (Value, []).
Definition decode_json (s : string) : option json := scan true s Between (Value, []).

(** ** Decoding into a struct

    Fields are matched by name, exactly or else folded; a null leaves the field
    as it is, a value of another type is an error, a member no field has is
    skipped and of two members the last wins. *)

(** [foldName] against an ASCII name: the two runes beyond ASCII that fold into it. *)
Definition fold_rune (x : option string) : string :=
  match x with
  | Some (String c EmptyString) => if (97 <=? code c) && (code c <=? 122) then str1 (chr (code c - 32)) else str1 c
  | Some b =>
      if bool_decide (b = String (chr 197) (str1 (chr 191))) then "S"%string
      else if bool_decide (b = String (chr 226) (String (chr 132) (str1 (chr 170)))) then "K"%string
      else b
  | None => replacement
  end.
Definition fold_name (s : string) : string := cat (fold_rune <$> runes s).

Definition names (field key : string) : bool := str_eq key field || str_eq (fold_name key) (fold_name field).

(** The members of a text that decodes into a struct. *)
Definition members (v : json) : option (list (string * json)) :=
  match v with JObject l => Some l | JNull => Some [] | _ => None end.

Section Field.
Context {A : Type} (read : json -> option A) (field : string).

Fixpoint get_field (cur : A) (l : list (string * json)) : option A :=
    match l with
    | [] => Some cur
    | (k, v) :: r =>
        if names field k
        then match v with JNull => get_field cur r | _ => x ← read v; get_field x r end
        else get_field cur r
    end.
End Field.

Definition as_string (v : json) : option string := match v with JString s => Some s | _ => None end.
Definition as_bool (v : json) : option bool := match v with JBool b => Some b | _ => None end.
(** strconv.ParseInt of the literal. *)
Definition as_int64 (v : json) : option Z := match v with JNumber s => parse_int s | _ => None end.

Definition string_field (field : string) := get_field as_string field EmptyString.
Definition bool_field (field : string) := get_field as_bool field false.
Definition int64_field (field : string) := get_field as_int64 field 0.

(** [_ = json.Unmarshal(raw, &v)] for a struct with that field: a member of
    another type is an error that is ignored, and leaves the field as it is. *)
Definition string_or (field : string) (cur : string) (x : string * json) : string :=
  if names field x.1 then match x.2 with JString s => s | _ => cur end else cur.
Definition unmarshal_string (field raw : string) : string :=
  match parse_json raw with Some (JObject l) => foldl (string_or field) EmptyString l | _ => EmptyString end.

(** ** Embedding a document

    A [json.RawMessage] is checked and compacted: the space outside strings goes,
    and what HTML or JavaScript could misread is escaped. *)

Definition html_char (c : ascii) : bool := Ascii.eqb c "<" || Ascii.eqb c ">" || Ascii.eqb c "&".
Definition hex_escape (c : ascii) : string := esc_u "0" "0" (hex_digit (code c / 16)) (hex_digit (code c mod 16)).

(** [quoted]: in a string; [escaped]: after a backslash in it. *)
Fixpoint compact_bytes (quoted escaped : bool) (s : string) : string :=
  match s with
  | EmptyString => EmptyString
  | String c r =>
      let keep := String c (compact_bytes (if Ascii.eqb c dq && negb escaped then negb quoted else quoted)
                              (quoted && negb escaped && Ascii.eqb c bslash) r) in
      if html_char c then (hex_escape c ++ compact_bytes quoted false r)%string
      else if code c =? 226 then
        match r with
        | String b (String d r2) =>
            match line_separator (String c (String b (str1 d))) with
            | Some x => (esc_u "2" "0" "2" x ++ compact_bytes quoted false r2)%string
            | None => keep
            end
        | _ => keep
        end
      else if negb quoted && json_space c then compact_bytes quoted escaped r
      else keep
  end.

Definition json_compact (s : string) : option string :=
  match parse_json s with Some _ => Some (compact_bytes false false s) | None => None end.
