(* ===== verification/JsonFacts.v ===== *)
(** * encoding/json: round trips

    [unquote_escape]: a marshalled string unquotes to the string with U+FFFD for
    its invalid bytes.  [scan_quote]: it is one token.  [parse_print]: what
    Marshal writes for a value parses to that value.  [json_compact_print]: a
    document is embedded byte for byte. *)

From S2P Require Import Prelude GoLib JsonText Json.
From Stdlib Require Import Ascii.

(** ** Lemmas: runes and their escapes *)

Definition rune_ok (x : option string) : Prop :=
  match x with
  | None => True
  | Some (String a EmptyString) => code a <= 127
  | Some (String a (String b EmptyString)) => rune2 a b = true
  | Some (String a (String b (String d EmptyString))) => rune3 a b d = true
  | Some (String a (String b (String d (String e EmptyString)))) => rune4 a b d e = true
  | _ => False
  end.

Lemma runes_ok s : Forall rune_ok (runes s).
Proof.
  assert (forall n s, (String.length s <= n)%nat -> Forall rune_ok (runes s)) as H; [|by eapply H].
  clear s. induction n as [|n IH]; intros [|a r] Hl; simpl in Hl; try lia; try constructor.
  cbn [runes]. destruct (Z.leb_spec (code a) 127); [constructor; [done|apply IH; lia]|].
  destruct r as [|b r1]; [by repeat constructor|]. simpl in Hl.
  destruct (rune2 a b) eqn:E2; [constructor; [done|apply IH; lia]|].
  destruct r1 as [|d r2]; [constructor; [done|apply IH; simpl; lia]|]. simpl in Hl.
  destruct (rune3 a b d) eqn:E3; [constructor; [done|apply IH; lia]|].
  destruct r2 as [|e r3]; [constructor; [done|apply IH; simpl; lia]|]. simpl in Hl.
  destruct (rune4 a b d e) eqn:E4; (constructor; [done|apply IH; simpl; lia]).
Qed.

Ltac rune_bounds := repeat match goal with
  | H : rune2 _ _ = true |- _ => unfold rune2 in H
  | H : rune3 _ _ _ = true |- _ => unfold rune3 in H
  | H : rune4 _ _ _ _ = true |- _ => unfold rune4 in H
  | H : context [cont _ _ _] |- _ => unfold cont in H
  end.

Lemma rune_lead a : 128 <= code a -> Ascii.eqb a bslash = false /\ Ascii.eqb a dq = false /\ (code a <=? 127) = false.
Proof.
  intros H. split; [|split]; [apply Ascii.eqb_neq; intros ->; by vm_compute in H..|lia].
Qed.

Lemma rune2_lead a b : rune2 a b = true -> 128 <= code a /\ 128 <= code b.
Proof. rune_bounds. intros; rune_bounds; lia. Qed.
Lemma rune3_lead a b d : rune3 a b d = true -> 128 <= code a /\ 128 <= code b /\ 128 <= code d /\ rune2 a b = false.
Proof. intros; rune_bounds. unfold rune2, cont. lia. Qed.
Lemma rune4_lead a b d e : rune4 a b d e = true ->
  128 <= code a /\ 128 <= code b /\ 128 <= code d /\ 128 <= code e /\ rune2 a b = false /\ rune3 a b d = false.
Proof. intros; rune_bounds. unfold rune2, rune3, cont. lia. Qed.

Lemma unquote_ascii c rest : code c <= 127 -> unquote (escape_rune (Some (str1 c)) ++ rest) = String c (unquote rest).
Proof. destruct c as [[] [] [] [] [] [] [] []]; intros Hc; (reflexivity || (vm_compute in Hc; congruence)). Qed.

Lemma unquote_rune x rest : rune_ok x -> unquote (escape_rune x ++ rest) = (default replacement x ++ unquote rest)%string.
Proof.
  destruct x as [[|a [|b [|d [|e [|? ?]]]]]|]; intros Hx; try done; try by apply unquote_ascii.
  - destruct (rune2_lead _ _ Hx) as [Ha _]. apply rune_lead in Ha as (H1 & _ & H2).
    unfold escape_rune, line_separator. rewrite !bool_decide_eq_false_2 by done.
    rewrite !string_app_cons, !append_nil. cbn [unquote default]. rewrite ?string_app_cons, ?append_nil. by rewrite H1, H2, Hx.
  - destruct (rune3_lead _ _ _ Hx) as (Ha & _ & _ & H3). apply rune_lead in Ha as (H1 & _ & H2).
    unfold escape_rune, line_separator.
    destruct (bool_decide_reflect (String a (String b (str1 d)) = String (chr 226) (String (chr 128) (str1 (chr 168))))) as [He|?].
    { rewrite bool_decide_eq_true_2 by done. injection He as -> -> ->. reflexivity. }
    rewrite bool_decide_eq_false_2 by done.
    destruct (bool_decide_reflect (String a (String b (str1 d)) = String (chr 226) (String (chr 128) (str1 (chr 169))))) as [He|?].
    { rewrite bool_decide_eq_true_2 by done. injection He as -> -> ->. reflexivity. }
    rewrite bool_decide_eq_false_2 by done.
    rewrite !string_app_cons, !append_nil. cbn [unquote default]. rewrite ?string_app_cons, ?append_nil. by rewrite H1, H2, H3, Hx.
  - destruct (rune4_lead _ _ _ _ Hx) as (Ha & _ & _ & _ & H3 & H4). apply rune_lead in Ha as (H1 & _ & H2).
    unfold escape_rune, line_separator. rewrite !bool_decide_eq_false_2 by done.
    rewrite !string_app_cons, !append_nil. cbn [unquote default]. rewrite ?string_app_cons, ?append_nil. by rewrite H1, H2, H3, H4, Hx.
Qed.

Lemma unquote_escape s : unquote (json_escape s) = to_valid_utf8 s.
Proof.
  unfold json_escape, to_valid_utf8. induction (runes_ok s) as [|x l Hx Hl IH]; [done|].
  change (unquote (escape_rune x ++ cat (escape_rune <$> l)) = default replacement x ++ cat (default replacement <$> l))%string.
  by rewrite unquote_rune, IH.
Qed.

(** ** Lemmas: the scanner over an escaped string *)

Create HintDb json.

(** The scan goes on from this state: only a Decoder stops at a first value. *)
Definition undone (first : bool) (p : expecting * list container) : Prop := if first then done p = None else True.

Lemma undone_open first p : done p = None -> undone first p.
Proof. by destruct first. Qed.
Lemma undone_whole p : undone false p.
Proof. done. Qed.
#[export] Hint Resolve undone_open undone_whole : json.

Lemma scan_feed first c r l p l' q :
  feed c l p = Some (l', q) -> undone first q -> scan first (String c r) l p = scan first r l' q.
Proof. intros Hf Hq. cbn [scan]. rewrite Hf. destruct first; [|done]. by rewrite Hq. Qed.

(** The bytes [e] leave the scanner inside the string. *)
Definition passes (e : string) : Prop := forall first rest raw p, undone first p ->
  scan first (e ++ rest) (Str raw) p = scan first rest (Str (raw ++ e)) p.

Lemma passes_app d e : passes d -> passes e -> passes (d ++ e).
Proof. intros Hd He first rest raw p Hp. by rewrite string_app_assoc, Hd, He, string_app_assoc. Qed.

Lemma passes_nil : passes EmptyString.
Proof. intros first rest raw p Hp. f_equal. f_equal. induction raw as [|x raw IH]; [done|]. by rewrite string_app_cons, <- IH. Qed.

Lemma passes_char c : 32 <= code c -> Ascii.eqb c bslash = false -> Ascii.eqb c dq = false -> passes (str1 c).
Proof.
  intros Hc Hb Hd first rest raw p Hp. change (str1 c ++ rest)%string with (String c rest).
  apply scan_feed; [|done]. cbn [feed]. rewrite Hb, Hd. by replace (code c <? 32) with false by lia.
Qed.

Lemma passes_escape c : escapable c = true -> passes (esc1 c).
Proof.
  intros Hc first rest raw p Hp. change (esc1 c ++ rest)%string with (String bslash (String c rest)).
  rewrite (scan_feed _ _ _ _ _ (Esc (snoc raw bslash)) p) by done.
  rewrite (scan_feed _ _ _ _ _ (Str (snoc (snoc raw bslash) c)) p); [|cbn [feed]; rewrite Hc|done].
  - by unfold snoc; rewrite string_app_assoc.
  - destruct (Ascii.eqb c "u") eqn:E; [|done]. apply Ascii.eqb_eq in E as ->. done.
Qed.

Lemma scan_hex first n h rest raw p : is_Some (hex_value h) -> undone first p ->
  scan first (String h rest) (Hex (S n) raw) p =
  scan first rest (match n with O => Str (snoc raw h) | _ => Hex n (snoc raw h) end) p.
Proof.
  intros [v Hv] Hp. apply scan_feed; [|done]. cbn [feed]. rewrite Hv.
  destruct n; [done|]. by replace (S (S n) - 1)%nat with (S n) by lia.
Qed.

Lemma passes_u h1 h2 h3 h4 : Forall (fun h => is_Some (hex_value h)) [h1; h2; h3; h4] -> passes (esc_u h1 h2 h3 h4).
Proof.
  rewrite !Forall_cons. intros (H1 & H2 & H3 & H4 & _) first rest raw p Hp.
  unfold esc_u, str1. rewrite !string_app_cons, !append_nil.
  rewrite (scan_feed _ _ _ _ _ (Esc (snoc raw bslash)) p), (scan_feed _ _ _ _ _ (Hex 4 (snoc (snoc raw bslash) "u")) p) by done.
  rewrite !scan_hex by done. by unfold snoc; rewrite !string_app_assoc.
Qed.

Lemma hex_digit_value v : 0 <= v < 16 -> is_Some (hex_value (hex_digit v)).
Proof.
  intros Hv. rewrite <- (Z2Nat.id v) by lia. assert (Z.to_nat v < 16)%nat as Hn by lia.
  revert Hn. generalize (Z.to_nat v). clear v Hv. intros n Hn.
  do 16 (destruct n as [|n]; [by eexists|]). lia.
Qed.

Lemma escape_passes x : rune_ok x -> passes (escape_rune x).
Proof.
  assert (forall a, 128 <= code a -> passes (str1 a)) as Hhigh.
  { intros a Ha. pose proof (rune_lead a Ha) as (H1 & H2 & _). apply passes_char; [lia|done..]. }
  destruct x as [[|a [|b [|d [|e [|? ?]]]]]|]; intros Hx; try done.
  - pose proof (code_range a). cbn [escape_rune].
    destruct (Ascii.eqb a dq || Ascii.eqb a bslash) eqn:Eq.
    { apply passes_escape. apply orb_true_iff in Eq as [->%Ascii.eqb_eq| ->%Ascii.eqb_eq]; done. }
    apply orb_false_iff in Eq as [Ed Eb].
    repeat (case_match; [by apply passes_escape|]).
    case_match; [|by apply passes_char; [lia|..]].
    apply passes_u. simpl in Hx. repeat constructor; [by eexists..| |].
    + apply hex_digit_value. split; [apply Z.div_pos; lia|]. apply Z.div_lt_upper_bound; lia.
    + apply hex_digit_value, Z.mod_pos_bound. lia.
  - destruct (rune2_lead _ _ Hx) as [Ha Hb]. unfold escape_rune, line_separator.
    rewrite !bool_decide_eq_false_2 by done. change (passes (str1 a ++ str1 b)). auto using passes_app.
  - destruct (rune3_lead _ _ _ Hx) as (Ha & Hb & Hd & _). unfold escape_rune, line_separator.
    do 2 (destruct (bool_decide _); [apply passes_u; repeat constructor; by eexists|]).
    change (passes (str1 a ++ str1 b ++ str1 d)). auto using passes_app.
  - destruct (rune4_lead _ _ _ _ Hx) as (Ha & Hb & Hd & He & _). unfold escape_rune, line_separator.
    rewrite !bool_decide_eq_false_2 by done. change (passes (str1 a ++ str1 b ++ str1 d ++ str1 e)). auto using passes_app.
  - apply passes_u. repeat constructor; by eexists.
Qed.

Lemma json_escape_passes s : passes (json_escape s).
Proof.
  unfold json_escape. induction (runes_ok s) as [|x l Hx Hl IH]; [apply passes_nil|].
  apply passes_app; [by apply escape_passes|done].
Qed.

(** A marshalled string is one token, whatever follows. *)
Lemma scan_quote first s rest p q :
  undone first p -> step (TValue (JString (to_valid_utf8 s))) p = Some q -> undone first q ->
  scan first (json_quote s ++ rest) Between p = scan first rest Between q.
Proof.
  intros Hp Hs Hq. unfold json_quote. rewrite string_app_cons, string_app_assoc.
  rewrite (scan_feed _ _ _ _ _ (Str EmptyString) p) by done.
  rewrite json_escape_passes by done. rewrite append_nil. change (str1 dq ++ rest)%string with (String dq rest).
  apply scan_feed; [|done]. cbn [feed]. rewrite Ascii.eqb_refl, unquote_escape. unfold accept. by rewrite Hs.
Qed.

Lemma to_valid_ascii s : all_ascii s = true -> to_valid_utf8 s = s.
Proof.
  unfold to_valid_utf8. induction s as [|c r IH]; [done|]. cbn [all_ascii]. intros [Hc Hr]%andb_true_iff.
  cbn [runes]. rewrite Hc. change (String c (cat (default replacement <$> runes r)) = String c r). by rewrite IH.
Qed.

(** ** Lemmas: numbers *)

Definition all_digits (s : string) : bool := str_eq (skip_digits s) EmptyString.

Lemma digit_is_digit d : 0 <= d < 10 -> is_digit (digit d) = true.
Proof. intros Hd. unfold is_digit. by rewrite digit_value_digit. Qed.

Lemma all_digits_snoc r d : all_digits r = true -> 0 <= d < 10 -> all_digits (r ++ str1 (digit d)) = true.
Proof.
  unfold all_digits. intros Hr Hd. induction r as [|c r IH].
  - rewrite append_nil. unfold str1. cbn [skip_digits]. by rewrite digit_is_digit.
  - rewrite string_app_cons. cbn [skip_digits] in *. by destruct (is_digit c); [apply IH|].
Qed.

(** The digits of a number: a zero leads only zero itself. *)
Lemma dec_digits_shape f n acc : 0 <= n < 10 ^ Z.of_nat (S f) ->
  exists d r, dec_digits (S f) n acc = String (digit d) (r ++ acc) /\ 0 <= d < 10 /\ all_digits r = true /\
    (d = 0 -> n = 0 /\ r = EmptyString).
Proof.
  revert n acc. induction f as [|f IH]; intros n acc Hn; rewrite dec_step; cbv zeta.
  - change (10 ^ Z.of_nat 1) with 10 in Hn. replace (n <? 10) with true by lia. rewrite Z.mod_small by lia.
    exists n, EmptyString. repeat (split; [done||lia|]). done.
  - destruct (Z.ltb_spec n 10); [rewrite Z.mod_small by lia; exists n, EmptyString; by repeat (split; [done||lia|])|].
    destruct (IH (n / 10) (String (digit (n mod 10)) acc)) as (d & r & -> & Hd & Hr & Hz).
    { rewrite (Nat2Z.inj_succ (S f)), Z.pow_succ_r in Hn by lia.
      split; [apply Z.div_pos; lia|apply Z.div_lt_upper_bound; lia]. }
    exists d, (r ++ str1 (digit (n mod 10)))%string. split; [|split; [done|split]].
    + by rewrite string_app_assoc.
    + apply all_digits_snoc; [done|]. apply Z.mod_pos_bound. lia.
    + intros ->. destruct Hz as [Hz _]; [done|]. pose proof (Z.div_mod n 10 ltac:(lia)). pose proof (Z.mod_pos_bound n 10 ltac:(lia)). lia.
Qed.

Lemma number_ok_digits n : 0 <= n < 10 ^ 20 -> number_ok (dec_digits 20 n EmptyString) = true /\
  number_ok (String "-" (dec_digits 20 n EmptyString)) = true.
Proof.
  intros Hn. destruct (dec_digits_shape 19 n EmptyString Hn) as (d & r & -> & Hd & Hr & Hz).
  rewrite string_app_nil.
  assert (number_ok (String (digit d) r) = match (if Ascii.eqb (digit d) "0" then Some r else digits1 (String (digit d) r)) with
    | None => false | Some EmptyString => true | Some (String c r' as r) =>
        if Ascii.eqb c "." then match digits1 r' with Some r'' => exponent_ok r'' | None => false end else exponent_ok r
    end) as Hok.
  { unfold number_ok. destruct (Ascii.eqb (digit d) "-") eqn:E; [|done].
    apply Ascii.eqb_eq in E. pose proof (digit_is_digit d Hd) as Hx. by rewrite E in Hx. }
  assert (number_ok (String (digit d) r) = true) as H.
  { rewrite Hok. destruct (Ascii.eqb (digit d) "0") eqn:E.
    - assert (d = 0) as Hd0.
      { apply Ascii.eqb_eq in E. pose proof (digit_value_digit d Hd) as Hv. rewrite E in Hv. by injection Hv. }
      by destruct (Hz Hd0) as [_ ->].
    - cbn [digits1]. rewrite digit_is_digit by done. by apply str_eq_true in Hr as ->. }
  split; [done|]. change (match (if Ascii.eqb (digit d) "0" then Some r else digits1 (String (digit d) r)) with
    | None => false | Some EmptyString => true | Some (String c r' as r) =>
        if Ascii.eqb c "." then match digits1 r' with Some r'' => exponent_ok r'' | None => false end else exponent_ok r
    end = true). by rewrite <- Hok.
Qed.

Lemma number_ok_format_int z : in_int64 z -> number_ok (format_int z) = true.
Proof.
  intros Hz. unfold in_int64, min_int64, max_int64 in Hz. unfold format_int.
  destruct (Z.ltb_spec z 0); by apply number_ok_digits; lia.
Qed.

(** ** Lemmas: what Marshal writes reads back *)

Fixpoint print (v : json) : string :=
  match v with
  | JNull => "null" | JBool true => "true" | JBool false => "false"
  | JNumber w => w
  | JString s => json_quote s
  | JArray l => json_list (print <$> l)
  | JObject l => json_object ((fun x => json_field x.1 (print x.2)) <$> l)
  end%string.

(** The value a reader of the text sees: invalid bytes have become U+FFFD. *)
Fixpoint readable (v : json) : json :=
  match v with
  | JString s => JString (to_valid_utf8 s)
  | JArray l => JArray (readable <$> l)
  | JObject l => JObject ((fun x => (to_valid_utf8 x.1, readable x.2)) <$> l)
  | _ => v
  end.

Fixpoint depth (v : json) : nat :=
  match v with
  | JArray l => S (foldr (fun x n => Nat.max (depth x) n) 0%nat l)
  | JObject l => S (foldr (fun x n => Nat.max (depth x.2) n) 0%nat l)
  | _ => 0%nat
  end.

Fixpoint all_chars (f : ascii -> bool) (s : string) : bool :=
  match s with EmptyString => true | String c r => f c && all_chars f r end.

(** Its numbers are numbers. *)
Fixpoint numeric (v : json) : bool :=
  match v with
  | JNumber w => number_ok w && all_chars number_char w
  | JArray l => forallb numeric l
  | JObject l => forallb (fun x => numeric x.2) l
  | _ => true
  end.

Section JsonInd.
Variable P : json -> Prop.
Hypothesis (Hnull : P JNull) (Hbool : forall b, P (JBool b)) (Hnumber : forall w, P (JNumber w))
  (Hstring : forall s, P (JString s)) (Harray : forall l, Forall P l -> P (JArray l))
  (Hobject : forall l, Forall (fun x => P x.2) l -> P (JObject l)).

Fixpoint json_induction (v : json) : P v :=
  match v with
  | JNull => Hnull | JBool b => Hbool b | JNumber w => Hnumber w | JString s => Hstring s
  | JArray l => Harray l ((fix all l : Forall P l := match l with
      | [] => List.Forall_nil _ | x :: l => List.Forall_cons _ x l (json_induction x) (all l) end) l)
  | JObject l => Hobject l ((fix all l : Forall (fun x => P x.2) l := match l with
      | [] => List.Forall_nil _ | x :: l => List.Forall_cons _ x l (json_induction x.2) (all l) end) l)
  end.
End JsonInd.

(** What may follow a value: nothing that would extend a number. *)
Definition delimited (rest : string) : Prop :=
  match rest with EmptyString => True | String c _ => number_char c = false end.

(** The text of [v] is read as one value wherever a value may come. *)
Definition reads (v : json) : Prop := forall ph st rest,
  ph = Value \/ ph = FirstElem -> Z.of_nat (length st + depth v) <= maxNestingDepth -> delimited rest ->
  scan false (print v ++ rest) Between (ph, st) = scan false rest Between (complete (readable v) st).

Lemma scan_num w rest u p : all_chars number_char w = true ->
  scan false (w ++ rest) (Num u) p = scan false rest (Num (u ++ w)) p.
Proof.
  revert u. induction w as [|c w IH]; intros u; cbn [all_chars].
  - by rewrite string_app_nil.
  - intros [Hc Hw]%andb_true_iff. rewrite string_app_cons.
    rewrite (scan_feed _ _ _ _ _ (Num (snoc u c)) p) by (cbn [feed]; rewrite ?Hc; done).
    rewrite IH by done. unfold snoc. by rewrite string_app_assoc.
Qed.

Lemma number_lead w : number_ok w = true -> exists c r, w = String c r /\ (is_digit c || Ascii.eqb c "-") = true.
Proof.
  destruct w as [|c r]; [done|]. intros H. exists c, r. split; [done|]. unfold number_ok in H.
  destruct (Ascii.eqb c "-") eqn:E; [apply orb_true_r|]. rewrite orb_false_r.
  destruct (Ascii.eqb c "0") eqn:E0; [by apply Ascii.eqb_eq in E0 as ->|]. cbn [digits1] in H. by destruct (is_digit c).
Qed.

Lemma reads_number w : numeric (JNumber w) = true -> reads (JNumber w).
Proof.
  intros [Hok Hch]%andb_true_iff ph st rest Hph _ Hrest. cbn [print readable].
  destruct (number_lead w Hok) as (c & r & -> & Hc).
  assert (feed c Between (ph, st) = Some (Num (str1 c), (ph, st))) as Hf.
  { cbn [feed]. unfold start_token. destruct (json_space c) eqn:Es.
    { exfalso. destruct c as [[] [] [] [] [] [] [] []]; done. }
    destruct (Ascii.eqb c dq) eqn:Ed; [by apply Ascii.eqb_eq in Ed as ->|]. by rewrite Hc. }
  cbn [all_chars] in Hch. apply andb_true_iff in Hch as [_ Hr].
  rewrite string_app_cons, (scan_feed _ _ _ _ _ _ _ Hf) by done. rewrite scan_num by done.
  change (str1 c ++ r)%string with (String c r).
  assert (end_number (String c r) (ph, st) = Some (complete (JNumber (String c r)) st)) as He.
  { unfold end_number. rewrite Hok. by destruct Hph as [->| ->]. }
  destruct rest as [|d rest]; cbn [scan feed]; [by rewrite He|]. simpl in Hrest. by rewrite Hrest, He.
Qed.

Lemma scan_accept c t p q rest : punctuation c = Some t -> step t p = Some q ->
  scan false (String c rest) Between p = scan false rest Between q.
Proof.
  intros Hc Ht. apply scan_feed; [|done]. cbn [feed].
  assert (start_token c p = accept t p) as ->; [|unfold accept; by rewrite Ht].
  destruct c as [[] [] [] [] [] [] [] []]; try done; by injection Hc as <-.
Qed.

Lemma join_cons sep x y l : join sep (x :: y :: l) = (x ++ sep ++ join sep (y :: l))%string.
Proof. done. Qed.

Lemma scan_elems l acc ph st rest : ph = Value \/ ph = FirstElem -> l <> [] ->
  Forall reads l -> Forall (fun v => Z.of_nat (S (length st + depth v)) <= maxNestingDepth) l ->
  scan false (join "," (print <$> l) ++ String "]" rest) Between (ph, InArray acc :: st) =
  scan false rest Between (complete (JArray (acc ++ (readable <$> l))) st).
Proof.
  revert acc ph. induction l as [|v l IH]; intros acc ph Hph Hl Hr Hd; [done|].
  apply Forall_cons in Hr as [Hv Hr]. apply Forall_cons in Hd as [Hdv Hd].
  destruct l as [|u l].
  - change (join "," (print <$> [v])) with (print v). rewrite Hv by done. by apply scan_accept with (t := TCloseArray).
  - change (join "," (print <$> v :: u :: l)) with (print v ++ "," ++ join "," (print <$> u :: l))%string.
    rewrite !string_app_assoc. rewrite Hv by done.
    change ("," ++ ?s)%string with (String "," s).
    rewrite scan_accept with (t := TComma) (q := (Value, InArray (acc ++ [readable v]) :: st)) by done.
    rewrite IH by auto. by rewrite <- (assoc_L (++)).
Qed.

Lemma depth_elems l n : (foldr (fun x m => Nat.max (depth x) m) 0%nat l <= n)%nat -> Forall (fun v => (depth v <= n)%nat) l.
Proof. induction l as [|v l IH]; cbn [foldr]; [by constructor|]. intros H. constructor; [|apply IH]; lia. Qed.

Lemma depth_members l n : (foldr (fun (x : string * json) m => Nat.max (depth x.2) m) 0%nat l <= n)%nat ->
  Forall (fun x : string * json => (depth x.2 <= n)%nat) l.
Proof. induction l as [|v l IH]; cbn [foldr]; [by constructor|]. intros H. constructor; [|apply IH]; lia. Qed.

Lemma reads_array l : Forall reads l -> reads (JArray l).
Proof.
  intros Hl ph st rest Hph Hd Hrest. cbn [print readable depth] in *. unfold json_list.
  rewrite !string_app_assoc. change ("[" ++ ?s)%string with (String "[" s). change ("]" ++ rest)%string with (String "]" rest).
 
  rewrite scan_accept with (t := TOpenArray) (q := (FirstElem, InArray [] :: st)); [|done|].
  2: { destruct Hph as [->| ->]; cbn [step]; unfold open_frame; by replace (_ <? _) with false by lia. }
  destruct l as [|v l]; [by apply scan_accept with (t := TCloseArray)|].
  rewrite scan_elems; [done|by right|done|done|]. eapply Forall_impl; [apply (depth_elems (v :: l)), Nat.le_refl|].
  cbn beta. intros x Hx. lia.
Qed.

Lemma scan_members l acc k ph st rest : ph = FirstKey \/ ph = Key -> l <> [] ->
  Forall (fun x => reads x.2) l -> Forall (fun x => Z.of_nat (S (length st + depth x.2)) <= maxNestingDepth) l ->
  scan false (join "," ((fun x => json_field x.1 (print x.2)) <$> l) ++ String "}" rest) Between (ph, InObject acc k :: st) =
  scan false rest Between (complete (JObject (acc ++ ((fun x => (to_valid_utf8 x.1, readable x.2)) <$> l))) st).
Proof.
  revert acc k ph. induction l as [|[name v] l IH]; intros acc k ph Hph Hl Hr Hd; [done|].
  apply Forall_cons in Hr as [Hv Hr]. apply Forall_cons in Hd as [Hdv Hd]. cbn [snd] in *.
  assert (forall rest', delimited rest' -> scan false (json_field name (print v) ++ rest') Between (ph, InObject acc k :: st) =
      scan false rest' Between (More, InObject (acc ++ [(to_valid_utf8 name, readable v)]) (to_valid_utf8 name) :: st)) as Hf.
  { intros rest' Hrest'. unfold json_field. rewrite string_app_assoc.
    rewrite scan_quote with (q := (Colon, InObject acc (to_valid_utf8 name) :: st)) by (destruct Hph as [->| ->]; done).
    change ((":" ++ print v) ++ rest')%string with (String ":" (print v ++ rest')).
    rewrite scan_accept with (t := TColon) (q := (Value, InObject acc (to_valid_utf8 name) :: st)) by done.
    by rewrite Hv by (done || by left). }
  destruct l as [|u l].
  - change (join "," ((fun x => json_field x.1 (print x.2)) <$> [(name, v)])) with (json_field name (print v)).
    rewrite (Hf (String "}" rest)) by done. by apply scan_accept with (t := TCloseObject).
  - change (join "," ((fun x => json_field x.1 (print x.2)) <$> (name, v) :: u :: l))
      with (json_field name (print v) ++ "," ++ join "," ((fun x => json_field x.1 (print x.2)) <$> u :: l))%string.
    rewrite !string_app_assoc, Hf by done. change ("," ++ ?s)%string with (String "," s).
    rewrite scan_accept with (t := TComma)
      (q := (Key, InObject (acc ++ [(to_valid_utf8 name, readable v)]) (to_valid_utf8 name) :: st)) by done.
    rewrite IH by auto. by rewrite <- (assoc_L (++)).
Qed.

Lemma reads_object l : Forall (fun x => reads x.2) l -> reads (JObject l).
Proof.
  intros Hl ph st rest Hph Hd Hrest. cbn [print readable depth] in *. unfold json_object.
  rewrite !string_app_assoc. change ("{" ++ ?s)%string with (String "{" s). change ("}" ++ rest)%string with (String "}" rest).
 
  rewrite scan_accept with (t := TOpenObject) (q := (FirstKey, InObject [] EmptyString :: st)); [|done|].
  2: { destruct Hph as [->| ->]; cbn [step]; unfold open_frame; by replace (_ <? _) with false by lia. }
  destruct l as [|v l]; [by apply scan_accept with (t := TCloseObject)|].
  rewrite scan_members; [done|by left|done|done|]. eapply Forall_impl; [apply (depth_members (v :: l)), Nat.le_refl|].
  cbn beta. intros x Hx. lia.
Qed.

Lemma reads_print v : numeric v = true -> reads v.
Proof.
  induction v as [|b|w|s|l IH|l IH] using json_induction; intros Hn.
  - intros ph st rest Hph _ _. by destruct Hph as [->| ->].
  - intros ph st rest Hph _ _. by destruct b, Hph as [->| ->].
  - by apply reads_number.
  - intros ph st rest Hph _ _. by apply scan_quote; [..|destruct Hph as [->| ->]|].
  - apply reads_array. cbn [numeric] in Hn. rewrite forallb_forall in Hn. rewrite Forall_forall in *.
    intros v Hv. by apply IH, Hn, list_elem_of_In.
  - apply reads_object. cbn [numeric] in Hn. rewrite forallb_forall in Hn. rewrite Forall_forall in *.
    intros v Hv. by apply IH, Hn, list_elem_of_In.
Qed.

Lemma parse_print v : numeric v = true -> Z.of_nat (depth v) <= maxNestingDepth -> parse_json (print v) = Some (readable v).
Proof.
  intros Hn Hd. unfold parse_json. rewrite <- (string_app_nil (print v)).
  by rewrite (reads_print v Hn) by (done || by left).
Qed.

(** ** Lemmas: embedding a document *)

(** [d] is compact text within a string, or outside one. *)
Definition compacted (quoted : bool) (d : string) : Prop :=
  forall rest, compact_bytes quoted false (d ++ rest) = (d ++ compact_bytes quoted false rest)%string.

Lemma compacted_app q d e : compacted q d -> compacted q e -> compacted q (d ++ e).
Proof. intros Hd He rest. by rewrite !string_app_assoc, Hd, He. Qed.
Lemma compacted_nil q : compacted q EmptyString.
Proof. done. Qed.

Definition ordinary (c : ascii) : bool :=
  negb (html_char c || (code c =? 226) || Ascii.eqb c dq || Ascii.eqb c bslash || json_space c).

Lemma compacted_char q c : ordinary c = true \/ (q = true /\ c = " "%char) -> compacted q (str1 c).
Proof.
  intros Hc rest. change (str1 c ++ ?s)%string with (String c s). cbn [compact_bytes].
  destruct Hc as [Hc|[-> ->]]; [|done]. apply negb_true_iff in Hc. rewrite !orb_false_iff in Hc.
  destruct Hc as ((((-> & ->) & ->) & ->) & ->). by rewrite !andb_false_r.
Qed.

Lemma compacted_high q c : 128 <= code c -> code c <> 226 -> compacted q (str1 c).
Proof.
  intros Hc H2. apply compacted_char. left. unfold ordinary, html_char, json_space. cbv zeta.
  destruct (rune_lead c Hc) as (-> & -> & _). replace (code c =? 226) with false by lia.
  destruct (Ascii.eqb_spec c "<") as [->|_]; [by vm_compute in Hc|].
  destruct (Ascii.eqb_spec c ">") as [->|_]; [by vm_compute in Hc|].
  destruct (Ascii.eqb_spec c "&") as [->|_]; [by vm_compute in Hc|]. simpl. lia.
Qed.

Lemma compacted_esc1 c : escapable c = true -> compacted true (esc1 c).
Proof. intros Hc rest. destruct c as [[] [] [] [] [] [] [] []]; done. Qed.

Lemma compacted_hex n : 0 <= n < 16 -> compacted true (str1 (hex_digit n)).
Proof.
  intros Hn. rewrite <- (Z2Nat.id n) by lia. assert (Z.to_nat n < 16)%nat as Hb by lia.
  revert Hb. generalize (Z.to_nat n). clear n Hn. intros n Hn.
  do 16 (destruct n as [|n]; [apply compacted_char; by left|]). lia.
Qed.

Lemma compacted_u a b x y : compacted true (str1 a) -> compacted true (str1 b) -> compacted true (str1 x) ->
  compacted true (str1 y) -> compacted true (esc_u a b x y).
Proof.
  intros Ha Hb Hx Hy rest.
  change (esc_u a b x y) with (esc1 "u" ++ str1 a ++ str1 b ++ str1 x ++ str1 y)%string.
  rewrite string_app_assoc. change (compact_bytes true false (esc1 "u" ++ ?s))%string with (esc1 "u" ++ compact_bytes true false s)%string.
  repeat (rewrite string_app_assoc || rewrite Ha || rewrite Hb || rewrite Hx || rewrite Hy). done.
Qed.

Lemma hex_halves c : 0 <= code c / 16 < 16 /\ 0 <= code c mod 16 < 16.
Proof. pose proof (code_range c). split; [split; [apply Z.div_pos|apply Z.div_lt_upper_bound]|apply Z.mod_pos_bound]; lia. Qed.

Lemma compacted_ascii c : code c <= 127 -> compacted true (escape_rune (Some (str1 c))).
Proof.
  intros Hc. pose proof (hex_halves c) as [H1 H2]. unfold str1. cbn [escape_rune].
  destruct (Ascii.eqb c dq || Ascii.eqb c bslash) eqn:Eq.
  { apply compacted_esc1. apply orb_true_iff in Eq as [->%Ascii.eqb_eq| ->%Ascii.eqb_eq]; done. }
  apply orb_false_iff in Eq as [Ed Eb].
  repeat (case_match; [by apply compacted_esc1|]).
  case_match; [apply compacted_u; by apply compacted_hex || (apply compacted_char; by left)|].
  apply compacted_char. destruct (Ascii.eqb_spec c " ") as [->|Hs]; [by right|left].
  destruct c as [[] [] [] [] [] [] [] []]; try done; by vm_compute in Hc.
Qed.

Lemma compact_e2 b d s : line_separator (String (chr 226) (String b (str1 d))) = None ->
  compact_bytes true false (String (chr 226) (str1 b ++ str1 d ++ s)) =
  String (chr 226) (compact_bytes true false (str1 b ++ str1 d ++ s)).
Proof.
  intros Hs. change (match line_separator (String (chr 226) (String b (str1 d))) with
    | Some x => (esc_u "2" "0" "2" x ++ compact_bytes true false s)%string
    | None => String (chr 226) (compact_bytes true false (str1 b ++ str1 d ++ s))
    end = String (chr 226) (compact_bytes true false (str1 b ++ str1 d ++ s))). by rewrite Hs.
Qed.

Lemma compacted_rune3 a b d : rune3 a b d = true -> line_separator (String a (String b (str1 d))) = None ->
  compacted true (String a (String b (str1 d))).
Proof.
  intros Hx Hs. destruct (rune3_lead _ _ _ Hx) as (Ha & Hb & Hd & _).
  assert (compacted true (str1 b) /\ compacted true (str1 d)) as [Cb Cd]
    by (rune_bounds; split; apply compacted_high; lia).
  destruct (decide (code a = 226)) as [E|E].
  - intros rest. assert (a = chr 226) as -> by (apply code_inj; by rewrite E).
    change (String (chr 226) (String b (str1 d)) ++ ?s)%string with (String (chr 226) (str1 b ++ str1 d ++ s)).
    rewrite compact_e2 by done. by rewrite Cb, Cd.
  - change (compacted true (str1 a ++ str1 b ++ str1 d)). auto using compacted_app, compacted_high.
Qed.

Lemma compacted_rune x : rune_ok x -> compacted true (escape_rune x).
Proof.
  destruct x as [[|a [|b [|d [|e [|? ?]]]]]|]; intros Hx; try done; [by apply compacted_ascii|..].
  - pose proof (rune2_lead _ _ Hx) as [Ha Hb]. unfold escape_rune, line_separator.
    rewrite !bool_decide_eq_false_2 by done. change (compacted true (str1 a ++ str1 b)).
    cbn [rune_ok] in Hx. rune_bounds. apply compacted_app; apply compacted_high; lia.
  - cbn [escape_rune]. destruct (line_separator _) as [s|] eqn:Es; [|by apply compacted_rune3].
    unfold line_separator in Es. assert (s = "8"%char \/ s = "9"%char) as [-> | ->] by (repeat case_match; naive_solver);
      apply compacted_u; apply compacted_char; by left.
  - pose proof (rune4_lead _ _ _ _ Hx) as (Ha & Hb & Hd & He & _). unfold escape_rune, line_separator.
    rewrite !bool_decide_eq_false_2 by done. change (compacted true (str1 a ++ str1 b ++ str1 d ++ str1 e)).
    cbn [rune_ok] in Hx. rune_bounds. repeat apply compacted_app; apply compacted_high; lia.
Qed.

Lemma compacted_quote s : compacted false (json_quote s).
Proof.
  intros rest. unfold json_quote. rewrite !string_app_cons, !string_app_assoc.
  change (compact_bytes false false (String dq ?s)) with (String dq (compact_bytes true false s)).
  assert (compacted true (json_escape s)) as ->; [|done].
  unfold json_escape. induction (runes_ok s) as [|x l Hx _ IH]; [done|]. apply compacted_app; [by apply compacted_rune|done].
Qed.

Lemma compacted_ordinary q s : all_chars ordinary s = true -> compacted q s.
Proof.
  induction s as [|c s IH]; [done|]. cbn [all_chars]. intros [Hc Hs]%andb_true_iff.
  change (compacted q (str1 c ++ s)). apply compacted_app; [apply compacted_char; by left|by apply IH].
Qed.

Lemma number_ordinary w : all_chars number_char w = true -> all_chars ordinary w = true.
Proof.
  induction w as [|c w IH]; [done|]. cbn [all_chars]. intros [Hc Hw]%andb_true_iff. rewrite IH by done.
  rewrite andb_true_r. destruct c as [[] [] [] [] [] [] [] []]; done.
Qed.

Lemma compacted_join l : Forall (compacted false) l -> compacted false (join "," l).
Proof.
  induction 1 as [|x l Hx Hl IH]; [done|]. destruct l as [|y l]; [done|]. rewrite join_cons.
  apply compacted_app; [done|]. apply compacted_app; [|done]. by apply compacted_ordinary.
Qed.

Lemma compacted_print v : numeric v = true -> compacted false (print v).
Proof.
  induction v as [|b|w|s|l IH|l IH] using json_induction; intros Hn; cbn [print].
  - by apply compacted_ordinary.
  - destruct b; by apply compacted_ordinary.
  - apply andb_true_iff in Hn as [_ Hw]. by apply compacted_ordinary, number_ordinary.
  - apply compacted_quote.
  - cbn [numeric] in Hn. rewrite forallb_forall in Hn. rewrite Forall_forall in IH.
    apply compacted_app; [by apply compacted_ordinary|]. apply compacted_app; [|by apply compacted_ordinary].
    apply compacted_join, Forall_fmap, Forall_forall. intros v Hv. by apply IH, Hn, list_elem_of_In.
  - cbn [numeric] in Hn. rewrite forallb_forall in Hn. rewrite Forall_forall in IH.
    apply compacted_app; [by apply compacted_ordinary|]. apply compacted_app; [|by apply compacted_ordinary].
    apply compacted_join, Forall_fmap, Forall_forall. intros v Hv. cbn beta.
    apply compacted_app; [apply compacted_quote|]. apply compacted_app; [by apply compacted_ordinary|].
    by apply IH, Hn, list_elem_of_In.
Qed.

(** A document and its final line feed are embedded as the document. *)
Lemma json_compact_print v : numeric v = true -> Z.of_nat (depth v) <= maxNestingDepth ->
  json_compact (print v ++ String "010" EmptyString) = Some (print v).
Proof.
  intros Hn Hd. unfold json_compact, parse_json. rewrite (reads_print v Hn) by (done || by left).
  rewrite (compacted_print v Hn). cbn. by rewrite string_app_nil.
Qed.

Lemma all_digits_numeric r : all_digits r = true -> all_chars number_char r = true.
Proof.
  unfold all_digits. induction r as [|c r IH]; [done|]. cbn [skip_digits all_chars]. unfold number_char.
  destruct (is_digit c); [exact IH|done].
Qed.

Lemma dec_digits_numeric n : 0 <= n < 10 ^ 20 -> all_chars number_char (dec_digits 20 n EmptyString) = true.
Proof.
  intros Hn. destruct (dec_digits_shape 19 n EmptyString Hn) as (d & r & -> & Hd & Hr & _).
  rewrite string_app_nil. cbn [all_chars]. rewrite all_digits_numeric by done. unfold number_char. by rewrite digit_is_digit.
Qed.

Lemma numeric_int z : in_int64 z -> numeric (JNumber (format_int z)) = true.
Proof.
  intros Hz. cbn [numeric]. rewrite number_ok_format_int by done. unfold in_int64, min_int64, max_int64 in Hz.
  unfold format_int. destruct (Z.ltb_spec z 0); [cbn [all_chars]|]; by rewrite dec_digits_numeric by lia.
Qed.

(** ** Lemmas: base64 is ASCII *)

Lemma all_ascii_app s t : all_ascii (s ++ t) = all_ascii s && all_ascii t.
Proof. induction s as [|c s IH]; [done|]. rewrite string_app_cons. cbn [all_ascii]. by rewrite IH, andb_assoc. Qed.

Lemma b64_char_ascii url v : 0 <= v < 64 -> (code (b64_char url v) <=? 127) = true.
Proof.
  intros Hv. rewrite <- (Z2Nat.id v) by lia. assert (Z.to_nat v < 64)%nat as Hn by lia.
  revert Hn. generalize (Z.to_nat v). clear v Hv. intros n Hn.
  do 64 (destruct n as [|n]; [by destruct url|]). lia.
Qed.

Lemma b64_encode_ascii url pad s : all_ascii (b64_encode url pad s) = true.
Proof.
  assert (forall n s, (String.length s <= n)%nat -> all_ascii (b64_encode url pad s) = true) as H; [|by eapply H].
  clear s. induction n as [|n IH]; intros [|a [|b [|c r]]] Hl; simpl in Hl; try lia; try done;
    pose proof (code_range a); try pose proof (code_range b); try pose proof (code_range c);
    cbn [b64_encode all_ascii]; rewrite !b64_char_ascii by (Z.to_euclidean_division_equations; lia).
  - by destruct pad.
  - by destruct pad.
  - apply IH. lia.
Qed.
