(* ===== verification/Schema.v ===== *)
(** * The database: rows, Go structs, tables and constraints

    One row type per table of the migrations, with [option] for a nullable
    column; where a Go struct of internal/store differs from its row (NULL read
    as the empty string or 0) the struct is a record of its own and the [scan]
    function of the source translates.  [DB] is the whole database.  [Table]
    gives, per row type, its list in [DB] and the constraints the schema
    declares on it (CHECK, UNIQUE and PRIMARY KEY, REFERENCES), which
    the statements of Effects enforce.  The [cascade] functions are the
    ON DELETE actions of the foreign keys. *)

From S2P Require Import Prelude.

(** ** NULL and Go zero values (store/users.go, store/devices.go) *)

Definition nullIfEmpty (s : string) : option string :=
  if bool_decide (s = EmptyString) then None else Some s.
Definition nullIfZero (n : Z) : option Z := if n =? 0 then None else Some n.
Definition scanString (ns : option string) : string := default EmptyString ns.
Definition scanInt64 (n : option Z) : Z := default 0 n.
Definition boolToInt (b : bool) : Z := if b then 1 else 0.
Definition intToBool (n : Z) : bool := negb (n =? 0).

Lemma scanString_nullIfEmpty s : scanString (nullIfEmpty s) = s.
Proof. unfold scanString, nullIfEmpty. by case_bool_decide. Qed.
Lemma scanInt64_nullIfZero n : scanInt64 (nullIfZero n) = n.
Proof. unfold scanInt64, nullIfZero. destruct (Z.eqb_spec n 0); done. Qed.
Lemma intToBool_boolToInt b : intToBool (boolToInt b) = b.
Proof. by destruct b. Qed.

#[export] Hint Rewrite scanString_nullIfEmpty scanInt64_nullIfZero intToBool_boolToInt : tables.

(** ** Users *)

Record user_row := UserRow {
  ru_id : string; ru_email : string; ru_role : string;
  ru_oidc_provider : option string; ru_oidc_subject : option string;
  ru_disabled : Z; ru_created_at : Z; ru_updated_at : Z;
  ru_webauthn_handle : option string;
  ru_pending_email : option string; ru_pending_token_hash : option string;
  ru_pending_expires : option Z }.

Record User := MkUser {
  usr_ID : string; usr_Email : string; usr_Role : string;
  usr_OIDCProvider : string; usr_OIDCSubject : string; usr_Disabled : bool;
  usr_CreatedAt : Z; usr_UpdatedAt : Z;
  usr_PendingEmail : string; usr_PendingEmailExpiresAt : Z }.

Definition scanUser (r : user_row) : User :=
  MkUser (ru_id r) (ru_email r) (ru_role r)
    (scanString (ru_oidc_provider r)) (scanString (ru_oidc_subject r))
    (intToBool (ru_disabled r)) (ru_created_at r) (ru_updated_at r)
    (scanString (ru_pending_email r)) (scanInt64 (ru_pending_expires r)).

Definition IsEnabledAdmin (u : User) : bool :=
  bool_decide (usr_Role u = "admin"%string) && negb (usr_Disabled u).

(** ** Devices *)

Record device_row := DeviceRow {
  rd_id : string; rd_user_id : string; rd_label : string; rd_secret_hash : string;
  rd_current_ipv4 : option string; rd_current_ipv6 : option string;
  rd_hostname : option string; rd_os : option string; rd_client_version : option string;
  rd_last_seen_at : option Z; rd_disabled : Z; rd_created_at : Z; rd_updated_at : Z;
  rd_v4_confirmed_at : option Z; rd_v6_confirmed_at : option Z;
  rd_v4_warn_level : Z; rd_v6_warn_level : Z }.

Record Device := MkDevice {
  dev_ID : string; dev_UserID : string; dev_Label : string; dev_SecretHash : string;
  dev_CurrentIPv4 : string; dev_CurrentIPv6 : string;
  dev_Hostname : string; dev_OS : string; dev_ClientVersion : string;
  dev_LastSeenAt : Z; dev_Disabled : bool; dev_CreatedAt : Z; dev_UpdatedAt : Z;
  dev_V4ConfirmedAt : Z; dev_V6ConfirmedAt : Z;
  dev_V4WarnLevel : Z; dev_V6WarnLevel : Z }.

Definition scanDevice (r : device_row) : Device :=
  MkDevice (rd_id r) (rd_user_id r) (rd_label r) (rd_secret_hash r)
    (scanString (rd_current_ipv4 r)) (scanString (rd_current_ipv6 r))
    (scanString (rd_hostname r)) (scanString (rd_os r)) (scanString (rd_client_version r))
    (scanInt64 (rd_last_seen_at r)) (intToBool (rd_disabled r))
    (rd_created_at r) (rd_updated_at r)
    (scanInt64 (rd_v4_confirmed_at r)) (scanInt64 (rd_v6_confirmed_at r))
    (rd_v4_warn_level r) (rd_v6_warn_level r).

(** The values [DeviceRepo.Create] binds. *)
Definition deviceToRow (d : Device) : device_row :=
  DeviceRow (dev_ID d) (dev_UserID d) (dev_Label d) (dev_SecretHash d)
    (nullIfEmpty (dev_CurrentIPv4 d)) (nullIfEmpty (dev_CurrentIPv6 d))
    (nullIfEmpty (dev_Hostname d)) (nullIfEmpty (dev_OS d)) (nullIfEmpty (dev_ClientVersion d))
    (nullIfZero (dev_LastSeenAt d)) (boolToInt (dev_Disabled d))
    (dev_CreatedAt d) (dev_UpdatedAt d)
    (nullIfZero (dev_V4ConfirmedAt d)) (nullIfZero (dev_V6ConfirmedAt d))
    (dev_V4WarnLevel d) (dev_V6WarnLevel d).

Lemma scanDevice_deviceToRow d : scanDevice (deviceToRow d) = d.
Proof.
  destruct d. unfold scanDevice, deviceToRow. simpl.
  by rewrite !scanString_nullIfEmpty, !scanInt64_nullIfZero, intToBool_boolToInt.
Qed.

(** ** IP history *)

Record history_row := HistoryRow {
  rh_id : Z; rh_device_id : string; rh_ipv4 : option string; rh_ipv6 : option string;
  rh_observed_at : Z; rh_client_version : option string }.

Record IPHistory := MkIPHistory {
  iph_ID : Z; iph_DeviceID : string; iph_IPv4 : string; iph_IPv6 : string;
  iph_ObservedAt : Z; iph_ClientVersion : string }.

Definition scanIPHistory (r : history_row) : IPHistory :=
  MkIPHistory (rh_id r) (rh_device_id r) (scanString (rh_ipv4 r)) (scanString (rh_ipv6 r))
    (rh_observed_at r) (scanString (rh_client_version r)).

(** ** Sessions, replay nonces and one-time codes *)

Record session_row := SessionRow {
  rs_id : string; rs_user_id : string; rs_csrf_token : string;
  rs_ip : option string; rs_user_agent : option string;
  rs_created_at : Z; rs_last_seen_at : Z; rs_expires_at : Z }.

Record Session := MkSession {
  sess_ID : string; sess_UserID : string; sess_CSRFToken : string;
  sess_IP : string; sess_UserAgent : string;
  sess_CreatedAt : Z; sess_LastSeenAt : Z; sess_ExpiresAt : Z }.

Definition scanSession (r : session_row) : Session :=
  MkSession (rs_id r) (rs_user_id r) (rs_csrf_token r) (scanString (rs_ip r))
    (scanString (rs_user_agent r)) (rs_created_at r) (rs_last_seen_at r) (rs_expires_at r).

Record nonce_row := NonceRow { rn_signature : string; rn_expires_at : Z }.

Record code_row := CodeRow {
  rc_code : string; rc_user_id : string; rc_label : string; rc_expires_at : Z;
  rc_used_at : option Z; rc_device_id : option string }.

Record EnrollmentCode := MkEnrollmentCode {
  ec_Code : string; ec_UserID : string; ec_Label : string; ec_ExpiresAt : Z;
  ec_UsedAt : Z; ec_DeviceID : string }.

Definition scanEnrollmentCode (r : code_row) : EnrollmentCode :=
  MkEnrollmentCode (rc_code r) (rc_user_id r) (rc_label r) (rc_expires_at r)
    (scanInt64 (rc_used_at r)) (scanString (rc_device_id r)).

Record recovery_row := RecoveryRow {
  rr_token_hash : string; rr_user_id : string; rr_reason : string; rr_expires_at : Z;
  rr_used_at : option Z }.

Record RecoveryToken := MkRecoveryToken {
  rt_TokenHash : string; rt_UserID : string; rt_Reason : string; rt_ExpiresAt : Z;
  rt_UsedAt : Z }.

Definition scanRecoveryToken (r : recovery_row) : RecoveryToken :=
  MkRecoveryToken (rr_token_hash r) (rr_user_id r) (rr_reason r) (rr_expires_at r)
    (scanInt64 (rr_used_at r)).

Record bootstrap_row := BootstrapRow {
  rb_id : Z; rb_token_hash : option string; rb_created_at : Z; rb_consumed_at : option Z }.

Record BootstrapState := MkBootstrapState {
  bs_TokenHash : string; bs_CreatedAt : Z; bs_ConsumedAt : Z }.

Record OIDCDeviceFlow := MkOIDCDeviceFlow {
  fl_FlowID : string; fl_DeviceCode : string; fl_Interval : Z; fl_ExpiresAt : Z;
  fl_LastPolledAt : Z; fl_CreatedAt : Z }.

(** ** The audit log *)

Record audit_row := AuditRow {
  ra_id : Z; ra_actor_user_id : option string; ra_event_type : string;
  ra_target_type : option string; ra_target_id : option string;
  ra_details_json : option string; ra_ip : option string; ra_user_agent : option string;
  ra_created_at : Z }.

Record AuditEntry := MkAuditEntry {
  ae_ID : Z; ae_ActorUserID : string; ae_EventType : string; ae_TargetType : string;
  ae_TargetID : string; ae_DetailsJSON : string; ae_IP : string; ae_UserAgent : string;
  ae_CreatedAt : Z }.

Definition scanAuditEntry (r : audit_row) : AuditEntry :=
  MkAuditEntry (ra_id r) (scanString (ra_actor_user_id r)) (ra_event_type r)
    (scanString (ra_target_type r)) (scanString (ra_target_id r))
    (scanString (ra_details_json r)) (scanString (ra_ip r)) (scanString (ra_user_agent r))
    (ra_created_at r).

(** ** Machine credentials and passkeys *)

Record feed_token_row := FeedTokenRow {
  rf_id : string; rf_label : string; rf_token_hash : string; rf_created_by : option string;
  rf_created_at : Z; rf_last_used_at : option Z }.

Record FeedToken := MkFeedToken {
  ft_ID : string; ft_Label : string; ft_TokenHash : string; ft_CreatedBy : string;
  ft_CreatedAt : Z; ft_LastUsedAt : Z }.

Definition scanFeedToken (r : feed_token_row) : FeedToken :=
  MkFeedToken (rf_id r) (rf_label r) (rf_token_hash r) (scanString (rf_created_by r))
    (rf_created_at r) (scanInt64 (rf_last_used_at r)).

Record api_key_row := APIKeyRow {
  rk_id : string; rk_user_id : string; rk_label : string; rk_key_hash : string;
  rk_admin_scope : Z; rk_created_at : Z; rk_last_used_at : option Z }.

Record APIKey := MkAPIKey {
  ak_ID : string; ak_UserID : string; ak_Label : string; ak_KeyHash : string;
  ak_AdminScope : bool; ak_CreatedAt : Z; ak_LastUsedAt : Z }.

Definition scanAPIKey (r : api_key_row) : APIKey :=
  MkAPIKey (rk_id r) (rk_user_id r) (rk_label r) (rk_key_hash r)
    (intToBool (rk_admin_scope r)) (rk_created_at r) (scanInt64 (rk_last_used_at r)).

Record credential_row := CredentialRow {
  rw_credential_id : string; rw_user_id : string; rw_credential_json : string;
  rw_name : string; rw_aaguid : option string; rw_created_at : Z; rw_last_used_at : option Z }.

Record WebAuthnCredential := MkWebAuthnCredential {
  wc_CredentialID : string; wc_UserID : string; wc_CredentialJSON : string;
  wc_Name : string; wc_AAGUID : option string; wc_CreatedAt : Z; wc_LastUsedAt : Z }.

Definition scanWebAuthnCredential (r : credential_row) : WebAuthnCredential :=
  MkWebAuthnCredential (rw_credential_id r) (rw_user_id r) (rw_credential_json r)
    (rw_name r) (rw_aaguid r) (rw_created_at r) (scanInt64 (rw_last_used_at r)).

(** ** Notifications and the feed counter *)

Record endpoint_row := EndpointRow {
  re_id : string; re_label : string; re_url : string; re_secret_sealed : string;
  re_enabled : Z; re_created_at : Z; re_updated_at : Z }.

Record NotificationEndpoint := MkEndpoint {
  ne_ID : string; ne_Label : string; ne_URL : string; ne_SecretSealed : string;
  ne_Enabled : bool; ne_CreatedAt : Z; ne_UpdatedAt : Z }.

Definition scanNotificationEndpoint (r : endpoint_row) : NotificationEndpoint :=
  MkEndpoint (re_id r) (re_label r) (re_url r) (re_secret_sealed r)
    (intToBool (re_enabled r)) (re_created_at r) (re_updated_at r).

Record delivery_row := DeliveryRow {
  rv_id : Z; rv_endpoint_id : string; rv_event_type : string; rv_event_id : Z;
  rv_payload : string; rv_attempts : Z; rv_next_attempt_at : option Z; rv_status : string;
  rv_last_failure : option string; rv_created_at : Z; rv_updated_at : Z }.

Record NotificationDelivery := MkDelivery {
  nd_ID : Z; nd_EndpointID : string; nd_EventType : string; nd_EventID : Z;
  nd_Payload : string; nd_Attempts : Z; nd_NextAttemptAt : Z; nd_Status : string;
  nd_LastFailure : string; nd_CreatedAt : Z; nd_UpdatedAt : Z }.

Definition scanDelivery (r : delivery_row) : NotificationDelivery :=
  MkDelivery (rv_id r) (rv_endpoint_id r) (rv_event_type r) (rv_event_id r) (rv_payload r)
    (rv_attempts r) (scanInt64 (rv_next_attempt_at r)) (rv_status r)
    (scanString (rv_last_failure r)) (rv_created_at r) (rv_updated_at r).

Record FeedState := MkFeedState { fs_Seq : Z; fs_ChangedAt : Z }.

(** ** The database *)

Record DB := MkDB {
  d_users : list user_row; d_sessions : list session_row; d_devices : list device_row;
  d_history : list history_row; d_codes : list code_row; d_nonces : list nonce_row;
  d_audit : list audit_row; d_bootstrap : list bootstrap_row; d_flows : list OIDCDeviceFlow;
  d_credentials : list credential_row; d_recovery : list recovery_row;
  d_endpoints : list endpoint_row; d_deliveries : list delivery_row;
  d_feed_tokens : list feed_token_row; d_api_keys : list api_key_row;
  d_feed_state : FeedState;
  (** the AUTOINCREMENT counters (sqlite_sequence) *)
  d_history_seq : Z; d_audit_seq : Z; d_deliveries_seq : Z }.

Definition empty_db : DB :=
  MkDB [] [] [] [] [] [] [] [] [] [] [] [] [] [] [] (MkFeedState 0 0) 0 0 0.

(** A value of a UNIQUE or PRIMARY KEY index, and of a foreign key. *)
Inductive ukey := KStr (l : list string) | KInt (z : Z).
Inductive fkey := FUser (id : string) | FDevice (id : string) | FEndpoint (id : string).

#[export] Instance ukey_eq_dec : EqDecision ukey.
Proof. solve_decision. Defined.
#[export] Instance fkey_eq_dec : EqDecision fkey.
Proof. solve_decision. Defined.

(** The primary keys a foreign key may refer to. *)
Record Parents := MkParents {
  p_users : list string; p_devices : list string; p_endpoints : list string }.

Definition parents (d : DB) : Parents :=
  MkParents (ru_id <$> d_users d) (rd_id <$> d_devices d) (re_id <$> d_endpoints d).

Definition fk_exists (P : Parents) (k : fkey) : bool :=
  match k with
  | FUser id => bool_decide (id ∈ p_users P)
  | FDevice id => bool_decide (id ∈ p_devices P)
  | FEndpoint id => bool_decide (id ∈ p_endpoints P)
  end.

(** What the schema declares of one table. *)
Class TableDef (R : Type) := {
  rows : DB -> list R;
  set_rows : list R -> DB -> DB;
  ukeys : list (R -> option ukey);
  fkeys : R -> list fkey;
  row_check : R -> bool;
  row_id : R -> Z;
  seq_of : DB -> option Z;
  set_seq : Z -> DB -> DB }.

Section Constraints.
Context {R : Type} `{TableDef R}.

Definition uniq_ok (t : list R) : bool :=
    forallb (fun k : R -> option ukey => bool_decide (NoDup (omap k t))) ukeys.

Definition row_ok (P : Parents) (r : R) : bool :=
    row_check r && forallb (fk_exists P) (fkeys r).

  (** The columns the constraints speak of. *)
Definition frame (r : R) : list (option ukey) * list fkey * bool * Z :=
    ((fun k : R -> option ukey => k r) <$> ukeys, fkeys r, row_check r, row_id r).

Record wf_rows (t : list R) (P : Parents) (s : option Z) : Prop := {
    wf_uniq : uniq_ok t = true;
    wf_row : forall r, r ∈ t -> row_ok P r = true;
    wf_seq : match s with
             | Some n => StronglySorted Z.lt (row_id <$> t) /\ (forall r, r ∈ t -> row_id r <= n)
             | None => True
             end }.
End Constraints.

(** ** The tables and their constraints (migrations 00001-00010) *)

Definition setd_users t d := MkDB t (d_sessions d) (d_devices d) (d_history d) (d_codes d) (d_nonces d) (d_audit d) (d_bootstrap d) (d_flows d) (d_credentials d) (d_recovery d) (d_endpoints d) (d_deliveries d) (d_feed_tokens d) (d_api_keys d) (d_feed_state d) (d_history_seq d) (d_audit_seq d) (d_deliveries_seq d).
Definition setd_sessions t d := MkDB (d_users d) t (d_devices d) (d_history d) (d_codes d) (d_nonces d) (d_audit d) (d_bootstrap d) (d_flows d) (d_credentials d) (d_recovery d) (d_endpoints d) (d_deliveries d) (d_feed_tokens d) (d_api_keys d) (d_feed_state d) (d_history_seq d) (d_audit_seq d) (d_deliveries_seq d).
Definition setd_devices t d := MkDB (d_users d) (d_sessions d) t (d_history d) (d_codes d) (d_nonces d) (d_audit d) (d_bootstrap d) (d_flows d) (d_credentials d) (d_recovery d) (d_endpoints d) (d_deliveries d) (d_feed_tokens d) (d_api_keys d) (d_feed_state d) (d_history_seq d) (d_audit_seq d) (d_deliveries_seq d).
Definition setd_history t d := MkDB (d_users d) (d_sessions d) (d_devices d) t (d_codes d) (d_nonces d) (d_audit d) (d_bootstrap d) (d_flows d) (d_credentials d) (d_recovery d) (d_endpoints d) (d_deliveries d) (d_feed_tokens d) (d_api_keys d) (d_feed_state d) (d_history_seq d) (d_audit_seq d) (d_deliveries_seq d).
Definition setd_codes t d := MkDB (d_users d) (d_sessions d) (d_devices d) (d_history d) t (d_nonces d) (d_audit d) (d_bootstrap d) (d_flows d) (d_credentials d) (d_recovery d) (d_endpoints d) (d_deliveries d) (d_feed_tokens d) (d_api_keys d) (d_feed_state d) (d_history_seq d) (d_audit_seq d) (d_deliveries_seq d).
Definition setd_nonces t d := MkDB (d_users d) (d_sessions d) (d_devices d) (d_history d) (d_codes d) t (d_audit d) (d_bootstrap d) (d_flows d) (d_credentials d) (d_recovery d) (d_endpoints d) (d_deliveries d) (d_feed_tokens d) (d_api_keys d) (d_feed_state d) (d_history_seq d) (d_audit_seq d) (d_deliveries_seq d).
Definition setd_audit t d := MkDB (d_users d) (d_sessions d) (d_devices d) (d_history d) (d_codes d) (d_nonces d) t (d_bootstrap d) (d_flows d) (d_credentials d) (d_recovery d) (d_endpoints d) (d_deliveries d) (d_feed_tokens d) (d_api_keys d) (d_feed_state d) (d_history_seq d) (d_audit_seq d) (d_deliveries_seq d).
Definition setd_bootstrap t d := MkDB (d_users d) (d_sessions d) (d_devices d) (d_history d) (d_codes d) (d_nonces d) (d_audit d) t (d_flows d) (d_credentials d) (d_recovery d) (d_endpoints d) (d_deliveries d) (d_feed_tokens d) (d_api_keys d) (d_feed_state d) (d_history_seq d) (d_audit_seq d) (d_deliveries_seq d).
Definition setd_flows t d := MkDB (d_users d) (d_sessions d) (d_devices d) (d_history d) (d_codes d) (d_nonces d) (d_audit d) (d_bootstrap d) t (d_credentials d) (d_recovery d) (d_endpoints d) (d_deliveries d) (d_feed_tokens d) (d_api_keys d) (d_feed_state d) (d_history_seq d) (d_audit_seq d) (d_deliveries_seq d).
Definition setd_credentials t d := MkDB (d_users d) (d_sessions d) (d_devices d) (d_history d) (d_codes d) (d_nonces d) (d_audit d) (d_bootstrap d) (d_flows d) t (d_recovery d) (d_endpoints d) (d_deliveries d) (d_feed_tokens d) (d_api_keys d) (d_feed_state d) (d_history_seq d) (d_audit_seq d) (d_deliveries_seq d).
Definition setd_recovery t d := MkDB (d_users d) (d_sessions d) (d_devices d) (d_history d) (d_codes d) (d_nonces d) (d_audit d) (d_bootstrap d) (d_flows d) (d_credentials d) t (d_endpoints d) (d_deliveries d) (d_feed_tokens d) (d_api_keys d) (d_feed_state d) (d_history_seq d) (d_audit_seq d) (d_deliveries_seq d).
Definition setd_endpoints t d := MkDB (d_users d) (d_sessions d) (d_devices d) (d_history d) (d_codes d) (d_nonces d) (d_audit d) (d_bootstrap d) (d_flows d) (d_credentials d) (d_recovery d) t (d_deliveries d) (d_feed_tokens d) (d_api_keys d) (d_feed_state d) (d_history_seq d) (d_audit_seq d) (d_deliveries_seq d).
Definition setd_deliveries t d := MkDB (d_users d) (d_sessions d) (d_devices d) (d_history d) (d_codes d) (d_nonces d) (d_audit d) (d_bootstrap d) (d_flows d) (d_credentials d) (d_recovery d) (d_endpoints d) t (d_feed_tokens d) (d_api_keys d) (d_feed_state d) (d_history_seq d) (d_audit_seq d) (d_deliveries_seq d).
Definition setd_feed_tokens t d := MkDB (d_users d) (d_sessions d) (d_devices d) (d_history d) (d_codes d) (d_nonces d) (d_audit d) (d_bootstrap d) (d_flows d) (d_credentials d) (d_recovery d) (d_endpoints d) (d_deliveries d) t (d_api_keys d) (d_feed_state d) (d_history_seq d) (d_audit_seq d) (d_deliveries_seq d).
Definition setd_api_keys t d := MkDB (d_users d) (d_sessions d) (d_devices d) (d_history d) (d_codes d) (d_nonces d) (d_audit d) (d_bootstrap d) (d_flows d) (d_credentials d) (d_recovery d) (d_endpoints d) (d_deliveries d) (d_feed_tokens d) t (d_feed_state d) (d_history_seq d) (d_audit_seq d) (d_deliveries_seq d).
Definition setd_feed_state s d := MkDB (d_users d) (d_sessions d) (d_devices d) (d_history d) (d_codes d) (d_nonces d) (d_audit d) (d_bootstrap d) (d_flows d) (d_credentials d) (d_recovery d) (d_endpoints d) (d_deliveries d) (d_feed_tokens d) (d_api_keys d) s (d_history_seq d) (d_audit_seq d) (d_deliveries_seq d).
Definition setd_history_seq n d := MkDB (d_users d) (d_sessions d) (d_devices d) (d_history d) (d_codes d) (d_nonces d) (d_audit d) (d_bootstrap d) (d_flows d) (d_credentials d) (d_recovery d) (d_endpoints d) (d_deliveries d) (d_feed_tokens d) (d_api_keys d) (d_feed_state d) n (d_audit_seq d) (d_deliveries_seq d).
Definition setd_audit_seq n d := MkDB (d_users d) (d_sessions d) (d_devices d) (d_history d) (d_codes d) (d_nonces d) (d_audit d) (d_bootstrap d) (d_flows d) (d_credentials d) (d_recovery d) (d_endpoints d) (d_deliveries d) (d_feed_tokens d) (d_api_keys d) (d_feed_state d) (d_history_seq d) n (d_deliveries_seq d).
Definition setd_deliveries_seq n d := MkDB (d_users d) (d_sessions d) (d_devices d) (d_history d) (d_codes d) (d_nonces d) (d_audit d) (d_bootstrap d) (d_flows d) (d_credentials d) (d_recovery d) (d_endpoints d) (d_deliveries d) (d_feed_tokens d) (d_api_keys d) (d_feed_state d) (d_history_seq d) (d_audit_seq d) n.

Definition no_seq (n : Z) (d : DB) : DB := d.

#[export] Instance users_table : TableDef user_row := {|
  rows := d_users; set_rows := setd_users;
  ukeys := [fun r => Some (KStr [ru_id r]); fun r => Some (KStr [ru_email r]);
            fun r => match ru_oidc_provider r, ru_oidc_subject r with
                     | Some p, Some s => Some (KStr [p; s])
                     | _, _ => None
                     end;
            fun r => (fun h => KStr [h]) <$> ru_webauthn_handle r];
  fkeys := fun _ => [];
  row_check := fun r => bool_decide (ru_role r = "admin"%string) || bool_decide (ru_role r = "user"%string);
  row_id := fun _ => 0; seq_of := fun _ => None; set_seq := no_seq |}.

#[export] Instance sessions_table : TableDef session_row := {|
  rows := d_sessions; set_rows := setd_sessions;
  ukeys := [fun r => Some (KStr [rs_id r])];
  fkeys := fun r => [FUser (rs_user_id r)]; row_check := fun _ => true;
  row_id := fun _ => 0; seq_of := fun _ => None; set_seq := no_seq |}.

#[export] Instance devices_table : TableDef device_row := {|
  rows := d_devices; set_rows := setd_devices;
  ukeys := [fun r => Some (KStr [rd_id r]); fun r => Some (KStr [rd_user_id r; rd_label r])];
  fkeys := fun r => [FUser (rd_user_id r)]; row_check := fun _ => true;
  row_id := fun _ => 0; seq_of := fun _ => None; set_seq := no_seq |}.

#[export] Instance history_table : TableDef history_row := {|
  rows := d_history; set_rows := setd_history;
  ukeys := [fun r => Some (KInt (rh_id r))];
  fkeys := fun r => [FDevice (rh_device_id r)]; row_check := fun _ => true;
  row_id := rh_id; seq_of := fun d => Some (d_history_seq d); set_seq := setd_history_seq |}.

#[export] Instance codes_table : TableDef code_row := {|
  rows := d_codes; set_rows := setd_codes;
  ukeys := [fun r => Some (KStr [rc_code r])];
  fkeys := fun r => FUser (rc_user_id r) ::
    match rc_device_id r with Some i => [FDevice i] | None => [] end;
  row_check := fun _ => true;
  row_id := fun _ => 0; seq_of := fun _ => None; set_seq := no_seq |}.

#[export] Instance nonces_table : TableDef nonce_row := {|
  rows := d_nonces; set_rows := setd_nonces;
  ukeys := [fun r => Some (KStr [rn_signature r])];
  fkeys := fun _ => []; row_check := fun _ => true;
  row_id := fun _ => 0; seq_of := fun _ => None; set_seq := no_seq |}.

#[export] Instance audit_table : TableDef audit_row := {|
  rows := d_audit; set_rows := setd_audit;
  ukeys := [fun r => Some (KInt (ra_id r))];
  fkeys := fun _ => []; row_check := fun _ => true;
  row_id := ra_id; seq_of := fun d => Some (d_audit_seq d); set_seq := setd_audit_seq |}.

#[export] Instance bootstrap_table : TableDef bootstrap_row := {|
  rows := d_bootstrap; set_rows := setd_bootstrap;
  ukeys := [fun r => Some (KInt (rb_id r))];
  fkeys := fun _ => []; row_check := fun r => rb_id r =? 1;
  row_id := fun _ => 0; seq_of := fun _ => None; set_seq := no_seq |}.

#[export] Instance flows_table : TableDef OIDCDeviceFlow := {|
  rows := d_flows; set_rows := setd_flows;
  ukeys := [fun r => Some (KStr [fl_FlowID r])];
  fkeys := fun _ => []; row_check := fun _ => true;
  row_id := fun _ => 0; seq_of := fun _ => None; set_seq := no_seq |}.

#[export] Instance credentials_table : TableDef credential_row := {|
  rows := d_credentials; set_rows := setd_credentials;
  ukeys := [fun r => Some (KStr [rw_credential_id r])];
  fkeys := fun r => [FUser (rw_user_id r)]; row_check := fun _ => true;
  row_id := fun _ => 0; seq_of := fun _ => None; set_seq := no_seq |}.

#[export] Instance recovery_table : TableDef recovery_row := {|
  rows := d_recovery; set_rows := setd_recovery;
  ukeys := [fun r => Some (KStr [rr_token_hash r])];
  fkeys := fun r => [FUser (rr_user_id r)]; row_check := fun _ => true;
  row_id := fun _ => 0; seq_of := fun _ => None; set_seq := no_seq |}.

#[export] Instance endpoints_table : TableDef endpoint_row := {|
  rows := d_endpoints; set_rows := setd_endpoints;
  ukeys := [fun r => Some (KStr [re_id r]); fun r => Some (KStr [re_url r])];
  fkeys := fun _ => []; row_check := fun _ => true;
  row_id := fun _ => 0; seq_of := fun _ => None; set_seq := no_seq |}.

#[export] Instance deliveries_table : TableDef delivery_row := {|
  rows := d_deliveries; set_rows := setd_deliveries;
  ukeys := [fun r => Some (KInt (rv_id r))];
  fkeys := fun r => [FEndpoint (rv_endpoint_id r)]; row_check := fun _ => true;
  row_id := rv_id; seq_of := fun d => Some (d_deliveries_seq d); set_seq := setd_deliveries_seq |}.

#[export] Instance feed_tokens_table : TableDef feed_token_row := {|
  rows := d_feed_tokens; set_rows := setd_feed_tokens;
  ukeys := [fun r => Some (KStr [rf_id r]); fun r => Some (KStr [rf_label r]);
            fun r => Some (KStr [rf_token_hash r])];
  fkeys := fun r => match rf_created_by r with Some u => [FUser u] | None => [] end;
  row_check := fun _ => true;
  row_id := fun _ => 0; seq_of := fun _ => None; set_seq := no_seq |}.

#[export] Instance api_keys_table : TableDef api_key_row := {|
  rows := d_api_keys; set_rows := setd_api_keys;
  ukeys := [fun r => Some (KStr [rk_id r]); fun r => Some (KStr [rk_key_hash r]);
            fun r => Some (KStr [rk_user_id r; rk_label r])];
  fkeys := fun r => [FUser (rk_user_id r)]; row_check := fun _ => true;
  row_id := fun _ => 0; seq_of := fun _ => None; set_seq := no_seq |}.

(** ** Referential actions on delete *)

(** DELETE FROM devices WHERE p: history rows go, codes keep a NULL device. *)
Definition delete_devices (p : device_row -> bool) (d : DB) : DB :=
  let gone := rd_id <$> List.filter p (d_devices d) in
  let hit (id : string) := bool_decide (id ∈ gone) in
  let d1 := setd_history (rows_delete (fun r => hit (rh_device_id r)) (d_history d)) d in
  let d2 := setd_codes (rows_update
      (fun r => match rc_device_id r with Some i => hit i | None => false end)
      (fun r => CodeRow (rc_code r) (rc_user_id r) (rc_label r) (rc_expires_at r) (rc_used_at r) None)
      (d_codes d1)) d1 in
  setd_devices (rows_delete p (d_devices d2)) d2.

(** DELETE FROM users WHERE p. *)
Definition delete_users (p : user_row -> bool) (d : DB) : DB :=
  let gone := ru_id <$> List.filter p (d_users d) in
  let hit (id : string) := bool_decide (id ∈ gone) in
  let d := delete_devices (fun r => hit (rd_user_id r)) d in
  let d := setd_sessions (rows_delete (fun r => hit (rs_user_id r)) (d_sessions d)) d in
  let d := setd_codes (rows_delete (fun r => hit (rc_user_id r)) (d_codes d)) d in
  let d := setd_credentials (rows_delete (fun r => hit (rw_user_id r)) (d_credentials d)) d in
  let d := setd_recovery (rows_delete (fun r => hit (rr_user_id r)) (d_recovery d)) d in
  let d := setd_api_keys (rows_delete (fun r => hit (rk_user_id r)) (d_api_keys d)) d in
  let d := setd_feed_tokens (rows_update
      (fun r => match rf_created_by r with Some u => hit u | None => false end)
      (fun r => FeedTokenRow (rf_id r) (rf_label r) (rf_token_hash r) None (rf_created_at r) (rf_last_used_at r))
      (d_feed_tokens d)) d in
  setd_users (rows_delete p (d_users d)) d.

(** DELETE FROM notification_endpoints WHERE p. *)
Definition delete_endpoints (p : endpoint_row -> bool) (d : DB) : DB :=
  let gone := re_id <$> List.filter p (d_endpoints d) in
  let d := setd_deliveries (rows_delete
      (fun r => bool_decide (rv_endpoint_id r ∈ gone)) (d_deliveries d)) d in
  setd_endpoints (rows_delete p (d_endpoints d)) d.
