(* ===== verification/Integrity.v ===== *)
(** * Referential integrity of the database

    [wf_db] is the invariant the schema declares: every UNIQUE index holds,
    every CHECK holds, every foreign key refers to a row, and the ids of the
    AUTOINCREMENT tables are strictly increasing and bounded by their counter.
    The lemmas below show that each kind of statement preserves it; the file
    Effects lifts them to the statements of the program, and every repository
    operation inherits the invariant from there. *)

From S2P Require Import Prelude Schema.

Definition parents_le (P Q : Parents) : Prop :=
  p_users P ⊆ p_users Q /\ p_devices P ⊆ p_devices Q /\ p_endpoints P ⊆ p_endpoints Q.

Lemma parents_le_refl P : parents_le P P.
Proof. by repeat split. Qed.
#[export] Hint Resolve parents_le_refl : tables.

Lemma fk_exists_mono P Q k : parents_le P Q -> fk_exists P k = true -> fk_exists Q k = true.
Proof.
  intros (H1 & H2 & H3). destruct k; simpl; rewrite !bool_decide_eq_true; auto.
Qed.

Record wf_db (d : DB) : Prop := {
  wf_users : wf_rows (d_users d) (parents d) None;
  wf_sessions : wf_rows (d_sessions d) (parents d) None;
  wf_devices : wf_rows (d_devices d) (parents d) None;
  wf_history : wf_rows (d_history d) (parents d) (Some (d_history_seq d));
  wf_codes : wf_rows (d_codes d) (parents d) None;
  wf_nonces : wf_rows (d_nonces d) (parents d) None;
  wf_audit : wf_rows (d_audit d) (parents d) (Some (d_audit_seq d));
  wf_bootstrap : wf_rows (d_bootstrap d) (parents d) None;
  wf_flows : wf_rows (d_flows d) (parents d) None;
  wf_credentials : wf_rows (d_credentials d) (parents d) None;
  wf_recovery : wf_rows (d_recovery d) (parents d) None;
  wf_endpoints : wf_rows (d_endpoints d) (parents d) None;
  wf_deliveries : wf_rows (d_deliveries d) (parents d) (Some (d_deliveries_seq d));
  wf_feed_tokens : wf_rows (d_feed_tokens d) (parents d) None;
  wf_api_keys : wf_rows (d_api_keys d) (parents d) None }.

Section RowLemmas.
Context {R : Type} `{TableDef R}.
  Implicit Types (t : list R) (P : Parents).

Lemma omap_sublist {K : Type} (k : R -> option K) t1 t2 :
    t1 `sublist_of` t2 -> omap k t1 `sublist_of` omap k t2.
  Proof.
    induction 1 as [|x t1 t2 _ IH|x t1 t2 _ IH]; simpl; [constructor| |];
      (destruct (k x); [by constructor|done]).
  Qed.

Lemma uniq_ok_iff t :
    uniq_ok t = true <-> forall k, k ∈ ukeys -> NoDup (omap k t).
  Proof.
    unfold uniq_ok. rewrite forallb_forall. split.
    - intros Hf k Hk. specialize (Hf k). rewrite <- list_elem_of_In, bool_decide_eq_true in Hf. auto.
    - intros Hf k Hk. rewrite bool_decide_eq_true. apply Hf. by rewrite list_elem_of_In.
  Qed.

Lemma uniq_ok_sublist t1 t2 : t1 `sublist_of` t2 -> uniq_ok t2 = true -> uniq_ok t1 = true.
  Proof.
    intros Hsub. rewrite !uniq_ok_iff. intros Hu k Hk.
    eapply sublist_NoDup; [by apply Hu|]. by apply omap_sublist.
  Qed.

Lemma frame_key r r' k : frame r = frame r' -> k ∈ ukeys -> k r = k r'.
  Proof.
    unfold frame. intros Hf Hk. injection Hf as Hu _ _ _.
    revert Hu Hk. generalize (ukeys (R:=R)). intros ks.
    induction ks as [|k' ks IH]; simpl; intros Hu Hk; [by apply elem_of_nil in Hk|].
    injection Hu as Hu1 Hu2. apply elem_of_cons in Hk as [->|Hk]; auto.
  Qed.

Lemma frame_row_ok r r' P : frame r = frame r' -> row_ok P r = row_ok P r'.
  Proof. unfold frame, row_ok. intros Hf. injection Hf as _ -> -> _. done. Qed.

Lemma frame_id r r' : frame r = frame r' -> row_id r = row_id r'.
  Proof. unfold frame. intros Hf. by injection Hf as _ _ _ ->. Qed.

Lemma wf_rows_delete t P s p : wf_rows t P s -> wf_rows (rows_delete p t) P s.
  Proof.
    intros [Hu Hr Hs]. split.
    - eapply uniq_ok_sublist; [apply bfilter_sublist|done].
    - intros r [Hin _]%elem_of_rows_delete. auto.
    - destruct s as [n|]; [|done]. destruct Hs as [Hs Hb]. split.
      + unfold rows_delete. clear -Hs. induction t as [|r t IH]; simpl; [constructor|].
        inversion Hs as [|? ? Hs' Hall]; subst. destruct (negb (p r)); simpl; [|by apply IH].
        constructor; [by apply IH|]. rewrite Forall_fmap in Hall |- *.
        rewrite Forall_forall in Hall |- *. intros x [Hx _]%elem_of_bfilter. by apply Hall.
      + intros r [Hin _]%elem_of_rows_delete. auto.
  Qed.

Lemma omap_rows_update (k : R -> option ukey) p f t :
    (forall r, r ∈ t -> k (f r) = k r) -> omap k (rows_update p f t) = omap k t.
  Proof.
    unfold rows_update. induction t as [|r t IH]; intros Hk; [done|].
    specialize (IH ltac:(intros; apply Hk; by right)).
    rewrite fmap_cons. cbn [omap list_omap]. rewrite IH.
    destruct (p r); [|done]. rewrite Hk by left. done.
  Qed.

Lemma wf_rows_update t P s p f :
    (forall r, r ∈ t -> p r = true -> frame (f r) = frame r) ->
    wf_rows t P s -> wf_rows (rows_update p f t) P s.
  Proof.
    intros Hfr [Hu Hr Hs].
    set (g := fun r => if p r then f r else r).
    assert (Hg : forall r, r ∈ t -> frame (g r) = frame r).
    { intros r Hin. unfold g. destruct (p r) eqn:Hp; auto. }
    assert (Heq : rows_update p f t = rows_update (fun _ => true) g t) by done.
    rewrite Heq. clear Heq. split.
    - rewrite uniq_ok_iff in Hu |- *. intros k Hk. rewrite omap_rows_update; [by apply Hu|].
      intros r Hin. by apply frame_key; [apply Hg|].
    - intros r (r0 & Hin & ->)%elem_of_rows_update.
      erewrite frame_row_ok; [by apply Hr|]. by apply Hg.
    - destruct s as [n|]; [|done]. destruct Hs as [Hs Hb]. split.
      + rewrite rows_update_key; [done|]. intros r Hin. by apply frame_id, Hg.
      + intros r (r0 & Hin & ->)%elem_of_rows_update.
        erewrite frame_id; [by apply Hb|]. by apply Hg.
  Qed.

Lemma wf_rows_mono t P Q s : parents_le P Q -> wf_rows t P s -> wf_rows t Q s.
  Proof.
    intros Hle [Hu Hr Hs]. split; [done| |done].
    intros r Hin. specialize (Hr r Hin). unfold row_ok in *.
    rewrite andb_true_iff, forallb_forall in *. destruct Hr as [Hc Hf].
    split; [done|]. intros k Hk. eapply fk_exists_mono; eauto.
  Qed.

  (** What the checked statements verify. *)
Lemma wf_rows_insert t P r :
    uniq_ok (t ++ [r]) = true -> row_ok P r = true -> wf_rows t P None -> wf_rows (t ++ [r]) P None.
  Proof.
    intros Hu Hok [_ Hr _]. split; [done| |done].
    intros r' [Hin| ->%list_elem_of_singleton]%elem_of_app; auto.
  Qed.

Lemma wf_rows_insert_auto t P r n :
    uniq_ok (t ++ [r]) = true -> row_ok P r = true -> row_id r = n + 1 ->
    wf_rows t P (Some n) -> wf_rows (t ++ [r]) P (Some (n + 1)).
  Proof.
    intros Hu Hok Hid [_ Hr [Hs Hb]]. split; [done| |split].
    - intros r' [Hin| ->%list_elem_of_singleton]%elem_of_app; auto.
    - rewrite fmap_app. simpl. rewrite Hid. clear -Hs Hb.
      induction t as [|x t IH]; simpl; [repeat constructor|].
      inversion Hs as [|? ? Hs' Hall]; subst. constructor.
      + apply IH; [done|]. intros r Hin. apply Hb. by right.
      + rewrite Forall_app. split; [done|]. repeat constructor.
        specialize (Hb x ltac:(left)). lia.
    - intros r' [Hin| ->%list_elem_of_singleton]%elem_of_app; [|lia].
      specialize (Hb r' Hin). lia.
  Qed.

Lemma wf_rows_update_checked t P p f :
    uniq_ok (rows_update p f t) = true ->
    forallb (row_ok P) (f <$> List.filter p t) = true ->
    wf_rows t P None -> wf_rows (rows_update p f t) P None.
  Proof.
    intros Hu Hok [_ Hr _]. split; [done| |done].
    intros r (r0 & Hin & ->)%elem_of_rows_update. destruct (p r0) eqn:Hp; [|by apply Hr].
    rewrite forallb_forall in Hok. apply Hok. apply list_elem_of_In.
    apply list_elem_of_fmap. exists r0. split; [done|]. by apply elem_of_bfilter.
  Qed.
End RowLemmas.

(** ** Tables inside the database *)

Class TableLaws (R : Type) `{TableDef R} := {
  tl_rows : forall t d, rows (set_rows t d) = t;
  tl_seq : forall t d, seq_of (set_rows t d) = seq_of d;
  tl_wf_get : forall d, wf_db d -> wf_rows (rows d) (parents d) (seq_of d);
  tl_wf_set : forall t d, wf_db d -> parents_le (parents d) (parents (set_rows t d)) ->
    wf_rows t (parents (set_rows t d)) (seq_of d) -> wf_db (set_rows t d);
  tl_wf_seq : forall t n m d, wf_db d -> seq_of d = Some m ->
    parents_le (parents d) (parents (set_rows t d)) ->
    wf_rows t (parents (set_rows t d)) (Some n) -> wf_db (set_seq n (set_rows t d));
  tl_update : forall p f d, (forall r, r ∈ rows d -> p r = true -> frame (f r) = frame r) ->
    parents (set_rows (rows_update p f (rows d)) d) = parents d;
  tl_grow : forall r d, parents_le (parents d) (parents (set_rows (rows d ++ [r]) d)) }.

(** Tables no foreign key refers to. *)
Class LeafTable (R : Type) `{TableDef R} := {
  leaf_parents : forall t d, parents (set_rows t d) = parents d }.

Lemma rows_update_id_key {R : Type} `{TableDef R} (key : R -> string) p f t :
  (exists k, k ∈ ukeys /\ forall r, k r = Some (KStr [key r])) ->
  (forall r, r ∈ t -> p r = true -> frame (f r) = frame r) ->
  key <$> rows_update p f t = key <$> t.
Proof.
  intros (k & Hk & Hkey) Hfr. unfold rows_update. rewrite <- list_fmap_compose.
  apply list_fmap_ext. intros i r Hi%list_elem_of_lookup_2. simpl.
  destruct (p r) eqn:Hp; [|done]. pose proof (frame_key _ _ k (Hfr r Hi Hp) Hk) as Heq.
  rewrite !Hkey in Heq. by simplify_eq.
Qed.

Ltac solve_table_laws :=
  split;
  [ done | done
  | intros d []; done
  | intros t d [] Hle Ht; split; try done; by eapply wf_rows_mono
  | intros t n m d [] Hs Hle Ht; simpl in Hs; first [discriminate Hs |
      split; try done; by eapply wf_rows_mono]
  | intros p f d Hfr; unfold parents; simpl; first
      [ done
      | f_equal; apply rows_update_id_key; [eexists; split; [left | done] | done] ]
  | intros r d; repeat split; simpl; first [done | rewrite fmap_app; intros ? ?; rewrite elem_of_app; by left] ].

#[export] Instance users_laws : TableLaws user_row.
Proof. solve_table_laws. Qed.
#[export] Instance sessions_laws : TableLaws session_row.
Proof. solve_table_laws. Qed.
#[export] Instance devices_laws : TableLaws device_row.
Proof. solve_table_laws. Qed.
#[export] Instance history_laws : TableLaws history_row.
Proof. solve_table_laws. Qed.
#[export] Instance codes_laws : TableLaws code_row.
Proof. solve_table_laws. Qed.
#[export] Instance nonces_laws : TableLaws nonce_row.
Proof. solve_table_laws. Qed.
#[export] Instance audit_laws : TableLaws audit_row.
Proof. solve_table_laws. Qed.
#[export] Instance bootstrap_laws : TableLaws bootstrap_row.
Proof. solve_table_laws. Qed.
#[export] Instance flows_laws : TableLaws OIDCDeviceFlow.
Proof. solve_table_laws. Qed.
#[export] Instance credentials_laws : TableLaws credential_row.
Proof. solve_table_laws. Qed.
#[export] Instance recovery_laws : TableLaws recovery_row.
Proof. solve_table_laws. Qed.
#[export] Instance endpoints_laws : TableLaws endpoint_row.
Proof. solve_table_laws. Qed.
#[export] Instance deliveries_laws : TableLaws delivery_row.
Proof. solve_table_laws. Qed.
#[export] Instance feed_tokens_laws : TableLaws feed_token_row.
Proof. solve_table_laws. Qed.
#[export] Instance api_keys_laws : TableLaws api_key_row.
Proof. solve_table_laws. Qed.

#[export] Instance sessions_leaf : LeafTable session_row.
Proof. by split. Qed.
#[export] Instance history_leaf : LeafTable history_row.
Proof. by split. Qed.
#[export] Instance codes_leaf : LeafTable code_row.
Proof. by split. Qed.
#[export] Instance nonces_leaf : LeafTable nonce_row.
Proof. by split. Qed.
#[export] Instance audit_leaf : LeafTable audit_row.
Proof. by split. Qed.
#[export] Instance bootstrap_leaf : LeafTable bootstrap_row.
Proof. by split. Qed.
#[export] Instance flows_leaf : LeafTable OIDCDeviceFlow.
Proof. by split. Qed.
#[export] Instance credentials_leaf : LeafTable credential_row.
Proof. by split. Qed.
#[export] Instance recovery_leaf : LeafTable recovery_row.
Proof. by split. Qed.
#[export] Instance deliveries_leaf : LeafTable delivery_row.
Proof. by split. Qed.
#[export] Instance feed_tokens_leaf : LeafTable feed_token_row.
Proof. by split. Qed.
#[export] Instance api_keys_leaf : LeafTable api_key_row.
Proof. by split. Qed.

(** ** The statements preserve integrity *)

Section StatementLemmas.
Context {R : Type} `{TL : TableLaws R}.

Lemma wf_db_update p f d :
    (forall r, r ∈ rows d -> p r = true -> frame (f r) = frame r) ->
    wf_db d -> wf_db (set_rows (rows_update p f (rows d)) d).
  Proof.
    intros Hfr Hwf. apply tl_wf_set; [done|rewrite tl_update by done; auto with tables|].
    rewrite tl_update by done. apply wf_rows_update; [done|]. by apply tl_wf_get.
  Qed.

Lemma wf_db_insert r d :
    seq_of d = None -> uniq_ok (rows d ++ [r]) = true ->
    row_ok (parents (set_rows (rows d ++ [r]) d)) r = true ->
    wf_db d -> wf_db (set_rows (rows d ++ [r]) d).
  Proof.
    intros Hs Hu Hok Hwf. apply tl_wf_set; [done|apply tl_grow|]. rewrite Hs.
    apply wf_rows_insert; [done|done|]. rewrite <- Hs.
    eapply wf_rows_mono; [apply tl_grow|]. by apply tl_wf_get.
  Qed.

Lemma wf_db_insert_auto r n d :
    seq_of d = Some n -> row_id r = n + 1 -> uniq_ok (rows d ++ [r]) = true ->
    row_ok (parents (set_rows (rows d ++ [r]) d)) r = true ->
    wf_db d -> wf_db (set_seq (n + 1) (set_rows (rows d ++ [r]) d)).
  Proof.
    intros Hs Hid Hu Hok Hwf. eapply tl_wf_seq; [done|done|apply tl_grow|].
    apply wf_rows_insert_auto; [done|done|done|]. rewrite <- Hs.
    eapply wf_rows_mono; [apply tl_grow|]. by apply tl_wf_get.
  Qed.

Lemma wf_db_update_checked p f d :
    seq_of d = None ->
    parents (set_rows (rows_update p f (rows d)) d) = parents d ->
    uniq_ok (rows_update p f (rows d)) = true ->
    forallb (row_ok (parents d)) (f <$> List.filter p (rows d)) = true ->
    wf_db d -> wf_db (set_rows (rows_update p f (rows d)) d).
  Proof.
    intros Hs Hp Hu Hok Hwf. apply tl_wf_set; [done|rewrite Hp; auto with tables|].
    rewrite Hp, Hs. apply wf_rows_update_checked; [done|done|]. rewrite <- Hs.
    by apply tl_wf_get.
  Qed.

Lemma wf_db_delete `{!LeafTable R} p d :
    wf_db d -> wf_db (set_rows (rows_delete p (rows d)) d).
  Proof.
    intros Hwf. apply tl_wf_set; [done|rewrite leaf_parents; auto with tables|].
    rewrite leaf_parents. apply wf_rows_delete. by apply tl_wf_get.
  Qed.
End StatementLemmas.

(** Rows that refer to surviving parents stay valid. *)
Lemma wf_rows_shrink {R : Type} `{TableDef R} (t : list R) P Q s :
  (forall r k, r ∈ t -> k ∈ fkeys r -> fk_exists P k = true -> fk_exists Q k = true) ->
  wf_rows t P s -> wf_rows t Q s.
Proof.
  intros Hk [Hu Hr Hs]. split; [done| |done].
  intros r Hin. specialize (Hr r Hin). unfold row_ok in *.
  rewrite andb_true_iff, forallb_forall in *. destruct Hr as [Hc Hf].
  split; [done|]. intros k Hkr. apply (Hk r); [done| |by apply Hf]. by apply list_elem_of_In.
Qed.

Lemma surviving_key {A : Type} (key : A -> string) p (t : list A) id :
  id ∈ key <$> t -> id ∉ key <$> List.filter p t -> id ∈ key <$> rows_delete p t.
Proof.
  intros (x & -> & Hx)%list_elem_of_fmap Hno.
  apply list_elem_of_fmap. exists x. split; [done|].
  apply elem_of_rows_delete. split; [done|]. destruct (p x) eqn:Hp; [|done].
  destruct Hno. apply list_elem_of_fmap. exists x. split; [done|].
  by apply elem_of_bfilter.
Qed.

(** [fk_cases Hk] enumerates the foreign keys of a row. *)
Ltac fk_cases Hk :=
  simpl in Hk; repeat case_match;
  repeat first [ by apply elem_of_nil in Hk
               | apply elem_of_cons in Hk as [Hk|Hk]; [subst; simpl; try done|] ].

Lemma wf_delete_endpoints p d : wf_db d -> wf_db (delete_endpoints p d).
Proof.
  intros Hwf. destruct Hwf. unfold delete_endpoints. split; simpl.
  all: try (by apply wf_rows_delete).
  all: try (eapply wf_rows_shrink; [|eassumption]; intros r k Hin Hk; by fk_cases Hk).
  - eapply wf_rows_shrink; [|by apply wf_rows_delete]. intros r k _ Hk. by fk_cases Hk.
  - eapply wf_rows_shrink; [|by apply wf_rows_delete]. intros r k Hin Hk Hex.
    apply elem_of_rows_delete in Hin as [_ Hno]. rewrite bool_decide_eq_false in Hno.
    fk_cases Hk. simpl in *. rewrite bool_decide_eq_true in *. by apply surviving_key.
Qed.

Lemma wf_delete_devices p d : wf_db d -> wf_db (delete_devices p d).
Proof.
  intros Hwf. destruct Hwf. unfold delete_devices. split; simpl.
  all: try (eapply wf_rows_shrink; [|eassumption]; intros r k Hin Hk; by fk_cases Hk).
  - eapply wf_rows_shrink; [|by apply wf_rows_delete]. intros r k _ Hk. by fk_cases Hk.
  - eapply wf_rows_shrink; [|by apply wf_rows_delete]. intros r k Hin Hk Hex.
    apply elem_of_rows_delete in Hin as [_ Hno]. rewrite bool_decide_eq_false in Hno.
    fk_cases Hk. simpl in *. rewrite bool_decide_eq_true in *. by apply surviving_key.
  - (* codes: a NULL device needs no parent *)
    destruct wf_codes0 as [Hu Hr _]. split; [| |done].
    + rewrite uniq_ok_iff in Hu |- *. intros k Hk. rewrite omap_rows_update; [by apply Hu|].
      intros r _. simpl in Hk. by apply list_elem_of_singleton in Hk as ->.
    + intros r (r0 & Hin & ->)%elem_of_rows_update. specialize (Hr r0 Hin).
      unfold row_ok in *. simpl in *. rewrite andb_true_iff in Hr. destruct Hr as [Hu' Hd].
      destruct (rc_device_id r0) as [i|] eqn:Hi; simpl; [|by rewrite Hi; simpl; rewrite Hu'].
      destruct (bool_decide (i ∈ _)) eqn:Hgone; simpl; [by rewrite Hu'|].
      rewrite bool_decide_eq_false in Hgone. rewrite Hi. simpl in *. rewrite Hu'. simpl.
      rewrite andb_true_r, bool_decide_eq_true in *. by apply surviving_key.
Qed.

(** No row of [t] refers to one of the users [gone]. *)
Definition no_user_ref {R : Type} `{TableDef R} (gone : list string) (t : list R) : Prop :=
  forall r id, r ∈ t -> FUser id ∈ fkeys r -> id ∉ gone.

Lemma no_user_ref_leaf {R : Type} `{TableDef R} gone (t : list R) :
  (forall r id, FUser id ∉ fkeys r) -> no_user_ref gone t.
Proof. intros Hn r id _ Hk. by destruct (Hn r id). Qed.

Lemma no_user_ref_delete {R : Type} `{TableDef R} gone p (t : list R) :
  (forall r id, FUser id ∈ fkeys r -> id ∈ gone -> p r = true) ->
  no_user_ref gone (rows_delete p t).
Proof.
  intros Hp r id [_ Hno]%elem_of_rows_delete Hk Hin. by rewrite (Hp r id) in Hno.
Qed.

Lemma wf_drop_users p d :
  wf_db d -> let gone := ru_id <$> List.filter p (d_users d) in
  no_user_ref gone (d_sessions d) -> no_user_ref gone (d_devices d) ->
  no_user_ref gone (d_codes d) -> no_user_ref gone (d_credentials d) ->
  no_user_ref gone (d_recovery d) -> no_user_ref gone (d_feed_tokens d) ->
  no_user_ref gone (d_api_keys d) ->
  wf_db (setd_users (rows_delete p (d_users d)) d).
Proof.
  intros [] gone H1 H2 H3 H4 H5 H6 H7.
  assert (Hs : forall R (T : TableDef R) (t : list R) s, no_user_ref gone t ->
    wf_rows t (parents d) s ->
    wf_rows t (parents (setd_users (rows_delete p (d_users d)) d)) s).
  { intros R T t s Hn. apply wf_rows_shrink. intros r k Hin Hk Hex.
    destruct k as [id|id|id]; simpl in *; try done.
    rewrite bool_decide_eq_true in *. apply surviving_key; [done|]. by eapply Hn. }
  split; simpl.
  all: try (apply Hs; first [done | apply no_user_ref_leaf; intros r id Hk; by fk_cases Hk]).
  apply Hs; [|by apply wf_rows_delete].
  apply no_user_ref_leaf; intros r id Hk; by fk_cases Hk.
Qed.

(** Detaching feed tokens from their creator. *)
Lemma wf_detach_tokens (hit : string -> bool) d :
  wf_db d ->
  wf_db (setd_feed_tokens (rows_update
      (fun r => match rf_created_by r with Some u => hit u | None => false end)
      (fun r => FeedTokenRow (rf_id r) (rf_label r) (rf_token_hash r) None (rf_created_at r) (rf_last_used_at r))
      (d_feed_tokens d)) d).
Proof.
  intros Hwf.
  apply (wf_db_update_checked (H:=feed_tokens_table)
    (fun r => match rf_created_by r with Some u => hit u | None => false end)
    (fun r => FeedTokenRow (rf_id r) (rf_label r) (rf_token_hash r) None (rf_created_at r) (rf_last_used_at r))
    d); [done|done| | |done].
  - pose proof (wf_uniq _ _ _ (wf_feed_tokens _ Hwf)) as Hu.
    rewrite uniq_ok_iff in Hu |- *. intros k Hk. rewrite omap_rows_update; [by apply Hu|].
    intros r _. simpl in Hk.
    repeat (apply elem_of_cons in Hk as [->|Hk]; [done|]). by apply elem_of_nil in Hk.
  - apply forallb_forall. intros r Hr%list_elem_of_In.
    apply list_elem_of_fmap in Hr as (? & -> & ?). done.
Qed.

Lemma wf_delete_users p d : wf_db d -> wf_db (delete_users p d).
Proof.
  intros Hwf. unfold delete_users.
  set (gone := ru_id <$> List.filter p (d_users d)).
  apply (wf_delete_devices (fun r => bool_decide (rd_user_id r ∈ gone))) in Hwf.
  assert (Hus : d_users (delete_devices (fun r => bool_decide (rd_user_id r ∈ gone)) d) = d_users d) by done.
  assert (Hdev : no_user_ref gone (d_devices (delete_devices (fun r => bool_decide (rd_user_id r ∈ gone)) d))).
  { apply no_user_ref_delete. intros r id Hk Hid. fk_cases Hk. simplify_eq/=. by apply bool_decide_eq_true. }
  revert Hwf Hus Hdev. generalize (delete_devices (fun r => bool_decide (rd_user_id r ∈ gone)) d) as d1.
  intros d1 Hwf Hus Hdev. cbv zeta.
  apply (wf_db_delete (R:=session_row) (fun r => bool_decide (rs_user_id r ∈ gone))) in Hwf.
  apply (wf_db_delete (R:=code_row) (fun r => bool_decide (rc_user_id r ∈ gone))) in Hwf.
  apply (wf_db_delete (R:=credential_row) (fun r => bool_decide (rw_user_id r ∈ gone))) in Hwf.
  apply (wf_db_delete (R:=recovery_row) (fun r => bool_decide (rr_user_id r ∈ gone))) in Hwf.
  apply (wf_db_delete (R:=api_key_row) (fun r => bool_decide (rk_user_id r ∈ gone))) in Hwf.
  apply (wf_detach_tokens (fun u => bool_decide (u ∈ gone))) in Hwf.
  apply (wf_drop_users p) in Hwf; [exact Hwf|..]; simpl; rewrite Hus; fold gone; [|done|..].
  all: try (apply no_user_ref_delete; intros r id Hk Hid; fk_cases Hk; simplify_eq/=;
    by apply bool_decide_eq_true).
  intros r id (r0 & _ & ->)%elem_of_rows_update Hk.
  destruct (rf_created_by r0) as [u|] eqn:Hc; [|simpl in Hk; rewrite Hc in Hk; by apply elem_of_nil in Hk].
  destruct (bool_decide (u ∈ gone)) eqn:Hb; [by apply elem_of_nil in Hk|].
  simpl in Hk. rewrite Hc in Hk. apply list_elem_of_singleton in Hk. simplify_eq.
  by apply bool_decide_eq_false in Hb.
Qed.

(** ** A reference leads to a row *)

Lemma fk_holds {R : Type} `{TableDef R} t P s r k :
  wf_rows t P s -> r ∈ t -> k ∈ fkeys r -> fk_exists P k = true.
Proof.
  intros [_ Hr _] Hin Hk. specialize (Hr r Hin). unfold row_ok in Hr.
  apply andb_true_iff in Hr as [_ Hf]. rewrite forallb_forall in Hf. by apply Hf, list_elem_of_In.
Qed.

Lemma parent_user d i : fk_exists (parents d) (FUser i) = true -> exists u, u ∈ d_users d /\ ru_id u = i.
Proof. simpl. intros (u & -> & Hu)%bool_decide_eq_true%list_elem_of_fmap. eauto. Qed.
Lemma parent_device d i : fk_exists (parents d) (FDevice i) = true -> exists r, r ∈ d_devices d /\ rd_id r = i.
Proof. simpl. intros (u & -> & Hu)%bool_decide_eq_true%list_elem_of_fmap. eauto. Qed.
Lemma parent_endpoint d i : fk_exists (parents d) (FEndpoint i) = true -> exists e, e ∈ d_endpoints d /\ re_id e = i.
Proof. simpl. intros (u & -> & Hu)%bool_decide_eq_true%list_elem_of_fmap. eauto. Qed.
