(* ===== verification/Effects.v ===== *)
(** * Effects: errors, statements, transactions, clock and randomness

    A Go function of the program is a computation [M A]: it runs in a [World]
    (the database, the process's memory, a counter of the steps executed so
    far) and ends in a [result] (a value, an error value, a panic).  Everything
    the program cannot decide is an oracle of [Env], indexed by the step at
    which it is asked: the clock, the randomness, the identifiers, and whether
    the driver fails at that step.  A theorem that holds for every [Env] holds
    for every clock, every fault schedule and every cancellation.

    A statement ([stmt]) is atomic: it fails without effect when its context is
    cancelled or the driver fails, and otherwise applies its table operation
    under the constraints of Schema.  [with_tx] is the begin/rollback/commit
    protocol of database/sql. *)

From S2P Require Import Prelude Schema Integrity.

(** ** Errors

    The sentinels the program tests with errors.Is and the typed rejections it
    returns; every other error is [ErrDriver] (the driver or the context) or
    [ErrOther] (a message the caller only forwards).  The text a wrap adds is
    not kept: no code of the program branches on it. *)

Inductive err :=
  | ErrNotFound | ErrConflict
  | ErrUnique | ErrConstraint | ErrDriver
  | ErrUnauthorized (reason : string)
  | ErrTokenMalformed | ErrKeyMalformed | ErrInvalidLabel | ErrInvalidKeyLabel
  | ErrLastAdmin | ErrSelfLockout | ErrInvalidRole | ErrInvalidEmail | ErrOwnerMissing
  | ErrGrantInvalid | ErrAlreadyRegistered
  | ErrLastCredential | ErrWebAuthnUnavailable | ErrPasskeyVerification
  | ErrBootstrapClosed | ErrBootstrapToken | ErrBootstrapInvalidEmail
  | ErrEmailUnchanged | ErrEmailManagedByOIDC | ErrEmailChangeInvalid | ErrConfirmationNotSent
  | ErrOIDCRejected
  | ErrDenied (msg : string)
  | ErrOther (msg : string).

#[export] Instance err_eq_dec : EqDecision err.
Proof. solve_decision. Defined.

Inductive result (A : Type) := Ok (a : A) | Err (e : err) | Panic.
Arguments Ok {A} a.
Arguments Err {A} e.
Arguments Panic {A}.

(** ** The process: oracles and memory *)

Record Env := MkEnv {
  e_clock : nat -> Z;                       (* time.Now().Unix() *)
  e_fault : nat -> bool;                    (* the driver fails *)
  e_rand : nat -> nat -> option string;     (* rand.Read of n bytes *)
  e_uuid : nat -> string }.                 (* uuid.NewString() *)

(** What the process sends out. *)
Inductive output :=
  | OMail (to subject body : string)
  | OBroadcast (payload : string)
  | OCloseToken (token_id : string)
  | OPost (url timestamp nonce signature body : string)
  | OWarn (event : string).

Record Mem := MkMem {
  m_secrets : gmap string string;           (* auth.Verifier.cache *)
  m_feed_touch : gmap string Z;             (* FeedService.lastTouch *)
  m_key_touch : gmap string Z;              (* APIKeyService.lastTouch *)
  m_challenges : gmap string Z;             (* PasskeyService.used *)
  m_out : list output }.

Record World := MkWorld { w_env : Env; w_n : nat; w_db : DB; w_mem : Mem }.

Definition set_db (d : DB) (w : World) : World := MkWorld (w_env w) (w_n w) d (w_mem w).
Definition set_mem (m : Mem) (w : World) : World := MkWorld (w_env w) (w_n w) (w_db w) m.
Definition bump (w : World) : World := MkWorld (w_env w) (S (w_n w)) (w_db w) (w_mem w).

Definition empty_mem : Mem := MkMem ∅ ∅ ∅ ∅ [].

(** ** The monad *)

Definition M (A : Type) : Type := World -> result A * World.

#[export] Instance M_ret : MRet M := fun A a w => (Ok a, w).
#[export] Instance M_bind : MBind M := fun A B k m w =>
  match m w with
  | (Ok a, w') => k a w'
  | (Err e, w') => (Err e, w')
  | (Panic, w') => (Panic, w')
  end.

Definition fail {A} (e : err) : M A := fun w => (Err e, w).
Definition panic {A} : M A := fun w => (Panic, w).

(** [v, err := f()] when the caller looks at [err]. *)
Definition catch {A} (m : M A) : M (A + err) := fun w =>
  match m w with
  | (Ok a, w') => (Ok (inl a), w')
  | (Err e, w') => (Ok (inr e), w')
  | (Panic, w') => (Panic, w')
  end.

(** A deferred recover: [None] is a panic that was caught. *)
Definition recovering {A} (m : M A) : M (option A) := fun w =>
  match m w with
  | (Ok a, w') => (Ok (Some a), w')
  | (Err e, w') => (Err e, w')
  | (Panic, w') => (Ok None, w')
  end.

(** [if err := f(); err != nil] where only the failure is looked at. *)
Definition attempt {A} (m : M A) : M (option A) :=
  r ← catch m; mret (match r with inl a => Some a | inr _ => None end).

Definition map_err {A} (f : err -> err) (m : M A) : M A :=
  r ← catch m; match r with inl a => mret a | inr e => fail (f e) end.

Definition get_mem : M Mem := fun w => (Ok (w_mem w), w).
Definition put_mem (m : Mem) : M unit := fun w => (Ok tt, set_mem m w).
Definition emit (o : output) : M unit := fun w =>
  (Ok tt, set_mem (MkMem (m_secrets (w_mem w)) (m_feed_touch (w_mem w)) (m_key_touch (w_mem w))
                     (m_challenges (w_mem w)) (m_out (w_mem w) ++ [o])) w).

Definition now_unix : M Z := fun w => (Ok (e_clock (w_env w) (w_n w)), bump w).
Definition new_id : M string := fun w => (Ok (e_uuid (w_env w) (w_n w)), bump w).
Definition rand_bytes (n : nat) : M string := fun w =>
  (match e_rand (w_env w) (w_n w) n with Some s => Ok s | None => Err ErrDriver end, bump w).

Fixpoint foreach {A} (l : list A) (f : A -> M unit) : M unit :=
  match l with
  | [] => mret tt
  | x :: l' => f x;; foreach l' f
  end.

Fixpoint collect {A B} (l : list A) (f : A -> M B) : M (list B) :=
  match l with
  | [] => mret []
  | x :: l' => y ← f x; ys ← collect l' f; mret (y :: ys)
  end.

(** ** Contexts

    A context says whether it is cancelled at a step. *)

Definition ctx : Type := nat -> bool.
Definition background : ctx := fun _ => false.
(** [context.WithoutCancel]; the values a context carries are not modelled. *)
Definition without_cancel (c : ctx) : ctx := background.

(** ** Statements *)

Definition stmt {A} (c : ctx) (k : DB -> result A * DB) : M A := fun w =>
  let w' := bump w in
  if c (w_n w) || e_fault (w_env w) (w_n w) then (Err ErrDriver, w')
  else let (r, d) := k (w_db w) in (r, set_db d w').

(** [res.RowsAffected()] and [res.LastInsertId()]: the driver may fail after
    the statement ran. *)
Definition driver_value {A} (a : A) : M A := fun w =>
  ((if e_fault (w_env w) (w_n w) then Err ErrDriver else Ok a), bump w).
Definition rows_affected (n : nat) : M nat := driver_value n.
Definition last_insert_id (id : Z) : M Z := driver_value id.

Section Statements.
Context {R : Type} `{TableDef R}.

  (** SELECT: [None] is sql.ErrNoRows. *)
Definition query_row (c : ctx) (p : R -> bool) : M (option R) :=
    stmt c (fun d => (Ok (List.find p (rows d)), d)).
Definition query {A} (c : ctx) (q : DB -> A) : M A :=
    stmt c (fun d => (Ok (q d), d)).

  (** The constraint an INSERT of [r] violates. *)
Definition insert_violation (r : R) (d : DB) : option err :=
    let d' := set_rows (rows d ++ [r]) d in
    if negb (row_check r) then Some ErrConstraint
    else if negb (uniq_ok (rows d ++ [r])) then Some ErrUnique
    else if negb (forallb (fk_exists (parents d')) (fkeys r)) then Some ErrConstraint
    else None.

Definition exec_insert (c : ctx) (r : R) : M unit :=
    stmt c (fun d => match insert_violation r d with
      | None => (Ok tt, set_rows (rows d ++ [r]) d)
      | Some e => (Err e, d)
      end).

  (** INSERT into an AUTOINCREMENT table; the result is LastInsertId. *)
Definition exec_insert_auto (c : ctx) (mk : Z -> R) : M Z :=
    stmt c (fun d => match seq_of d with
      | None => (Err ErrConstraint, d)
      | Some n => match insert_violation (mk (n + 1)) d with
        | None => (Ok (n + 1), set_seq (n + 1) (set_rows (rows d ++ [mk (n + 1)]) d))
        | Some e => (Err e, d)
        end
      end).

  (** UPDATE of columns no constraint speaks of. *)
Definition exec_update (c : ctx) (p : R -> bool) (f : R -> R) : M nat :=
    stmt c (fun d => (Ok (rows_matched p (rows d)), set_rows (rows_update p f (rows d)) d)).

  (** UPDATE of constrained columns. *)
Definition update_violation (p : R -> bool) (f : R -> R) (d : DB) : option err :=
    let t := rows_update p f (rows d) in
    if negb (forallb row_check (f <$> List.filter p (rows d))) then Some ErrConstraint
    else if negb (uniq_ok t) then Some ErrUnique
    else if negb (forallb (row_ok (parents d)) (f <$> List.filter p (rows d))) then Some ErrConstraint
    else None.

Definition exec_update_checked (c : ctx) (p : R -> bool) (f : R -> R) : M nat :=
    stmt c (fun d => match update_violation p f d with
      | None => (Ok (rows_matched p (rows d)), set_rows (rows_update p f (rows d)) d)
      | Some e => (Err e, d)
      end).

Definition exec_delete (c : ctx) (p : R -> bool) : M nat :=
    stmt c (fun d => (Ok (rows_matched p (rows d)), set_rows (rows_delete p (rows d)) d)).

  (** DELETE whose WHERE clause holds subqueries: they see the table as it is
      when the statement starts. *)
Definition exec_delete_where (c : ctx) (p : DB -> R -> bool) : M nat :=
    stmt c (fun d => (Ok (rows_matched (p d) (rows d)), set_rows (rows_delete (p d) (rows d)) d)).
End Statements.

(** DELETE on a table other tables refer to: [del] is its cascade. *)
Definition exec_delete_cascade {R : Type} `{TableDef R} (c : ctx) (p : R -> bool)
    (del : (R -> bool) -> DB -> DB) : M nat :=
  stmt c (fun d => (Ok (rows_matched p (rows d)), del p d)).

(** ** Transactions

    [BeginTx] fails without effect; the statements of [m] run in order.  The
    body says with its boolean whether it reaches [Commit]: a return without
    it, an error, a panic and a failed Commit leave the database of the begin
    (the deferred Rollback). *)
Definition with_tx {A} (c : ctx) (m : M (A * bool)) : M A := fun w =>
  let d0 := w_db w in
  let w1 := bump w in
  if c (w_n w) || e_fault (w_env w) (w_n w) then (Err ErrDriver, w1)
  else match m w1 with
  | (Ok (a, true), w2) =>
      if c (w_n w2) || e_fault (w_env w2) (w_n w2) then (Err ErrDriver, set_db d0 (bump w2))
      else (Ok a, bump w2)
  | (Ok (a, false), w2) => (Ok a, set_db d0 w2)
  | (Err e, w2) => (Err e, set_db d0 w2)
  | (Panic, w2) => (Panic, set_db d0 w2)
  end.

(** store/errors.go *)
Definition isUniqueViolation (e : err) : bool := bool_decide (e = ErrUnique).

(** ** Reasoning: weakest preconditions over every outcome

    [wp m Q w]: from [w], whatever the oracles say, the outcome of [m]
    satisfies [Q]. *)

Definition wp {A} (m : M A) (Q : result A -> World -> Prop) (w : World) : Prop :=
  Q (m w).1 (m w).2.

(** The environment a computation runs in never changes. *)
Definition keeps_env {A} (m : M A) : Prop := forall w, w_env (m w).2 = w_env w.

Lemma wp_intro {A} (m : M A) Q w : (forall r w', m w = (r, w') -> Q r w') -> wp m Q w.
Proof. intros H. apply H. by destruct (m w). Qed.

Lemma wp_elim {A} (m : M A) Q w r w' : wp m Q w -> m w = (r, w') -> Q r w'.
Proof. unfold wp. intros H Hm. by rewrite Hm in H. Qed.

Lemma wp_mono {A} (m : M A) (Q Q' : result A -> World -> Prop) w :
  wp m Q w -> (forall r w', Q r w' -> Q' r w') -> wp m Q' w.
Proof. unfold wp. auto. Qed.

Lemma wp_ret {A} (a : A) (Q : result A -> World -> Prop) w : Q (Ok a) w -> wp (mret a) Q w.
Proof. done. Qed.

Lemma wp_fail {A} e (Q : result A -> World -> Prop) w : Q (Err e) w -> wp (fail e) Q w.
Proof. done. Qed.

Lemma wp_panic {A} (Q : result A -> World -> Prop) w : Q Panic w -> wp panic Q w.
Proof. done. Qed.

Lemma wp_bind {A B} (m : M A) (k : A -> M B) Q w :
  wp m (fun r w' => match r with
    | Ok a => wp (k a) Q w'
    | Err e => Q (Err e) w'
    | Panic => Q Panic w'
    end) w -> wp (m ≫= k) Q w.
Proof. unfold wp, mbind, M_bind. destruct (m w) as [[a|e|] w']; done. Qed.

Lemma wp_catch {A} (m : M A) (Q : result (A + err) -> World -> Prop) w :
  wp m (fun r w' => match r with
    | Ok a => Q (Ok (inl a)) w'
    | Err e => Q (Ok (inr e)) w'
    | Panic => Q Panic w'
    end) w -> wp (catch m) Q w.
Proof. unfold wp, catch. destruct (m w) as [[a|e|] w']; done. Qed.

Lemma wp_attempt {A} (m : M A) (Q : result (option A) -> World -> Prop) w :
  wp m (fun r w' => match r with
    | Ok a => Q (Ok (Some a)) w'
    | Err _ => Q (Ok None) w'
    | Panic => Q Panic w'
    end) w -> wp (attempt m) Q w.
Proof.
  intros H. apply wp_bind, wp_catch. eapply wp_mono; [exact H|]. by intros [a|e|] w'.
Qed.

Lemma wp_map_err {A} f (m : M A) (Q : result A -> World -> Prop) w :
  wp m (fun r w' => match r with
    | Ok a => Q (Ok a) w'
    | Err e => Q (Err (f e)) w'
    | Panic => Q Panic w'
    end) w -> wp (map_err f m) Q w.
Proof.
  intros H. apply wp_bind, wp_catch. eapply wp_mono; [exact H|]. by intros [a|e|] w'.
Qed.

Lemma wp_recovering {A} (m : M A) (Q : result (option A) -> World -> Prop) w :
  wp m (fun r w' => match r with
    | Ok a => Q (Ok (Some a)) w'
    | Err e => Q (Err e) w'
    | Panic => Q (Ok None) w'
    end) w -> wp (recovering m) Q w.
Proof. unfold wp, recovering. destruct (m w) as [[a|e|] w']; done. Qed.

Lemma wp_stmt {A} c (k : DB -> result A * DB) Q w :
  Q (Err ErrDriver) (bump w) ->
  (forall r d', k (w_db w) = (r, d') -> Q r (set_db d' (bump w))) ->
  wp (stmt c k) Q w.
Proof.
  unfold wp, stmt. intros H1 H2. destruct (_ || _); [done|].
  destruct (k (w_db w)) as [r d'] eqn:Hk. by apply H2.
Qed.

Lemma wp_driver_value {A} (a : A) (Q : result A -> World -> Prop) w :
  Q (Err ErrDriver) (bump w) -> Q (Ok a) (bump w) -> wp (driver_value a) Q w.
Proof. unfold wp, driver_value. simpl. by destruct (e_fault _ _). Qed.

Lemma wp_now (Q : result Z -> World -> Prop) w :
  Q (Ok (e_clock (w_env w) (w_n w))) (bump w) -> wp now_unix Q w.
Proof. done. Qed.

Lemma wp_new_id (Q : result string -> World -> Prop) w :
  Q (Ok (e_uuid (w_env w) (w_n w))) (bump w) -> wp new_id Q w.
Proof. done. Qed.

Lemma wp_rand n (Q : result string -> World -> Prop) w :
  (forall s, e_rand (w_env w) (w_n w) n = Some s -> Q (Ok s) (bump w)) ->
  Q (Err ErrDriver) (bump w) -> wp (rand_bytes n) Q w.
Proof. unfold wp, rand_bytes. simpl. destruct (e_rand _ _ _); auto. Qed.

Lemma wp_get_mem (Q : result Mem -> World -> Prop) w : Q (Ok (w_mem w)) w -> wp get_mem Q w.
Proof. done. Qed.

Lemma wp_put_mem m (Q : result unit -> World -> Prop) w : Q (Ok tt) (set_mem m w) -> wp (put_mem m) Q w.
Proof. done. Qed.

Lemma wp_with_tx {A} c (m : M (A * bool)) (Q : result A -> World -> Prop) w :
  Q (Err ErrDriver) (bump w) ->
  wp m (fun r w2 => match r with
    | Ok (a, true) => Q (Err ErrDriver) (set_db (w_db w) (bump w2)) /\ Q (Ok a) (bump w2)
    | Ok (a, false) => Q (Ok a) (set_db (w_db w) w2)
    | Err e => Q (Err e) (set_db (w_db w) w2)
    | Panic => Q Panic (set_db (w_db w) w2)
    end) (bump w) -> wp (with_tx c m) Q w.
Proof.
  unfold wp, with_tx. intros H1 H2. destruct (c _ || _); [done|].
  destruct (m (bump w)) as [[[a []]|e|] w2]; simpl in *; [|done|done|done].
  destruct H2. by destruct (_ || _).
Qed.

Section WpStatements.
Context {R : Type} `{TableDef R}.

Lemma wp_query {A} c (q : DB -> A) (Q : result A -> World -> Prop) w :
    Q (Err ErrDriver) (bump w) -> Q (Ok (q (w_db w))) (bump w) -> wp (query c q) Q w.
  Proof. intros H1 H2. apply wp_stmt; [done|]. intros r d' [= <- <-]. by destruct w. Qed.

Lemma wp_query_row c (p : R -> bool) (Q : result (option R) -> World -> Prop) w :
    Q (Err ErrDriver) (bump w) -> Q (Ok (List.find p (rows (w_db w)))) (bump w) ->
    wp (query_row c p) Q w.
  Proof. intros H1 H2. apply wp_stmt; [done|]. intros r d' [= <- <-]. by destruct w. Qed.

Lemma wp_exec_insert c (r : R) (Q : result unit -> World -> Prop) w :
    Q (Err ErrDriver) (bump w) ->
    (forall e, insert_violation r (w_db w) = Some e -> Q (Err e) (bump w)) ->
    (insert_violation r (w_db w) = None ->
      Q (Ok tt) (set_db (set_rows (rows (w_db w) ++ [r]) (w_db w)) (bump w))) ->
    wp (exec_insert c r) Q w.
  Proof.
    intros H1 H2 H3. apply wp_stmt; [done|]. intros r' d'.
    destruct (insert_violation r (w_db w)) as [e|]; intros [= <- <-]; [|auto].
    specialize (H2 e eq_refl). by destruct w.
  Qed.

Lemma wp_exec_insert_auto c (mk : Z -> R) (Q : result Z -> World -> Prop) w n :
    seq_of (w_db w) = Some n ->
    Q (Err ErrDriver) (bump w) ->
    (forall e, insert_violation (mk (n + 1)) (w_db w) = Some e -> Q (Err e) (bump w)) ->
    (insert_violation (mk (n + 1)) (w_db w) = None ->
      Q (Ok (n + 1)) (set_db (set_seq (n + 1) (set_rows (rows (w_db w) ++ [mk (n + 1)]) (w_db w))) (bump w))) ->
    wp (exec_insert_auto c mk) Q w.
  Proof.
    intros Hs H1 H2 H3. apply wp_stmt; [done|]. intros r' d'. rewrite Hs.
    destruct (insert_violation _ (w_db w)) as [e|]; intros [= <- <-]; [|auto].
    specialize (H2 e eq_refl). by destruct w.
  Qed.

Lemma wp_exec_update c (p : R -> bool) f (Q : result nat -> World -> Prop) w :
    Q (Err ErrDriver) (bump w) ->
    Q (Ok (rows_matched p (rows (w_db w))))
      (set_db (set_rows (rows_update p f (rows (w_db w))) (w_db w)) (bump w)) ->
    wp (exec_update c p f) Q w.
  Proof. intros H1 H2. apply wp_stmt; [done|]. by intros r d' [= <- <-]. Qed.

Lemma wp_exec_update_checked c (p : R -> bool) f (Q : result nat -> World -> Prop) w :
    Q (Err ErrDriver) (bump w) ->
    (forall e, update_violation p f (w_db w) = Some e -> Q (Err e) (bump w)) ->
    (update_violation p f (w_db w) = None ->
      Q (Ok (rows_matched p (rows (w_db w))))
        (set_db (set_rows (rows_update p f (rows (w_db w))) (w_db w)) (bump w))) ->
    wp (exec_update_checked c p f) Q w.
  Proof.
    intros H1 H2 H3. apply wp_stmt; [done|]. intros r' d'.
    destruct (update_violation p f (w_db w)) as [e|]; intros [= <- <-]; [|auto].
    specialize (H2 e eq_refl). by destruct w.
  Qed.

Lemma wp_exec_delete c (p : R -> bool) (Q : result nat -> World -> Prop) w :
    Q (Err ErrDriver) (bump w) ->
    Q (Ok (rows_matched p (rows (w_db w))))
      (set_db (set_rows (rows_delete p (rows (w_db w))) (w_db w)) (bump w)) ->
    wp (exec_delete c p) Q w.
  Proof. intros H1 H2. apply wp_stmt; [done|]. by intros r d' [= <- <-]. Qed.

Lemma wp_exec_delete_where c (p : DB -> R -> bool) (Q : result nat -> World -> Prop) w :
    Q (Err ErrDriver) (bump w) ->
    Q (Ok (rows_matched (p (w_db w)) (rows (w_db w))))
      (set_db (set_rows (rows_delete (p (w_db w)) (rows (w_db w))) (w_db w)) (bump w)) ->
    wp (exec_delete_where c p) Q w.
  Proof. intros H1 H2. apply wp_stmt; [done|]. by intros r d' [= <- <-]. Qed.

Lemma wp_exec_delete_cascade c (p : R -> bool) del (Q : result nat -> World -> Prop) w :
    Q (Err ErrDriver) (bump w) ->
    Q (Ok (rows_matched p (rows (w_db w)))) (set_db (del p (w_db w)) (bump w)) ->
    wp (exec_delete_cascade c p del) Q w.
  Proof. intros H1 H2. apply wp_stmt; [done|]. by intros r d' [= <- <-]. Qed.
End WpStatements.

(** [wp_step] runs one primitive of a [wp] goal. *)
Ltac wp_step :=
  match goal with
  | |- wp (mret _) _ _ => apply wp_ret
  | |- wp (fail _) _ _ => apply wp_fail
  | |- wp panic _ _ => apply wp_panic
  | |- wp (mbind _ _) _ _ => apply wp_bind
  | |- wp (catch _) _ _ => apply wp_catch
  | |- wp (attempt _) _ _ => apply wp_attempt
  | |- wp (map_err _ _) _ _ => apply wp_map_err
  | |- wp (recovering _) _ _ => apply wp_recovering
  | |- wp (stmt _ _) _ _ => apply wp_stmt; [|intros ? ? ?]
  | |- wp (query_row _ _) _ _ => apply wp_query_row
  | |- wp (query _ _) _ _ => apply wp_query
  | |- wp (exec_insert _ _) _ _ => apply wp_exec_insert; [|intros ? ?|intros ?]
  | |- wp (exec_insert_auto _ _) _ _ => eapply wp_exec_insert_auto; [reflexivity| |intros ? ?|intros ?]
  | |- wp (exec_update _ _ _) _ _ => apply wp_exec_update
  | |- wp (exec_update_checked _ _ _) _ _ => apply wp_exec_update_checked; [|intros ? ?|intros ?]
  | |- wp (exec_delete _ _) _ _ => apply wp_exec_delete
  | |- wp (exec_delete_cascade _ _ _) _ _ => apply wp_exec_delete_cascade
  | |- wp (rows_affected _) _ _ => apply wp_driver_value
  | |- wp (last_insert_id _) _ _ => apply wp_driver_value
  | |- wp (exec_delete_where _ _) _ _ => apply wp_exec_delete_where
  | |- wp now_unix _ _ => apply wp_now
  | |- wp new_id _ _ => apply wp_new_id
  | |- wp (rand_bytes _) _ _ => apply wp_rand; [intros ? ?|]
  | |- wp get_mem _ _ => apply wp_get_mem
  | |- wp (put_mem _) _ _ => apply wp_put_mem
  | |- wp (with_tx _ _) _ _ => apply wp_with_tx
  end.

(** A loop whose body always succeeds. *)
Lemma wp_foreach_ok {A} (I : World -> Prop) (l : list A) f (Q : result unit -> World -> Prop) w :
  (forall x w, x ∈ l -> I w -> wp (f x) (fun r w' => r = Ok tt /\ I w') w) -> I w ->
  (forall w', I w' -> Q (Ok tt) w') -> wp (foreach l f) Q w.
Proof.
  revert w. induction l as [|x l IH]; intros w Hf Hw HQ; simpl; [by wp_step; apply HQ|]. wp_step.
  eapply wp_mono; [apply Hf; [left|done]|]. intros r w' [-> Hw'].
  apply IH; [|done|done]. intros y w2 Hy. apply Hf. by right.
Qed.

(** ** Invariants of the database *)

Definition preserves {A} (I : DB -> Prop) (m : M A) : Prop :=
  forall w, I (w_db w) -> I (w_db (m w).2).

(** A computation that only reads. *)
Definition reads_only {A} (m : M A) : Prop := forall w, w_db (m w).2 = w_db w.

Create HintDb effects.

Section Preserves.
Context (I : DB -> Prop).

Lemma pres_ret {A} (a : A) : preserves I (mret a).
  Proof. by intros w. Qed.
Lemma pres_fail {A} e : preserves I (@fail A e).
  Proof. by intros w. Qed.
Lemma pres_panic {A} : preserves I (@panic A).
  Proof. by intros w. Qed.
Lemma pres_bind {A B} (m : M A) (k : A -> M B) :
    preserves I m -> (forall a, preserves I (k a)) -> preserves I (m ≫= k).
  Proof.
    intros Hm Hk w Hw. unfold mbind, M_bind. specialize (Hm w Hw).
    destruct (m w) as [[a|e|] w']; simpl in *; [by apply Hk|done|done].
  Qed.
Lemma pres_catch {A} (m : M A) : preserves I m -> preserves I (catch m).
  Proof. intros Hm w Hw. specialize (Hm w Hw). unfold catch. by destruct (m w) as [[]]. Qed.
Lemma pres_recovering {A} (m : M A) : preserves I m -> preserves I (recovering m).
  Proof. intros Hm w Hw. specialize (Hm w Hw). unfold recovering. by destruct (m w) as [[]]. Qed.
Lemma pres_attempt {A} (m : M A) : preserves I m -> preserves I (attempt m).
  Proof. intros Hm. apply pres_bind; [by apply pres_catch|]. intros []; apply pres_ret. Qed.
Lemma pres_map_err {A} f (m : M A) : preserves I m -> preserves I (map_err f m).
  Proof.
    intros Hm. apply pres_bind; [by apply pres_catch|].
    intros []; [apply pres_ret|apply pres_fail].
  Qed.
Lemma pres_get_mem : preserves I get_mem.
  Proof. by intros w. Qed.
Lemma pres_put_mem m : preserves I (put_mem m).
  Proof. by intros w. Qed.
Lemma pres_emit o : preserves I (emit o).
  Proof. by intros w. Qed.
Lemma pres_now : preserves I now_unix.
  Proof. by intros w. Qed.
Lemma pres_new_id : preserves I new_id.
  Proof. by intros w. Qed.
Lemma pres_rand n : preserves I (rand_bytes n).
  Proof. by intros w. Qed.
Lemma pres_driver_value {A} (a : A) : preserves I (driver_value a).
  Proof. by intros w. Qed.
Lemma pres_rows_affected n : preserves I (rows_affected n).
  Proof. apply pres_driver_value. Qed.
Lemma pres_last_insert_id n : preserves I (last_insert_id n).
  Proof. apply pres_driver_value. Qed.

Lemma pres_foreach {A} (l : list A) f : (forall x, preserves I (f x)) -> preserves I (foreach l f).
  Proof.
    intros Hf. induction l as [|x l IH]; simpl; [apply pres_ret|]. by apply pres_bind.
  Qed.
Lemma pres_collect {A B} (l : list A) (f : A -> M B) :
    (forall x, preserves I (f x)) -> preserves I (collect l f).
  Proof.
    intros Hf. induction l as [|x l IH]; simpl; [apply pres_ret|].
    apply pres_bind; [done|]. intros y. apply pres_bind; [done|]. intros ys. apply pres_ret.
  Qed.

Lemma pres_stmt {A} c (k : DB -> result A * DB) :
    (forall d, I d -> I (k d).2) -> preserves I (stmt c k).
  Proof.
    intros Hk w Hw. unfold stmt. destruct (_ || _); [done|].
    specialize (Hk _ Hw). by destruct (k (w_db w)).
  Qed.

Lemma pres_query {A} c (q : DB -> A) : preserves I (query c q).
  Proof. by apply pres_stmt. Qed.
Lemma pres_query_row `{TableDef R} c p : preserves I (query_row (R:=R) c p).
  Proof. by apply pres_stmt. Qed.

  (** A transaction preserves what its body preserves. *)
Lemma pres_with_tx {A} c (m : M (A * bool)) : preserves I m -> preserves I (with_tx c m).
  Proof.
    intros Hm w Hw. unfold with_tx. destruct (c _ || _); [done|].
    specialize (Hm (bump w) Hw). destruct (m (bump w)) as [[[a []]|e|] w2]; [|done|done|done].
    by destruct (_ || _).
  Qed.
End Preserves.

#[export] Hint Resolve pres_ret pres_fail pres_panic pres_get_mem pres_put_mem pres_emit pres_now
  pres_new_id pres_rand pres_rows_affected pres_last_insert_id pres_query pres_query_row : effects.
#[export] Hint Resolve pres_bind pres_catch pres_recovering pres_attempt pres_map_err
  pres_foreach pres_collect pres_with_tx : effects.

(** ** Every statement keeps the schema's constraints *)

Section Integrity.
Context {R : Type} `{TL : TableLaws R}.

Lemma row_check_fkeys_ok P r :
    row_check r = true -> forallb (fk_exists P) (fkeys r) = true -> row_ok P r = true.
  Proof. unfold row_ok. by intros -> ->. Qed.

Lemma insert_row_ok r d : insert_violation r d = None ->
    uniq_ok (rows d ++ [r]) = true /\ row_ok (parents (set_rows (rows d ++ [r]) d)) r = true.
  Proof.
    unfold insert_violation. intros Hi.
    destruct (row_check r) eqn:Hc; simpl in Hi; [|done].
    destruct (uniq_ok _) eqn:Hu; simpl in Hi; [|done].
    destruct (forallb _ _) eqn:Hf; simpl in Hi; [|done].
    split; [done|]. by apply row_check_fkeys_ok.
  Qed.

Lemma pres_exec_insert c r :
    (forall d, seq_of d = None) -> preserves wf_db (exec_insert c r).
  Proof.
    intros Hs. apply pres_stmt. intros d Hd.
    destruct (insert_violation r d) as [e|] eqn:Hi; [done|].
    apply insert_row_ok in Hi as [Hu Hok]. by apply wf_db_insert.
  Qed.

Lemma pres_exec_insert_auto c mk :
    (forall n, row_id (mk n) = n) -> preserves wf_db (exec_insert_auto c mk).
  Proof.
    intros Hid. apply pres_stmt. intros d Hd. destruct (seq_of d) as [n|] eqn:Hs; [|done].
    destruct (insert_violation _ d) as [e|] eqn:Hi; [done|].
    apply insert_row_ok in Hi as [Hu Hok]. by apply wf_db_insert_auto.
  Qed.

Lemma pres_exec_update c p f :
    (forall r, p r = true -> frame (f r) = frame r) -> preserves wf_db (exec_update c p f).
  Proof. intros Hf. apply pres_stmt. intros d Hd. apply wf_db_update; [|done]. auto. Qed.

Lemma pres_exec_update_checked c p f :
    (forall d, seq_of d = None) ->
    (forall d, wf_db d -> parents (set_rows (rows_update p f (rows d)) d) = parents d) ->
    preserves wf_db (exec_update_checked c p f).
  Proof.
    intros Hs Hp. apply pres_stmt. intros d Hd. unfold update_violation.
    destruct (forallb row_check _); [|done]. destruct (uniq_ok _) eqn:Hu; [|done].
    destruct (forallb (row_ok _) _) eqn:Hok; [|done]. apply wf_db_update_checked; auto.
  Qed.

Lemma pres_exec_delete `{!LeafTable R} c p : preserves wf_db (exec_delete c p).
  Proof. apply pres_stmt. intros d. apply wf_db_delete. Qed.

Lemma pres_exec_delete_where `{!LeafTable R} c p : preserves wf_db (exec_delete_where c p).
  Proof. apply pres_stmt. intros d. apply wf_db_delete. Qed.

Lemma pres_exec_delete_cascade c (p : R -> bool) del :
    (forall d, wf_db d -> wf_db (del p d)) -> preserves wf_db (exec_delete_cascade c p del).
  Proof. intros Hd. by apply pres_stmt. Qed.

  (** An UPDATE of unconstrained columns passes the checks it skips. *)
Lemma update_violation_frame p f d :
    (forall r, p r = true -> frame (f r) = frame r) -> wf_db d -> update_violation p f d = None.
  Proof.
    intros Hf Hd.
    pose proof (wf_db_update p f d (fun r _ Hp => Hf r Hp) Hd) as Hd'.
    apply tl_wf_get in Hd'. rewrite tl_rows, tl_update in Hd' by auto.
    destruct Hd' as [Hu Hr _]. unfold update_violation.
    assert (Hall : forallb (row_ok (parents d)) (f <$> List.filter p (rows d)) = true).
    { apply forallb_forall. intros r Hr'%list_elem_of_In. apply list_elem_of_fmap in Hr' as (r0 & -> & Hin).
      apply elem_of_bfilter in Hin as [Hin Hp]. apply Hr, elem_of_rows_update.
      exists r0. by rewrite Hp. }
    rewrite Hu, Hall.
    assert (Hc : forallb row_check (f <$> List.filter p (rows d)) = true); [|by rewrite Hc].
    apply forallb_forall. intros r Hr'. rewrite forallb_forall in Hall.
    specialize (Hall r Hr'). unfold row_ok in Hall. by apply andb_true_iff in Hall as [? _].
  Qed.
End Integrity.

Ltac solve_frame := intros; unfold frame; simpl; repeat case_match; simplify_eq/=; try done.

#[export] Hint Extern 1 (preserves wf_db (exec_insert _ _)) => (apply pres_exec_insert; done) : effects.
#[export] Hint Extern 1 (preserves wf_db (exec_insert_auto _ _)) => (apply pres_exec_insert_auto; done) : effects.
#[export] Hint Extern 1 (preserves wf_db (exec_update _ _ _)) => (apply pres_exec_update; solve_frame) : effects.
#[export] Hint Extern 1 (preserves wf_db (exec_delete _ _)) => apply pres_exec_delete : effects.
#[export] Hint Extern 1 (preserves wf_db (exec_delete_where _ _)) => apply pres_exec_delete_where : effects.
#[export] Hint Extern 1 (preserves wf_db (exec_delete_cascade _ _ delete_devices)) =>
  (apply pres_exec_delete_cascade; intros; by apply wf_delete_devices) : effects.
#[export] Hint Extern 1 (preserves wf_db (exec_delete_cascade _ _ delete_users)) =>
  (apply pres_exec_delete_cascade; intros; by apply wf_delete_users) : effects.
#[export] Hint Extern 1 (preserves wf_db (exec_delete_cascade _ _ delete_endpoints)) =>
  (apply pres_exec_delete_cascade; intros; by apply wf_delete_endpoints) : effects.

(** [pres] decomposes a computation along its structure. *)
Ltac pres_step :=
  match goal with
  | |- preserves _ (mbind _ _) => apply pres_bind; [|intros ?]
  | |- preserves _ (let _ := _ in _) => cbv zeta
  | |- preserves _ (match ?x with _ => _ end) => destruct x eqn:?
  | |- preserves _ (if ?x then _ else _) => destruct x eqn:?
  | |- preserves _ _ => first
      [ solve [eauto 2 with effects]
      | apply pres_catch | apply pres_attempt | apply pres_map_err | apply pres_recovering
      | apply pres_with_tx | apply pres_foreach; intros ? | apply pres_collect; intros ? ]
  end.
Ltac pres := intros; repeat pres_step.

(** ** Inversion of successful runs *)

Lemma bind_Ok {A B} (m : M A) (k : A -> M B) w b w' :
  (m ≫= k) w = (Ok b, w') -> exists a w1, m w = (Ok a, w1) /\ k a w1 = (Ok b, w').
Proof. unfold mbind, M_bind. destruct (m w) as [[a|e|] w1]; [eauto|done|done]. Qed.

Lemma stmt_Ok {A} c (k : DB -> result A * DB) w a w' :
  stmt c k w = (Ok a, w') -> exists d', k (w_db w) = (Ok a, d') /\ w' = set_db d' (bump w).
Proof.
  unfold stmt. destruct (_ || _); [done|]. destruct (k (w_db w)) as [r d']. intros Heq.
  simplify_eq. eauto.
Qed.

(** [quiet w c]: no fault of the driver and no cancellation. *)
Definition quiet (w : World) (c : ctx) : Prop :=
  (forall n, e_fault (w_env w) n = false) /\ (forall n, c n = false).

Lemma stmt_quiet {A} c (k : DB -> result A * DB) w :
  quiet w c -> stmt c k w = ((k (w_db w)).1, set_db (k (w_db w)).2 (bump w)).
Proof. intros [Hf Hc]. unfold stmt. rewrite Hf, Hc. simpl. by destruct (k (w_db w)). Qed.

Lemma driver_value_quiet {A} (a : A) w c : quiet w c -> driver_value a w = (Ok a, bump w).
Proof. intros [Hf _]. unfold driver_value. by rewrite Hf. Qed.

Lemma rows_affected_quiet n w c : quiet w c -> rows_affected n w = (Ok n, bump w).
Proof. intros [Hf _]. unfold rows_affected, driver_value. by rewrite Hf. Qed.

(** ** What the repositories share *)

(** [if isUniqueViolation(err) { return ErrConflict }; return err] *)
Definition on_unique (e : err) : err := if isUniqueViolation e then ErrConflict else e.

(** store/users.go, [requireMatched] *)
Definition requireMatched (n : nat) : M unit :=
  k ← rows_affected n;
  if Nat.eqb k 0 then fail ErrNotFound else mret tt.

(** [LIMIT ?]: a negative limit is none. *)
Definition limit_rows {A} (n : Z) (l : list A) : list A :=
  if n <? 0 then l else take (Z.to_nat n) l.

(** [QueryRow(...).Scan] with sql.ErrNoRows read as [ErrNotFound]. *)
Definition get_one {R A : Type} `{TableDef R} (c : ctx) (p : R -> bool) (scan : R -> A) : M A :=
  r ← query_row c p;
  match r with Some x => mret (scan x) | None => fail ErrNotFound end.

(** DELETE ... WHERE id IN (SELECT id ... LIMIT ?): the rows deleted satisfy the
    selection, at most the limit is deleted, and a short batch leaves none. *)
Lemma limit_rows_sublist {A} n (l : list A) : limit_rows n l `sublist_of` l.
Proof. unfold limit_rows. destruct (n <? 0); [done|]. apply sublist_take. Qed.

Section BatchDelete.
Context {R : Type} (key : R -> Z) (p : R -> bool) (batch : Z) (t : list R).
Hypothesis Hnd : NoDup (key <$> t).

Definition batch_ids : list Z := key <$> limit_rows batch (List.filter p t).

Lemma batch_selected r : r ∈ t -> bool_decide (key r ∈ batch_ids) = true -> p r = true.
Proof.
  intros Hr (x & Hk & Hx)%bool_decide_eq_true%list_elem_of_fmap.
  eapply elem_of_sublist in Hx; [|apply limit_rows_sublist]. apply elem_of_bfilter in Hx as [Hx Hp].
  by rewrite (NoDup_key_eq key t r x Hnd Hr Hx Hk).
Qed.

Lemma batch_length : rows_matched (fun r => bool_decide (key r ∈ batch_ids)) t = length batch_ids.
Proof.
  set (q := fun r => bool_decide (key r ∈ batch_ids)).
  assert (Hsub : batch_ids `sublist_of` key <$> t).
  { apply (fmap_sublist key). etrans; [apply limit_rows_sublist|apply bfilter_sublist]. }
  unfold rows_matched.
  rewrite <- (length_fmap key). apply Permutation_length, NoDup_Permutation.
  - by apply NoDup_fmap_bfilter.
  - by eapply sublist_NoDup.
  - intros k. rewrite list_elem_of_fmap. split.
    + intros (r & -> & [_ Hq]%elem_of_bfilter). by apply bool_decide_eq_true in Hq.
    + intros Hk. pose proof (elem_of_sublist _ _ _ Hk Hsub) as Hk'.
      apply list_elem_of_fmap in Hk' as (r & -> & Hr). exists r. split; [done|].
      apply elem_of_bfilter. split; [done|]. by apply bool_decide_eq_true.
Qed.

Lemma batch_bound : 0 <= batch -> Z.of_nat (length batch_ids) <= batch.
Proof.
  intros Hb. unfold batch_ids, limit_rows. rewrite length_fmap. rewrite (proj2 (Z.ltb_ge _ _)) by lia.
  rewrite length_take. lia.
Qed.

Lemma batch_complete r :
  Z.of_nat (length batch_ids) < batch -> r ∈ t -> p r = true -> bool_decide (key r ∈ batch_ids) = true.
Proof.
  unfold batch_ids, limit_rows. rewrite length_fmap. intros Hlt Hr Hp. apply bool_decide_eq_true.
  destruct (batch <? 0); [|rewrite length_take in Hlt; rewrite take_ge by lia];
    apply list_elem_of_fmap; exists r; (split; [done|]); by apply elem_of_bfilter.
Qed.
End BatchDelete.

Lemma pres_requireMatched I n : preserves I (requireMatched n).
Proof. unfold requireMatched. pres. Qed.
Lemma pres_get_one I {R A : Type} `{TableDef R} c p (scan : R -> A) : preserves I (get_one c p scan).
Proof. unfold get_one. pres. Qed.
#[export] Hint Resolve pres_requireMatched pres_get_one : effects.

Lemma wp_requireMatched n (Q : result unit -> World -> Prop) w :
  Q (Err ErrDriver) (bump w) ->
  (n = 0%nat -> Q (Err ErrNotFound) (bump w)) ->
  (n <> 0%nat -> Q (Ok tt) (bump w)) -> wp (requireMatched n) Q w.
Proof.
  intros H1 H2 H3. unfold requireMatched. wp_step. wp_step; [done|].
  destruct (Nat.eqb_spec n 0); wp_step; auto.
Qed.

Lemma wp_get_one {R A : Type} `{TableDef R} c p (scan : R -> A) (Q : result A -> World -> Prop) w :
  Q (Err ErrDriver) (bump w) ->
  (List.find p (rows (w_db w)) = None -> Q (Err ErrNotFound) (bump w)) ->
  (forall r, List.find p (rows (w_db w)) = Some r -> Q (Ok (scan r)) (bump w)) ->
  wp (get_one c p scan) Q w.
Proof.
  intros H1 H2 H3. unfold get_one. wp_step. wp_step; [done|].
  destruct (List.find p _) eqn:Hf; wp_step; auto.
Qed.

(** ** Runs without faults *)

Lemma bind_run {A B} (m : M A) (k : A -> M B) w a w1 :
  m w = (Ok a, w1) -> (m ≫= k) w = k a w1.
Proof. intros Hm. unfold mbind, M_bind. by rewrite Hm. Qed.

Lemma bind_err {A B} (m : M A) (k : A -> M B) w e w1 :
  m w = (Err e, w1) -> (m ≫= k) w = (Err e, w1).
Proof. intros Hm. unfold mbind, M_bind. by rewrite Hm. Qed.

Lemma catch_run {A} (m : M A) w a w1 : m w = (Ok a, w1) -> catch m w = (Ok (inl a), w1).
Proof. intros Hm. unfold catch. by rewrite Hm. Qed.

Lemma catch_err {A} (m : M A) w e w1 : m w = (Err e, w1) -> catch m w = (Ok (inr e), w1).
Proof. intros Hm. unfold catch. by rewrite Hm. Qed.

Lemma attempt_run {A} (m : M A) w a w1 : m w = (Ok a, w1) -> attempt m w = (Ok (Some a), w1).
Proof. intros Hm. unfold attempt. by rewrite (bind_run _ _ _ _ _ (catch_run _ _ _ _ Hm)). Qed.

Lemma attempt_err {A} (m : M A) w e w1 : m w = (Err e, w1) -> attempt m w = (Ok None, w1).
Proof. intros Hm. unfold attempt. by rewrite (bind_run _ _ _ _ _ (catch_err _ _ _ _ Hm)). Qed.

Lemma map_err_run {A} f (m : M A) w a w1 : m w = (Ok a, w1) -> map_err f m w = (Ok a, w1).
Proof. intros Hm. unfold map_err. by rewrite (bind_run _ _ _ _ _ (catch_run _ _ _ _ Hm)). Qed.

Lemma map_err_err {A} f (m : M A) w e w1 : m w = (Err e, w1) -> map_err f m w = (Err (f e), w1).
Proof. intros Hm. unfold map_err. by rewrite (bind_run _ _ _ _ _ (catch_err _ _ _ _ Hm)). Qed.

Section QuietRuns.
Context {R : Type} `{TableDef R}.

Lemma query_row_quiet c (p : R -> bool) w :
    quiet w c -> query_row c p w = (Ok (List.find p (rows (w_db w))), bump w).
  Proof. intros Hq. unfold query_row. rewrite stmt_quiet by done. by destruct w. Qed.

Lemma get_one_quiet {A} c (p : R -> bool) (scan : R -> A) w r :
    quiet w c -> List.find p (rows (w_db w)) = Some r -> get_one c p scan w = (Ok (scan r), bump w).
  Proof.
    intros Hq Hf. unfold get_one. erewrite bind_run; [|by apply query_row_quiet]. by rewrite Hf.
  Qed.

Lemma get_one_missing {A} c (p : R -> bool) (scan : R -> A) w :
    quiet w c -> List.find p (rows (w_db w)) = None -> get_one c p scan w = (Err ErrNotFound, bump w).
  Proof.
    intros Hq Hf. unfold get_one. erewrite bind_run; [|by apply query_row_quiet]. by rewrite Hf.
  Qed.

Lemma query_quiet {A} c (q : DB -> A) w : quiet w c -> query c q w = (Ok (q (w_db w)), bump w).
  Proof. intros Hq. unfold query. rewrite stmt_quiet by done. by destruct w. Qed.

Lemma exec_insert_quiet c (r : R) w :
    quiet w c -> insert_violation r (w_db w) = None ->
    exec_insert c r w = (Ok tt, set_db (set_rows (rows (w_db w) ++ [r]) (w_db w)) (bump w)).
  Proof. intros Hq Hi. unfold exec_insert. rewrite stmt_quiet by done. by rewrite Hi. Qed.

Lemma exec_insert_auto_quiet c (mk : Z -> R) w n :
    quiet w c -> seq_of (w_db w) = Some n -> insert_violation (mk (n + 1)) (w_db w) = None ->
    exec_insert_auto c mk w =
      (Ok (n + 1), set_db (set_seq (n + 1) (set_rows (rows (w_db w) ++ [mk (n + 1)]) (w_db w))) (bump w)).
  Proof. intros Hq Hs Hi. unfold exec_insert_auto. rewrite stmt_quiet by done. by rewrite Hs, Hi. Qed.

Lemma exec_update_quiet c (p : R -> bool) f w :
    quiet w c -> exec_update c p f w = (Ok (rows_matched p (rows (w_db w))),
      set_db (set_rows (rows_update p f (rows (w_db w))) (w_db w)) (bump w)).
  Proof. intros Hq. unfold exec_update. by rewrite stmt_quiet. Qed.

Lemma exec_delete_quiet c (p : R -> bool) w :
    quiet w c -> exec_delete c p w = (Ok (rows_matched p (rows (w_db w))),
      set_db (set_rows (rows_delete p (rows (w_db w))) (w_db w)) (bump w)).
  Proof. intros Hq. unfold exec_delete. by rewrite stmt_quiet. Qed.

Lemma exec_delete_where_quiet c (p : DB -> R -> bool) w :
    quiet w c -> exec_delete_where c p w = (Ok (rows_matched (p (w_db w)) (rows (w_db w))),
      set_db (set_rows (rows_delete (p (w_db w)) (rows (w_db w))) (w_db w)) (bump w)).
  Proof. intros Hq. unfold exec_delete_where. by rewrite stmt_quiet. Qed.
End QuietRuns.

Lemma requireMatched_quiet n w c :
  quiet w c -> n <> 0%nat -> requireMatched n w = (Ok tt, bump w).
Proof.
  intros Hq Hn. unfold requireMatched. erewrite bind_run; [|by eapply rows_affected_quiet].
  by destruct (Nat.eqb_spec n 0).
Qed.

Lemma with_tx_quiet {A} c (m : M (A * bool)) w a w1 :
  quiet w c -> m (bump w) = (Ok (a, true), w1) -> w_env w1 = w_env w -> with_tx c m w = (Ok a, bump w1).
Proof.
  intros [Hf Hc] Hm He. unfold with_tx. rewrite Hf, Hc. simpl. rewrite Hm.
  by rewrite He, Hf, Hc.
Qed.

(** A run is determined by its result and the world it ends in. *)
Lemma run_eq {A} (x : result A * World) r : x.1 = r -> x = (r, x.2).
Proof. destruct x. by intros <-. Qed.

(** ** Keys *)

(** The index [key] is declared UNIQUE. *)
Definition is_key {R : Type} `{TableDef R} (key : R -> string) : Prop :=
  (fun r => Some (KStr [key r])) ∈ ukeys.

Lemma uniq_NoDup {R : Type} `{TableDef R} (key : R -> string) t :
  is_key key -> uniq_ok t = true -> NoDup (key <$> t).
Proof.
  intros Hk Hu. rewrite uniq_ok_iff in Hu. specialize (Hu _ Hk).
  assert (Ho : omap (fun r => Some (KStr [key r])) t = (fun s => KStr [s]) <$> (key <$> t)).
  { clear. induction t as [|r t IH]; [done|]. cbn [omap list_omap]. by rewrite IH. }
  rewrite Ho in Hu. by apply NoDup_fmap_1 in Hu.
Qed.

Lemma uniq_NoDup_int {R : Type} `{TableDef R} (key : R -> Z) t :
  (fun r => Some (KInt (key r))) ∈ ukeys -> uniq_ok t = true -> NoDup (key <$> t).
Proof.
  intros Hk Hu. rewrite uniq_ok_iff in Hu. specialize (Hu _ Hk).
  assert (Ho : omap (fun r => Some (KInt (key r))) t = KInt <$> (key <$> t)).
  { clear. induction t as [|r t IH]; [done|]. cbn [omap list_omap]. by rewrite IH. }
  rewrite Ho in Hu. by apply NoDup_fmap_1 in Hu.
Qed.

Lemma find_unique {R : Type} `{TableDef R} (key : R -> string) t r :
  is_key key -> uniq_ok t = true -> r ∈ t ->
  List.find (fun x => str_eq (key x) (key r)) t = Some r.
Proof. intros Hk Hu Hr. apply find_by_key; [by apply uniq_NoDup|done]. Qed.

Lemma key_row {R : Type} `{TableDef R} (key : R -> string) t r1 r2 :
  is_key key -> uniq_ok t = true -> r1 ∈ t -> r2 ∈ t -> key r1 = key r2 -> r1 = r2.
Proof. intros Hk Hu. apply NoDup_key_eq. by apply uniq_NoDup. Qed.

(** A fresh AUTOINCREMENT id violates no key. *)
Lemma auto_insert_ok {R : Type} `{TableDef R} d (row : R) P n :
  ukeys = [fun r : R => Some (KInt (row_id r))] -> wf_rows (rows d) P (Some n) -> row_id row = n + 1 ->
  row_check row = true -> forallb (fk_exists (parents (set_rows (rows d ++ [row]) d))) (fkeys row) = true ->
  insert_violation row d = None.
Proof.
  intros Hks [Hu _ [_ Hb]] Hid Hc Hf. unfold insert_violation. rewrite Hc, Hf. simpl negb. cbv iota.
  assert (Huniq : uniq_ok (rows d ++ [row]) = true); [|by rewrite Huniq].
  assert (Hnd : NoDup (row_id <$> rows d)) by (eapply uniq_NoDup_int; [rewrite Hks; left|done]).
  apply uniq_ok_iff. rewrite Hks. intros k [->|Hn]%elem_of_cons; [|by apply elem_of_nil in Hn].
  assert (Ho : forall t : list R, omap (fun r => Some (KInt (row_id r))) t = (KInt <$> (row_id <$> t) : list ukey)).
  { clear. induction t as [|r t IH]; [done|]. cbn [omap list_omap]. by rewrite IH. }
  rewrite Ho. apply NoDup_fmap_2; [congruence|].
  rewrite fmap_app. apply NoDup_app. split; [done|]. split; [|by apply NoDup_singleton].
  intros x (r & -> & Hr)%list_elem_of_fmap Hx. simpl in Hx. apply list_elem_of_singleton in Hx.
  specialize (Hb _ Hr). lia.
Qed.

(** A WHERE clause that fixes the key matches at most one row. *)
Lemma matched_le_one {R : Type} `{TableDef R} (key : R -> string) (p : R -> bool) k t :
  is_key key -> uniq_ok t = true -> (forall r, p r = true -> key r = k) -> (rows_matched p t <= 1)%nat.
Proof.
  intros Hk Hu Hp. pose proof (NoDup_fmap_bfilter key p t (uniq_NoDup key t Hk Hu)) as Hnd.
  unfold rows_matched. assert (Hall : forall r, r ∈ List.filter p t -> key r = k).
  { intros r [_ Hr]%elem_of_bfilter. by apply Hp. }
  destruct (List.filter p t) as [|a [|b l]]; simpl; [lia|lia|]. exfalso.
  cbn [fmap list_fmap] in Hnd. apply NoDup_cons in Hnd as [Hni _]. apply Hni.
  rewrite (Hall a) by left. rewrite <- (Hall b) by (right; left). by left.
Qed.

Lemma key_user : is_key ru_id.
Proof. by left. Qed.
Lemma key_device : is_key rd_id.
Proof. by left. Qed.
Lemma key_session : is_key rs_id.
Proof. by left. Qed.
Lemma key_code : is_key rc_code.
Proof. by left. Qed.
Lemma key_recovery : is_key rr_token_hash.
Proof. by left. Qed.
Lemma key_flow : is_key fl_FlowID.
Proof. by left. Qed.
Lemma key_endpoint : is_key re_id.
Proof. by left. Qed.
Lemma key_feed_token : is_key rf_id.
Proof. by left. Qed.
Lemma key_api_key : is_key rk_id.
Proof. by left. Qed.
#[export] Hint Resolve key_user key_device key_session key_code key_recovery key_flow key_endpoint
  key_feed_token key_api_key : tables.

(** crypto/rand fills the whole slice. *)
Definition rand_sized (e : Env) : Prop :=
  forall i n s, e_rand e i n = Some s -> String.length s = n.

(** ** Computations that leave the database alone

    Reads, memory, clock and randomness, and whatever is built of them. *)

Definition inert {A} (m : M A) : Prop :=
  forall w, w_db (m w).2 = w_db w /\ w_env (m w).2 = w_env w /\ (m w).1 <> Panic.

Lemma wp_inert {A} (m : M A) (Q : result A -> World -> Prop) w :
  inert m -> (forall e w', w_db w' = w_db w -> w_env w' = w_env w -> Q (Err e) w') ->
  (forall a w', (m w) = (Ok a, w') -> w_db w' = w_db w -> w_env w' = w_env w -> Q (Ok a) w') -> wp m Q w.
Proof.
  intros Hm He Ho. destruct (Hm w) as (Hd & Hv & Hp). unfold wp.
  destruct (m w) as [[a|e|] w'] eqn:Hr; simpl in *; [by apply Ho|by apply He|done].
Qed.

Section Inert.
Lemma inert_ret {A} (a : A) : inert (mret a).
  Proof. by intros w. Qed.
Lemma inert_fail {A} e : inert (@fail A e).
  Proof. by intros w. Qed.
Lemma inert_bind {A B} (m : M A) (k : A -> M B) : inert m -> (forall a, inert (k a)) -> inert (m ≫= k).
  Proof.
    intros Hm Hk w. unfold mbind, M_bind. destruct (Hm w) as (Hd & He & Hp).
    destruct (m w) as [[a|e|] w']; simpl in *; [|done|done].
    destruct (Hk a w') as (Hd' & He' & Hp'). split_and!; [by rewrite Hd'|by rewrite He'|done].
  Qed.
Lemma inert_catch {A} (m : M A) : inert m -> inert (catch m).
  Proof. intros Hm w. destruct (Hm w) as (Hd & He & Hp). unfold catch. by destruct (m w) as [[]]. Qed.
Lemma inert_attempt {A} (m : M A) : inert m -> inert (attempt m).
  Proof. intros Hm. apply inert_bind; [by apply inert_catch|]. intros []; apply inert_ret. Qed.
Lemma inert_map_err {A} f (m : M A) : inert m -> inert (map_err f m).
  Proof. intros Hm. apply inert_bind; [by apply inert_catch|]. intros []; [apply inert_ret|apply inert_fail]. Qed.
Lemma inert_get_mem : inert get_mem.
  Proof. by intros w. Qed.
Lemma inert_put_mem m : inert (put_mem m).
  Proof. by intros w. Qed.
Lemma inert_emit o : inert (emit o).
  Proof. by intros w. Qed.
Lemma inert_now : inert now_unix.
  Proof. by intros w. Qed.
Lemma inert_new_id : inert new_id.
  Proof. by intros w. Qed.
Lemma inert_rand n : inert (rand_bytes n).
  Proof. intros w. unfold rand_bytes. by destruct (e_rand _ _ _). Qed.
Lemma inert_query {A} c (q : DB -> A) : inert (query c q).
  Proof. intros w. unfold query, stmt. by destruct (_ || _). Qed.
Lemma inert_query_row `{TableDef R} c p : inert (query_row (R:=R) c p).
  Proof. intros w. unfold query_row, stmt. by destruct (_ || _). Qed.
Lemma inert_get_one {R A : Type} `{TableDef R} c p (scan : R -> A) : inert (get_one c p scan).
  Proof. apply inert_bind; [apply inert_query_row|]. intros []; [apply inert_ret|apply inert_fail]. Qed.
End Inert.

Create HintDb inert.
#[export] Hint Resolve inert_ret inert_fail inert_get_mem inert_put_mem inert_emit inert_now inert_new_id
  inert_rand inert_query inert_query_row inert_get_one : inert.

Ltac inert_step :=
  match goal with
  | |- inert (mbind _ _) => apply inert_bind; [|intros ?]
  | |- inert (let _ := _ in _) => cbv zeta
  | |- inert (match ?x with _ => _ end) => destruct x eqn:?
  | |- inert _ => first [ solve [eauto 2 with inert]
      | apply inert_catch | apply inert_attempt | apply inert_map_err ]
  end.
Ltac solve_inert := intros; repeat inert_step.
