(* ===== verification/NetAddr.v ===== *)
(** * The part of net/netip the program relies on

    An address is an IPv4 number of 32 bits or an IPv6 number of 128 bits with
    a zone (empty for none); a prefix is an address and a number of bits.  The
    functions follow the documentation of netip.Addr and netip.Prefix.  These
    model the standard library, not code under src/. *)

From S2P Require Import Prelude GoLib.
From Stdlib Require Import Ascii.

Inductive addr := V4 (n : Z) | V6 (n : Z) (zone : string).

#[export] Instance addr_eq_dec : EqDecision addr.
Proof. solve_decision. Defined.

Record prefix := MkPrefix { px_addr : addr; px_bits : Z }.

Definition addr_ok (a : addr) : Prop :=
  match a with V4 n => 0 <= n < 2 ^ 32 | V6 n _ => 0 <= n < 2 ^ 128 end.

Definition zone (a : addr) : string := match a with V4 _ => EmptyString | V6 _ z => z end.
Definition bit_len (a : addr) : Z := match a with V4 _ => 32 | V6 _ _ => 128 end.

(** IPv4-mapped IPv6, ::ffff:0:0/96. *)
Definition is_4in6 (a : addr) : bool :=
  match a with V4 _ => false | V6 n _ => Z.shiftr n 32 =? 65535 end.
Definition unmap (a : addr) : addr :=
  match a with
  | V6 n _ => if Z.shiftr n 32 =? 65535 then V4 (n mod 2 ^ 32) else a
  | V4 _ => a
  end.

(** [Prefix.Masked]: the bits after the prefix are zero. *)
Definition masked (p : prefix) : prefix :=
  let clear w n := Z.shiftl (Z.shiftr n (w - px_bits p)) (w - px_bits p) in
  MkPrefix match px_addr p with V4 n => V4 (clear 32 n) | V6 n z => V6 (clear 128 n) z end (px_bits p).

(** A zoned address is in no prefix; a mapped one is not in an IPv4 prefix. *)
Definition contains (p : prefix) (a : addr) : bool :=
  match px_addr p, a with
  | V4 m, V4 n => Z.shiftr n (32 - px_bits p) =? Z.shiftr m (32 - px_bits p)
  | V6 m _, V6 n z => bool_decide (z = EmptyString) &&
                      (Z.shiftr n (128 - px_bits p) =? Z.shiftr m (128 - px_bits p))
  | _, _ => false
  end.

Definition is_loopback (a : addr) : bool :=
  match unmap a with V4 n => Z.shiftr n 24 =? 127 | V6 n z => bool_decide (z = EmptyString) && (n =? 1) end.
Definition is_multicast (a : addr) : bool :=
  match unmap a with V4 n => Z.shiftr n 28 =? 14 | V6 n _ => Z.shiftr n 120 =? 255 end.
Definition is_link_local_unicast (a : addr) : bool :=
  match unmap a with
  | V4 n => Z.shiftr n 16 =? 43518                  (* 169.254/16 *)
  | V6 n _ => Z.shiftr n 118 =? 1018                (* fe80::/10 *)
  end.
Definition is_unspecified (a : addr) : bool :=
  match a with V4 n => n =? 0 | V6 n z => bool_decide (z = EmptyString) && (n =? 0) end.

Definition is_global_unicast (a : addr) : bool :=
  negb (match a with V4 n => (n =? 0) || (n =? 2 ^ 32 - 1) | V6 _ _ => false end) &&
  negb (is_unspecified a) && negb (is_loopback a) && negb (is_multicast a) &&
  negb (is_link_local_unicast a).

(** Literals of the source. *)
Definition mp4 (a b c d bits : Z) : prefix := MkPrefix (V4 (((a * 256 + b) * 256 + c) * 256 + d)) bits.
Definition hextets (l : list Z) : Z := fold_left (fun n h => n * 65536 + h) l 0.
Definition mp6 (l : list Z) (bits : Z) : prefix := MkPrefix (V6 (hextets l) EmptyString) bits.

(** netip.Addr.Compare: by bit length, then value, then zone. *)
Definition addr_le (a b : addr) : bool :=
  match a, b with
  | V4 m, V4 n => m <=? n
  | V4 _, V6 _ _ => true
  | V6 _ _, V4 _ => false
  | V6 m x, V6 n y => (m <? n) || ((m =? n) && String.leb x y)
  end.

Lemma unmap_idem a : unmap (unmap a) = unmap a.
Proof.
  destruct a as [n|n z]; [reflexivity|]. unfold unmap at 2 3.
  destruct (Z.shiftr n 32 =? 65535) eqn:E; [reflexivity|]. unfold unmap. rewrite E. reflexivity.
Qed.

Lemma unmap_mapped n z : 0 <= n < 2 ^ 32 -> unmap (V6 (65535 * 2 ^ 32 + n) z) = V4 n.
Proof.
  intros Hn. unfold unmap. rewrite Z.shiftr_div_pow2 by lia.
  rewrite <- (Z.div_unique (65535 * 2 ^ 32 + n) (2 ^ 32) 65535 n) by lia.
  rewrite <- (Z.mod_unique (65535 * 2 ^ 32 + n) (2 ^ 32) 65535 n) by lia.
  done.
Qed.

(** * net/netip: addresses and prefixes as text

    [ParseAddr], [ParsePrefix] and [Addr.String].  These model the standard
    library, not code under src/.  [parse_addr_string]: the text of an address
    is read back as that address. *)

(** ** IPv4 *)

(** The octets: [acc] those before, [val] and [len] the value and the length of
    the one being read. *)
Fixpoint v4_fields (acc : list Z) (val : Z) (len : nat) (s : string) : option (list Z) :=
  match s with
  | EmptyString => if Nat.ltb (length acc) 3 then None else Some (acc ++ [val])
  | String c r =>
      match digit_value c with
      | Some d =>
          if Nat.eqb len 1 && (val =? 0) then None
          else if 255 <? val * 10 + d then None
          else v4_fields acc (val * 10 + d) (S len) r
      | None =>
          if Ascii.eqb c "." then
            if Nat.eqb len 0 || str_eq r EmptyString || Nat.eqb (length acc) 3 then None
            else v4_fields (acc ++ [val]) 0 0 r
          else None
      end
  end.

Definition octets (l : list Z) : Z := fold_left (fun n b => n * 256 + b) l 0.

Definition parse_ipv4 (s : string) : option addr := l ← v4_fields [] 0 0 s; Some (V4 (octets l)).

(** ** IPv6 *)

(** The hexadecimal digits at the front: their value, their number, the rest.
    A fifth digit is an error. *)
Fixpoint hex_run (off : nat) (acc : Z) (s : string) : option (Z * nat * string) :=
  match s with
  | EmptyString => Some (acc, off, s)
  | String c r =>
      match hex_value c with
      | None => Some (acc, off, s)
      | Some v =>
          if Nat.ltb 3 off then None
          else if 65535 <? acc * 16 + v then None
          else hex_run (S off) (acc * 16 + v) r
      end
  end.

(** What the groups and the place of the ellipsis make. *)
Definition expand (acc : list Z) (ellipsis : option nat) (rest : string) : option (list Z) :=
  if negb (str_eq rest EmptyString) then None
  else if Nat.ltb (length acc) 8 then
    match ellipsis with
    | None => None
    | Some e => Some (take e acc ++ replicate (8 - length acc) 0 ++ drop e acc)
    end
  else match ellipsis with None => Some acc | Some _ => None end.

(** The loop over the groups; one per unit of fuel, and at most 8 fit. *)
Fixpoint v6_groups (fuel : nat) (acc : list Z) (ellipsis : option nat) (s : string) : option (list Z) :=
  match fuel with
  | O => expand acc ellipsis s
  | S fuel =>
      '(v, off, rest) ← hex_run 0 0 s;
      if Nat.eqb off 0 then None
      else match rest with
      | EmptyString => expand (acc ++ [v]) ellipsis EmptyString
      | String c r =>
          if Ascii.eqb c "." then
            if bool_decide (ellipsis = None) && negb (Nat.eqb (length acc) 6) then None
            else if Nat.ltb 6 (length acc) then None
            else l ← v4_fields [] 0 0 s;
                 expand (acc ++ [octets l / 65536; octets l mod 65536]) ellipsis EmptyString
          else if negb (Ascii.eqb c ":") then None
          else match r with
          | EmptyString => None
          | String d r2 =>
              if Ascii.eqb d ":" then
                match ellipsis with
                | Some _ => None
                | None =>
                    if str_eq r2 EmptyString then expand (acc ++ [v]) (Some (S (length acc))) EmptyString
                    else v6_groups fuel (acc ++ [v]) (Some (S (length acc))) r2
                end
              else v6_groups fuel (acc ++ [v]) ellipsis r
          end
      end
  end.

Definition leading_ellipsis (s : string) : option string :=
  match s with
  | String c (String d r) => if Ascii.eqb c ":" && Ascii.eqb d ":" then Some r else None
  | _ => None
  end.

Definition parse_ipv6 (s : string) : option addr :=
  let (s, z) := split2 "%" s in
  if bool_decide (z = Some EmptyString) then None
  else
    let z := default EmptyString z in
    match leading_ellipsis s with
    | Some EmptyString => Some (V6 0 z)
    | Some r => l ← v6_groups 8 [] (Some 0%nat) r; Some (V6 (hextets l) z)
    | None => l ← v6_groups 8 [] None s; Some (V6 (hextets l) z)
    end.

(** [ParseAddr]: the first of three characters decides. *)
Fixpoint addr_kind (s : string) : option ascii :=
  match s with
  | EmptyString => None
  | String c r => if Ascii.eqb c "." || Ascii.eqb c ":" || Ascii.eqb c "%" then Some c else addr_kind r
  end.

Definition parse_addr (s : string) : option addr :=
  match addr_kind s with
  | Some c => if Ascii.eqb c "." then parse_ipv4 s else if Ascii.eqb c ":" then parse_ipv6 s else None
  | None => None
  end.

(** [net.ParseIP]: an address without a zone. *)
Definition parse_ip (s : string) : option addr :=
  a ← parse_addr s; if str_eq (zone a) EmptyString then Some a else None.

(** [strconv.Atoi], without its sign and its leading zeros. *)
Definition prefix_bits (s : string) : option Z :=
  match s with
  | String c (String _ _) => if (49 <=? code c) && (code c <=? 57) then parse_int s else None
  | _ => parse_int s
  end.

(** [s[:i], s[i+1:]] for the last slash. *)
Fixpoint split_last (sep : ascii) (s : string) : option (string * string) :=
  match s with
  | EmptyString => None
  | String c r =>
      match split_last sep r with
      | Some (h, t) => Some (String c h, t)
      | None => if Ascii.eqb c sep then Some (EmptyString, r) else None
      end
  end.

Definition parse_prefix (s : string) : option prefix :=
  '(ip, bits) ← split_last "/" s;
  a ← parse_addr ip;
  if negb (str_eq (zone a) EmptyString) then None
  else b ← prefix_bits bits; if (b <? 0) || (bit_len a <? b) then None else Some (MkPrefix a b).

(** [strconv.ParseUint(s, 10, 16)] *)
Definition parse_uint16 (s : string) : option Z :=
  match s with
  | EmptyString => None
  | _ => n ← parse_digits 0 s; if n <? 65536 then Some n else None
  end.

(** [ParseAddrPort]: an IPv6 address is in brackets, and only an IPv6 one. *)
Definition strip_brackets (s : string) : option string :=
  match s with
  | String c r =>
      if Ascii.eqb c "[" then match split_last "]" r with Some (h, EmptyString) => Some h | _ => None end else None
  | EmptyString => None
  end.
Definition is_v4 (a : addr) : bool := match a with V4 _ => true | V6 _ _ => false end.

Definition parse_addr_port (s : string) : option (addr * Z) :=
  '(host, port) ← split_last ":" s;
  let bare := default host (strip_brackets host) in
  let brackets := bool_decide (is_Some (strip_brackets host)) in
  if str_eq host EmptyString || str_eq port EmptyString then None
  else
    n ← parse_uint16 port; a ← parse_addr bare;
    if Bool.eqb brackets (is_v4 a) then None else Some (a, n).

(** ** Text *)

Definition v4_string (n : Z) : string :=
  (format_int (n / 2 ^ 24) ++ "." ++ format_int (n / 2 ^ 16 mod 256) ++ "." ++ format_int (n / 2 ^ 8 mod 256) ++ "." ++
   format_int (n mod 256))%string.

(** The 16-bit groups, the first first. *)
Fixpoint groups_of (k : nat) (n : Z) : list Z :=
  match k with O => [] | S k => groups_of k (n / 65536) ++ [n mod 65536] end.

(** [appendHex]: no leading zeros. *)
Definition hex_group (x : Z) : string :=
  let d k := hex_digit (x / k mod 16) in
  if 4096 <=? x then String (d 4096) (String (d 256) (String (d 16) (String (d 1) EmptyString)))
  else if 256 <=? x then String (d 256) (String (d 16) (String (d 1) EmptyString))
  else if 16 <=? x then String (d 16) (String (d 1) EmptyString)
  else String (d 1) EmptyString.

Fixpoint zero_run (l : list Z) : nat :=
  match l with x :: r => if x =? 0 then S (zero_run r) else O | [] => O end.

(** The first of the longest runs of at least two zero groups: where it starts
    and its length. *)
Fixpoint longest_run (i : nat) (l : list Z) (best : nat * nat) : nat * nat :=
  match l with
  | [] => best
  | _ :: r =>
      let n := zero_run l in
      longest_run (S i) r (if Nat.leb 2 n && Nat.ltb best.2 n then (i, n) else best)
  end.

Definition v6_string (n : Z) : string :=
  let gs := groups_of 8 n in
  let (start, len) := longest_run 0 gs (0%nat, 0%nat) in
  if Nat.eqb len 0 then join ":" (hex_group <$> gs)
  else (join ":" (hex_group <$> take start gs) ++ "::" ++ join ":" (hex_group <$> drop (start + len) gs))%string.

Definition zone_suffix (z : string) : string := if str_eq z EmptyString then EmptyString else String "%" z.

Definition addr_string (a : addr) : string :=
  match a with
  | V4 n => v4_string n
  | V6 n z =>
      if is_4in6 a then ("::ffff:" ++ v4_string (n mod 2 ^ 32) ++ zone_suffix z)%string
      else (v6_string n ++ zone_suffix z)%string
  end.

Definition prefix_string (p : prefix) : string := (addr_string (px_addr p) ++ "/" ++ format_int (px_bits p))%string.

(** ** Lemmas: reading an IPv4 text *)

Lemma byte_cases (P : Z -> Prop) : Forall P (Z.of_nat <$> seq 0 256) -> forall b, 0 <= b < 256 -> P b.
Proof.
  intros H b Hb. rewrite Forall_forall in H. apply H. rewrite <- (Z2Nat.id b) by lia.
  apply list_elem_of_fmap_2, elem_of_seq. lia.
Qed.

Lemma v4_octet b : 0 <= b < 256 -> exists k, forall acc rest,
  v4_fields acc 0 0 (format_int b ++ rest) = v4_fields acc b (S k) rest.
Proof.
  revert b. apply byte_cases. cbv [seq fmap list_fmap].
  repeat constructor; first [exists 0%nat; intros; reflexivity|exists 1%nat; intros; reflexivity|exists 2%nat; intros; reflexivity].
Qed.

Lemma v4_dot acc b k r : length acc <> 3%nat -> r <> EmptyString ->
  v4_fields acc b (S k) (String "." r) = v4_fields (acc ++ [b]) 0 0 r.
Proof.
  intros Ha Hr. cbn [v4_fields]. replace (digit_value ".") with (@None Z) by done.
  apply Nat.eqb_neq in Ha. rewrite Ha. apply str_eq_false in Hr. by rewrite Hr.
Qed.

Lemma format_int_ne z : format_int z <> EmptyString.
Proof. unfold format_int. destruct (z <? 0); [done|]. destruct (dec_digits_cons 19 z EmptyString) as (d & r & _ & ->). done. Qed.

Lemma app_ne_l (s t : string) : s <> EmptyString -> (s ++ t)%string <> EmptyString.
Proof. by destruct s. Qed.

Definition dotted_octets (a b c d : Z) : string :=
  (format_int a ++ "." ++ format_int b ++ "." ++ format_int c ++ "." ++ format_int d)%string.

Lemma v4_fields_dotted a b c d : 0 <= a < 256 -> 0 <= b < 256 -> 0 <= c < 256 -> 0 <= d < 256 ->
  v4_fields [] 0 0 (dotted_octets a b c d) = Some [a; b; c; d].
Proof.
  intros Ha Hb Hc Hd. unfold dotted_octets. rewrite !string_app_cons, !append_nil.
  destruct (v4_octet a Ha) as [ka ->], (v4_octet b Hb) as [kb Eb], (v4_octet c Hc) as [kc Ec], (v4_octet d Hd) as [kd Ed].
  rewrite v4_dot by (done || apply app_ne_l, format_int_ne). rewrite Eb.
  rewrite v4_dot by (done || apply app_ne_l, format_int_ne). rewrite Ec.
  rewrite v4_dot by (done || apply format_int_ne). rewrite <- (string_app_nil (format_int d)), Ed. done.
Qed.

Lemma octets_split n : 0 <= n < 2 ^ 32 -> octets [n / 2 ^ 24; n / 2 ^ 16 mod 256; n / 2 ^ 8 mod 256; n mod 256] = n.
Proof. intros Hn. unfold octets. cbn [fold_left]. Z.to_euclidean_division_equations. lia. Qed.

Lemma v4_fields_string n : 0 <= n < 2 ^ 32 -> exists l, v4_fields [] 0 0 (v4_string n) = Some l /\ octets l = n.
Proof.
  intros Hn. eexists. split; [apply (v4_fields_dotted (n / 2 ^ 24) (n / 2 ^ 16 mod 256) (n / 2 ^ 8 mod 256) (n mod 256))|].
  1-4: Z.to_euclidean_division_equations; lia. by apply octets_split.
Qed.

(** ** Lemmas: reading the groups of an IPv6 text *)

Lemma hex_value_digit v : 0 <= v < 16 -> hex_value (hex_digit v) = Some v.
Proof.
  intros Hv. rewrite <- (Z2Nat.id v) by lia. assert (Z.to_nat v < 16)%nat as Hn by lia.
  revert Hn. generalize (Z.to_nat v). clear v Hv. intros n Hn.
  do 16 (destruct n as [|n]; [done|]). lia.
Qed.

(** What may follow a group. *)
Definition ends_group (rest : string) : Prop :=
  match rest with EmptyString => True | String c _ => hex_value c = None end.

Lemma hex_run_step off acc v r : 0 <= v < 16 -> (off <= 3)%nat -> acc * 16 + v <= 65535 ->
  hex_run off acc (String (hex_digit v) r) = hex_run (S off) (acc * 16 + v) r.
Proof.
  intros Hv Ho Ha. cbn [hex_run]. rewrite hex_value_digit by done.
  replace (Nat.ltb 3 off) with false by (symmetry; apply Nat.ltb_ge; lia). by replace (65535 <? _) with false by lia.
Qed.

Lemma hex_run_end off acc rest : ends_group rest -> hex_run off acc rest = Some (acc, off, rest).
Proof. destruct rest as [|c r]; [done|]. cbn [hex_run ends_group]. by intros ->. Qed.

Lemma hex_run_group g rest : 0 <= g < 65536 -> ends_group rest ->
  exists k, hex_run 0 0 (hex_group g ++ rest) = Some (g, S k, rest).
Proof.
  intros Hg Hr. unfold hex_group. cbv zeta.
  repeat case_match; rewrite ?string_app_cons, append_nil; eexists;
    repeat (rewrite hex_run_step; [|Z.to_euclidean_division_equations; lia|lia|Z.to_euclidean_division_equations; lia]);
    rewrite hex_run_end by done; repeat f_equal; Z.to_euclidean_division_equations; lia.
Qed.

(** The first octet of an embedded IPv4 text looks like a group. *)
Lemma hex_run_octet b : 0 <= b < 256 -> exists v k, forall r,
  hex_run 0 0 (format_int b ++ String "." r) = Some (v, S k, String "." r).
Proof.
  revert b. apply byte_cases. cbv [seq fmap list_fmap].
  repeat constructor; do 2 eexists; intros r; reflexivity.
Qed.

Definition group_text (l : list Z) : string := join ":" (hex_group <$> l).

Lemma group_text_cons x y l : group_text (x :: y :: l) = (hex_group x ++ String ":" (group_text (y :: l)))%string.
Proof. done. Qed.

Lemma hex_group_lead g : 0 <= g < 65536 -> exists v r, hex_group g = String (hex_digit v) r /\ 0 <= v < 16.
Proof. intros Hg. unfold hex_group. cbv zeta. repeat case_match; do 2 eexists; (split; [done|]); apply Z.mod_pos_bound; lia. Qed.

Lemma hex_digit_no_colon v : 0 <= v < 16 -> Ascii.eqb (hex_digit v) ":" = false.
Proof. intros Hv. apply Ascii.eqb_neq. intros E. pose proof (hex_value_digit v Hv) as H. by rewrite E in H. Qed.

Definition is_group (g : Z) : Prop := 0 <= g < 65536.

Lemma group_text_lead x l t : is_group x -> exists v r, (group_text (x :: l) ++ t = String (hex_digit v) r)%string /\ 0 <= v < 16.
Proof.
  intros Hx. destruct (hex_group_lead x Hx) as (v & r & E & Hv). destruct l as [|y l].
  - exists v, (r ++ t)%string. split; [|done]. change (group_text [x]) with (hex_group x). by rewrite E.
  - exists v, ((r ++ String ":" (group_text (y :: l))) ++ t)%string. split; [|done]. by rewrite group_text_cons, E, !string_app_cons.
Qed.

(** The loop over the groups of [l]: up to the end of the text, or up to an
    ellipsis. *)
Lemma v6_groups_end l fuel acc e : l <> [] -> Forall is_group l -> (length l <= fuel)%nat ->
  v6_groups fuel acc e (group_text l) = expand (acc ++ l) e EmptyString.
Proof.
  revert fuel acc. induction l as [|x l IH]; intros fuel acc Hl Hg Hf; [done|].
  apply Forall_cons in Hg as [Hx Hg]. destruct fuel as [|fuel]; [simpl in Hf; lia|]. cbn [length] in Hf.
  destruct l as [|y l].
  - change (group_text [x]) with (hex_group x). rewrite <- (string_app_nil (hex_group x)). cbn [v6_groups].
    destruct (hex_run_group x EmptyString Hx I) as [k ->]. done.
  - rewrite group_text_cons. cbn [v6_groups].
    destruct (hex_run_group x (String ":" (group_text (y :: l))) Hx) as [k ->]; [done|]. cbn -[group_text expand v6_groups].
    pose proof (IH fuel (acc ++ [x]) ltac:(done) Hg ltac:(simpl in *; lia)) as H. rewrite <- (assoc_L (++)) in H.
    apply Forall_cons in Hg as [Hy Hg]. destruct (group_text_lead y l EmptyString Hy) as (v & r & E & Hv).
    rewrite string_app_nil in E. rewrite E in *. by rewrite hex_digit_no_colon.
Qed.

Lemma v6_groups_ellipsis l fuel acc t : l <> [] -> Forall is_group l -> (length l <= fuel)%nat ->
  v6_groups fuel acc None (group_text l ++ String ":" (String ":" t)) =
  if str_eq t EmptyString then expand (acc ++ l) (Some (length (acc ++ l))) EmptyString
  else v6_groups (fuel - length l) (acc ++ l) (Some (length (acc ++ l))) t.
Proof.
  revert fuel acc. induction l as [|x l IH]; intros fuel acc Hl Hg Hf; [done|].
  apply Forall_cons in Hg as [Hx Hg]. destruct fuel as [|fuel]; [simpl in Hf; lia|]. cbn [length] in Hf.
  destruct l as [|y l].
  - change (group_text [x]) with (hex_group x). cbn [v6_groups].
    destruct (hex_run_group x (String ":" (String ":" t)) Hx) as [k ->]; [done|]. cbn -[str_eq expand v6_groups].
    rewrite length_app, Nat.add_comm, Nat.sub_0_r. done.
  - rewrite group_text_cons, string_app_assoc, string_app_cons. cbn [v6_groups].
    destruct (hex_run_group x (String ":" (group_text (y :: l) ++ String ":" (String ":" t))) Hx) as [k ->]; [done|].
    cbn -[group_text expand v6_groups str_eq app].
    pose proof (IH fuel (acc ++ [x]) ltac:(done) Hg ltac:(simpl in *; lia)) as H. rewrite <- (assoc_L (++)) in H.
    apply Forall_cons in Hg as [Hy Hg]. destruct (group_text_lead y l (String ":" (String ":" t)) Hy) as (v & r & E & Hv).
    rewrite E in *. by rewrite hex_digit_no_colon.
Qed.

(** ** Lemmas: the runs of zeros *)

Lemma zero_run_spec l : take (zero_run l) l = replicate (zero_run l) 0 /\ (zero_run l <= length l)%nat.
Proof.
  induction l as [|x l [IH1 IH2]]; [done|]. cbn [zero_run]. destruct (Z.eqb_spec x 0) as [->|]; [|simpl; split; [done|lia]].
  cbn [take replicate length]. rewrite IH1. split; [done|lia].
Qed.

(** What the search maintains: its best run is one of zeros. *)
Definition run_of (gs : list Z) (best : nat * nat) : Prop :=
  best.2 = 0%nat \/ (2 <= best.2)%nat /\ gs = take best.1 gs ++ replicate best.2 0 ++ drop (best.1 + best.2) gs /\
  (best.1 + best.2 <= length gs)%nat.

Lemma longest_run_spec gs : forall l i best, drop i gs = l -> run_of gs best -> run_of gs (longest_run i l best).
Proof.
  induction l as [|x l IH]; intros i best Hi Hb; [done|]. cbn [longest_run].
  apply IH; [replace (S i) with (i + 1)%nat by lia; by rewrite <- drop_drop, Hi|]. destruct (Nat.leb 2 _ && _) eqn:E; [|done].
  apply andb_true_iff in E as [E%Nat.leb_le _]. right. destruct (zero_run_spec (x :: l)) as [Ht Hn].
  cbn [fst snd]. split; [done|].
  assert (length (drop i gs) = length (x :: l)) as Hlen by by rewrite Hi. rewrite length_drop in Hlen.
  split; [|simpl in *; lia].
  rewrite <- Ht, <- Hi, <- drop_drop, take_drop, take_drop. done.
Qed.

Lemma longest_run_zeros gs : run_of gs (longest_run 0 gs (0%nat, 0%nat)).
Proof. apply longest_run_spec; [done|by left]. Qed.

(** ** Lemmas: the number of the groups *)

Lemma hextets_snoc l x : hextets (l ++ [x]) = hextets l * 65536 + x.
Proof. unfold hextets. by rewrite fold_left_app. Qed.

Lemma groups_of_spec k n : 0 <= n < 65536 ^ Z.of_nat k ->
  hextets (groups_of k n) = n /\ length (groups_of k n) = k /\ Forall is_group (groups_of k n).
Proof.
  revert n. induction k as [|k IH]; intros n Hn; cbn [groups_of].
  - split; [|done]. simpl in Hn. unfold hextets. simpl. lia.
  - rewrite Nat2Z.inj_succ, Z.pow_succ_r in Hn by lia.
    destruct (IH (n / 65536)) as (H1 & H2 & H3).
    { split; [apply Z.div_pos; lia|apply Z.div_lt_upper_bound; lia]. }
    rewrite hextets_snoc, H1, length_app, H2, Forall_app.
    split; [pose proof (Z.div_mod n 65536 ltac:(lia)); lia|]. split; [simpl; lia|].
    split; [done|]. constructor; [|done]. apply Z.mod_pos_bound. lia.
Qed.

Lemma expand_run pre post k : (length pre + k + length post = 8)%nat -> (0 < k)%nat ->
  expand (pre ++ post) (Some (length pre)) EmptyString = Some (pre ++ replicate k 0 ++ post).
Proof.
  intros Hl Hk. unfold expand. cbn [negb str_eq]. rewrite length_app.
  replace (Nat.ltb _ 8) with true by (symmetry; apply Nat.ltb_lt; lia).
  rewrite take_app_length, drop_app_length. by replace (8 - (length pre + length post))%nat with k by lia.
Qed.

(** ** An address reads back *)

(** What [parse_ipv6] does with the text before the zone. *)
Definition parse_groups (s : string) : option Z :=
  match leading_ellipsis s with
  | Some EmptyString => Some 0
  | Some r => hextets <$> v6_groups 8 [] (Some 0%nat) r
  | None => hextets <$> v6_groups 8 [] None s
  end.

Lemma group_text_digit x l t : is_group x -> leading_ellipsis (group_text (x :: l) ++ t) = None.
Proof.
  intros Hx. destruct (group_text_lead x l t Hx) as (v & r & -> & Hv). destruct r as [|d r]; [done|].
  cbn [leading_ellipsis]. by rewrite hex_digit_no_colon.
Qed.

Lemma group_text_ne x l : is_group x -> group_text (x :: l) <> EmptyString.
Proof. intros Hx E. destruct (group_text_lead x l EmptyString Hx) as (v & r & E2 & _). by rewrite string_app_nil, E in E2. Qed.

Lemma parse_groups_string n : 0 <= n < 2 ^ 128 -> parse_groups (v6_string n) = Some n.
Proof.
  intros Hn. destruct (groups_of_spec 8 n) as (Hx & Hlen & Hg); [done|].
  unfold v6_string. cbv zeta. pose proof (longest_run_zeros (groups_of 8 n)) as Hrun.
  revert Hx Hlen Hg Hrun. generalize (groups_of 8 n). intros gs Hx Hlen Hg Hrun.
  destruct (longest_run 0 gs (0%nat, 0%nat)) as [start len]. unfold run_of in Hrun. cbn [fst snd] in Hrun.
  destruct Hrun as [->|(Hl2 & Hgs & Hle)]; cbn [Nat.eqb].
  - change (join ":" (hex_group <$> gs)) with (group_text gs). unfold parse_groups.
    destruct gs as [|x l]; [done|]. rewrite <- (string_app_nil (group_text (x :: l))), group_text_digit by (by apply Forall_cons in Hg as [? _]).
    rewrite string_app_nil, v6_groups_end by (done || simpl in *; lia). cbn [fmap option_fmap option_map app].
    unfold expand. rewrite Hlen. change (Some (hextets (x :: l)) = Some n). by rewrite Hx.
  - replace (Nat.eqb len 0) with false by (symmetry; apply Nat.eqb_neq; lia).
    change (join ":" (hex_group <$> ?l)) with (group_text l).
    change (join ":" (hex_group <$> drop (start + len) gs)) with (group_text (drop (start + len) gs)).
    assert (length (take start gs) + len + length (drop (start + len) gs) = 8)%nat as H8
      by (rewrite length_take, length_drop; lia).
    assert (Forall is_group (take start gs) /\ Forall is_group (drop (start + len) gs)) as [Hpre Hpost]
      by (split; [by apply Forall_take|by apply Forall_drop]).
    revert H8 Hpre Hpost Hgs. generalize (take start gs) as pre, (drop (start + len) gs) as post. intros pre post H8 Hpre Hpost Hgs.
    assert (hextets (pre ++ replicate len 0 ++ post) = n) as Hv by (by rewrite <- Hgs).
    change ("::" ++ group_text post)%string with (String ":" (String ":" (group_text post))).
    unfold parse_groups. destruct pre as [|x pre].
    + cbn [app] in Hv. change (leading_ellipsis (group_text [] ++ ?s)) with (Some (group_text post)). destruct post as [|y post].
      * simpl in H8. replace len with 8%nat in Hv by lia. by rewrite <- Hv.
      * destruct (group_text (y :: post)) as [|c r] eqn:E; [by apply group_text_ne in E; [|apply Forall_cons in Hpost as [? _]]|].
        rewrite <- E, v6_groups_end by (done || simpl in *; lia).
        pose proof (expand_run [] (y :: post) len ltac:(simpl in *; lia) ltac:(lia)) as He.
        cbn [length app] in He |- *. rewrite He. cbn [fmap option_fmap option_map]. by rewrite <- Hv.
    + rewrite group_text_digit by (by apply Forall_cons in Hpre as [? _]).
      rewrite v6_groups_ellipsis by (done || simpl in *; lia). cbn [app].
      destruct post as [|y post].
      * cbn [group_text fmap list_fmap join]. replace (str_eq EmptyString EmptyString) with true by done.
        pose proof (expand_run (x :: pre) [] len ltac:(simpl in *; lia) ltac:(lia)) as He. rewrite app_nil_r in He. rewrite He.
        cbn [fmap option_fmap option_map]. by rewrite Hv.
      * rewrite (proj2 (str_eq_false _ _)) by (apply group_text_ne; by apply Forall_cons in Hpost as [? _]).
        rewrite v6_groups_end by (done || simpl in *; lia).
        rewrite (expand_run (x :: pre) (y :: post) len) by (simpl in *; lia). cbn [fmap option_fmap option_map]. by rewrite Hv.
Qed.

Lemma hex_group_plain c g t : is_group g -> hex_value c = None -> has_char c (hex_group g ++ t) = has_char c t.
Proof.
  intros Hg Hc.
  assert (forall v r, 0 <= v < 16 -> has_char c (String (hex_digit v) r) = has_char c r) as Hd.
  { intros v r Hv. cbn [has_char]. destruct (Ascii.eqb_spec (hex_digit v) c) as [<-|]; [|done]. by rewrite hex_value_digit in Hc. }
  unfold hex_group. cbv zeta. repeat case_match; rewrite ?string_app_cons, append_nil, !Hd by (apply Z.mod_pos_bound; lia); done.
Qed.

Lemma group_text_plain c l t : Forall is_group l -> hex_value c = None -> c <> ":"%char ->
  has_char c (group_text l ++ t) = has_char c t.
Proof.
  intros Hg Hc Hn. induction Hg as [|x l Hx Hl IH]; [done|]. destruct l as [|y l]; [by apply hex_group_plain|].
  rewrite group_text_cons, string_app_assoc, hex_group_plain, string_app_cons by done. cbn [has_char].
  destruct (Ascii.eqb_spec ":" c) as [<-|]; [done|]. exact IH.
Qed.

Lemma kind_group x t : is_group x -> addr_kind (hex_group x ++ String ":" t) = Some ":"%char.
Proof.
  intros Hx. assert (forall v r, 0 <= v < 16 -> addr_kind (String (hex_digit v) r) = addr_kind r) as Hd.
  { intros v r Hv. rewrite <- (Z2Nat.id v) by lia. assert (Z.to_nat v < 16)%nat as Hn by lia.
    revert Hn. generalize (Z.to_nat v). intros n Hn. do 16 (destruct n as [|n]; [done|]). lia. }
  unfold hex_group. cbv zeta. repeat case_match; rewrite ?string_app_cons, append_nil, !Hd by (apply Z.mod_pos_bound; lia); done.
Qed.

(** The text of an IPv6 number: the groups, with or without an ellipsis. *)
Lemma v6_string_form n : 0 <= n < 2 ^ 128 -> exists pre post, Forall is_group pre /\ Forall is_group post /\
  ((2 <= length pre)%nat /\ v6_string n = group_text pre \/
   v6_string n = (group_text pre ++ String ":" (String ":" (group_text post)))%string).
Proof.
  intros Hn. destruct (groups_of_spec 8 n) as (_ & Hlen & Hg); [done|]. unfold v6_string. cbv zeta.
  destruct (longest_run 0 (groups_of 8 n) (0%nat, 0%nat)) as [start len].
  destruct (Nat.eqb len 0).
  - exists (groups_of 8 n), []. split; [done|]. split; [done|]. left. split; [rewrite Hlen; lia|done].
  - exists (take start (groups_of 8 n)), (drop (start + len) (groups_of 8 n)).
    split; [by apply Forall_take|]. split; [by apply Forall_drop|]. by right.
Qed.

(** It has a colon before any dot or percent sign, and only hexadecimal digits
    and colons. *)
Lemma v6_string_kind n t : 0 <= n < 2 ^ 128 -> addr_kind (v6_string n ++ t) = Some ":"%char.
Proof.
  intros Hn. destruct (v6_string_form n Hn) as (pre & post & Hpre & Hpost & [[Hlen ->]| ->]).
  - destruct pre as [|x [|y pre]]; [simpl in Hlen; lia..|]. apply Forall_cons in Hpre as [Hx _].
    rewrite group_text_cons, string_app_assoc, string_app_cons. by apply kind_group.
  - destruct pre as [|x [|y pre]]; [done|..]; apply Forall_cons in Hpre as [Hx _].
    + change (group_text [x]) with (hex_group x). rewrite string_app_assoc, !string_app_cons. by apply kind_group.
    + rewrite group_text_cons, !string_app_assoc, string_app_cons. by apply kind_group.
Qed.

Lemma v6_string_plain c n : 0 <= n < 2 ^ 128 -> hex_value c = None -> c <> ":"%char -> has_char c (v6_string n) = false.
Proof.
  intros Hn Hc Hcol. destruct (v6_string_form n Hn) as (pre & post & Hpre & Hpost & [[_ ->]| ->]).
  - rewrite <- (string_app_nil (group_text pre)). by rewrite group_text_plain.
  - rewrite group_text_plain by done. cbn [has_char]. rewrite (proj2 (Ascii.eqb_neq _ _)) by congruence. cbn [orb].
    rewrite <- (string_app_nil (group_text post)). by rewrite group_text_plain.
Qed.

Lemma split2_none sep s : has_char sep s = false -> split2 sep s = (s, None).
Proof. induction s as [|c s IH]; [done|]. cbn [has_char split2]. intros [-> Hs]%orb_false_iff. by rewrite IH. Qed.

Lemma parse_zone s z v : has_char "%" s = false -> parse_groups s = Some v -> parse_ipv6 (s ++ zone_suffix z) = Some (V6 v z).
Proof.
  intros Hs Hv. unfold parse_ipv6, zone_suffix.
  assert (split2 "%" (s ++ (if str_eq z EmptyString then EmptyString else String "%" z)) =
    (s, if str_eq z EmptyString then None else Some z)) as ->.
  { destruct (str_eq z EmptyString); [by rewrite string_app_nil, split2_none|by apply split2_app]. }
  rewrite bool_decide_eq_false_2 by (destruct (str_eq z EmptyString) eqn:E; [done|]; intros [= ->]; done).
  replace (default EmptyString _) with z by (destruct (str_eq z EmptyString) eqn:E; [by apply str_eq_true in E|done]).
  cbv zeta. unfold parse_groups in Hv. destruct (leading_ellipsis s) as [[|c r]|].
  - by injection Hv as <-.
  - destruct (v6_groups 8 [] (Some 0%nat) (String c r)); [|done]. by injection Hv as <-.
  - destruct (v6_groups 8 [] None s); [|done]. by injection Hv as <-.
Qed.

Lemma kind_octet b r : 0 <= b < 256 -> addr_kind (format_int b ++ String "." r) = Some "."%char.
Proof. revert b. apply byte_cases. cbv [seq fmap list_fmap]. repeat constructor. Qed.

Lemma v4_string_plain n : 0 <= n < 2 ^ 32 -> has_char "%" (v4_string n) = false.
Proof.
  intros Hn. unfold v4_string. rewrite !has_char_app, !format_int_other by done. done.
Qed.

(** The text of a mapped address: an ellipsis, ffff and the dotted_octets octets. *)
Lemma parse_mapped n : 0 <= n < 2 ^ 32 -> parse_groups ("::ffff:" ++ v4_string n) = Some (65535 * 2 ^ 32 + n).
Proof.
  intros Hn. destruct (v4_fields_string n Hn) as (l & Hl & Ho).
  destruct (hex_run_octet (n / 2 ^ 24)) as (v & k & Hrun); [Z.to_euclidean_division_equations; lia|].
  assert (exists r, v4_string n = (format_int (n / 2 ^ 24) ++ String "." r)%string) as [r Hr] by (by eexists).
  assert (v6_groups 7 [65535] (Some 0%nat) (v4_string n) = Some [0; 0; 0; 0; 0; 65535; n / 65536; n mod 65536]) as Hg.
  { cbn [v6_groups]. rewrite Hr, Hrun, <- Hr, Hl. cbn -[octets Z.div Z.modulo]. rewrite Ho. done. }
  assert (exists c t, v4_string n = String c t /\ Ascii.eqb c ":" = false) as (c & t & Hc & Hcol).
  { destruct (v4_string n) as [|c t] eqn:E; [done|]. exists c, t. split; [done|].
    destruct (Ascii.eqb_spec c ":") as [->|]; [|done]. pose proof (Hrun r) as Hx. rewrite <- Hr in Hx. discriminate. }
  unfold parse_groups. rewrite !string_app_cons, append_nil.
  change (leading_ellipsis _) with (Some (String "f" (String "f" (String "f" (String "f" (String ":" (v4_string n))))))).
  cbn beta iota.
  assert (v6_groups 8 [] (Some 0%nat) (String "f" (String "f" (String "f" (String "f" (String ":" (v4_string n)))))) =
    v6_groups 7 [65535] (Some 0%nat) (v4_string n)) as ->.
  { rewrite Hc. change ((if Ascii.eqb c ":" then None else v6_groups 7 [65535] (Some 0%nat) (String c t)) =
      v6_groups 7 [65535] (Some 0%nat) (String c t)). by rewrite Hcol. }
  rewrite Hg. cbn [fmap option_fmap option_map]. f_equal. unfold hextets. cbn [fold_left].
  pose proof (Z.div_mod n 65536 ltac:(lia)). lia.
Qed.

(** An address in range reads back from its text. *)
Lemma parse_addr_string a : addr_ok a -> parse_addr (addr_string a) = Some a.
Proof.
  destruct a as [n|n z]; cbn [addr_ok addr_string]; intros Hn; unfold parse_addr.
  - assert (exists r, v4_string n = (format_int (n / 2 ^ 24) ++ String "." r)%string) as [r Hr] by (by eexists).
    rewrite Hr at 1. rewrite kind_octet by (Z.to_euclidean_division_equations; lia). cbn [Ascii.eqb Bool.eqb].
    change (parse_ipv4 (v4_string n) = Some (V4 n)). unfold parse_ipv4.
    destruct (v4_fields_string n Hn) as (l & -> & Ho). cbn. by rewrite Ho.
  - unfold is_4in6. destruct (Z.eqb_spec (Z.shiftr n 32) 65535) as [E|E].
    + rewrite Z.shiftr_div_pow2 in E by lia.
      assert (n = 65535 * 2 ^ 32 + n mod 2 ^ 32) as Hsplit by (pose proof (Z.div_mod n (2 ^ 32) ltac:(lia)); lia).
      assert (0 <= n mod 2 ^ 32 < 2 ^ 32) as Hm by (apply Z.mod_pos_bound; lia).
      change (parse_ipv6 ("::ffff:" ++ v4_string (n mod 2 ^ 32) ++ zone_suffix z) = Some (V6 n z)).
      rewrite <- string_app_assoc. rewrite Hsplit at 2. apply parse_zone; [|by apply parse_mapped].
      rewrite !string_app_cons, append_nil. cbn [has_char]. by rewrite v4_string_plain.
    + rewrite v6_string_kind by done.
      change (parse_ipv6 (v6_string n ++ zone_suffix z) = Some (V6 n z)).
      apply parse_zone; [by apply v6_string_plain|by apply parse_groups_string].
Qed.

Lemma split_last_app sep s t : has_char sep t = false -> split_last sep (s ++ String sep t) = Some (s, t).
Proof.
  intros Ht. induction s as [|c s IH].
  - rewrite append_nil. cbn [split_last]. rewrite Ascii.eqb_refl.
    assert (split_last sep t = None) as ->; [|done]. induction t as [|d t IHt]; [done|].
    cbn [has_char] in Ht. apply orb_false_iff in Ht as [Hd Ht]. cbn [split_last]. by rewrite IHt, Hd.
  - rewrite string_app_cons. cbn [split_last]. by rewrite IH.
Qed.

Lemma prefix_bits_format b : 0 <= b <= 128 -> prefix_bits (format_int b) = Some b.
Proof.
  intros Hb. assert (0 <= b < 256) as H by lia. revert b H Hb.
  assert (forall b, 0 <= b < 256 -> prefix_bits (format_int b) = Some b) as H; [|intros; by apply H].
  apply byte_cases. cbv [seq fmap list_fmap]. repeat constructor.
Qed.

(** A prefix of an address without a zone reads back from its text. *)
Lemma parse_prefix_string p : addr_ok (px_addr p) -> zone (px_addr p) = EmptyString -> 0 <= px_bits p <= bit_len (px_addr p) ->
  parse_prefix (prefix_string p) = Some p.
Proof.
  intros Ha Hz Hb. assert (px_bits p <= 128) by (by (destruct (px_addr p); cbn [bit_len] in Hb; lia)).
  unfold parse_prefix, prefix_string. rewrite (string_app_cons "/"), append_nil.
  rewrite split_last_app by (by rewrite format_int_other).
  cbn [mbind option_bind]. rewrite parse_addr_string by done. cbn [mbind option_bind]. rewrite Hz.
  replace (negb (str_eq EmptyString EmptyString)) with false by done.
  rewrite prefix_bits_format by lia. cbn [mbind option_bind].
  replace ((px_bits p <? 0) || (bit_len (px_addr p) <? px_bits p)) with false by lia. by destruct p.
Qed.

Definition addr_port_string (a : addr) (port : Z) : string :=
  match a with
  | V4 _ => (addr_string a ++ ":" ++ format_int port)%string
  | V6 _ _ => ("[" ++ addr_string a ++ "]:" ++ format_int port)%string
  end.

Lemma parse_uint16_format p : 0 <= p < 65536 -> parse_uint16 (format_int p) = Some p.
Proof.
  intros Hp. unfold parse_uint16, format_int. replace (p <? 0) with false by lia.
  pose proof (parse_uint_dec_digits p ltac:(lia)) as H. unfold parse_uint in H.
  destruct (dec_digits 20 p EmptyString); [done|]. rewrite H. cbn [mbind option_bind]. by replace (p <? 65536) with true by lia.
Qed.

Lemma v4_string_digit n : 0 <= n < 2 ^ 32 -> exists c r, v4_string n = String c r /\ Ascii.eqb c "[" = false.
Proof.
  intros Hn. assert (exists r, v4_string n = (format_int (n / 2 ^ 24) ++ String "." r)%string) as [r ->] by (by eexists).
  destruct (format_int (n / 2 ^ 24)) as [|c t] eqn:E; [by apply format_int_ne in E|]. exists c, (t ++ String "." r)%string.
  split; [done|]. destruct (Ascii.eqb_spec c "[") as [->|]; [|done].
  assert (has_char "[" (format_int (n / 2 ^ 24)) = false) as H by (by apply format_int_other). by rewrite E in H.
Qed.

(** What a socket prints as its peer reads back. *)
Lemma parse_addr_port_string a p : addr_ok a -> 0 <= p < 65536 -> parse_addr_port (addr_port_string a p) = Some (a, p).
Proof.
  intros Ha Hp. pose proof (parse_addr_string a Ha) as Hs. unfold parse_addr_port.
  assert (has_char ":" (format_int p) = false) as Hc by apply format_int_no_colon.
  destruct a as [n|n z]; cbn [addr_port_string].
  - rewrite string_app_cons, append_nil, split_last_app by done. cbn [mbind option_bind].
    destruct (v4_string_digit n Ha) as (c & r & E & Hb).
    assert (strip_brackets (addr_string (V4 n)) = None) as -> by (cbn [addr_string]; rewrite E; cbn [strip_brackets]; by rewrite Hb).
    rewrite (proj2 (str_eq_false _ _)) by (cbn [addr_string]; by rewrite E).
    rewrite (proj2 (str_eq_false _ _)) by apply format_int_ne. cbn [default orb].
    rewrite parse_uint16_format by done. cbn [mbind option_bind]. rewrite Hs. done.
  - replace ("[" ++ addr_string (V6 n z) ++ "]:" ++ format_int p)%string
      with (String "[" (addr_string (V6 n z) ++ String "]" EmptyString) ++ String ":" (format_int p))%string
      by (rewrite !string_app_cons, append_nil, string_app_assoc, string_app_cons, append_nil; done).
    rewrite split_last_app by done. cbn [mbind option_bind].
    assert (strip_brackets (String "[" (addr_string (V6 n z) ++ String "]" EmptyString)) = Some (addr_string (V6 n z))) as ->.
    { cbn [strip_brackets Ascii.eqb Bool.eqb]. by rewrite split_last_app. }
    rewrite (proj2 (str_eq_false (String _ _) _)) by done.
    rewrite (proj2 (str_eq_false _ _)) by apply format_int_ne. cbn [default orb].
    rewrite parse_uint16_format by done. cbn [mbind option_bind].
    unfold id. rewrite Hs. done.
Qed.

(** ** What parses is in range *)

Definition is_byte (b : Z) : Prop := 0 <= b < 256.

Lemma digit_value_range c d : digit_value c = Some d -> 0 <= d < 10.
Proof. unfold digit_value. cbv zeta. case_match; [|done]. intros [= <-]. lia. Qed.

Lemma v4_fields_range s : forall acc val len l, v4_fields acc val len s = Some l -> Forall is_byte acc -> 0 <= val < 256 ->
  (length acc <= 3)%nat -> Forall is_byte l /\ length l = 4%nat.
Proof.
  induction s as [|c s IH]; intros acc val len l Hs Ha Hv Hl; cbn [v4_fields] in Hs.
  - destruct (Nat.ltb_spec (length acc) 3); [done|]. injection Hs as <-. rewrite Forall_app, length_app. simpl.
    split; [split; [done|by constructor]|lia].
  - destruct (digit_value c) as [d|] eqn:Ed.
    + apply digit_value_range in Ed. destruct (_ && _); [done|]. destruct (Z.ltb_spec 255 (val * 10 + d)); [done|].
      eapply IH; [exact Hs|done|lia|done].
    + destruct (Ascii.eqb c "."); [|done]. destruct (_ || _) eqn:E; [done|].
      rewrite !orb_false_iff in E. destruct E as [_ E%Nat.eqb_neq].
      eapply IH; [exact Hs|by apply Forall_app; split; [|constructor]|lia|rewrite length_app; simpl; lia].
Qed.

Lemma octets_range l : Forall is_byte l -> length l = 4%nat -> 0 <= octets l < 2 ^ 32.
Proof.
  intros Hl Hn. destruct l as [|a [|b [|c [|d [|]]]]]; try done. rewrite !Forall_cons in Hl.
  destruct Hl as (Ha & Hb & Hc & Hd & _). unfold is_byte in *. unfold octets. cbn [fold_left]. lia.
Qed.

Lemma hex_value_range c v : hex_value c = Some v -> 0 <= v < 16.
Proof. unfold hex_value. cbv zeta. repeat case_match; try done; intros [= <-]; lia. Qed.

Lemma hex_run_range s : forall off acc v k rest, hex_run off acc s = Some (v, k, rest) -> is_group acc -> is_group v.
Proof.
  induction s as [|c s IH]; intros off acc v k rest Hs Ha; cbn [hex_run] in Hs; [by injection Hs as <- _ _|].
  destruct (hex_value c) as [d|] eqn:Ed; [|by injection Hs as <- _ _]. apply hex_value_range in Ed.
  destruct (Nat.ltb 3 off); [done|]. destruct (Z.ltb_spec 65535 (acc * 16 + d)); [done|].
  eapply IH; [exact Hs|]. unfold is_group in *. lia.
Qed.

Lemma expand_range acc e s l : expand acc e s = Some l -> Forall is_group acc -> (length acc <= 8)%nat ->
  Forall is_group l /\ length l = 8%nat.
Proof.
  unfold expand. intros Hs Ha Hl. destruct (negb _); [done|]. destruct (Nat.ltb_spec (length acc) 8).
  - destruct e as [e|]; [|done]. injection Hs as <-. rewrite !Forall_app, !length_app, length_replicate, length_take, length_drop.
    split; [|lia]. split; [by apply Forall_take|]. split; [|by apply Forall_drop].
    apply Forall_replicate. unfold is_group. lia.
  - destruct e; [done|]. injection Hs as <-. split; [done|lia].
Qed.

Lemma v6_groups_range fuel : forall acc e s l, v6_groups fuel acc e s = Some l -> Forall is_group acc ->
  (length acc + fuel <= 8)%nat -> Forall is_group l /\ length l = 8%nat.
Proof.
  induction fuel as [|fuel IH]; intros acc e s l Hs Ha Hl; cbn [v6_groups] in Hs; [eapply expand_range; [exact Hs|done|lia]|].
  destruct (hex_run 0 0 s) as [[[v off] rest]|] eqn:Hr; [|done]. cbn [mbind option_bind] in Hs.
  apply hex_run_range in Hr; [|unfold is_group; lia].
  assert (Forall is_group (acc ++ [v]) /\ length (acc ++ [v]) = S (length acc)) as [Hav Hlv]
    by (rewrite Forall_app, length_app; simpl; split; [split; [done|by constructor]|lia]).
  destruct (Nat.eqb off 0); [done|]. destruct rest as [|c r]; [eapply expand_range; [exact Hs|done|lia]|].
  destruct (Ascii.eqb c ".").
  - destruct (_ && _); [done|]. destruct (Nat.ltb_spec 6 (length acc)); [done|].
    destruct (v4_fields [] 0 0 s) as [ol|] eqn:Ho; [|done]. cbn [mbind option_bind] in Hs.
    apply v4_fields_range in Ho as [Hb Hn]; [|done|lia|simpl; lia]. pose proof (octets_range _ Hb Hn) as Hor.
    eapply expand_range; [exact Hs| |rewrite length_app; simpl; lia]. apply Forall_app. split; [done|].
    repeat constructor; unfold is_group; try (apply Z.mod_pos_bound; lia); [apply Z.div_pos; lia|apply Z.div_lt_upper_bound; lia].
  - destruct (negb _); [done|]. destruct r as [|d r2]; [done|]. destruct (Ascii.eqb d ":").
    + destruct e; [done|]. destruct (str_eq r2 EmptyString); [eapply expand_range; [exact Hs|done|lia]|]. eapply IH; [exact Hs|done|lia].
    + eapply IH; [exact Hs|done|lia].
Qed.

Lemma hextets_range l : Forall is_group l -> 0 <= hextets l < 65536 ^ Z.of_nat (length l).
Proof.
  induction l as [|x l IH] using rev_ind; [simpl; unfold hextets; simpl; lia|].
  rewrite Forall_app, Forall_singleton. intros [Hl Hx]. rewrite hextets_snoc, length_app, Nat2Z.inj_add, Z.pow_add_r by lia.
  specialize (IH Hl). unfold is_group in Hx. change (65536 ^ Z.of_nat (length [x])) with 65536. lia.
Qed.

Lemma parse_addr_ok s a : parse_addr s = Some a -> addr_ok a.
Proof.
  assert (forall acc e t l, v6_groups 8 acc e t = Some l -> acc = [] -> 0 <= hextets l < 2 ^ 128) as H6.
  { intros acc e t l Hl ->. apply v6_groups_range in Hl as [Hg Hn]; [|done|simpl; lia].
    pose proof (hextets_range l Hg) as H. by rewrite Hn in H. }
  unfold parse_addr. destruct (addr_kind s) as [k|]; [|done]. destruct (Ascii.eqb k "."); [|destruct (Ascii.eqb k ":"); [|done]].
  - unfold parse_ipv4. destruct (v4_fields [] 0 0 s) as [l|] eqn:Hl; [|done]. intros [= <-].
    apply v4_fields_range in Hl as [Hb Hn]; [|done|lia|simpl; lia]. by apply octets_range.
  - unfold parse_ipv6. destruct (split2 "%" s) as [t z]. destruct (bool_decide _); [done|]. cbv zeta.
    destruct (leading_ellipsis t) as [[|c r]|]; [by intros [= <-]|..].
    + destruct (v6_groups 8 [] (Some 0%nat) (String c r)) as [l|] eqn:Hl; [|done]. intros [= <-]. by eapply H6.
    + destruct (v6_groups 8 [] None t) as [l|] eqn:Hl; [|done]. intros [= <-]. by eapply H6.
Qed.

(** The text of an address without a zone has only digits, letters a to f,
    dots and colons. *)
Lemma addr_string_plain c a : addr_ok a -> zone a = EmptyString -> hex_value c = None -> c <> ":"%char -> c <> "."%char ->
  c <> "-"%char -> has_char c (addr_string a) = false.
Proof.
  intros Ha Hz Hc Hcol Hdot Hm.
  assert (digit_value c = None) as Hd.
  { unfold digit_value, hex_value in *. cbv zeta in *. repeat case_match; try done; lia. }
  assert (forall n, has_char c (v4_string n) = false) as H4.
  { intros n. unfold v4_string. rewrite !has_char_app, !format_int_other by done. cbn [has_char].
    by rewrite (proj2 (Ascii.eqb_neq _ _)) by congruence. }
  destruct a as [n|n z]; cbn [addr_string]; [done|]. cbn [zone] in Hz. subst z. cbn [addr_ok] in Ha.
  change (zone_suffix EmptyString) with EmptyString. destruct (is_4in6 _).
  - rewrite string_app_nil, has_char_app, H4, orb_false_r. destruct c as [[] [] [] [] [] [] [] []]; done.
  - rewrite string_app_nil. by apply v6_string_plain.
Qed.
