(* ===== verification/Demo.v ===== *)
(** * A concrete world

    A small consistent database and a fault-free environment, on which the
    witnesses of the other files evaluate the operations: two users, a device
    of each (the first with an address, the second never reported), a session,
    one-time codes, credentials and an endpoint. *)

From S2P Require Import Prelude GoLib Schema Integrity Effects.
From Stdlib Require Import Ascii.

Fixpoint repeat_char (n : nat) : string :=
  match n with O => EmptyString | S n => String "a"%char (repeat_char n) end.

Definition demo_env : Env :=
  MkEnv (fun n => 1000 + Z.of_nat n) (fun _ => false) (fun _ n => Some (repeat_char n))
    (fun n => ("id-" ++ format_int (Z.of_nat n))%string).

(** The same environment with the driver failing at one step. *)
Definition faulty_env (k : nat) : Env :=
  MkEnv (e_clock demo_env) (Nat.eqb k) (e_rand demo_env) (e_uuid demo_env).

Definition demo_key : string := repeat_char 32.
Definition demo_secret : string := "device secret".
Definition demo_sealed : string := b64_std_encode (repeat_char 12 ++ demo_secret)%string.

Definition demo_user : user_row :=
  UserRow "u1" "a@example.org" "admin" None None 0 10 10 None (Some "new@example.org") (Some "hash") (Some 2000).
Definition demo_user2 : user_row :=
  UserRow "u2" "b@example.org" "user" None None 0 11 11 None None None None.
Definition demo_device : device_row :=
  DeviceRow "d1" "u1" "laptop" demo_sealed (Some "192.0.2.1") (Some "2001:db8::1") None None None
    (Some 900) 0 20 20 (Some 900) (Some 100) 0 0.
Definition demo_device2 : device_row :=
  DeviceRow "d2" "u2" "phone" demo_sealed None None None None None None 0 21 21 None None 0 0.
Definition demo_session : session_row := SessionRow "s1" "u1" "csrf" None None 500 500 1500.

Definition demo_db : DB :=
  MkDB [demo_user; demo_user2] [demo_session] [demo_device; demo_device2]
    [HistoryRow 1 "d1" (Some "192.0.2.9") None 50 None;
     HistoryRow 2 "d1" (Some "192.0.2.1") (Some "2001:db8::1") 60 None;
     HistoryRow 3 "d1" (Some "192.0.2.1") (Some "2001:db8::1") 900 None]
    [CodeRow "code" "u2" "tablet" 2000 None None] [] [] [] [] []
    [RecoveryRow "rhash" "u1" "recovery" 2000 None]
    [EndpointRow "e1" "hook" "https://example.org/h" demo_sealed 1 30 30]
    [DeliveryRow 1 "e1" "device.ip_changed" 3 "{}" 0 (Some 900) "pending" None 900 900]
    [] [] (MkFeedState 7 900) 3 0 1.

Definition demo_world : World := MkWorld demo_env 0 demo_db empty_mem.

Lemma demo_quiet : quiet demo_world background.
Proof. by split. Qed.

Lemma demo_rand_sized : rand_sized demo_env.
Proof. intros i n s [= <-]. induction n as [|n IH]; simpl; [done|by rewrite IH]. Qed.

(** [wf_db] is decidable on a concrete database. *)
Definition rows_okb {R : Type} `{TableDef R} (t : list R) (P : Parents) (s : option Z) : bool :=
  uniq_ok t && forallb (row_ok P) t &&
  match s with
  | Some n => bool_decide (StronglySorted Z.lt (row_id <$> t)) && forallb (fun r => row_id r <=? n) t
  | None => true
  end.

Lemma rows_okb_wf {R : Type} `{TableDef R} (t : list R) P s : rows_okb t P s = true -> wf_rows t P s.
Proof.
  unfold rows_okb. rewrite !andb_true_iff. intros [[Hu Hr] Hs]. split; [done| |].
  - rewrite forallb_forall in Hr. intros r Hin. apply Hr. by apply list_elem_of_In.
  - destruct s as [n|]; [|done]. rewrite andb_true_iff, bool_decide_eq_true, forallb_forall in Hs.
    destruct Hs as [Hs Hb]. split; [done|]. intros r Hin%list_elem_of_In. by apply Z.leb_le, Hb.
Qed.

Lemma demo_wf : wf_db demo_db.
Proof. split; apply rows_okb_wf; vm_compute; reflexivity. Qed.
