(* ===== verification/StoreUsers.v ===== *)
(** * internal/store/users.go: the users repository

    Every method of [UserRepo], statement by statement.  A nullable column is
    an [option], so the three-valued comparisons of the WHERE clauses are
    written out: a comparison with NULL does not match. *)

From S2P Require Import Prelude Schema Integrity Effects.

Module UserRepo.

Definition toRow (u : User) : user_row :=
    UserRow (usr_ID u) (usr_Email u) (usr_Role u)
      (nullIfEmpty (usr_OIDCProvider u)) (nullIfEmpty (usr_OIDCSubject u))
      (boolToInt (usr_Disabled u)) (usr_CreatedAt u) (usr_UpdatedAt u)
      None None None None.

Definition Create (c : ctx) (u : User) : M User :=
    id ← (if str_eq (usr_ID u) EmptyString then new_id else mret (usr_ID u));
    now ← now_unix;
    let u := MkUser id (usr_Email u) (usr_Role u) (usr_OIDCProvider u) (usr_OIDCSubject u)
               (usr_Disabled u) now now (usr_PendingEmail u) (usr_PendingEmailExpiresAt u) in
    map_err on_unique (exec_insert c (toRow u));;
    mret u.

Definition GetByID (c : ctx) (id : string) : M User :=
    get_one c (fun r => str_eq (ru_id r) id) scanUser.

Definition GetByEmail (c : ctx) (email : string) : M User :=
    get_one c (fun r => str_eq (ru_email r) email) scanUser.

Definition GetByOIDC (c : ctx) (provider subject : string) : M User :=
    get_one c (fun r => bool_decide (ru_oidc_provider r = Some provider) &&
                        bool_decide (ru_oidc_subject r = Some subject)) scanUser.

Definition Update (c : ctx) (u : User) : M unit :=
    now ← now_unix;
    n ← map_err on_unique (exec_update_checked c (fun r => str_eq (ru_id r) (usr_ID u))
      (fun r => UserRow (ru_id r) (usr_Email u) (usr_Role u)
        (nullIfEmpty (usr_OIDCProvider u)) (nullIfEmpty (usr_OIDCSubject u))
        (boolToInt (usr_Disabled u)) (ru_created_at r) now
        (ru_webauthn_handle r) (ru_pending_email r) (ru_pending_token_hash r) (ru_pending_expires r)));
    requireMatched n.

Definition SetRole (c : ctx) (id role : string) : M unit :=
    now ← now_unix;
    n ← exec_update_checked c (fun r => str_eq (ru_id r) id)
      (fun r => UserRow (ru_id r) (ru_email r) role (ru_oidc_provider r) (ru_oidc_subject r)
        (ru_disabled r) (ru_created_at r) now
        (ru_webauthn_handle r) (ru_pending_email r) (ru_pending_token_hash r) (ru_pending_expires r));
    requireMatched n.

  (** The compare-and-swap of an OIDC link: the row the caller matched on. *)
Definition LinkOIDC (c : ctx) (matched : User) (canonical provider subject : string) : M unit :=
    now ← now_unix;
    n ← map_err on_unique (exec_update_checked c
      (fun r => str_eq (ru_id r) (usr_ID matched) && str_eq (ru_email r) (usr_Email matched) &&
                str_eq (ru_role r) (usr_Role matched) && bool_decide (ru_oidc_subject r = None))
      (fun r => UserRow (ru_id r) canonical (ru_role r) (Some provider) (Some subject)
        (ru_disabled r) (ru_created_at r) now
        (ru_webauthn_handle r) (ru_pending_email r) (ru_pending_token_hash r) (ru_pending_expires r)));
    k ← rows_affected n;
    if Nat.eqb k 0 then fail ErrConflict else mret tt.

Definition SetDisabled (c : ctx) (id : string) (disabled : bool) : M unit :=
    now ← now_unix;
    n ← exec_update c (fun r => str_eq (ru_id r) id)
      (fun r => UserRow (ru_id r) (ru_email r) (ru_role r) (ru_oidc_provider r) (ru_oidc_subject r)
        (boolToInt disabled) (ru_created_at r) now
        (ru_webauthn_handle r) (ru_pending_email r) (ru_pending_token_hash r) (ru_pending_expires r));
    requireMatched n.

Definition Delete (c : ctx) (id : string) : M unit :=
    n ← exec_delete_cascade c (fun r => str_eq (ru_id r) id) delete_users;
    requireMatched n.

  (** [None] is the nil slice, which binds NULL. *)
Definition SetWebAuthnHandle (c : ctx) (userID : string) (handle : option string) : M unit :=
    n ← map_err on_unique (exec_update_checked c (fun r => str_eq (ru_id r) userID)
      (fun r => UserRow (ru_id r) (ru_email r) (ru_role r) (ru_oidc_provider r) (ru_oidc_subject r)
        (ru_disabled r) (ru_created_at r) (ru_updated_at r)
        handle (ru_pending_email r) (ru_pending_token_hash r) (ru_pending_expires r)));
    requireMatched n.

Definition GetByWebAuthnHandle (c : ctx) (handle : string) : M User :=
    if Nat.eqb (String.length handle) 0 then fail ErrNotFound
    else get_one c (fun r => bool_decide (ru_webauthn_handle r = Some handle)) scanUser.

  (** [None] is the nil slice of a NULL column. *)
Definition GetWebAuthnHandle (c : ctx) (userID : string) : M (option string) :=
    get_one c (fun r => str_eq (ru_id r) userID) ru_webauthn_handle.

Definition List (c : ctx) : M (list User) :=
    query c (fun d => scanUser <$> order_by (fun a b => String.leb (ru_email a) (ru_email b)) (d_users d)).

Definition with_pending (r : user_row) (email hash : option string) (expires : option Z) : user_row :=
    UserRow (ru_id r) (ru_email r) (ru_role r) (ru_oidc_provider r) (ru_oidc_subject r)
      (ru_disabled r) (ru_created_at r) (ru_updated_at r) (ru_webauthn_handle r) email hash expires.

Definition SetPendingEmail (c : ctx) (userID newEmail tokenHash : string) (expiresAt : Z) : M unit :=
    match nullIfEmpty newEmail with
    | None => fail (ErrOther "users.SetPendingEmail: newEmail must not be empty")
    | Some _ =>
        n ← exec_update c (fun r => str_eq (ru_id r) userID)
          (fun r => with_pending r (Some newEmail) (Some tokenHash) (Some expiresAt));
        requireMatched n
    end.

Definition ClearPendingEmail (c : ctx) (userID : string) : M unit :=
    n ← exec_update c (fun r => str_eq (ru_id r) userID) (fun r => with_pending r None None None);
    requireMatched n.

Definition live_pending (userID tokenHash : string) (now : Z) (r : user_row) : bool :=
    str_eq (ru_id r) userID && bool_decide (is_Some (ru_pending_email r)) &&
    bool_decide (ru_pending_token_hash r = Some tokenHash) &&
    match ru_pending_expires r with Some e => now <? e | None => false end.

  (** [email = pending_email]; the WHERE clause excludes a NULL one. *)
Definition ConfirmPendingEmail (c : ctx) (userID tokenHash : string) (now : Z) : M unit :=
    n ← map_err on_unique (exec_update_checked c (live_pending userID tokenHash now)
      (fun r => UserRow (ru_id r) (default (ru_email r) (ru_pending_email r)) (ru_role r)
        (ru_oidc_provider r) (ru_oidc_subject r) (ru_disabled r) (ru_created_at r) now
        (ru_webauthn_handle r) None None None));
    requireMatched n.

Definition SetEmail (c : ctx) (userID email : string) (now : Z) : M unit :=
    match nullIfEmpty email with
    | None => fail (ErrOther "users.SetEmail: email must not be empty")
    | Some _ =>
        n ← map_err on_unique (exec_update_checked c (fun r => str_eq (ru_id r) userID)
          (fun r => UserRow (ru_id r) email (ru_role r) (ru_oidc_provider r) (ru_oidc_subject r)
            (ru_disabled r) (ru_created_at r) now (ru_webauthn_handle r) None None None));
        requireMatched n
    end.

Definition ClearExpiredPendingEmails (c : ctx) (now : Z) : M nat :=
    n ← exec_update c (fun r => match ru_pending_expires r with Some e => e <? now | None => false end)
      (fun r => with_pending r None None None);
    rows_affected n.

End UserRepo.

(** ** Integrity *)

(** An UPDATE of a user that keeps the id keeps what other tables refer to. *)
Lemma pres_user_update c p f :
  (forall r, ru_id (f r) = ru_id r) ->
  preserves wf_db (exec_update_checked (R:=user_row) c p f).
Proof.
  intros Hid. apply pres_exec_update_checked; [done|]. intros d _. unfold parents. simpl.
  f_equal. by apply rows_update_key.
Qed.
#[export] Hint Extern 1 (preserves wf_db (exec_update_checked _ _ _)) =>
  (apply pres_user_update; done) : effects.

(** Every method of the users repository keeps the constraints. *)
Lemma users_Create_wf c u : preserves wf_db (UserRepo.Create c u).
Proof. unfold UserRepo.Create. pres. Qed.
Lemma users_Update_wf c u : preserves wf_db (UserRepo.Update c u).
Proof. unfold UserRepo.Update. pres. Qed.
Lemma users_SetRole_wf c i r : preserves wf_db (UserRepo.SetRole c i r).
Proof. unfold UserRepo.SetRole. pres. Qed.
Lemma users_LinkOIDC_wf c m e p s : preserves wf_db (UserRepo.LinkOIDC c m e p s).
Proof. unfold UserRepo.LinkOIDC. pres. Qed.
Lemma users_SetDisabled_wf c i b : preserves wf_db (UserRepo.SetDisabled c i b).
Proof. unfold UserRepo.SetDisabled. pres. Qed.
Lemma users_Delete_wf c i : preserves wf_db (UserRepo.Delete c i).
Proof. unfold UserRepo.Delete. pres. Qed.
Lemma users_SetWebAuthnHandle_wf c i h : preserves wf_db (UserRepo.SetWebAuthnHandle c i h).
Proof. unfold UserRepo.SetWebAuthnHandle. pres. Qed.
Lemma users_SetPendingEmail_wf c i e h x : preserves wf_db (UserRepo.SetPendingEmail c i e h x).
Proof. unfold UserRepo.SetPendingEmail. pres. Qed.
Lemma users_ClearPendingEmail_wf c i : preserves wf_db (UserRepo.ClearPendingEmail c i).
Proof. unfold UserRepo.ClearPendingEmail. pres. Qed.
Lemma users_ConfirmPendingEmail_wf c i h n : preserves wf_db (UserRepo.ConfirmPendingEmail c i h n).
Proof. unfold UserRepo.ConfirmPendingEmail. pres. Qed.
Lemma users_SetEmail_wf c i e n : preserves wf_db (UserRepo.SetEmail c i e n).
Proof. unfold UserRepo.SetEmail. pres. Qed.
Lemma users_ClearExpired_wf c n : preserves wf_db (UserRepo.ClearExpiredPendingEmails c n).
Proof. unfold UserRepo.ClearExpiredPendingEmails. pres. Qed.
#[export] Hint Resolve users_Create_wf users_Update_wf users_SetRole_wf users_LinkOIDC_wf
  users_SetDisabled_wf users_Delete_wf users_SetWebAuthnHandle_wf users_SetPendingEmail_wf
  users_ClearPendingEmail_wf users_ConfirmPendingEmail_wf users_SetEmail_wf users_ClearExpired_wf : effects.
