(* ===== verification/StoreDevices.v ===== *)
(** * internal/store: devices, check-in transaction, IP history

    [DeviceRepo] (devices.go), [RecordIPChange] (checkin.go), [IPHistoryRepo]
    (ip_history.go), the cursor of its pages and [IPChangeEvent] (events.go).
    Where a query orders rows by a key that may tie, or deletes a batch with
    LIMIT and no ORDER BY, SQLite's choice is unspecified; the model takes the
    order of the table. *)

From S2P Require Import Prelude GoLib Schema Integrity Effects.
From Stdlib Require Import Ascii.

(** ** devices.go *)

Module DeviceRepo.

Definition Create (c : ctx) (d : Device) : M Device :=
    id ← (if str_eq (dev_ID d) EmptyString then new_id else mret (dev_ID d));
    now ← now_unix;
    let d := MkDevice id (dev_UserID d) (dev_Label d) (dev_SecretHash d)
               (dev_CurrentIPv4 d) (dev_CurrentIPv6 d) (dev_Hostname d) (dev_OS d)
               (dev_ClientVersion d) (dev_LastSeenAt d) (dev_Disabled d) now now
               (dev_V4ConfirmedAt d) (dev_V6ConfirmedAt d) (dev_V4WarnLevel d) (dev_V6WarnLevel d) in
    map_err on_unique (exec_insert c (deviceToRow d));;
    mret d.

Definition GetByID (c : ctx) (id : string) : M Device :=
    get_one c (fun r => str_eq (rd_id r) id) scanDevice.

Definition getDeviceTx (c : ctx) (id : string) : M Device :=
    get_one c (fun r => str_eq (rd_id r) id) scanDevice.

Definition GetByUserAndLabel (c : ctx) (userID label : string) : M Device :=
    get_one c (fun r => str_eq (rd_user_id r) userID && str_eq (rd_label r) label) scanDevice.

Definition ListByUser (c : ctx) (userID : string) : M (list Device) :=
    query c (fun d => scanDevice <$> order_by (fun a b => String.leb (rd_label a) (rd_label b))
      (List.filter (fun r => str_eq (rd_user_id r) userID) (d_devices d))).

Definition ListAll (c : ctx) : M (list Device) :=
    query c (fun d => scanDevice <$> order_by (fun a b => rd_created_at b <=? rd_created_at a) (d_devices d)).

  (** The columns [updateDeviceIP] assigns. *)
Definition set_reported (ipv4 ipv6 clientVersion hostname os : string) (v4Asserted v6Asserted : bool)
      (lastSeenAt updatedAt : Z) (r : device_row) : device_row :=
    DeviceRow (rd_id r) (rd_user_id r) (rd_label r) (rd_secret_hash r)
      (nullIfEmpty ipv4) (nullIfEmpty ipv6) (nullIfEmpty hostname) (nullIfEmpty os)
      (nullIfEmpty clientVersion) (nullIfZero lastSeenAt) (rd_disabled r) (rd_created_at r) updatedAt
      (if v4Asserted then Some lastSeenAt else rd_v4_confirmed_at r)
      (if v6Asserted then Some lastSeenAt else rd_v6_confirmed_at r)
      (if v4Asserted then 0 else rd_v4_warn_level r)
      (if v6Asserted then 0 else rd_v6_warn_level r).

Definition updateDeviceIP (c : ctx) (id ipv4 ipv6 clientVersion hostname os : string)
      (v4Asserted v6Asserted : bool) (lastSeenAt updatedAt : Z) : M unit :=
    n ← exec_update c (fun r => str_eq (rd_id r) id)
      (set_reported ipv4 ipv6 clientVersion hostname os v4Asserted v6Asserted lastSeenAt updatedAt);
    requireMatched n.

Definition UpdateIP (c : ctx) (id ipv4 ipv6 clientVersion hostname os : string) (lastSeenAt : Z) : M unit :=
    now ← now_unix;
    updateDeviceIP c id ipv4 ipv6 clientVersion hostname os
      (negb (str_eq ipv4 EmptyString)) (negb (str_eq ipv6 EmptyString)) lastSeenAt now.

Definition set_touched (v4Asserted v6Asserted : bool) (lastSeenAt updatedAt : Z) (r : device_row) : device_row :=
    DeviceRow (rd_id r) (rd_user_id r) (rd_label r) (rd_secret_hash r)
      (rd_current_ipv4 r) (rd_current_ipv6 r) (rd_hostname r) (rd_os r) (rd_client_version r)
      (nullIfZero lastSeenAt) (rd_disabled r) (rd_created_at r) updatedAt
      (if v4Asserted then Some lastSeenAt else rd_v4_confirmed_at r)
      (if v6Asserted then Some lastSeenAt else rd_v6_confirmed_at r)
      (if v4Asserted then 0 else rd_v4_warn_level r)
      (if v6Asserted then 0 else rd_v6_warn_level r).

Definition Touch (c : ctx) (id : string) (v4Asserted v6Asserted : bool) (lastSeenAt : Z) : M unit :=
    now ← now_unix;
    n ← exec_update c (fun r => str_eq (rd_id r) id) (set_touched v4Asserted v6Asserted lastSeenAt now);
    requireMatched n.

Definition set_label (l : string) (now : Z) (r : device_row) : device_row :=
    DeviceRow (rd_id r) (rd_user_id r) l (rd_secret_hash r)
      (rd_current_ipv4 r) (rd_current_ipv6 r) (rd_hostname r) (rd_os r) (rd_client_version r)
      (rd_last_seen_at r) (rd_disabled r) (rd_created_at r) now
      (rd_v4_confirmed_at r) (rd_v6_confirmed_at r) (rd_v4_warn_level r) (rd_v6_warn_level r).

Definition Rename (c : ctx) (id newLabel : string) : M unit :=
    now ← now_unix;
    n ← map_err on_unique (exec_update_checked c (fun r => str_eq (rd_id r) id) (set_label newLabel now));
    requireMatched n.

Definition set_secret (h : string) (now : Z) (r : device_row) : device_row :=
    DeviceRow (rd_id r) (rd_user_id r) (rd_label r) h
      (rd_current_ipv4 r) (rd_current_ipv6 r) (rd_hostname r) (rd_os r) (rd_client_version r)
      (rd_last_seen_at r) (rd_disabled r) (rd_created_at r) now
      (rd_v4_confirmed_at r) (rd_v6_confirmed_at r) (rd_v4_warn_level r) (rd_v6_warn_level r).

Definition RotateSecret (c : ctx) (id newSecretHash : string) : M unit :=
    now ← now_unix;
    n ← exec_update c (fun r => str_eq (rd_id r) id) (set_secret newSecretHash now);
    requireMatched n.

Definition set_disabled (b : bool) (now : Z) (r : device_row) : device_row :=
    DeviceRow (rd_id r) (rd_user_id r) (rd_label r) (rd_secret_hash r)
      (rd_current_ipv4 r) (rd_current_ipv6 r) (rd_hostname r) (rd_os r) (rd_client_version r)
      (rd_last_seen_at r) (boolToInt b) (rd_created_at r) now
      (rd_v4_confirmed_at r) (rd_v6_confirmed_at r) (rd_v4_warn_level r) (rd_v6_warn_level r).

Definition SetDisabled (c : ctx) (id : string) (disabled : bool) : M unit :=
    now ← now_unix;
    n ← exec_update c (fun r => str_eq (rd_id r) id) (set_disabled disabled now);
    requireMatched n.

Definition Delete (c : ctx) (id : string) : M unit :=
    n ← exec_delete_cascade c (fun r => str_eq (rd_id r) id) delete_devices;
    requireMatched n.

  (** The pin of a sweep: both families' confirmation times, NULL read as 0. *)
Definition pinned (id : string) (pinV4 pinV6 : Z) (r : device_row) : bool :=
    str_eq (rd_id r) id && (default 0 (rd_v4_confirmed_at r) =? pinV4)
                        && (default 0 (rd_v6_confirmed_at r) =? pinV6).

Definition warn_level (family : Z) (r : device_row) : Z :=
    if family =? 6 then rd_v6_warn_level r else rd_v4_warn_level r.

Definition set_warn_level (family level now : Z) (r : device_row) : device_row :=
    DeviceRow (rd_id r) (rd_user_id r) (rd_label r) (rd_secret_hash r)
      (rd_current_ipv4 r) (rd_current_ipv6 r) (rd_hostname r) (rd_os r) (rd_client_version r)
      (rd_last_seen_at r) (rd_disabled r) (rd_created_at r) now
      (rd_v4_confirmed_at r) (rd_v6_confirmed_at r)
      (if family =? 6 then rd_v4_warn_level r else level)
      (if family =? 6 then level else rd_v6_warn_level r).

Definition AdvanceWarnLevel (c : ctx) (id : string) (family level fromLevel pinV4 pinV6 now : Z) : M bool :=
    n ← exec_update c (fun r => pinned id pinV4 pinV6 r && (warn_level family r =? fromLevel))
          (set_warn_level family level now);
    n ← rows_affected n;
    mret (Nat.eqb n 1).

Record FeedDevice := MkFeedDevice {
    fd_ID : string; fd_Label : string; fd_IPv4 : string; fd_IPv6 : string; fd_LastSeenAt : Z }.

Definition feed_row_ok (r : device_row) (u : user_row) : bool :=
    str_eq (ru_id u) (rd_user_id r) && (rd_disabled r =? 0) && (ru_disabled u =? 0) &&
    (bool_decide (is_Some (rd_current_ipv4 r)) || bool_decide (is_Some (rd_current_ipv6 r))).

  (** The join of devices and users; ORDER BY d.id. *)
Definition listFeedQuery (d : DB) : list device_row :=
    order_by (fun a b => String.leb (rd_id a) (rd_id b))
      (r ← d_devices d; u ← d_users d; if feed_row_ok r u then [r] else []).

Definition scanFeedDevice (r : device_row) : FeedDevice :=
    MkFeedDevice (rd_id r) (rd_label r) (scanString (rd_current_ipv4 r))
      (scanString (rd_current_ipv6 r)) (scanInt64 (rd_last_seen_at r)).

Definition ListFeed (c : ctx) : M (list FeedDevice) :=
    query c (fun d => scanFeedDevice <$> listFeedQuery d).

End DeviceRepo.

(** ** ip_history.go *)

Module IPHistoryRepo.

Definition encodeCursor (observedAt id : Z) : string :=
    b64_std_encode (format_int observedAt ++ ":" ++ format_int id)%string.

Definition decodeCursor (c : string) : (Z * Z) + err :=
    if str_eq c EmptyString then inl (0, 0)
    else match b64_std_decode c with
    | None => inr (ErrOther "store: ip_history cursor decode")
    | Some raw => match split2 ":"%char raw with
      | (_, None) => inr (ErrOther "store: ip_history cursor format")
      | (a, Some b) => match parse_int a with
        | None => inr (ErrOther "store: ip_history cursor observedAt")
        | Some observedAt => match parse_int b with
          | None => inr (ErrOther "store: ip_history cursor id")
          | Some id => inl (observedAt, id)
          end
        end
      end
    end.

Definition appendIPHistory (c : ctx) (h : IPHistory) : M IPHistory :=
    at_ ← (if iph_ObservedAt h =? 0 then now_unix else mret (iph_ObservedAt h));
    id ← exec_insert_auto c (fun id => HistoryRow id (iph_DeviceID h)
            (nullIfEmpty (iph_IPv4 h)) (nullIfEmpty (iph_IPv6 h)) at_ (nullIfEmpty (iph_ClientVersion h)));
    id ← last_insert_id id;
    mret (MkIPHistory id (iph_DeviceID h) (iph_IPv4 h) (iph_IPv6 h) at_ (iph_ClientVersion h)).

Definition Append (c : ctx) (h : IPHistory) : M IPHistory := appendIPHistory c h.

Definition of_device (id : string) (r : history_row) : bool := str_eq (rh_device_id r) id.

  (** ORDER BY observed_at DESC, id DESC *)
Definition newest_first (a b : history_row) : bool :=
    (rh_observed_at b <? rh_observed_at a) ||
    ((rh_observed_at a =? rh_observed_at b) && (rh_id b <=? rh_id a)).

Definition history_of (id : string) (d : DB) : list history_row :=
    order_by newest_first (List.filter (of_device id) (d_history d)).

Definition Latest (c : ctx) (deviceID : string) : M IPHistory :=
    r ← query c (fun d => head (history_of deviceID d));
    match r with Some h => mret (scanIPHistory h) | None => fail ErrNotFound end.

Record HistoryPage := MkHistoryPage { hp_Rows : list IPHistory; hp_NextCursor : string }.

Definition clamp_limit (limit : Z) : Z :=
    let limit := if limit <=? 0 then 50 else limit in
    if 500 <? limit then 500 else limit.

  (** [observed_at < ? OR (observed_at = ? AND id < ?)] *)
Definition older (at_ id : Z) (r : history_row) : bool :=
    (rh_observed_at r <? at_) || ((rh_observed_at r =? at_) && (rh_id r <? id)).

Definition page_rows (deviceID : string) (after : option (Z * Z)) (limit : Z) (d : DB) : list history_row :=
    limit_rows limit (order_by newest_first (List.filter
      (fun r => of_device deviceID r && match after with Some (t, i) => older t i r | None => true end)
      (d_history d))).

Definition next_cursor (limit : Z) (rows : list IPHistory) : string :=
    if Z.of_nat (length rows) =? limit then
      match last rows with
      | Some h => encodeCursor (iph_ObservedAt h) (iph_ID h)
      | None => EmptyString
      end
    else EmptyString.

Definition Page (c : ctx) (deviceID cursor : string) (limit : Z) : M HistoryPage :=
    let limit := clamp_limit limit in
    after ← (if str_eq cursor EmptyString then mret None
             else match decodeCursor cursor with inl k => mret (Some k) | inr e => fail e end);
    rows ← query c (page_rows deviceID after limit);
    let result := scanIPHistory <$> rows in
    mret (MkHistoryPage result (next_cursor limit result)).

Definition max_id (l : list history_row) : option Z :=
    foldr (fun r m => Some (match m with Some x => Z.max (rh_id r) x | None => rh_id r end)) None l.
Definition min_id (l : list history_row) : option Z :=
    foldr (fun r m => Some (match m with Some x => Z.min (rh_id r) x | None => rh_id r end)) None l.

  (** The oldest of the device's [perDeviceMax] newest rows. *)
Definition keep_floor (deviceID : string) (perDeviceMax : Z) (d : DB) : option Z :=
    min_id (limit_rows perDeviceMax (order_by (fun a b => rh_id b <=? rh_id a)
      (List.filter (of_device deviceID) (d_history d)))).

Definition prunable (deviceID : string) (olderThan perDeviceMax : Z) (d : DB) (r : history_row) : bool :=
    of_device deviceID r &&
    negb (bool_decide (max_id (List.filter (of_device deviceID) (d_history d)) = Some (rh_id r))) &&
    ((rh_observed_at r <? olderThan) ||
     (0 <? perDeviceMax) && match keep_floor deviceID perDeviceMax d with
                            | Some f => rh_id r <? f
                            | None => false
                            end).

Definition prune_ids (deviceID : string) (olderThan perDeviceMax batch : Z) (d : DB) : list Z :=
    rh_id <$> limit_rows batch (List.filter (prunable deviceID olderThan perDeviceMax d) (d_history d)).

Definition Prune (c : ctx) (deviceID : string) (olderThan perDeviceMax batch : Z) : M nat :=
    n ← exec_delete_where c (fun d r => bool_decide (rh_id r ∈ prune_ids deviceID olderThan perDeviceMax batch d));
    rows_affected n.

Record LatestAddress := MkLatestAddress {
    la_IPv4 : string; la_IPv4At : Z; la_IPv6 : string; la_IPv6At : Z }.

  (** One row per device of the window [rn = 1] over the non-NULL rows. *)
Definition latest_of_family (col : history_row -> option string) (ids : list string) (d : DB)
      : list (string * string * Z) :=
    id ← remove_dups ids;
    match head (order_by newest_first
            (List.filter (fun r => of_device id r && bool_decide (is_Some (col r))) (d_history d))) with
    | Some r => [(id, scanString (col r), rh_observed_at r)]
    | None => []
    end.

Definition put_latest (v6 : bool) (m : gmap string LatestAddress) (row : string * string * Z)
      : gmap string LatestAddress :=
    let '(id, addr, at_) := row in
    let e := default (MkLatestAddress EmptyString 0 EmptyString 0) (m !! id) in
    <[id := if v6 then MkLatestAddress (la_IPv4 e) (la_IPv4At e) addr at_
            else MkLatestAddress addr at_ (la_IPv6 e) (la_IPv6At e)]> m.

Definition LatestAddressPerFamily (c : ctx) (deviceIDs : list string) : M (gmap string LatestAddress) :=
    match deviceIDs with
    | [] => mret ∅
    | _ =>
        rows ← query c (fun d => (latest_of_family rh_ipv4 deviceIDs d, latest_of_family rh_ipv6 deviceIDs d));
        mret (fold_left (put_latest true) rows.2 (fold_left (put_latest false) rows.1 ∅))
    end.

End IPHistoryRepo.

(** ** The two transactions *)

(** devices.go, [ExpireFamilies] *)
Definition holds_due (v4Due v6Due : bool) (r : device_row) : bool :=
  (v4Due && bool_decide (is_Some (rd_current_ipv4 r))) ||
  (v6Due && bool_decide (is_Some (rd_current_ipv6 r))).

Definition expire_row (v4Due v6Due : bool) (now : Z) (r : device_row) : device_row :=
  DeviceRow (rd_id r) (rd_user_id r) (rd_label r) (rd_secret_hash r)
    (if v4Due then None else rd_current_ipv4 r) (if v6Due then None else rd_current_ipv6 r)
    (rd_hostname r) (rd_os r) (rd_client_version r)
    (rd_last_seen_at r) (rd_disabled r) (rd_created_at r) now
    (rd_v4_confirmed_at r) (rd_v6_confirmed_at r)
    (if v4Due then 0 else rd_v4_warn_level r) (if v6Due then 0 else rd_v6_warn_level r).

Definition ExpireFamilies (c : ctx) (id : string) (v4Due v6Due : bool) (pinV4 pinV6 now : Z) : M (Z * bool) :=
  with_tx c (
    n ← exec_update c (fun r => DeviceRepo.pinned id pinV4 pinV6 r && holds_due v4Due v6Due r)
          (expire_row v4Due v6Due now);
    n ← rows_affected n;
    if Nat.eqb n 0 then mret ((0, false), false)
    else
      after ← DeviceRepo.getDeviceTx c id;
      row ← IPHistoryRepo.appendIPHistory c
              (MkIPHistory 0 id (dev_CurrentIPv4 after) (dev_CurrentIPv6 after) now EmptyString);
      mret ((iph_ID row, true), true)).

Record IPChange := MkIPChange {
  ic_DeviceID : string; ic_IPv4 : string; ic_IPv6 : string; ic_ClientVersion : string;
  ic_Hostname : string; ic_OS : string; ic_V4Asserted : bool; ic_V6Asserted : bool }.

(** checkin.go, [RecordIPChange] *)
Definition RecordIPChange (c : ctx) (ch : IPChange) : M IPHistory :=
  with_tx c (
    now ← now_unix;
    DeviceRepo.updateDeviceIP c (ic_DeviceID ch) (ic_IPv4 ch) (ic_IPv6 ch) (ic_ClientVersion ch)
      (ic_Hostname ch) (ic_OS ch) (ic_V4Asserted ch) (ic_V6Asserted ch) now now;;
    row ← IPHistoryRepo.appendIPHistory c
            (MkIPHistory 0 (ic_DeviceID ch) (ic_IPv4 ch) (ic_IPv6 ch) now (ic_ClientVersion ch));
    mret (row, true)).

(** events.go *)
Record IPChangeEvent := MkIPChangeEvent {
  ev_EventID : Z; ev_OccurredAt : Z; ev_Device : Device;
  ev_PrevIPv4 : string; ev_PrevIPv6 : string; ev_CurrIPv4 : string; ev_CurrIPv6 : string }.

Definition Changed (e : IPChangeEvent) : list string :=
  (if str_eq (ev_PrevIPv4 e) (ev_CurrIPv4 e) then [] else ["ipv4"%string]) ++
  (if str_eq (ev_PrevIPv6 e) (ev_CurrIPv6 e) then [] else ["ipv6"%string]).

(** ** Integrity *)

Lemma pres_device_update c p f :
  (forall r, rd_id (f r) = rd_id r) ->
  preserves wf_db (exec_update_checked (R:=device_row) c p f).
Proof.
  intros Hid. apply pres_exec_update_checked; [done|]. intros d _. unfold parents. simpl.
  f_equal. by apply rows_update_key.
Qed.
#[export] Hint Extern 1 (preserves wf_db (exec_update_checked _ _ _)) =>
  (apply pres_device_update; done) : effects.

Section DeviceIntegrity.
  Import DeviceRepo IPHistoryRepo.
Context (c : ctx).

Lemma devices_Create_wf d : preserves wf_db (DeviceRepo.Create c d).
  Proof. unfold DeviceRepo.Create. pres. Qed.
Lemma devices_updateDeviceIP_wf i a b v h o x y l u : preserves wf_db (updateDeviceIP c i a b v h o x y l u).
  Proof. unfold updateDeviceIP. pres. Qed.
Lemma devices_Touch_wf i x y l : preserves wf_db (Touch c i x y l).
  Proof. unfold Touch. pres. Qed.
Lemma devices_Rename_wf i l : preserves wf_db (Rename c i l).
  Proof. unfold Rename. pres. Qed.
Lemma devices_RotateSecret_wf i l : preserves wf_db (RotateSecret c i l).
  Proof. unfold RotateSecret. pres. Qed.
Lemma devices_SetDisabled_wf i b : preserves wf_db (DeviceRepo.SetDisabled c i b).
  Proof. unfold DeviceRepo.SetDisabled. pres. Qed.
Lemma devices_Delete_wf i : preserves wf_db (DeviceRepo.Delete c i).
  Proof. unfold DeviceRepo.Delete. pres. Qed.
Lemma devices_AdvanceWarnLevel_wf i f l m x y n : preserves wf_db (AdvanceWarnLevel c i f l m x y n).
  Proof. unfold AdvanceWarnLevel. pres. Qed.
Lemma history_append_wf h : preserves wf_db (appendIPHistory c h).
  Proof. unfold appendIPHistory. pres. Qed.
Lemma history_Prune_wf i o m b : preserves wf_db (IPHistoryRepo.Prune c i o m b).
  Proof. unfold IPHistoryRepo.Prune. pres. Qed.
End DeviceIntegrity.

#[export] Hint Resolve devices_Create_wf devices_updateDeviceIP_wf devices_Touch_wf devices_Rename_wf
  devices_RotateSecret_wf devices_SetDisabled_wf devices_Delete_wf devices_AdvanceWarnLevel_wf
  history_append_wf history_Prune_wf : effects.

Lemma devices_UpdateIP_wf c i a b v h o l : preserves wf_db (DeviceRepo.UpdateIP c i a b v h o l).
Proof. unfold DeviceRepo.UpdateIP. pres. Qed.
Lemma devices_ExpireFamilies_wf c i a b x y n : preserves wf_db (ExpireFamilies c i a b x y n).
Proof. unfold ExpireFamilies, DeviceRepo.getDeviceTx. pres. Qed.
Lemma RecordIPChange_wf c ch : preserves wf_db (RecordIPChange c ch).
Proof. unfold RecordIPChange. pres. Qed.
#[export] Hint Resolve devices_UpdateIP_wf devices_ExpireFamilies_wf RecordIPChange_wf : effects.
