(* ===== verification/DeviceFacts.v ===== *)
(** * What the device store guarantees

    Properties of StoreDevices: the two transactions are all-or-nothing under
    every fault schedule, the sweep's pin makes an expiry harmless against a
    check-in that got in first, pages of the history partition it, and the
    pruner's delete never takes the newest row. *)

From S2P Require Import Prelude GoLib Schema Integrity Effects Demo StoreDevices.
From Stdlib Require Import Ascii.

(** ** Shared lemmas *)

Lemma set_db_db d w : w_db (set_db d w) = d.
Proof. done. Qed.

(** Rows matched by their primary key: at most one. *)
Lemma find_device_in d id r :
  List.find (fun r => str_eq (rd_id r) id) (d_devices d) = Some r -> r ∈ d_devices d /\ rd_id r = id.
Proof. intros [Hin Heq%str_eq_true]%find_some_iff. done. Qed.

Lemma wf_devices d : wf_db d -> uniq_ok (d_devices d) = true.
Proof. intros Hwf. by destruct (wf_devices _ Hwf). Qed.

(** ** RecordIPChange *)

(** The database an appended history row leaves. *)
Definition appended (row : history_row) (d : DB) : DB :=
  setd_history_seq (d_history_seq d + 1) (setd_history (d_history d ++ [row]) d).

Definition history_row_of (h : IPHistory) (id at_ : Z) : history_row :=
  HistoryRow id (iph_DeviceID h) (nullIfEmpty (iph_IPv4 h)) (nullIfEmpty (iph_IPv6 h)) at_
    (nullIfEmpty (iph_ClientVersion h)).

Lemma history_insert_ok d row :
  wf_db d -> rh_id row = d_history_seq d + 1 -> rh_device_id row ∈ rd_id <$> d_devices d ->
  insert_violation row d = None.
Proof.
  intros Hwf Hid Hdev. eapply auto_insert_ok; [done|exact (wf_history _ Hwf)|exact Hid|done|].
  simpl. by rewrite bool_decide_eq_true_2.
Qed.

Lemma wp_append c h (Q : result IPHistory -> World -> Prop) w :
  (forall e w', e <> ErrNotFound -> Q (Err e) w') ->
  (forall at_ w', (iph_ObservedAt h <> 0 -> at_ = iph_ObservedAt h) ->
    w_db w' = appended (history_row_of h (d_history_seq (w_db w) + 1) at_) (w_db w) ->
    Q (Ok (MkIPHistory (d_history_seq (w_db w) + 1) (iph_DeviceID h) (iph_IPv4 h) (iph_IPv6 h) at_
             (iph_ClientVersion h))) w') ->
  wp (IPHistoryRepo.appendIPHistory c h) Q w.
Proof.
  intros He Hok. unfold IPHistoryRepo.appendIPHistory. wp_step.
  assert (Hrest : forall at_ w1, w_db w1 = w_db w -> (iph_ObservedAt h <> 0 -> at_ = iph_ObservedAt h) ->
    wp (id ← exec_insert_auto c (fun id => HistoryRow id (iph_DeviceID h)
            (nullIfEmpty (iph_IPv4 h)) (nullIfEmpty (iph_IPv6 h)) at_ (nullIfEmpty (iph_ClientVersion h)));
    id ← last_insert_id id;
    mret (MkIPHistory id (iph_DeviceID h) (iph_IPv4 h) (iph_IPv6 h) at_ (iph_ClientVersion h))) Q w1).
  { intros at_ w1 Hdb Hat. wp_step. eapply wp_exec_insert_auto; [reflexivity|by apply He| |].
    - intros e Hi. apply He. intros ->. revert Hi. unfold insert_violation. by case_match_all.
    - intros _. wp_step. wp_step; [by apply He|]. wp_step.
      rewrite Hdb. by apply Hok. }
  destruct (Z.eqb_spec (iph_ObservedAt h) 0) as [Hz|Hz]; wp_step; apply Hrest; done.
Qed.

Lemma device_matched d id r :
  r ∈ d_devices d -> rd_id r = id -> rows_matched (fun r => str_eq (rd_id r) id) (d_devices d) <> 0%nat.
Proof. intros Hr Hid. apply rows_matched_pos. exists r. by rewrite Hid, str_eq_refl. Qed.

(** The database a recorded change leaves. *)
Definition recorded (ch : IPChange) (now at_ : Z) (d : DB) : DB :=
  appended (HistoryRow (d_history_seq d + 1) (ic_DeviceID ch) (nullIfEmpty (ic_IPv4 ch))
             (nullIfEmpty (ic_IPv6 ch)) at_ (nullIfEmpty (ic_ClientVersion ch)))
    (setd_devices (rows_update (fun r => str_eq (rd_id r) (ic_DeviceID ch))
          (DeviceRepo.set_reported (ic_IPv4 ch) (ic_IPv6 ch) (ic_ClientVersion ch) (ic_Hostname ch)
             (ic_OS ch) (ic_V4Asserted ch) (ic_V6Asserted ch) now now) (d_devices d)) d).

Lemma wp_RecordIPChange (c : ctx) (ch : IPChange) (w : World) :
  wp (RecordIPChange c ch) (fun r w' => match r with
    | Ok h => exists now at_, (now <> 0 -> at_ = now) /\
        w_db w' = recorded ch now at_ (w_db w) /\
        (exists row, row ∈ d_devices (w_db w) /\ rd_id row = ic_DeviceID ch) /\
        h = MkIPHistory (d_history_seq (w_db w) + 1) (ic_DeviceID ch) (ic_IPv4 ch) (ic_IPv6 ch)
              at_ (ic_ClientVersion ch)
    | Err e => w_db w' = w_db w /\
        (e = ErrNotFound -> forall row, row ∈ d_devices (w_db w) -> rd_id row <> ic_DeviceID ch)
    | Panic => False
    end) w.
Proof.
  unfold RecordIPChange, DeviceRepo.updateDeviceIP. wp_step; [done|].
  do 5 wp_step; [done|].
  apply wp_requireMatched; [done| |].
  - intros Hz. split; [done|]. intros _ row Hin Heq.
    by apply (device_matched _ _ _ Hin Heq) in Hz.
  - intros (row & Hrow & Hid%str_eq_true)%rows_matched_pos. wp_step. apply wp_append; [done|].
    simpl. intros at_ w' Hat Hdb. wp_step. split; [done|].
    eexists _, at_. split; [exact Hat|]. split; [done|]. split; [by exists row|done].
Qed.

Lemma append_quiet c h w :
  quiet w c -> wf_db (w_db w) -> iph_DeviceID h ∈ rd_id <$> d_devices (w_db w) ->
  exists r w', IPHistoryRepo.appendIPHistory c h w = (Ok r, w') /\ w_env w' = w_env w.
Proof.
  intros Hq Hwf Hdev. unfold IPHistoryRepo.appendIPHistory.
  assert (Hrest : forall at_ w1, w_env w1 = w_env w -> w_db w1 = w_db w -> exists r w',
    (id ← exec_insert_auto c (fun id => HistoryRow id (iph_DeviceID h)
            (nullIfEmpty (iph_IPv4 h)) (nullIfEmpty (iph_IPv6 h)) at_ (nullIfEmpty (iph_ClientVersion h)));
    id ← last_insert_id id;
    mret (MkIPHistory id (iph_DeviceID h) (iph_IPv4 h) (iph_IPv6 h) at_ (iph_ClientVersion h))) w1 = (Ok r, w') /\
    w_env w' = w_env w).
  { intros at_ w1 He Hd. assert (Hq1 : quiet w1 c) by (unfold quiet; by rewrite He).
    erewrite bind_run; [|eapply exec_insert_auto_quiet; [done|reflexivity|]].
    - erewrite bind_run; [|apply (driver_value_quiet _ _ c); exact Hq1]. eexists _, _. split; [reflexivity|exact He].
    - rewrite <- Hd in Hwf, Hdev. by apply history_insert_ok. }
  destruct (iph_ObservedAt h =? 0); (erewrite bind_run; [|reflexivity]); by apply Hrest.
Qed.

(** RecordIPChange is all-or-nothing under every fault and cancellation
    schedule: when it returns a history row, the device's columns and the
    appended row are both in the database and agree with the change; whenever
    it returns an error the database is untouched, and ErrNotFound means the
    device does not exist.  Without faults it succeeds on every device of a
    consistent database. *)
Theorem RecordIPChange_atomic (c : ctx) (ch : IPChange) (w : World) (Hwf : wf_db (w_db w)) :
  wp (RecordIPChange c ch) (fun r w' => match r with
    | Ok h => exists now at_, (now <> 0 -> at_ = now) /\
        w_db w' = recorded ch now at_ (w_db w) /\
        (exists row, row ∈ d_devices (w_db w) /\ rd_id row = ic_DeviceID ch) /\
        h = MkIPHistory (d_history_seq (w_db w) + 1) (ic_DeviceID ch) (ic_IPv4 ch) (ic_IPv6 ch)
              at_ (ic_ClientVersion ch)
    | Err e => w_db w' = w_db w /\
        (e = ErrNotFound -> forall row, row ∈ d_devices (w_db w) -> rd_id row <> ic_DeviceID ch)
    | Panic => False
    end) w /\
  (quiet w c -> (exists row, row ∈ d_devices (w_db w) /\ rd_id row = ic_DeviceID ch) ->
   exists h, (RecordIPChange c ch w).1 = Ok h).
Proof.
  split; [exact (wp_RecordIPChange c ch w)|]. intros Hq (row & Hrow & Hid).
  pose proof (device_matched _ _ _ Hrow Hid) as Hm.
  assert (Hu : forall now w1, w_env w1 = w_env w -> w_db w1 = w_db w -> exists w2,
    DeviceRepo.updateDeviceIP c (ic_DeviceID ch) (ic_IPv4 ch) (ic_IPv6 ch) (ic_ClientVersion ch)
      (ic_Hostname ch) (ic_OS ch) (ic_V4Asserted ch) (ic_V6Asserted ch) now now w1 = (Ok tt, w2) /\
    w_env w2 = w_env w /\ wf_db (w_db w2) /\ ic_DeviceID ch ∈ rd_id <$> d_devices (w_db w2)).
  { intros now w1 He Hd. assert (Hq1 : quiet w1 c) by (unfold quiet; by rewrite He).
    pose proof (devices_updateDeviceIP_wf c (ic_DeviceID ch) (ic_IPv4 ch) (ic_IPv6 ch) (ic_ClientVersion ch)
      (ic_Hostname ch) (ic_OS ch) (ic_V4Asserted ch) (ic_V6Asserted ch) now now w1 ltac:(by rewrite Hd)) as Hwf1.
    unfold DeviceRepo.updateDeviceIP in *.
    assert (Hrun := exec_update_quiet (R:=device_row) c (fun r => str_eq (rd_id r) (ic_DeviceID ch))
      (DeviceRepo.set_reported (ic_IPv4 ch) (ic_IPv6 ch) (ic_ClientVersion ch) (ic_Hostname ch)
             (ic_OS ch) (ic_V4Asserted ch) (ic_V6Asserted ch) now now) w1 Hq1).
    erewrite bind_run in Hwf1 |- *; [|exact Hrun|exact Hrun].
    erewrite requireMatched_quiet in Hwf1 |- *; [|exact Hq1|simpl; rewrite Hd; exact Hm|exact Hq1|simpl; rewrite Hd; exact Hm].
    eexists. split; [reflexivity|]. split; [exact He|]. split; [exact Hwf1|].
    simpl. rewrite Hd, rows_update_key by done. apply list_elem_of_fmap. by exists row. }
  unfold RecordIPChange.
  destruct (Hu (e_clock (w_env w) (S (w_n w))) (bump (bump w)) eq_refl eq_refl) as (w2 & Hrun & He2 & Hwf2 & Hdev2).
  destruct (append_quiet c (MkIPHistory 0 (ic_DeviceID ch) (ic_IPv4 ch) (ic_IPv6 ch)
    (e_clock (w_env w) (S (w_n w))) (ic_ClientVersion ch)) w2) as (h & w3 & Happ & He3);
    [unfold quiet; by rewrite He2|done|done|].
  exists h. erewrite with_tx_quiet; [reflexivity|exact Hq| |].
  - erewrite bind_run; [|reflexivity]. cbv beta. erewrite bind_run; [|exact Hrun].
    erewrite bind_run; [|exact Happ]. reflexivity.
  - by rewrite He3.
Qed.
Lemma RecordIPChange_atomic_witness :
  exists h, (RecordIPChange background
    (MkIPChange "d2" "198.51.100.7" EmptyString "1.0" "host" "linux" true false) demo_world).1 = Ok h.
Proof.
  destruct (RecordIPChange_atomic background
    (MkIPChange "d2" "198.51.100.7" EmptyString "1.0" "host" "linux" true false) demo_world demo_wf) as [_ Hok].
  apply Hok; [exact demo_quiet|]. exists demo_device2. split; [right; left|reflexivity].
Defined.

(** ** ExpireFamilies *)

(** The database an expiry leaves. *)
Definition expired (id : string) (v4Due v6Due : bool) (pinV4 pinV6 now at_ : Z) (after : device_row) (d : DB) : DB :=
  appended (HistoryRow (d_history_seq d + 1) id (nullIfEmpty (scanString (rd_current_ipv4 after)))
             (nullIfEmpty (scanString (rd_current_ipv6 after))) at_ None)
    (setd_devices (rows_update (fun r => DeviceRepo.pinned id pinV4 pinV6 r && holds_due v4Due v6Due r)
          (expire_row v4Due v6Due now) (d_devices d)) d).

Lemma expire_row_holds v4Due v6Due now r : holds_due v4Due v6Due (expire_row v4Due v6Due now r) = false.
Proof. unfold holds_due. simpl. by destruct v4Due, v6Due. Qed.

Lemma find_expired d id v4Due v6Due pinV4 pinV6 now r :
  List.find (fun r => str_eq (rd_id r) id)
    (rows_update (fun r => DeviceRepo.pinned id pinV4 pinV6 r && holds_due v4Due v6Due r)
       (expire_row v4Due v6Due now) (d_devices d)) = Some r ->
  wf_db d -> rows_matched (fun r => DeviceRepo.pinned id pinV4 pinV6 r && holds_due v4Due v6Due r) (d_devices d) <> 0%nat ->
  exists r0, r0 ∈ d_devices d /\ rd_id r0 = id /\ default 0 (rd_v4_confirmed_at r0) = pinV4 /\
    default 0 (rd_v6_confirmed_at r0) = pinV6 /\ holds_due v4Due v6Due r0 = true /\
    r = expire_row v4Due v6Due now r0.
Proof.
  intros Hf Hwf (r0 & Hin & Hp)%rows_matched_pos. rewrite find_rows_update in Hf by done.
  pose proof Hp as Hp'. unfold DeviceRepo.pinned in Hp'. rewrite !andb_true_iff, str_eq_true, !Z.eqb_eq in Hp'.
  destruct Hp' as [[[Hid H4] H6] Hdue].
  assert (Hf0 : List.find (fun r => str_eq (rd_id r) id) (d_devices d) = Some r0).
  { rewrite <- Hid. apply find_unique; [exact key_device|by apply wf_devices|done]. }
  rewrite Hf0, Hp in Hf. injection Hf as <-. exists r0. done.
Qed.

(** What an expiry leaves. *)
Definition expiry_outcome (id : string) (v4Due v6Due : bool) (pinV4 pinV6 now : Z) (w : World)
    (r : result (Z * bool)) (w' : World) : Prop :=
  match r with
    | Ok (eventID, true) => exists row at_, row ∈ d_devices (w_db w) /\ rd_id row = id /\
        default 0 (rd_v4_confirmed_at row) = pinV4 /\ default 0 (rd_v6_confirmed_at row) = pinV6 /\
        holds_due v4Due v6Due row = true /\ eventID = d_history_seq (w_db w) + 1 /\ (now <> 0 -> at_ = now) /\
        w_db w' = expired id v4Due v6Due pinV4 pinV6 now at_ (expire_row v4Due v6Due now row) (w_db w)
    | Ok (eventID, false) => w_db w' = w_db w /\ eventID = 0 /\ forall row, row ∈ d_devices (w_db w) ->
        DeviceRepo.pinned id pinV4 pinV6 row = true -> holds_due v4Due v6Due row = false
    | Err _ => w_db w' = w_db w
    | Panic => False
    end.

Lemma wp_ExpireFamilies (c : ctx) (id : string) (v4Due v6Due : bool) (pinV4 pinV6 now : Z) (w : World)
    (Hwf : wf_db (w_db w)) :
  wp (ExpireFamilies c id v4Due v6Due pinV4 pinV6 now) (expiry_outcome id v4Due v6Due pinV4 pinV6 now w) w.
Proof.
  unfold ExpireFamilies, DeviceRepo.getDeviceTx. wp_step; [done|].
  wp_step. wp_step; [done|]. wp_step. wp_step; [done|].
  destruct (Nat.eqb_spec (rows_matched (fun r => DeviceRepo.pinned id pinV4 pinV6 r && holds_due v4Due v6Due r)
    (d_devices (w_db w))) 0) as [Hz|Hnz].
  - simpl rows. rewrite Hz. simpl. wp_step. split; [done|]. split; [done|].
    intros row Hin Hp. rewrite rows_matched_zero in Hz. specialize (Hz row Hin). simpl in Hz.
    by rewrite Hp in Hz.
  - simpl rows. rewrite (proj2 (Nat.eqb_neq _ _) Hnz). wp_step. apply wp_get_one; [done|done|].
    intros after Haf. simpl in Haf. destruct (find_expired _ _ _ _ _ _ _ _ Haf Hwf Hnz)
      as (row & Hin & Hid & H4 & H6 & Hdue & ->).
    wp_step. apply wp_append; [done|]. simpl. intros at_ w' Hat Hdb. wp_step. split; [done|].
    exists row, at_. done.
Qed.
(** Once the due families are gone, the same expiry finds nothing. *)
Lemma expired_holds_nothing id v4Due v6Due pinV4 pinV6 now at_ after d row :
  row ∈ d_devices (expired id v4Due v6Due pinV4 pinV6 now at_ after d) ->
  DeviceRepo.pinned id pinV4 pinV6 row = true -> holds_due v4Due v6Due row = false.
Proof.
  intros (r0 & _ & ->)%elem_of_rows_update Hp.
  destruct (DeviceRepo.pinned id pinV4 pinV6 r0 && holds_due v4Due v6Due r0) eqn:Hm; [apply expire_row_holds|].
  by rewrite Hp in Hm.
Qed.

(** One family over an expiry: due, its address is gone and its warning level
    reset; not due, both are as before. *)
Definition family_expired (due : bool) (addr addr' : option string) (level level' : Z) : Prop :=
  (due = true -> addr' = None /\ level' = 0) /\ (due = false -> addr' = addr /\ level' = level).

(** The columns an expiry leaves alone. *)
Definition row_contact (r : device_row) :=
  (rd_id r, rd_user_id r, rd_label r, rd_secret_hash r, (rd_hostname r, rd_os r, rd_client_version r),
   (rd_last_seen_at r, rd_disabled r, rd_created_at r), (rd_v4_confirmed_at r, rd_v6_confirmed_at r)).

Definition row_expired (v4Due v6Due : bool) (now : Z) (r r' : device_row) : Prop :=
  family_expired v4Due (rd_current_ipv4 r) (rd_current_ipv4 r') (rd_v4_warn_level r) (rd_v4_warn_level r') /\
  family_expired v6Due (rd_current_ipv6 r) (rd_current_ipv6 r') (rd_v6_warn_level r) (rd_v6_warn_level r') /\
  rd_updated_at r' = now /\ row_contact r' = row_contact r.

(** A device with the confirmation times the sweep read, and with an address
    in a due family. *)
Definition pins_hold (id : string) (pinV4 pinV6 : Z) (r : device_row) : Prop :=
  rd_id r = id /\ default 0 (rd_v4_confirmed_at r) = pinV4 /\ default 0 (rd_v6_confirmed_at r) = pinV6.
Definition due_held (v4Due v6Due : bool) (r : device_row) : Prop :=
  v4Due = true /\ is_Some (rd_current_ipv4 r) \/ v6Due = true /\ is_Some (rd_current_ipv6 r).

Lemma holds_due_held v4Due v6Due r : holds_due v4Due v6Due r = true <-> due_held v4Due v6Due r.
Proof. unfold holds_due, due_held. by rewrite orb_true_iff, !andb_true_iff, !bool_decide_eq_true. Qed.

Lemma pinned_hold id pinV4 pinV6 r : DeviceRepo.pinned id pinV4 pinV6 r = true <-> pins_hold id pinV4 pinV6 r.
Proof. unfold DeviceRepo.pinned, pins_hold. rewrite !andb_true_iff, str_eq_true, !Z.eqb_eq. tauto. Qed.

Lemma expire_row_expired v4Due v6Due now r : row_expired v4Due v6Due now r (expire_row v4Due v6Due now r).
Proof. destruct v4Due, v6Due; by split_and!. Qed.

(** The effect of one expiry that removed something. *)
Definition expires (id : string) (v4Due v6Due : bool) (pinV4 pinV6 now eventID : Z) (d d' : DB) : Prop :=
  exists row row' at_, row ∈ d_devices d /\ pins_hold id pinV4 pinV6 row /\ due_held v4Due v6Due row /\
    row' ∈ d_devices d' /\ row_expired v4Due v6Due now row row' /\
    Forall2 (fun r r' => rd_id r = id \/ r' = r) (d_devices d) (d_devices d') /\
    eventID = d_history_seq d + 1 /\ (now <> 0 -> at_ = now) /\
    d' = appended (HistoryRow eventID id (nullIfEmpty (scanString (rd_current_ipv4 row')))
           (nullIfEmpty (scanString (rd_current_ipv6 row'))) at_ None) (setd_devices (d_devices d') d).

Lemma expired_expires id v4Due v6Due pinV4 pinV6 now at_ row d :
  row ∈ d_devices d -> pins_hold id pinV4 pinV6 row -> due_held v4Due v6Due row -> (now <> 0 -> at_ = now) ->
  expires id v4Due v6Due pinV4 pinV6 now (d_history_seq d + 1) d
    (expired id v4Due v6Due pinV4 pinV6 now at_ (expire_row v4Due v6Due now row) d).
Proof.
  intros Hin Hp Hd Hat. exists row, (expire_row v4Due v6Due now row), at_.
  split; [done|]. split; [done|]. split; [done|]. split; [|split; [apply expire_row_expired|split; [|done]]].
  - apply elem_of_rows_update. exists row. split; [done|].
    by rewrite (proj2 (pinned_hold _ _ _ _) Hp), (proj2 (holds_due_held _ _ _) Hd).
  - simpl. unfold rows_update. apply Forall2_fmap_r, Forall_Forall2_diag, Forall_forall. intros r _. simpl.
    destruct (DeviceRepo.pinned id pinV4 pinV6 r) eqn:He; [left|by right]. by apply pinned_hold in He as [].
Qed.

(** C12: an expiry is all-or-nothing, pinned and happens once.  It reports a
    removal only for a device that holds an address in a due family and whose
    two confirmation times still have the values the sweep read; then each due
    family loses its address, a family that is not due keeps its address and
    warning level, every other column but the update time and every other
    device is as before, and one history row with what survives is appended in
    the same transaction.  Otherwise (a check-in got in first, nothing due is
    held, a fault at any step) the database is as it was; it never panics, and
    after a removal the same expiry changes nothing. *)
Theorem ExpireFamilies_pinned (c : ctx) (id : string) (v4Due v6Due : bool) (pinV4 pinV6 now : Z) (w : World)
    (Hwf : wf_db (w_db w)) :
  wp (ExpireFamilies c id v4Due v6Due pinV4 pinV6 now) (fun r w' =>
    match r with
    | Ok (eventID, true) => expires id v4Due v6Due pinV4 pinV6 now eventID (w_db w) (w_db w') /\
        forall c2 now2, wp (ExpireFamilies c2 id v4Due v6Due pinV4 pinV6 now2) (fun r2 w2 =>
          w_db w2 = w_db w' /\ forall e2, r2 <> Ok (e2, true)) w'
    | Ok (eventID, false) => w_db w' = w_db w /\ eventID = 0 /\ forall row, row ∈ d_devices (w_db w) ->
        pins_hold id pinV4 pinV6 row -> ~ due_held v4Due v6Due row
    | Err _ => w_db w' = w_db w
    | Panic => False
    end) w.
Proof.
  pose proof (devices_ExpireFamilies_wf c id v4Due v6Due pinV4 pinV6 now w Hwf) as Hwf'.
  pose proof (wp_ExpireFamilies c id v4Due v6Due pinV4 pinV6 now w Hwf) as H1.
  unfold wp in *. destruct (ExpireFamilies c id v4Due v6Due pinV4 pinV6 now w) as [[[e []]|e|] w']; [..|done|done].
  - destruct H1 as (row & at_ & Hin & Hid & H4 & H6 & Hdue & -> & Hat & Hdb). cbn [fst snd] in *. split.
    + rewrite Hdb. apply expired_expires; [done|done| |done]. by apply holds_due_held.
    + intros c2 now2. pose proof (wp_ExpireFamilies c2 id v4Due v6Due pinV4 pinV6 now2 w' Hwf') as H2.
      unfold wp in H2. destruct (ExpireFamilies _ _ _ _ _ _ _ w') as [[[e2 []]|e2|] w2]; [|by destruct H2 as [? _]|done|done].
      exfalso. destruct H2 as (row2 & at2 & Hin2 & Hid2 & H42 & H62 & Hdue2 & _). rewrite Hdb in Hin2.
      rewrite (expired_holds_nothing _ _ _ _ _ _ _ _ _ _ Hin2) in Hdue2; [done|]. by apply pinned_hold.
  - destruct H1 as (Hdb & He & Hno). split; [done|]. split; [done|]. intros row Hin Hp%pinned_hold Hd%holds_due_held.
    by rewrite (Hno row Hin Hp) in Hd.
Qed.
Lemma ExpireFamilies_pinned_witness :
  expires "d1" false true 900 100 2000 4 demo_db
    (w_db (ExpireFamilies background "d1" false true 900 100 2000 demo_world).2).
Proof.
  refine (proj1 (wp_elim _ _ _ (Ok (4, true))
    (ExpireFamilies background "d1" false true 900 100 2000 demo_world).2
    (ExpireFamilies_pinned background "d1" false true 900 100 2000 demo_world demo_wf) _)).
  apply run_eq. vm_compute. reflexivity.
Defined.

(** ** IP history: cursors and pages *)

Section History.
Import IPHistoryRepo.

Lemma encodeCursor_ne at_ id : encodeCursor at_ id <> EmptyString.
Proof.
  intros Hs. pose proof (b64_decode_encode (format_int at_ ++ ":" ++ format_int id)%string) as Hd.
  unfold encodeCursor in Hs. rewrite Hs in Hd. injection Hd as Hd.
  apply (f_equal (has_char ":"%char)) in Hd. rewrite has_char_app in Hd. simpl in Hd.
  by rewrite orb_true_r in Hd.
Qed.

(** A page cursor round-trips. *)
Lemma cursor_decodes at_ id : in_int64 at_ -> in_int64 id -> decodeCursor (encodeCursor at_ id) = inl (at_, id).
Proof.
  intros Ha Hi. unfold decodeCursor.
  destruct (str_eq (encodeCursor at_ id) EmptyString) eqn:Hs.
  { apply str_eq_true in Hs. by destruct (encodeCursor_ne at_ id). }
  unfold encodeCursor. rewrite b64_decode_encode.
  change (":" ++ format_int id)%string with (String ":"%char (format_int id)).
  rewrite split2_app by apply format_int_no_colon. by rewrite !parse_int_format_int.
Qed.

(** The strict order of the pages. *)
Definition newer (a b : history_row) : Prop := older (rh_observed_at a) (rh_id a) b = true.

Lemma newer_irrefl x : ~ newer x x.
Proof. unfold newer, older. rewrite !Z.ltb_irrefl, andb_false_r. done. Qed.
Lemma newer_trans x y z : newer x y -> newer y z -> newer x z.
Proof. unfold newer, older. lia. Qed.
Lemma newest_first_total x y : newest_first x y = true \/ newest_first y x = true.
Proof. unfold newest_first. lia. Qed.
Lemma newest_first_trans x y z : newest_first x y = true -> newest_first y z = true -> newest_first x z = true.
Proof. unfold newest_first. lia. Qed.

Lemma newest_sorted (l : list history_row) :
  NoDup (rh_id <$> l) -> StronglySorted newer (order_by newest_first l).
Proof.
  intros Hnd. pose proof (order_by_sorted _ newest_first_total newest_first_trans l) as Hs.
  assert (Hnd' : NoDup (rh_id <$> order_by newest_first l)) by (by rewrite order_by_perm).
  induction Hs as [|x l' Hs IH Hall]; [constructor|].
  cbn [fmap list_fmap] in Hnd'. apply NoDup_cons in Hnd' as [Hni Hnd']. constructor; [by apply IH|].
  rewrite Forall_forall in Hall |- *. intros y Hy. specialize (Hall y Hy).
  assert (rh_id x <> rh_id y).
  { intros Heq. apply Hni. rewrite Heq. apply list_elem_of_fmap. eauto. }
  revert Hall. unfold newer, newest_first, older. lia.
Qed.

Lemma history_ids_NoDup d p : wf_db d -> NoDup (rh_id <$> List.filter p (d_history d)).
Proof.
  intros Hwf. destruct (wf_history _ Hwf) as [_ _ [Hs _]]. apply NoDup_fmap_bfilter.
  simpl row_id in Hs. clear -Hs. induction Hs as [|x l Hs IH Hall]; [constructor|].
  apply NoDup_cons. split; [|done]. intros Hin. rewrite Forall_forall in Hall.
  specialize (Hall _ Hin). lia.
Qed.

Lemma sorted_split (l1 l2 : list history_row) r :
  StronglySorted newer (l1 ++ r :: l2) ->
  List.filter (older (rh_observed_at r) (rh_id r)) (l1 ++ r :: l2) = l2.
Proof.
  intros Hs. rewrite List.filter_app. simpl.
  destruct (older (rh_observed_at r) (rh_id r) r) eqn:Hr; [by apply newer_irrefl in Hr|].
  rewrite bfilter_none, bfilter_all; [done| |].
  - apply StronglySorted_app_1_r in Hs. inversion Hs as [|? ? _ Hall]; subst.
    by rewrite Forall_forall in Hall.
  - intros x Hx. destruct (older _ _ x) eqn:Ho; [|done]. exfalso.
    apply (newer_irrefl r). eapply newer_trans; [exact Ho|].
    eapply (StronglySorted_app_1_elem_of newer l1 (r :: l2)); [done|done|left].
Qed.

(** After the row [r], the page holds what the history holds after [r]. *)
Lemma page_rows_after dev d limit l1 r l2 :
  wf_db d -> history_of dev d = l1 ++ r :: l2 ->
  page_rows dev (Some (rh_observed_at r, rh_id r)) limit d = limit_rows limit l2.
Proof.
  intros Hwf Hh. unfold page_rows. f_equal.
  assert (Hs : StronglySorted newer (l1 ++ r :: l2)).
  { rewrite <- Hh. by apply newest_sorted, history_ids_NoDup. }
  apply (sorted_perm_unique newer _ _ newer_irrefl newer_trans).
  - by apply newest_sorted, history_ids_NoDup.
  - apply StronglySorted_app_1_r in Hs. by inversion Hs.
  - rewrite order_by_perm. rewrite <- (sorted_split _ _ _ Hs), <- Hh.
    unfold history_of. rewrite <- bfilter_filter. apply bfilter_perm. by rewrite order_by_perm.
Qed.

Lemma page_rows_first dev d limit : page_rows dev None limit d = limit_rows limit (history_of dev d).
Proof.
  unfold page_rows, history_of. do 2 f_equal. apply bfilter_ext. intros x _. by rewrite andb_true_r.
Qed.

Lemma clamp_limit_bounds limit : 1 <= clamp_limit limit <= 500.
Proof. unfold clamp_limit. repeat case_match; lia. Qed.

(** Pages compose: reading with the cursor that an earlier page ended on
    returns exactly the next rows of the device's history (newest first), at
    most the clamped limit, with no row skipped or repeated; the next cursor
    is that of the last row returned when the page is full and empty
    otherwise. *)
Theorem Page_continues (c : ctx) (dev : string) (limit : Z) (w : World) (l1 l2 : list history_row) (r : history_row)
    (Hq : quiet w c) (Hwf : wf_db (w_db w))
    (Hh : history_of dev (w_db w) = l1 ++ r :: l2)
    (Ht : in_int64 (rh_observed_at r)) (Hi : in_int64 (rh_id r)) :
  let page := take (Z.to_nat (clamp_limit limit)) l2 in
  Page c dev (encodeCursor (rh_observed_at r) (rh_id r)) limit w =
    (Ok (MkHistoryPage (scanIPHistory <$> page)
       (if Nat.leb (Z.to_nat (clamp_limit limit)) (length l2) then
          match last page with Some x => encodeCursor (rh_observed_at x) (rh_id x) | None => EmptyString end
        else EmptyString)), bump w).
Proof.
  intros page. unfold Page. pose proof (clamp_limit_bounds limit) as Hc.
  destruct (str_eq _ EmptyString) eqn:Hs.
  { apply str_eq_true in Hs. by destruct (encodeCursor_ne _ _ Hs). }
  rewrite cursor_decodes by done. erewrite bind_run; [|reflexivity]. cbv beta.
  erewrite bind_run; [|by apply query_quiet]. cbv beta zeta.
  erewrite page_rows_after by done. unfold limit_rows. rewrite (proj2 (Z.ltb_ge _ _)) by lia.
  fold page. unfold mret, M_ret. do 2 f_equal. f_equal.
  unfold next_cursor. rewrite length_fmap, fmap_last. unfold page at 1. rewrite length_take.
  destruct (Nat.leb_spec (Z.to_nat (clamp_limit limit)) (length l2)).
  - rewrite (proj2 (Z.eqb_eq _ _)) by lia. by destruct (last page).
  - by rewrite (proj2 (Z.eqb_neq _ _)) by lia.
Qed.
Lemma Page_continues_witness :
  Page background "d1" (encodeCursor 900 3) 1 demo_world =
    (Ok (MkHistoryPage [MkIPHistory 2 "d1" "192.0.2.1" "2001:db8::1" 60 EmptyString] (encodeCursor 60 2)),
     bump demo_world).
Proof.
  apply (Page_continues background "d1" 1 demo_world []
    [HistoryRow 2 "d1" (Some "192.0.2.1"%string) (Some "2001:db8::1"%string) 60 None;
     HistoryRow 1 "d1" (Some "192.0.2.9"%string) None 50 None]
    (HistoryRow 3 "d1" (Some "192.0.2.1"%string) (Some "2001:db8::1"%string) 900 None)).
  - exact demo_quiet.
  - exact demo_wf.
  - vm_compute. reflexivity.
  - vm_compute. by split.
  - vm_compute. by split.
Defined.

(** *** Pruning one device's history *)

Lemma max_id_spec (l : list history_row) m : max_id l = Some m <->
  (exists r, r ∈ l /\ rh_id r = m) /\ (forall r, r ∈ l -> rh_id r <= m).
Proof.
  revert m. induction l as [|x l IH]; intros m; simpl.
  - split; [done|]. intros [(r & Hr%elem_of_nil & _) _]. done.
  - destruct (max_id l) as [k|] eqn:Hk.
    + destruct (IH k) as [H1 _]. destruct (H1 eq_refl) as [(y & Hy & Hyk) Hle].
      split.
      * intros [= <-]. split.
        -- destruct (Z.max_spec (rh_id x) k) as [[_ ->]|[_ ->]]; [exists y; split; [by right|done]|exists x; split; [left|done]].
        -- intros r [->|Hr]%elem_of_cons; [lia|]. specialize (Hle r Hr). lia.
      * intros [(r & Hr & Hrm) Hb]. f_equal.
        pose proof (Hb x (list_elem_of_here _ _)). pose proof (Hb y (list_elem_of_further _ _ _ Hy)).
        apply elem_of_cons in Hr as [->|Hr]; [lia|]. specialize (Hle r Hr). lia.
    + assert (l = []) as ->. { destruct l; [done|]. simpl in Hk. done. }
      split.
      * intros [= <-]. split; [exists x; split; [left|done]|]. intros r [->|Hr%elem_of_nil]%elem_of_cons; [lia|done].
      * intros [(r & [->|Hr%elem_of_nil]%elem_of_cons & <-) _]; [done|done].
Qed.

Lemma min_id_le (l : list history_row) m r : min_id l = Some m -> r ∈ l -> m <= rh_id r.
Proof.
  revert m. induction l as [|x l IH]; intros m; simpl; [by intros _ ?%elem_of_nil|].
  intros [= <-] [->|Hr]%elem_of_cons; destruct (min_id l) as [k|] eqn:Hk; try lia.
  - specialize (IH k eq_refl Hr). lia.
  - destruct l; [by apply elem_of_nil in Hr|done].
Qed.

(** A row below the floor has at least [perDeviceMax] newer rows of its device. *)
Lemma below_floor dev m d r f :
  0 < m -> keep_floor dev m d = Some f -> r ∈ d_history d -> of_device dev r = true -> rh_id r < f ->
  m <= Z.of_nat (length (List.filter (fun x => of_device dev x && (rh_id r <? rh_id x)) (d_history d))).
Proof.
  intros Hm Hf Hr Hdev Hlt. unfold keep_floor, limit_rows in Hf. rewrite (proj2 (Z.ltb_ge _ _)) in Hf by lia.
  set (s := order_by _ _) in Hf. assert (Hs : s ≡ₚ List.filter (of_device dev) (d_history d)) by apply order_by_perm.
  assert (Hrs : r ∈ s) by (rewrite Hs; by apply elem_of_bfilter).
  assert (Hall : forall x, x ∈ take (Z.to_nat m) s -> rh_id r < rh_id x).
  { intros x Hx. pose proof (min_id_le _ _ x Hf Hx). lia. }
  assert (Hlen : (Z.to_nat m < length s)%nat).
  { destruct (decide (Z.to_nat m < length s)%nat) as [|Hge]; [done|]. rewrite take_ge in Hall by lia.
    specialize (Hall r Hrs). lia. }
  rewrite <- bfilter_filter, <- (bfilter_perm _ _ _ Hs), <- (take_drop (Z.to_nat m) s), List.filter_app, length_app.
  rewrite (bfilter_all _ (take _ _)) by (intros x Hx; specialize (Hall x Hx); lia).
  rewrite length_take. lia.
Qed.

Lemma prunable_sound dev olderThan perDeviceMax d x :
  x ∈ d_history d -> prunable dev olderThan perDeviceMax d x = true ->
  rh_device_id x = dev /\
  (exists y, y ∈ d_history d /\ rh_device_id y = dev /\ rh_id x < rh_id y) /\
  (rh_observed_at x < olderThan \/
   0 < perDeviceMax <= Z.of_nat (length (List.filter
     (fun y => of_device dev y && (rh_id x <? rh_id y)) (d_history d)))).
Proof.
  intros Hx Hp. unfold prunable in Hp. rewrite !andb_true_iff, negb_true_iff, orb_true_iff in Hp.
  destruct Hp as [[Hdev Hmax] Hwhy]. split; [by apply str_eq_true in Hdev|]. split.
  - apply bool_decide_eq_false in Hmax.
    destruct (max_id (List.filter (of_device dev) (d_history d))) as [m|] eqn:Hm.
    + apply max_id_spec in Hm as [(y & [Hy Hyd]%elem_of_bfilter & Hym) Hle].
      exists y. split; [done|]. split; [by apply str_eq_true in Hyd|].
      specialize (Hle x (proj2 (elem_of_bfilter _ _ _) (conj Hx Hdev))).
      assert (rh_id x <> m) by congruence. lia.
    + assert (Hin : x ∈ List.filter (of_device dev) (d_history d)) by (by apply elem_of_bfilter).
      destruct (List.filter _ _); [by apply elem_of_nil in Hin|done].
  - destruct Hwhy as [Ho%Z.ltb_lt|Hw]; [by left|right].
    rewrite andb_true_iff in Hw. destruct Hw as [Hm%Z.ltb_lt Hf]. split; [done|].
    destruct (keep_floor dev perDeviceMax d) as [f|] eqn:Hfl; [|done].
    eapply below_floor; [done|done|done|done|by apply Z.ltb_lt].
Qed.

(** Pruning one device's history deletes only rows of that device that are
    older than the cutoff or have at least perDeviceMax newer rows, never the
    device's newest row, at most one batch of them; the count it reports is
    what it deleted, a batch that is not full leaves no prunable row behind,
    and a failed call is either without effect or (a failed RowsAffected)
    bound by the same limits. *)
Theorem history_Prune_spec (c : ctx) (dev : string) (olderThan perDeviceMax batch : Z) (w : World)
    (Hwf : wf_db (w_db w)) (Hb : 0 <= batch) :
  wp (Prune c dev olderThan perDeviceMax batch) (fun r w' =>
    exists gone : history_row -> bool,
      w_db w' = setd_history (rows_delete gone (d_history (w_db w))) (w_db w) /\
      (forall x, x ∈ d_history (w_db w) -> gone x = true ->
         rh_device_id x = dev /\
         (exists y, y ∈ d_history (w_db w) /\ rh_device_id y = dev /\ rh_id x < rh_id y) /\
         (rh_observed_at x < olderThan \/
          0 < perDeviceMax <= Z.of_nat (length (List.filter
            (fun y => of_device dev y && (rh_id x <? rh_id y)) (d_history (w_db w)))))) /\
      Z.of_nat (rows_matched gone (d_history (w_db w))) <= batch /\
      match r with
      | Ok n => n = rows_matched gone (d_history (w_db w)) /\
          (Z.of_nat n < batch -> forall x, x ∈ d_history (w_db w) ->
             prunable dev olderThan perDeviceMax (w_db w) x = true -> gone x = true)
      | Err e => e = ErrDriver
      | Panic => False
      end) w.
Proof.
  assert (Hnd : NoDup (rh_id <$> d_history (w_db w))).
  { pose proof (history_ids_NoDup _ (fun _ => true) Hwf) as Hnd. by rewrite bfilter_all in Hnd. }
  unfold Prune. wp_step. wp_step.
  - exists (fun _ => false). unfold rows_delete, rows_matched. rewrite bfilter_all, bfilter_none by done.
    split; [by destruct w as [? ? [] ?]|]. simpl. split; [done|]. split; [lia|done].
  - simpl rows. set (p := prunable dev olderThan perDeviceMax (w_db w)).
    change (prune_ids dev olderThan perDeviceMax batch (w_db w)) with (batch_ids rh_id p batch (d_history (w_db w))).
    set (gone := fun r : history_row => bool_decide (rh_id r ∈ batch_ids rh_id p batch (d_history (w_db w)))).
    assert (Hlen : rows_matched gone (d_history (w_db w)) = length (batch_ids rh_id p batch (d_history (w_db w))))
      by (by apply batch_length).
    assert (Hsel : forall x, x ∈ d_history (w_db w) -> gone x = true ->
         rh_device_id x = dev /\
         (exists y, y ∈ d_history (w_db w) /\ rh_device_id y = dev /\ rh_id x < rh_id y) /\
         (rh_observed_at x < olderThan \/
          0 < perDeviceMax <= Z.of_nat (length (List.filter
            (fun y => of_device dev y && (rh_id x <? rh_id y)) (d_history (w_db w)))))).
    { intros x Hx Hg. pose proof (batch_selected rh_id p batch _ Hnd x Hx Hg) as Hp.
      by apply prunable_sound. }
    wp_step; exists gone; (split; [done|]); (split; [exact Hsel|]);
      (split; [rewrite Hlen; by apply batch_bound|]); [done|].
    split; [done|]. rewrite Hlen. intros Hshort x Hx Hp. by apply batch_complete.
Qed.
Lemma history_Prune_spec_witness :
  (Prune background "d1" 100 1 500 demo_world).1 = Ok 2%nat /\
  exists gone, w_db (Prune background "d1" 100 1 500 demo_world).2 =
    setd_history (rows_delete gone (d_history demo_db)) demo_db.
Proof.
  split; [vm_compute; reflexivity|].
  destruct (history_Prune_spec background "d1" 100 1 500 demo_world demo_wf ltac:(lia)) as (gone & Hdb & _).
  exists gone. exact Hdb.
Defined.
End History.
