(* ===== verification/StoreTokens.v ===== *)
(** * internal/store: sessions, one-time tokens, machine credentials, audit log

    The repositories of sessions.go, replay_nonces.go, enrollment_codes.go,
    account_recovery.go, oidc_device_flows.go, bootstrap.go, feed_tokens.go,
    api_keys.go, feed_state.go, webauthn_credentials.go and audit_log.go, one
    Module each. *)

From S2P Require Import Prelude GoLib Schema Integrity Effects.
From Stdlib Require Import Ascii.

(** ** sessions.go *)

Module SessionRepo.
Definition Create (c : ctx) (s : Session) : M Session :=
    id ← (if str_eq (sess_ID s) EmptyString then new_id else mret (sess_ID s));
    now ← now_unix;
    let seen := if sess_LastSeenAt s =? 0 then now else sess_LastSeenAt s in
    let s := MkSession id (sess_UserID s) (sess_CSRFToken s) (sess_IP s) (sess_UserAgent s)
               now seen (sess_ExpiresAt s) in
    exec_insert c (SessionRow (sess_ID s) (sess_UserID s) (sess_CSRFToken s)
      (nullIfEmpty (sess_IP s)) (nullIfEmpty (sess_UserAgent s))
      (sess_CreatedAt s) (sess_LastSeenAt s) (sess_ExpiresAt s));;
    mret s.

Definition GetByID (c : ctx) (id : string) : M Session :=
    get_one c (fun r => str_eq (rs_id r) id) scanSession.

Definition Touch (c : ctx) (id : string) (expiresAt : Z) : M unit :=
    now ← now_unix;
    n ← exec_update c (fun r => str_eq (rs_id r) id)
      (fun r => SessionRow (rs_id r) (rs_user_id r) (rs_csrf_token r) (rs_ip r) (rs_user_agent r)
                  (rs_created_at r) now expiresAt);
    requireMatched n.

Definition Delete (c : ctx) (id : string) : M unit :=
    n ← exec_delete (R:=session_row) c (fun r => str_eq (rs_id r) id);
    requireMatched n.

Definition DeleteByUser (c : ctx) (userID : string) : M nat :=
    n ← exec_delete (R:=session_row) c (fun r => str_eq (rs_user_id r) userID);
    rows_affected n.

Definition PruneExpired (c : ctx) (now : Z) : M nat :=
    n ← exec_delete (R:=session_row) c (fun r => rs_expires_at r <? now);
    rows_affected n.
End SessionRepo.

(** ** replay_nonces.go *)

Module ReplayNonceRepo.
Definition Insert (c : ctx) (signature : string) (expiresAt : Z) : M unit :=
    map_err on_unique (exec_insert c (NonceRow signature expiresAt)).

Definition Exists (c : ctx) (signature : string) : M bool :=
    r ← query_row c (fun r => str_eq (rn_signature r) signature);
    mret (bool_decide (is_Some r)).

Definition PruneExpired (c : ctx) (now : Z) : M nat :=
    n ← exec_delete c (fun r => rn_expires_at r <? now);
    rows_affected n.
End ReplayNonceRepo.

(** ** enrollment_codes.go *)

Module EnrollmentCodeRepo.
Definition Create (c : ctx) (e : EnrollmentCode) : M EnrollmentCode :=
    map_err on_unique (exec_insert c (CodeRow (ec_Code e) (ec_UserID e) (ec_Label e) (ec_ExpiresAt e)
      (nullIfZero (ec_UsedAt e)) (nullIfEmpty (ec_DeviceID e))));;
    mret e.

Definition Get (c : ctx) (code : string) : M EnrollmentCode :=
    get_one c (fun r => str_eq (rc_code r) code) scanEnrollmentCode.

Definition live (code : string) (now : Z) (r : code_row) : bool :=
    str_eq (rc_code r) code && bool_decide (rc_used_at r = None) && (now <? rc_expires_at r).

  (** The UPDATE sets device_id, a foreign key: it is checked. *)
Definition Consume (c : ctx) (code deviceID : string) (now : Z) : M EnrollmentCode :=
    n ← exec_update_checked c (live code now)
      (fun r => CodeRow (rc_code r) (rc_user_id r) (rc_label r) (rc_expires_at r) (Some now) (Some deviceID));
    n ← rows_affected n;
    if Nat.eqb n 0 then fail ErrNotFound else Get c code.

Definition PruneExpired (c : ctx) (now : Z) : M nat :=
    n ← exec_delete c (fun r => rc_expires_at r <? now);
    rows_affected n.
End EnrollmentCodeRepo.

(** ** account_recovery.go *)

Module AccountRecoveryRepo.
Definition Create (c : ctx) (t : RecoveryToken) : M unit :=
    map_err on_unique (exec_insert c (RecoveryRow (rt_TokenHash t) (rt_UserID t) (rt_Reason t)
      (rt_ExpiresAt t) (nullIfZero (rt_UsedAt t)))).

Definition Get (c : ctx) (tokenHash : string) : M RecoveryToken :=
    get_one c (fun r => str_eq (rr_token_hash r) tokenHash) scanRecoveryToken.

Definition live (tokenHash : string) (now : Z) (r : recovery_row) : bool :=
    str_eq (rr_token_hash r) tokenHash && bool_decide (rr_used_at r = None) && (now <? rr_expires_at r).

Definition Consume (c : ctx) (tokenHash : string) (now : Z) : M RecoveryToken :=
    n ← exec_update c (live tokenHash now)
      (fun r => RecoveryRow (rr_token_hash r) (rr_user_id r) (rr_reason r) (rr_expires_at r) (Some now));
    n ← rows_affected n;
    if Nat.eqb n 0 then fail ErrNotFound else Get c tokenHash.

Definition PruneExpired (c : ctx) (now : Z) : M nat :=
    n ← exec_delete c (fun r => rr_expires_at r <? now);
    rows_affected n.

Definition DeleteUnusedByUser (c : ctx) (userID : string) : M nat :=
    n ← exec_delete c (fun r => str_eq (rr_user_id r) userID && bool_decide (rr_used_at r = None));
    rows_affected n.

Record LiveGrant := MkLiveGrant { lg_Reason : string; lg_ExpiresAt : Z }.

  (** ORDER BY user_id, expires_at DESC, reason = 'recovery' DESC *)
Definition live_order (a b : recovery_row) : bool :=
    let ra := boolToInt (str_eq (rr_reason a) "recovery") in
    let rb := boolToInt (str_eq (rr_reason b) "recovery") in
    if str_eq (rr_user_id a) (rr_user_id b) then
      (rr_expires_at b <? rr_expires_at a) ||
      ((rr_expires_at a =? rr_expires_at b) && (rb <=? ra))
    else String.leb (rr_user_id a) (rr_user_id b).

Definition put_live (m : gmap string LiveGrant) (r : recovery_row) : gmap string LiveGrant :=
    match m !! rr_user_id r with
    | Some _ => m
    | None => <[rr_user_id r := MkLiveGrant (rr_reason r) (rr_expires_at r)]> m
    end.

Definition unused_live (now : Z) (r : recovery_row) : bool :=
    bool_decide (rr_used_at r = None) && (now <? rr_expires_at r).

Definition LiveByUser (c : ctx) (now : Z) : M (gmap string LiveGrant) :=
    rows ← query c (fun d => order_by live_order (List.filter (unused_live now) (d_recovery d)));
    mret (fold_left put_live rows ∅).
End AccountRecoveryRepo.

(** ** oidc_device_flows.go *)

Module OIDCDeviceFlowRepo.
Definition Create (c : ctx) (f : OIDCDeviceFlow) : M OIDCDeviceFlow :=
    map_err on_unique (exec_insert c f);;
    mret f.

Definition Get (c : ctx) (flowID : string) : M OIDCDeviceFlow :=
    get_one c (fun r => str_eq (fl_FlowID r) flowID) id.

Definition pollable (flowID : string) (now : Z) (f : OIDCDeviceFlow) : bool :=
    str_eq (fl_FlowID f) flowID && (now <? fl_ExpiresAt f) && (fl_Interval f <=? now - fl_LastPolledAt f).

Definition TryPoll (c : ctx) (flowID : string) (now : Z) : M (OIDCDeviceFlow * bool) :=
    n ← exec_update c (pollable flowID now)
      (fun f => MkOIDCDeviceFlow (fl_FlowID f) (fl_DeviceCode f) (fl_Interval f) (fl_ExpiresAt f) now (fl_CreatedAt f));
    n ← rows_affected n;
    f ← Get c flowID;
    if fl_ExpiresAt f <=? now then fail ErrNotFound else mret (f, Nat.eqb n 1).

Definition BumpInterval (c : ctx) (flowID : string) (delta : Z) : M unit :=
    exec_update c (fun f => str_eq (fl_FlowID f) flowID)
      (fun f => MkOIDCDeviceFlow (fl_FlowID f) (fl_DeviceCode f) (fl_Interval f + delta) (fl_ExpiresAt f)
                  (fl_LastPolledAt f) (fl_CreatedAt f));;
    mret tt.

Definition Delete (c : ctx) (flowID : string) : M unit :=
    exec_delete c (fun f => str_eq (fl_FlowID f) flowID);; mret tt.

Definition PruneExpired (c : ctx) (now : Z) : M nat :=
    n ← exec_delete c (fun f => fl_ExpiresAt f <=? now);
    rows_affected n.
End OIDCDeviceFlowRepo.

(** ** bootstrap.go *)

Module BootstrapRepo.
Definition Get (c : ctx) : M BootstrapState :=
    get_one c (fun r => rb_id r =? 1) (fun r =>
      MkBootstrapState (scanString (rb_token_hash r)) (rb_created_at r) (scanInt64 (rb_consumed_at r))).

  (** INSERT OR REPLACE: the conflicting row is deleted first. *)
Definition replace_row (r : bootstrap_row) (d : DB) : DB :=
    setd_bootstrap (rows_delete (fun x => rb_id x =? rb_id r) (d_bootstrap d) ++ [r]) d.

Definition SetTokenHash (c : ctx) (tokenHash : string) : M unit :=
    now ← now_unix;
    stmt c (fun d => (Ok tt, replace_row (BootstrapRow 1 (nullIfEmpty tokenHash) now None) d)).

Definition Consume (c : ctx) : M unit :=
    now ← now_unix;
    n ← exec_update c (fun r => (rb_id r =? 1) && bool_decide (rb_consumed_at r = None))
      (fun r => BootstrapRow (rb_id r) None (rb_created_at r) (Some now));
    requireMatched n.
End BootstrapRepo.

(** ** feed_tokens.go *)

Module FeedTokenRepo.
Definition Create (c : ctx) (t : FeedToken) : M unit :=
    map_err on_unique (exec_insert c (FeedTokenRow (ft_ID t) (ft_Label t) (ft_TokenHash t)
      (nullIfEmpty (ft_CreatedBy t)) (ft_CreatedAt t) None)).

Definition GetByHash (c : ctx) (hash : string) : M FeedToken :=
    get_one c (fun r => str_eq (rf_token_hash r) hash) scanFeedToken.

Definition GetByID (c : ctx) (id : string) : M FeedToken :=
    get_one c (fun r => str_eq (rf_id r) id) scanFeedToken.

Definition by_created (a b : feed_token_row) : bool :=
    (rf_created_at a <? rf_created_at b) ||
    ((rf_created_at a =? rf_created_at b) && String.leb (rf_id a) (rf_id b)).

Definition List (c : ctx) : M (list FeedToken) :=
    query c (fun d => scanFeedToken <$> order_by by_created (d_feed_tokens d)).

Definition Delete (c : ctx) (id : string) : M unit :=
    n ← exec_delete (R:=feed_token_row) c (fun r => str_eq (rf_id r) id);
    requireMatched n.

Definition TouchLastUsed (c : ctx) (id : string) (now : Z) : M unit :=
    exec_update c (fun r => str_eq (rf_id r) id)
      (fun r => FeedTokenRow (rf_id r) (rf_label r) (rf_token_hash r) (rf_created_by r) (rf_created_at r) (Some now));;
    mret tt.
End FeedTokenRepo.

(** ** api_keys.go *)

Module APIKeyRepo.
Definition Create (c : ctx) (k : APIKey) : M unit :=
    map_err on_unique (exec_insert c (APIKeyRow (ak_ID k) (ak_UserID k) (ak_Label k) (ak_KeyHash k)
      (boolToInt (ak_AdminScope k)) (ak_CreatedAt k) None)).

Definition GetByHash (c : ctx) (hash : string) : M APIKey :=
    get_one c (fun r => str_eq (rk_key_hash r) hash) scanAPIKey.

Definition GetByID (c : ctx) (id : string) : M APIKey :=
    get_one c (fun r => str_eq (rk_id r) id) scanAPIKey.

Definition by_created (a b : api_key_row) : bool :=
    (rk_created_at a <? rk_created_at b) ||
    ((rk_created_at a =? rk_created_at b) && String.leb (rk_id a) (rk_id b)).

Definition List (c : ctx) (userID : string) : M (list APIKey) :=
    query c (fun d => scanAPIKey <$> order_by by_created
      (List.filter (fun r => str_eq (rk_user_id r) userID) (d_api_keys d))).

Definition Delete (c : ctx) (id : string) : M unit :=
    n ← exec_delete (R:=api_key_row) c (fun r => str_eq (rk_id r) id);
    requireMatched n.

Definition TouchLastUsed (c : ctx) (id : string) (now : Z) : M unit :=
    exec_update c (fun r => str_eq (rk_id r) id)
      (fun r => APIKeyRow (rk_id r) (rk_user_id r) (rk_label r) (rk_key_hash r) (rk_admin_scope r) (rk_created_at r) (Some now));;
    mret tt.
End APIKeyRepo.

(** ** feed_state.go *)

Module FeedStateRepo.
  (** UPDATE ... RETURNING seq: one statement. *)
Definition Bump (c : ctx) (now : Z) : M Z :=
    stmt c (fun d => let seq := fs_Seq (d_feed_state d) + 1 in
      (Ok seq, setd_feed_state (MkFeedState seq now) d)).

Definition Get (c : ctx) : M FeedState := query c d_feed_state.
End FeedStateRepo.

(** ** webauthn_credentials.go *)

Module WebAuthnCredentialRepo.
Definition Create (c : ctx) (w : WebAuthnCredential) : M WebAuthnCredential :=
    map_err on_unique (exec_insert c (CredentialRow (wc_CredentialID w) (wc_UserID w) (wc_CredentialJSON w)
      (wc_Name w) (wc_AAGUID w) (wc_CreatedAt w) (nullIfZero (wc_LastUsedAt w))));;
    mret w.

Definition GetByID (c : ctx) (credentialID : string) : M WebAuthnCredential :=
    get_one c (fun r => str_eq (rw_credential_id r) credentialID) scanWebAuthnCredential.

Definition ListByUser (c : ctx) (userID : string) : M (list WebAuthnCredential) :=
    query c (fun d => scanWebAuthnCredential <$>
      order_by (fun a b => rw_created_at a <=? rw_created_at b)
        (List.filter (fun r => str_eq (rw_user_id r) userID) (d_credentials d))).

Definition Rename (c : ctx) (credentialID name : string) : M unit :=
    n ← exec_update c (fun r => str_eq (rw_credential_id r) credentialID)
      (fun r => CredentialRow (rw_credential_id r) (rw_user_id r) (rw_credential_json r) name
                  (rw_aaguid r) (rw_created_at r) (rw_last_used_at r));
    requireMatched n.

Definition Delete (c : ctx) (credentialID : string) : M unit :=
    n ← exec_delete (R:=credential_row) c (fun r => str_eq (rw_credential_id r) credentialID);
    requireMatched n.

Definition DeleteAllByUser (c : ctx) (userID : string) : M nat :=
    n ← exec_delete (R:=credential_row) c (fun r => str_eq (rw_user_id r) userID);
    rows_affected n.

Definition Update (c : ctx) (w : WebAuthnCredential) : M unit :=
    n ← exec_update c (fun r => str_eq (rw_credential_id r) (wc_CredentialID w))
      (fun r => CredentialRow (rw_credential_id r) (rw_user_id r) (wc_CredentialJSON w) (rw_name r)
                  (rw_aaguid r) (rw_created_at r) (nullIfZero (wc_LastUsedAt w)));
    requireMatched n.

Definition CountWebAuthnCredentials (c : ctx) (userID : string) : M nat :=
    query c (fun d => rows_matched (fun r => str_eq (rw_user_id r) userID) (d_credentials d)).

  (** GROUP BY user_id *)
Definition CountAllByUser (c : ctx) : M (gmap string nat) :=
    query c (fun d => foldr (fun r (m : gmap string nat) =>
      <[rw_user_id r := S (default 0%nat (m !! rw_user_id r))]> m) ∅ (d_credentials d)).
End WebAuthnCredentialRepo.

(** ** audit_log.go *)

Module AuditLogRepo.
Record AuditFilter := MkAuditFilter {
    af_ActorUserID : string; af_EventType : string; af_Since : Z; af_Until : Z }.
Record AuditPage := MkAuditPage { ap_Rows : list AuditEntry; ap_NextCursor : string }.

Definition encodeAuditCursor (createdAt id : Z) : string :=
    b64_std_encode (format_int createdAt ++ ":" ++ format_int id)%string.

Definition decodeAuditCursor (c : string) : (Z * Z) + err :=
    if str_eq c EmptyString then inl (0, 0)
    else match b64_std_decode c with
    | None => inr (ErrOther "store: audit_log cursor decode")
    | Some raw => match split2 ":"%char raw with
      | (_, None) => inr (ErrOther "store: audit_log cursor format")
      | (a, Some b) => match parse_int a with
        | None => inr (ErrOther "store: audit_log cursor createdAt")
        | Some createdAt => match parse_int b with
          | None => inr (ErrOther "store: audit_log cursor id")
          | Some id => inl (createdAt, id)
          end
        end
      end
    end.

Definition Append (c : ctx) (e : AuditEntry) : M AuditEntry :=
    at_ ← (if ae_CreatedAt e =? 0 then now_unix else mret (ae_CreatedAt e));
    id ← exec_insert_auto c (fun id => AuditRow id (nullIfEmpty (ae_ActorUserID e)) (ae_EventType e)
           (nullIfEmpty (ae_TargetType e)) (nullIfEmpty (ae_TargetID e)) (nullIfEmpty (ae_DetailsJSON e))
           (nullIfEmpty (ae_IP e)) (nullIfEmpty (ae_UserAgent e)) at_);
    id ← last_insert_id id;
    mret (MkAuditEntry id (ae_ActorUserID e) (ae_EventType e) (ae_TargetType e) (ae_TargetID e)
            (ae_DetailsJSON e) (ae_IP e) (ae_UserAgent e) at_).

Definition clamp_limit (limit : Z) : Z :=
    let limit := if limit <=? 0 then 100 else limit in
    if 500 <? limit then 500 else limit.

  (** The WHERE clauses of the fields that are set, joined by AND. *)
Definition matches (f : AuditFilter) (after : option (Z * Z)) (r : audit_row) : bool :=
    (str_eq (af_ActorUserID f) EmptyString || bool_decide (ra_actor_user_id r = Some (af_ActorUserID f))) &&
    (str_eq (af_EventType f) EmptyString || str_eq (ra_event_type r) (af_EventType f)) &&
    ((af_Since f =? 0) || (af_Since f <=? ra_created_at r)) &&
    ((af_Until f =? 0) || (ra_created_at r <=? af_Until f)) &&
    match after with
    | Some (t, i) => (ra_created_at r <? t) || ((ra_created_at r =? t) && (ra_id r <? i))
    | None => true
    end.

Definition newest_first (a b : audit_row) : bool :=
    (ra_created_at b <? ra_created_at a) ||
    ((ra_created_at a =? ra_created_at b) && (ra_id b <=? ra_id a)).

Definition page_rows (f : AuditFilter) (after : option (Z * Z)) (limit : Z) (d : DB) : list audit_row :=
    limit_rows limit (order_by newest_first (List.filter (matches f after) (d_audit d))).

Definition next_cursor (limit : Z) (rows : list AuditEntry) : string :=
    if Z.of_nat (length rows) =? limit then
      match last rows with
      | Some e => encodeAuditCursor (ae_CreatedAt e) (ae_ID e)
      | None => EmptyString
      end
    else EmptyString.

Definition ListPaginated (c : ctx) (f : AuditFilter) (cursor : string) (limit : Z) : M AuditPage :=
    let limit := clamp_limit limit in
    after ← (if str_eq cursor EmptyString then mret None
             else match decodeAuditCursor cursor with inl k => mret (Some k) | inr e => fail e end);
    rows ← query c (page_rows f after limit);
    let result := scanAuditEntry <$> rows in
    mret (MkAuditPage result (next_cursor limit result)).

Definition prune_ids (olderThan batch : Z) (d : DB) : list Z :=
    ra_id <$> limit_rows batch (List.filter (fun r => ra_created_at r <? olderThan) (d_audit d)).

Definition Prune (c : ctx) (olderThan batch : Z) : M nat :=
    n ← exec_delete_where c (fun d r => bool_decide (ra_id r ∈ prune_ids olderThan batch d));
    rows_affected n.
End AuditLogRepo.

(** ** Integrity *)

Lemma pres_code_update c p f :
  preserves wf_db (exec_update_checked (R:=code_row) c p f).
Proof. by apply pres_exec_update_checked. Qed.
#[export] Hint Resolve pres_code_update : effects.

Lemma pres_bootstrap_replace c h now :
  preserves wf_db (stmt c (fun d =>
    (Ok tt, BootstrapRepo.replace_row (BootstrapRow 1 h now None) d))).
Proof.
  apply pres_stmt. intros d Hd. cbn [snd].
  set (t := rows_delete (fun x => rb_id x =? 1) (d_bootstrap d)).
  change (wf_db (set_rows (t ++ [BootstrapRow 1 h now None]) d)).
  pose proof (wf_db_delete (R:=bootstrap_row) (fun x => rb_id x =? 1) d Hd) as Hd'.
  assert (Ht : t = []).
  { apply bfilter_none. intros r Hr.
    pose proof (wf_row _ _ _ (wf_bootstrap _ Hd) r Hr) as Hok. unfold row_ok in Hok. simpl in Hok.
    rewrite andb_true_r in Hok. by rewrite Hok. }
  rewrite Ht. apply tl_wf_set; [done|done|]. split; [done| |done].
  by intros r ->%list_elem_of_singleton.
Qed.

Section TokensIntegrity.
Context (c : ctx).

Lemma sessions_Create_wf s : preserves wf_db (SessionRepo.Create c s).
  Proof. unfold SessionRepo.Create. pres. Qed.
Lemma sessions_Touch_wf i e : preserves wf_db (SessionRepo.Touch c i e).
  Proof. unfold SessionRepo.Touch. pres. Qed.
Lemma sessions_Delete_wf i : preserves wf_db (SessionRepo.Delete c i).
  Proof. unfold SessionRepo.Delete. pres. Qed.
Lemma sessions_DeleteByUser_wf i : preserves wf_db (SessionRepo.DeleteByUser c i).
  Proof. unfold SessionRepo.DeleteByUser. pres. Qed.
Lemma sessions_Prune_wf n : preserves wf_db (SessionRepo.PruneExpired c n).
  Proof. unfold SessionRepo.PruneExpired. pres. Qed.
Lemma nonces_Insert_wf s e : preserves wf_db (ReplayNonceRepo.Insert c s e).
  Proof. unfold ReplayNonceRepo.Insert. pres. Qed.
Lemma nonces_Exists_wf s : preserves wf_db (ReplayNonceRepo.Exists c s).
  Proof. unfold ReplayNonceRepo.Exists. pres. Qed.
Lemma nonces_Prune_wf n : preserves wf_db (ReplayNonceRepo.PruneExpired c n).
  Proof. unfold ReplayNonceRepo.PruneExpired. pres. Qed.
Lemma codes_Create_wf e : preserves wf_db (EnrollmentCodeRepo.Create c e).
  Proof. unfold EnrollmentCodeRepo.Create. pres. Qed.
Lemma codes_Consume_wf e d n : preserves wf_db (EnrollmentCodeRepo.Consume c e d n).
  Proof. unfold EnrollmentCodeRepo.Consume, EnrollmentCodeRepo.Get. pres. Qed.
Lemma codes_Prune_wf n : preserves wf_db (EnrollmentCodeRepo.PruneExpired c n).
  Proof. unfold EnrollmentCodeRepo.PruneExpired. pres. Qed.
Lemma recovery_Create_wf t : preserves wf_db (AccountRecoveryRepo.Create c t).
  Proof. unfold AccountRecoveryRepo.Create. pres. Qed.
Lemma recovery_Consume_wf h n : preserves wf_db (AccountRecoveryRepo.Consume c h n).
  Proof. unfold AccountRecoveryRepo.Consume, AccountRecoveryRepo.Get. pres. Qed.
Lemma recovery_Prune_wf n : preserves wf_db (AccountRecoveryRepo.PruneExpired c n).
  Proof. unfold AccountRecoveryRepo.PruneExpired. pres. Qed.
Lemma recovery_DeleteUnused_wf u : preserves wf_db (AccountRecoveryRepo.DeleteUnusedByUser c u).
  Proof. unfold AccountRecoveryRepo.DeleteUnusedByUser. pres. Qed.
Lemma flows_Create_wf f : preserves wf_db (OIDCDeviceFlowRepo.Create c f).
  Proof. unfold OIDCDeviceFlowRepo.Create. pres. Qed.
Lemma flows_TryPoll_wf f n : preserves wf_db (OIDCDeviceFlowRepo.TryPoll c f n).
  Proof. unfold OIDCDeviceFlowRepo.TryPoll, OIDCDeviceFlowRepo.Get. pres. Qed.
Lemma flows_Bump_wf f n : preserves wf_db (OIDCDeviceFlowRepo.BumpInterval c f n).
  Proof. unfold OIDCDeviceFlowRepo.BumpInterval. pres. Qed.
Lemma flows_Delete_wf f : preserves wf_db (OIDCDeviceFlowRepo.Delete c f).
  Proof. unfold OIDCDeviceFlowRepo.Delete. pres. Qed.
Lemma flows_Prune_wf n : preserves wf_db (OIDCDeviceFlowRepo.PruneExpired c n).
  Proof. unfold OIDCDeviceFlowRepo.PruneExpired. pres. Qed.
Lemma bootstrap_SetTokenHash_wf h : preserves wf_db (BootstrapRepo.SetTokenHash c h).
  Proof. unfold BootstrapRepo.SetTokenHash. pres. apply pres_bootstrap_replace. Qed.
Lemma bootstrap_Consume_wf : preserves wf_db (BootstrapRepo.Consume c).
  Proof. unfold BootstrapRepo.Consume. pres. Qed.
Lemma feed_tokens_Create_wf t : preserves wf_db (FeedTokenRepo.Create c t).
  Proof. unfold FeedTokenRepo.Create. pres. Qed.
Lemma feed_tokens_Delete_wf i : preserves wf_db (FeedTokenRepo.Delete c i).
  Proof. unfold FeedTokenRepo.Delete. pres. Qed.
Lemma feed_tokens_Touch_wf i n : preserves wf_db (FeedTokenRepo.TouchLastUsed c i n).
  Proof. unfold FeedTokenRepo.TouchLastUsed. pres. Qed.
Lemma api_keys_Create_wf t : preserves wf_db (APIKeyRepo.Create c t).
  Proof. unfold APIKeyRepo.Create. pres. Qed.
Lemma api_keys_Delete_wf i : preserves wf_db (APIKeyRepo.Delete c i).
  Proof. unfold APIKeyRepo.Delete. pres. Qed.
Lemma api_keys_Touch_wf i n : preserves wf_db (APIKeyRepo.TouchLastUsed c i n).
  Proof. unfold APIKeyRepo.TouchLastUsed. pres. Qed.
Lemma feed_state_Bump_wf n : preserves wf_db (FeedStateRepo.Bump c n).
  Proof. apply pres_stmt. intros d []. by split. Qed.
Lemma credentials_Create_wf w : preserves wf_db (WebAuthnCredentialRepo.Create c w).
  Proof. unfold WebAuthnCredentialRepo.Create. pres. Qed.
Lemma credentials_Rename_wf i n : preserves wf_db (WebAuthnCredentialRepo.Rename c i n).
  Proof. unfold WebAuthnCredentialRepo.Rename. pres. Qed.
Lemma credentials_Delete_wf i : preserves wf_db (WebAuthnCredentialRepo.Delete c i).
  Proof. unfold WebAuthnCredentialRepo.Delete. pres. Qed.
Lemma credentials_DeleteAll_wf u : preserves wf_db (WebAuthnCredentialRepo.DeleteAllByUser c u).
  Proof. unfold WebAuthnCredentialRepo.DeleteAllByUser. pres. Qed.
Lemma credentials_Update_wf w : preserves wf_db (WebAuthnCredentialRepo.Update c w).
  Proof. unfold WebAuthnCredentialRepo.Update. pres. Qed.
Lemma audit_Append_wf e : preserves wf_db (AuditLogRepo.Append c e).
  Proof. unfold AuditLogRepo.Append. pres. Qed.
Lemma audit_Prune_wf o b : preserves wf_db (AuditLogRepo.Prune c o b).
  Proof. unfold AuditLogRepo.Prune. pres. Qed.
End TokensIntegrity.

#[export] Hint Resolve sessions_Create_wf sessions_Touch_wf sessions_Delete_wf sessions_DeleteByUser_wf
  sessions_Prune_wf nonces_Insert_wf nonces_Exists_wf nonces_Prune_wf codes_Create_wf codes_Consume_wf
  codes_Prune_wf recovery_Create_wf recovery_Consume_wf recovery_Prune_wf recovery_DeleteUnused_wf
  flows_Create_wf flows_TryPoll_wf flows_Bump_wf flows_Delete_wf flows_Prune_wf
  bootstrap_SetTokenHash_wf bootstrap_Consume_wf feed_tokens_Create_wf feed_tokens_Delete_wf
  feed_tokens_Touch_wf api_keys_Create_wf api_keys_Delete_wf api_keys_Touch_wf feed_state_Bump_wf
  credentials_Create_wf credentials_Rename_wf credentials_Delete_wf credentials_DeleteAll_wf
  credentials_Update_wf audit_Append_wf audit_Prune_wf : effects.
