(* ===== verification/StoreNotify.v ===== *)
(** * internal/store/notifications.go: endpoints and the delivery outbox

    [NotificationEndpointRepo] and [NotificationDeliveryRepo].  The two
    INSERT ... SELECT statements are one statement each, so the guard they
    carry (the endpoint is enabled, the source row is terminal) is decided by
    the same read that inserts. *)

From S2P Require Import Prelude Schema Integrity Effects.

Definition DeliveryPending : string := "pending".
Definition DeliveryDelivered : string := "delivered".
Definition DeliveryFailed : string := "failed".

(** [status IN ('failed', 'delivered')] *)
Definition deliveryTerminal (status : string) : bool :=
  str_eq status DeliveryFailed || str_eq status DeliveryDelivered.

Module NotificationEndpointRepo.
Definition Create (c : ctx) (e : NotificationEndpoint) : M unit :=
    map_err on_unique (exec_insert c (EndpointRow (ne_ID e) (ne_Label e) (ne_URL e) (ne_SecretSealed e)
      1 (ne_CreatedAt e) (ne_UpdatedAt e))).

Definition Get (c : ctx) (id : string) : M NotificationEndpoint :=
    get_one c (fun r => str_eq (re_id r) id) scanNotificationEndpoint.

Definition by_created (a b : endpoint_row) : bool :=
    (re_created_at a <? re_created_at b) ||
    ((re_created_at a =? re_created_at b) && String.leb (re_id a) (re_id b)).

Definition List (c : ctx) : M (list NotificationEndpoint) :=
    query c (fun d => scanNotificationEndpoint <$> order_by by_created (d_endpoints d)).

Definition ListEnabled (c : ctx) : M (list NotificationEndpoint) :=
    query c (fun d => scanNotificationEndpoint <$>
      order_by by_created (List.filter (fun r => re_enabled r =? 1) (d_endpoints d))).

Definition SetEnabled (c : ctx) (id : string) (enabled : bool) : M unit :=
    now ← now_unix;
    n ← exec_update c (fun r => str_eq (re_id r) id)
      (fun r => EndpointRow (re_id r) (re_label r) (re_url r) (re_secret_sealed r)
                  (boolToInt enabled) (re_created_at r) now);
    requireMatched n.

Definition Delete (c : ctx) (id : string) : M unit :=
    n ← exec_delete_cascade c (fun r => str_eq (re_id r) id) delete_endpoints;
    requireMatched n.
End NotificationEndpointRepo.

Module NotificationDeliveryRepo.
Definition Enqueue (c : ctx) (d : NotificationDelivery) : M unit :=
    now ← now_unix;
    map_err on_unique (exec_insert_auto c (fun id =>
      DeliveryRow id (nd_EndpointID d) (nd_EventType d) (nd_EventID d) (nd_Payload d)
        (nd_Attempts d) (nullIfZero (nd_NextAttemptAt d)) (nd_Status d)
        (nullIfEmpty (nd_LastFailure d)) now now));;
    mret tt.

Record DueDelivery := MkDueDelivery {
    dd_Delivery : NotificationDelivery; dd_EndpointURL : string; dd_SecretSealed : string }.

Definition due_row (before : Z) (r : delivery_row) (e : endpoint_row) : bool :=
    str_eq (re_id e) (rv_endpoint_id r) &&
    match rv_next_attempt_at r with Some t => t <=? before | None => false end &&
    (re_enabled e =? 1).

  (** The join of deliveries and endpoints, ORDER BY d.next_attempt_at. *)
Definition due_rows (before limit : Z) (d : DB) : list DueDelivery :=
    (fun p => MkDueDelivery (scanDelivery p.1) (re_url p.2) (re_secret_sealed p.2)) <$>
    limit_rows limit (order_by
      (fun a b => default 0 (rv_next_attempt_at a.1) <=? default 0 (rv_next_attempt_at b.1))
      (r ← d_deliveries d; e ← d_endpoints d; if due_row before r e then [(r, e)] else [])).

Definition DueForAttempt (c : ctx) (before limit : Z) : M (list DueDelivery) :=
    query c (due_rows before limit).

Definition UpdateAfterAttempt (c : ctx) (id attempts : Z) (status : string) (nextAttemptAt : Z)
      (lastFailure : string) : M unit :=
    now ← now_unix;
    exec_update c (fun r => rv_id r =? id)
      (fun r => DeliveryRow (rv_id r) (rv_endpoint_id r) (rv_event_type r) (rv_event_id r) (rv_payload r)
        attempts (nullIfZero nextAttemptAt) status (nullIfEmpty lastFailure) (rv_created_at r) now);;
    mret tt.

  (** INSERT ... SELECT of at most one row: the rows inserted, with their
      constraints checked; [sel] is what the SELECT yields. *)
Definition exec_insert_select (c : ctx) (sel : DB -> option (Z -> delivery_row)) : M nat :=
    stmt c (fun d => match sel d with
      | None => (Ok 0%nat, d)
      | Some mk =>
          let n := d_deliveries_seq d in
          match insert_violation (mk (n + 1)) d with
          | None => (Ok 1%nat, setd_deliveries_seq (n + 1) (setd_deliveries (d_deliveries d ++ [mk (n + 1)]) d))
          | Some e => (Err e, d)
          end
      end).

Definition user_test_row (endpointID payload : string) (now : Z) (d : DB) : option (Z -> delivery_row) :=
    if existsb (fun e => str_eq (re_id e) endpointID && (re_enabled e =? 1)) (d_endpoints d) then
      Some (fun id => DeliveryRow id endpointID "endpoint.test" 0 payload 0 (Some now) DeliveryPending None now now)
    else None.

Definition InsertUserTest (c : ctx) (endpointID payload : string) (now : Z) : M bool :=
    n ← exec_insert_select c (user_test_row endpointID payload now);
    n ← rows_affected n;
    mret (negb (Nat.eqb n 0)).

  (** The source row of a redelivery: delivery ids are unique, so the join
      yields at most one row. *)
Definition redelivery_row (deliveryID now : Z) (d : DB) : option (Z -> delivery_row) :=
    match List.find (fun src => (rv_id src =? deliveryID) && deliveryTerminal (rv_status src) &&
        existsb (fun e => str_eq (re_id e) (rv_endpoint_id src) && (re_enabled e =? 1)) (d_endpoints d))
      (d_deliveries d) with
    | Some src => Some (fun id => DeliveryRow id (rv_endpoint_id src) (rv_event_type src) (rv_event_id src)
                                    (rv_payload src) 0 (Some now) DeliveryPending None now now)
    | None => None
    end.

Definition InsertRedelivery (c : ctx) (deliveryID now : Z) : M bool :=
    n ← exec_insert_select c (redelivery_row deliveryID now);
    n ← rows_affected n;
    mret (negb (Nat.eqb n 0)).

Definition ListByEndpoint (c : ctx) (endpointID : string) (limit : Z) : M (list NotificationDelivery) :=
    query c (fun d => scanDelivery <$> limit_rows limit (order_by (fun a b => rv_id b <=? rv_id a)
      (List.filter (fun r => str_eq (rv_endpoint_id r) endpointID) (d_deliveries d)))).

Definition prunable (olderThan : Z) (r : delivery_row) : bool :=
    (rv_created_at r <? olderThan) && deliveryTerminal (rv_status r).

Definition prune_ids (olderThan batch : Z) (d : DB) : list Z :=
    rv_id <$> limit_rows batch (List.filter (prunable olderThan) (d_deliveries d)).

Definition Prune (c : ctx) (olderThan batch : Z) : M nat :=
    n ← exec_delete_where c (fun d r => bool_decide (rv_id r ∈ prune_ids olderThan batch d));
    rows_affected n.
End NotificationDeliveryRepo.

(** ** Integrity *)

Lemma pres_insert_select c sel :
  (forall d mk n, sel d = Some mk -> rv_id (mk n) = n) ->
  preserves wf_db (NotificationDeliveryRepo.exec_insert_select c sel).
Proof.
  intros Hid. apply pres_stmt. intros d Hd. destruct (sel d) as [mk|] eqn:Hsel; [|done].
  cbv zeta. destruct (insert_violation (mk (d_deliveries_seq d + 1)) d) as [e|] eqn:Hi; [exact Hd|].
  apply (insert_row_ok (H:=deliveries_table)) in Hi as [Hu Hok].
  apply (wf_db_insert_auto (H:=deliveries_table)); [done| |done|done|done]. simpl. by eapply Hid.
Qed.

Section NotifyIntegrity.
Context (c : ctx).
  Import NotificationDeliveryRepo.

Lemma endpoints_Create_wf e : preserves wf_db (NotificationEndpointRepo.Create c e).
  Proof. unfold NotificationEndpointRepo.Create. pres. Qed.
Lemma endpoints_SetEnabled_wf i b : preserves wf_db (NotificationEndpointRepo.SetEnabled c i b).
  Proof. unfold NotificationEndpointRepo.SetEnabled. pres. Qed.
Lemma endpoints_Delete_wf i : preserves wf_db (NotificationEndpointRepo.Delete c i).
  Proof. unfold NotificationEndpointRepo.Delete. pres. Qed.
Lemma deliveries_Enqueue_wf d : preserves wf_db (Enqueue c d).
  Proof. unfold Enqueue. pres. Qed.
Lemma deliveries_Update_wf i a s n f : preserves wf_db (UpdateAfterAttempt c i a s n f).
  Proof. unfold UpdateAfterAttempt. pres. Qed.
Lemma deliveries_Test_wf e p n : preserves wf_db (InsertUserTest c e p n).
  Proof.
    unfold InsertUserTest. pres. apply pres_insert_select. unfold user_test_row.
    intros d mk k Hs. case_match; by simplify_eq.
  Qed.
Lemma deliveries_Redelivery_wf i n : preserves wf_db (InsertRedelivery c i n).
  Proof.
    unfold InsertRedelivery. pres. apply pres_insert_select. unfold redelivery_row.
    intros d mk k Hs. case_match; by simplify_eq.
  Qed.
Lemma deliveries_Prune_wf o b : preserves wf_db (Prune c o b).
  Proof. unfold Prune. pres. Qed.
End NotifyIntegrity.

#[export] Hint Resolve endpoints_Create_wf endpoints_SetEnabled_wf endpoints_Delete_wf
  deliveries_Enqueue_wf deliveries_Update_wf deliveries_Test_wf deliveries_Redelivery_wf
  deliveries_Prune_wf : effects.
