(* ===== verification/Auth.v ===== *)
(** * internal/shared and internal/auth: signing, sealing, sessions, the verifier

    The wire contract of shared/hmac.go, the sealed secrets of auth/secret.go,
    the token hashes of auth/token.go, the sessions of auth/session.go and the
    request verifier of auth/hmac.go.  The primitives of crypto/* are the class
    [Crypto]; what the proofs need of them is [CryptoLaws], and [toy_crypto] is
    an instance that satisfies the laws, for concrete runs. *)

From S2P Require Import Prelude GoLib Schema Integrity Effects Demo StoreUsers StoreDevices StoreTokens.
From Stdlib Require Import Ascii.

(** ** The primitives *)

Class Crypto := {
  sha256 : string -> string;
  hmac_sha256 : string -> string -> string;                   (* secret, message *)
  gcm_seal : string -> string -> string -> string -> string;  (* key, nonce, plaintext, aad *)
  gcm_open : string -> string -> string -> string -> option string }.

Class CryptoLaws `{Crypto} := {
  (** decryption inverts encryption under the same key, nonce and data *)
  gcm_open_seal : forall k n p a, gcm_open k n (gcm_seal k n p a) a = Some p }.

(** An instance for concrete runs: transparent, not secure. *)
Definition toy_crypto : Crypto := {|
  sha256 := fun s => s;
  hmac_sha256 := fun k m => (k ++ ":" ++ m)%string;
  gcm_seal := fun k n p a => p;
  gcm_open := fun k n ct a => Some ct |}.

Lemma toy_crypto_laws : @CryptoLaws toy_crypto.
Proof. by split. Qed.

Section Auth.
Context `{Crypto}.

  (** ** shared/hmac.go *)

Definition lf : string := String "010"%char EmptyString.

Definition BodyHashHex (body : string) : string := hex_encode (sha256 body).

Definition CanonicalRequest (method path timestamp nonce bodyHashHex : string) : string :=
    join lf [method; path; timestamp; nonce; bodyHashHex].

Definition Sign (secret canonical : string) : string := hex_encode (hmac_sha256 secret canonical).

Definition CanonicalNotification (timestamp nonce bodyHashHex : string) : string :=
    join lf ["diyddns-notify-v1"%string; timestamp; nonce; bodyHashHex].

  (** ** secret.go *)

Definition gcm_nonce_size : nat := 12.

Definition GenerateSecret : M string := rand_bytes 32.

Definition newGCM (key : string) : M unit :=
    if Nat.eqb (String.length key) 32 then mret tt
    else fail (ErrOther "auth: AEAD key must be 32 bytes").

  (** [gcm.Seal(nonce, nonce, secret, aad)] appends to the nonce. *)
Definition SealWithAAD (key plaintext aad : string) : M string :=
    newGCM key;;
    nonce ← rand_bytes gcm_nonce_size;
    mret (b64_std_encode (nonce ++ gcm_seal key nonce plaintext aad)%string).

Definition SealSecret (key secret : string) : M string :=
    newGCM key;;
    nonce ← rand_bytes gcm_nonce_size;
    mret (b64_std_encode (nonce ++ gcm_seal key nonce secret EmptyString)%string).

Definition OpenWithAAD (key sealed aad : string) : M string :=
    newGCM key;;
    match b64_std_decode sealed with
    | None => fail (ErrOther "auth.OpenWithAAD: decode")
    | Some raw =>
        if Nat.ltb (String.length raw) gcm_nonce_size then fail (ErrOther "auth.OpenWithAAD: ciphertext too short")
        else
          let nonce := String.substring 0 gcm_nonce_size raw in
          let ct := String.substring gcm_nonce_size (String.length raw - gcm_nonce_size) raw in
          match gcm_open key nonce ct aad with
          | Some pt => mret pt
          | None => fail (ErrOther "auth.OpenWithAAD")
          end
    end.

Definition OpenSecret (key sealed : string) : M string :=
    newGCM key;;
    match b64_std_decode sealed with
    | None => fail (ErrOther "auth.OpenSecret: decode")
    | Some raw =>
        if Nat.ltb (String.length raw) gcm_nonce_size then fail (ErrOther "auth.OpenSecret: ciphertext too short")
        else
          let nonce := String.substring 0 gcm_nonce_size raw in
          let ct := String.substring gcm_nonce_size (String.length raw - gcm_nonce_size) raw in
          match gcm_open key nonce ct EmptyString with
          | Some pt => mret pt
          | None => fail (ErrOther "auth.OpenSecret")
          end
    end.

  (** ** token.go and csrf.go *)

Definition HashToken (token : string) : string := b64_std_encode (sha256 token).

  (** A constant-time comparison compares. *)
Definition VerifyToken (hash token : string) : bool := str_eq (HashToken token) hash.

Definition ValidCSRF (sess : Session) (token : string) : bool :=
    negb (str_eq (sess_CSRFToken sess) EmptyString) && str_eq token (sess_CSRFToken sess).

  (** ** session.go *)

Definition RandToken (n : nat) : M string :=
    b ← rand_bytes n; mret (b64_rawurl_encode b).

Definition GenerateCSRFToken : M string := RandToken 32.

  (** [ttl] and [slide] are the durations in whole seconds. *)
Record SessionManager := MkSessionManager { sm_ttl : Z; sm_slide : Z }.

Definition ctx_err (c : ctx) : M bool := fun w => (Ok (c (w_n w)), w).

  (** hmac.go, [storeRejection] *)
Definition storeRejection (c : ctx) (e : err) (missing cancelled broken : string) : M err :=
    if bool_decide (e = ErrNotFound) then mret (ErrUnauthorized missing)
    else
      b ← ctx_err c;
      mret (ErrUnauthorized (if b : bool then cancelled else broken)).

  (** A lookup whose failure is a rejection. *)
Definition lookup_or_reject {A} (c : ctx) (m : M A) (missing cancelled broken : string) : M A :=
    r ← catch m;
    match r with
    | inl a => mret a
    | inr e => e' ← storeRejection c e missing cancelled broken; fail e'
    end.

Definition reject {A} (reason : string) : M A := fail (ErrUnauthorized reason).

Definition SessionCreate (c : ctx) (m : SessionManager) (userID ip ua : string) : M Session :=
    id ← RandToken 32;
    csrf ← GenerateCSRFToken;
    now ← now_unix;
    SessionRepo.Create c (MkSession id userID csrf ip ua now now (now + sm_ttl m)).

Definition Authenticate (c : ctx) (m : SessionManager) (sessionID : string) : M (User * Session) :=
    sess ← lookup_or_reject c (SessionRepo.GetByID c sessionID)
             "unknown_session" "session_lookup_cancelled" "session_store_error";
    now ← now_unix;
    if sess_ExpiresAt sess <=? now then reject "session_expired"
    else
      usr ← lookup_or_reject c (UserRepo.GetByID c (sess_UserID sess))
              "unknown_user" "user_lookup_cancelled" "user_store_error";
      if usr_Disabled usr then reject "user_disabled"
      else if sm_slide m <=? now - sess_LastSeenAt sess then
        let newExp := now + sm_ttl m in
        t ← attempt (SessionRepo.Touch c (sess_ID sess) newExp);
        mret (usr, match t with
          | Some _ => MkSession (sess_ID sess) (sess_UserID sess) (sess_CSRFToken sess) (sess_IP sess)
                        (sess_UserAgent sess) (sess_CreatedAt sess) (sess_LastSeenAt sess) newExp
          | None => sess
          end)
      else mret (usr, sess).

  (** [cookie] is the named cookie of the request, if it carries one. *)
Definition AuthenticateRequest (c : ctx) (m : SessionManager) (cookie : option string) : M (User * Session) :=
    match cookie with
    | None => reject "no_cookie"
    | Some v => if str_eq v EmptyString then reject "no_cookie" else Authenticate c m v
    end.

Definition Destroy (c : ctx) (sessionID : string) : M unit :=
    r ← catch (SessionRepo.Delete c sessionID);
    match r with
    | inl _ => mret tt
    | inr e => if bool_decide (e = ErrNotFound) then mret tt else fail e
    end.

  (** ** hmac.go *)

Record RequestParts := MkRequestParts {
    rp_Device : string; rp_Timestamp : string; rp_Nonce : string; rp_Signature : string;
    rp_Method : string; rp_Path : string; rp_Body : string }.

  (** The verifier's configuration; its cache is [m_secrets]. *)
Record Verifier := MkVerifier { v_key : string; v_skew : Z; v_nonceTTL : Z }.

Definition set_secrets (s : gmap string string) (m : Mem) : Mem :=
    MkMem s (m_feed_touch m) (m_key_touch m) (m_challenges m) (m_out m).

Definition Invalidate (deviceID : string) : M unit :=
    m ← get_mem; put_mem (set_secrets (delete deviceID (m_secrets m)) m).

Definition secretFor (v : Verifier) (dev : Device) : M string :=
    m ← get_mem;
    match m_secrets m !! dev_ID dev with
    | Some s => mret s
    | None =>
        secret ← OpenSecret (v_key v) (dev_SecretHash dev);
        m ← get_mem;
        put_mem (set_secrets (<[dev_ID dev := secret]> (m_secrets m)) m);;
        mret secret
    end.

  (** The signing input of a request. *)
Definition canonical_of (p : RequestParts) : string :=
    CanonicalRequest (rp_Method p) (rp_Path p) (rp_Timestamp p) (rp_Nonce p) (BodyHashHex (rp_Body p)).

  (** [now - ts] in int64. *)
Definition skewed (skew now ts : Z) : bool :=
    (skew <? i64 (now - ts)) || (i64 (now - ts) <? - skew).

  (** [Verify] from the device row it has read: lines 109-148. *)
Definition verify_device (c : ctx) (v : Verifier) (p : RequestParts) (now : Z) (dev : Device) : M string :=
    if dev_Disabled dev then reject "device_disabled"
    else
      usr ← lookup_or_reject c (UserRepo.GetByID c (dev_UserID dev))
              "unknown_user" "user_lookup_cancelled" "user_store_error";
      if usr_Disabled usr then reject "user_disabled"
      else match parse_int (rp_Timestamp p) with
      | None => reject "bad_timestamp"
      | Some ts =>
          if skewed (v_skew v) now ts then reject "clock_skew"
          else
            s ← attempt (secretFor v dev);
            match s with
            | None => reject "secret_unavailable"
            | Some secret =>
                if negb (str_eq (Sign secret (canonical_of p)) (rp_Signature p)) then reject "bad_signature"
                else
                  r ← catch (ReplayNonceRepo.Insert c (rp_Signature p) (i64 (ts + v_nonceTTL v)));
                  match r with
                  | inl _ => mret (dev_ID dev)
                  | inr e => if bool_decide (e = ErrConflict) then reject "replay" else reject "nonce_store_error"
                  end
            end
      end.

Definition Verify (c : ctx) (v : Verifier) (p : RequestParts) (now : Z) : M string :=
    dev ← lookup_or_reject c (DeviceRepo.GetByID c (rp_Device p))
            "unknown_device" "device_lookup_cancelled" "device_store_error";
    verify_device c v p now dev.

End Auth.

(** ** Lemmas on the pieces *)

Lemma substring_app_l s t : String.substring 0 (String.length s) (s ++ t) = s.
Proof. induction s as [|a s IH]; simpl; [by destruct t|]. by rewrite IH. Qed.

Lemma substring_all s : String.substring 0 (String.length s) s = s.
Proof. induction s as [|a s IH]; simpl; [done|]. by rewrite IH. Qed.

Lemma substring_app_r s t :
  String.substring (String.length s) (String.length (s ++ t) - String.length s) (s ++ t) = t.
Proof.
  induction s as [|a s IH]; simpl; [|done]. rewrite Nat.sub_0_r. apply substring_all.
Qed.

Section AuthLemmas.
Context `{Crypto}.

Lemma wp_lookup {R A} `{TableDef R} c (p : R -> bool) (scan : R -> A) x y z
      (Q : result A -> World -> Prop) w :
    (forall reason, Q (Err (ErrUnauthorized reason)) (bump w)) ->
    (forall r, List.find p (rows (w_db w)) = Some r -> Q (Ok (scan r)) (bump w)) ->
    wp (lookup_or_reject c (get_one c p scan) x y z) Q w.
  Proof.
    intros H1 H2. unfold lookup_or_reject, storeRejection. do 2 wp_step. apply wp_get_one.
    - wp_step. case_bool_decide; [done|]. wp_step. apply wp_intro.
      intros r w' [= <- <-]. wp_step. by wp_step.
    - intros _. wp_step. rewrite bool_decide_eq_true_2 by done. wp_step. by wp_step.
    - intros r Hr. wp_step. auto.
  Qed.

  (** What a sealed text carries under a 32-byte key: the plaintext that
      AES-GCM opens to, behind the 12-byte nonce, with no associated data. *)
Definition unseals (key sealed pt : string) : Prop :=
    String.length key = 32%nat /\ exists nonce ct, b64_std_decode sealed = Some (nonce ++ ct)%string /\
      String.length nonce = 12%nat /\ gcm_open key nonce ct EmptyString = Some pt.

  (** The secret of [dev] in [w]: the one the cache holds for the device, or,
      when it holds none, the one sealed in the row of the device. *)
Definition secret_in_use (v : Verifier) (dev : Device) (w : World) (secret : string) : Prop :=
    match m_secrets (w_mem w) !! dev_ID dev with
    | Some s => secret = s
    | None => unseals (v_key v) (dev_SecretHash dev) secret
    end.

  (** What using a secret does to the cache: nothing, or the device, which had
      none, gets the secret sealed in its row. *)
Definition cache_step (v : Verifier) (dev : Device) (w w' : World) : Prop :=
    w_mem w' = w_mem w \/
    m_secrets (w_mem w) !! dev_ID dev = None /\ exists s, unseals (v_key v) (dev_SecretHash dev) s /\
      w_mem w' = set_secrets (<[dev_ID dev := s]> (m_secrets (w_mem w))) (w_mem w).

Lemma substring_nonce raw : (12 <= String.length raw)%nat ->
    raw = (String.substring 0 12 raw ++ String.substring 12 (String.length raw - 12) raw)%string /\
    String.length (String.substring 0 12 raw) = 12%nat.
  Proof.
    intros Hl. do 12 (destruct raw as [|? raw]; [simpl in Hl; lia|]; cbn [String.length] in Hl).
    cbn [String.substring String.length]. split; [|by destruct raw].
    rewrite !string_app_cons. do 12 f_equal.
    replace (S _ - 12)%nat with (String.length raw) by lia. rewrite substring_all. by destruct raw.
  Qed.

  (** [OpenSecret] opens what the text carries, and neither panics nor touches
      anything. *)
Lemma OpenSecret_unseals key sealed w pt :
    unseals key sealed pt -> OpenSecret key sealed w = (Ok pt, w).
  Proof.
    intros (Hk & nonce & ct & Hd & Hn & Ho). unfold OpenSecret, newGCM. rewrite Hk. simpl.
    unfold mbind, M_bind. simpl. rewrite Hd. change 12%nat with gcm_nonce_size in Hn.
    assert (Hlt : Nat.ltb (String.length (nonce ++ ct)) gcm_nonce_size = false).
    { rewrite string_length_app, Hn. apply Nat.ltb_ge. lia. }
    rewrite Hlt, <- Hn, substring_app_l, substring_app_r. by rewrite Ho.
  Qed.

Lemma OpenSecret_cases key sealed w :
    (exists pt, unseals key sealed pt /\ OpenSecret key sealed w = (Ok pt, w)) \/
    (exists e, OpenSecret key sealed w = (Err e, w)).
  Proof.
    unfold OpenSecret, newGCM, mbind, M_bind, fail, mret, M_ret.
    destruct (Nat.eqb _ 32) eqn:Hk; [|right; by eexists].
    destruct (b64_std_decode sealed) as [raw|] eqn:Hd; [|right; by eexists].
    destruct (Nat.ltb _ _) eqn:Hl; [right; by eexists|]. change gcm_nonce_size with 12%nat in *.
    apply Nat.ltb_ge in Hl. destruct (substring_nonce raw Hl) as [Hraw Hn].
    destruct (gcm_open _ _ _ _) as [pt|] eqn:Ho; [left|right; by eexists].
    exists pt. split; [|done]. split; [by apply Nat.eqb_eq|]. do 2 eexists. rewrite <- Hraw.
    split; [exact Hd|]. by split.
  Qed.

  (** The secret that is used is the one of the device, and it is cached. *)
Lemma wp_secretFor v dev (Q : result (option string) -> World -> Prop) w :
    Q (Ok None) w ->
    (forall m s, secret_in_use v dev w s -> cache_step v dev w (set_mem m w) ->
       m_secrets m !! dev_ID dev = Some s -> Q (Ok (Some s)) (set_mem m w)) ->
    wp (attempt (secretFor v dev)) Q w.
  Proof.
    intros H1 H2. wp_step. unfold secretFor, get_mem, put_mem. wp_step. apply wp_intro. intros r w' [= <- <-].
    unfold secret_in_use, cache_step in H2. destruct (m_secrets (w_mem w) !! dev_ID dev) as [s|] eqn:Hs.
    - apply wp_ret. replace w with (set_mem (w_mem w) w) by (by destruct w). apply H2; [done|by left|done].
    - wp_step. apply wp_intro. intros r w' Ho.
      destruct (OpenSecret_cases (v_key v) (dev_SecretHash dev) w) as [(pt & Hu & Hr)|(e & Hr)];
        rewrite Hr in Ho; injection Ho as <- <-; [|done].
      wp_step. apply wp_intro. intros r w' [= <- <-]. wp_step. apply wp_intro. intros r w' [= <- <-]. apply wp_ret.
      apply H2; [done|right; split; [done|by exists pt]|apply lookup_insert_eq].
  Qed.

Lemma secret_in_use_mem v dev w w' s :
    w_mem w = w_mem w' -> secret_in_use v dev w s -> secret_in_use v dev w' s.
  Proof. unfold secret_in_use. by intros ->. Qed.

  (** The skew test on 64-bit values: the subtraction may wrap, and then the
      wrapped difference is far outside any skew. *)
Lemma skewed_false skew now ts :
    0 <= skew < 2 ^ 62 -> in_int64 ts -> 0 <= now < 2 ^ 62 ->
    skewed skew now ts = false <-> - skew <= now - ts <= skew.
  Proof.
    unfold skewed, in_int64, min_int64, max_int64. intros Hk Ht Hn.
    assert (Hw : i64 (now - ts) = now - ts \/ (now - ts > max_int64 /\ i64 (now - ts) = now - ts - 2 ^ 64)).
    { destruct (Z_gt_dec (now - ts) max_int64) as [Hg|Hg].
      - right. split; [done|]. apply i64_high. unfold min_int64, max_int64 in *. lia.
      - left. apply i64_id. unfold in_int64, min_int64, max_int64 in *. lia. }
    rewrite orb_false_iff, !Z.ltb_ge. unfold max_int64 in Hw. destruct Hw as [-> | [Hg ->]]; lia.
  Qed.

Lemma parse_int_range s z : parse_int s = Some z -> in_int64 z.
  Proof.
    unfold parse_int, in_int64. destruct s as [|a s]; [done|].
    intros Hp. repeat case_match; simplify_eq; rewrite ?andb_true_iff, ?Z.leb_le in *;
      try lia; match goal with Hx : Some _ = Some _ |- _ => injection Hx as <- end; lia.
  Qed.

  (** Inserting a signature that is stored is a conflict. *)
Lemma nonce_conflict (r : nonce_row) sig e d :
    r ∈ d_nonces d -> rn_signature r = sig -> insert_violation (NonceRow sig e) d = Some ErrUnique.
  Proof.
    intros Hin Hs. unfold insert_violation. simpl.
    destruct (uniq_ok _) eqn:Hu; [|done]. exfalso.
    rewrite uniq_ok_iff in Hu. specialize (Hu _ (list_elem_of_here _ _)).
    rewrite omap_app in Hu. simpl in Hu. apply NoDup_app in Hu as (_ & Hd & _).
    apply (Hd (KStr [sig])); [|by left]. apply list_elem_of_omap. exists r. by rewrite Hs.
  Qed.

Lemma nonce_insert_ok sig e d :
    insert_violation (NonceRow sig e) d = None -> forall r, r ∈ d_nonces d -> rn_signature r <> sig.
  Proof. intros Hi r Hin Hs. by rewrite (nonce_conflict r) in Hi. Qed.

  (** Every outcome of [verify_device]. *)
Definition accepts (v : Verifier) (p : RequestParts) (now : Z) (dev : Device) (w w' : World) : Prop :=
    dev_Disabled dev = false /\
    (exists u, u ∈ d_users (w_db w) /\ ru_id u = dev_UserID dev /\ ru_disabled u = 0) /\
    exists ts secret, parse_int (rp_Timestamp p) = Some ts /\
      skewed (v_skew v) now ts = false /\
      secret_in_use v dev w secret /\
      m_secrets (w_mem w') !! dev_ID dev = Some secret /\
      Sign secret (canonical_of p) = rp_Signature p /\
      (forall r, r ∈ d_nonces (w_db w) -> rn_signature r <> rp_Signature p) /\
      w_db w' = setd_nonces (d_nonces (w_db w) ++ [NonceRow (rp_Signature p) (i64 (ts + v_nonceTTL v))]) (w_db w).

Lemma cache_step_mem v dev w w1 w2 w3 :
    w_mem w = w_mem w1 -> w_mem w2 = w_mem w3 -> cache_step v dev w w2 -> cache_step v dev w1 w3.
  Proof. unfold cache_step. by intros -> ->. Qed.

Lemma cache_step_id v dev w w' : w_mem w' = w_mem w -> cache_step v dev w w'.
  Proof. by left. Qed.

Lemma verify_device_spec c v p now dev w :
    wp (verify_device c v p now dev) (fun r w' => cache_step v dev w w' /\ match r with
      | Ok id => id = dev_ID dev /\ accepts v p now dev w w'
      | Err e => (exists reason, e = ErrUnauthorized reason) /\ w_db w' = w_db w
      | Panic => False
      end) w.
  Proof.
    unfold verify_device, reject. destruct (dev_Disabled dev) eqn:Hdis; [wp_step; eauto using cache_step_id|].
    wp_step. unfold UserRepo.GetByID. apply wp_lookup; [eauto using cache_step_id|]. intros u [Hu Hid]%find_some_iff.
    destruct (usr_Disabled (scanUser u)) eqn:Hud; [wp_step; eauto using cache_step_id|].
    destruct (parse_int (rp_Timestamp p)) as [ts|] eqn:Hts; [|wp_step; eauto using cache_step_id].
    destruct (skewed _ _ _) eqn:Hsk; [wp_step; eauto using cache_step_id|].
    wp_step. apply wp_secretFor; [wp_step; eauto using cache_step_id|]. intros m s Hs Hstep Hm.
    apply (cache_step_mem _ _ _ w _ (set_mem m w)) in Hstep; [|done|done].
    assert (Hc : forall w', w_mem w' = m -> cache_step v dev w w')
      by (intros; by eapply (cache_step_mem _ _ w w (set_mem m w))).
    destruct (str_eq (Sign s _) _) eqn:Hsig; simpl; [|wp_step; eauto].
    do 2 wp_step. unfold ReplayNonceRepo.Insert. wp_step. wp_step.
    - rewrite bool_decide_eq_false_2 by done. wp_step; eauto.
    - case_bool_decide; wp_step; eauto.
    - wp_step. split; [by apply Hc|]. split; [done|]. split; [done|]. split.
      { exists u. rewrite str_eq_true in Hid. split; [done|]. split; [done|].
        simpl in Hud. unfold intToBool in Hud. rewrite negb_false_iff in Hud. lia. }
      exists ts, s. rewrite str_eq_true in Hsig.
      apply (secret_in_use_mem _ _ _ w) in Hs; [|done].
      pose proof (nonce_insert_ok _ _ _ H0) as Hfresh. by repeat split.
  Qed.

  (** Every outcome of [Verify]: acceptance means a stored enabled device of an
      enabled user, a timestamp within the skew, a signature by the device's
      secret that was never stored before, and exactly that signature stored;
      anything else is a rejection that leaves the database as it was.  The
      cache changes at most by the named device's own secret. *)
Definition verified (v : Verifier) (p : RequestParts) (now : Z) (w w' : World) : Prop :=
    exists r, r ∈ d_devices (w_db w) /\ rd_id r = rp_Device p /\ accepts v p now (scanDevice r) w w'.

Definition cached_row (v : Verifier) (p : RequestParts) (w w' : World) : Prop :=
    w_mem w' = w_mem w \/ exists r, r ∈ d_devices (w_db w) /\ rd_id r = rp_Device p /\ cache_step v (scanDevice r) w w'.

Lemma Verify_spec c v p now w :
    wp (Verify c v p now) (fun r w' => cached_row v p w w' /\ match r with
      | Ok id => id = rp_Device p /\ verified v p now w w'
      | Err e => (exists reason, e = ErrUnauthorized reason) /\ w_db w' = w_db w
      | Panic => False
      end) w.
  Proof.
    unfold Verify, DeviceRepo.GetByID. wp_step. apply wp_lookup.
    { intros reason. split; [by left|eauto]. }
    intros r [Hr Hid]%find_some_iff. rewrite str_eq_true in Hid.
    eapply wp_mono; [apply verify_device_spec|]. intros res w' [Hc Hres]. split.
    { right. exists r. split; [done|]. split; [done|]. by eapply cache_step_mem; [..|exact Hc]. }
    destruct res as [id|e|]; [|done|done].
    destruct Hres as [-> (H1 & H2 & ts & s & H3 & H4 & H5 & H6)]. split; [done|]. exists r. split; [done|]. split; [done|].
    split; [done|]. split; [done|]. exists ts, s.
    apply (secret_in_use_mem _ _ _ w) in H5; [|done]. by repeat split; try apply H6.
  Qed.

Lemma Verify_ok c v p now w id w' :
    Verify c v p now w = (Ok id, w') -> id = rp_Device p /\ verified v p now w w'.
  Proof. intros Hv. by apply (wp_elim _ _ _ _ _ (Verify_spec c v p now w)) in Hv as [_ Hv]. Qed.

  (** ** The life of the nonce table

      Time passes; requests are verified, the pruner deletes expired nonces,
      and every other operation of the server leaves the table alone. *)
Inductive nonce_step (v : Verifier) : Z * World -> Z * World -> Prop :=
    | step_verify c p t now w : t <= now ->
        nonce_step v (t, w) (now, (Verify c v p now w).2)
    | step_prune c t now w : t <= now ->
        nonce_step v (t, w) (now, (ReplayNonceRepo.PruneExpired c now w).2)
    | step_other t now w w' : t <= now -> d_nonces (w_db w') = d_nonces (w_db w) ->
        nonce_step v (t, w) (now, w').

Lemma Verify_keeps_nonces c v p now w r :
    r ∈ d_nonces (w_db w) -> r ∈ d_nonces (w_db (Verify c v p now w).2).
  Proof.
    intros Hr. pose proof (Verify_spec c v p now w) as Hs. unfold wp in Hs.
    destruct (Verify c v p now w) as [[id|e|] w']; simpl in *; [|by destruct Hs as (_ & _ & ->)|by destruct Hs].
    destruct Hs as (_ & _ & x & _ & _ & _ & _ & ts & s & _ & _ & _ & _ & _ & _ & ->).
    apply elem_of_app. by left.
  Qed.

Lemma prune_keeps_live c now w r :
    r ∈ d_nonces (w_db w) -> now <= rn_expires_at r ->
    r ∈ d_nonces (w_db (ReplayNonceRepo.PruneExpired c now w).2).
  Proof.
    intros Hr Hn.
    assert (Hd : r ∈ rows_delete (fun x => rn_expires_at x <? now) (d_nonces (w_db w))).
    { apply elem_of_rows_delete. split; [done|]. by apply Z.ltb_ge. }
    change (wp (ReplayNonceRepo.PruneExpired c now) (fun _ w' => r ∈ d_nonces (w_db w')) w).
    unfold ReplayNonceRepo.PruneExpired. repeat wp_step; done.
  Qed.

Lemma nonce_survives v s1 s2 r :
    rtc (nonce_step v) s1 s2 -> r ∈ d_nonces (w_db s1.2) ->
    s1.1 <= s2.1 /\ (s2.1 <= rn_expires_at r -> r ∈ d_nonces (w_db s2.2)).
  Proof.
    intros Hrun. revert r. induction Hrun as [s|s1 s2 s3 Hst Hrun IH]; intros r Hr.
    - by split; [lia|].
    - assert (Hm : s1.1 <= s2.1) by (by destruct Hst). split.
      + destruct (decide (s2.1 <= rn_expires_at r)) as [Hle|Hgt].
        * enough (r ∈ d_nonces (w_db s2.2)) by (destruct (IH r); [done|lia]).
          destruct Hst; simpl in *; [by apply Verify_keeps_nonces|by apply prune_keeps_live|congruence].
        * clear -Hm Hrun. induction Hrun as [|a b c0 Hs _ IH]; [done|].
          apply IH. destruct Hs; simpl in *; lia.
      + intros Hle. assert (s2.1 <= rn_expires_at r).
        { enough (s2.1 <= s3.1) by lia. clear -Hrun. induction Hrun as [|a b c0 Hs _ IH]; [done|].
          destruct Hs; simpl in *; lia. }
        destruct (IH r) as [_ Hin]; [|by apply Hin].
        destruct Hst; simpl in *; [by apply Verify_keeps_nonces|by apply prune_keeps_live|congruence].
  Qed.
End AuthLemmas.

(** ** Theorems *)

Section AuthTheorems.
Context `{Crypto}.

  (** The cache tells the truth: every secret it holds for a stored device is
      the one sealed in that device's row. *)
Definition true_cache (v : Verifier) (w : World) : Prop :=
    forall dev s, dev ∈ d_devices (w_db w) -> m_secrets (w_mem w) !! rd_id dev = Some s ->
      unseals (v_key v) (rd_secret_hash dev) s.

  (** What an outcome of [Verify] may be. *)
Definition verify_outcome (v : Verifier) (p : RequestParts) (now : Z) (w : World)
      (r : result string) (w' : World) : Prop :=
    match r with
    | Ok id => id = rp_Device p /\
      exists dev u ts secret,
        dev ∈ d_devices (w_db w) /\ rd_id dev = id /\ rd_disabled dev = 0 /\
        u ∈ d_users (w_db w) /\ ru_id u = rd_user_id dev /\ ru_disabled u = 0 /\
        parse_int (rp_Timestamp p) = Some ts /\ - v_skew v <= now - ts <= v_skew v /\
        rp_Signature p = Sign secret (canonical_of p) /\
        (m_secrets (w_mem w) !! id = Some secret \/
         m_secrets (w_mem w) !! id = None /\ unseals (v_key v) (rd_secret_hash dev) secret) /\
        (true_cache v w -> unseals (v_key v) (rd_secret_hash dev) secret) /\
        m_secrets (w_mem w') !! id = Some secret /\
        (forall n, n ∈ d_nonces (w_db w) -> rn_signature n <> rp_Signature p) /\
        w_db w' = setd_nonces (d_nonces (w_db w) ++
          [NonceRow (rp_Signature p) (i64 (ts + v_nonceTTL v))]) (w_db w)
    | Err e => (exists reason, e = ErrUnauthorized reason) /\ w_db w' = w_db w
    | Panic => False
    end.

  (** What [Verify] may do to the cache: it keeps the secrets it holds, holds
      at most one more, that of the named device as sealed in its row, and a
      true cache stays true. *)
Definition cache_outcome (v : Verifier) (p : RequestParts) (w w' : World) : Prop :=
    (forall id s, m_secrets (w_mem w) !! id = Some s -> m_secrets (w_mem w') !! id = Some s) /\
    (forall id s, m_secrets (w_mem w') !! id = Some s -> m_secrets (w_mem w) !! id = Some s \/
       id = rp_Device p /\ exists dev, dev ∈ d_devices (w_db w) /\ rd_id dev = id /\
         unseals (v_key v) (rd_secret_hash dev) s) /\
    (wf_db (w_db w) -> true_cache v w -> true_cache v w').

Lemma cached_row_secrets v p w w' : cached_row v p w w' ->
    (forall id s, m_secrets (w_mem w) !! id = Some s -> m_secrets (w_mem w') !! id = Some s) /\
    (forall id s, m_secrets (w_mem w') !! id = Some s -> m_secrets (w_mem w) !! id = Some s \/
       id = rp_Device p /\ exists dev, dev ∈ d_devices (w_db w) /\ rd_id dev = id /\
         unseals (v_key v) (rd_secret_hash dev) s).
  Proof.
    intros [->|(r & Hr & Hid & [->|(Hno & s & Hs & ->)])]; [by auto..|]. simpl in *. split; intros id s'.
    - rewrite lookup_insert_Some. destruct (decide (rd_id r = id)) as [<-|]; [congruence|auto].
    - rewrite lookup_insert_Some. intros [[<- <-]|[_ ?]]; [right|by left]. split; [done|]. by exists r.
  Qed.

Lemma cached_row_true v p w w' : cached_row v p w w' -> d_devices (w_db w') = d_devices (w_db w) ->
    cache_outcome v p w w'.
  Proof.
    intros Hc Hd. apply cached_row_secrets in Hc as [H1 H2]. split; [done|]. split; [done|].
    intros Hwf Ht dev s Hdev Hs. rewrite Hd in Hdev.
    destruct (H2 _ _ Hs) as [Hold|(_ & dev' & Hdev' & Hid & Hu)]; [by eapply Ht|].
    by rewrite (key_row rd_id _ _ _ key_device (wf_uniq _ _ _ (wf_devices _ Hwf)) Hdev Hdev' (eq_sym Hid)).
  Qed.

  (** C2: [Verifier.Verify] is sound and total, whatever the database, the
      cache, the clock of the driver and the faults: it accepts only a request
      that names a stored, enabled device of an enabled user, whose timestamp
      differs from the server's clock by at most the skew (on the integers: a
      wrapped 64-bit difference is never accepted), whose signature was not
      stored before and is the HMAC of its canonical form under the secret
      cached for the device or, when none is cached, under the one that the
      sealed text of the device's row opens to; it then stores exactly that
      signature.  Every other request is rejected and leaves the database
      untouched.  The cache keeps what it holds and gains at most the named
      device's secret, as its row seals it: as long as every cached secret is
      the one its row seals, that stays so and the accepted signature is under
      the device's own secret. *)
Theorem verify_sound c v p now w :
    0 <= v_skew v < 2 ^ 62 -> 0 <= now < 2 ^ 62 ->
    wp (Verify c v p now) (fun r w' => verify_outcome v p now w r w' /\ cache_outcome v p w w') w.
  Proof.
    intros Hsk Hnow. eapply wp_mono; [apply Verify_spec|]. intros [id|e|] w' [Hc Hres]; [| |done].
    2: { split; [done|]. apply cached_row_true; [done|]. by destruct Hres as [_ ->]. }
    destruct Hres as (-> & dev & Hdev & Hid & Hdis & (u & Hu & Huid & Hud) & ts & s & Hts & Hskew & Hs & Hin & Hsig & Hn & Hw).
    split; [|apply cached_row_true; [done|by rewrite Hw]].
    split; [done|]. exists dev, u, ts, s. simpl in *. unfold intToBool in Hdis.
    rewrite negb_false_iff in Hdis. rewrite skewed_false in Hskew by eauto using parse_int_range.
    unfold secret_in_use in Hs. simpl in Hs. rewrite Hid in Hs, Hin.
    split_and!; try done; try lia.
    - case_match; [left; congruence|by right].
    - intros Ht. case_match eqn:Hm; [|done]. subst. apply (Ht dev); [done|]. by rewrite Hid.
  Qed.

  (** C1: no replay.  Once a request is accepted, the same request is never
      accepted again, at any later clock reading and after any sequence of
      verifications of other requests, prunings of expired nonces and other
      operations, provided the nonces live at least as long as the skew (which
      the configuration's validation enforces). *)
Theorem verify_no_replay c1 c2 v p t1 t2 w1 w1' w2 id :
    0 <= v_skew v <= v_nonceTTL v -> v_nonceTTL v < 2 ^ 61 -> 0 <= t1 -> t2 < 2 ^ 61 ->
    Verify c1 v p t1 w1 = (Ok id, w1') ->
    rtc (nonce_step v) (t1, w1') (t2, w2) ->
    forall id', (Verify c2 v p t2 w2).1 <> Ok id'.
  Proof.
    intros Hsk Httl Ht1 Ht2 Hv Hrun id' Hv2.
    apply Verify_ok in Hv as (_ & _ & _ & _ & _ & _ & ts & s & Hts & Hskew & _ & _ & _ & _ & Hw1).
    set (row := NonceRow (rp_Signature p) (i64 (ts + v_nonceTTL v))) in *.
    destruct (nonce_survives v _ _ row Hrun) as [Hle Hsurv]; simpl in *.
    { rewrite Hw1. apply elem_of_app. right. by left. }
    pose proof (parse_int_range _ _ Hts) as Hr.
    destruct (Verify c2 v p t2 w2) as [r w2'] eqn:Hv2'. simpl in Hv2. subst r.
    apply Verify_ok in Hv2' as (_ & _ & _ & _ & _ & _ & ts' & s' & Hts' & Hskew' & _ & _ & _ & Hfresh & _).
    rewrite Hts in Hts'. injection Hts' as <-.
    apply skewed_false in Hskew; [|lia|done|lia]. apply skewed_false in Hskew'; [|lia|done|lia].
    assert (Hexp : i64 (ts + v_nonceTTL v) = ts + v_nonceTTL v).
    { apply i64_id. unfold in_int64, min_int64, max_int64 in *. lia. }
    apply (Hfresh row); [|done]. apply Hsurv. unfold row. simpl. rewrite Hexp. lia.
  Qed.

Lemma lookup_quiet {A} c (m : M A) x y z w a w1 :
    m w = (Ok a, w1) -> lookup_or_reject c m x y z w = (Ok a, w1).
  Proof.
    intros Hm. unfold lookup_or_reject. by rewrite (bind_run _ _ _ _ _ (catch_run _ _ _ _ Hm)).
  Qed.

Lemma secretFor_run v dev w s :
    secret_in_use v dev w s -> exists m, attempt (secretFor v dev) w = (Ok (Some s), set_mem m w).
  Proof.
    intros Hs. unfold secret_in_use in Hs.
    enough (exists m, secretFor v dev w = (Ok s, set_mem m w)) as [m Hm] by (exists m; by apply attempt_run).
    unfold secretFor, get_mem, put_mem. destruct (m_secrets (w_mem w) !! dev_ID dev) eqn:Hm.
    - subst. exists (w_mem w). unfold mbind, M_bind. rewrite Hm. by destruct w.
    - eexists. unfold mbind, M_bind at 1. rewrite Hm. unfold M_bind. by rewrite (OpenSecret_unseals _ _ _ _ Hs).
  Qed.

  (** [Verify] is complete: on a consistent database, without faults or
      cancellation, a request of an enabled device of an enabled user, within
      the skew, signed with the secret the verifier uses for that device and
      not seen before, is accepted as that device. *)
Lemma verify_complete c v p now w dev u ts secret :
    wf_db (w_db w) -> quiet w c -> 0 <= v_skew v < 2 ^ 62 -> 0 <= now < 2 ^ 62 ->
    dev ∈ d_devices (w_db w) -> rd_id dev = rp_Device p -> rd_disabled dev = 0 ->
    u ∈ d_users (w_db w) -> ru_id u = rd_user_id dev -> ru_disabled u = 0 ->
    parse_int (rp_Timestamp p) = Some ts -> - v_skew v <= now - ts <= v_skew v ->
    secret_in_use v (scanDevice dev) w secret ->
    rp_Signature p = Sign secret (canonical_of p) ->
    (forall n, n ∈ d_nonces (w_db w) -> rn_signature n <> rp_Signature p) ->
    (Verify c v p now w).1 = Ok (rp_Device p).
  Proof.
    intros Hwf Hq Hsk Hnow Hdev Hid Hdis Hu Huid Hud Hts Hskew Hs Hsig Hfresh.
    unfold Verify, DeviceRepo.GetByID. erewrite bind_run.
    2: { apply lookup_quiet. apply get_one_quiet; [done|]. rewrite <- Hid.
      apply find_unique; [auto with tables|apply Hwf|done]. }
    unfold verify_device. simpl. rewrite Hdis. simpl. erewrite bind_run.
    2: { apply lookup_quiet. unfold UserRepo.GetByID. apply get_one_quiet; [done|]. rewrite <- Huid.
      apply find_unique; [auto with tables|apply Hwf|done]. }
    simpl. rewrite Hud, Hts. simpl.
    assert (Hnsk : skewed (v_skew v) now ts = false).
    { apply skewed_false; [done|by eapply parse_int_range|done|done]. }
    rewrite Hnsk. apply (secret_in_use_mem _ _ _ (bump (bump w))) in Hs; [|done].
    destruct (secretFor_run _ _ _ _ Hs) as (m & Hm). erewrite bind_run by exact Hm.
    cbv beta iota. rewrite <- Hsig, str_eq_refl. cbn [negb]. erewrite bind_run.
    2: { apply catch_run. unfold ReplayNonceRepo.Insert. apply map_err_run.
      apply exec_insert_quiet; [done|]. unfold insert_violation. simpl.
      assert (Hun : uniq_ok (d_nonces (w_db w) ++ [NonceRow (rp_Signature p) (i64 (ts + v_nonceTTL v))]) = true);
        [|by rewrite Hun].
      pose proof (wf_uniq _ _ _ (wf_nonces _ Hwf)) as Hn. rewrite uniq_ok_iff in Hn |- *.
      intros k Hk. specialize (Hn k Hk). simpl in Hk. apply list_elem_of_singleton in Hk as ->.
      rewrite omap_app. simpl. apply NoDup_app. split; [done|]. split; [|repeat constructor; set_solver].
      intros x (n & Hin & Hx)%list_elem_of_omap Hx2%list_elem_of_singleton. simplify_eq. by apply (Hfresh n). }
    simpl. by rewrite Hid.
  Qed.

  (** Sealing round trip: with a 32-byte key, whatever nonce the random
      source gives, what [SealSecret] (and [SealWithAAD]) returns is opened by
      [OpenSecret] (and [OpenWithAAD] with the same data) to the plaintext. *)
Theorem seal_open_roundtrip `{!CryptoLaws} key pt aad nonce w :
    String.length key = 32%nat -> rand_sized (w_env w) ->
    e_rand (w_env w) (w_n w) gcm_nonce_size = Some nonce ->
    (exists sealed, SealSecret key pt w = (Ok sealed, bump w) /\
       forall w2, OpenSecret key sealed w2 = (Ok pt, w2)) /\
    (exists sealed, SealWithAAD key pt aad w = (Ok sealed, bump w) /\
       forall w2, OpenWithAAD key sealed aad w2 = (Ok pt, w2)).
  Proof.
    intros Hk Hsz Hn. pose proof (Hsz _ _ _ Hn) as Hl.
    assert (Hlt : forall ct, Nat.ltb (String.length (nonce ++ ct)) gcm_nonce_size = false).
    { intros ct. rewrite string_length_app, Hl. apply Nat.ltb_ge. lia. }
    split; eexists; (split; [
      unfold SealSecret, SealWithAAD, newGCM; rewrite Hk; simpl;
      unfold mbind, M_bind, rand_bytes; simpl; rewrite Hn; done |]); intros w2;
      unfold OpenSecret, OpenWithAAD, newGCM; rewrite Hk; simpl;
      unfold mbind, M_bind; simpl; rewrite b64_decode_encode, Hlt, <- Hl, substring_app_l, substring_app_r;
      by rewrite gcm_open_seal.
  Qed.

  (** The signing input is unambiguous: two requests whose method, path,
      timestamp and nonce hold no line feed have the same canonical form only if
      every component is the same, and no such request whose method is not the
      notification tag has the canonical form of an outbound notification. *)
Theorem canonical_unambiguous m1 p1 t1 n1 h1 m2 p2 t2 n2 h2 :
    Forall (fun s => has_char "010"%char s = false) [m1; p1; t1; n1] ->
    Forall (fun s => has_char "010"%char s = false) [m2; p2; t2; n2] ->
    (CanonicalRequest m1 p1 t1 n1 h1 = CanonicalRequest m2 p2 t2 n2 h2 ->
      m1 = m2 /\ p1 = p2 /\ t1 = t2 /\ n1 = n2 /\ h1 = h2) /\
    (m1 <> "diyddns-notify-v1"%string -> forall t n h,
      CanonicalRequest m1 p1 t1 n1 h1 <> CanonicalNotification t n h).
  Proof.
    rewrite !Forall_cons. intros (Hm1 & Hp1 & Ht1 & Hn1 & _) (Hm2 & Hp2 & Ht2 & Hn2 & _).
    unfold CanonicalRequest, CanonicalNotification, lf. simpl. split.
    - intros He. apply app_sep_inj in He as [-> He]; [|done|done].
      apply app_sep_inj in He as [-> He]; [|done|done].
      apply app_sep_inj in He as [-> He]; [|done|done].
      by apply app_sep_inj in He as [-> ->].
    - intros Hne t n h He.
      apply (app_sep_inj "010"%char m1 "diyddns-notify-v1") in He as [-> _]; done.
  Qed.

  (** [SessionManager.Authenticate] returns a user and a session only for a
      stored session of that id that expires strictly after the clock reading,
      whose user is stored and enabled; the database then is as before, or the
      session (idle for at least the slide interval) has its expiry moved.
      Otherwise the error is a rejection and nothing is written. *)
Theorem session_authenticate_sound c m sid w :
    let now := e_clock (w_env w) (S (w_n w)) in
    wp (Authenticate c m sid) (fun r w' => match r with
      | Ok (u, s) => exists row urow,
          row ∈ d_sessions (w_db w) /\ rs_id row = sid /\ now < rs_expires_at row /\
          urow ∈ d_users (w_db w) /\ ru_id urow = rs_user_id row /\ ru_disabled urow = 0 /\
          u = scanUser urow /\ sess_ID s = sid /\ sess_UserID s = usr_ID u /\
          sess_CSRFToken s = rs_csrf_token row /\
          (w_db w' = w_db w \/
           sm_slide m <= now - rs_last_seen_at row /\
           exists seen, w_db w' = setd_sessions (rows_update (fun x => str_eq (rs_id x) sid)
             (fun x => SessionRow (rs_id x) (rs_user_id x) (rs_csrf_token x) (rs_ip x) (rs_user_agent x)
                         (rs_created_at x) seen (now + sm_ttl m)) (d_sessions (w_db w))) (w_db w))
      | Err e => (exists reason, e = ErrUnauthorized reason) /\ w_db w' = w_db w
      | Panic => False
      end) w.
  Proof.
    intros now. unfold Authenticate, reject, SessionRepo.GetByID. wp_step.
    apply wp_lookup; [eauto|]. intros row [Hrow Hid]%find_some_iff. rewrite str_eq_true in Hid.
    do 2 wp_step. simpl. fold now. destruct (_ <=? now) eqn:Hexp; [wp_step; eauto|].
    apply Z.leb_gt in Hexp. wp_step. unfold UserRepo.GetByID. apply wp_lookup; [eauto|].
    intros u [Hu Huid]%find_some_iff. rewrite str_eq_true in Huid.
    destruct (usr_Disabled (scanUser u)) eqn:Hud; [wp_step; eauto|].
    simpl in Hud. unfold intToBool in Hud. rewrite negb_false_iff, Z.eqb_eq in Hud.
    destruct (_ <=? now - _) eqn:Hsl; [|wp_step; exists row, u; simpl; by repeat split; auto].
    apply Z.leb_le in Hsl. do 2 wp_step. unfold SessionRepo.Touch. do 4 wp_step.
    - wp_step. exists row, u. simpl. by repeat split; auto.
    - apply wp_requireMatched; intros; wp_step; exists row, u; simpl;
        repeat (split; [done|]); right; (split; [done|]); eexists; by rewrite Hid.
  Qed.
End AuthTheorems.

(** ** The hypotheses hold on the concrete world *)

Section AuthWitnesses.
  #[local] Existing Instance toy_crypto.

Definition demo_verifier : Verifier := MkVerifier demo_key 300 600.
Definition demo_unsigned (ts : string) : RequestParts :=
    MkRequestParts "d1" ts "nonce" EmptyString "POST" "/api/v1/checkin" "{}".
Definition demo_request : RequestParts :=
    MkRequestParts "d1" "990" "nonce" (Sign demo_secret (canonical_of (demo_unsigned "990")))
      "POST" "/api/v1/checkin" "{}".

Lemma verify_sound_witness :
    (Verify background demo_verifier demo_request 1000 demo_world).1 = Ok "d1"%string /\
    verify_outcome demo_verifier demo_request 1000 demo_world
      (Verify background demo_verifier demo_request 1000 demo_world).1
      (Verify background demo_verifier demo_request 1000 demo_world).2 /\
    cache_outcome demo_verifier demo_request demo_world
      (Verify background demo_verifier demo_request 1000 demo_world).2.
  Proof.
    split; [vm_compute; reflexivity|].
    apply (verify_sound background demo_verifier demo_request 1000 demo_world); simpl; lia.
  Defined.

Lemma verify_no_replay_witness :
    (Verify background demo_verifier demo_request 1000 demo_world).1 = Ok "d1"%string /\
    forall id', (Verify background demo_verifier demo_request 1100
      (ReplayNonceRepo.PruneExpired background 1100
         (Verify background demo_verifier demo_request 1000 demo_world).2).2).1 <> Ok id'.
  Proof.
    split; [vm_compute; reflexivity|].
    refine (verify_no_replay background background demo_verifier demo_request 1000 1100 demo_world
      (Verify background demo_verifier demo_request 1000 demo_world).2 _ "d1" _ _ _ _ _ _).
    1-4: simpl; lia.
    - apply run_eq. vm_compute; reflexivity.
    - refine (rtc_once _ _ (step_prune _ _ _ _ _ _)). lia.
  Defined.

Lemma seal_open_roundtrip_witness : exists sealed,
    SealSecret demo_key demo_secret demo_world = (Ok sealed, bump demo_world) /\
    forall w2, OpenSecret demo_key sealed w2 = (Ok demo_secret, w2).
  Proof.
    refine (proj1 (@seal_open_roundtrip toy_crypto toy_crypto_laws demo_key demo_secret EmptyString
      (repeat_char 12) demo_world _ _ _)).
    - reflexivity.
    - exact demo_rand_sized.
    - reflexivity.
  Defined.

Lemma canonical_unambiguous_witness :
    CanonicalRequest "POST" "/x" "1" "n" "h" <> CanonicalNotification "1" "n" "h".
  Proof.
    refine (proj2 (canonical_unambiguous "POST" "/x" "1" "n" "h" "GET" "/y" "2" "m" "g" _ _) _ "1" "n" "h")%string;
      [repeat constructor|repeat constructor|done].
  Defined.
End AuthWitnesses.
