(* ===== verification/ServiceDevices.v ===== *)
(** * internal/server/service: check-in and device management

    [CheckinService] (checkin.go), [DeviceService] (device.go), the membership
    predicate and [deviceMutator] of feed.go and the audit writer of
    enrollment.go.  The interfaces the services are given at construction
    ([Notifier], [DeviceNotifier]) are records of operations. *)

From S2P Require Import Prelude GoLib Schema Integrity Effects Demo StoreUsers StoreDevices StoreTokens Auth.

(** ** Interfaces *)

Record Notifier := MkNotifier { IPChanged : ctx -> IPChangeEvent -> M unit }.
Record DeviceNotifier := MkDeviceNotifier {
  DeviceAdded : ctx -> Device -> M unit;
  DeviceRemoved : ctx -> Device -> M unit }.

Definition NopNotifier : Notifier := MkNotifier (fun _ _ => mret tt).
Definition NopDeviceNotifier : DeviceNotifier := MkDeviceNotifier (fun _ _ => mret tt) (fun _ _ => mret tt).

(** enrollment.go, [auditWriter.Log]: best effort. *)
Definition AuditLog (c : ctx) (e : AuditEntry) : M unit :=
  attempt (AuditLogRepo.Append c e);; mret tt.

(** An entry with the fields a caller sets. *)
Definition audit_entry (actor event targetType targetID details : string) : AuditEntry :=
  MkAuditEntry 0 actor event targetType targetID details EmptyString EmptyString 0.

(** ** checkin.go *)

Record CheckinReport := MkCheckinReport {
  cr_IPv4 : string; cr_IPv6 : string; cr_Hostname : string; cr_OS : string; cr_ClientVersion : string }.

Record CheckinResult := MkCheckinResult {
  cres_DeviceID : string; cres_CurrentIPv4 : string; cres_CurrentIPv6 : string; cres_Stored : bool }.

Definition fireNotify (n : Notifier) (c : ctx) (ev : IPChangeEvent) : M unit :=
  recovering (IPChanged n c ev);; mret tt.

Definition is_set (s : string) : bool := negb (str_eq s EmptyString).

(** An omitted family keeps the device's address. *)
Definition effective (reported current : string) : string :=
  if str_eq reported EmptyString then current else reported.

(** [Checkin] from the device row it has read: lines 90-153. *)
Definition checkin_device (n : Notifier) (c : ctx) (dev : Device) (r : CheckinReport) : M CheckinResult :=
  let effV4 := effective (cr_IPv4 r) (dev_CurrentIPv4 dev) in
  let effV6 := effective (cr_IPv6 r) (dev_CurrentIPv6 dev) in
  let v4Asserted := is_set (cr_IPv4 r) in
  let v6Asserted := is_set (cr_IPv6 r) in
  if str_eq effV4 (dev_CurrentIPv4 dev) && str_eq effV6 (dev_CurrentIPv6 dev) then
    now ← now_unix;
    DeviceRepo.Touch c (dev_ID dev) v4Asserted v6Asserted now;;
    mret (MkCheckinResult (dev_ID dev) (dev_CurrentIPv4 dev) (dev_CurrentIPv6 dev) false)
  else
    row ← RecordIPChange c (MkIPChange (dev_ID dev) effV4 effV6 (cr_ClientVersion r) (cr_Hostname r)
            (cr_OS r) v4Asserted v6Asserted);
    fireNotify n c (MkIPChangeEvent (iph_ID row) (iph_ObservedAt row) dev
      (dev_CurrentIPv4 dev) (dev_CurrentIPv6 dev) effV4 effV6);;
    mret (MkCheckinResult (dev_ID dev) effV4 effV6 true).

Definition Checkin (n : Notifier) (c : ctx) (deviceID : string) (r : CheckinReport) : M CheckinResult :=
  dev ← DeviceRepo.GetByID c deviceID;
  checkin_device n c dev r.

Definition Self (c : ctx) (deviceID : string) : M Device := DeviceRepo.GetByID c deviceID.

(** ** feed.go: membership *)

Definition inFeed (d : Device) (u : User) : bool :=
  negb (dev_Disabled d) && negb (usr_Disabled u) && (is_set (dev_CurrentIPv4 d) || is_set (dev_CurrentIPv6 d)).

(** A panic of the notifier is recovered. *)
Definition emitMembership (c : ctx) (n : DeviceNotifier) (d : Device) (before after : bool) : M unit :=
  recovering (
    if negb before && after then DeviceAdded n c d
    else if before && negb after then DeviceRemoved n c d
    else mret tt);;
  mret tt.

Definition with_disabled (d : Device) (b : bool) : Device :=
  MkDevice (dev_ID d) (dev_UserID d) (dev_Label d) (dev_SecretHash d) (dev_CurrentIPv4 d) (dev_CurrentIPv6 d)
    (dev_Hostname d) (dev_OS d) (dev_ClientVersion d) (dev_LastSeenAt d) b (dev_CreatedAt d) (dev_UpdatedAt d)
    (dev_V4ConfirmedAt d) (dev_V6ConfirmedAt d) (dev_V4WarnLevel d) (dev_V6WarnLevel d).

Definition flipDisabled (c : ctx) (n : DeviceNotifier) (dev : Device) (owner : User) (disabled : bool)
    (entry : AuditEntry) : M Device :=
  DeviceRepo.SetDisabled c (dev_ID dev) disabled;;
  AuditLog c entry;;
  let after := with_disabled dev disabled in
  emitMembership c n after (inFeed dev owner) (inFeed after owner);;
  DeviceRepo.GetByID c (dev_ID dev).

(** ** device.go *)

Module DeviceService.
Definition List (c : ctx) (userID : string) : M (list Device) := DeviceRepo.ListByUser c userID.

Definition latestAddresses (c : ctx) (devices : list Device) : M (gmap string IPHistoryRepo.LatestAddress) :=
    IPHistoryRepo.LatestAddressPerFamily c (dev_ID <$> devices).

Definition ListWithExpiry (c : ctx) (userID : string)
      : M (list Device * gmap string IPHistoryRepo.LatestAddress) :=
    devices ← DeviceRepo.ListByUser c userID;
    latest ← latestAddresses c devices;
    mret (devices, latest).

Definition ownedDevice (c : ctx) (userID id : string) : M Device :=
    dev ← DeviceRepo.GetByID c id;
    if str_eq (dev_UserID dev) userID then mret dev else fail ErrNotFound.

Definition LatestAddress (c : ctx) (userID id : string) : M IPHistoryRepo.LatestAddress :=
    ownedDevice c userID id;;
    latest ← IPHistoryRepo.LatestAddressPerFamily c [id];
    mret (default (IPHistoryRepo.MkLatestAddress EmptyString 0 EmptyString 0) (latest !! id)).

Definition Get (c : ctx) (userID id : string) : M Device := ownedDevice c userID id.

Definition Rename (c : ctx) (userID id newLabel : string) : M Device :=
    ownedDevice c userID id;;
    DeviceRepo.Rename c id newLabel;;
    AuditLog c (audit_entry userID "device.renamed" "device" id EmptyString);;
    DeviceRepo.GetByID c id.

Definition SetEnabled (n : DeviceNotifier) (c : ctx) (userID id : string) (disabled : bool) : M Device :=
    dev ← ownedDevice c userID id;
    owner ← UserRepo.GetByID c (dev_UserID dev);
    let event := if disabled then "device.disabled"%string else "device.enabled"%string in
    flipDisabled c n dev owner disabled (audit_entry userID event "device" id EmptyString).

Definition Delete (n : DeviceNotifier) (c : ctx) (userID id : string) : M unit :=
    dev ← ownedDevice c userID id;
    owner ← UserRepo.GetByID c (dev_UserID dev);
    DeviceRepo.Delete c id;;
    AuditLog c (audit_entry userID "device.deleted" "device" id EmptyString);;
    emitMembership c n dev (inFeed dev owner) false.

Definition RotateSecret `{Crypto} (key : string) (c : ctx) (userID id : string) : M string :=
    ownedDevice c userID id;;
    secret ← GenerateSecret;
    sealed ← SealSecret key secret;
    DeviceRepo.RotateSecret c id sealed;;
    Invalidate id;;
    AuditLog c (audit_entry userID "device.secret.rotated" "device" id EmptyString);;
    mret secret.

Definition History (c : ctx) (userID id cursor : string) (limit : Z) : M IPHistoryRepo.HistoryPage :=
    ownedDevice c userID id;;
    IPHistoryRepo.Page c id cursor limit.
End DeviceService.

(** ** Integrity: the services keep the constraints when their notifiers do *)

Class WfNotifier (n : Notifier) : Prop := wf_ip_changed : forall c ev, preserves wf_db (IPChanged n c ev).
Class WfDeviceNotifier (n : DeviceNotifier) : Prop := {
  wf_added : forall c d, preserves wf_db (DeviceAdded n c d);
  wf_removed : forall c d, preserves wf_db (DeviceRemoved n c d) }.

#[export] Instance wf_nop_notifier : WfNotifier NopNotifier.
Proof. intros c ev. apply pres_ret. Qed.
#[export] Instance wf_nop_device_notifier : WfDeviceNotifier NopDeviceNotifier.
Proof. split; intros; apply pres_ret. Qed.

#[export] Hint Resolve wf_ip_changed wf_added wf_removed : effects.

Lemma AuditLog_wf c e : preserves wf_db (AuditLog c e).
Proof. unfold AuditLog. pres. Qed.
#[export] Hint Resolve AuditLog_wf : effects.

Lemma emitMembership_wf c n d b a `{!WfDeviceNotifier n} : preserves wf_db (emitMembership c n d b a).
Proof. unfold emitMembership. pres. Qed.
#[export] Hint Resolve emitMembership_wf : effects.

Lemma Checkin_wf n `{!WfNotifier n} c i r : preserves wf_db (Checkin n c i r).
Proof. unfold Checkin, checkin_device, fireNotify, DeviceRepo.GetByID. pres. Qed.

Lemma flipDisabled_wf c n `{!WfDeviceNotifier n} d o b e : preserves wf_db (flipDisabled c n d o b e).
Proof. unfold flipDisabled, DeviceRepo.GetByID. pres. Qed.
#[export] Hint Resolve Checkin_wf flipDisabled_wf : effects.

Section DeviceServiceIntegrity.
  Import DeviceService.

Lemma ownedDevice_wf c u i : preserves wf_db (ownedDevice c u i).
  Proof. unfold ownedDevice, DeviceRepo.GetByID. pres. Qed.
#[local] Hint Resolve ownedDevice_wf : effects.

Lemma service_Rename_wf c u i l : preserves wf_db (Rename c u i l).
  Proof. unfold Rename, DeviceRepo.GetByID. pres. Qed.
Lemma service_SetEnabled_wf n `{!WfDeviceNotifier n} c u i b : preserves wf_db (SetEnabled n c u i b).
  Proof. unfold SetEnabled, UserRepo.GetByID. pres. Qed.
Lemma service_Delete_wf n `{!WfDeviceNotifier n} c u i : preserves wf_db (Delete n c u i).
  Proof. unfold Delete, UserRepo.GetByID. pres. Qed.
Lemma service_RotateSecret_wf `{Crypto} k c u i : preserves wf_db (RotateSecret k c u i).
  Proof. unfold RotateSecret, GenerateSecret, SealSecret, newGCM, Invalidate. pres. Qed.
End DeviceServiceIntegrity.

#[export] Hint Resolve ownedDevice_wf service_Rename_wf service_SetEnabled_wf service_Delete_wf
  service_RotateSecret_wf : effects.
