(* ===== verification/ServiceFacts.v ===== *)
(** * What check-in and device management guarantee

    Properties of ServiceDevices: the merge and the all-or-nothing write of a
    check-in, ownership of devices, the membership events of the feed and the
    agreement of the feed's query with the membership predicate. *)

From S2P Require Import Prelude GoLib Schema Integrity Effects Demo StoreUsers StoreDevices StoreTokens Auth.
From S2P Require Import ServiceDevices DeviceFacts.

(** A notifier hands no error back: its Go method has no result. *)
Class SilentNotifier (n : Notifier) : Prop :=
  silent_ip_changed : forall c ev w e, (IPChanged n c ev w).1 <> Err e.

#[export] Instance silent_nop : SilentNotifier NopNotifier.
Proof. done. Qed.

Lemma wp_fireNotify n `{!SilentNotifier n} c ev (Q : result unit -> World -> Prop) w :
  (forall w', (IPChanged n c ev w).2 = w' -> Q (Ok tt) w') -> wp (fireNotify n c ev) Q w.
Proof.
  intros HQ. unfold fireNotify. wp_step. wp_step. apply wp_intro. intros r w' Hr.
  assert (Hw : (IPChanged n c ev w).2 = w') by (by rewrite Hr).
  destruct r as [[]|e|]; [wp_step; auto| |wp_step; auto].
  pose proof (silent_ip_changed (n:=n) c ev w e) as Hs. by rewrite Hr in Hs.
Qed.

(** ** The feed's selection *)

Section FeedSelection.
Import DeviceRepo.

Definition has_enabled_owner (us : list user_row) (r : device_row) : bool := existsb (feed_row_ok r) us.

Lemma join_one (us : list user_row) (r : device_row) :
  NoDup (ru_id <$> us) ->
  (u ← us; if feed_row_ok r u then [r] else []) = if has_enabled_owner us r then [r] else [].
Proof.
  unfold has_enabled_owner. induction us as [|u us IH]; intros Hnd; [done|].
  cbn [mbind list_bind existsb]. cbn [fmap list_fmap] in Hnd. apply NoDup_cons in Hnd as [Hni Hnd].
  destruct (feed_row_ok r u) eqn:Hu; simpl; [|by apply IH].
  assert (Hnone : existsb (feed_row_ok r) us = false).
  { apply not_true_iff_false. intros (u' & Hin & Hu')%existsb_exists. apply Hni.
    unfold feed_row_ok in Hu, Hu'. rewrite !andb_true_iff, str_eq_true in Hu, Hu'.
    destruct Hu as [[[-> _] _] _], Hu' as [[[<- _] _] _].
    apply list_elem_of_fmap. exists u'. split; [done|]. by apply list_elem_of_In. }
  f_equal. fold (mbind (M:=list) (fun u => if feed_row_ok r u then [r] else [])) in IH.
  specialize (IH Hnd). rewrite Hnone in IH. exact IH.
Qed.

Lemma join_filter (us : list user_row) (ds : list device_row) :
  NoDup (ru_id <$> us) ->
  (r ← ds; u ← us; if feed_row_ok r u then [r] else []) = List.filter (has_enabled_owner us) ds.
Proof.
  intros Hnd. induction ds as [|r ds IH]; [done|]. rewrite bind_cons, IH, join_one by done.
  simpl. by destruct (has_enabled_owner us r).
Qed.

(** No device row stores an empty string for an address: the store writes NULL. *)
Definition addresses_normal (d : DB) : Prop :=
  forall r, r ∈ d_devices d -> rd_current_ipv4 r <> Some EmptyString /\ rd_current_ipv6 r <> Some EmptyString.

Lemma present_iff a : a <> Some EmptyString -> bool_decide (is_Some a) = is_set (scanString a).
Proof.
  intros Hne. destruct a as [s|]; [|reflexivity].
  case_bool_decide as H1; [|by destruct H1; eexists].
  unfold is_set, str_eq. simpl. case_bool_decide; [congruence|done].
Qed.

Lemma feed_row_inFeed r u :
  rd_current_ipv4 r <> Some EmptyString -> rd_current_ipv6 r <> Some EmptyString ->
  feed_row_ok r u = str_eq (ru_id u) (rd_user_id r) && inFeed (scanDevice r) (scanUser u).
Proof.
  intros H4 H6. unfold feed_row_ok, inFeed. simpl. rewrite !present_iff by done.
  unfold intToBool. rewrite !negb_involutive. by rewrite !andb_assoc.
Qed.

Lemma sorted_ids (l : list device_row) :
  NoDup (rd_id <$> l) ->
  StronglySorted string_lt (rd_id <$> order_by (fun a b => String.leb (rd_id a) (rd_id b)) l).
Proof.
  set (le := fun a b : device_row => String.leb (rd_id a) (rd_id b)). intros Hnd.
  assert (Hs : StronglySorted (fun a b => le a b = true) (order_by le l)).
  { apply order_by_sorted; unfold le; intros; [apply string_leb_total|by eapply string_leb_trans]. }
  assert (Hnd' : NoDup (rd_id <$> order_by le l)) by (by rewrite order_by_perm).
  induction Hs as [|x l' Hs IH Hall]; cbn [fmap list_fmap]; [constructor|].
  cbn [fmap list_fmap] in Hnd'. apply NoDup_cons in Hnd' as [Hni Hnd']. constructor; [by apply IH|].
  rewrite Forall_forall in Hall. apply Forall_forall. intros k Hk.
  pose proof Hk as (y & -> & Hy)%list_elem_of_fmap. specialize (Hall y Hy).
  apply string_leb_lt in Hall as [|Heq]; [done|]. by rewrite Heq in Hni.
Qed.

(** The feed's query and the membership predicate agree: ListFeed returns,
    in strictly increasing id order, exactly the devices that [inFeed] accepts
    with their owner (enabled device, enabled owner, at least one address),
    each once. *)
Theorem ListFeed_spec (c : ctx) (w : World)
    (Hq : quiet w c) (Hwf : wf_db (w_db w)) (Hn : addresses_normal (w_db w)) :
  exists l, ListFeed c w = (Ok (scanFeedDevice <$> l), bump w) /\
    StronglySorted string_lt (rd_id <$> l) /\
    forall r, r ∈ l <-> r ∈ d_devices (w_db w) /\
      exists u, u ∈ d_users (w_db w) /\ ru_id u = rd_user_id r /\ inFeed (scanDevice r) (scanUser u) = true.
Proof.
  exists (listFeedQuery (w_db w)). split; [by apply query_quiet|].
  assert (Hu : NoDup (ru_id <$> d_users (w_db w))).
  { apply uniq_NoDup; [exact key_user|]. by destruct (wf_users _ Hwf). }
  unfold listFeedQuery. rewrite join_filter by done. split.
  - apply sorted_ids. apply NoDup_fmap_bfilter, uniq_NoDup; [exact key_device|by apply wf_devices].
  - intros r. rewrite elem_of_order_by, elem_of_bfilter. split; (intros [Hr Hok]; split; [done|]; destruct (Hn r Hr) as [H4 H6]).
    + unfold has_enabled_owner in Hok. apply existsb_exists in Hok as (u & Hin & Hok). exists u.
      rewrite feed_row_inFeed, andb_true_iff, str_eq_true in Hok by done.
      apply list_elem_of_In in Hin. naive_solver.
    + destruct Hok as (u & Hin & Hid & Hok). unfold has_enabled_owner. apply existsb_exists. exists u.
      rewrite feed_row_inFeed, Hok, Hid, str_eq_refl by done. split; [by apply list_elem_of_In|done].
Qed.
Lemma ListFeed_spec_witness :
  (ListFeed background demo_world).1 =
    Ok [MkFeedDevice "d1" "laptop" "192.0.2.1" "2001:db8::1" 900] /\
  exists l, ListFeed background demo_world = (Ok (scanFeedDevice <$> l), bump demo_world).
Proof.
  split; [vm_compute; reflexivity|].
  destruct (ListFeed_spec background demo_world demo_quiet demo_wf) as (l & Hl & _).
  - intros r [->|[->|H%elem_of_nil]%elem_of_cons]%elem_of_cons; [by split|by split|done].
  - exists l. exact Hl.
Defined.
End FeedSelection.

(** ** Check-in *)

(** The database a contact without a change leaves. *)
Definition touched (id : string) (v4 v6 : bool) (seen now : Z) (d : DB) : DB :=
  setd_devices (rows_update (fun r => str_eq (rd_id r) id) (DeviceRepo.set_touched v4 v6 seen now)
    (d_devices d)) d.

Lemma wp_Touch c id v4 v6 seen (Q : result unit -> World -> Prop) w :
  (forall w', w_db w' = w_db w -> Q (Err ErrDriver) w') ->
  (forall e now w', w_db w' = touched id v4 v6 seen now (w_db w) -> Q (Err e) w') ->
  (forall now w', w_db w' = touched id v4 v6 seen now (w_db w) -> Q (Ok tt) w') ->
  wp (DeviceRepo.Touch c id v4 v6 seen) Q w.
Proof.
  intros H1 H2 H3. unfold DeviceRepo.Touch. do 4 wp_step; [by apply H1|].
  apply wp_requireMatched; [by eapply H2|intros _; by eapply H2|intros _; by eapply H3].
Qed.

(** One family of a device over a check-in that sent [sent] for it: omitted, it
    keeps its address, its confirmation time and its warning level; sent, it
    has the address sent, confirmed at [seen], with no warning. *)
Definition family_checked (sent old new : string) (conf conf' : option Z) (level level' seen : Z) : Prop :=
  (sent = EmptyString -> new = old /\ conf' = conf /\ level' = level) /\
  (sent <> EmptyString -> new = sent /\ conf' = Some seen /\ level' = 0).

(** The columns no check-in writes. *)
Definition row_identity (r : device_row) : string * string * string * string * Z * Z :=
  (rd_id r, rd_user_id r, rd_label r, rd_secret_hash r, rd_disabled r, rd_created_at r).

Definition row_checked (rep : CheckinReport) (seen : Z) (r r' : device_row) : Prop :=
  family_checked (cr_IPv4 rep) (scanString (rd_current_ipv4 r)) (scanString (rd_current_ipv4 r'))
    (rd_v4_confirmed_at r) (rd_v4_confirmed_at r') (rd_v4_warn_level r) (rd_v4_warn_level r') seen /\
  family_checked (cr_IPv6 rep) (scanString (rd_current_ipv6 r)) (scanString (rd_current_ipv6 r'))
    (rd_v6_confirmed_at r) (rd_v6_confirmed_at r') (rd_v6_warn_level r) (rd_v6_warn_level r') seen /\
  rd_last_seen_at r' = nullIfZero seen /\ row_identity r' = row_identity r.

(** A contact of the device [id]: its row is [row] before and [row'] after,
    and the other devices' rows are as before. *)
Definition contact (rep : CheckinReport) (id : string) (seen : Z) (row row' : device_row) (d d' : DB) : Prop :=
  row ∈ d_devices d /\ rd_id row = id /\ row' ∈ d_devices d' /\ row_checked rep seen row row' /\
  Forall2 (fun r r' => rd_id r = id \/ r' = r) (d_devices d) (d_devices d').

Lemma contact_update rep id seen row f d d' : row ∈ d_devices d -> rd_id row = id ->
  d_devices d' = rows_update (fun r => str_eq (rd_id r) id) f (d_devices d) ->
  row_checked rep seen row (f row) -> contact rep id seen row (f row) d d'.
Proof.
  intros Hr Hid Hd Hc. unfold contact. rewrite Hd. split_and!; try done.
  - apply elem_of_rows_update. exists row. by rewrite Hid, str_eq_refl.
  - unfold rows_update. apply Forall2_fmap_r, Forall_Forall2_diag, Forall_forall. intros r _. simpl.
    destruct (str_eq (rd_id r) id) eqn:He; [left; by apply str_eq_true|by right].
Qed.

Lemma family_omitted sent old conf level seen : effective sent old = old ->
  family_checked sent old old conf (if is_set sent then Some seen else conf) level
    (if is_set sent then 0 else level) seen.
Proof.
  unfold effective, is_set, family_checked. destruct (str_eq sent EmptyString) eqn:He; simpl.
  - apply str_eq_true in He. by split.
  - apply str_eq_false in He. by split.
Qed.

Lemma family_merged sent old conf level seen :
  family_checked sent old (scanString (nullIfEmpty (effective sent old))) conf (if is_set sent then Some seen else conf)
    level (if is_set sent then 0 else level) seen.
Proof.
  rewrite scanString_nullIfEmpty. unfold effective, is_set, family_checked.
  destruct (str_eq sent EmptyString) eqn:He; simpl.
  - apply str_eq_true in He. by split.
  - apply str_eq_false in He. by split.
Qed.

Lemma family_kept sent old new conf conf' level level' seen :
  family_checked sent old new conf conf' level level' seen -> effective sent old = old -> new = old.
Proof.
  unfold effective. intros [H1 H2]. destruct (str_eq sent EmptyString) eqn:He.
  - apply str_eq_true in He. by destruct (H1 He).
  - apply str_eq_false in He. intros <-. by destruct (H2 He).
Qed.

Lemma touched_contact rep id seen now row d : row ∈ d_devices d -> rd_id row = id ->
  effective (cr_IPv4 rep) (scanString (rd_current_ipv4 row)) = scanString (rd_current_ipv4 row) ->
  effective (cr_IPv6 rep) (scanString (rd_current_ipv6 row)) = scanString (rd_current_ipv6 row) ->
  exists row', contact rep id seen row row' d (touched id (is_set (cr_IPv4 rep)) (is_set (cr_IPv6 rep)) seen now d).
Proof.
  intros Hr Hid H4 H6. eexists. eapply contact_update; [done|done|reflexivity|].
  split_and!; [by apply family_omitted|by apply family_omitted|done|done].
Qed.

Lemma recorded_contact rep id row now at_ d : row ∈ d_devices d -> rd_id row = id ->
  exists row', contact rep id now row row' d
    (recorded (MkIPChange id (effective (cr_IPv4 rep) (scanString (rd_current_ipv4 row)))
       (effective (cr_IPv6 rep) (scanString (rd_current_ipv6 row))) (cr_ClientVersion rep) (cr_Hostname rep)
       (cr_OS rep) (is_set (cr_IPv4 rep)) (is_set (cr_IPv6 rep))) now at_ d).
Proof.
  intros Hr Hid. eexists. eapply contact_update; [done|done|reflexivity|].
  split_and!; [apply family_merged|apply family_merged|done|done].
Qed.

(** Only the devices' rows differ. *)
Definition only_devices (d d' : DB) : Prop := d' = setd_devices (d_devices d') d.

(** The rows after a check-in that stored nothing: a contact whose addresses
    are the stored ones. *)
Definition confirmed (rep : CheckinReport) (id : string) (row : device_row) (d d' : DB) : Prop :=
  exists seen row', contact rep id seen row row' d d' /\ only_devices d d' /\
    scanString (rd_current_ipv4 row') = scanString (rd_current_ipv4 row) /\
    scanString (rd_current_ipv6 row') = scanString (rd_current_ipv6 row).

Definition angry_notifier : Notifier := MkNotifier (fun _ _ => panic).
#[local] Instance silent_angry : SilentNotifier angry_notifier.
Proof. done. Qed.

(** A sweep expires the device's IPv6 address between the read and the write of
    a check-in that reports only a new IPv4 address. *)
Definition expiry_race : M (Z * bool) :=
  dev ← DeviceRepo.GetByID background "d1";
  swept ← ExpireFamilies background "d1" false true (dev_V4ConfirmedAt dev) (dev_V6ConfirmedAt dev) 2000;
  checkin_device NopNotifier background dev (MkCheckinReport "198.51.100.7" EmptyString "host" "linux" "1.0");;
  mret swept.

(** A check-in that read the device before a sweep expired one of its
    addresses writes that address back: the report does not mention the IPv6
    address, the sweep has removed it, and after the check-in the device holds
    it again with the old confirmation time.  The pin protects the sweep's
    write from a check-in, nothing protects the check-in's write from a
    sweep. *)
Theorem expiry_race_restores_address :
  (expiry_race demo_world).1 = Ok (4, true) /\
  (fun r => (rd_current_ipv4 r, rd_current_ipv6 r, rd_v6_confirmed_at r)) <$>
    List.find (fun r => str_eq (rd_id r) "d1") (d_devices (w_db (expiry_race demo_world).2)) =
  Some (Some "198.51.100.7"%string, Some "2001:db8::1"%string, Some 100).
Proof. split; vm_compute; reflexivity. Qed.

(** ** Ownership *)

(** A refusal tells nothing: the answer of a device that does not exist, and
    no effect on the database. *)
Definition refused {A} (w : World) (r : result A) (w' : World) : Prop :=
  w_db w' = w_db w /\ w_mem w' = w_mem w /\ (r = Err ErrNotFound \/ r = Err ErrDriver).

Definition not_owner (userID id : string) (d : DB) : Prop :=
  forall row, row ∈ d_devices d -> rd_id row = id -> rd_user_id row <> userID.

Section Ownership.
Import DeviceService.
Context (c : ctx) (userID id : string) (w : World).
Hypothesis Hno : not_owner userID id (w_db w).

Lemma owned_refused {A} (k : Device -> M A) : wp (dev ← ownedDevice c userID id; k dev) (refused w) w.
Proof.
  wp_step. unfold ownedDevice, DeviceRepo.GetByID. wp_step. apply wp_get_one.
  - split; [done|]. split; [done|by right].
  - intros _. split; [done|]. split; [done|by left].
  - intros row [Hin Hid]%find_device_in. simpl. destruct (str_eq _ _) eqn:Hu.
    + apply str_eq_true in Hu. by destruct (Hno row Hin Hid).
    + wp_step. split; [done|]. split; [done|by left].
Qed.

Lemma owned_refused_only : wp (ownedDevice c userID id) (refused w) w.
Proof.
  pose proof (owned_refused mret) as H. eapply wp_mono in H; [|intros r w' Hr; exact Hr].
  unfold wp in H. unfold wp. unfold mbind, M_bind in H.
  by destruct (ownedDevice c userID id w) as [[a|e|] w'].
Qed.
End Ownership.

(** A user never reaches another user's device: every operation of the
    device service on a device the caller does not own answers what it answers
    for a device that does not exist, and changes neither the database nor the
    cache nor anything sent, whatever the notifier and the faults. *)
Theorem devices_isolated `{Crypto} (n : DeviceNotifier) (key : string) (c : ctx) (userID id label cursor : string)
    (disabled : bool) (limit : Z) (w : World) (Hno : not_owner userID id (w_db w)) :
  wp (DeviceService.Get c userID id) (refused w) w /\
  wp (DeviceService.LatestAddress c userID id) (refused w) w /\
  wp (DeviceService.History c userID id cursor limit) (refused w) w /\
  wp (DeviceService.Rename c userID id label) (refused w) w /\
  wp (DeviceService.SetEnabled n c userID id disabled) (refused w) w /\
  wp (DeviceService.Delete n c userID id) (refused w) w /\
  wp (DeviceService.RotateSecret key c userID id) (refused w) w.
Proof. split; [by apply owned_refused_only|]. split_and!; by apply owned_refused. Qed.
Lemma devices_isolated_witness :
  (exists e, (DeviceService.Delete NopDeviceNotifier background "u1" "d2" demo_world).1 = Err e) /\
  w_db (DeviceService.Delete NopDeviceNotifier background "u1" "d2" demo_world).2 = demo_db.
Proof.
  assert (Hno : not_owner "u1" "d2" demo_db).
  { intros r [->|[->|H%elem_of_nil]%elem_of_cons]%elem_of_cons Hid; by try discriminate. }
  destruct (devices_isolated (H:=toy_crypto) NopDeviceNotifier demo_key background "u1" "d2"
    EmptyString EmptyString true 0 demo_world Hno)
    as (_ & _ & _ & _ & _ & (Hdb & _ & [Hr|Hr]) & _); (split; [|exact Hdb]); eexists; exact Hr.
Defined.

(** ** Membership events *)

(** A notifier that only writes down what it is told. *)
Definition probe : DeviceNotifier :=
  MkDeviceNotifier (fun _ d => emit (OWarn ("added " ++ dev_ID d)))
    (fun _ d => emit (OWarn ("removed " ++ dev_ID d))).

Definition membership_outputs (id : string) (before after : bool) : list output :=
  if negb before && after then [OWarn ("added " ++ id)]
  else if before && negb after then [OWarn ("removed " ++ id)] else [].

Lemma wp_emitMembership c d b a (Q : result unit -> World -> Prop) w :
  (forall w', w_db w' = w_db w ->
    m_out (w_mem w') = m_out (w_mem w) ++ membership_outputs (dev_ID d) b a -> Q (Ok tt) w') ->
  wp (emitMembership c probe d b a) Q w.
Proof.
  intros HQ. unfold emitMembership, membership_outputs in *. wp_step. wp_step.
  destruct b, a; simpl in *; try (apply wp_ret; wp_step; apply HQ; [done|by rewrite app_nil_r]);
    by apply HQ.
Qed.

(** What an audit append may change. *)
Definition only_audit (w w' : World) : Prop :=
  w_mem w' = w_mem w /\ exists rows seq, w_db w' = setd_audit_seq seq (setd_audit rows (w_db w)).

Lemma setd_audit_id d : setd_audit_seq (d_audit_seq d) (setd_audit (d_audit d) d) = d.
Proof. by destruct d. Qed.

Lemma wp_AuditLog_env c e (Q : result unit -> World -> Prop) w :
  (forall w', only_audit w w' -> w_env w' = w_env w -> Q (Ok tt) w') -> wp (AuditLog c e) Q w.
Proof.
  intros HQ. unfold AuditLog. wp_step. wp_step.
  assert (Hsame : forall w', w_env w' = w_env w -> w_mem w' = w_mem w -> w_db w' = w_db w -> Q (Ok tt) w').
  { intros w' He Hm Hd. apply HQ; [|done]. split; [done|]. exists (d_audit (w_db w)), (d_audit_seq (w_db w)).
    by rewrite setd_audit_id. }
  assert (Hnew : forall rows seq w', w_env w' = w_env w -> w_mem w' = w_mem w ->
    w_db w' = setd_audit_seq seq (setd_audit rows (w_db w)) -> Q (Ok tt) w').
  { intros rows seq w' He Hm Hd. apply HQ; [|done]. split; [done|]. by exists rows, seq. }
  unfold AuditLogRepo.Append. wp_step. destruct (ae_CreatedAt e =? 0); wp_step; wp_step;
    (eapply wp_exec_insert_auto; [reflexivity|wp_step; by apply Hsame|intros ? _; wp_step; by apply Hsame|];
     intros _; wp_step; wp_step; [wp_step; by eapply Hnew|wp_step; wp_step; by eapply Hnew]).
Qed.

Lemma wp_AuditLog c e (Q : result unit -> World -> Prop) w :
  (forall w', only_audit w w' -> Q (Ok tt) w') -> wp (AuditLog c e) Q w.
Proof. intros HQ. apply wp_AuditLog_env. auto. Qed.

Lemma only_audit_devices w w' : only_audit w w' -> d_devices (w_db w') = d_devices (w_db w).
Proof. by intros (_ & rows & seq & ->). Qed.

Lemma find_user_in d id r :
  List.find (fun r => str_eq (ru_id r) id) (d_users d) = Some r -> r ∈ d_users d /\ ru_id r = id.
Proof. intros [Hin Heq%str_eq_true]%find_some_iff. done. Qed.

Lemma wp_owned_device c userID id (Q : result Device -> World -> Prop) w :
  (forall e w', Q (Err e) w') ->
  (forall row w', row ∈ d_devices (w_db w) -> rd_id row = id -> rd_user_id row = userID ->
     w_db w' = w_db w -> w_mem w' = w_mem w -> w_env w' = w_env w -> Q (Ok (scanDevice row)) w') ->
  wp (DeviceService.ownedDevice c userID id) Q w.
Proof.
  intros He HQ. unfold DeviceService.ownedDevice, DeviceRepo.GetByID. wp_step. apply wp_get_one; auto.
  intros row [Hin Hid]%find_device_in. simpl. destruct (str_eq _ _) eqn:Hu; wp_step; [|done].
  apply str_eq_true in Hu. by apply HQ.
Qed.

(** The feed hears of a device exactly when its membership flips: a
    successful enable or disable sends "added" if and only if the device was
    out and is in after the change, "removed" if and only if it was in and is
    out, and nothing otherwise; a successful delete sends "removed" exactly
    for a member.  The change itself is what was asked for. *)
Theorem membership_events (c : ctx) (userID id : string) (b : bool) (w : World) :
  wp (DeviceService.SetEnabled probe c userID id b) (fun r w' => match r with
    | Ok _ => exists row owner now, row ∈ d_devices (w_db w) /\ rd_id row = id /\ rd_user_id row = userID /\
        owner ∈ d_users (w_db w) /\ ru_id owner = userID /\
        d_devices (w_db w') = rows_update (fun r => str_eq (rd_id r) id) (DeviceRepo.set_disabled b now)
                                (d_devices (w_db w)) /\
        m_out (w_mem w') = m_out (w_mem w) ++ membership_outputs id
          (inFeed (scanDevice row) (scanUser owner))
          (inFeed (with_disabled (scanDevice row) b) (scanUser owner))
    | Err _ => True
    | Panic => False
    end) w /\
  wp (DeviceService.Delete probe c userID id) (fun r w' => match r with
    | Ok _ => exists row owner, row ∈ d_devices (w_db w) /\ rd_id row = id /\ rd_user_id row = userID /\
        owner ∈ d_users (w_db w) /\ ru_id owner = userID /\
        d_devices (w_db w') = rows_delete (fun r => str_eq (rd_id r) id) (d_devices (w_db w)) /\
        m_out (w_mem w') = m_out (w_mem w) ++
          membership_outputs id (inFeed (scanDevice row) (scanUser owner)) false
    | Err _ => True
    | Panic => False
    end) w.
Proof.
  split.
  - unfold DeviceService.SetEnabled, flipDisabled, UserRepo.GetByID, DeviceRepo.SetDisabled, DeviceRepo.GetByID.
    wp_step. apply wp_owned_device; [done|]. intros row w1 Hrow Hid Hown Hd1 Hm1 _.
    wp_step. apply wp_get_one; [done|done|]. intros owner [Hin Hoid]%find_user_in. cbv zeta.
    rewrite Hd1 in Hin. wp_step. wp_step. wp_step. wp_step. wp_step; [done|].
    apply wp_requireMatched; [done|done|intros _]. wp_step. apply wp_AuditLog. intros w2 Ha. wp_step.
    apply wp_emitMembership. intros w3 Hd3 Hout. apply wp_get_one; [done|done|]. intros final _.
    destruct Ha as [Hm2 (ar & seq & Hd2)].
    exists row, owner, (e_clock (w_env w1) (S (w_n w1))). split_and!; try done.
    + by rewrite Hoid.
    + change (d_devices (w_db w3) = rows_update (fun r => str_eq (rd_id r) id)
        (DeviceRepo.set_disabled b (e_clock (w_env w1) (S (w_n w1)))) (d_devices (w_db w))). rewrite Hd3, Hd2. simpl. by rewrite Hd1, Hid.
    + change (m_out (w_mem w3) = m_out (w_mem w) ++ membership_outputs id
          (inFeed (scanDevice row) (scanUser owner))
          (inFeed (with_disabled (scanDevice row) b) (scanUser owner))).
      rewrite Hout, Hm2. simpl. by rewrite Hm1, Hid.
  - unfold DeviceService.Delete, UserRepo.GetByID, DeviceRepo.Delete.
    wp_step. apply wp_owned_device; [done|]. intros row w1 Hrow Hid Hown Hd1 Hm1 _.
    wp_step. apply wp_get_one; [done|done|]. intros owner [Hin Hoid]%find_user_in.
    rewrite Hd1 in Hin. wp_step. wp_step. wp_step; [done|].
    apply wp_requireMatched; [done|done|intros _]. wp_step. apply wp_AuditLog. intros w2 [Hm2 (ar & seq & Hd2)].
    apply wp_emitMembership. intros w3 Hd3 Hout. exists row, owner. split_and!; try done.
    + by rewrite Hoid.
    + rewrite Hd3, Hd2. simpl. by rewrite Hd1.
    + rewrite Hout, Hm2. simpl. by rewrite Hm1, Hid.
Qed.

(** ** Secret rotation *)

Section Rotation.
Context `{Crypto}.

Lemma sealed_unseals `{!CryptoLaws} key nonce pt :
  String.length key = 32%nat -> String.length nonce = gcm_nonce_size ->
  unseals key (b64_std_encode (nonce ++ gcm_seal key nonce pt EmptyString)) pt.
Proof.
  intros Hk Hl. split; [done|]. do 2 eexists. rewrite b64_decode_encode. split; [done|].
  split; [done|]. apply gcm_open_seal.
Qed.

(** A rotation takes effect: once RotateSecret has returned the new secret,
    the verifier's cache holds nothing for the device and the row of the device
    holds a sealed value that opens to exactly that secret, so the next
    verification uses the new secret and not the old one. *)
Theorem RotateSecret_spec (Hl : CryptoLaws) (key : string) (skew ttl : Z) (c : ctx) (userID id : string) (w : World)
    (Hk : String.length key = 32%nat) (Hsz : rand_sized (w_env w)) (Hwf : wf_db (w_db w)) :
  wp (DeviceService.RotateSecret key c userID id) (fun r w' => match r with
    | Ok fresh => exists row, row ∈ d_devices (w_db w') /\ rd_id row = id /\ rd_user_id row = userID /\
        m_secrets (w_mem w') !! id = None /\
        secret_in_use (MkVerifier key skew ttl) (scanDevice row) w' fresh
    | Err _ => True
    | Panic => False
    end) w.
Proof.
  unfold DeviceService.RotateSecret, GenerateSecret, DeviceRepo.RotateSecret, SealSecret, newGCM, Invalidate.
  wp_step. apply wp_owned_device; [done|]. intros row w1 Hrow Hid Hown Hd1 _ He1.
  wp_step. wp_step; [|done]. rename s into fresh. wp_step. wp_step. rewrite Hk.
  change (Nat.eqb 32 32) with true. cbv iota. wp_step. wp_step. wp_step; [|done].
  rename s into nonce. apply wp_ret. wp_step. wp_step. wp_step. wp_step. wp_step; [done|].
  apply wp_requireMatched; [done|done|intros _].
  wp_step. wp_step. wp_step. wp_step. wp_step.
  apply wp_AuditLog. intros w2 [Hm2 (ar & seq & Hd2)]. wp_step.
  assert (Hc : m_secrets (w_mem w2) !! id = None) by (rewrite Hm2; simpl; apply lookup_delete_eq).
  set (sealed := b64_std_encode _) in *. set (now := e_clock _ _) in *.
  exists (DeviceRepo.set_secret sealed now row). split_and!; try done.
  - rewrite Hd2. simpl. rewrite Hd1. apply elem_of_rows_update. exists row.
    split; [done|]. by rewrite Hid, str_eq_refl.
  - unfold secret_in_use.
    change (dev_ID (scanDevice (DeviceRepo.set_secret sealed now row))) with (rd_id row).
    rewrite Hid, Hc. apply sealed_unseals; [done|]. by eapply (Hsz (S (w_n w1))); rewrite <- He1.
Qed.
End Rotation.

#[local] Existing Instance toy_crypto.

Lemma RotateSecret_spec_witness : exists row,
  rd_id row = "d1"%string /\
  secret_in_use (MkVerifier demo_key 300 600) (scanDevice row)
    (DeviceService.RotateSecret demo_key background "u1" "d1" demo_world).2 (repeat_char 32).
Proof.
  pose proof (@RotateSecret_spec toy_crypto toy_crypto_laws demo_key 300 600 background "u1" "d1" demo_world
    eq_refl demo_rand_sized demo_wf) as H.
  apply (wp_elim _ _ _ (Ok (repeat_char 32))
    (DeviceService.RotateSecret demo_key background "u1" "d1" demo_world).2) in H.
  - destruct H as (row & _ & Hid & _ & _ & Hs). exists row. split; [exact Hid|exact Hs].
  - apply run_eq. vm_compute. reflexivity.
Defined.

(** A rotation between the two halves of a verification: the device row is
    read, the secret rotated, and then the request verified; two more requests
    follow, one signed with the old secret and one with the new. *)
Definition signed (secret nonce : string) : RequestParts :=
  let p s := MkRequestParts "d1" "990" nonce s "POST" "/api/v1/checkin" "{}" in
  p (Sign secret (canonical_of (p EmptyString))).
Definition rotation_race : M (string * (string + err) * (string + err)) :=
  dev ← DeviceRepo.GetByID background "d1";
  fresh ← DeviceService.RotateSecret demo_key background "u1" "d1";
  inflight ← verify_device background demo_verifier (signed demo_secret "n1") 1000 dev;
  old ← catch (Verify background demo_verifier (signed demo_secret "n2") 1000);
  new ← catch (Verify background demo_verifier (signed fresh "n3") 1000);
  mret (inflight, old, new).

(** A request that is being verified while the secret is rotated undoes the
    rotation in the cache: when Verify has read the device row before the
    rotation and opens the secret after it, the old secret is cached after the
    invalidation, and from then on the verifier accepts requests signed with
    the old secret and rejects those signed with the new one. *)
Theorem rotation_race_keeps_old_secret :
  (rotation_race demo_world).1 = Ok ("d1"%string, inl "d1"%string, inr (ErrUnauthorized "bad_signature")).
Proof. vm_compute. reflexivity. Qed.
