(* ===== verification/ServiceTokens.v ===== *)
(** * internal/server/service: enrollment, feed tokens, API keys, registration

    [EnrollmentService] (enrollment.go), the token half of [FeedService]
    (feed.go), [APIKeyService] (apikeys.go) and the derived registration status
    (registration.go). *)

From S2P Require Import Prelude GoLib JsonText Schema Integrity Effects Demo StoreUsers StoreDevices StoreTokens Auth.
From S2P Require Import ServiceDevices.

(** A rejection or fault the service logs. *)
Definition log_warn (event : string) : M unit := emit (OWarn event).

Lemma wp_emit o (Q : result unit -> World -> Prop) w :
  (forall m, Q (Ok tt) (set_mem m w)) -> wp (emit o) Q w.
Proof. intros HQ. apply HQ. Qed.

Section Services.
Context `{Crypto}.

  (** ** enrollment.go *)

Record ClientMeta := MkClientMeta { cm_Hostname : string; cm_OS : string; cm_ClientVersion : string }.
Record EnrollResult := MkEnrollResult { er_DeviceID : string; er_Secret : string }.

  (** [codeTTL] in whole seconds. *)
Definition CreateCode (codeTTL : Z) (c : ctx) (userID label : string) : M (string * Z) :=
    code ← RandToken 16;
    now ← now_unix;
    let expiresAt := now + codeTTL in
    EnrollmentCodeRepo.Create c (MkEnrollmentCode code userID label expiresAt 0 EmptyString);;
    mret (code, expiresAt).

Definition createSealedDevice (key : string) (c : ctx) (userID label : string) (meta : ClientMeta)
      : M (Device * string) :=
    secret ← GenerateSecret;
    sealed ← SealSecret key secret;
    dev ← DeviceRepo.Create c (MkDevice EmptyString userID label sealed EmptyString EmptyString
            (cm_Hostname meta) (cm_OS meta) (cm_ClientVersion meta) 0 false 0 0 0 0 0 0);
    mret (dev, secret).

Definition conflictRejection {A} (c : ctx) (code : string) (e : err) : M A :=
    fresh ← attempt (EnrollmentCodeRepo.Get c code);
    if match fresh with Some f => negb (ec_UsedAt f =? 0) | None => false end then
      log_warn "lost_race";; fail ErrNotFound
    else
      log_warn "label_conflict";; fail e.

  (** The compensating delete survives the cancellation of the request. *)
Definition rollbackDevice (c : ctx) (deviceID : string) : M unit :=
    r ← attempt (DeviceRepo.Delete (without_cancel c) deviceID);
    match r with
    | Some _ => mret tt
    | None => log_warn "enrollment compensating delete failed"
    end.

Definition ConsumeCode (key : string) (c : ctx) (code : string) (meta : ClientMeta) : M EnrollResult :=
    r ← catch (EnrollmentCodeRepo.Get c code);
    match r with
    | inr e =>
        (if bool_decide (e = ErrNotFound) then log_warn "unknown" else mret tt);;
        fail e
    | inl ec =>
        now ← now_unix;
        if negb (ec_UsedAt ec =? 0) then log_warn "used";; fail ErrNotFound
        else if ec_ExpiresAt ec <=? now then log_warn "expired";; fail ErrNotFound
        else
          d ← catch (createSealedDevice key c (ec_UserID ec) (ec_Label ec) meta);
          match d with
          | inr e => if bool_decide (e = ErrConflict) then conflictRejection c code e else fail e
          | inl (dev, secret) =>
              k ← catch (EnrollmentCodeRepo.Consume c code (dev_ID dev) now);
              match k with
              | inr e =>
                  rollbackDevice c (dev_ID dev);;
                  (if bool_decide (e = ErrNotFound) then log_warn "lost_race" else mret tt);;
                  fail e
              | inl _ =>
                  AuditLog c (audit_entry (ec_UserID ec) "device.enroll.code" "device" (dev_ID dev) EmptyString);;
                  mret (MkEnrollResult (dev_ID dev) secret)
              end
          end
    end.

Definition EnrollForUser (key : string) (c : ctx) (userID eventType : string) (meta : ClientMeta)
      : M EnrollResult :=
    let label := if str_eq (cm_Hostname meta) EmptyString then "device"%string else cm_Hostname meta in
    d ← createSealedDevice key c userID label meta;
    AuditLog c (audit_entry userID eventType "device" (dev_ID d.1) EmptyString);;
    mret (MkEnrollResult (dev_ID d.1) d.2).

  (** ** Machine credentials: the last-used throttle *)

Definition lastUsedThrottle : Z := 60.

  (** [due], and the map after the touch it records. *)
Definition throttle (touched : gmap string Z) (id : string) (now : Z) : bool * gmap string Z :=
    let due := lastUsedThrottle <=? now - default 0 (touched !! id) in
    (due, if due then <[id := now]> touched else touched).

Definition with_feed_touch (t : gmap string Z) (m : Mem) : Mem :=
    MkMem (m_secrets m) t (m_key_touch m) (m_challenges m) (m_out m).
Definition with_key_touch (t : gmap string Z) (m : Mem) : Mem :=
    MkMem (m_secrets m) (m_feed_touch m) t (m_challenges m) (m_out m).

  (** ** feed.go: feed tokens *)

Definition FeedTokenPrefix : string := "ddf_".

Definition ListTokens (c : ctx) : M (list FeedToken) := FeedTokenRepo.List c.

Definition MintToken (c : ctx) (actorID label : string) : M (FeedToken * string) :=
    let label := trim_space label in
    if str_eq label EmptyString then fail ErrInvalidLabel
    else
      rnd ← RandToken 32;
      let plaintext := (FeedTokenPrefix ++ rnd)%string in
      id ← new_id;
      now ← now_unix;
      let tok := MkFeedToken id label (HashToken plaintext) actorID now 0 in
      FeedTokenRepo.Create c tok;;
      AuditLog c (audit_entry actorID "feed.token_created" "feed_token" id (json_map [("label", label)]%string));;
      mret (tok, plaintext).

Definition RevokeToken (c : ctx) (actorID id : string) : M unit :=
    FeedTokenRepo.Delete c id;;
    m ← get_mem;
    put_mem (with_feed_touch (delete id (m_feed_touch m)) m);;
    emit (OCloseToken id);;
    AuditLog c (audit_entry actorID "feed.token_revoked" "feed_token" id EmptyString).

Definition AuthenticateToken (c : ctx) (plaintext : string) : M FeedToken :=
    if negb (has_prefix plaintext FeedTokenPrefix) then fail ErrTokenMalformed
    else
      tok ← FeedTokenRepo.GetByHash c (HashToken plaintext);
      now ← now_unix;
      m ← get_mem;
      let (due, touched) := throttle (m_feed_touch m) (ft_ID tok) now in
      put_mem (with_feed_touch touched m);;
      if due : bool then
        attempt (FeedTokenRepo.TouchLastUsed c (ft_ID tok) now);;
        mret (MkFeedToken (ft_ID tok) (ft_Label tok) (ft_TokenHash tok) (ft_CreatedBy tok) (ft_CreatedAt tok) now)
      else mret tok.

  (** ** apikeys.go *)

Definition APIKeyPrefix : string := "dak_".

Definition MintKey (c : ctx) (userID label : string) : M (APIKey * string) :=
    let label := trim_space label in
    if str_eq label EmptyString then fail ErrInvalidKeyLabel
    else
      rnd ← RandToken 32;
      let plaintext := (APIKeyPrefix ++ rnd)%string in
      id ← new_id;
      now ← now_unix;
      let key := MkAPIKey id userID label (HashToken plaintext) false now 0 in
      APIKeyRepo.Create c key;;
      AuditLog c (audit_entry userID "api_key.created" "api_key" id (json_map [("label", label)]%string));;
      mret (key, plaintext).

Definition ListKeys (c : ctx) (userID : string) : M (list APIKey) := APIKeyRepo.List c userID.

Definition ownedKey (c : ctx) (userID id : string) : M APIKey :=
    key ← APIKeyRepo.GetByID c id;
    if str_eq (ak_UserID key) userID then mret key else fail ErrNotFound.

Definition RevokeKey (c : ctx) (userID id : string) : M unit :=
    key ← ownedKey c userID id;
    APIKeyRepo.Delete c (ak_ID key);;
    m ← get_mem;
    put_mem (with_key_touch (delete (ak_ID key) (m_key_touch m)) m);;
    AuditLog c (audit_entry userID "api_key.revoked" "api_key" (ak_ID key) EmptyString).

Definition AuthenticateKey (c : ctx) (plaintext : string) : M APIKey :=
    if negb (has_prefix plaintext APIKeyPrefix) then fail ErrKeyMalformed
    else
      key ← APIKeyRepo.GetByHash c (HashToken plaintext);
      now ← now_unix;
      m ← get_mem;
      let (due, touched) := throttle (m_key_touch m) (ak_ID key) now in
      put_mem (with_key_touch touched m);;
      if due : bool then
        attempt (APIKeyRepo.TouchLastUsed c (ak_ID key) now);;
        mret (MkAPIKey (ak_ID key) (ak_UserID key) (ak_Label key) (ak_KeyHash key) (ak_AdminScope key)
                (ak_CreatedAt key) now)
      else mret key.

Definition UserForKey (c : ctx) (key : APIKey) : M User := UserRepo.GetByID c (ak_UserID key).
End Services.

(** ** registration.go *)

Inductive RegistrationStatus :=
  | RegistrationRegistered | RegistrationInvited | RegistrationRecoveryPending | RegistrationLinkExpired.

Record Registration := MkRegistration { reg_Status : RegistrationStatus; reg_LinkExpiresAt : Z }.

Definition IsRegistered (u : User) (credCount : nat) : bool :=
  negb (Nat.eqb credCount 0) || is_set (usr_OIDCSubject u).

(** [live] is the user's live grant, [None] for the Go pair (zero, false). *)
Definition deriveRegistration (u : User) (credCount : nat) (live : option AccountRecoveryRepo.LiveGrant)
    : Registration :=
  if IsRegistered u credCount then MkRegistration RegistrationRegistered 0
  else match live with
  | None => MkRegistration RegistrationLinkExpired 0
  | Some g =>
      if str_eq (AccountRecoveryRepo.lg_Reason g) "recovery" then
        MkRegistration RegistrationRecoveryPending (AccountRecoveryRepo.lg_ExpiresAt g)
      else MkRegistration RegistrationInvited (AccountRecoveryRepo.lg_ExpiresAt g)
  end.

Definition RegistrationStatuses (c : ctx) (users : list User) (now : Z) : M (gmap string Registration) :=
  counts ← WebAuthnCredentialRepo.CountAllByUser c;
  live ← AccountRecoveryRepo.LiveByUser c now;
  mret (foldl (fun (out : gmap string Registration) u =>
    <[usr_ID u := deriveRegistration u (default 0%nat (counts !! usr_ID u)) (live !! usr_ID u)]> out) ∅ users).

(** ** Integrity *)

Section ServicesIntegrity.
Context `{Crypto} (c : ctx).

Lemma RandToken_wf n : preserves wf_db (RandToken n).
  Proof. unfold RandToken. pres. Qed.
Lemma SealSecret_wf k s : preserves wf_db (SealSecret k s).
  Proof. unfold SealSecret, newGCM. pres. Qed.
Lemma log_warn_wf e : preserves wf_db (log_warn e).
  Proof. apply pres_emit. Qed.
#[local] Hint Resolve RandToken_wf SealSecret_wf log_warn_wf : effects.

Lemma CreateCode_wf t u l : preserves wf_db (CreateCode t c u l).
  Proof. unfold CreateCode. pres. Qed.
Lemma createSealedDevice_wf k u l m : preserves wf_db (createSealedDevice k c u l m).
  Proof. unfold createSealedDevice, GenerateSecret. pres. Qed.
#[local] Hint Resolve createSealedDevice_wf : effects.
Lemma ConsumeCode_wf k code m : preserves wf_db (ConsumeCode k c code m).
  Proof. unfold ConsumeCode, conflictRejection, rollbackDevice, EnrollmentCodeRepo.Get. pres. Qed.
Lemma EnrollForUser_wf k u e m : preserves wf_db (EnrollForUser k c u e m).
  Proof. unfold EnrollForUser. pres. Qed.
Lemma MintToken_wf a l : preserves wf_db (MintToken c a l).
  Proof. unfold MintToken. pres. Qed.
Lemma RevokeToken_wf a i : preserves wf_db (RevokeToken c a i).
  Proof. unfold RevokeToken. pres. Qed.
Lemma AuthenticateToken_wf p : preserves wf_db (AuthenticateToken c p).
  Proof. unfold AuthenticateToken, FeedTokenRepo.GetByHash. pres. Qed.
Lemma MintKey_wf u l : preserves wf_db (MintKey c u l).
  Proof. unfold MintKey. pres. Qed.
Lemma RevokeKey_wf u i : preserves wf_db (RevokeKey c u i).
  Proof. unfold RevokeKey, ownedKey, APIKeyRepo.GetByID. pres. Qed.
Lemma AuthenticateKey_wf p : preserves wf_db (AuthenticateKey c p).
  Proof. unfold AuthenticateKey, APIKeyRepo.GetByHash. pres. Qed.
End ServicesIntegrity.

#[export] Hint Resolve RandToken_wf SealSecret_wf log_warn_wf CreateCode_wf createSealedDevice_wf
  ConsumeCode_wf EnrollForUser_wf MintToken_wf RevokeToken_wf AuthenticateToken_wf MintKey_wf
  RevokeKey_wf AuthenticateKey_wf : effects.
