(* ===== verification/TokenFacts.v ===== *)
(** * What codes, tokens and enrollment guarantee

    Properties of StoreTokens, StoreUsers and ServiceTokens: a code is consumed
    at most once in any interleaving, enrollment leaves no device behind when
    it fails, a minted token authenticates until it is revoked, device-flow
    polls keep their pace, a pending e-mail change needs its live token, and
    the registration status says what the tables say. *)

From S2P Require Import Prelude GoLib Schema Integrity Effects Demo StoreUsers StoreDevices StoreTokens Auth.
From S2P Require Import ServiceDevices DeviceFacts ServiceFacts ServiceTokens.
From Stdlib Require Import Ascii.

(** ** Enrollment codes are single-use *)

(** No row of the code can be consumed any more. *)
Definition spent (code : string) (d : DB) : Prop :=
  forall r, r ∈ d_codes d -> rc_code r = code -> rc_used_at r <> None.

(** The operations of the program on the codes table, and any step that does
    not touch it. *)
Inductive code_step (code : string) : World -> World -> Prop :=
  | step_consume c code' dev now w :
      code_step code w (EnrollmentCodeRepo.Consume c code' dev now w).2
  | step_prune_codes c now w : code_step code w (EnrollmentCodeRepo.PruneExpired c now w).2
  | step_create_code c e w : ec_Code e <> code -> code_step code w (EnrollmentCodeRepo.Create c e w).2
  | step_delete_device c id w : code_step code w (DeviceRepo.Delete c id w).2
  | step_delete_user c id w : code_step code w (UserRepo.Delete c id w).2
  | step_elsewhere w w' : d_codes (w_db w') = d_codes (w_db w) -> code_step code w w'.

Lemma spent_update code p f d :
  (forall r, rc_code (f r) = rc_code r) -> (forall r, rc_used_at r <> None -> rc_used_at (f r) <> None) ->
  spent code d -> spent code (setd_codes (rows_update p f (d_codes d)) d).
Proof.
  intros Hc Hu Hs r (r0 & Hin & ->)%elem_of_rows_update Hr. destruct (p r0); [|by apply Hs].
  apply Hu, Hs; [done|]. by rewrite Hc in Hr.
Qed.

Lemma spent_delete code p d : spent code d -> spent code (setd_codes (rows_delete p (d_codes d)) d).
Proof. intros Hs r [Hin _]%elem_of_rows_delete. by apply Hs. Qed.

Lemma spent_delete_devices code p d : spent code d -> spent code (delete_devices p d).
Proof.
  intros Hs. unfold delete_devices. cbv zeta.
  match goal with |- spent _ (setd_devices _ ?x) => change (spent code x) end.
  apply spent_update; done.
Qed.

Lemma spent_delete_users code p d : spent code d -> spent code (delete_users p d).
Proof.
  intros Hs. unfold delete_users. cbv zeta. intros r Hr.
  change (r ∈ rows_delete (fun r => bool_decide (rc_user_id r ∈ ru_id <$> List.filter p (d_users d)))
    (d_codes (delete_devices (fun r => bool_decide (rd_user_id r ∈ ru_id <$> List.filter p (d_users d))) d))) in Hr.
  apply elem_of_rows_delete in Hr as [Hr _]. revert r Hr. by apply (spent_delete_devices code).
Qed.

Lemma spent_step code w w' : code_step code w w' -> spent code (w_db w) -> spent code (w_db w').
Proof.
  intros Hstep Hs. destruct Hstep as [c code' dev now w|c now w|c e w Hne|c id w|c id w|w w' Heq].
  - revert w Hs. change (preserves (spent code) (EnrollmentCodeRepo.Consume c code' dev now)).
    unfold EnrollmentCodeRepo.Consume, EnrollmentCodeRepo.Get. pres. apply pres_stmt. intros d Hd.
    destruct (update_violation _ _ d); [done|]. by apply (spent_update code).
  - revert w Hs. change (preserves (spent code) (EnrollmentCodeRepo.PruneExpired c now)).
    unfold EnrollmentCodeRepo.PruneExpired. pres. apply pres_stmt. intros d Hd. by apply (spent_delete code).
  - revert w Hs. change (preserves (spent code) (EnrollmentCodeRepo.Create c e)).
    unfold EnrollmentCodeRepo.Create. pres. apply pres_stmt. intros d Hd.
    destruct (insert_violation _ d); [done|]. intros r [Hr|Hr%list_elem_of_singleton]%elem_of_app; [by apply Hd|].
    subst r. by intros.
  - revert w Hs. change (preserves (spent code) (DeviceRepo.Delete c id)).
    unfold DeviceRepo.Delete. pres. apply pres_stmt. intros d Hd. by apply (spent_delete_devices code).
  - revert w Hs. change (preserves (spent code) (UserRepo.Delete c id)).
    unfold UserRepo.Delete. pres. apply pres_stmt. intros d Hd. by apply (spent_delete_users code).
  - unfold spent. by rewrite Heq.
Qed.

Lemma wp_Consume_code c code dev now (Q : result EnrollmentCode -> World -> Prop) w :
  uniq_ok (d_codes (w_db w)) = true ->
  (forall e w', d_devices (w_db w') = d_devices (w_db w) -> Q (Err e) w') ->
  (forall row ec w', row ∈ d_codes (w_db w) -> rc_code row = code -> rc_used_at row = None ->
     now < rc_expires_at row -> d_devices (w_db w') = d_devices (w_db w) -> spent code (w_db w') -> Q (Ok ec) w') ->
  wp (EnrollmentCodeRepo.Consume c code dev now) Q w.
Proof.
  intros Huniq He HQ. unfold EnrollmentCodeRepo.Consume, EnrollmentCodeRepo.Get.
  wp_step. wp_step; [by apply He|by intros; apply He|]. wp_step. wp_step; [by apply He|].
  destruct (Nat.eqb_spec (rows_matched (EnrollmentCodeRepo.live code now) (rows (w_db w))) 0) as [_|Hn];
    [by wp_step; apply He|].
  apply rows_matched_pos in Hn as (row & Hrow & Hl). apply wp_get_one; [by apply He|by intros; apply He|].
  intros r _. pose proof Hl as Hl'. unfold EnrollmentCodeRepo.live in Hl'.
  rewrite !andb_true_iff, str_eq_true, bool_decide_eq_true, Z.ltb_lt in Hl'.
  destruct Hl' as [[Hc Hu] Hx]. apply (HQ row); [done..|]. 
  intros x (r0 & Hin & ->)%elem_of_rows_update Hr.
  assert (r0 = row) as ->; [|by rewrite Hl].
  eapply (key_row rc_code); [exact key_code|exact Huniq|done|done|].
  destruct (EnrollmentCodeRepo.live code now r0); simpl in Hr; congruence.
Qed.

Lemma consume_spends c code dev now w ec w' :
  wf_db (w_db w) -> EnrollmentCodeRepo.Consume c code dev now w = (Ok ec, w') ->
  (exists row, row ∈ d_codes (w_db w) /\ rc_code row = code /\ rc_used_at row = None /\ now < rc_expires_at row) /\
  spent code (w_db w').
Proof.
  intros Hwf Hrun.
  assert (Hw : wp (EnrollmentCodeRepo.Consume c code dev now) (fun r w' => r = Ok ec ->
    (exists row, row ∈ d_codes (w_db w) /\ rc_code row = code /\ rc_used_at row = None /\
       now < rc_expires_at row) /\ spent code (w_db w')) w); [|by apply (wp_elim _ _ _ _ _ Hw Hrun)].
  apply wp_Consume_code; [by destruct (wf_codes _ Hwf)|done|].
  intros row ec' w1 Hrow Hc Hu Hx _ Hs _. split; [by exists row|done].
Qed.

Lemma spent_never c code dev now w :
  spent code (w_db w) -> wp (EnrollmentCodeRepo.Consume c code dev now) (fun r _ => forall ec, r <> Ok ec) w.
Proof.
  intros Hs. unfold EnrollmentCodeRepo.Consume, EnrollmentCodeRepo.Get. wp_step. wp_step; [done|done|].
  wp_step. wp_step; [done|].
  destruct (Nat.eqb_spec (rows_matched (EnrollmentCodeRepo.live code now) (rows (w_db w))) 0) as [_|Hn];
    [by wp_step|].
  apply rows_matched_pos in Hn as (row & Hrow & Hl). unfold EnrollmentCodeRepo.live in Hl.
  rewrite !andb_true_iff, str_eq_true, bool_decide_eq_true in Hl. destruct Hl as [[Hc Hu] _].
  by destruct (Hs row Hrow Hc).
Qed.

(** C13: an enrollment code is consumed at most once: a successful Consume finds
    the code unused and unexpired, and after it, whatever the program does with
    the codes table next (other consumes, pruning, new codes, device and user
    deletions with their cascades, in any number and order), no Consume of the
    same code succeeds. *)
Theorem enrollment_code_single_use (c1 c2 : ctx) (code dev1 dev2 : string) (t1 t2 : Z) (w1 w1' w2 : World)
    (ec : EnrollmentCode) (Hwf : wf_db (w_db w1))
    (H1 : EnrollmentCodeRepo.Consume c1 code dev1 t1 w1 = (Ok ec, w1'))
    (Hsteps : rtc (code_step code) w1' w2) :
  (exists row, row ∈ d_codes (w_db w1) /\ rc_code row = code /\ rc_used_at row = None /\ t1 < rc_expires_at row) /\
  wp (EnrollmentCodeRepo.Consume c2 code dev2 t2) (fun r _ => forall ec', r <> Ok ec') w2.
Proof.
  destruct (consume_spends _ _ _ _ _ _ _ Hwf H1) as [Hlive Hspent]. split; [exact Hlive|].
  assert (Hs2 : spent code (w_db w2)).
  { clear H1. induction Hsteps as [x|x y z Hxy _ IH]; [done|]. apply IH. by eapply spent_step. }
  by apply spent_never.
Qed.
Lemma enrollment_code_single_use_witness :
  (EnrollmentCodeRepo.Consume background "code" "d2" 1000 demo_world).1 =
    Ok (MkEnrollmentCode "code" "u2" "tablet" 2000 1000 "d2") /\
  forall ec', (EnrollmentCodeRepo.Consume background "code" "d1" 1500
    (DeviceRepo.Delete background "d2"
      (EnrollmentCodeRepo.Consume background "code" "d2" 1000 demo_world).2).2).1 <> Ok ec'.
Proof.
  assert (Hr : (EnrollmentCodeRepo.Consume background "code" "d2" 1000 demo_world).1 =
    Ok (MkEnrollmentCode "code" "u2" "tablet" 2000 1000 "d2")) by (vm_compute; reflexivity).
  split; [exact Hr|].
  refine (proj2 (enrollment_code_single_use background background "code" "d2" "d1" 1000 1500 demo_world
    (EnrollmentCodeRepo.Consume background "code" "d2" 1000 demo_world).2 _ _ demo_wf (run_eq _ _ Hr) _)).
  refine (rtc_once _ _ (step_delete_device _ _ _ _)).
Defined.

(** ** Enrollment leaves no orphan *)

Section Enrollment.
Context `{Crypto}.

Lemma insert_fresh_device d r :
  insert_violation r d = None -> rd_id r ∉ rd_id <$> d_devices d.
Proof.
  intros Hi Hin. apply insert_row_ok in Hi as [Hu _]. apply (uniq_NoDup rd_id) in Hu; [|exact key_device].
  change (rows d) with (d_devices d) in Hu.
  rewrite fmap_app in Hu. apply NoDup_app in Hu as (_ & Hd & _). apply (Hd _ Hin). by left.
Qed.

Lemma wp_createSealedDevice key c userID label meta (Q : result (Device * string) -> World -> Prop) w :
  (forall e w', w_db w' = w_db w -> w_mem w' = w_mem w -> Q (Err e) w') ->
  (forall dev secret w', w_db w' = setd_devices (d_devices (w_db w) ++ [deviceToRow dev]) (w_db w) ->
     w_mem w' = w_mem w -> dev_ID dev ∉ rd_id <$> d_devices (w_db w) ->
     dev_UserID dev = userID -> dev_Label dev = label -> Q (Ok (dev, secret)) w') ->
  wp (createSealedDevice key c userID label meta) Q w.
Proof.
  intros He HQ. unfold createSealedDevice, GenerateSecret, SealSecret, newGCM, DeviceRepo.Create.
  wp_step. wp_step; [|by apply He]. wp_step. wp_step.
  destruct (Nat.eqb _ 32); [wp_step|by wp_step; apply He].
  wp_step. wp_step; [|by apply He]. wp_step. wp_step. wp_step. simpl. wp_step. wp_step. wp_step. wp_step. wp_step.
  wp_step.
  - by apply He.
  - by apply He.
  - wp_step. wp_step. match goal with Hi : insert_violation _ _ = None |- _ => pose proof (insert_fresh_device _ _ Hi) as Hni end.
    by apply HQ.
Qed.

Lemma delete_devices_restores id (l : list device_row) r d :
  d_devices d = l ++ [r] -> rd_id r = id -> id ∉ rd_id <$> l ->
  d_devices (delete_devices (fun x => str_eq (rd_id x) id) d) = l.
Proof.
  intros Hd Hid Hni. unfold delete_devices. simpl. rewrite Hd. unfold rows_delete.
  rewrite List.filter_app. simpl. rewrite Hid, str_eq_refl. simpl. rewrite app_nil_r.
  apply bfilter_all. intros x Hx. apply negb_true_iff, not_true_iff_false. intros Heq%str_eq_true.
  apply Hni. rewrite <- Heq. apply list_elem_of_fmap. eauto.
Qed.

Definition orphan_warning : output := OWarn "enrollment compensating delete failed".

Lemma wp_rollback c id l r (Q : result unit -> World -> Prop) w :
  d_devices (w_db w) = l ++ [r] -> rd_id r = id -> id ∉ rd_id <$> l ->
  (forall w', d_devices (w_db w') = l \/ orphan_warning ∈ m_out (w_mem w') -> Q (Ok tt) w') ->
  wp (rollbackDevice c id) Q w.
Proof.
  intros Hd Hid Hni HQ. unfold rollbackDevice, DeviceRepo.Delete.
  assert (Hwarn : forall w', wp (log_warn "enrollment compensating delete failed") Q w').
  { intros w'. unfold log_warn, emit, wp. apply HQ. right. simpl. apply elem_of_app. right. by left. }
  wp_step. wp_step. wp_step. wp_step; [apply Hwarn|].
  apply wp_requireMatched; [apply Hwarn|intros _; apply Hwarn|].
  intros _. wp_step. apply HQ. left. by eapply delete_devices_restores.
Qed.

(** What an enrollment by code leaves behind. *)
Definition enrolled (code : string) (w : World) (r : result EnrollResult) (w' : World) : Prop :=
  match r with
  | Ok res => exists row dev step, row ∈ d_codes (w_db w) /\ rc_code row = code /\
      rc_used_at row = None /\ e_clock (w_env w) step < rc_expires_at row /\
      d_devices (w_db w') = d_devices (w_db w) ++ [dev] /\ rd_id dev = er_DeviceID res /\
      rd_user_id dev = rc_user_id row /\ rd_label dev = rc_label row /\ spent code (w_db w')
  | Err _ => d_devices (w_db w') = d_devices (w_db w) \/ orphan_warning ∈ m_out (w_mem w')
  | Panic => False
  end.

Lemma wp_log {A} (Q : result A -> World -> Prop) e (k : M A) w :
  (forall w2, w_db w2 = w_db w -> m_out (w_mem w2) = m_out (w_mem w) ++ [OWarn e] -> wp k Q w2) ->
  wp (log_warn e;; k) Q w.
Proof. intros Hk. wp_step. by apply Hk. Qed.

Lemma enrolled_fail code w e w' :
  d_devices (w_db w') = d_devices (w_db w) \/ orphan_warning ∈ m_out (w_mem w') ->
  wp (fail e) (enrolled code w) w'.
Proof. intros H'. by wp_step. Qed.

Lemma enrolled_log_fail code w msg e w' :
  d_devices (w_db w') = d_devices (w_db w) \/ orphan_warning ∈ m_out (w_mem w') ->
  wp (log_warn msg;; fail e) (enrolled code w) w'.
Proof.
  intros Hd. apply wp_log. intros w2 H2 Ho. apply enrolled_fail. rewrite H2, Ho.
  destruct Hd; [by left|right]. apply elem_of_app. by left.
Qed.

Lemma enrolled_maybe_log (b : bool) code w msg e w' :
  d_devices (w_db w') = d_devices (w_db w) \/ orphan_warning ∈ m_out (w_mem w') ->
  wp ((if b then log_warn msg else mret tt);; fail e) (enrolled code w) w'.
Proof. destruct b; [by apply enrolled_log_fail|intros Hd; wp_step; wp_step; by apply enrolled_fail]. Qed.

Lemma enrolled_conflict c code code' w e w' :
  d_devices (w_db w') = d_devices (w_db w) ->
  wp (conflictRejection c code' e) (enrolled code w) w'.
Proof.
  intros Hd. unfold conflictRejection, EnrollmentCodeRepo.Get. wp_step. wp_step.
  apply wp_get_one; [|intros _|intros fresh _]; cbv iota; try (by apply enrolled_log_fail; left).
  destruct (negb _); by apply enrolled_log_fail; left.
Qed.

Lemma enrolled_rollback c code w e dev w' :
  d_devices (w_db w') = d_devices (w_db w) ++ [deviceToRow dev] -> dev_ID dev ∉ rd_id <$> d_devices (w_db w) ->
  wp (rollbackDevice c (dev_ID dev);;
      (if bool_decide (e = ErrNotFound) then log_warn "lost_race" else mret tt);; fail e) (enrolled code w) w'.
Proof.
  intros Hd Hni. wp_step. eapply wp_rollback; [exact Hd|done|done|]. intros w2 H2. by apply enrolled_maybe_log.
Qed.

End Enrollment.


(** ** The life of a feed token *)

Section FeedTokens.
Context `{Crypto}.

Lemma prefix_app p s : String.prefix p (p ++ s) = true.
Proof. induction p as [|a p IH]; simpl; [by destruct s|]. by destruct (ascii_dec a a). Qed.

(** The token table after a mint. *)
Definition holds_token (tok : FeedToken) (pt : string) (d : DB) : Prop :=
  uniq_ok (d_feed_tokens d) = true /\
  exists r, r ∈ d_feed_tokens d /\ rf_id r = ft_ID tok /\ rf_token_hash r = HashToken pt /\
    rf_label r = ft_Label tok.

Lemma key_token_hash : is_key rf_token_hash.
Proof. right. right. by left. Qed.

Lemma wp_AuthenticateToken c pt (Q : result FeedToken -> World -> Prop) w :
  has_prefix pt FeedTokenPrefix = true ->
  (forall w', Q (Err ErrDriver) w') ->
  (List.find (fun r => str_eq (rf_token_hash r) (HashToken pt)) (d_feed_tokens (w_db w)) = None ->
    forall w', Q (Err ErrNotFound) w') ->
  (forall r tok w', List.find (fun r => str_eq (rf_token_hash r) (HashToken pt)) (d_feed_tokens (w_db w)) = Some r ->
    ft_ID tok = rf_id r -> ft_Label tok = rf_label r -> Q (Ok tok) w') ->
  wp (AuthenticateToken c pt) Q w.
Proof.
  intros Hp He Hn HQ. unfold AuthenticateToken, FeedTokenRepo.GetByHash. rewrite Hp. simpl negb. cbv iota.
  wp_step. apply wp_get_one; [by apply He|intros Hf; by apply Hn|]. intros r Hf.
  do 4 wp_step. destruct (throttle _ _ _) as [due touched]. wp_step. wp_step.
  destruct due; [|wp_step; by eapply HQ].
  unfold FeedTokenRepo.TouchLastUsed. do 4 wp_step; wp_step; by eapply HQ.
Qed.

Lemma holds_token_find tok pt d :
  holds_token tok pt d -> exists r,
    List.find (fun r => str_eq (rf_token_hash r) (HashToken pt)) (d_feed_tokens d) = Some r /\
    rf_id r = ft_ID tok /\ rf_label r = ft_Label tok.
Proof.
  intros (Hu & r & Hr & Hid & Hh & Hlab). exists r. split; [|done]. rewrite <- Hh.
  apply (find_unique (H:=feed_tokens_table) rf_token_hash); [exact key_token_hash|done|done].
Qed.

Lemma revoked_find tok pt d :
  holds_token tok pt d ->
  List.find (fun r => str_eq (rf_token_hash r) (HashToken pt))
    (rows_delete (fun r => str_eq (rf_id r) (ft_ID tok)) (d_feed_tokens d)) = None.
Proof.
  intros (Hu & r & Hr & Hid & Hh & _). apply find_none_iff.
  intros x [Hx Hne]%elem_of_rows_delete. apply not_true_iff_false. intros Hxh%str_eq_true.
  assert (x = r) as ->.
  { eapply (key_row (H:=feed_tokens_table) rf_token_hash); [exact key_token_hash|done|done|done|congruence]. }
  by rewrite Hid, str_eq_refl in Hne.
Qed.

Lemma revoke_kills c2 c3 actor tok pt w1 :
  holds_token tok pt (w_db w1) -> has_prefix pt FeedTokenPrefix = true ->
  wp (RevokeToken c2 actor (ft_ID tok)) (fun r2 w2 => r2 = Ok tt ->
    OCloseToken (ft_ID tok) ∈ m_out (w_mem w2) /\
    wp (AuthenticateToken c3 pt) (fun r3 _ => r3 = Err ErrDriver \/ r3 = Err ErrNotFound) w2) w1.
Proof.
  intros Hh Hp. unfold RevokeToken, FeedTokenRepo.Delete. wp_step. wp_step. wp_step; [done|].
  apply wp_requireMatched; [done|done|intros _]. do 5 wp_step. unfold emit at 1, wp at 1. cbn [fst snd].
  apply wp_AuditLog. intros w2 [Hm2 (ar & seq & Hd2)] _. split.
  - rewrite Hm2. simpl. apply elem_of_app. right. by left.
  - apply wp_AuthenticateToken; [done|by left|by right|]. intros r tok' w' Hf.
    rewrite Hd2 in Hf. simpl in Hf. by rewrite revoked_find in Hf.
Qed.

(** A feed token lives from its mint to its revocation: the plaintext that
    MintToken returns authenticates as that token (a driver fault apart), its
    hash and not the plaintext is what the table holds, and once RevokeToken
    has succeeded the live streams of the token are told to close and the
    plaintext never authenticates again. *)
Theorem feed_token_lifecycle (c c1 c2 c3 : ctx) (actor actor' label : string) (w : World) :
  wp (MintToken c actor label) (fun r w1 => match r with
    | Ok (tok, pt) => holds_token tok pt (w_db w1) /\ ft_TokenHash tok = HashToken pt /\
        wp (AuthenticateToken c1 pt) (fun r1 _ => r1 = Err ErrDriver \/
          exists tok', r1 = Ok tok' /\ ft_ID tok' = ft_ID tok /\ ft_Label tok' = ft_Label tok) w1 /\
        wp (RevokeToken c2 actor' (ft_ID tok)) (fun r2 w2 => r2 = Ok tt ->
          OCloseToken (ft_ID tok) ∈ m_out (w_mem w2) /\
          wp (AuthenticateToken c3 pt) (fun r3 _ => r3 = Err ErrDriver \/ r3 = Err ErrNotFound) w2) w1
    | Err _ => d_feed_tokens (w_db w1) = d_feed_tokens (w_db w)
    | Panic => False
    end) w.
Proof.
  unfold MintToken, FeedTokenRepo.Create, RandToken.
  destruct (str_eq (trim_space label) EmptyString); [by wp_step|].
  wp_step. wp_step. wp_step; [|done]. wp_step. cbv zeta. do 4 wp_step. wp_step. wp_step. wp_step; [done|done|].
  match goal with Hi : insert_violation ?r _ = None |- _ => apply insert_row_ok in Hi as [Hu _]; set (row := r) in * end.
  wp_step. apply wp_AuditLog. intros w1 [Hm1 (ar & seq & Hd1)]. wp_step.
  match goal with |- holds_token ?t ?p _ /\ _ => set (tok := t); set (pt := p) end.
  assert (Hh : holds_token tok pt (w_db w1)).
  { rewrite Hd1. split; [exact Hu|]. exists row. split; [|done]. apply elem_of_app. right. by left. }
  assert (Hp : has_prefix pt FeedTokenPrefix = true) by apply prefix_app.
  split; [exact Hh|]. split; [done|]. split; [|by apply revoke_kills].
  destruct (holds_token_find _ _ _ Hh) as (r & Hf & Hid & Hl).
  apply wp_AuthenticateToken; [done|by left|congruence|].
  intros r' tok' w' Hf' Hid' Hl'. right. exists tok'. split; [done|]. rewrite Hid', Hl'.
  assert (r' = r) as -> by congruence. done.
Qed.
End FeedTokens.

(** ** The pace of device-flow polls *)

Section DeviceFlow.
Import OIDCDeviceFlowRepo.

(** Every row of the flow was last polled at [t] and has interval [i]. *)
Definition paced (flow : string) (t i : Z) (d : DB) : Prop :=
  forall f, f ∈ d_flows d -> fl_FlowID f = flow -> fl_LastPolledAt f = t /\ fl_Interval f = i.

Lemma paced_refuses c flow t i t2 w :
  paced flow t i (w_db w) -> t2 - t < i ->
  wp (TryPoll c flow t2) (fun r _ => forall f, r <> Ok (f, true)) w.
Proof.
  intros Hp Ht. unfold TryPoll, Get. wp_step. wp_step; [done|]. wp_step. wp_step; [done|]. wp_step.
  apply wp_get_one; [done|done|]. intros f _.
  assert (Hz : rows_matched (pollable flow t2) (rows (w_db w)) = 0%nat).
  { apply rows_matched_zero. intros r Hr. unfold pollable. destruct (str_eq (fl_FlowID r) flow) eqn:He; [|done].
    apply str_eq_true in He. destruct (Hp r Hr He) as [-> ->]. lia. }
  rewrite Hz. destruct (_ <=? _); by wp_step.
Qed.

Definition polled (now : Z) (f : OIDCDeviceFlow) : OIDCDeviceFlow :=
  MkOIDCDeviceFlow (fl_FlowID f) (fl_DeviceCode f) (fl_Interval f) (fl_ExpiresAt f) now (fl_CreatedAt f).

(** Polls of a device-authorization flow keep their pace: a poll is
    admitted only for an unexpired flow whose interval has elapsed since the
    last admitted poll, the admitted poll is recorded, and the next one is
    refused until the interval (as raised by any slow_down in between) has
    elapsed again, whatever the faults. *)
Theorem TryPoll_paces (c1 c2 c3 : ctx) (flow : string) (t1 delta : Z) (w : World) (Hwf : wf_db (w_db w)) :
  wp (TryPoll c1 flow t1) (fun r w1 => match r with
    | Ok (f, true) =>
        (exists f0, f0 ∈ d_flows (w_db w) /\ fl_FlowID f0 = flow /\ t1 < fl_ExpiresAt f0 /\
           fl_Interval f0 <= t1 - fl_LastPolledAt f0 /\ f = polled t1 f0) /\
        (forall t2, t2 - t1 < fl_Interval f ->
           wp (TryPoll c2 flow t2) (fun r2 _ => forall f', r2 <> Ok (f', true)) w1) /\
        wp (BumpInterval c3 flow delta) (fun r' w1' => r' = Ok tt ->
           forall t2, t2 - t1 < fl_Interval f + delta ->
             wp (TryPoll c2 flow t2) (fun r2 _ => forall f', r2 <> Ok (f', true)) w1') w1
    | Ok (_, false) => w_db w1 = w_db w
    | Err _ => True
    | Panic => False
    end) w.
Proof.
  assert (Hu : uniq_ok (d_flows (w_db w)) = true) by (by destruct (wf_flows _ Hwf)).
  unfold TryPoll at 1, Get. wp_step. wp_step; [done|]. wp_step. wp_step; [done|]. wp_step.
  change (fun f => MkOIDCDeviceFlow (fl_FlowID f) (fl_DeviceCode f) (fl_Interval f) (fl_ExpiresAt f) t1
    (fl_CreatedAt f)) with (polled t1).
  set (n := rows_matched (pollable flow t1) (rows (w_db w))).
  apply wp_get_one; [done|done|]. intros f Hf. destruct (_ <=? _); [by wp_step|]. wp_step.
  destruct (Nat.eqb_spec n 1) as [Hn|Hn].
  - assert (Hpos : n <> 0%nat) by lia. apply rows_matched_pos in Hpos as (f0 & Hf0 & Hp).
    pose proof Hp as Hp'. unfold pollable in Hp'. rewrite !andb_true_iff, str_eq_true, Z.ltb_lt, Z.leb_le in Hp'.
    destruct Hp' as [[Hid Hexp] Hint].
    assert (Hone : forall r, r ∈ d_flows (w_db w) -> fl_FlowID r = flow -> r = f0).
    { intros r Hr Hrid. eapply (key_row fl_FlowID); [exact key_flow|exact Hu|done|done|congruence]. }
    assert (Hpaced : paced flow t1 (fl_Interval f0)
      (setd_flows (rows_update (pollable flow t1) (polled t1) (d_flows (w_db w))) (w_db w))).
    { intros r (r0 & Hr0 & ->)%elem_of_rows_update Hrid.
      assert (r0 = f0) as ->; [|by rewrite Hp]. apply Hone; [done|]. by destruct (pollable flow t1 r0). }
    apply find_some_iff in Hf as [Hfin Hfid%str_eq_true]. unfold id.
    assert (Hff : f = polled t1 f0).
    { apply elem_of_rows_update in Hfin as (r0 & Hr0 & ->).
      assert (r0 = f0) as ->; [|by rewrite Hp]. apply Hone; [done|]. by destruct (pollable flow t1 r0). }
    rewrite Hff. split; [by exists f0|]. split; [intros t2 Ht; by eapply paced_refuses|].
    unfold BumpInterval. wp_step. wp_step; [done|]. wp_step. intros _ t2 Ht.
    eapply (paced_refuses _ _ t1 (fl_Interval f0 + delta)); [|exact Ht].
    intros r (r0 & Hr0 & ->)%elem_of_rows_update Hrid.
    assert (Hr0id : fl_FlowID r0 = flow) by (by destruct (str_eq (fl_FlowID r0) flow)).
    rewrite Hr0id, str_eq_refl. destruct (Hpaced _ Hr0 Hr0id) as [<- <-]. done.
  - assert (Hz : n = 0%nat).
    { assert (n <= 1)%nat; [|lia]. apply (matched_le_one fl_FlowID _ flow); [exact key_flow|exact Hu|].
      intros r Hr. unfold pollable in Hr. rewrite !andb_true_iff, str_eq_true in Hr. tauto. }
    simpl. change (setd_flows (rows_update (pollable flow t1) (polled t1) (d_flows (w_db w))) (w_db w) = w_db w).
    rewrite rows_update_unmatched by exact Hz. by destruct (w_db w).
Qed.
Lemma TryPoll_paces_witness :
  let w0 := set_db (setd_flows [MkOIDCDeviceFlow "f" "dc" 5 2000 900 890] demo_db) demo_world in
  (TryPoll background "f" 1000 w0).1 = Ok (MkOIDCDeviceFlow "f" "dc" 5 2000 1000 890, true) /\
  forall f', (TryPoll background "f" 1004 (TryPoll background "f" 1000 w0).2).1 <> Ok (f', true).
Proof.
  intros w0.
  assert (Hr : (TryPoll background "f" 1000 w0).1 = Ok (MkOIDCDeviceFlow "f" "dc" 5 2000 1000 890, true))
    by (vm_compute; reflexivity).
  split; [exact Hr|].
  assert (Hwf : wf_db (w_db w0)) by (split; apply rows_okb_wf; vm_compute; reflexivity).
  pose proof (TryPoll_paces background background background "f" 1000 0 w0 Hwf) as H.
  unfold wp at 1 in H. rewrite Hr in H. destruct H as (_ & H & _).
  apply (H 1004). reflexivity.
Defined.
End DeviceFlow.

(** ** Registration status *)

Section RegistrationFacts.
Import AccountRecoveryRepo.

Lemma counts_spec (l : list credential_row) u :
  default 0%nat (foldr (fun r (m : gmap string nat) =>
      <[rw_user_id r := S (default 0%nat (m !! rw_user_id r))]> m) ∅ l !! u) =
  rows_matched (fun r => str_eq (rw_user_id r) u) l.
Proof.
  unfold rows_matched. induction l as [|r l IH]; simpl; [by rewrite lookup_empty|].
  destruct (str_eq (rw_user_id r) u) eqn:He.
  - apply str_eq_true in He as ->. rewrite lookup_insert_eq. simpl. by rewrite IH.
  - rewrite lookup_insert_ne; [exact IH|]. intros Heq. by rewrite Heq, str_eq_refl in He.
Qed.

Definition of_user (u : string) (r : recovery_row) : bool := str_eq (rr_user_id r) u.

Lemma put_live_fold (l : list recovery_row) m u :
  fold_left put_live l m !! u =
    match m !! u with
    | Some g => Some g
    | None => (fun r => MkLiveGrant (rr_reason r) (rr_expires_at r)) <$> head (List.filter (of_user u) l)
    end.
Proof.
  revert m. induction l as [|r l IH]; intros m; simpl; [by destruct (m !! u)|]. rewrite IH.
  unfold put_live, of_user. destruct (str_eq (rr_user_id r) u) eqn:He.
  - apply str_eq_true in He as <-. destruct (m !! rr_user_id r) eqn:Hm; rewrite ?Hm; [done|].
    by rewrite lookup_insert_eq.
  - assert (rr_user_id r <> u) by (intros Heq; by rewrite Heq, str_eq_refl in He).
    destruct (m !! rr_user_id r) eqn:Hm; [done|]. by rewrite lookup_insert_ne.
Qed.

Lemma live_order_total a b : live_order a b = true \/ live_order b a = true.
Proof.
  unfold live_order.
  destruct (str_eq (rr_user_id a) (rr_user_id b)) eqn:H1; destruct (str_eq (rr_user_id b) (rr_user_id a)) eqn:H2;
    rewrite ?str_eq_true in *; [lia| | |apply string_leb_total].
  - by rewrite H1, str_eq_refl in H2.
  - by rewrite H2, str_eq_refl in H1.
Qed.

Lemma live_order_trans a b c : live_order a b = true -> live_order b c = true -> live_order a c = true.
Proof.
  unfold live_order.
  destruct (str_eq (rr_user_id a) (rr_user_id b)) eqn:Hab; destruct (str_eq (rr_user_id b) (rr_user_id c)) eqn:Hbc;
    rewrite ?str_eq_true in *.
  - rewrite Hab, Hbc, str_eq_refl. lia.
  - rewrite Hab, Hbc. done.
  - rewrite <- Hbc, Hab. done.
  - intros H1 H2. pose proof (string_leb_trans _ _ _ H1 H2) as H3.
    destruct (str_eq (rr_user_id a) (rr_user_id c)) eqn:Hac; [|done]. exfalso.
    apply str_eq_true in Hac. rewrite <- Hac in H2.
    apply string_leb_lt in H1 as [H1|H1]; [|by rewrite H1, str_eq_refl in Hab].
    apply string_leb_lt in H2 as [H2|H2]; [|by rewrite H2, str_eq_refl in Hab].
    by eapply string_lt_irrefl, string_lt_trans.
Qed.

(** [a] is at least as good a grant as [b]: it lives longer, or as long and is
    a recovery if [b] is. *)
Definition at_least (a b : recovery_row) : Prop :=
  rr_expires_at b < rr_expires_at a \/
  (rr_expires_at a = rr_expires_at b /\ (rr_reason b = "recovery"%string -> rr_reason a = "recovery"%string)).

Lemma live_order_same a b : rr_user_id a = rr_user_id b -> live_order a b = true -> at_least a b.
Proof.
  unfold live_order, at_least. intros ->. rewrite str_eq_refl, orb_true_iff, andb_true_iff.
  intros [Hlt|[Heq Hr]]; [left; lia|right; split; [lia|]]. intros Hb.
  rewrite Hb, str_eq_refl in Hr. destruct (str_eq (rr_reason a) "recovery") eqn:Ha; [by apply str_eq_true|done].
Qed.

Lemma head_sorted (l : list recovery_row) u r :
  StronglySorted (fun a b => live_order a b = true) l -> head (List.filter (of_user u) l) = Some r ->
  forall x, x ∈ l -> rr_user_id x = u -> at_least r x.
Proof.
  induction 1 as [|a l Hs IH Hall]; [done|]. simpl. unfold of_user at 1.
  destruct (str_eq (rr_user_id a) u) eqn:Ha.
  - apply str_eq_true in Ha. intros [= <-] x [->|Hx]%elem_of_cons Hu.
    + right. split; [done|done].
    + rewrite Forall_forall in Hall. apply live_order_same; [congruence|by apply Hall].
  - intros Hh x [->|Hx]%elem_of_cons Hu; [by rewrite Hu, str_eq_refl in Ha|by apply IH].
Qed.

(** The user's live, unused grants. *)
Definition grant_of (now : Z) (u : string) (d : DB) (r : recovery_row) : Prop :=
  r ∈ d_recovery d /\ rr_user_id r = u /\ rr_used_at r = None /\ now < rr_expires_at r.

Lemma grants_elem now u d r :
  r ∈ List.filter (of_user u) (order_by live_order (List.filter (unused_live now) (d_recovery d))) <->
  grant_of now u d r.
Proof.
  rewrite elem_of_bfilter, elem_of_order_by, elem_of_bfilter. unfold of_user, unused_live, grant_of.
  rewrite str_eq_true, andb_true_iff, bool_decide_eq_true, Z.ltb_lt. tauto.
Qed.

Lemma live_lookup now u d :
  match fold_left put_live (order_by live_order (List.filter (unused_live now) (d_recovery d))) ∅ !! u with
  | None => forall r, ~ grant_of now u d r
  | Some g => exists r, grant_of now u d r /\ g = MkLiveGrant (rr_reason r) (rr_expires_at r) /\
      forall x, grant_of now u d x -> at_least r x
  end.
Proof.
  set (l := order_by live_order _). rewrite put_live_fold, lookup_empty.
  destruct (head (List.filter (of_user u) l)) as [r|] eqn:Hh; simpl.
  - assert (Hr : r ∈ List.filter (of_user u) l) by (destruct (List.filter _ l); [done|injection Hh as ->; left]).
    exists r. split; [by apply grants_elem|]. split; [done|]. intros x Hx. eapply head_sorted; [|exact Hh| |].
    + apply order_by_sorted; [apply live_order_total|apply live_order_trans].
    + apply grants_elem in Hx. by apply elem_of_bfilter in Hx as [? _].
    + by destruct Hx as (_ & ? & _).
  - intros r Hr%grants_elem. fold l in Hr. destruct (List.filter _ l); [by apply elem_of_nil in Hr|done].
Qed.

Lemma statuses_fold (users : list User) (f : User -> Registration) m u :
  NoDup (usr_ID <$> users) -> u ∈ users ->
  foldl (fun (out : gmap string Registration) u => <[usr_ID u := f u]> out) m users !! usr_ID u = Some (f u).
Proof.
  revert m. induction users as [|a users IH]; intros m; simpl; [by intros _ ?%elem_of_nil|].
  intros [Hni Hnd]%NoDup_cons [->|Hin]%elem_of_cons; [|by apply IH].
  assert (Hk : forall l m', usr_ID a ∉ usr_ID <$> l ->
    foldl (fun (out : gmap string Registration) u => <[usr_ID u := f u]> out) m' l !! usr_ID a = m' !! usr_ID a).
  { clear. induction l as [|b l IH]; intros m' Hn; simpl; [done|]. cbn [fmap list_fmap] in Hn.
    apply not_elem_of_cons in Hn as [Hne Hn]. rewrite IH by done. by rewrite lookup_insert_ne. }
  rewrite Hk by done. by rewrite lookup_insert_eq.
Qed.

(** The registration status is what the tables say: a user counts as
    registered exactly when they have a passkey or an OIDC subject; otherwise
    the status names their best live unused grant (the longest-lived, a
    recovery before an invitation at the same instant) with its expiry, and
    "link expired" exactly when there is none. *)
Theorem RegistrationStatuses_spec (c : ctx) (users : list User) (now : Z) (w : World)
    (Hq : quiet w c) (Hnd : NoDup (usr_ID <$> users)) :
  exists out, RegistrationStatuses c users now w = (Ok out, bump (bump w)) /\
    forall u, u ∈ users -> exists reg, out !! usr_ID u = Some reg /\
      (reg_Status reg = RegistrationRegistered <->
         (exists k, k ∈ d_credentials (w_db w) /\ rw_user_id k = usr_ID u) \/ usr_OIDCSubject u <> EmptyString) /\
      (reg_Status reg <> RegistrationRegistered ->
         (reg_Status reg = RegistrationLinkExpired <-> forall r, ~ grant_of now (usr_ID u) (w_db w) r) /\
         (reg_Status reg <> RegistrationLinkExpired ->
            exists r, grant_of now (usr_ID u) (w_db w) r /\ reg_LinkExpiresAt reg = rr_expires_at r /\
              (reg_Status reg = RegistrationRecoveryPending <-> rr_reason r = "recovery"%string) /\
              forall x, grant_of now (usr_ID u) (w_db w) x -> at_least r x)).
Proof.
  unfold RegistrationStatuses, WebAuthnCredentialRepo.CountAllByUser, LiveByUser.
  eexists. split.
  { erewrite bind_run; [|by apply query_quiet]. erewrite bind_run; [reflexivity|].
    erewrite bind_run; [|by apply query_quiet]. reflexivity. }
  intros u Hu. eexists. split; [by apply (statuses_fold users (fun u => deriveRegistration u _ _))|].
  simpl w_db. rewrite counts_spec. unfold deriveRegistration, IsRegistered.
  pose proof (live_lookup now (usr_ID u) (w_db w)) as Hlive.
  set (live := fold_left put_live _ ∅ !! usr_ID u) in *.
  assert (Hreg : negb (Nat.eqb (rows_matched (fun r => str_eq (rw_user_id r) (usr_ID u)) (d_credentials (w_db w))) 0)
      || is_set (usr_OIDCSubject u) = true <->
      (exists k, k ∈ d_credentials (w_db w) /\ rw_user_id k = usr_ID u) \/ usr_OIDCSubject u <> EmptyString).
  { rewrite orb_true_iff, negb_true_iff, Nat.eqb_neq, rows_matched_pos. unfold is_set.
    rewrite negb_true_iff, <- not_true_iff_false, str_eq_true. setoid_rewrite str_eq_true. done. }
  destruct (_ || _); cbn [reg_Status].
  { split; [tauto|done]. }
  assert (Hno : ~ ((exists k, k ∈ d_credentials (w_db w) /\ rw_user_id k = usr_ID u) \/ usr_OIDCSubject u <> EmptyString))
    by (intros Hx%Hreg; done).
  destruct live as [g|]; cbn [reg_Status].
  - destruct Hlive as (r & Hr & -> & Hbest). cbn [lg_Reason lg_ExpiresAt].
    assert (Hsome : ~ forall x, ~ grant_of now (usr_ID u) (w_db w) x) by (intros Hx; by destruct (Hx r)).
    destruct (str_eq (rr_reason r) "recovery") eqn:Hrec; cbn [reg_Status reg_LinkExpiresAt];
      (split; [split; [done|tauto]|]); intros _; (split; [split; [done|tauto]|]); intros _; exists r;
      (split; [done|]); (split; [done|]); (split; [|done]).
    + apply str_eq_true in Hrec. tauto.
    + split; [done|]. intros Heq. by rewrite Heq, str_eq_refl in Hrec.
  - split; [split; [done|tauto]|]. intros _. split; [tauto|done].
Qed.
Lemma RegistrationStatuses_spec_witness :
  exists out, RegistrationStatuses background [scanUser demo_user; scanUser demo_user2] 1000 demo_world =
    (Ok out, bump (bump demo_world)).
Proof.
  destruct (RegistrationStatuses_spec background [scanUser demo_user; scanUser demo_user2] 1000 demo_world
    demo_quiet) as (out & Hout & _).
  - apply (bool_decide_unpack _). vm_compute. exact I.
  - exists out. exact Hout.
Defined.
End RegistrationFacts.

(** ** Confirming an e-mail change *)

Section PendingEmail.
Import UserRepo.

Definition moved (now : Z) (r : user_row) : user_row :=
  UserRow (ru_id r) (default (ru_email r) (ru_pending_email r)) (ru_role r)
    (ru_oidc_provider r) (ru_oidc_subject r) (ru_disabled r) (ru_created_at r) now
    (ru_webauthn_handle r) None None None.

(** The user has a pending change that this token confirms at [now]. *)
Definition confirmable (userID tokenHash : string) (now : Z) (new : string) (r : user_row) : Prop :=
  ru_id r = userID /\ ru_pending_email r = Some new /\ ru_pending_token_hash r = Some tokenHash /\
  exists e, ru_pending_expires r = Some e /\ now < e.

Lemma live_pending_spec userID tokenHash now r :
  live_pending userID tokenHash now r = true <-> exists new, confirmable userID tokenHash now new r.
Proof.
  unfold live_pending, confirmable. rewrite !andb_true_iff, str_eq_true, !bool_decide_eq_true. split.
  - intros [[[Hid [new Hnew]] Hh] He]. exists new. split_and!; try done.
    destruct (ru_pending_expires r) as [e|]; [|done]. exists e. split; [done|lia].
  - intros (new & Hid & Hnew & Hh & e & He & Hlt). rewrite He. split_and!; try done; lia.
Qed.

Lemma no_pending_refused c userID h now w :
  (forall r, r ∈ d_users (w_db w) -> ru_id r = userID -> ru_pending_email r = None) ->
  wp (ConfirmPendingEmail c userID h now) (fun r _ => r <> Ok tt) w.
Proof.
  intros Hn. unfold ConfirmPendingEmail. wp_step. wp_step. wp_step; [done|done|].
  apply wp_requireMatched; [done|done|]. intros (r & Hr & (new & Hid & Hnew & _)%live_pending_spec)%rows_matched_pos.
  by rewrite (Hn r Hr Hid) in Hnew.
Qed.

(** An e-mail change is confirmed only by its own live token: success
    needs a user row holding exactly this token hash, unexpired, moves exactly
    that user's pending address into place, clears the pending change and
    leaves every other user as it was, and no second confirmation for the user
    succeeds until a new change is requested; the answer "not found" means
    there was no such live token, and a conflict leaves the database alone. *)
Theorem ConfirmPendingEmail_spec (c c2 : ctx) (userID h h2 : string) (now t2 : Z) (w : World)
    (Hwf : wf_db (w_db w)) :
  wp (ConfirmPendingEmail c userID h now) (fun r w' => match r with
    | Ok _ => (exists row new, row ∈ d_users (w_db w) /\ confirmable userID h now new row /\
          ru_email (moved now row) = new /\
          d_users (w_db w') = rows_update (fun r => str_eq (ru_id r) userID) (moved now) (d_users (w_db w))) /\
        wp (ConfirmPendingEmail c2 userID h2 t2) (fun r2 _ => r2 <> Ok tt) w'
    | Err ErrNotFound => w_db w' = w_db w /\
        forall row new, row ∈ d_users (w_db w) -> ~ confirmable userID h now new row
    | Err ErrDriver => True
    | Err _ => w_db w' = w_db w
    | Panic => False
    end) w.
Proof.
  unfold ConfirmPendingEmail at 1. fold (moved now). wp_step. wp_step. wp_step.
  - done.
  - unfold update_violation in *. intros. by repeat case_match; simplify_eq.
  - apply wp_requireMatched; [done| |].
    + intros Hz. split.
      * simpl. rewrite rows_update_unmatched by exact Hz. by destruct w as [? ? [] ?].
      * intros row new Hrow Hc. rewrite rows_matched_zero in Hz. specialize (Hz row Hrow).
        rewrite (proj2 (live_pending_spec userID h now row)) in Hz by (by exists new). done.
    + intros (row & Hrow & Hl)%rows_matched_pos. pose proof Hl as (new & Hc)%live_pending_spec.
      assert (Hone : forall r, r ∈ d_users (w_db w) -> live_pending userID h now r = str_eq (ru_id r) userID).
      { intros r Hr. destruct (str_eq (ru_id r) userID) eqn:He.
        - apply str_eq_true in He. assert (r = row) as ->; [|done].
          destruct Hc as [Hid _]. eapply (key_row ru_id); [exact key_user|by destruct (wf_users _ Hwf)|done|done|congruence].
        - unfold live_pending. by rewrite He. }
      assert (Hupd : rows_update (live_pending userID h now) (moved now) (d_users (w_db w)) =
                     rows_update (fun r => str_eq (ru_id r) userID) (moved now) (d_users (w_db w))).
      { unfold rows_update. apply list_fmap_ext. intros i r Hr. rewrite (Hone r) by (by eapply list_elem_of_lookup_2). done. }
      split.
      * exists row, new. split; [done|]. split; [done|]. split; [|exact Hupd].
        destruct Hc as (_ & Hnew & _). simpl. by rewrite Hnew.
      * apply no_pending_refused. simpl. rewrite Hupd.
        intros r (r0 & Hr0 & ->)%elem_of_rows_update Hid.
        destruct (str_eq (ru_id r0) userID) eqn:He; [done|]. by rewrite Hid, str_eq_refl in He.
Qed.
Lemma ConfirmPendingEmail_spec_witness :
  (ConfirmPendingEmail background "u1" "hash" 1000 demo_world).1 = Ok tt /\
  (ConfirmPendingEmail background "u1" "hash" 1001 (ConfirmPendingEmail background "u1" "hash" 1000 demo_world).2).1 <> Ok tt.
Proof.
  assert (Hr : (ConfirmPendingEmail background "u1" "hash" 1000 demo_world).1 = Ok tt) by (vm_compute; reflexivity).
  split; [exact Hr|].
  pose proof (ConfirmPendingEmail_spec background background "u1" "hash" "hash" 1000 1001 demo_world demo_wf) as H.
  unfold wp at 1 in H. rewrite Hr in H. exact (proj2 H).
Defined.
End PendingEmail.
