(* ===== verification/Notify.v ===== *)
(** * internal/server/notify: destination policy, payloads, outbox worker

    The destination policy (policy.go), the wire payloads (payload.go), the
    enqueuer (enqueue.go) and the delivery worker (worker.go).

    Parameters: [url_scheme] is the scheme url.Parse finds, [None] for a parse
    error; [send] is the guarded HTTP client: the
    outcome of the request made at a step; [jitter] is the multiplication of a
    duration by 0.9 + 0.2 * randFloat().  Metrics and log lines are left out. *)

From S2P Require Import Prelude GoLib JsonText Dates Schema Integrity Effects NetAddr Demo StoreDevices StoreTokens.
From S2P Require Import StoreNotify Auth ServiceDevices.
From Stdlib Require Import Ascii.

(** ** policy.go *)

(** netip.MustParsePrefix of the literals; [denied_literals] says none panics. *)
Definition deniedCIDRs : list string :=
  [ "0.0.0.0/8"; "10.0.0.0/8"; "100.64.0.0/10"; "127.0.0.0/8";
    "169.254.0.0/16"; "172.16.0.0/12"; "192.0.0.0/24"; "192.0.2.0/24";
    "192.31.196.0/24"; "192.52.193.0/24"; "192.88.99.0/24"; "192.168.0.0/16";
    "192.175.48.0/24"; "198.18.0.0/15"; "198.51.100.0/24"; "203.0.113.0/24";
    "240.0.0.0/4";
    "::1/128"; "::/128"; "::ffff:0:0/96"; "64:ff9b::/96";
    "64:ff9b:1::/48"; "100::/64"; "100:0:0:1::/64"; "2001::/23";
    "2001:db8::/32"; "2002::/16"; "2620:4f:8000::/48"; "3fff::/20";
    "5f00::/16"; "fc00::/7"; "fe80::/10";
    "::/96"; "fec0::/10"; "::ffff:0:0:0/96" ]%string.

Definition denied : list prefix := Eval vm_compute in omap parse_prefix deniedCIDRs.

Lemma denied_literals : parse_prefix <$> deniedCIDRs = Some <$> denied.
Proof. vm_compute. reflexivity. Qed.

Definition matchPrefix (ps : list prefix) (a : addr) : option prefix := List.find (fun p => contains p a) ps.

Definition containsAddr (ps : list prefix) (a : addr) : bool := bool_decide (is_Some (matchPrefix ps a)).

(** Why an address is denied; [None] is permission (the nil error). *)
Inductive denial := DeniedZoned | DeniedNotGlobal | DeniedBy (p : prefix) | DeniedHTTP | DeniedScheme.

Definition Permit (scheme : string) (a : addr) (allowed : list prefix) : option denial :=
  if negb (str_eq (zone a) EmptyString) then Some DeniedZoned
  else
    let a := unmap a in
    let by_scheme :=
      if str_eq scheme "https" then None
      else if str_eq scheme "http" then (if is_loopback a then None else Some DeniedHTTP)
      else Some DeniedScheme in
    if negb (containsAddr allowed a) then
      if negb (is_global_unicast a) then Some DeniedNotGlobal
      else match matchPrefix denied a with
           | Some p => Some (DeniedBy p)
           | None => by_scheme
           end
    else by_scheme.

(** client.go: the guard of the dialer, on the address about to be dialed. *)
Inductive dial_error := DialUnparsed | DialDenied (d : denial).

Definition dialControl (scheme : string) (allowed : list prefix) (address : string) : option dial_error :=
  match parse_addr_port address with
  | None => Some DialUnparsed
  | Some (a, _) => DialDenied <$> Permit scheme a allowed
  end.

(** ** payload.go *)

Definition EventIPChanged : string := "device.ip_changed".
Definition EventAdded : string := "device.added".
Definition EventRemoved : string := "device.removed".
Definition EventTest : string := "endpoint.test".

Record addrs := MkAddrs { a_IPv4 : option string; a_IPv6 : option string }.
Record event := MkEvent {
  e_Version : Z; e_Type : string; e_ID : Z; e_OccurredAt : string;
  e_Device : option (string * string);      (* id, label *)
  e_Changed : list string; e_Current : addrs; e_Previous : addrs }.

Definition payloadVersion : Z := 1.
Definition no_addrs : addrs := MkAddrs None None.

(** nil for the empty string *)
Definition nullable (s : string) : option string := if str_eq s EmptyString then None else Some s.

Definition familiesPresent (d : Device) : list string :=
  (if is_set (dev_CurrentIPv4 d) then ["ipv4"%string] else []) ++
  (if is_set (dev_CurrentIPv6 d) then ["ipv6"%string] else []).

Definition quote : string := String "034"%char EmptyString.

Definition rfc3339 (unix : Z) : string := format_rfc3339 unix.

Definition json_addrs (a : addrs) : string :=
    json_object [json_field "ipv4" (json_nullable (a_IPv4 a)); json_field "ipv6" (json_nullable (a_IPv6 a))].

  (** encoding/json of the event: the struct's fields in order. *)
Definition marshal (e : event) : string :=
    json_object
      [ json_field "version" (format_int (e_Version e));
        json_field "type" (json_quote (e_Type e));
        json_field "id" (format_int (e_ID e));
        json_field "occurred_at" (json_quote (e_OccurredAt e));
        json_field "device" (match e_Device e with
          | None => "null"%string
          | Some (id, label) =>
              json_object [json_field "id" (json_quote id); json_field "label" (json_quote label)]
          end);
        json_field "changed" (json_list (json_quote <$> e_Changed e));
        json_field "current" (json_addrs (e_Current e));
        json_field "previous" (json_addrs (e_Previous e)) ].

Definition ip_changed_event (ev : IPChangeEvent) : event :=
    MkEvent payloadVersion EventIPChanged (ev_EventID ev) (rfc3339 (ev_OccurredAt ev))
      (Some (dev_ID (ev_Device ev), dev_Label (ev_Device ev))) (Changed ev)
      (MkAddrs (nullable (ev_CurrIPv4 ev)) (nullable (ev_CurrIPv6 ev)))
      (MkAddrs (nullable (ev_PrevIPv4 ev)) (nullable (ev_PrevIPv6 ev))).
Definition added_event (seq now : Z) (d : Device) : event :=
    MkEvent payloadVersion EventAdded seq (rfc3339 now) (Some (dev_ID d, dev_Label d)) (familiesPresent d)
      (MkAddrs (nullable (dev_CurrentIPv4 d)) (nullable (dev_CurrentIPv6 d))) no_addrs.
Definition removed_event (seq now : Z) (d : Device) : event :=
    MkEvent payloadVersion EventRemoved seq (rfc3339 now) (Some (dev_ID d, dev_Label d)) (familiesPresent d)
      no_addrs (MkAddrs (nullable (dev_CurrentIPv4 d)) (nullable (dev_CurrentIPv6 d))).
Definition test_event (now : Z) : event :=
    MkEvent payloadVersion EventTest 0 (rfc3339 now) None [] no_addrs no_addrs.

  (** Marshalling these records cannot fail. *)
Definition RenderIPChanged (ev : IPChangeEvent) : string := marshal (ip_changed_event ev).
Definition RenderAdded (seq now : Z) (d : Device) : string := marshal (added_event seq now d).
Definition RenderRemoved (seq now : Z) (d : Device) : string := marshal (removed_event seq now d).
Definition RenderTest (now : Z) : string := marshal (test_event now).

(** ** enqueue.go *)

Module Enqueuer.
Definition Enqueue (c : ctx) (eventType : string) (eventID : Z) (payload : string) : M unit :=
    eps ← attempt (NotificationEndpointRepo.ListEnabled c);
    match eps with
    | None => mret tt
    | Some eps =>
        now ← now_unix;
        foreach eps (fun ep =>
          attempt (NotificationDeliveryRepo.Enqueue c
            (MkDelivery 0 (ne_ID ep) eventType eventID payload 0 now DeliveryPending EmptyString 0 0));;
          mret tt)
    end.

Definition IPChanged (c : ctx) (ev : IPChangeEvent)
      : M unit :=
    Enqueue c EventIPChanged (ev_EventID ev) (RenderIPChanged ev).
End Enqueuer.

(** ** worker.go *)

Definition FailureBlocked : string := "blocked".
Definition FailureUnreachable : string := "unreachable".
Definition FailureTLS : string := "tls".
Definition FailureRejected : string := "rejected".
Definition FailureGone : string := "gone".
Definition FailureInternal : string := "internal".

Definition deliveryBatchSize : Z := 20.
(** nanoseconds *)
Definition backoffBase : Z := 15 * 10 ^ 9.
Definition maxBackoff : Z := 16 * 60 * 10 ^ 9.

(** The outcome of [client.Do]. *)
Inductive SendError := SendDenied (msg : string) | SendDNS | SendTLS | SendFailed.
Inductive SendOutcome := Responded (status : Z) | SendErr (e : SendError).

Definition classifySendError (e : SendError) : string :=
  match e with
  | SendDenied _ => FailureBlocked
  | SendDNS => FailureBlocked
  | SendTLS => FailureTLS
  | SendFailed => FailureUnreachable
  end.

Definition classifyStatus (status : Z) : string :=
  if (200 <=? status) && (status <? 300) then DeliveryDelivered
  else if status =? 410 then FailureGone
  else FailureRejected.

(** client.go, [Clients.For]: a client exists for two schemes. *)
Definition client_for (scheme : string) : bool := str_eq scheme "https" || str_eq scheme "http".

(** [time.Duration] is an int64 of nanoseconds: shift and product wrap; the
    argument below 2 panics. *)
Definition backoffFor (jitter : Z -> Z) (attempt : Z) : option Z :=
  if attempt <? 2 then None
  else
    let exp := attempt - 2 in
    let base := i64 (backoffBase * i64 (Z.shiftl 1 exp)) in
    Some (Z.min (jitter base) maxBackoff).

Section Worker.
Context `{Crypto}.
Context (url_scheme : string -> option string)
          (send : nat -> string -> SendOutcome) (jitter : Z -> Z).

Definition auditBlocked (c : ctx) (endpointID msg : string) : M unit :=
    AuditLog c (audit_entry EmptyString "notification.target_blocked" "notification_endpoint"
      endpointID (json_map [("error", msg)]%string)).

  (** [client.Do]: the request leaves, and an outcome comes back. *)
Definition await_send (url : string) : M SendOutcome := fun w => (Ok (send (w_n w) url), bump w).
Definition do_send (url ts nonce sig body : string) : M SendOutcome :=
    emit (OPost url ts nonce sig body);;
    await_send url.

  (** The class of one attempt; the empty string when the context ended. *)
Definition attempt_delivery (key : string) (c : ctx) (dd : NotificationDeliveryRepo.DueDelivery) : M string :=
    let d := NotificationDeliveryRepo.dd_Delivery dd in
    let url := NotificationDeliveryRepo.dd_EndpointURL dd in
    match url_scheme url with
    | None => mret FailureInternal
    | Some scheme =>
        if negb (client_for scheme) then mret FailureInternal
        else
          nonce ← attempt (RandToken 16);
          match nonce with
          | None => mret FailureInternal
          | Some nonce =>
              secret ← attempt (OpenSecret key (NotificationDeliveryRepo.dd_SecretSealed dd));
              match secret with
              | None => mret FailureInternal
              | Some secret =>
                  now ← now_unix;
                  let ts := format_int now in
                  let sig := Sign secret (CanonicalNotification ts nonce (BodyHashHex (nd_Payload d))) in
                  resp ← do_send url ts nonce sig (nd_Payload d);
                  match resp with
                  | SendErr e =>
                      gone ← ctx_err c;
                      if gone : bool then mret EmptyString
                      else
                        match e with
                        | SendDenied msg => auditBlocked c (nd_EndpointID d) msg
                        | _ => mret tt
                        end;;
                        mret (classifySendError e)
                  | Responded status => mret (classifyStatus status)
                  end
              end
          end
    end.

  (** What the write-back records of a class: status, next attempt, failure.
      The next attempt is the clock plus the back-off in whole seconds. *)
Definition settle (class : string) (attempts maxAttempts : Z) : M (string * Z * string) :=
    if str_eq class DeliveryDelivered then mret (DeliveryDelivered, 0, EmptyString)
    else if str_eq class FailureGone || (maxAttempts <=? attempts) then mret (DeliveryFailed, 0, class)
    else
      now ← now_unix;
      match backoffFor jitter (attempts + 1) with
      | None => panic
      | Some delay => mret (DeliveryPending, now + Z.quot delay (10 ^ 9), class)
      end.

Definition deliverOne (key : string) (maxAttempts : Z) (c : ctx)
      (dd : NotificationDeliveryRepo.DueDelivery) : M unit :=
    let d := NotificationDeliveryRepo.dd_Delivery dd in
    let maxAttempts := if str_eq (nd_EventType d) EventTest then 1 else maxAttempts in
    class ← attempt_delivery key c dd;
    if str_eq class EmptyString then mret tt
    else
      let attempts := nd_Attempts d + 1 in
      s ← settle class attempts maxAttempts;
      attempt (NotificationDeliveryRepo.UpdateAfterAttempt c (nd_ID d) attempts s.1.1 s.1.2 s.2);;
      mret tt.

  (** [for _, d := range due { if ctx.Err() != nil { return }; ... }] *)
Fixpoint deliver_all (key : string) (maxAttempts : Z) (c : ctx)
      (due : list NotificationDeliveryRepo.DueDelivery) : M unit :=
    match due with
    | [] => mret tt
    | d :: rest =>
        gone ← ctx_err c;
        if gone : bool then mret tt
        else deliverOne key maxAttempts c d;; deliver_all key maxAttempts c rest
    end.

Definition worker_sweep (key : string) (maxAttempts : Z) (c : ctx) : M unit :=
    now ← now_unix;
    due ← attempt (NotificationDeliveryRepo.DueForAttempt c now deliveryBatchSize);
    match due with
    | None => mret tt
    | Some due => deliver_all key maxAttempts c due
    end.
End Worker.

(** ** Integrity *)

Lemma Enqueue_wf c t i p : preserves wf_db (Enqueuer.Enqueue c t i p).
Proof. unfold Enqueuer.Enqueue, NotificationEndpointRepo.ListEnabled. pres. Qed.
#[export] Hint Resolve Enqueue_wf : effects.
