(* ===== verification/NotifyFacts.v ===== *)
(** * What the outbound notifications guarantee

    Properties of Notify: which destinations the policy lets through, the
    back-off within its bounds, the outcome of one delivery attempt and the
    invariant of the outbox, and the fan-out of an event to the enabled
    endpoints. *)

From S2P Require Import Prelude GoLib Schema Integrity Effects NetAddr Demo StoreDevices StoreTokens.
From S2P Require Import StoreNotify Auth ServiceDevices DeviceFacts ServiceFacts Notify.

(** ** The destination policy *)

Lemma containsAddr_iff ps a : containsAddr ps a = true <-> exists p, p ∈ ps /\ contains p a = true.
Proof.
  unfold containsAddr, matchPrefix. rewrite bool_decide_eq_true. split.
  - intros [p Hp]. exists p. by apply find_some_iff in Hp.
  - intros (p & Hin & Hp). destruct (List.find _ ps) as [q|] eqn:Hf; [by eexists|].
    rewrite find_none_iff in Hf. by rewrite (Hf p Hin) in Hp.
Qed.

(** The private, loopback, link-local and carrier ranges of IPv4. *)
Definition private4 (n : Z) : Prop :=
  n / 2 ^ 24 = 10 \/ n / 2 ^ 24 = 127 \/ n / 2 ^ 20 = 172 * 16 + 1 \/ n / 2 ^ 16 = 192 * 256 + 168 \/
  n / 2 ^ 16 = 169 * 256 + 254 \/ n / 2 ^ 22 = 100 * 4 + 1 \/ n / 2 ^ 24 = 0.

Lemma private4_denied n : private4 n -> exists p, p ∈ denied /\ contains p (V4 n) = true.
Proof.
  intros Hp.
  assert (Hmp : forall a b c d k, 0 <= 32 - k -> n / 2 ^ (32 - k) = (((a * 256 + b) * 256 + c) * 256 + d) / 2 ^ (32 - k) ->
    contains (mp4 a b c d k) (V4 n) = true).
  { intros a b c d k Hk Heq. unfold contains, mp4. cbn [px_addr px_bits]. rewrite !Z.shiftr_div_pow2 by lia.
    by apply Z.eqb_eq. }
  destruct Hp as [H|[H|[H|[H|[H|[H|H]]]]]];
    [exists (mp4 10 0 0 0 8)|exists (mp4 127 0 0 0 8)|exists (mp4 172 16 0 0 12)|exists (mp4 192 168 0 0 16)
    |exists (mp4 169 254 0 0 16)|exists (mp4 100 64 0 0 10)|exists (mp4 0 0 0 0 8)];
    (split; [unfold denied; repeat (first [left|right])|apply Hmp; [lia|exact H]]).
Qed.

Lemma Permit_iff scheme a allowed : Permit scheme a allowed = None <->
  zone a = EmptyString /\
  (scheme = "https"%string \/ (scheme = "http"%string /\ is_loopback (unmap a) = true)) /\
  ((exists p, p ∈ allowed /\ contains p (unmap a) = true) \/
   (is_global_unicast (unmap a) = true /\ forall p, p ∈ denied -> contains p (unmap a) = false)).
Proof.
  rewrite <- containsAddr_iff. unfold Permit.
  assert (Hd : matchPrefix denied (unmap a) = None <-> forall p, p ∈ denied -> contains p (unmap a) = false)
    by apply find_none_iff.
  destruct (str_eq (zone a) EmptyString) eqn:Hz; cbn [negb]; [apply str_eq_true in Hz|].
  2: { split; [done|]. intros (Hz' & _). by rewrite Hz', str_eq_refl in Hz. }
  assert (Hs : (if str_eq scheme "https" then None
      else if str_eq scheme "http" then (if is_loopback (unmap a) then None else Some DeniedHTTP)
      else Some DeniedScheme) = None <->
      scheme = "https"%string \/ (scheme = "http"%string /\ is_loopback (unmap a) = true)).
  { destruct (str_eq scheme "https") eqn:H1; [apply str_eq_true in H1; tauto|].
    destruct (str_eq scheme "http") eqn:H2.
    - apply str_eq_true in H2. destruct (is_loopback _); [tauto|]. split; [done|].
      intros [->|[_ ?]]; [by rewrite str_eq_refl in H1|done].
    - split; [done|]. intros [->|[-> _]]; [by rewrite str_eq_refl in H1|by rewrite str_eq_refl in H2]. }
  destruct (containsAddr allowed (unmap a)); cbn [negb]; [rewrite Hs; tauto|].
  destruct (is_global_unicast (unmap a)); cbn [negb].
  2: { split; intros Hx; [discriminate Hx|]. by destruct Hx as (_ & _ & [Hx|[Hx _]]). }
  destruct (matchPrefix denied (unmap a)).
  - split; intros Hx; [discriminate Hx|]. destruct Hx as (_ & _ & [Hx|[_ Hd']]); [done|]. by apply Hd in Hd'.
  - rewrite Hs. assert (Hd' := proj1 Hd eq_refl). tauto.
Qed.

Lemma private4_blocked scheme a n :
  unmap a = V4 n -> private4 n -> Permit scheme a [] <> None.
Proof.
  intros Hu Hp Hn. apply Permit_iff in Hn as (_ & _ & [(p & Hin%elem_of_nil & _)|[_ Hd]]); [done|].
  destruct (private4_denied n Hp) as (p & Hin & Hc). rewrite Hu in Hd. by rewrite (Hd p Hin) in Hc.
Qed.

Lemma loopback_not_global a : is_loopback (unmap a) = true -> is_global_unicast (unmap a) = false.
Proof. intros Hl. unfold is_global_unicast. rewrite Hl. by rewrite !andb_false_r. Qed.

(** C26: the destination policy: a request leaves exactly for an unzoned
    address, over https (or http to a loopback address), that the operator
    allowed or that is global unicast and in none of the denied prefixes, the
    address being read through its IPv4-mapped form.  Hence without an allow
    list no private, loopback, link-local or carrier-grade IPv4 address is
    reachable, mapped into IPv6 or not, and http reaches nothing.  The dialer
    applies it to exactly the address it is about to connect to, as the socket
    prints it, and to nothing it cannot parse. *)
Theorem Permit_guards (scheme : string) (a : addr) (allowed : list prefix) :
  (Permit scheme a allowed = None <->
   zone a = EmptyString /\
   (scheme = "https"%string \/ (scheme = "http"%string /\ is_loopback (unmap a) = true)) /\
   ((exists p, p ∈ allowed /\ contains p (unmap a) = true) \/
    (is_global_unicast (unmap a) = true /\ forall p, p ∈ denied -> contains p (unmap a) = false))) /\
  (forall n z, 0 <= n < 2 ^ 32 -> private4 n ->
     Permit scheme (V4 n) [] <> None /\ Permit scheme (V6 (65535 * 2 ^ 32 + n) z) [] <> None) /\
  Permit "http" a [] <> None /\
  (forall port, addr_ok a -> 0 <= port < 65536 ->
     dialControl scheme allowed (addr_port_string a port) = None <-> Permit scheme a allowed = None) /\
  (forall address, dialControl scheme allowed address = None ->
     exists b port, parse_addr_port address = Some (b, port) /\ Permit scheme b allowed = None).
Proof.
  split; [apply Permit_iff|]. split; [|split; [|split]].
  - intros n z Hn Hp. split; [by apply (private4_blocked _ _ n)|].
    apply (private4_blocked _ _ n); [by apply unmap_mapped|done].
  - intros Hn. apply Permit_iff in Hn as (_ & [Hs|[_ Hl]] & [(p & Hin%elem_of_nil & _)|[Hg _]]); try done.
    by rewrite (loopback_not_global _ Hl) in Hg.
  - intros port Ha Hp. unfold dialControl. rewrite parse_addr_port_string by done. by destruct (Permit scheme a allowed).
  - intros address Hd. unfold dialControl in Hd. destruct (parse_addr_port address) as [[b port]|]; [|done].
    exists b, port. split; [done|]. by destruct (Permit scheme b allowed).
Qed.

(** ** The back-off *)

(** The documented multiplication of a duration by a factor in [0.9, 1.1]. *)
Definition jitter_law (jitter : Z -> Z) : Prop := forall b, 0 <= b -> 9 * b <= 10 * jitter b <= 11 * b.

Lemma backoff_base attempt : 2 <= attempt <= 16 ->
  i64 (backoffBase * i64 (Z.shiftl 1 (attempt - 2))) = 15 * 10 ^ 9 * 2 ^ (attempt - 2).
Proof.
  intros Ha. rewrite Z.shiftl_mul_pow2, Z.mul_1_l by lia.
  assert (Hb : 1 <= 2 ^ (attempt - 2) <= 2 ^ 14).
  { split; [apply (Z.pow_le_mono_r 2 0); lia|apply Z.pow_le_mono_r; lia]. }
  unfold backoffBase. rewrite (i64_id (2 ^ _)), i64_id; [lia| |];
    unfold in_int64, min_int64, max_int64; nia.
Qed.

Lemma backoff_value jitter attempt :
  jitter_law jitter -> 2 <= attempt <= 16 -> exists d, backoffFor jitter attempt = Some d /\
    d = Z.min (jitter (15 * 10 ^ 9 * 2 ^ (attempt - 2))) maxBackoff /\ 27 * 10 ^ 9 <= 2 * d /\ d <= maxBackoff.
Proof.
  intros Hj Ha. unfold backoffFor. rewrite (proj2 (Z.ltb_ge _ _)) by lia. cbv zeta.
  rewrite backoff_base by done. eexists. split; [done|]. split; [done|].
  assert (Hb : 1 <= 2 ^ (attempt - 2)) by (apply (Z.pow_le_mono_r 2 0); lia).
  specialize (Hj (15 * 10 ^ 9 * 2 ^ (attempt - 2)) ltac:(nia)). unfold maxBackoff in *. lia.
Qed.

(** The back-off stays in bounds: for every attempt the configuration can
    schedule (2 to 16) it does not panic and the int64 shift and product do not
    wrap; the delay is the doubled base with its jitter clamped at sixteen
    minutes, at least 13.5 seconds, and its unjittered base doubles from one
    attempt to the next. *)
Theorem backoffFor_bounds (jitter : Z -> Z) (attempt : Z) (Hj : jitter_law jitter) (Ha : 2 <= attempt <= 16) :
  exists d, backoffFor jitter attempt = Some d /\
    d = Z.min (jitter (15 * 10 ^ 9 * 2 ^ (attempt - 2))) maxBackoff /\
    27 * 10 ^ 9 <= 2 * d <= 2 * maxBackoff /\
    (9 <= attempt -> d = maxBackoff).
Proof.
  destruct (backoff_value jitter attempt Hj Ha) as (d & Hd & Heq & Hlo & Hhi). exists d.
  split; [done|]. split; [done|]. split; [lia|]. intros H9. rewrite Heq. apply Z.min_r.
  assert (Hb : 2 ^ 7 <= 2 ^ (attempt - 2)) by (apply Z.pow_le_mono_r; lia).
  specialize (Hj (15 * 10 ^ 9 * 2 ^ (attempt - 2)) ltac:(nia)). unfold maxBackoff. lia.
Qed.
Lemma backoffFor_bounds_witness : exists d, backoffFor (fun b => b) 4 = Some d /\ 27 * 10 ^ 9 <= 2 * d <= 2 * maxBackoff.
Proof.
  destruct (backoffFor_bounds (fun b => b) 4) as (d & Hd & _ & Hb & _); [intros b Hb; lia|lia|].
  exists d. split; [exact Hd|exact Hb].
Defined.

(** ** Enqueuing an event *)

Definition pending_row (t : string) (i : Z) (p : string) (next : Z) (ep : string) (r : delivery_row) : Prop :=
  rv_endpoint_id r = ep /\ rv_event_type r = t /\ rv_event_id r = i /\ rv_payload r = p /\ rv_attempts r = 0 /\
  rv_status r = DeliveryPending /\ rv_next_attempt_at r = nullIfZero next.

Lemma enqueue_loop c t i p next (eps : list NotificationEndpoint) w :
  quiet w c -> wf_db (w_db w) -> (forall ep, ep ∈ eps -> ne_ID ep ∈ re_id <$> d_endpoints (w_db w)) ->
  exists w' new, foreach eps (fun ep =>
      attempt (NotificationDeliveryRepo.Enqueue c
        (MkDelivery 0 (ne_ID ep) t i p 0 next DeliveryPending EmptyString 0 0));; mret tt) w = (Ok tt, w') /\
    d_deliveries (w_db w') = d_deliveries (w_db w) ++ new /\
    Forall2 (pending_row t i p next) (ne_ID <$> eps) new.
Proof.
  revert w. induction eps as [|ep eps IH]; intros w Hq Hwf Hin; simpl.
  { exists w, []. split; [done|]. split; [by rewrite app_nil_r|constructor]. }
  set (row now := DeliveryRow (d_deliveries_seq (w_db w) + 1) (ne_ID ep) t i p 0 (nullIfZero next)
                    DeliveryPending None now now).
  set (now := e_clock (w_env w) (w_n w)).
  assert (Hi : insert_violation (row now) (w_db w) = None).
  { eapply auto_insert_ok; [done|exact (wf_deliveries _ Hwf)|done|done|].
    simpl. rewrite bool_decide_eq_true_2; [done|]. apply Hin. left. }
  assert (Hrun : NotificationDeliveryRepo.Enqueue c
      (MkDelivery 0 (ne_ID ep) t i p 0 next DeliveryPending EmptyString 0 0) w =
      (Ok tt, set_db (setd_deliveries_seq (d_deliveries_seq (w_db w) + 1)
         (setd_deliveries (d_deliveries (w_db w) ++ [row now]) (w_db w))) (bump (bump w)))).
  { unfold NotificationDeliveryRepo.Enqueue. erewrite bind_run; [|reflexivity]. cbv beta.
    erewrite bind_run; [reflexivity|]. apply map_err_run.
    etrans; [eapply exec_insert_auto_quiet; [exact Hq|reflexivity|exact Hi]|reflexivity]. }
  pose proof (deliveries_Enqueue_wf c (MkDelivery 0 (ne_ID ep) t i p 0 next DeliveryPending EmptyString 0 0) w Hwf) as Hwf1.
  rewrite Hrun in Hwf1. simpl in Hwf1.
  edestruct (IH (set_db (setd_deliveries_seq (d_deliveries_seq (w_db w) + 1)
         (setd_deliveries (d_deliveries (w_db w) ++ [row now]) (w_db w))) (bump (bump w)))) as (w' & new & Hl & Hd & Hf).
  { exact Hq. } { exact Hwf1. } { intros x Hx. apply Hin. by right. }
  exists w', (row now :: new). split; [|split].
  - erewrite bind_run; [exact Hl|]. erewrite bind_run; [reflexivity|]. by apply attempt_run.
  - rewrite Hd. simpl. by rewrite <- app_assoc.
  - constructor; [done|exact Hf].
Qed.

Lemma Forall2_with {A B} (P : A -> Prop) (Q : A -> B -> Prop) l k :
  (forall x, x ∈ l -> P x) -> Forall2 Q l k -> Forall2 (fun x y => P x /\ Q x y) l k.
Proof.
  intros HP Hf. induction Hf as [|x y l k Hxy Hf IH]; constructor.
  - split; [apply HP; left|done].
  - apply IH. intros z Hz. apply HP. by right.
Qed.

(** An event reaches every enabled endpoint once: without faults, Enqueue
    appends to the outbox exactly one pending delivery per enabled endpoint, in
    the order the endpoints were created, each carrying the event and its
    payload, due at once with no attempt made. *)
Theorem Enqueue_fans_out (c : ctx) (t : string) (i : Z) (p : string) (w : World)
    (Hq : quiet w c) (Hwf : wf_db (w_db w)) :
  exists w' new next, Enqueuer.Enqueue c t i p w = (Ok tt, w') /\
    d_deliveries (w_db w') = d_deliveries (w_db w) ++ new /\
    Forall2 (fun e r => re_enabled e = 1 /\ pending_row t i p next (re_id e) r)
      (order_by NotificationEndpointRepo.by_created (List.filter (fun r => re_enabled r =? 1) (d_endpoints (w_db w))))
      new.
Proof.
  unfold Enqueuer.Enqueue, NotificationEndpointRepo.ListEnabled.
  set (eps := order_by NotificationEndpointRepo.by_created _).
  assert (Hin : forall e, e ∈ eps -> re_enabled e = 1 /\ e ∈ d_endpoints (w_db w)).
  { intros e [He Hen%Z.eqb_eq]%elem_of_order_by%elem_of_bfilter. done. }
  destruct (enqueue_loop c t i p (e_clock (w_env w) (S (w_n w))) (scanNotificationEndpoint <$> eps) (bump (bump w)))
    as (w' & new & Hl & Hd & Hf); [exact Hq|exact Hwf| |].
  { intros ep (e & -> & He)%list_elem_of_fmap. apply list_elem_of_fmap. exists e. split; [done|]. by apply Hin. }
  exists w', new, (e_clock (w_env w) (S (w_n w))). split; [|split; [exact Hd|]].
  - erewrite bind_run; [|apply attempt_run; by apply query_quiet]. cbv beta iota.
    erewrite bind_run; [|reflexivity]. exact Hl.
  - assert (Heq : ne_ID <$> (scanNotificationEndpoint <$> eps) = re_id <$> eps)
      by (by rewrite <- list_fmap_compose).
    rewrite Heq, Forall2_fmap_l in Hf. apply Forall2_with; [|exact Hf]. intros e He. by apply Hin.
Qed.
Lemma Enqueue_fans_out_witness : exists w' new,
  Enqueuer.Enqueue background "device.ip_changed" 4 "{}" demo_world = (Ok tt, w') /\
  d_deliveries (w_db w') = d_deliveries demo_db ++ new /\ length new = 1%nat.
Proof.
  destruct (Enqueue_fans_out background "device.ip_changed" 4 "{}" demo_world demo_quiet demo_wf)
    as (w' & new & next & Hr & Hd & Hf).
  exists w', new. split; [exact Hr|]. split; [exact Hd|]. apply Forall2_length in Hf. rewrite <- Hf. reflexivity.
Defined.

(** ** One delivery attempt *)

Section Delivery.
Context `{Crypto}.
Context (url_scheme : string -> option string)
        (send : nat -> string -> SendOutcome) (jitter : Z -> Z).
Import NotificationDeliveryRepo.

(** What the answer to a request, or the error in its place, is classed as. *)
Definition response_class (o : SendOutcome) (class : string) : Prop :=
  match o with
  | Responded status =>
      (200 <= status <= 299 -> class = "delivered"%string) /\
      (status = 410 -> class = "gone"%string) /\
      (status < 200 \/ 299 < status -> status <> 410 -> class = "rejected"%string)
  | SendErr (SendDenied _) | SendErr SendDNS => class = "blocked"%string
  | SendErr SendTLS => class = "tls"%string
  | SendErr SendFailed => class = "unreachable"%string
  end.

(** What leaves the process for a delivery: the request of the endpoint, signed
    with the secret its sealed text carries, stamped with the clock. *)
Definition signed_post (key : string) (dd : DueDelivery) (w : World) (o : output) : Prop :=
  exists secret nonce, unseals key (dd_SecretSealed dd) secret /\
    let ts := format_int (e_clock (w_env w) (S (w_n w))) in
    o = OPost (dd_EndpointURL dd) ts nonce
          (Sign secret (CanonicalNotification ts nonce (BodyHashHex (nd_Payload (dd_Delivery dd)))))
          (nd_Payload (dd_Delivery dd)).

(** Nothing can be sent: the address is no http or https URL, the random source
    fails, or the sealed secret does not open. *)
Definition unsendable (key : string) (dd : DueDelivery) (w : World) : Prop :=
  (forall scheme, url_scheme (dd_EndpointURL dd) = Some scheme -> scheme <> "https"%string /\ scheme <> "http"%string) \/
  e_rand (w_env w) (w_n w) 16%nat = None \/
  forall secret, ~ unseals key (dd_SecretSealed dd) secret.

(** What the attempt's request comes back with, at the third step. *)
Definition answer_of (dd : DueDelivery) (w : World) : SendOutcome := send (S (S (w_n w))) (dd_EndpointURL dd).

(** One attempt and its class: nothing sent and an internal failure; or one
    signed request, and either the class of what came back for it, or none when
    it failed as the context ended. *)
Definition attempted (key : string) (c : ctx) (dd : DueDelivery) (w : World) (class : string) (w' : World) : Prop :=
  (unsendable key dd w /\ m_out (w_mem w') = m_out (w_mem w) /\ class = "internal"%string) \/
  (exists o, signed_post key dd w o /\ m_out (w_mem w') = m_out (w_mem w) ++ [o] /\
     (response_class (answer_of dd w) class \/
      class = EmptyString /\ (exists e, answer_of dd w = SendErr e) /\ c (S (S (S (w_n w)))) = true)).

Lemma classifySendError_response e : response_class (SendErr e) (classifySendError e).
Proof. by destruct e. Qed.

Lemma classifyStatus_response n : response_class (Responded n) (classifyStatus n).
Proof.
  unfold classifyStatus. simpl. destruct (Z.leb_spec 200 n), (Z.ltb_spec n 300); simpl;
    destruct (Z.eqb_spec n 410); split_and!; intros; try done; lia.
Qed.

Lemma AuditLog_later c e w : (w_n w <= w_n (AuditLog c e w).2)%nat.
Proof.
  unfold AuditLog, attempt, catch, AuditLogRepo.Append, exec_insert_auto, last_insert_id, driver_value, stmt, now_unix,
    mbind, M_bind, mret, M_ret.
  repeat (case_match; simplify_eq/=); lia.
Qed.

Lemma wp_AuditLog_steps c e (Q : result unit -> World -> Prop) w :
  (forall w', only_audit w w' -> w_env w' = w_env w -> (w_n w <= w_n w')%nat -> Q (Ok tt) w') -> wp (AuditLog c e) Q w.
Proof.
  intros HQ. pose proof (AuditLog_later c e w) as Hn.
  assert (Hw : wp (AuditLog c e) (fun r w' => r = Ok tt /\ only_audit w w' /\ w_env w' = w_env w) w)
    by (apply wp_AuditLog_env; by intros).
  unfold wp in *. destruct Hw as (-> & Ha & He). by apply HQ.
Qed.

Lemma wp_attempt_delivery key c dd (Q : result string -> World -> Prop) w :
  (forall s w', attempted key c dd w s w' -> (w_n w <= w_n w')%nat ->
     d_deliveries (w_db w') = d_deliveries (w_db w) -> w_env w' = w_env w -> Q (Ok s) w') ->
  wp (attempt_delivery url_scheme send key c dd) Q w.
Proof.
  intros HQ. unfold attempt_delivery.
  assert (Hint : forall w', unsendable key dd w -> (w_n w <= w_n w')%nat -> w_db w' = w_db w -> w_mem w' = w_mem w ->
    w_env w' = w_env w -> wp (mret FailureInternal) Q w').
  { intros w' Hu Hn Hd Hm He. wp_step. apply HQ; [left; by rewrite Hm|done|by rewrite Hd|done]. }
  destruct (url_scheme _) as [scheme|] eqn:Hs; [|apply Hint; try done; left; naive_solver].
  destruct (client_for scheme) eqn:Hcl; cbn [negb].
  2: { apply Hint; try done. left. intros ? Hx. assert (scheme0 = scheme) as -> by congruence.
       split; intros ->; done. }
  unfold RandToken. wp_step. wp_step. apply wp_bind, wp_intro. unfold rand_bytes. intros r w1 [= <- <-].
  destruct (e_rand _ _ _) as [b|] eqn:Hb; [|apply Hint; try done; [right; by left|simpl; lia]].
  apply wp_ret. wp_step. wp_step. apply wp_intro. intros r w1 Ho.
  destruct (OpenSecret_cases key (dd_SecretSealed dd) (bump w)) as [(secret & Hu & Hr)|(e & Hr)];
    rewrite Hr in Ho; injection Ho as <- <-.
  2: { apply Hint; try done; [|simpl; lia]. right. right. intros s Hu. by rewrite (OpenSecret_unseals _ _ _ _ Hu) in Hr. }
  wp_step. wp_step. cbv zeta. wp_step. unfold do_send, emit, await_send. wp_step. unfold wp at 1. cbn [fst snd].
  unfold wp at 1. cbn [fst snd w_n set_mem bump].
  set (o := OPost _ _ _ _ _).
  assert (Ho : signed_post key dd w o) by (eexists secret, _; split; [exact Hu|reflexivity]).
  fold (answer_of dd w). destruct (answer_of dd w) as [status|e] eqn:Ha.
  - wp_step. apply HQ; [|simpl; lia|done|done]. right. exists o. split; [done|]. split; [done|]. left.
    rewrite Ha. apply classifyStatus_response.
  - unfold ctx_err. wp_step. unfold wp at 1. cbn [fst snd w_n set_mem bump]. destruct (c _) eqn:Hc.
    + wp_step. apply HQ; [|simpl; lia|done|done]. right. exists o. split; [done|]. split; [done|]. right.
      rewrite Ha. eauto.
    + wp_step.
      assert (Hend : forall w', m_out (w_mem w') = m_out (w_mem w) ++ [o] -> (w_n w <= w_n w')%nat ->
          d_deliveries (w_db w') = d_deliveries (w_db w) ->
          w_env w' = w_env w -> wp (mret (classifySendError e)) Q w').
      { intros w' Hm Hn Hd He. wp_step. apply HQ; [|done|done|done]. right. exists o. split; [done|]. split; [done|].
        left. rewrite Ha. apply classifySendError_response. }
      destruct e; try (wp_step; apply Hend; try done; simpl; lia). unfold auditBlocked. apply wp_AuditLog_steps.
      intros w' [Hm (ar & seq & Hd)] He Hn. simpl in Hn. apply Hend; [by rewrite Hm|lia|by rewrite Hd|exact He].
Qed.

(** What is written back for a class, after the attempt numbered [n] of at most
    [max]; the clock is read at a step of the delivery. *)
Definition outcome (env : Env) (first last : nat) (max n : Z) (class status : string) (next : Z) (failure : string) : Prop :=
  (class = "delivered"%string /\ status = "delivered"%string /\ next = 0 /\ failure = EmptyString) \/
  (class <> "delivered"%string /\ (class = "gone"%string \/ max <= n) /\
   status = "failed"%string /\ next = 0 /\ failure = class) \/
  (class <> "delivered"%string /\ class <> "gone"%string /\ n < max /\ status = "pending"%string /\ failure = class /\
   exists step, (first <= step <= last)%nat /\ e_clock env step + 13 <= next <= e_clock env step + 960).

Lemma wp_settle class n max (Q : result (string * Z * string) -> World -> Prop) w :
  jitter_law jitter -> 1 <= n -> max <= 16 ->
  (forall status next failure w', outcome (w_env w) (w_n w) (w_n w') max n class status next failure ->
     (w_n w <= w_n w')%nat -> w_db w' = w_db w ->
     w_mem w' = w_mem w -> w_env w' = w_env w -> Q (Ok (status, next, failure)) w') ->
  wp (settle jitter class n max) Q w.
Proof.
  intros Hj Hn Hmax HQ. unfold settle. destruct (str_eq class DeliveryDelivered) eqn:Hd.
  { apply str_eq_true in Hd. wp_step. apply HQ; try done. by left. }
  apply str_eq_false in Hd. destruct (str_eq class FailureGone || (max <=? n)) eqn:Hterm.
  { wp_step. apply HQ; try done. right. left. split; [done|]. split; [|done].
    apply orb_true_iff in Hterm as [Hg%str_eq_true|Hm%Z.leb_le]; auto. }
  apply orb_false_iff in Hterm as [Hg%str_eq_false Hm%Z.leb_gt].
  wp_step. wp_step. destruct (backoff_value jitter (n + 1) Hj ltac:(lia)) as (d & Hb & _ & Hlo & Hhi).
  rewrite Hb. wp_step. apply HQ; try done; [|simpl; lia]. right. right. split_and!; try done.
  exists (w_n w). split; [simpl; lia|]. unfold maxBackoff in Hhi.
  rewrite Z.quot_div_nonneg by lia.
  pose proof (Z.div_le_mono (13 * 10 ^ 9) d (10 ^ 9) ltac:(lia) ltac:(lia)) as H1.
  pose proof (Z.div_le_mono d (16 * 60 * 10 ^ 9) (10 ^ 9) ltac:(lia) ltac:(lia)) as H2.
  change (13 * 10 ^ 9 / 10 ^ 9) with 13 in H1. change (16 * 60 * 10 ^ 9 / 10 ^ 9) with 960 in H2. lia.
Qed.

Definition max_for (dd : DueDelivery) (max : Z) : Z :=
  if str_eq (nd_EventType (dd_Delivery dd)) EventTest then 1 else max.

(** The row of a delivery after its write-back. *)
Definition written (attempts : Z) (status : string) (next : Z) (failure : string) (now : Z) (r : delivery_row)
  : delivery_row :=
  DeliveryRow (rv_id r) (rv_endpoint_id r) (rv_event_type r) (rv_event_id r) (rv_payload r)
    attempts (nullIfZero next) status (nullIfEmpty failure) (rv_created_at r) now.

(** The write-back is missing only under a fault or a cancellation. *)
Lemma wp_UpdateAfterAttempt c id n status next failure (Q : result unit -> World -> Prop) w :
  (forall e w', ~ quiet w c -> w_db w' = w_db w -> w_mem w' = w_mem w -> w_env w' = w_env w -> (w_n w <= w_n w')%nat ->
     Q (Err e) w') ->
  (forall w', d_deliveries (w_db w') = rows_update (fun r => rv_id r =? id)
       (written n status next failure (e_clock (w_env w) (w_n w))) (d_deliveries (w_db w)) ->
     w_mem w' = w_mem w -> w_env w' = w_env w -> (w_n w <= w_n w')%nat -> Q (Ok tt) w') ->
  wp (UpdateAfterAttempt c id n status next failure) Q w.
Proof.
  intros He Hok. unfold UpdateAfterAttempt. wp_step. wp_step. unfold exec_update. apply wp_bind, wp_intro.
  intros r w' Hr. unfold stmt in Hr. destruct (_ || _) eqn:Hf; injection Hr as <- <-.
  - apply He; simpl; try done; [|lia]. intros [Hq1 Hq2]. simpl in Hf. by rewrite Hq1, Hq2 in Hf.
  - apply wp_ret. by apply Hok; simpl; try done; lia.
Qed.

(** What a delivery does: one attempt, and its class written back, unless the
    attempt has none, or a fault or a cancellation stops the write. *)
Definition delivered_once (key : string) (max : Z) (c : ctx) (dd : DueDelivery) (w w' : World) : Prop :=
  let n := nd_Attempts (dd_Delivery dd) + 1 in
  exists class, attempted key c dd w class w' /\
    (class = EmptyString -> d_deliveries (w_db w') = d_deliveries (w_db w)) /\
    (class <> EmptyString ->
      (~ quiet w c /\ d_deliveries (w_db w') = d_deliveries (w_db w)) \/
      exists status next failure now,
        outcome (w_env w) (w_n w) (w_n w') (max_for dd max) n class status next failure /\
        d_deliveries (w_db w') = rows_update (fun r => rv_id r =? nd_ID (dd_Delivery dd))
          (written n status next failure now) (d_deliveries (w_db w))).

Lemma attempted_mem key c dd w class w1 w2 :
  m_out (w_mem w2) = m_out (w_mem w1) -> attempted key c dd w class w1 -> attempted key c dd w class w2.
Proof. unfold attempted. by intros ->. Qed.

Lemma outcome_later env a b a' b' max n class status next failure :
  (a' <= a)%nat -> (b <= b')%nat -> outcome env a b max n class status next failure ->
  outcome env a' b' max n class status next failure.
Proof.
  intros Ha Hb [?|[?|(? & ? & ? & ? & ? & k & ? & ?)]]; [by left|by right; left|right; right].
  split_and!; try done. exists k. split; [lia|done].
Qed.

Lemma wp_deliverOne key max c dd (Q : result unit -> World -> Prop) w :
  jitter_law jitter -> max <= 16 -> 0 <= nd_Attempts (dd_Delivery dd) ->
  (forall w', w_env w' = w_env w -> delivered_once key max c dd w w' -> Q (Ok tt) w') ->
  wp (deliverOne url_scheme send jitter key max c dd) Q w.
Proof.
  intros Hj Hmax Hn HQ. unfold deliverOne. cbv zeta. fold (max_for dd max).
  wp_step. apply wp_attempt_delivery. intros class w1 Hc Hn1 Hd He.
  destruct (str_eq class EmptyString) eqn:Hs.
  { apply str_eq_true in Hs. wp_step. apply HQ; [done|]. exists class. by split_and!. }
  apply str_eq_false in Hs.
  assert (Hm : max_for dd max <= 16) by (unfold max_for; destruct (str_eq (nd_EventType _) EventTest); lia).
  wp_step. apply wp_settle; [done|lia|exact Hm|].
  intros status next failure w2 Ho Hn2 Hd2 Hm2 He2. rewrite He in Ho.
  wp_step. wp_step. apply wp_UpdateAfterAttempt.
  - intros e w3 Hq Hd3 Hm3 He3 Hn3. wp_step. apply HQ; [congruence|].
    exists class. split; [eapply attempted_mem; [|exact Hc]; congruence|]. split; [done|]. intros _. left.
    split; [|congruence]. intros Hq'. apply Hq. unfold quiet in *. by rewrite He2, He.
  - intros w3 Hd3 Hm3 He3 Hn3. wp_step. apply HQ; [congruence|].
    exists class. split; [eapply attempted_mem; [|exact Hc]; congruence|]. split; [done|]. intros _. right.
    exists status, next, failure, (e_clock (w_env w2) (w_n w2)). split; [|by rewrite Hd3, Hd2, Hd].
    eapply outcome_later; [..|exact Ho]; lia.
Qed.


(** ** The outbox *)

(** A row is pending, with attempts left and a next attempt, or terminal and
    never due again. *)
Definition delivery_ok (max : Z) (r : delivery_row) : Prop :=
  0 <= rv_attempts r /\
  ((rv_status r = DeliveryPending /\ rv_attempts r < (if str_eq (rv_event_type r) EventTest then 1 else max) /\
    exists t, rv_next_attempt_at r = Some t /\ 0 < t) \/
   (deliveryTerminal (rv_status r) = true /\ rv_next_attempt_at r = None)).

Definition outbox_ok (max : Z) (w : World) : Prop :=
  (forall k, 0 < e_clock (w_env w) k) /\ forall r, r ∈ d_deliveries (w_db w) -> delivery_ok max r.

Lemma outbox_same max w w' :
  w_env w' = w_env w -> d_deliveries (w_db w') = d_deliveries (w_db w) -> outbox_ok max w -> outbox_ok max w'.
Proof. unfold outbox_ok. by intros -> ->. Qed.

Lemma outbox_insert max w w' r :
  w_env w' = w_env w -> d_deliveries (w_db w') = d_deliveries (w_db w) ++ [r] -> delivery_ok max r ->
  outbox_ok max w -> outbox_ok max w'.
Proof.
  intros He Hd Hr [Hc Ho]. split; [by rewrite He|]. rewrite Hd.
  intros x [Hx| ->%list_elem_of_singleton]%elem_of_app; auto.
Qed.

Lemma outbox_shrink max w w' p :
  w_env w' = w_env w -> d_deliveries (w_db w') = rows_delete p (d_deliveries (w_db w)) ->
  outbox_ok max w -> outbox_ok max w'.
Proof.
  intros He Hd [Hc Ho]. split; [by rewrite He|]. rewrite Hd. intros x [Hx _]%elem_of_rows_delete. auto.
Qed.

(** Invariants through the loops. *)
Lemma wp_foreach_inv {A} (I : World -> Prop) (l : list A) f w :
  (forall x w, x ∈ l -> I w -> wp (f x) (fun _ w' => I w') w) -> I w -> wp (foreach l f) (fun _ w' => I w') w.
Proof.
  revert w. induction l as [|x l IH]; intros w Hf Hw; simpl; [by wp_step|]. wp_step.
  eapply wp_mono; [apply Hf; [left|done]|]. intros [a|e|] w' Hw'; [|done|done].
  apply IH; [|done]. intros y w2 Hy. apply Hf. by right.
Qed.

Lemma outbox_enqueue max c t i p w :
  1 <= max -> outbox_ok max w -> wp (Enqueuer.Enqueue c t i p) (fun _ w' => outbox_ok max w') w.
Proof.
  intros Hm Hw. unfold Enqueuer.Enqueue, NotificationEndpointRepo.ListEnabled. wp_step. wp_step. wp_step.
  - by wp_step.
  - wp_step. wp_step. set (now := e_clock _ _). assert (Hnow : 0 < now) by apply Hw.
    apply wp_foreach_inv; [|done]. intros ep w1 _ Hw1. wp_step. wp_step. unfold Enqueue.
    wp_step. wp_step. wp_step. wp_step.
    assert (Hret : forall A (m : option A) w', outbox_ok max w' -> wp (mret (A:=unit) tt) (fun _ w' => outbox_ok max w') w')
      by (intros; by wp_step).
    wp_step; [by wp_step|by wp_step|]. wp_step. wp_step.
    eapply (outbox_insert max w1); [reflexivity|reflexivity| |exact Hw1].
    split; [simpl; lia|left]. split; [done|]. split; [simpl; destruct (str_eq _ _); lia|].
    exists now. split; [|done]. simpl. unfold nullIfZero. by rewrite (proj2 (Z.eqb_neq _ _)) by lia.
Qed.

Lemma outbox_deliverOne key max c dd w :
  jitter_law jitter -> 1 <= max <= 16 -> outbox_ok max w -> 0 <= nd_Attempts (dd_Delivery dd) ->
  (forall r, r ∈ d_deliveries (w_db w) -> rv_id r = nd_ID (dd_Delivery dd) ->
     rv_event_type r = nd_EventType (dd_Delivery dd)) ->
  wp (deliverOne url_scheme send jitter key max c dd) (fun _ w' => outbox_ok max w' /\
    (forall r', r' ∈ d_deliveries (w_db w') -> exists r, r ∈ d_deliveries (w_db w) /\ rv_id r = rv_id r' /\
       rv_event_type r = rv_event_type r')) w.
Proof.
  intros Hj Hmax Hw Hn Htype. apply wp_deliverOne; [done|lia|done|].
  intros w' He (class & Ha & Hnone & Hsome).
  assert (Hcase : d_deliveries (w_db w') = d_deliveries (w_db w) \/ exists status next failure now,
    outcome (w_env w) (w_n w) (w_n w') (max_for dd max) (nd_Attempts (dd_Delivery dd) + 1) class status next failure /\
    d_deliveries (w_db w') = rows_update (fun r => rv_id r =? nd_ID (dd_Delivery dd))
      (written (nd_Attempts (dd_Delivery dd) + 1) status next failure now) (d_deliveries (w_db w))).
  { destruct (decide (class = EmptyString)) as [Hc|Hc]; [by left; apply Hnone|].
    destruct (Hsome Hc) as [[_ ?]|?]; [by left|by right]. }
  destruct Hcase as [Hd|(status & next & failure & now & Ho & Hd)].
  { split; [by eapply outbox_same|]. rewrite Hd. intros r' Hr'. by exists r'. }
  split.
  - split; [rewrite He; apply Hw|]. rewrite Hd. intros x (r & Hr & ->)%elem_of_rows_update.
    destruct (Z.eqb_spec (rv_id r) (nd_ID (dd_Delivery dd))) as [Hid|_]; [|by apply Hw].
    split; [simpl; lia|]. simpl rv_status. simpl rv_attempts. simpl rv_next_attempt_at. simpl rv_event_type.
    rewrite (Htype r Hr Hid). fold (max_for dd max).
    destruct Ho as [(_ & -> & -> & _)|[(_ & _ & -> & -> & _)|(_ & _ & Hlt & -> & _ & step & _ & Hstep)]].
    + right. split; reflexivity.
    + right. split; reflexivity.
    + left. split; [done|]. split; [done|]. destruct Hw as [Hc _]. specialize (Hc step).
      exists next. split; [|lia]. unfold nullIfZero. by rewrite (proj2 (Z.eqb_neq _ _)) by lia.
  - rewrite Hd. intros r' (r & Hr & ->)%elem_of_rows_update. exists r. split; [done|]. by destruct (_ =? _).
Qed.

(** Rows keep their id and event type while a batch is delivered. *)
Definition same_types (due : list DueDelivery) (d : DB) : Prop :=
  forall dd r, dd ∈ due -> r ∈ d_deliveries d -> rv_id r = nd_ID (dd_Delivery dd) ->
    rv_event_type r = nd_EventType (dd_Delivery dd).

Lemma outbox_deliver_all key max c due w :
  jitter_law jitter -> 1 <= max <= 16 -> outbox_ok max w ->
  (forall dd, dd ∈ due -> 0 <= nd_Attempts (dd_Delivery dd)) -> same_types due (w_db w) ->
  wp (deliver_all url_scheme send jitter key max c due) (fun _ w' => outbox_ok max w') w.
Proof.
  intros Hj Hmax. revert w. induction due as [|dd due IH]; intros w Hw Hn Ht; simpl; [by wp_step|].
  unfold ctx_err. wp_step. unfold wp at 1. cbn [fst snd]. destruct (c _); [by wp_step|]. wp_step.
  eapply wp_mono.
  - apply (outbox_deliverOne key max c dd w Hj Hmax Hw); [apply Hn; left|]. intros r. apply Ht. left.
  - intros [a|e|] w' [Hw' Hrows]; [|done|done]. apply IH; [done|intros x Hx; apply Hn; by right|].
    intros x r' Hx Hr' Hid. destruct (Hrows r' Hr') as (r & Hr & Hrid & Hrt). rewrite <- Hrt.
    apply Ht; [by right|done|congruence].
Qed.

Lemma due_rows_in before limit d dd : dd ∈ due_rows before limit d ->
  exists r, r ∈ d_deliveries d /\ dd_Delivery dd = scanDelivery r.
Proof.
  intros (p & -> & Hp)%list_elem_of_fmap. eapply elem_of_sublist in Hp; [|apply limit_rows_sublist].
  rewrite elem_of_order_by in Hp. apply list_elem_of_bind in Hp as (r & Hp & Hr).
  apply list_elem_of_bind in Hp as (e & Hp & _). exists r. split; [done|].
  destruct (due_row before r e); [|by apply elem_of_nil in Hp]. by apply list_elem_of_singleton in Hp as ->.
Qed.

Lemma outbox_sweep key max c w :
  jitter_law jitter -> 1 <= max <= 16 -> wf_db (w_db w) -> outbox_ok max w ->
  wp (worker_sweep url_scheme send jitter key max c) (fun _ w' => outbox_ok max w') w.
Proof.
  intros Hj Hmax Hwf Hw. unfold worker_sweep, DueForAttempt. wp_step. wp_step. wp_step. wp_step. wp_step.
  - by wp_step.
  - apply outbox_deliver_all; [done|done|exact Hw| |].
    + intros dd (r & Hr & ->)%due_rows_in. by apply Hw in Hr as [? _].
    + intros dd r (r0 & Hr0 & Hdd)%due_rows_in Hr Hid. rewrite Hdd in *. simpl in *. f_equal.
      destruct (wf_deliveries _ Hwf) as [Hu _ _].
      eapply (NoDup_key_eq rv_id); [|exact Hr|exact Hr0|exact Hid].
      eapply (uniq_NoDup_int rv_id); [|exact Hu]. by left.
Qed.

Lemma attempt_delivery_wf key c dd : preserves wf_db (attempt_delivery url_scheme send key c dd).
Proof.
  unfold attempt_delivery, RandToken, OpenSecret, newGCM, do_send, auditBlocked, ctx_err, await_send. pres;
    by intros w Hw.
Qed.

Lemma deliverOne_wf key max c dd : preserves wf_db (deliverOne url_scheme send jitter key max c dd).
Proof. pose proof attempt_delivery_wf. unfold deliverOne, settle. pres. Qed.

Lemma deliver_all_wf key max c due : preserves wf_db (deliver_all url_scheme send jitter key max c due).
Proof.
  induction due as [|d due IH]; simpl; [pres|]. apply pres_bind; [by intros w Hw|]. intros []; [pres|].
  apply pres_bind; [apply deliverOne_wf|intros _; exact IH].
Qed.

Lemma worker_sweep_wf key max c : preserves wf_db (worker_sweep url_scheme send jitter key max c).
Proof. unfold worker_sweep, DueForAttempt. pres. apply deliver_all_wf. Qed.

(** The steps of the outbox: an event is enqueued (never under the type of a
    test), a test or a redelivery is requested, the worker sweeps, the pruner
    deletes a batch, or anything happens elsewhere. *)
Inductive outbox_step (key : string) (max : Z) : World -> World -> Prop :=
  | ostep_enqueue c t i p w : outbox_step key max w (Enqueuer.Enqueue c t i p w).2
  | ostep_test c ep payload now w : 0 < now -> outbox_step key max w (InsertUserTest c ep payload now w).2
  | ostep_redeliver c id now w : 0 < now -> outbox_step key max w (InsertRedelivery c id now w).2
  | ostep_sweep c w : outbox_step key max w (worker_sweep url_scheme send jitter key max c w).2
  | ostep_prune c before batch w : outbox_step key max w (Prune c before batch w).2
  | ostep_elsewhere w w' : w_env w' = w_env w -> d_deliveries (w_db w') = d_deliveries (w_db w) ->
      wf_db (w_db w') -> outbox_step key max w w'.

Lemma outbox_insert_select max c sel w :
  (forall d mk n, sel d = Some mk -> delivery_ok max (mk n)) -> outbox_ok max w ->
  wp (n ← exec_insert_select c sel; n ← rows_affected n; mret (negb (Nat.eqb n 0))) (fun _ w' => outbox_ok max w') w.
Proof.
  intros Hsel Hw. wp_step. unfold exec_insert_select. wp_step; [done|].
  assert (Hd : outbox_ok max (set_db d' (bump w))).
  { destruct (sel (w_db w)) as [mk|] eqn:Hs.
    - destruct (insert_violation _ _); simplify_eq; [exact Hw|].
      eapply (outbox_insert max w); [reflexivity|reflexivity| |exact Hw]. by eapply Hsel.
    - simplify_eq. exact Hw. }
  destruct r as [n|e|]; [|done|done]. wp_step. wp_step; [done|]. by wp_step.
Qed.

Lemma new_delivery_ok max id ep ty ev p now :
  1 <= max -> 0 < now ->
  delivery_ok max (DeliveryRow id ep ty ev p 0 (Some now) DeliveryPending None now now).
Proof.
  intros Hm Hn. split; [done|]. left. split; [done|]. split; [simpl; destruct (str_eq _ _); lia|]. by exists now.
Qed.

Lemma outbox_step_ok key max w w' :
  jitter_law jitter -> 1 <= max <= 16 -> outbox_step key max w w' ->
  wf_db (w_db w) /\ outbox_ok max w -> wf_db (w_db w') /\ outbox_ok max w'.
Proof.
  intros Hj Hm Hs [Hwf Hok]. destruct Hs as [c t i p w|c ep payload now w Hn|c id now w Hn|c w|c before batch w|w w' He Hd Hwf'].
  - split; [by apply Enqueue_wf|]. apply (outbox_enqueue max c t i p w ltac:(lia) Hok).
  - split; [by apply deliveries_Test_wf|]. apply outbox_insert_select; [|done].
    intros d mk n Hsel. unfold user_test_row in Hsel. destruct (existsb _ _); [|done]. injection Hsel as <-.
    apply new_delivery_ok; lia.
  - split; [by apply deliveries_Redelivery_wf|]. apply outbox_insert_select; [|done].
    intros d mk n Hsel. unfold redelivery_row in Hsel. destruct (List.find _ _); [|done]. injection Hsel as <-.
    apply new_delivery_ok; lia.
  - split; [by apply worker_sweep_wf|]. by apply outbox_sweep.
  - split; [by apply deliveries_Prune_wf|]. unfold Prune.
    assert (Hp : wp (n ← exec_delete_where c (fun d r => bool_decide (rv_id r ∈ prune_ids before batch d));
        rows_affected n) (fun _ w' => outbox_ok max w') w); [|exact Hp].
    wp_step. wp_step; [done|]. wp_step; (eapply (outbox_shrink max w); [reflexivity|reflexivity|exact Hok]).
  - split; [done|]. by eapply outbox_same.
Qed.

(** C24: the outbox is never stuck and never overruns: in every state reachable
    by any interleaving of its steps, under every fault, each delivery is
    either pending with attempts left (one for a test, the configured maximum
    otherwise) and a next attempt scheduled, or terminal with none. *)
Theorem outbox_invariant (key : string) (max : Z) (w w' : World)
    (Hj : jitter_law jitter) (Hm : 1 <= max <= 16) (Hwf : wf_db (w_db w)) (Hok : outbox_ok max w)
    (Hsteps : rtc (outbox_step key max) w w') : outbox_ok max w' /\ wf_db (w_db w').
Proof.
  assert (H' : wf_db (w_db w') /\ outbox_ok max w'); [|by destruct H'].
  induction Hsteps as [w|w w1 w2 Hs _ IH]; [done|].
  destruct (outbox_step_ok key max w w1 Hj Hm Hs (conj Hwf Hok)). by apply IH.
Qed.
End Delivery.

(** *** The hypotheses hold on the concrete world *)

Section DeliveryWitnesses.
#[local] Existing Instance toy_crypto.
Definition demo_send (step : nat) (url : string) : SendOutcome := Responded 503.
Definition demo_due : NotificationDeliveryRepo.DueDelivery :=
  NotificationDeliveryRepo.MkDueDelivery (scanDelivery
    (DeliveryRow 1 "e1" "device.ip_changed" 3 "{}" 0 (Some 900) "pending" None 900 900))
    "https://example.org/h" demo_sealed.

Lemma demo_jitter : jitter_law (fun b => b).
Proof. intros b Hb. lia. Qed.

Lemma demo_outbox : outbox_ok 8 demo_world.
Proof.
  split; [intros k; simpl; lia|]. intros r [->|H%elem_of_nil]%elem_of_cons; [|done].
  split; [done|]. left. split; [done|]. split; [done|]. by exists 900.
Qed.


Lemma outbox_invariant_witness :
  outbox_ok 8 (worker_sweep (fun _ => Some "https"%string) demo_send (fun b => b) demo_key 8
    background demo_world).2.
Proof.
  refine (proj1 (outbox_invariant (fun _ => Some "https"%string) demo_send (fun b => b)
    demo_key 8 demo_world _ demo_jitter ltac:(lia) demo_wf demo_outbox _)).
  refine (rtc_once _ _ (ostep_sweep _ _ _ _ _ _ _)).
Defined.
End DeliveryWitnesses.
