(* ===== verification/Endpoints.v ===== *)
(** * internal/server/service/notification.go: webhook endpoints

    [NotificationService]: the endpoints and deliveries as an administrator
    manages them.  Parameters: [url_parse] is url.Parse (scheme and host name),
    [deny_text] the text of an error. *)

From S2P Require Import Prelude GoLib JsonText Schema Integrity Effects NetAddr Demo StoreUsers StoreDevices StoreTokens.
From S2P Require Import StoreNotify Auth ServiceDevices ServiceFacts Notify.

Section Notification.
Context `{Crypto} (url_parse : string -> option (string * string)).

  (** Why a target is refused; a URL that does not parse is not a denial. *)
Inductive target_error := TargetUnparsed | TargetScheme (scheme : string) | TargetNoHost | TargetDenied (d : denial).
Context (deny_text : target_error -> string).

Record NotificationService := MkNotificationService { ns_sealKey : string; ns_allowed : list prefix }.

Definition validateTarget (rawURL : string) (allowed : list prefix) : option target_error :=
    match url_parse rawURL with
    | None => Some TargetUnparsed
    | Some (scheme, host) =>
        if negb (str_eq scheme "http") && negb (str_eq scheme "https") then Some (TargetScheme scheme)
        else if str_eq host EmptyString then Some TargetNoHost
        else match parse_addr host with
             | None => None                     (* a name: the dialer's policy decides *)
             | Some a => TargetDenied <$> Permit scheme a allowed
             end
    end.

Definition target_err (e : target_error) : err :=
    match e with TargetUnparsed => ErrOther (deny_text e) | _ => ErrDenied (deny_text e) end.

Definition EndpointList (c : ctx) : M (list NotificationEndpoint) := NotificationEndpointRepo.List c.
Definition EndpointGet (c : ctx) (id : string) : M NotificationEndpoint := NotificationEndpointRepo.Get c id.

Definition endpoint_audit (actorID event targetID details : string) : AuditEntry :=
    audit_entry actorID event "notification_endpoint" targetID details.

Definition EndpointCreate (s : NotificationService) (c : ctx) (actorID label rawURL : string)
      : M (NotificationEndpoint * string) :=
    match validateTarget rawURL (ns_allowed s) with
    | Some e =>
        AuditLog c (endpoint_audit actorID "notification.target_rejected" EmptyString
          (json_map [("url", rawURL); ("reason", deny_text e)]%string));;
        fail (target_err e)
    | None =>
        secret ← GenerateSecret;
        sealed ← SealSecret (ns_sealKey s) secret;
        now ← now_unix;
        id ← new_id;
        let ep := MkEndpoint id label rawURL sealed true now now in
        NotificationEndpointRepo.Create c ep;;
        AuditLog c (endpoint_audit actorID "notification.endpoint_created" id EmptyString);;
        AuditLog c (endpoint_audit actorID "notification.secret_revealed" id EmptyString);;
        mret (ep, b64_std_encode secret)
    end.

Definition EndpointSetEnabled (c : ctx) (actorID id : string) (enabled : bool) : M unit :=
    NotificationEndpointRepo.SetEnabled c id enabled;;
    AuditLog c (endpoint_audit actorID
      (if enabled then "notification.endpoint_enabled" else "notification.endpoint_disabled") id EmptyString).

Definition EndpointDelete (c : ctx) (actorID id : string) : M unit :=
    NotificationEndpointRepo.Delete c id;;
    AuditLog c (endpoint_audit actorID "notification.endpoint_deleted" id EmptyString).

Definition EndpointTest (c : ctx) (actorID id : string) : M bool :=
    now ← now_unix;
    ok ← NotificationDeliveryRepo.InsertUserTest c id (RenderTest now) now;
    if ok : bool then
      AuditLog c (endpoint_audit actorID "notification.test_sent" id EmptyString);; mret true
    else mret false.

Definition Redeliver (c : ctx) (actorID : string) (deliveryID : Z) : M bool :=
    now ← now_unix;
    ok ← NotificationDeliveryRepo.InsertRedelivery c deliveryID now;
    if ok : bool then
      AuditLog c (audit_entry actorID "notification.redelivered" "notification_delivery" (format_int deliveryID) EmptyString);;
      mret true
    else mret false.

Definition Deliveries (c : ctx) (endpointID : string) (limit : Z) : M (list NotificationDelivery) :=
    NotificationDeliveryRepo.ListByEndpoint c endpointID limit.
End Notification.

(** ** What an administrator can add *)

Section EndpointFacts.
Context `{Crypto} (url_parse : string -> option (string * string)).
Context (deny_text : target_error -> string).

  (** The policy a stored target has passed. *)
Definition target_allowed (rawURL : string) (allowed : list prefix) : Prop :=
    exists scheme host, url_parse rawURL = Some (scheme, host) /\ (scheme = "http" \/ scheme = "https")%string /\
      host <> EmptyString /\ forall a, parse_addr host = Some a -> Permit scheme a allowed = None.

Lemma validateTarget_allowed rawURL allowed :
    validateTarget url_parse rawURL allowed = None <-> target_allowed rawURL allowed.
  Proof.
    unfold validateTarget, target_allowed. destruct (url_parse rawURL) as [[scheme host]|]; [|naive_solver].
    destruct (negb (str_eq scheme "http") && negb (str_eq scheme "https")) eqn:Hs.
    { apply andb_true_iff in Hs as [Ha%negb_true_iff Hb%negb_true_iff]. split; [done|].
      intros (? & ? & [= <- <-] & [->| ->] & _); [by rewrite str_eq_refl in Ha|by rewrite str_eq_refl in Hb]. }
    assert (Hsch : scheme = "http"%string \/ scheme = "https"%string).
    { apply andb_false_iff in Hs as [Ha|Ha]; apply negb_false_iff, str_eq_true in Ha; auto. }
    destruct (str_eq host EmptyString) eqn:Hh.
    { apply str_eq_true in Hh as ->. split; [done|]. by intros (? & ? & [= <- <-] & _ & Hne & _). }
    assert (Hne : host <> EmptyString) by (intros ->; by rewrite str_eq_refl in Hh).
    destruct (parse_addr host) as [a|] eqn:Ha.
    - split.
      + intros Hp. exists scheme, host. split_and!; try done. intros a'. rewrite Ha. intros [= <-].
        by destruct (Permit scheme a allowed).
      + intros (? & ? & [= <- <-] & _ & _ & Hp). by rewrite (Hp a Ha).
    - split; [|done]. intros _. exists scheme, host. split_and!; try done. intros a'. by rewrite Ha.
  Qed.

  (** A rejection is audited and nothing else. *)
Definition only_audited (w w' : World) : Prop :=
    exists rows seq, w_db w' = setd_audit_seq seq (setd_audit rows (w_db w)).

  (** An endpoint is stored only for a target the policy allows (an http or
      https URL with a host, a literal address permitted for that scheme), enabled
      and with a fresh secret: what is stored sealed opens to exactly the secret
      that is revealed, once; a refused or failed creation stores no endpoint. *)
Theorem EndpointCreate_spec (Hl : CryptoLaws) (s : NotificationService) c actor label rawURL w
      (Hk : String.length (ns_sealKey s) = 32%nat) (Hsz : rand_sized (w_env w)) :
    wp (EndpointCreate url_parse deny_text s c actor label rawURL) (fun r w' => match r with
      | Ok (ep, revealed) => target_allowed rawURL (ns_allowed s) /\
          d_endpoints (w_db w') = d_endpoints (w_db w) ++ [EndpointRow (ne_ID ep) label rawURL
            (ne_SecretSealed ep) 1 (ne_CreatedAt ep) (ne_UpdatedAt ep)] /\ ne_Enabled ep = true /\
          exists secret, revealed = b64_std_encode secret /\
            forall w2, OpenSecret (ns_sealKey s) (ne_SecretSealed ep) w2 = (Ok secret, w2)
      | Err _ => only_audited w w'
      | Panic => False
      end) w.
  Proof.
    assert (Hno : forall w', w_db w' = w_db w -> only_audited w w').
    { intros w' Hd. exists (d_audit (w_db w)), (d_audit_seq (w_db w)). by rewrite setd_audit_id. }
    unfold EndpointCreate. destruct (validateTarget url_parse rawURL (ns_allowed s)) eqn:Hv.
    { wp_step. apply wp_AuditLog. intros w1 [_ Ha]. wp_step. exact Ha. }
    apply validateTarget_allowed in Hv. unfold GenerateSecret, SealSecret, newGCM. rewrite Hk.
    change (Nat.eqb 32 32) with true. cbv iota. wp_step. wp_step; [|by apply Hno]. rename s0 into secret.
    wp_step. wp_step. wp_step. wp_step. wp_step; [|by apply Hno]. rename s0 into nonce. wp_step.
    wp_step. wp_step. wp_step. wp_step. unfold NotificationEndpointRepo.Create. wp_step. wp_step.
    wp_step; [by apply Hno|by apply Hno|]. wp_step. apply wp_AuditLog. intros w1 (_ & r1 & s1 & Hd1).
    wp_step. apply wp_AuditLog. intros w2 (_ & r2 & s2 & Hd2). wp_step. simpl.
    split_and!; [done|by rewrite Hd2, Hd1|done|]. exists secret. split; [done|]. intros w3.
    apply OpenSecret_unseals, sealed_unseals; [done|]. by eapply (Hsz (S (w_n w))).
  Qed.

  (** One delivery more, due now, with no attempt made. *)
Definition one_more (P : delivery_row -> Prop) (w w' : World) : Prop :=
    exists row, d_deliveries (w_db w') = d_deliveries (w_db w) ++ [row] /\ P row /\ rv_attempts row = 0 /\
      rv_status row = DeliveryPending /\ rv_next_attempt_at row = Some (rv_created_at row).

Definition same_deliveries (w w' : World) : Prop := d_deliveries (w_db w') = d_deliveries (w_db w).

Definition enabled_endpoint (id : string) (d : DB) : Prop :=
    exists e, e ∈ d_endpoints d /\ re_id e = id /\ re_enabled e = 1.

  (** Ok false: nothing; an error may come after the row was written. *)
Definition at_most_one (P : delivery_row -> Prop) (w : World) (r : result bool) (w' : World) : Prop :=
    match r with
    | Ok true => one_more P w w'
    | Ok false => same_deliveries w w'
    | Err _ => same_deliveries w w' \/ one_more P w w'
    | Panic => False
    end.

Lemma wp_insert_select c sel P (w0 w : World) : same_deliveries w0 w ->
    (forall mk n, sel (w_db w) = Some mk -> P (mk n) /\ rv_attempts (mk n) = 0 /\ rv_status (mk n) = DeliveryPending /\
       rv_next_attempt_at (mk n) = Some (rv_created_at (mk n))) ->
    wp (n ← NotificationDeliveryRepo.exec_insert_select c sel; n ← rows_affected n; mret (negb (Nat.eqb n 0)))
      (at_most_one P w0) w.
  Proof.
    intros Hsame Hsel. unfold NotificationDeliveryRepo.exec_insert_select. wp_step. wp_step; [by left|].
    match goal with H : match sel ?d with _ => _ end = _ |- _ => change d with (w_db w) in H; rename H into Hst end.
    destruct (sel (w_db w)) as [mk|] eqn:Hs; simplify_eq/=.
    - match type of Hst with context [insert_violation ?x ?d] => destruct (insert_violation x d) end;
        simplify_eq/=; [by left|].
      assert (Hone : forall w', d_deliveries (w_db w') = d_deliveries (w_db w) ++ [mk (d_deliveries_seq (w_db w) + 1)] ->
        one_more P w0 w').
      { intros w' Hd. exists (mk (d_deliveries_seq (w_db w) + 1)). destruct (Hsel mk (d_deliveries_seq (w_db w) + 1) eq_refl)
          as (? & ? & ? & ?). rewrite <- Hsame. by split_and!. }
      wp_step. wp_step; [right; by apply Hone|]. wp_step. by apply Hone.
    - wp_step. wp_step; [by left|]. by wp_step.
  Qed.

  (** The audit row that follows a success. *)
Lemma wp_then_audit c e P w (m : M bool) : wp m (at_most_one P w) w ->
    wp (ok ← m; if ok : bool then AuditLog c e;; mret true else mret false) (at_most_one P w) w.
  Proof.
    intros Hm. wp_step. eapply wp_mono; [exact Hm|].
    intros [[]|?|] w'; cbv beta iota; [|intros Hs; by wp_step|done|done].
    - intros (row & Hd & HP). wp_step. apply wp_AuditLog. intros w2 (_ & rows & seq & Hd2). wp_step.
      exists row. by rewrite Hd2.
  Qed.

Lemma existsb_endpoint id d :
    existsb (fun e => str_eq (re_id e) id && (re_enabled e =? 1)) (d_endpoints d) = true -> enabled_endpoint id d.
  Proof.
    intros (e & Hin%list_elem_of_In & [He%str_eq_true Hen%Z.eqb_eq]%andb_true_iff)%existsb_exists. by exists e.
  Qed.

  (** A test or a redelivery adds one pending delivery that is due now with
      no attempt made, to an enabled endpoint, or none: a test carries the test
      event, a redelivery copies the payload of a delivery that is over, whose
      own row stays; only an error can leave it open whether the row was added. *)
Theorem on_demand_spec c actor id deliveryID w :
    wp (EndpointTest c actor id) (at_most_one (fun row => rv_endpoint_id row = id /\
      rv_event_type row = EventTest /\ enabled_endpoint id (w_db w)) w) w /\
    wp (Redeliver c actor deliveryID) (at_most_one (fun row => exists src, src ∈ d_deliveries (w_db w) /\
      rv_id src = deliveryID /\ deliveryTerminal (rv_status src) = true /\ rv_payload row = rv_payload src /\
      rv_endpoint_id row = rv_endpoint_id src /\ enabled_endpoint (rv_endpoint_id src) (w_db w)) w) w.
  Proof.
    split.
    - unfold EndpointTest. wp_step. wp_step. apply (wp_then_audit c _ _ (bump w)), wp_insert_select; [done|].
      intros mk n. unfold NotificationDeliveryRepo.user_test_row. destruct (existsb _ _) eqn:He; [|done].
      intros [= <-]. apply existsb_endpoint in He. by split_and!.
    - unfold Redeliver. wp_step. wp_step. apply (wp_then_audit c _ _ (bump w)), wp_insert_select; [done|].
      intros mk n. unfold NotificationDeliveryRepo.redelivery_row. destruct (List.find _ _) as [src|] eqn:Hf; [|done].
      apply find_some_iff in Hf as [Hin Hp]. rewrite !andb_true_iff in Hp. destruct Hp as [[Hid%Z.eqb_eq Ht] He].
      intros [= <-]. apply existsb_endpoint in He. split_and!; try done. by exists src.
  Qed.
End EndpointFacts.

(** ** Concrete runs *)

#[local] Existing Instance toy_crypto.

Definition demo_url (s : string) : option (string * string) := if str_eq s "https://hook.example.org/x" then Some ("https", "hook.example.org")%string else None.
Definition demo_service : NotificationService := MkNotificationService demo_key [].
Definition endpoint_made : result (NotificationEndpoint * string) * World :=
  EndpointCreate demo_url (fun _ => EmptyString) demo_service background "u1" "hook2"
    "https://hook.example.org/x" demo_world.

Lemma EndpointCreate_spec_witness :
  length (d_endpoints (w_db endpoint_made.2)) = 2%nat /\ target_allowed demo_url "https://hook.example.org/x" [].
Proof.
  split; [vm_compute; reflexivity|].
  assert (Hr : exists x, endpoint_made.1 = Ok x) by (vm_compute; by eexists).
  unfold endpoint_made in *. destruct Hr as [[ep revealed] Hr].
  destruct (wp_elim _ _ _ _ _ (EndpointCreate_spec demo_url (fun _ => EmptyString)
    toy_crypto_laws demo_service background "u1" "hook2" "https://hook.example.org/x" demo_world eq_refl demo_rand_sized)
    (run_eq _ _ Hr)) as [Ht _].
  exact Ht.
Defined.
