(* ===== verification/Email.v ===== *)
(** * internal/email: addresses, rendering and the advisory sends

    The 7-bit folding and the address predicate of validate.go, the bodies of
    templates.go and duration.go, and the mail helpers of
    service/grants.go that every service that sends mail uses.

    Parameters: [ParseAddress] is net/mail's parser (display name and address
    of an accepted string), [Mailer] the transport a service is given; a
    timeout of a send is one of its failures. *)

From S2P Require Import Prelude GoLib Schema Integrity Effects StoreUsers StoreDevices StoreTokens Auth.
From S2P Require Import ServiceDevices ServiceFacts.
From Stdlib Require Import Ascii.

(** ** validate.go: folding *)

Fixpoint all_chars (p : ascii -> bool) (s : string) : bool :=
  match s with
  | EmptyString => true
  | String c r => p c && all_chars p r
  end.

Definition IsASCII (s : string) : bool := all_chars (fun c => code c <=? 127) s.

Definition fold_byte (c : ascii) : ascii :=
  if (code c <? 32) || (code c =? 127) then "?"%char else c.

(** [for _, r := range s]: an invalid byte is a rune of its own. *)
Fixpoint ASCIIFold (s : string) : string :=
  match s with
  | EmptyString => EmptyString
  | String a r =>
      if code a <=? 127 then String (fold_byte a) (ASCIIFold r)
      else String "?"%char
        match r with
        | String b r1 =>
            if rune2 a b then ASCIIFold r1 else
            match r1 with
            | String d r2 =>
                if rune3 a b d then ASCIIFold r2 else
                match r2 with
                | String e r3 => if rune4 a b d e then ASCIIFold r3 else ASCIIFold r
                | EmptyString => ASCIIFold r
                end
            | EmptyString => ASCIIFold r
            end
        | EmptyString => EmptyString
        end
  end.

Definition printable (c : ascii) : bool := (32 <=? code c) && (code c <=? 126).
Definition all_printable (s : string) : bool := all_chars printable s.

Lemma fold_byte_printable c : code c <= 127 -> printable (fold_byte c) = true.
Proof.
  intros H. unfold fold_byte. destruct (Z.ltb_spec (code c) 32); [done|].
  destruct (Z.eqb_spec (code c) 127); [done|]. simpl. unfold printable.
  apply andb_true_iff. split; apply Z.leb_le; lia.
Qed.

Lemma fold_byte_id c : printable c = true -> fold_byte c = c.
Proof.
  unfold printable, fold_byte. intros [H1%Z.leb_le H2%Z.leb_le]%andb_true_iff.
  by rewrite (proj2 (Z.ltb_ge _ _)), (proj2 (Z.eqb_neq _ _)) by lia.
Qed.

Lemma ASCIIFold_printable s : all_printable (ASCIIFold s) = true.
Proof.
  assert (H : forall n s, (String.length s <= n)%nat -> all_printable (ASCIIFold s) = true); [|by eapply H].
  clear. induction n as [|n IH]; intros [|a r] Hl; simpl in Hl; try done; [lia|].
  simpl ASCIIFold. destruct (Z.leb_spec (code a) 127) as [Ha|_].
  - unfold all_printable. cbn [all_chars]. rewrite fold_byte_printable by done. simpl. apply IH. lia.
  - unfold all_printable; cbn [all_chars]; fold (all_printable (ASCIIFold r)). change (printable "?") with true. simpl andb.
    destruct r as [|b r1]; [done|]. simpl in Hl. destruct (rune2 a b); [apply IH; lia|].
    destruct r1 as [|d r2]; [apply IH; simpl; lia|]. simpl in Hl. destruct (rune3 a b d); [apply IH; lia|].
    destruct r2 as [|e r3]; [apply IH; simpl; lia|]. simpl in Hl.
    destruct (rune4 a b d e); apply IH; simpl; lia.
Qed.

Lemma ASCIIFold_id s : all_printable s = true -> ASCIIFold s = s.
Proof.
  induction s as [|a r IH]; [done|]. unfold all_printable; cbn [all_chars]; fold (all_printable (ASCIIFold r)).
  intros [Ha Hr]%andb_true_iff. simpl ASCIIFold.
  assert (Hle : (code a <=? 127) = true).
  { unfold printable in Ha. apply andb_true_iff in Ha as [_ H%Z.leb_le]. apply Z.leb_le. lia. }
  rewrite Hle. by rewrite fold_byte_id, IH.
Qed.

(** ** validate.go: addresses *)

Inductive email_error :=
  | ErrAddress | ErrNotASCII | ErrAddressUnsupported | ErrAddressNotCanonical | ErrHeaderInjection | ErrAddressUnroutable.

Section Addresses.
Context (ParseAddress : string -> option (string * string)).

Definition NormalizeAddress (addr : string) : string + email_error :=
    match ParseAddress addr with
    | None => inr ErrAddress
    | Some (_, a) =>
        if negb (IsASCII a) then inr ErrNotASCII
        else match ParseAddress a with
          | Some (_, again) => if str_eq again a then inl a else inr ErrAddressUnsupported
          | None => inr ErrAddressUnsupported
          end
    end.

  (** A canonical form is its own canonical form. *)
Lemma NormalizeAddress_idem addr a : NormalizeAddress addr = inl a -> NormalizeAddress a = inl a.
  Proof.
    unfold NormalizeAddress. destruct (ParseAddress addr) as [[? a']|]; [|done].
    destruct (IsASCII a') eqn:Hi; simpl; [|done]. destruct (ParseAddress a') as [[? b]|] eqn:Hp; [|done].
    destruct (str_eq b a') eqn:Hb; [|done]. apply str_eq_true in Hb as ->. intros [= <-].
    by rewrite Hp, Hi; simpl; rewrite Hp, str_eq_refl.
  Qed.

Lemma NormalizeAddress_ascii addr a : NormalizeAddress addr = inl a -> IsASCII a = true.
  Proof.
    unfold NormalizeAddress. destruct (ParseAddress addr) as [[? a']|]; [|done].
    destruct (IsASCII a') eqn:Hi; simpl; [|done]. destruct (ParseAddress a') as [[? b]|]; [|done].
    destruct (str_eq b a'); [|done]. by intros [= <-].
  Qed.
End Addresses.

(** [strings.EqualFold] when one side is ASCII: the letters, and the two runes
    outside ASCII whose simple folding is a letter (the Kelvin sign, the long
    s); a rune of the other side that has no such folding keeps its bytes,
    which differ from every ASCII character. *)
Definition lower (c : ascii) : ascii := if cont 65 90 c then chr (code c + 32) else c.

Fixpoint fold_case (s : string) : string :=
  match s with
  | EmptyString => EmptyString
  | String a r =>
      match r with
      | String b r1 =>
          if (code a =? 197) && (code b =? 191) then String "s"%char (fold_case r1) else
          match r1 with
          | String d r2 =>
              if (code a =? 226) && (code b =? 132) && (code d =? 170) then String "k"%char (fold_case r2)
              else String (lower a) (fold_case r)
          | EmptyString => String (lower a) (fold_case r)
          end
      | EmptyString => String (lower a) EmptyString
      end
  end.

Definition EqualFold (s t : string) : bool := str_eq (fold_case s) (fold_case t).

(** ** duration.go *)

Definition pluralUnit (n : Z) (unit : string) : string :=
  if n =? 1 then ("1 " ++ unit)%string else (format_int n ++ " " ++ unit ++ "s")%string.

(** [d] in nanoseconds; the sum wraps like the int64 it is. *)
Definition FormatDuration (d : Z) : string :=
  if d <=? 0 then EmptyString
  else
    let mins := Z.quot (i64 (d + 60 * 10 ^ 9 - 1)) (60 * 10 ^ 9) in
    let h := Z.quot mins 60 in
    let m := Z.rem mins 60 in
    if h =? 0 then pluralUnit m "minute"
    else if m =? 0 then pluralUnit h "hour"
    else (pluralUnit h "hour" ++ " " ++ pluralUnit m "minute")%string.

(** ** templates.go

    A rendered message is its subject and its body. *)

Definition crlf : string := String "013"%char (String "010"%char EmptyString).
Definition dquote : string := String "034"%char EmptyString.

Definition lines (l : list string) : string := foldr (fun s acc => s ++ crlf ++ acc)%string EmptyString l.

Definition recoveryTmpl (link expiresIn : string) : string :=
  lines ["A passkey recovery link was requested for your DIYDDNS account."; EmptyString;
     "Use the link below to add a new passkey. It expires in " ++ expiresIn ++ " and can only be used once.";
     EmptyString; link; EmptyString; "If you did not request this, you can safely ignore this email."]%string.

Definition RecoveryLinkBody (link expiresIn : string) : string * string :=
  ("DIYDDNS passkey recovery link"%string, recoveryTmpl link expiresIn).

Definition adminNotifyTmpl (userEmail userID : string) : string :=
  lines ["A passkey recovery link was issued for the account " ++ userEmail ++
            " (user " ++ userID ++ ")."; EmptyString;
     "No action is required unless this was unexpected."]%string.

Definition AdminNotifyBody (userEmail userID : string) : string * string :=
  ("DIYDDNS passkey recovery issued"%string, adminNotifyTmpl (ASCIIFold userEmail) userID).

Definition inviteTmpl (link expiresIn : string) : string :=
  lines ["An account has been created for you on DIYDDNS."; EmptyString;
     "Use the link below to finish setting it up by registering a passkey.";
     "It expires in " ++ expiresIn ++ " and can only be used once."; EmptyString; link; EmptyString;
     "If you were not expecting this, contact the administrator who invited you."]%string.

Definition InviteLinkBody (link expiresIn : string) : string * string :=
  ("You have been invited to DIYDDNS"%string, inviteTmpl link expiresIn).

Definition adminRecoveryTmpl (link expiresIn : string) : string :=
  lines ["An administrator has reset the passkeys on your DIYDDNS account."; EmptyString;
     "Every passkey on the account has already been revoked, so you cannot";
     "sign in until you register a new one. Use the link below to do that;";
     "it expires in " ++ expiresIn ++ " and can only be used once."; EmptyString; link; EmptyString;
     "If you were not expecting this, contact your administrator. Do not";
     "disregard this message: your existing passkeys no longer work."]%string.

Definition AdminRecoveryLinkBody (link expiresIn : string) : string * string :=
  ("Your DIYDDNS passkeys were reset by an administrator"%string, adminRecoveryTmpl link expiresIn).

Definition reRegistrationTmpl (link expiresIn : string) : string :=
  lines ["An administrator has sent you a new link to register a passkey on your";
     "DIYDDNS account. Any earlier registration link for this account no longer";
     "works."; EmptyString;
     "Use the link below to register a passkey. It expires in " ++ expiresIn ++ " and";
     "can only be used once."; EmptyString; link; EmptyString;
     "If you were not expecting this, contact your administrator."]%string.

Definition ReRegistrationLinkBody (link expiresIn : string) : string * string :=
  ("A new DIYDDNS registration link from your administrator"%string, reRegistrationTmpl link expiresIn).

Definition emailChangeConfirmTmpl (link : string) : string :=
  lines ["A request was made to change the email address on your DIYDDNS account"; "to this one.";
     EmptyString;
     "Nothing changes until you open the link below. You need to be signed in";
     "to DIYDDNS in the same browser when you open it; if you are not, sign in";
     "first and then open the link again. It expires in one hour and can be"; "used once.";
     EmptyString; link; EmptyString; "If you did not request this, you can ignore this email."]%string.

Definition ChangeConfirmBody (link : string) : string * string :=
  ("Confirm your new DIYDDNS email address"%string, emailChangeConfirmTmpl link).

Definition emailChangeNoticeTmpl (newEmail : string) : string :=
  lines ["A request was made to change the email address on your DIYDDNS account";
     "to " ++ newEmail ++ "."; EmptyString;
     "Nothing has changed yet: this address stays in charge of your account";
     "until the new one confirms. If this was not you, sign in and cancel";
     "the pending change from Account, then contact your administrator, who";
     "can end every session on your account."]%string.

Definition ChangeNoticeBody (newEmail : string) : string * string :=
  ("A DIYDDNS email address change was requested"%string, emailChangeNoticeTmpl (ASCIIFold newEmail)).

Definition emailChangedTmpl (newEmail : string) : string :=
  lines ["The email address on your DIYDDNS account has been changed to";
     newEmail ++ ". Sign-in and passkey recovery mail now go there."; EmptyString;
     "If you did not make this change, contact your administrator immediately."]%string.

Definition ChangedBody (newEmail : string) : string * string :=
  ("Your DIYDDNS email address was changed"%string, emailChangedTmpl (ASCIIFold newEmail)).

Definition adminEmailChangedTmpl (newEmail : string) : string :=
  lines ["An administrator has changed the email address on your DIYDDNS account";
     "to " ++ newEmail ++ ". Sign-in and passkey recovery mail now go there."; EmptyString;
     "If this was unexpected, contact your administrator."]%string.

Definition AdminChangedBody (newEmail : string) : string * string :=
  ("Your DIYDDNS email address was changed by an administrator"%string, adminEmailChangedTmpl (ASCIIFold newEmail)).

Definition deviceDisabledByAdminTmpl (label id : string) : string :=
  lines ["An administrator has disabled your DIYDDNS device " ++ dquote ++ label ++ dquote ++
              " (id " ++ id ++ ")."; EmptyString;
       "The device is now rejected when it checks in, so its address is no longer";
       "recorded or published. Its history is kept."; EmptyString;
       "Sign in to see the device's state. If you were not expecting this, contact";
       "your administrator."]%string.

Definition deviceEnabledByAdminTmpl (label id : string) : string :=
  lines ["An administrator has enabled your DIYDDNS device " ++ dquote ++ label ++ dquote ++
              " (id " ++ id ++ ")."; EmptyString;
       "The device is accepted when it checks in again."; EmptyString;
       "Sign in to see the device's state."]%string.

Definition DeviceStateChangedByAdminBody (label id : string) (disabled : bool) : string * string :=
  if disabled then
    ("An administrator disabled one of your DIYDDNS devices"%string, deviceDisabledByAdminTmpl (ASCIIFold label) id)
  else ("An administrator enabled one of your DIYDDNS devices"%string, deviceEnabledByAdminTmpl (ASCIIFold label) id).

(** ** email.go and the advisory sends of service/grants.go *)

Record Mailer := MkMailer {
  Enabled : bool;
  Send : ctx -> string -> string -> string -> M unit }.

(** What the services need of a transport: it does not touch the database, and
    a send ends (a panic of the library is an error of [guardedSend]). *)
Class QuietMailer (m : Mailer) : Prop := {
  send_db : forall c to s b w, w_db (Send m c to s b w).2 = w_db w;
  send_env : forall c to s b w, w_env (Send m c to s b w).2 = w_env w;
  send_ends : forall c to s b w, (Send m c to s b w).1 <> Panic }.

(** email.go, [noopMailer]. *)
Definition noopMailer : Mailer := MkMailer false (fun _ _ _ _ => mret tt).

#[export] Instance noop_quiet : QuietMailer noopMailer.
Proof. by split. Qed.

(** A transport that delivers, for concrete runs. *)
Definition delivering : Mailer := MkMailer true (fun _ to s b => emit (OMail to s b)).

#[export] Instance delivering_quiet : QuietMailer delivering.
Proof. by split. Qed.

(** A nil mailer is [None]. *)
Class QuietMail (m : option Mailer) : Prop := quiet_mail : forall mm, m = Some mm -> QuietMailer mm.

#[export] Instance quiet_none : QuietMail None.
Proof. by intros mm. Qed.
#[export] Instance quiet_some mm `{!QuietMailer mm} : QuietMail (Some mm).
Proof. by intros ? [= <-]. Qed.

Definition mailer_on (m : option Mailer) : bool := match m with Some m => Enabled m | None => false end.

Definition EventEmailSendFailed : string := "email.send_failed".

Inductive SuppressReason := SuppressNone | SuppressUserDisabled.

Record Delivery := MkMailDelivery {
  dl_Attempted : bool; dl_To : string; dl_Err : option err; dl_Suppressed : SuppressReason }.

Definition no_delivery : Delivery := MkMailDelivery false EmptyString None SuppressNone.

Definition Sent (d : Delivery) : bool := dl_Attempted d && bool_decide (dl_Err d = None).

Section Mail.
Context (mailer : option Mailer).

Definition recordSendFailure (c : ctx) (e : AuditEntry) : M unit := AuditLog (without_cancel c) e.

  (** A disabled mailer's [Send] is never reached: callers ask first. *)
Definition sendBounded (c : ctx) (to subject body : string) : M unit :=
    match mailer with
    | Some m => Send m (without_cancel c) to subject body
    | None => panic
    end.

Definition sendAdvisory (c : ctx) (actorID targetUserID to : string) (msg : string * string) : M Delivery :=
    if negb (mailer_on mailer) then mret no_delivery
    else
      r ← catch (sendBounded c to msg.1 msg.2);
      match r with
      | inl _ => mret (MkMailDelivery true to None SuppressNone)
      | inr e =>
          recordSendFailure c (audit_entry actorID EventEmailSendFailed "user" targetUserID EmptyString);;
          mret (MkMailDelivery true to (Some e) SuppressNone)
      end.
End Mail.

(** An audit entry with the request's address. *)
Definition with_ip (ip : string) (e : AuditEntry) : AuditEntry :=
  MkAuditEntry (ae_ID e) (ae_ActorUserID e) (ae_EventType e) (ae_TargetType e) (ae_TargetID e)
    (ae_DetailsJSON e) ip (ae_UserAgent e) (ae_CreatedAt e).

(** ** Integrity *)

Section MailIntegrity.
Context (mailer : option Mailer) `{!QuietMail mailer}.

  (** A send leaves every property of the database as it is. *)
Lemma pres_sendBounded I c to s b : preserves I (sendBounded mailer c to s b).
  Proof.
    unfold sendBounded. destruct mailer as [mm|] eqn:Hm; [|apply pres_panic]. intros w Hw.
    pose proof (quiet_mail mm eq_refl) as Hq. by rewrite (send_db (m:=mm)).
  Qed.

Lemma pres_sendAdvisory I c a t to msg :
    (forall c e, preserves I (AuditLog c e)) -> preserves I (sendAdvisory mailer c a t to msg).
  Proof.
    intros Ha. unfold sendAdvisory, recordSendFailure. destruct (negb _); [pres|].
    apply pres_bind; [apply pres_catch, pres_sendBounded|]. intros []; pres.
  Qed.

  (** Any outcome of an advisory send: audit rows at most. *)
Lemma wp_sendAdvisory c a t to msg (Q : result Delivery -> World -> Prop) w :
    (mailer_on mailer = false -> Q (Ok no_delivery) w) ->
    (forall w', mailer_on mailer = true -> w_db w' = w_db w -> w_env w' = w_env w ->
      Q (Ok (MkMailDelivery true to None SuppressNone)) w') ->
    (forall e w' rows seq, mailer_on mailer = true ->
      w_db w' = setd_audit_seq seq (setd_audit rows (w_db w)) -> w_env w' = w_env w ->
      Q (Ok (MkMailDelivery true to (Some e) SuppressNone)) w') ->
    wp (sendAdvisory mailer c a t to msg) Q w.
  Proof.
    intros H1 H2 H3. unfold sendAdvisory. destruct (mailer_on mailer) eqn:Hon; simpl; [|wp_step; auto].
    wp_step. wp_step. unfold sendBounded, mailer_on in *. destruct mailer as [mm|] eqn:Hm; [|done].
    pose proof (quiet_mail mm eq_refl) as Hq. apply wp_intro. intros r w1 Hr.
    pose proof (send_db (m:=mm) (without_cancel c) to msg.1 msg.2 w) as Hd.
    pose proof (send_env (m:=mm) (without_cancel c) to msg.1 msg.2 w) as He.
    pose proof (send_ends (m:=mm) (without_cancel c) to msg.1 msg.2 w) as Hp.
    rewrite Hr in Hd, He, Hp. simpl in *. destruct r as [[]|e|]; [| |done].
    - wp_step. by apply H2.
    - wp_step. unfold recordSendFailure. apply wp_AuditLog_env.
      intros w2 (_ & rows & seq & Hd2) He2. wp_step. eapply H3; [done| |congruence].
      by rewrite Hd2, Hd.
  Qed.
End MailIntegrity.
