(* ===== verification/Envelope.v ===== *)
(** * internal/email: what may be sent

    The envelope predicates of validate.go, which every [Send] checks before
    it touches the network, and the transport's target URL (apprise.go).  The
    regular expressions are matchers on bytes: what they distinguish is ASCII,
    so the runes outside it match byte by byte. *)

From S2P Require Import Prelude GoLib Schema Effects Email.
From Stdlib Require Import Ascii.

(** ** Regular expressions *)

(** The class of blanks, and the separators of the library's lists. *)
Definition space (c : ascii) : bool := bool_decide (code c ∈ [9; 10; 12; 13; 32]).
Definition list_delim (c : ascii) : bool := space c || bool_decide (c ∈ ["["; "]"; ";"; ","]%char).

(** [Split]: the pieces between the maximal runs of separators. *)
Fixpoint pieces (p : ascii -> bool) (s cur : string) (in_run : bool) : list string :=
  match s with
  | EmptyString => [cur]
  | String c r =>
      if p c then if in_run then pieces p r cur true else cur :: pieces p r EmptyString true
      else pieces p r (cur ++ String c EmptyString) false
  end.

Definition libraryListDelims (s : string) : list string := pieces list_delim s EmptyString false.

Definition plain (c : ascii) : bool := negb (space c) && negb (Ascii.eqb c "@").

(** A dot that another character follows. *)
Fixpoint inner_dot (s : string) : bool :=
  match s with
  | String c (String _ _ as r) => Ascii.eqb c "." || inner_dot r
  | _ => false
  end.

(** The part after the at sign: no further at sign, and a dot inside. *)
Definition dotted (s : string) : bool :=
  match s with String _ r => all_chars plain s && inner_dot r | EmptyString => false end.

(** One at sign, something before it, a dotted name after it, no blanks. *)
Fixpoint recipient_re (seen : bool) (s : string) : bool :=
  match s with
  | EmptyString => false
  | String c r => if Ascii.eqb c "@" then seen && dotted r else plain c && recipient_re true r
  end.
Definition libraryRecipientRe (s : string) : bool := recipient_re false s.

Definition atext (c : ascii) : bool :=
  cont 65 90 c || cont 97 122 c || cont 48 57 c || cont 94 96 c || cont 123 126 c ||
  bool_decide (c ∈ ["!"; "#"; "$"; "%"; "&"; "'"; "*"; "+"; "/"; "="; "?"; "-"]%char).

(** Words of atext separated by single spaces. *)
Fixpoint words (inside : bool) (s : string) : bool :=
  match s with
  | EmptyString => inside
  | String c r => if atext c then words true r else inside && Ascii.eqb c " " && words false r
  end.
Definition displayNameRe (s : string) : bool := words false s.

(** ** validate.go *)

Section Checks.
Context (ParseAddress : string -> option (string * string)).

Definition IsRoutable (addr : string) : bool :=
    let parts := List.filter (fun p => negb (str_eq p EmptyString)) (libraryListDelims addr) in
    match parts with [p] => str_eq p addr | _ => false end && libraryRecipientRe addr.

Definition IsRoutableFrom (addr : string) : bool := libraryRecipientRe addr.

Inductive field := FieldFrom | FieldTo.

Definition checkAddress (f : field) (addr : string) : option email_error :=
    match NormalizeAddress ParseAddress addr with
    | inr e => Some e
    | inl normalized =>
        if negb (str_eq normalized addr) then Some ErrAddressNotCanonical
        else if negb (match f with FieldFrom => IsRoutableFrom addr | FieldTo => IsRoutable addr end)
        then Some ErrAddressUnroutable else None
    end.

Definition SplitFrom (from : string) : (string * string) + email_error :=
    match ParseAddress from with
    | None | Some (EmptyString, _) =>
        match checkAddress FieldFrom from with Some e => inr e | None => inl (EmptyString, from) end
    | Some (name, address) =>
        if negb (IsASCII name) || negb (displayNameRe name) ||
           negb (str_eq from (name ++ " <" ++ address ++ ">")) then inr ErrAddressNotCanonical
        else match checkAddress FieldFrom address with Some e => inr e | None => inl (name, address) end
    end.

Definition line_break (c : ascii) : bool := (code c =? 13) || (code c =? 10).

Definition checkSendable (from to subject body : string) : option email_error :=
    match SplitFrom from with
    | inr e => Some e
    | inl _ =>
        match checkAddress FieldTo to with
        | Some e => Some e
        | None =>
            if negb (IsASCII subject) then Some ErrNotASCII
            else if negb (all_chars (fun c => negb (line_break c)) subject) then Some ErrHeaderInjection
            else if negb (IsASCII body) then Some ErrNotASCII else None
        end
    end.
End Checks.

(** ** net/url: escaping *)

Definition alnum (c : ascii) : bool := cont 48 57 c || cont 65 90 c || cont 97 122 c.
Definition unreserved (c : ascii) : bool := alnum c || bool_decide (c ∈ ["-"; "_"; "."; "~"]%char).

Inductive encoding := EncodeQueryComponent | EncodeUserPassword | EncodeHost.

Definition shouldEscape (m : encoding) (c : ascii) : bool :=
  negb (unreserved c) &&
  match m with
  | EncodeQueryComponent => true
  | EncodeUserPassword => negb (bool_decide (c ∈ ["$"; "&"; "+"; ","; ";"; "="]%char))
  | EncodeHost => negb (bool_decide (c ∈ ["!"; "$"; "&"; "'"; "("; ")"; "*"; "+"; ","; ";"; "="; ":"; "["; "]"; "<"; ">"]%char)
                   || (code c =? 34))
  end.

Definition upper_hex (v : Z) : ascii := if v <? 10 then chr (48 + v) else chr (55 + v).
Definition percent (c : ascii) : string :=
  String "%" (String (upper_hex (code c / 16)) (String (upper_hex (code c mod 16)) EmptyString)).

Fixpoint escape (m : encoding) (s : string) : string :=
  match s with
  | EmptyString => EmptyString
  | String c r =>
      ((if (match m with EncodeQueryComponent => Ascii.eqb c " " | _ => false end) then "+"%string
        else if shouldEscape m c then percent c else String c EmptyString) ++ escape m r)%string
  end.

(** [ReplaceAll s "+" "%20"]. *)
Fixpoint plus_to_space (s : string) : string :=
  match s with
  | EmptyString => EmptyString
  | String c r => ((if Ascii.eqb c "+" then "%20"%string else String c EmptyString) ++ plus_to_space r)%string
  end.

Definition QueryEscape (s : string) : string := escape EncodeQueryComponent s.

(** [Encode] of values whose keys are in order. *)
Definition encode_values (l : list (string * string)) : string :=
  join "&" ((fun p => QueryEscape p.1 ++ "=" ++ QueryEscape p.2)%string <$> l).

(** [PathUnescape]: a plus sign is itself. *)
Definition unhex (c : ascii) : option Z :=
  if cont 48 57 c then Some (code c - 48) else if cont 97 102 c then Some (code c - 87)
  else if cont 65 70 c then Some (code c - 55) else None.

Fixpoint path_unescape (s : string) : option string :=
  match s with
  | EmptyString => Some EmptyString
  | String c r =>
      if Ascii.eqb c "%" then
        match r with
        | String a (String b r') =>
            match unhex a, unhex b, path_unescape r' with
            | Some x, Some y, Some t => Some (String (chr (x * 16 + y)) t)
            | _, _, _ => None
            end
        | _ => None
        end
      else String c <$> path_unescape r
  end.

(** ** apprise.go: the target URL *)

(** config.go: the section the transport reads. *)
Record EmailSection := MkEmailSection {
  es_Host : string; es_Port : Z; es_Username : string; es_Password : string; es_From : string; es_TLS : string }.

Definition secureMode (tlsMode : string) : string :=
  if str_eq tlsMode "starttls" then "starttls" else if str_eq tlsMode "implicit" then "ssl" else "insecure".

(** net.JoinHostPort. *)
Definition join_host_port (host port : string) : string :=
  if all_chars (fun c => negb (Ascii.eqb c ":") && negb (Ascii.eqb c "%")) host then (host ++ ":" ++ port)%string
  else ("[" ++ host ++ "]:" ++ port)%string.

Section Target.
Context (ParseAddress : string -> option (string * string)).

  (** newAppriseMailer: a refused From leaves both parts empty. *)
Definition from_parts (cfg : EmailSection) : string * string :=
    match SplitFrom ParseAddress (es_From cfg) with inl p => p | inr _ => (EmptyString, EmptyString) end.

  (** The keys in the order [Encode] sorts them. *)
Definition target_values (cfg : EmailSection) (to : string) : list (string * string) :=
    let '(name, addr) := from_parts cfg in
    [("format", "text"); ("from", addr); ("mode", secureMode (es_TLS cfg))]%string ++
    (if str_eq name EmptyString then [] else [("name"%string, name)]) ++ [("to"%string, to)].

Definition target_query (cfg : EmailSection) (to : string) : string :=
    plus_to_space (encode_values (target_values cfg to)).

Definition userinfo (cfg : EmailSection) : string :=
    if str_eq (es_Username cfg) EmptyString then EmptyString
    else (escape EncodeUserPassword (es_Username cfg) ++ ":" ++ escape EncodeUserPassword (es_Password cfg) ++ "@")%string.

Definition targetURL (cfg : EmailSection) (to : string) : string :=
    ("mailto://" ++ userinfo cfg ++ escape EncodeHost (join_host_port (es_Host cfg) (format_int (es_Port cfg))) ++
     "?" ++ target_query cfg to)%string.
End Target.

(** ** Characters of strings *)

Lemma all_chars_app p s t : all_chars p (s ++ t) = all_chars p s && all_chars p t.
Proof. induction s as [|c s IH]; simpl; [done|]. by rewrite <- andb_assoc, <- IH. Qed.

Lemma all_chars_impl (p q : ascii -> bool) s :
  (forall c, p c = true -> q c = true) -> all_chars p s = true -> all_chars q s = true.
Proof.
  intros H. induction s as [|c s IH]; simpl; [done|]. intros [Hc Hs]%andb_true_iff. by rewrite H, IH.
Qed.

(** A fact of one byte, by cases on the byte. *)
Ltac by_byte c := destruct c as [[] [] [] [] [] [] [] []]; vm_compute; done.

(** What a header line carries: ASCII and no line break. *)
Definition header_safe (s : string) : bool := IsASCII s && all_chars (fun c => negb (line_break c)) s.

Lemma recipient_plain s seen : recipient_re seen s = true -> all_chars (fun c => negb (space c)) s = true.
Proof.
  revert seen. induction s as [|c r IH]; intros seen; simpl; [done|].
  destruct (Ascii.eqb c "@") eqn:Hc.
  - apply Ascii.eqb_eq in Hc as ->. intros [_ Hd]%andb_true_iff. unfold dotted in Hd.
    destruct r as [|d r']; [done|]. apply andb_true_iff in Hd as [Hd _]. change (negb (space "@")) with true.
    eapply all_chars_impl; [|exact Hd]. intros x. unfold plain. by intros [? _]%andb_true_iff.
  - intros [Hp Hr]%andb_true_iff. unfold plain in Hp. apply andb_true_iff in Hp as [-> _]. by eapply IH.
Qed.

Lemma words_atext s inside : words inside s = true -> all_chars (fun c => atext c || Ascii.eqb c " ") s = true.
Proof.
  revert inside. induction s as [|c r IH]; intros inside; simpl; [done|]. destruct (atext c) eqn:Ha.
  - intros Hr. by eapply IH.
  - intros [[_ Hc]%andb_true_iff Hr]%andb_true_iff. rewrite Hc. by eapply IH.
Qed.

Lemma pieces_clean p s cur b q :
  q ∈ pieces p s cur b -> all_chars (fun c => negb (p c)) cur = true -> all_chars (fun c => negb (p c)) q = true.
Proof.
  revert cur b. induction s as [|c r IH]; intros cur b; simpl.
  - by intros ->%list_elem_of_singleton.
  - destruct (p c) eqn:Hp; [destruct b|].
    + apply IH.
    + intros [->|Hq]%elem_of_cons; [done|]. intros _. by eapply IH.
    + intros Hq Hc. eapply IH; [exact Hq|]. rewrite all_chars_app, Hc. simpl. by rewrite Hp.
Qed.

Lemma routable_clean a : IsRoutable a = true -> all_chars (fun c => negb (list_delim c)) a = true.
Proof.
  unfold IsRoutable. intros [H _]%andb_true_iff.
  destruct (List.filter _ _) as [|p [|]] eqn:Hf; try done. apply str_eq_true in H as ->.
  assert (Hin : a ∈ List.filter (fun p => negb (str_eq p EmptyString)) (libraryListDelims a)) by (rewrite Hf; apply list_elem_of_here).
  apply elem_of_bfilter in Hin as [Hin _]. by eapply pieces_clean.
Qed.

(** ** What is accepted *)

Section Accepted.
Context (P : string -> option (string * string)).

Lemma checkAddress_ok f a : checkAddress P f a = None ->
    NormalizeAddress P a = inl a /\ header_safe a = true /\
    match f with FieldFrom => True | FieldTo => all_chars (fun c => negb (list_delim c)) a = true end.
  Proof.
    unfold checkAddress. destruct (NormalizeAddress P a) as [n|e] eqn:Hn; [|done].
    destruct (str_eq n a) eqn:He; [|done]. apply str_eq_true in He as ->. simpl.
    destruct (match f with FieldFrom => IsRoutableFrom a | FieldTo => IsRoutable a end) eqn:Hr; [|done]. intros _.
    assert (Hre : libraryRecipientRe a = true).
    { destruct f; [done|]. unfold IsRoutable in Hr. by apply andb_true_iff in Hr as [_ ?]. }
    split_and!; [done| |by destruct f; [|apply routable_clean]].
    unfold header_safe. rewrite (NormalizeAddress_ascii _ _ _ Hn). simpl.
    eapply all_chars_impl; [|by eapply recipient_plain]. intros c. by_byte c.
  Qed.

Lemma SplitFrom_ok from name addr : SplitFrom P from = inl (name, addr) ->
    header_safe name = true /\ header_safe addr = true /\ NormalizeAddress P addr = inl addr /\
    from = if str_eq name EmptyString then addr else (name ++ " <" ++ addr ++ ">")%string.
  Proof.
    unfold SplitFrom. intros H.
    assert (Hbare : match checkAddress P FieldFrom from with Some e => inr e | None => inl (EmptyString, from) end
      = inl (name, addr) -> header_safe name = true /\ header_safe addr = true /\ NormalizeAddress P addr = inl addr /\
      from = if str_eq name EmptyString then addr else (name ++ " <" ++ addr ++ ">")%string).
    { destruct (checkAddress P FieldFrom from) eqn:Hc; [done|]. intros [= <- <-].
      apply checkAddress_ok in Hc as (Hn & Hs & _). by split_and!. }
    destruct (P from) as [[[|c nm] a]|]; [by apply Hbare| |by apply Hbare].
    destruct (negb (IsASCII (String c nm)) || _ || _) eqn:Hb; [done|].
    destruct (checkAddress P FieldFrom a) eqn:Hc; [done|]. injection H as <- <-.
    rewrite !orb_false_iff, !negb_false_iff in Hb. destruct Hb as [[Ha Hw] He%str_eq_true].
    apply checkAddress_ok in Hc as (Hn & Hs & _). split_and!; [|done|done|done].
    unfold header_safe. rewrite Ha. cbn [andb]. eapply all_chars_impl; [|by eapply words_atext]. intros x. by_byte x.
  Qed.
End Accepted.

(** ** The query of the target URL *)

Definition pct (c : ascii) : string := if unreserved c then String c EmptyString else percent c.

Fixpoint pct_all (s : string) : string :=
  match s with EmptyString => EmptyString | String c r => (pct c ++ pct_all r)%string end.

Lemma plus_to_space_app s t : plus_to_space (s ++ t) = (plus_to_space s ++ plus_to_space t)%string.
Proof. induction s as [|c s IH]; simpl; [done|]. by rewrite IH, string_app_assoc. Qed.

Lemma enc_pct s : plus_to_space (QueryEscape s) = pct_all s.
Proof.
  unfold QueryEscape. induction s as [|c s IH]; [done|]. cbn [escape pct_all].
  rewrite plus_to_space_app, IH. f_equal. by_byte c.
Qed.

Lemma path_unescape_pct c t : path_unescape (pct c ++ t) = String c <$> path_unescape t.
Proof.
  assert (H1 : unreserved c = true -> Ascii.eqb c "%" = false) by by_byte c.
  assert (H2 : unhex (upper_hex (code c / 16)) = Some (code c / 16)) by by_byte c.
  assert (H3 : unhex (upper_hex (code c mod 16)) = Some (code c mod 16)) by by_byte c.
  unfold pct. destruct (unreserved c).
  - rewrite string_app_cons. cbn [path_unescape]. by rewrite H1.
  - unfold percent. rewrite !string_app_cons. cbn [path_unescape]. change (Ascii.eqb "%" "%") with true.
    cbv iota. change (EmptyString ++ t)%string with t. rewrite H2, H3. destruct (path_unescape t); [|done]. simpl.
    rewrite Z.mul_comm, <- Z.div_mod by done. by rewrite chr_code.
Qed.

Lemma path_unescape_all s : path_unescape (pct_all s) = Some s.
Proof. induction s as [|c s IH]; [done|]. cbn [pct_all]. by rewrite path_unescape_pct, IH. Qed.

Lemma pct_all_clean s : has_char "&" (pct_all s) = false /\ has_char "=" (pct_all s) = false.
Proof.
  induction s as [|c s [IH1 IH2]]; [done|]. cbn [pct_all]. rewrite !has_char_app, IH1, IH2. split; by_byte c.
Qed.

(** How such a query is read: pairs between ampersands, each cut at the first
    equals sign, both sides path-unescaped. *)
Definition read_pair (kv : string) : option (string * string) :=
  let '(k, v) := split2 "=" kv in
  k' ← path_unescape k; v' ← path_unescape (default EmptyString v); Some (k', v').

Definition read_query (q : string) : option (list (string * string)) := mapM read_pair (split_all "&" q).

Definition enc_pair (p : string * string) : string := (pct_all p.1 ++ "=" ++ pct_all p.2)%string.

Lemma plus_to_space_encode l : plus_to_space (encode_values l) = join "&" (enc_pair <$> l).
Proof.
  unfold encode_values. induction l as [|p [|q l] IH]; [done| |].
  - rewrite !fmap_cons. cbn [join fmap list_fmap]. by rewrite !plus_to_space_app, !enc_pct.
  - rewrite !fmap_cons in *. cbn [join] in *. rewrite !plus_to_space_app, IH, !enc_pct.
    by rewrite (eq_refl : (pct_all p.1 ++ plus_to_space "=" ++ pct_all p.2)%string = enc_pair p).
Qed.

Lemma enc_pair_clean p : has_char "&" (enc_pair p) = false.
Proof. unfold enc_pair. rewrite !has_char_app. by rewrite !(proj1 (pct_all_clean _)). Qed.

Lemma read_pair_enc p : read_pair (enc_pair p) = Some p.
Proof.
  unfold read_pair. change (enc_pair p) with (pct_all p.1 ++ String "=" (pct_all p.2))%string.
  rewrite split2_app by apply pct_all_clean. simpl. rewrite !path_unescape_all. by destruct p.
Qed.

Lemma read_query_join p l : read_query (join "&" (enc_pair <$> p :: l)) = Some (p :: l).
Proof.
  unfold read_query. revert p. induction l as [|q l IH]; intros p.
  - simpl. rewrite split_all_one by apply enc_pair_clean. simpl. by rewrite read_pair_enc.
  - rewrite fmap_cons. change (join "&" (enc_pair p :: (enc_pair <$> q :: l))) with
      (enc_pair p ++ String "&" (join "&" (enc_pair <$> q :: l)))%string.
    rewrite split_all_app by apply enc_pair_clean. cbn [mapM]. by rewrite read_pair_enc, IH.
Qed.

(** The target URL carries every value exactly: whatever the sender, the
    display name and the recipient contain (spaces, plus signs, ampersands,
    percent signs), the query that is built reads back, under the decoding the
    transport uses, as the same keys and values in the same order. *)
Theorem target_query_roundtrip P cfg to : read_query (target_query P cfg to) = Some (target_values P cfg to).
Proof.
  unfold target_query. rewrite plus_to_space_encode. unfold target_values.
  destruct (from_parts P cfg) as [name addr]. apply read_query_join.
Qed.

(** ** Messages and headers *)

(** What passes the check is one message to one recipient: the sender is a
    canonical address, alone or after a plain display name and nothing else,
    the recipient is canonical and survives the transport's list splitting
    whole, no header can end its line early, and everything is 7-bit ASCII. *)
Theorem checkSendable_safe P from to subject body (Hok : checkSendable P from to subject body = None) :
  exists name addr, SplitFrom P from = inl (name, addr) /\
    from = (if str_eq name EmptyString then addr else (name ++ " <" ++ addr ++ ">")%string) /\
    NormalizeAddress P addr = inl addr /\ NormalizeAddress P to = inl to /\
    header_safe name = true /\ header_safe addr = true /\ header_safe to = true /\ header_safe subject = true /\
    IsASCII body = true /\ libraryListDelims to = [to].
Proof.
  unfold checkSendable in Hok. destruct (SplitFrom P from) as [[name addr]|] eqn:Hs; [|done].
  destruct (checkAddress P FieldTo to) eqn:Ht; [done|]. exists name, addr.
  apply SplitFrom_ok in Hs as (H1 & H2 & H3 & H4). apply checkAddress_ok in Ht as (H5 & H6 & H7).
  destruct (IsASCII subject) eqn:Hsub; [|done]. simpl in Hok. unfold header_safe at 4. rewrite Hsub.
  destruct (all_chars _ subject); [|done]. simpl in Hok. destruct (IsASCII body); [|done].
  split_and!; try done. unfold libraryListDelims. clear -H7. change to with (EmptyString ++ to)%string at 2.
  generalize EmptyString as cur. induction to as [|c r IH]; intros cur; simpl.
  - by rewrite string_app_nil.
  - simpl in H7. apply andb_true_iff in H7 as [Hc Hr]. apply negb_true_iff in Hc. rewrite Hc, IH by done.
    by rewrite string_app_assoc.
Qed.

(** ** Notices with a value a user controls *)

Fixpoint breaks (s : string) : nat :=
  match s with
  | EmptyString => 0
  | String c r => (if line_break c then 1 else 0) + breaks r
  end.

Lemma breaks_app s t : breaks (s ++ t) = (breaks s + breaks t)%nat.
Proof. induction s as [|c s IH]; [done|]. rewrite string_app_cons. cbn [breaks]. rewrite IH. lia. Qed.

Lemma printable_text s : all_printable s = true -> breaks s = 0%nat /\ IsASCII s = true.
Proof.
  induction s as [|c r IH]; [done|]. unfold all_printable, IsASCII. cbn [all_chars breaks].
  intros [Hc Hr]%andb_true_iff. destruct (IH Hr) as [Hb Ha]. rewrite Hb. unfold IsASCII in Ha. rewrite Ha.
  revert Hc. by_byte c.
Qed.

(** The lines of a message: their breaks are their ends. *)
Lemma lines_text l :
  breaks (lines l) = foldr (fun s n => breaks s + (2 + n))%nat 0%nat l /\
  IsASCII (lines l) = forallb IsASCII l.
Proof.
  induction l as [|s l [IH1 IH2]]; [done|]. cbn [lines foldr forallb]. fold (lines l).
  unfold IsASCII in *. rewrite !breaks_app, !all_chars_app, IH1, IH2. by split.
Qed.

(** A notice of fixed subject whose user-controlled parts are [parts]. *)
Definition notice_ok (P : string -> option (string * string)) (from to : string) (n : nat) (m : string * string) : Prop :=
  checkSendable P from to m.1 m.2 = None /\ breaks m.2 = (2 * n)%nat.

Lemma notice_lines P from to subject l n :
  (exists p, SplitFrom P from = inl p) -> checkAddress P FieldTo to = None -> header_safe subject = true ->
  Forall (fun s => breaks s = 0%nat /\ IsASCII s = true) l -> length l = n ->
  notice_ok P from to n (subject, lines l).
Proof.
  intros [p Hf] Ht Hs Hl <-. destruct (lines_text l) as [Hb Ha]. split; simpl.
  - unfold checkSendable. rewrite Hf, Ht. unfold header_safe in Hs. apply andb_true_iff in Hs as [-> ->]. simpl.
    rewrite Ha. assert (forallb IsASCII l = true) as ->; [|done].
    clear -Hl. induction Hl as [|s l [_ H] _ IH]; [done|]. cbn [forallb]. by rewrite H, IH.
  - rewrite Hb. clear -Hl. induction Hl as [|s l [H _] _ IH]; [done|]. cbn [foldr length]. rewrite H, IH. lia.
Qed.

Lemma printable_app s t : all_printable s = true -> all_printable t = true -> all_printable (s ++ t) = true.
Proof. unfold all_printable. intros Hs Ht. by rewrite all_chars_app, Hs, Ht. Qed.

(** ** Concrete values *)

(** A parser that knows one named address. *)
Definition demo_parse (s : string) : option (string * string) :=
  if str_eq s "DIY DDNS <ddns@example.org>" then Some ("DIY DDNS", "ddns@example.org")%string else Some (EmptyString, s).

Lemma checkSendable_safe_witness :
  checkSendable demo_parse "DIY DDNS <ddns@example.org>" "a@example.org" "hello" "a body" = None /\
  libraryListDelims "a@example.org" = ["a@example.org"%string] /\
  checkSendable demo_parse "ddns@example.org" "a@example.org,b@example.org" "hello" "a body" = Some ErrAddressUnroutable.
Proof.
  assert (H : checkSendable demo_parse "DIY DDNS <ddns@example.org>" "a@example.org" "hello" "a body" = None)
    by (vm_compute; reflexivity).
  split; [exact H|]. split; [|vm_compute; reflexivity].
  destruct (checkSendable_safe _ _ _ _ _ H) as (name & addr & _ & _ & _ & _ & _ & _ & _ & _ & _ & Hl). exact Hl.
Defined.
