(* ===== verification/Transport.v ===== *)
(** * internal/email/apprise.go: the bounded pool of conversations

    [appriseMailer.Send] runs the SMTP conversation on a goroutine of its own
    and leaves it at the deadline.  A call is the state of the two goroutines
    between their synchronizing operations (the slot channel, the buffered
    [done] channel, the atomic [abandoned]); a step is one such operation, and
    a run is any interleaving of the steps of any number of calls over one
    pool of slots.  By the Go memory model these are the executions of the
    program, which has no data race.  The conversation itself is the library's:
    [Talk o] is its return, whenever that happens, a panic being a failure
    ([guardedSend]). *)

From S2P Require Import Prelude.

Definition maxInFlightSends : nat := 32.

(** ** States *)

Inductive send_outcome := Delivered | Failed.

(** What [Send] returns. *)
Inductive returned :=
  | RetCancelled          (* context done before the send *)
  | RetUnsendable         (* refused by checkSendable *)
  | RetSaturated          (* ErrTransportSaturated *)
  | RetDone (o : send_outcome)
  | RetAbandoned.         (* the deadline passed first *)

Inductive log_line := LogFailed | LogOk | LogRefused | LogAbandoned | LogLate (o : send_outcome).

(** Where the caller is, and where the goroutine it started is. *)
Inductive caller_pc := AtStart | AtReserve | AtWait | AtStore | AtRecheck | Returned (r : returned).
Inductive worker_pc :=
  | NotStarted | Talking | AtRelease (o : send_outcome) | AtPublish (o : send_outcome) | AtLoad (o : send_outcome) | Exited (o : send_outcome).

Record call := MkCall {
  c_sendable : bool; c_expired : bool; c_caller : caller_pc; c_worker : worker_pc;
  c_done : option send_outcome; c_abandoned : bool; c_log : list log_line }.

Definition fresh (sendable : bool) : call := MkCall sendable false AtStart NotStarted None false [].

Definition with_caller (pc : caller_pc) (c : call) : call :=
  MkCall (c_sendable c) (c_expired c) pc (c_worker c) (c_done c) (c_abandoned c) (c_log c).
Definition with_worker (pc : worker_pc) (c : call) : call :=
  MkCall (c_sendable c) (c_expired c) (c_caller c) pc (c_done c) (c_abandoned c) (c_log c).
Definition with_done (d : option send_outcome) (c : call) : call :=
  MkCall (c_sendable c) (c_expired c) (c_caller c) (c_worker c) d (c_abandoned c) (c_log c).
Definition log_event (e : log_line) (c : call) : call :=
  MkCall (c_sendable c) (c_expired c) (c_caller c) (c_worker c) (c_done c) (c_abandoned c) (c_log c ++ [e]).
Definition expire (c : call) : call :=
  MkCall (c_sendable c) true (c_caller c) (c_worker c) (c_done c) (c_abandoned c) (c_log c).
Definition store_abandoned (c : call) : call :=
  MkCall (c_sendable c) (c_expired c) (c_caller c) (c_worker c) (c_done c) true (c_log c).

(** ** Steps *)

Inductive action :=
  | Expire                                                   (* the deadline passes *)
  | Begin | Reserve | Receive | Timeout | StoreAbandoned | Recheck   (* the caller *)
  | Talk (o : send_outcome) | Release | Publish | LoadAbandoned.  (* the goroutine *)

(** [finish], on the value received from [done]. *)
Definition finish (o : send_outcome) (c : call) : call :=
  log_event (match o with Delivered => LogOk | Failed => LogFailed end)
    (with_caller (Returned (RetDone o)) (with_done None c)).

(** One operation of one call over [slots] reserved slots; [None]: not enabled. *)
Definition send_act (cap slots : nat) (a : action) (c : call) : option (nat * call) :=
  match a, c_caller c, c_worker c with
  | Expire, _, _ => if c_expired c then None else Some (slots, expire c)
  | Begin, AtStart, _ =>
      Some (slots, if c_expired c then with_caller (Returned RetCancelled) c
                   else if c_sendable c then with_caller AtReserve c
                   else log_event LogFailed (with_caller (Returned RetUnsendable) c))
  | Reserve, AtReserve, _ =>
      Some (if (slots <? cap)%nat then (S slots, with_worker Talking (with_caller AtWait c))
            else (slots, log_event LogRefused (with_caller (Returned RetSaturated) c)))
  | Receive, AtWait, _ => match c_done c with Some o => Some (slots, finish o c) | None => None end
  | Timeout, AtWait, _ => if c_expired c then Some (slots, with_caller AtStore c) else None
  | StoreAbandoned, AtStore, _ => Some (slots, with_caller AtRecheck (store_abandoned c))
  | Recheck, AtRecheck, _ =>
      Some (slots, match c_done c with
                   | Some o => finish o c
                   | None => log_event LogAbandoned (with_caller (Returned RetAbandoned) c)
                   end)
  | Talk o, _, Talking => Some (slots, with_worker (AtRelease o) c)
  | Release, _, AtRelease o => Some (pred slots, with_worker (AtPublish o) c)
  | Publish, _, AtPublish o => Some (slots, with_worker (AtLoad o) (with_done (Some o) c))
  | LoadAbandoned, _, AtLoad o =>
      Some (slots, (if c_abandoned c then log_event (LogLate o) else id) (with_worker (Exited o) c))
  | _, _, _ => None
  end.

Record pool := MkPool { p_slots : nat; p_calls : list call }.

Definition pool_act (cap : nat) (p : pool) (ia : nat * action) : option pool :=
  c ← p_calls p !! ia.1;
  sc ← send_act cap (p_slots p) ia.2 c;
  Some (MkPool sc.1 (<[ia.1 := sc.2]> (p_calls p))).

(** A run follows a schedule. *)
Fixpoint run (cap : nat) (sch : list (nat * action)) (p : pool) : option pool :=
  match sch with
  | [] => Some p
  | ia :: sch' => p' ← pool_act cap p ia; run cap sch' p'
  end.

Definition initial (p : pool) : Prop := p_slots p = 0%nat /\ Forall (fun c => c = fresh (c_sendable c)) (p_calls p).

(** ** Invariant *)

Definition talking (c : call) : bool := match c_worker c with Talking | AtRelease _ => true | _ => false end.

Definition published (c : call) (o : send_outcome) : Prop := c_worker c = AtLoad o \/ c_worker c = Exited o.

(** No goroutine was started; what the flag holds, where that is known. *)
Definition idle (pc : caller_pc) : bool :=
  match pc with
  | AtStart | AtReserve | Returned RetCancelled | Returned RetUnsendable | Returned RetSaturated => true
  | _ => false
  end.
Definition flag_at (pc : caller_pc) : option bool :=
  match pc with
  | AtStart | AtReserve | AtWait | AtStore => Some false
  | AtRecheck | Returned RetAbandoned => Some true
  | Returned _ => None
  end.

(** The two goroutines of a call agree. *)
Record call_ok (c : call) : Prop := {
  ok_idle : c_worker c = NotStarted <-> idle (c_caller c) = true;
  ok_flag : forall b, flag_at (c_caller c) = Some b -> c_abandoned c = b;
  ok_done : forall o, c_done c = Some o -> published c o;
  ok_taken : forall o, published c o -> c_done c = None -> c_caller c = Returned (RetDone o);
  ok_truth : forall o, c_caller c = Returned (RetDone o) -> published c o;
  ok_late : forall o, c_caller c = Returned RetAbandoned -> c_worker c = Exited o -> LogLate o ∈ c_log c;
  ok_deadline : c_caller c = AtStore \/ c_caller c = AtRecheck \/ c_caller c = Returned RetAbandoned ->
    c_expired c = true }.

Definition in_flight (p : pool) : nat := length (List.filter talking (p_calls p)).

Definition pool_ok (cap : nat) (p : pool) : Prop :=
  p_slots p = in_flight p /\ (p_slots p <= cap)%nat /\ Forall call_ok (p_calls p).

Lemma fresh_ok b : call_ok (fresh b).
Proof. split; simpl; try done; try naive_solver. unfold published. naive_solver. Qed.

Lemma act_ok cap slots a c slots' c' : call_ok c -> send_act cap slots a c = Some (slots', c') -> call_ok c'.
Proof.
  intros [H1 H2 H3 H4 H5 H6 H7] Ha. destruct c as [se ex ca wo d ab lg]. unfold published in *. simpl in *.
  unfold send_act in Ha. destruct a; simpl in Ha; repeat (case_match; simplify_eq/=).
  all: split; unfold published in *; simpl in *; intros; destruct_or?; simplify_eq/=.
  all: try done; try solve [eauto | split; [done|by intros ?%H1] ].
  all: try solve [by specialize (H4 _ (or_introl eq_refl) eq_refl) | by specialize (H4 _ (or_intror eq_refl) eq_refl)
    | destruct (H3 _ eq_refl); simplify_eq; by auto | destruct (H5 _ eq_refl); simplify_eq; by auto
    | by specialize (H2 _ eq_refl) | apply elem_of_app; right; by apply list_elem_of_singleton].
  destruct (H3 _ eq_refl) as [-> | ->]; by specialize (proj2 H1 eq_refl).
Qed.

Definition one (b : bool) : nat := if b then 1 else 0.

Lemma filter_insert {A} (f : A -> bool) (l : list A) i x y : l !! i = Some x ->
  (length (List.filter f (<[i := y]> l)) + one (f x) = length (List.filter f l) + one (f y))%nat.
Proof.
  revert i. induction l as [|z l IH]; intros [|i] Hi; simpl in Hi; simplify_eq/=.
  - destruct (f x), (f y); simpl; lia.
  - specialize (IH _ Hi). destruct (f z); simpl; lia.
Qed.

(** A slot is taken by the start of a conversation and given back by its end. *)
Lemma act_slots cap slots a c slots' c' : call_ok c -> send_act cap slots a c = Some (slots', c') ->
  (one (talking c) <= slots)%nat -> (slots <= cap)%nat ->
  (slots' + one (talking c) = slots + one (talking c'))%nat /\ (slots' <= cap)%nat.
Proof.
  intros [H1 _ _ _ _ _ _] Ha Hs Hc. destruct c as [se ex ca wo d ab lg]. unfold talking in *. simpl in *.
  unfold send_act in Ha. destruct a; simpl in Ha; repeat (case_match; simplify_eq/=); try lia.
  all: try (match goal with H : (_ <? _)%nat = true |- _ => apply Nat.ltb_lt in H end; lia).
  all: by specialize (proj2 H1 eq_refl).
Qed.

Lemma pool_act_ok cap p ia p' : pool_ok cap p -> pool_act cap p ia = Some p' -> pool_ok cap p'.
Proof.
  intros (Hs & Hc & Hf) Hp. unfold pool_act in Hp. destruct ia as [i a]. simpl in Hp.
  destruct (p_calls p !! i) as [c|] eqn:Hi; [|done]. simpl in Hp.
  destruct (send_act cap (p_slots p) a c) as [[slots' c']|] eqn:Ha; [|done]. simpl in Hp. injection Hp as <-.
  pose proof (Forall_lookup_1 _ _ _ _ Hf Hi) as Hok. pose proof (filter_insert talking _ _ _ c' Hi) as Hn.
  pose proof (filter_insert talking _ _ _ c Hi) as Hn0. rewrite list_insert_id in Hn0 by done.
  assert (Hle : (one (talking c) <= in_flight p)%nat).
  { unfold in_flight. clear -Hi. revert i Hi. induction (p_calls p) as [|z l IH]; intros [|i] Hi; simplify_eq/=.
    - destruct (talking c); simpl; lia.
    - specialize (IH _ Hi). destruct (talking z); simpl; lia. }
  destruct (act_slots _ _ _ _ _ _ Hok Ha) as [Hs' Hc']; [by rewrite Hs|done|].
  unfold in_flight in *. repeat split; simpl; [unfold in_flight; simpl; lia|done|].
  apply Forall_insert; [done|by eapply act_ok].
Qed.

Lemma initial_ok cap p : initial p -> pool_ok cap p.
Proof.
  intros [H0 Hf]. assert (Hz : in_flight p = 0%nat).
  { unfold in_flight. induction Hf as [|c l -> _ IH]; [done|]. exact IH. }
  split_and!; [by rewrite H0, Hz|lia|]. eapply Forall_impl; [exact Hf|]. intros c ->. apply fresh_ok.
Qed.

Lemma run_ok cap sch p p' : pool_ok cap p -> run cap sch p = Some p' -> pool_ok cap p'.
Proof.
  revert p. induction sch as [|ia sch IH]; simpl; intros p Hp; [by intros [= <-]|].
  destruct (pool_act cap p ia) as [p1|] eqn:Ha; [|done]. simpl. apply IH. by eapply pool_act_ok.
Qed.

(** ** Every conversation is counted, every outcome is reported *)

(** However the calls interleave, the reserved slots are exactly the
    conversations that have not ended, abandoned ones included, and there are
    never more of them than the pool holds. *)
Theorem slots_bounded cap sch p p' (Hinit : initial p) (Hrun : run cap sch p = Some p') :
  p_slots p' = in_flight p' /\ (p_slots p' <= cap)%nat.
Proof. by destruct (run_ok _ _ _ _ (initial_ok cap p Hinit) Hrun) as (? & ? & _). Qed.

(** No outcome is lost: when the caller has returned and the goroutine has
    ended, the conversation's outcome is what the caller returned, or the caller
    reported the send as abandoned and the outcome is logged; an outcome is
    returned only if the conversation ended so, and a send is abandoned only
    after its deadline. *)
Theorem outcome_reported cap sch p p' i c r (Hinit : initial p) (Hrun : run cap sch p = Some p')
    (Hc : p_calls p' !! i = Some c) (Hr : c_caller c = Returned r) :
  (forall o, c_worker c = Exited o -> r = RetDone o \/ (r = RetAbandoned /\ LogLate o ∈ c_log c)) /\
  (forall o, r = RetDone o -> published c o) /\ (r = RetAbandoned -> c_expired c = true).
Proof.
  destruct (run_ok _ _ _ _ (initial_ok cap p Hinit) Hrun) as (_ & _ & Hf).
  destruct (Forall_lookup_1 _ _ _ _ Hf Hc) as [H1 H2 H3 H4 H5 H6 H7]. rewrite Hr in *. split_and!.
  - intros o Ho. destruct r as [| | |o'|]; try (by rewrite Ho in H1; specialize (proj2 H1 eq_refl)).
    + left. destruct (H5 o' eq_refl) as [Hp|Hp]; congruence.
    + right. auto.
  - intros o ->. auto.
  - intros ->. auto.
Qed.

(** ** Every caller returns *)

Definition own (a : action) : bool :=
  match a with Begin | Reserve | Receive | Timeout | StoreAbandoned | Recheck => true | _ => false end.

(** How many steps a caller has left. *)
Definition steps_left (pc : caller_pc) : nat :=
  match pc with AtStart => 5 | AtReserve => 4 | AtWait => 3 | AtStore => 2 | AtRecheck => 1 | Returned _ => 0 end.

Definition own_steps (i : nat) (sch : list (nat * action)) : nat :=
  length (List.filter (fun ia => Nat.eqb ia.1 i && own ia.2) sch).

Lemma act_steps cap slots a c slots' c' : send_act cap slots a c = Some (slots', c') ->
  (steps_left (c_caller c') + one (own a) <= steps_left (c_caller c))%nat /\ (c_expired c = true -> c_expired c' = true).
Proof.
  intros Ha. destruct c as [se ex ca wo d ab lg]. unfold send_act in Ha.
  destruct a; simpl in Ha; repeat (case_match; simplify_eq/=); split; auto; lia.
Qed.

Lemma run_steps cap sch p p' i c : run cap sch p = Some p' -> p_calls p !! i = Some c ->
  exists c', p_calls p' !! i = Some c' /\ (steps_left (c_caller c') + own_steps i sch <= steps_left (c_caller c))%nat /\
    (c_expired c = true -> c_expired c' = true).
Proof.
  revert p c. induction sch as [|[j a] sch IH]; simpl; intros p c.
  - intros [= <-] Hc. exists c. split_and!; [done|unfold own_steps; simpl; lia|done].
  - unfold pool_act. simpl. intros Hrun Hc. destruct (p_calls p !! j) as [cj|] eqn:Hj; [|done]. simpl in Hrun.
    destruct (send_act cap (p_slots p) a cj) as [[s1 c1]|] eqn:Ha; [|done]. simpl in Hrun.
    destruct (act_steps _ _ _ _ _ _ Ha) as [Hd He]. unfold own_steps. cbn [List.filter fst snd].
    destruct (decide (j = i)) as [->|Hne].
    + assert (cj = c) as -> by congruence. destruct (IH _ c1 Hrun) as (c' & Hc' & Hle & Hx).
      { simpl. apply list_lookup_insert_eq. by eapply lookup_lt_Some. }
      exists c'. split_and!; [done| |auto]. rewrite Nat.eqb_refl. unfold own_steps in Hle.
      destruct (own a); simpl in *; lia.
    + destruct (IH _ c Hrun) as (c' & Hc' & Hle & Hx).
      { simpl. by rewrite list_lookup_insert_ne. }
      exists c'. split_and!; [done| |auto]. rewrite (proj2 (Nat.eqb_neq j i)) by done. exact Hle.
Qed.

Lemma expired_enabled cap p c : c_expired c = true -> (forall r, c_caller c <> Returned r) ->
  exists a, own a = true /\ is_Some (send_act cap (p_slots p) a c).
Proof.
  intros He Hn. destruct (c_caller c) eqn:Hc.
  - exists Begin. unfold send_act. rewrite Hc. by eauto.
  - exists Reserve. unfold send_act. rewrite Hc. by eauto.
  - exists Timeout. unfold send_act. rewrite Hc, He. by eauto.
  - exists StoreAbandoned. unfold send_act. rewrite Hc. by eauto.
  - exists Recheck. unfold send_act. rewrite Hc. by eauto.
  - by destruct (Hn r).
Qed.

(** Send returns no later than its deadline, whatever the transport does:
    once a call's deadline has passed, in every continuation of every
    interleaving the caller has returned or has a step of its own to take, and
    it takes at most five, so it waits for no other goroutine and no peer. *)
Theorem send_returns cap sch p p' i c (Hrun : run cap sch p = Some p') (Hc : p_calls p !! i = Some c)
    (Hex : c_expired c = true) :
  (own_steps i sch <= 5)%nat /\
  exists c', p_calls p' !! i = Some c' /\
    ((exists r, c_caller c' = Returned r) \/
     (own_steps i sch < 5)%nat /\ exists a, own a = true /\ is_Some (pool_act cap p' (i, a))).
Proof.
  destruct (run_steps _ _ _ _ _ _ Hrun Hc) as (c' & Hc' & Hle & Hx). specialize (Hx Hex).
  assert (H5 : (steps_left (c_caller c) <= 5)%nat) by (destruct (c_caller c); simpl; lia).
  split; [lia|]. exists c'. split; [done|].
  destruct (c_caller c') eqn:Hpc; try (by left; eauto); right; (split; [simpl in Hle; lia|]).
  all: destruct (expired_enabled cap p' c' Hx) as (a & Ha & [[s' c2] Hact]); [by rewrite Hpc|].
  all: exists a; split; [done|]; unfold pool_act; simpl; rewrite Hc'; simpl; rewrite Hact; by eauto.
Qed.

(** ** The pool drains *)

Definition caller_rank (pc : caller_pc) : nat :=
  match pc with AtStart => 9 | AtReserve => 8 | AtWait => 3 | AtStore => 2 | AtRecheck => 1 | Returned _ => 0 end.
Definition worker_rank (pc : worker_pc) : nat :=
  match pc with Talking => 4 | AtRelease _ => 3 | AtPublish _ => 2 | AtLoad _ => 1 | NotStarted | Exited _ => 0 end.
Definition rank (c : call) : nat := one (negb (c_expired c)) + caller_rank (c_caller c) + worker_rank (c_worker c).
Definition total (p : pool) : nat := sum_list_with rank (p_calls p).

Lemma act_rank cap slots a c slots' c' : call_ok c -> send_act cap slots a c = Some (slots', c') -> (rank c' < rank c)%nat.
Proof.
  intros [H1 _ _ _ _ _ _] Ha. destruct c as [se ex ca wo d ab lg]. unfold rank. simpl in *. unfold send_act in Ha.
  destruct a; simpl in Ha; repeat (case_match; simplify_eq/=); try lia.
Qed.

Lemma sum_insert {A} (f : A -> nat) (l : list A) i x y : l !! i = Some x ->
  (sum_list_with f (<[i := y]> l) + f x = sum_list_with f l + f y)%nat.
Proof.
  revert i. induction l as [|z l IH]; intros [|i] Hi; simpl in Hi; simplify_eq/=; [lia|].
  specialize (IH _ Hi). lia.
Qed.

Lemma pool_act_total cap p ia p' : pool_ok cap p -> pool_act cap p ia = Some p' -> (total p' < total p)%nat.
Proof.
  intros (_ & _ & Hf) Hp. unfold pool_act in Hp. destruct ia as [i a]. simpl in Hp.
  destruct (p_calls p !! i) as [c|] eqn:Hi; [|done]. simpl in Hp.
  destruct (send_act cap (p_slots p) a c) as [[s' c']|] eqn:Ha; [|done]. simpl in Hp. injection Hp as <-.
  pose proof (act_rank _ _ _ _ _ _ (Forall_lookup_1 _ _ _ _ Hf Hi) Ha).
  pose proof (sum_insert rank _ _ _ c' Hi). unfold total. simpl. lia.
Qed.

Lemma run_total cap sch p p' : pool_ok cap p -> run cap sch p = Some p' -> (length sch + total p' <= total p)%nat.
Proof.
  revert p. induction sch as [|ia sch IH]; simpl; intros p Hp; [intros [= <-]; lia|].
  destruct (pool_act cap p ia) as [p1|] eqn:Ha; [|done]. simpl. intros Hr.
  pose proof (pool_act_total _ _ _ _ Hp Ha). specialize (IH _ (pool_act_ok _ _ _ _ Hp Ha) Hr). lia.
Qed.

(** Nothing is left to do but for deadlines to pass. *)
Definition quiescent (cap : nat) (p : pool) : Prop := forall i a, a <> Expire -> pool_act cap p (i, a) = None.

(** Both sides of a call are over. *)
Definition settled (c : call) : Prop :=
  (exists r, c_caller c = Returned r) /\ (c_worker c = NotStarted \/ exists o, c_worker c = Exited o).

Lemma stuck_settled cap slots c : call_ok c -> (forall a, a <> Expire -> send_act cap slots a c = None) -> settled c.
Proof.
  intros [H1 H2 H3 H4 H5 H6 H7] Hs. unfold settled.
  assert (Hw : c_worker c = NotStarted \/ exists o, c_worker c = Exited o).
  { destruct (c_worker c) eqn:Hw; [by left| | | | |by right; eauto]; exfalso.
    - specialize (Hs (Talk Delivered) ltac:(done)). unfold send_act in Hs. by rewrite Hw in Hs.
    - specialize (Hs Release ltac:(done)). unfold send_act in Hs. by rewrite Hw in Hs.
    - specialize (Hs Publish ltac:(done)). unfold send_act in Hs. by rewrite Hw in Hs.
    - specialize (Hs LoadAbandoned ltac:(done)). unfold send_act in Hs. by rewrite Hw in Hs. }
  split; [|done]. destruct (c_caller c) eqn:Hc; [..|by eauto]; exfalso.
  - specialize (Hs Begin ltac:(done)). unfold send_act in Hs. by rewrite Hc in Hs.
  - specialize (Hs Reserve ltac:(done)). unfold send_act in Hs. by rewrite Hc in Hs.
  - specialize (Hs Receive ltac:(done)). unfold send_act in Hs. rewrite Hc in Hs.
    destruct Hw as [Hw|[o Hw]]; [by specialize (proj1 H1 Hw)|].
    destruct (c_done c) eqn:Hd; [done|]. by specialize (H4 o (or_intror Hw) eq_refl).
  - specialize (Hs StoreAbandoned ltac:(done)). unfold send_act in Hs. by rewrite Hc in Hs.
  - specialize (Hs Recheck ltac:(done)). unfold send_act in Hs. by rewrite Hc in Hs.
Qed.

(** C27: The pool drains: no interleaving goes on for ever, and when every
    conversation the library was given has come back and nothing is left to do,
    every slot is free, every caller has returned and every goroutine is gone. *)
Theorem transport_drains cap sch p p' (Hinit : initial p) (Hrun : run cap sch p = Some p') :
  (length sch <= total p)%nat /\
  (quiescent cap p' -> p_slots p' = 0%nat /\ Forall settled (p_calls p')).
Proof.
  pose proof (initial_ok cap p Hinit) as Hok. pose proof (run_total _ _ _ _ Hok Hrun) as Hle. split; [lia|].
  destruct (run_ok _ _ _ _ Hok Hrun) as (Hs & _ & Hf). intros Hq.
  assert (Hset : Forall settled (p_calls p')).
  { apply Forall_lookup. intros i c Hi. eapply (stuck_settled cap (p_slots p')); [by eapply Forall_lookup_1|].
    intros a Ha. specialize (Hq i a Ha). unfold pool_act in Hq. simpl in Hq. rewrite Hi in Hq. simpl in Hq.
    by destruct (send_act cap (p_slots p') a c). }
  split; [|done]. rewrite Hs. unfold in_flight. clear -Hset. induction Hset as [|c l [_ Hw] _ IH]; [done|].
  simpl. assert (talking c = false) as ->; [|done]. unfold talking. by destruct Hw as [->|[o ->]].
Qed.

(** ** Concrete runs *)

(** One slot, two calls: the first is abandoned at its deadline and its late
    outcome logged, the second finds the pool saturated. *)
Definition two_calls : pool := MkPool 0 [fresh true; fresh true].
Definition late_schedule : list (nat * action) :=
  [(0, Begin); (0, Reserve); (1, Begin); (1, Reserve); (0, Expire); (0, Timeout); (0, StoreAbandoned); (0, Recheck);
   (0, Talk Delivered); (0, Release); (0, Publish); (0, LoadAbandoned)]%nat.

Definition late_pool : pool := MkPool 0
  [MkCall true true (Returned RetAbandoned) (Exited Delivered) (Some Delivered) true [LogAbandoned; LogLate Delivered];
   MkCall true false (Returned RetSaturated) NotStarted None false [LogRefused]].

Lemma two_calls_initial : initial two_calls.
Proof. split; [done|]. repeat constructor. Qed.

Lemma late_run : run 1 late_schedule two_calls = Some late_pool.
Proof. reflexivity. Qed.

Lemma slots_bounded_witness : in_flight late_pool = 0%nat /\ p_slots late_pool = in_flight late_pool.
Proof. split; [reflexivity|]. exact (proj1 (slots_bounded 1 _ _ _ two_calls_initial late_run)). Defined.

Lemma outcome_reported_witness :
  run 1 late_schedule two_calls = Some late_pool /\
  (RetAbandoned = RetDone Delivered \/ RetAbandoned = RetAbandoned /\ LogLate Delivered ∈ [LogAbandoned; LogLate Delivered]).
Proof.
  split; [reflexivity|].
  exact (proj1 (outcome_reported 1 _ _ _ 0 _ _ two_calls_initial late_run eq_refl eq_refl) Delivered eq_refl).
Defined.

(** The peer never answers, and the caller is back after three steps. *)
Definition expired_call : call := expire (with_worker Talking (with_caller AtWait (fresh true))).
Definition wedged : pool := MkPool 1 [expired_call].

Lemma send_returns_witness :
  own_steps 0 [(0, Timeout); (0, StoreAbandoned); (0, Recheck)]%nat = 3%nat /\
  (own_steps 0 [(0, Timeout); (0, StoreAbandoned); (0, Recheck)]%nat <= 5)%nat.
Proof.
  split; [reflexivity|].
  refine (proj1 (send_returns 1 [(0, Timeout); (0, StoreAbandoned); (0, Recheck)]%nat wedged
    (MkPool 1 [log_event LogAbandoned (with_caller (Returned RetAbandoned) (store_abandoned expired_call))])
    0 expired_call _ _ _)); reflexivity.
Defined.

Lemma late_quiescent : quiescent 1 late_pool.
Proof. intros [|[|i]] a Ha; destruct a; try done. Qed.

Lemma transport_drains_witness : p_slots late_pool = 0%nat /\ Forall settled (p_calls late_pool).
Proof. exact (proj2 (transport_drains 1 _ _ _ two_calls_initial late_run) late_quiescent). Defined.
