(* ===== verification/EmailChange.v ===== *)
(** * internal/server/service/email_change.go: changing an account's address

    [addressHeld] and [EmailChangeService]: the self-service request, its
    confirmation and cancellation, the administrator's change and the identity
    provider's. *)

From S2P Require Import Prelude GoLib JsonText Schema Integrity Effects StoreUsers StoreDevices StoreTokens Auth.
From S2P Require Import ServiceDevices ServiceTokens Email.

Section EmailChange.
Context `{Crypto} (ParseAddress : string -> option (string * string)).
Context (mailer : option Mailer) (baseURL : string).

Definition emailChangeTTL : Z := 3600.

  (** The address, or an unexpired request for it, belongs to another account. *)
Definition holds (canonical : string) (now : Z) (u : User) : bool :=
    match NormalizeAddress ParseAddress (usr_Email u) with
    | inl stored => EqualFold stored canonical
    | inr _ => false
    end ||
    (is_set (usr_PendingEmail u) && (now <? usr_PendingEmailExpiresAt u) &&
     EqualFold (usr_PendingEmail u) canonical).

Fixpoint addressHeld (users : list User) (canonical exceptID : string) (now : Z) : bool :=
    match users with
    | [] => false
    | u :: us =>
        if str_eq (usr_ID u) exceptID then addressHeld us canonical exceptID now
        else if holds canonical now u then true
        else addressHeld us canonical exceptID now
    end.

Definition emailChangeDetails (oldEmail newEmail : string) : string :=
    json_map [("old", oldEmail); ("new", newEmail)]%string.

Definition validateRequest (c : ctx) (u : User) (newEmail : string) (now : Z) : M string :=
    if is_set (usr_OIDCSubject u) then fail ErrEmailManagedByOIDC
    else match NormalizeAddress ParseAddress newEmail with
    | inr _ => fail ErrInvalidEmail
    | inl normalized =>
        if EqualFold normalized (usr_Email u) then fail ErrEmailUnchanged
        else
          users ← UserRepo.List c;
          if addressHeld users normalized (usr_ID u) now then fail ErrConflict else mret normalized
    end.

Definition confirm_link (token : string) : string := (baseURL ++ "/account/email/confirm?token=" ++ token)%string.

  (** The link is returned only when no mail was attempted. *)
Definition Request (c : ctx) (u : User) (newEmail : string) : M (string * Delivery * Z) :=
    now ← now_unix;
    normalized ← validateRequest c u newEmail now;
    if EqualFold (usr_PendingEmail u) normalized && (now <? usr_PendingEmailExpiresAt u) then
      mret (EmptyString, no_delivery, 0)
    else
      token ← RandToken 32;
      let expiresAt := now + emailChangeTTL in
      UserRepo.SetPendingEmail c (usr_ID u) normalized (HashToken token) expiresAt;;
      AuditLog c (audit_entry (usr_ID u) "user.email_change_requested" "user" (usr_ID u)
        (emailChangeDetails (usr_Email u) normalized));;
      let link := confirm_link token in
      d ← sendAdvisory mailer c (usr_ID u) (usr_ID u) normalized (ChangeConfirmBody link);
      match dl_Err d with
      | Some _ =>
          r ← attempt (UserRepo.ClearPendingEmail (without_cancel c) (usr_ID u));
          (match r with Some _ => mret tt | None => log_warn "email change: rollback failed" end);;
          fail ErrConfirmationNotSent
      | None =>
          sendAdvisory mailer c (usr_ID u) (usr_ID u) (usr_Email u) (ChangeNoticeBody normalized);;
          mret (if dl_Attempted d then EmptyString else link, d, expiresAt)
      end.

Definition Cancel (c : ctx) (u : User) : M unit :=
    if negb (is_set (usr_PendingEmail u)) then mret tt
    else
      UserRepo.ClearPendingEmail c (usr_ID u);;
      AuditLog c (audit_entry (usr_ID u) "user.email_change_cancelled" "user" (usr_ID u)
        (emailChangeDetails (usr_Email u) (usr_PendingEmail u))).

Definition changedRow (u : User) (newEmail : string) (now : Z) : User :=
    MkUser (usr_ID u) newEmail (usr_Role u) (usr_OIDCProvider u) (usr_OIDCSubject u) (usr_Disabled u)
      (usr_CreatedAt u) now EmptyString 0.

Definition applyChanged (c : ctx) (actorID : string) (u : User) (oldEmail event : string) : M unit :=
    r ← attempt (AccountRecoveryRepo.DeleteUnusedByUser c (usr_ID u));
    (match r with Some _ => mret tt | None => log_warn "email change: deleting grants failed" end);;
    AuditLog c (audit_entry actorID event "user" (usr_ID u) (emailChangeDetails oldEmail (usr_Email u))).

Definition Confirm (c : ctx) (u : User) (token : string) : M unit :=
    if is_set (usr_OIDCSubject u) then fail ErrEmailManagedByOIDC
    else
      now ← now_unix;
      r ← catch (UserRepo.ConfirmPendingEmail c (usr_ID u) (HashToken token) now);
      match r with
      | inr e => fail (if bool_decide (e = ErrNotFound) then ErrEmailChangeInvalid else e)
      | inl _ =>
          let updated := changedRow u (usr_PendingEmail u) now in
          applyChanged c (usr_ID u) updated (usr_Email u) "user.email_changed";;
          sendAdvisory mailer c (usr_ID u) (usr_ID u) (usr_Email u) (ChangedBody (usr_Email updated));;
          mret tt
      end.

Definition AdminSet (c : ctx) (actorID : string) (target : User) (newEmail : string) : M (User * Delivery) :=
    now ← now_unix;
    match NormalizeAddress ParseAddress newEmail with
    | inr _ => fail ErrInvalidEmail
    | inl normalized =>
        if EqualFold normalized (usr_Email target) then fail ErrEmailUnchanged
        else
          users ← UserRepo.List c;
          if addressHeld users normalized (usr_ID target) now then fail ErrConflict
          else
            UserRepo.SetEmail c (usr_ID target) normalized now;;
            let updated := changedRow target normalized now in
            applyChanged c actorID updated (usr_Email target) "user.email_changed_by_admin";;
            d ← sendAdvisory mailer c actorID (usr_ID target) (usr_Email target) (AdminChangedBody normalized);
            mret (updated, d)
    end.

  (** Never fails: the account keeps its address.  The goroutine's send is run
      where it is started; it shares nothing with its caller. *)
Definition SyncFromIDP (c : ctx) (u : User) (claim : string) : M User :=
    if str_eq claim EmptyString then mret u
    else match NormalizeAddress ParseAddress claim with
    | inr _ => mret u
    | inl normalized =>
        if EqualFold normalized (usr_Email u) then mret u
        else
          now ← now_unix;
          users ← attempt (UserRepo.List c);
          match users with
          | None => log_warn "oidc: email sync: list users failed";; mret u
          | Some users =>
              if addressHeld users normalized (usr_ID u) now then
                log_warn "oidc: IdP address is held by another account";; mret u
              else
                r ← attempt (UserRepo.SetEmail c (usr_ID u) normalized now);
                match r with
                | None => log_warn "oidc: email sync: keeping the stored address";; mret u
                | Some _ =>
                    let updated := changedRow u normalized now in
                    applyChanged c (usr_ID u) updated (usr_Email u) "user.email_changed_by_oidc";;
                    sendAdvisory mailer background (usr_ID u) (usr_ID u) (usr_Email u) (ChangedBody normalized);;
                    mret updated
                end
          end
    end.
End EmailChange.

(** ** Who holds an address *)

Lemma addressHeld_true ParseAddress users canonical exceptID now :
  addressHeld ParseAddress users canonical exceptID now = true <->
  exists u, u ∈ users /\ usr_ID u <> exceptID /\ holds ParseAddress canonical now u = true.
Proof.
  induction users as [|u us IH]; simpl.
  { split; [done|]. by intros (u & Hu%elem_of_nil & _). }
  destruct (str_eq (usr_ID u) exceptID) eqn:Hid; [|destruct (holds _ _ _ u) eqn:Hh].
  - apply str_eq_true in Hid. rewrite IH. split.
    + intros (v & Hv & ?). exists v. split; [by right|done].
    + intros (v & [->|Hv]%elem_of_cons & Hne & Hh); [done|]. by exists v.
  - split; [|done]. intros _. exists u. split; [left|]. split; [|done]. intros He.
    by rewrite He, str_eq_refl in Hid.
  - rewrite IH. split.
    + intros (v & Hv & ?). exists v. split; [by right|done].
    + intros (v & [->|Hv]%elem_of_cons & Hne & Hh'); [congruence|]. by exists v.
Qed.

(** ** Integrity *)

Section EmailChangeIntegrity.
Context `{Crypto} (P : string -> option (string * string)).
Context (mailer : option Mailer) `{!QuietMail mailer} (baseURL : string).

#[local] Hint Extern 1 (preserves wf_db (sendAdvisory _ _ _ _ _ _)) =>
    (apply pres_sendAdvisory; [done|apply AuditLog_wf]) : effects.

Lemma Request_wf c u e : preserves wf_db (Request P mailer baseURL c u e).
  Proof. unfold Request, validateRequest, UserRepo.List. pres. Qed.
Lemma Cancel_wf c u : preserves wf_db (Cancel c u).
  Proof. unfold Cancel. pres. Qed.
Lemma applyChanged_wf c a u o e : preserves wf_db (applyChanged c a u o e).
  Proof. unfold applyChanged. pres. Qed.
#[local] Hint Resolve applyChanged_wf : effects.
Lemma Confirm_wf c u t : preserves wf_db (Confirm mailer c u t).
  Proof. unfold Confirm. pres. Qed.
Lemma AdminSet_wf c a u e : preserves wf_db (AdminSet P mailer c a u e).
  Proof. unfold AdminSet, UserRepo.List. pres. Qed.
Lemma SyncFromIDP_wf c u e : preserves wf_db (SyncFromIDP P mailer c u e).
  Proof. unfold SyncFromIDP, UserRepo.List. pres. Qed.
End EmailChangeIntegrity.
