(* ===== verification/Hub.v ===== *)
(** * internal/server/feed/hub.go: the stream hub

    The hub's shared state: the subscribers that were ever created (a
    subscriber outlives its registration: its handler drains and closes it),
    the set that is registered, the hub's own cancellation and the wait group.
    A subscriber is named by the number of its creation.  Each section of
    hub.go that runs under the hub's mutex is one step of [hub_step], and so is
    each cancellation and each unsubscription that Broadcast and CloseToken do
    after releasing it: [send_all] is the locked section of Broadcast, whose
    slow subscribers are cancelled and unsubscribed by later steps.  The
    websocket of a handler is not modelled: [hub_recv] is the handler taking a
    payload from its channel. *)

From S2P Require Import Prelude.

Definition maxStreamConns : nat := 32.
Definition streamBuffer : nat := 64.

Inductive cause := causeShutdown | causePingFailed | causeInternal | causeSlowConsumer | causeRevoked | causePeerGone.
#[export] Instance cause_eq_dec : EqDecision cause.
Proof. solve_decision. Defined.

Inductive hub_error := ErrTooManyConnections | ErrShuttingDown.

(** [sb_cause] is the first cancellation of the subscriber's context,
    [sb_once] whether its [once] has run. *)
Record subscriber := MkSub {
  sb_token : string; sb_ch : list string; sb_cause : option cause; sb_once : bool }.

Record Hub := MkHub {
  h_all : gmap nat subscriber; h_subs : gset nat; h_cause : option cause; h_wg : Z; h_next : nat }.

Definition New : Hub := MkHub ∅ ∅ None 0 0.

(** [context.CancelCauseFunc]: the first cause stays. *)
Definition cancel_sub (k : cause) (s : subscriber) : subscriber :=
  MkSub (sb_token s) (sb_ch s) (match sb_cause s with Some x => Some x | None => Some k end) (sb_once s).

Definition subscribe (token : string) (h : Hub) : (nat + hub_error) * Hub :=
  if bool_decide (is_Some (h_cause h)) then (inr ErrShuttingDown, h)
  else if Nat.leb maxStreamConns (size (h_subs h)) then (inr ErrTooManyConnections, h)
  else
    let s := h_next h in
    (inl s, MkHub (<[s := MkSub token [] None false]> (h_all h)) ({[s]} ∪ h_subs h) (h_cause h)
              (h_wg h + 1) (S s)).

Definition unsubscribe (s : nat) (h : Hub) : Hub :=
  match h_all h !! s with
  | Some sub =>
      if sb_once sub then h
      else MkHub (<[s := MkSub (sb_token sub) (sb_ch sub) (sb_cause sub) true]> (h_all h))
             (h_subs h ∖ {[s]}) (h_cause h) (h_wg h - 1) (h_next h)
  | None => h
  end.

(** The non-blocking send of Broadcast. *)
Definition full (s : subscriber) : bool := Nat.leb streamBuffer (length (sb_ch s)).

Definition push (payload : string) (subs : gset nat) (s : nat) (sub : subscriber) : subscriber :=
  if bool_decide (s ∈ subs) && negb (full sub)
  then MkSub (sb_token sub) (sb_ch sub ++ [payload]) (sb_cause sub) (sb_once sub) else sub.

Definition overflowed (h : Hub) : list nat :=
  List.filter (fun s => match h_all h !! s with Some sub => full sub | None => false end) (elements (h_subs h)).

Definition cancel_at (k : cause) (s : nat) (h : Hub) : Hub :=
  MkHub (alter (cancel_sub k) s (h_all h)) (h_subs h) (h_cause h) (h_wg h) (h_next h).

(** The section of Broadcast under the lock; [overflowed] are the subscribers it
    collects, to be cancelled and unsubscribed once the lock is released. *)
Definition send_all (payload : string) (h : Hub) : Hub :=
  MkHub (map_imap (fun s sub => Some (push payload (h_subs h) s sub)) (h_all h))
    (h_subs h) (h_cause h) (h_wg h) (h_next h).

(** The subscribers CloseToken finds under the lock; it cancels them after. *)
Definition token_subscribers (token : string) (h : Hub) : list nat :=
  List.filter
    (fun s => match h_all h !! s with Some sub => bool_decide (sb_token sub = token) | None => false end)
    (elements (h_subs h)).

Definition CloseToken (token : string) (h : Hub) : Hub :=
  fold_left (fun h s => cancel_at causeRevoked s h) (token_subscribers token h) h.

(** The cancellation of Shutdown: it reaches every subscriber's context. *)
Definition hub_cancel (h : Hub) : Hub :=
  match h_cause h with
  | Some _ => h
  | None => MkHub (cancel_sub causeShutdown <$> h_all h) (h_subs h) (Some causeShutdown) (h_wg h) (h_next h)
  end.

(** [h.wg.Wait()] has returned. *)
Definition drained (h : Hub) : bool := h_wg h =? 0.

Definition live (h : Hub) : nat := size (h_subs h).

(** A handler receives from its channel. *)
Definition hub_recv (s : nat) (h : Hub) : option string * Hub :=
  match h_all h !! s with
  | Some sub => match sb_ch sub with
    | p :: rest => (Some p, MkHub (<[s := MkSub (sb_token sub) rest (sb_cause sub) (sb_once sub)]> (h_all h))
                             (h_subs h) (h_cause h) (h_wg h) (h_next h))
    | [] => (None, h)
    end
  | None => (None, h)
  end.

Inductive hub_step : Hub -> Hub -> Prop :=
  | hs_subscribe t h : hub_step h (subscribe t h).2
  | hs_unsubscribe s h : hub_step h (unsubscribe s h)
  | hs_send p h : hub_step h (send_all p h)
  | hs_close t h : hub_step h (CloseToken t h)
  | hs_cancel_sub k s h : hub_step h (cancel_at k s h)
  | hs_shutdown h : hub_step h (hub_cancel h)
  | hs_recv s h : hub_step h (hub_recv s h).2.

Definition reachable (h : Hub) : Prop := rtc hub_step New h.

(** ** The hub's invariant *)

Record hub_ok (h : Hub) : Prop := {
  ho_reg : forall s, s ∈ h_subs h <-> exists sub, h_all h !! s = Some sub /\ sb_once sub = false;
  ho_wg : h_wg h = Z.of_nat (size (h_subs h));
  ho_bound : (size (h_subs h) <= maxStreamConns)%nat;
  ho_buffer : forall s sub, h_all h !! s = Some sub -> (length (sb_ch sub) <= streamBuffer)%nat;
  ho_fresh : forall s, (h_next h <= s)%nat -> h_all h !! s = None;
  ho_down : is_Some (h_cause h) -> forall s sub, h_all h !! s = Some sub -> is_Some (sb_cause sub) }.

Lemma New_ok : hub_ok New.
Proof.
  split; simpl; try done.
  - intros s. split; [set_solver|]. by intros (sub & Hs & _).
  - vm_compute. lia.
Qed.

Lemma subscribe_ok t h : hub_ok h -> hub_ok (subscribe t h).2.
Proof.
  intros [Hreg Hwg Hb Hbuf Hfr Hd]. unfold subscribe.
  case_bool_decide as Hc; [by split|]. destruct (Nat.leb _ _) eqn:Hle; [by split|].
  apply Nat.leb_gt in Hle. simpl.
  assert (Hn : h_next h ∉ h_subs h).
  { intros Hin. apply Hreg in Hin as (sub & Hs & _). by rewrite Hfr in Hs by lia. }
  split; simpl.
  - intros s. rewrite elem_of_union, elem_of_singleton. destruct (decide (s = h_next h)) as [->|Hne].
    + rewrite lookup_insert_eq. split; [eauto|by left].
    + rewrite lookup_insert_ne by done. rewrite Hreg. naive_solver.
  - rewrite size_union by set_solver. rewrite size_singleton. lia.
  - rewrite size_union by set_solver. rewrite size_singleton. lia.
  - intros s sub. destruct (decide (s = h_next h)) as [->|Hne].
    + rewrite lookup_insert_eq. intros [= <-]. simpl. lia.
    + rewrite lookup_insert_ne by done. apply Hbuf.
  - intros s Hs. rewrite lookup_insert_ne by lia. apply Hfr. lia.
  - done.
Qed.

Lemma unsubscribe_ok s h : hub_ok h -> hub_ok (unsubscribe s h).
Proof.
  intros [Hreg Hwg Hb Hbuf Hfr Hd]. unfold unsubscribe.
  destruct (h_all h !! s) as [sub|] eqn:Hs; [|by split]. destruct (sb_once sub) eqn:Ho; [by split|].
  assert (Hin : s ∈ h_subs h) by (apply Hreg; eauto).
  assert (Hsz : size (h_subs h) = S (size (h_subs h ∖ {[s]}))).
  { rewrite size_difference by set_solver. rewrite size_singleton.
    assert (size (h_subs h) <> 0)%nat; [|lia]. rewrite size_non_empty_iff. set_solver. }
  split; simpl.
  - intros x. rewrite elem_of_difference, elem_of_singleton. destruct (decide (x = s)) as [->|Hne].
    + rewrite lookup_insert_eq. split; [by intros []|]. intros (sub' & [= <-] & ?). done.
    + rewrite lookup_insert_ne by done. rewrite Hreg. naive_solver.
  - lia.
  - lia.
  - intros x sub'. destruct (decide (x = s)) as [->|Hne].
    + rewrite lookup_insert_eq. intros [= <-]. simpl. by eapply Hbuf.
    + rewrite lookup_insert_ne by done. apply Hbuf.
  - intros x Hx. destruct (decide (x = s)) as [->|Hne]; [by rewrite Hfr in Hs|].
    rewrite lookup_insert_ne by done. by apply Hfr.
  - intros Hc x sub'. destruct (decide (x = s)) as [->|Hne].
    + rewrite lookup_insert_eq. intros [= <-]. simpl. by eapply Hd.
    + rewrite lookup_insert_ne by done. by apply Hd.
Qed.

(** Changing subscribers without touching registrations. *)
Lemma update_all_ok f h :
  (forall s sub, sb_once (f s sub) = sb_once sub /\
     ((length (sb_ch sub) <= streamBuffer)%nat -> (length (sb_ch (f s sub)) <= streamBuffer)%nat) /\
     (is_Some (sb_cause sub) -> is_Some (sb_cause (f s sub)))) ->
  hub_ok h ->
  hub_ok (MkHub (map_imap (fun s sub => Some (f s sub)) (h_all h)) (h_subs h) (h_cause h) (h_wg h) (h_next h)).
Proof.
  intros Hf [Hreg Hwg Hb Hbuf Hfr Hd].
  assert (Hl : forall s, map_imap (fun s sub => Some (f s sub)) (h_all h) !! s = f s <$> h_all h !! s).
  { intros s. rewrite map_lookup_imap. by destruct (h_all h !! s). }
  split; simpl.
  - intros s. rewrite Hreg, Hl. split.
    + intros (sub & -> & Ho). exists (f s sub). split; [done|]. by rewrite (proj1 (Hf s sub)).
    + intros (sub' & Hs & Ho). destruct (h_all h !! s) as [sub|]; [|done]. simplify_eq/=.
      exists sub. split; [done|]. by rewrite (proj1 (Hf s sub)) in Ho.
  - done.
  - done.
  - intros s sub'. rewrite Hl. destruct (h_all h !! s) as [sub|] eqn:Hs; [|done].
    intros [= <-]. apply Hf. by eapply Hbuf.
  - intros s Hs. rewrite Hl. by rewrite Hfr.
  - intros Hc s sub'. rewrite Hl. destruct (h_all h !! s) as [sub|] eqn:Hs; [|done].
    intros [= <-]. apply Hf. by eapply Hd.
Qed.

Lemma cancel_at_ok k s h : hub_ok h -> hub_ok (cancel_at k s h).
Proof.
  intros Hh. unfold cancel_at.
  assert (He : alter (cancel_sub k) s (h_all h) =
    map_imap (fun x sub => Some (if decide (x = s) then cancel_sub k sub else sub)) (h_all h)).
  { apply map_eq. intros x. rewrite map_lookup_imap. destruct (decide (x = s)) as [->|Hne].
    - rewrite lookup_alter_eq. by destruct (h_all h !! s).
    - rewrite lookup_alter_ne by done. by destruct (h_all h !! x). }
  rewrite He. apply (update_all_ok (fun x sub => if decide (x = s) then cancel_sub k sub else sub)); [|done].
  intros x sub. destruct (decide (x = s)); [|done]. unfold cancel_sub. simpl.
  repeat split; try done. by destruct (sb_cause sub).
Qed.

Lemma push_ok p subs s sub :
  sb_once (push p subs s sub) = sb_once sub /\
  ((length (sb_ch sub) <= streamBuffer)%nat -> (length (sb_ch (push p subs s sub)) <= streamBuffer)%nat) /\
  (is_Some (sb_cause sub) -> is_Some (sb_cause (push p subs s sub))).
Proof.
  unfold push, full. destruct (_ && _) eqn:Hp; [|done]. simpl. repeat split; try done.
  apply andb_true_iff in Hp as [_ Hp%negb_true_iff%Nat.leb_gt]. rewrite length_app. simpl. lia.
Qed.

Lemma send_all_ok p h : hub_ok h -> hub_ok (send_all p h).
Proof. intros Hh. apply (update_all_ok (push p (h_subs h))); [|done]. intros. apply push_ok. Qed.

Lemma CloseToken_ok t h : hub_ok h -> hub_ok (CloseToken t h).
Proof.
  unfold CloseToken. generalize (token_subscribers t h) as l. intros l. revert h.
  induction l as [|s l IH]; intros h Hh; simpl; [done|]. by apply IH, cancel_at_ok.
Qed.

Lemma hub_cancel_ok h : hub_ok h -> hub_ok (hub_cancel h).
Proof.
  intros Hh. unfold hub_cancel. destruct (h_cause h) eqn:Hc; [done|].
  destruct Hh as [Hreg Hwg Hb Hbuf Hfr Hd].
  assert (Hl : forall s, (cancel_sub causeShutdown <$> h_all h) !! s = cancel_sub causeShutdown <$> h_all h !! s)
    by (intros; apply lookup_fmap).
  split; simpl; try done.
  - intros s. rewrite Hreg, Hl. destruct (h_all h !! s) as [sub|]; simpl; naive_solver.
  - intros s sub'. rewrite Hl. destruct (h_all h !! s) as [sub|] eqn:Hs; [|done].
    intros [= <-]. simpl. by eapply Hbuf.
  - intros s Hs. rewrite Hl. by rewrite Hfr.
  - intros _ s sub'. rewrite Hl. destruct (h_all h !! s) as [sub|]; [|done].
    intros [= <-]. simpl. destruct (sb_cause sub); eauto.
Qed.

Lemma hub_recv_ok s h : hub_ok h -> hub_ok (hub_recv s h).2.
Proof.
  intros [Hreg Hwg Hb Hbuf Hfr Hd]. unfold hub_recv.
  destruct (h_all h !! s) as [sub|] eqn:Hs; [|by split].
  destruct (sb_ch sub) as [|p rest] eqn:Hch; [by split|]. split; simpl; try done.
  - intros x. rewrite Hreg. destruct (decide (x = s)) as [->|Hne].
    + rewrite lookup_insert_eq, Hs. naive_solver.
    + by rewrite lookup_insert_ne.
  - intros x sub'. destruct (decide (x = s)) as [->|Hne].
    + rewrite lookup_insert_eq. intros [= <-]. simpl. specialize (Hbuf _ _ Hs). rewrite Hch in Hbuf.
      simpl in Hbuf. lia.
    + rewrite lookup_insert_ne by done. apply Hbuf.
  - intros x Hx. destruct (decide (x = s)) as [->|Hne]; [by rewrite Hfr in Hs|].
    rewrite lookup_insert_ne by done. by apply Hfr.
  - intros Hc x sub'. destruct (decide (x = s)) as [->|Hne].
    + rewrite lookup_insert_eq. intros [= <-]. simpl. by eapply Hd.
    + rewrite lookup_insert_ne by done. by apply Hd.
Qed.

Lemma hub_step_ok h h' : hub_step h h' -> hub_ok h -> hub_ok h'.
Proof.
  destruct 1; [apply subscribe_ok|apply unsubscribe_ok|apply send_all_ok|apply CloseToken_ok
              |apply cancel_at_ok|apply hub_cancel_ok|apply hub_recv_ok].
Qed.

Lemma reachable_ok h : reachable h -> hub_ok h.
Proof.
  unfold reachable. remember New as h0 eqn:H0.
  assert (Hok : hub_ok h0) by (subst; apply New_ok). clear H0. intros Hr.
  induction Hr as [|a b d Hs _ IH]; [done|]. apply IH. by eapply hub_step_ok.
Qed.

(** ** One broadcast *)

Lemma unsubscribe_other s x h : x <> s -> h_all (unsubscribe s h) !! x = h_all h !! x.
Proof.
  intros Hne. unfold unsubscribe. destruct (h_all h !! s) as [sub|]; [|done].
  destruct (sb_once sub); [done|]. simpl. by rewrite lookup_insert_ne.
Qed.

Lemma unsubscribe_self s h sub :
  h_all h !! s = Some sub -> sb_once sub = false ->
  h_all (unsubscribe s h) !! s = Some (MkSub (sb_token sub) (sb_ch sub) (sb_cause sub) true).
Proof. intros Hs Ho. unfold unsubscribe. rewrite Hs, Ho. simpl. by rewrite lookup_insert_eq. Qed.

Lemma cancel_at_same k s h : h_all (cancel_at k s h) !! s = cancel_sub k <$> h_all h !! s.
Proof. simpl. by rewrite lookup_alter_eq. Qed.

Lemma overflowed_iff h s sub : h_all h !! s = Some sub -> s ∈ overflowed h <-> s ∈ h_subs h /\ full sub = true.
Proof. intros Hs. unfold overflowed. by rewrite elem_of_bfilter, elem_of_elements, Hs. Qed.

Lemma send_all_lookup p h s : h_all (send_all p h) !! s = push p (h_subs h) s <$> h_all h !! s.
Proof. simpl. rewrite map_lookup_imap. by destruct (h_all h !! s). Qed.

(** ** Theorems *)

(** At every reachable state of the hub at most [maxStreamConns]
    subscribers are registered, every channel holds at most [streamBuffer]
    payloads, the wait group counts exactly the registered subscribers (so a
    handler's unsubscription is counted once, and Shutdown's wait ends exactly
    when none is left), and after a shutdown every subscriber's context is
    cancelled. *)
Theorem hub_invariant h :
  reachable h ->
  (live h <= maxStreamConns)%nat /\
  (forall s sub, h_all h !! s = Some sub -> (length (sb_ch sub) <= streamBuffer)%nat) /\
  h_wg h = Z.of_nat (live h) /\ (drained h = true <-> h_subs h = ∅) /\
  (forall s, s ∈ h_subs h <-> exists sub, h_all h !! s = Some sub /\ sb_once sub = false) /\
  (is_Some (h_cause h) -> forall s sub, h_all h !! s = Some sub -> is_Some (sb_cause sub)).
Proof.
  intros Hr%reachable_ok. destruct Hr as [Hreg Hwg Hb Hbuf Hfr Hd]. unfold live, drained.
  repeat split; try done.
  - rewrite Hwg, Z.eqb_eq. intros Hz. apply leibniz_equiv, size_empty_iff. lia.
  - intros He. rewrite Hwg, He, size_empty. done.
  - apply Hreg.
  - apply Hreg.
Qed.

(** A broadcast reaches each registered subscriber in order and without
    blocking: one with room gets the payload at the end of its channel; one
    whose channel is full keeps it as it is and is collected, and cancelling
    (as a slow consumer, unless it was cancelled before) and unsubscribing it
    takes it off the hub; a subscriber that is no longer registered is neither
    touched nor collected. *)
Theorem broadcast_spec p h s sub :
  reachable h -> h_all h !! s = Some sub ->
  (s ∈ h_subs h -> (length (sb_ch sub) < streamBuffer)%nat ->
     h_all (send_all p h) !! s = Some (MkSub (sb_token sub) (sb_ch sub ++ [p]) (sb_cause sub) false) /\
     s ∉ overflowed h) /\
  (s ∈ h_subs h -> length (sb_ch sub) = streamBuffer ->
     h_all (send_all p h) !! s = Some sub /\ s ∈ overflowed h /\
     h_all (unsubscribe s (cancel_at causeSlowConsumer s (send_all p h))) !! s =
       Some (MkSub (sb_token sub) (sb_ch sub) (Some (default causeSlowConsumer (sb_cause sub))) true) /\
     s ∉ h_subs (unsubscribe s (cancel_at causeSlowConsumer s (send_all p h)))) /\
  (s ∉ h_subs h -> h_all (send_all p h) !! s = Some sub /\ s ∉ overflowed h).
Proof.
  intros Hr Hs. pose proof (reachable_ok _ Hr) as Hok.
  pose proof (send_all_lookup p h s) as Hl. rewrite Hs in Hl. simpl fmap in Hl.
  assert (Hov : s ∈ overflowed h <-> s ∈ h_subs h /\ full sub = true) by (by apply overflowed_iff).
  assert (Hreg : s ∈ h_subs h -> sb_once sub = false).
  { intros (sub' & Hs' & Ho)%(ho_reg _ Hok). congruence. }
  unfold push in Hl. split; [|split].
  - intros Hin Hlen. assert (Hf : full sub = false) by (apply Nat.leb_gt; lia).
    rewrite bool_decide_eq_true_2, Hf, (Hreg Hin) in Hl by done. rewrite Hov, Hf. naive_solver.
  - intros Hin Hlen. assert (Hf : full sub = true) by (apply Nat.leb_le; lia).
    rewrite bool_decide_eq_true_2, Hf in Hl by done. cbn [andb negb] in Hl. split; [done|]. split; [by apply Hov|].
    assert (Hc : h_all (cancel_at causeSlowConsumer s (send_all p h)) !! s = Some (cancel_sub causeSlowConsumer sub)).
    { by rewrite cancel_at_same, Hl. }
    split; [rewrite (unsubscribe_self s _ _ Hc (Hreg Hin)); simpl; by destruct (sb_cause sub)|].
    unfold unsubscribe. rewrite Hc. simpl. rewrite (Hreg Hin). simpl. set_solver.
  - intros Hni. rewrite bool_decide_eq_false_2 in Hl by done. rewrite Hov. naive_solver.
Qed.

Lemma hub_invariant_witness : (live (subscribe "t" New).2 <= maxStreamConns)%nat.
Proof. apply hub_invariant. refine (rtc_once _ _ (hs_subscribe _ _)). Defined.

Lemma broadcast_spec_witness : 0%nat ∉ overflowed (subscribe "t" New).2.
Proof.
  refine (proj2 (proj1 (broadcast_spec "p" (subscribe "t" New).2 0 (MkSub "t" [] None false) _ _) _ _)).
  - refine (rtc_once _ _ (hs_subscribe _ _)).
  - reflexivity.
  - apply (bool_decide_unpack _). reflexivity.
  - vm_compute. lia.
Defined.
