(* ===== verification/Feed.v ===== *)
(** * The fan-out (internal/server/fanout.go) and the feed snapshot (feed/snapshot.go)

    [fanout] joins the event sources to the outbox and the stream.  Its mutex
    makes each method one atomic sequence bump, render, enqueue, broadcast; the
    broadcasts are the [OBroadcast] outputs, in order, which Hub.Broadcast
    consumes.  [f_enqueue] says whether notifications are enabled. *)

From S2P Require Import Prelude GoLib JsonText Schema Integrity Effects NetAddr Demo StoreUsers StoreDevices.
From S2P Require Import StoreTokens StoreNotify Auth ServiceDevices Notify.

Section Fanout.

Record fanout := MkFanout { f_enqueue : bool }.

Definition dispatch (f : fanout) (c : ctx) (eventType : string) (eventID : Z) (payload : string) : M unit :=
    (if f_enqueue f then Enqueuer.Enqueue c eventType eventID payload else mret tt);;
    emit (OBroadcast payload).

Definition fanout_IPChanged (f : fanout) (c : ctx) (ev : IPChangeEvent) : M unit :=
    now ← now_unix;
    attempt (FeedStateRepo.Bump c now);;
    dispatch f c EventIPChanged (ev_EventID ev) (RenderIPChanged ev).

Definition membership (f : fanout) (c : ctx) (eventType : string) (d : Device)
      (render : Z -> Z -> Device -> string) : M unit :=
    now ← now_unix;
    seq ← attempt (FeedStateRepo.Bump c now);
    match seq with
    | None => mret tt
    | Some seq => dispatch f c eventType seq (render seq now d)
    end.

Definition fanout_DeviceAdded (f : fanout) (c : ctx) (d : Device) : M unit :=
    membership f c EventAdded d (RenderAdded).
Definition fanout_DeviceRemoved (f : fanout) (c : ctx) (d : Device) : M unit :=
    membership f c EventRemoved d (RenderRemoved).

Record Confirmed := MkConfirmed { cf_V4 : Z; cf_V6 : Z }.

  (** [d] with the due families cleared. *)
Definition cleared (v4Due v6Due : bool) (d : Device) : Device :=
    MkDevice (dev_ID d) (dev_UserID d) (dev_Label d) (dev_SecretHash d)
      (if v4Due then EmptyString else dev_CurrentIPv4 d) (if v6Due then EmptyString else dev_CurrentIPv6 d)
      (dev_Hostname d) (dev_OS d) (dev_ClientVersion d) (dev_LastSeenAt d) (dev_Disabled d)
      (dev_CreatedAt d) (dev_UpdatedAt d) (dev_V4ConfirmedAt d) (dev_V6ConfirmedAt d)
      (dev_V4WarnLevel d) (dev_V6WarnLevel d).

Definition ExpireAddresses (f : fanout) (c : ctx) (d : Device) (v4Due v6Due : bool) (pin : Confirmed)
      : M bool :=
    now ← now_unix;
    r ← ExpireFamilies c (dev_ID d) v4Due v6Due (cf_V4 pin) (cf_V6 pin) now;
    let '(historyID, changed) := r in
    if negb changed then mret false
    else
      let after := cleared v4Due v6Due d in
      attempt (FeedStateRepo.Bump c now);;
      dispatch f c EventIPChanged historyID (RenderIPChanged
        (MkIPChangeEvent historyID now after (dev_CurrentIPv4 d) (dev_CurrentIPv6 d)
           (dev_CurrentIPv4 after) (dev_CurrentIPv6 after)));;
      mret true.

  (** The fan-out as the interfaces of the services. *)
Definition fanout_notifier (f : fanout) : Notifier := MkNotifier (fanout_IPChanged f).
Definition fanout_device_notifier (f : fanout) : DeviceNotifier :=
    MkDeviceNotifier (fanout_DeviceAdded f) (fanout_DeviceRemoved f).

Lemma dispatch_wf f c t i p : preserves wf_db (dispatch f c t i p).
  Proof. unfold dispatch. pres. Qed.
#[local] Hint Resolve dispatch_wf feed_state_Bump_wf : effects.

#[export] Instance fanout_notifier_wf f : WfNotifier (fanout_notifier f).
  Proof. intros c ev. simpl. unfold fanout_IPChanged. pres. Qed.
#[export] Instance fanout_device_notifier_wf f : WfDeviceNotifier (fanout_device_notifier f).
  Proof.
    split; intros c d; simpl; unfold fanout_DeviceAdded, fanout_DeviceRemoved, membership; pres.
  Qed.
Lemma ExpireAddresses_wf f c d a b p : preserves wf_db (ExpireAddresses f c d a b p).
  Proof. unfold ExpireAddresses. pres. Qed.
End Fanout.

#[export] Hint Resolve dispatch_wf ExpireAddresses_wf : effects.

(** ** snapshot.go and store/addrs.go *)

Section Snapshot.
Context `{Crypto}.

  (** [a.Unmap().WithZone("")] *)
Definition without_zone (a : addr) : addr := match a with V6 n _ => V6 n EmptyString | V4 n => V4 n end.

Definition ParseAddr (s : string) : option addr :=
    if str_eq s EmptyString then None
    else (fun a => without_zone (unmap a)) <$> parse_addr s.

  (** [slices.Compact] *)
Fixpoint compact (l : list addr) : list addr :=
    match l with
    | [] => []
    | x :: l' =>
        match l' with
        | y :: _ => if bool_decide (x = y) then compact l' else x :: compact l'
        | [] => [x]
        end
    end.

Definition DedupeAddrs (l : list addr) : list addr := compact (order_by addr_le l).

Definition CIDRString (a : addr) : string := (addr_string a ++ "/" ++ format_int (bit_len a))%string.

Record Snapshot := MkSnapshot { sn_Text : string; sn_JSON : string; sn_TextETag : string; sn_JSONETag : string }.

Definition headerLine : string := ("# diyddns feed v1" ++ lf)%string.

Definition strongETag (body : string) : string := (quote ++ hex_encode (sha256 body) ++ quote)%string.

Definition feed_addrs (devices : list DeviceRepo.FeedDevice) : list addr :=
    d ← devices;
    option_list (ParseAddr (DeviceRepo.fd_IPv4 d)) ++ option_list (ParseAddr (DeviceRepo.fd_IPv6 d)).

Definition json_device (d : DeviceRepo.FeedDevice) : string :=
    let addr_or_null s := json_nullable (addr_string <$> ParseAddr s) in
    json_object
      [ json_field "id" (json_quote (DeviceRepo.fd_ID d)); json_field "label" (json_quote (DeviceRepo.fd_Label d));
        json_field "ipv4" (addr_or_null (DeviceRepo.fd_IPv4 d)); json_field "ipv6" (addr_or_null (DeviceRepo.fd_IPv6 d));
        json_field "last_seen_at" (json_nullable
          (if DeviceRepo.fd_LastSeenAt d =? 0 then None else Some (rfc3339 (DeviceRepo.fd_LastSeenAt d)))) ].

Definition Render (devices : list DeviceRepo.FeedDevice) : Snapshot :=
    let cidrs := CIDRString <$> DedupeAddrs (feed_addrs devices) in
    let text := (headerLine ++ foldr (fun c acc => c ++ lf ++ acc) EmptyString cidrs)%string in
    let j := (json_object [ json_field "version" (format_int 1); json_field "cidrs" (json_list (json_quote <$> cidrs));
                json_field "devices" (json_list (json_device <$> devices)) ] ++ lf)%string in
    MkSnapshot text j (strongETag text) (strongETag j).
End Snapshot.

(** ** Sorting and deduplication *)

Lemma addr_le_total a b : addr_le a b = true \/ addr_le b a = true.
Proof.
  destruct a as [m|m x], b as [n|n y]; simpl; try lia; auto.
  destruct (m <? n) eqn:E1; [by left|]. destruct (n <? m) eqn:E2; [by right|].
  replace (m =? n) with true by lia. replace (n =? m) with true by lia. simpl.
  destruct (String.leb_total x y) as [H|H]; rewrite ?H; auto.
Qed.
