(* ===== verification/FeedFacts.v ===== *)
(** * What the feed guarantees

    Properties of Feed: the deduplicated address list is a canonical form of
    the set of addresses, so that the snapshot's text and its entity tag depend
    on that set alone; and the fan-out numbers, enqueues and broadcasts each
    event exactly once, or drops a membership event whose number could not be
    taken. *)

From S2P Require Import Prelude GoLib Schema Integrity Effects NetAddr Demo StoreUsers StoreDevices.
From S2P Require Import StoreTokens StoreNotify Auth ServiceDevices DeviceFacts ServiceFacts Notify.
From S2P Require Import NotifyFacts Feed.

(** ** Sorting and deduplication *)

Lemma addr_le_trans a b c : addr_le a b = true -> addr_le b c = true -> addr_le a c = true.
Proof.
  destruct a as [m|m x], b as [n|n y], c as [k|k z]; simpl; try done; [lia|].
  rewrite !orb_true_iff, !andb_true_iff, !Z.ltb_lt, !Z.eqb_eq.
  intros [H1|[H1 H1']] [H2|[H2 H2']]; [left; lia|left; lia|left; lia|right].
  split; [lia|]. by eapply string_leb_trans.
Qed.

Lemma addr_le_antisym a b : addr_le a b = true -> addr_le b a = true -> a = b.
Proof.
  destruct a as [m|m x], b as [n|n y]; simpl; try done; [intros; f_equal; lia|].
  rewrite !orb_true_iff, !andb_true_iff, !Z.ltb_lt, !Z.eqb_eq.
  intros [H1|[Hm H1]] [H2|[Hn H2]]; try lia. subst n. f_equal.
  apply string_leb_lt in H1 as [H1|H1]; [|done]. apply string_leb_lt in H2 as [H2|H2]; [|done].
  exfalso. by eapply string_lt_irrefl, string_lt_trans.
Qed.

(** netip.Addr.Less *)
Definition addr_lt (a b : addr) : Prop := addr_le a b = true /\ a <> b.

Lemma addr_lt_irrefl a : ~ addr_lt a a.
Proof. by intros [_ ?]. Qed.
Lemma addr_lt_trans a b c : addr_lt a b -> addr_lt b c -> addr_lt a c.
Proof.
  intros [H1 N1] [H2 N2]. split; [by eapply addr_le_trans|]. intros <-. apply N1. by apply addr_le_antisym.
Qed.

Lemma elem_of_compact l x : x ∈ compact l <-> x ∈ l.
Proof.
  induction l as [|a [|b l] IH]; [done|done|].
  change (compact (a :: b :: l)) with (if bool_decide (a = b) then compact (b :: l) else a :: compact (b :: l)).
  case_bool_decide as Hab.
  - subst b. rewrite IH. set_solver.
  - rewrite !(elem_of_cons _ x a), IH. done.
Qed.

Lemma compact_sorted l :
  StronglySorted (fun a b => addr_le a b = true) l -> StronglySorted addr_lt (compact l).
Proof.
  induction 1 as [|a l Hs IH Hall]; [constructor|]. destruct l as [|b l]; [repeat constructor|].
  change (compact (a :: b :: l)) with (if bool_decide (a = b) then compact (b :: l) else a :: compact (b :: l)).
  case_bool_decide as Hab; [done|]. constructor; [done|].
  rewrite Forall_forall in Hall. apply Forall_forall. intros x Hx.
  rewrite elem_of_compact in Hx.
  split; [by apply Hall|]. intros Hax. subst x. apply Hab, addr_le_antisym; [apply Hall; left|].
  inversion Hs as [|? ? _ Hb]; subst. rewrite Forall_forall in Hb.
  apply elem_of_cons in Hx as [Heq|Hx]; [done|by apply Hb].
Qed.

Lemma dedupe_spec l :
  StronglySorted addr_lt (DedupeAddrs l) /\ forall a, a ∈ DedupeAddrs l <-> a ∈ l.
Proof.
  split.
  - apply compact_sorted, order_by_sorted; [apply addr_le_total|apply addr_le_trans].
  - intros a. unfold DedupeAddrs. by rewrite elem_of_compact, elem_of_order_by.
Qed.

Lemma sorted_NoDup l : StronglySorted addr_lt l -> NoDup l.
Proof.
  induction 1 as [|a l Hs IH Hall]; constructor; [|done]. intros Hin. rewrite Forall_forall in Hall.
  by apply (addr_lt_irrefl a), Hall.
Qed.

Lemma dedupe_canonical l1 l2 : (forall a, a ∈ l1 <-> a ∈ l2) -> DedupeAddrs l1 = DedupeAddrs l2.
Proof.
  intros Hl. destruct (dedupe_spec l1) as [Hs1 He1], (dedupe_spec l2) as [Hs2 He2].
  apply (sorted_perm_unique addr_lt _ _ addr_lt_irrefl addr_lt_trans Hs1 Hs2).
  apply NoDup_Permutation; [by apply sorted_NoDup|by apply sorted_NoDup|].
  intros a. by rewrite He1, He2.
Qed.

(** DedupeAddrs is a canonical form: its result is strictly increasing in
    netip order (so without duplicates), holds exactly the addresses given, and
    is the same for any two lists of the same addresses, whatever their order
    and repetitions. *)
Theorem DedupeAddrs_canonical (l : list addr) :
  StronglySorted addr_lt (DedupeAddrs l) /\ NoDup (DedupeAddrs l) /\
  (forall a, a ∈ DedupeAddrs l <-> a ∈ l) /\
  (forall l', (forall a, a ∈ l <-> a ∈ l') -> DedupeAddrs l = DedupeAddrs l') /\
  DedupeAddrs (DedupeAddrs l) = DedupeAddrs l.
Proof.
  destruct (dedupe_spec l) as [Hs He]. split; [done|]. split; [by apply sorted_NoDup|]. split; [done|].
  split; [by apply dedupe_canonical|]. apply dedupe_canonical. intros a. apply He.
Qed.

Section SnapshotFacts.
Context `{Crypto}.

(** The address set of the members. *)
Definition feed_holds (devices : list DeviceRepo.FeedDevice) (a : addr) : Prop :=
  exists d, d ∈ devices /\ (ParseAddr (DeviceRepo.fd_IPv4 d) = Some a \/
                            ParseAddr (DeviceRepo.fd_IPv6 d) = Some a).

Lemma feed_addrs_iff devices a : a ∈ feed_addrs devices <-> feed_holds devices a.
Proof.
  unfold feed_addrs, feed_holds. rewrite list_elem_of_bind. split.
  - intros (d & Ha & Hd). exists d. split; [done|]. apply elem_of_app in Ha as [Ha|Ha]; [left|right];
      (destruct (ParseAddr _); [by apply list_elem_of_singleton in Ha as ->|by apply elem_of_nil in Ha]).
  - intros (d & Hd & Ha). exists d. split; [|done]. apply elem_of_app.
    destruct Ha as [->| ->]; [left|right]; by left.
Qed.

Lemma ParseAddr_normal s a : ParseAddr s = Some a -> zone a = EmptyString /\ unmap a = a.
Proof.
  unfold ParseAddr. destruct (str_eq s EmptyString); [done|].
  destruct (parse_addr s) as [b|]; [|done]. intros [= <-]. pose proof (unmap_idem b) as Hi.
  destruct (unmap b) as [n|n z] eqn:Hb; [done|]. split; [done|]. unfold without_zone, unmap in *.
  destruct (Z.shiftr n 32 =? 65535); done.
Qed.

(** The snapshot is deterministic and complete: its text lists exactly the
    addresses the members report (parsed, unmapped and without zone), each
    once and in increasing order, and two snapshots over members with the same
    addresses have the same text and the same entity tag, whatever devices hold
    them. *)
Theorem Render_deterministic (devices : list DeviceRepo.FeedDevice) :
  let render ds := Render ds in
  exists addrs, StronglySorted addr_lt addrs /\ (forall a, a ∈ addrs <-> feed_holds devices a) /\
    (forall a, a ∈ addrs -> zone a = EmptyString /\ unmap a = a) /\
    sn_Text (render devices) =
      (headerLine ++ foldr (fun c acc => c ++ lf ++ acc) EmptyString (CIDRString <$> addrs))%string /\
    sn_TextETag (render devices) = strongETag (sn_Text (render devices)) /\
    (forall devices', (forall a, feed_holds devices a <-> feed_holds devices' a) ->
       sn_Text (render devices') = sn_Text (render devices) /\
       sn_TextETag (render devices') = sn_TextETag (render devices)).
Proof.
  intros render. exists (DedupeAddrs (feed_addrs devices)).
  destruct (dedupe_spec (feed_addrs devices)) as [Hs He].
  split; [exact Hs|]. split; [intros a; by rewrite He, feed_addrs_iff|]. split.
  { intros a (d & _ & [Ha|Ha])%He%feed_addrs_iff; by eapply ParseAddr_normal. }
  split; [done|]. split; [done|]. intros devices' Hsame.
  assert (Heq : DedupeAddrs (feed_addrs devices') = DedupeAddrs (feed_addrs devices)).
  { apply dedupe_canonical. intros a. by rewrite !feed_addrs_iff, Hsame. }
  assert (Ht : sn_Text (render devices') = sn_Text (render devices)).
  { unfold render, Render. cbn [sn_Text]. by rewrite Heq. }
  split; [exact Ht|]. unfold render, Render in *. cbn [sn_Text sn_TextETag] in *. by rewrite Ht.
Qed.
End SnapshotFacts.

(** ** The fan-out *)

Section FanoutFacts.

(** What enqueuing may change: the outbox. *)
Definition only_outbox (w w' : World) : Prop :=
  w_mem w' = w_mem w /\ exists rows seq, w_db w' = setd_deliveries_seq seq (setd_deliveries rows (w_db w)).

Lemma only_outbox_refl w w' : w_mem w' = w_mem w -> w_db w' = w_db w -> only_outbox w w'.
Proof.
  intros Hm Hd. split; [done|]. exists (d_deliveries (w_db w)), (d_deliveries_seq (w_db w)).
  rewrite Hd. by destruct (w_db w).
Qed.

Lemma only_outbox_trans w1 w2 w3 : only_outbox w1 w2 -> only_outbox w2 w3 -> only_outbox w1 w3.
Proof.
  intros [Hm1 (r1 & s1 & Hd1)] [Hm2 (r2 & s2 & Hd2)]. split; [congruence|]. exists r2, s2. by rewrite Hd2, Hd1.
Qed.

Lemma wp_repo_Enqueue c d (Q : result unit -> World -> Prop) w :
  (forall (e : option err) w', only_outbox w w' -> Q (match e with Some e => Err e | None => Ok tt end) w') ->
  wp (NotificationDeliveryRepo.Enqueue c d) Q w.
Proof.
  intros HQ. unfold NotificationDeliveryRepo.Enqueue. do 5 wp_step.
  - by apply (HQ (Some _)), only_outbox_refl.
  - by apply (HQ (Some _)), only_outbox_refl.
  - wp_step. apply (HQ None). split; [done|]. by eexists _, _.
Qed.

Lemma wp_enqueue_loop c t i p next (eps : list NotificationEndpoint) w :
  wp (foreach eps (fun ep =>
      attempt (NotificationDeliveryRepo.Enqueue c
        (MkDelivery 0 (ne_ID ep) t i p 0 next DeliveryPending EmptyString 0 0));; mret tt))
    (fun r w' => r = Ok tt /\ only_outbox w w') w.
Proof.
  revert w. induction eps as [|ep eps IH]; intros w; simpl; [wp_step; split; [done|by apply only_outbox_refl]|].
  assert (Hnext : forall w1, only_outbox w w1 ->
    wp (foreach eps (fun ep => attempt (NotificationDeliveryRepo.Enqueue c
        (MkDelivery 0 (ne_ID ep) t i p 0 next DeliveryPending EmptyString 0 0));; mret tt))
      (fun r w' => r = Ok tt /\ only_outbox w w') w1).
  { intros w1 H1. eapply wp_mono; [apply IH|]. intros r w' [Hr H2]. split; [done|]. by eapply only_outbox_trans. }
  do 3 wp_step. apply wp_repo_Enqueue. intros [e|] w1 H1; wp_step; by apply Hnext.
Qed.

Lemma wp_Enqueue c t i p (Q : result unit -> World -> Prop) w :
  (forall w', only_outbox w w' -> Q (Ok tt) w') -> wp (Enqueuer.Enqueue c t i p) Q w.
Proof.
  intros HQ. unfold Enqueuer.Enqueue, NotificationEndpointRepo.ListEnabled. wp_step. wp_step. wp_step.
  - wp_step. by apply HQ, only_outbox_refl.
  - wp_step. wp_step. eapply wp_mono; [apply wp_enqueue_loop|]. intros r w' [-> Ho]. apply HQ.
    eapply only_outbox_trans; [|exact Ho]. by apply only_outbox_refl.
Qed.

Lemma wp_dispatch f c t i p (Q : result unit -> World -> Prop) w :
  (forall w', m_out (w_mem w') = m_out (w_mem w) ++ [OBroadcast p] ->
     d_feed_state (w_db w') = d_feed_state (w_db w) -> Q (Ok tt) w') ->
  wp (dispatch f c t i p) Q w.
Proof.
  intros HQ. unfold dispatch. wp_step.
  assert (Hend : forall w1, only_outbox w w1 -> wp (emit (OBroadcast p)) Q w1).
  { intros w1 [Hm (rs & s & Hd)]. apply HQ; simpl; [by rewrite Hm|by rewrite Hd]. }
  destruct (f_enqueue f); [by apply wp_Enqueue|]. wp_step. by apply Hend, only_outbox_refl.
Qed.

(** Nothing was numbered and nothing sent. *)
Definition unsent (w w' : World) : Prop :=
  m_out (w_mem w') = m_out (w_mem w) /\ d_feed_state (w_db w') = d_feed_state (w_db w).

Definition next_seq (w : World) : Z := fs_Seq (d_feed_state (w_db w)) + 1.

(** The event was numbered [next_seq] and broadcast once. *)
Definition sent_numbered (w w' : World) (p : string) : Prop :=
  m_out (w_mem w') = m_out (w_mem w) ++ [OBroadcast p] /\ fs_Seq (d_feed_state (w_db w')) = next_seq w.

Lemma wp_membership f c t d render w :
  wp (membership f c t d render) (fun r w' => r = Ok tt /\
    (unsent w w' \/ exists step, sent_numbered w w' (render (next_seq w) (e_clock (w_env w) step) d))) w.
Proof.
  unfold membership, FeedStateRepo.Bump. wp_step. wp_step. wp_step. wp_step. wp_step.
  - by wp_step; split; [|left].
  - match goal with H : _ = (_, _) |- _ => injection H as <- <- end. cbv iota. apply wp_dispatch.
    intros w' Hm Hd. split; [done|]. right. exists (w_n w). split; [exact Hm|]. by rewrite Hd.
Qed.

(** The fan-out numbers and broadcasts each event at most once and never
    fails its caller: a membership event takes the next feed sequence number and
    is broadcast under it, or, when the number cannot be taken, is dropped with
    no number consumed; an address change is always broadcast, whether or not
    the sequence moved. *)
Theorem fanout_spec (f : fanout) (c : ctx) (d : Device) (ev : IPChangeEvent) (w : World) :
  wp (fanout_DeviceAdded f c d) (fun r w' => r = Ok tt /\
    (unsent w w' \/ exists step, sent_numbered w w'
       (RenderAdded (next_seq w) (e_clock (w_env w) step) d))) w /\
  wp (fanout_DeviceRemoved f c d) (fun r w' => r = Ok tt /\
    (unsent w w' \/ exists step, sent_numbered w w'
       (RenderRemoved (next_seq w) (e_clock (w_env w) step) d))) w /\
  wp (fanout_IPChanged f c ev) (fun r w' => r = Ok tt /\
    m_out (w_mem w') = m_out (w_mem w) ++ [OBroadcast (RenderIPChanged ev)] /\
    (fs_Seq (d_feed_state (w_db w')) = next_seq w \/ d_feed_state (w_db w') = d_feed_state (w_db w))) w.
Proof.
  split; [apply wp_membership|]. split; [apply wp_membership|].
  unfold fanout_IPChanged, FeedStateRepo.Bump. wp_step. wp_step. wp_step. wp_step. wp_step.
  - apply wp_dispatch. intros w' Hm Hd. split; [done|]. split; [exact Hm|]. by right.
  - match goal with H : _ = (_, _) |- _ => injection H as <- <- end. apply wp_dispatch.
    intros w' Hm Hd. split; [done|]. split; [exact Hm|]. left. by rewrite Hd.
Qed.

#[export] Instance silent_fanout f : SilentNotifier (fanout_notifier f).
Proof.
  intros c ev w e He.
  assert (Hw : wp (fanout_IPChanged f c ev) (fun r _ => r = Ok tt) w).
  { unfold fanout_IPChanged, FeedStateRepo.Bump. do 5 wp_step; [by apply wp_dispatch|].
    match goal with H : _ = (_, _) |- _ => injection H as <- <- end. by apply wp_dispatch. }
  unfold wp in Hw. simpl in He. congruence.
Qed.
End FanoutFacts.
