(* ===== verification/Passkeys.v ===== *)
(** * internal/server/service/passkey.go: passkeys

    [PasskeyService]: the sealed ceremony cookie, the single-use challenges,
    discoverable login, registration and the management of credentials.

    The class [WebAuthn] is github.com/go-webauthn with the JSON encoding of
    its types: the model knows the fields the service reads and keeps the rest
    of a value opaque.  [FinishDiscoverableLogin] gets the handler that
    resolves a user handle, and threads the variable the handler's closure
    writes ([signerLookup]).  Instants are in seconds. *)

From S2P Require Import Prelude GoLib Schema Integrity Effects StoreUsers StoreDevices StoreTokens Auth.
From S2P Require Import ServiceDevices ServiceTokens.

(** ** The library's types *)

(** webauthn.SessionData; [None] is the zero time and the nil slice. *)
Record SessionData := MkSessionData {
  sd_Challenge : string; sd_UserID : option string; sd_Expires : option Z; sd_opaque : string }.

(** webauthn.Credential *)
Record Credential := MkCredential {
  wac_ID : string; wac_AAGUID : option string; wac_CloneWarning : bool; wac_opaque : string }.

Record webauthnUser := MkWebauthnUser {
  wu_handle : string; wu_email : string; wu_creds : list Credential }.

Class WebAuthn (Options HttpRequest : Type) := {
  json_options : Options -> option string;
  json_session : SessionData -> option string;
  unjson_session : string -> option SessionData;
  json_credential : Credential -> option string;
  unjson_credential : string -> option Credential;
  BeginDiscoverableLogin : M (Options * SessionData);
  (** the credentials to exclude are given by their ids *)
  BeginRegistration : webauthnUser -> list string -> M (Options * SessionData);
  FinishRegistration : webauthnUser -> SessionData -> HttpRequest -> M Credential;
  FinishDiscoverableLogin : forall {S : Type},
    (S -> string -> string -> M (S * option webauthnUser)) -> SessionData -> HttpRequest -> S ->
    M (S * option Credential) }.

(** A computation of the library: it keeps the database, the memory of the
    process and the environment, and does not panic. *)
Definition library_call {A} (m : M A) : Prop :=
  forall w, w_db (m w).2 = w_db w /\ w_mem (m w).2 = w_mem w /\ w_env (m w).2 = w_env w /\ (m w).1 <> Panic.

(** What the services rely on of the library: its calls leave the server's
    state alone, and a login asks the handler at most once and accepts no
    assertion for which the handler resolved nobody. *)
Class WebAuthnLaws `{WebAuthn Options HttpRequest} : Prop := {
  begin_login_call : library_call BeginDiscoverableLogin;
  begin_registration_call : forall u ex, library_call (BeginRegistration u ex);
  finish_registration_call : forall u s r, library_call (FinishRegistration u s r);
  finish_login_asks : forall S (h : S -> string -> string -> M (S * option webauthnUser)) sess r s w,
    (exists w', FinishDiscoverableLogin h sess r s w = (Ok (s, None), w') /\
       w_db w' = w_db w /\ w_mem w' = w_mem w /\ w_env w' = w_env w) \/
    (exists raw handle s' ou oc w1 w', h s raw handle w = (Ok (s', ou), w1) /\
       FinishDiscoverableLogin h sess r s w = (Ok (s', oc), w') /\
       w_db w' = w_db w1 /\ w_mem w' = w_mem w1 /\ w_env w' = w_env w1 /\ (ou = None -> oc = None)) \/
    (exists raw handle e w1, h s raw handle w = (Err e, w1)) \/
    (exists raw handle w1, h s raw handle w = (Panic, w1)) }.

Section Passkeys.
Context `{Crypto} `{WebAuthn Options HttpRequest}.

Definition webauthnAAD : string := "diyddns/webauthn-v1".

  (** The service's configuration; its challenges are [m_challenges]. *)
Record PasskeyService := MkPasskeyService { pk_sealKey : string; pk_sessions : SessionManager }.

Definition newWebauthnUser (email handle : string) (creds : list WebAuthnCredential) : option webauthnUser :=
    decoded ← mapM (fun cr => unjson_credential (wc_CredentialJSON cr)) creds;
    Some (MkWebauthnUser handle email decoded).

  (** [v, err := json.Marshal(x)] *)
Definition marshal_json {A} (enc : A -> option string) (x : A) : M string :=
    match enc x with Some s => mret s | None => fail (ErrOther "json") end.

Definition sealSession (s : PasskeyService) (sess : SessionData) : M string :=
    raw ← marshal_json json_session sess;
    SealWithAAD (pk_sealKey s) raw webauthnAAD.

Definition openSession (s : PasskeyService) (sealed : string) : M SessionData :=
    r ← catch (OpenWithAAD (pk_sealKey s) sealed webauthnAAD);
    match r with
    | inr _ => fail ErrPasskeyVerification
    | inl raw => match unjson_session raw with Some sess => mret sess | None => fail ErrPasskeyVerification end
    end.

Definition with_challenges (u : gmap string Z) (m : Mem) : Mem :=
    MkMem (m_secrets m) (m_feed_touch m) (m_key_touch m) u (m_out m).

Definition purge (now : Z) (used : gmap string Z) : gmap string Z := filter (fun p => now < p.2) used.

  (** Check and record under one lock. *)
Definition claimChallenge (challenge : string) (expires : option Z) : M bool :=
    now ← now_unix;
    m ← get_mem;
    let used := purge now (m_challenges m) in
    match used !! challenge with
    | Some _ => put_mem (with_challenges used m);; mret false
    | None =>
        put_mem (with_challenges (<[challenge := default (now + 120) expires]> used) m);;
        mret true
    end.

Definition claim_or_reject (sess : SessionData) : M unit :=
    ok ← claimChallenge (sd_Challenge sess) (sd_Expires sess);
    if ok : bool then mret tt else fail ErrPasskeyVerification.

  (** ** Login *)

Definition BeginLogin (s : PasskeyService) : M (string * string) :=
    a ← BeginDiscoverableLogin;
    sealed ← sealSession s a.2;
    optsJSON ← marshal_json json_options a.1;
    mret (optsJSON, sealed).

Record signerLookup := MkSigner { sg_user : option User; sg_storeErr : option err }.

Definition resolveSigner (c : ctx) (found : signerLookup) (_ userHandle : string)
      : M (signerLookup * option webauthnUser) :=
    r ← catch (UserRepo.GetByWebAuthnHandle c userHandle);
    match r with
    | inr e =>
        mret (if bool_decide (e = ErrNotFound) then found else MkSigner (sg_user found) (Some e), None)
    | inl u =>
        cs ← catch (WebAuthnCredentialRepo.ListByUser c (usr_ID u));
        match cs with
        | inr e => mret (MkSigner (sg_user found) (Some e), None)
        | inl creds =>
            match newWebauthnUser (usr_Email u) userHandle creds with
            | None => mret (found, None)
            | Some wu => mret (MkSigner (Some u) (sg_storeErr found), Some wu)
            end
        end
    end.

  (** The resolved account may sign in: from line 255. *)
Definition finish_login_as (s : PasskeyService) (c : ctx) (ip ua : string) (resolved : User) (cred : Credential)
      : M Session :=
    if usr_Disabled resolved then fail ErrPasskeyVerification
    else if wac_CloneWarning cred then
      AuditLog c (MkAuditEntry 0 (usr_ID resolved) "passkey.signcount_anomaly" "webauthn_credential"
        (b64_rawurl_encode (wac_ID cred)) EmptyString ip EmptyString 0);;
      fail ErrPasskeyVerification
    else
      credJSON ← marshal_json json_credential cred;
      now ← now_unix;
      WebAuthnCredentialRepo.Update c
        (MkWebAuthnCredential (wac_ID cred) EmptyString credJSON EmptyString None 0 now);;
      newSess ← SessionCreate c (pk_sessions s) (usr_ID resolved) ip ua;
      AuditLog c (MkAuditEntry 0 (usr_ID resolved) "user.login.passkey" EmptyString EmptyString EmptyString
        ip EmptyString 0);;
      mret newSess.

Definition FinishLogin (s : PasskeyService) (c : ctx) (sealedCookie : string) (r : HttpRequest) (ip ua : string)
      : M Session :=
    sess ← openSession s sealedCookie;
    claim_or_reject sess;;
    res ← FinishDiscoverableLogin (resolveSigner c) sess r (MkSigner None None);
    match sg_storeErr res.1, sg_user res.1, res.2 with
    | Some e, _, _ => fail e
    | None, Some resolved, Some cred => finish_login_as s c ip ua resolved cred
    | None, _, _ => fail ErrPasskeyVerification
    end.

  (** ** Registration *)

Definition BeginRegister (s : PasskeyService) (c : ctx) (userID : string) : M (string * string) :=
    u ← UserRepo.GetByID c userID;
    creds ← WebAuthnCredentialRepo.ListByUser c userID;
    h ← UserRepo.GetWebAuthnHandle c userID;
    handle ← (if str_eq (default EmptyString h) EmptyString then rand_bytes 32
              else mret (default EmptyString h));
    match newWebauthnUser (usr_Email u) handle creds with
    | None => fail (ErrOther "service.BeginRegister")
    | Some wu =>
        a ← BeginRegistration wu (wac_ID <$> wu_creds wu);
        sealed ← sealSession s a.2;
        optsJSON ← marshal_json json_options a.1;
        mret (optsJSON, sealed)
    end.

Definition beginRegistrationFor (email handle : string) : M (string * SessionData) :=
    match newWebauthnUser email handle [] with
    | None => fail (ErrOther "service.beginRegistrationFor")
    | Some wu =>
        a ← BeginRegistration wu [];
        optsJSON ← marshal_json json_options a.1;
        mret (optsJSON, a.2)
    end.

Definition verifyRegistration (email : string) (handle : option string) (sess : SessionData) (r : HttpRequest)
      : M Credential :=
    match newWebauthnUser email (default EmptyString handle) [] with
    | None => fail (ErrOther "service.verifyRegistration")
    | Some wu => map_err (fun _ => ErrPasskeyVerification) (FinishRegistration wu sess r)
    end.

Definition persistCredential (c : ctx) (userID : string) (handle : option string) (cred : Credential)
      (name : string) : M WebAuthnCredential :=
    UserRepo.SetWebAuthnHandle c userID handle;;
    credJSON ← marshal_json json_credential cred;
    now ← now_unix;
    stored ← WebAuthnCredentialRepo.Create c
      (MkWebAuthnCredential (wac_ID cred) userID credJSON name (wac_AAGUID cred) now 0);
    AuditLog c (audit_entry userID "passkey.registered" "webauthn_credential"
      (b64_rawurl_encode (wac_ID cred)) EmptyString);;
    mret stored.

Definition FinishRegister (s : PasskeyService) (c : ctx) (userID sealedCookie name : string) (r : HttpRequest)
      : M WebAuthnCredential :=
    sess ← openSession s sealedCookie;
    claim_or_reject sess;;
    u ← UserRepo.GetByID c userID;
    cred ← verifyRegistration (usr_Email u) (sd_UserID sess) sess r;
    persistCredential c userID (sd_UserID sess) cred name.

  (** ** Management *)

Definition ListCredentials (c : ctx) (userID : string) : M (list WebAuthnCredential) :=
    WebAuthnCredentialRepo.ListByUser c userID.

Definition ownedCredential (c : ctx) (userID credID : string) : M WebAuthnCredential :=
    cred ← WebAuthnCredentialRepo.GetByID c credID;
    if str_eq (wc_UserID cred) userID then mret cred else fail ErrNotFound.

Definition PasskeyRename (c : ctx) (userID credID name : string) : M unit :=
    cred ← ownedCredential c userID credID;
    WebAuthnCredentialRepo.Rename c (wc_CredentialID cred) name;;
    AuditLog c (audit_entry userID "passkey.renamed" "webauthn_credential" (b64_rawurl_encode credID) EmptyString).

Definition PasskeyRemove (c : ctx) (userID credID : string) : M unit :=
    cred ← ownedCredential c userID credID;
    u ← UserRepo.GetByID c userID;
    count ← WebAuthnCredentialRepo.CountWebAuthnCredentials c userID;
    if (count <=? 1)%nat && str_eq (usr_OIDCSubject u) EmptyString then fail ErrLastCredential
    else
      WebAuthnCredentialRepo.Delete c (wc_CredentialID cred);;
      AuditLog c (audit_entry userID "passkey.removed" "webauthn_credential" (b64_rawurl_encode credID) EmptyString).
End Passkeys.
