(* ===== verification/Grants.v ===== *)
(** * internal/server/service/grants.go: invitations and recovery

    [GrantService]: minting registration links, replacing them, the
    self-service recovery, the classification of a link and its redemption.
    The mutex of [ReissueInvite] and [IssueRecovery] is not modelled: a run of
    an operation is uninterrupted here, and interleavings are System's. *)

From S2P Require Import Prelude GoLib Schema Integrity Effects StoreUsers StoreDevices StoreTokens Auth.
From S2P Require Import ServiceDevices ServiceTokens Email Passkeys.

Inductive rejectReason :=
  | rejectMissing | rejectUnknown | rejectExpired | rejectUsed | rejectUserMissing | rejectLostRace.

#[export] Instance rejectReason_eq_dec : EqDecision rejectReason.
Proof. solve_decision. Defined.

Inductive RegisterState := RegisterGrant | RegisterFirstRun | RegisterDead.

Record RegisterTarget := MkRegisterTarget { rg_State : RegisterState; rg_Reason : string; rg_Email : string }.

Section Grants.
Context `{Crypto} `{WebAuthn Options HttpRequest}.

  (** [gs_linkTTL] in nanoseconds; the token's lifetime is its whole seconds. *)
Record GrantService := MkGrantService {
    gs_passkeys : option PasskeyService; gs_mailer : option Mailer; gs_baseURL : string; gs_linkTTL : Z }.

Definition ttl_seconds (s : GrantService) : Z := Z.quot (gs_linkTTL s) (10 ^ 9).

Definition register_link (s : GrantService) (token : string) : string :=
    (gs_baseURL s ++ "/register?token=" ++ token)%string.

Definition issue (s : GrantService) (c : ctx) (userID reason : string) : M (string * Z) :=
    token ← RandToken 32;
    now ← now_unix;
    let expiresAt := now + ttl_seconds s in
    AccountRecoveryRepo.Create c (MkRecoveryToken (HashToken token) userID reason expiresAt 0);;
    mret (register_link s token, expiresAt).

Definition deliver (s : GrantService) (c : ctx) (actorID : string) (u : User) (msg : string * string)
      : M Delivery :=
    sendAdvisory (gs_mailer s) c actorID (usr_ID u) (usr_Email u) msg.

Definition IssueInvite (s : GrantService) (c : ctx) (actorID : string) (u : User) : M (string * Delivery) :=
    l ← issue s c (usr_ID u) "invite";
    AuditLog c (audit_entry actorID "passkey.invite_issued" "user" (usr_ID u) EmptyString);;
    d ← deliver s c actorID u (InviteLinkBody l.1 (FormatDuration (gs_linkTTL s)));
    mret (l.1, d).

Definition recipientAfterMint (c : ctx) (userID : string) : M User := UserRepo.GetByID c userID.

  (** The outstanding grants are replaced by a new one. *)
Definition replace_invite (s : GrantService) (c : ctx) (userID : string) : M (string * Z) :=
    AccountRecoveryRepo.DeleteUnusedByUser c userID;;
    issue s c userID "invite".

Definition ReissueInvite (s : GrantService) (c : ctx) (actorID : string) (u : User)
      : M (string * Z * Delivery) :=
    match gs_passkeys s with
    | None => fail ErrWebAuthnUnavailable
    | Some _ =>
        n ← WebAuthnCredentialRepo.CountWebAuthnCredentials c (usr_ID u);
        if IsRegistered u n then fail ErrAlreadyRegistered
        else
          handle ← UserRepo.GetWebAuthnHandle c (usr_ID u);
          l ← replace_invite s c (usr_ID u);
          AuditLog c (audit_entry actorID "passkey.invite_issued" "user" (usr_ID u) EmptyString);;
          cur ← recipientAfterMint c (usr_ID u);
          if usr_Disabled cur then
            mret (l.1, l.2, MkMailDelivery false EmptyString None SuppressUserDisabled)
          else
            let expiresIn := FormatDuration (gs_linkTTL s) in
            let msg := if is_set (default EmptyString handle) then ReRegistrationLinkBody l.1 expiresIn
                       else InviteLinkBody l.1 expiresIn in
            d ← deliver s c actorID cur msg;
            mret (l.1, l.2, d)
    end.

Definition mintRecoveryGrant (s : GrantService) (c : ctx) (actorID userID : string) : M string :=
    l ← issue s c userID "recovery";
    AuditLog c (audit_entry actorID "passkey.recovery_issued" "user" userID EmptyString);;
    mret l.1.

Definition replace_recovery (s : GrantService) (c : ctx) (actorID userID : string) : M string :=
    AccountRecoveryRepo.DeleteUnusedByUser c userID;;
    mintRecoveryGrant s c actorID userID.

Definition IssueRecovery (s : GrantService) (c : ctx) (actorID : string) (u : User) : M (string * Delivery) :=
    match gs_passkeys s with
    | None => fail ErrWebAuthnUnavailable
    | Some _ =>
        WebAuthnCredentialRepo.DeleteAllByUser c (usr_ID u);;
        link ← replace_recovery s c actorID (usr_ID u);
        cur ← recipientAfterMint c (usr_ID u);
        if usr_Disabled cur then mret (link, MkMailDelivery false EmptyString None SuppressUserDisabled)
        else
          d ← deliver s c actorID cur (AdminRecoveryLinkBody link (FormatDuration (gs_linkTTL s)));
          mret (link, d)
    end.

  (** ** Self-service recovery *)

Definition enabledAdmins (c : ctx) : M (list User) :=
    r ← attempt (UserRepo.List c);
    match r with
    | None => log_warn "self-service recovery: list admins failed";; mret []
    | Some users => mret (List.filter IsEnabledAdmin users)
    end.

  (** One bounded send whose failure is audited with the request's address. *)
Definition send_or_audit (s : GrantService) (c : ctx) (to : User) (ip : string) (msg : string * string) : M unit :=
    r ← catch (sendBounded (gs_mailer s) c (usr_Email to) msg.1 msg.2);
    match r with
    | inl _ => mret tt
    | inr _ =>
        recordSendFailure c (MkAuditEntry 0 EmptyString EventEmailSendFailed "user" (usr_ID to) EmptyString
          ip EmptyString 0)
    end.

Definition notifyAdminsOfSelfServiceRecovery (s : GrantService) (c : ctx) (u : User) (admins : list User)
      (ip : string) : M unit :=
    foreach admins (fun a => send_or_audit s c a ip (AdminNotifyBody (usr_Email u) (usr_ID u))).

  (** The goroutine's body; [c] is its own context, with the service's budget.
      Nothing is reported to the requester. *)
Definition doSelfServiceRecovery (s : GrantService) (c : ctx) (targetEmail ip : string) : M unit :=
    if negb (mailer_on (gs_mailer s)) then mret tt
    else
      r ← attempt (UserRepo.GetByEmail c targetEmail);
      match r with
      | None => mret tt
      | Some u =>
          if usr_Disabled u then mret tt
          else
            n ← attempt (WebAuthnCredentialRepo.CountWebAuthnCredentials c (usr_ID u));
            match n with
            | None | Some O => mret tt
            | Some (S _) =>
                l ← attempt (mintRecoveryGrant s c (usr_ID u) (usr_ID u));
                match l with
                | None => log_warn "self-service recovery: issue failed"
                | Some link =>
                    admins ← enabledAdmins c;
                    send_or_audit s c u ip (RecoveryLinkBody link (FormatDuration (gs_linkTTL s)));;
                    notifyAdminsOfSelfServiceRecovery s c u admins ip
                end
            end
      end.

  (** ** Classification and redemption *)

  (** The row found, and why it is not a live grant. *)
Definition lookupGrant (c : ctx) (token : string) : M (option RecoveryToken * option rejectReason) :=
    if str_eq token EmptyString then mret (None, Some rejectMissing)
    else
      r ← catch (AccountRecoveryRepo.Get c (HashToken token));
      match r with
      | inr e => if bool_decide (e = ErrNotFound) then mret (None, Some rejectUnknown) else fail e
      | inl grant =>
          if negb (rt_UsedAt grant =? 0) then mret (Some grant, Some rejectUsed)
          else
            now ← now_unix;
            if rt_ExpiresAt grant <=? now then mret (Some grant, Some rejectExpired)
            else mret (Some grant, None)
      end.

Definition validGrant (c : ctx) (token : string) : M RecoveryToken :=
    r ← lookupGrant c token;
    match r with
    | (Some grant, None) => mret grant
    | _ => log_warn "registration grant rejected";; fail ErrGrantInvalid
    end.

  (** bootstrap.go, [adminExists]: disabled administrators count. *)
Definition adminExists (c : ctx) : M bool :=
    users ← UserRepo.List c;
    mret (existsb (fun u => str_eq (usr_Role u) "admin") users).

  (** Lines 767-777. *)
Definition classify_dead (c : ctx) (token : string) : M RegisterTarget :=
    has ← adminExists c;
    if has : bool then
      (if str_eq token EmptyString then mret tt else log_warn "registration grant rejected");;
      mret (MkRegisterTarget RegisterDead EmptyString EmptyString)
    else mret (MkRegisterTarget RegisterFirstRun EmptyString EmptyString).

Definition ClassifyRegistration (c : ctx) (token : string) : M RegisterTarget :=
    r ← lookupGrant c token;
    match r with
    | (Some grant, None) =>
        u ← catch (UserRepo.GetByID c (rt_UserID grant));
        match u with
        | inl u => mret (MkRegisterTarget RegisterGrant (rt_Reason grant) (usr_Email u))
        | inr e => if bool_decide (e = ErrNotFound) then classify_dead c token else fail e
        end
    | _ => classify_dead c token
    end.

Definition RedeemBegin (s : GrantService) (c : ctx) (token : string) : M (string * string * string) :=
    match gs_passkeys s with
    | None => fail ErrWebAuthnUnavailable
    | Some pk =>
        grant ← validGrant c token;
        r ← BeginRegister pk c (rt_UserID grant);
        mret (rt_UserID grant, r.1, r.2)
    end.

  (** A failure that leaves the grant consumed: an operator must act. *)
Definition critical {A} (m : M A) : M A :=
    r ← catch m;
    match r with inl a => mret a | inr e => log_warn "GRANT CRITICAL";; fail e end.

Definition consume_grant (c : ctx) (token : string) : M unit :=
    now ← now_unix;
    r ← catch (AccountRecoveryRepo.Consume c (HashToken token) now);
    match r with
    | inl _ => mret tt
    | inr e =>
        if bool_decide (e = ErrNotFound) then log_warn "lost_race";; fail ErrGrantInvalid else fail e
    end.

Definition is_recovery (grant : RecoveryToken) : bool := str_eq (rt_Reason grant) "recovery".

  (** From the consumed grant on: lines 849-871. *)
Definition redeem_persist (c : ctx) (grant : RecoveryToken) (handle : option string) (cred : Credential)
      (name : string) : M unit :=
    (if is_recovery grant then
       critical (WebAuthnCredentialRepo.DeleteAllByUser c (rt_UserID grant));; mret tt
     else mret tt);;
    critical (persistCredential c (rt_UserID grant) handle cred name);;
    (if is_recovery grant then
       AuditLog c (audit_entry (rt_UserID grant) "passkey.recovery_redeemed" "user" (rt_UserID grant) EmptyString)
     else mret tt).

Definition RedeemFinish (s : GrantService) (c : ctx) (token sealedCookie : string) (r : HttpRequest) (name : string)
      : M User :=
    match gs_passkeys s with
    | None => fail ErrWebAuthnUnavailable
    | Some pk =>
        grant ← validGrant c token;
        sess ← openSession pk sealedCookie;
        claim_or_reject sess;;
        u ← UserRepo.GetByID c (rt_UserID grant);
        cred ← verifyRegistration (usr_Email u) (sd_UserID sess) sess r;
        consume_grant c token;;
        redeem_persist c grant (sd_UserID sess) cred name;;
        mret u
    end.
End Grants.
