(* ===== verification/Admin.v ===== *)
(** * internal/server/service/admin.go: administration

    [AdminService]: the management of users with its lock-out guards, the one
    administrator's mutation of a device, and the reads across users. *)

From S2P Require Import Prelude GoLib JsonText Schema Integrity Effects StoreUsers StoreDevices StoreTokens Auth.
From S2P Require Import ServiceDevices ServiceTokens NetAddr Feed Email EmailChange Passkeys Grants.

Record UpdateUserParams := MkUpdateUserParams { up_Role : option string; up_Disabled : option bool }.

Definition validRole (r : string) : bool := str_eq r "admin" || str_eq r "user".

Section Admin.
Context `{Crypto} `{WebAuthn Options HttpRequest} (ParseAddress : string -> option (string * string)).

  (** [enabledAdminCount]: the loop's count and flag. *)
Definition count_step (targetID : string) (acc : nat * bool) (u : User) : nat * bool :=
    if IsEnabledAdmin u then (S acc.1, if str_eq (usr_ID u) targetID then true else acc.2) else acc.

Definition enabledAdminCount (c : ctx) (targetID : string) : M (nat * bool) :=
    users ← UserRepo.List c;
    mret (foldl (count_step targetID) (0%nat, false) users).

Definition guardLastAdmin (c : ctx) (targetID : string) : M unit :=
    r ← enabledAdminCount c targetID;
    if r.2 && (r.1 <=? 1)%nat then fail ErrLastAdmin else mret tt.

Definition ListUsers (c : ctx) : M (list User) := UserRepo.List c.

Definition CreateUserInvite (grants : option GrantService) (c : ctx) (actorID email role : string)
      : M (User * string * Delivery) :=
    if negb (validRole role) then fail ErrInvalidRole
    else match NormalizeAddress ParseAddress email with
    | inr _ => fail ErrInvalidEmail
    | inl email =>
        match grants with
        | Some g =>
            if bool_decide (gs_passkeys g = None) then fail ErrWebAuthnUnavailable
            else
              users ← UserRepo.List c;
              now ← now_unix;
              if addressHeld ParseAddress users email EmptyString now then fail ErrConflict
              else
                u ← UserRepo.Create c (MkUser EmptyString email role EmptyString EmptyString false 0 0 EmptyString 0);
                AuditLog c (audit_entry actorID "user.created" "user" (usr_ID u) EmptyString);;
                l ← IssueInvite g c actorID u;
                mret (u, l.1, l.2)
        | None => fail ErrWebAuthnUnavailable
        end
    end.

Definition guardUpdateUser (c : ctx) (actorID targetID : string) (p : UpdateUserParams) : M unit :=
    (match up_Role p with
     | Some role =>
         if negb (validRole role) then fail ErrInvalidRole
         else if negb (str_eq role "admin") then
           if str_eq targetID actorID then fail ErrSelfLockout else guardLastAdmin c targetID
         else mret tt
     | None => mret tt
     end);;
    match up_Disabled p with
    | Some true => if str_eq targetID actorID then fail ErrSelfLockout else guardLastAdmin c targetID
    | _ => mret tt
    end.

Definition applyRole (c : ctx) (actorID targetID : string) (p : UpdateUserParams) : M unit :=
    match up_Role p with
    | None => mret tt
    | Some role =>
        UserRepo.SetRole c targetID role;;
        AuditLog c (audit_entry actorID "user.role_change" "user" targetID EmptyString)
    end.

Definition with_usr_disabled (u : User) (b : bool) : User :=
    MkUser (usr_ID u) (usr_Email u) (usr_Role u) (usr_OIDCProvider u) (usr_OIDCSubject u) b
      (usr_CreatedAt u) (usr_UpdatedAt u) (usr_PendingEmail u) (usr_PendingEmailExpiresAt u).

Definition applyDisabled (n : DeviceNotifier) (c : ctx) (actorID targetID : string) (u : User)
      (p : UpdateUserParams) : M unit :=
    match up_Disabled p with
    | None => mret tt
    | Some disabled =>
        devices ← DeviceRepo.ListByUser c targetID;
        UserRepo.SetDisabled c targetID disabled;;
        (if disabled then
           k ← SessionRepo.DeleteByUser c targetID;
           if Nat.eqb k 0 then mret tt
           else AuditLog c (audit_entry actorID "session.revoked" "user" targetID EmptyString)
         else mret tt);;
        AuditLog c (audit_entry actorID (if disabled then "user.disabled" else "user.enabled")%string "user"
          targetID EmptyString);;
        let after := with_usr_disabled u disabled in
        foreach devices (fun d => emitMembership c n d (inFeed d u) (inFeed d after))
    end.

Definition UpdateUser (n : DeviceNotifier) (c : ctx) (actorID targetID : string) (p : UpdateUserParams)
      : M User :=
    u ← UserRepo.GetByID c targetID;
    guardUpdateUser c actorID targetID p;;
    applyRole c actorID targetID p;;
    applyDisabled n c actorID targetID u p;;
    UserRepo.GetByID c targetID.

Definition DeleteUser (n : DeviceNotifier) (c : ctx) (actorID targetID : string) : M unit :=
    if str_eq targetID actorID then fail ErrSelfLockout
    else
      guardLastAdmin c targetID;;
      u ← UserRepo.GetByID c targetID;
      devices ← DeviceRepo.ListByUser c targetID;
      UserRepo.Delete c targetID;;
      AuditLog c (audit_entry actorID "user.deleted" "user" targetID EmptyString);;
      foreach devices (fun d => emitMembership c n d (inFeed d u) false).

Definition ListAllDevices (c : ctx) : M (list Device) := DeviceRepo.ListAll c.

Definition ListAllDevicesWithExpiry (c : ctx) : M (list Device * gmap string IPHistoryRepo.LatestAddress) :=
    devices ← DeviceRepo.ListAll c;
    latest ← DeviceService.latestAddresses c devices;
    mret (devices, latest).

Definition ListAudit (c : ctx) (f : AuditLogRepo.AuditFilter) (cursor : string) (limit : Z)
      : M AuditLogRepo.AuditPage := AuditLogRepo.ListPaginated c f cursor limit.

Definition GetDevice (c : ctx) (id : string) : M (Device * User) :=
    dev ← DeviceRepo.GetByID c id;
    owner ← map_err (fun e => if bool_decide (e = ErrNotFound) then ErrOwnerMissing else e)
              (UserRepo.GetByID c (dev_UserID dev));
    mret (dev, owner).

Definition notifyOwner (mailer : option Mailer) (c : ctx) (actor : Session) (owner : User) (dev : Device)
      (disabled : bool) : M unit :=
    if negb (mailer_on mailer) then mret tt
    else
      let msg := DeviceStateChangedByAdminBody (dev_Label dev) (dev_ID dev) disabled in
      r ← catch (sendBounded mailer c (usr_Email owner) msg.1 msg.2);
      match r with
      | inl _ => mret tt
      | inr _ =>
          recordSendFailure c (MkAuditEntry 0 (sess_UserID actor) EventEmailSendFailed "user" (usr_ID owner)
            (json_map [("device_id"%string, dev_ID dev)]) (sess_IP actor) EmptyString 0)
      end.

Definition SetDeviceEnabled (n : DeviceNotifier) (mailer : option Mailer) (c : ctx) (actor : Session)
      (id : string) (disabled : bool) : M Device :=
    r ← GetDevice c id;
    let (dev, owner) := (r : Device * User) in
    if eqb (dev_Disabled dev) disabled then mret dev
    else
      let event := if disabled then "device.disabled_by_admin"%string else "device.enabled_by_admin"%string in
      updated ← flipDisabled c n dev owner disabled
        (MkAuditEntry 0 (sess_UserID actor) event "device" id
           (json_map [("owner_user_id"%string, usr_ID owner)]) (sess_IP actor) EmptyString 0);
      notifyOwner mailer c actor owner dev disabled;;
      mret updated.

Definition ListAllDeviceIPs (c : ctx) : M (list addr) :=
    devices ← DeviceRepo.ListFeed c;
    mret (DedupeAddrs (feed_addrs devices)).
End Admin.
