(* ===== verification/SignIn.v ===== *)
(** * internal/server/service: first run, identity providers, sign-out

    [BootstrapService] (bootstrap.go), [OIDCService] (oidc.go) and
    [AuthService] (auth.go).  [json_claim] is the JSON encoding of a claim's
    cookie; [emitToken] is where the first-run token goes. *)

From S2P Require Import Prelude GoLib Schema Integrity Effects StoreUsers StoreDevices StoreTokens Auth.
From S2P Require Import ServiceDevices ServiceTokens Email EmailChange Passkeys Grants.

(** ** bootstrap.go *)

(** The cookie of a claim in progress. *)
Record claimSession := MkClaimSession { cl_Email : string; cl_Session : SessionData }.

Section Bootstrap.
Context `{Crypto} `{WebAuthn Options HttpRequest} (ParseAddress : string -> option (string * string)).
Context (json_claim : claimSession -> option string) (unjson_claim : string -> option claimSession).
Context (emitToken : string -> M unit).

Definition bootstrapClaimAAD : string := "diyddns/bootstrap-claim-v1".

  (** [bsv_passkeys] is nil when WebAuthn is not configured. *)
Record BootstrapService := MkBootstrapService { bsv_passkeys : option PasskeyService; bsv_sealKey : string }.

Definition Startup (c : ctx) : M unit :=
    hasAdmin ← adminExists c;
    if hasAdmin : bool then mret tt
    else
      bs ← attempt (BootstrapRepo.Get c);
      if match bs with
         | Some b => is_set (bs_TokenHash b) && (bs_ConsumedAt b =? 0)
         | None => false
         end
      then mret tt
      else
        token ← RandToken 32;
        BootstrapRepo.SetTokenHash c (HashToken token);;
        emitToken token.

Definition sealClaim (s : BootstrapService) (cs : claimSession) : M string :=
    raw ← marshal_json json_claim cs;
    SealWithAAD (bsv_sealKey s) raw bootstrapClaimAAD.

Definition openClaim (s : BootstrapService) (sealed : string) : M claimSession :=
    r ← catch (OpenWithAAD (bsv_sealKey s) sealed bootstrapClaimAAD);
    match r with
    | inr _ => fail ErrPasskeyVerification
    | inl raw => match unjson_claim raw with Some cs => mret cs | None => fail ErrPasskeyVerification end
    end.

  (** The token stored for the first run is the one presented. *)
Definition check_token (c : ctx) (token : string) : M unit :=
    r ← catch (BootstrapRepo.Get c);
    match r with
    | inr e => fail (if bool_decide (e = ErrNotFound) then ErrBootstrapToken else e)
    | inl bs =>
        if negb (is_set (bs_TokenHash bs)) then fail ErrBootstrapToken
        else if VerifyToken (bs_TokenHash bs) token then mret tt else fail ErrBootstrapToken
    end.

Definition BeginClaim (s : BootstrapService) (c : ctx) (token email : string) : M (string * string) :=
    match bsv_passkeys s with
    | None => fail ErrWebAuthnUnavailable
    | Some _ =>
        ok ← adminExists c;
        if ok : bool then fail ErrBootstrapClosed
        else match NormalizeAddress ParseAddress email with
        | inr _ => fail ErrBootstrapInvalidEmail
        | inl email =>
            check_token c token;;
            handle ← rand_bytes 32;
            r ← beginRegistrationFor email handle;
            sealed ← sealClaim s (MkClaimSession email r.2);
            mret (sealed, r.1)
        end
    end.

Definition consume_bootstrap (c : ctx) : M unit :=
    map_err (fun e => if bool_decide (e = ErrNotFound) then ErrBootstrapClosed else e) (BootstrapRepo.Consume c).

  (** From the verified credential on: lines 300-325. *)
Definition claim_admin (c : ctx) (cs : claimSession) (cred : Credential) (name : string) : M User :=
    consume_bootstrap c;;
    u ← critical (UserRepo.Create c
          (MkUser EmptyString (cl_Email cs) "admin" EmptyString EmptyString false 0 0 EmptyString 0));
    AuditLog c (audit_entry (usr_ID u) "user.created" "user" (usr_ID u) EmptyString);;
    AuditLog c (audit_entry (usr_ID u) "bootstrap.consumed" "user" (usr_ID u) EmptyString);;
    critical (persistCredential c (usr_ID u) (sd_UserID (cl_Session cs)) cred name);;
    mret u.

Definition FinishClaim (s : BootstrapService) (c : ctx) (sealedCookie : string) (r : HttpRequest) (name : string)
      : M User :=
    match bsv_passkeys s with
    | None => fail ErrWebAuthnUnavailable
    | Some _ =>
        ok ← adminExists c;
        if ok : bool then fail ErrBootstrapClosed
        else
          cs ← openClaim s sealedCookie;
          claim_or_reject (cl_Session cs);;
          cred ← verifyRegistration (cl_Email cs) (sd_UserID (cl_Session cs)) (cl_Session cs) r;
          claim_admin c cs cred name
    end.
End Bootstrap.

(** ** oidc.go *)

(** config.go *)
Record OIDCCfg := MkOIDCCfg {
  oc_Enabled : bool; oc_Required : bool; oc_Issuer : string; oc_ClientID : string; oc_ClientSecret : string;
  oc_Scopes : list string; oc_AutoLinkByEmail : bool; oc_AllowOIDCSignup : bool }.

Section OIDC.
Context `{Crypto} (ParseAddress : string -> option (string * string)).
Context (mailer : option Mailer) (cfg : OIDCCfg).

Definition oidc_reject {A} (reason : string) : M A := log_warn reason;; fail ErrOIDCRejected.

Definition linkExisting (c : ctx) (existing : User) (issuer subject canonical : string) (emailVerified : bool)
      : M User :=
    if negb emailVerified || negb (oc_AutoLinkByEmail cfg) then oidc_reject "unverified or auto-link is off"
    else if str_eq (usr_Role existing) "admin" || is_set (usr_OIDCSubject existing) then
      oidc_reject "admin or already-linked account"
    else
      r ← catch (UserRepo.LinkOIDC c existing canonical issuer subject);
      match r with
      | inr e => if bool_decide (e = ErrConflict) then oidc_reject "account changed while linking" else fail e
      | inl _ =>
          AuditLog c (audit_entry (usr_ID existing) "user.oidc.linked" "user" (usr_ID existing) EmptyString);;
          mret (MkUser (usr_ID existing) canonical (usr_Role existing) issuer subject (usr_Disabled existing)
            (usr_CreatedAt existing) (usr_UpdatedAt existing) (usr_PendingEmail existing)
            (usr_PendingEmailExpiresAt existing))
      end.

Definition signup (c : ctx) (issuer subject email : string) : M User :=
    if negb (oc_AllowOIDCSignup cfg) then oidc_reject "signup disabled"
    else
      r ← catch (UserRepo.Create c
            (MkUser EmptyString email "user" issuer subject false 0 0 EmptyString 0));
      match r with
      | inr e => if bool_decide (e = ErrConflict) then oidc_reject "email taken by a concurrent signup" else fail e
      | inl created =>
          AuditLog c (audit_entry (usr_ID created) "user.created" "user" (usr_ID created) EmptyString);;
          mret created
      end.

  (** The stored address is the canonical one, or normalizes to it. *)
Definition normalizes_to (canonical : string) (u : User) : bool :=
    match NormalizeAddress ParseAddress (usr_Email u) with inl stored => str_eq stored canonical | inr _ => false end.

Definition findByEmail (c : ctx) (canonical : string) : M User :=
    r ← catch (UserRepo.GetByEmail c canonical);
    match r with
    | inl u => mret u
    | inr e =>
        if bool_decide (e = ErrNotFound) then
          users ← UserRepo.List c;
          match List.find (normalizes_to canonical) users with
          | Some legacy => mret legacy
          | None => fail ErrNotFound
          end
        else fail e
    end.

Definition normalizeClaim (email : string) : M string :=
    if str_eq email EmptyString then oidc_reject "no email claim"
    else match NormalizeAddress ParseAddress email with
    | inr _ => oidc_reject "email claim is not a valid 7-bit ASCII address"
    | inl normalized => mret normalized
    end.

  (** Nobody is linked to the subject yet: lines 84-99. *)
Definition link_or_signup (c : ctx) (issuer subject email : string) (emailVerified : bool) : M User :=
    email ← normalizeClaim email;
    r ← catch (findByEmail c email);
    match r with
    | inl existing => linkExisting c existing issuer subject email emailVerified
    | inr e => if bool_decide (e = ErrNotFound) then signup c issuer subject email else fail e
    end.

Definition LoginOrLink (c : ctx) (issuer subject email : string) (emailVerified : bool) : M User :=
    r ← catch (UserRepo.GetByOIDC c issuer subject);
    match r with
    | inl u =>
        if usr_Disabled u then oidc_reject "linked user disabled"
        else SyncFromIDP ParseAddress mailer c u email
    | inr e =>
        if bool_decide (e = ErrNotFound) then link_or_signup c issuer subject email emailVerified else fail e
    end.

Definition BrowserLogin (sm : SessionManager) (c : ctx) (issuer subject email : string) (emailVerified : bool)
      (ip ua : string) : M Session :=
    u ← LoginOrLink c issuer subject email emailVerified;
    sess ← SessionCreate c sm (usr_ID u) ip ua;
    AuditLog c (MkAuditEntry 0 (usr_ID u) "user.login.oidc" EmptyString EmptyString EmptyString ip EmptyString 0);;
    mret sess.
End OIDC.

(** ** auth.go *)

Definition Logout (c : ctx) (sess : Session) : M unit :=
  Destroy c (sess_ID sess);;
  AuditLog c (MkAuditEntry 0 (sess_UserID sess) "user.logout" EmptyString EmptyString EmptyString
    (sess_IP sess) EmptyString 0).
