(* ===== verification/AdminFacts.v ===== *)
(** * Administration: nobody locks the administrators out

    The guards of [UpdateUser] and [DeleteUser] keep an enabled administrator
    under every fault; two requests that interleave between guard and write do
    not.  An administrator's mutation of a device is idempotent and announced. *)

From S2P Require Import Prelude GoLib Schema Integrity Effects Demo StoreUsers StoreDevices StoreTokens Auth.
From S2P Require Import ServiceDevices DeviceFacts ServiceFacts ServiceTokens NetAddr Notify Feed Email EmailChange.
From S2P Require Import Passkeys Grants Admin.

(** ** Invariants of one table are kept by the statements on the others *)

(** An invariant of the users alone. *)
Definition of_users (I : list user_row -> Prop) (d : DB) : Prop := I (d_users d).

Ltac pres_other :=
  first [apply pres_query | apply pres_query_row
        | apply pres_stmt; intros ? ?; simpl; repeat case_match; simplify_eq/=; done].

#[export] Hint Extern 2 (preserves (of_users _) (stmt _ _)) => pres_other : effects.
#[export] Hint Extern 2 (preserves (of_users _) (exec_insert _ _)) => pres_other : effects.
#[export] Hint Extern 2 (preserves (of_users _) (exec_insert_auto _ _)) => pres_other : effects.
#[export] Hint Extern 2 (preserves (of_users _) (exec_update _ _ _)) => pres_other : effects.
#[export] Hint Extern 2 (preserves (of_users _) (exec_delete _ _)) => pres_other : effects.

Section OfUsers.
Context (I : list user_row -> Prop).

Lemma AuditLog_users c e : preserves (of_users I) (AuditLog c e).
  Proof. unfold AuditLog, AuditLogRepo.Append. pres. Qed.

Lemma DeleteByUser_users c i : preserves (of_users I) (SessionRepo.DeleteByUser c i).
  Proof. unfold SessionRepo.DeleteByUser. pres. Qed.
End OfUsers.
#[export] Hint Resolve AuditLog_users DeleteByUser_users : effects.

(** What a notifier promises here: it leaves the users alone. *)
Class KeepsUsers (n : DeviceNotifier) : Prop := {
  keeps_added : forall I c d, preserves (of_users I) (DeviceAdded n c d);
  keeps_removed : forall I c d, preserves (of_users I) (DeviceRemoved n c d) }.

#[export] Instance nop_keeps_users : KeepsUsers NopDeviceNotifier.
Proof. split; intros; apply pres_ret. Qed.

Lemma emitMembership_users I c n `{!KeepsUsers n} d b a : preserves (of_users I) (emitMembership c n d b a).
Proof.
  unfold emitMembership. apply pres_bind; [|intros; apply pres_ret]. apply pres_recovering.
  destruct (negb b && a); [apply keeps_added|]. destruct (b && negb a); [apply keeps_removed|apply pres_ret].
Qed.
#[export] Hint Resolve emitMembership_users : effects.

(** ** Enabled administrators *)

Definition enabled_admin (r : user_row) : bool := IsEnabledAdmin (scanUser r).

(** Some enabled administrator is left; the user [a] is one. *)
Definition has_admin (t : list user_row) : Prop := exists r, r ∈ t /\ enabled_admin r = true.
Definition is_admin (a : string) (t : list user_row) : Prop :=
  exists r, r ∈ t /\ ru_id r = a /\ enabled_admin r = true.

(** The statement leaves the enabled administrator [a] as it is. *)
Lemma is_admin_update a p f t :
  (forall r, p r = true -> ru_id r = a -> enabled_admin r = true ->
    ru_id (f r) = a /\ enabled_admin (f r) = true) ->
  is_admin a t -> is_admin a (rows_update p f t).
Proof.
  intros Hf (r & Hr & Hid & Ha). exists (if p r then f r else r). split.
  - apply elem_of_rows_update. by exists r.
  - destruct (p r) eqn:Hp; [by apply Hf|done].
Qed.

Lemma is_admin_delete a p t :
  (forall r, p r = true -> ru_id r <> a) -> is_admin a t -> is_admin a (rows_delete p t).
Proof.
  intros Hp (r & Hr & Hid & Ha). exists r. split; [|done]. apply elem_of_rows_delete. split; [done|].
  destruct (p r) eqn:He; [|done]. by destruct (Hp r He).
Qed.

(** A change that cannot take the role or the flag away. *)
Definition harmless (p : UpdateUserParams) : Prop :=
  (forall r, up_Role p = Some r -> r = "admin"%string) /\ up_Disabled p <> Some true.

Lemma SetRole_admin a c id role :
  (id <> a \/ role = "admin"%string) -> preserves (of_users (is_admin a)) (UserRepo.SetRole c id role).
Proof.
  intros Hor. unfold UserRepo.SetRole. apply pres_bind; [apply pres_now|intros now].
  apply pres_bind; [|intros; apply pres_requireMatched]. apply pres_stmt. intros d Hd. unfold of_users in *.
  destruct (update_violation _ _ d); [done|]. simpl. apply is_admin_update; [|done].
  intros r He%str_eq_true Hid Ha. simpl. split; [done|]. destruct Hor as [Hne| ->]; [congruence|].
  unfold enabled_admin, IsEnabledAdmin, scanUser in *. simpl in *.
  by apply andb_true_iff in Ha as [_ ->].
Qed.

Lemma SetDisabled_admin a c id b :
  (id <> a \/ b = false) -> preserves (of_users (is_admin a)) (UserRepo.SetDisabled c id b).
Proof.
  intros Hor. unfold UserRepo.SetDisabled. apply pres_bind; [apply pres_now|intros now].
  apply pres_bind; [|intros; apply pres_requireMatched]. apply pres_stmt. intros d Hd. unfold of_users in *.
  simpl. apply is_admin_update; [|done].
  intros r He%str_eq_true Hid Ha. simpl. split; [done|]. destruct Hor as [Hne| ->]; [congruence|].
  unfold enabled_admin, IsEnabledAdmin, scanUser in *. simpl in *.
  apply andb_true_iff in Ha as [-> _]. done.
Qed.

Lemma Delete_admin a c id : id <> a -> preserves (of_users (is_admin a)) (UserRepo.Delete c id).
Proof.
  intros Hne. unfold UserRepo.Delete. apply pres_bind; [|intros; apply pres_requireMatched].
  apply pres_stmt. intros d Hd. unfold of_users in *. simpl. apply is_admin_delete; [|done].
  intros r He%str_eq_true. congruence.
Qed.

(** Writes after the guards: every administrator but a harmed target stays. *)
Section Writes.
Context (n : DeviceNotifier) `{!KeepsUsers n} (a : string).

Lemma applyRole_admin c actor t p :
    (t <> a \/ harmless p) -> preserves (of_users (is_admin a)) (applyRole c actor t p).
  Proof.
    intros Hor. unfold applyRole. destruct (up_Role p) as [role|] eqn:Hr; [|apply pres_ret].
    apply pres_bind; [|intros; apply AuditLog_users]. apply SetRole_admin.
    destruct Hor as [?|[Hh _]]; [by left|]. right. by apply Hh.
  Qed.

Lemma applyDisabled_admin c actor t u p :
    (t <> a \/ harmless p) -> preserves (of_users (is_admin a)) (applyDisabled n c actor t u p).
  Proof.
    intros Hor. unfold applyDisabled, DeviceRepo.ListByUser.
    destruct (up_Disabled p) as [b|] eqn:Hb; [|apply pres_ret].
    apply pres_bind; [apply pres_query|intros devices]. apply pres_bind; [|intros; pres].
    apply SetDisabled_admin. destruct Hor as [?|[_ Hh]]; [by left|]. right. destruct b; congruence.
  Qed.

Lemma update_writes_admin c actor t u p :
    (t <> a \/ harmless p) -> preserves (of_users (is_admin a))
      (applyRole c actor t p;; applyDisabled n c actor t u p;; UserRepo.GetByID c t).
  Proof.
    intros Hor. apply pres_bind; [by apply applyRole_admin|intros _].
    apply pres_bind; [by apply applyDisabled_admin|intros _]. apply pres_get_one.
  Qed.
End Writes.

(** ** The guard *)

Lemma count_step_fold t us k b :
  foldl (count_step t) (k, b) us =
    ((k + length (List.filter IsEnabledAdmin us))%nat,
     b || existsb (fun u => IsEnabledAdmin u && str_eq (usr_ID u) t) us).
Proof.
  revert k b. induction us as [|u us IH]; intros k b; simpl; [by rewrite Nat.add_0_r, orb_false_r|].
  unfold count_step at 2. destruct (IsEnabledAdmin u); simpl; rewrite IH; [|done]. f_equal; [lia|].
  by destruct (str_eq (usr_ID u) t), b.
Qed.

Lemma filter_scan_users t :
  List.filter IsEnabledAdmin (scanUser <$> t) = scanUser <$> List.filter enabled_admin t.
Proof.
  unfold enabled_admin. induction t as [|r t IH]; [done|]. rewrite fmap_cons.
  cbn [List.filter]. rewrite IH. by destruct (IsEnabledAdmin (scanUser r)).
Qed.

(** Two rows of a keyed table cannot both have the same key. *)
Lemma two_admins_survivor (l : list user_row) t :
  NoDup (ru_id <$> l) -> (2 <= length l)%nat -> exists r, r ∈ l /\ ru_id r <> t.
Proof.
  intros Hnd Hl. destruct l as [|r1 [|r2 l]]; simpl in Hl; [lia|lia|].
  destruct (decide (ru_id r1 = t)) as [He|Hne]; [|exists r1; split; [left|done]].
  exists r2. split; [right; left|]. intros He2. cbn in Hnd. apply NoDup_cons in Hnd as [Hni _].
  apply Hni. rewrite He, <- He2. left.
Qed.

Definition survivor (t : string) (users : list user_row) : Prop :=
  has_admin users -> exists a, a <> t /\ is_admin a users.

Lemma guard_survivor t users us :
  NoDup (ru_id <$> users) -> us ≡ₚ users ->
  let r := foldl (count_step t) (0%nat, false) (scanUser <$> us) in
  r.2 && (r.1 <=? 1)%nat = false -> survivor t users.
Proof.
  intros Hnd Hp r Hg (adm & Hin & Ha). subst r. rewrite count_step_fold in Hg. simpl in Hg.
  rewrite filter_scan_users, length_fmap in Hg. apply andb_false_iff in Hg as [Hg|Hg%Nat.leb_gt].
  - exists (ru_id adm). split; [|by exists adm]. intros He. rewrite <- not_true_iff_false in Hg. apply Hg.
    apply existsb_exists. exists (scanUser adm). split.
    + apply list_elem_of_In, list_elem_of_fmap. exists adm. split; [done|]. by rewrite Hp.
    + unfold enabled_admin in Ha. rewrite Ha. simpl. by rewrite He, str_eq_refl.
  - rewrite (Permutation_length (bfilter_perm enabled_admin _ _ Hp)) in Hg.
    destruct (two_admins_survivor (List.filter enabled_admin users) t) as (r & Hr & Hne); [|lia|].
    { by apply NoDup_fmap_bfilter. }
    apply elem_of_bfilter in Hr as [Hr Hra]. exists (ru_id r). split; [done|]. by exists r.
Qed.

Lemma wp_guardLastAdmin c t (Q : result unit -> World -> Prop) w :
  wf_db (w_db w) ->
  (forall e w', w_db w' = w_db w -> Q (Err e) w') ->
  (forall w', w_db w' = w_db w -> survivor t (d_users (w_db w)) -> Q (Ok tt) w') ->
  wp (guardLastAdmin c t) Q w.
Proof.
  intros Hwf He Ho. unfold guardLastAdmin, enabledAdminCount, UserRepo.List. wp_step. wp_step.
  wp_step; [by apply He|]. wp_step. destruct (_ && _) eqn:Hg; wp_step; [by apply He|].
  apply Ho; [done|]. eapply guard_survivor; [|apply order_by_perm|exact Hg].
  apply (uniq_NoDup ru_id); [left|apply (wf_uniq _ _ _ (wf_users _ Hwf))].
Qed.

Lemma wp_guardUpdateUser c actor t p (Q : result unit -> World -> Prop) w :
  wf_db (w_db w) ->
  (forall e w', w_db w' = w_db w -> Q (Err e) w') ->
  (forall w', w_db w' = w_db w -> harmless p \/ (t <> actor /\ survivor t (d_users (w_db w))) -> Q (Ok tt) w') ->
  wp (guardUpdateUser c actor t p) Q w.
Proof.
  intros Hwf He Ho. unfold guardUpdateUser.
  (* one guarded change, and what it establishes *)
  assert (Hg : forall (P : result unit -> World -> Prop) w1, w_db w1 = w_db w ->
    (forall e w', w_db w' = w_db w -> P (Err e) w') ->
    (forall w', w_db w' = w_db w -> t <> actor -> survivor t (d_users (w_db w)) -> P (Ok tt) w') ->
    wp (if str_eq t actor then fail ErrSelfLockout else guardLastAdmin c t) P w1).
  { intros P w1 Hd HPe HPo. destruct (str_eq t actor) eqn:Hs; [wp_step; by apply HPe|].
    assert (t <> actor) by (intros ->; by rewrite str_eq_refl in Hs).
    apply wp_guardLastAdmin; rewrite Hd; [done|intros; by apply HPe|intros; by apply HPo]. }
  assert (Hsecond : forall w1, w_db w1 = w_db w ->
    ((forall r, up_Role p = Some r -> r = "admin"%string) \/ (t <> actor /\ survivor t (d_users (w_db w)))) ->
    wp (match up_Disabled p with
        | Some true => if str_eq t actor then fail ErrSelfLockout else guardLastAdmin c t
        | _ => mret tt
        end) Q w1).
  { intros w1 Hd Hor. destruct (up_Disabled p) as [[]|] eqn:Hdis.
    - apply Hg; [done|done|]. intros w' Hd' Hne Hs. apply Ho; [done|by right].
    - wp_step. apply Ho; [done|]. destruct Hor as [?|?]; [left|by right]. split; [done|by rewrite Hdis].
    - wp_step. apply Ho; [done|]. destruct Hor as [?|?]; [left|by right]. split; [done|by rewrite Hdis]. }
  wp_step. destruct (up_Role p) as [role|] eqn:Hrole; [|wp_step; by apply Hsecond; [|left]].
  destruct (negb (validRole role)); [wp_step; by apply He|].
  destruct (str_eq role "admin") eqn:Hadm; simpl.
  - wp_step. apply Hsecond; [done|left]. intros r [= <-]. by apply str_eq_true.
  - apply Hg; [done|done|]. intros w' Hd Hne Hs. apply Hsecond; [done|by right].
Qed.

(** The administrators after a request of [actor], given those before it. *)
Definition admins_safe (actor : string) (before after : list user_row) : Prop :=
  (has_admin before -> has_admin after) /\ (is_admin actor before -> is_admin actor after).

Lemma is_admin_has a t : is_admin a t -> has_admin t.
Proof. intros (r & ? & _ & ?). by exists r. Qed.

Lemma has_is_admin t : has_admin t -> exists a, is_admin a t.
Proof. intros (r & ? & ?). by exists (ru_id r), r. Qed.

(** Writes that keep every administrator other than [t]. *)
Lemma survivors_safe {A} (m : M A) actor t w :
  (forall a, t <> a -> preserves (of_users (is_admin a)) m) ->
  t <> actor -> survivor t (d_users (w_db w)) -> admins_safe actor (d_users (w_db w)) (d_users (w_db (m w).2)).
Proof.
  intros Hm Hne Hs. split; [|intros Ha; by apply (Hm actor)].
  intros (a & Hna & Ha)%Hs. apply (is_admin_has a). by apply (Hm a).
Qed.

(** C20: administrators are never locked out: whatever its arguments and however
    it ends, an UpdateUser or DeleteUser that is not interrupted leaves an
    enabled administrator if there was one, and leaves the administrator who
    asks for it an enabled administrator. *)
Theorem admins_kept (n : DeviceNotifier) `{!KeepsUsers n} c actor t p w (Hwf : wf_db (w_db w)) :
  wp (UpdateUser n c actor t p)
    (fun _ w' => admins_safe actor (d_users (w_db w)) (d_users (w_db w'))) w /\
  wp (DeleteUser n c actor t)
    (fun _ w' => admins_safe actor (d_users (w_db w)) (d_users (w_db w'))) w.
Proof.
  assert (Hsame : forall w', w_db w' = w_db w -> admins_safe actor (d_users (w_db w)) (d_users (w_db w')))
    by (by intros w' ->).
  split.
  - unfold UpdateUser, UserRepo.GetByID at 1. wp_step. apply wp_get_one; [by apply Hsame|intros; by apply Hsame|].
    intros r Hr. wp_step. apply wp_guardUpdateUser; [done|intros e w' Hd; by apply Hsame|].
    intros w1 Hd [Hh|[Hne Hs]]; unfold wp; simpl in Hd; rewrite <- Hd.
    + split.
      * intros (a & Ha)%has_is_admin. apply (is_admin_has a). eapply (update_writes_admin n a); [by right|done].
      * intros Ha. eapply (update_writes_admin n actor); [by right|done].
    + apply survivors_safe with t; [|done|by rewrite Hd]. intros a Hna. apply (update_writes_admin n a). by left.
  - unfold DeleteUser. destruct (str_eq t actor) eqn:Hta; [wp_step; by apply Hsame|].
    wp_step. apply wp_guardLastAdmin; [done|intros e w' Hd; by apply Hsame|]. intros w1 Hd Hs.
    unfold wp. rewrite <- Hd. apply survivors_safe with t; [|intros ->; by rewrite str_eq_refl in Hta|by rewrite Hd].
    intros a Hna. unfold UserRepo.GetByID, DeviceRepo.ListByUser.
    apply pres_bind; [apply pres_get_one|intros u]. apply pres_bind; [apply pres_query|intros ds].
    apply pres_bind; [by apply Delete_admin|intros _]. pres.
Qed.

Definition demote : UpdateUserParams := MkUpdateUserParams (Some "user"%string) None.

(** A second administrator. *)
Definition two_admins_db : DB :=
  setd_users [demo_user; UserRow "u2" "b@example.org" "admin" None None 0 11 11 None None None None] demo_db.
Definition two_admins_world : World := MkWorld demo_env 0 two_admins_db empty_mem.

Lemma two_admins_wf : wf_db two_admins_db.
Proof. split; apply rows_okb_wf; vm_compute; reflexivity. Qed.

Lemma admins_kept_witness :
  let w' := (UpdateUser NopDeviceNotifier background "u1" "u2" demote two_admins_world).2 in
  (List.filter enabled_admin (d_users (w_db w')) = [demo_user]) /\ has_admin (d_users (w_db w')).
Proof.
  split; [vm_compute; reflexivity|].
  refine (proj1 (proj1 (admins_kept NopDeviceNotifier background "u1" "u2" demote two_admins_world two_admins_wf)) _).
  exists demo_user. split; [left|reflexivity].
Defined.

(** ** Two administrators at once

    Each of two administrators demotes the other; the guards of both requests
    run before the write of either. *)
Definition race_guard1 : result unit * World := guardUpdateUser background "u1" "u2" demote two_admins_world.
Definition race_guard2 : result unit * World := guardUpdateUser background "u2" "u1" demote race_guard1.2.
Definition race_write1 : result unit * World := applyRole background "u1" "u2" demote race_guard2.2.
Definition race_write2 : result unit * World := applyRole background "u2" "u1" demote race_write1.2.

(** The guard is not atomic with the write: when two administrators demote
    each other at once, both guards pass, both writes succeed, and no enabled
    administrator is left. *)
Theorem admins_race_locks_out :
  (race_guard1.1, race_guard2.1, race_write1.1, race_write2.1) = (Ok tt, Ok tt, Ok tt, Ok tt) /\
  List.filter enabled_admin (d_users (w_db two_admins_world)) = d_users (w_db two_admins_world) /\
  List.filter enabled_admin (d_users (w_db race_write2.2)) = [].
Proof. vm_compute. by repeat split. Qed.

(** ** The administrator's mutation of a device *)

Lemma wp_GetDevice c id (Q : result (Device * User) -> World -> Prop) w :
  wf_db (w_db w) ->
  (forall e w', e <> ErrOwnerMissing -> w_db w' = w_db w -> Q (Err e) w') ->
  (forall row owner w', row ∈ d_devices (w_db w) -> rd_id row = id -> owner ∈ d_users (w_db w) ->
     ru_id owner = rd_user_id row -> w_db w' = w_db w -> w_mem w' = w_mem w ->
     Q (Ok (scanDevice row, scanUser owner)) w') ->
  wp (GetDevice c id) Q w.
Proof.
  intros Hwf He HQ. unfold GetDevice, DeviceRepo.GetByID, UserRepo.GetByID.
  wp_step. apply wp_get_one; [by apply He|intros; by apply He|]. intros row [Hin Hid]%find_device_in.
  wp_step. wp_step. apply wp_get_one.
  - by apply He.
  - intros Hnone. exfalso.
    destruct (parent_user (w_db w) (rd_user_id row)) as (u & Hu & Huid).
    { apply (fk_holds (d_devices (w_db w)) _ None row); [apply (Integrity.wf_devices _ Hwf)|done|left]. }
    rewrite find_none_iff in Hnone. specialize (Hnone u Hu). simpl in Hnone.
    by rewrite Huid, str_eq_refl in Hnone.
  - intros owner [Hou Hoid]%find_user_in. wp_step. by apply HQ.
Qed.

Lemma wp_notifyOwner m `{!QuietMail m} c actor owner dev b (Q : result unit -> World -> Prop) w :
  (mailer_on m = false -> Q (Ok tt) w) ->
  (forall w' rows seq, mailer_on m = true -> w_db w' = setd_audit_seq seq (setd_audit rows (w_db w)) ->
    Q (Ok tt) w') ->
  wp (notifyOwner m c actor owner dev b) Q w.
Proof.
  intros H1 H2. unfold notifyOwner. destruct (mailer_on m) eqn:Hon; simpl; [|wp_step; auto].
  wp_step. wp_step. unfold sendBounded, mailer_on in *. destruct m as [mm|] eqn:Hm; [|done].
  pose proof (quiet_mail mm eq_refl) as Hq. apply wp_intro. intros r w1 Hr.
  match type of Hr with Send _ ?cc ?to ?s ?bb _ = _ =>
    pose proof (send_db (m:=mm) cc to s bb w) as Hd; pose proof (send_ends (m:=mm) cc to s bb w) as Hp end.
  rewrite Hr in Hd, Hp. simpl in *. destruct r as [[]|e|]; [| |done].
  - wp_step. apply (H2 w1 (d_audit (w_db w)) (d_audit_seq (w_db w))); [done|by rewrite setd_audit_id].
  - unfold recordSendFailure. apply wp_AuditLog. intros w2 (_ & rows & seq & Hd2).
    eapply H2; [done|]. by rewrite Hd2, Hd.
Qed.

(** An administrator's enable or disable of a device is idempotent and
    announced: on a device already in the requested state it writes nothing,
    audits nothing and mails nobody; otherwise exactly the flag of that device
    changes, the feed hears of it exactly when the membership flips, and, the
    references of the database being intact, a device is never found without
    its owner. *)
Theorem SetDeviceEnabled_spec m `{!QuietMail m} c actor id b w (Hwf : wf_db (w_db w)) :
  wp (SetDeviceEnabled probe m c actor id b) (fun r w' => match r with
    | Ok d => exists row owner, row ∈ d_devices (w_db w) /\ rd_id row = id /\
        owner ∈ d_users (w_db w) /\ ru_id owner = rd_user_id row /\
        d_users (w_db w') = d_users (w_db w) /\
        if eqb (intToBool (rd_disabled row)) b then
          d = scanDevice row /\ w_db w' = w_db w /\ w_mem w' = w_mem w
        else exists now,
          d_devices (w_db w') = rows_update (fun r => str_eq (rd_id r) id) (DeviceRepo.set_disabled b now)
                                  (d_devices (w_db w)) /\
          (mailer_on m = false -> m_out (w_mem w') = m_out (w_mem w) ++ membership_outputs id
            (inFeed (scanDevice row) (scanUser owner))
            (inFeed (with_disabled (scanDevice row) b) (scanUser owner)))
    | Err e => e <> ErrOwnerMissing
    | Panic => False
    end) w.
Proof.
  unfold SetDeviceEnabled. wp_step. apply wp_GetDevice; [done|done|].
  intros row owner w1 Hin Hid Hou Hoid Hd1 Hm1. cbn [dev_Disabled scanDevice].
  destruct (eqb (intToBool (rd_disabled row)) b) eqn:Hsame.
  { wp_step. exists row, owner. rewrite Hsame, Hd1. by split_and!. }
  unfold flipDisabled, DeviceRepo.SetDisabled, DeviceRepo.GetByID.
  wp_step. wp_step. wp_step. wp_step. wp_step. wp_step; [done|].
  apply wp_requireMatched; [done|done|intros _]. wp_step. apply wp_AuditLog. intros w2 [Hm2 (ar & seq & Hd2)].
  wp_step. apply wp_emitMembership. intros w3 Hd3 Hout. apply wp_get_one; [done|done|]. intros final _.
  wp_step.
  set (now := e_clock (w_env w1) (w_n w1)) in *.
  assert (Hdev : d_devices (w_db w3) = rows_update (fun r => str_eq (rd_id r) id)
            (DeviceRepo.set_disabled b now) (d_devices (w_db w))).
  { rewrite Hd3, Hd2. simpl. by rewrite Hd1, Hid. }
  assert (Husr : d_users (w_db w3) = d_users (w_db w)) by (rewrite Hd3, Hd2; simpl; by rewrite Hd1).
  apply (wp_notifyOwner m); [intros Hoff|intros w4 rows sq Hon Hd4]; wp_step; exists row, owner; rewrite Hsame.
  - split_and!; try done. exists now. split; [done|]. intros _. simpl in Hout |- *.
    by rewrite Hout, Hm2; simpl; rewrite Hm1, Hid.
  - rewrite Hd4. split_and!; try done. exists now. split; [done|]. by rewrite Hon.
Qed.

Definition demo_admin_session : Session := MkSession "s1" "u1" "csrf" "198.51.100.7" "ua" 500 500 1500.

Definition demo_disable : M Device :=
  SetDeviceEnabled probe None background demo_admin_session "d2" true.

Lemma SetDeviceEnabled_spec_witness : exists now,
  d_devices (w_db (demo_disable demo_world).2) =
  rows_update (fun r => str_eq (rd_id r) "d2") (DeviceRepo.set_disabled true now) (d_devices demo_db).
Proof.
  pose proof (SetDeviceEnabled_spec None background demo_admin_session "d2" true demo_world
    demo_wf) as H. fold demo_disable in H. unfold wp in H.
  assert (Hr : exists d, (demo_disable demo_world).1 = Ok d) by (vm_compute; by eexists).
  destruct Hr as [d Hr]. rewrite Hr in H. destruct H as (row & owner & Hrow & Hid & _ & _ & _ & H).
  assert (row = demo_device2) as ->.
  { repeat (apply elem_of_cons in Hrow as [->|Hrow]; [try done; discriminate Hid|]). by apply elem_of_nil in Hrow. }
  destruct H as (now & H & _). exists now. exact H.
Defined.
