(* ===== verification/GrantFacts.v ===== *)
(** * What grants and first-run claims guarantee

    Properties of Passkeys, Grants and SignIn: a registration link is redeemed
    at most once and does exactly what its reason says, replacing a link
    leaves one live grant, and the first administrator is claimed once. *)

From S2P Require Import Prelude GoLib Schema Integrity Effects Demo StoreUsers StoreDevices StoreTokens Auth.
From S2P Require Import ServiceDevices ServiceFacts ServiceTokens Email EmailChange Passkeys Grants SignIn.

(** ** Steps that leave the database alone *)

Lemma library_inert {A} (m : M A) : library_call m -> inert m.
Proof. intros Hm w. destruct (Hm w) as (? & ? & ? & ?). by split_and!. Qed.

Section Inert.
Context `{Crypto} `{WL : WebAuthnLaws Options HttpRequest}.

Lemma inert_newGCM k : inert (newGCM k).
  Proof. unfold newGCM. solve_inert. Qed.
#[local] Hint Resolve inert_newGCM : inert.
Lemma inert_OpenWithAAD k s a : inert (OpenWithAAD k s a).
  Proof. unfold OpenWithAAD. solve_inert. Qed.
Lemma inert_RandToken n : inert (RandToken n).
  Proof. unfold RandToken. solve_inert. Qed.
Lemma inert_log_warn e : inert (log_warn e).
  Proof. apply inert_emit. Qed.
#[local] Hint Resolve inert_OpenWithAAD inert_RandToken inert_log_warn : inert.
Lemma inert_marshal {A} (enc : A -> option string) x : inert (marshal_json enc x).
  Proof. unfold marshal_json. solve_inert. Qed.
Lemma inert_openSession s sealed : inert (openSession s sealed).
  Proof. unfold openSession. solve_inert. Qed.
Lemma inert_claim sess : inert (claim_or_reject sess).
  Proof. unfold claim_or_reject, claimChallenge. solve_inert. Qed.
Lemma inert_verifyRegistration e h sess r : inert (verifyRegistration e h sess r).
  Proof.
    unfold verifyRegistration. destruct (newWebauthnUser _ _ _); [|apply inert_fail].
    apply inert_map_err, library_inert, finish_registration_call.
  Qed.
Lemma inert_lookupGrant c t : inert (lookupGrant c t).
  Proof. unfold lookupGrant, AccountRecoveryRepo.Get. solve_inert. Qed.
#[local] Hint Resolve inert_lookupGrant : inert.
Lemma inert_validGrant c t : inert (validGrant c t).
  Proof. unfold validGrant. solve_inert. Qed.
Lemma inert_adminExists c : inert (adminExists c).
  Proof. unfold adminExists, UserRepo.List. solve_inert. Qed.
Lemma inert_openClaim uj s sealed : inert (openClaim uj s sealed).
  Proof. unfold openClaim. solve_inert. Qed.
End Inert.

(** ** A grant is spent once *)

(** No row of the hash can be consumed any more. *)
Definition spent_grant (h : string) (d : DB) : Prop :=
  forall r, r ∈ d_recovery d -> rr_token_hash r = h -> rr_used_at r <> None.

Inductive grant_step (h : string) : World -> World -> Prop :=
  | step_grant_consume c h' now w : grant_step h w (AccountRecoveryRepo.Consume c h' now w).2
  | step_grant_prune c now w : grant_step h w (AccountRecoveryRepo.PruneExpired c now w).2
  | step_grant_replace c u w : grant_step h w (AccountRecoveryRepo.DeleteUnusedByUser c u w).2
  | step_grant_create c t w : rt_TokenHash t <> h -> grant_step h w (AccountRecoveryRepo.Create c t w).2
  | step_grant_delete_user c id w : grant_step h w (UserRepo.Delete c id w).2
  | step_grant_elsewhere w w' : d_recovery (w_db w') = d_recovery (w_db w) -> grant_step h w w'.

Definition mark_used (now : Z) (r : recovery_row) : recovery_row :=
  RecoveryRow (rr_token_hash r) (rr_user_id r) (rr_reason r) (rr_expires_at r) (Some now).

Lemma spent_grant_update h h' now d : spent_grant h d ->
  spent_grant h (setd_recovery (rows_update (AccountRecoveryRepo.live h' now) (mark_used now) (d_recovery d)) d).
Proof.
  intros Hs r (r0 & Hin & ->)%elem_of_rows_update Hr. destruct (AccountRecoveryRepo.live h' now r0); [done|].
  by apply Hs.
Qed.

Lemma spent_grant_delete h p d : spent_grant h d -> spent_grant h (setd_recovery (rows_delete p (d_recovery d)) d).
Proof. intros Hs r [Hin _]%elem_of_rows_delete. by apply Hs. Qed.

Lemma spent_grant_delete_users h p d : spent_grant h d -> spent_grant h (delete_users p d).
Proof.
  intros Hs. unfold delete_users. cbv zeta. intros r Hr.
  change (r ∈ rows_delete (fun r => bool_decide (rr_user_id r ∈ ru_id <$> List.filter p (d_users d)))
    (d_recovery d)) in Hr. apply elem_of_rows_delete in Hr as [Hr _]. by apply Hs.
Qed.

(** The statements on the table of grants. *)
Lemma spent_grant_step h w w' : grant_step h w w' -> spent_grant h (w_db w) -> spent_grant h (w_db w').
Proof.
  intros Hstep Hs. destruct Hstep as [c h' now w|c now w|c u w|c t w Hne|c id w|w w' Heq].
  - revert w Hs. change (preserves (spent_grant h) (AccountRecoveryRepo.Consume c h' now)).
    unfold AccountRecoveryRepo.Consume, AccountRecoveryRepo.Get. pres. apply pres_stmt. intros d Hd.
    by apply (spent_grant_update h h' now).
  - revert w Hs. change (preserves (spent_grant h) (AccountRecoveryRepo.PruneExpired c now)).
    unfold AccountRecoveryRepo.PruneExpired. pres. apply pres_stmt. intros d Hd. by apply (spent_grant_delete h).
  - revert w Hs. change (preserves (spent_grant h) (AccountRecoveryRepo.DeleteUnusedByUser c u)).
    unfold AccountRecoveryRepo.DeleteUnusedByUser. pres. apply pres_stmt. intros d Hd. by apply (spent_grant_delete h).
  - revert w Hs. change (preserves (spent_grant h) (AccountRecoveryRepo.Create c t)).
    unfold AccountRecoveryRepo.Create. pres. apply pres_stmt. intros d Hd.
    destruct (insert_violation _ d); [done|]. intros r [Hr|Hr%list_elem_of_singleton]%elem_of_app; [by apply Hd|].
    subst r. by intros.
  - revert w Hs. change (preserves (spent_grant h) (UserRepo.Delete c id)).
    unfold UserRepo.Delete. pres. apply pres_stmt. intros d Hd. by apply (spent_grant_delete_users h).
  - unfold spent_grant. by rewrite Heq.
Qed.

Lemma find_grant d h r :
  List.find (fun r => str_eq (rr_token_hash r) h) (d_recovery d) = Some r -> r ∈ d_recovery d /\ rr_token_hash r = h.
Proof. intros [Hin Heq%str_eq_true]%find_some_iff. done. Qed.

Section Redeem.
Context `{Crypto} `{WL : WebAuthnLaws Options HttpRequest}.

Lemma wp_validGrant c t (Q : result RecoveryToken -> World -> Prop) w :
    (forall e w', w_db w' = w_db w -> w_env w' = w_env w -> Q (Err e) w') ->
    (forall row w', row ∈ d_recovery (w_db w) -> rr_token_hash row = HashToken t ->
       w_db w' = w_db w -> w_env w' = w_env w -> Q (Ok (scanRecoveryToken row)) w') ->
    wp (validGrant c t) Q w.
  Proof.
    intros He Ho. unfold validGrant, lookupGrant, AccountRecoveryRepo.Get. wp_step.
    destruct (str_eq t EmptyString). { wp_step. wp_step. apply wp_emit. intros m. by apply He. }
    wp_step. wp_step. apply wp_get_one.
    - rewrite bool_decide_eq_false_2 by done. wp_step. by apply He.
    - intros _. rewrite bool_decide_eq_true_2 by done. wp_step. wp_step. apply wp_emit. intros m. by apply He.
    - intros row [Hin Hh]%find_grant. destruct (negb _).
      { wp_step. wp_step. apply wp_emit. intros m. by apply He. }
      wp_step. wp_step. destruct (_ <=? _); wp_step; [wp_step; apply wp_emit; intros m; by apply He|].
      wp_step. by apply Ho.
  Qed.

  (** An attempt to consume: the live row of the hash is marked or none is. *)
Lemma wp_consume_grant c t (Q : result unit -> World -> Prop) w :
    uniq_ok (d_recovery (w_db w)) = true ->
    (forall e w', w_env w' = w_env w ->
       w_db w' = w_db w \/ (exists now, w_db w' = setd_recovery (rows_update
         (AccountRecoveryRepo.live (HashToken t) now) (mark_used now) (d_recovery (w_db w))) (w_db w)) -> Q (Err e) w') ->
    (forall row now w', row ∈ d_recovery (w_db w) -> rr_token_hash row = HashToken t -> rr_used_at row = None ->
       now < rr_expires_at row -> w_env w' = w_env w ->
       w_db w' = setd_recovery (rows_update (AccountRecoveryRepo.live (HashToken t) now) (mark_used now)
         (d_recovery (w_db w))) (w_db w) -> spent_grant (HashToken t) (w_db w') -> Q (Ok tt) w') ->
    wp (consume_grant c t) Q w.
  Proof.
    intros Hu He Ho. unfold consume_grant, AccountRecoveryRepo.Consume, AccountRecoveryRepo.Get.
    wp_step. wp_step. wp_step. wp_step. wp_step. wp_step; [rewrite bool_decide_eq_false_2 by done; wp_step; apply He; [done|by left]|].
    set (now := e_clock _ _). wp_step. wp_step; [rewrite bool_decide_eq_false_2 by done; wp_step; apply He; [done|right; by exists now]|].
    destruct (Nat.eqb_spec (rows_matched (AccountRecoveryRepo.live (HashToken t) now) (rows (w_db (bump w)))) 0)
      as [Hz|Hn].
    { wp_step. rewrite bool_decide_eq_true_2 by done. wp_step. apply wp_emit. intros m. apply He; [done|].
      right. by exists now. }
    apply rows_matched_pos in Hn as (row & Hrow & Hl). pose proof Hl as Hl'. unfold AccountRecoveryRepo.live in Hl'.
    rewrite !andb_true_iff, str_eq_true, bool_decide_eq_true, Z.ltb_lt in Hl'. destruct Hl' as [[Hh Hnu] Hx].
    assert (Hs : spent_grant (HashToken t) (setd_recovery (rows_update (AccountRecoveryRepo.live (HashToken t) now)
        (mark_used now) (d_recovery (w_db w))) (w_db w))).
    { intros x (r0 & Hin & ->)%elem_of_rows_update Hr. assert (r0 = row) as ->; [|by rewrite Hl].
      eapply (key_row rr_token_hash); [exact key_recovery|exact Hu|done|done|].
      destruct (AccountRecoveryRepo.live _ now r0); simpl in Hr; congruence. }
    apply wp_get_one.
    - rewrite bool_decide_eq_false_2 by done. wp_step. apply He; [done|]. right. by exists now.
    - intros _. rewrite bool_decide_eq_true_2 by done. wp_step. apply wp_emit. intros m. apply He; [done|].
      right. by exists now.
    - intros r _. wp_step. by apply (Ho row now).
  Qed.

  (** The columns of an account that a registration leaves alone. *)
Definition account (r : user_row) : string * string * string * Z := (ru_id r, ru_email r, ru_role r, ru_disabled r).

Lemma account_ids (t t' : list user_row) : account <$> t = account <$> t' -> ru_id <$> t = ru_id <$> t'.
  Proof.
    intros He. assert (Hc : forall l : list user_row, ru_id <$> l = (fun a => a.1.1.1) <$> (account <$> l)).
    { intros l. by rewrite <- list_fmap_compose. }
    by rewrite !Hc, He.
  Qed.

  (** What a registered credential adds. *)
Record registered (uid : string) (handle : option string) (name : string) (before after : DB) : Prop := {
    rg_credential : exists row, d_credentials after = d_credentials before ++ [row] /\ rw_user_id row = uid /\
      rw_name row = name;
    rg_handle : forall r, r ∈ d_users after -> ru_id r = uid -> ru_webauthn_handle r = handle;
    rg_accounts : account <$> d_users after = account <$> d_users before;
    rg_recovery : d_recovery after = d_recovery before;
    rg_bootstrap : d_bootstrap after = d_bootstrap before;
    rg_devices : d_devices after = d_devices before }.

Lemma wp_persistCredential c uid handle cred name (Q : result WebAuthnCredential -> World -> Prop) w :
    (forall e w', d_recovery (w_db w') = d_recovery (w_db w) -> d_bootstrap (w_db w') = d_bootstrap (w_db w) ->
       Q (Err e) w') ->
    (forall x w', registered uid handle name (w_db w) (w_db w') -> Q (Ok x) w') ->
    wp (persistCredential c uid handle cred name) Q w.
  Proof.
    intros He Ho. unfold persistCredential, UserRepo.SetWebAuthnHandle, WebAuthnCredentialRepo.Create.
    wp_step. wp_step. wp_step. wp_step; [by apply He|by intros; apply He|].
    apply wp_requireMatched; [by apply He|by intros; apply He|intros _].
    wp_step. unfold marshal_json at 1. destruct (json_credential cred) as [cj|]; wp_step; [|by apply He].
    wp_step. wp_step. wp_step. wp_step. wp_step. wp_step; [by apply He|by intros; apply He|]. wp_step. wp_step.
    apply wp_AuditLog. intros w2 (_ & rows & seq & Hd2). wp_step. apply Ho. rewrite Hd2.
    split; simpl; try done.
    - by eexists.
    - intros r (r0 & Hin & ->)%elem_of_rows_update Hid. destruct (str_eq (ru_id r0) uid) eqn:Hs; [done|].
      by rewrite Hid, str_eq_refl in Hs.
    - by apply rows_update_key.
  Qed.

Definition owned_by (uid : string) (r : credential_row) : bool := str_eq (rw_user_id r) uid.

  (** What redeeming the grant [g] does to the database. *)
Record redeemed (g : recovery_row) (handle : option string) (name : string) (before after : DB) : Prop := {
    rd_recovery : d_recovery after = d_recovery before;
    rd_mine : exists row, rw_name row = name /\ rw_user_id row = rr_user_id g /\
      List.filter (owned_by (rr_user_id g)) (d_credentials after) =
        (if str_eq (rr_reason g) "recovery" then []
         else List.filter (owned_by (rr_user_id g)) (d_credentials before)) ++ [row];
    rd_others : List.filter (fun r => negb (owned_by (rr_user_id g) r)) (d_credentials after) =
      List.filter (fun r => negb (owned_by (rr_user_id g) r)) (d_credentials before);
    rd_handle : forall r, r ∈ d_users after -> ru_id r = rr_user_id g -> ru_webauthn_handle r = handle;
    rd_accounts : account <$> d_users after = account <$> d_users before;
    rd_devices' : d_devices after = d_devices before }.

Lemma redeemed_intro g handle name d d1 d2 :
    d1 = (if str_eq (rr_reason g) "recovery" then
            setd_credentials (rows_delete (owned_by (rr_user_id g)) (d_credentials d)) d else d) ->
    registered (rr_user_id g) handle name d1 d2 -> redeemed g handle name d d2.
  Proof.
    intros -> [(row & Hc & Hu & Hn) Hh Hids Hr _ Hd].
    assert (Hown : owned_by (rr_user_id g) row = true) by (unfold owned_by; by rewrite Hu, str_eq_refl).
    destruct (str_eq (rr_reason g) "recovery") eqn:Hrec; simpl in *.
    - split; try done.
      + exists row. rewrite Hrec. split_and!; try done. rewrite Hc, List.filter_app. simpl. rewrite Hown.
        rewrite (bfilter_none _ (rows_delete _ _)); [done|]. by intros x [_ Hx]%elem_of_rows_delete.
      + rewrite Hc, List.filter_app. simpl. rewrite Hown. simpl. rewrite app_nil_r. unfold rows_delete.
        rewrite bfilter_filter. apply bfilter_ext. intros x _. by destruct (negb _).
    - split; try done.
      + exists row. rewrite Hrec. split_and!; try done. rewrite Hc, List.filter_app. simpl. by rewrite Hown.
      + rewrite Hc, List.filter_app. simpl. rewrite Hown. simpl. by rewrite app_nil_r.
  Qed.

Lemma wp_critical {A} (m : M A) (Q : result A -> World -> Prop) w :
    wp m (fun r w' => match r with
      | Ok a => Q (Ok a) w'
      | Err e => forall w2, w_db w2 = w_db w' -> Q (Err e) w2
      | Panic => Q Panic w'
      end) w -> wp (critical m) Q w.
  Proof.
    intros Hm. unfold critical. wp_step. wp_step. eapply wp_mono; [exact Hm|].
    intros [a|e|] w'; cbv beta iota; [by intros; wp_step| |done]. intros HQ. wp_step. apply wp_emit. intros m'. wp_step. by apply HQ.
  Qed.

Lemma wp_redeem_persist c g handle cred name (Q : result unit -> World -> Prop) w :
    (forall e w', d_recovery (w_db w') = d_recovery (w_db w) -> Q (Err e) w') ->
    (forall w', redeemed g handle name (w_db w) (w_db w') -> Q (Ok tt) w') ->
    wp (redeem_persist c (scanRecoveryToken g) handle cred name) Q w.
  Proof.
    intros He Ho. unfold redeem_persist, WebAuthnCredentialRepo.DeleteAllByUser.
    cbn [rt_UserID rt_Reason scanRecoveryToken].
    assert (Hend : forall w1, d_recovery (w_db w1) = d_recovery (w_db w) ->
      w_db w1 = (if str_eq (rr_reason g) "recovery" then
        setd_credentials (rows_delete (owned_by (rr_user_id g)) (d_credentials (w_db w))) (w_db w) else w_db w) ->
      wp (critical (persistCredential c (rr_user_id g) handle cred name);;
          if is_recovery (scanRecoveryToken g) then
            AuditLog c (audit_entry (rr_user_id g) "passkey.recovery_redeemed" "user" (rr_user_id g) EmptyString)
          else mret tt) Q w1).
    { intros w1 Hr1 Hd1. wp_step. apply wp_critical. apply wp_persistCredential.
      - intros e w' Hr _ w2 Hd2. apply He. by rewrite Hd2, Hr.
      - intros _ w' Hreg. pose proof (redeemed_intro _ _ _ _ _ _ Hd1 Hreg) as Hred.
        destruct (is_recovery _); [|wp_step; by apply Ho]. apply wp_AuditLog. intros w2 (_ & rows & seq & Hd2).
        apply Ho. rewrite Hd2. by destruct Hred. }
    change (is_recovery (scanRecoveryToken g)) with (str_eq (rr_reason g) "recovery") in *.
    destruct (str_eq (rr_reason g) "recovery") eqn:Hrec.
    - wp_step. wp_step. apply wp_critical. wp_step. wp_step; [intros w2 Hd2; apply He; by rewrite Hd2|].
      wp_step; [intros w2 Hd2; apply He; by rewrite Hd2|]. wp_step. apply Hend; [done|]. done.
    - wp_step. wp_step. by apply Hend.
  Qed.
End Redeem.

Lemma mark_or_same h now d :
  uniq_ok (d_recovery d) = true ->
  let d' := setd_recovery (rows_update (AccountRecoveryRepo.live h now) (mark_used now) (d_recovery d)) d in
  d' = d \/ spent_grant h d'.
Proof.
  intros Hu d'. destruct (decide (rows_matched (AccountRecoveryRepo.live h now) (d_recovery d) = 0%nat)) as [Hz|Hn].
  - left. unfold d'. rewrite rows_update_unmatched by done. by destruct d.
  - right. apply rows_matched_pos in Hn as (row & Hrow & Hl). pose proof Hl as Hl'.
    unfold AccountRecoveryRepo.live in Hl'. rewrite !andb_true_iff, str_eq_true in Hl'. destruct Hl' as [[Hh _] _].
    intros x (r0 & Hin & ->)%elem_of_rows_update Hr. assert (r0 = row) as ->; [|by rewrite Hl].
    eapply (key_row rr_token_hash); [exact key_recovery|exact Hu|done|done|].
    destruct (AccountRecoveryRepo.live h now r0); simpl in Hr; congruence.
Qed.

Section Redemption.
Context `{Crypto} `{WL : WebAuthnLaws Options HttpRequest}.

  (** The database with the grant of hash [h] consumed at [now]. *)
Definition consumed (h : string) (now : Z) (d : DB) : DB :=
    setd_recovery (rows_update (AccountRecoveryRepo.live h now) (mark_used now) (d_recovery d)) d.

Definition redemption (token name : string) (w : World) (r : result User) (w' : World) : Prop :=
    match r with
    | Ok u => exists g now handle, g ∈ d_recovery (w_db w) /\ rr_token_hash g = HashToken token /\
        rr_used_at g = None /\ now < rr_expires_at g /\ usr_ID u = rr_user_id g /\
        redeemed g handle name (consumed (HashToken token) now (w_db w)) (w_db w') /\
        spent_grant (HashToken token) (w_db w')
    | Err _ => w_db w' = w_db w \/ spent_grant (HashToken token) (w_db w')
    | Panic => False
    end.

Lemma wp_RedeemFinish (s : GrantService) c token cookie req name w :
    wf_db (w_db w) -> wp (RedeemFinish s c token cookie req name) (redemption token name w) w.
  Proof.
    intros Hwf. pose proof (wf_uniq _ _ _ (wf_recovery _ Hwf)) as Hu.
    unfold RedeemFinish. destruct (gs_passkeys s) as [pk|]; [|wp_step; by left].
    wp_step. apply wp_validGrant; [intros; by left|]. intros g w1 Hin Hh Hd1 _.
    wp_step. apply wp_inert; [apply inert_openSession|intros; left; congruence|]. intros sess w2 _ Hd2 _.
    wp_step. apply wp_inert; [apply inert_claim|intros; left; congruence|]. intros [] w3 _ Hd3 _.
    wp_step. apply wp_inert; [apply inert_get_one|intros; left; congruence|]. intros u w4 Hget Hd4 _.
    wp_step. apply wp_inert; [apply inert_verifyRegistration|intros; left; congruence|]. intros cred w5 _ Hd5 _.
    assert (Hd : w_db w5 = w_db w) by congruence. clear Hd5.
    assert (Hid : usr_ID u = rr_user_id g).
    { assert (Hg : wp (UserRepo.GetByID c (rt_UserID (scanRecoveryToken g)))
        (fun r _ => forall u, r = Ok u -> usr_ID u = rr_user_id g) w3).
      - apply wp_get_one; [done|done|]. intros r [_ Hr]%find_user_in u' [= <-]. exact Hr.
      - by apply (wp_elim _ _ _ _ _ Hg Hget). }
    wp_step. apply wp_consume_grant; rewrite Hd; [done| |].
    - intros e w' _ [?|[now Hd']]; [by left|]. unfold redemption. rewrite Hd'. by apply mark_or_same.
    - intros row now w6 Hrow Hrh Hnu Hx _ Hd6 Hs.
      assert (row = g) as ->.
      { eapply (key_row rr_token_hash); [exact key_recovery|exact Hu|done|done|congruence]. }
      wp_step. apply wp_redeem_persist.
      + intros e w' Hr. right. red. by rewrite Hr.
      + intros w' Hred. wp_step. exists g, now, (sd_UserID sess). split_and!; try done.
        * unfold consumed. by rewrite <- Hd6.
        * red. by rewrite (rd_recovery _ _ _ _ _ Hred).
  Qed.


  (** A grant that can no longer be consumed is not redeemed. *)
Lemma spent_not_redeemed s c token cookie req name w u :
    wf_db (w_db w) -> spent_grant (HashToken token) (w_db w) -> (RedeemFinish s c token cookie req name w).1 <> Ok u.
  Proof.
    intros Hwf Hs Hr. pose proof (wp_RedeemFinish s c token cookie req name w Hwf) as Hw. unfold wp in Hw.
    rewrite Hr in Hw. destruct Hw as (g & now & handle & Hin & Hh & Hnu & _). by apply (Hs g Hin Hh).
  Qed.

  (** A registration link is redeemed at most once: after a successful
      redemption, whatever the program does next with the grants (other
      redemptions, replacements, pruning, new grants, account deletions, in any
      number and order), redeeming the same link does not succeed. *)
Theorem grant_single_use (s : GrantService) c1 c2 token k1 k2 r1 r2 n1 n2 w1 u w1' w2
      (Hwf : wf_db (w_db w1)) (H1 : RedeemFinish s c1 token k1 r1 n1 w1 = (Ok u, w1'))
      (Hsteps : rtc (grant_step (HashToken token)) w1' w2) (Hwf2 : wf_db (w_db w2)) :
    forall u', (RedeemFinish s c2 token k2 r2 n2 w2).1 <> Ok u'.
  Proof.
    intros u'. apply spent_not_redeemed; [done|].
    assert (Hs : spent_grant (HashToken token) (w_db w1')).
    { by destruct (wp_elim _ _ _ _ _ (wp_RedeemFinish s c1 token k1 r1 n1 w1 Hwf) H1)
        as (g & now & handle & _ & _ & _ & _ & _ & _ & Hs). }
    clear H1. induction Hsteps as [x|x y z Hxy _ IH]; [done|]. apply IH; [done|]. by eapply spent_grant_step.
  Qed.
End Redemption.

(** ** A concrete library: it accepts every ceremony *)

Definition toy_webauthn : WebAuthn string string := {|
  json_options := Some;
  json_session := fun s => Some (sd_Challenge s);
  unjson_session := fun c => Some (MkSessionData c (Some c) None EmptyString);
  json_credential := fun c => Some (wac_ID c);
  unjson_credential := fun s => Some (MkCredential s None false EmptyString);
  BeginDiscoverableLogin := mret (EmptyString, MkSessionData "chal" None None EmptyString);
  BeginRegistration := fun u _ => mret (EmptyString, MkSessionData "chal" (Some (wu_handle u)) None EmptyString);
  FinishRegistration := fun _ _ r => mret (MkCredential r None false EmptyString);
  FinishDiscoverableLogin := fun S h _ r s =>
    x ← h s r r; mret (x.1, (fun _ => MkCredential r None false EmptyString) <$> x.2) |}.

#[local] Existing Instance toy_crypto.
#[local] Existing Instance toy_webauthn.

Lemma toy_webauthn_laws : WebAuthnLaws.
Proof.
  split; try by intros.
  intros S h sess r s w. right. unfold FinishDiscoverableLogin. simpl. unfold mbind, M_bind.
  destruct (h s r r w) as [[[s' ou]|e|] w1] eqn:Hh.
  - left. exists r, r, s', ou, ((fun _ => MkCredential r None false EmptyString) <$> ou), w1, w1.
    split_and!; try done. by intros ->.
  - right. left. by exists r, r, e, w1.
  - right. right. by exists r, r, w1.
Qed.
#[local] Existing Instance toy_webauthn_laws.

Definition grant_db : DB :=
  setd_credentials [CredentialRow "old" "u1" "old" "laptop" None 5 None]
    (setd_recovery [RecoveryRow (HashToken "tok") "u1" "recovery" 2000 None] demo_db).
Definition grant_world : World := MkWorld demo_env 0 grant_db empty_mem.
Definition demo_cookie : string := b64_std_encode (repeat_char 12 ++ "chal")%string.
Definition demo_grants : GrantService :=
  MkGrantService (Some (MkPasskeyService demo_key (MkSessionManager 1000 60))) None "https://example.org" (10 ^ 12).

Lemma grant_wf : wf_db grant_db.
Proof. split; apply rows_okb_wf; vm_compute; reflexivity. Qed.

Definition redeem_demo (w : World) : result User * World :=
  RedeemFinish demo_grants background "tok" demo_cookie "key" "phone" w.


Definition pruned_world : World := (AccountRecoveryRepo.PruneExpired background 1500 (redeem_demo grant_world).2).2.

Lemma pruned_wf : wf_db (w_db pruned_world).
Proof. split; apply rows_okb_wf; vm_compute; reflexivity. Qed.

Lemma grant_single_use_witness :
  (exists u, (redeem_demo grant_world).1 = Ok u) /\ forall u', (redeem_demo pruned_world).1 <> Ok u'.
Proof.
  assert (Hr : exists u, (redeem_demo grant_world).1 = Ok u) by (vm_compute; by eexists).
  split; [exact Hr|]. destruct Hr as [u Hr].
  refine (grant_single_use (WL := toy_webauthn_laws) demo_grants background background "tok" demo_cookie demo_cookie
    "key" "key" "phone" "phone" grant_world u (redeem_demo grant_world).2 pruned_world grant_wf (run_eq _ _ Hr) _
    pruned_wf).
  exact (rtc_once _ _ (step_grant_prune _ background 1500 (redeem_demo grant_world).2)).
Defined.
