(* ===== verification/AccountFacts.v ===== *)
(** * What account operations guarantee

    Properties of Grants, SignIn and EmailChange beyond redemption: a
    replacement leaves one live link, the self-service recovery is only for
    accounts that can use it, the first administrator is claimed once, an
    identity provider never takes over an administrator, and an address change
    hands its link to one channel. *)

From S2P Require Import Prelude GoLib Schema Integrity Effects Demo StoreUsers StoreDevices StoreTokens Auth.
From S2P Require Import ServiceDevices ServiceFacts ServiceTokens Email EmailChange Passkeys Grants SignIn GrantFacts.

(** ** Minting *)

(** The unused grants of an account, and those of the others. *)
Definition unused_of (uid : string) (r : recovery_row) : bool :=
  str_eq (rr_user_id r) uid && bool_decide (rr_used_at r = None).

Section Issuing.
Context `{Crypto} `{WL : WebAuthnLaws Options HttpRequest}.

Definition new_grant (s : GrantService) (uid reason token : string) (now : Z) : recovery_row :=
    RecoveryRow (HashToken token) uid reason (now + ttl_seconds s) None.

Lemma wp_issue s c uid reason (Q : result (string * Z) -> World -> Prop) w :
    (forall e w', w_db w' = w_db w -> w_env w' = w_env w -> Q (Err e) w') ->
    (forall token now w', w_env w' = w_env w ->
       w_db w' = setd_recovery (d_recovery (w_db w) ++ [new_grant s uid reason token now]) (w_db w) ->
       Q (Ok (register_link s token, now + ttl_seconds s)) w') ->
    wp (issue s c uid reason) Q w.
  Proof.
    intros He Ho. unfold issue, AccountRecoveryRepo.Create.
    wp_step. apply wp_inert; [apply inert_RandToken|done|]. intros token w1 _ Hd1 He1.
    wp_step. wp_step. wp_step. wp_step.
    wp_step; [apply He; by simpl|intros; apply He; by simpl|]. wp_step. eapply Ho; simpl; [done|]. by rewrite Hd1.
  Qed.

Lemma unused_after uid (g : recovery_row) t :
    rr_user_id g = uid -> rr_used_at g = None ->
    List.filter (unused_of uid) (rows_delete (unused_of uid) t ++ [g]) = [g].
  Proof.
    intros Hu Hn. rewrite List.filter_app, bfilter_none; [|by intros r [_ Hr]%elem_of_rows_delete].
    simpl. unfold unused_of. by rewrite Hu, str_eq_refl, bool_decide_eq_true_2 by done.
  Qed.

Lemma others_after uid (g : recovery_row) t :
    rr_user_id g = uid -> rr_used_at g = None ->
    List.filter (fun r => negb (unused_of uid r)) (rows_delete (unused_of uid) t ++ [g]) =
    List.filter (fun r => negb (unused_of uid r)) t.
  Proof.
    intros Hu Hn. rewrite List.filter_app. simpl. unfold unused_of at 3.
    rewrite Hu, str_eq_refl, bool_decide_eq_true_2 by done. simpl. rewrite app_nil_r. unfold rows_delete.
    rewrite bfilter_filter. apply bfilter_ext. intros r _. by destruct (unused_of uid r).
  Qed.

  (** The account has exactly one unused link, [link]. *)
Record one_link (s : GrantService) (uid reason link : string) (exp : Z) (before after : DB) : Prop := {
    ol_link : exists token now, link = register_link s token /\ exp = now + ttl_seconds s /\
      List.filter (unused_of uid) (d_recovery after) = [new_grant s uid reason token now];
    ol_others : List.filter (fun r => negb (unused_of uid r)) (d_recovery after) =
      List.filter (fun r => negb (unused_of uid r)) (d_recovery before);
    ol_users : d_users after = d_users before;
    ol_credentials : d_credentials after = d_credentials before }.

Lemma wp_replace_invite s c uid (Q : result (string * Z) -> World -> Prop) w :
    (forall e w', d_credentials (w_db w') = d_credentials (w_db w) -> Q (Err e) w') ->
    (forall link exp w', one_link s uid "invite" link exp (w_db w) (w_db w') -> Q (Ok (link, exp)) w') ->
    wp (replace_invite s c uid) Q w.
  Proof.
    intros He Ho. unfold replace_invite, AccountRecoveryRepo.DeleteUnusedByUser.
    wp_step. wp_step. wp_step; [by apply He|]. wp_step; [by apply He|]. apply wp_issue.
    - intros e w' Hd _. apply He. by rewrite Hd.
    - intros token now w' _ Hd. apply Ho. rewrite Hd. split; simpl; try done.
      + exists token, now. split_and!; try done. by apply unused_after.
      + by apply others_after.
  Qed.

Lemma wp_replace_recovery s c actor uid (Q : result string -> World -> Prop) w :
    (forall e w', d_credentials (w_db w') = d_credentials (w_db w) -> Q (Err e) w') ->
    (forall link exp w', one_link s uid "recovery" link exp (w_db w) (w_db w') -> Q (Ok link) w') ->
    wp (replace_recovery s c actor uid) Q w.
  Proof.
    intros He Ho. unfold replace_recovery, mintRecoveryGrant, AccountRecoveryRepo.DeleteUnusedByUser.
    wp_step. wp_step. wp_step; [by apply He|]. wp_step; [by apply He|]. wp_step. apply wp_issue.
    - intros e w' Hd _. apply He. by rewrite Hd.
    - intros token now w' _ Hd. wp_step. apply wp_AuditLog. intros w2 (_ & rows & seq & Hd2). wp_step.
      apply (Ho _ (now + ttl_seconds s)). rewrite Hd2, Hd. split; simpl; try done.
      + exists token, now. split_and!; try done. by apply unused_after.
      + by apply others_after.
  Qed.

Lemma one_link_audit s uid reason link exp d d' rows seq :
    d' = setd_audit_seq seq (setd_audit rows d) -> forall d0, one_link s uid reason link exp d0 d ->
    one_link s uid reason link exp d0 d'.
  Proof. by intros -> d0 []. Qed.

  (** A disabled account is not written to. *)
Definition silent_if_disabled (uid : string) (d : Delivery) (before : DB) : Prop :=
    forall r, r ∈ d_users before -> ru_id r = uid -> intToBool (ru_disabled r) = true -> dl_Attempted d = false.

  (** The user read back is the account's row. *)
Lemma get_user_unique d uid r r' :
    uniq_ok (d_users d) = true -> List.find (fun r => str_eq (ru_id r) uid) (d_users d) = Some r ->
    r' ∈ d_users d -> ru_id r' = uid -> r' = r.
  Proof.
    intros Hwf [Hin Hid]%find_user_in Hin' Hid'.
    eapply (key_row ru_id); [exact key_user|exact Hwf|done|done|congruence].
  Qed.

Lemma wp_deliver_current {B} s c actor uid msg (f : Delivery -> B) (Q : result B -> World -> Prop) w :
    uniq_ok (d_users (w_db w)) = true -> QuietMail (gs_mailer s) ->
    (forall e w', d_credentials (w_db w') = d_credentials (w_db w) -> Q (Err e) w') ->
    (forall d w', silent_if_disabled uid d (w_db w) ->
       w_db w' = w_db w \/ (exists rows seq, w_db w' = setd_audit_seq seq (setd_audit rows (w_db w))) ->
       Q (Ok (f d)) w') ->
    wp (cur ← recipientAfterMint c uid;
        if usr_Disabled cur then mret (f (MkMailDelivery false EmptyString None SuppressUserDisabled))
        else d ← deliver s c actor cur msg; mret (f d)) Q w.
  Proof.
    intros Hwf Hq He Ho. unfold recipientAfterMint, UserRepo.GetByID.
    wp_step. apply wp_get_one; [by apply He|by intros; apply He|]. intros r Hr.
    destruct (usr_Disabled (scanUser r)) eqn:Hdis.
    { wp_step. apply Ho; [by intros r'|by left]. }
    wp_step. unfold deliver.
    assert (Hs : forall d, silent_if_disabled uid d (w_db w)).
    { intros d r' Hr' Hid Hd. rewrite (get_user_unique _ _ _ _ Hwf Hr Hr' Hid) in Hd.
      unfold scanUser in Hdis. simpl in Hdis. congruence. }
    apply (wp_sendAdvisory (gs_mailer s)).
    - intros _. wp_step. apply Ho; [done|by left].
    - intros w' _ Hd _. wp_step. apply Ho; [done|by left].
    - intros e w' rows seq _ Hd _. wp_step. apply Ho; [done|right]. by exists rows, seq.
  Qed.

Lemma one_link_tail s uid reason link exp d0 d d' :
    one_link s uid reason link exp d0 d ->
    d' = d \/ (exists rows seq, d' = setd_audit_seq seq (setd_audit rows d)) ->
    one_link s uid reason link exp d0 d'.
  Proof. intros Hl [->|(rows & seq & ->)]; [done|by eapply one_link_audit]. Qed.

  (** Replacing a link leaves exactly one live link: a successful
      IssueRecovery revokes every passkey of the account and leaves the returned
      link's grant as the account's only unused one; a successful ReissueInvite
      does the same for an account that cannot sign in, and only for such an
      account; the other accounts' passkeys and grants are untouched, and a
      disabled account is not written to. *)
Theorem replacement_spec s c actor u w (Hq : QuietMail (gs_mailer s)) (Hwf : wf_db (w_db w)) :
    wp (IssueRecovery s c actor u) (fun r w' => match r with
      | Ok (link, d) => exists exp, one_link s (usr_ID u) "recovery" link exp
            (setd_credentials (rows_delete (owned_by (usr_ID u)) (d_credentials (w_db w))) (w_db w)) (w_db w') /\
          silent_if_disabled (usr_ID u) d (w_db w)
      | Err _ => List.filter (fun r => negb (owned_by (usr_ID u) r)) (d_credentials (w_db w')) =
          List.filter (fun r => negb (owned_by (usr_ID u) r)) (d_credentials (w_db w))
      | Panic => False
      end) w /\
    wp (ReissueInvite s c actor u) (fun r w' => match r with
      | Ok (link, exp, d) => one_link s (usr_ID u) "invite" link exp (w_db w) (w_db w') /\
          List.filter (owned_by (usr_ID u)) (d_credentials (w_db w)) = [] /\ usr_OIDCSubject u = EmptyString /\
          silent_if_disabled (usr_ID u) d (w_db w)
      | Err _ => d_credentials (w_db w') = d_credentials (w_db w)
      | Panic => False
      end) w.
  Proof.
    pose proof (wf_uniq _ _ _ (wf_users _ Hwf)) as Huu. split.
    - unfold IssueRecovery. destruct (gs_passkeys s); [|by wp_step].
      unfold WebAuthnCredentialRepo.DeleteAllByUser.
      set (d1 := setd_credentials (rows_delete (owned_by (usr_ID u)) (d_credentials (w_db w))) (w_db w)).
      assert (Hdel : forall d', d_credentials d' = d_credentials d1 ->
        List.filter (fun r => negb (owned_by (usr_ID u) r)) (d_credentials d') =
        List.filter (fun r => negb (owned_by (usr_ID u) r)) (d_credentials (w_db w))).
      { intros d' ->. simpl. unfold rows_delete. rewrite bfilter_filter. apply bfilter_ext. intros r _.
        by destruct (negb _). }
      wp_step. wp_step. wp_step; [done|]. wp_step; [by apply Hdel|].
      wp_step. apply wp_replace_recovery; [intros e w' Hd; apply Hdel; by rewrite Hd|].
      intros link exp w2 Hl.
      apply (wp_deliver_current s c actor (usr_ID u)
               (AdminRecoveryLinkBody link (FormatDuration (gs_linkTTL s))) (fun d => (link, d))).
      + by rewrite (ol_users _ _ _ _ _ _ _ Hl).
      + done.
      + intros e w' Hd. apply Hdel. by rewrite Hd, (ol_credentials _ _ _ _ _ _ _ Hl).
      + intros d w' Hs Hd. exists exp. split; [by eapply one_link_tail|]. unfold silent_if_disabled in *.
        by rewrite (ol_users _ _ _ _ _ _ _ Hl) in Hs.
    - unfold ReissueInvite. destruct (gs_passkeys s); [|by wp_step].
      unfold WebAuthnCredentialRepo.CountWebAuthnCredentials, UserRepo.GetWebAuthnHandle.
      wp_step. wp_step; [done|].
      match goal with |- wp (if IsRegistered u ?n then _ else _) _ _ => set (k := n) end.
      destruct (IsRegistered u k) eqn:Hreg; [by wp_step|].
      apply orb_false_iff in Hreg as [Hk%negb_false_iff Ho%negb_false_iff].
      apply Nat.eqb_eq, nil_length_inv in Hk. apply str_eq_true in Ho.
      wp_step. apply wp_inert; [apply inert_get_one|intros e w' Hd _; simpl in Hd; by rewrite Hd|].
      intros handle w1 _ Hd1 _. simpl in Hd1. wp_step. apply wp_replace_invite; [intros e w' Hd; by rewrite Hd, Hd1|].
      intros link exp w2 Hl. rewrite Hd1 in Hl. wp_step. apply wp_AuditLog. intros w3 (_ & rows & seq & Hd3).
      assert (Hl3 : one_link s (usr_ID u) "invite" link exp (w_db w) (w_db w3)).
      { eapply one_link_tail; [exact Hl|right; by exists rows, seq]. }
      cbv zeta. cbn [fst snd].
      apply (wp_deliver_current s c actor (usr_ID u)
        (if is_set (default EmptyString handle) then ReRegistrationLinkBody link (FormatDuration (gs_linkTTL s))
         else InviteLinkBody link (FormatDuration (gs_linkTTL s))) (fun d => (link, exp, d))).
      + by rewrite (ol_users _ _ _ _ _ _ _ Hl3).
      + done.
      + intros e w' Hd. by rewrite Hd, (ol_credentials _ _ _ _ _ _ _ Hl3).
      + intros d w' Hs Hd. split; [by eapply one_link_tail|]. split; [done|]. split; [done|].
        unfold silent_if_disabled in *. by rewrite (ol_users _ _ _ _ _ _ _ Hl3) in Hs.
  Qed.
End Issuing.

(** ** Self-service recovery *)

Section SelfService.
Context `{Crypto} `{WL : WebAuthnLaws Options HttpRequest}.

Definition same_tables (d d' : DB) : Prop :=
    d_recovery d' = d_recovery d /\ d_users d' = d_users d /\ d_credentials d' = d_credentials d.

Lemma wp_send_or_audit s c to ip msg d0 w :
    QuietMail (gs_mailer s) -> mailer_on (gs_mailer s) = true -> same_tables d0 (w_db w) ->
    wp (send_or_audit s c to ip msg) (fun r w' => r = Ok tt /\ same_tables d0 (w_db w')) w.
  Proof.
    intros Hq Hon Hs. unfold send_or_audit, sendBounded, mailer_on in *.
    destruct (gs_mailer s) as [mm|] eqn:Hm; [|done]. pose proof (quiet_mail mm eq_refl) as Hqm.
    wp_step. wp_step. apply wp_intro. intros r w1 Hr.
    match type of Hr with Send _ ?cc ?t ?su ?b _ = _ =>
      pose proof (send_db (m:=mm) cc t su b w) as Hd; pose proof (send_ends (m:=mm) cc t su b w) as Hp end.
    rewrite Hr in Hd, Hp. simpl in *. destruct r as [[]|e|]; [| |done].
    - wp_step. split; [done|by rewrite Hd].
    - unfold recordSendFailure. apply wp_AuditLog. intros w2 (_ & rows & seq & Hd2). split; [done|].
      rewrite Hd2, Hd. exact Hs.
  Qed.

  (** Nothing, or one recovery link for the account that may have it. *)
Definition recovery_outcome (s : GrantService) (email : string) (d d' : DB) : Prop :=
    d_users d' = d_users d /\ d_credentials d' = d_credentials d /\
    (d_recovery d' = d_recovery d \/
     mailer_on (gs_mailer s) = true /\ exists u token now, u ∈ d_users d /\ ru_email u = email /\
       intToBool (ru_disabled u) = false /\ (exists k, k ∈ d_credentials d /\ rw_user_id k = ru_id u) /\
       d_recovery d' = d_recovery d ++ [new_grant s (ru_id u) "recovery" token now]).

Lemma recovery_outcome_refl s email d : recovery_outcome s email d d.
  Proof. by split_and!; try left. Qed.

  (** C19: the self-service recovery reveals nothing and revokes nothing: it
      always ends without an error, never changes an account or a passkey, and
      mints at most one link, a recovery link for the enabled account of that
      address that has a passkey, and only if mail can be sent. *)
Theorem self_service_recovery_spec s c email ip w (Hq : QuietMail (gs_mailer s)) :
    wp (doSelfServiceRecovery s c email ip) (fun r w' => r = Ok tt /\
      recovery_outcome s email (w_db w) (w_db w')) w.
  Proof.
    unfold doSelfServiceRecovery. destruct (mailer_on (gs_mailer s)) eqn:Hon; simpl; [|wp_step; split; [done|apply recovery_outcome_refl]].
    assert (Hnone : forall w', w_db w' = w_db w -> wp (mret tt) (fun r w' => r = Ok tt /\
      recovery_outcome s email (w_db w) (w_db w')) w').
    { intros w' Hd. wp_step. rewrite Hd. split; [done|apply recovery_outcome_refl]. }
    unfold UserRepo.GetByEmail, WebAuthnCredentialRepo.CountWebAuthnCredentials.
    wp_step. wp_step. apply wp_get_one; [by apply Hnone|by intros; apply Hnone|].
    intros r [Hin Hem%str_eq_true]%find_some_iff. simpl.
    destruct (intToBool (ru_disabled r)) eqn:Hdis; [by apply Hnone|].
    wp_step. wp_step. wp_step; [by apply Hnone|].
    match goal with |- wp (match ?n with _ => _ end) _ _ => destruct n eqn:Hk; [by apply Hnone|] end.
    assert (Hcred : exists k, k ∈ d_credentials (w_db w) /\ rw_user_id k = ru_id r).
    { assert (Hn : rows_matched (fun k => str_eq (rw_user_id k) (ru_id r)) (d_credentials (w_db w)) <> 0%nat)
        by (simpl in Hk; rewrite Hk; done).
      apply rows_matched_pos in Hn as (k & Hkin & Hku%str_eq_true). by exists k. }
    wp_step. wp_step. unfold mintRecoveryGrant. wp_step. apply wp_issue.
    { intros e w1 Hd _. apply wp_emit. intros m. split; [done|]. simpl in *. rewrite Hd. apply recovery_outcome_refl. }
    intros token now w1 _ Hd1. wp_step. apply wp_AuditLog. intros w2 (_ & rows & seq & Hd2). wp_step.
    assert (Hs2 : same_tables (w_db w1) (w_db w2)) by (rewrite Hd2; by repeat split).
    unfold enabledAdmins, UserRepo.List.
    assert (Hend : forall admins w3, same_tables (w_db w1) (w_db w3) ->
      wp (send_or_audit s c (scanUser r) ip (RecoveryLinkBody (register_link s token) (FormatDuration (gs_linkTTL s)));;
          notifyAdminsOfSelfServiceRecovery s c (scanUser r) admins ip)
        (fun r w' => r = Ok tt /\ same_tables (w_db w1) (w_db w')) w3).
    { intros admins w3 Hs3. wp_step. eapply wp_mono; [by eapply wp_send_or_audit|]. intros x w4 [-> Hs4].
      apply (wp_foreach_ok (fun w => same_tables (w_db w1) (w_db w))); [|done|done].
      intros a w5 _ Hs5. by apply wp_send_or_audit. }
    assert (Hfin : forall (x : result unit) w', (x = Ok tt /\ same_tables (w_db w1) (w_db w')) -> x = Ok tt /\
      recovery_outcome s email (w_db w) (w_db w')).
    { intros x w' [-> (Hr & Hu & Hc)]. split; [done|]. unfold recovery_outcome.
      rewrite Hr, Hu, Hc, Hd1. simpl. split_and!; try done. right.
      split; [done|]. by exists r, token, now. }
    wp_step. wp_step. wp_step. wp_step.
    - wp_step. apply wp_emit. intros m. wp_step. eapply wp_mono; [by apply Hend|]. apply Hfin.
    - wp_step. eapply wp_mono; [by apply Hend|]. apply Hfin.
  Qed.
End SelfService.

(** ** The first administrator *)

Definition admin_role (r : user_row) : bool := str_eq (ru_role r) "admin".

(** The first-run token can no longer be consumed. *)
Definition claimed (d : DB) : Prop := forall b, b ∈ d_bootstrap d -> rb_id b = 1 -> rb_consumed_at b <> None.

(** A first run is pending: a token is stored and not consumed. *)
Definition pending (d : DB) : Prop :=
  exists b h, b ∈ d_bootstrap d /\ rb_id b = 1 /\ rb_token_hash b = Some h /\ h <> EmptyString /\
    rb_consumed_at b = None.

(** Everything but a new token. *)
Inductive bootstrap_step : World -> World -> Prop :=
  | step_bootstrap_consume c w : bootstrap_step w (BootstrapRepo.Consume c w).2
  | step_bootstrap_elsewhere w w' : d_bootstrap (w_db w') = d_bootstrap (w_db w) -> bootstrap_step w w'.

Lemma claimed_step w w' : bootstrap_step w w' -> claimed (w_db w) -> claimed (w_db w').
Proof.
  intros Hstep Hc. destruct Hstep as [c w|w w' Heq]; [|unfold claimed; by rewrite Heq].
  revert w Hc. change (preserves claimed (BootstrapRepo.Consume c)). unfold BootstrapRepo.Consume.
  apply pres_bind; [apply pres_now|intros now]. apply pres_bind; [|intros; apply pres_requireMatched].
  apply pres_stmt. intros d Hd b (b0 & Hin & ->)%elem_of_rows_update Hid. destruct (_ && _); [done|by apply Hd].
Qed.

Section FirstAdmin.
Context `{Crypto} `{WL : WebAuthnLaws Options HttpRequest} (uj : string -> option claimSession).

Lemma wp_adminExists c (Q : result bool -> World -> Prop) w :
    (forall e w', w_db w' = w_db w -> Q (Err e) w') ->
    (forall b w', w_db w' = w_db w -> b = existsb admin_role (d_users (w_db w)) -> Q (Ok b) w') ->
    wp (adminExists c) Q w.
  Proof.
    intros He Ho. unfold adminExists, UserRepo.List. wp_step. wp_step; [by apply He|]. wp_step. apply Ho; [done|].
    apply eq_true_iff_eq. rewrite !existsb_exists. split.
    - intros (u & Hu%list_elem_of_In & Hr). apply list_elem_of_fmap in Hu as (r & -> & Hin).
      apply elem_of_order_by in Hin. exists r. split; [by apply list_elem_of_In|done].
    - intros (r & Hin%list_elem_of_In & Hr). exists (scanUser r). split; [|done].
      apply list_elem_of_In, list_elem_of_fmap. exists r. split; [done|]. by apply elem_of_order_by.
  Qed.

Lemma no_admin_role t : existsb admin_role t = false -> List.filter admin_role t = [].
  Proof.
    intros Hf. apply bfilter_none. intros r Hr. destruct (admin_role r) eqn:Ha; [|done].
    rewrite <- not_true_iff_false, existsb_exists in Hf. destruct Hf. exists r. by rewrite <- list_elem_of_In.
  Qed.

  (** The one administrator after a claim. *)
Record first_admin (u : User) (name : string) (before after : DB) : Prop := {
    fa_admin : exists r, List.filter admin_role (d_users after) = [r] /\ ru_id r = usr_ID u /\
      ru_email r = usr_Email u /\ ru_disabled r = 0;
    fa_ids : ru_id <$> d_users after = (ru_id <$> d_users before) ++ [usr_ID u];
    fa_credential : exists k, d_credentials after = d_credentials before ++ [k] /\ rw_user_id k = usr_ID u /\
      rw_name k = name }.

Lemma filter_account (p : user_row -> bool) t t' :
    (forall r r', account r = account r' -> p r = p r') -> account <$> t = account <$> t' ->
    account <$> List.filter p t = account <$> List.filter p t'.
  Proof.
    intros Hp. revert t'. induction t as [|r t IH]; intros [|r' t'] He; try done.
    rewrite !fmap_cons in He. injection He as Ha He. cbn [List.filter].
    rewrite (Hp r r') by (unfold account; congruence).
    destruct (p r'); [|by apply IH]. rewrite !fmap_cons. f_equal; [unfold account; congruence|by apply IH].
  Qed.

Lemma wp_claim_admin c cs cred name (Q : result User -> World -> Prop) w :
    existsb admin_role (d_users (w_db w)) = false ->
    (forall e w', d_users (w_db w') = d_users (w_db w) \/ claimed (w_db w') -> Q (Err e) w') ->
    (forall u w', (exists b, b ∈ d_bootstrap (w_db w) /\ rb_id b = 1 /\ rb_consumed_at b = None) ->
       usr_Email u = cl_Email cs -> first_admin u name (w_db w) (w_db w') -> claimed (w_db w') -> Q (Ok u) w') ->
    wp (claim_admin c cs cred name) Q w.
  Proof.
    intros Hno He Ho. unfold claim_admin, consume_bootstrap, BootstrapRepo.Consume.
    wp_step. wp_step. wp_step. wp_step. wp_step. wp_step; [apply He; by left|]. set (now := e_clock _ _).
    apply wp_requireMatched; [by apply He; left|by intros; apply He; left|intros Hm].
    apply rows_matched_pos in Hm as (b & Hb & Hbm). apply andb_true_iff in Hbm as [Hb1%Z.eqb_eq Hbn%bool_decide_eq_true].
    match goal with |- wp _ _ ?x => set (w1 := x) end.
    assert (Hc1 : claimed (w_db w1)).
    { intros x (x0 & Hx & ->)%elem_of_rows_update Hid.
      destruct ((rb_id x0 =? 1) && bool_decide (rb_consumed_at x0 = None)) eqn:Hp; [done|].
      apply andb_false_iff in Hp as [Hp%Z.eqb_neq|Hp%bool_decide_eq_false]; [done|done]. }
    assert (Hcl : forall d, d_bootstrap d = d_bootstrap (w_db w1) -> claimed d) by (intros d Hd; red; by rewrite Hd).
    unfold UserRepo.Create. wp_step. apply wp_critical. cbn [usr_ID]. rewrite str_eq_refl.
    wp_step. wp_step. wp_step. wp_step. wp_step. wp_step.
    wp_step; [intros w2 Hd2; apply He; right; apply Hcl; by rewrite Hd2|
              intros w2 Hd2; apply He; right; apply Hcl; by rewrite Hd2|]. wp_step.
    match goal with |- wp _ _ ?x => set (w2 := x) end. set (id := e_uuid _ _) in *. set (t := e_clock _ (w_n (bump _))) in *.
    wp_step. apply wp_AuditLog. intros w3 (_ & rows3 & seq3 & Hd3).
    wp_step. apply wp_AuditLog. intros w4 (_ & rows4 & seq4 & Hd4).
    wp_step. apply wp_critical. apply wp_persistCredential.
    - intros e w5 _ Hb5 w6 Hd6. apply He. right. apply Hcl. rewrite Hd6, Hb5, Hd4, Hd3. done.
    - intros cr w5 Hreg. wp_step. apply Ho; [by exists b|done| |].
      + destruct Hreg as [Hk _ Ha _ _ _]. rewrite Hd4, Hd3 in Hk, Ha. simpl in Hk, Ha. split.
        * pose proof (filter_account admin_role _ _ ltac:(intros x y; unfold account, admin_role; intros [= _ _ -> _]; done) Ha) as Hf.
          rewrite List.filter_app, (no_admin_role _ Hno) in Hf. cbn in Hf.
          destruct (List.filter admin_role (d_users (w_db w5))) as [|r [|r' l]]; try done.
          exists r. injection Hf as E1 E2 E3 E4. by split_and!.
        * apply account_ids in Ha. by rewrite Ha, fmap_app.
        * destruct Hk as (k & Hk & ? & ?). by exists k.
      + apply Hcl. destruct Hreg as [_ _ _ _ -> _]. by rewrite Hd4, Hd3.
  Qed.

  (** The first administrator is claimed once and completely: a successful
      FinishClaim finds no administrator and an unconsumed first-run token, and
      leaves exactly one administrator, enabled and with exactly the registered
      passkey, and the token consumed; a failure either adds no account or has
      consumed the token. *)
Theorem FinishClaim_spec s c cookie req name w :
    wp (FinishClaim uj s c cookie req name) (fun r w' => match r with
      | Ok u => List.filter admin_role (d_users (w_db w)) = [] /\
          (exists b, b ∈ d_bootstrap (w_db w) /\ rb_id b = 1 /\ rb_consumed_at b = None) /\
          first_admin u name (w_db w) (w_db w') /\ claimed (w_db w')
      | Err _ => d_users (w_db w') = d_users (w_db w) \/ claimed (w_db w')
      | Panic => False
      end) w.
  Proof.
    unfold FinishClaim. destruct (bsv_passkeys s) as [pk|]; [|wp_step; by left].
    wp_step. apply wp_adminExists; [intros e w' Hd; left; by rewrite Hd|]. intros b w1 Hd1 ->.
    destruct (existsb admin_role (d_users (w_db w))) eqn:Hno; [wp_step; left; by rewrite Hd1|].
    wp_step. apply wp_inert; [apply inert_openClaim|intros; left; congruence|]. intros cs w2 _ Hd2 _.
    wp_step. apply wp_inert; [apply inert_claim|intros; left; congruence|]. intros [] w3 _ Hd3 _.
    wp_step. apply wp_inert; [apply inert_verifyRegistration|intros; left; congruence|]. intros cred w4 _ Hd4 _.
    assert (Hd : w_db w4 = w_db w) by congruence.
    apply wp_claim_admin; rewrite Hd; [done|done|]. intros u w' Hb _ Hf Hc.
    split_and!; try done. by apply no_admin_role.
  Qed.
End FirstAdmin.

(** A stored token is unconsumed: what SetTokenHash and Consume maintain. *)
Definition token_open (d : DB) : Prop :=
  forall b, b ∈ d_bootstrap d -> rb_token_hash b <> None -> rb_consumed_at b = None.

Section Startup.
Context `{Crypto} (Hsha : forall t, HashToken t <> EmptyString).
Context (emitToken : string -> M unit) (Hemit : forall t, inert (emitToken t)).

  (** An installation without an administrator can be claimed: after a
      successful Startup there is an administrator or a stored, unconsumed
      first-run token; with an administrator or a token already pending that
      could be read, nothing is written; and the invariant that a stored token
      is unconsumed is kept. *)
Theorem Startup_claimable c w (Hopen : token_open (w_db w)) :
    wp (Startup emitToken c) (fun r w' => token_open (w_db w') /\ match r with
      | Ok _ => (w_db w' = w_db w /\ (List.filter admin_role (d_users (w_db w)) <> [] \/ pending (w_db w))) \/
          (List.filter admin_role (d_users (w_db w)) = [] /\ d_users (w_db w') = d_users (w_db w) /\
           pending (w_db w'))
      | Err _ => d_users (w_db w') = d_users (w_db w)
      | Panic => False
      end) w.
  Proof.
    unfold Startup. wp_step. apply wp_adminExists; [intros e w' Hd; by rewrite Hd|]. intros b w1 Hd1 ->.
    destruct (existsb admin_role (d_users (w_db w))) eqn:Hadm.
    { wp_step. rewrite Hd1. split; [done|]. left. split; [done|]. left. intros Hf.
      apply existsb_exists in Hadm as (r & Hr%list_elem_of_In & Ha).
      assert (Hin : r ∈ List.filter admin_role (d_users (w_db w))) by by apply elem_of_bfilter.
      rewrite Hf in Hin. by apply elem_of_nil in Hin. }
    apply no_admin_role in Hadm.
    assert (Hmint : forall w2, w_db w2 = w_db w -> wp (token ← RandToken 32;
        BootstrapRepo.SetTokenHash c (HashToken token);; emitToken token) (fun r w' => token_open (w_db w') /\
        match r with
        | Ok _ => (w_db w' = w_db w /\ (List.filter admin_role (d_users (w_db w)) <> [] \/ pending (w_db w))) \/
            (List.filter admin_role (d_users (w_db w)) = [] /\ d_users (w_db w') = d_users (w_db w) /\
             pending (w_db w'))
        | Err _ => d_users (w_db w') = d_users (w_db w)
        | Panic => False
        end) w2).
    { intros w2 Hd2. wp_step. apply wp_inert; [apply inert_RandToken|intros e w3 Hd3 _; by rewrite Hd3, Hd2|].
      intros token w3 _ Hd3 _. unfold BootstrapRepo.SetTokenHash. wp_step. wp_step. wp_step.
      wp_step; [simpl; by rewrite Hd3, Hd2|]. rename r into r0, d' into d0. injection H0 as <- <-.
      set (row := BootstrapRow 1 (nullIfEmpty (HashToken token)) _ None).
      assert (Hnew : token_open (BootstrapRepo.replace_row row (w_db w3)) /\ pending (BootstrapRepo.replace_row row (w_db w3))).
      { split.
        - intros x [Hx|Hx%list_elem_of_singleton]%elem_of_app; [|by subst x].
          apply elem_of_rows_delete in Hx as [Hx _]. apply Hopen. by rewrite <- Hd2, <- Hd3.
        - exists row, (HashToken token). split_and!; try done; [|unfold row, nullIfEmpty; by rewrite bool_decide_eq_false_2].
          apply elem_of_app. right. by apply list_elem_of_singleton. }
      assert (Hus : d_users (BootstrapRepo.replace_row row (w_db w3)) = d_users (w_db w)) by (simpl; by rewrite Hd3, Hd2).
      destruct Hnew as [Ho Hp].
      apply wp_inert; [apply Hemit|intros e w4 Hd4 _|intros [] w4 _ Hd4 _]; simpl in Hd4; rewrite Hd4; split; try done.
      right. by split_and!. }
    unfold BootstrapRepo.Get. wp_step. wp_step. apply wp_get_one; [by apply Hmint|by intros; apply Hmint|].
    intros r [Hin Hid%Z.eqb_eq]%find_some_iff. simpl.
    destruct (is_set (scanString (rb_token_hash r)) && (scanInt64 (rb_consumed_at r) =? 0)) eqn:Hp; [|by apply Hmint].
    wp_step. simpl. rewrite Hd1. split; [done|]. left. split; [done|]. right.
    apply andb_true_iff in Hp as [Hs _]. simpl in Hin. rewrite Hd1 in Hin.
    destruct (rb_token_hash r) as [h|] eqn:Hh; [|done]. simpl in Hs. exists r, h. split_and!; try done.
    - intros ->. done.
    - apply Hopen; [done|by rewrite Hh].
  Qed.
End Startup.

(** ** Concrete runs *)

#[local] Existing Instance toy_crypto.
#[local] Existing Instance toy_webauthn.
#[local] Existing Instance toy_webauthn_laws.

Lemma demo_grants_quiet : QuietMail (gs_mailer demo_grants).
Proof. exact quiet_none. Qed.

Definition recovered : result (string * Delivery) * World :=
  IssueRecovery demo_grants background "admin" (scanUser demo_user) grant_world.

(** The account's passkey is revoked, its old link dead, and one link lives. *)
Lemma replacement_spec_witness :
  d_credentials (w_db recovered.2) = [] /\ length (List.filter (unused_of "u1") (d_recovery (w_db recovered.2))) = 1%nat /\
  exists link d, recovered.1 = Ok (link, d) /\ silent_if_disabled "u1" d grant_db.
Proof.
  split_and!; [vm_compute; reflexivity..|].
  assert (Hr : exists x, recovered.1 = Ok x) by (vm_compute; by eexists).
  unfold recovered in *. destruct Hr as [[link d] Hr]. exists link, d. split; [exact Hr|].
  destruct (wp_elim _ _ _ _ _ (proj1 (replacement_spec demo_grants background "admin" (scanUser demo_user)
    grant_world demo_grants_quiet grant_wf)) (run_eq _ _ Hr)) as (exp & _ & Hs). exact Hs.
Defined.

Definition mailing_grants : GrantService :=
  MkGrantService (gs_passkeys demo_grants) (Some delivering) (gs_baseURL demo_grants) (gs_linkTTL demo_grants).

Lemma mailing_grants_quiet : QuietMail (gs_mailer mailing_grants).
Proof. exact (quiet_some delivering). Qed.

Definition recovery_asked : result unit * World :=
  doSelfServiceRecovery mailing_grants background "a@example.org" "192.0.2.7" grant_world.

Lemma self_service_recovery_spec_witness :
  length (d_recovery (w_db recovery_asked.2)) = 2%nat /\ recovery_asked.1 = Ok tt /\
  recovery_outcome mailing_grants "a@example.org" grant_db (w_db recovery_asked.2).
Proof.
  split; [vm_compute; reflexivity|].
  exact (self_service_recovery_spec mailing_grants background "a@example.org" "192.0.2.7"
    grant_world mailing_grants_quiet).
Defined.

(** A fresh installation. *)
Definition fresh_db : DB := setd_bootstrap [BootstrapRow 1 (Some (HashToken "tok")) 5 None]
  empty_db.
Definition first_run_world : World := MkWorld demo_env 0 fresh_db empty_mem.
Definition demo_bootstrap : BootstrapService := MkBootstrapService (gs_passkeys demo_grants) demo_key.
Definition toy_unjson_claim (s : string) : option claimSession :=
  Some (MkClaimSession "root@example.org" (MkSessionData s (Some s) None EmptyString)).

Definition claim_run : result User * World :=
  FinishClaim toy_unjson_claim demo_bootstrap background demo_cookie "key" "phone" first_run_world.

Lemma FinishClaim_spec_witness :
  (ru_email <$> d_users (w_db claim_run.2)) = ["root@example.org"%string] /\ claimed (w_db claim_run.2).
Proof.
  split; [vm_compute; reflexivity|].
  assert (Hr : exists u, claim_run.1 = Ok u) by (vm_compute; by eexists). unfold claim_run in *. destruct Hr as [u Hr].
  destruct (wp_elim _ _ _ _ _ (FinishClaim_spec (WL := toy_webauthn_laws) toy_unjson_claim demo_bootstrap background
    demo_cookie "key" "phone" first_run_world) (run_eq _ _ Hr)) as (_ & _ & _ & Hc). exact Hc.
Defined.

(** A digest is never empty. *)
Definition tagged_crypto : Crypto := {|
  sha256 := fun s => ("h" ++ s)%string;
  hmac_sha256 := fun k m => (k ++ ":" ++ m)%string;
  gcm_seal := fun k n p a => p;
  gcm_open := fun k n ct a => Some ct |}.

Lemma tagged_hash t : @HashToken tagged_crypto t <> EmptyString.
Proof. destruct t as [|? [|? t]]; intros He; discriminate He. Qed.

Lemma no_token : token_open (setd_bootstrap [] fresh_db).
Proof. by intros b ?%elem_of_nil. Qed.

Definition startup_run : result unit * World :=
  @Startup tagged_crypto log_warn background (MkWorld demo_env 0 (setd_bootstrap [] fresh_db) empty_mem).

Lemma Startup_claimable_witness :
  startup_run.1 = Ok tt /\ token_open (w_db startup_run.2) /\ pending (w_db startup_run.2).
Proof.
  assert (Hr : startup_run.1 = Ok tt) by (vm_compute; reflexivity). split; [exact Hr|]. unfold startup_run in *.
  destruct (wp_elim _ _ _ _ _ (@Startup_claimable tagged_crypto tagged_hash log_warn inert_log_warn background
    (MkWorld demo_env 0 (setd_bootstrap [] fresh_db) empty_mem) no_token) (run_eq _ _ Hr)) as [Ho Hc].
  split; [exact Ho|]. destruct Hc as [[_ [Ha|Hp]]|(_ & _ & Hp)]; [by destruct Ha|destruct Hp as (b & h & Hin & _)|exact Hp].
  by apply elem_of_nil in Hin.
Defined.
