(* ===== verification/IdentityFacts.v ===== *)
(** * What sign-in by an identity provider and address changes guarantee

    Properties of SignIn and EmailChange: no claim of an identity provider
    changes who administers the installation or takes an account that is not
    its own, and an address change confirms only what its link was sent for. *)

From S2P Require Import Prelude GoLib Schema Integrity Effects Demo StoreUsers StoreDevices StoreTokens Auth.
From S2P Require Import ServiceDevices ServiceFacts ServiceTokens Email EmailChange Passkeys Grants SignIn.
From S2P Require Import AdminFacts GrantFacts AccountFacts.

(** ** Administrators and identity providers *)

(** Who administers, and which identity may sign in as them. *)
Definition admin_identity (t : list user_row) : list (string * option string * option string) :=
  (fun r => (ru_id r, ru_oidc_provider r, ru_oidc_subject r)) <$> List.filter admin_role t.

Lemma admin_identity_update p f t :
  (forall r, p r = true -> admin_role r = admin_role (f r)) ->
  (forall r, p r = true -> admin_role r = true -> ru_id (f r) = ru_id r /\
     ru_oidc_provider (f r) = ru_oidc_provider r /\ ru_oidc_subject (f r) = ru_oidc_subject r) ->
  admin_identity (rows_update p f t) = admin_identity t.
Proof.
  intros Hr Hf. unfold admin_identity, rows_update. induction t as [|r t IH]; [done|].
  rewrite fmap_cons. cbn [List.filter]. destruct (p r) eqn:Hp; [|destruct (admin_role r); [|done]; by rewrite !fmap_cons, IH].
  rewrite <- Hr by done. destruct (admin_role r) eqn:Ha; [|done]. rewrite !fmap_cons, IH.
  by destruct (Hf r Hp Ha) as (-> & -> & ->).
Qed.

Section Oidc.
Context `{Crypto} (P : string -> option (string * string)).
Context (mailer : option Mailer) `{!QuietMail mailer} (cfg : OIDCCfg).

Definition identity_is (X : list (string * option string * option string)) : DB -> Prop :=
    of_users (fun t => admin_identity t = X).

Lemma SetEmail_identity X c i e n : preserves (identity_is X) (UserRepo.SetEmail c i e n).
  Proof.
    unfold UserRepo.SetEmail. destruct (nullIfEmpty e); [|apply pres_fail]. apply pres_bind; [|intros; apply pres_requireMatched].
    apply pres_map_err, pres_stmt. intros d Hd. destruct (update_violation _ _ d); [done|].
    unfold identity_is, of_users in *. simpl. by rewrite admin_identity_update.
  Qed.

  (** The row matched before is compared again by the statement. *)
Lemma LinkOIDC_identity X c m e p s : usr_Role m <> "admin"%string -> preserves (identity_is X) (UserRepo.LinkOIDC c m e p s).
  Proof.
    intros Hne. unfold UserRepo.LinkOIDC. apply pres_bind; [apply pres_now|intros now].
    apply pres_bind; [|intros; pres]. apply pres_map_err, pres_stmt. intros d Hd.
    destruct (update_violation _ _ d); [done|]. unfold identity_is, of_users in *. simpl.
    rewrite admin_identity_update; [done|done|]. intros r Hp Ha. exfalso.
    rewrite !andb_true_iff, !str_eq_true in Hp. destruct Hp as [[_ Hr] _]. unfold admin_role in Ha.
    apply str_eq_true in Ha. congruence.
  Qed.

Lemma Create_identity X c e i p s : preserves (identity_is X) (UserRepo.Create c (MkUser i e "user" p s false 0 0 EmptyString 0)).
  Proof.
    unfold UserRepo.Create. apply pres_bind; [destruct (str_eq _ _); pres|intros id]. apply pres_bind; [apply pres_now|intros now].
    cbv zeta. apply pres_bind; [|intros; apply pres_ret]. apply pres_map_err, pres_stmt. intros d Hd.
    destruct (insert_violation _ d); [done|]. unfold identity_is, of_users, admin_identity in *. simpl.
    rewrite List.filter_app. simpl. by rewrite app_nil_r.
  Qed.

Lemma DeleteUnused_users X c u : preserves (identity_is X) (AccountRecoveryRepo.DeleteUnusedByUser c u).
  Proof. unfold AccountRecoveryRepo.DeleteUnusedByUser, identity_is. pres. Qed.

Lemma AuditLog_identity X c e : preserves (identity_is X) (AuditLog c e).
  Proof. apply AuditLog_users. Qed.
#[local] Hint Resolve SetEmail_identity Create_identity DeleteUnused_users AuditLog_identity : effects.
#[local] Hint Extern 1 (preserves _ (sendAdvisory _ _ _ _ _ _)) =>
    (apply pres_sendAdvisory; [done|apply AuditLog_identity]) : effects.

Lemma linkExisting_identity X c u i s e v : preserves (identity_is X) (linkExisting cfg c u i s e v).
  Proof.
    unfold linkExisting, oidc_reject, log_warn. destruct (negb v || _); [pres|].
    destruct (str_eq (usr_Role u) "admin" || _) eqn:Hadm; [pres|]. apply orb_false_iff in Hadm as [Hadm _].
    apply pres_bind; [|intros []; pres]. apply pres_catch, LinkOIDC_identity. intros Hr.
    by rewrite Hr, str_eq_refl in Hadm.
  Qed.
#[local] Hint Resolve linkExisting_identity : effects.

Lemma SyncFromIDP_identity X c u e : preserves (identity_is X) (SyncFromIDP P mailer c u e).
  Proof. unfold SyncFromIDP, applyChanged, UserRepo.List, log_warn. pres. Qed.
#[local] Hint Resolve SyncFromIDP_identity : effects.

Lemma LoginOrLink_identity X c i s e v : preserves (identity_is X) (LoginOrLink P mailer cfg c i s e v).
  Proof.
    unfold LoginOrLink, link_or_signup, normalizeClaim, findByEmail, signup, oidc_reject, log_warn,
      UserRepo.GetByOIDC, UserRepo.GetByEmail, UserRepo.List. pres.
  Qed.

  (** Never an error: the account signs in whatever its claim says. *)
Lemma wp_SyncFromIDP c u claim (Q : result User -> World -> Prop) w :
    (forall u' w', usr_ID u' = usr_ID u -> Q (Ok u') w') -> wp (SyncFromIDP P mailer c u claim) Q w.
  Proof.
    intros HQ. unfold SyncFromIDP, log_warn. destruct (str_eq claim EmptyString); [wp_step; by apply HQ|].
    destruct (NormalizeAddress P claim) as [a|]; [|wp_step; by apply HQ].
    destruct (EqualFold a (usr_Email u)); [wp_step; by apply HQ|]. unfold UserRepo.List.
    wp_step. wp_step. wp_step. wp_step. wp_step; [wp_step; apply wp_emit; intros m; wp_step; by apply HQ|].
    destruct (addressHeld _ _ _ _ _); [wp_step; apply wp_emit; intros m; wp_step; by apply HQ|].
    wp_step. wp_step.
    match goal with |- wp (UserRepo.SetEmail ?cc ?i ?e ?n) _ ?ww =>
      set (prog := UserRepo.SetEmail cc i e n); set (w1 := ww) end.
    assert (Hp : (prog w1).1 <> Panic).
    { assert (Hw : wp prog (fun r _ => r <> Panic) w1); [|exact Hw]. unfold prog, UserRepo.SetEmail.
      destruct (nullIfEmpty a); [|by wp_step]. wp_step. wp_step. wp_step; [done|done|]. by apply wp_requireMatched. }
    apply wp_intro. intros r w2 Hr. rewrite Hr in Hp. simpl in Hp. destruct r as [[]|e|]; [| |done].
    - unfold applyChanged, log_warn. wp_step. wp_step.
      assert (Hrest : forall w3, wp (AuditLog c (audit_entry (usr_ID u) "user.email_changed_by_oidc" "user"
          (usr_ID (changedRow u a (e_clock (w_env w) (w_n w))))
          (emailChangeDetails (usr_Email u) (usr_Email (changedRow u a (e_clock (w_env w) (w_n w))))))) (fun r w' =>
        match r with
        | Ok _ => wp (sendAdvisory mailer background (usr_ID u) (usr_ID u) (usr_Email u) (ChangedBody a);;
            mret (changedRow u a (e_clock (w_env w) (w_n w)))) Q w'
        | Err e => Q (Err e) w'
        | Panic => Q Panic w'
        end) w3).
      { intros w3. apply wp_AuditLog. intros w4 _. wp_step. apply (wp_sendAdvisory mailer); intros; wp_step; by apply HQ. }
      unfold AccountRecoveryRepo.DeleteUnusedByUser. wp_step. wp_step. wp_step.
      + wp_step. apply wp_emit. intros m. apply Hrest.
      + wp_step; [wp_step; apply wp_emit; intros m; apply Hrest|]. wp_step. apply Hrest.
    - wp_step. apply wp_emit. intros m. wp_step. by apply HQ.
  Qed.

Definition linked_to (issuer subject : string) (r : user_row) : Prop :=
    ru_oidc_provider r = Some issuer /\ ru_oidc_subject r = Some subject.

  (** The row holds the canonical address, as stored or once normalized. *)
Definition holds_address (canonical : string) (r : user_row) : Prop :=
    ru_email r = canonical \/ NormalizeAddress P (ru_email r) = inl canonical.

  (** Why an account may be signed in by (issuer, subject). *)
Definition may_sign_in (issuer subject email : string) (verified : bool) (u : User) (before after : list user_row)
      : Prop :=
    (exists r, r ∈ before /\ ru_id r = usr_ID u /\ linked_to issuer subject r /\ intToBool (ru_disabled r) = false) \/
    (exists canonical r, NormalizeAddress P email = inl canonical /\ verified = true /\
       oc_AutoLinkByEmail cfg = true /\ r ∈ before /\ ru_id r = usr_ID u /\ admin_role r = false /\
       holds_address canonical r /\ scanString (ru_oidc_subject r) = EmptyString /\
       exists r', r' ∈ after /\ ru_id r' = usr_ID u /\ linked_to issuer subject r') \/
    (exists canonical r, NormalizeAddress P email = inl canonical /\ oc_AllowOIDCSignup cfg = true /\
       (forall r0, r0 ∈ before -> ~ holds_address canonical r0) /\ after = before ++ [r] /\
       ru_id r = usr_ID u /\ ru_role r = "user"%string /\ ru_email r = canonical).

Lemma wp_linkExisting c u issuer subject canonical v (Q : result User -> World -> Prop) w :
    (forall e w', Q (Err e) w') ->
    (forall u' w', v = true -> oc_AutoLinkByEmail cfg = true -> usr_Role u <> "admin"%string ->
       usr_OIDCSubject u = EmptyString -> usr_ID u' = usr_ID u ->
       (exists r', r' ∈ d_users (w_db w') /\ ru_id r' = usr_ID u /\ linked_to issuer subject r') -> Q (Ok u') w') ->
    wp (linkExisting cfg c u issuer subject canonical v) Q w.
  Proof.
    intros He Ho. unfold linkExisting, oidc_reject, log_warn.
    destruct (negb v || _) eqn:Hv; [wp_step; apply wp_emit; intros m; wp_step; apply He|].
    apply orb_false_iff in Hv as [Hv%negb_false_iff Hl%negb_false_iff].
    destruct (str_eq (usr_Role u) "admin" || _) eqn:Ha; [wp_step; apply wp_emit; intros m; wp_step; apply He|].
    apply orb_false_iff in Ha as [Ha Hs%negb_false_iff%str_eq_true].
    assert (Hrole : usr_Role u <> "admin"%string) by (intros Hr; by rewrite Hr, str_eq_refl in Ha).
    assert (Hfail : forall e w', wp (if bool_decide (e = ErrConflict) then emit (OWarn "account changed while linking");;
        fail ErrOIDCRejected else fail e) Q w').
    { intros e w'. destruct (bool_decide _); [wp_step; apply wp_emit; intros m|]; wp_step; apply He. }
    unfold UserRepo.LinkOIDC. wp_step. wp_step. wp_step. wp_step. wp_step. wp_step.
    wp_step; [apply Hfail|intros; apply Hfail|]. wp_step. wp_step; [apply Hfail|].
    match goal with |- context [Nat.eqb ?n 0] => destruct (Nat.eqb_spec n 0) as [_|Hn]; [wp_step; apply Hfail|] end.
    apply rows_matched_pos in Hn as (r & Hr & Hm). wp_step. wp_step. apply wp_AuditLog.
    intros w2 (_ & rows & seq & Hd2). wp_step. apply Ho; try done. rewrite Hd2. simpl.
    eexists. split; [apply elem_of_rows_update; exists r; split; [exact Hr|by rewrite Hm]|]. split; [|done]. simpl.
    rewrite !andb_true_iff, !str_eq_true in Hm. by destruct Hm as [[[? _] _] _].
  Qed.

Lemma wp_findByEmail c canonical (Q : result User -> World -> Prop) w :
    (forall e w', e <> ErrNotFound -> Q (Err e) w') ->
    (forall w', w_db w' = w_db w -> (forall r, r ∈ d_users (w_db w) -> ~ holds_address canonical r) ->
       Q (Err ErrNotFound) w') ->
    (forall r w', w_db w' = w_db w -> r ∈ d_users (w_db w) -> holds_address canonical r -> Q (Ok (scanUser r)) w') ->
    wp (findByEmail P c canonical) Q w.
  Proof.
    intros He Hn Ho. unfold findByEmail, UserRepo.GetByEmail, UserRepo.List. wp_step. wp_step. apply wp_get_one.
    - rewrite bool_decide_eq_false_2 by done. wp_step. by apply He.
    - intros Hnone. rewrite bool_decide_eq_true_2 by done. wp_step. wp_step; [by apply He|].
      rewrite find_none_iff in Hnone. simpl.
      destruct (List.find _ _) as [u|] eqn:Hf; wp_step.
      + apply find_some_iff in Hf as [Hin Hu]. apply list_elem_of_fmap in Hin as (r & -> & Hin).
        apply elem_of_order_by in Hin. apply Ho; [done|done|]. right. unfold normalizes_to in Hu. simpl in Hu.
        destruct (NormalizeAddress P (ru_email r)); [|done]. by apply str_eq_true in Hu as ->.
      + apply Hn; [done|]. intros r Hr [Heq|Heq].
        * specialize (Hnone r Hr). simpl in Hnone. by rewrite Heq, str_eq_refl in Hnone.
        * rewrite find_none_iff in Hf. specialize (Hf (scanUser r)). unfold normalizes_to in Hf. simpl in Hf.
          rewrite Heq, str_eq_refl in Hf. discriminate Hf. apply list_elem_of_fmap. exists r.
          split; [done|]. by apply elem_of_order_by.
    - intros r [Hin Heq%str_eq_true]%find_some_iff. wp_step. apply Ho; [done|done|by left].
  Qed.

  (** The step keeps the administrators, and the identities linked to them, of
      whatever database it finds. *)
Definition keeps_admins {A} (m : M A) : Prop :=
    forall w2, wp m (fun _ w' => admin_identity (d_users (w_db w')) = admin_identity (d_users (w_db w2))) w2.

Lemma keeps_admins_preserves {A} (m : M A) : (forall X, preserves (identity_is X) m) -> keeps_admins m.
  Proof. intros Hm w2. by apply (Hm (admin_identity (d_users (w_db w2)))). Qed.

Lemma signup_identity X c i s e : preserves (identity_is X) (signup cfg c i s e).
  Proof. unfold signup, oidc_reject, log_warn. pres. Qed.

  (** C16: an identity provider signs in only whom it may, and never decides who
      administers: a successful LoginOrLink returns an enabled account already
      linked to the identity, or an unlinked account that is no administrator
      and holds the verified address (auto-link on), or a new plain account at
      an address nobody holds (sign-up on).  In every outcome the administrators
      and their linked identities are what they were; and so they are over each
      of the steps that write (taking the provider's address, linking, signing
      up), from whatever database the step finds and whatever record of the
      account the step was given, so also when other requests run between the
      lookup and the step. *)
Theorem LoginOrLink_spec c issuer subject email v w :
    wp (LoginOrLink P mailer cfg c issuer subject email v) (fun r w' =>
      admin_identity (d_users (w_db w')) = admin_identity (d_users (w_db w)) /\
      forall u, r = Ok u -> may_sign_in issuer subject email v u (d_users (w_db w)) (d_users (w_db w'))) w /\
    (forall stale canonical, keeps_admins (linkExisting cfg c stale issuer subject canonical v)) /\
    (forall stale claim, keeps_admins (SyncFromIDP P mailer c stale claim)) /\
    (forall canonical, keeps_admins (signup cfg c issuer subject canonical)).
  Proof.
    split; [|split_and!; intros; apply keeps_admins_preserves; intros;
      [apply linkExisting_identity|apply SyncFromIDP_identity|apply signup_identity]].
    pose proof (LoginOrLink_identity (admin_identity (d_users (w_db w))) c issuer subject email v w eq_refl) as Hid.
    assert (Hok : wp (LoginOrLink P mailer cfg c issuer subject email v) (fun r w' =>
      forall u, r = Ok u -> may_sign_in issuer subject email v u (d_users (w_db w)) (d_users (w_db w'))) w);
      [|by split].
    clear Hid. unfold LoginOrLink, UserRepo.GetByOIDC, oidc_reject, log_warn. wp_step. wp_step. apply wp_get_one.
    - rewrite bool_decide_eq_false_2 by done. by wp_step.
    - intros _. rewrite bool_decide_eq_true_2 by done. unfold link_or_signup, normalizeClaim, oidc_reject, log_warn.
      wp_step. destruct (str_eq email EmptyString); [wp_step; apply wp_emit; intros m; by wp_step|].
      destruct (NormalizeAddress P email) as [ca|] eqn:Hca; [|wp_step; apply wp_emit; intros m; by wp_step].
      wp_step. wp_step. wp_step. apply wp_findByEmail.
      + intros e w' Hne. rewrite bool_decide_eq_false_2 by done. by wp_step.
      + intros w1 Hd1 Hnobody. rewrite bool_decide_eq_true_2 by done. unfold signup, oidc_reject, log_warn, UserRepo.Create.
        destruct (negb (oc_AllowOIDCSignup cfg)) eqn:Hsu; [wp_step; apply wp_emit; intros m; by wp_step|].
        apply negb_false_iff in Hsu. wp_step. wp_step. cbn [usr_ID]. rewrite str_eq_refl.
        assert (Hfail : forall e w', wp (if bool_decide (e = ErrConflict) then
            emit (OWarn "email taken by a concurrent signup");; fail ErrOIDCRejected else fail e)
          (fun r w'0 => forall u : User, r = Ok u ->
             may_sign_in issuer subject email v u (d_users (w_db w)) (d_users (w_db w'0))) w').
        { intros e w'. destruct (bool_decide _); [wp_step; apply wp_emit; intros m|]; by wp_step. }
        wp_step. wp_step. wp_step. wp_step. wp_step. wp_step. wp_step; [apply Hfail|intros; apply Hfail|].
        wp_step. wp_step. apply wp_AuditLog. intros w2 (_ & rows & seq & Hd2). wp_step. intros u [= <-].
        rewrite Hd2. simpl. rewrite Hd1. right. right. exists ca. eexists. split_and!; try done.
      + intros r w1 Hd1 Hr Hh. apply wp_linkExisting; [done|].
        intros u' w2 Hv Hl Hrole Hs Hu' Hr' u [= <-]. right. left. exists ca, r. split_and!; try done.
        * unfold admin_role. destruct (str_eq (ru_role r) "admin") eqn:He; [|done]. apply str_eq_true in He.
          by destruct Hrole.
        * by rewrite Hu'.
    - intros r [Hin Hm]%find_some_iff. apply andb_true_iff in Hm as [Hp%bool_decide_eq_true Hs%bool_decide_eq_true].
      destruct (usr_Disabled (scanUser r)) eqn:Hdis; [wp_step; apply wp_emit; intros m; by wp_step|].
      apply wp_SyncFromIDP. intros u' w' Hu' u [= <-]. left. exists r. split_and!; try done.
  Qed.
End Oidc.

(** ** Requests for a new address *)

Section AddressChange.
Context `{Crypto} (P : string -> option (string * string)).
Context (mailer : option Mailer) `{!QuietMail mailer} (baseURL : string).

  (** The pending change of the account [uid]. *)
Definition pending_change (uid : string) (p : option (string * string * Z)) (d : DB) : Prop :=
    forall r, r ∈ d_users d -> ru_id r = uid ->
      ru_pending_email r = (fun x => x.1.1) <$> p /\ ru_pending_token_hash r = (fun x => x.1.2) <$> p /\
      ru_pending_expires r = (fun x => x.2) <$> p.

Lemma pending_change_audit uid p d rows seq :
    pending_change uid p d -> pending_change uid p (setd_audit_seq seq (setd_audit rows d)).
  Proof. by intros Hp. Qed.

  (** What the request is granted on: the address is another, and nobody else's. *)
Definition grantable (u : User) (newEmail normalized : string) (now : Z) (d : DB) : Prop :=
    usr_OIDCSubject u = EmptyString /\ NormalizeAddress P newEmail = inl normalized /\
    EqualFold normalized (usr_Email u) = false /\
    forall r, r ∈ d_users d -> ru_id r <> usr_ID u -> holds P normalized now (scanUser r) = false.

Lemma wp_validateRequest c u newEmail now (Q : result string -> World -> Prop) w :
    (forall e w', e <> ErrConfirmationNotSent -> w_db w' = w_db w -> Q (Err e) w') ->
    (forall n w', w_db w' = w_db w -> grantable u newEmail n now (w_db w) -> Q (Ok n) w') ->
    wp (validateRequest P c u newEmail now) Q w.
  Proof.
    intros He Ho. unfold validateRequest, UserRepo.List.
    destruct (is_set (usr_OIDCSubject u)) eqn:Hs; [wp_step; by apply He|]. apply negb_false_iff, str_eq_true in Hs.
    destruct (NormalizeAddress P newEmail) as [n|] eqn:Hn; [|wp_step; by apply He].
    destruct (EqualFold n (usr_Email u)) eqn:Hf; [wp_step; by apply He|].
    wp_step. wp_step; [by apply He|]. destruct (addressHeld _ _ _ _ _) eqn:Hh; wp_step; [by apply He|].
    apply Ho; [done|]. split_and!; try done. intros r Hr Hne.
    destruct (holds P n now (scanUser r)) eqn:Hx; [|done].
    rewrite <- not_true_iff_false in Hh. destruct Hh. apply addressHeld_true. exists (scanUser r).
    split_and!; [|done|done]. apply list_elem_of_fmap. exists r. split; [done|]. by apply elem_of_order_by.
  Qed.

Lemma pending_set uid p q (f : user_row -> user_row) d :
    (forall r, q r = str_eq (ru_id r) uid) -> (forall r, ru_id (f r) = ru_id r) ->
    (forall r, ru_pending_email (f r) = (fun x => x.1.1) <$> p /\
       ru_pending_token_hash (f r) = (fun x => x.1.2) <$> p /\ ru_pending_expires (f r) = (fun x => x.2) <$> p) ->
    pending_change uid p (setd_users (rows_update q f (d_users d)) d).
  Proof.
    intros Hq Hid Hf r (r0 & Hin & ->)%elem_of_rows_update Hu. rewrite Hq in *.
    destruct (str_eq (ru_id r0) uid) eqn:Hs; [apply Hf|]. by rewrite Hu, str_eq_refl in Hs.
  Qed.

#[local] Ltac rollback_warned := unfold log_warn, emit; repeat wp_step; intros _; right; by eexists.

  (** A confirmation link goes to exactly one channel: a successful Request
      either finds the same change already pending and changes nothing, or
      stores the normalized address with the hash of a fresh token and the hour
      it is good for, and returns the link if and only if no mail was sent,
      otherwise mailing it to the new address; the address is nobody else's,
      held or pending.  When the mail fails the request is undone (or the undo
      itself failed and was logged) and the link is returned to nobody. *)
Theorem Request_spec c u newEmail w :
    wp (Request P mailer baseURL c u newEmail) (fun r w' => match r with
      | Ok (link, d, exp) =>
          (link = EmptyString /\ dl_Attempted d = false /\ exp = 0 /\ w_db w' = w_db w) \/
          (exists n token, let now := e_clock (w_env w) (w_n w) in
             grantable u newEmail n now (w_db w) /\ exp = now + emailChangeTTL /\
             pending_change (usr_ID u) (Some (n, HashToken token, exp)) (w_db w') /\ dl_Err d = None /\
             link = if dl_Attempted d then EmptyString else confirm_link baseURL token)
      | Err e => e = ErrConfirmationNotSent -> pending_change (usr_ID u) None (w_db w') \/
          exists out, m_out (w_mem w') = out ++ [OWarn "email change: rollback failed"]
      | Panic => False
      end) w.
  Proof.
    unfold Request. wp_step. wp_step. set (now := e_clock (w_env w) (w_n w)). wp_step.
    apply wp_validateRequest; [intros e w1 Hne _; by intros ->|]. intros n w1 Hd1 Hg. simpl in Hd1, Hg.
    destruct (_ && _); [wp_step; by left; rewrite Hd1|].
    unfold RandToken. wp_step. wp_step. wp_step; [|done]. wp_step.
    unfold UserRepo.SetPendingEmail. wp_step. destruct (nullIfEmpty n); [|by wp_step].
    wp_step. wp_step; [done|]. apply wp_requireMatched; [done|done|intros _].
    set (exp := now + emailChangeTTL). set (token := b64_rawurl_encode s).
    assert (Hp : pending_change (usr_ID u) (Some (n, HashToken token, exp)) (setd_users (rows_update
      (λ r, str_eq (ru_id r) (usr_ID u)) (λ r, UserRepo.with_pending r (Some n) (Some (HashToken token)) (Some exp))
      (d_users (w_db w))) (w_db w))) by by apply pending_set.
    wp_step. apply wp_AuditLog. intros w3 (_ & rows & seq & Hd3). simpl in Hd3. rewrite Hd1 in Hd3. wp_step.
    assert (Hp3 : pending_change (usr_ID u) (Some (n, HashToken token, exp)) (w_db w3))
      by (rewrite Hd3; by apply pending_change_audit).
    apply (wp_sendAdvisory mailer).
    - intros Hoff. simpl. wp_step. apply (wp_sendAdvisory mailer); rewrite ?Hoff; [|done|done]. intros _.
      wp_step. right. exists n, token. by split_and!.
    - intros w4 Hon Hd4 _. simpl. wp_step. apply (wp_sendAdvisory mailer); rewrite ?Hon; [done| |].
      + intros w5 _ Hd5 _. wp_step. right. exists n, token. rewrite Hd5, Hd4. by split_and!.
      + intros e w5 r5 s5 _ Hd5 _. wp_step. right. exists n, token. rewrite Hd5, Hd4.
        split_and!; [done|done|by apply pending_change_audit|done|done].
    - intros e w4 r4 s4 _ Hd4 _. simpl. unfold attempt, UserRepo.ClearPendingEmail. wp_step. wp_step. wp_step. wp_step.
      wp_step; [rollback_warned|]. apply wp_requireMatched; [rollback_warned|intros _; rollback_warned|intros _].
      repeat wp_step. intros _. left. by apply (pending_set _ None).
  Qed.
End AddressChange.

(** ** Concrete runs *)

#[local] Existing Instance toy_crypto.

(** A parser of bare addresses. *)
Definition toy_parse (s : string) : option (string * string) := Some (EmptyString, s).

Definition demo_idp (autolink : bool) : OIDCCfg :=
  MkOIDCCfg true false "https://idp" "client" "hush" ["openid"; "email"] autolink false.

Definition demo_oidc (autolink : bool) : result User * World :=
  LoginOrLink toy_parse (Some delivering) (demo_idp autolink) background "https://idp" "sub"
    "b@example.org" true demo_world.

(** The verified address links the plain account, the administrator's does not. *)
Lemma LoginOrLink_spec_witness :
  (usr_ID <$> (match (demo_oidc true).1 with Ok u => Some u | _ => None end)) = Some "u2"%string /\
  (demo_oidc false).1 = Err ErrOIDCRejected /\
  admin_identity (d_users (w_db (demo_oidc true).2)) = admin_identity (d_users demo_db).
Proof.
  split_and!; [vm_compute; reflexivity..|]. unfold demo_oidc.
  pose proof (proj1 (LoginOrLink_spec toy_parse (Some delivering) (demo_idp true) background
    "https://idp" "sub" "b@example.org" true demo_world)) as Hw.
  exact (proj1 (wp_elim _ _ _ _ _ Hw (surjective_pairing _))).
Defined.

Definition requested : result (string * Delivery * Z) * World :=
  Request toy_parse (Some delivering) "https://example.org" background (scanUser demo_user2) "c@example.org"
    demo_world.

(** The address is stored and the link only mailed. *)
Lemma Request_spec_witness :
  (exists d exp, requested.1 = Ok (EmptyString, d, exp) /\ dl_To d = "c@example.org"%string) /\
  match requested.1 with Ok (link, d, _) => link = EmptyString \/ dl_Err d = None | _ => False end.
Proof.
  split; [vm_compute; do 2 eexists; split; reflexivity|].
  assert (Hr : exists x, requested.1 = Ok x) by (vm_compute; by eexists).
  unfold requested in *. destruct Hr as [[[link d] exp] Hr]. rewrite Hr.
  destruct (wp_elim _ _ _ _ _ (Request_spec toy_parse (Some delivering) "https://example.org" background
    (scanUser demo_user2) "c@example.org" demo_world) (run_eq _ _ Hr))
    as [(Hl & _)|(n & token & _ & _ & _ & Hd & _)]; [by left|by right].
Defined.
