(* ===== verification/Stale.v ===== *)
(** * internal/server/stale and sweep.go: the staleness policy

    The window and its warning rungs (stale/window.go), the notices
    (stale/notice.go, stale/dispatch.go), the mail channel (stale/mail.go) and
    the sweep (sweep.go) with the dispatcher server.go builds for it.

    The dispatcher is generic in its two parts, as in the code: [channel_send]
    is the delivery channel and [admins] the lister of administrators; the
    server's are [mail_Send] and [listEnabledAdmins].  [print_table] is
    strconv.IsPrint above Latin-1, which no notice that is sent depends on.  A
    timeout of the channel is one of its failures. *)

From S2P Require Import Prelude GoLib JsonText Schema Integrity Effects Demo StoreUsers StoreDevices Auth.
From S2P Require Import ServiceDevices Notify Feed Email.
From Stdlib Require Import Ascii.

(** ** window.go *)

Definition secondsPerDay : Z := 86400.

(** config.go, [FeedSection] *)
Record FeedSection := MkFeedSection { fc_Enabled : bool; fc_ExpireAfterDays : Z }.
Definition ExpiryEnabled (f : FeedSection) : bool := fc_Enabled f && (0 <? fc_ExpireAfterDays f).

Definition Window (cfg : FeedSection) : Z := fc_ExpireAfterDays cfg * secondsPerDay.
Definition ExpiresAt (confirmedAt window : Z) : Z := confirmedAt + window.

(** Go's integer division truncates. *)
Definition Rungs (window : Z) : list Z :=
  [Z.quot window 3; Z.quot (2 * window) 3; Z.quot (17 * window) 21; Z.quot (20 * window) 21].

Definition FirstRung (cfg : FeedSection) : Z := nth 0 (Rungs (Window cfg)) 0.

(** [for i, at := range Rungs(window) { if elapsed >= at { due = i + 1 } }] *)
Definition DueRung (window elapsed : Z) : Z :=
  foldl (fun due (p : Z * Z) => if p.2 <=? elapsed then p.1 else due) 0 (zip [1; 2; 3; 4] (Rungs window)).

(** ** notice.go *)

Inductive Kind := KindWarning | KindRemoved.
Inductive Audience := AudienceOwner | AudienceAdmin.
#[export] Instance kind_eq_dec : EqDecision Kind.
Proof. solve_decision. Defined.

(** [n_Remaining] in nanoseconds. *)
Record Notice := MkNotice {
  n_Kind : Kind; n_Rung : Z; n_Device : Device; n_Owner : User; n_Family : Z;
  n_ExpiresAt : Z; n_Remaining : Z; n_Surviving : list Z }.

Definition RecipientsFor (k : Kind) (rung : Z) : list Audience :=
  if bool_decide (k = KindRemoved) || (3 <=? rung) then [AudienceOwner; AudienceAdmin] else [AudienceOwner].

Definition familyName (f : Z) : string := if f =? 6 then "IPv6" else "IPv4".

Definition HumanDays (d : Z) : string :=
  let days := Z.quot d (24 * 3600 * 10 ^ 9) in
  if days <? 1 then "under a day"%string
  else if days =? 1 then "1 day"%string
  else (format_int days ++ " days")%string.

(** ** strconv.Quote, the verb %q *)

Section NoticeText.
Context (print_table : Z -> bool).

(** The code point of an encoded rune. *)
Definition rune_value (x : string) : Z :=
  let low c := code c mod 64 in
  match x with
  | String a EmptyString => code a
  | String a (String b EmptyString) => (code a mod 32) * 64 + low b
  | String a (String b (String d EmptyString)) => ((code a mod 16) * 64 + low b) * 64 + low d
  | String a (String b (String d (String e _))) => (((code a mod 8) * 64 + low b) * 64 + low d) * 64 + low e
  | EmptyString => 0
  end.

Definition IsPrint (r : Z) : bool :=
  if r <=? 255 then ((32 <=? r) && (r <? 127)) || ((161 <=? r) && negb (r =? 173)) else print_table r.

(** The last [n] hexadecimal digits. *)
Fixpoint hex_fixed (n : nat) (r : Z) : string :=
  match n with O => EmptyString | S n => (hex_fixed n (r / 16) ++ str1 (hex_digit (r mod 16)))%string end.

Definition appendEscapedRune (x : string) : string :=
  let r := rune_value x in
  if (r =? 34) || (r =? 92) then String bslash x
  else if IsPrint r then x
  else if r =? 7 then esc1 "a" else if r =? 8 then esc1 "b" else if r =? 12 then esc1 "f"
  else if r =? 10 then esc1 "n" else if r =? 13 then esc1 "r" else if r =? 9 then esc1 "t"
  else if r =? 11 then esc1 "v"
  else if (r <? 32) || (r =? 127) then (esc1 "x" ++ hex_fixed 2 r)%string
  else if r <? 65536 then (esc1 "u" ++ hex_fixed 4 r)%string
  else (esc1 "U" ++ hex_fixed 8 r)%string.

(** [for len(s) > 0 { r, width := DecodeRune(s) ... }]: a byte that starts no
    rune is written in hexadecimal. *)
Fixpoint quote_runes (s : string) : string :=
  match s with
  | EmptyString => EmptyString
  | String a r =>
      let bad := (esc1 "x" ++ hex_fixed 2 (code a))%string in
      if code a <=? 127 then (appendEscapedRune (str1 a) ++ quote_runes r)%string
      else match r with
        | String b r1 =>
            if rune2 a b then (appendEscapedRune (String a (str1 b)) ++ quote_runes r1)%string else
            match r1 with
            | String d r2 =>
                if rune3 a b d then (appendEscapedRune (String a (String b (str1 d))) ++ quote_runes r2)%string else
                match r2 with
                | String e r3 =>
                    if rune4 a b d e
                    then (appendEscapedRune (String a (String b (String d (str1 e)))) ++ quote_runes r3)%string
                    else (bad ++ quote_runes r)%string
                | EmptyString => (bad ++ quote_runes r)%string
                end
            | EmptyString => (bad ++ quote_runes r)%string
            end
        | EmptyString => bad
        end
  end.

Definition go_quote (s : string) : string := String dq (quote_runes s ++ str1 dq).

(** ** The texts *)

Definition OwnerSubject (n : Notice) : string :=
    if bool_decide (n_Kind n = KindRemoved) then
      (familyName (n_Family n) ++ " address removed from the gateway feed: " ++ dev_Label (n_Device n))%string
    else
      (familyName (n_Family n) ++ " address expires in " ++ HumanDays (n_Remaining n) ++ ": " ++
       dev_Label (n_Device n))%string.

Definition RenderOwnerBody (n : Notice) : string :=
    let fam := familyName (n_Family n) in
    let label := go_quote (dev_Label (n_Device n)) in
    let removed := bool_decide (n_Kind n = KindRemoved) in
    ((if removed then
       "The " ++ fam ++ " address for your device " ++ label ++ " has been removed from the gateway " ++
       "feed because the device stopped reporting it." ++ lf ++ lf
     else
       "The " ++ fam ++ " address for your device " ++ label ++ " will be removed from the gateway " ++
       "feed in " ++ HumanDays (n_Remaining n) ++ " unless the device reports it again." ++ lf ++ lf) ++
     (match n_Surviving n with
      | [] =>
          if removed then "This was its last address, so the device is no longer in the feed." ++ lf
          else "This is its last address, so the device will drop out of the feed entirely " ++
               "unless it reports again in time." ++ lf
      | fs => "Its " ++ join " and " (familyName <$> fs) ++ " address is unaffected and remains in the feed." ++ lf
      end) ++
     lf ++ "If the device is still in use, check that its client is running and reporting." ++ lf)%string.


Definition AdminDigestSubject (ns : list Notice) : string :=
    ("Gateway feed: " ++ format_int (Z.of_nat (length ns)) ++ " device address(es) expiring or removed")%string.

  (** The verbs %-9s and %-4s. *)
Fixpoint spaces (n : nat) : string := match n with O => EmptyString | S n => (" " ++ spaces n)%string end.
Definition pad (n : nat) (s : string) : string := (s ++ spaces (n - String.length s))%string.

Definition digest_line (n : Notice) : string :=
    if bool_decide (n_Kind n = KindRemoved) then
      ("  REMOVED   " ++ pad 4 (familyName (n_Family n)) ++ "  " ++ dev_Label (n_Device n) ++ " (" ++
       usr_Email (n_Owner n) ++ ")" ++ lf)%string
    else
      ("  " ++ pad 9 (HumanDays (n_Remaining n)) ++ " " ++ pad 4 (familyName (n_Family n)) ++ "  " ++
       dev_Label (n_Device n) ++ " (" ++ usr_Email (n_Owner n) ++ ")" ++ lf)%string.

Definition RenderAdminDigestBody (ns : list Notice) : string :=
    foldl (fun acc n => acc ++ digest_line n)%string
      ("The following device addresses are close to removal from the gateway feed, " ++
       "or have just been removed:" ++ lf ++ lf)%string ns.
End NoticeText.

(** ** channel.go and mail.go *)

Record ChannelDelivery := MkChannelDelivery { cd_Audience : Audience; cd_Recipient : string; cd_Notices : list Notice }.

(** [n.Device.Label = ...] on the loop's copy of the notice. *)
Definition with_label (d : Device) (label : string) : Device :=
  MkDevice (dev_ID d) (dev_UserID d) label (dev_SecretHash d) (dev_CurrentIPv4 d) (dev_CurrentIPv6 d)
    (dev_Hostname d) (dev_OS d) (dev_ClientVersion d) (dev_LastSeenAt d) (dev_Disabled d) (dev_CreatedAt d)
    (dev_UpdatedAt d) (dev_V4ConfirmedAt d) (dev_V6ConfirmedAt d) (dev_V4WarnLevel d) (dev_V6WarnLevel d).
Definition with_email (u : User) (email : string) : User :=
  MkUser (usr_ID u) email (usr_Role u) (usr_OIDCProvider u) (usr_OIDCSubject u) (usr_Disabled u) (usr_CreatedAt u)
    (usr_UpdatedAt u) (usr_PendingEmail u) (usr_PendingEmailExpiresAt u).

Definition fold_notice (n : Notice) : Notice :=
  MkNotice (n_Kind n) (n_Rung n) (with_label (n_Device n) (ASCIIFold (dev_Label (n_Device n))))
    (with_email (n_Owner n) (ASCIIFold (usr_Email (n_Owner n)))) (n_Family n) (n_ExpiresAt n) (n_Remaining n)
    (n_Surviving n).
Definition foldForMail (ns : list Notice) : list Notice := fold_notice <$> ns.

Section MailChannel.
Context (print_table : Z -> bool) (m : Mailer).

(** The subject and body of a delivery; an owner's delivery without a notice
    is the index out of range. *)
Definition mail_message (d : ChannelDelivery) : option (string * string) :=
  let ns := foldForMail (cd_Notices d) in
  match cd_Audience d with
  | AudienceAdmin => Some (AdminDigestSubject ns, RenderAdminDigestBody ns)
  | AudienceOwner => match ns with [] => None | n :: _ => Some (OwnerSubject n, RenderOwnerBody print_table n) end
  end.

Definition mail_Send (c : ctx) (d : ChannelDelivery) : M unit :=
  match mail_message d with None => panic | Some msg => Send m c (cd_Recipient d) msg.1 msg.2 end.
End MailChannel.

(** server.go, the lister [buildSweeper] gives the dispatcher. *)
Definition listEnabledAdmins (c : ctx) : M (list User) :=
  us ← UserRepo.List c;
  mret (List.filter IsEnabledAdmin us).

(** ** dispatch.go *)

Section Sweep.
Context (channel_send : ctx -> ChannelDelivery -> M unit) (admins : ctx -> M (list User)).

Definition SendOwner (c : ctx) (n : Notice) : M unit :=
    if str_eq (usr_Email (n_Owner n)) EmptyString then mret tt
    else
      attempt (channel_send (without_cancel c) (MkChannelDelivery AudienceOwner (usr_Email (n_Owner n)) [n]));;
      mret tt.

Definition SendAdminDigest (c : ctx) (ns : list Notice) : M unit :=
    match ns with
    | [] => mret tt
    | _ =>
        us ← attempt (admins c);
        match us with
        | None => mret tt
        | Some us => foreach us (fun a =>
            attempt (channel_send (without_cancel c) (MkChannelDelivery AudienceAdmin (usr_Email a) ns));; mret tt)
        end
    end.

  (** ** sweep.go *)

  (** The row [candidateQuery] selects, as the Go candidate. *)
Definition candidate_ok (bound : Z) (r : device_row) (u : user_row) : bool :=
    str_eq (ru_id u) (rd_user_id r) && (rd_disabled r =? 0) && (ru_disabled u =? 0) &&
    ((bool_decide (is_Some (rd_current_ipv4 r)) && (default 0 (rd_v4_confirmed_at r) <=? bound)) ||
     (bool_decide (is_Some (rd_current_ipv6 r)) && (default 0 (rd_v6_confirmed_at r) <=? bound))).

  (** Only the selected columns are set. *)
Definition scan_candidate (r : device_row) : Device :=
    MkDevice (rd_id r) (rd_user_id r) (rd_label r) EmptyString
      (scanString (rd_current_ipv4 r)) (scanString (rd_current_ipv6 r)) EmptyString EmptyString EmptyString
      0 false 0 0 (scanInt64 (rd_v4_confirmed_at r)) (scanInt64 (rd_v6_confirmed_at r))
      (rd_v4_warn_level r) (rd_v6_warn_level r).

Definition candidateQuery (bound : Z) (d : DB) : list device_row :=
    order_by (fun a b => String.leb (rd_id a) (rd_id b))
      (r ← d_devices d; u ← d_users d; if candidate_ok bound r u then [r] else []).

Definition present (c : Device) (family : Z) : bool :=
    if family =? 6 then is_set (dev_CurrentIPv6 c) else is_set (dev_CurrentIPv4 c).
Definition confirmedAt (c : Device) (family : Z) : Z :=
    if family =? 6 then dev_V6ConfirmedAt c else dev_V4ConfirmedAt c.
Definition warnLevel (c : Device) (family : Z) : Z :=
    if family =? 6 then dev_V6WarnLevel c else dev_V4WarnLevel c.

Definition survivors (c : Device) (v4Due v6Due : bool) : list Z :=
    (if present c 4 && negb v4Due then [4] else []) ++ (if present c 6 && negb v6Due then [6] else []).

Definition survivingAfter (c : Device) (family : Z) : list Z :=
    List.filter (fun f => negb (f =? family) && present c f) [4; 6].

Record sweeper := MkSweeper { sw_fanout : fanout; sw_cfg : FeedSection }.

Definition candidates (s : sweeper) (c : ctx) (now : Z) : M (list Device) :=
    query c (fun d => scan_candidate <$> candidateQuery (now - FirstRung (sw_cfg s)) d).

Definition with_owner (n : Notice) (u : User) : Notice :=
    MkNotice (n_Kind n) (n_Rung n) (n_Device n) u (n_Family n) (n_ExpiresAt n) (n_Remaining n) (n_Surviving n).

  (** The notices for the admin digest. *)
Definition sweep_deliver (c : ctx) (cand : Device) (n : Notice) : M (list Notice) :=
    owner ← attempt (UserRepo.GetByID c (dev_UserID cand));
    match owner with
    | None => mret []
    | Some owner =>
        let n := with_owner n owner in
        let rs := RecipientsFor (n_Kind n) (n_Rung n) in
        foreach rs (fun a => match a with AudienceOwner => SendOwner c n | AudienceAdmin => mret tt end);;
        mret (flat_map (fun a => match a with AudienceAdmin => [n] | AudienceOwner => [] end) rs)
    end.

Definition no_user : User := MkUser EmptyString EmptyString EmptyString EmptyString EmptyString false 0 0 EmptyString 0.

Definition removed (c : ctx) (cand : Device) (v4Due v6Due : bool) (now : Z) : M (list Notice) :=
    ls ← collect [4; 6] (fun f =>
      if ((f =? 4) && negb v4Due) || ((f =? 6) && negb v6Due) then mret []
      else sweep_deliver c cand (MkNotice KindRemoved 0 cand no_user f now 0 (survivors cand v4Due v6Due)));
    mret (concat ls).

  (** An error of the second family keeps the notices of the first. *)
Fixpoint warn_families (c : ctx) (cand : Device) (w now : Z) (fs : list Z) (acc : list Notice)
      : M (list Notice * option err) :=
    match fs with
    | [] => mret (acc, None)
    | f :: rest =>
        if negb (present cand f) then warn_families c cand w now rest acc
        else
          let conf := confirmedAt cand f in
          let level := warnLevel cand f in
          let due := DueRung w (now - conf) in
          if due <=? level then warn_families c cand w now rest acc
          else
            ok ← catch (DeviceRepo.AdvanceWarnLevel c (dev_ID cand) f due level
                          (dev_V4ConfirmedAt cand) (dev_V6ConfirmedAt cand) now);
            match ok with
            | inr e => mret (acc, Some e)
            | inl false => warn_families c cand w now rest acc
            | inl true =>
                let expires := ExpiresAt conf w in
                ns ← sweep_deliver c cand (MkNotice KindWarning due cand no_user f expires
                       ((expires - now) * 10 ^ 9) (survivingAfter cand f));
                warn_families c cand w now rest (acc ++ ns)
            end
    end.

Definition warn (c : ctx) (cand : Device) (w now : Z) : M (list Notice * option err) :=
    warn_families c cand w now [4; 6] [].

Definition v_due (cand : Device) (family w now : Z) : bool :=
    present cand family && (ExpiresAt (confirmedAt cand family) w <=? now).

  (** The notices for the digest and the error, as Go returns both. *)
Definition act (s : sweeper) (c : ctx) (cand : Device) (now : Z) : M (list Notice * option err) :=
    let w := Window (sw_cfg s) in
    let v4Due := v_due cand 4 w now in
    let v6Due := v_due cand 6 w now in
    if v4Due || v6Due then
      ok ← catch (ExpireAddresses (sw_fanout s) c cand v4Due v6Due
                    (MkConfirmed (dev_V4ConfirmedAt cand) (dev_V6ConfirmedAt cand)));
      match ok with
      | inr e => mret ([], Some e)
      | inl false => mret ([], None)
      | inl true => ns ← removed c cand v4Due v6Due now; mret (ns, None)
      end
    else warn c cand w now.

  (** A failing device is skipped, its notices with it; a cancelled context
      ends the sweep without the digest. *)
Fixpoint sweep_all (s : sweeper) (c : ctx) (now : Z) (cands : list Device) (digest : list Notice)
      : M (list Notice) :=
    match cands with
    | [] => mret digest
    | cand :: rest =>
        gone ← ctx_err c;
        if gone : bool then fail ErrDriver
        else
          r ← act s c cand now;
          match r with
          | (_, Some _) => sweep_all s c now rest digest
          | (ns, None) => sweep_all s c now rest (digest ++ ns)
          end
    end.

Definition Run (s : sweeper) (c : ctx) (now : Z) : M unit :=
    cands ← candidates s c now;
    digest ← sweep_all s c now cands [];
    SendAdminDigest c digest.
End Sweep.
