(* ===== verification/StaleFacts.v ===== *)
(** * What the staleness policy guarantees

    Properties of Stale: the rungs divide the window, the candidate query finds
    exactly the devices with a rung due, and a sweep never takes an address
    whose confirmation is within the window, whatever it read.  And of the
    notices, these and the ones of Email: the values they quote neither
    suppress nor forge them. *)

From S2P Require Import Prelude GoLib Schema Integrity Effects NetAddr Demo StoreUsers StoreDevices.
From S2P Require Import StoreTokens StoreNotify Auth ServiceDevices DeviceFacts ServiceFacts Notify.
From S2P Require Import NotifyFacts Feed FeedFacts JsonText Email Envelope Stale.
From Stdlib Require Import Ascii.

(** ** Rungs *)

Lemma rungs_order w : 86400 <= w ->
  0 < Z.quot w 3 < Z.quot (2 * w) 3 /\ Z.quot (2 * w) 3 < Z.quot (17 * w) 21 /\
  Z.quot (17 * w) 21 < Z.quot (20 * w) 21 /\ Z.quot (20 * w) 21 < w.
Proof.
  intros Hw. rewrite !Z.quot_div_nonneg by lia.
  pose proof (Z.div_mod w 3). pose proof (Z.mod_pos_bound w 3).
  pose proof (Z.div_mod (2 * w) 3). pose proof (Z.mod_pos_bound (2 * w) 3).
  pose proof (Z.div_mod (17 * w) 21). pose proof (Z.mod_pos_bound (17 * w) 21).
  pose proof (Z.div_mod (20 * w) 21). pose proof (Z.mod_pos_bound (20 * w) 21). lia.
Qed.

Lemma DueRung_cases w e : DueRung w e =
  if Z.quot (20 * w) 21 <=? e then 4 else if Z.quot (17 * w) 21 <=? e then 3
  else if Z.quot (2 * w) 3 <=? e then 2 else if Z.quot w 3 <=? e then 1 else 0.
Proof.
  unfold DueRung, Rungs. cbn [zip zip_with foldl fst snd].
  destruct (Z.quot (20 * w) 21 <=? e), (Z.quot (17 * w) 21 <=? e), (Z.quot (2 * w) 3 <=? e), (Z.quot w 3 <=? e); done.
Qed.

Lemma DueRung_first w e : 86400 <= w -> 1 <= DueRung w e <-> Z.quot w 3 <= e.
Proof. intros Hw. pose proof (rungs_order w Hw). rewrite DueRung_cases. repeat case_match; lia. Qed.

Lemma window_large cfg : 1 <= fc_ExpireAfterDays cfg -> 86400 <= Window cfg.
Proof. unfold Window, secondsPerDay. lia. Qed.

(** A rung is due for the family at [now]. *)
Definition rung_due (cfg : FeedSection) (now : Z) (cand : Device) (family : Z) : Prop :=
  present cand family = true /\ 1 <= DueRung (Window cfg) (now - confirmedAt cand family).

Section Candidates.
Context (cfg : FeedSection).

Definition has_candidate_owner (bound : Z) (us : list user_row) (r : device_row) : bool :=
  existsb (candidate_ok bound r) us.

Lemma candidate_elem bound d r :
  r ∈ candidateQuery bound d <-> r ∈ d_devices d /\ exists u, u ∈ d_users d /\ candidate_ok bound r u = true.
Proof.
  unfold candidateQuery. rewrite elem_of_order_by, list_elem_of_bind. split.
  - intros (r' & Hr & Hr'). apply list_elem_of_bind in Hr as (u & Hr & Hu).
    destruct (candidate_ok bound r' u) eqn:Hok; [|by apply elem_of_nil in Hr].
    apply list_elem_of_singleton in Hr as ->. split; [done|]. by exists u.
  - intros (Hr & u & Hu & Hok). exists r. split; [|done]. apply list_elem_of_bind. exists u.
    rewrite Hok. split; [by left|done].
Qed.

Lemma candidate_ok_due bound now r u :
  1 <= fc_ExpireAfterDays cfg -> bound = now - FirstRung cfg ->
  rd_current_ipv4 r <> Some EmptyString -> rd_current_ipv6 r <> Some EmptyString ->
  candidate_ok bound r u = true <->
  ru_id u = rd_user_id r /\ rd_disabled r = 0 /\ ru_disabled u = 0 /\
  (rung_due cfg now (scan_candidate r) 4 \/ rung_due cfg now (scan_candidate r) 6).
Proof.
  intros Hd -> H4 H6. unfold candidate_ok, rung_due.
  rewrite !present_iff by done. rewrite !DueRung_first by (by apply window_large).
  unfold present, confirmedAt, FirstRung, Rungs, scanInt64. cbn [Z.eqb Pos.eqb nth scan_candidate
    dev_CurrentIPv4 dev_CurrentIPv6 dev_V4ConfirmedAt dev_V6ConfirmedAt].
  rewrite !andb_true_iff, orb_true_iff, !andb_true_iff, str_eq_true, !Z.eqb_eq, !Z.leb_le.
  unfold scanInt64. set (a := default 0 (rd_v4_confirmed_at r)). set (b := default 0 (rd_v6_confirmed_at r)).
  split.
  - intros [[[Hu Hr] Ho] [[Hp Hx]|[Hp Hx]]]; (split; [done|]); (split; [done|]); (split; [done|]);
      [left|right]; (split; [done|lia]).
  - intros (Hu & Hr & Ho & [[Hp Hx]|[Hp Hx]]); (split; [done|]); [left|right]; (split; [done|lia]).
Qed.

(** The sweep looks at exactly the devices it may have to act on: with an
    expiry of at least a day, the candidates are the enabled devices of enabled
    owners holding an address, in some family, whose last confirmation is at
    least the first rung old (one due for a warning or removal), and the rungs
    are four strictly increasing fractions of the window, so an expired family
    is past the last of them. *)
Theorem candidates_exact (f : fanout) (c : ctx) (now : Z) (w : World)
    (Hd : 1 <= fc_ExpireAfterDays cfg) (Hq : quiet w c) (Hwf : wf_db (w_db w)) (Hn : addresses_normal (w_db w)) :
  (exists l, candidates (MkSweeper f cfg) c now w = (Ok l, bump w) /\
    forall r, r ∈ d_devices (w_db w) ->
      (scan_candidate r ∈ l <->
       rd_disabled r = 0 /\ (exists u, u ∈ d_users (w_db w) /\ ru_id u = rd_user_id r /\ ru_disabled u = 0) /\
       (rung_due cfg now (scan_candidate r) 4 \/ rung_due cfg now (scan_candidate r) 6))) /\
  (forall cand family, v_due cand family (Window cfg) now = true ->
     DueRung (Window cfg) (now - confirmedAt cand family) = 4) /\
  StronglySorted Z.lt (0 :: Rungs (Window cfg) ++ [Window cfg]).
Proof.
  pose proof (rungs_order _ (window_large _ Hd)) as Hr. split; [|split].
  - exists (scan_candidate <$> candidateQuery (now - FirstRung cfg) (w_db w)). split; [by apply query_quiet|].
    intros r Hin. destruct (Hn r Hin) as [H4 H6].
    assert (Hel : scan_candidate r ∈ scan_candidate <$> candidateQuery (now - FirstRung cfg) (w_db w) <->
      r ∈ candidateQuery (now - FirstRung cfg) (w_db w)).
    { split; [|by apply list_elem_of_fmap_2]. intros (r' & Heq & Hr')%list_elem_of_fmap.
      assert (Hid : rd_id r = rd_id r') by (by injection Heq).
      assert (Hin' : r' ∈ d_devices (w_db w)) by (by apply candidate_elem in Hr' as [? _]).
      by rewrite (key_row rd_id _ _ _ key_device (wf_devices _ Hwf) Hin Hin' Hid). }
    rewrite Hel, candidate_elem. split.
    + intros (_ & u & Hu & Hok). apply (candidate_ok_due _ now) in Hok; [|done..]. naive_solver.
    + intros (Hdis & (u & Hu & Hid & Hud) & Hdue). split; [done|]. exists u. split; [done|].
      by apply (candidate_ok_due _ now).
  - intros cand family Hv. unfold v_due, ExpiresAt in Hv. apply andb_true_iff in Hv as [_ Hv%Z.leb_le].
    rewrite DueRung_cases. rewrite (proj2 (Z.leb_le _ _)); [done|lia].
  - unfold Rungs. simpl. repeat (constructor; [|repeat (constructor; [lia|]); constructor]). constructor.
Qed.
End Candidates.
Lemma candidates_exact_witness :
  let run := candidates (MkSweeper (MkFanout false) (MkFeedSection true 1)) background 90000 demo_world in
  exists l, run = (Ok l, bump demo_world) /\ length l = 1%nat.
Proof.
  intros run.
  destruct (candidates_exact (MkFeedSection true 1) (MkFanout false) background 90000 demo_world)
    as [(l & Hl & _) _]; [simpl; lia|exact demo_quiet|exact demo_wf| |].
  - intros r [->|[->|H%elem_of_nil]%elem_of_cons]%elem_of_cons; [by split|by split|done].
  - exists l. split; [exact Hl|].
    assert (Hr : length (match run.1 with Ok l => l | _ => [] end) = 1%nat) by (vm_compute; reflexivity).
    unfold run in Hr. rewrite Hl in Hr. exact Hr.
Defined.

(** ** A sweep never takes a fresh address *)

Section Fresh.
Context (channel_send : ctx -> ChannelDelivery -> M unit) (admins : ctx -> M (list User)).
(** The channel sends mail and the lister of administrators reads: neither
    writes to the database. *)
Hypothesis channel_reads : forall c d, reads_only (channel_send c d).
Hypothesis admins_reads : forall c, reads_only (admins c).

(** [r'] is [r] with addresses taken only where they had expired. *)
Definition fresh_row (window now : Z) (r r' : device_row) : Prop :=
  rd_id r' = rd_id r /\ rd_v4_confirmed_at r' = rd_v4_confirmed_at r /\ rd_v6_confirmed_at r' = rd_v6_confirmed_at r /\
  (rd_current_ipv4 r' = rd_current_ipv4 r \/
   (rd_current_ipv4 r' = None /\ ExpiresAt (default 0 (rd_v4_confirmed_at r)) window <= now)) /\
  (rd_current_ipv6 r' = rd_current_ipv6 r \/
   (rd_current_ipv6 r' = None /\ ExpiresAt (default 0 (rd_v6_confirmed_at r)) window <= now)).

Definition fresh_kept (window now : Z) (d d' : DB) : Prop :=
  forall r, r ∈ d_devices d -> exists r', r' ∈ d_devices d' /\ fresh_row window now r r'.

Lemma fresh_row_refl W now r : fresh_row W now r r.
Proof. unfold fresh_row. split_and!; auto. Qed.

Lemma fresh_row_trans W now r1 r2 r3 : fresh_row W now r1 r2 -> fresh_row W now r2 r3 -> fresh_row W now r1 r3.
Proof.
  intros (I1 & A1 & B1 & C1 & D1) (I2 & A2 & B2 & C2 & D2). rewrite A1 in *. rewrite B1 in *.
  split_and!; try congruence.
  - destruct C2 as [C2|[C2 ?]]; [|by right]. rewrite C2. exact C1.
  - destruct D2 as [D2|[D2 ?]]; [|by right]. rewrite D2. exact D1.
Qed.

Lemma fresh_kept_refl W now d : fresh_kept W now d d.
Proof. intros r Hr. exists r. split; [done|apply fresh_row_refl]. Qed.

Lemma fresh_kept_update W now d0 d d' p f :
  d_devices d' = rows_update p f (d_devices d) ->
  (forall r, r ∈ d_devices d -> p r = true -> fresh_row W now r (f r)) ->
  fresh_kept W now d0 d -> fresh_kept W now d0 d'.
Proof.
  intros Hd Hf Hk r Hr. destruct (Hk r Hr) as (r1 & Hr1 & H1).
  exists (if p r1 then f r1 else r1). split.
  - rewrite Hd. apply elem_of_rows_update. by exists r1.
  - destruct (p r1) eqn:Hp; [|done]. eapply fresh_row_trans; [exact H1|by apply Hf].
Qed.

Section Step.
Context (W now : Z) (d0 : DB).

(** The invariant of a sweep that started from [d0]. *)
Definition sweeping (d : DB) : Prop := wf_db d /\ fresh_kept W now d0 d.

Lemma sweeping_reads {A} (m : M A) : reads_only m -> preserves sweeping m.
Proof. intros Hr w Hw. by rewrite Hr. Qed.

(** An operation that keeps the constraints and does not write to devices. *)
Lemma sweeping_elsewhere {A} (m : M A) :
  preserves wf_db m -> (forall D, preserves (fun d => d_devices d = D) m) -> preserves sweeping m.
Proof.
  intros Hwf Hd w [Hw Hk]. split; [by apply Hwf|]. intros r Hr. destruct (Hk r Hr) as (r' & Hr' & H').
  exists r'. split; [|done]. by rewrite (Hd (d_devices (w_db w)) w eq_refl).
Qed.

Lemma Enqueue_devices c t i p D : preserves (fun d => d_devices d = D) (Enqueuer.Enqueue c t i p).
Proof.
  unfold Enqueuer.Enqueue, NotificationEndpointRepo.ListEnabled. pres. unfold NotificationDeliveryRepo.Enqueue.
  pres. apply pres_stmt. intros d Hd. by repeat case_match; simplify_eq/=.
Qed.

Lemma sweeping_dispatch f c t i p : preserves sweeping (dispatch f c t i p).
Proof.
  apply sweeping_elsewhere; [apply dispatch_wf|]. intros D. pose proof (fun c t i p => Enqueue_devices c t i p D).
  unfold dispatch. pres.
Qed.

Lemma sweeping_Bump c k : preserves sweeping (FeedStateRepo.Bump c k).
Proof.
  apply sweeping_elsewhere; [apply feed_state_Bump_wf|]. intros D. unfold FeedStateRepo.Bump. by apply pres_stmt.
Qed.

Lemma sweeping_ExpireFamilies c id v4Due v6Due pin4 pin6 k :
  (v4Due = true -> ExpiresAt pin4 W <= now) -> (v6Due = true -> ExpiresAt pin6 W <= now) ->
  preserves sweeping (ExpireFamilies c id v4Due v6Due pin4 pin6 k).
Proof.
  intros H4 H6 w [Hwf Hk]. split; [by apply devices_ExpireFamilies_wf|].
  pose proof (wp_ExpireFamilies c id v4Due v6Due pin4 pin6 k w Hwf) as Ho. unfold wp, expiry_outcome in Ho.
  destruct (ExpireFamilies _ _ _ _ _ _ _ w) as [[[e []]|e|] w']; simpl in *; [| |by rewrite Ho|done].
  - destruct Ho as (row & at_ & _ & _ & _ & _ & _ & _ & _ & Hd). rewrite Hd.
    eapply fresh_kept_update; [reflexivity| |exact Hk]. intros r _ Hp.
    apply andb_true_iff in Hp as [Hp _]. unfold DeviceRepo.pinned in Hp.
    rewrite !andb_true_iff, !Z.eqb_eq in Hp. destruct Hp as [[_ P4] P6].
    unfold fresh_row, expire_row. simpl. rewrite P4, P6. destruct v4Due, v6Due; split_and!; auto.
  - destruct Ho as [-> _]. done.
Qed.

Lemma sweeping_Advance c id fam level from p4 p6 k :
  preserves sweeping (DeviceRepo.AdvanceWarnLevel c id fam level from p4 p6 k).
Proof.
  intros w [Hwf Hk]. split; [by apply devices_AdvanceWarnLevel_wf|]. revert w Hwf Hk.
  assert (Hp : preserves (fresh_kept W now d0) (DeviceRepo.AdvanceWarnLevel c id fam level from p4 p6 k)).
  { unfold DeviceRepo.AdvanceWarnLevel. pres. apply pres_stmt. intros d Hk.
    eapply fresh_kept_update; [reflexivity| |exact Hk]. intros r _ _. unfold fresh_row. simpl. split_and!; auto. }
  auto.
Qed.

Lemma sweeping_ExpireAddresses f c cand v4Due v6Due pin :
  (v4Due = true -> ExpiresAt (cf_V4 pin) W <= now) -> (v6Due = true -> ExpiresAt (cf_V6 pin) W <= now) ->
  preserves sweeping (ExpireAddresses f c cand v4Due v6Due pin).
Proof.
  intros H4 H6. unfold ExpireAddresses. apply pres_bind; [apply pres_now|intros k].
  apply pres_bind; [by apply sweeping_ExpireFamilies|]. intros [id []]; [|apply pres_ret]. cbv beta iota zeta delta [negb].
  apply pres_bind; [apply pres_attempt, sweeping_Bump|intros _].
  apply pres_bind; [apply sweeping_dispatch|intros _]. apply pres_ret.
Qed.

Lemma sweeping_channel c d : preserves sweeping (channel_send c d).
Proof. apply sweeping_reads, channel_reads. Qed.
#[local] Hint Resolve sweeping_channel sweeping_Advance : effects.

Lemma sweeping_deliver c cand n : preserves sweeping (sweep_deliver channel_send c cand n).
Proof. unfold sweep_deliver, UserRepo.GetByID, SendOwner. pres. Qed.
#[local] Hint Resolve sweeping_deliver : effects.

Lemma sweeping_warn c cand w k fs acc : preserves sweeping (warn_families channel_send c cand w k fs acc).
Proof. revert acc. induction fs as [|f fs IH]; intros acc; simpl; [apply pres_ret|]. pres; auto. Qed.

Lemma sweeping_act s c cand :
  W = Window (sw_cfg s) -> preserves sweeping (act channel_send s c cand now).
Proof.
  intros HW. unfold act. cbv zeta. rewrite <- HW. destruct (_ || _); [|apply sweeping_warn].
  assert (Hv : forall fam, v_due cand fam W now = true -> ExpiresAt (confirmedAt cand fam) W <= now).
  { intros fam Hv. unfold v_due in Hv. by apply andb_true_iff in Hv as [_ Hv%Z.leb_le]. }
  apply pres_bind; [apply pres_catch, sweeping_ExpireAddresses; apply Hv|].
  intros [[]|e]; [|apply pres_ret|apply pres_ret]. unfold removed. pres.
Qed.

Lemma sweeping_all s c cands digest :
  W = Window (sw_cfg s) -> preserves sweeping (sweep_all channel_send s c now cands digest).
Proof.
  intros HW. revert digest. induction cands as [|cand cands IH]; intros digest; simpl; [apply pres_ret|].
  apply pres_bind; [by intros w Hw|]. intros []; [apply pres_fail|].
  apply pres_bind; [by apply sweeping_act|]. intros [ns [e|]]; apply IH.
Qed.

Lemma sweeping_Run s c :
  W = Window (sw_cfg s) -> preserves sweeping (Run channel_send admins s c now).
Proof.
  intros HW. unfold Run, candidates.
  apply pres_bind; [apply pres_query|intros cands]. apply pres_bind; [by apply sweeping_all|intros digest].
  unfold SendAdminDigest. destruct digest as [|n ns]; [apply pres_ret|].
  apply pres_bind; [apply pres_attempt, sweeping_reads, admins_reads|]. intros [us|]; [|apply pres_ret].
  apply pres_foreach. intros a. apply pres_bind; [|intros; apply pres_ret]. apply pres_attempt, sweeping_channel.
Qed.
End Step.

End Fresh.

(** The server's dispatcher: the mail channel and the lister of
    administrators. *)
Section Dispatcher.
Context (print_table : Z -> bool) (m : Mailer) `{!QuietMailer m}.

Lemma mail_Send_reads c d : reads_only (mail_Send print_table m c d).
Proof. intros w. unfold mail_Send. destruct (mail_message _ d); [apply send_db|done]. Qed.

Lemma listEnabledAdmins_reads c : reads_only (listEnabledAdmins c).
Proof.
  intros w. assert (H : preserves (eq (w_db w)) (listEnabledAdmins c)); [|symmetry; by apply H].
  unfold listEnabledAdmins, UserRepo.List. pres.
Qed.

(** C11: a sweep never takes a fresh address: whatever candidates it read,
    whatever changed since, and at whatever step it fails or is cancelled, when
    a sweep at [now] ends every device is still there with its confirmation
    times, and each of its addresses is as it was, or is gone and had not been
    confirmed within the window. *)
Theorem sweep_keeps_fresh (s : sweeper) (c : ctx) (now : Z) (w : World) (Hwf : wf_db (w_db w)) :
  fresh_kept (Window (sw_cfg s)) now (w_db w)
    (w_db (Run (mail_Send print_table m) listEnabledAdmins s c now w).2) /\
  forall cand, fresh_kept (Window (sw_cfg s)) now (w_db w)
    (w_db (act (mail_Send print_table m) s c cand now w).2).
Proof.
  assert (H0 : sweeping (Window (sw_cfg s)) now (w_db w) (w_db w)) by (split; [done|apply fresh_kept_refl]).
  split; [exact (proj2 (sweeping_Run _ _ mail_Send_reads listEnabledAdmins_reads _ now (w_db w) s c eq_refl w H0))|].
  intros cand. exact (proj2 (sweeping_act _ mail_Send_reads _ now (w_db w) s c cand eq_refl w H0)).
Qed.
End Dispatcher.

Lemma sweep_keeps_fresh_witness :
  fresh_kept 86400 90000 demo_db
    (w_db (Run (mail_Send (fun _ => false) delivering) listEnabledAdmins
       (MkSweeper (MkFanout false) (MkFeedSection true 1)) background 90000 demo_world).2).
Proof.
  exact (proj1 (sweep_keeps_fresh (fun _ => false) delivering
    (MkSweeper (MkFanout false) (MkFeedSection true 1)) background 90000 demo_world demo_wf)).
Defined.

(** ** Notices with a value a user controls *)

(** A text of ASCII with [k] line breaks. *)
Definition text (k : nat) (s : string) : Prop := breaks s = k /\ IsASCII s = true.

Lemma text_app i j k s t : text i s -> text j t -> (i + j)%nat = k -> text k (s ++ t).
Proof.
  intros [H1 H2] [H3 H4] <-. split; [by rewrite breaks_app, H1, H3|].
  unfold IsASCII in *. by rewrite all_chars_app, H2, H4.
Qed.

Lemma text_printable s : all_printable s = true -> text 0 s.
Proof. apply printable_text. Qed.

Lemma digit_printable n : printable (digit (n mod 10)) = true.
Proof.
  pose proof (Z.mod_pos_bound n 10 ltac:(lia)). unfold printable, digit. rewrite code_chr by lia.
  apply andb_true_iff. split; apply Z.leb_le; lia.
Qed.

Lemma dec_digits_printable fuel n acc : all_printable acc = true -> all_printable (dec_digits fuel n acc) = true.
Proof.
  revert n acc. induction fuel as [|fuel IH]; intros n acc Ha; [done|]. rewrite dec_step. cbv zeta.
  assert (Hc : all_printable (String (digit (n mod 10)) acc) = true).
  { unfold all_printable in *. cbn [all_chars]. by rewrite digit_printable. }
  destruct (n <? 10); [done|by apply IH].
Qed.

Lemma format_int_printable z : all_printable (format_int z) = true.
Proof.
  unfold format_int. destruct (z <? 0); [|by apply dec_digits_printable].
  unfold all_printable. cbn [all_chars]. by apply (dec_digits_printable 20).
Qed.

Lemma HumanDays_printable d : all_printable (HumanDays d) = true.
Proof.
  unfold HumanDays. destruct (_ <? 1); [done|]. destruct (_ =? 1); [done|].
  apply printable_app; [apply format_int_printable|done].
Qed.

Lemma familyName_printable f : all_printable (familyName f) = true.
Proof. unfold familyName. by destruct (f =? 6). Qed.

Lemma spaces_printable n : all_printable (spaces n) = true.
Proof. induction n as [|n IH]; [done|]. simpl. by apply printable_app. Qed.

Lemma pad_printable n s : all_printable s = true -> all_printable (pad n s) = true.
Proof. intros Hs. apply printable_app; [done|apply spaces_printable]. Qed.

(** What is printable is quoted without the table of runes, and printable. *)
Lemma appendEscapedRune_printable T c : printable c = true -> all_printable (appendEscapedRune T (str1 c)) = true.
Proof. by_byte c. Qed.

Lemma go_quote_printable T s : all_printable s = true -> all_printable (go_quote T s) = true.
Proof.
  intros Hs. unfold go_quote. apply (printable_app (str1 dq)); [done|]. apply printable_app; [|done].
  induction s as [|c s IH]; [done|]. unfold all_printable in Hs. cbn [all_chars] in Hs.
  apply andb_true_iff in Hs as [Hc Hs]. cbn [quote_runes].
  assert (Ha : (code c <=? 127) = true) by (revert Hc; by_byte c). rewrite Ha.
  apply printable_app; [by apply appendEscapedRune_printable|by apply IH].
Qed.

Lemma text_join sep l : all_printable sep = true -> Forall (fun s => all_printable s = true) l ->
  all_printable (join sep l) = true.
Proof.
  intros Hs. induction 1 as [|x l Hx Hl IH]; [done|]. destruct l as [|y l]; [exact Hx|].
  simpl. apply printable_app; [done|]. apply printable_app; [done|exact IH].
Qed.

(** The table of runes is not consulted for what the mail channel sends. *)
Lemma go_quote_table T T' s : all_printable s = true -> go_quote T s = go_quote T' s.
Proof.
  intros Hs. unfold go_quote. do 2 f_equal. induction s as [|c s IH]; [done|].
  unfold all_printable in Hs. cbn [all_chars] in Hs. apply andb_true_iff in Hs as [Hc Hs]. cbn [quote_runes].
  assert (Ha : (code c <=? 127) = true) by (revert Hc; by_byte c). rewrite Ha, IH by exact Hs. f_equal.
  revert Hc. clear. by_byte c.
Qed.

Lemma mail_message_table T T' d : mail_message T d = mail_message T' d.
Proof.
  unfold mail_message. destruct (cd_Audience d); [|done]. destruct (cd_Notices d) as [|n ns]; [done|].
  cbn [foldForMail fmap list_fmap]. do 2 f_equal. unfold RenderOwnerBody.
  by rewrite (go_quote_table T T') by apply ASCIIFold_printable.
Qed.

#[local] Ltac text_part :=
  lazymatch goal with
  | |- text _ (String.append _ _) => eapply text_app; [text_part|text_part|reflexivity]
  | |- text _ (go_quote _ _) => apply text_printable, go_quote_printable, ASCIIFold_printable
  | |- text _ (ASCIIFold _) => apply text_printable, ASCIIFold_printable
  | |- text _ (familyName _) => apply text_printable, familyName_printable
  | |- text _ (HumanDays _) => apply text_printable, HumanDays_printable
  | |- text _ (pad _ _) => apply text_printable, pad_printable; first [apply familyName_printable|apply HumanDays_printable]
  | |- text _ (format_int _) => apply text_printable, format_int_printable
  | |- text _ _ => split; vm_compute; reflexivity
  end.

Lemma owner_subject_text n : text 0 (OwnerSubject (fold_notice n)).
Proof. unfold OwnerSubject, fold_notice. simpl. destruct (bool_decide _); text_part. Qed.

Lemma owner_body_text T n : text 5 (RenderOwnerBody T (fold_notice n)).
Proof.
  unfold RenderOwnerBody, fold_notice. cbv zeta. cbn [n_Family n_Device n_Kind n_Remaining n_Surviving dev_Label with_label].
  assert (H2 : forall k m w, text 2 (if bool_decide (n_Kind n = KindRemoved) then k else m) ->
    text 3 w -> text 5 ((if bool_decide (n_Kind n = KindRemoved) then k else m) ++ w)).
  { intros k m w Hk Hw. by eapply text_app. }
  apply H2; [destruct (bool_decide _); text_part|]. eapply (text_app 1 2); [|text_part|done].
  destruct (n_Surviving n) as [|f fs]; [destruct (bool_decide _); text_part|].
  apply (text_app 0 1); [text_part| |done]. apply (text_app 0 1); [|text_part|done].
  apply text_printable, text_join; [done|]. apply Forall_fmap, Forall_true. intros g. apply familyName_printable.
Qed.

Lemma digest_subject_text ns : text 0 (AdminDigestSubject ns).
Proof. unfold AdminDigestSubject. text_part. Qed.

Lemma digest_line_text n : text 1 (digest_line (fold_notice n)).
Proof. unfold digest_line, fold_notice. cbn. destruct (bool_decide _); text_part. Qed.

Lemma digest_body_text ns : text (2 + length ns) (RenderAdminDigestBody (foldForMail ns)).
Proof.
  unfold RenderAdminDigestBody, foldForMail.
  assert (H : forall k s, text k s ->
    text (k + length ns) (foldl (fun acc n => acc ++ digest_line n)%string s (fold_notice <$> ns))).
  { induction ns as [|n ns IH]; intros k s Hs; cbn; [by rewrite Nat.add_0_r|].
    rewrite <- Nat.add_succ_comm. apply IH. eapply text_app; [exact Hs|apply digest_line_text|lia]. }
  apply H. text_part.
Qed.

(** What the mail channel makes of a delivery passes the transport's checks and
    has [k] line breaks. *)
Definition stale_ok (P : string -> option (string * string)) (from : string) (k : nat) (T : Z -> bool)
    (d : ChannelDelivery) : Prop :=
  exists msg, mail_message T d = Some msg /\ checkSendable P from (cd_Recipient d) msg.1 msg.2 = None /\
    breaks msg.2 = k /\ forall T', mail_message T' d = Some msg.

Lemma stale_message P from k T d subject body :
  (exists p, SplitFrom P from = inl p) -> checkAddress P FieldTo (cd_Recipient d) = None ->
  mail_message T d = Some (subject, body) -> text 0 subject -> text k body -> stale_ok P from k T d.
Proof.
  intros [p Hf] Ht Hm [Hs1 Hs2] [Hb1 Hb2]. exists (subject, body). split; [done|]. split; [|split; [done|]].
  - unfold checkSendable. rewrite Hf, Ht. simpl. rewrite Hs2, Hb2. simpl.
    assert (all_chars (fun c => negb (line_break c)) subject = true) as ->; [|done].
    clear -Hs1. induction subject as [|c s IH]; [done|]. cbn [breaks all_chars] in *.
    destruct (line_break c); [done|]. by apply IH.
  - intros T'. by rewrite (mail_message_table T' T).
Qed.

#[local] Ltac notice_line :=
  lazymatch goal with
  | |- all_printable (String.append _ _) = true => apply printable_app; notice_line
  | |- all_printable (ASCIIFold _) = true => apply ASCIIFold_printable
  | |- _ => first [assumption | vm_compute; reflexivity]
  end.
#[local] Ltac notice :=
  apply notice_lines; [assumption|assumption|vm_compute; reflexivity| |reflexivity];
  repeat (apply Forall_cons; split; [apply printable_text; notice_line|]); apply Forall_nil; exact I.

(** C28: A notice cannot be suppressed or forged by the address or label it
    quotes: for every such value, however malformed, the notices to
    administrators and owners pass the transport's checks and have exactly the
    lines of their template.  The identifier of an account or device is quoted
    as it is, without folding: the statement assumes it printable ASCII, as the
    identifiers the server issues are (uuid.NewString).  The same holds, with
    no assumption on what they quote, of the staleness notices of the mail
    channel, an owner's and the one digest all administrators get (a line per
    notice), and what the channel sends does not depend on the table of
    printable runes. *)
Theorem notices_unforgeable P from to (value id : string)
    (Hfrom : exists p, SplitFrom P from = inl p) (Hto : checkAddress P FieldTo to = None)
    (Hid : all_printable id = true) :
  notice_ok P from to 3 (AdminNotifyBody value id) /\ notice_ok P from to 7 (ChangeNoticeBody value) /\
  notice_ok P from to 4 (ChangedBody value) /\ notice_ok P from to 4 (AdminChangedBody value) /\
  notice_ok P from to 7 (DeviceStateChangedByAdminBody value id true) /\
  notice_ok P from to 5 (DeviceStateChangedByAdminBody value id false) /\
  (forall T n, stale_ok P from 5 T (MkChannelDelivery AudienceOwner to [n])) /\
  (forall T ns, stale_ok P from (2 + length ns) T (MkChannelDelivery AudienceAdmin to ns)).
Proof.
  split_and!; [notice..| |]; intros T; intros; (eapply stale_message; [done|done|reflexivity|..]).
  - apply owner_subject_text.
  - apply owner_body_text.
  - apply digest_subject_text.
  - apply digest_body_text.
Qed.

(** An address of two lines and a blank in it still makes three lines. *)
Definition forged : string := ("x@example.org" ++ crlf ++ "No action is required.")%string.

Definition forged_notice : Notice :=
  MkNotice KindWarning 3 (with_label (scanDevice demo_device) forged) (with_email (scanUser demo_user) forged) 4
    172800 (2 * 86400 * 10 ^ 9) [6].

(** What an owner reads of that label. *)
Example quoted_label : go_quote (fun _ => false) (ASCIIFold forged) =
  String dq ("x@example.org??No action is required." ++ str1 dq).
Proof. vm_compute. reflexivity. Qed.

Lemma notices_unforgeable_witness :
  IsASCII forged = true /\ breaks forged = 2%nat /\
  notice_ok demo_parse "ddns@example.org" "a@example.org" 3 (AdminNotifyBody forged "u1") /\
  stale_ok demo_parse "ddns@example.org" 3 (fun _ => false)
    (MkChannelDelivery AudienceAdmin "a@example.org" [forged_notice]).
Proof.
  split; [vm_compute; reflexivity|]. split; [vm_compute; reflexivity|].
  assert (Hf : exists p, SplitFrom demo_parse "ddns@example.org" = inl p) by (vm_compute; by eexists).
  assert (Ht : checkAddress demo_parse FieldTo "a@example.org" = None) by (vm_compute; reflexivity).
  assert (Hi : all_printable "u1" = true) by (vm_compute; reflexivity).
  pose proof (notices_unforgeable demo_parse "ddns@example.org" "a@example.org" forged "u1" Hf Ht Hi) as H.
  split; [exact (proj1 H)|]. destruct H as (_ & _ & _ & _ & _ & _ & _ & Hd).
  exact (Hd (fun _ => false) [forged_notice]).
Defined.
