(* ===== verification/Pruner.v ===== *)
(** * internal/server/pruner.go

    The hourly pruning pass.  The batch loops of the source run until a batch
    deletes nothing or fails; here they take fuel, the number of rows of the
    table plus one, and [None] is running out of it, which the theorems exclude
    (each batch before the last deletes at least one row).  The pass runs
    between the steps of other goroutines: a batch loop is modelled as running
    alone, the single database connection serialising its statements. *)

From S2P Require Import Prelude Schema Integrity Effects Demo StoreUsers StoreDevices StoreTokens StoreNotify.
From S2P Require Import Auth ServiceDevices Notify Feed Email Stale.

Definition pruneBatchSize : Z := 5000.

(** config.go, [RetentionSection] *)
Record RetentionSection := MkRetention {
  ret_IPHistoryDays : Z; ret_IPHistoryPerDeviceMax : Z; ret_AuditLogDays : Z; ret_DeliveriesDays : Z }.

(** [for { n, err := step(); if err != nil { break }; deleted += n; if n == 0 { break } }] *)
Fixpoint batch_loop (fuel : nat) (step : M nat) (deleted : nat) : M (option nat) :=
  match fuel with
  | O => mret None
  | S fuel =>
      r ← attempt step;
      match r with
      | None => mret (Some deleted)
      | Some n => if Nat.eqb n 0 then mret (Some deleted) else batch_loop fuel step (deleted + n)%nat
      end
  end.

(** The loop with fuel for a table of the database. *)
Definition drain {R : Type} `{TableDef R} (step : M nat) (deleted : nat) : M (option nat) := fun w =>
  batch_loop (S (length (rows (w_db w)))) step deleted w.

Definition pruneAuditLog (c : ctx) (cutoff : Z) : M (option nat) :=
  drain (R:=audit_row) (AuditLogRepo.Prune c cutoff pruneBatchSize) 0.

Definition pruneNotificationDeliveries (c : ctx) (cutoff : Z) : M (option nat) :=
  drain (R:=delivery_row) (NotificationDeliveryRepo.Prune c cutoff pruneBatchSize) 0.

Fixpoint prune_devices (c : ctx) (olderThan perDeviceMax : Z) (devices : list Device) (deleted : nat)
    : M (option nat) :=
  match devices with
  | [] => mret (Some deleted)
  | dev :: rest =>
      gone ← ctx_err c;
      if gone : bool then mret (Some deleted)
      else
        n ← drain (R:=history_row)
              (IPHistoryRepo.Prune c (dev_ID dev) olderThan perDeviceMax pruneBatchSize) deleted;
        match n with
        | None => mret None
        | Some deleted => prune_devices c olderThan perDeviceMax rest deleted
        end
  end.

Definition pruneIPHistory (c : ctx) (ret : RetentionSection) (now : Z) : M (option nat) :=
  let olderThan := if 0 <? ret_IPHistoryDays ret then now - ret_IPHistoryDays ret * 86400 else min_int64 in
  devices ← attempt (DeviceRepo.ListAll c);
  match devices with
  | None => mret (Some 0%nat)
  | Some devices => prune_devices c olderThan (ret_IPHistoryPerDeviceMax ret) devices 0
  end.

Definition or_zero (b : bool) (m : M (option nat)) : M (option nat) := if b then m else mret (Some 0%nat).

(** The three counts; [None] is a loop out of fuel. *)
Definition pruneRetention (c : ctx) (ret : RetentionSection) : M (option (nat * nat * nat)) :=
  now ← now_unix;
  ip ← or_zero ((0 <? ret_IPHistoryDays ret) || (0 <? ret_IPHistoryPerDeviceMax ret)) (pruneIPHistory c ret now);
  au ← or_zero (0 <? ret_AuditLogDays ret) (pruneAuditLog c (now - ret_AuditLogDays ret * 86400));
  de ← or_zero (0 <? ret_DeliveriesDays ret)
         (pruneNotificationDeliveries c (now - ret_DeliveriesDays ret * 86400));
  mret (match ip, au, de with Some a, Some b, Some d => Some (a, b, d) | _, _, _ => None end).

Definition prune (c : ctx) (ret : RetentionSection) : M (option unit) :=
  now ← now_unix;
  attempt (ReplayNonceRepo.PruneExpired c now);;
  attempt (SessionRepo.PruneExpired c now);;
  attempt (EnrollmentCodeRepo.PruneExpired c now);;
  attempt (OIDCDeviceFlowRepo.PruneExpired c now);;
  attempt (AccountRecoveryRepo.PruneExpired c now);;
  attempt (UserRepo.ClearExpiredPendingEmails c now);;
  counts ← pruneRetention c ret;
  match counts with
  | None => mret None
  | Some (ipRows, auditRows, deliveryRows) =>
      (if Nat.ltb 0 (ipRows + auditRows + deliveryRows) then
         attempt (AuditLogRepo.Append (without_cancel c)
           (MkAuditEntry 0 EmptyString "retention.prune" EmptyString EmptyString EmptyString EmptyString EmptyString 0));;
         mret tt
       else mret tt);;
      mret (Some tt)
  end.

(** ** The ticker *)

Section Ticker.
Context (channel_send : ctx -> ChannelDelivery -> M unit) (admins : ctx -> M (list User)).

(** What a tick runs: a sweep that fails is logged. *)
Definition prune_tick (c : ctx) (ret : RetentionSection) (sw : option sweeper) : M (option unit) :=
  done ← prune c ret;
  match sw with
  | None => mret done
  | Some s => now ← now_unix; attempt (Run channel_send admins s c now);; mret done
  end.

(** What the select of the loop takes each time; at the end of the list the
    loop waits. *)
Inductive wake := WakeDone | WakeTick.

Fixpoint runPruner (c : ctx) (ret : RetentionSection) (sw : option sweeper) (ws : list wake) : M (option unit) :=
  match ws with
  | [] | WakeDone :: _ => mret (Some tt)
  | WakeTick :: ws =>
      done ← prune_tick c ret sw;
      match done with None => mret None | Some _ => runPruner c ret sw ws end
  end.
End Ticker.

(** * What the pruning pass guarantees

    Properties of Pruner: the batch loops end with the fuel the model gives
    them, and the pass never deletes a delivery still owed or a device's newest
    history row, and touches nothing of a table whose retention is off. *)

From S2P Require Import Auth ServiceDevices DeviceFacts ServiceFacts NotifyFacts.

(** ** Termination *)

Section Loops.
Context {R : Type} `{TableDef R}.

(** A batch reports what it removed from the table. *)
Definition shrinks (m : M nat) : Prop := forall w,
  wp m (fun r w' => match r with
    | Ok n => (length (rows (w_db w')) + n)%nat = length (rows (w_db w))
    | Err _ => True
    | Panic => False
    end) w.

Lemma batch_loop_ends (m : M nat) fuel deleted w :
  shrinks m -> (length (rows (w_db w)) < fuel)%nat ->
  wp (batch_loop fuel m deleted) (fun r _ => exists n, r = Ok (Some n)) w.
Proof.
  intros Hm. revert deleted w. induction fuel as [|fuel IH]; intros deleted w Hl; [lia|]. simpl.
  wp_step. wp_step. eapply wp_mono; [apply Hm|]. intros [n|e|] w' Hr; [|wp_step; by eexists|done].
  destruct (Nat.eqb_spec n 0); [wp_step; by eexists|]. apply IH. lia.
Qed.

Lemma drain_ends (m : M nat) deleted w :
  shrinks m -> wp (drain (R:=R) m deleted) (fun r _ => exists n, r = Ok (Some n)) w.
Proof. intros Hm. unfold drain. apply batch_loop_ends; [done|lia]. Qed.

Lemma shrinks_delete c (p : DB -> R -> bool) :
  (forall l d, rows (set_rows l d) = l) ->
  shrinks (n ← exec_delete_where c p; rows_affected n).
Proof.
  intros Hrs w. wp_step. wp_step; [done|]. wp_step; [done|]. simpl. rewrite Hrs. apply rows_delete_length.
Qed.
End Loops.

Lemma shrinks_history c dev o m b : shrinks (R:=history_row) (IPHistoryRepo.Prune c dev o m b).
Proof. unfold IPHistoryRepo.Prune. by apply (shrinks_delete (R:=history_row)). Qed.
Lemma shrinks_audit c o b : shrinks (R:=audit_row) (AuditLogRepo.Prune c o b).
Proof. unfold AuditLogRepo.Prune. by apply (shrinks_delete (R:=audit_row)). Qed.
Lemma shrinks_deliveries c o b : shrinks (R:=delivery_row) (NotificationDeliveryRepo.Prune c o b).
Proof. unfold NotificationDeliveryRepo.Prune. by apply (shrinks_delete (R:=delivery_row)). Qed.

Lemma prune_devices_ends c o m devices deleted w :
  wp (prune_devices c o m devices deleted) (fun r _ => exists n, r = Ok (Some n)) w.
Proof.
  revert deleted w. induction devices as [|dev devices IH]; intros deleted w; simpl; [wp_step; by eexists|].
  wp_step. unfold ctx_err, wp at 1. cbn [fst snd]. destruct (c _); [wp_step; by eexists|].
  wp_step. eapply wp_mono; [apply drain_ends, shrinks_history|]. intros r w' [n ->]. apply IH.
Qed.

Lemma or_zero_ends b (m : M (option nat)) w :
  (forall w, wp m (fun r _ => exists n, r = Ok (Some n)) w) ->
  wp (or_zero b m) (fun r _ => exists n, r = Ok (Some n)) w.
Proof. intros Hm. unfold or_zero. destruct b; [apply Hm|wp_step; by eexists]. Qed.

Lemma pruneRetention_ends c ret w :
  wp (pruneRetention c ret) (fun r _ => exists counts, r = Ok (Some counts)) w.
Proof.
  unfold pruneRetention. wp_step. wp_step. wp_step. eapply wp_mono; [apply or_zero_ends|intros r w1 [a ->]].
  { intros w1. unfold pruneIPHistory, DeviceRepo.ListAll. wp_step. wp_step. wp_step.
    - wp_step. by eexists.
    - apply prune_devices_ends. }
  wp_step. eapply wp_mono; [apply or_zero_ends|intros r w2 [b ->]].
  { intros w2. apply drain_ends, shrinks_audit. }
  wp_step. eapply wp_mono; [apply or_zero_ends|intros r w3 [d ->]].
  { intros w3. apply drain_ends, shrinks_deliveries. }
  wp_step. by eexists.
Qed.

(** An expiry delete: an error or a count. *)
Lemma wp_attempt_total {A} (m : M A) (Q : result (option A) -> World -> Prop) w :
  wp m (fun r _ => r <> Panic) w -> (forall o w', Q (Ok o) w') -> wp (attempt m) Q w.
Proof.
  intros Hm HQ. wp_step. eapply wp_mono; [exact Hm|]. by intros [a|e|] w1 Hr.
Qed.

(** The pruning pass always ends: under every fault, cancellation and
    database, no batch loop runs for ever (each batch but the last removes a
    row) and the pass returns normally, never with an error or a panic. *)
Theorem prune_ends (c : ctx) (ret : RetentionSection) (w : World) :
  wp (prune c ret) (fun r _ => r = Ok (Some tt)) w.
Proof.
  unfold prune. wp_step. wp_step.
  repeat (wp_step; apply wp_attempt_total;
    [unfold ReplayNonceRepo.PruneExpired, SessionRepo.PruneExpired, EnrollmentCodeRepo.PruneExpired,
       OIDCDeviceFlowRepo.PruneExpired, AccountRecoveryRepo.PruneExpired, UserRepo.ClearExpiredPendingEmails;
     wp_step; wp_step; [done|]; wp_step; done|intros ? ?]).
  wp_step. eapply wp_mono; [apply pruneRetention_ends|]. intros r wz [[[a b] d] ->]. wp_step.
  destruct (Nat.ltb _ _); [|by wp_step; wp_step].
  wp_step. apply wp_attempt_total; [|by intros ? ?; wp_step; wp_step].
  unfold AuditLogRepo.Append. wp_step. simpl. wp_step. wp_step.
  eapply wp_exec_insert_auto; [reflexivity|done|done|]. intros _. wp_step. wp_step; [done|]. by wp_step.
Qed.

(** ** Safety *)

(** A delivery the worker still owes: neither made nor given up. *)
Definition owed (r : delivery_row) : Prop := rv_status r <> "delivered"%string /\ rv_status r <> "failed"%string.

Lemma owed_open r : owed r -> deliveryTerminal (rv_status r) = false.
Proof. intros [H1 H2]. apply orb_false_iff. split; by apply str_eq_false. Qed.

(** The newest row of its device. *)
Definition newest (d : DB) (row : history_row) : Prop :=
  row ∈ d_history d /\ forall r, r ∈ d_history d -> rh_device_id r = rh_device_id row -> rh_id r <= rh_id row.

Section Safety.
Context (d0 : DB).

(** What the pass keeps of the database it started from. *)
Definition kept (d : DB) : Prop :=
  wf_db d /\
  (forall r, r ∈ d_deliveries d0 -> owed r -> r ∈ d_deliveries d) /\
  (forall row, newest d0 row -> newest d row).

Lemma kept_elsewhere {A} (m : M A) :
  preserves wf_db m ->
  (forall D, preserves (fun d => d_deliveries d = D) m) -> (forall D, preserves (fun d => d_history d = D) m) ->
  preserves kept m.
Proof.
  intros Hwf Hd Hh w (Hw & Hk & Hn). split; [by apply Hwf|]. split.
  - intros r Hr Ho. rewrite (Hd (d_deliveries (w_db w)) w eq_refl). auto.
  - intros row Hrow. unfold newest. rewrite (Hh (d_history (w_db w)) w eq_refl). by apply Hn.
Qed.

Lemma history_ids d : wf_db d -> NoDup (rh_id <$> d_history d).
Proof. intros Hwf. destruct (wf_history _ Hwf) as [Hu _ _]. eapply (uniq_NoDup_int rh_id); [by left|exact Hu]. Qed.

Lemma delivery_ids d : wf_db d -> NoDup (rv_id <$> d_deliveries d).
Proof. intros Hwf. destruct (wf_deliveries _ Hwf) as [Hu _ _]. eapply (uniq_NoDup_int rv_id); [by left|exact Hu]. Qed.

Lemma kept_history c dev o m b : preserves kept (IPHistoryRepo.Prune c dev o m b).
Proof.
  unfold IPHistoryRepo.Prune. pres. apply pres_stmt. intros d (Hwf & Hk & Hn). cbn [snd].
  split; [by apply (wf_db_delete (R:=history_row))|]. split; [exact Hk|].
  intros row Hrow. destruct (Hn row Hrow) as [Hin Hmax]. split.
  - apply elem_of_rows_delete. split; [done|]. apply not_true_iff_false. intros Hsel.
    assert (Hp : IPHistoryRepo.prunable dev o m d row = true).
    { eapply (batch_selected rh_id _ b); [|exact Hin|exact Hsel].
      by apply history_ids. }
    destruct (prunable_sound _ _ _ _ _ Hin Hp) as (Hdev & (y & Hy & Hyd & Hlt) & _).
    specialize (Hmax y Hy ltac:(congruence)). lia.
  - intros r [Hr _]%elem_of_rows_delete. by apply Hmax.
Qed.

Lemma kept_deliveries c o b : preserves kept (NotificationDeliveryRepo.Prune c o b).
Proof.
  unfold NotificationDeliveryRepo.Prune. pres. apply pres_stmt. intros d (Hwf & Hk & Hn). cbn [snd].
  split; [by apply (wf_db_delete (R:=delivery_row))|]. split; [|exact Hn].
  intros r Hr Ho. specialize (Hk r Hr Ho). apply elem_of_rows_delete. split; [done|].
  apply not_true_iff_false. intros Hsel.
  assert (Hp : NotificationDeliveryRepo.prunable o r = true).
  { eapply (batch_selected rv_id _ b); [|exact Hk|exact Hsel].
    by apply delivery_ids. }
  unfold NotificationDeliveryRepo.prunable in Hp. rewrite (owed_open _ Ho) in Hp. by rewrite andb_false_r in Hp.
Qed.

Lemma batch_loop_pres I fuel m deleted : preserves I m -> preserves I (batch_loop fuel m deleted).
Proof.
  intros Hm. revert deleted. induction fuel as [|fuel IH]; intros deleted; simpl; [apply pres_ret|]. pres.
Qed.

Lemma drain_pres I {R : Type} `{TableDef R} m deleted : preserves I m -> preserves I (drain (R:=R) m deleted).
Proof. intros Hm w Hw. unfold drain. by apply (batch_loop_pres I). Qed.

Lemma ctx_err_pres I c : preserves I (ctx_err c).
Proof. by intros w Hw. Qed.

Lemma prune_devices_pres I c o m devices deleted :
  (forall dev b, preserves I (IPHistoryRepo.Prune c dev o m b)) -> preserves I (prune_devices c o m devices deleted).
Proof.
  intros Hp. revert deleted. induction devices as [|dev devices IH]; intros deleted; simpl; [apply pres_ret|].
  apply pres_bind; [apply ctx_err_pres|]. intros []; [apply pres_ret|].
  apply pres_bind; [by apply drain_pres|]. intros [n|]; [apply IH|apply pres_ret].
Qed.

Lemma pruneRetention_pres I c ret :
  (0 < ret_IPHistoryDays ret \/ 0 < ret_IPHistoryPerDeviceMax ret ->
     forall dev o m b, preserves I (IPHistoryRepo.Prune c dev o m b)) ->
  (0 < ret_AuditLogDays ret -> forall o b, preserves I (AuditLogRepo.Prune c o b)) ->
  (0 < ret_DeliveriesDays ret -> forall o b, preserves I (NotificationDeliveryRepo.Prune c o b)) ->
  preserves I (pruneRetention c ret).
Proof.
  intros Hh Ha Hd. unfold pruneRetention, or_zero. apply pres_bind; [apply pres_now|intros now].
  apply pres_bind.
  { destruct (_ || _) eqn:Hb; [|apply pres_ret]. unfold pruneIPHistory, DeviceRepo.ListAll.
    apply pres_bind; [pres|]. intros [ds|]; [|apply pres_ret]. apply prune_devices_pres. intros dev b. apply Hh. lia. }
  intros a. apply pres_bind.
  { destruct (0 <? _) eqn:Hb; [|apply pres_ret]. apply drain_pres, Ha. lia. }
  intros b. apply pres_bind; [|intros; apply pres_ret].
  destruct (0 <? _) eqn:Hb; [|apply pres_ret]. apply drain_pres, Hd. lia.
Qed.

(** The expiry deletes and the audit record of the pass, for an invariant of
    the two tables they do not touch. *)
Lemma prune_pres I c ret :
  (forall now, preserves I (ReplayNonceRepo.PruneExpired c now)) ->
  (forall now, preserves I (SessionRepo.PruneExpired c now)) ->
  (forall now, preserves I (EnrollmentCodeRepo.PruneExpired c now)) ->
  (forall now, preserves I (OIDCDeviceFlowRepo.PruneExpired c now)) ->
  (forall now, preserves I (AccountRecoveryRepo.PruneExpired c now)) ->
  (forall now, preserves I (UserRepo.ClearExpiredPendingEmails c now)) ->
  (forall c e, preserves I (AuditLogRepo.Append c e)) ->
  preserves I (pruneRetention c ret) -> preserves I (prune c ret).
Proof. intros. unfold prune. pres; auto. Qed.

(** The same for a projection of the database. *)
Lemma prune_keeps_table {T} (proj : DB -> T) c D :
  (forall t d, proj (setd_nonces t d) = proj d) -> (forall t d, proj (setd_sessions t d) = proj d) ->
  (forall t d, proj (setd_codes t d) = proj d) -> (forall t d, proj (setd_flows t d) = proj d) ->
  (forall t d, proj (setd_recovery t d) = proj d) -> (forall t d, proj (setd_users t d) = proj d) ->
  (forall now, preserves (fun d => proj d = D) (ReplayNonceRepo.PruneExpired c now)) /\
  (forall now, preserves (fun d => proj d = D) (SessionRepo.PruneExpired c now)) /\
  (forall now, preserves (fun d => proj d = D) (EnrollmentCodeRepo.PruneExpired c now)) /\
  (forall now, preserves (fun d => proj d = D) (OIDCDeviceFlowRepo.PruneExpired c now)) /\
  (forall now, preserves (fun d => proj d = D) (AccountRecoveryRepo.PruneExpired c now)) /\
  (forall now, preserves (fun d => proj d = D) (UserRepo.ClearExpiredPendingEmails c now)).
Proof.
  intros H1 H2 H3 H4 H5 H6.
  unfold ReplayNonceRepo.PruneExpired, SessionRepo.PruneExpired, EnrollmentCodeRepo.PruneExpired,
    OIDCDeviceFlowRepo.PruneExpired, AccountRecoveryRepo.PruneExpired, UserRepo.ClearExpiredPendingEmails.
  split_and!; intros now; pres; apply pres_stmt; intros d Hd; cbn [snd set_rows
    nonces_table sessions_table codes_table flows_table recovery_table users_table];
    by rewrite ?H1, ?H2, ?H3, ?H4, ?H5, ?H6.
Qed.

Lemma Append_keeps_table {T} (proj : DB -> T) c e D :
  (forall n t d, proj (setd_audit_seq n (setd_audit t d)) = proj d) ->
  preserves (fun d => proj d = D) (AuditLogRepo.Append c e).
Proof.
  intros Ha. unfold AuditLogRepo.Append. pres; apply pres_stmt; intros d Hd; simpl;
    repeat case_match; simplify_eq/=; auto; by rewrite Ha.
Qed.
End Safety.

(** The pass preserves a projection of the database that no expiry delete, no
    audit record and no enabled retention batch writes. *)
Lemma prune_keeps_projection {T} (proj : DB -> T) c ret D :
  (forall t d, proj (setd_nonces t d) = proj d) -> (forall t d, proj (setd_sessions t d) = proj d) ->
  (forall t d, proj (setd_codes t d) = proj d) -> (forall t d, proj (setd_flows t d) = proj d) ->
  (forall t d, proj (setd_recovery t d) = proj d) -> (forall t d, proj (setd_users t d) = proj d) ->
  (forall n t d, proj (setd_audit_seq n (setd_audit t d)) = proj d) ->
  preserves (fun d => proj d = D) (pruneRetention c ret) -> preserves (fun d => proj d = D) (prune c ret).
Proof.
  intros H1 H2 H3 H4 H5 H6 H7 Hr.
  destruct (prune_keeps_table proj c D H1 H2 H3 H4 H5 H6) as (? & ? & ? & ? & ? & ?).
  apply prune_pres; auto. intros. by apply Append_keeps_table.
Qed.

(** A batch delete of a table keeps the projections that do not read it. *)
Lemma batch_keeps {R T : Type} `{TableDef R} (proj : DB -> T) (D : T) c (p : DB -> R -> bool) :
  (forall l d, proj (set_rows l d) = proj d) ->
  preserves (fun d => proj d = D) (n ← exec_delete_where c p; rows_affected n).
Proof. intros Hp. pres. apply pres_stmt. intros d Hd. simpl. by rewrite Hp. Qed.

Lemma prune_wf c ret : preserves wf_db (prune c ret).
Proof.
  apply prune_pres; intros; auto with effects.
  apply pruneRetention_pres; intros; auto with effects.
Qed.

Lemma prune_kept d0 c ret : preserves (kept d0) (prune c ret).
Proof.
  pose proof (fun D => prune_keeps_table d_deliveries c D ltac:(done) ltac:(done) ltac:(done) ltac:(done)
    ltac:(done) ltac:(done)) as Hd.
  pose proof (fun D => prune_keeps_table d_history c D ltac:(done) ltac:(done) ltac:(done) ltac:(done)
    ltac:(done) ltac:(done)) as Hh.
  apply prune_pres; try (intros now; apply kept_elsewhere; [auto with effects|intros D; apply Hd|intros D; apply Hh]).
  - intros c' e. apply kept_elsewhere; [auto with effects|intros D; by apply Append_keeps_table..].
  - apply pruneRetention_pres; intros _; [apply kept_history| |apply kept_deliveries].
    intros o b. apply kept_elsewhere; [auto with effects|intros D; by apply batch_keeps..].
Qed.

(** The audit log only grows when its retention is off. *)
Lemma prune_audit_grows c ret d0 :
  ret_AuditLogDays ret <= 0 -> preserves (fun d => forall r, r ∈ d_audit d0 -> r ∈ d_audit d) (prune c ret).
Proof.
  intros Hoff.
  assert (Hel : forall {A} (m : M A), (forall D, preserves (fun d => d_audit d = D) m) ->
    preserves (fun d => forall r, r ∈ d_audit d0 -> r ∈ d_audit d) m).
  { intros A m Hm w Hw r Hr. rewrite (Hm (d_audit (w_db w)) w eq_refl). auto. }
  pose proof (fun D => prune_keeps_table d_audit c D ltac:(done) ltac:(done) ltac:(done) ltac:(done)
    ltac:(done) ltac:(done)) as Ha.
  apply prune_pres; try (intros now; apply Hel; intros D; apply Ha).
  - intros c' e. unfold AuditLogRepo.Append. pres; apply pres_stmt; intros d Hd r Hr; simpl;
      repeat case_match; simplify_eq/=; auto; apply elem_of_app; auto.
  - apply pruneRetention_pres; intros; [|lia|]; apply Hel; intros D; by apply batch_keeps.
Qed.

(** C36: what the pruning pass never takes, under every fault and cancellation:
    deliveries the worker still owes, the newest address-history row of each
    device, every device, and every row of a history, delivery or audit table
    whose retention is off; and it keeps the database consistent. *)
Theorem prune_safe (c : ctx) (ret : RetentionSection) (w : World) (Hwf : wf_db (w_db w)) :
  let d := w_db w in
  let d' := w_db (prune c ret w).2 in
  wf_db d' /\
  (forall r, r ∈ d_deliveries d -> owed r -> r ∈ d_deliveries d') /\
  (forall row, newest d row -> newest d' row) /\
  d_devices d' = d_devices d /\
  (ret_IPHistoryDays ret <= 0 -> ret_IPHistoryPerDeviceMax ret <= 0 -> d_history d' = d_history d) /\
  (ret_DeliveriesDays ret <= 0 -> d_deliveries d' = d_deliveries d) /\
  (ret_AuditLogDays ret <= 0 -> forall r, r ∈ d_audit d -> r ∈ d_audit d').
Proof.
  intros d d'.
  destruct (prune_kept d c ret w) as (H1 & H2 & H3).
  { split; [exact Hwf|]. by split; intros. }
  split_and!; [done|done|done| | | |].
  - apply (prune_keeps_projection d_devices c ret (d_devices d)); try done.
    apply pruneRetention_pres; intros; by apply batch_keeps.
  - intros Ha Hb. apply (prune_keeps_projection d_history c ret (d_history d)); try done.
    apply pruneRetention_pres; intros; [lia|by apply batch_keeps..].
  - intros Ha. apply (prune_keeps_projection d_deliveries c ret (d_deliveries d)); try done.
    apply pruneRetention_pres; intros; [by apply batch_keeps..|lia].
  - intros Ha. by apply (prune_audit_grows c ret d).
Qed.

Lemma prune_safe_witness :
  let row := HistoryRow 3 "d1" (Some "192.0.2.1") (Some "2001:db8::1") 900 None in
  newest demo_db row /\ newest (w_db (prune background (MkRetention 0 1 0 0) demo_world).2) row.
Proof.
  intros row. assert (Hn : newest demo_db row).
  { split; [by right; right; left|]. intros r Hr _. cbn in Hr. rewrite !elem_of_cons, elem_of_nil in Hr.
    destruct Hr as [->|[->|[->|[]]]]; simpl; lia. }
  split; [exact Hn|].
  destruct (prune_safe background (MkRetention 0 1 0 0) demo_world demo_wf) as (_ & _ & H & _). by apply H.
Defined.

(** ** The loop goes on *)

(** A computation that may fail but does not panic. *)
Definition calm {A} (m : M A) : Prop := forall w, (m w).1 <> Panic.

Section Calm.
Lemma calm_ret {A} (a : A) : calm (mret a).
Proof. done. Qed.
Lemma calm_fail {A} e : calm (@fail A e).
Proof. done. Qed.
Lemma calm_bind {A B} (m : M A) (k : A -> M B) : calm m -> (forall a, calm (k a)) -> calm (m ≫= k).
Proof.
  intros Hm Hk w. unfold mbind, M_bind. specialize (Hm w). destruct (m w) as [[a|e|] w']; [apply Hk|done|done].
Qed.
Lemma calm_catch {A} (m : M A) : calm m -> calm (catch m).
Proof. intros Hm w. unfold catch. specialize (Hm w). by destruct (m w) as [[a|e|] w']. Qed.
Lemma calm_attempt {A} (m : M A) : calm m -> calm (attempt m).
Proof. intros Hm. apply calm_bind; [by apply calm_catch|]. by intros []. Qed.
Lemma calm_map_err {A} f (m : M A) : calm m -> calm (map_err f m).
Proof. intros Hm. apply calm_bind; [by apply calm_catch|]. by intros []. Qed.
Lemma calm_stmt {A} c (k : DB -> result A * DB) : (forall d, (k d).1 <> Panic) -> calm (stmt c k).
Proof. intros Hk w. unfold stmt. destruct (_ || _); [done|]. specialize (Hk (w_db w)). by destruct (k (w_db w)). Qed.
Lemma calm_driver {A} (a : A) : calm (driver_value a).
Proof. intros w. unfold driver_value. by destruct (e_fault _ _). Qed.
Lemma calm_with_tx {A} c (m : M (A * bool)) : calm m -> calm (with_tx c m).
Proof.
  intros Hm w. unfold with_tx. destruct (_ || _); [done|]. specialize (Hm (bump w)).
  destruct (m (bump w)) as [[[a []]|e|] w2]; try done. by destruct (_ || _).
Qed.
Lemma calm_foreach {A} (l : list A) f : (forall x, calm (f x)) -> calm (foreach l f).
Proof. intros Hf. induction l as [|x l IH]; [done|]. by apply calm_bind. Qed.
Lemma calm_collect {A B} (l : list A) (f : A -> M B) : (forall x, calm (f x)) -> calm (collect l f).
Proof. intros Hf. induction l as [|x l IH]; [done|]. apply calm_bind; [done|]. intros y. by apply calm_bind. Qed.
End Calm.
Create HintDb calm.
#[local] Hint Resolve calm_ret calm_fail : calm.

(** Goes through a computation; what is left are statements of its own and the
    calls it does not know. *)
#[local] Ltac calm_step :=
  match goal with
  | |- calm (mbind _ _) => apply calm_bind; [|intros ?]
  | |- calm (match ?x with _ => _ end) => destruct x
  | |- calm (stmt _ _) => apply calm_stmt; intros ?; repeat case_match; done
  | |- calm (foreach _ _) => apply calm_foreach; intros ?
  | |- calm (collect _ _) => apply calm_collect; intros ?
  | |- calm (attempt _) => apply calm_attempt
  | |- calm (catch _) => apply calm_catch
  | |- calm (map_err _ _) => apply calm_map_err
  | |- calm (with_tx _ _) => apply calm_with_tx
  | |- calm (rows_affected _) => apply calm_driver
  | |- calm (last_insert_id _) => apply calm_driver
  | |- calm _ => first [solve [auto with calm] | done]
  end.
#[local] Ltac calm := repeat calm_step.
#[local] Hint Unfold get_one query query_row exec_update exec_insert_auto exec_insert : calm.

Section Sweeps.
Context (print_table : Z -> bool) (m : Mailer) `{!QuietMailer m}.

Lemma mail_Send_calm c d : (cd_Audience d = AudienceOwner -> cd_Notices d <> []) -> calm (mail_Send print_table m c d).
Proof.
  intros Hn w. unfold mail_Send, mail_message. destruct (cd_Audience d); [|apply send_ends].
  specialize (Hn eq_refl). destruct (cd_Notices d); [done|]. apply send_ends.
Qed.

Lemma GetByID_calm c id : calm (UserRepo.GetByID c id).
Proof. unfold UserRepo.GetByID. autounfold with calm. calm. Qed.

Lemma SendOwner_calm c n : calm (SendOwner (mail_Send print_table m) c n).
Proof. unfold SendOwner. calm. by apply mail_Send_calm. Qed.

Lemma SendAdminDigest_calm c ns : calm (SendAdminDigest (mail_Send print_table m) listEnabledAdmins c ns).
Proof.
  unfold SendAdminDigest, listEnabledAdmins, UserRepo.List. autounfold with calm. calm; by apply mail_Send_calm.
Qed.
#[local] Hint Resolve GetByID_calm SendOwner_calm SendAdminDigest_calm : calm.

Lemma deliver_calm c cand n : calm (sweep_deliver (mail_Send print_table m) c cand n).
Proof. unfold sweep_deliver. calm. Qed.

Lemma Advance_calm c id fam level from p4 p6 k : calm (DeviceRepo.AdvanceWarnLevel c id fam level from p4 p6 k).
Proof. unfold DeviceRepo.AdvanceWarnLevel. autounfold with calm. calm. Qed.

Lemma ExpireAddresses_calm f c cand v4Due v6Due pin : calm (ExpireAddresses f c cand v4Due v6Due pin).
Proof.
  unfold ExpireAddresses, ExpireFamilies, DeviceRepo.getDeviceTx, IPHistoryRepo.appendIPHistory, FeedStateRepo.Bump,
    dispatch, Enqueuer.Enqueue, NotificationEndpointRepo.ListEnabled, NotificationDeliveryRepo.Enqueue.
  autounfold with calm. calm.
Qed.
#[local] Hint Resolve deliver_calm Advance_calm ExpireAddresses_calm : calm.

Lemma warn_calm c cand w k fs acc : calm (warn_families (mail_Send print_table m) c cand w k fs acc).
Proof. revert acc. induction fs as [|f fs IH]; intros acc; simpl; calm. Qed.

Lemma act_calm s c cand now : calm (act (mail_Send print_table m) s c cand now).
Proof. unfold act, removed, warn. cbv zeta. pose proof warn_calm. calm. Qed.

Lemma sweep_all_calm s c now cands digest : calm (sweep_all (mail_Send print_table m) s c now cands digest).
Proof.
  revert digest. induction cands as [|cand cands IH]; intros digest; simpl; [done|].
  apply calm_bind; [done|]. intros []; [done|]. apply calm_bind; [apply act_calm|]. intros [ns [e|]]; apply IH.
Qed.

Lemma Run_calm s c now : calm (Run (mail_Send print_table m) listEnabledAdmins s c now).
Proof. unfold Run, candidates. autounfold with calm. pose proof sweep_all_calm. calm. Qed.

(** The background loop never dies of a pass: at every tick, whatever fails,
    the pass and the sweep return to the select. *)
Theorem runPruner_ends (c : ctx) (ret : RetentionSection) (sw : option sweeper) (ws : list wake) (w : World) :
  wp (runPruner (mail_Send print_table m) listEnabledAdmins c ret sw ws) (fun r _ => r = Ok (Some tt)) w.
Proof.
  revert w. induction ws as [|[] ws IH]; intros w; simpl; [by wp_step|by wp_step|].
  wp_step. unfold prune_tick. wp_step. eapply wp_mono; [apply prune_ends|]. intros r w1 ->.
  destruct sw as [s|]; [|by wp_step; apply IH].
  wp_step. wp_step. wp_step. apply wp_attempt_total; [apply Run_calm|]. intros o w2. wp_step. apply IH.
Qed.
End Sweeps.
