(* ===== verification/Client.v ===== *)
(** * internal/client: discovery, check-in, polling

    The quorum of ipdiscovery/discover.go, the signed request of
    checkin/checkin.go and the polling loop of poller/poller.go.

    Providers run concurrently and the tally ranges over a Go map: the result
    is stated for the answers in any order of arrival and for any order of the
    range.  [send] is the HTTP exchange of a check-in. *)

From S2P Require Import Prelude GoLib JsonText Json Schema Integrity Effects NetAddr Demo StoreUsers StoreDevices.
From S2P Require Import StoreTokens Auth ServiceDevices.

(** ** ipdiscovery/discover.go *)

Record Discoverer := MkDiscoverer { ds_v4 : nat; ds_v6 : nat; ds_quorum : Z }.

(** The numbers of providers stand for the providers. *)
Definition NewDiscoverer (v4 v6 : nat) (quorum : Z) : option Discoverer :=
  if quorum <? 1 then None
  else if Nat.ltb 0 v4 && (Z.of_nat v4 <? quorum) then None
  else if Nat.ltb 0 v6 && (Z.of_nat v6 <? quorum) then None
  else Some (MkDiscoverer v4 v6 quorum).

(** [counts[a]++] as a list of entries, one per address. *)
Definition count_of (a : addr) (answers : list addr) : Z :=
  Z.of_nat (length (List.filter (fun x => bool_decide (x = a)) answers)).

(** The range over [counts], in the order [order] of its keys. *)
Definition tally (answers : list addr) (order : list addr) : option addr * Z * bool :=
  foldl (fun (st : option addr * Z * bool) a =>
    let '(winner, top, tie) := st in
    let n := count_of a answers in
    if top <? n then (Some a, n, false)
    else if n =? top then (winner, top, true)
    else st) (None, 0, false) order.

(** [None] is the zero Result. *)
Definition discoverFamily (quorum : Z) (answers order : list addr) : option addr :=
  let '(winner, top, tie) := tally answers order in
  if (quorum <=? top) && negb tie then winner else None.

(** A range over the map visits every key once. *)
Definition range_of (answers order : list addr) : Prop :=
  NoDup order /\ forall a, a ∈ order <-> a ∈ answers.

(** ** checkin/checkin.go *)

Section Checkin.
Context `{Crypto}.

Definition checkin_path : string := "/agent/v1/checkin".

Definition randNonce : M string := b ← rand_bytes 16; mret (hex_encode b).

  (** json.Marshal of the request: empty fields are omitted. *)
Definition marshal_report (r : CheckinReport) : string :=
    let field name value := if str_eq value EmptyString then [] else [json_field name (json_quote value)] in
    json_object (field "ipv4"%string (cr_IPv4 r) ++ field "ipv6"%string (cr_IPv6 r) ++
      field "hostname"%string (cr_Hostname r) ++ field "os"%string (cr_OS r) ++
      field "client_version"%string (cr_ClientVersion r)).

  (** The request that leaves the client. *)
Definition checkin_request (deviceID key : string) (r : CheckinReport) : M RequestParts :=
    let body := marshal_report r in
    now ← now_unix;
    let ts := format_int now in
    nonce ← randNonce;
    let canonical := CanonicalRequest "POST" checkin_path ts nonce (BodyHashHex body) in
    mret (MkRequestParts deviceID ts nonce (Sign key canonical) "POST" checkin_path body).

  (** The decoder of the response: what follows the first value is not read. *)
Definition decode_result (body : string) : option CheckinResult :=
    v ← decode_json body; l ← members v;
    id ← string_field "device_id" l; v4 ← string_field "current_ipv4" l; v6 ← string_field "current_ipv6" l;
    stored ← bool_field "stored" l;
    Some (MkCheckinResult id v4 v6 stored).

  (** The response: transport failure, or a status and a body. *)
Inductive response := Lost | Answered (status : Z) (body : string).
Inductive checkin_error := CheckinUnauthorized | CheckinServer (status : Z) | CheckinOther.

Definition classify_response (resp : response) : CheckinResult + checkin_error :=
    match resp with
    | Lost => inr CheckinOther
    | Answered status body =>
        if status =? 200 then match decode_result body with Some b => inl b | None => inr CheckinOther end
        else if status =? 401 then inr CheckinUnauthorized
        else inr (CheckinServer status)
    end.
End Checkin.

(** ** poller/poller.go *)

Definition unauthorizedLimit : Z := 3.

(** The outcome of one [RunOnce]: no error, [checkin.ErrUnauthorized], another error. *)
Inductive cycle := CycleOK | CycleUnauthorized | CycleFailed.

(** A family that did not reach quorum is omitted from the report. *)
Definition addr_text (a : option addr) : string := match a with Some a => addr_string a | None => EmptyString end.
Definition report_of (hostname os clientVer : string) (v4 v6 : option addr) : CheckinReport :=
  MkCheckinReport (addr_text v4) (addr_text v6) hostname os clientVer.

(** Without an address of either family there is no check-in ([ErrNoQuorum]). *)
Definition RunOnce (hostname os clientVer : string)
    (checkin : CheckinReport -> CheckinResult + checkin_error) (v4 v6 : option addr) : cycle :=
  match v4, v6 with
  | None, None => CycleFailed
  | _, _ =>
      match checkin (report_of hostname os clientVer v4 v6) with
      | inl _ => CycleOK
      | inr CheckinUnauthorized => CycleUnauthorized
      | inr _ => CycleFailed
      end
  end.

(** nanoseconds; int64 doubling *)
Definition nextBackoff (cur interval : Z) : Z :=
  if cur =? 0 then Z.min (30 * 10 ^ 9) interval else Z.min (i64 (cur * 2)) interval.

Record poll_state := MkPoll { ps_backoff : Z; ps_unauthorized : Z }.

(** One turn of [Run] after a cycle: stop, or the next state and the sleep. *)
Definition poll_step (interval jittered : Z) (st : poll_state) (o : cycle) : option (poll_state * Z) :=
  match o with
  | CycleOK => Some (MkPoll 0 0, jittered)
  | CycleUnauthorized =>
      let u := ps_unauthorized st + 1 in
      if unauthorizedLimit <=? u then None
      else let b := nextBackoff (ps_backoff st) interval in Some (MkPoll b u, b)
  | CycleFailed =>
      let b := nextBackoff (ps_backoff st) interval in Some (MkPoll b 0, b)
  end.

(** [Run] over the outcomes of its cycles, each with the value [p.jittered()]
    has in that turn: the sleeps, and whether it stopped with
    [ErrCredentialRejected].  The list ends where the context is cancelled. *)
Fixpoint poll_run (interval : Z) (st : poll_state) (os : list (cycle * Z)) : list Z * bool :=
  match os with
  | [] => ([], false)
  | (o, jittered) :: rest =>
      match poll_step interval jittered st o with
      | None => ([], true)
      | Some (st', d) => let (ds, stop) := poll_run interval st' rest in (d :: ds, stop)
      end
  end.

Definition poll_start : poll_state := MkPoll 0 0.

(** ** Lemmas: the tally *)

Lemma count_pos a answers : a ∈ answers <-> 0 < count_of a answers.
Proof.
  unfold count_of. split.
  - intros Hin. assert (Hf : a ∈ List.filter (fun x => bool_decide (x = a)) answers).
    { apply elem_of_bfilter. split; [done|]. by apply bool_decide_eq_true. }
    destruct (List.filter _ answers); [by apply elem_of_nil in Hf|]. simpl. lia.
  - intros Hp. destruct (List.filter (fun x => bool_decide (x = a)) answers) as [|b l] eqn:Hf; [simpl in Hp; lia|].
    assert (Hb : b ∈ List.filter (fun x => bool_decide (x = a)) answers) by (rewrite Hf; left).
    apply elem_of_bfilter in Hb as [Hin Hb]. rewrite bool_decide_eq_true in Hb. by subst.
Qed.

(** What the loop of the tally knows of the keys it has seen. *)
Definition tally_inv (answers seen : list addr) (st : option addr * Z * bool) : Prop :=
  let '(winner, top, tie) := st in
  (forall a, a ∈ seen -> count_of a answers <= top) /\
  match winner with
  | None => seen = [] /\ top = 0 /\ tie = false
  | Some w => w ∈ seen /\ count_of w answers = top /\
      (tie = true <-> exists b, b ∈ seen /\ b <> w /\ count_of b answers = top)
  end.

Lemma tally_inv_run answers order seen st :
  NoDup (seen ++ order) -> (forall a, a ∈ order -> 0 < count_of a answers) ->
  tally_inv answers seen st ->
  tally_inv answers (seen ++ order) (foldl (fun (st : option addr * Z * bool) a =>
    let '(winner, top, tie) := st in
    let n := count_of a answers in
    if top <? n then (Some a, n, false)
    else if n =? top then (winner, top, true)
    else st) st order).
Proof.
  revert seen st. induction order as [|a order IH]; intros seen st Hnd Hpos Hinv; [by rewrite app_nil_r|].
  cbn [foldl]. assert (Hs : seen ++ a :: order = (seen ++ [a]) ++ order) by (by rewrite <- app_assoc).
  rewrite Hs in *. apply IH; [done|intros; apply Hpos; by right|].
  assert (Hna : a ∉ seen).
  { intros Hin. rewrite <- app_assoc in Hnd. apply NoDup_app in Hnd as (_ & Hd & _).
    apply (Hd a Hin). by left. }
  specialize (Hpos a ltac:(left)). clear IH Hnd Hs. destruct st as [[winner top] tie].
  destruct Hinv as [Hle Hw].
  assert (Hin : forall x, x ∈ seen ++ [a] <-> x ∈ seen \/ x = a).
  { intros x. rewrite elem_of_app, list_elem_of_singleton. done. }
  simpl. destruct (Z.ltb_spec top (count_of a answers)) as [Hlt|Hge].
  - split.
    + intros x [Hx| ->]%Hin; [specialize (Hle x Hx); lia|lia].
    + split; [apply Hin; by right|]. split; [done|]. split; [done|].
      intros (b & [Hb| ->]%Hin & Hne & Hc); [specialize (Hle b Hb); lia|done].
  - destruct winner as [w|]; [|destruct Hw as (-> & -> & ->); lia].
    destruct Hw as (Hws & Hwc & Htie).
    assert (Hwa : w <> a) by (intros ->; done).
    destruct (Z.eqb_spec (count_of a answers) top) as [He|Hne]; simpl.
    + split; [intros x [Hx| ->]%Hin; [auto|lia]|]. split; [apply Hin; by left|]. split; [done|].
      split; [|done]. intros _. exists a. split; [apply Hin; by right|]. done.
    + split; [intros x [Hx| ->]%Hin; [auto|lia]|]. split; [apply Hin; by left|]. split; [done|].
      rewrite Htie. split.
      * intros (b & Hb & Hnb & Hc). exists b. split; [apply Hin; by left|done].
      * intros (b & [Hb| ->]%Hin & Hnb & Hc); [by exists b|done].
Qed.

Lemma tally_spec answers order :
  range_of answers order -> tally_inv answers order (tally answers order).
Proof.
  intros [Hnd Hin]. apply (tally_inv_run answers order [] (None, 0, false)); [done| |].
  - intros a Ha%Hin. by apply count_pos.
  - split; [intros a Ha; by apply elem_of_nil in Ha|done].
Qed.

(** ** Theorems *)

(** The quorum.  Whatever the order in which the providers answer and Go
    ranges over the tally, [discoverFamily] returns an address exactly when it
    was answered at least [quorum] times and strictly more often than every
    other address. *)
Theorem discoverFamily_spec quorum answers order a :
  1 <= quorum -> range_of answers order ->
  discoverFamily quorum answers order = Some a <->
    quorum <= count_of a answers /\ forall b, b <> a -> count_of b answers < count_of a answers.
Proof.
  intros Hq Hr. pose proof (tally_spec _ _ Hr) as Hinv. destruct Hr as [_ Hin].
  unfold discoverFamily. destruct (tally answers order) as [[winner top] tie]. destruct Hinv as [Hle Hw].
  assert (Hall : forall b, count_of b answers <= Z.max top 0).
  { intros b. destruct (decide (b ∈ answers)) as [Hb|Hb]; [apply Hin, Hle in Hb; lia|].
    rewrite count_pos in Hb. lia. }
  split.
  - destruct (_ && _) eqn:Hc; [|done]. intros ->. apply andb_true_iff in Hc as [Hc%Z.leb_le Ht].
    rewrite negb_true_iff in Ht. destruct Hw as (Hws & Hwc & Htie). split; [lia|].
    intros b Hne. specialize (Hall b). assert (count_of b answers <> top); [|lia].
    intros He. rewrite Ht in Htie. assert (false = true); [|done]. apply Htie. exists b.
    split; [|done]. apply Hin, count_pos. lia.
  - intros [Hqa Hmax]. assert (Ha : a ∈ order) by (apply Hin, count_pos; lia).
    destruct winner as [w|]; [|destruct Hw as (-> & _); by apply elem_of_nil in Ha].
    destruct Hw as (Hws & Hwc & Htie). pose proof (Hle a Ha) as Hla.
    assert (w = a) as ->.
    { destruct (decide (w = a)) as [|Hne]; [done|]. specialize (Hmax w Hne). lia. }
    replace (quorum <=? top) with true by lia. simpl.
    destruct tie; [|done]. destruct (proj1 Htie eq_refl) as (b & _ & Hne & Hc).
    specialize (Hmax b Hne). lia.
Qed.

(** With a positive interval below 2^62 ns the back-off is positive, at most the
    interval, starts at min(30s, interval) and doubles: no overflow. *)
Lemma nextBackoff_bounds cur interval :
  0 < interval < 2 ^ 62 -> 0 <= cur <= interval ->
  0 < nextBackoff cur interval <= interval /\
  (cur = 0 -> nextBackoff cur interval = Z.min (30 * 10 ^ 9) interval) /\
  (0 < cur -> nextBackoff cur interval = Z.min (2 * cur) interval).
Proof.
  intros Hi Hc. unfold nextBackoff.
  assert (Hw : i64 (cur * 2) = cur * 2)
    by (apply i64_id; unfold in_int64, min_int64, max_int64; lia).
  rewrite Hw. destruct (Z.eqb_spec cur 0); lia.
Qed.

(** Three consecutive rejections somewhere in the outcomes. *)
Fixpoint has_three (os : list cycle) : bool :=
  match os with
  | [] => false
  | o :: rest =>
      match o, rest with
      | CycleUnauthorized, CycleUnauthorized :: CycleUnauthorized :: _ => true
      | _, _ => has_three rest
      end
  end.

Lemma has_three_iff os :
  has_three os = true <-> exists pre post,
    os = pre ++ [CycleUnauthorized; CycleUnauthorized; CycleUnauthorized] ++ post.
Proof.
  split.
  - induction os as [|o os IH]; [done|]. intros H3.
    assert (Hcase : (exists post, o :: os = [CycleUnauthorized; CycleUnauthorized; CycleUnauthorized] ++ post)
      \/ has_three os = true).
    { destruct o; simpl in H3; auto. destruct os as [|[] [|[] ?]]; simpl in *; eauto. }
    destruct Hcase as [[post ->]|H]; [by exists [], post|].
    destruct (IH H) as (pre & post & ->). by exists (o :: pre), post.
  - intros (pre & post & ->). induction pre as [|o pre IH]; [done|].
    change ((o :: pre) ++ ?l) with (o :: pre ++ l).
    cbn [app] in IH |- *. destruct o; cbn [has_three]; rewrite ?IH; try done.
    by destruct (pre ++ _) as [|[] [|[] ?]].
Qed.

Lemma poll_run_three interval st os u :
  ps_unauthorized st = Z.of_nat u -> (u <= 2)%nat ->
  (poll_run interval st os).2 = has_three (replicate u CycleUnauthorized ++ os.*1).
Proof.
  revert st u. induction os as [|[o j] os IH]; intros st u Hu Hle.
  - by destruct u as [|[|[|u]]]; [| | |lia].
  - cbn [poll_run]. rewrite fmap_cons. cbn [fst]. destruct o; cbn [poll_step].
    + specialize (IH (MkPoll 0 0) 0%nat eq_refl ltac:(lia)).
      destruct (poll_run interval (MkPoll 0 0) os) as [ds stop]. simpl in IH |- *. rewrite IH.
      by destruct u as [|[|[|u]]]; [| | |lia].
    + rewrite Hu. unfold unauthorizedLimit. destruct (Z.leb_spec 3 (Z.of_nat u + 1)) as [H3|H3].
      * assert (u = 2%nat) as -> by lia. done.
      * specialize (IH (MkPoll (nextBackoff (ps_backoff st) interval) (Z.of_nat u + 1)) (S u)
          ltac:(simpl; lia) ltac:(lia)).
        destruct (poll_run interval _ os) as [ds stop]. simpl in IH |- *. rewrite IH.
        destruct u as [|[|u]]; [done|done|lia].
    + specialize (IH (MkPoll (nextBackoff (ps_backoff st) interval) 0) 0%nat eq_refl ltac:(lia)).
      destruct (poll_run interval _ os) as [ds stop]. simpl in IH |- *. rewrite IH.
      by destruct u as [|[|[|u]]]; [| | |lia].
Qed.

Lemma poll_run_sleeps interval st os i d :
  0 < interval < 2 ^ 62 -> 0 <= ps_backoff st <= interval ->
  (poll_run interval st os).1 !! i = Some d ->
  exists o j, os !! i = Some (o, j) /\ (o = CycleOK /\ d = j \/ o <> CycleOK /\ 0 < d <= interval).
Proof.
  intros Hi. revert st i. induction os as [|[o j] os IH]; intros st i Hst Hd; [done|].
  cbn [poll_run] in Hd. destruct (poll_step interval j st o) as [[st' d']|] eqn:Hs; [|done].
  assert (Hst' : 0 <= ps_backoff st' <= interval /\ (o = CycleOK /\ d' = j \/ o <> CycleOK /\ 0 < d' <= interval)).
  { destruct (nextBackoff_bounds (ps_backoff st) interval Hi Hst) as [Hb _].
    destruct o; cbn [poll_step] in Hs; repeat case_match; simplify_eq/=; (split; [lia|]); auto; right; split; auto; lia. }
  destruct Hst' as [Hst' Hd']. destruct (poll_run interval st' os) as [ds stop] eqn:Hr. simpl in Hd.
  destruct i as [|i]; simpl in *; [simplify_eq; eauto|].
  apply (IH st' i Hst'). by rewrite Hr.
Qed.

(** The client's loop: over any outcomes of its cycles it ends with
    [ErrCredentialRejected] if and only if [unauthorizedLimit] rejections
    follow each other without a success or another failure between them; it
    sleeps the jittered interval after a success, and after a failure or a
    rejection a positive time of at most the interval, so that the back-off
    neither overflows nor makes the client check in more rarely than healthy. *)
Theorem poll_run_spec interval os (Hi : 0 < interval < 2 ^ 62) :
  ((poll_run interval poll_start os).2 = true <->
   exists pre post, os.*1 = pre ++ replicate (Z.to_nat unauthorizedLimit) CycleUnauthorized ++ post) /\
  forall i d, (poll_run interval poll_start os).1 !! i = Some d ->
    exists o j, os !! i = Some (o, j) /\ (o = CycleOK /\ d = j \/ o <> CycleOK /\ 0 < d <= interval).
Proof.
  split.
  - rewrite (poll_run_three interval poll_start os 0) by (done || lia). apply has_three_iff.
  - intros i d. apply poll_run_sleeps; [done|]. simpl. lia.
Qed.

Lemma poll_run_spec_witness :
  (poll_run (300 * 10 ^ 9) poll_start
     [(CycleOK, 1); (CycleUnauthorized, 2); (CycleUnauthorized, 3); (CycleUnauthorized, 4)]).2 = true.
Proof.
  apply (poll_run_spec (300 * 10 ^ 9)); [lia|].
  by exists [CycleOK], [].
Defined.

Lemma discoverFamily_spec_witness :
  discoverFamily 2 [V4 1; V4 2; V4 1] [V4 2; V4 1] = Some (V4 1).
Proof.
  apply discoverFamily_spec; [lia| |].
  - split; [repeat constructor; set_solver|]. intros a. set_solver.
  - split; [vm_compute; congruence|]. intros b Hb. unfold count_of. simpl.
    destruct (decide (b = V4 2)) as [->|Hb2]; [vm_compute; done|].
    rewrite !bool_decide_eq_false_2 by done. vm_compute. done.
Defined.

(** ** Client and server agree on the wire contract *)

Section EndToEnd.
Context `{Crypto}.

  (** C30: a request that the client signs is accepted by the server as that
      device: on a consistent database, without faults, for an enabled device
      of an enabled user whose secret in the verifier is the client's key, when
      the two clocks differ by at most the skew and the signature is fresh. *)
Theorem client_request_accepted c v w now dev u key r p wc wc' :
    wf_db (w_db w) -> quiet w c -> 0 <= v_skew v < 2 ^ 62 -> 0 <= now < 2 ^ 62 ->
    dev ∈ d_devices (w_db w) -> rd_disabled dev = 0 ->
    u ∈ d_users (w_db w) -> ru_id u = rd_user_id dev -> ru_disabled u = 0 ->
    secret_in_use v (scanDevice dev) w key ->
    checkin_request (rd_id dev) key r wc = (Ok p, wc') ->
    0 <= e_clock (w_env wc) (w_n wc) < 2 ^ 62 ->
    - v_skew v <= now - e_clock (w_env wc) (w_n wc) <= v_skew v ->
    (forall n, n ∈ d_nonces (w_db w) -> rn_signature n <> rp_Signature p) ->
    (Verify c v p now w).1 = Ok (rd_id dev).
  Proof.
    intros Hwf Hq Hsk Hnow Hdev Hdis Hu Huid Hud Hs Hp Hck Hskew Hfresh.
    unfold checkin_request, randNonce, rand_bytes, now_unix, mbind, M_bind, mret, M_ret in Hp.
    simpl in Hp. destruct (e_rand _ _ _) as [b|]; [|done]. injection Hp as <- _.
    match goal with |- (Verify _ _ ?p _ _).1 = _ =>
      apply (verify_complete c v p now w dev u (e_clock (w_env wc) (w_n wc)) key); try done end.
    simpl. apply parse_int_format_int. unfold in_int64, min_int64, max_int64. lia.
  Qed.
End EndToEnd.

Lemma client_request_accepted_witness :
  (@Verify toy_crypto background demo_verifier
     (@MkRequestParts "d1" (format_int 1000) (hex_encode (repeat_char 16))
        (@Sign toy_crypto demo_secret (@CanonicalRequest "POST" checkin_path (format_int 1000)
           (hex_encode (repeat_char 16)) (@BodyHashHex toy_crypto "{}")))
        "POST" checkin_path "{}") 1005 demo_world).1 = Ok "d1"%string.
Proof.
  refine (@client_request_accepted toy_crypto background demo_verifier demo_world 1005
    demo_device demo_user demo_secret (MkCheckinReport EmptyString EmptyString EmptyString EmptyString EmptyString) _ demo_world
    (bump (bump demo_world)) demo_wf demo_quiet _ _ _ _ _ _ _ _ _ _ _ _);
    try reflexivity; try (simpl; lia).
  - left.
  - left.
  - split; [reflexivity|]. exists (repeat_char 12), demo_secret. by split; [vm_compute|].
  - intros n Hn. by apply elem_of_nil in Hn.
Defined.
