(* ===== verification/Oidc.v ===== *)
(** * internal/oidc: the identity provider

    [Manager]: discovery and its retry loop (manager.go), the browser flow
    (browser.go), the device flow (device.go).  The class [OIDCLib] is go-oidc,
    golang.org/x/oauth2 and the HTTP client under them; the services rely on
    its calls leaving the server's state alone ([OIDCLibLaws]).  The atomic
    pointer of the manager is a cell other goroutines may write at any step:
    [mg_st] says what a load sees at each step.  Instants are in seconds. *)

From S2P Require Import Prelude GoLib JsonText Json Schema Effects Auth ServiceDevices Passkeys SignIn.

(** ** The provider *)

Record Endpoint := MkIdpEndpoint { ep_AuthURL : string; ep_TokenURL : string; ep_DeviceAuthURL : string }.

(** [state]: what a discovery publishes. *)
Record pstate := MkPstate {
  ps_verifier_client : string; ps_ClientID : string; ps_ClientSecret : string; ps_Endpoint : Endpoint;
  ps_RedirectURL : string; ps_Scopes : list string; ps_deviceAuthURL : string }.

(** oidc.IDToken; [idt_claims] is what [Claims] parses of it. *)
Record IDToken := MkIDToken { idt_Subject : string; idt_Nonce : string; idt_claims : option (string * bool) }.

(** oauth2.DeviceAuthResponse; [None]: the zero time. *)
Record DeviceAuthResponse := MkDeviceAuthResponse {
  dr_DeviceCode : string; dr_UserCode : string; dr_VerificationURI : string;
  dr_VerificationURIComplete : string; dr_Expiry : option Z; dr_Interval : Z }.

Record deviceTokenResponse := MkDeviceToken { dt_IDToken : string; dt_Error : string; dt_ErrorDescription : string }.

Class OIDCLib := {
  NewProvider : ctx -> string -> M Endpoint;
  GenerateVerifier : M string;
  AuthCodeURL : pstate -> string -> string -> string -> string;
  (** the id_token of the token response, if it is a string *)
  Exchange : ctx -> pstate -> string -> string -> M (option string);
  VerifyIDToken : ctx -> string -> string -> M IDToken;
  DeviceAuth_ : ctx -> pstate -> M DeviceAuthResponse;
  (** one POST of a form: the body of the response, up to its limit *)
  PostForm : ctx -> string -> list (string * string) -> Z -> M string }.

Class OIDCLibLaws `{OIDCLib} : Prop := {
  new_provider_call : forall c i, library_call (NewProvider c i);
  generate_verifier_call : library_call GenerateVerifier;
  exchange_call : forall c s code v, library_call (Exchange c s code v);
  verify_call : forall c cl t, library_call (VerifyIDToken c cl t);
  device_auth_call : forall c s, library_call (DeviceAuth_ c s);
  post_call : forall c u f n, library_call (PostForm c u f n) }.

(** ** manager.go *)

Definition ErrNotReady : err := ErrOther "oidc: provider not ready".
Definition ErrDeviceUnsupported : err := ErrOther "oidc: device flow not supported by provider".

Record Manager := MkManager { mg_cfg : OIDCCfg; mg_baseURL : string; mg_st : nat -> option pstate }.

(** [m.st.Load()] *)
Definition Load (m : Manager) : M (option pstate) := fun w => (Ok (mg_st m (w_n w)), bump w).

(** [None] is the nil manager. *)
Definition OIDCEnabled (m : option Manager) : M bool :=
  match m with
  | None => mret false
  | Some m => if oc_Enabled (mg_cfg m) then s ← Load m; mret (bool_decide (s <> None)) else mret false
  end.

Definition DeviceEnabled (m : option Manager) : M bool :=
  match m with
  | None => mret false
  | Some m =>
      s ← Load m;
      mret (oc_Enabled (mg_cfg m) && match s with
        | Some s => negb (str_eq (ps_deviceAuthURL s) EmptyString)
        | None => false
        end)
  end.

Definition published_state (m : Manager) (ep : Endpoint) : pstate :=
  let cfg := mg_cfg m in
  MkPstate (oc_ClientID cfg) (oc_ClientID cfg) (oc_ClientSecret cfg) ep
    (mg_baseURL m ++ "/api/v1/auth/oidc/callback") (oc_Scopes cfg) (ep_DeviceAuthURL ep).

Section Flows.
Context `{OIDCLib}.

  (** What [Discover] stores, if it stores. *)
Definition Discover (c : ctx) (m : Manager) : M (option pstate) :=
    if negb (oc_Enabled (mg_cfg m)) then mret None
    else ep ← NewProvider c (oc_Issuer (mg_cfg m)); mret (Some (published_state m ep)).

  (** ** browser.go *)

Record Claims := MkClaims { ic_Subject : string; ic_Email : string; ic_EmailVerified : bool }.
Record AuthRequest := MkAuthRequest { ar_URL : string; ar_State : string; ar_Verifier : string; ar_Nonce : string }.

Definition with_state {A} (m : Manager) (k : pstate -> M A) : M A :=
    s ← Load m; match s with None => fail ErrNotReady | Some s => k s end.

Definition BeginAuth (m : Manager) : M AuthRequest :=
    with_state m (fun s =>
      state ← RandToken 32;
      nonce ← RandToken 32;
      verifier ← GenerateVerifier;
      mret (MkAuthRequest (AuthCodeURL s state verifier nonce) state verifier nonce)).

Definition claimsFrom (t : IDToken) : M Claims :=
    match idt_claims t with
    | None => fail (ErrOther "oidc: parse claims")
    | Some (email, verified) => mret (MkClaims (idt_Subject t) email verified)
    end.

Definition CompleteAuth (m : Manager) (c : ctx) (code verifier expectedNonce : string) : M Claims :=
    with_state m (fun s =>
      raw ← map_err (fun _ => ErrOther "oidc.CompleteAuth: exchange") (Exchange c s code verifier);
      match raw with
      | None => fail (ErrOther "oidc.CompleteAuth: token response has no id_token")
      | Some raw =>
          if str_eq raw EmptyString then fail (ErrOther "oidc.CompleteAuth: token response has no id_token")
          else
            idt ← map_err (fun _ => ErrOther "oidc.CompleteAuth: verify") (VerifyIDToken c (ps_verifier_client s) raw);
            if str_eq (idt_Nonce idt) expectedNonce then claimsFrom idt
            else fail (ErrOther "oidc.CompleteAuth: nonce mismatch")
      end).

  (** ** device.go *)

Record DeviceAuth := MkDeviceAuth {
    da_DeviceCode : string; da_UserCode : string; da_VerificationURI : string;
    da_VerificationURIComplete : string; da_ExpiresAt : Z; da_Interval : Z }.

Inductive PollResult := PollPending | PollSlowDown | PollComplete (cl : Claims) | PollDenied.

Definition DeviceStart (m : Manager) (c : ctx) : M DeviceAuth :=
    with_state m (fun s =>
      if str_eq (ps_deviceAuthURL s) EmptyString then fail ErrDeviceUnsupported
      else
        r ← map_err (fun _ => ErrOther "oidc.DeviceStart") (DeviceAuth_ c s);
        expiry ← (match dr_Expiry r with Some e => mret e | None => now ← now_unix; mret (now + 600) end);
        mret (MkDeviceAuth (dr_DeviceCode r) (dr_UserCode r) (dr_VerificationURI r)
          (dr_VerificationURIComplete r) expiry (dr_Interval r))).

  (** json.Unmarshal of the response. *)
Definition unmarshal_token (body : string) : option deviceTokenResponse :=
    v ← parse_json body; l ← members v;
    id_token ← string_field "id_token" l; error ← string_field "error" l;
    description ← string_field "error_description" l;
    Some (MkDeviceToken id_token error description).

Definition poll_form (m : Manager) (deviceCode : string) : list (string * string) :=
    [("grant_type", "urn:ietf:params:oauth:grant-type:device_code"); ("device_code", deviceCode);
     ("client_id", oc_ClientID (mg_cfg m)); ("client_secret", oc_ClientSecret (mg_cfg m))].

Definition DevicePoll (m : Manager) (c : ctx) (deviceCode : string) : M PollResult :=
    with_state m (fun s =>
      body ← map_err (fun _ => ErrOther "oidc.DevicePoll: do")
        (PostForm c (ep_TokenURL (ps_Endpoint s)) (poll_form m deviceCode) (2 ^ 20));
      match unmarshal_token body with
      | None => fail (ErrOther "oidc.DevicePoll: decode")
      | Some tr =>
          let e := dt_Error tr in
          if str_eq e "authorization_pending" then mret PollPending
          else if str_eq e "slow_down" then mret PollSlowDown
          else if str_eq e "access_denied" || str_eq e "expired_token" then mret PollDenied
          else if negb (str_eq e EmptyString) then fail (ErrOther "oidc.DevicePoll: idp error")
          else if str_eq (dt_IDToken tr) EmptyString then
            fail (ErrOther "oidc.DevicePoll: success response has no id_token")
          else
            idt ← map_err (fun _ => ErrOther "oidc.DevicePoll: verify")
                    (VerifyIDToken c (ps_verifier_client s) (dt_IDToken tr));
            cl ← claimsFrom idt;
            mret (PollComplete cl)
      end).
End Flows.

(** ** The retry loop

    [RetryLoop]: [found i] is what the [i]-th discovery publishes, [slept i]
    whether the [i]-th wait ran to its end.  The result is the state the loop
    leaves behind and the waits it made; [None]: still running after [fuel]
    attempts. *)

Definition retryBackoff : list Z := [2; 5; 15; 30; 60].

Definition backoff_at (i : nat) : Z := default 0 (retryBackoff !! Nat.min i (length retryBackoff - 1)).

Section Retry.
Context (found : nat -> option pstate) (slept : nat -> bool).

Fixpoint retry_from (fuel i : nat) (waits : list Z) : option (option pstate * list Z) :=
    match fuel with
    | 0%nat => None
    | S fuel' =>
        match found i with
        | Some s => Some (Some s, waits)
        | None =>
            let waits := waits ++ [backoff_at i] in
            if slept i then retry_from fuel' (S i) waits else Some (None, waits)
        end
    end.

Definition RetryLoop (cfg : OIDCCfg) (st : option pstate) (fuel : nat) : option (option pstate * list Z) :=
    if negb (oc_Enabled cfg) || bool_decide (st <> None) then Some (st, []) else retry_from fuel 0 [].
End Retry.

(** ** Properties *)

(** The loop that sees its first success at attempt [k] ends there, having
    waited [k] times on the capped schedule. *)
Lemma retry_from_finds found slept k i s waits fuel :
  (forall j, (j < k)%nat -> found (i + j)%nat = None /\ slept (i + j)%nat = true) -> found (i + k)%nat = Some s ->
  (k < fuel)%nat ->
  retry_from found slept fuel i waits = Some (Some s, waits ++ (backoff_at <$> seq i k)).
Proof.
  revert i waits fuel. induction k as [|k IH]; intros i waits [|fuel] Hj Hs Hf; try lia; simpl.
  - rewrite Nat.add_0_r in Hs. by rewrite Hs, app_nil_r.
  - destruct (Hj 0%nat ltac:(lia)) as [H1 H2]. rewrite Nat.add_0_r in H1, H2. rewrite H1, H2.
    rewrite (IH (S i) (waits ++ [backoff_at i]) fuel).
    + by rewrite <- app_assoc.
    + intros j Hlt. specialize (Hj (S j) ltac:(lia)). by rewrite Nat.add_succ_r in Hj.
    + by rewrite Nat.add_succ_r in Hs.
    + lia.
Qed.

Lemma backoff_at_range i : 2 <= backoff_at i <= 60.
Proof. unfold backoff_at. destruct i as [|[|[|[|[|i]]]]]; simpl; lia. Qed.

(** Discovery is retried until it succeeds: when the first success is at
    attempt [k] and no wait is cancelled before it, the loop ends with that
    provider published, after [k] waits of two seconds to a minute each that
    never get shorter. *)
Theorem RetryLoop_ready found slept cfg k s
    (He : oc_Enabled cfg = true)
    (Hbefore : forall j, (j < k)%nat -> found j = None /\ slept j = true) (Hk : found k = Some s) :
  exists waits, (forall fuel, (k < fuel)%nat -> RetryLoop found slept cfg None fuel = Some (Some s, waits)) /\
    length waits = k /\ Forall (fun d => 2 <= d <= 60) waits /\ StronglySorted Z.le waits.
Proof.
  exists (backoff_at <$> seq 0 k). split_and!.
  - intros fuel Hf. unfold RetryLoop. rewrite He. simpl.
    by rewrite (retry_from_finds found slept k 0 s [] fuel).
  - by rewrite length_fmap, length_seq.
  - apply Forall_fmap, Forall_forall. intros i _. apply backoff_at_range.
  - clear. generalize 0%nat as i. induction k as [|k IH]; intros i; simpl; constructor; [apply IH|].
    apply Forall_fmap, Forall_forall. intros j [Hj _]%elem_of_seq.
    unfold compose, backoff_at. destruct i as [|[|[|[|[|i]]]]], j as [|[|[|[|[|j]]]]]; simpl; lia.
Qed.

Definition demo_endpoint : Endpoint := MkIdpEndpoint "https://idp/auth" "https://idp/token" "https://idp/device".
Definition demo_manager (cfg : OIDCCfg) : Manager := MkManager cfg "https://dns.example.org" (fun _ => None).
Definition third_time (s : pstate) (i : nat) : option pstate := if (2 <=? i)%nat then Some s else None.

Lemma RetryLoop_ready_witness :
  let cfg := MkOIDCCfg true false "https://idp" "client" "hush" ["openid"] false false in
  let s := published_state (demo_manager cfg) demo_endpoint in
  RetryLoop (third_time s) (fun _ => true) cfg None 3 = Some (Some s, [2; 5]) /\
  exists waits : list Z, length waits = 2%nat.
Proof.
  intros cfg s. split; [vm_compute; reflexivity|].
  destruct (RetryLoop_ready (third_time s) (fun _ => true) cfg 2 s eq_refl) as (waits & _ & Hl & _).
  - intros [|[|j]] Hj; [by split..|]. exfalso. revert Hj. clear. intros. do 2 apply Nat.succ_lt_mono in Hj. by apply Nat.nlt_0_r in Hj.
  - reflexivity.
  - by exists waits.
Defined.
