(* ===== verification/ApiCore.v ===== *)
(** * internal/server/api: requests, replies and middlewares

    The parts every operation of the HTTP API shares: what a request carries
    ([ApiRequest]), the values the middlewares put in its context ([actx]), the
    reply ([Reply]), the four authentication middlewares of authmw.go, the
    metadata middlewares of auth.go, oidc.go and passkey.go, and the operation
    ([Op]) that huma serves: the middlewares in order, the decoding of the
    input, the handler.

    Huma (the router's third-party framework) is the class [Huma]: it decodes
    and validates an input for the fields the operation declares, or answers
    with a status of its own.  [ApiLibs] collects the parsers and encoders the
    handlers call.  Log lines are not modelled. *)

From S2P Require Import Prelude GoLib Schema Effects StoreUsers StoreDevices StoreTokens Auth ServiceDevices.
From S2P Require Import ServiceTokens NetAddr Endpoints Email Passkeys Grants SignIn Oidc.

(** ** Requests *)

(** [rq_lib] is the *http.Request as the WebAuthn library reads it; a body of
    [None] fails to read. *)
Record ApiRequest (HttpRequest : Type) := MkApiRequest {
  rq_ctx : ctx; rq_Method : string; rq_Path : string; rq_body : option string;
  rq_Header : string -> string; rq_Cookie : string -> option string;
  rq_RemoteAddr : string; rq_UserAgent : string; rq_TLS : bool; rq_lib : HttpRequest }.
Arguments rq_ctx {_} _. Arguments rq_Method {_} _. Arguments rq_Path {_} _. Arguments rq_body {_} _.
Arguments rq_Header {_} _ _. Arguments rq_Cookie {_} _ _. Arguments rq_RemoteAddr {_} _.
Arguments rq_UserAgent {_} _. Arguments rq_TLS {_} _. Arguments rq_lib {_} _.

Record loginRequestMeta := MkLoginMeta { lm_ip : string; lm_ua : string; lm_tls : bool }.

(** The context values of authmw.go, auth.go, oidc.go and passkey.go. *)
Record actx := MkActx {
  ax_device : option string; ax_user : option User; ax_session : option Session; ax_api_key : bool;
  ax_login : option loginRequestMeta; ax_challenge : string; ax_flow : option string }.

Definition no_values : actx := MkActx None None None false None EmptyString None.

Definition zero_user : User := MkUser EmptyString EmptyString EmptyString EmptyString EmptyString false 0 0 EmptyString 0.
Definition zero_session : Session := MkSession EmptyString EmptyString EmptyString EmptyString EmptyString 0 0 0.

Definition DeviceIDFrom (a : actx) : string := default EmptyString (ax_device a).
Definition UserFrom (a : actx) : User := default zero_user (ax_user a).
Definition SessionFrom (a : actx) : Session := default zero_session (ax_session a).
Definition loginMetaFrom (a : actx) : loginRequestMeta :=
  default (MkLoginMeta EmptyString EmptyString false) (ax_login a).
Definition oidcFlowCookieFrom (a : actx) : option string :=
  match ax_flow a with Some v => if str_eq v EmptyString then None else Some v | None => None end.

Definition with_device (id : string) (a : actx) : actx :=
  MkActx (Some id) (ax_user a) (ax_session a) (ax_api_key a) (ax_login a) (ax_challenge a) (ax_flow a).
Definition with_session (u : User) (s : Session) (a : actx) : actx :=
  MkActx (ax_device a) (Some u) (Some s) (ax_api_key a) (ax_login a) (ax_challenge a) (ax_flow a).
Definition with_key_user (u : User) (a : actx) : actx :=
  MkActx (ax_device a) (Some u) (ax_session a) true (ax_login a) (ax_challenge a) (ax_flow a).

(** ** Replies *)

Record Cookie := MkCookie {
  ck_Name : string; ck_Value : string; ck_Path : string; ck_HttpOnly : bool; ck_Secure : bool;
  ck_SameSiteLax : bool; ck_MaxAge : Z }.

(** config.go *)
Record SessionCfg := MkSessionCfg { sc_CookieName : string; sc_CookieSecure : bool; sc_CookieSameSite : string }.

Definition sessionCookie (cfg : SessionCfg) (value : string) (maxAge : Z) (tlsActive : bool) : Cookie :=
  MkCookie (sc_CookieName cfg) value "/" true (tlsActive || sc_CookieSecure cfg) true maxAge.

Definition webauthnChallengeCookieName : string := "diyddns_webauthn_challenge".
Definition webauthnChallengeCookieMaxAge : Z := 300.

Definition passkeyChallengeCookie (cfg : SessionCfg) (value : string) (maxAge : Z) (tlsActive : bool) : Cookie :=
  MkCookie webauthnChallengeCookieName value "/" true (tlsActive || sc_CookieSecure cfg) true maxAge.

Definition oidcFlowCookie : string := "diyddns_oidc_flow".

Definition oidcFlowSetCookie (cfg : SessionCfg) (value : string) (maxAge : Z) (tlsActive : bool) : Cookie :=
  MkCookie oidcFlowCookie value "/api/v1/auth/oidc" true (tlsActive || sc_CookieSecure cfg) true maxAge.

(** The views the handlers answer with. *)

Record deviceView := MkDeviceView {
  dv_ID : string; dv_Label : string; dv_CurrentIPv4 : string; dv_CurrentIPv6 : string; dv_Hostname : string;
  dv_OS : string; dv_ClientVersion : string; dv_LastSeenAt : Z; dv_Disabled : bool; dv_CreatedAt : Z;
  dv_UpdatedAt : Z }.

Definition newDeviceView (d : Device) : deviceView :=
  MkDeviceView (dev_ID d) (dev_Label d) (dev_CurrentIPv4 d) (dev_CurrentIPv6 d) (dev_Hostname d) (dev_OS d)
    (dev_ClientVersion d) (dev_LastSeenAt d) (dev_Disabled d) (dev_CreatedAt d) (dev_UpdatedAt d).

Record adminDeviceView := MkAdminDeviceView { adv_deviceView : deviceView; adv_UserID : string }.

Record historyRow := MkHistoryRow { hv_ObservedAt : Z; hv_IPv4 : string; hv_IPv6 : string; hv_ClientVersion : string }.

Record deliveryView := MkDeliveryView {
  lv_Attempted : bool; lv_Sent : bool; lv_To : string; lv_Suppressed : SuppressReason }.

Definition newDeliveryView (d : Delivery) : deliveryView :=
  MkDeliveryView (dl_Attempted d) (Sent d) (dl_To d) (dl_Suppressed d).

Record adminUserView := MkAdminUserView {
  av_ID : string; av_Email : string; av_Role : string; av_Disabled : bool; av_OIDCLinked : bool;
  av_CreatedAt : Z; av_UpdatedAt : Z; av_RegistrationStatus : option RegistrationStatus;
  av_RegistrationLinkExpiresAt : Z }.

(** [reg] is the map's value, [None] for the zero [Registration]. *)
Definition newAdminUserView (u : User) (reg : option Registration) : adminUserView :=
  MkAdminUserView (usr_ID u) (usr_Email u) (usr_Role u) (usr_Disabled u) (is_set (usr_OIDCSubject u))
    (usr_CreatedAt u) (usr_UpdatedAt u) (reg_Status <$> reg) (default 0 (reg_LinkExpiresAt <$> reg)).

Record auditRow := MkAuditRow {
  uv_ID : Z; uv_ActorUserID : string; uv_EventType : string; uv_TargetType : string; uv_TargetID : string;
  uv_IP : string; uv_CreatedAt : Z }.

Record apiKeyView := MkAPIKeyView { kv_ID : string; kv_Label : string; kv_CreatedAt : Z; kv_LastUsedAt : Z }.

Definition newAPIKeyView (k : APIKey) : apiKeyView :=
  MkAPIKeyView (ak_ID k) (ak_Label k) (ak_CreatedAt k) (ak_LastUsedAt k).

Record feedTokenView := MkFeedTokenView {
  fv_ID : string; fv_Label : string; fv_CreatedBy : string; fv_CreatedAt : Z; fv_LastUsedAt : Z }.

Definition newFeedTokenView (t : FeedToken) : feedTokenView :=
  MkFeedTokenView (ft_ID t) (ft_Label t) (ft_CreatedBy t) (ft_CreatedAt t) (ft_LastUsedAt t).

Record endpointView := MkEndpointView {
  ev_ID : string; ev_Label : string; ev_URL : string; ev_Enabled : bool; ev_CreatedAt : Z; ev_UpdatedAt : Z }.

Definition newEndpointView (e : NotificationEndpoint) : endpointView :=
  MkEndpointView (ne_ID e) (ne_Label e) (ne_URL e) (ne_Enabled e) (ne_CreatedAt e) (ne_UpdatedAt e).

Record passkeyView := MkPasskeyView {
  pv_ID : string; pv_Name : string; pv_AAGUID : string; pv_CreatedAt : Z; pv_LastUsedAt : Z }.

Definition newPasskeyView (c : WebAuthnCredential) : passkeyView :=
  MkPasskeyView (b64_rawurl_encode (wc_CredentialID c)) (wc_Name c)
    (b64_rawurl_encode (default EmptyString (wc_AAGUID c))) (wc_CreatedAt c) (wc_LastUsedAt c).

Record serverInfoOIDC := MkServerInfoOIDC {
  so_Enabled : bool; so_Required : bool; so_Issuer : string; so_ClientID : string; so_Scopes : list string;
  so_AutoLinkByEmail : bool; so_AllowOIDCSignup : bool }.

Record serverInfoResponse := MkServerInfo {
  si_Version : string; si_Commit : string; si_Date : string; si_SkewWindowSecs : Z; si_SessionCookie : string;
  si_SessionSecure : bool; si_SessionSameSite : string; si_OIDC : serverInfoOIDC }.

Record Capabilities := MkCapabilities {
  cp_ServerVersion : string; cp_SkewWindowSeconds : Z; cp_AddressFamilies : list string;
  cp_OIDCEnabled : bool; cp_OIDCDeviceEnabled : bool }.

(** version.Info *)
Record Info := MkInfo { in_Version : string; in_Commit : string; in_Date : string }.

(** One constructor per body type. *)
Inductive Body :=
  | NoBody
  | BProblem (detail : string)
  | BOptions (json : string)
  | BCapabilities (c : Capabilities)
  | BEnroll (device_id secret : string)
  | BDeviceStart (flow_id user_code uri uri_complete : string) (expires_in interval : Z)
  | BDevicePoll (status device_id secret : string)
  | BCheckin (device_id ipv4 ipv6 : string) (stored : bool)
  | BSelf (d : deviceView)
  | BMe (id email role csrf : string)
  | BCode (code : string) (expires_at : Z)
  | BDevice (d : deviceView)
  | BDevices (l : list deviceView)
  | BSecret (secret : string)
  | BHistory (l : list historyRow) (next : string)
  | BEmailChange (link : string) (d : deliveryView) (expires_at : Z)
  | BKeys (l : list apiKeyView)
  | BMintedKey (k : apiKeyView) (secret : string)
  | BTokens (l : list feedTokenView)
  | BMintedToken (t : feedTokenView) (secret : string)
  | BUser (u : adminUserView)
  | BUsers (l : list adminUserView)
  | BCreatedUser (u : adminUserView) (link : string) (d : deliveryView)
  | BSetEmail (u : adminUserView) (d : deliveryView)
  | BRecovery (link : string) (d : deliveryView)
  | BReissued (link : string) (expires_at : Z) (d : deliveryView) (u : adminUserView)
  | BAdminDevices (l : list adminDeviceView)
  | BCIDRs (l : list string)
  | BAudit (l : list auditRow) (next : string)
  | BServer (s : serverInfoResponse)
  | BEndpoints (l : list endpointView)
  | BEndpoint (e : endpointView)
  | BCreatedEndpoint (e : endpointView) (secret : string)
  | BPasskeys (l : list passkeyView).

(** A handler's output: [None] is the operation's default status. *)
Record Reply := MkReply { re_Status : option Z; re_Cookies : list Cookie; re_Location : string; re_Body : Body }.

Definition reply_ok {A} (f : A -> Body) (x : A) : M Reply := mret (MkReply None [] EmptyString (f x)).
Definition reply_body (b : Body) : M Reply := mret (MkReply None [] EmptyString b).

(** huma.WriteErr and a returned huma.StatusError. *)
Definition problem (status : Z) (detail : string) : Reply := MkReply (Some status) [] EmptyString (BProblem detail).

(** [v, err := f(); if err != nil { return nil, mapper(err) }] *)
Definition or_else {A B} (m : M A) (mapper : err -> M B) (k : A -> M B) : M B :=
  r ← catch m; match r with inl a => k a | inr e => mapper e end.

Lemma wp_or_else {A B} (m : M A) (f : err -> M B) k (Q : result B -> World -> Prop) w :
  wp m (fun r w' => match r with
    | Ok a => wp (k a) Q w'
    | Err e => wp (f e) Q w'
    | Panic => Q Panic w'
    end) w -> wp (or_else m f k) Q w.
Proof. intros Hm. apply wp_bind, wp_catch. eapply wp_mono; [exact Hm|]. by intros [a|e|] w'. Qed.

(** ** Libraries *)

(** net/url.URL, as the program reads it. *)
Record URL := MkURL { u_Scheme : string; u_Host : string; u_Hostname : string; u_Path : string }.

Record oidcFlowState := MkFlowState { of_State : string; of_Verifier : string; of_Nonce : string; of_Next : string }.

Class ApiLibs := {
  mail_ParseAddress : string -> option (string * string);
  url_Parse : string -> option URL;
  deny_text : target_error -> string;
  json_claim : claimSession -> option string;
  unjson_claim : string -> option claimSession }.

(** The input an operation declares: path, query and body fields.  A field of
    the body is required unless its tag says omitempty. *)
Inductive field_kind := KString | KBool | KInt.
Record input_field := MkField { if_Name : string; if_Kind : field_kind; if_Required : bool }.
Record input_spec := MkSpec { is_Path : list input_field; is_Query : list input_field; is_Body : list input_field; is_Raw : bool }.

Definition no_input : input_spec := MkSpec [] [] [] false.
Definition str (name : string) : input_field := MkField name KString true.
Definition opt_str (name : string) : input_field := MkField name KString false.
Definition opt_bool (name : string) : input_field := MkField name KBool false.
Definition path_id : input_spec := MkSpec [str "id"] [] [] false.
Definition body_of (l : list input_field) : input_spec := MkSpec [] [] l false.
Definition path_and_body (l : list input_field) : input_spec := MkSpec [str "id"] [] l false.
Definition raw_body : input_spec := MkSpec [] [] [] true.

Inductive input_value := VString (s : string) | VBool (b : bool) | VInt (z : Z).

(** What was decoded: the absent fields are the absent keys. *)
Record Input := MkInput {
  in_Path : gmap string input_value; in_Query : gmap string input_value; in_Body : gmap string input_value;
  in_Raw : string }.

Definition str_value (v : option input_value) : option string :=
  match v with Some (VString s) => Some s | _ => None end.
Definition bool_value (v : option input_value) : option bool :=
  match v with Some (VBool b) => Some b | _ => None end.
Definition int_value (v : option input_value) : Z := match v with Some (VInt z) => z | _ => 0 end.

Definition in_ID (i : Input) : string := default EmptyString (str_value (in_Path i !! "id"%string)).
Definition in_text (i : Input) (name : string) : string := default EmptyString (str_value (in_Body i !! name)).
Definition in_query (i : Input) (name : string) : string := default EmptyString (str_value (in_Query i !! name)).

Class Huma (HttpRequest : Type) := {
  decode_input : input_spec -> ApiRequest HttpRequest -> Input + Z * string }.

(** ** Dependencies

    [ServerDeps] of api.go.  The services are their configuration; the grant
    service is always built, the passkey service only when the relying party
    is resolved, the notification service only when notifications are on. *)

(** config.Auth, as the handlers read it. *)
Record AuthCfg := MkAuthCfg { au_Session : SessionCfg; au_SkewWindow : Z; au_OIDC : OIDCCfg }.

Record ServerDeps := MkServerDeps {
  sv_Verifier : Verifier; sv_Sessions : SessionManager; sv_codeTTL : Z; sv_sealKey : string;
  sv_devNotifier : DeviceNotifier; sv_notifier : Notifier; sv_Bootstrap : BootstrapService;
  sv_Passkey : option PasskeyService; sv_Grants : GrantService; sv_Notify : option NotificationService;
  sv_Mailer : option Mailer; sv_baseURL : string; sv_OIDCMgr : option Manager; sv_HMACKey : string;
  sv_Cfg : AuthCfg; sv_Info : Info; sv_FeedEnabled : bool;
  (** the bounded background context of the recovery goroutine *)
  sv_recoveryCtx : ctx }.

(** shared/hmac.go *)
Definition HeaderDevice : string := "X-Diyddns-Device".
Definition HeaderTimestamp : string := "X-Diyddns-Timestamp".
Definition HeaderNonce : string := "X-Diyddns-Nonce".
Definition HeaderSignature : string := "X-Diyddns-Signature".

(** ** authmw.go *)

Section Middlewares.
Context `{Crypto} {HttpRequest : Type}.

Definition maxAgentBody : Z := 64 * 1024.

  (** A middleware gets the rest of the chain as its continuation. *)
Definition Middleware : Type := ApiRequest HttpRequest -> actx -> (actx -> M Reply) -> M Reply.

Definition unauthorized : M Reply := mret (problem 401 "unauthorized").

Definition hmacMiddleware (v : Verifier) (maxBody : Z) : Middleware := fun rq a next =>
    match rq_body rq with
    | None => mret (problem 413 "request body too large")
    | Some body =>
        if maxBody <? Z.of_nat (String.length body) then mret (problem 413 "request body too large")
        else
          now ← now_unix;
          or_else (Verify (rq_ctx rq) v
              (MkRequestParts (rq_Header rq HeaderDevice) (rq_Header rq HeaderTimestamp) (rq_Header rq HeaderNonce)
                 (rq_Header rq HeaderSignature) (rq_Method rq) (rq_Path rq) body) now)
            (fun _ => unauthorized)
            (fun deviceID => next (with_device deviceID a))
    end.

Definition sessionMiddleware (sm : SessionManager) (cookieName : string) : Middleware := fun rq a next =>
    or_else (AuthenticateRequest (rq_ctx rq) sm (rq_Cookie rq cookieName))
      (fun _ => unauthorized)
      (fun us => next (with_session us.1 us.2 a)).

Definition demoted (usr : User) : User :=
    MkUser (usr_ID usr) (usr_Email usr) "user" (usr_OIDCProvider usr) (usr_OIDCSubject usr) (usr_Disabled usr)
      (usr_CreatedAt usr) (usr_UpdatedAt usr) (usr_PendingEmail usr) (usr_PendingEmailExpiresAt usr).

  (** [strings.CutPrefix(header, "Bearer ")] and the shape of the token. *)
Definition bearer (prefix header : string) : option string :=
    if has_prefix header "Bearer " then
      let plaintext := String.substring 7 (String.length header - 7) header in
      if negb (has_prefix plaintext prefix) || has_char (chr 32) plaintext || has_char (chr 9) plaintext then None
      else Some plaintext
    else None.

Definition sessionOrAPIKeyMiddleware (sm : SessionManager) (cookieName : string) : Middleware := fun rq a next =>
    let header := rq_Header rq "Authorization" in
    if str_eq header EmptyString then sessionMiddleware sm cookieName rq a next
    else match bearer APIKeyPrefix header with
    | None => unauthorized
    | Some plaintext =>
        or_else (AuthenticateKey (rq_ctx rq) plaintext) (fun _ => unauthorized) (fun key =>
        or_else (UserForKey (rq_ctx rq) key) (fun _ => unauthorized) (fun usr =>
          if usr_Disabled usr then unauthorized
          else next (with_key_user (if ak_AdminScope key then usr else demoted usr) a)))
    end.

Definition csrfMiddleware : Middleware := fun rq a next =>
    if ax_api_key a then next a
    else if negb (ValidCSRF (SessionFrom a) (rq_Header rq "X-CSRF-Token")) then
      mret (problem 403 "invalid csrf token")
    else next a.

Definition adminMiddleware : Middleware := fun rq a next =>
    if negb (str_eq (usr_Role (UserFrom a)) "admin") then mret (problem 403 "admin role required")
    else next a.

  (** auth.go *)
Definition loginMetaMiddleware : Middleware := fun rq a next =>
    next (MkActx (ax_device a) (ax_user a) (ax_session a) (ax_api_key a)
            (Some (MkLoginMeta (rq_RemoteAddr rq) (rq_UserAgent rq) (rq_TLS rq))) (ax_challenge a) (ax_flow a)).

  (** passkey.go *)
Definition webauthnMetaMiddleware : Middleware := fun rq a next =>
    next (MkActx (ax_device a) (ax_user a) (ax_session a) (ax_api_key a) (ax_login a)
            (default EmptyString (rq_Cookie rq webauthnChallengeCookieName)) (ax_flow a)).

  (** oidc.go *)
Definition oidcFlowMiddleware : Middleware := fun rq a next =>
    next (match rq_Cookie rq oidcFlowCookie with
          | Some v => MkActx (ax_device a) (ax_user a) (ax_session a) (ax_api_key a) (ax_login a) (ax_challenge a) (Some v)
          | None => a
          end).

Definition hmacMW (deps : ServerDeps) : Middleware := hmacMiddleware (sv_Verifier deps) maxAgentBody.
Definition sessionMW (deps : ServerDeps) : Middleware :=
    sessionMiddleware (sv_Sessions deps) (sc_CookieName (au_Session (sv_Cfg deps))).
Definition sessionOrKeyMW (deps : ServerDeps) : Middleware :=
    sessionOrAPIKeyMiddleware (sv_Sessions deps) (sc_CookieName (au_Session (sv_Cfg deps))).
Definition csrfMW (deps : ServerDeps) : Middleware := csrfMiddleware.
Definition adminMW (deps : ServerDeps) : Middleware := adminMiddleware.
Definition adminReadMW (deps : ServerDeps) : list Middleware := [sessionOrKeyMW deps; adminMW deps].
Definition adminWriteMW (deps : ServerDeps) : list Middleware := [sessionOrKeyMW deps; adminMW deps; csrfMW deps].

  (** The middlewares of an operation run in order. *)
Definition chain (mws : list Middleware) (rq : ApiRequest HttpRequest) (a : actx) (h : actx -> M Reply) : M Reply :=
    foldr (fun (m : Middleware) k a => m rq a k) h mws a.

  (** ** Operations *)

Inductive segment := Lit (s : string) | Wild (name : string).

Record Op := MkOp {
    op_Method : string; op_Path : list segment; op_Status : Z; op_MWs : list Middleware; op_Spec : input_spec;
    op_Handler : ApiRequest HttpRequest -> actx -> Input -> M Reply }.

Definition huma_handler `{Huma HttpRequest} (op : Op) (rq : ApiRequest HttpRequest) (a : actx) : M Reply :=
    match decode_input (op_Spec op) rq with
    | inr (status, detail) => mret (problem status detail)
    | inl inp => op_Handler op rq a inp
    end.

  (** One request, served by [op]. *)
Definition serve_op `{Huma HttpRequest} (op : Op) (rq : ApiRequest HttpRequest) : M Reply :=
    chain (op_MWs op) rq no_values (huma_handler op rq).

Definition status_of (op : Op) (r : Reply) : Z := default (op_Status op) (re_Status r).
End Middlewares.
Arguments Middleware HttpRequest : clear implicits.
Arguments Op HttpRequest : clear implicits.
