(* ===== verification/ApiDevices.v ===== *)
(** * internal/server/api: agents, devices, account

    The operations of enroll.go, enroll_oidc.go, checkin.go, capabilities.go,
    devices.go, account.go, apikeys.go and auth.go, with the error mappers they
    share.  Each [register...] is the list of operations its Go namesake
    registers. *)

From S2P Require Import Prelude GoLib Schema Effects StoreUsers StoreDevices StoreTokens Auth ServiceDevices.
From S2P Require Import ServiceTokens NetAddr Endpoints Email EmailChange Passkeys Grants SignIn Oidc ApiCore.

(** store/cancelled.go: an error the driver gives for an ended context is not
    told from another; the context itself is asked. *)
Definition Cancelled (c : ctx) : M bool := ctx_err c.

Definition statusClientClosedRequest : Z := 499.
Definition msgClientClosedRequest : string := "client closed request".
Definition errEnrollUnauthorized : string := "invalid enrollment code".
Definition errDeviceLabelTaken : string := "a device with that label already exists".
Definition slowDownBumpSeconds : Z := 5.
Definition hmacSkewWindowSeconds : Z := 120.

Definition fail_with (status : Z) (detail : string) : M Reply := mret (problem status detail).
Definition failed_to (action : string) : M Reply := fail_with 500 ("failed to " ++ action).

Section Devices.
Context `{Crypto} `{WebAuthn Options HttpRequest} `{OIDCLib} `{ApiLibs} (deps : ServerDeps).

  (** ** enroll.go *)

Definition enrollErr (c : ctx) (e : err) : M Reply :=
    match e with
    | ErrNotFound => fail_with 401 errEnrollUnauthorized
    | ErrConflict => fail_with 409 errDeviceLabelTaken
    | _ =>
        b ← Cancelled c;
        if b : bool then fail_with statusClientClosedRequest msgClientClosedRequest
        else fail_with 500 "failed to enroll device"
    end.

Definition enroll_code (c : ctx) (code : string) : M Reply :=
    or_else (ConsumeCode (sv_sealKey deps) c code (MkClientMeta EmptyString EmptyString EmptyString)) (enrollErr c)
      (fun res => reply_body (BEnroll (er_DeviceID res) (b64_std_encode (er_Secret res)))).

  (** ** enroll_oidc.go *)

Definition startOIDCDevice (c : ctx) : M Reply :=
    on ← DeviceEnabled (sv_OIDCMgr deps);
    match sv_OIDCMgr deps, (on : bool) with
    | Some mgr, true =>
        or_else (DeviceStart mgr c)
          (fun e => if bool_decide (e = ErrDeviceUnsupported) then fail_with 501 "oidc device flow not available"
                    else fail_with 502 "oidc device start failed")
          (fun da =>
        or_else (RandToken 32) (fun _ => fail_with 500 "internal error") (fun flowID =>
          now ← now_unix;
          let interval := Z.max (da_Interval da) 5 in
          or_else (OIDCDeviceFlowRepo.Create c (MkOIDCDeviceFlow flowID (da_DeviceCode da) interval
                     (da_ExpiresAt da) 0 now))
            (fun _ => fail_with 500 "internal error")
            (fun _ => reply_body (BDeviceStart flowID (da_UserCode da) (da_VerificationURI da)
               (da_VerificationURIComplete da) (da_ExpiresAt da - now) interval))))
    | _, _ => fail_with 501 "oidc device flow not available"
    end.

  (** [_ = deps.Store.OIDCDeviceFlows().Delete(...)] *)
Definition drop_flow (c : ctx) (flow : OIDCDeviceFlow) : M unit :=
    attempt (OIDCDeviceFlowRepo.Delete c (fl_FlowID flow));; mret tt.

Definition oidc_login (c : ctx) (cl : Claims) : M User :=
    LoginOrLink mail_ParseAddress (sv_Mailer deps) (au_OIDC (sv_Cfg deps)) c
      (oc_Issuer (au_OIDC (sv_Cfg deps))) (ic_Subject cl) (ic_Email cl) (ic_EmailVerified cl).

Definition completeOIDCDevice (c : ctx) (flow : OIDCDeviceFlow) (cl : Claims) : M Reply :=
    or_else (oidc_login c cl) (fun _ => drop_flow c flow;; fail_with 401 "enrollment not authorized") (fun user =>
    or_else (EnrollForUser (sv_sealKey deps) c (usr_ID user) "device.enroll.oidc"
               (MkClientMeta EmptyString EmptyString EmptyString))
      (fun _ => drop_flow c flow;; fail_with 500 "internal error")
      (fun enr =>
        drop_flow c flow;;
        reply_body (BDevicePoll EmptyString (er_DeviceID enr) (b64_std_encode (er_Secret enr))))).

Definition poll_status (s : string) : M Reply := reply_body (BDevicePoll s EmptyString EmptyString).

Definition pollOIDCDevice (c : ctx) (flowID : string) : M Reply :=
    now ← now_unix;
    or_else (OIDCDeviceFlowRepo.TryPoll c flowID now)
      (fun e => if bool_decide (e = ErrNotFound) then fail_with 410 "device flow expired or unknown"
                else fail_with 500 "internal error")
      (fun r =>
        let (flow, allowed) := (r : OIDCDeviceFlow * bool) in
        if negb allowed then poll_status "slow_down"
        else match sv_OIDCMgr deps with
        | None => panic
        | Some mgr =>
            or_else (DevicePoll mgr c (fl_DeviceCode flow)) (fun _ => fail_with 502 "oidc device poll failed")
              (fun res => match res with
              | PollPending => poll_status "pending"
              | PollSlowDown =>
                  attempt (OIDCDeviceFlowRepo.BumpInterval c (fl_FlowID flow) slowDownBumpSeconds);;
                  poll_status "slow_down"
              | PollDenied => drop_flow c flow;; fail_with 410 "device authorization denied or expired"
              | PollComplete cl => completeOIDCDevice c flow cl
              end)
        end).

Definition registerEnrollOIDCOps : list (Op HttpRequest) :=
    [ MkOp "POST" [Lit "agent"; Lit "v1"; Lit "enroll"; Lit "oidc"; Lit "start"] 200 [] no_input
        (fun rq a i => startOIDCDevice (rq_ctx rq));
      MkOp "POST" [Lit "agent"; Lit "v1"; Lit "enroll"; Lit "oidc"; Lit "poll"] 200 [] (body_of [str "flow_id"])
        (fun rq a i => pollOIDCDevice (rq_ctx rq) (in_text i "flow_id")) ].

Definition registerEnrollOps : list (Op HttpRequest) :=
    MkOp "POST" [Lit "agent"; Lit "v1"; Lit "enroll"; Lit "code"] 200 [] (body_of [str "code"])
      (fun rq a i => enroll_code (rq_ctx rq) (in_text i "code"))
    :: registerEnrollOIDCOps.

  (** ** checkin.go *)

Definition checkin_op (c : ctx) (a : actx) (i : Input) : M Reply :=
    or_else (Checkin (sv_notifier deps) c (DeviceIDFrom a)
        (MkCheckinReport (in_text i "ipv4") (in_text i "ipv6") (in_text i "hostname") (in_text i "os")
           (in_text i "client_version")))
      (fun _ => fail_with 500 "check-in failed")
      (fun res => reply_body (BCheckin (cres_DeviceID res) (cres_CurrentIPv4 res) (cres_CurrentIPv6 res)
                                (cres_Stored res))).

Definition self_op (c : ctx) (a : actx) : M Reply :=
    or_else (Self c (DeviceIDFrom a)) (fun _ => fail_with 500 "self lookup failed")
      (fun dev => reply_body (BSelf (newDeviceView dev))).

Definition registerCheckinOps : list (Op HttpRequest) :=
    [ MkOp "POST" [Lit "agent"; Lit "v1"; Lit "checkin"] 200 [hmacMW deps]
        (body_of [opt_str "ipv4"; opt_str "ipv6"; opt_str "hostname"; opt_str "os"; opt_str "client_version"])
        (fun rq a i => checkin_op (rq_ctx rq) a i);
      MkOp "GET" [Lit "agent"; Lit "v1"; Lit "self"] 200 [hmacMW deps] no_input
        (fun rq a i => self_op (rq_ctx rq) a) ].

Definition registerAgentOps : list (Op HttpRequest) := registerEnrollOps ++ registerCheckinOps.

  (** ** capabilities.go *)

Definition registerCapabilities : list (Op HttpRequest) :=
    [ MkOp "GET" [Lit "agent"; Lit "v1"; Lit "capabilities"] 200 [] no_input
        (fun rq a i =>
          on ← OIDCEnabled (sv_OIDCMgr deps);
          dev ← DeviceEnabled (sv_OIDCMgr deps);
          reply_body (BCapabilities (MkCapabilities (in_Version (sv_Info deps)) hmacSkewWindowSeconds
            ["ipv4"; "ipv6"] on dev))) ].

  (** ** devices.go *)

Definition deviceMgmtErr (action : string) (e : err) : M Reply :=
    match e with
    | ErrNotFound => fail_with 404 "device not found"
    | ErrConflict => fail_with 409 errDeviceLabelTaken
    | _ => failed_to action
    end.

Definition mint_code (c : ctx) (a : actx) (label : string) : M Reply :=
    or_else (CreateCode (sv_codeTTL deps) c (usr_ID (UserFrom a)) label)
      (fun _ => failed_to "mint enrollment code")
      (fun r => reply_body (BCode r.1 r.2)).

Definition list_devices (c : ctx) (a : actx) : M Reply :=
    or_else (DeviceService.List c (usr_ID (UserFrom a))) (fun _ => failed_to "list devices")
      (fun devices => reply_body (BDevices (newDeviceView <$> devices))).

Definition get_device (c : ctx) (a : actx) (id : string) : M Reply :=
    or_else (DeviceService.Get c (usr_ID (UserFrom a)) id)
      (fun e => if bool_decide (e = ErrNotFound) then fail_with 404 "device not found" else failed_to "get device")
      (fun dev => reply_body (BDevice (newDeviceView dev))).

Definition registerDeviceOps : list (Op HttpRequest) :=
    [ MkOp "POST" [Lit "api"; Lit "v1"; Lit "devices"] 200 [sessionOrKeyMW deps; csrfMW deps] (body_of [str "label"])
        (fun rq a i => mint_code (rq_ctx rq) a (in_text i "label"));
      MkOp "GET" [Lit "api"; Lit "v1"; Lit "devices"] 200 [sessionOrKeyMW deps] no_input
        (fun rq a i => list_devices (rq_ctx rq) a);
      MkOp "GET" [Lit "api"; Lit "v1"; Lit "devices"; Wild "id"] 200 [sessionOrKeyMW deps] path_id
        (fun rq a i => get_device (rq_ctx rq) a (in_ID i)) ].

  (** PATCH: the label, then the flag; neither: the device as it is. *)
Definition patch_device (c : ctx) (a : actx) (id : string) (label : option string) (disabled : option bool) : M Reply :=
    let u := usr_ID (UserFrom a) in
    let then_disable (renamed : option Device) :=
      match disabled with
      | Some d =>
          or_else (DeviceService.SetEnabled (sv_devNotifier deps) c u id d) (deviceMgmtErr "set device enabled")
            (fun dev => reply_body (BDevice (newDeviceView dev)))
      | None =>
          match renamed with
          | Some dev => reply_body (BDevice (newDeviceView dev))
          | None =>
              or_else (DeviceService.Get c u id) (deviceMgmtErr "get device")
                (fun dev => reply_body (BDevice (newDeviceView dev)))
          end
      end in
    match label with
    | Some l =>
        if str_eq l EmptyString then fail_with 422 "label must not be empty"
        else or_else (DeviceService.Rename c u id l) (deviceMgmtErr "rename device") (fun dev => then_disable (Some dev))
    | None => then_disable None
    end.

Definition delete_device (c : ctx) (a : actx) (id : string) : M Reply :=
    or_else (DeviceService.Delete (sv_devNotifier deps) c (usr_ID (UserFrom a)) id) (deviceMgmtErr "delete device")
      (fun _ => reply_body NoBody).

Definition rotate_secret (c : ctx) (a : actx) (id : string) : M Reply :=
    or_else (DeviceService.RotateSecret (sv_sealKey deps) c (usr_ID (UserFrom a)) id)
      (deviceMgmtErr "rotate device secret")
      (fun secret => reply_body (BSecret (b64_std_encode secret))).

Definition history_view (h : IPHistory) : historyRow :=
    MkHistoryRow (iph_ObservedAt h) (iph_IPv4 h) (iph_IPv6 h) (iph_ClientVersion h).

Definition device_history (c : ctx) (a : actx) (id cursor : string) (limit : Z) : M Reply :=
    or_else (DeviceService.History c (usr_ID (UserFrom a)) id cursor limit) (deviceMgmtErr "get device history")
      (fun page => reply_body (BHistory (history_view <$> IPHistoryRepo.hp_Rows page) (IPHistoryRepo.hp_NextCursor page))).

Definition registerDeviceMgmtOps : list (Op HttpRequest) :=
    let session := [sessionOrKeyMW deps] in
    let sessionCSRF := [sessionOrKeyMW deps; csrfMW deps] in
    [ MkOp "PATCH" [Lit "api"; Lit "v1"; Lit "devices"; Wild "id"] 200 sessionCSRF
        (path_and_body [opt_str "label"; opt_bool "disabled"])
        (fun rq a i => patch_device (rq_ctx rq) a (in_ID i) (str_value (in_Body i !! "label"%string))
                         (bool_value (in_Body i !! "disabled"%string)));
      MkOp "DELETE" [Lit "api"; Lit "v1"; Lit "devices"; Wild "id"] 204 sessionCSRF path_id
        (fun rq a i => delete_device (rq_ctx rq) a (in_ID i));
      MkOp "POST" [Lit "api"; Lit "v1"; Lit "devices"; Wild "id"; Lit "rotate-secret"] 200 sessionCSRF path_id
        (fun rq a i => rotate_secret (rq_ctx rq) a (in_ID i));
      MkOp "GET" [Lit "api"; Lit "v1"; Lit "devices"; Wild "id"; Lit "history"] 200 session
        (MkSpec [str "id"] [opt_str "cursor"; MkField "limit" KInt false] [] false)
        (fun rq a i => device_history (rq_ctx rq) a (in_ID i) (in_query i "cursor") (int_value (in_Query i !! "limit"%string))) ].

  (** ** account.go *)

Definition accountEmailErr (action : string) (e : err) : M Reply :=
    match e with
    | ErrEmailUnchanged => fail_with 422 "That is already the account's email address."
    | ErrEmailManagedByOIDC => fail_with 422 "This account's email address is managed by its identity provider."
    | ErrEmailChangeInvalid =>
        fail_with 422 "This confirmation link is invalid or has expired. Request the change again from your account page."
    | ErrConfirmationNotSent =>
        fail_with 503 "The confirmation email could not be sent. Try again in a moment. If the account page then shows the change as already pending, cancel it and request it again."
    | ErrInvalidEmail =>
        fail_with 422 "Email addresses must be plain 7-bit ASCII in user@host form, with no display name and no surrounding whitespace."
    | ErrConflict => fail_with 409 "A user with that email address already exists."
    | _ => failed_to action
    end.

Definition request_email (c : ctx) (a : actx) (email : string) : M Reply :=
    or_else (EmailChange.Request mail_ParseAddress (sv_Mailer deps) (sv_baseURL deps) c (UserFrom a) email)
      (accountEmailErr "request email change")
      (fun r => reply_body (BEmailChange r.1.1 (newDeliveryView r.1.2) r.2)).

Definition cancel_email (c : ctx) (a : actx) : M Reply :=
    or_else (EmailChange.Cancel c (UserFrom a)) (accountEmailErr "cancel email change")
      (fun _ => reply_body NoBody).

Definition confirm_email (c : ctx) (a : actx) (token : string) : M Reply :=
    or_else (EmailChange.Confirm (sv_Mailer deps) c (UserFrom a) token)
      (accountEmailErr "confirm email change")
      (fun _ => reply_body NoBody).

Definition registerAccountEmailOps : list (Op HttpRequest) :=
    let sessionCSRF := [sessionMW deps; csrfMW deps] in
    [ MkOp "POST" [Lit "api"; Lit "v1"; Lit "account"; Lit "email"] 200 sessionCSRF (body_of [str "email"])
        (fun rq a i => request_email (rq_ctx rq) a (in_text i "email"));
      MkOp "POST" [Lit "api"; Lit "v1"; Lit "account"; Lit "email"; Lit "cancel"] 200 sessionCSRF no_input
        (fun rq a i => cancel_email (rq_ctx rq) a);
      MkOp "POST" [Lit "api"; Lit "v1"; Lit "account"; Lit "email"; Lit "confirm"] 200 sessionCSRF (body_of [str "token"])
        (fun rq a i => confirm_email (rq_ctx rq) a (in_text i "token")) ].

  (** ** apikeys.go *)

Definition apiKeyErr (action : string) (e : err) : M Reply :=
    match e with
    | ErrNotFound => fail_with 404 "api key not found"
    | ErrConflict => fail_with 409 "an api key with that label already exists"
    | ErrInvalidKeyLabel => fail_with 422 "label must not be empty"
    | _ => failed_to action
    end.

Definition list_keys (c : ctx) (a : actx) : M Reply :=
    or_else (ListKeys c (usr_ID (UserFrom a))) (apiKeyErr "list api keys")
      (fun keys => reply_body (BKeys (newAPIKeyView <$> keys))).

Definition mint_key (c : ctx) (a : actx) (label : string) : M Reply :=
    or_else (MintKey c (usr_ID (UserFrom a)) label) (apiKeyErr "mint api key")
      (fun r => reply_body (BMintedKey (newAPIKeyView r.1) r.2)).

Definition revoke_key (c : ctx) (a : actx) (id : string) : M Reply :=
    or_else (RevokeKey c (usr_ID (UserFrom a)) id) (apiKeyErr "revoke api key") (fun _ => reply_body NoBody).

Definition registerAPIKeyOps : list (Op HttpRequest) :=
    let sessionCSRF := [sessionMW deps; csrfMW deps] in
    [ MkOp "GET" [Lit "api"; Lit "v1"; Lit "account"; Lit "keys"] 200 [sessionMW deps] no_input
        (fun rq a i => list_keys (rq_ctx rq) a);
      MkOp "POST" [Lit "api"; Lit "v1"; Lit "account"; Lit "keys"] 200 sessionCSRF (body_of [str "label"])
        (fun rq a i => mint_key (rq_ctx rq) a (in_text i "label"));
      MkOp "DELETE" [Lit "api"; Lit "v1"; Lit "account"; Lit "keys"; Wild "id"] 204 sessionCSRF path_id
        (fun rq a i => revoke_key (rq_ctx rq) a (in_ID i)) ].
End Devices.
