(* ===== verification/ApiAdmin.v ===== *)
(** * internal/server/api: administration

    The operations of admin.go, feed.go and notifications.go with their error
    mappers.  Every one of them runs behind [adminReadMW] or [adminWriteMW]. *)

From S2P Require Import Prelude GoLib Schema Effects StoreUsers StoreDevices StoreTokens Auth ServiceDevices.
From S2P Require Import ServiceTokens NetAddr Feed Endpoints Email EmailChange Passkeys Grants Admin SignIn.
From S2P Require Import Oidc ApiCore ApiDevices.

Section Admin.
Context `{Crypto} `{WebAuthn Options HttpRequest} `{ApiLibs} (deps : ServerDeps).

  (** ** admin.go *)

Definition adminErr (action : string) (e : err) : M Reply :=
    match e with
    | ErrNotFound => fail_with 404 "user not found"
    | ErrConflict => fail_with 409 "a user with that email already exists"
    | ErrLastAdmin => fail_with 409 "cannot remove the last admin"
    | ErrSelfLockout => fail_with 409 "cannot disable or delete your own account"
    | ErrInvalidRole => fail_with 422 "role must be 'admin' or 'user'"
    | ErrInvalidEmail =>
        fail_with 422 "email address must be a plain 7-bit ASCII address in user@host form, with no display name and no surrounding whitespace"
    | ErrEmailUnchanged => fail_with 422 "That is already the account's email address."
    | ErrEmailManagedByOIDC => fail_with 422 "This account's email address is managed by its identity provider."
    | ErrAlreadyRegistered => fail_with 422 "account has already registered; use /recovery"
    | ErrWebAuthnUnavailable => fail_with 503 "passkey authentication is not configured"
    | _ => failed_to action
    end.

Definition adminUserViews (c : ctx) (users : list User) : M (list adminUserView) :=
    now ← now_unix;
    regs ← RegistrationStatuses c users now;
    mret ((fun u => newAdminUserView u (regs !! usr_ID u)) <$> users).

Definition adminUserViewFor (c : ctx) (u : User) : M adminUserView :=
    views ← adminUserViews c [u];
    match views with v :: _ => mret v | [] => panic end.

Definition adminListUsersHandler (c : ctx) : M Reply :=
    or_else (ListUsers c) (adminErr "list users") (fun users =>
    or_else (adminUserViews c users) (adminErr "list users") (fun views => reply_body (BUsers views))).

Definition adminGetUserHandler (c : ctx) (id : string) : M Reply :=
    or_else (UserRepo.GetByID c id) (adminErr "get user") (fun u =>
    or_else (adminUserViewFor c u) (adminErr "get user") (fun view => reply_body (BUser view))).

Definition adminCreateUserHandler (c : ctx) (a : actx) (email role : string) : M Reply :=
    or_else (CreateUserInvite mail_ParseAddress (Some (sv_Grants deps)) c (usr_ID (UserFrom a)) email role)
      (adminErr "create user") (fun r =>
    or_else (adminUserViewFor c r.1.1) (adminErr "create user") (fun view =>
      reply_body (BCreatedUser view r.1.2 (newDeliveryView r.2)))).

Definition adminUpdateUserHandler (c : ctx) (a : actx) (id : string) (p : UpdateUserParams) : M Reply :=
    or_else (UpdateUser (sv_devNotifier deps) c (usr_ID (UserFrom a)) id p) (adminErr "update user") (fun u =>
    or_else (adminUserViewFor c u) (adminErr "update user") (fun view => reply_body (BUser view))).

Definition adminSetUserEmailHandler (c : ctx) (a : actx) (id email : string) : M Reply :=
    or_else (UserRepo.GetByID c id) (adminErr "set user email") (fun target =>
    or_else (AdminSet mail_ParseAddress (sv_Mailer deps) c (usr_ID (UserFrom a)) target email)
      (adminErr "set user email") (fun r =>
    or_else (adminUserViewFor c r.1) (adminErr "set user email") (fun view =>
      reply_body (BSetEmail view (newDeliveryView r.2))))).

Definition admin_delete_user (c : ctx) (a : actx) (id : string) : M Reply :=
    or_else (DeleteUser (sv_devNotifier deps) c (usr_ID (UserFrom a)) id) (adminErr "delete user")
      (fun _ => reply_body NoBody).

Definition admin_issue_recovery (c : ctx) (a : actx) (id : string) : M Reply :=
    or_else (UserRepo.GetByID c id) (adminErr "issue recovery") (fun target =>
    or_else (IssueRecovery (sv_Grants deps) c (usr_ID (UserFrom a)) target) (adminErr "issue recovery") (fun r =>
      reply_body (BRecovery r.1 (newDeliveryView r.2)))).

Definition adminReissueInviteHandler (c : ctx) (a : actx) (id : string) : M Reply :=
    or_else (UserRepo.GetByID c id) (adminErr "reissue invite") (fun target =>
    or_else (ReissueInvite (sv_Grants deps) c (usr_ID (UserFrom a)) target) (adminErr "reissue invite") (fun r =>
    or_else (adminUserViewFor c target) (adminErr "reissue invite") (fun view =>
      reply_body (BReissued r.1.1 r.1.2 (newDeliveryView r.2) view)))).

Definition admin_list_devices (c : ctx) : M Reply :=
    or_else (ListAllDevices c) (adminErr "list all devices") (fun devices =>
      reply_body (BAdminDevices ((fun d => MkAdminDeviceView (newDeviceView d) (dev_UserID d)) <$> devices))).

Definition admin_list_ips (c : ctx) : M Reply :=
    or_else (ListAllDeviceIPs c) (adminErr "list device ips") (fun addrs =>
      reply_body (BCIDRs (CIDRString <$> addrs))).

Definition audit_view (e : AuditEntry) : auditRow :=
    MkAuditRow (ae_ID e) (ae_ActorUserID e) (ae_EventType e) (ae_TargetType e) (ae_TargetID e) (ae_IP e) (ae_CreatedAt e).

Definition admin_audit (c : ctx) (i : Input) : M Reply :=
    or_else (ListAudit c (AuditLogRepo.MkAuditFilter (in_query i "actor_user_id") (in_query i "event_type")
               (int_value (in_Query i !! "since"%string)) (int_value (in_Query i !! "until"%string)))
               (in_query i "cursor") (int_value (in_Query i !! "limit"%string)))
      (adminErr "list audit")
      (fun page => reply_body (BAudit (audit_view <$> AuditLogRepo.ap_Rows page) (AuditLogRepo.ap_NextCursor page))).

Definition admin_server : M Reply :=
    let oidc := au_OIDC (sv_Cfg deps) in
    let sess := au_Session (sv_Cfg deps) in
    reply_body (BServer (MkServerInfo (in_Version (sv_Info deps)) (in_Commit (sv_Info deps)) (in_Date (sv_Info deps))
      (au_SkewWindow (sv_Cfg deps)) (sc_CookieName sess) (sc_CookieSecure sess) (sc_CookieSameSite sess)
      (MkServerInfoOIDC (oc_Enabled oidc) (oc_Required oidc) (oc_Issuer oidc) (oc_ClientID oidc) (oc_Scopes oidc)
         (oc_AutoLinkByEmail oidc) (oc_AllowOIDCSignup oidc)))).

Definition registerAdminOps : list (Op HttpRequest) :=
    let read := adminReadMW deps in
    let write := adminWriteMW deps in
    [ MkOp "GET" [Lit "api"; Lit "v1"; Lit "admin"; Lit "users"] 200 read no_input
        (fun rq a i => adminListUsersHandler (rq_ctx rq));
      MkOp "GET" [Lit "api"; Lit "v1"; Lit "admin"; Lit "users"; Wild "id"] 200 read path_id
        (fun rq a i => adminGetUserHandler (rq_ctx rq) (in_ID i));
      MkOp "POST" [Lit "api"; Lit "v1"; Lit "admin"; Lit "users"] 200 write (body_of [str "email"; str "role"])
        (fun rq a i => adminCreateUserHandler (rq_ctx rq) a (in_text i "email") (in_text i "role"));
      MkOp "PATCH" [Lit "api"; Lit "v1"; Lit "admin"; Lit "users"; Wild "id"] 200 write
        (path_and_body [opt_str "role"; opt_bool "disabled"])
        (fun rq a i => adminUpdateUserHandler (rq_ctx rq) a (in_ID i)
           (MkUpdateUserParams (str_value (in_Body i !! "role"%string)) (bool_value (in_Body i !! "disabled"%string))));
      MkOp "PATCH" [Lit "api"; Lit "v1"; Lit "admin"; Lit "users"; Wild "id"; Lit "email"] 200 write
        (path_and_body [str "email"])
        (fun rq a i => adminSetUserEmailHandler (rq_ctx rq) a (in_ID i) (in_text i "email"));
      MkOp "DELETE" [Lit "api"; Lit "v1"; Lit "admin"; Lit "users"; Wild "id"] 204 write path_id
        (fun rq a i => admin_delete_user (rq_ctx rq) a (in_ID i));
      MkOp "POST" [Lit "api"; Lit "v1"; Lit "admin"; Lit "users"; Wild "id"; Lit "recovery"] 200 write path_id
        (fun rq a i => admin_issue_recovery (rq_ctx rq) a (in_ID i));
      MkOp "POST" [Lit "api"; Lit "v1"; Lit "admin"; Lit "users"; Wild "id"; Lit "invite"] 200 write path_id
        (fun rq a i => adminReissueInviteHandler (rq_ctx rq) a (in_ID i));
      MkOp "GET" [Lit "api"; Lit "v1"; Lit "admin"; Lit "devices"] 200 read no_input
        (fun rq a i => admin_list_devices (rq_ctx rq));
      MkOp "GET" [Lit "api"; Lit "v1"; Lit "admin"; Lit "devices"; Lit "ips"] 200 read no_input
        (fun rq a i => admin_list_ips (rq_ctx rq));
      MkOp "GET" [Lit "api"; Lit "v1"; Lit "admin"; Lit "audit"] 200 read
        (MkSpec [] [opt_str "actor_user_id"; opt_str "event_type"; MkField "since" KInt false;
                    MkField "until" KInt false; opt_str "cursor"; MkField "limit" KInt false] [] false)
        (fun rq a i => admin_audit (rq_ctx rq) i);
      MkOp "GET" [Lit "api"; Lit "v1"; Lit "admin"; Lit "server"] 200 read no_input
        (fun rq a i => admin_server) ].

  (** ** feed.go *)

Definition feedTokenErr (action : string) (e : err) : M Reply :=
    match e with
    | ErrNotFound => fail_with 404 "feed token not found"
    | ErrConflict => fail_with 409 "a feed token with that label already exists"
    | ErrInvalidLabel => fail_with 422 "label must not be empty"
    | _ => failed_to action
    end.

Definition list_tokens (c : ctx) : M Reply :=
    or_else (ListTokens c) (feedTokenErr "list feed tokens")
      (fun toks => reply_body (BTokens (newFeedTokenView <$> toks))).

Definition mint_token (c : ctx) (a : actx) (label : string) : M Reply :=
    or_else (MintToken c (usr_ID (UserFrom a)) label) (feedTokenErr "mint feed token")
      (fun r => reply_body (BMintedToken (newFeedTokenView r.1) r.2)).

Definition revoke_token (c : ctx) (a : actx) (id : string) : M Reply :=
    or_else (RevokeToken c (usr_ID (UserFrom a)) id) (feedTokenErr "revoke feed token") (fun _ => reply_body NoBody).

Definition registerFeedTokenOps : list (Op HttpRequest) :=
    let feedRead := [sessionOrKeyMW deps; adminMW deps] in
    let feedWrite := [sessionOrKeyMW deps; adminMW deps; csrfMW deps] in
    [ MkOp "GET" [Lit "api"; Lit "v1"; Lit "admin"; Lit "feed"; Lit "tokens"] 200 feedRead no_input
        (fun rq a i => list_tokens (rq_ctx rq));
      MkOp "POST" [Lit "api"; Lit "v1"; Lit "admin"; Lit "feed"; Lit "tokens"] 200 feedWrite (body_of [str "label"])
        (fun rq a i => mint_token (rq_ctx rq) a (in_text i "label"));
      MkOp "DELETE" [Lit "api"; Lit "v1"; Lit "admin"; Lit "feed"; Lit "tokens"; Wild "id"] 204 feedWrite path_id
        (fun rq a i => revoke_token (rq_ctx rq) a (in_ID i)) ].

  (** ** notifications.go *)

Definition notifyErr (action : string) (e : err) : M Reply :=
    match e with
    | ErrNotFound => fail_with 404 "notification endpoint not found"
    | ErrConflict => fail_with 409 "an endpoint with that URL already exists"
    | ErrDenied msg => fail_with 422 ("that target was rejected: " ++ msg)
    | _ => failed_to action
    end.

Definition endpoint_url (s : string) : option (string * string) := (fun u => (u_Scheme u, u_Hostname u)) <$> url_Parse s.

Definition list_endpoints (c : ctx) : M Reply :=
    or_else (EndpointList c) (notifyErr "list notification endpoints")
      (fun eps => reply_body (BEndpoints (newEndpointView <$> eps))).

Definition create_endpoint (s : NotificationService) (c : ctx) (a : actx) (label url : string) : M Reply :=
    let label := trim_space label in
    if str_eq label EmptyString then fail_with 422 "label must not be empty"
    else
      or_else (EndpointCreate endpoint_url deny_text s c (usr_ID (UserFrom a)) label
                 (trim_space url))
        (notifyErr "create notification endpoint")
        (fun r => reply_body (BCreatedEndpoint (newEndpointView r.1) r.2)).

Definition get_endpoint (c : ctx) (id : string) : M Reply :=
    or_else (EndpointGet c id) (notifyErr "get notification endpoint")
      (fun ep => reply_body (BEndpoint (newEndpointView ep))).

Definition patch_endpoint (c : ctx) (a : actx) (id : string) (enabled : option bool) : M Reply :=
    match enabled with
    | Some b =>
        or_else (EndpointSetEnabled c (usr_ID (UserFrom a)) id b) (notifyErr "set notification endpoint enabled")
          (fun _ => get_endpoint c id)
    | None => get_endpoint c id
    end.

Definition delete_endpoint (c : ctx) (a : actx) (id : string) : M Reply :=
    or_else (EndpointDelete c (usr_ID (UserFrom a)) id) (notifyErr "delete notification endpoint")
      (fun _ => reply_body NoBody).

Definition test_endpoint (c : ctx) (a : actx) (id : string) : M Reply :=
    or_else (EndpointTest c (usr_ID (UserFrom a)) id) (notifyErr "send notification test")
      (fun sent : bool =>
        if sent then reply_body NoBody
        else or_else (EndpointGet c id) (notifyErr "send notification test")
               (fun _ => fail_with 409 "notification endpoint is disabled")).

Definition redeliver (c : ctx) (a : actx) (id : Z) : M Reply :=
    or_else (Redeliver c (usr_ID (UserFrom a)) id) (notifyErr "redeliver notification delivery")
      (fun ok : bool =>
        if ok then reply_body NoBody
        else fail_with 404 "delivery not found, not in a retryable state, or its endpoint is disabled").

Definition registerNotificationOps (s : NotificationService) : list (Op HttpRequest) :=
    let read := adminReadMW deps in
    let write := adminWriteMW deps in
    [ MkOp "GET" [Lit "api"; Lit "v1"; Lit "admin"; Lit "endpoints"] 200 read no_input
        (fun rq a i => list_endpoints (rq_ctx rq));
      MkOp "POST" [Lit "api"; Lit "v1"; Lit "admin"; Lit "endpoints"] 200 write (body_of [str "label"; str "url"])
        (fun rq a i => create_endpoint s (rq_ctx rq) a (in_text i "label") (in_text i "url"));
      MkOp "GET" [Lit "api"; Lit "v1"; Lit "admin"; Lit "endpoints"; Wild "id"] 200 read path_id
        (fun rq a i => get_endpoint (rq_ctx rq) (in_ID i));
      MkOp "PATCH" [Lit "api"; Lit "v1"; Lit "admin"; Lit "endpoints"; Wild "id"] 200 write
        (path_and_body [opt_bool "enabled"])
        (fun rq a i => patch_endpoint (rq_ctx rq) a (in_ID i) (bool_value (in_Body i !! "enabled"%string)));
      MkOp "DELETE" [Lit "api"; Lit "v1"; Lit "admin"; Lit "endpoints"; Wild "id"] 204 write path_id
        (fun rq a i => delete_endpoint (rq_ctx rq) a (in_ID i));
      MkOp "POST" [Lit "api"; Lit "v1"; Lit "admin"; Lit "endpoints"; Wild "id"; Lit "test"] 200 write path_id
        (fun rq a i => test_endpoint (rq_ctx rq) a (in_ID i));
      MkOp "POST" [Lit "api"; Lit "v1"; Lit "admin"; Lit "deliveries"; Wild "id"; Lit "redeliver"] 200 write
        (MkSpec [MkField "id" KInt true] [] [] false)
        (fun rq a i => redeliver (rq_ctx rq) a (int_value (in_Path i !! "id"%string))) ].
End Admin.
