(* ===== verification/ApiSignIn.v ===== *)
(** * internal/server/api: signing in and registering

    The operations of auth.go, oidc.go and passkey.go: logout, the browser flow
    of the identity provider with its sealed flow cookie, the passkey
    ceremonies with their challenge cookie, and the registration endpoints that
    redeem a grant or claim the first administrator. *)

From S2P Require Import Prelude GoLib JsonText Json Schema Effects StoreUsers StoreDevices StoreTokens Auth ServiceDevices.
From S2P Require Import ServiceTokens NetAddr Endpoints Email EmailChange Passkeys Grants Admin SignIn.
From S2P Require Import Oidc ApiCore ApiDevices.

Section SignIn.
Context `{Crypto} `{WebAuthn Options HttpRequest} `{OIDCLib} `{ApiLibs} (deps : ServerDeps).

  (** ** oidc.go *)

Definition oidcFlowAAD : string := "diyddns/oidc-flow-v1".
Definition redirectOIDCUnavailable : string := "/login?error=oidc_unavailable".
Definition redirectNoAccount : string := "/login?error=no_account".

  (** "//" or "/\" opens an authority in a browser. *)
Definition safeNext (next : string) : string :=
    if str_eq next EmptyString || has_prefix next "//" || has_prefix next "/\" then "/"
    else match url_Parse next with
    | None => "/"
    | Some u =>
        if negb (str_eq (u_Scheme u) EmptyString) || negb (str_eq (u_Host u) EmptyString)
           || negb (has_prefix (u_Path u) "/") then "/"
        else next
    end.

Definition subtleMismatch (a b : string) : bool := negb (str_eq a b).

Definition redirect (location : string) (cookies : list Cookie) : M Reply :=
    mret (MkReply (Some 302) cookies location NoBody).

  (** json.Marshal and json.Unmarshal of the flow; a struct of strings marshals. *)
Definition marshal_flow (fs : oidcFlowState) : string :=
    json_object [ json_field "state" (json_quote (of_State fs)); json_field "verifier" (json_quote (of_Verifier fs));
                  json_field "nonce" (json_quote (of_Nonce fs)); json_field "next" (json_quote (of_Next fs)) ].
Definition unmarshal_flow (raw : string) : option oidcFlowState :=
    v ← parse_json raw; l ← members v;
    state ← string_field "state" l; verifier ← string_field "verifier" l;
    nonce ← string_field "nonce" l; next ← string_field "next" l;
    Some (MkFlowState state verifier nonce next).

Definition flow_cookie (value : string) (maxAge : Z) (a : actx) : Cookie :=
    oidcFlowSetCookie (au_Session (sv_Cfg deps)) value maxAge (lm_tls (loginMetaFrom a)).

Definition oidc_start (c : ctx) (a : actx) (next : string) : M Reply :=
    on ← OIDCEnabled (sv_OIDCMgr deps);
    match sv_OIDCMgr deps, (on : bool) with
    | Some mgr, true =>
        or_else (BeginAuth mgr) (fun _ => redirect redirectOIDCUnavailable []) (fun req =>
        let blob := marshal_flow (MkFlowState (ar_State req) (ar_Verifier req) (ar_Nonce req) (safeNext next)) in
        or_else (SealWithAAD (sv_HMACKey deps) blob oidcFlowAAD) (fun _ => redirect redirectOIDCUnavailable [])
          (fun sealed => redirect (ar_URL req) [flow_cookie sealed 600 a]))
    | _, _ => redirect redirectOIDCUnavailable []
    end.

  (** The flow the cookie carries: [None] is a failure to open it. *)
Definition open_flow (a : actx) : M (option (option oidcFlowState)) :=
    match oidcFlowCookieFrom a with
    | None => mret None
    | Some sealed =>
        raw ← attempt (OpenWithAAD (sv_HMACKey deps) sealed oidcFlowAAD);
        mret (unmarshal_flow <$> raw)
    end.

Definition browser_login (c : ctx) (a : actx) (cl : Claims) : M Session :=
    BrowserLogin mail_ParseAddress (sv_Mailer deps) (au_OIDC (sv_Cfg deps)) (sv_Sessions deps) c
      (oc_Issuer (au_OIDC (sv_Cfg deps))) (ic_Subject cl) (ic_Email cl) (ic_EmailVerified cl)
      (lm_ip (loginMetaFrom a)) (lm_ua (loginMetaFrom a)).

Definition oidc_callback (c : ctx) (a : actx) (code state error : string) : M Reply :=
    let clear := flow_cookie EmptyString (-1) a in
    if negb (str_eq error EmptyString) then redirect redirectNoAccount [clear]
    else
      flow ← open_flow a;
      match flow with
      | None => redirect redirectNoAccount [clear]
      | Some None => mret (MkReply (Some 400) [clear] EmptyString NoBody)
      | Some (Some fs) =>
          if subtleMismatch (of_State fs) state then mret (MkReply (Some 400) [clear] EmptyString NoBody)
          else match sv_OIDCMgr deps with
          | None => panic
          | Some mgr =>
              or_else (CompleteAuth mgr c code (of_Verifier fs) (of_Nonce fs))
                (fun _ => redirect redirectNoAccount [clear]) (fun claims =>
              or_else (browser_login c a claims) (fun _ => redirect redirectNoAccount [clear]) (fun sess =>
                redirect (safeNext (of_Next fs))
                  [sessionCookie (au_Session (sv_Cfg deps)) (sess_ID sess) 0 (lm_tls (loginMetaFrom a))]))
          end
      end.

Definition registerOIDCOps : list (Op HttpRequest) :=
    [ MkOp "GET" [Lit "api"; Lit "v1"; Lit "auth"; Lit "oidc"; Lit "start"] 302 [loginMetaMiddleware]
        (MkSpec [] [opt_str "next"] [] false)
        (fun rq a i => oidc_start (rq_ctx rq) a (in_query i "next"));
      MkOp "GET" [Lit "api"; Lit "v1"; Lit "auth"; Lit "oidc"; Lit "callback"] 302
        [loginMetaMiddleware; oidcFlowMiddleware]
        (MkSpec [] [opt_str "code"; opt_str "state"; opt_str "error"] [] false)
        (fun rq a i => oidc_callback (rq_ctx rq) a (in_query i "code") (in_query i "state") (in_query i "error")) ].

  (** ** auth.go *)

Definition logout_op (c : ctx) (a : actx) : M Reply :=
    or_else (Logout c (SessionFrom a)) (fun _ => fail_with 500 "logout failed")
      (fun _ => mret (MkReply None [sessionCookie (au_Session (sv_Cfg deps)) EmptyString (-1) false] EmptyString NoBody)).

Definition me_op (a : actx) : M Reply :=
    let u := UserFrom a in
    reply_body (BMe (usr_ID u) (usr_Email u) (usr_Role u) (sess_CSRFToken (SessionFrom a))).

Definition registerAuthOps : list (Op HttpRequest) :=
    [ MkOp "POST" [Lit "api"; Lit "v1"; Lit "auth"; Lit "logout"] 200 [sessionMW deps] no_input
        (fun rq a i => logout_op (rq_ctx rq) a);
      MkOp "GET" [Lit "api"; Lit "v1"; Lit "auth"; Lit "me"] 200 [sessionOrKeyMW deps] no_input
        (fun rq a i => me_op a) ] ++ registerOIDCOps.

  (** ** passkey.go *)

Inductive registerFlow := registerFlowGrant | registerFlowClaim.

Definition flow_tag (f : registerFlow) : string :=
    match f with registerFlowGrant => "grant" | registerFlowClaim => "claim" end.

Definition tagChallenge (f : registerFlow) (sealed : string) : string := (flow_tag f ++ "." ++ sealed)%string.

  (** The flow is [None] for a missing or unknown tag. *)
Definition splitChallenge (value : string) : option registerFlow * string :=
    match split2 (chr 46) value with
    | (_, None) => (None, EmptyString)
    | (tag, Some sealed) =>
        (if str_eq tag "grant" then Some registerFlowGrant
         else if str_eq tag "claim" then Some registerFlowClaim else None, sealed)
    end.

Definition errPasskeyVerification : string := "passkey verification failed".

Definition decodeCredID (id : string) : M string :=
    match b64_rawurl_decode id with Some b => mret b | None => fail ErrNotFound end.

Definition passkeyErr (c : ctx) (action : string) (e : err) : M Reply :=
    match e with
    | ErrNotFound => fail_with 404 "passkey not found"
    | ErrLastCredential => fail_with 409 "cannot remove your last passkey"
    | ErrWebAuthnUnavailable => fail_with 503 "passkey authentication is not configured"
    | ErrBootstrapClosed => fail_with 410 "bootstrap already completed"
    | ErrBootstrapToken => fail_with 401 "invalid bootstrap token"
    | ErrBootstrapInvalidEmail =>
        fail_with 422 "email address must be a plain 7-bit ASCII address in user@host form, with no display name and no surrounding whitespace"
    | ErrGrantInvalid => fail_with 401 "registration link invalid, expired, or already used"
    | ErrPasskeyVerification => fail_with 401 errPasskeyVerification
    | _ =>
        b ← Cancelled c;
        if b : bool then fail_with statusClientClosedRequest msgClientClosedRequest else failed_to action
    end.

Definition challenge_cookie (value : string) (maxAge : Z) (tls : bool) : Cookie :=
    passkeyChallengeCookie (au_Session (sv_Cfg deps)) value maxAge tls.

Definition passkeyOptions (body : string) (cookie : Cookie) : M Reply :=
    mret (MkReply None [cookie] EmptyString (BOptions body)).

Definition options_for (a : actx) (opts sealed : string) : M Reply :=
    passkeyOptions opts (challenge_cookie sealed webauthnChallengeCookieMaxAge (lm_tls (loginMetaFrom a))).

Definition logged_in (a : actx) (sess : Session) : M Reply :=
    mret (MkReply None
      [sessionCookie (au_Session (sv_Cfg deps)) (sess_ID sess) 0 (lm_tls (loginMetaFrom a));
       challenge_cookie EmptyString (-1) false] EmptyString NoBody).

Definition login_begin (s : PasskeyService) (c : ctx) (a : actx) : M Reply :=
    or_else (BeginLogin s) (passkeyErr c "begin passkey login") (fun r => options_for a r.1 r.2).

Definition login_finish (s : PasskeyService) (rq : ApiRequest HttpRequest) (a : actx) : M Reply :=
    or_else (FinishLogin s (rq_ctx rq) (ax_challenge a) (rq_lib rq) (lm_ip (loginMetaFrom a)) (lm_ua (loginMetaFrom a)))
      (passkeyErr (rq_ctx rq) "finish passkey login") (logged_in a).

Definition register_begin (s : PasskeyService) (c : ctx) (a : actx) : M Reply :=
    or_else (BeginRegister s c (usr_ID (UserFrom a))) (passkeyErr c "begin passkey registration")
      (fun r => options_for a r.1 r.2).

Definition register_finish (s : PasskeyService) (rq : ApiRequest HttpRequest) (a : actx) (i : Input) : M Reply :=
    or_else (FinishRegister s (rq_ctx rq) (usr_ID (UserFrom a)) (ax_challenge a) (unmarshal_string "name" (in_Raw i))
               (rq_lib rq))
      (passkeyErr (rq_ctx rq) "finish passkey registration")
      (fun _ => mret (MkReply None [challenge_cookie EmptyString (-1) false] EmptyString NoBody)).

Definition list_passkeys (c : ctx) (a : actx) : M Reply :=
    or_else (ListCredentials c (usr_ID (UserFrom a))) (passkeyErr c "list passkeys")
      (fun creds => reply_body (BPasskeys (newPasskeyView <$> creds))).

Definition rename_passkey (c : ctx) (a : actx) (id name : string) : M Reply :=
    or_else (decodeCredID id) (passkeyErr c "rename passkey") (fun credID =>
    or_else (PasskeyRename c (usr_ID (UserFrom a)) credID name) (passkeyErr c "rename passkey")
      (fun _ => reply_body NoBody)).

Definition remove_passkey (c : ctx) (a : actx) (id : string) : M Reply :=
    or_else (decodeCredID id) (passkeyErr c "remove passkey") (fun credID =>
    or_else (PasskeyRemove c (usr_ID (UserFrom a)) credID) (passkeyErr c "remove passkey")
      (fun _ => reply_body NoBody)).

  (** [go s.doSelfServiceRecovery(...)]: the reply does not wait for it, and
      nobody looks at its outcome. *)
Definition detached {A} (m : M A) : M unit := fun w => (Ok tt, (m w).2).

Definition recovery_request (a : actx) (email : string) : M Reply :=
    detached (doSelfServiceRecovery (sv_Grants deps) (sv_recoveryCtx deps) email (lm_ip (loginMetaFrom a)));;
    reply_body NoBody.

Definition registerBeginHandler (c : ctx) (a : actx) (token email : string) : M Reply :=
    or_else (ClassifyRegistration c token) (passkeyErr c "begin registration") (fun target =>
      match rg_State target with
      | RegisterGrant =>
          or_else (RedeemBegin (sv_Grants deps) c token) (passkeyErr c "begin registration")
            (fun r => options_for a r.1.2 (tagChallenge registerFlowGrant r.2))
      | RegisterFirstRun =>
          or_else (BeginClaim mail_ParseAddress json_claim (sv_Bootstrap deps) c token email)
            (passkeyErr c "begin registration")
            (fun r => options_for a r.2 (tagChallenge registerFlowClaim r.1))
      | RegisterDead => passkeyErr c "begin registration" ErrGrantInvalid
      end).

  (** The account is registered; a session is opened for it if one can be. *)
Definition sign_in_registered (rq : ApiRequest HttpRequest) (a : actx) (usr : User) : M Reply :=
    or_else (SessionCreate (rq_ctx rq) (sv_Sessions deps) (usr_ID usr) (lm_ip (loginMetaFrom a)) (lm_ua (loginMetaFrom a)))
      (fun _ => mret (MkReply None [challenge_cookie EmptyString (-1) false] EmptyString NoBody))
      (logged_in a).

Definition registerFinishHandler (rq : ApiRequest HttpRequest) (a : actx) (i : Input) : M Reply :=
    let c := rq_ctx rq in
    let token := unmarshal_string "token" (in_Raw i) in
    let name := unmarshal_string "name" (in_Raw i) in
    match splitChallenge (ax_challenge a) with
    | (Some registerFlowGrant, sealed) =>
        or_else (RedeemFinish (sv_Grants deps) c token sealed (rq_lib rq) name)
          (passkeyErr c "finish registration") (sign_in_registered rq a)
    | (Some registerFlowClaim, sealed) =>
        or_else (FinishClaim unjson_claim (sv_Bootstrap deps) c sealed (rq_lib rq) name)
          (passkeyErr c "finish registration") (sign_in_registered rq a)
    | (None, _) => fail_with 401 errPasskeyVerification
    end.

Definition registerPasskeyOps (s : PasskeyService) : list (Op HttpRequest) :=
    let session := [sessionMW deps] in
    let sessionCSRF := [sessionMW deps; csrfMW deps] in
    [ MkOp "POST" [Lit "api"; Lit "v1"; Lit "auth"; Lit "passkey"; Lit "login"; Lit "begin"] 200 [loginMetaMiddleware]
        no_input (fun rq a i => login_begin s (rq_ctx rq) a);
      MkOp "POST" [Lit "api"; Lit "v1"; Lit "auth"; Lit "passkey"; Lit "login"; Lit "finish"] 200
        [loginMetaMiddleware; webauthnMetaMiddleware] raw_body (fun rq a i => login_finish s rq a);
      MkOp "POST" [Lit "api"; Lit "v1"; Lit "account"; Lit "passkeys"; Lit "register"; Lit "begin"] 200
        [sessionMW deps; loginMetaMiddleware] no_input (fun rq a i => register_begin s (rq_ctx rq) a);
      MkOp "POST" [Lit "api"; Lit "v1"; Lit "account"; Lit "passkeys"; Lit "register"; Lit "finish"] 200
        [sessionMW deps; csrfMW deps; webauthnMetaMiddleware] raw_body (fun rq a i => register_finish s rq a i);
      MkOp "GET" [Lit "api"; Lit "v1"; Lit "account"; Lit "passkeys"] 200 session no_input
        (fun rq a i => list_passkeys (rq_ctx rq) a);
      MkOp "PATCH" [Lit "api"; Lit "v1"; Lit "account"; Lit "passkeys"; Wild "id"] 200 sessionCSRF
        (path_and_body [str "name"]) (fun rq a i => rename_passkey (rq_ctx rq) a (in_ID i) (in_text i "name"));
      MkOp "DELETE" [Lit "api"; Lit "v1"; Lit "account"; Lit "passkeys"; Wild "id"] 204 sessionCSRF path_id
        (fun rq a i => remove_passkey (rq_ctx rq) a (in_ID i));
      MkOp "POST" [Lit "api"; Lit "v1"; Lit "auth"; Lit "recovery"; Lit "request"] 200 [loginMetaMiddleware]
        (body_of [str "email"]) (fun rq a i => recovery_request a (in_text i "email"));
      MkOp "POST" [Lit "api"; Lit "v1"; Lit "register"; Lit "begin"] 200 [loginMetaMiddleware]
        (body_of [str "token"; opt_str "email"])
        (fun rq a i => registerBeginHandler (rq_ctx rq) a (in_text i "token") (in_text i "email"));
      MkOp "POST" [Lit "api"; Lit "v1"; Lit "register"; Lit "finish"] 200 [loginMetaMiddleware; webauthnMetaMiddleware]
        raw_body (fun rq a i => registerFinishHandler rq a i) ].
End SignIn.
