(* ===== verification/Api.v ===== *)
(** * internal/server/api: the routes and what they require

    [Build] of api.go, the health checks, the choice of the operation that
    serves a request, and the policy of the API: what a request must carry
    before the handler of a route runs ([policy], [granted]).  ApiFacts proves
    that the middlewares registered with each operation enforce it. *)

From S2P Require Import Prelude GoLib Schema Effects StoreUsers StoreDevices StoreTokens Auth ServiceDevices.
From S2P Require Import ServiceTokens NetAddr Endpoints Email EmailChange Passkeys Grants Admin SignIn.
From S2P Require Import Oidc ApiCore ApiDevices ApiAdmin ApiSignIn.

(** ** health.go *)

Definition healthz : Z * string := (200, "ok"%string).

(** The ping is a statement of no effect. *)
Definition readyz (c : ctx) : M (Z * string) :=
  r ← attempt (stmt c (fun d => (Ok tt, d)));
  mret (match r with Some _ => (200, "ready") | None => (503, "not ready") end%string).

Section Api.
Context `{Crypto} `{WebAuthn Options HttpRequest} `{OIDCLib} `{ApiLibs}.

Definition Build (deps : ServerDeps) : list (Op HttpRequest) :=
    registerCapabilities deps ++ registerAgentOps deps
    ++ registerAuthOps deps ++ registerDeviceOps deps ++ registerDeviceMgmtOps deps
    ++ registerAccountEmailOps deps ++ registerAPIKeyOps deps ++ registerAdminOps deps
    ++ (match sv_Passkey deps with Some s => registerPasskeyOps deps s | None => [] end)
    ++ (if sv_FeedEnabled deps then registerFeedTokenOps deps else [])
    ++ (match sv_Notify deps with Some s => registerNotificationOps deps s | None => [] end).

  (** ** Routing

      net/http's ServeMux on the segments of the path: a wildcard matches one
      non-empty segment, a GET pattern also serves HEAD. *)

Definition segment_matches (p : segment) (s : string) : bool :=
    match p with Lit l => str_eq l s | Wild _ => negb (str_eq s EmptyString) end.

Fixpoint path_matches (p : list segment) (s : list string) : bool :=
    match p, s with
    | [], [] => true
    | x :: p', y :: s' => segment_matches x y && path_matches p' s'
    | _, _ => false
    end.

Definition method_matches (pattern method : string) : bool :=
    str_eq pattern method || (str_eq pattern "GET" && str_eq method "HEAD").

Definition op_matches (method : string) (segs : list string) (op : Op HttpRequest) : bool :=
    method_matches (op_Method op) method && path_matches (op_Path op) segs.

Definition route (deps : ServerDeps) (method : string) (segs : list string) : option (Op HttpRequest) :=
    List.find (op_matches method segs) (Build deps).

  (** [None]: no operation of the API; the rest of the mux answers. *)
Definition serve `{Huma HttpRequest} (deps : ServerDeps) (segs : list string) (rq : ApiRequest HttpRequest)
      : M (option Reply) :=
    match route deps (rq_Method rq) segs with
    | Some op => r ← serve_op op rq; mret (Some r)
    | None => mret None
    end.
End Api.

(** ** The policy

    [csrf]: a request that relies on the session cookie must carry the
    session's token. *)

Inductive Policy :=
  | Public
  | SignedDevice
  | SessionOnly (csrf : bool)
  | SessionOrKey (csrf : bool)
  | AdminOnly (csrf : bool).

Definition writes (method : string) : bool := negb (str_eq method "GET").

(** Starting to register a passkey hands out a challenge and changes nothing;
    logging out ends the session the request came with. *)
Definition policy (method : string) (path : list segment) : Policy :=
  match path with
  | [Lit "agent"; Lit "v1"; Lit "checkin"] | [Lit "agent"; Lit "v1"; Lit "self"] => SignedDevice
  | Lit "api" :: Lit "v1" :: Lit "admin" :: _ => AdminOnly (writes method)
  | Lit "api" :: Lit "v1" :: Lit "devices" :: _ => SessionOrKey (writes method)
  | [Lit "api"; Lit "v1"; Lit "account"; Lit "passkeys"; Lit "register"; Lit "begin"] => SessionOnly false
  | Lit "api" :: Lit "v1" :: Lit "account" :: _ => SessionOnly (writes method)
  | [Lit "api"; Lit "v1"; Lit "auth"; Lit "logout"] => SessionOnly false
  | [Lit "api"; Lit "v1"; Lit "auth"; Lit "me"] => SessionOrKey false
  | _ => Public
  end.

Section Granted.
Context `{Crypto} {HttpRequest : Type} (deps : ServerDeps) (rq : ApiRequest HttpRequest).

  (** The cookie names a stored session of an enabled user that expires after
      the clock the server reads when it has fetched the session, at the second
      step of this request; [ax_user] and [ax_session] are that user and that
      session. *)
Definition by_session (w : World) (a : actx) : Prop :=
    exists sid row urow, rq_Cookie rq (sc_CookieName (au_Session (sv_Cfg deps))) = Some sid /\
      row ∈ d_sessions (w_db w) /\ rs_id row = sid /\ e_clock (w_env w) (S (w_n w)) < rs_expires_at row /\
      urow ∈ d_users (w_db w) /\ ru_id urow = rs_user_id row /\ ru_disabled urow = 0 /\
      ax_user a = Some (scanUser urow) /\ ax_api_key a = false /\
      sess_ID (SessionFrom a) = sid /\ sess_CSRFToken (SessionFrom a) = rs_csrf_token row.

  (** The header carries a stored API key of an enabled user; without the
      administration scope the user acts as a plain one. *)
Definition by_key (w : World) (a : actx) : Prop :=
    exists plaintext krow urow, bearer APIKeyPrefix (rq_Header rq "Authorization") = Some plaintext /\
      krow ∈ d_api_keys (w_db w) /\ rk_key_hash krow = HashToken plaintext /\
      urow ∈ d_users (w_db w) /\ ru_id urow = rk_user_id krow /\ ru_disabled urow = 0 /\
      ax_user a = Some (if intToBool (rk_admin_scope krow) then scanUser urow else demoted (scanUser urow)) /\
      ax_api_key a = true.

Definition by_session_or_key (w : World) (a : actx) : Prop :=
    (rq_Header rq "Authorization" = EmptyString /\ by_session w a) \/ by_key w a.

Definition csrf_ok (csrf : bool) (a : actx) : Prop :=
    csrf = true -> ax_api_key a = true \/
      (sess_CSRFToken (SessionFrom a) <> EmptyString /\ rq_Header rq "X-CSRF-Token" = sess_CSRFToken (SessionFrom a)).

  (** The request is signed by the device its header names: the verifier
      accepts it at the clock the server reads first, from the database, the
      cache and the environment the request found. *)
Definition by_device (w : World) (a : actx) : Prop :=
    exists body w1, rq_body rq = Some body /\ Z.of_nat (String.length body) <= 65536 /\
      verified (sv_Verifier deps)
        (MkRequestParts (rq_Header rq HeaderDevice) (rq_Header rq HeaderTimestamp) (rq_Header rq HeaderNonce)
           (rq_Header rq HeaderSignature) (rq_Method rq) (rq_Path rq) body) (e_clock (w_env w) (w_n w)) (bump w) w1 /\
      ax_device a = Some (rq_Header rq HeaderDevice).

Definition granted (p : Policy) (w : World) (a : actx) : Prop :=
    match p with
    | Public => True
    | SignedDevice => by_device w a
    | SessionOnly csrf => by_session w a /\ csrf_ok csrf a
    | SessionOrKey csrf => by_session_or_key w a /\ csrf_ok csrf a
    | AdminOnly csrf => by_session_or_key w a /\ csrf_ok csrf a /\ usr_Role (UserFrom a) = "admin"%string
    end.
End Granted.

(** What authenticating a request may write: the stamps of a session and of a
    key, and the signature of an agent's request. *)
Definition session_key (r : session_row) : string * string * string := (rs_id r, rs_user_id r, rs_csrf_token r).
Definition api_key_key (r : api_key_row) : string * string * string * Z :=
  (rk_id r, rk_user_id r, rk_key_hash r, rk_admin_scope r).

Definition stamped (d d' : DB) : Prop :=
  exists s k n, d' = setd_nonces n (setd_api_keys k (setd_sessions s d)) /\
    session_key <$> s = session_key <$> d_sessions d /\
    api_key_key <$> k = api_key_key <$> d_api_keys d /\ d_nonces d `prefix_of` n.
