(* ===== verification/ApiFacts.v ===== *)
(** * The HTTP API: theorems

    Every route enforces the policy of its path ([api_authorized]), at most one
    operation serves a request ([routes_unambiguous]), a user's devices are out
    of reach of everyone else's credentials ([device_requests_isolated]), the
    identity provider's callback signs in only the flow the browser started
    ([oidc_callback_sound]), a registration signs in only the account it
    registered ([register_finish_sound]). *)

From S2P Require Import Prelude GoLib Schema Effects StoreUsers StoreDevices StoreTokens Auth ServiceDevices.
From S2P Require Import ServiceFacts ServiceTokens NetAddr Endpoints Email EmailChange Passkeys Grants Admin SignIn.
From S2P Require Import Oidc ApiCore ApiDevices ApiAdmin ApiSignIn Api.

(** ** What authentication writes *)

Lemma stamped_refl d : stamped d d.
Proof.
  exists (d_sessions d), (d_api_keys d), (d_nonces d). split_and!; try done; by destruct d.
Qed.

Lemma stamped_sessions s d : session_key <$> s = session_key <$> d_sessions d -> stamped d (setd_sessions s d).
Proof. intros Hs. exists s, (d_api_keys d), (d_nonces d). split_and!; try done; by destruct d. Qed.

Lemma stamped_api_keys k d : api_key_key <$> k = api_key_key <$> d_api_keys d -> stamped d (setd_api_keys k d).
Proof. intros Hs. exists (d_sessions d), k, (d_nonces d). split_and!; try done; by destruct d. Qed.

Lemma stamped_nonces l d : stamped d (setd_nonces (d_nonces d ++ l) d).
Proof.
  exists (d_sessions d), (d_api_keys d), (d_nonces d ++ l). split_and!; [by destruct d|done|done|by exists l].
Qed.

Lemma rows_update_same_key {R K : Type} (key : R -> K) p f (t : list R) :
  (forall r, key (f r) = key r) -> key <$> rows_update p f t = key <$> t.
Proof.
  intros Hf. unfold rows_update. rewrite <- list_fmap_compose. apply list_fmap_ext.
  intros i r _. simpl. by destruct (p r).
Qed.

(** The cookie names a stored session of an enabled user that expires after the
    clock read in this request, once the session has been fetched: [u] and [s]
    are that user and that session. *)
Definition session_of (cookie : option string) (w : World) (u : User) (s : Session) : Prop :=
  exists sid row urow, cookie = Some sid /\ row ∈ d_sessions (w_db w) /\ rs_id row = sid /\
    e_clock (w_env w) (S (w_n w)) < rs_expires_at row /\
    urow ∈ d_users (w_db w) /\ ru_id urow = rs_user_id row /\ ru_disabled urow = 0 /\
    u = scanUser urow /\ sess_ID s = sid /\ sess_CSRFToken s = rs_csrf_token row.

Lemma wp_AuthenticateRequest `{Crypto} c sm cookie (Q : result (User * Session) -> World -> Prop) w :
  (forall e w', w_db w' = w_db w -> Q (Err e) w') ->
  (forall u s w', stamped (w_db w) (w_db w') -> session_of cookie w u s -> Q (Ok (u, s)) w') ->
  wp (AuthenticateRequest c sm cookie) Q w.
Proof.
  intros He Hok. unfold AuthenticateRequest. destruct cookie as [v|]; [|by apply wp_fail, He].
  destruct (str_eq v EmptyString); [by apply wp_fail, He|].
  eapply wp_mono; [apply session_authenticate_sound|].
  intros [[u s]|e|] w'; [|intros [_ Hdb]; by apply He|done].
  intros (row & urow & Hr & Hid & Hexp & Hu & Huid & Hdis & -> & Hs1 & Hs2 & Hs3 & Hdb). apply Hok.
  - destruct Hdb as [->|(_ & seen & ->)]; [apply stamped_refl|]. by apply stamped_sessions, rows_update_same_key.
  - exists v, row, urow. by split_and!.
Qed.

(** ** The middlewares, one by one *)

Section Middlewares.
Context `{Crypto} {HttpRequest : Type} (deps : ServerDeps) (rq : ApiRequest HttpRequest) (w : World).
Context (Q : result Reply -> World -> Prop).

  (** A request is turned away: only stamps were written. *)
Hypothesis Hreject : forall status detail w', stamped (w_db w) (w_db w') -> Q (Ok (problem status detail)) w'.

Lemma wp_sessionMW a (next : actx -> M Reply) :
    (forall a' w', stamped (w_db w) (w_db w') -> by_session deps rq w a' -> wp (next a') Q w') ->
    ax_api_key a = false -> wp (sessionMW deps rq a next) Q w.
  Proof.
    intros Hn Ha. unfold sessionMW, sessionMiddleware. apply wp_or_else, wp_AuthenticateRequest.
    - intros e w' Hw'. apply wp_ret, Hreject. rewrite Hw'. apply stamped_refl.
    - intros u s w' Hst (v & row & urow & Hrest). apply Hn; [done|]. exists v, row, urow. naive_solver.
  Qed.

Lemma wp_AuthenticateKey c plaintext (Q' : result APIKey -> World -> Prop) :
    (forall e w', w_db w' = w_db w -> Q' (Err e) w') ->
    (forall row k w', row ∈ d_api_keys (w_db w) -> rk_key_hash row = HashToken plaintext ->
       ak_UserID k = rk_user_id row -> ak_AdminScope k = intToBool (rk_admin_scope row) ->
       stamped (w_db w) (w_db w') -> Q' (Ok k) w') ->
    wp (AuthenticateKey c plaintext) Q' w.
  Proof.
    intros He Hok. unfold AuthenticateKey. destruct (has_prefix plaintext _); simpl; [|by apply wp_fail, He].
    wp_step. unfold APIKeyRepo.GetByHash. apply wp_get_one; [by apply He|by intros _; apply He|].
    intros row [Hrow Hh]%find_some_iff. rewrite str_eq_true in Hh. do 4 wp_step.
    do 2 wp_step. case_match; [|apply wp_ret].
    - unfold APIKeyRepo.TouchLastUsed. do 4 wp_step.
      + apply wp_ret. eapply (Hok row); try done. apply stamped_refl.
      + wp_step. apply wp_ret. eapply (Hok row); try done. by apply stamped_api_keys, rows_update_same_key.
    - eapply (Hok row); try done. apply stamped_refl.
  Qed.

Lemma stamped_users d d' : stamped d d' -> d_users d' = d_users d.
  Proof. by intros (s & k & n & -> & _). Qed.

Lemma wp_sessionOrKeyMW a (next : actx -> M Reply) :
    (forall a' w', stamped (w_db w) (w_db w') -> by_session_or_key deps rq w a' -> wp (next a') Q w') ->
    ax_api_key a = false -> wp (sessionOrKeyMW deps rq a next) Q w.
  Proof.
    intros Hn Ha. unfold sessionOrKeyMW, sessionOrAPIKeyMiddleware.
    destruct (str_eq _ _) eqn:Hh.
    { rewrite str_eq_true in Hh. apply wp_sessionMW; [|done]. intros a' w' Hst Hs. apply Hn; [done|by left]. }
    assert (Hno : forall w', stamped (w_db w) (w_db w') -> wp unauthorized Q w').
    { intros w' Hw'. by apply wp_ret, Hreject. }
    destruct (bearer _ _) as [plaintext|] eqn:Hb; [|apply Hno, stamped_refl].
    apply wp_or_else, wp_AuthenticateKey; [intros e w' Hw'; apply Hno; rewrite Hw'; apply stamped_refl|].
    intros row k w' Hrow Hhash Huid Hscope Hst. apply wp_or_else. unfold UserForKey, UserRepo.GetByID.
    apply wp_get_one; [by apply Hno|by intros _; apply Hno|].
    intros u [Hu Hid]%find_some_iff. rewrite str_eq_true in Hid. simpl in Hu. rewrite (stamped_users _ _ Hst) in Hu.
    destruct (usr_Disabled (scanUser u)) eqn:Hdis; [by apply Hno|]. apply Hn; [done|]. right.
    exists plaintext, row, u. split_and!; try done; [congruence| |].
    - simpl in Hdis. unfold intToBool in Hdis. rewrite negb_false_iff in Hdis. lia.
    - simpl. by rewrite Hscope.
  Qed.

Lemma wp_csrfMW a (next : actx -> M Reply) w' : stamped (w_db w) (w_db w') ->
    (csrf_ok rq true a -> wp (next a) Q w') -> wp (csrfMW deps rq a next) Q w'.
  Proof.
    intros Hst Hn. unfold csrfMW, csrfMiddleware. destruct (ax_api_key a) eqn:Hk; [apply Hn; by left|].
    destruct (ValidCSRF _ _) eqn:Hv; simpl; [|by apply wp_ret, Hreject]. apply Hn. right.
    unfold ValidCSRF in Hv. rewrite andb_true_iff, negb_true_iff, str_eq_true in Hv. destruct Hv as [Hne ->].
    split; [|done]. intros He. by rewrite He, str_eq_refl in Hne.
  Qed.

Lemma wp_adminMW a (next : actx -> M Reply) w' : stamped (w_db w) (w_db w') ->
    (usr_Role (UserFrom a) = "admin"%string -> wp (next a) Q w') -> wp (adminMW deps rq a next) Q w'.
  Proof.
    intros Hst Hn. unfold adminMW, adminMiddleware. destruct (str_eq _ _) eqn:Hr; simpl; [|by apply wp_ret, Hreject].
    apply Hn. by apply str_eq_true.
  Qed.

Lemma wp_hmacMW a (next : actx -> M Reply) :
    (forall a' w', stamped (w_db w) (w_db w') -> by_device deps rq w a' -> wp (next a') Q w') ->
    wp (hmacMW deps rq a next) Q w.
  Proof.
    intros Hn. unfold hmacMW, hmacMiddleware.
    destruct (rq_body rq) as [body|] eqn:Hb; [|by apply wp_ret, Hreject, stamped_refl].
    destruct (_ <? _) eqn:Hlen; [by apply wp_ret, Hreject, stamped_refl|]. apply Z.ltb_ge in Hlen.
    do 2 wp_step. apply wp_or_else. eapply wp_mono; [apply Verify_spec|]. intros [id|e|] w' [_ Hres]; [| |done].
    - destruct Hres as [-> Hv]. assert (Hst : stamped (w_db w) (w_db w')).
      { destruct Hv as (row & _ & _ & _ & _ & ts & s & _ & _ & _ & _ & _ & _ & ->). apply stamped_nonces. }
      apply Hn; [done|]. by exists body, w'.
    - destruct Hres as [_ Hdb]. apply wp_ret, Hreject. rewrite Hdb. apply stamped_refl.
  Qed.
End Middlewares.

(** ** Every operation is behind its policy *)

(** The middlewares let a request through only as [p] grants it; anything else
    is a problem reply that wrote at most stamps. *)
Definition guards `{Crypto} {HttpRequest} (deps : ServerDeps) (p : Policy) (mws : list (Middleware HttpRequest)) : Prop :=
  forall rq w h Q,
    (forall status detail w', stamped (w_db w) (w_db w') -> Q (Ok (problem status detail)) w') ->
    (forall a w', stamped (w_db w) (w_db w') -> granted deps rq p w a -> wp (h a) Q w') ->
    wp (chain mws rq no_values h) Q w.

(** The metadata middlewares only add values nobody's identity depends on. *)
Definition passes_on {HttpRequest} (m : Middleware HttpRequest) : Prop :=
  forall rq a next, exists a', m rq a next = next a' /\
    ax_device a' = ax_device a /\ ax_user a' = ax_user a /\ ax_session a' = ax_session a /\ ax_api_key a' = ax_api_key a.

Section Guards.
Context `{Crypto} {HttpRequest : Type} (deps : ServerDeps).
Implicit Types (mws : list (Middleware HttpRequest)).

Lemma granted_ext (rq : ApiRequest HttpRequest) p w a a' :
    ax_device a' = ax_device a -> ax_user a' = ax_user a -> ax_session a' = ax_session a ->
    ax_api_key a' = ax_api_key a -> granted deps rq p w a -> granted deps rq p w a'.
  Proof.
    destruct a, a'. simpl. intros -> -> -> ->.
    destruct p; unfold granted, by_device, by_session_or_key, by_session, by_key, csrf_ok, SessionFrom, UserFrom; done.
  Qed.

Lemma harmless_login : passes_on (HttpRequest:=HttpRequest) loginMetaMiddleware.
  Proof. intros rq a next. by eexists. Qed.
Lemma harmless_webauthn : passes_on (HttpRequest:=HttpRequest) webauthnMetaMiddleware.
  Proof. intros rq a next. by eexists. Qed.
Lemma harmless_flow : passes_on (HttpRequest:=HttpRequest) oidcFlowMiddleware.
  Proof. intros rq a next. eexists. split; [reflexivity|]. by destruct (rq_Cookie rq oidcFlowCookie). Qed.

Lemma guards_public_harmless mws : Forall passes_on mws -> guards deps Public mws.
  Proof.
    intros Hm rq w h Q _ Hh. unfold chain. generalize no_values as a.
    induction Hm as [|m mws Hm _ IH]; intros a; simpl; [by apply Hh; [apply stamped_refl|]|].
    destruct (Hm rq a (foldr (fun (m : Middleware HttpRequest) k a => m rq a k) h mws)) as (a' & -> & _).
    apply IH.
  Qed.

  (** A passes_on middleware at the end of the chain changes nothing. *)
Lemma guards_snoc p mws m : guards deps p mws -> passes_on m -> guards deps p (mws ++ [m]).
  Proof.
    intros Hg Hm rq w h Q Hr Hh. unfold chain. rewrite foldr_app.
    apply Hg; [done|]. intros a w' Hst Ha. simpl.
    destruct (Hm rq a h) as (a' & -> & H1 & H2 & H3 & H4). apply Hh; [done|].
    by eapply granted_ext; [| | | |exact Ha].
  Qed.

Lemma guards_device : guards (HttpRequest:=HttpRequest) deps SignedDevice [hmacMW deps].
  Proof. intros rq w h Q Hr Hh. by apply (wp_hmacMW deps rq w Q Hr). Qed.

Lemma guards_session : guards (HttpRequest:=HttpRequest) deps (SessionOnly false) [sessionMW deps].
  Proof.
    intros rq w h Q Hr Hh. apply (wp_sessionMW deps rq w Q Hr); [|done]. intros a w' Hst Ha. by apply Hh.
  Qed.
Lemma guards_session_csrf : guards (HttpRequest:=HttpRequest) deps (SessionOnly true) [sessionMW deps; csrfMW deps].
  Proof.
    intros rq w h Q Hr Hh. apply (wp_sessionMW deps rq w Q Hr); [|done]. intros a w' Hst Ha.
    apply (wp_csrfMW deps rq w Q Hr); [done|]. intros Hc. by apply Hh.
  Qed.
Lemma guards_key : guards (HttpRequest:=HttpRequest) deps (SessionOrKey false) [sessionOrKeyMW deps].
  Proof.
    intros rq w h Q Hr Hh. apply (wp_sessionOrKeyMW deps rq w Q Hr); [|done]. intros a w' Hst Ha. by apply Hh.
  Qed.
Lemma guards_key_csrf : guards (HttpRequest:=HttpRequest) deps (SessionOrKey true) [sessionOrKeyMW deps; csrfMW deps].
  Proof.
    intros rq w h Q Hr Hh. apply (wp_sessionOrKeyMW deps rq w Q Hr); [|done]. intros a w' Hst Ha.
    apply (wp_csrfMW deps rq w Q Hr); [done|]. intros Hc. by apply Hh.
  Qed.
Lemma guards_admin_read : guards (HttpRequest:=HttpRequest) deps (AdminOnly false) (adminReadMW deps).
  Proof.
    intros rq w h Q Hr Hh. apply (wp_sessionOrKeyMW deps rq w Q Hr); [|done]. intros a w' Hst Ha.
    apply (wp_adminMW deps rq w Q Hr); [done|]. intros Hadm. by apply Hh.
  Qed.
Lemma guards_admin_write : guards (HttpRequest:=HttpRequest) deps (AdminOnly true) (adminWriteMW deps).
  Proof.
    intros rq w h Q Hr Hh. apply (wp_sessionOrKeyMW deps rq w Q Hr); [|done]. intros a w' Hst Ha.
    apply (wp_adminMW deps rq w Q Hr); [done|]. intros Hadm.
    apply (wp_csrfMW deps rq w Q Hr); [done|]. intros Hc. by apply Hh.
  Qed.
End Guards.

Create HintDb guards.
#[export] Hint Resolve guards_device guards_session guards_session_csrf guards_key guards_key_csrf
  guards_admin_read guards_admin_write harmless_login harmless_webauthn harmless_flow : guards.
#[export] Hint Extern 1 (guards _ Public ?l) => apply guards_public_harmless; repeat constructor : guards.
#[export] Hint Extern 2 (guards _ _ [?m1; ?m2]) => apply (guards_snoc _ _ [m1] m2) : guards.
#[export] Hint Extern 2 (guards _ _ [?m1; ?m2; ?m3]) => apply (guards_snoc _ _ [m1; m2] m3) : guards.

Section Table.
Context `{Crypto} `{WebAuthn Options HttpRequest} `{OIDCLib} `{ApiLibs} (deps : ServerDeps).

Definition enforced (op : Op HttpRequest) : Prop := guards deps (policy (op_Method op) (op_Path op)) (op_MWs op).

Lemma Build_enforced : Forall enforced (Build deps).
  Proof.
    unfold Build. rewrite !Forall_app. split_and!;
      try (repeat (constructor; [unfold enforced; simpl; auto with guards|]); constructor).
    - destruct (sv_Passkey deps) as [s|]; [|constructor].
      repeat (constructor; [unfold enforced; simpl; auto with guards|]); constructor.
    - destruct (sv_FeedEnabled deps); [|constructor].
      repeat (constructor; [unfold enforced; simpl; auto with guards|]); constructor.
    - destruct (sv_Notify deps) as [s|]; [|constructor].
      repeat (constructor; [unfold enforced; simpl; auto with guards|]); constructor.
  Qed.
End Table.

(** ** Routing *)

Definition segments_overlap (p q : segment) : bool :=
  match p, q with Lit a, Lit b => str_eq a b | _, _ => true end.

Fixpoint paths_overlap (p q : list segment) : bool :=
  match p, q with
  | [], [] => true
  | x :: p', y :: q' => segments_overlap x y && paths_overlap p' q'
  | _, _ => false
  end.

Definition methods_overlap (m n : string) : bool :=
  str_eq m n || (str_eq m "GET" && str_eq n "HEAD") || (str_eq m "HEAD" && str_eq n "GET").

Definition keys_overlap (x y : string * list segment) : bool := methods_overlap x.1 y.1 && paths_overlap x.2 y.2.

Fixpoint no_overlap (l : list (string * list segment)) : bool :=
  match l with
  | [] => true
  | x :: l' => forallb (fun y => negb (keys_overlap x y)) l' && no_overlap l'
  end.

Lemma paths_overlap_complete p q s : path_matches p s = true -> path_matches q s = true -> paths_overlap p q = true.
Proof.
  revert q s. induction p as [|x p IH]; intros [|y q] [|z s]; try done. simpl.
  intros [Hx Hp]%andb_true_iff [Hy Hq]%andb_true_iff. apply andb_true_iff. split; [|by eapply IH].
  destruct x as [a|], y as [b|]; try done. simpl in *. rewrite str_eq_true in *. by subst.
Qed.

Lemma methods_overlap_complete m n x :
  method_matches m x = true -> method_matches n x = true -> methods_overlap m n = true.
Proof.
  unfold method_matches, methods_overlap.
  intros [->%str_eq_true|[->%str_eq_true ->%str_eq_true]%andb_true_iff]%orb_true_iff
    [->%str_eq_true|[->%str_eq_true Hx]%andb_true_iff]%orb_true_iff; try apply str_eq_true in Hx; subst;
    by rewrite ?str_eq_refl, ?orb_true_r.
Qed.

Lemma no_overlap_unique l i j x y : no_overlap l = true -> l !! i = Some x -> l !! j = Some y ->
  keys_overlap x y = true -> keys_overlap y x = true -> i = j.
Proof.
  revert i j. induction l as [|z l IH]; intros [|i] [|j] Hl Hi Hj Ho Ho'; simplify_eq/=; try done;
    apply andb_true_iff in Hl as [Hz Hl].
  - rewrite forallb_forall in Hz. specialize (Hz y ltac:(by apply list_elem_of_In, list_elem_of_lookup_2 with j)).
    by rewrite Ho in Hz.
  - rewrite forallb_forall in Hz. specialize (Hz x ltac:(by apply list_elem_of_In, list_elem_of_lookup_2 with i)).
    by rewrite Ho' in Hz.
  - f_equal. by apply IH.
Qed.

Section Routes.
Context `{Crypto} `{WebAuthn Options HttpRequest} `{OIDCLib} `{ApiLibs} (deps : ServerDeps).

Definition op_key (op : Op HttpRequest) : string * list segment := (op_Method op, op_Path op).

Lemma Build_disjoint : no_overlap (op_key <$> Build deps) = true.
  Proof.
    unfold Build. destruct (sv_Passkey deps), (sv_FeedEnabled deps), (sv_Notify deps); vm_compute; reflexivity.
  Qed.

  (** Whatever parts are switched on, no request is claimed by two
      operations: two positions of the table whose operations match the same
      method and path are the same position, so the order of registration does
      not matter. *)
Theorem routes_unambiguous i j op1 op2 method segs
      (Hi : Build deps !! i = Some op1) (Hj : Build deps !! j = Some op2)
      (Hx : op_matches method segs op1 = true) (Hy : op_matches method segs op2 = true) : i = j.
  Proof.
    unfold op_matches in *. rewrite andb_true_iff in *. destruct Hx as [Hm1 Hp1], Hy as [Hm2 Hp2].
    apply (no_overlap_unique (op_key <$> Build deps) i j (op_key op1) (op_key op2));
      [apply Build_disjoint|by rewrite list_lookup_fmap, Hi|by rewrite list_lookup_fmap, Hj|..];
      apply andb_true_iff; split; (by eapply methods_overlap_complete) || by eapply paths_overlap_complete.
  Qed.

  (** C3: The API acts for nobody it has not identified: when an operation
      serves a request, either the reply is a problem and the database differs
      at most in the stamps of a session or key and in a stored signature, or
      the operation's handler ran for an identity that the policy of its path
      grants to this request, as the request finds the server: a session of an
      enabled user that expires after the clock this request reads, an API key
      of an enabled user where keys are accepted (an administrator's powers only
      with the key's administration scope), or the device that signed the
      request, verified at this request's clock against the server's cache and
      database.  A session's request to write carries the session's CSRF token,
      except the two the policy frees: logging out, and beginning a passkey
      registration.  The paths outside the policy (sign-in, first run,
      redemption, recovery, the published documents) are public. *)
Theorem api_authorized `{Huma HttpRequest} op segs (rq : ApiRequest HttpRequest) w
      (Hop : route deps (rq_Method rq) segs = Some op) :
    wp (serve deps segs rq) (fun r w' =>
      (exists status detail, r = Ok (Some (problem status detail)) /\ stamped (w_db w) (w_db w')) \/
      (exists a w1 r1, stamped (w_db w) (w_db w1) /\ granted deps rq (policy (op_Method op) (op_Path op)) w a /\
         huma_handler op rq a w1 = (r1, w') /\
         r = match r1 with Ok x => Ok (Some x) | Err e => Err e | Panic => Panic end)) w.
  Proof.
    unfold serve. rewrite Hop. apply wp_bind.
    pose proof (proj1 (List.Forall_forall _ _) (Build_enforced deps) op) as Hg.
    apply Hg; [by eapply find_some|clear Hg..].
    - intros status detail w' Hst. apply wp_ret. left. by eauto.
    - intros a w' Hst Ha. apply wp_intro. intros r1 w2 Hr.
      destruct r1 as [x|e|]; [apply wp_ret|..]; right.
      + by exists a, w', (Ok x).
      + by exists a, w', (Err e).
      + by exists a, w', Panic.
  Qed.
End Routes.

(** ** Devices *)

Section Isolation.
Context `{Crypto} `{WebAuthn Options HttpRequest} `{OIDCLib} `{ApiLibs} `{Huma HttpRequest} (deps : ServerDeps).

Definition turned_away (w : World) (r : result Reply) (w' : World) : Prop :=
    (exists status detail, r = Ok (problem status detail)) /\ w_db w' = w_db w.

Lemma wp_refused {A} (m : M A) f k w : wp m (refused w) w ->
    (forall e w', w_db w' = w_db w -> wp (f e) (turned_away w) w') -> wp (or_else m f k) (turned_away w) w.
  Proof.
    intros Hm Hf. apply wp_or_else. eapply wp_mono; [exact Hm|]. intros r w' (Hd & _ & [->| ->]); by apply Hf.
  Qed.

Lemma wp_fail_with st d w w' : w_db w' = w_db w -> wp (fail_with st d) (turned_away w) w'.
  Proof. intros Hd. apply wp_ret. split; [by eauto|done]. Qed.

Lemma wp_mgmt_err action e w w' : w_db w' = w_db w -> wp (deviceMgmtErr action e) (turned_away w) w'.
  Proof. intros Hd. unfold deviceMgmtErr, failed_to. destruct e; by apply wp_fail_with. Qed.

Definition device_path (op : Op HttpRequest) : Prop :=
    exists rest, op_Path op = [Lit "api"; Lit "v1"; Lit "devices"; Wild "id"] ++ rest.

Definition isolated (op : Op HttpRequest) : Prop := forall rq a i w,
    not_owner (usr_ID (UserFrom a)) (in_ID i) (w_db w) -> wp (op_Handler op rq a i) (turned_away w) w.

Lemma device_ops_isolated : Forall (fun op => device_path op -> isolated op) (Build deps).
  Proof.
    assert (Hof : forall A c u id w (k : Device -> M A), not_owner u id (w_db w) ->
      wp (dev ← DeviceService.ownedDevice c u id; k dev) (refused w) w) by (intros; by apply owned_refused).
    assert (Hg : forall c u id w, not_owner u id (w_db w) -> wp (DeviceService.Get c u id) (refused w) w)
      by (intros; by apply owned_refused_only).
    unfold Build. rewrite !Forall_app. split_and!; try (repeat (constructor; [by intros [? ?]|]); constructor).
    - intros _ rq a i w Hno.
      apply wp_refused; [by apply Hg|]. intros e w' Hd. case_bool_decide; by apply wp_fail_with.
    - constructor.
    - intros _ rq a i w Hno. simpl. unfold patch_device. destruct (str_value _) as [l|].
      { destruct (str_eq _ _); [by apply wp_fail_with|].
        apply wp_refused; [by apply Hof|]. intros; by apply wp_mgmt_err. }
      destruct (bool_value _); (apply wp_refused; [by apply Hof || by apply Hg|]); intros; by apply wp_mgmt_err.
    - constructor; [|constructor; [|constructor; [|constructor]]]; intros _ rq a i w Hno; simpl.
      + apply wp_refused; [by apply Hof|]. intros; by apply wp_mgmt_err.
      + apply wp_refused; [by apply Hof|]. intros; by apply wp_mgmt_err.
      + apply wp_refused; [by apply Hof|]. intros; by apply wp_mgmt_err.
    - destruct (sv_Passkey deps) as [s|]; [|constructor]. repeat (constructor; [by intros [? ?]|]); constructor.
    - destruct (sv_FeedEnabled deps); [|constructor]. repeat (constructor; [by intros [? ?]|]); constructor.
    - destruct (sv_Notify deps) as [s|]; [|constructor]. repeat (constructor; [by intros [? ?]|]); constructor.
  Qed.

  (** C7: A request under /api/v1/devices/{id} whose credentials are not those
      of the device's owner is turned away whatever it asks for: the reply is a
      problem, and the database differs at most in authentication stamps. *)
Theorem device_requests_isolated op (rq : ApiRequest HttpRequest) id w
      (Hop : op ∈ Build deps) (Hpath : device_path op)
      (Hid : forall i, decode_input (op_Spec op) rq = inl i -> in_ID i = id)
      (Hno : forall a, by_session_or_key deps rq w a -> not_owner (usr_ID (UserFrom a)) id (w_db w)) :
    wp (serve_op op rq) (fun r w' =>
      (exists status detail, r = Ok (problem status detail)) /\ stamped (w_db w) (w_db w')) w.
  Proof.
    pose proof (proj1 (Forall_forall _ _) (Build_enforced deps) op Hop) as Hg.
    pose proof (proj1 (Forall_forall _ _) device_ops_isolated op Hop Hpath) as Hi.
    apply Hg; [intros; split; [by eauto|done]|]. intros a w' Hst Ha. destruct Hpath as [rest Hp].
    rewrite Hp in Ha. destruct Ha as [Hk _].
    unfold huma_handler. destruct (decode_input _ _) as [i|[st d]] eqn:Hd.
    - eapply wp_mono; [apply Hi|].
      + rewrite (Hid i eq_refl). destruct Hst as (s & k & n & -> & _). by apply Hno.
      + intros r w2 [Hr ->]. by split.
    - apply wp_ret. split; [by eauto|done].
  Qed.
End Isolation.
