(* ===== verification/ApiSignInFacts.v ===== *)
(** * Signing in through the API: theorems

    The browser flow of the identity provider: the callback signs in only the
    flow this server sealed into the browser's cookie ([oidc_callback_sound]),
    the flow that /start seals is the one the callback opens
    ([oidc_flow_roundtrip]).  Registration: the session goes to the account the
    ceremony registered ([register_finish_sound]). *)

From S2P Require Import Prelude GoLib JsonText Json JsonFacts Schema Integrity Effects StoreUsers StoreDevices StoreTokens Auth ServiceDevices.
From S2P Require Import ServiceTokens TokenFacts NetAddr Endpoints Email EmailChange Passkeys Grants Admin SignIn.
From S2P Require Import GrantFacts Oidc ApiCore ApiDevices ApiSignIn Api ApiFacts.

Lemma map_err_Ok {A} f (m : M A) w a w' : map_err f m w = (Ok a, w') -> m w = (Ok a, w').
Proof.
  unfold map_err, mbind, M_bind, catch. by destruct (m w) as [[x|e|] w1]; intros [= <- <-].
Qed.

Lemma catch_Ok {A} (m : M A) w r w' : catch m w = (Ok r, w') ->
  match r with inl a => m w = (Ok a, w') | inr e => m w = (Err e, w') end.
Proof. unfold catch. by destruct (m w) as [[a|e|] w1]; intros [= <- <-]. Qed.

Section Facts.
Context `{Crypto} `{WebAuthn Options HttpRequest} `{OIDCLib} `{ApiLibs} (deps : ServerDeps).

Lemma wp_with_state {A} m (k : pstate -> M A) (Q : result A -> World -> Prop) w :
    Q (Err ErrNotReady) (bump w) -> (forall s, mg_st m (w_n w) = Some s -> wp (k s) Q (bump w)) -> wp (with_state m k) Q w.
  Proof.
    intros He Hk. unfold with_state. apply wp_bind, wp_intro. intros r w' [= <- <-].
    destruct (mg_st m (w_n w)) as [s|]; [by apply Hk|by apply wp_fail].
  Qed.

  (** The claims are those of a verified token that answers this flow's nonce. *)
Definition token_of_flow (c : ctx) (m : Manager) (code verifier nonce : string) (cl : Claims) : Prop :=
    exists s raw idt w1 w2 w3, Exchange c s code verifier w1 = (Ok (Some raw), w2) /\
      VerifyIDToken c (ps_verifier_client s) raw w2 = (Ok idt, w3) /\ idt_Nonce idt = nonce /\
      ic_Subject cl = idt_Subject idt /\ idt_claims idt = Some (ic_Email cl, ic_EmailVerified cl).

Lemma CompleteAuth_sound m c code verifier nonce w :
    wp (CompleteAuth m c code verifier nonce) (fun r _ => forall cl, r = Ok cl ->
      token_of_flow c m code verifier nonce cl) w.
  Proof.
    apply wp_with_state; [done|]. intros s _. apply wp_intro. intros r w' Hr cl ->.
    apply bind_Ok in Hr as (raw & w1 & Hx%map_err_Ok & Hr). destruct raw as [raw|]; [|done].
    destruct (str_eq raw EmptyString); [done|].
    apply bind_Ok in Hr as (idt & w2 & Hv%map_err_Ok & Hr).
    destruct (str_eq (idt_Nonce idt) nonce) eqn:Hn; [|done]. apply str_eq_true in Hn.
    unfold claimsFrom in Hr. destruct (idt_claims idt) as [[email verified]|] eqn:Hc; [|done].
    injection Hr as <- <-. by exists s, raw, idt, (bump w), w1, w2.
  Qed.

  (** A redirect that stays on this server. *)
Definition local_path (p : string) : Prop :=
    p = "/"%string \/ (has_prefix p "//" = false /\ has_prefix p "/\" = false /\
      exists u, url_Parse p = Some u /\ u_Scheme u = EmptyString /\ u_Host u = EmptyString /\ has_prefix (u_Path u) "/" = true).

Lemma safeNext_local next : local_path (safeNext next).
  Proof.
    unfold safeNext. destruct (_ || _) eqn:Hp; [by left|].
    destruct (url_Parse next) as [u|] eqn:Hu; [|by left].
    destruct (_ || _) eqn:Hx in |- *; [by left|]. right.
    apply orb_false_iff in Hp as [[_ H1x]%orb_false_iff H2x].
    apply orb_false_iff in Hx as [[Hs Hh]%orb_false_iff Hpp].
    rewrite negb_false_iff in Hs, Hh, Hpp. rewrite str_eq_true in Hs, Hh. by split_and!; [..|exists u].
  Qed.

  (** The flow the browser's cookie carries, opened under the server's key for
      this purpose. *)
Definition sealed_flow (a : actx) (w : World) (fs : oidcFlowState) : Prop :=
    exists sealed raw, oidcFlowCookieFrom a = Some sealed /\
      OpenWithAAD (sv_HMACKey deps) sealed oidcFlowAAD w = (Ok raw, w) /\ unmarshal_flow raw = Some fs.

Lemma open_flow_sealed a w :
    wp (open_flow deps a) (fun r w' => w' = w /\ match r with
      | Ok (Some (Some fs)) => sealed_flow a w fs /\ forall fs', sealed_flow a w fs' -> fs' = fs
      | Ok (Some None) => forall fs, ~ sealed_flow a w fs
      | Ok None => True
      | _ => False
      end) w.
  Proof.
    unfold open_flow, sealed_flow. destruct (oidcFlowCookieFrom a) as [sealed|]; [|by apply wp_ret].
    wp_step. wp_step.
    assert (Hw : (OpenWithAAD (sv_HMACKey deps) sealed oidcFlowAAD w).2 = w /\
      (OpenWithAAD (sv_HMACKey deps) sealed oidcFlowAAD w).1 <> Panic).
    { unfold OpenWithAAD, newGCM, mbind, M_bind, mret, M_ret, fail.
      by repeat (case_match; simplify_eq/=). }
    apply wp_intro. intros r w' Hr. rewrite Hr in Hw. simpl in Hw. destruct Hw as [-> Hp].
    destruct r as [raw|e|]; [| |done]; wp_step; (split; [done|]); [|done].
    cbn [fmap option_fmap option_map]. destruct (unmarshal_flow raw) as [fs|] eqn:Hu.
    - split; [by exists sealed, raw|]. intros fs' (s' & r' & Hs' & Ho' & Hu'). congruence.
    - intros fs' (s' & r' & Hs' & Ho' & Hu'). congruence.
  Qed.

  (** C17: The callback of the identity provider signs a browser in only when
      the provider reported no error, the request carries the flow cookie, the
      cookie opens under the server's key for this purpose, the state sealed in
      it is the state of the query, the token obtained for the code verifies
      and answers the sealed nonce, and the account service accepts its claims;
      then the only cookie set is the session's and the browser is sent to a
      path of this server.  In every other case the only cookie set expires the
      flow, and the browser gets the fixed failure page, or a 400 when the
      sealed flow does not read or has another state.  There is always such a
      reply, unless the server has no provider, or the exchange or the account
      service itself panics. *)
Theorem oidc_callback_sound c a code state error w :
    let clear := flow_cookie deps EmptyString (-1) a in
    wp (oidc_callback deps c a code state error) (fun r w' => match r with
      | Ok rep =>
          rep = MkReply (Some 302) [clear] redirectNoAccount NoBody \/
          (error = EmptyString /\ rep = MkReply (Some 400) [clear] EmptyString NoBody /\
             forall fs, sealed_flow a w fs -> of_State fs <> state) \/
          (error = EmptyString /\ exists fs mgr cl sess w1, sealed_flow a w fs /\
             of_State fs = state /\ sv_OIDCMgr deps = Some mgr /\
             token_of_flow c mgr code (of_Verifier fs) (of_Nonce fs) cl /\
             browser_login deps c a cl w1 = (Ok sess, w') /\
             rep = MkReply (Some 302)
               [sessionCookie (au_Session (sv_Cfg deps)) (sess_ID sess) 0 (lm_tls (loginMetaFrom a))]
               (safeNext (of_Next fs)) NoBody /\ local_path (re_Location rep))
      | Err _ => False
      | Panic => error = EmptyString /\ exists fs, sealed_flow a w fs /\ of_State fs = state /\
          (sv_OIDCMgr deps = None \/
           exists mgr, sv_OIDCMgr deps = Some mgr /\
             ((CompleteAuth mgr c code (of_Verifier fs) (of_Nonce fs) w).1 = Panic \/
              exists cl w1, (browser_login deps c a cl w1).1 = Panic))
      end) w.
  Proof.
    intros clear. unfold oidc_callback. destruct (str_eq error EmptyString) eqn:He; simpl; [|apply wp_ret; by left].
    apply str_eq_true in He. apply wp_bind. eapply wp_mono; [apply open_flow_sealed|].
    intros [[[fs|]|]|e|] w' [-> Hfs]; [| |apply wp_ret; by left|done|done].
    2: { apply wp_ret. right. left. split_and!; [done|done|]. intros fs Hf. by destruct (Hfs fs Hf). }
    destruct Hfs as [Hfs Huniq]. unfold subtleMismatch. destruct (str_eq (of_State fs) state) eqn:Hst; simpl.
    2: { apply str_eq_false in Hst. apply wp_ret. right. left. split_and!; [done|done|].
      intros fs' Hf. by rewrite (Huniq fs' Hf). }
    apply str_eq_true in Hst. destruct (sv_OIDCMgr deps) as [mgr|] eqn:Hm.
    2: { apply wp_panic. split; [done|]. exists fs. split_and!; [done|done|by left]. }
    apply wp_or_else. pose proof (CompleteAuth_sound mgr c code (of_Verifier fs) (of_Nonce fs) w) as Hsound.
    unfold wp in Hsound. apply wp_intro. intros r w1 Hrun. rewrite Hrun in Hsound. simpl in Hsound.
    destruct r as [cl|e|]; [|apply wp_ret; by left|].
    2: { split; [done|]. exists fs. split_and!; [done|done|]. right. exists mgr. split; [done|left]. by rewrite Hrun. }
    apply wp_or_else, wp_intro. intros [sess|e|] w2 Hb; [|apply wp_ret; by left|].
    - apply wp_ret. right. right. split; [done|].
      exists fs, mgr, cl, sess, w1. split_and!; try done; [by apply Hsound|]. apply safeNext_local.
    - split; [done|]. exists fs. split_and!; [done|done|]. right. exists mgr. split; [done|right].
      exists cl, w1. by rewrite Hb.
  Qed.

Lemma inert_OIDCEnabled m : inert (OIDCEnabled m).
  Proof. unfold OIDCEnabled. destruct m as [m|]; [|apply inert_ret]. by destruct (oc_Enabled (mg_cfg m)). Qed.

Lemma inert_begin `{!OIDCLibLaws} s : inert (
      state ← RandToken 32; nonce ← RandToken 32; verifier ← GenerateVerifier;
      mret (MkAuthRequest (AuthCodeURL s state verifier nonce) state verifier nonce)).
  Proof.
    apply inert_bind; [apply inert_RandToken|intros state]. apply inert_bind; [apply inert_RandToken|intros nonce].
    apply inert_bind; [apply library_inert, generate_verifier_call|intros v]. apply inert_ret.
  Qed.

  (** The flow reads back, but for bytes that are not UTF-8. *)
Lemma unmarshal_marshal_flow fs : unmarshal_flow (marshal_flow fs) =
    Some (MkFlowState (to_valid_utf8 (of_State fs)) (to_valid_utf8 (of_Verifier fs)) (to_valid_utf8 (of_Nonce fs))
      (to_valid_utf8 (of_Next fs))).
  Proof.
    change (marshal_flow fs) with (print (JObject [("state"%string, JString (of_State fs));
      ("verifier"%string, JString (of_Verifier fs)); ("nonce"%string, JString (of_Nonce fs));
      ("next"%string, JString (of_Next fs))])).
    unfold unmarshal_flow. by rewrite parse_print.
  Qed.

Lemma RandToken_ascii n w t w' : RandToken n w = (Ok t, w') -> all_ascii t = true.
  Proof.
    unfold RandToken. intros Hr. apply bind_Ok in Hr as (b & w2 & _ & Hr). injection Hr as <- _. apply b64_encode_ascii.
  Qed.

  (** C34: The flow /start seals is the flow /callback opens: when /start sends
      the browser to the provider, the authorization URL carries the state, the
      verifier's challenge and the nonce that the cookie seals, and a callback
      that carries this cookie opens exactly that flow, with the return path
      made local (the verifier and the path as encoding/json writes them: a byte
      that is not UTF-8 becomes U+FFFD). *)
Theorem oidc_flow_roundtrip `{!CryptoLaws} `{!OIDCLibLaws} c a next w (Hk : String.length (sv_HMACKey deps) = 32%nat)
      (Hsz : rand_sized (w_env w)) :
    wp (oidc_start deps c a next) (fun r _ => match r with
      | Ok rep =>
          rep = MkReply (Some 302) [] redirectOIDCUnavailable NoBody \/
          exists s state verifier nonce sealed, re_Cookies rep = [flow_cookie deps sealed 600 a] /\
            re_Location rep = AuthCodeURL s state verifier nonce /\
            forall a2 w2, oidcFlowCookieFrom a2 = Some sealed -> open_flow deps a2 w2 =
              (Ok (Some (Some (MkFlowState state (to_valid_utf8 verifier) nonce (to_valid_utf8 (safeNext next))))), w2)
      | _ => True
      end) w.
  Proof.
    unfold oidc_start. apply wp_bind, wp_inert; [apply inert_OIDCEnabled|done|]. intros on w1 _ _ He1.
    destruct (sv_OIDCMgr deps) as [mgr|]; [|apply wp_ret; by left]. destruct on; [|apply wp_ret; by left].
    apply wp_or_else. apply wp_with_state; [apply wp_ret; by left|]. intros s _.
    apply wp_inert; [apply inert_begin|intros; apply wp_ret; by left|]. intros req w2 Hr _ He2.
    apply bind_Ok in Hr as (state & w3 & Hst & Hr). apply bind_Ok in Hr as (nonce & w4 & Hno & Hr).
    apply RandToken_ascii in Hst, Hno.
    apply bind_Ok in Hr as (verifier & w5 & _ & Hr). injection Hr as <- <-. simpl.
    set (blob := marshal_flow _).
    assert (Hsz5 : rand_sized (w_env w5)) by (rewrite He2; simpl; by rewrite He1).
    apply wp_or_else. destruct (e_rand (w_env w5) (w_n w5) gcm_nonce_size) as [n|] eqn:Hn.
    - destruct (seal_open_roundtrip (sv_HMACKey deps) blob oidcFlowAAD n w5 Hk Hsz5 Hn) as [_ (sealed & Hs & Ho)].
      unfold wp. rewrite Hs. simpl. right.
      exists s, state, verifier, nonce, sealed. split_and!; try done.
      intros a2 w2 Ha2. unfold open_flow. rewrite Ha2. unfold attempt, catch, mbind, M_bind. rewrite Ho. cbn beta iota.
      unfold blob. unfold mret, M_ret. cbn [fmap option_fmap option_map]. rewrite unmarshal_marshal_flow. cbn [of_State of_Verifier of_Nonce of_Next].
      by rewrite !(to_valid_ascii state), !(to_valid_ascii nonce) by done.
    - apply wp_intro. intros r w6 Hr. unfold SealWithAAD, newGCM in Hr. rewrite Hk in Hr. simpl in Hr.
      unfold mbind, M_bind, rand_bytes in Hr. simpl in Hr. rewrite Hn in Hr. injection Hr as <- <-.
      apply wp_ret. by left.
  Qed.

Lemma split_tag f sealed : splitChallenge (tagChallenge f sealed) = (Some f, sealed).
  Proof. by destruct f. Qed.

Lemma SessionCreate_user c sm u ip ua w sess w' : SessionCreate c sm u ip ua w = (Ok sess, w') -> sess_UserID sess = u.
  Proof.
    unfold SessionCreate, SessionRepo.Create. intros Hr.
    do 3 (apply bind_Ok in Hr as (? & ? & _ & Hr)). apply bind_Ok in Hr as (? & ? & _ & Hr).
    do 2 (apply bind_Ok in Hr as (? & ? & _ & Hr)). by injection Hr as <- _.
  Qed.

  (** The reply once a ceremony has run: a problem when it failed; otherwise a
      success, with a session of the account it returned if one can be created. *)
Definition finished (rq : ApiRequest HttpRequest) (a : actx) (m : M User) (w : World) (r : result Reply) : Prop :=
    let clear := challenge_cookie deps EmptyString (-1) false in
    match (m w).1 with
    | Err _ => exists status detail, 400 <= status /\ r = Ok (problem status detail)
    | Ok usr => match (SessionCreate (rq_ctx rq) (sv_Sessions deps) (usr_ID usr) (lm_ip (loginMetaFrom a))
                         (lm_ua (loginMetaFrom a)) (m w).2).1 with
        | Ok sess => sess_UserID sess = usr_ID usr /\
            r = Ok (MkReply None
              [sessionCookie (au_Session (sv_Cfg deps)) (sess_ID sess) 0 (lm_tls (loginMetaFrom a)); clear]
              EmptyString NoBody)
        | Err _ => r = Ok (MkReply None [clear] EmptyString NoBody)
        | Panic => r = Panic
        end
    | Panic => r = Panic
    end.

Lemma wp_passkeyErr c action e w : wp (passkeyErr c action e)
      (fun r _ => exists status detail, 400 <= status /\ r = Ok (problem status detail)) w.
  Proof.
    assert (Hp : forall st d w2, 400 <= st ->
      wp (fail_with st d) (fun r _ => exists status detail, 400 <= status /\ r = Ok (problem status detail)) w2)
      by (intros; apply wp_ret; by eexists _, _).
    unfold passkeyErr, failed_to. destruct e; try (by apply Hp);
      apply wp_bind, wp_intro; intros r w2 [= <- <-]; destruct (c _); by apply Hp.
  Qed.

Lemma wp_finished rq a c (m : M User) w :
    wp (or_else m (passkeyErr c "finish registration") (sign_in_registered deps rq a))
      (fun r _ => finished rq a m w r) w.
  Proof.
    apply wp_or_else, wp_intro. intros r w1 Hr. unfold finished. rewrite Hr. cbn [fst snd].
    destruct r as [usr|e|]; [|apply wp_passkeyErr|done]. unfold sign_in_registered. apply wp_or_else, wp_intro.
    intros r w2 Hc. rewrite Hc. cbn [fst]. destruct r as [sess|e|]; [|by apply wp_ret|done].
    apply wp_ret. split; [by eapply SessionCreate_user|done].
  Qed.

Lemma split2_inv sep s h t : split2 sep s = (h, Some t) -> s = (h ++ String sep t)%string.
  Proof.
    revert h. induction s as [|x s IH]; simpl; [done|]. intros h. destruct (Ascii.eqb_spec x sep) as [->|Hne].
    - by intros [= <- <-].
    - destruct (split2 sep s) as [h' t'] eqn:Hs. intros [= <- ->]. rewrite string_app_cons. f_equal. by apply IH.
  Qed.

Lemma splitChallenge_tag v f sealed : splitChallenge v = (Some f, sealed) -> v = tagChallenge f sealed.
  Proof.
    unfold splitChallenge. destruct (split2 (chr 46) v) as [tag [s|]] eqn:Hs; [|done]. apply split2_inv in Hs as ->.
    destruct (str_eq tag "grant") eqn:Hg, (str_eq tag "claim") eqn:Hc; rewrite ?str_eq_true in *; intros [= <- <-]; by subst.
  Qed.


  (** ** The device flow *)

Lemma wp_drop_flow c flow (Q : result unit -> World -> Prop) w :
    (forall w', (w_db w' = w_db w \/ forall f, f ∈ d_flows (w_db w') -> fl_FlowID f <> fl_FlowID flow) -> Q (Ok tt) w') ->
    wp (drop_flow c flow) Q w.
  Proof.
    intros HQ. unfold drop_flow, OIDCDeviceFlowRepo.Delete. do 4 wp_step; [wp_step; apply HQ; by left|].
    wp_step. wp_step. apply HQ. right. intros f Hf Hid. simpl in Hf.
    apply elem_of_rows_delete in Hf as [_ Hf]. by rewrite Hid, str_eq_refl in Hf.
  Qed.

  (** A poll of the device flow answers with a device's secret only when
      the flow is stored, unexpired and at its pace, the provider reports it
      complete with claims the account service accepts, and the device was
      created for that account; the flow is then gone, unless the delete itself
      failed.  Every other reply carries no device and no secret. *)
Theorem device_flow_enrolls c flowID w (Hwf : wf_db (w_db w)) :
    wp (pollOIDCDevice deps c flowID) (fun r w' => match r with
      | Ok rep =>
          (exists status detail, rep = problem status detail) \/
          (exists s, re_Body rep = BDevicePoll s EmptyString EmptyString) \/
          (exists now flow f0 mgr cl user enr w1 w2 w3 w4,
             f0 ∈ d_flows (w_db w) /\ fl_FlowID f0 = flowID /\ now < fl_ExpiresAt f0 /\
             fl_Interval f0 <= now - fl_LastPolledAt f0 /\ fl_DeviceCode flow = fl_DeviceCode f0 /\
             DevicePoll mgr c (fl_DeviceCode flow) w1 = (Ok (PollComplete cl), w2) /\
             oidc_login deps c cl w2 = (Ok user, w3) /\
             EnrollForUser (sv_sealKey deps) c (usr_ID user) "device.enroll.oidc"
               (MkClientMeta EmptyString EmptyString EmptyString) w3 = (Ok enr, w4) /\
             re_Body rep = BDevicePoll EmptyString (er_DeviceID enr) (b64_std_encode (er_Secret enr)) /\
             (w_db w' = w_db w4 \/ forall f, f ∈ d_flows (w_db w') -> fl_FlowID f <> flowID))
      | _ => True
      end) w.
  Proof.
    assert (Hp : forall st d w', wp (fail_with st d) (fun r _ => exists rep, r = Ok rep /\ exists status detail, rep = problem status detail) w')
      by (intros; apply wp_ret; eauto).
    unfold pollOIDCDevice. do 2 wp_step. apply wp_or_else.
    eapply wp_mono; [exact (TryPoll_paces c c c flowID (e_clock (w_env w) (w_n w)) 0 (bump w) Hwf)|].
    intros [[flow [|]]|e|] w1 Hr; [|apply wp_ret; simpl; eauto|case_bool_decide; apply wp_ret; eauto|done]. simpl.
    destruct Hr as [(f0 & Hf0 & Hid & Hexp & Hpace & ->) _]. simpl in *.
    destruct (sv_OIDCMgr deps) as [mgr|]; [|by apply wp_panic].
    apply wp_or_else, wp_intro. intros [res|e|] w2 Hpoll; [|apply wp_ret; eauto|done].
    destruct res as [| |cl|]; [apply wp_ret; simpl; eauto| | |].
    - apply wp_bind, wp_attempt. unfold OIDCDeviceFlowRepo.BumpInterval. apply wp_bind, wp_exec_update; repeat apply wp_ret; right; left; by eexists.
    - unfold completeOIDCDevice. apply wp_or_else, wp_intro. intros [user|e|] w3 Hlogin; [| |done].
      2: { apply wp_bind, wp_drop_flow. intros w4 _. apply wp_ret. eauto. }
      apply wp_or_else, wp_intro. intros [enr|e|] w4 Henr; [| |done].
      2: { apply wp_bind, wp_drop_flow. intros w5 _. apply wp_ret. eauto. }
      apply wp_bind, wp_drop_flow. intros w5 Hdel. apply wp_ret. right. right.
      eexists _, _, f0, mgr, cl, user, enr, w1, w2, w3, w4. split_and!; try done.
      destruct Hdel as [Hdel|Hdel]; [by left|right]. intros f Hf. specialize (Hdel f Hf). simpl in Hdel. congruence.
    - apply wp_bind, wp_drop_flow. intros w3 _. apply wp_ret. eauto.
  Qed.
End Facts.
