(* ===== verification/ApiDemo.v ===== *)
(** * The API on a concrete server

    Instances of the libraries and a server on the database of Demo, on which
    the hypotheses of ApiFacts and ApiSignInFacts are discharged: a passkey
    service, a notification service and a feed, an identity provider that
    verifies every token, and a decoder that reads the identifier from the
    request's path. *)

From S2P Require Import Prelude GoLib JsonText Json Schema Integrity Effects Demo StoreUsers StoreDevices StoreTokens Auth.
From S2P Require Import ServiceDevices ServiceFacts ServiceTokens NetAddr Endpoints Email Passkeys Grants SignIn.
From Stdlib Require Import Ascii.
From S2P Require Import GrantFacts IdentityFacts Oidc ApiCore ApiDevices ApiAdmin ApiSignIn Api ApiFacts ApiSignInFacts.

#[local] Existing Instance toy_crypto.
#[local] Existing Instance toy_webauthn.

Definition toy_idp : OIDCLib := {|
  NewProvider := fun _ _ => mret demo_endpoint;
  GenerateVerifier := mret "verifier"%string;
  AuthCodeURL := fun s state verifier nonce => ("https://idp/auth?state=" ++ state ++ "&nonce=" ++ nonce)%string;
  Exchange := fun _ _ code _ => mret (Some code);
  VerifyIDToken := fun _ _ raw => mret (MkIDToken "sub" raw (Some ("b@example.org"%string, true)));
  DeviceAuth_ := fun _ _ => mret (MkDeviceAuthResponse "dc" "UC" "https://idp/d" EmptyString None 5);
  PostForm := fun _ _ _ _ => mret (json_object [json_field "id_token" (json_quote "token")]) |}.
#[local] Existing Instance toy_idp.

Lemma toy_idp_laws : OIDCLibLaws.
Proof. by split. Qed.

Definition toy_libs : ApiLibs := {|
  mail_ParseAddress := toy_parse;
  url_Parse := fun s => Some (MkURL EmptyString EmptyString EmptyString s);
  deny_text := fun _ => EmptyString;
  json_claim := fun _ => None;
  unjson_claim := fun _ => None |}.
#[local] Existing Instance toy_libs.

(** The last but one segment of a demo path is the identifier. *)
Definition toy_huma : Huma string := {|
  decode_input := fun spec rq =>
    inl (MkInput (<["id"%string := VString "d1"]> ∅) ∅ ∅ (default EmptyString (rq_body rq))) |}.
#[local] Existing Instance toy_huma.

Definition demo_cfg : AuthCfg :=
  MkAuthCfg (MkSessionCfg "diyddns_session" true "lax") 120 (demo_idp true).
Definition demo_passkeys_api : PasskeyService := MkPasskeyService demo_key (MkSessionManager 3600 600).

Definition demo_deps : ServerDeps :=
  MkServerDeps demo_verifier (MkSessionManager 3600 600) 900 demo_key NopDeviceNotifier NopNotifier
    (MkBootstrapService (Some demo_passkeys_api) demo_key) (Some demo_passkeys_api)
    (MkGrantService (Some demo_passkeys_api) None "https://dns.example.org" 3600)
    (Some (MkNotificationService demo_key [])) None "https://dns.example.org"
    (Some (MkManager (demo_idp true) "https://dns.example.org"
             (fun _ => Some (published_state (demo_manager (demo_idp true)) demo_endpoint))))
    demo_key demo_cfg (MkInfo "v1" EmptyString EmptyString) true background.

(** A request with the cookie of the first user's session. *)
Definition request (method : string) (cookie csrf : string) : ApiRequest string :=
  MkApiRequest string background method EmptyString (Some EmptyString)
    (fun h => if str_eq h "X-CSRF-Token" then csrf else EmptyString)
    (fun n => if str_eq n "diyddns_session" then Some cookie else None) "192.0.2.7:1" "agent" true "key".

(** ** Witnesses *)

Lemma routes_unambiguous_witness :
  length (Build (HttpRequest:=string) demo_deps) = 55%nat /\ 3%nat = 3%nat.
Proof.
  split; [vm_compute; reflexivity|].
  refine (routes_unambiguous demo_deps 3 3 _ _ "POST" ["agent"; "v1"; "enroll"; "oidc"; "poll"]%string
    (eq_refl _) (eq_refl _) _ _); vm_compute; reflexivity.
Defined.

(** The second user signs in as well. *)
Definition two_sessions : World :=
  MkWorld demo_env 0 (setd_sessions [demo_session; SessionRow "s2" "u2" "csrf2" None None 500 500 1500] demo_db) empty_mem.

Definition delete_op : Op string := default (MkOp "" [] 0 [] no_input (fun _ _ _ => panic))
  (route demo_deps "DELETE" ["api"; "v1"; "devices"; "d1"]%string).
Definition delete_as (cookie csrf : string) : result (option Reply) * World :=
  serve demo_deps ["api"; "v1"; "devices"; "d1"]%string (request "DELETE" cookie csrf) two_sessions.

Lemma delete_route : route demo_deps "DELETE" ["api"; "v1"; "devices"; "d1"]%string = Some delete_op.
Proof. reflexivity. Qed.

(** The owner's request deletes the device, in the owner's name; without the
    CSRF token it is refused. *)
Lemma api_authorized_witness :
  (rd_id <$> d_devices (w_db (delete_as "s1" "csrf").2)) = ["d2"%string] /\
  (delete_as "s1" "wrong").1 = Ok (Some (problem 403 "invalid csrf token")) /\
  exists a, granted demo_deps (request "DELETE" "s1" "csrf") (SessionOrKey true) two_sessions a.
Proof.
  split_and!; [vm_compute; reflexivity..|].
  pose proof (api_authorized demo_deps delete_op ["api"; "v1"; "devices"; "d1"]%string
    (request "DELETE" "s1" "csrf") two_sessions delete_route) as Hw.
  unfold wp in Hw. destruct Hw as [(st & d & Hr & _)|(a & w1 & r1 & _ & Ha & _)].
  - exfalso. vm_compute in Hr. discriminate.
  - exists a. exact Ha.
Defined.

(** The other user's request is turned away. *)
Lemma device_requests_isolated_witness :
  exists st d, (serve_op delete_op (request "DELETE" "s2" "csrf2") two_sessions).1 = Ok (problem st d).
Proof.
  destruct (device_requests_isolated demo_deps delete_op (request "DELETE" "s2" "csrf2") "d1" two_sessions)
    as [(st & d & Hr) _].
  - apply list_elem_of_In. eapply find_some, delete_route.
  - exists []. reflexivity.
  - by intros i [= <-].
  - intros a [[_ (sid & row & urow & Hc & Hrow & Hid & _ & Hu & Huid & _ & Ha & _)]|(pt & kr & ur & Hb & _)].
    2: { exfalso. by vm_compute in Hb. }
    injection Hc as <-. unfold UserFrom. rewrite Ha. simpl. rewrite Huid.
    intros dr Hdr Hdid. simpl in Hrow, Hdr.
    apply elem_of_cons in Hrow as [->|[->|Hn%elem_of_nil]%elem_of_cons]; [done| |done].
    apply elem_of_cons in Hdr as [->|[->|Hn%elem_of_nil]%elem_of_cons]; by try done.
  - by exists st, d.
Defined.

Definition meta : actx := MkActx None None None false (Some (MkLoginMeta "192.0.2.7" "agent" true)) EmptyString None.
Definition oidc_started : result Reply * World := oidc_start demo_deps background meta "/devices" demo_world.

(** The sealed cookie of a started flow opens to the flow. *)
Lemma oidc_flow_roundtrip_witness :
  exists ck fs, re_Cookies <$> (match oidc_started.1 with Ok r => Some r | _ => None end) = Some [ck] /\
    open_flow demo_deps (MkActx None None None false None EmptyString (Some (ck_Value ck))) demo_world =
      (Ok (Some (Some fs)), demo_world) /\ of_Next fs = "/devices"%string.
Proof.
  pose proof (@oidc_flow_roundtrip toy_crypto toy_idp toy_libs demo_deps toy_crypto_laws toy_idp_laws
    background meta "/devices" demo_world eq_refl demo_rand_sized) as Hw.
  assert (Hr : exists rep, oidc_started.1 = Ok rep /\ re_Cookies rep <> []) by (vm_compute; by eexists).
  destruct Hr as (rep & Hr & Hne). unfold wp in Hw. fold oidc_started in Hw. rewrite Hr in *.
  destruct Hw as [->|(s & state & verifier & nonce & sealed & Hck & _ & Ho)]; [done|].
  exists (flow_cookie demo_deps sealed 600 meta), (MkFlowState state (to_valid_utf8 verifier) nonce (to_valid_utf8 (safeNext "/devices"))).
  cbn [fmap option_fmap option_map]. split; [by rewrite Hck|]. split; [|reflexivity].
  apply Ho. simpl. vm_compute in Hr. injection Hr as <-. vm_compute in Hck. injection Hck as <-. reflexivity.
Defined.

Definition flow_world : World := MkWorld demo_env 0 (setd_flows [MkOIDCDeviceFlow "f" "dc" 5 2000 890 890] demo_db) empty_mem.
Definition demo_secret_reply : Reply :=
  MkReply None [] EmptyString (BDevicePoll EmptyString "id-15" (b64_std_encode (repeat_char 32))).

Lemma flow_wf : wf_db (w_db flow_world).
Proof. split; apply rows_okb_wf; vm_compute; reflexivity. Qed.

Lemma flow_polled : pollOIDCDevice demo_deps background "f" flow_world =
  (Ok demo_secret_reply, (pollOIDCDevice demo_deps background "f" flow_world).2).
Proof. apply run_eq. vm_compute. reflexivity. Qed.

(** A completed flow enrolls a device and is gone. *)
Lemma device_flow_enrolls_witness :
  length (d_devices (w_db (pollOIDCDevice demo_deps background "f" flow_world).2)) = 3%nat /\
  d_flows (w_db (pollOIDCDevice demo_deps background "f" flow_world).2) = [] /\
  exists enr, re_Body demo_secret_reply = BDevicePoll EmptyString (er_DeviceID enr) (b64_std_encode (er_Secret enr)).
Proof.
  split_and!; [vm_compute; reflexivity..|].
  destruct (wp_elim _ _ _ _ _ (device_flow_enrolls demo_deps background "f" flow_world flow_wf) flow_polled)
    as [(st & d & Hp)|[(s & Hs)|(now & fl & f0 & mgr & cl & user & enr & w1 & w2 & w3 & w4 & Hrest)]].
  - exfalso. discriminate Hp.
  - exfalso. discriminate Hs.
  - exists enr. apply Hrest.
Defined.
