(* ===== verification/FeedApi.v ===== *)
(** * internal/server/feed: the token middleware and the two documents

    tokenmw.go and handlers.go.  A reply is a status, the headers that were set
    and the body; net/http's own treatment of a reply (a HEAD request has no
    body, the Date header) is not modelled.  The stream's handler is in
    FeedStream. *)

From S2P Require Import Prelude GoLib JsonText Dates Schema Effects NetAddr StoreDevices StoreTokens Auth ServiceTokens Feed ApiCore.
From S2P Require Import Integrity Demo Notify ServiceFacts TokenFacts.
From Stdlib Require Import Ascii.

Record HttpReply := MkHttpReply { ht_Status : Z; ht_Header : list (string * string); ht_Body : string }.

Definition header_of (r : HttpReply) (name : string) : option string :=
  snd <$> List.find (fun h => str_eq (fst h) name) (ht_Header r).

Section FeedApi.
Context `{Crypto} {HttpRequest : Type}.

(** ** tokenmw.go *)

Definition json_error (message : string) : string :=
  ("{" ++ quote ++ "error" ++ quote ++ ":" ++ quote ++ message ++ quote ++ "}")%string.

Definition unauthorizedBody : string := json_error "unauthorized".

(** The shape of every refusal of the feed. *)
Definition refuse (status : Z) (body : string) : HttpReply :=
  MkHttpReply status [("Content-Type", "application/json"); ("Cache-Control", "no-store")]%string body.

Definition reject_token (reason : string) : M HttpReply :=
  emit (OWarn ("feed auth rejected: " ++ reason));; mret (refuse 401 unauthorizedBody).

Definition reject_reason (c : ctx) (e : err) : M string := fun w =>
  (Ok (if bool_decide (e = ErrNotFound) then "unknown_token"%string
       else if c (w_n w) then "cancelled"%string else "store_error"%string), w).

(** [next] gets the token's identifier, as TokenIDFrom reads it. *)
Definition TokenMiddleware (rq : ApiRequest HttpRequest) (next : string -> M HttpReply) : M HttpReply :=
  let header := rq_Header rq "Authorization" in
  if str_eq header EmptyString then reject_token "no_token"
  else match bearer FeedTokenPrefix header with
  | None => reject_token "malformed"
  | Some plaintext =>
      r ← catch (AuthenticateToken (rq_ctx rq) plaintext);
      match r with
      | inl tok => next (ft_ID tok)
      | inr e => reason ← reject_reason (rq_ctx rq) e; reject_token reason
      end
  end.

(** ** handlers.go *)

(** The snapshot and feed_state.changed_at. *)
Definition current (c : ctx) : M (Snapshot * Z) :=
  devices ← DeviceRepo.ListFeed c;
  let snap := Render devices in
  st ← FeedStateRepo.Get c;
  mret (snap, fs_ChangedAt st).

Definition etagMatches (header etag : string) : bool :=
  let header := trim_space header in
  if str_eq header EmptyString then false
  else if str_eq header "*" then true
  else existsb (fun candidate => str_eq (trim_space candidate) etag) (split_all "," header).

Definition serve_document (contentType failBody : string) (pick : Snapshot -> string * string)
    (rq : ApiRequest HttpRequest) : M HttpReply :=
  r ← catch (current (rq_ctx rq));
  match r with
  | inr _ =>
      mret (MkHttpReply 500 [("Content-Type"%string, contentType); ("Cache-Control", "no-store")%string] failBody)
  | inl (snap, changedAt) =>
      let (body, etag) := pick snap in
      let validators := [("ETag"%string, etag); ("Last-Modified"%string, format_http changedAt);
                         ("Cache-Control", "no-cache")%string] in
      if etagMatches (rq_Header rq "If-None-Match") etag then mret (MkHttpReply 304 validators EmptyString)
      else mret (MkHttpReply 200
        (validators ++ [("Content-Type"%string, contentType);
                        ("Content-Length"%string, format_int (Z.of_nat (String.length body)))]) body)
  end.

(** The picks of the two handlers: a body and its tag. *)
Definition text_document (s : Snapshot) : string * string := (sn_Text s, sn_TextETag s).
Definition json_document (s : Snapshot) : string * string := (sn_JSON s, sn_JSONETag s).

Definition serveText : ApiRequest HttpRequest -> M HttpReply :=
  serve_document "text/plain; charset=utf-8" ("# diyddns feed unavailable" ++ lf)%string
    text_document.

Definition serveJSON : ApiRequest HttpRequest -> M HttpReply :=
  serve_document "application/json" (json_error "feed unavailable")
    json_document.

(** The two documents behind the middleware, as Register mounts them; a GET
    pattern serves HEAD as well. *)
Definition Routes : list string :=
  ["GET /feed/v1/devices.txt"; "GET /feed/v1/devices.json"; "GET /feed/v1/stream"]%string.

Definition feed_documents (rq : ApiRequest HttpRequest) : option (M HttpReply) :=
  if str_eq (rq_Method rq) "GET" || str_eq (rq_Method rq) "HEAD" then
    if str_eq (rq_Path rq) "/feed/v1/devices.txt" then Some (TokenMiddleware rq (fun _ => serveText rq))
    else if str_eq (rq_Path rq) "/feed/v1/devices.json" then Some (TokenMiddleware rq (fun _ => serveJSON rq))
    else None
  else None.

(** ** Entity tags *)

Definition etag_char (c : Ascii.ascii) : bool := negb (is_space c) && negb (Ascii.eqb c ",").

Fixpoint all_etag (s : string) : bool :=
  match s with EmptyString => true | String c r => etag_char c && all_etag r end.

Lemma all_etag_app s t : all_etag (s ++ t) = all_etag s && all_etag t.
Proof. induction s as [|c s IH]; simpl; [done|]. by rewrite IH, andb_assoc. Qed.

Lemma hex_digit_etag v : 0 <= v < 16 -> etag_char (hex_digit v) = true.
Proof.
  intros Hv. assert (Hall : forallb (fun n => etag_char (hex_digit (Z.of_nat n))) (seq 0 16) = true) by (vm_compute; reflexivity).
  rewrite forallb_forall in Hall. specialize (Hall (Z.to_nat v)). rewrite Z2Nat.id in Hall by lia.
  apply Hall, in_seq. lia.
Qed.

Lemma hex_etag s : all_etag (hex_encode s) = true.
Proof.
  induction s as [|c s IH]; [done|]. cbn [hex_encode all_etag]. pose proof (code_range c).
  rewrite IH, !hex_digit_etag; [done|apply Z.mod_pos_bound; lia|].
  split; [apply Z.div_pos; lia|apply Z.div_lt_upper_bound; lia].
Qed.

Lemma trim_right_etag s : all_etag s = true -> trim_right s = s.
Proof.
  induction s as [|c s IH]; [done|]. simpl. intros [Hc Hs]%andb_true_iff. rewrite IH by done.
  apply andb_true_iff in Hc as [Hc _]. apply negb_true_iff in Hc. by destruct s; rewrite ?Hc.
Qed.

Lemma trim_etag s : all_etag s = true -> trim_space s = s.
Proof.
  intros Hs. unfold trim_space. rewrite trim_right_etag; destruct s as [|c s]; try done;
    simpl in *; apply andb_true_iff in Hs as [Hc Hs]; pose proof Hc as [Hc' _]%andb_true_iff;
    apply negb_true_iff in Hc'; rewrite Hc'; [done|]. simpl. by rewrite Hc, Hs.
Qed.

Lemma no_comma s : all_etag s = true -> has_char "," s = false.
Proof.
  induction s as [|c s IH]; [done|]. simpl. intros [Hc Hs]%andb_true_iff. rewrite IH by done.
  apply andb_true_iff in Hc as [_ Hc]. apply negb_true_iff in Hc. by rewrite Hc.
Qed.

Lemma strong_etag b : all_etag (strongETag b) = true.
Proof. unfold strongETag. by rewrite !all_etag_app, hex_etag. Qed.

Lemma etagMatches_one tag etag :
  all_etag tag = true -> tag <> EmptyString -> tag <> "*"%string -> etagMatches tag etag = str_eq tag etag.
Proof.
  intros Ht Hne Hs. unfold etagMatches. rewrite trim_etag by done.
  destruct (str_eq tag EmptyString) eqn:E1; [by apply str_eq_true in E1|].
  destruct (str_eq tag "*") eqn:E2; [by apply str_eq_true in E2|].
  rewrite split_all_one by by apply no_comma. simpl. by rewrite trim_etag, orb_false_r.
Qed.

Lemma quote_char : exists q, quote = String q EmptyString /\ q <> "W"%char /\ q <> "*"%char.
Proof. eexists. repeat split; discriminate. Qed.

Lemma string_app_suffix_inj (a b t : string) : (a ++ t = b ++ t)%string -> a = b.
Proof.
  intros He. apply (f_equal String.list_ascii_of_string) in He.
  assert (Happ : forall x y, String.list_ascii_of_string (x ++ y) = (String.list_ascii_of_string x ++ String.list_ascii_of_string y)%list).
  { induction x as [|c x IH]; intros y; simpl; [done|]. by rewrite IH. }
  rewrite !Happ in He. apply app_inv_tail in He.
  by rewrite <- (String.string_of_list_ascii_of_string a), <- (String.string_of_list_ascii_of_string b), He.
Qed.

Lemma strongETag_eq b b' : strongETag b = strongETag b' <-> sha256 b = sha256 b'.
Proof.
  split; [|by unfold strongETag; intros ->]. unfold strongETag.
  destruct quote_char as (q & -> & _). simpl. intros [= He].
  apply hex_encode_inj. by eapply string_app_suffix_inj.
Qed.

(** The elements of a comma-separated list. *)
Inductive comma_element : string -> string -> Prop :=
  | ce_only c : has_char "," c = false -> comma_element c c
  | ce_here c rest : has_char "," c = false -> comma_element (c ++ String "," rest) c
  | ce_later a rest c : has_char "," a = false -> comma_element rest c -> comma_element (a ++ String "," rest) c.

Lemma comma_cases s : has_char "," s = false \/
  exists a rest, s = (a ++ String "," rest)%string /\ has_char "," a = false /\ (String.length rest < String.length s)%nat.
Proof.
  induction s as [|c s IH]; [by left|]. destruct (Ascii.eqb_spec c ",") as [->|Hne].
  - right. exists EmptyString, s. repeat split. simpl. lia.
  - destruct IH as [Hs|(a & rest & -> & Ha & Hl)].
    + left. simpl. rewrite Hs. by destruct (Ascii.eqb_spec c ",").
    + right. exists (String c a), rest. repeat split; [|simpl; lia]. simpl. rewrite Ha. by destruct (Ascii.eqb_spec c ",").
Qed.

Lemma split_all_elements s c : c ∈ split_all "," s <-> comma_element s c.
Proof.
  split.
  - remember (String.length s) as n eqn:Hn. revert s Hn. induction (lt_wf n) as [n _ IH]. intros s -> Hc.
    destruct (comma_cases s) as [Hs|(a & rest & -> & Ha & Hl)].
    + rewrite split_all_one in Hc by done. apply list_elem_of_singleton in Hc as ->. by constructor.
    + rewrite split_all_app in Hc by done. apply elem_of_cons in Hc as [->|Hc]; [by apply ce_here|].
      apply ce_later; [done|]. by eapply IH.
  - induction 1 as [c Hc|c rest Hc|a rest c Ha _ IH]; [rewrite split_all_one by done|rewrite split_all_app by done..]; by constructor.
Qed.

(** What If-None-Match must say for a tag to count: anything at all, or a list
    that holds the very tag. *)
Definition if_none_match (inm tag : string) : Prop :=
  trim_space inm = "*"%string \/ exists c, comma_element (trim_space inm) c /\ trim_space c = tag.

Lemma etagMatches_iff inm tag : tag <> EmptyString -> etagMatches inm tag = true <-> if_none_match inm tag.
Proof.
  intros Hne. unfold etagMatches, if_none_match. destruct (str_eq (trim_space inm) EmptyString) eqn:He.
  - apply str_eq_true in He. rewrite He. split; [done|]. intros [?|(c & Hc & Ht)]; [done|].
    apply split_all_elements, list_elem_of_singleton in Hc as ->. done.
  - destruct (str_eq (trim_space inm) "*") eqn:Hs; [apply str_eq_true in Hs; by split; [left|]|].
    apply str_eq_false in Hs. rewrite existsb_exists. split.
    + intros (c & Hc%list_elem_of_In%split_all_elements & Ht%str_eq_true). right. by exists c.
    + intros [?|(c & Hc%split_all_elements & Ht)]; [done|]. exists c. by rewrite <- list_elem_of_In, str_eq_true.
Qed.

(** ** Theorems *)

Definition feed_now (w : World) : Snapshot :=
  Render (DeviceRepo.scanFeedDevice <$> DeviceRepo.listFeedQuery (w_db w)).

Lemma wp_current c (Q : result (Snapshot * Z) -> World -> Prop) w :
  (forall w', w_db w' = w_db w -> Q (Err ErrDriver) w') ->
  (forall w', w_db w' = w_db w -> Q (Ok (feed_now w, fs_ChangedAt (d_feed_state (w_db w)))) w') ->
  wp (current c) Q w.
Proof.
  intros He HQ. unfold current, DeviceRepo.ListFeed, FeedStateRepo.Get. wp_step. wp_step; [by apply He|].
  wp_step. wp_step; [by apply He|]. wp_step. by apply HQ.
Qed.

(** What a document's reply promises about the body [body] the database
    renders to now. *)
Definition revalidates (inm body : string) (reply : HttpReply) : Prop :=
  (ht_Status reply = 500 /\ ht_Body reply <> EmptyString /\
     header_of reply "Cache-Control" = Some "no-store"%string /\ header_of reply "ETag" = None) \/
  (header_of reply "ETag" = Some (strongETag body) /\
   (ht_Status reply = 304 /\ ht_Body reply = EmptyString \/ ht_Status reply = 200 /\ ht_Body reply = body) /\
   (ht_Status reply = 304 <-> if_none_match inm (strongETag body)) /\
   (inm = EmptyString -> ht_Status reply = 200) /\
   forall old, (inm = strongETag old -> (ht_Status reply = 304 <-> sha256 body = sha256 old)) /\
               (inm = ("W/" ++ strongETag old)%string -> ht_Status reply = 200)).

Lemma serve_document_revalidates ct fail_body pick rq w :
  fail_body <> EmptyString -> (forall ds s, s = Render ds ->
    snd (pick s) = strongETag (fst (pick s))) ->
  wp (serve_document ct fail_body pick rq) (fun r w' => w_db w' = w_db w /\
    exists reply, r = Ok reply /\ revalidates (rq_Header rq "If-None-Match") (fst (pick (feed_now w))) reply) w.
Proof.
  intros Hfail Hpick. unfold serve_document. wp_step. wp_step. apply wp_current.
  - intros w' Hw. wp_step. split; [done|]. eexists. split; [done|]. by left.
  - intros w' Hw. specialize (Hpick _ (feed_now w) eq_refl).
    destruct (pick (feed_now w)) as [body etag]. simpl in Hpick. subst etag. simpl fst.
    assert (Hone : forall tag, all_etag tag = true -> tag <> EmptyString -> tag <> "*"%string ->
      etagMatches tag (strongETag body) = str_eq tag (strongETag body)) by (intros; by apply etagMatches_one).
    destruct quote_char as (q & Hq & Hw' & Hs').
    assert (Hstrong : forall old, strongETag old <> EmptyString /\ strongETag old <> "*"%string).
    { intros old. unfold strongETag. rewrite Hq. by split; intros [= ?]. }
    assert (Hrule := etagMatches_iff (rq_Header rq "If-None-Match") (strongETag body) (proj1 (Hstrong body))).
    destruct (etagMatches _ _) eqn:Hm; wp_step; (split; [done|]; eexists; split; [done|]); right.
    + split; [done|]. split; [by left|]. split; [by split; [intros _; by apply Hrule|]|]. split; [intros Hi; by rewrite Hi in Hm|].
      intros old. destruct (Hstrong old). split; intros Hi; rewrite Hi, Hone in Hm.
      * apply str_eq_true in Hm. split; [|done]. intros _. by apply strongETag_eq.
      * by rewrite strong_etag.
      * done.
      * done.
      * apply str_eq_true in Hm. unfold strongETag in Hm. rewrite Hq in Hm. simpl in Hm. by injection Hm as <-.
      * by rewrite all_etag_app, strong_etag.
      * done.
      * done.
    + split; [done|]. split; [by right|]. split; [by split; [done|intros Hi%Hrule]|]. split; [done|]. intros old. destruct (Hstrong old). split; [|done].
      intros Hi. rewrite Hi, Hone in Hm by (done || apply strong_etag). split; [done|].
      intros He%strongETag_eq. by rewrite He, str_eq_refl in Hm.
Qed.

(** C23: A feed document is always fresh: a reply carries the strong tag of the
    body the database renders to now.  It is a 304 exactly when If-None-Match is
    "*" or a comma-separated list that holds this very tag, and otherwise a 200
    with the whole body; so a client that sends the tag of a body it has gets
    a 304 exactly when the digests agree, and one that sends no tag or a weak
    one gets the whole body.  A failure is a 500 with a body and no tag, so it
    is never taken for an empty list. *)
Theorem feed_documents_fresh (rq : ApiRequest HttpRequest) (w : World) :
  wp (serveText rq) (fun r w' => w_db w' = w_db w /\ exists reply, r = Ok reply /\
    revalidates (rq_Header rq "If-None-Match") (sn_Text (feed_now w)) reply) w /\
  wp (serveJSON rq) (fun r w' => w_db w' = w_db w /\ exists reply, r = Ok reply /\
    revalidates (rq_Header rq "If-None-Match") (sn_JSON (feed_now w)) reply) w.
Proof.
  split; apply serve_document_revalidates; try done; by intros ds s ->.
Qed.

(** The token a request presents is live. *)
Definition holds_feed_token (rq : ApiRequest HttpRequest) (d : DB) : Prop :=
  exists plaintext r, rq_Header rq "Authorization" = ("Bearer " ++ plaintext)%string /\
    has_prefix plaintext FeedTokenPrefix = true /\ r ∈ d_feed_tokens d /\ rf_token_hash r = HashToken plaintext.

Lemma has_prefix_split s p : has_prefix s p = true ->
  s = (p ++ String.substring (String.length p) (String.length s - String.length p) s)%string.
Proof.
  unfold has_prefix. revert s. induction p as [|c p IH]; intros s; simpl.
  - intros _. rewrite Nat.sub_0_r. change (s = String.substring 0 (String.length s) s).
    induction s as [|x s IH]; simpl; [done|]. by f_equal.
  - destruct s as [|x s]; simpl; [discriminate|]. destruct (ascii_dec c x) as [->|]; [|discriminate]. intros Hp.
    change (String x s = String x (p ++ String.substring (String.length p) (String.length s - String.length p) s)%string).
    by rewrite <- IH.
Qed.

Lemma bearer_spec prefix header plaintext : bearer prefix header = Some plaintext ->
  header = ("Bearer " ++ plaintext)%string /\ has_prefix plaintext prefix = true.
Proof.
  unfold bearer. destruct (has_prefix header "Bearer ") eqn:Hp; [|done].
  destruct (_ || _) eqn:Hs; [done|]. intros [= <-]. apply orb_false_iff in Hs as [[Hs%negb_false_iff _]%orb_false_iff _].
  split; [|done]. exact (has_prefix_split _ _ Hp).
Qed.

Lemma wp_TokenMiddleware rq next (Q : result HttpReply -> World -> Prop) w :
  (forall w', Q (Ok (refuse 401 unauthorizedBody)) w') ->
  (forall r w', holds_feed_token rq (w_db w) -> r ∈ d_feed_tokens (w_db w) -> wp (next (rf_id r)) Q w') ->
  wp (TokenMiddleware rq next) Q w.
Proof.
  intros Hno Hyes. assert (Hrej : forall reason w', wp (reject_token reason) Q w').
  { intros reason w'. unfold reject_token. wp_step. unfold emit, wp. simpl. apply Hno. }
  unfold TokenMiddleware. destruct (str_eq _ _); [apply Hrej|].
  destruct (bearer _ _) as [pt|] eqn:Hb; [|apply Hrej]. apply bearer_spec in Hb as [Hh Hp].
  wp_step. wp_step. apply wp_AuthenticateToken; [done|..].
  - intros w'. wp_step. unfold reject_reason, wp at 1. simpl. apply Hrej.
  - intros _ w'. wp_step. unfold reject_reason, wp at 1. simpl. apply Hrej.
  - intros r tok w' Hf -> _. apply find_some_iff in Hf as [Hin Hr%str_eq_true].
    apply Hyes; [|done]. by exists pt, r.
Qed.

(** The device list is answered only to the holder of a live feed token:
    with any other request, whatever the path, the reply is the one
    uniform 401 (or there is no route). *)
Theorem feed_documents_authorized (rq : ApiRequest HttpRequest) (w : World) :
  match feed_documents rq with
  | None => True
  | Some serve => wp serve (fun r _ => exists reply, r = Ok reply /\
      (reply = refuse 401 unauthorizedBody \/ holds_feed_token rq (w_db w))) w
  end.
Proof.
  assert (Hserve : forall next, (forall w', wp next (fun r _ => exists reply, r = Ok reply) w') ->
    wp (TokenMiddleware rq (fun _ => next)) (fun r _ => exists reply, r = Ok reply /\
      (reply = refuse 401 unauthorizedBody \/ holds_feed_token rq (w_db w))) w).
  { intros next Hn. apply wp_TokenMiddleware; [by eauto|]. intros r w' Hh _.
    eapply wp_mono; [apply Hn|]. intros r' _ (reply & ->). by eauto. }
  unfold feed_documents. destruct (_ || _); [|done].
  assert (Hdoc : forall ct fb pick w', wp (serve_document ct fb pick rq) (fun r _ => exists reply, r = Ok reply) w').
  { intros ct fb pick w'. unfold serve_document. wp_step. wp_step. apply wp_current; intros; [by wp_step; eauto|].
    destruct (pick _). destruct (etagMatches _ _); wp_step; eauto. }
  destruct (str_eq _ "/feed/v1/devices.txt"); [by apply Hserve, Hdoc|].
  destruct (str_eq _ "/feed/v1/devices.json"); [by apply Hserve, Hdoc|done].
Qed.
End FeedApi.
