(* ===== verification/FeedStream.v ===== *)
(** * internal/server/feed/stream.go: the stream handler and its races

    A stream is one request of GET /feed/v1/stream that the token middleware
    let through.  Its handler runs beside the handlers of the other streams,
    the broadcasts of the fan-out, the revocations of FeedService.RevokeToken,
    the shutdown and everything else the process does with the database;
    [stream_step] interleaves them, one step for each locked section of the
    hub, each statement and each frame.  A revocation is the deletion of the
    row, the collection of the token's subscribers and one cancellation after
    the other, as Hub.CloseToken does them.  A broadcast is the locked section
    that sends and collects the slow subscribers, and then one cancellation and
    one unsubscription after the other; the only caller of Hub.Broadcast,
    fanout.dispatch, holds the fan-out's mutex, so one broadcast ends before the
    next begins.

    [st_seen] is a history variable: the payloads broadcast since the stream
    subscribed.  The websocket library is the outcome of its calls: an Accept
    or a Write succeeds or fails. *)

From S2P Require Import Prelude GoLib JsonText Json Schema Integrity Effects Demo NetAddr StoreDevices StoreTokens Auth.
From S2P Require Import ServiceTokens Notify Feed Hub ApiCore FeedApi.

(** ** The causes of hub.go *)

Definition close_code (k : cause) : Z :=
  match k with
  | causeShutdown | causePingFailed => 1001
  | causeInternal => 1011
  | causeSlowConsumer => 1013
  | causeRevoked => 4001
  | causePeerGone => 0
  end.

Definition close_text (k : cause) : string :=
  match k with
  | causeShutdown => "server shutting down" | causePingFailed => "ping failed" | causeInternal => "internal error"
  | causeSlowConsumer => "slow consumer" | causeRevoked => "token revoked" | causePeerGone => "peer gone"
  end.

(** How the websocket library classifies the error of the peer-gone cause. *)
Inductive peer_error := MessageTooBig | CloseFrame | OtherReadError.

Definition closeReason (k : cause) (e : peer_error) : string :=
  if negb (close_code k =? 0) then close_text k
  else match e with
       | MessageTooBig => "read_limit" | CloseFrame => "peer_closed" | OtherReadError => "read_error"
       end.

(** pingLoop over the results of its pings ([true] is a pong in time): the
    number of pings after which it cancels the subscriber. *)
Fixpoint pingLoop (failures : nat) (pings : list bool) : option nat :=
  match pings with
  | [] => None
  | ok :: rest =>
      if ok : bool then S <$> pingLoop 0 rest
      else if Nat.leb 2 (S failures) then Some 1%nat else S <$> pingLoop (S failures) rest
  end.

(** ** One stream *)

Inductive phase :=
  | PAuthenticated                (* TokenMiddleware has called the handler *)
  | PSubscribed (s : nat)         (* before tokenStillLive *)
  | PLive (s : nat)               (* before websocket.Accept *)
  | PAccepted (s : nat)           (* before sendSnapshot *)
  | PPumping (s : nat)            (* in pump *)
  | PExiting (s : nat)            (* before closeExit *)
  | PLeaving (s : nat)            (* before the deferred unsubscribe *)
  | PDone.

Inductive ws_frame := FSnapshot (json : string) | FEvent (payload : string) | FClose (code : Z) (reason : string).

Record stream := MkStream {
  st_token : string; st_phase : phase; st_reply : option HttpReply; st_frames : list ws_frame; st_seen : list string }.

Definition in_phase (ph : phase) (st : stream) : stream :=
  MkStream (st_token st) ph (st_reply st) (st_frames st) (st_seen st).
Definition with_reply (r : HttpReply) (st : stream) : stream :=
  MkStream (st_token st) (st_phase st) (Some r) (st_frames st) (st_seen st).
Definition with_frames (l : list ws_frame) (st : stream) : stream :=
  MkStream (st_token st) (st_phase st) (st_reply st) (st_frames st ++ l) (st_seen st).

Definition phase_sub (ph : phase) : option nat :=
  match ph with
  | PAuthenticated | PDone => None
  | PSubscribed s | PLive s | PAccepted s | PPumping s | PExiting s | PLeaving s => Some s
  end.

(** Every live subscription sees the broadcast. *)
Definition see (payload : string) (st : stream) : stream :=
  match phase_sub (st_phase st) with
  | Some _ => MkStream (st_token st) (st_phase st) (st_reply st) (st_frames st) (st_seen st ++ [payload])
  | None => st
  end.

(** The broadcast under way, after its locked section: the slow subscribers
    still to be cancelled; or one that has been, still to be unsubscribed, and
    the others. *)
Inductive broadcasting :=
  | BcDropping (payload : string) (slow : list nat)
  | BcLeaving (payload : string) (s : nat) (slow : list nat).

(** A revocation of a token, after the deletion of its row. *)
Inductive revocation := RvDeleted (token : string) | RvClosing (token : string) (left : list nat) | RvClosed (token : string).

Definition rv_token (r : revocation) : string :=
  match r with RvDeleted t | RvClosing t _ | RvClosed t => t end.

Record Sys := MkSys {
  sy_world : World; sy_hub : Hub; sy_streams : gmap nat stream; sy_revocations : gmap nat revocation;
  sy_broadcast : option broadcasting }.

Definition put_stream (p : nat) (st : stream) (x : Sys) : Sys :=
  MkSys (sy_world x) (sy_hub x) (<[p := st]> (sy_streams x)) (sy_revocations x) (sy_broadcast x).
Definition put_hub (h : Hub) (x : Sys) : Sys := MkSys (sy_world x) h (sy_streams x) (sy_revocations x) (sy_broadcast x).
Definition put_world (w : World) (x : Sys) : Sys := MkSys w (sy_hub x) (sy_streams x) (sy_revocations x) (sy_broadcast x).
Definition put_revocation (r : nat) (rv : revocation) (x : Sys) : Sys :=
  MkSys (sy_world x) (sy_hub x) (sy_streams x) (<[r := rv]> (sy_revocations x)) (sy_broadcast x).
Definition put_broadcast (b : option broadcasting) (x : Sys) : Sys :=
  MkSys (sy_world x) (sy_hub x) (sy_streams x) (sy_revocations x) b.

Definition token_live (t : string) (d : DB) : Prop := exists r, r ∈ d_feed_tokens d /\ rf_id r = t.

Section Stream.
Context `{Crypto}.

(** The refusal of a subscription. *)
Definition subscribe_refusal (e : hub_error) : HttpReply :=
  refuse 503 (json_error match e with ErrShuttingDown => "shutting down" | ErrTooManyConnections => "too many streams" end).

(** [None]: the token's row is still there. *)
Definition tokenStillLive (c : ctx) (tokenID : string) : M (option HttpReply) :=
  r ← catch (FeedTokenRepo.GetByID c tokenID);
  match r with
  | inl _ => mret None
  | inr e =>
      let (reason, reply) :=
        if bool_decide (e = ErrNotFound) then ("revoked"%string, refuse 401 unauthorizedBody)
        else ("store_error"%string, refuse 503 (json_error "feed unavailable")) in
      emit (OWarn ("feed stream refused: " ++ reason));; mret (Some reply)
  end.

(** snapshotEnvelope: json.Marshal checks and compacts the raw document. *)
Definition snapshot_envelope (s : Snapshot) : option string :=
  feed ← json_compact (sn_JSON s);
  Some (json_object [ json_field "version" (format_int 1); json_field "type" (json_quote "feed.snapshot");
                      json_field "feed" feed ]).

(** sendSnapshot: the frame to write, or the failure that cancels the subscriber. *)
Definition snapshot (c : ctx) : M (option string) :=
  r ← catch (current c);
  mret match r with inl (snap, _) => snapshot_envelope snap | inr _ => None end.

(** closeExit: the close frame, when the peer is there to read it. *)
Definition close_frames (k : cause) : list ws_frame :=
  if close_code k =? 0 then [] else [FClose (close_code k) (close_text k)].

Inductive stream_step : Sys -> Sys -> Prop :=
  | ss_open x p t :
      sy_streams x !! p = None ->
      stream_step x (put_stream p (MkStream t PAuthenticated None [] []) x)
  | ss_subscribe x p st s h' :
      sy_streams x !! p = Some st -> st_phase st = PAuthenticated ->
      subscribe (st_token st) (sy_hub x) = (inl s, h') ->
      stream_step x (put_hub h' (put_stream p (in_phase (PSubscribed s) st) x))
  | ss_subscribe_refused x p st e h' :
      sy_streams x !! p = Some st -> st_phase st = PAuthenticated ->
      subscribe (st_token st) (sy_hub x) = (inr e, h') ->
      stream_step x (put_hub h' (put_stream p (with_reply (subscribe_refusal e) (in_phase PDone st)) x))
  | ss_still_live x p st s c w' :
      sy_streams x !! p = Some st -> st_phase st = PSubscribed s ->
      tokenStillLive c (st_token st) (sy_world x) = (Ok None, w') ->
      stream_step x (put_world w' (put_stream p (in_phase (PLive s) st) x))
  | ss_revoked x p st s c reply w' :
      sy_streams x !! p = Some st -> st_phase st = PSubscribed s ->
      tokenStillLive c (st_token st) (sy_world x) = (Ok (Some reply), w') ->
      stream_step x (put_world w' (put_stream p (with_reply reply (in_phase (PLeaving s) st)) x))
  | ss_accept x p st s (accepted : bool) :
      sy_streams x !! p = Some st -> st_phase st = PLive s ->
      stream_step x (put_stream p (in_phase (if accepted then PAccepted s else PLeaving s) st) x)
  | ss_snapshot x p st s c json w' :
      sy_streams x !! p = Some st -> st_phase st = PAccepted s ->
      snapshot c (sy_world x) = (Ok (Some json), w') ->
      stream_step x (put_world w' (put_stream p (in_phase (PPumping s) (with_frames [FSnapshot json] st)) x))
  | ss_snapshot_unwritten x p st s c json w' :
      sy_streams x !! p = Some st -> st_phase st = PAccepted s ->
      snapshot c (sy_world x) = (Ok (Some json), w') ->
      stream_step x (put_world w' (put_hub (cancel_at causePeerGone s (sy_hub x))
        (put_stream p (in_phase (PPumping s) st) x)))
  | ss_snapshot_failed x p st s c w' :
      sy_streams x !! p = Some st -> st_phase st = PAccepted s ->
      snapshot c (sy_world x) = (Ok None, w') ->
      stream_step x (put_world w' (put_hub (cancel_at causeInternal s (sy_hub x))
        (put_stream p (in_phase (PPumping s) st) x)))
  | ss_write x p st s payload h' :
      sy_streams x !! p = Some st -> st_phase st = PPumping s ->
      hub_recv s (sy_hub x) = (Some payload, h') ->
      stream_step x (put_hub h' (put_stream p (with_frames [FEvent payload] st) x))
  | ss_unwritten x p st s payload h' :
      sy_streams x !! p = Some st -> st_phase st = PPumping s ->
      hub_recv s (sy_hub x) = (Some payload, h') ->
      stream_step x (put_hub (cancel_at causePeerGone s h') (put_stream p (in_phase (PExiting s) st) x))
  | ss_done x p st s sub k :
      sy_streams x !! p = Some st -> st_phase st = PPumping s ->
      h_all (sy_hub x) !! s = Some sub -> sb_cause sub = Some k ->
      stream_step x (put_stream p (in_phase (PExiting s) st) x)
  | ss_exit x p st s sub k :
      sy_streams x !! p = Some st -> st_phase st = PExiting s ->
      h_all (sy_hub x) !! s = Some sub -> sb_cause sub = Some k ->
      stream_step x (put_stream p (in_phase (PLeaving s) (with_frames (close_frames k) st)) x)
  | ss_leave x p st s :
      sy_streams x !! p = Some st -> st_phase st = PLeaving s ->
      stream_step x (put_hub (unsubscribe s (sy_hub x)) (put_stream p (in_phase PDone st) x))
  (* readLoop and pingLoop of a stream *)
  | ss_peer x k s :
      k = causePeerGone \/ k = causePingFailed -> stream_step x (put_hub (cancel_at k s (sy_hub x)) x)
  (* Hub.Broadcast *)
  | ss_broadcast x payload slow :
      sy_broadcast x = None -> slow ≡ₚ overflowed (sy_hub x) ->
      stream_step x (MkSys (sy_world x) (send_all payload (sy_hub x)) (see payload <$> sy_streams x) (sy_revocations x)
        (Some (BcDropping payload slow)))
  | ss_drop x payload s slow :
      sy_broadcast x = Some (BcDropping payload (s :: slow)) ->
      stream_step x (put_hub (cancel_at causeSlowConsumer s (sy_hub x)) (put_broadcast (Some (BcLeaving payload s slow)) x))
  | ss_dropped x payload s slow :
      sy_broadcast x = Some (BcLeaving payload s slow) ->
      stream_step x (put_hub (unsubscribe s (sy_hub x)) (put_broadcast (Some (BcDropping payload slow)) x))
  | ss_broadcast_done x payload :
      sy_broadcast x = Some (BcDropping payload []) -> stream_step x (put_broadcast None x)
  | ss_shutdown x : stream_step x (put_hub (hub_cancel (sy_hub x)) x)
  (* FeedService.RevokeToken *)
  | ss_delete x r c t w' :
      sy_revocations x !! r = None ->
      FeedTokenRepo.Delete c t (sy_world x) = (Ok tt, w') ->
      stream_step x (put_world w' (put_revocation r (RvDeleted t) x))
  | ss_collect x r t l :
      sy_revocations x !! r = Some (RvDeleted t) -> l ≡ₚ token_subscribers t (sy_hub x) ->
      stream_step x (put_revocation r (RvClosing t l) x)
  | ss_cancel x r t s l :
      sy_revocations x !! r = Some (RvClosing t (s :: l)) ->
      stream_step x (put_hub (cancel_at causeRevoked s (sy_hub x)) (put_revocation r (RvClosing t l) x))
  | ss_closed x r t :
      sy_revocations x !! r = Some (RvClosing t []) ->
      stream_step x (put_revocation r (RvClosed t) x)
  (* Everything else the process does; the identifier of a deleted token is
     not issued again (uuid.NewString). *)
  | ss_other x w' :
      (forall r rv, sy_revocations x !! r = Some rv -> ~ token_live (rv_token rv) (w_db w')) ->
      stream_step x (put_world w' x).

Definition started (w : World) : Sys := MkSys w New ∅ ∅ None.
Definition runs (w : World) (x : Sys) : Prop := rtc stream_step (started w) x.
End Stream.
