(* ===== verification/FeedStreamFacts.v ===== *)
(** * The stream handler: no stream survives its token, and none has a gap

    An invariant of [stream_step] over the hub's invariant: what a stream has
    written is what was broadcast since it subscribed, minus what waits in its
    channel and what the broadcast under way dropped on it, and a stream that passed the second check of its token is found,
    and cancelled, by the revocation of that token. *)

From S2P Require Import Prelude GoLib Schema Integrity Effects Demo NetAddr StoreDevices StoreTokens Auth.
From S2P Require Import ServiceTokens Notify Feed Hub ApiCore FeedApi FeedStream.

(** ** How the hub's operations change one subscriber *)

Definition cancelled (h : Hub) (s : nat) : Prop := exists sub, h_all h !! s = Some sub /\ is_Some (sb_cause sub).

(** Nothing, or one more cancellation. *)
Definition evolves (o o' : option subscriber) : Prop := o' = o \/ exists k, o' = cancel_sub k <$> o.

(** Subscribers stay, and stay cancelled. *)
Definition more_cancelled (h h' : Hub) : Prop := forall s,
  (is_Some (h_all h !! s) -> is_Some (h_all h' !! s)) /\ (cancelled h s -> cancelled h' s).

Lemma evolves_cancelled h h' : (forall s, evolves (h_all h !! s) (h_all h' !! s)) -> more_cancelled h h'.
Proof.
  intros He s. unfold cancelled. destruct (He s) as [->|(k & ->)]; [done|]. split; [intros [sub ->]; eauto|].
  intros (sub & -> & Hc). simpl. eexists. split; [done|]. simpl. destruct (sb_cause sub); eauto.
Qed.

Lemma cancel_at_evolves k s h x : evolves (h_all h !! x) (h_all (cancel_at k s h) !! x).
Proof.
  simpl. destruct (decide (x = s)) as [->|Hne].
  - rewrite lookup_alter_eq. right. by exists k.
  - rewrite lookup_alter_ne by done. by left.
Qed.

Lemma hub_cancel_evolves h x : evolves (h_all h !! x) (h_all (hub_cancel h) !! x).
Proof.
  unfold hub_cancel. destruct (h_cause h); [by left|]. simpl. rewrite lookup_fmap. right. by eexists.
Qed.

Lemma subscribe_ok_iff t h s h' :
  hub_ok h -> subscribe t h = (inl s, h') ->
  h_all h !! s = None /\ h_all h' = <[s := MkSub t [] None false]> (h_all h).
Proof.
  intros Hh. unfold subscribe. case_bool_decide; [done|]. destruct (Nat.leb _ _); [done|].
  intros [= <- <-]. split; [|done]. by apply (ho_fresh _ Hh).
Qed.

Lemma subscribe_refused t h e h' : subscribe t h = (inr e, h') -> h' = h.
Proof. unfold subscribe. case_bool_decide; [congruence|]. destruct (Nat.leb _ _); [congruence|done]. Qed.

Lemma hub_recv_Some s h p h' :
  hub_recv s h = (Some p, h') -> exists sub rest,
    h_all h !! s = Some sub /\ sb_ch sub = p :: rest /\
    h_all h' = <[s := MkSub (sb_token sub) rest (sb_cause sub) (sb_once sub)]> (h_all h).
Proof.
  unfold hub_recv. destruct (h_all h !! s) as [sub|] eqn:Hs; [|done].
  destruct (sb_ch sub) as [|q rest] eqn:Hch; [done|]. intros [= <- <-]. by exists sub, rest.
Qed.

Lemma send_all_cases p h s sub :
  hub_ok h -> h_all h !! s = Some sub -> exists sub',
    h_all (send_all p h) !! s = Some sub' /\ sb_token sub' = sb_token sub /\
    sb_cause sub' = sb_cause sub /\ sb_once sub' = sb_once sub /\
    (sb_once sub = false -> (s ∈ overflowed h /\ sb_ch sub' = sb_ch sub) \/
       (s ∉ overflowed h /\ sb_ch sub' = sb_ch sub ++ [p])) /\
    (sb_once sub = true -> sb_ch sub' = sb_ch sub).
Proof.
  intros Hh Hs. rewrite send_all_lookup, Hs. pose proof (overflowed_iff h s sub Hs) as Ho.
  assert (Hreg : s ∈ h_subs h <-> sb_once sub = false).
  { rewrite (ho_reg _ Hh s), Hs. naive_solver. }
  exists (push p (h_subs h) s sub). split; [done|]. unfold push.
  case_bool_decide as Hin; simpl.
  - apply Hreg in Hin as Hon. destruct (full sub) eqn:Hf; simpl; rewrite Hon; naive_solver.
  - assert (sb_once sub = true) as Hon by (destruct (sb_once sub); naive_solver). rewrite Hon. naive_solver.
Qed.

Lemma send_all_cancelled p h : hub_ok h -> more_cancelled h (send_all p h).
Proof.
  intros Hh s. split.
  - intros [sub Hs]. rewrite send_all_lookup, Hs. eauto.
  - intros (sub & Hs & Hc). destruct (send_all_cases p h s sub Hh Hs) as (sub' & Hs' & _ & Hc' & _).
    exists sub'. by rewrite Hc'.
Qed.

Lemma unsubscribe_cancelled s h : more_cancelled h (unsubscribe s h).
Proof.
  intros x. unfold cancelled. destruct (decide (x = s)) as [->|Hne].
  - unfold unsubscribe. destruct (h_all h !! s) as [sub|] eqn:Hx; [|by rewrite Hx].
    destruct (sb_once sub) eqn:Ho; [by rewrite Hx|]. simpl. rewrite lookup_insert_eq. split; [eauto|].
    intros (sub' & [= <-] & Hc). eexists. by split.
  - by rewrite unsubscribe_other.
Qed.

(** ** What a stream has written *)

Definition events (l : list ws_frame) : list string :=
  omap (fun f => match f with FEvent p => Some p | _ => None end) l.

(** The subscribers that the broadcast under way could not send to, and that it
    has not unsubscribed yet. *)
Definition dropping (b : option broadcasting) : list nat :=
  match b with None => [] | Some (BcDropping _ l) => l | Some (BcLeaving _ s l) => s :: l end.

(** What they miss. *)
Definition missed (b : option broadcasting) (s : nat) : list string :=
  match b with
  | Some (BcDropping p _) | Some (BcLeaving p _ _) => if decide (s ∈ dropping b) then [p] else []
  | None => []
  end.

Lemma missed_cases b s : missed b s = [] \/ s ∈ dropping b /\ exists p, missed b s = [p].
Proof. destruct b as [[p l|p q l]|]; simpl; [case_decide; eauto..|by left]. Qed.

Definition in_step (m : list string) (st : stream) (sub : subscriber) : Prop :=
  (sb_once sub = false -> events (st_frames st) ++ sb_ch sub ++ m = st_seen st) /\
  (events (st_frames st) ++ sb_ch sub) `prefix_of` st_seen st.

(** The snapshot, then events. *)
Definition opened (st : stream) : Prop := exists json l, st_frames st = FSnapshot json :: (FEvent <$> l).

Definition flow (m : list string) (st : stream) (sub : subscriber) : Prop :=
  match st_phase st with
  | PSubscribed _ | PLive _ | PAccepted _ => st_frames st = [] /\ in_step m st sub
  | PPumping _ => in_step m st sub /\ (sb_cause sub = None -> opened st)
  | PExiting _ => events (st_frames st) `prefix_of` st_seen st /\ is_Some (sb_cause sub)
  | _ => events (st_frames st) `prefix_of` st_seen st
  end.

Definition stream_ok (b : option broadcasting) (h : Hub) (st : stream) : Prop :=
  match phase_sub (st_phase st) with
  | None => events (st_frames st) `prefix_of` st_seen st /\
      (st_phase st = PAuthenticated -> st_frames st = [] /\ st_seen st = [])
  | Some s => exists sub, h_all h !! s = Some sub /\ sb_token sub = st_token st /\
      (sb_once sub = true -> is_Some (sb_cause sub)) /\ flow (missed b s) st sub
  end.

(** Past the second check of the token. *)
Definition passed (ph : phase) : option nat :=
  match ph with PLive s | PAccepted s | PPumping s | PExiting s => Some s | _ => None end.

Lemma passed_sub ph s : passed ph = Some s -> phase_sub ph = Some s.
Proof. by destruct ph. Qed.

Definition revoked_ok (h : Hub) (rv : revocation) (s : nat) : Prop :=
  match rv with
  | RvDeleted _ => True
  | RvClosing _ l => s ∈ l \/ cancelled h s
  | RvClosed _ => cancelled h s
  end.

(** The subscribers of the broadcast under way exist, and the one about to be
    unsubscribed is cancelled. *)
Definition broadcast_ok (b : option broadcasting) (h : Hub) : Prop :=
  (forall s, s ∈ dropping b -> is_Some (h_all h !! s)) /\
  (forall p s l, b = Some (BcLeaving p s l) -> cancelled h s).

Record sys_ok (x : Sys) : Prop := {
  so_hub : hub_ok (sy_hub x);
  so_broadcast : broadcast_ok (sy_broadcast x) (sy_hub x);
  so_streams : forall p st, sy_streams x !! p = Some st -> stream_ok (sy_broadcast x) (sy_hub x) st;
  so_distinct : forall p q st st' s, sy_streams x !! p = Some st -> sy_streams x !! q = Some st' ->
    phase_sub (st_phase st) = Some s -> phase_sub (st_phase st') = Some s -> p = q;
  so_gone : forall r rv, sy_revocations x !! r = Some rv -> ~ token_live (rv_token rv) (w_db (sy_world x));
  so_revoked : forall r rv p st s, sy_revocations x !! r = Some rv -> sy_streams x !! p = Some st ->
    rv_token rv = st_token st -> passed (st_phase st) = Some s -> revoked_ok (sy_hub x) rv s }.

Lemma broadcast_ok_mono b h h' : more_cancelled h h' -> broadcast_ok b h -> broadcast_ok b h'.
Proof.
  intros Hm [Hd Hl]. split.
  - intros s Hs. by apply Hm, Hd.
  - intros p s l Hb. eapply Hm, Hl, Hb.
Qed.

Lemma stream_ok_sub b h st s : stream_ok b h st -> phase_sub (st_phase st) = Some s ->
  exists sub, h_all h !! s = Some sub /\ sb_token sub = st_token st /\
    (sb_once sub = true -> is_Some (sb_cause sub)) /\ flow (missed b s) st sub.
Proof. unfold stream_ok. intros Hst Hs. by rewrite Hs in Hst. Qed.

Lemma stream_ok_evolves b h h' st :
  (forall s, phase_sub (st_phase st) = Some s -> evolves (h_all h !! s) (h_all h' !! s)) ->
  stream_ok b h st -> stream_ok b h' st.
Proof.
  unfold stream_ok. destruct (phase_sub (st_phase st)) as [s|]; [|done].
  intros He (sub & Hs & Ht & Ho & Hf). destruct (He s eq_refl) as [->|(k & ->)]; [by exists sub|].
  rewrite Hs. exists (cancel_sub k sub). split; [done|]. split; [done|]. split; [|].
  - simpl. intros Hon. destruct (Ho Hon) as [c ->]. eauto.
  - unfold flow, in_step in *. destruct (st_phase st); simpl; try done.
    + destruct Hf as [Hi Hopen]. split; [done|]. by destruct (sb_cause sub).
    + destruct Hf as [Hp [c Hc]]. by rewrite Hc.
Qed.

Lemma revoked_ok_mono h h' rv s : more_cancelled h h' -> revoked_ok h rv s -> revoked_ok h' rv s.
Proof.
  intros Hm. destruct (Hm s) as [_ Hc]. destruct rv; simpl; naive_solver.
Qed.

(** ** One step *)

(** A step of one stream's handler. *)
Lemma sys_ok_stream x p st st' h' w' :
  sys_ok x -> sy_streams x !! p = Some st -> hub_ok h' -> w_db w' = w_db (sy_world x) ->
  st_token st' = st_token st ->
  (forall s q stq, phase_sub (st_phase st') = Some s -> q <> p -> sy_streams x !! q = Some stq ->
     phase_sub (st_phase stq) <> Some s) ->
  stream_ok (sy_broadcast x) h' st' ->
  (forall s q stq, q <> p -> sy_streams x !! q = Some stq -> phase_sub (st_phase stq) = Some s ->
     evolves (h_all (sy_hub x) !! s) (h_all h' !! s)) ->
  more_cancelled (sy_hub x) h' ->
  (forall s, passed (st_phase st') = Some s -> passed (st_phase st) = Some s \/
     forall r rv, sy_revocations x !! r = Some rv -> rv_token rv <> st_token st) ->
  sys_ok (MkSys w' h' (<[p := st']> (sy_streams x)) (sy_revocations x) (sy_broadcast x)).
Proof.
  intros [Hh Hbc Hs Hd Hg Hr] Hp Hh' Hw Ht Hfresh Hok Hev Hm Hpass.
  split; simpl; [done|by eapply broadcast_ok_mono|..].
  - intros q stq [[<- <-]|[Hne Hq]]%lookup_insert_Some; [done|].
    eapply stream_ok_evolves; [|by eapply Hs]. eauto.
  - intros q1 q2 s1 s2 s [[<- <-]|[Hne1 Hq1]]%lookup_insert_Some [[<- <-]|[Hne2 Hq2]]%lookup_insert_Some H1 H2; try done.
    + by destruct (Hfresh s q2 s2).
    + by destruct (Hfresh s q1 s1).
    + by eapply Hd.
  - rewrite Hw. apply Hg.
  - intros r rv q stq s Hrv [[<- <-]|[Hne Hq]]%lookup_insert_Some Htok Hps.
    + destruct (Hpass s Hps) as [Hps'|Hno]; [|destruct (Hno r rv Hrv); congruence].
      eapply revoked_ok_mono; [done|]. eapply Hr; [done..| |done]. congruence.
    + eapply revoked_ok_mono; [done|]. by eapply Hr.
Qed.

(** The handler moves on with the subscriber it has. *)
Lemma old_sub x p st s : sys_ok x -> sy_streams x !! p = Some st -> phase_sub (st_phase st) = Some s ->
  forall q stq, q <> p -> sy_streams x !! q = Some stq -> phase_sub (st_phase stq) <> Some s.
Proof. intros Hx Hp Hs q stq Hne Hq Hs'. destruct Hne. by eapply (so_distinct _ Hx). Qed.

Lemma sys_ok_hub x h' :
  sys_ok x -> hub_ok h' -> (forall s, evolves (h_all (sy_hub x) !! s) (h_all h' !! s)) -> sys_ok (put_hub h' x).
Proof.
  intros [Hh Hbc Hs Hd Hg Hr] Hh' Hev. split; simpl; try done.
  - by eapply broadcast_ok_mono; [apply evolves_cancelled|].
  - intros p st Hp. eapply stream_ok_evolves; [by intros; apply Hev|by eapply Hs].
  - intros r rv p st s Hrv Hp Ht Hps. eapply revoked_ok_mono; [by apply evolves_cancelled|]. by eapply Hr.
Qed.

Lemma see_phase payload st : st_phase (see payload st) = st_phase st.
Proof. unfold see. by destruct (phase_sub (st_phase st)). Qed.
Lemma see_token payload st : st_token (see payload st) = st_token st.
Proof. unfold see. by destruct (phase_sub (st_phase st)). Qed.

(** The locked section of a broadcast keeps a stream in step: what it could not
    send is what the stream misses. *)
Lemma in_step_send payload slow h s st sub sub' :
  (forall x, x ∈ slow <-> x ∈ overflowed h) -> phase_sub (st_phase st) = Some s ->
  sb_once sub' = sb_once sub ->
  (sb_once sub = false -> (s ∈ overflowed h /\ sb_ch sub' = sb_ch sub) \/
     (s ∉ overflowed h /\ sb_ch sub' = sb_ch sub ++ [payload])) ->
  (sb_once sub = true -> sb_ch sub' = sb_ch sub) ->
  in_step [] st sub -> in_step (missed (Some (BcDropping payload slow)) s) (see payload st) sub'.
Proof.
  intros Hslow Hs Ho Hf Ht [He Hp]. unfold see. rewrite Hs. unfold in_step, missed. simpl. rewrite Ho.
  destruct (sb_once sub) eqn:Hon.
  - split; [done|]. rewrite (Ht eq_refl). etrans; [exact Hp|]. by apply prefix_app_r.
  - specialize (He eq_refl). rewrite app_nil_r in He.
    destruct (Hf eq_refl) as [[Hin ->]|[Hni ->]].
    + rewrite decide_True by (by apply Hslow). rewrite app_assoc, He. split; [done|by apply prefix_app_r].
    + rewrite decide_False by (by rewrite Hslow). by rewrite app_nil_r, app_assoc, He.
Qed.

Lemma stream_ok_send payload slow h st : hub_ok h -> (forall x, x ∈ slow <-> x ∈ overflowed h) ->
  stream_ok None h st -> stream_ok (Some (BcDropping payload slow)) (send_all payload h) (see payload st).
Proof.
  intros Hh Hslow. unfold stream_ok. rewrite see_phase, see_token. destruct (phase_sub (st_phase st)) as [s|] eqn:Hs.
  - intros (sub & Hl & Ht & Ho & Hf).
    destruct (send_all_cases payload h s sub Hh Hl) as (sub' & Hl' & Ht' & Hc & Hon & Hch1 & Hch2).
    exists sub'. split; [done|]. split; [congruence|]. split; [by rewrite Hc, Hon|].
    assert (Hin : in_step [] st sub -> in_step (missed (Some (BcDropping payload slow)) s) (see payload st) sub')
      by (intros; by eapply in_step_send).
    assert (Hfr : st_frames (see payload st) = st_frames st) by (unfold see; by rewrite Hs).
    assert (Hse : st_seen (see payload st) = st_seen st ++ [payload]) by (unfold see; by rewrite Hs).
    unfold flow, opened in *. rewrite see_phase, Hfr, Hse, Hc. cbn [missed] in Hf.
    destruct (st_phase st); try (by apply prefix_app_r).
    1-3: by destruct Hf as [Hnil Hi]; split; [done|apply Hin].
    + destruct Hf as [Hi Hopen]. split; [by apply Hin|done].
    + destruct Hf as [Hp Hsome]. split; [by apply prefix_app_r|done].
  - unfold see. by rewrite Hs.
Qed.

(** Another stage of the broadcast, for a stream whose subscriber is registered
    and misses the same, or is not registered any more. *)
Lemma stream_ok_stage b b' h st :
  (forall s sub, phase_sub (st_phase st) = Some s -> h_all h !! s = Some sub -> sb_once sub = false ->
     missed b' s = missed b s) ->
  stream_ok b h st -> stream_ok b' h st.
Proof.
  unfold stream_ok. intros Hm. destruct (phase_sub (st_phase st)) as [s|] eqn:Hs; [|done].
  intros (sub & Hl & Ht & Ho & Hf). exists sub. split_and!; try done.
  assert (Hi : in_step (missed b s) st sub -> in_step (missed b' s) st sub).
  { intros [He Hp]. split; [|done]. intros Hon. by rewrite (Hm s sub eq_refl Hl Hon), He. }
  unfold flow in *. destruct (st_phase st); try done; split; try apply Hi; by destruct Hf.
Qed.

(** Unsubscribing a cancelled subscriber. *)
Lemma stream_ok_unsubscribe b h s st : cancelled h s -> stream_ok b h st -> stream_ok b (unsubscribe s h) st.
Proof.
  intros (sub0 & Hs0 & Hc). unfold stream_ok. destruct (phase_sub (st_phase st)) as [x|] eqn:Hx; [|done].
  intros (sub & Hl & Ht & Ho & Hf). destruct (decide (x = s)) as [->|Hne].
  - assert (sub0 = sub) as -> by congruence. destruct (sb_once sub) eqn:Hon.
    { exists sub. split_and!; try done. unfold unsubscribe. by rewrite Hl, Hon. }
    eexists. split; [by apply unsubscribe_self|]. split_and!; try done.
    unfold flow, in_step in *. simpl. destruct (st_phase st); try done; naive_solver.
  - exists sub. split_and!; try done. by rewrite unsubscribe_other.
Qed.

Section Facts.
Context `{Crypto}.
#[local] Notation step := stream_step.

Lemma tokenStillLive_db c t w r w' : tokenStillLive c t w = (r, w') -> w_db w' = w_db w.
Proof.
  intros Hr. assert (Hi : inert (tokenStillLive c t)).
  { unfold tokenStillLive, FeedTokenRepo.GetByID. solve_inert. }
  destruct (Hi w) as [Hd _]. by rewrite Hr in Hd.
Qed.

Lemma tokenStillLive_live c t w w' : tokenStillLive c t w = (Ok None, w') -> token_live t (w_db w).
Proof.
  intros Hr. assert (Hw : wp (tokenStillLive c t) (fun r _ => r = Ok None -> token_live t (w_db w)) w).
  { unfold tokenStillLive, FeedTokenRepo.GetByID. wp_step. wp_step. apply wp_get_one.
    - intros. done.
    - intros _ ?. done.
    - intros row [Hin Hid]%find_some_iff. wp_step. intros _. apply str_eq_true in Hid. by exists row. }
  unfold wp in Hw. rewrite Hr in Hw. by apply Hw.
Qed.

Lemma snapshot_db c w r w' : snapshot c w = (r, w') -> w_db w' = w_db w.
Proof.
  intros Hr. assert (Hi : inert (snapshot c)).
  { unfold FeedStream.snapshot, current, DeviceRepo.ListFeed, FeedStateRepo.Get. solve_inert. }
  destruct (Hi w) as [Hd _]. by rewrite Hr in Hd.
Qed.

Lemma Delete_gone c t w w' : FeedTokenRepo.Delete c t w = (Ok tt, w') ->
  ~ token_live t (w_db w') /\ forall t', token_live t' (w_db w') -> token_live t' (w_db w).
Proof.
  intros Hr. assert (Hw : wp (FeedTokenRepo.Delete c t) (fun r w' => r = Ok tt ->
    ~ token_live t (w_db w') /\ forall t', token_live t' (w_db w') -> token_live t' (w_db w)) w).
  { unfold FeedTokenRepo.Delete. wp_step. wp_step; [done|]. apply wp_requireMatched; [done|done|].
    intros _ _. simpl. unfold token_live. simpl. split.
    - intros (row & [Hin Hne]%elem_of_rows_delete & <-). by rewrite str_eq_refl in Hne.
    - intros t' (row & [Hin _]%elem_of_rows_delete & Hid). by exists row. }
  unfold wp in Hw. rewrite Hr in Hw. by apply Hw.
Qed.

(** A stream's handler moves on with the same hub. *)
Lemma sys_ok_move x p st s st' w' :
  sys_ok x -> sy_streams x !! p = Some st -> phase_sub (st_phase st) = Some s ->
  w_db w' = w_db (sy_world x) -> st_token st' = st_token st ->
  phase_sub (st_phase st') = Some s -> stream_ok (sy_broadcast x) (sy_hub x) st' ->
  (passed (st_phase st') = Some s -> passed (st_phase st) = Some s \/
     forall r rv, sy_revocations x !! r = Some rv -> rv_token rv <> st_token st) ->
  sys_ok (MkSys w' (sy_hub x) (<[p := st']> (sy_streams x)) (sy_revocations x) (sy_broadcast x)).
Proof.
  intros Hx Hp Hs Hw Ht Hs' Hok Hpass. eapply sys_ok_stream; try done.
  - apply Hx.
  - intros s1 q stq Hs1 Hne Hq. apply (old_sub x p st s1 Hx Hp) with q; [congruence|done|done].
  - intros. by left.
  - intros s1 Hs1. pose proof (passed_sub _ _ Hs1). assert (s1 = s) as -> by congruence. by apply Hpass.
Qed.

(** The same, with a change of the handler's own subscriber. *)
Lemma sys_ok_move_hub x p st s st' h' w' :
  sys_ok x -> sy_streams x !! p = Some st -> phase_sub (st_phase st) = Some s ->
  hub_ok h' -> (forall q, q <> s -> h_all h' !! q = h_all (sy_hub x) !! q) -> more_cancelled (sy_hub x) h' ->
  w_db w' = w_db (sy_world x) -> st_token st' = st_token st ->
  (phase_sub (st_phase st') = Some s \/ phase_sub (st_phase st') = None) -> stream_ok (sy_broadcast x) h' st' ->
  (passed (st_phase st') = Some s -> passed (st_phase st) = Some s) ->
  sys_ok (MkSys w' h' (<[p := st']> (sy_streams x)) (sy_revocations x) (sy_broadcast x)).
Proof.
  intros Hx Hp Hs Hh' Hother Hm Hw Ht Hs' Hok Hpass. eapply sys_ok_stream; try done.
  - intros s1 q stq Hs1 Hne Hq. apply (old_sub x p st s1 Hx Hp) with q; [destruct Hs'; congruence|done|done].
  - intros s1 q stq Hne Hq Hs1. left. apply Hother. intros Heq. subst s1. by apply (old_sub x p st s Hx Hp Hs q stq Hne Hq).
  - intros s1 Hs1. left. pose proof (passed_sub _ _ Hs1). assert (s1 = s) as -> by (destruct Hs'; congruence).
    by apply Hpass.
Qed.

Lemma cancel_at_other k s h q : q <> s -> h_all (cancel_at k s h) !! q = h_all h !! q.
Proof. intros Hne. simpl. by rewrite lookup_alter_ne. Qed.

Lemma cancel_at_self k s h sub : h_all h !! s = Some sub -> h_all (cancel_at k s h) !! s = Some (cancel_sub k sub).
Proof. intros Hs. simpl. by rewrite lookup_alter_eq, Hs. Qed.

Lemma recv_ok s h p h' : hub_ok h -> hub_recv s h = (Some p, h') -> hub_ok h' /\ more_cancelled h h'.
Proof.
  intros Hh Hr. split; [pose proof (hub_recv_ok s h Hh) as Ho; by rewrite Hr in Ho|].
  apply hub_recv_Some in Hr as (sub & rest & Hs & _ & Hall). intros q. unfold cancelled. rewrite Hall.
  destruct (decide (q = s)) as [->|Hne]; [|by rewrite lookup_insert_ne].
  rewrite lookup_insert_eq, Hs. split; [eauto|]. intros (subq & [= <-] & Hc). eexists. by split.
Qed.

Lemma events_event l p : events (l ++ [FEvent p]) = events l ++ [p].
Proof. unfold events. by rewrite omap_app. Qed.
Lemma events_close l k : events (l ++ close_frames k) = events l.
Proof. unfold events, close_frames. rewrite omap_app. destruct (_ =? 0); simpl; by rewrite app_nil_r. Qed.

Ltac sub_of Hx Hp Hph sub Hl Hf :=
  let Hst := fresh in
  pose proof (so_streams _ Hx _ _ Hp) as Hst;
  eapply stream_ok_sub in Hst as (sub & Hl & ? & ? & Hf); [|by rewrite Hph];
  unfold flow in Hf; rewrite Hph in Hf.

Ltac hub_side Hx := first [apply cancel_at_ok | apply unsubscribe_ok]; apply (so_hub _ Hx).

Lemma phase_sub_of st ph s : st_phase st = ph -> phase_sub ph = Some s -> phase_sub (st_phase st) = Some s.
Proof. by intros ->. Qed.

Ltac sys := unfold put_world, put_hub, put_stream, put_revocation, put_broadcast;
  cbn [sy_world sy_hub sy_streams sy_revocations sy_broadcast].

Lemma subscribed_ok x p st s h' :
  sys_ok x -> sy_streams x !! p = Some st -> st_phase st = PAuthenticated ->
  subscribe (st_token st) (sy_hub x) = (inl s, h') ->
  sys_ok (put_hub h' (put_stream p (in_phase (PSubscribed s) st) x)).
Proof.
  intros Hx Hp Hph Hsub. pose proof (subscribe_ok_iff _ _ _ _ (so_hub _ Hx) Hsub) as [Hnone Hall].
  pose proof (so_streams _ Hx _ _ Hp) as Hok. unfold stream_ok in Hok. rewrite Hph in Hok.
  destruct Hok as [_ Hnil]. destruct (Hnil eq_refl) as [Hfr Hse].
  assert (Hother : forall q, q <> s -> h_all h' !! q = h_all (sy_hub x) !! q).
  { intros q Hne. by rewrite Hall, lookup_insert_ne. }
  assert (Hown : forall q stq s1, sy_streams x !! q = Some stq -> phase_sub (st_phase stq) = Some s1 -> s1 <> s).
  { intros q stq s1 Hq Hs1 ->. pose proof (so_streams _ Hx _ _ Hq) as Hst.
    eapply stream_ok_sub in Hst as (sub & Hl & _); [|done]. congruence. }
  sys; eapply sys_ok_stream; try done.
  - pose proof (subscribe_ok (st_token st) _ (so_hub _ Hx)) as Hh'. by rewrite Hsub in Hh'.
  - intros s1 q stq Hs1 _ Hq Hs2. simpl in Hs1. injection Hs1 as <-. by destruct (Hown q stq s).
  - exists (MkSub (st_token st) [] None false). rewrite Hall, lookup_insert_eq.
    assert (Hm : missed (sy_broadcast x) s = []).
    { unfold missed. destruct (sy_broadcast x) as [[? l|? q l]|] eqn:Hb; [..|done]; (rewrite decide_False; [done|]);
        intros Hin; destruct (proj1 (so_broadcast _ Hx) s) as [? ?]; rewrite ?Hb; try done; congruence. }
    unfold flow, in_step. simpl. rewrite Hfr, Hse, Hm. by split_and!.
  - intros s1 q stq _ Hq Hs1. left. apply Hother. by eapply Hown.
  - intros s1. unfold cancelled. destruct (decide (s1 = s)) as [->|Hne].
    + rewrite Hnone. split; [by intros []|by intros (? & ? & _)].
    + by rewrite Hother.
Qed.

Lemma refused_ok x p st e h' :
  sys_ok x -> sy_streams x !! p = Some st -> st_phase st = PAuthenticated ->
  subscribe (st_token st) (sy_hub x) = (inr e, h') ->
  sys_ok (put_hub h' (put_stream p (with_reply (subscribe_refusal e) (in_phase PDone st)) x)).
Proof.
  intros Hx Hp Hph ->%subscribe_refused. pose proof (so_streams _ Hx _ _ Hp) as Hok.
  unfold stream_ok in Hok. rewrite Hph in Hok. destruct Hok as [Hpre _].
  sys; eapply sys_ok_stream; try done.
  - apply Hx.
  - intros. by left.
Qed.

(** tokenStillLive and Accept. *)
Lemma checked_ok x p st s ph w' :
  sys_ok x -> sy_streams x !! p = Some st ->
  st_phase st = PSubscribed s \/ st_phase st = PLive s -> ph = PLive s \/ ph = PAccepted s \/ ph = PLeaving s ->
  w_db w' = w_db (sy_world x) ->
  (st_phase st = PSubscribed s -> ph = PLive s -> token_live (st_token st) (w_db (sy_world x))) ->
  (st_phase st = PSubscribed s -> ph <> PAccepted s) ->
  forall reply, sys_ok (MkSys w' (sy_hub x)
    (<[p := MkStream (st_token st) ph reply (st_frames st) (st_seen st)]> (sy_streams x)) (sy_revocations x) (sy_broadcast x)).
Proof.
  intros Hx Hp Hph Hph' Hw Hlive Hna reply.
  assert (Hs : phase_sub (st_phase st) = Some s) by (destruct Hph as [-> | ->]; done).
  pose proof (so_streams _ Hx _ _ Hp) as Hst. eapply stream_ok_sub in Hst as (sub & Hl & Ht & Ho & Hf); [|done].
  assert (Hin : st_frames st = [] /\ in_step (missed (sy_broadcast x) s) st sub) by (unfold flow in Hf; destruct Hph as [E|E]; by rewrite E in Hf).
  eapply sys_ok_move; try done.
  - by destruct Hph' as [->|[->| ->]].
  - destruct Hin as [Hnil Hin]. unfold stream_ok.
    assert (Hsome : phase_sub ph = Some s) by (by destruct Hph' as [->|[->| ->]]). simpl. rewrite Hsome.
    exists sub. split_and!; try done.
    destruct Hph' as [->|[->| ->]]; unfold flow; simpl; try (split; [done|exact Hin]).
    rewrite Hnil. apply prefix_nil.
  - simpl. intros Hpass. destruct Hph as [E|E]; [|left; by rewrite E].
    destruct Hph' as [->|[->| ->]]; [|by destruct (Hna E)|done].
    right. intros r rv Hr Htok. destruct (so_gone _ Hx r rv Hr). rewrite Htok. by apply Hlive.
Qed.

(** sendSnapshot, after which the handler pumps whatever happened. *)
Lemma snapshot_ok x p st s w' json k :
  sys_ok x -> sy_streams x !! p = Some st -> st_phase st = PAccepted s -> w_db w' = w_db (sy_world x) ->
  sys_ok (put_world w' (put_stream p (in_phase (PPumping s) (with_frames [FSnapshot json] st)) x)) /\
  sys_ok (put_world w' (put_hub (cancel_at k s (sy_hub x)) (put_stream p (in_phase (PPumping s) st) x))).
Proof.
  intros Hx Hp Hph Hw. sub_of Hx Hp Hph sub Hl Hf. destruct Hf as [Hnil Hin]. split.
  - sys; eapply (sys_ok_move x p st s); try done; [by rewrite Hph| |intros; by rewrite Hph; left].
    exists sub. split_and!; try done. split.
    + unfold in_step in *. simpl. by rewrite Hnil in *.
    + intros _. exists json, []. simpl. by rewrite Hnil.
  - sys; eapply (sys_ok_move_hub x p st s); try done.
    + by rewrite Hph.
    + apply cancel_at_ok, Hx.
    + intros q. apply cancel_at_other.
    + apply evolves_cancelled. intros q. apply cancel_at_evolves.
    + by left.
    + exists (cancel_sub k sub). split_and!; try done.
      * by apply cancel_at_self.
      * simpl. by destruct (sb_cause sub).
      * split; [exact Hin|]. simpl. by destruct (sb_cause sub).
    + by rewrite Hph.
Qed.

(** A payload taken from the channel and written, or not. *)
Lemma pumped_ok x p st s payload h' :
  sys_ok x -> sy_streams x !! p = Some st -> st_phase st = PPumping s ->
  hub_recv s (sy_hub x) = (Some payload, h') ->
  sys_ok (put_hub h' (put_stream p (with_frames [FEvent payload] st) x)) /\
  sys_ok (put_hub (cancel_at causePeerGone s h') (put_stream p (in_phase (PExiting s) st) x)).
Proof.
  intros Hx Hp Hph Hrecv. sub_of Hx Hp Hph sub Hl Hf. destruct Hf as [[He Hpre] Hopen].
  destruct (recv_ok _ _ _ _ (so_hub _ Hx) Hrecv) as [Hh' Hm].
  apply hub_recv_Some in Hrecv as (sub' & rest & Hl' & Hch & Hall). assert (sub' = sub) as -> by congruence.
  assert (Hself : h_all h' !! s = Some (MkSub (sb_token sub) rest (sb_cause sub) (sb_once sub)))
    by (by rewrite Hall, lookup_insert_eq).
  sys; split; eapply (sys_ok_move_hub x p st s); try done; try (by rewrite Hph); try (by left).
  - intros q Hne. by rewrite Hall, lookup_insert_ne.
  - simpl. left. by rewrite Hph.
  - unfold stream_ok. simpl. rewrite Hph. simpl. eexists. split; [exact Hself|]. split_and!; try done.
    unfold flow. simpl. rewrite Hph. unfold in_step. simpl. rewrite events_event, <- !app_assoc. simpl.
    rewrite app_comm_cons, <- Hch. split_and!; try done. intros Hnone. destruct (Hopen Hnone) as (json & l & Hfr). exists json, (l ++ [payload]).
    simpl. by rewrite Hfr, fmap_app.
  - by apply cancel_at_ok.
  - intros q Hne. rewrite cancel_at_other by done. by rewrite Hall, lookup_insert_ne.
  - intros q. destruct (Hm q) as [Hm1 Hm2].
    destruct (evolves_cancelled h' (cancel_at causePeerGone s h') (cancel_at_evolves _ _ _) q) as [Hc1 Hc2]. auto.
  - eexists. split; [by apply cancel_at_self|]. split_and!; try done.
    + simpl. intros _. by destruct (sb_cause sub).
    + split; [|simpl; by destruct (sb_cause sub)]. simpl. etrans; [|exact Hpre]. by apply prefix_app_r.
Qed.

(** The end of a stream. *)
Lemma done_ok x p st s sub k :
  sys_ok x -> sy_streams x !! p = Some st -> st_phase st = PPumping s ->
  h_all (sy_hub x) !! s = Some sub -> sb_cause sub = Some k ->
  sys_ok (put_stream p (in_phase (PExiting s) st) x).
Proof.
  intros Hx Hp Hph Hs Hc. sub_of Hx Hp Hph sub' Hl Hf. destruct Hf as [[_ Hpre] _].
  sys; eapply (sys_ok_move x p st s); try done; [by rewrite Hph| |intros; left; by rewrite Hph].
  exists sub'. split_and!; try done. split; [|simplify_eq; by rewrite Hc].
  simpl. etrans; [|exact Hpre]. by apply prefix_app_r.
Qed.

Lemma exit_ok x p st s k :
  sys_ok x -> sy_streams x !! p = Some st -> st_phase st = PExiting s ->
  sys_ok (put_stream p (in_phase (PLeaving s) (with_frames (close_frames k) st)) x).
Proof.
  intros Hx Hp Hph. sub_of Hx Hp Hph sub Hl Hf. destruct Hf as [Hpre _].
  sys; eapply (sys_ok_move x p st s); try done; [by rewrite Hph|].
  exists sub. split_and!; try done. unfold flow. simpl. by rewrite events_close.
Qed.

Lemma leave_ok x p st s :
  sys_ok x -> sy_streams x !! p = Some st -> st_phase st = PLeaving s ->
  sys_ok (put_hub (unsubscribe s (sy_hub x)) (put_stream p (in_phase PDone st) x)).
Proof.
  intros Hx Hp Hph. sub_of Hx Hp Hph sub Hl Hf. sys; eapply (sys_ok_move_hub x p st s); try done.
  - by rewrite Hph.
  - apply unsubscribe_ok, Hx.
  - intros q Hne. by apply unsubscribe_other.
  - apply unsubscribe_cancelled.
  - by right.
Qed.

(** The other actors. *)
Lemma broadcast_step_ok x payload slow : sys_ok x -> sy_broadcast x = None -> slow ≡ₚ overflowed (sy_hub x) ->
  sys_ok (MkSys (sy_world x) (send_all payload (sy_hub x)) (see payload <$> sy_streams x) (sy_revocations x)
    (Some (BcDropping payload slow))).
Proof.
  intros Hx Hb Hslow. pose proof Hx as [Hh Hbc Hs Hd Hg Hr]. rewrite Hb in Hs.
  assert (Hin : forall s, s ∈ slow <-> s ∈ overflowed (sy_hub x)) by (intros; by rewrite Hslow).
  split; simpl; [by apply send_all_ok|..].
  - split; [|done]. intros s Hi%Hin. simpl in Hi. apply send_all_cancelled; [done|].
    unfold overflowed in Hi. apply elem_of_bfilter in Hi as [_ Hi]. destruct (h_all _ !! s); [by eexists|done].
  - intros p st'. rewrite lookup_fmap. intros (st & Hp & ->)%fmap_Some. by eapply stream_ok_send, Hs.
  - intros p q s1 s2 s. rewrite !lookup_fmap. intros (st1 & H1 & ->)%fmap_Some (st2 & H2 & ->)%fmap_Some.
    rewrite !see_phase. by eapply Hd.
  - done.
  - intros r rv p st' s Hrv. rewrite lookup_fmap. intros (st & Hp & ->)%fmap_Some. rewrite see_phase, see_token.
    intros Ht Hps. eapply revoked_ok_mono; [by apply send_all_cancelled|]. by eapply Hr.
Qed.

(** The rest of the broadcast. *)
Lemma drop_ok x payload s slow : sys_ok x -> sy_broadcast x = Some (BcDropping payload (s :: slow)) ->
  sys_ok (put_hub (cancel_at causeSlowConsumer s (sy_hub x)) (put_broadcast (Some (BcLeaving payload s slow)) x)).
Proof.
  intros Hx Hb. pose proof (so_broadcast _ Hx) as [Hd _]. rewrite Hb in Hd.
  assert (Hx' : sys_ok (put_broadcast (Some (BcLeaving payload s slow)) (put_hub (cancel_at causeSlowConsumer s (sy_hub x)) x))).
  { assert (Hc : sys_ok (put_hub (cancel_at causeSlowConsumer s (sy_hub x)) x))
      by (apply sys_ok_hub; [done|by apply cancel_at_ok, Hx|intros; apply cancel_at_evolves]).
    destruct Hc as [Hh Hbc Hs Hdis Hg Hr]. split; simpl in *; try done.
    - rewrite Hb in Hbc. split; [apply Hbc|]. intros p s' l [= <- <- <-].
      destruct (Hd s) as [sub Hsub]; [by left|]. exists (cancel_sub causeSlowConsumer sub).
      split; [by apply cancel_at_self|]. simpl. by destruct (sb_cause sub).
    - intros p st Hp. eapply stream_ok_stage; [|by eapply Hs]. by rewrite Hb. }
  exact Hx'.
Qed.

Lemma dropped_ok x payload s slow : sys_ok x -> sy_broadcast x = Some (BcLeaving payload s slow) ->
  sys_ok (put_hub (unsubscribe s (sy_hub x)) (put_broadcast (Some (BcDropping payload slow)) x)).
Proof.
  intros Hx Hb. pose proof Hx as [Hh Hbc Hs Hdis Hg Hr]. rewrite Hb in *. destruct Hbc as [Hd Hl].
  pose proof (Hl _ _ _ eq_refl) as Hc. split; simpl; try done.
  - by apply unsubscribe_ok.
  - split; [|done]. intros q Hq. apply unsubscribe_cancelled, Hd. by right.
  - intros p st Hp. eapply stream_ok_stage; [|eapply stream_ok_unsubscribe; [exact Hc|by eapply Hs]].
    intros q sub _ Hq Ho. unfold missed. cbn [dropping].
    assert (q <> s) as Hne.
    { intros ->. destruct Hc as (sub0 & Hs0 & _). unfold unsubscribe in Hq. rewrite Hs0 in Hq.
      destruct (sb_once sub0) eqn:Ho0; [congruence|]. simpl in Hq. rewrite lookup_insert_eq in Hq. by simplify_eq. }
    destruct (decide (q ∈ slow)), (decide (q ∈ s :: slow)) as [Hi|Hi]; try done.
    + destruct Hi. by right.
    + by apply elem_of_cons in Hi as [->|?].
  - intros r rv p st q Hrv Hp Ht Hps. eapply revoked_ok_mono; [apply unsubscribe_cancelled|]. by eapply Hr.
Qed.

Lemma broadcast_done_ok x payload : sys_ok x -> sy_broadcast x = Some (BcDropping payload []) ->
  sys_ok (put_broadcast None x).
Proof.
  intros [Hh Hbc Hs Hdis Hg Hr] Hb. split; simpl; try done.
  - split; [|done]. intros s Hs'%elem_of_nil. done.
  - intros p st Hp. eapply stream_ok_stage; [|by eapply Hs]. intros s sub _ _ _. by rewrite Hb.
Qed.

Lemma revocation_ok x r rv w' h' :
  sys_ok x -> hub_ok h' -> (forall s, evolves (h_all (sy_hub x) !! s) (h_all h' !! s)) ->
  (forall t, token_live t (w_db w') -> token_live t (w_db (sy_world x))) -> ~ token_live (rv_token rv) (w_db w') ->
  (forall p st s, sy_streams x !! p = Some st -> rv_token rv = st_token st -> passed (st_phase st) = Some s ->
     revoked_ok h' rv s) ->
  sys_ok (MkSys w' h' (sy_streams x) (<[r := rv]> (sy_revocations x)) (sy_broadcast x)).
Proof.
  intros [Hh Hbc Hs Hd Hg Hr] Hh' Hev Hlive Hgone Hrv. split; simpl; try done.
  - by eapply broadcast_ok_mono; [apply evolves_cancelled|].
  - intros p st Hp. eapply stream_ok_evolves; [by intros; apply Hev|by eapply Hs].
  - intros r1 rv1 [[<- <-]|[Hne Hr1]]%lookup_insert_Some; [done|]. intros Hl%Hlive. by eapply Hg.
  - intros r1 rv1 p st s [[<- <-]|[Hne Hr1]]%lookup_insert_Some Hp Ht Hps; [by eapply Hrv|].
    eapply revoked_ok_mono; [by apply evolves_cancelled|]. by eapply Hr.
Qed.

(** What the revocation collects is every subscriber that is not yet
    cancelled. *)
Lemma collect_finds x p st s :
  sys_ok x -> sy_streams x !! p = Some st -> phase_sub (st_phase st) = Some s ->
  s ∈ token_subscribers (st_token st) (sy_hub x) \/ cancelled (sy_hub x) s.
Proof.
  intros Hx Hp Hs. pose proof (so_streams _ Hx _ _ Hp) as Hst.
  eapply stream_ok_sub in Hst as (sub & Hl & Ht & Ho & _); [|done]. destruct (sb_once sub) eqn:Hon.
  - right. exists sub. split; [done|]. by apply Ho.
  - left. unfold token_subscribers. rewrite elem_of_bfilter, elem_of_elements, Hl. split; [|by apply bool_decide_eq_true].
    apply (ho_reg _ (so_hub _ Hx)). eauto.
Qed.

Lemma open_ok x p t : sys_ok x -> sy_streams x !! p = None -> sys_ok (put_stream p (MkStream t PAuthenticated None [] []) x).
Proof.
  intros [Hh Hbc Hs Hd Hg Hr] Hp. split; simpl; try done.
  - intros q st [[<- <-]|[Hne Hq]]%lookup_insert_Some; [by split|by eapply Hs].
  - intros q1 q2 s1 s2 s [[<- <-]|[Hne1 Hq1]]%lookup_insert_Some [[<- <-]|[Hne2 Hq2]]%lookup_insert_Some; try done.
    by eapply Hd.
  - intros r rv q st s Hrv [[<- <-]|[Hne Hq]]%lookup_insert_Some; [done|by eapply Hr].
Qed.

Lemma step_ok x x' : step x x' -> sys_ok x -> sys_ok x'.
Proof.
  intros Hstep Hx. pose proof (so_hub _ Hx) as Hh. destruct Hstep.
  - by apply open_ok.
  - by apply subscribed_ok.
  - by apply refused_ok.
  - sys; unfold with_reply, in_phase; cbn [st_token st_phase st_reply st_frames st_seen]; eapply checked_ok; eauto using tokenStillLive_db, tokenStillLive_live; done.
  - sys; unfold with_reply, in_phase; cbn [st_token st_phase st_reply st_frames st_seen]; eapply checked_ok; eauto using tokenStillLive_db; done.
  - sys; unfold in_phase; destruct accepted; (eapply checked_ok; eauto; congruence).
  - edestruct (snapshot_ok x p st s w' json causeInternal) as [? _]; [done..|by eapply snapshot_db|]. done.
  - edestruct (snapshot_ok x p st s w' EmptyString) as [_ ?]; [done..|by eapply snapshot_db|]. done.
  - edestruct (snapshot_ok x p st s w' EmptyString) as [_ ?]; [done..|by eapply snapshot_db|]. done.
  - by edestruct pumped_ok as [? _].
  - by edestruct pumped_ok as [_ ?].
  - by eapply done_ok.
  - by eapply exit_ok.
  - by eapply leave_ok.
  - apply sys_ok_hub; [done|by apply cancel_at_ok|]. intros. apply cancel_at_evolves.
  - by apply broadcast_step_ok.
  - by apply drop_ok.
  - by apply dropped_ok.
  - by eapply broadcast_done_ok.
  - apply sys_ok_hub; [done|by apply hub_cancel_ok|]. intros. apply hub_cancel_evolves.
  - edestruct Delete_gone as [Hgone Hless]; [done|]. sys. apply revocation_ok; try done. intros. by left.
  - sys. apply revocation_ok; try done; [by left|by apply (so_gone _ Hx) in H0|].
    intros p st s Hp Ht Hs. simpl in *. rewrite H1, Ht. eapply collect_finds; [done..|by apply passed_sub].
  - sys. apply revocation_ok; try done; [by apply cancel_at_ok|intros; apply cancel_at_evolves|by apply (so_gone _ Hx) in H0|].
    intros p st s1 Hp Ht Hs. pose proof (so_revoked _ Hx _ _ _ _ _ H0 Hp Ht Hs) as Hrv. simpl in Hrv. simpl.
    assert (Hm : more_cancelled (sy_hub x) (cancel_at causeRevoked s (sy_hub x)))
      by (apply evolves_cancelled; intros; apply cancel_at_evolves).
    destruct Hrv as [[->|Hin]%elem_of_cons|Hc]; [|by left|right; by apply (Hm s1)].
    right. pose proof (so_streams _ Hx _ _ Hp) as Hst.
    eapply stream_ok_sub in Hst as (sub & Hl & _); [|by apply passed_sub].
    exists (cancel_sub causeRevoked sub). split; [by apply cancel_at_self|]. simpl. by destruct (sb_cause sub).
  - sys. apply revocation_ok; try done; [by left|by apply (so_gone _ Hx) in H0|].
    intros p st s Hp Ht Hs. pose proof (so_revoked _ Hx _ _ _ _ _ H0 Hp Ht Hs) as Hrv. simpl in *.
    destruct Hrv as [Hin%elem_of_nil|]; done.
  - destruct Hx. by split.
Qed.

Lemma started_ok w : sys_ok (started w).
Proof. split; simpl; try done; [apply New_ok|]. split; [by intros s ?%elem_of_nil|done]. Qed.

Lemma runs_ok w x : runs w x -> sys_ok x.
Proof.
  unfold runs. generalize (started_ok w). generalize (started w). intros x0 Hx0 Hr.
  induction Hr as [|a b d Hs _ IH]; [done|]. apply IH. by eapply step_ok.
Qed.
(** ** Theorems *)


(** C21: No stream survives the revocation of its token, however the two race.
    Once RevokeToken's closing is done, a stream of the token that has
    subscribed and not yet checked its token is refused by that check; one that
    passed the check before is cancelled, wherever its handler is; and a
    pumping one can leave its loop at once. *)
Theorem no_stream_survives_revocation (w : World) (x : Sys) (r p : nat) (t : string) (st : stream) :
  runs w x -> sy_revocations x !! r = Some (RvClosed t) -> sy_streams x !! p = Some st -> st_token st = t ->
  match st_phase st with
  | PSubscribed _ => forall c w', tokenStillLive c t (sy_world x) <> (Ok None, w')
  | PLive s | PAccepted s | PExiting s => cancelled (sy_hub x) s
  | PPumping s => cancelled (sy_hub x) s /\ step x (put_stream p (in_phase (PExiting s) st) x)
  | _ => True
  end.
Proof.
  intros Hx%runs_ok Hr Hp Ht. pose proof (so_gone _ Hx _ _ Hr) as Hgone. simpl in Hgone.
  assert (Hc : forall s, passed (st_phase st) = Some s -> cancelled (sy_hub x) s)
    by (intros s Hs; by apply (so_revoked _ Hx _ _ _ _ _ Hr Hp (eq_sym Ht) Hs)).
  destruct (st_phase st) as [|s|s|s|s|s|s|] eqn:Hph; simpl in Hc; try done; try (by apply Hc).
  - intros c w' Hl. by apply Hgone, (tokenStillLive_live c t (sy_world x) w').
  - destruct (Hc s eq_refl) as (sub & Hs & k & Hk). split; [by exists sub; eauto|]. by eapply ss_done.
Qed.

(** C22: What a stream has been sent is a prefix of what was broadcast since it
    subscribed, in order and without a gap.  While it is pumping and not
    cancelled, its first frame was the snapshot, and all that is missing of the
    broadcasts waits in its channel; the one exception is the payload of the
    broadcast under way, when that broadcast found its channel full and has not
    yet cancelled it (Hub.Broadcast cancels the slow subscribers after it has
    released the lock). *)
Theorem stream_gap_free (w : World) (x : Sys) (p : nat) (st : stream) :
  runs w x -> sy_streams x !! p = Some st ->
  events (st_frames st) `prefix_of` st_seen st /\
  forall s sub, st_phase st = PPumping s -> h_all (sy_hub x) !! s = Some sub -> sb_cause sub = None ->
    opened st /\
    (events (st_frames st) ++ sb_ch sub = st_seen st \/
     s ∈ dropping (sy_broadcast x) /\ exists payload, missed (sy_broadcast x) s = [payload] /\
       events (st_frames st) ++ sb_ch sub ++ [payload] = st_seen st).
Proof.
  intros Hx%runs_ok Hp. pose proof (so_streams _ Hx _ _ Hp) as Hst. split.
  - unfold stream_ok in Hst. destruct (phase_sub _) as [s|] eqn:Hs; [|by destruct Hst].
    destruct Hst as (sub & _ & _ & _ & Hf). unfold flow, in_step in Hf.
    assert (Hpre : forall l, (events (st_frames st) ++ l) `prefix_of` st_seen st -> events (st_frames st) `prefix_of` st_seen st)
      by (intros l Hl; etrans; [by apply prefix_app_r|exact Hl]).
    destruct (st_phase st); naive_solver.
  - intros s sub Hph Hs Hc. eapply (stream_ok_sub _ _ _ s) in Hst as (sub' & Hl & _ & Ho & Hf); [|by rewrite Hph].
    assert (sub' = sub) as -> by congruence. unfold flow in Hf. rewrite Hph in Hf. destruct Hf as [[He _] Hopen].
    split; [by apply Hopen|]. assert (Hon : sb_once sub = false).
    { destruct (sb_once sub); [|done]. destruct (Ho eq_refl). congruence. }
    specialize (He Hon). destruct (missed_cases (sy_broadcast x) s) as [Hm|(Hin & payload & Hm)]; rewrite Hm in He.
    + left. by rewrite app_nil_r in He.
    + right. split; [done|]. by exists payload.
Qed.
End Facts.

(** ** Concrete runs *)

#[local] Existing Instance toy_crypto.

Definition stream_world (env : Env) : World :=
  MkWorld env 0 (setd_feed_tokens [FeedTokenRow "t1" "edge" "hash" None 1 None] demo_db) empty_mem.


Ltac go tac := eapply rtc_l; [tac; first [apply run_eq; vm_compute; reflexivity | reflexivity]|].

(** A broadcast that finds room in every channel. *)
Ltac broadcast_to_all payload :=
  eapply rtc_l; [apply (ss_broadcast _ payload []); [reflexivity|vm_compute; reflexivity]|];
  eapply rtc_l; [eapply ss_broadcast_done; reflexivity|].

(** The pump's select may take a payload although the snapshot has failed and
    the subscriber is cancelled: then the first frame of the stream is an event
    and the consumer never gets the snapshot. *)
Theorem event_without_snapshot : exists x st,
  runs (stream_world (faulty_env 1)) x /\
  sy_streams x !! 0%nat = Some st /\ st_frames st = [FEvent "p"; FClose 1011 "internal error"].
Proof.
  eexists _, _. split; [|].
  - unfold runs. go ltac:(apply (ss_open _ 0 "t1")).
    go ltac:(eapply (ss_subscribe _ 0)).
    go ltac:(eapply (ss_still_live _ 0 _ _ background)).
    go ltac:(eapply (ss_accept _ 0 _ _ true)).
    broadcast_to_all "p"%string.
    go ltac:(eapply (ss_snapshot_failed _ 0 _ _ background)).
    go ltac:(eapply (ss_write _ 0)).
    go ltac:(eapply (ss_done _ 0)).
    go ltac:(eapply (ss_exit _ 0)).
    apply rtc_refl.
  - split; reflexivity.
Qed.

(** A stream opened before the revocation of its token, which then runs to its
    end, and the same stream with a broadcast waiting. *)
Lemma revoked_run : exists x st,
  runs (stream_world demo_env) x /\ sy_revocations x !! 0%nat = Some (RvClosed "t1") /\
  sy_streams x !! 0%nat = Some st /\ st_token st = "t1"%string /\ st_phase st = PPumping 0.
Proof.
  eexists _, _. split; [|].
  - unfold runs. go ltac:(apply (ss_open _ 0 "t1")).
    go ltac:(eapply (ss_subscribe _ 0)).
    go ltac:(eapply (ss_still_live _ 0 _ _ background)).
    go ltac:(eapply (ss_delete _ 0 background "t1")).
    go ltac:(eapply (ss_collect _ 0)).
    go ltac:(eapply (ss_accept _ 0 _ _ true)).
    go ltac:(eapply (ss_cancel _ 0)).
    go ltac:(eapply (ss_closed _ 0)).
    go ltac:(eapply (ss_snapshot _ 0 _ _ background)).
    apply rtc_refl.
  - repeat split; reflexivity.
Qed.

Lemma no_stream_survives_revocation_witness : exists x, runs (stream_world demo_env) x /\ cancelled (sy_hub x) 0.
Proof.
  destruct revoked_run as (x & st & Hx & Hr & Hp & Ht & Hph). exists x. split; [exact Hx|].
  pose proof (no_stream_survives_revocation _ x 0 0 "t1" st Hx Hr Hp Ht) as Hw.
  rewrite Hph in Hw. exact (proj1 Hw).
Defined.

Lemma pumping_run : exists x st sub,
  runs (stream_world demo_env) x /\ sy_streams x !! 0%nat = Some st /\ st_phase st = PPumping 0 /\
  h_all (sy_hub x) !! 0%nat = Some sub /\ sb_cause sub = None /\ sb_ch sub = ["q"%string] /\
  st_seen st = ["p"; "q"]%string /\ sy_broadcast x = None.
Proof.
  eexists _, _, _. split; [|].
  - unfold runs. go ltac:(apply (ss_open _ 0 "t1")).
    go ltac:(eapply (ss_subscribe _ 0)).
    go ltac:(eapply (ss_still_live _ 0 _ _ background)).
    broadcast_to_all "p"%string.
    go ltac:(eapply (ss_accept _ 0 _ _ true)).
    go ltac:(eapply (ss_snapshot _ 0 _ _ background)).
    go ltac:(eapply (ss_write _ 0)).
    broadcast_to_all "q"%string.
    apply rtc_refl.
  - repeat split; reflexivity.
Qed.

Lemma stream_gap_free_witness : exists x st, runs (stream_world demo_env) x /\
  sy_streams x !! 0%nat = Some st /\ events (st_frames st) ++ ["q"%string] = ["p"; "q"]%string.
Proof.
  destruct pumping_run as (x & st & sub & Hx & Hp & Hph & Hs & Hc & Hch & Hse & Hnone). exists x, st.
  split; [exact Hx|]. split; [exact Hp|].
  destruct (proj2 (proj2 (stream_gap_free _ x 0 st Hx Hp) 0%nat sub Hph Hs Hc)) as [Hw|[Hi _]].
  - rewrite Hch, Hse in Hw. exact Hw.
  - rewrite Hnone in Hi. by apply elem_of_nil in Hi.
Defined.
