(* ===== verification/Documents.v ===== *)
(** * The documents the server sends, as their readers parse them

    The webhook payloads (notify/payload.go), the feed's JSON document
    (feed/snapshot.go) and the first frame of a stream (feed/stream.go): each is
    the text of a tree, and a JSON parser finds that tree in it. *)

From S2P Require Import Prelude GoLib JsonText Json JsonFacts Dates Schema NetAddr StoreDevices Auth ServiceDevices Effects Integrity Demo.
From S2P Require Import Notify Feed FeedFacts FeedApi FeedStream.
From Stdlib Require Import Ascii.

Definition int_value (z : Z) : json := JNumber (format_int z).
Definition nullable_value (s : option string) : json := match s with Some s => JString s | None => JNull end.
Definition strings_value (l : list string) : json := JArray (JString <$> l).

(** ** Trees *)

Definition addrs_tree (a : addrs) : json :=
  JObject [("ipv4", nullable_value (a_IPv4 a)); ("ipv6", nullable_value (a_IPv6 a))]%string.

Definition device_tree (d : option (string * string)) : json :=
  match d with
  | Some (id, label) => JObject [("id", JString id); ("label", JString label)]%string
  | None => JNull
  end.

Definition event_tree (e : event) : json :=
  JObject [ ("version", int_value (e_Version e)); ("type", JString (e_Type e)); ("id", int_value (e_ID e));
    ("occurred_at", JString (e_OccurredAt e)); ("device", device_tree (e_Device e));
    ("changed", strings_value (e_Changed e)); ("current", addrs_tree (e_Current e));
    ("previous", addrs_tree (e_Previous e)) ]%string.

Section Feed.
Context `{Crypto}.

Definition feed_device_tree (d : DeviceRepo.FeedDevice) : json :=
    let text s := nullable_value (addr_string <$> ParseAddr s) in
    JObject [ ("id", JString (DeviceRepo.fd_ID d)); ("label", JString (DeviceRepo.fd_Label d));
      ("ipv4", text (DeviceRepo.fd_IPv4 d)); ("ipv6", text (DeviceRepo.fd_IPv6 d));
      ("last_seen_at", nullable_value (if (DeviceRepo.fd_LastSeenAt d =? 0)%Z then None
                                       else Some (rfc3339 (DeviceRepo.fd_LastSeenAt d)))) ]%string.

Definition feed_tree (devices : list DeviceRepo.FeedDevice) : json :=
    JObject [ ("version", int_value 1);
      ("cidrs", strings_value (CIDRString <$> DedupeAddrs (feed_addrs devices)));
      ("devices", JArray (feed_device_tree <$> devices)) ]%string.

Definition envelope_tree (devices : list DeviceRepo.FeedDevice) : json :=
    JObject [ ("version", int_value 1); ("type", JString "feed.snapshot"); ("feed", feed_tree devices) ]%string.

(** ** The texts are those of the trees *)

Lemma print_nullable s : print (nullable_value s) = json_nullable s.
Proof. by destruct s. Qed.

Lemma print_strings l : print (strings_value l) = json_list (json_quote <$> l).
Proof. unfold strings_value. cbn [print]. by rewrite <- list_fmap_compose. Qed.

Lemma marshal_tree e : marshal e = print (event_tree e).
Proof.
  unfold marshal, event_tree. rewrite <- print_strings. destruct e as [v t i o d ch [c4 c6] [p4 p6]].
  unfold json_addrs. cbn [a_IPv4 a_IPv6]. rewrite <- !print_nullable. by destruct d as [[id label]|].
Qed.

Lemma device_text d : json_device d = print (feed_device_tree d).
Proof. unfold json_device, feed_device_tree. cbv zeta. by rewrite <- !print_nullable. Qed.

Lemma render_tree devices :
  sn_JSON (Render devices) = (print (feed_tree devices) ++ lf)%string.
Proof.
  unfold Render, feed_tree. cbv zeta. cbn [sn_JSON]. rewrite <- print_strings. f_equal.
  replace (json_device <$> devices) with (print <$> (feed_device_tree <$> devices)); [done|].
  rewrite <- list_fmap_compose. apply list_fmap_ext. intros i d _. cbn. by rewrite device_text.
Qed.

(** ** Their numbers and their depth *)

Lemma numeric_strings l : numeric (strings_value l) = true.
Proof. unfold strings_value. cbn [numeric]. apply forallb_forall. intros v Hv%list_elem_of_In%list_elem_of_fmap. by destruct Hv as (s & -> & _). Qed.

Lemma depth_array n l : Forall (fun v => (depth v <= n)%nat) l -> (depth (JArray l) <= S n)%nat.
Proof.
  intros Hl. change (S (foldr (fun x m => Nat.max (depth x) m) 0%nat l) <= S n)%nat. apply le_n_S.
  induction Hl as [|v l Hv _ IH]; cbn [foldr]; lia.
Qed.

Lemma depth_strings l : (depth (strings_value l) <= 1)%nat.
Proof. apply depth_array, Forall_fmap, Forall_forall. intros v _. apply Nat.le_refl. Qed.

Lemma depth_device d : (depth (feed_device_tree d) <= 1)%nat.
Proof.
  unfold feed_device_tree. cbv zeta. cbn [depth foldr snd].
  assert (forall s, depth (nullable_value s) = 0%nat) as Hn by (by intros [s|]). rewrite !Hn. lia.
Qed.

Lemma feed_tree_ok devices : numeric (feed_tree devices) = true /\ (depth (feed_tree devices) <= 3)%nat.
Proof.
  split.
  - unfold feed_tree. cbn [numeric forallb snd]. rewrite numeric_strings.
    replace (forallb numeric (feed_device_tree <$> devices)) with true; [done|]. symmetry. apply forallb_forall.
    intros v (d & -> & _)%list_elem_of_In%list_elem_of_fmap. unfold feed_device_tree. cbv zeta.
    cbn [numeric forallb snd]. assert (forall s, numeric (nullable_value s) = true) as Hn by (by intros [s|]). by rewrite !Hn.
  - unfold feed_tree. cbn [depth foldr snd].
    pose proof (depth_strings (CIDRString <$> DedupeAddrs (feed_addrs devices))) as H1.
    assert (depth (JArray (feed_device_tree <$> devices)) <= 2)%nat as H2
      by (apply depth_array, Forall_fmap, Forall_forall; intros d _; apply depth_device).
    change (depth (int_value 1)) with 0%nat. cbn [depth] in H2. lia.
Qed.

Lemma event_tree_ok e : in_int64 (e_Version e) -> in_int64 (e_ID e) ->
  numeric (event_tree e) = true /\ (depth (event_tree e) <= 2)%nat.
Proof.
  intros Hv Hi. destruct e as [v t i o d ch [c4 c6] [p4 p6]]. cbn [e_Version e_ID] in *.
  assert (forall s, numeric (nullable_value s) = true /\ depth (nullable_value s) = 0%nat) as Hn by (by intros [s|]).
  split.
  - unfold event_tree, addrs_tree. cbn [numeric forallb snd e_Version e_Type e_ID e_OccurredAt e_Device e_Changed e_Current e_Previous a_IPv4 a_IPv6].
    unfold int_value. rewrite !numeric_int, numeric_strings by done. rewrite !(proj1 (Hn _)). by destruct d as [[id label]|].
  - unfold event_tree, addrs_tree. cbn [depth foldr snd e_Version e_Type e_ID e_OccurredAt e_Device e_Changed e_Current e_Previous a_IPv4 a_IPv6].
    pose proof (depth_strings ch) as H1. rewrite !(proj2 (Hn _)).
    change (depth (int_value v)) with 0%nat. change (depth (int_value i)) with 0%nat.
    destruct d as [[id label]|]; cbn [device_tree depth foldr snd]; lia.
Qed.
Lemma parse_line v : numeric v = true -> (depth v <= 10)%nat -> parse_json (print v ++ lf) = Some (readable v).
Proof.
  intros Hn Hd. unfold parse_json.
  by rewrite (reads_print v Hn) by (done || (by left) || (cbn [length]; unfold maxNestingDepth; lia)).
Qed.

(** [text] is a JSON document whose value is [tree]. *)
Definition reads_as (text : string) (tree : json) : Prop := parse_json text = Some (readable tree).

Lemma event_reads e : in_int64 (e_Version e) -> in_int64 (e_ID e) -> reads_as (marshal e) (event_tree e).
Proof.
  intros Hv Hi. destruct (event_tree_ok e Hv Hi) as [Hn Hd]. unfold reads_as. rewrite marshal_tree.
  apply parse_print; [done|]. unfold maxNestingDepth. lia.
Qed.

Lemma envelope_reads devices : exists frame,
  snapshot_envelope (Render devices) = Some frame /\ reads_as frame (envelope_tree devices).
Proof.
  destruct (feed_tree_ok devices) as [Hn Hd]. exists (print (envelope_tree devices)). split.
  - unfold snapshot_envelope. rewrite render_tree. unfold lf. rewrite json_compact_print; [done..|].
    unfold maxNestingDepth. lia.
  - apply parse_print; [|unfold envelope_tree, int_value, maxNestingDepth; cbn [depth foldr snd]; lia].
    unfold envelope_tree. cbn [numeric forallb snd]. by rewrite Hn.
Qed.

(** ** The text document, line by line *)

Lemma ParseAddr_ok s a : ParseAddr s = Some a -> addr_ok a.
Proof.
  unfold ParseAddr. destruct (str_eq s EmptyString); [done|]. destruct (parse_addr s) as [b|] eqn:Hp; [|done].
  intros [= <-]. apply parse_addr_ok in Hp. destruct b as [n|n z]; [done|]. unfold unmap.
  destruct (_ =? _); [|done]. cbn [without_zone addr_ok]. apply Z.mod_pos_bound. lia.
Qed.

Lemma CIDR_reads a : addr_ok a -> zone a = EmptyString -> parse_prefix (CIDRString a) = Some (MkPrefix a (bit_len a)).
Proof.
  intros Ha Hz. apply (parse_prefix_string (MkPrefix a (bit_len a))); [done|done|]. cbn [px_addr px_bits].
  destruct a; simpl; lia.
Qed.

Lemma CIDR_one_line a : addr_ok a -> zone a = EmptyString -> has_char "010" (CIDRString a) = false.
Proof.
  intros Ha Hz. unfold CIDRString. rewrite !has_char_app, format_int_other by done. rewrite orb_false_r.
  by apply addr_string_plain.
Qed.

Lemma split_lines l : Forall (fun c => has_char "010" c = false) l ->
  split_all "010" (foldr (fun c acc => c ++ lf ++ acc)%string EmptyString l) = l ++ [EmptyString].
Proof.
  induction 1 as [|c l Hc _ IH]; [done|]. cbn [foldr]. unfold lf at 1. rewrite (string_app_cons "010"), append_nil.
  by rewrite split_all_app, IH.
Qed.

(** The prefixes a reader finds who takes the lines one by one and skips what
    is not a prefix. *)
Definition listed (text : string) : list prefix := omap parse_prefix (split_all "010" text).

Lemma text_reads devices : exists addrs, StronglySorted addr_lt addrs /\ (forall a, a ∈ addrs <-> feed_holds devices a) /\
  listed (sn_Text (Render devices)) = (fun a => MkPrefix a (bit_len a)) <$> addrs.
Proof.
  destruct (dedupe_spec (feed_addrs devices)) as [Hs He]. exists (DedupeAddrs (feed_addrs devices)).
  split; [done|]. split; [intros a; by rewrite He, feed_addrs_iff|].
  assert (Forall (fun a => addr_ok a /\ zone a = EmptyString) (DedupeAddrs (feed_addrs devices))) as Hok.
  { apply Forall_forall. intros a (d & _ & [Ha|Ha])%He%feed_addrs_iff;
      (split; [by eapply ParseAddr_ok|exact (proj1 (ParseAddr_normal _ _ Ha))]). }
  unfold listed, Render. cbv zeta. cbn [sn_Text]. unfold headerLine. rewrite string_app_assoc.
  unfold lf at 1. rewrite (string_app_cons "010"), append_nil, split_all_app by done. rewrite split_lines.
  2: { apply Forall_fmap. eapply Forall_impl; [exact Hok|]. intros a [Ha Hz]. by apply CIDR_one_line. }
  clear Hs He. change (omap parse_prefix ((CIDRString <$> DedupeAddrs (feed_addrs devices)) ++ [EmptyString]) =
    (fun a => MkPrefix a (bit_len a)) <$> DedupeAddrs (feed_addrs devices)).
  induction Hok as [|a l [Ha Hz] _ IH]; [done|]. cbn [fmap list_fmap app omap list_omap]. rewrite CIDR_reads by done. by f_equal.
Qed.

(** C35: Whoever parses what the server sends finds what it meant, up to U+FFFD
    for bytes that are not UTF-8, whatever the labels and addresses hold: the
    four webhook payloads are the JSON text of their events, the feed's document
    is the JSON text of its devices, and the first frame of a stream can always
    be made and carries that same document; the lines of the feed's text that
    are prefixes are the host prefixes of exactly the addresses the members
    hold, in increasing order. *)
Theorem documents_read_back :
  (forall ev, in_int64 (ev_EventID ev) -> reads_as (RenderIPChanged ev) (event_tree (ip_changed_event ev))) /\
  (forall seq now d, in_int64 seq -> reads_as (RenderAdded seq now d) (event_tree (added_event seq now d)) /\
    reads_as (RenderRemoved seq now d) (event_tree (removed_event seq now d))) /\
  (forall now, reads_as (RenderTest now) (event_tree (test_event now))) /\
  (forall devices, reads_as (sn_JSON (Render devices)) (feed_tree devices) /\
    exists frame, snapshot_envelope (Render devices) = Some frame /\
      reads_as frame (envelope_tree devices)) /\
  (forall devices, exists addrs, StronglySorted addr_lt addrs /\ (forall a, a ∈ addrs <-> feed_holds devices a) /\
    listed (sn_Text (Render devices)) = (fun a => MkPrefix a (bit_len a)) <$> addrs).
Proof.
  assert (in_int64 payloadVersion /\ in_int64 0) as [Hv H0] by (split; done).
  split; [intros ev Hi; by apply event_reads|]. split; [intros seq now d Hi; split; by apply event_reads|].
  split; [intros now; by apply event_reads|]. split; [|apply text_reads]. intros devices. split; [|apply envelope_reads].
  destruct (feed_tree_ok devices) as [Hn Hd]. unfold reads_as. rewrite render_tree. apply parse_line; [done|lia].
Qed.
End Feed.

(** ** A concrete payload *)

#[local] Existing Instance toy_crypto.

Definition demo_change : IPChangeEvent :=
  MkIPChangeEvent 7 1754000000 (scanDevice demo_device) "192.0.2.1" EmptyString "192.0.2.2" EmptyString.

Lemma documents_read_back_witness :
  get_field (fun v => Some v) "occurred_at" JNull (default [] (v ← parse_json (RenderIPChanged demo_change); members v))
  = Some (JString "2025-07-31T22:13:20Z").
Proof.
  rewrite (proj1 documents_read_back demo_change); [vm_compute; reflexivity|].
  vm_compute. split; congruence.
Defined.
