(* ===== verification/Publication.v ===== *)
(** * From a device's report to what the gateway reads

    The composition of the client's report (poller.go), the check-in service
    with the server's fan-out, the feed's query and its text document: what a
    reader of the document finds after a check-in. *)

From S2P Require Import Prelude GoLib Schema Integrity Effects NetAddr Demo StoreUsers StoreDevices.
From S2P Require Import StoreTokens StoreNotify Auth ServiceDevices DeviceFacts ServiceFacts Notify NotifyFacts.
From S2P Require Import Feed FeedFacts FeedApi Client Documents.

(** The address as the feed lists it. *)
Definition feed_form (a : addr) : addr := without_zone (unmap a).
Definition host_prefix (a : addr) : prefix := MkPrefix a (bit_len a).

Lemma addr_string_set a : addr_ok a -> str_eq (addr_string a) EmptyString = false.
Proof. intros Ha. apply str_eq_false. intros He. pose proof (parse_addr_string a Ha) as Hp. by rewrite He in Hp. Qed.

Lemma ParseAddr_reported a : addr_ok a -> ParseAddr (addr_string a) = Some (feed_form a).
Proof. intros Ha. unfold ParseAddr. by rewrite addr_string_set, parse_addr_string. Qed.

(** An enabled device of an enabled owner. *)
Definition publishable (us : list user_row) (r : device_row) : Prop :=
  rd_disabled r = 0 /\ exists u, u ∈ us /\ ru_id u = rd_user_id r /\ ru_disabled u = 0.

Definition row_holds (r : device_row) (a : addr) : Prop :=
  ParseAddr (scanString (rd_current_ipv4 r)) = Some a \/ ParseAddr (scanString (rd_current_ipv6 r)) = Some a.

Definition feed_of (d : DB) (a : addr) : Prop :=
  exists r, r ∈ d_devices d /\ publishable (d_users d) r /\ row_holds r a.

Lemma holds_some s a : ParseAddr (scanString s) = Some a -> is_Some s.
Proof. destruct s; [by eexists|]. done. Qed.

Lemma row_ok_publishable us r a : row_holds r a ->
  has_enabled_owner us r = true <-> publishable us r.
Proof.
  intros Hh. unfold has_enabled_owner, publishable, DeviceRepo.feed_row_ok. rewrite existsb_exists. split.
  - intros (u & Hu%list_elem_of_In & Hok). rewrite !andb_true_iff, str_eq_true, !Z.eqb_eq in Hok. naive_solver.
  - intros (Hr & u & Hu%list_elem_of_In & Hid & Hen). exists u. split; [done|].
    rewrite !andb_true_iff, orb_true_iff, str_eq_true, !Z.eqb_eq, !bool_decide_eq_true.
    split; [done|]. destruct Hh as [H|H]; apply holds_some in H; auto.
Qed.

(** The feed's query holds exactly the addresses of the publishable rows. *)
Lemma feed_query_holds d a : wf_db d ->
  feed_holds (DeviceRepo.scanFeedDevice <$> DeviceRepo.listFeedQuery d) a <-> feed_of d a.
Proof.
  intros Hwf. assert (Hu : NoDup (ru_id <$> d_users d)).
  { apply uniq_NoDup; [exact key_user|]. by destruct (wf_users _ Hwf). }
  unfold feed_holds, feed_of, DeviceRepo.listFeedQuery. rewrite join_filter by done. split.
  - intros (fd & (r & -> & [Hr Hok]%elem_of_order_by%elem_of_bfilter)%list_elem_of_fmap & Ha).
    exists r. split; [done|]. split; [|exact Ha]. by eapply row_ok_publishable.
  - intros (r & Hr & Hp & Ha). exists (DeviceRepo.scanFeedDevice r). split; [|exact Ha].
    apply list_elem_of_fmap. exists r. split; [done|]. apply elem_of_order_by, elem_of_bfilter. split; [done|].
    by eapply row_ok_publishable.
Qed.

(** ** A check-in's effect on the rows the feed reads *)

Definition same_feed_tables (D : list device_row) (U : list user_row) (d : DB) : Prop :=
  d_devices d = D /\ d_users d = U.

Lemma fanout_keeps f c ev D U : preserves (same_feed_tables D U) (IPChanged (fanout_notifier f) c ev).
Proof.
  simpl. unfold fanout_IPChanged, FeedStateRepo.Bump, dispatch, Enqueuer.Enqueue, NotificationEndpointRepo.ListEnabled,
    NotificationDeliveryRepo.Enqueue. pres; try apply pres_stmt; intros d Hd; by repeat case_match; simplify_eq/=.
Qed.

(** [g] gives a row the addresses [v4] and [v6]. *)
Definition readdressed (v4 v6 : string) (r r' : device_row) : Prop :=
  rd_id r' = rd_id r /\ rd_user_id r' = rd_user_id r /\ rd_disabled r' = rd_disabled r /\
  scanString (rd_current_ipv4 r') = v4 /\ scanString (rd_current_ipv6 r') = v6.

(** What a successful check-in has done to the devices and users. *)
Definition checked_in (id : string) (rep : CheckinReport) (d d' : DB) : Prop :=
  d_users d' = d_users d /\ exists row g, row ∈ d_devices d /\ rd_id row = id /\
    d_devices d' = rows_update (fun r => str_eq (rd_id r) id) g (d_devices d) /\
    readdressed (effective (cr_IPv4 rep) (scanString (rd_current_ipv4 row)))
      (effective (cr_IPv6 rep) (scanString (rd_current_ipv6 row))) row (g row).

Lemma scan_nullIfEmpty s : scanString (nullIfEmpty s) = s.
Proof. unfold nullIfEmpty. case_bool_decide; [by subst|done]. Qed.

Lemma Checkin_rows f c id rep w :
  wp (Checkin (fanout_notifier f) c id rep) (fun r w' => match r with
    | Ok _ => checked_in id rep (w_db w) (w_db w')
    | Err _ => True
    | Panic => False
    end) w.
Proof.
  unfold Checkin, checkin_device, DeviceRepo.GetByID. wp_step. apply wp_get_one; [done|done|].
  intros row Hf. apply find_device_in in Hf as [Hrow Hid]. cbv zeta. cbn [scanDevice dev_ID dev_CurrentIPv4 dev_CurrentIPv6].
  rewrite Hid. set (e4 := effective _ _). set (e6 := effective _ _).
  destruct (str_eq e4 _ && str_eq e6 _) eqn:Hsame.
  - rewrite andb_true_iff, !str_eq_true in Hsame. destruct Hsame as [H4 H6].
    wp_step. wp_step. wp_step. apply wp_Touch; [done|done|]. intros now w' Hdb. wp_step. rewrite Hdb.
    split; [done|]. exists row. eexists. split; [done|]. split; [done|]. split; [reflexivity|].
    fold e4 e6. rewrite H4, H6. by repeat split.
  - wp_step. eapply wp_mono; [apply wp_RecordIPChange|]. intros [h|e|] w1; [|done|done].
    intros (now & at_ & _ & Hdb & _). wp_step. apply wp_fireNotify; [apply _|]. intros w2 <-. wp_step.
    assert (Hk : same_feed_tables (d_devices (w_db w1)) (d_users (w_db w1)) (w_db w1)) by done.
    match goal with |- checked_in _ _ _ (w_db (?n ?x).2) =>
      pose proof (fanout_keeps f c _ _ _ w1 Hk : same_feed_tables _ _ (w_db (n w1).2)) as [Hd Hu] end.
    unfold checked_in. rewrite Hd, Hu, Hdb. split; [done|]. exists row. eexists. split; [done|]. split; [done|].
    split; [reflexivity|]. fold e4 e6. unfold readdressed, DeviceRepo.set_reported. simpl.
    by rewrite !scan_nullIfEmpty.
Qed.

(** ** The feed after a check-in *)

(** What the reported families, the kept one and the other devices publish. *)
Definition after_report (id : string) (v4 v6 : option addr) (d : DB) (a : addr) : Prop :=
  (exists x, (v4 = Some x \/ v6 = Some x) /\ a = feed_form x) \/
  (exists r, r ∈ d_devices d /\ rd_id r = id /\
     (v4 = None /\ ParseAddr (scanString (rd_current_ipv4 r)) = Some a \/
      v6 = None /\ ParseAddr (scanString (rd_current_ipv6 r)) = Some a)) \/
  (exists r, r ∈ d_devices d /\ rd_id r <> id /\ publishable (d_users d) r /\ row_holds r a).

Lemma effective_reported v cur a : (forall x, v = Some x -> addr_ok x) ->
  ParseAddr (effective (addr_text v) cur) = Some a <->
  (exists x, v = Some x /\ a = feed_form x) \/ v = None /\ ParseAddr cur = Some a.
Proof.
  intros Hok. unfold effective. destruct v as [x|]; cbn [addr_text].
  - rewrite addr_string_set, ParseAddr_reported by auto. split; [intros [= <-]; eauto|].
    by intros [(y & [= <-] & ->)|[? _]].
  - rewrite str_eq_refl. split; [auto|]. by intros [(y & ? & _)|[_ H]].
Qed.

Lemma feed_after id host os ver v4 v6 d d' a :
  wf_db d -> (forall x, v4 = Some x \/ v6 = Some x -> addr_ok x) ->
  (exists r, r ∈ d_devices d /\ rd_id r = id /\ publishable (d_users d) r) ->
  checked_in id (report_of host os ver v4 v6) d d' -> feed_of d' a <-> after_report id v4 v6 d a.
Proof.
  intros Hwf Hok (r0 & Hr0 & Hid0 & Hp0) (Hus & row & g & Hrow & Hid & Hds & G1 & G2 & G3 & G4 & G5).
  assert (Hkey : forall r, r ∈ d_devices d -> rd_id r = id -> r = row).
  { intros r Hr Hi. apply (key_row rd_id _ _ _ key_device (wf_devices _ Hwf) Hr Hrow). congruence. }
  rewrite (Hkey r0 Hr0 Hid0) in Hp0. clear r0 Hr0 Hid0.
  assert (Hpg : publishable (d_users d) (g row)) by (unfold publishable; by rewrite G3, G2).
  assert (Hg : row_holds (g row) a <->
    (exists x, (v4 = Some x \/ v6 = Some x) /\ a = feed_form x) \/
    (v4 = None /\ ParseAddr (scanString (rd_current_ipv4 row)) = Some a \/
     v6 = None /\ ParseAddr (scanString (rd_current_ipv6 row)) = Some a)).
  { unfold row_holds. rewrite G4, G5. cbn [cr_IPv4 cr_IPv6 report_of]. rewrite !effective_reported by auto. naive_solver. }
  unfold feed_of, after_report. rewrite Hds, Hus. split.
  - intros (r & (r1 & Hr1 & ->)%elem_of_rows_update & Hp & Hh). destruct (str_eq (rd_id r1) id) eqn:Hi.
    + apply str_eq_true in Hi. rewrite (Hkey r1 Hr1 Hi) in Hh. apply Hg in Hh as [Hh|Hh]; [by left|right; left; eauto].
    + apply str_eq_false in Hi. right; right. eauto.
  - assert (Hin : row_holds (g row) a -> exists r,
      r ∈ rows_update (fun r => str_eq (rd_id r) id) g (d_devices d) /\ publishable (d_users d) r /\ row_holds r a).
    { intros Hh. exists (g row). split; [|done]. apply elem_of_rows_update. exists row. split; [done|].
      by rewrite Hid, str_eq_refl. }
    intros [H|[(r & Hr & Hi & H)|(r & Hr & Hi & Hp & Hh)]].
    + apply Hin, Hg. by left.
    + rewrite (Hkey r Hr Hi) in H. apply Hin, Hg. by right.
    + exists r. split; [|done]. apply elem_of_rows_update. exists r. split; [done|]. by rewrite (proj2 (str_eq_false _ _) Hi).
Qed.

Section Publish.
Context `{Crypto}.

(** A check-in, and then a reader of the text document. *)
Definition check_in_and_read (f : fanout) (c reader : ctx) (id : string) (rep : CheckinReport) : M string :=
  Checkin (fanout_notifier f) c id rep;;
  s ← current reader;
  mret (sn_Text s.1).

(** C10: What a device reports is what the gateway reads: after a check-in of an
    enabled device of an enabled owner, whatever it reports and with whatever
    faults, a reader of the text document who takes its lines as prefixes finds,
    in increasing order and each once, exactly the host prefixes of the addresses
    just reported (as the feed writes them), of the address of the family the
    device did not report, and of the other published devices: the replaced
    address is gone unless another device holds it. *)
Theorem report_published (f : fanout) (c reader : ctx) (id host os ver : string) (v4 v6 : option addr) (w : World)
    (Hwf : wf_db (w_db w)) (Hok : forall x, v4 = Some x \/ v6 = Some x -> addr_ok x)
    (Hdev : exists r, r ∈ d_devices (w_db w) /\ rd_id r = id /\ publishable (d_users (w_db w)) r) :
  wp (check_in_and_read f c reader id (report_of host os ver v4 v6)) (fun r _ => match r with
    | Ok text => exists addrs, StronglySorted addr_lt addrs /\ listed text = host_prefix <$> addrs /\
        forall a, a ∈ addrs <-> after_report id v4 v6 (w_db w) a
    | Err _ => True
    | Panic => False
    end) w.
Proof.
  unfold check_in_and_read. wp_step.
  apply wp_intro. intros r w1 Hr.
  pose proof (Checkin_wf (fanout_notifier f) c id (report_of host os ver v4 v6) w Hwf) as Hwf1. rewrite Hr in Hwf1.
  pose proof (wp_elim _ _ _ _ _ (Checkin_rows f c id _ w) Hr) as Hrows. cbn in Hwf1, Hrows.
  destruct r as [res|e|]; [|done|done]. wp_step. apply wp_current; [done|]. intros w2 _. wp_step.
  destruct (text_reads (DeviceRepo.scanFeedDevice <$> DeviceRepo.listFeedQuery (w_db w1))) as (addrs & Hs & Ha & Hl).
  exists addrs. split; [done|]. split; [exact Hl|]. intros a.
  rewrite Ha, feed_query_holds by done. by eapply feed_after.
Qed.
End Publish.

(** ** A concrete check-in: the first device moves to a new address *)

#[local] Existing Instance toy_crypto.

Lemma report_published_witness :
  wp (check_in_and_read (MkFanout true) background background "d1"
        (report_of "host" "linux" "1.0" (Some (V4 3221225994)) None))
     (fun r _ => forall text, r = Ok text ->
        MkPrefix (V4 3221225994) 32 ∈ listed text /\ MkPrefix (V4 3221225985) 32 ∉ listed text) demo_world.
Proof.
  eapply wp_mono; [apply (report_published (MkFanout true) background background "d1" "host" "linux" "1.0"
    (Some (V4 3221225994)) None demo_world demo_wf)|].
  - intros x [[= <-]|[=]]. simpl. lia.
  - exists demo_device. split; [left|]. split; [reflexivity|]. split; [reflexivity|].
    exists demo_user. split; [left|]. split; reflexivity.
  - intros r w' Hr text ->. destruct Hr as (addrs & _ & Hl & Ha). rewrite Hl. split.
    + change (MkPrefix (V4 3221225994) 32) with (host_prefix (V4 3221225994)). apply list_elem_of_fmap_2, Ha.
      left. exists (V4 3221225994). split; [by left|reflexivity].
    + intros (a & [= <-] & Hin)%list_elem_of_fmap. apply Ha in Hin as [(x & [[= <-]|[=]] & [=])|[Hin|Hin]].
      * destruct Hin as (r & Hr & Hid & [[[=] _]|[_ Hp]]).
        apply elem_of_cons in Hr as [->|[->|Hr%elem_of_nil]%elem_of_cons]; [|discriminate Hid|done].
        vm_compute in Hp. discriminate Hp.
      * destruct Hin as (r & Hr & Hid & _ & Hh).
        apply elem_of_cons in Hr as [->|[->|Hr%elem_of_nil]%elem_of_cons]; [by apply Hid| |done].
        destruct Hh as [Hh|Hh]; vm_compute in Hh; discriminate Hh.
Defined.

Example check_in_succeeds :
  match (check_in_and_read (MkFanout true) background background "d1"
           (report_of "host" "linux" "1.0" (Some (V4 3221225994)) None) demo_world).1 with
  | Ok text => bool_decide (px_addr <$> listed text = [V4 3221225994; V6 (32 * 2 ^ 120 + 1 * 2 ^ 112 + 13 * 2 ^ 104 + 184 * 2 ^ 96 + 1) EmptyString])
  | _ => false
  end = true.
Proof. vm_compute. reflexivity. Qed.
