(* ===== verification/System.v ===== *)
(** * The registry: what the store promises to the rest of the program

    The abstract specification of the database as the address service: which
    owners exist and are enabled, which devices exist, who owns them, which
    addresses they hold and whether they are enabled.  Everything else the
    tables keep (labels, secrets, sessions, history, deliveries, ...) is
    invisible here.  [registry] reads a database; each operation of the store
    that is visible has an abstract counterpart, and [store_call] of System
    names the counterpart of every operation.  RegistryFacts proves that the
    store refines this specification. *)

From S2P Require Import Prelude GoLib Schema Integrity Effects StoreUsers StoreDevices.

Record entry := MkEntry { en_owner : string; en_ipv4 : option string; en_ipv6 : option string; en_enabled : bool }.

Record Registry := MkRegistry { rg_owners : gmap string bool; rg_devices : gmap string entry }.

(** ** Reading a database *)

Definition owner_of (r : user_row) : string * bool := (ru_id r, ru_disabled r =? 0).
Definition entry_of (r : device_row) : entry :=
  MkEntry (rd_user_id r) (rd_current_ipv4 r) (rd_current_ipv6 r) (rd_disabled r =? 0).
Definition device_of (r : device_row) : string * entry := (rd_id r, entry_of r).

Definition registry (d : DB) : Registry :=
  MkRegistry (list_to_map (owner_of <$> d_users d)) (list_to_map (device_of <$> d_devices d)).

(** ** Abstract operations *)

Definition on_owners (f : gmap string bool -> gmap string bool) (r : Registry) : Registry :=
  MkRegistry (f (rg_owners r)) (rg_devices r).
Definition on_devices (f : gmap string entry -> gmap string entry) (r : Registry) : Registry :=
  MkRegistry (rg_owners r) (f (rg_devices r)).

Definition unseen {A} (a : A) (r : Registry) : Registry := r.

Definition owner_added (id : string) (enabled : bool) : Registry -> Registry := on_owners (insert id enabled).
Definition owner_enabled (id : string) (b : bool) : Registry -> Registry := on_owners (alter (fun _ => b) id).
(** The devices go with their owner. *)
Definition owner_removed (id : string) (r : Registry) : Registry :=
  MkRegistry (delete id (rg_owners r)) (filter (fun kv => en_owner kv.2 <> id) (rg_devices r)).

Definition device_added (id : string) (e : entry) : Registry -> Registry := on_devices (insert id e).
Definition device_removed (id : string) : Registry -> Registry := on_devices (delete id).
Definition device_enabled (id : string) (b : bool) : Registry -> Registry :=
  on_devices (alter (fun e => MkEntry (en_owner e) (en_ipv4 e) (en_ipv6 e) b) id).
(** A report replaces both addresses; an empty one is none. *)
Definition reported (id ipv4 ipv6 : string) : Registry -> Registry :=
  on_devices (alter (fun e => MkEntry (en_owner e) (nullIfEmpty ipv4) (nullIfEmpty ipv6) (en_enabled e)) id).
Definition expired (id : string) (v4 v6 : bool) : Registry -> Registry :=
  on_devices (alter (fun e => MkEntry (en_owner e) (if v4 then None else en_ipv4 e) (if v6 then None else en_ipv6 e)
                                (en_enabled e)) id).

(** ** Reading the registry *)

(** The public address list. *)
Definition published (e : entry) (r : Registry) : Prop :=
  en_enabled e = true /\ rg_owners r !! en_owner e = Some true /\ (is_Some (en_ipv4 e) \/ is_Some (en_ipv6 e)).

(** What a created device enters the registry with. *)
Definition new_entry (d : Device) : entry :=
  MkEntry (dev_UserID d) (nullIfEmpty (dev_CurrentIPv4 d)) (nullIfEmpty (dev_CurrentIPv6 d)) (negb (dev_Disabled d)).

(** * The whole program on one database

    Goroutines reach the database only through the methods of internal/store,
    and each method is one statement or one transaction.  [store_call] lists the
    methods that write, each with its effect on the abstract
    registry of Registry; a run of the program, however its requests and
    background jobs interleave, is a sequence of [system_step]s: such a call,
    for any arguments, under any fault and cancellation, or a step that leaves
    the database alone (a read, a clock reading, work in memory). *)

From S2P Require Import Prelude GoLib Schema Integrity Effects Demo StoreUsers StoreDevices StoreTokens.
From S2P Require Import StoreNotify.

Section Calls.
Context (c : ctx).

Inductive store_call : forall A : Type, M A -> (A -> Registry -> Registry) -> Prop :=
  | call_users_Create u : store_call _ (UserRepo.Create c u)
      (fun u' => owner_added (usr_ID u') (negb (usr_Disabled u')))
  | call_users_Update u : store_call _ (UserRepo.Update c u)
      (fun _ => owner_enabled (usr_ID u) (negb (usr_Disabled u)))
  | call_users_SetRole i r : store_call _ (UserRepo.SetRole c i r) unseen
  | call_users_LinkOIDC m e p s : store_call _ (UserRepo.LinkOIDC c m e p s) unseen
  | call_users_SetDisabled i b : store_call _ (UserRepo.SetDisabled c i b) (fun _ => owner_enabled i (negb b))
  | call_users_Delete i : store_call _ (UserRepo.Delete c i) (fun _ => owner_removed i)
  | call_users_SetWebAuthnHandle i h : store_call _ (UserRepo.SetWebAuthnHandle c i h) unseen
  | call_users_SetPendingEmail i e h x : store_call _ (UserRepo.SetPendingEmail c i e h x) unseen
  | call_users_ClearPendingEmail i : store_call _ (UserRepo.ClearPendingEmail c i) unseen
  | call_users_ConfirmPendingEmail i h n : store_call _ (UserRepo.ConfirmPendingEmail c i h n) unseen
  | call_users_SetEmail i e n : store_call _ (UserRepo.SetEmail c i e n) unseen
  | call_users_ClearExpired n : store_call _ (UserRepo.ClearExpiredPendingEmails c n) unseen
  | call_devices_Create d : store_call _ (DeviceRepo.Create c d) (fun d' => device_added (dev_ID d') (new_entry d'))
  | call_devices_UpdateIP i a b v h o l : store_call _ (DeviceRepo.UpdateIP c i a b v h o l)
      (fun _ => reported i a b)
  | call_devices_Touch i x y l : store_call _ (DeviceRepo.Touch c i x y l) unseen
  | call_devices_Rename i l : store_call _ (DeviceRepo.Rename c i l) unseen
  | call_devices_RotateSecret i l : store_call _ (DeviceRepo.RotateSecret c i l) unseen
  | call_devices_SetDisabled i b : store_call _ (DeviceRepo.SetDisabled c i b) (fun _ => device_enabled i (negb b))
  | call_devices_Delete i : store_call _ (DeviceRepo.Delete c i) (fun _ => device_removed i)
  | call_devices_Advance i f l m x y n : store_call _ (DeviceRepo.AdvanceWarnLevel c i f l m x y n) unseen
  | call_devices_Expire i a b x y n : store_call _ (ExpireFamilies c i a b x y n)
      (fun r => if r.2 then expired i a b else unseen r)
  | call_RecordIPChange ch : store_call _ (RecordIPChange c ch)
      (fun _ => reported (ic_DeviceID ch) (ic_IPv4 ch) (ic_IPv6 ch))
  | call_history_Append h : store_call _ (IPHistoryRepo.Append c h) unseen
  | call_history_Prune i o m b : store_call _ (IPHistoryRepo.Prune c i o m b) unseen
  | call_sessions_Create s : store_call _ (SessionRepo.Create c s) unseen
  | call_sessions_Touch i e : store_call _ (SessionRepo.Touch c i e) unseen
  | call_sessions_Delete i : store_call _ (SessionRepo.Delete c i) unseen
  | call_sessions_DeleteByUser i : store_call _ (SessionRepo.DeleteByUser c i) unseen
  | call_sessions_Prune n : store_call _ (SessionRepo.PruneExpired c n) unseen
  | call_nonces_Insert s e : store_call _ (ReplayNonceRepo.Insert c s e) unseen
  | call_nonces_Prune n : store_call _ (ReplayNonceRepo.PruneExpired c n) unseen
  | call_codes_Create e : store_call _ (EnrollmentCodeRepo.Create c e) unseen
  | call_codes_Consume e d n : store_call _ (EnrollmentCodeRepo.Consume c e d n) unseen
  | call_codes_Prune n : store_call _ (EnrollmentCodeRepo.PruneExpired c n) unseen
  | call_recovery_Create t : store_call _ (AccountRecoveryRepo.Create c t) unseen
  | call_recovery_Consume h n : store_call _ (AccountRecoveryRepo.Consume c h n) unseen
  | call_recovery_Prune n : store_call _ (AccountRecoveryRepo.PruneExpired c n) unseen
  | call_recovery_DeleteUnused u : store_call _ (AccountRecoveryRepo.DeleteUnusedByUser c u) unseen
  | call_flows_Create f : store_call _ (OIDCDeviceFlowRepo.Create c f) unseen
  | call_flows_TryPoll f n : store_call _ (OIDCDeviceFlowRepo.TryPoll c f n) unseen
  | call_flows_Bump f n : store_call _ (OIDCDeviceFlowRepo.BumpInterval c f n) unseen
  | call_flows_Delete f : store_call _ (OIDCDeviceFlowRepo.Delete c f) unseen
  | call_flows_Prune n : store_call _ (OIDCDeviceFlowRepo.PruneExpired c n) unseen
  | call_bootstrap_Set h : store_call _ (BootstrapRepo.SetTokenHash c h) unseen
  | call_bootstrap_Consume : store_call _ (BootstrapRepo.Consume c) unseen
  | call_feed_tokens_Create t : store_call _ (FeedTokenRepo.Create c t) unseen
  | call_feed_tokens_Delete i : store_call _ (FeedTokenRepo.Delete c i) unseen
  | call_feed_tokens_Touch i n : store_call _ (FeedTokenRepo.TouchLastUsed c i n) unseen
  | call_api_keys_Create t : store_call _ (APIKeyRepo.Create c t) unseen
  | call_api_keys_Delete i : store_call _ (APIKeyRepo.Delete c i) unseen
  | call_api_keys_Touch i n : store_call _ (APIKeyRepo.TouchLastUsed c i n) unseen
  | call_feed_state_Bump n : store_call _ (FeedStateRepo.Bump c n) unseen
  | call_credentials_Create w : store_call _ (WebAuthnCredentialRepo.Create c w) unseen
  | call_credentials_Rename i n : store_call _ (WebAuthnCredentialRepo.Rename c i n) unseen
  | call_credentials_Delete i : store_call _ (WebAuthnCredentialRepo.Delete c i) unseen
  | call_credentials_DeleteAll u : store_call _ (WebAuthnCredentialRepo.DeleteAllByUser c u) unseen
  | call_credentials_Update w : store_call _ (WebAuthnCredentialRepo.Update c w) unseen
  | call_audit_Append e : store_call _ (AuditLogRepo.Append c e) unseen
  | call_audit_Prune o b : store_call _ (AuditLogRepo.Prune c o b) unseen
  | call_endpoints_Create e : store_call _ (NotificationEndpointRepo.Create c e) unseen
  | call_endpoints_SetEnabled i b : store_call _ (NotificationEndpointRepo.SetEnabled c i b) unseen
  | call_endpoints_Delete i : store_call _ (NotificationEndpointRepo.Delete c i) unseen
  | call_deliveries_Enqueue d : store_call _ (NotificationDeliveryRepo.Enqueue c d) unseen
  | call_deliveries_Update i a s n f : store_call _ (NotificationDeliveryRepo.UpdateAfterAttempt c i a s n f) unseen
  | call_deliveries_Test e p n : store_call _ (NotificationDeliveryRepo.InsertUserTest c e p n) unseen
  | call_deliveries_Redelivery i n : store_call _ (NotificationDeliveryRepo.InsertRedelivery c i n) unseen
  | call_deliveries_Prune o b : store_call _ (NotificationDeliveryRepo.Prune c o b) unseen.

Lemma store_call_wf A (m : M A) f : store_call A m f -> preserves wf_db m.
Proof. destruct 1; auto with effects. Qed.
End Calls.

Inductive system_step : World -> World -> Prop :=
  | step_call c A (m : M A) f w : store_call c A m f -> system_step w (m w).2
  | step_other w w' : w_db w' = w_db w -> system_step w w'.

Lemma system_step_wf w w' : system_step w w' -> wf_db (w_db w) -> wf_db (w_db w').
Proof.
  intros [c A m f w0 Hcall|w0 w1 Hdb] Hw; [by apply (store_call_wf c A m f Hcall)|by rewrite Hdb].
Qed.

Lemma empty_wf : wf_db empty_db.
Proof. split; apply rows_okb_wf; reflexivity. Qed.

(** What consistency means for the accounts, in terms of the tables. *)
Record accounts_ok (d : DB) : Prop := {
  ao_emails : NoDup (ru_email <$> d_users d);
  ao_ids : NoDup (rd_id <$> d_devices d);
  ao_labels : NoDup ((fun r => (rd_user_id r, rd_label r)) <$> d_devices d);
  ao_owner : forall r, r ∈ d_devices d -> exists u, u ∈ d_users d /\ ru_id u = rd_user_id r;
  ao_history : forall h, h ∈ d_history d -> exists r, r ∈ d_devices d /\ rd_id r = rh_device_id h;
  ao_history_ids : NoDup (rh_id <$> d_history d);
  ao_sessions : forall s, s ∈ d_sessions d -> exists u, u ∈ d_users d /\ ru_id u = rs_user_id s;
  ao_keys : forall k, k ∈ d_api_keys d -> exists u, u ∈ d_users d /\ ru_id u = rk_user_id k;
  ao_nonces : NoDup (rn_signature <$> d_nonces d);
  ao_deliveries : forall v, v ∈ d_deliveries d -> exists e, e ∈ d_endpoints d /\ re_id e = rv_endpoint_id v }.

Lemma labels_NoDup d : wf_db d -> NoDup ((fun r => (rd_user_id r, rd_label r)) <$> d_devices d).
Proof.
  intros Hwf. pose proof (wf_uniq _ _ _ (wf_devices _ Hwf)) as Hu. rewrite uniq_ok_iff in Hu.
  specialize (Hu (fun r => Some (KStr [rd_user_id r; rd_label r])) ltac:(right; left)).
  assert (Ho : omap (fun r => Some (KStr [rd_user_id r; rd_label r])) (d_devices d) =
    (fun p => KStr [p.1; p.2]) <$> ((fun r => (rd_user_id r, rd_label r)) <$> d_devices d)).
  { clear. induction (d_devices d) as [|r t IH]; [done|]. cbn [omap list_omap]. by rewrite IH. }
  rewrite Ho in Hu. by apply NoDup_fmap_1 in Hu.
Qed.

Lemma wf_accounts d : wf_db d -> accounts_ok d.
Proof.
  intros Hwf. split.
  - eapply (uniq_NoDup (R:=user_row) ru_email); [right; left|apply (wf_uniq _ _ _ (wf_users _ Hwf))].
  - eapply (uniq_NoDup rd_id); [left|apply (wf_uniq _ _ _ (wf_devices _ Hwf))].
  - by apply labels_NoDup.
  - intros r Hr. apply parent_user. eapply (fk_holds (R:=device_row)); [apply (wf_devices _ Hwf)|done|left].
  - intros r Hr. apply parent_device. eapply (fk_holds (R:=history_row)); [apply (wf_history _ Hwf)|done|left].
  - eapply (uniq_NoDup_int rh_id); [left|apply (wf_uniq _ _ _ (wf_history _ Hwf))].
  - intros r Hr. apply parent_user. eapply (fk_holds (R:=session_row)); [apply (wf_sessions _ Hwf)|done|left].
  - intros r Hr. apply parent_user. eapply (fk_holds (R:=api_key_row)); [apply (wf_api_keys _ Hwf)|done|left].
  - eapply (uniq_NoDup rn_signature); [left|apply (wf_uniq _ _ _ (wf_nonces _ Hwf))].
  - intros r Hr. apply parent_endpoint. eapply (fk_holds (R:=delivery_row)); [apply (wf_deliveries _ Hwf)|done|left].
Qed.

(** C5: the database is consistent in every state the program can reach: from
    the empty database of a fresh install, under any interleaving of the calls
    of any number of requests and background jobs, and under every fault and
    cancellation, every constraint of the schema holds (keys are unique,
    references lead to rows, AUTOINCREMENT ids increase), so e-mail addresses
    are unique, a user's device labels are unique, no device, session, key or
    history row outlives its owner and no delivery its endpoint. *)
Theorem database_consistent (w w' : World) (Hw : w_db w = empty_db) (Hsteps : rtc system_step w w') :
  wf_db (w_db w') /\ accounts_ok (w_db w').
Proof.
  assert (Hwf : wf_db (w_db w)) by (rewrite Hw; apply empty_wf). clear Hw.
  assert (Hwf' : wf_db (w_db w')).
  { induction Hsteps as [|w w1 w2 Hstep _ IH]; [done|]. by apply IH, (system_step_wf w w1). }
  split; [done|by apply wf_accounts].
Qed.

(** A user, a device of theirs, and its first address. *)
Definition fresh_world : World := MkWorld demo_env 0 empty_db empty_mem.
Definition after_user : World := (UserRepo.Create background
  (MkUser "u1" "a@example.org" "admin" EmptyString EmptyString false 0 0 EmptyString 0) fresh_world).2.
Definition after_device : World := (DeviceRepo.Create background
  (MkDevice "d1" "u1" "laptop" demo_sealed EmptyString EmptyString EmptyString EmptyString EmptyString
     0 false 0 0 0 0 0 0) after_user).2.
Definition after_change : World := (RecordIPChange background
  (MkIPChange "d1" "192.0.2.1" EmptyString "1.0" EmptyString EmptyString true false) after_device).2.

Lemma database_consistent_witness :
  length (d_history (w_db after_change)) = 1%nat /\ accounts_ok (w_db after_change).
Proof.
  split; [vm_compute; reflexivity|].
  refine (proj2 (database_consistent fresh_world after_change eq_refl _)).
  apply (rtc_l _ fresh_world after_user); [exact (step_call background _ _ _ fresh_world (call_users_Create background _))|].
  apply (rtc_l _ after_user after_device); [exact (step_call background _ _ _ after_user (call_devices_Create background _))|].
  apply (rtc_l _ after_device after_change); [exact (step_call background _ _ _ after_device (call_RecordIPChange background _))|].
  apply rtc_refl.
Defined.
