(* ===== verification/Columns.v ===== *)
(** * What the columns hold

    SQLite does not type its columns; the program does, by the conversions of
    the store (nullIfEmpty, nullIfZero, boolToInt).  [typed_db] is the typing
    they are meant to establish: a flag is 0 or 1, an optional text is NULL and
    not the empty string, the three columns of a pending e-mail change are set
    together.  Every operation of the store keeps it. *)

From S2P Require Import Prelude GoLib Schema Integrity Effects Demo StoreUsers StoreDevices StoreTokens.
From S2P Require Import StoreNotify System.

Definition flag (z : Z) : Prop := z = 0 \/ z = 1.
Definition text (o : option string) : Prop := o <> Some EmptyString.

Definition user_typed (r : user_row) : Prop :=
  flag (ru_disabled r) /\
  (is_Some (ru_pending_email r) <-> is_Some (ru_pending_token_hash r)) /\
  (is_Some (ru_pending_email r) <-> is_Some (ru_pending_expires r)).
Definition device_typed (r : device_row) : Prop :=
  flag (rd_disabled r) /\ text (rd_current_ipv4 r) /\ text (rd_current_ipv6 r) /\ text (rd_hostname r) /\
  text (rd_os r) /\ text (rd_client_version r) /\ rd_last_seen_at r <> Some 0.
Definition history_typed (r : history_row) : Prop :=
  text (rh_ipv4 r) /\ text (rh_ipv6 r) /\ text (rh_client_version r).
Definition session_typed (r : session_row) : Prop := text (rs_ip r) /\ text (rs_user_agent r).
Definition endpoint_typed (r : endpoint_row) : Prop := flag (re_enabled r).
Definition api_key_typed (r : api_key_row) : Prop := flag (rk_admin_scope r).
Definition feed_token_typed (r : feed_token_row) : Prop := text (rf_created_by r).

Record typed_db (d : DB) : Prop := {
  ty_users : Forall user_typed (d_users d);
  ty_devices : Forall device_typed (d_devices d);
  ty_history : Forall history_typed (d_history d);
  ty_sessions : Forall session_typed (d_sessions d);
  ty_endpoints : Forall endpoint_typed (d_endpoints d);
  ty_api_keys : Forall api_key_typed (d_api_keys d);
  ty_feed_tokens : Forall feed_token_typed (d_feed_tokens d) }.

(** ** The conversions *)

Lemma flag_bool b : flag (boolToInt b).
Proof. destruct b; [by right|by left]. Qed.
Lemma flag_zero : flag 0.
Proof. by left. Qed.
Lemma flag_one : flag 1.
Proof. by right. Qed.
Lemma text_null s : text (nullIfEmpty s).
Proof. unfold text, nullIfEmpty. case_bool_decide; congruence. Qed.
Lemma text_none : text None.
Proof. done. Qed.
Lemma nonzero_null n : nullIfZero n <> Some 0.
Proof. unfold nullIfZero. destruct (Z.eqb_spec n 0); congruence. Qed.

Create HintDb columns.
#[export] Hint Resolve flag_bool flag_zero flag_one text_null text_none nonzero_null : columns.

Lemma Forall_rows_update {R} (P : R -> Prop) p f t :
  (forall r, P r -> P (f r)) -> Forall P t -> Forall P (rows_update p f t).
Proof. intros Hf Ht. apply Forall_fmap. eapply Forall_impl; [exact Ht|]. intros r Hr. simpl. case_match; auto. Qed.

Lemma Forall_rows_delete {R} (P : R -> Prop) p t : Forall P t -> Forall P (rows_delete p t).
Proof. rewrite !Forall_forall. intros Ht r [Hr _]%elem_of_rows_delete. by apply Ht. Qed.

Lemma Forall_insert {R} (P : R -> Prop) r t : P r -> Forall P t -> Forall P (t ++ [r]).
Proof. intros Hr Ht. apply Forall_app. split; [done|]. by constructor. Qed.

(** ** Statements *)

Ltac typed_row :=
  simpl; unfold user_typed, device_typed, history_typed, session_typed, endpoint_typed, api_key_typed, feed_token_typed;
  simpl; intros; repeat case_match; simplify_eq/=; repeat split; intros;
  repeat match goal with H : _ /\ _ |- _ => destruct H end; eauto with columns; try done; naive_solver.

Ltac typed_table :=
  first [ assumption
        | apply Forall_insert; [typed_row|assumption]
        | apply Forall_rows_update; [typed_row|assumption]
        | apply Forall_rows_delete; assumption ].

Ltac typed_stmt :=
  apply pres_stmt; intros ? Htyped; simpl; repeat case_match; simplify_eq/=; try exact Htyped;
  destruct Htyped; split; simpl; typed_table.

#[export] Hint Extern 2 (preserves typed_db (stmt _ _)) => typed_stmt : effects.
#[export] Hint Extern 2 (preserves typed_db (exec_insert _ _)) => typed_stmt : effects.
#[export] Hint Extern 2 (preserves typed_db (exec_insert_auto _ _)) => typed_stmt : effects.
#[export] Hint Extern 2 (preserves typed_db (exec_update _ _ _)) => typed_stmt : effects.
#[export] Hint Extern 2 (preserves typed_db (exec_update_checked _ _ _)) => typed_stmt : effects.
#[export] Hint Extern 2 (preserves typed_db (exec_delete _ _)) => typed_stmt : effects.
#[export] Hint Extern 2 (preserves typed_db (exec_delete_where _ _)) => typed_stmt : effects.
#[export] Hint Extern 2 (preserves typed_db (NotificationDeliveryRepo.exec_insert_select _ _)) => typed_stmt : effects.

(** The cascades only delete, and clear references. *)
Lemma typed_delete_devices p d : typed_db d -> typed_db (delete_devices p d).
Proof. intros []. split; simpl; try assumption; by apply Forall_rows_delete. Qed.

Lemma typed_delete_users p d : typed_db d -> typed_db (delete_users p d).
Proof.
  intros []. split; simpl; try assumption; try (by apply Forall_rows_delete).
  apply Forall_rows_update; [typed_row|assumption].
Qed.

Lemma typed_delete_endpoints p d : typed_db d -> typed_db (delete_endpoints p d).
Proof. intros []. split; simpl; try assumption; by apply Forall_rows_delete. Qed.

Lemma typed_cascade {R : Type} `{TableDef R} c (p : R -> bool) del :
  (forall p d, typed_db d -> typed_db (del p d)) -> preserves typed_db (exec_delete_cascade c p del).
Proof. intros Hd. apply pres_stmt. intros d. apply Hd. Qed.
#[export] Hint Extern 2 (preserves typed_db (exec_delete_cascade _ _ _)) =>
  (apply typed_cascade; first [exact typed_delete_users | exact typed_delete_devices | exact typed_delete_endpoints]) : effects.

Ltac head_symbol t := lazymatch t with ?f _ => head_symbol f | _ => t end.

Lemma store_call_typed c A (m : M A) f : store_call c A m f -> preserves typed_db m.
Proof.
  destruct 1; match goal with |- preserves _ ?m => let h := head_symbol m in unfold h end;
    unfold DeviceRepo.updateDeviceIP, IPHistoryRepo.appendIPHistory, DeviceRepo.getDeviceTx; pres.
Qed.

Lemma empty_typed : typed_db empty_db.
Proof. split; constructor. Qed.

(** ** Reading loses nothing *)

Lemma flag_read z : flag z -> boolToInt (intToBool z) = z.
Proof. by intros [-> | ->]. Qed.
Lemma text_read o : text o -> nullIfEmpty (scanString o) = o.
Proof. destruct o as [s|]; [|done]. unfold text, nullIfEmpty. simpl. intros Hs. case_bool_decide; congruence. Qed.
Lemma nonzero_read o : o <> Some 0 -> nullIfZero (scanInt64 o) = o.
Proof. destruct o as [n|]; [|done]. unfold nullIfZero. simpl. intros Hn. destruct (Z.eqb_spec n 0); congruence. Qed.

(** What a device row stores of the value that is read from it. *)
Definition stored_as (r : device_row) (d : Device) : Prop :=
  boolToInt (dev_Disabled d) = rd_disabled r /\ nullIfEmpty (dev_CurrentIPv4 d) = rd_current_ipv4 r /\
  nullIfEmpty (dev_CurrentIPv6 d) = rd_current_ipv6 r /\ nullIfEmpty (dev_Hostname d) = rd_hostname r /\
  nullIfEmpty (dev_OS d) = rd_os r /\ nullIfEmpty (dev_ClientVersion d) = rd_client_version r /\
  nullIfZero (dev_LastSeenAt d) = rd_last_seen_at r.

(** The columns are typed in every state the program can reach: flags are
    0 or 1, an absent text is NULL and never the empty string, a pending e-mail
    change has its address, hash and expiry together or none of them.  So the
    conversions on reading lose nothing: writing back what was read of a
    device, a user's flag or a key's scope gives the row's own columns. *)
Theorem columns_typed (w w' : World) (Hw : w_db w = empty_db) (Hsteps : rtc system_step w w') :
  typed_db (w_db w') /\
  (forall r, r ∈ d_devices (w_db w') -> stored_as r (scanDevice r)) /\
  (forall r, r ∈ d_users (w_db w') -> boolToInt (usr_Disabled (scanUser r)) = ru_disabled r) /\
  (forall r, r ∈ d_api_keys (w_db w') -> boolToInt (ak_AdminScope (scanAPIKey r)) = rk_admin_scope r).
Proof.
  assert (Ht : typed_db (w_db w)) by (rewrite Hw; apply empty_typed). clear Hw.
  assert (Ht' : typed_db (w_db w')).
  { induction Hsteps as [|w w1 w2 Hstep _ IH]; [done|]. apply IH. destruct Hstep as [c A m f w0 Hcall|w0 w1 Hdb].
    - by apply (store_call_typed c A m f Hcall).
    - by rewrite Hdb. }
  split; [done|]. destruct Ht' as [Hu Hd _ _ _ Hk _]. rewrite Forall_forall in Hu. rewrite Forall_forall in Hd. rewrite Forall_forall in Hk.
  split_and!.
  - intros r Hr. destruct (Hd r Hr) as (? & ? & ? & ? & ? & ? & ?).
    split_and!; simpl; auto using flag_read, text_read, nonzero_read.
  - intros r Hr. apply flag_read. by destruct (Hu r Hr).
  - intros r Hr. apply flag_read. by apply Hk.
Qed.

Lemma columns_typed_witness : typed_db (w_db after_change) /\ length (d_devices (w_db after_change)) = 1%nat.
Proof.
  split; [|vm_compute; reflexivity].
  refine (proj1 (columns_typed fresh_world after_change eq_refl _)).
  apply (rtc_l _ fresh_world after_user); [exact (step_call background _ _ _ fresh_world (call_users_Create background _))|].
  apply (rtc_l _ after_user after_device); [exact (step_call background _ _ _ after_user (call_devices_Create background _))|].
  apply (rtc_l _ after_device after_change); [exact (step_call background _ _ _ after_device (call_RecordIPChange background _))|].
  apply rtc_refl.
Defined.
