(* ===== verification/RegistryFacts.v ===== *)
(** * The store refines the registry

    Every operation of the store takes the registry of the database it starts
    from to the registry its abstract counterpart names, or leaves it alone;
    ListFeed reads exactly the published devices of the registry. *)

From S2P Require Import Prelude GoLib Schema Integrity Effects Demo StoreUsers StoreDevices StoreTokens.
From S2P Require Import StoreNotify ServiceFacts System.

(** ** Operations the registry does not see *)

Definition shows (r : Registry) (d : DB) : Prop := registry d = r.

Lemma shows_stmt {A} r c (k : DB -> result A * DB) :
  (forall d, registry (k d).2 = registry d) -> preserves (shows r) (stmt c k).
Proof. intros Hk. apply pres_stmt. intros d Hd. unfold shows. by rewrite Hk. Qed.

(** Statements on the tables behind the registry's back. *)
Ltac unseen_stmt := apply shows_stmt; intros ?; simpl; repeat case_match; simplify_eq/=; reflexivity.

Lemma users_updated p f d : (forall r, owner_of (f r) = owner_of r) ->
  registry (setd_users (rows_update p f (d_users d)) d) = registry d.
Proof. intros Hf. unfold registry. simpl. by rewrite rows_update_key. Qed.

Lemma devices_updated p f d : (forall r, device_of (f r) = device_of r) ->
  registry (setd_devices (rows_update p f (d_devices d)) d) = registry d.
Proof. intros Hf. unfold registry. simpl. by rewrite rows_update_key. Qed.

Lemma shows_user_update r c p f : (forall x, owner_of (f x) = owner_of x) ->
  preserves (shows r) (exec_update (R:=user_row) c p f) /\ preserves (shows r) (exec_update_checked (R:=user_row) c p f).
Proof.
  intros Hf. split; apply shows_stmt; intros d; [by apply users_updated|].
  destruct (update_violation p f d); [done|by apply users_updated].
Qed.

Lemma shows_device_update r c p f : (forall x, device_of (f x) = device_of x) ->
  preserves (shows r) (exec_update (R:=device_row) c p f) /\ preserves (shows r) (exec_update_checked (R:=device_row) c p f).
Proof.
  intros Hf. split; apply shows_stmt; intros d; [by apply devices_updated|].
  destruct (update_violation p f d); [done|by apply devices_updated].
Qed.

#[export] Hint Extern 1 (preserves (shows _) (exec_update (R:=user_row) _ _ _)) =>
  (apply shows_user_update; done) : effects.
#[export] Hint Extern 1 (preserves (shows _) (exec_update_checked (R:=user_row) _ _ _)) =>
  (apply shows_user_update; done) : effects.
#[export] Hint Extern 1 (preserves (shows _) (exec_update (R:=device_row) _ _ _)) =>
  (apply shows_device_update; done) : effects.
#[export] Hint Extern 1 (preserves (shows _) (exec_update_checked (R:=device_row) _ _ _)) =>
  (apply shows_device_update; done) : effects.
#[export] Hint Extern 2 (preserves (shows _) (stmt _ _)) => unseen_stmt : effects.
#[export] Hint Extern 2 (preserves (shows _) (exec_insert _ _)) => unseen_stmt : effects.
#[export] Hint Extern 2 (preserves (shows _) (exec_insert_auto _ _)) => unseen_stmt : effects.
#[export] Hint Extern 2 (preserves (shows _) (exec_update _ _ _)) => unseen_stmt : effects.
#[export] Hint Extern 2 (preserves (shows _) (exec_update_checked _ _ _)) => unseen_stmt : effects.
#[export] Hint Extern 2 (preserves (shows _) (exec_delete _ _)) => unseen_stmt : effects.
#[export] Hint Extern 2 (preserves (shows _) (exec_delete_where _ _)) => unseen_stmt : effects.
#[export] Hint Extern 2 (preserves (shows _) (exec_delete_cascade _ _ delete_endpoints)) => unseen_stmt : effects.
#[export] Hint Extern 2 (preserves (shows _) (NotificationDeliveryRepo.exec_insert_select _ _)) => unseen_stmt : effects.

(** The outcome a refined operation may have: all of its effect or none. *)
Definition refines {A} (m : M A) (f : A -> Registry -> Registry) : Prop :=
  forall w, wf_db (w_db w) -> wp m (fun r w' => match r with
    | Ok a => registry (w_db w') = f a (registry (w_db w))
    | _ => registry (w_db w') = registry (w_db w) \/ exists a, registry (w_db w') = f a (registry (w_db w))
    end) w.

Lemma refines_unseen {A} (m : M A) : (forall r, preserves (shows r) m) -> refines m unseen.
Proof.
  intros Hm w _. unfold wp. pose proof (Hm (registry (w_db w)) w eq_refl) as Hr. unfold shows in Hr.
  destruct (m w).1; [done|by left|by left].
Qed.

(** ** Tables as maps *)

Section Maps.
Context {R V : Type} (kv : R -> string * V).
Implicit Types (t : list R) (p : R -> bool).
#[local] Abbreviation as_map t := (list_to_map (kv <$> t) : gmap string V).

Lemma as_map_cons r t : as_map (r :: t) = <[(kv r).1 := (kv r).2]> (as_map t).
Proof. cbn [fmap list_fmap list_to_map foldr]. by destruct (kv r). Qed.

Lemma map_rows_update p f g k t :
  (forall r, r ∈ t -> p r = str_eq (kv r).1 k) -> (forall r, p r = true -> kv (f r) = ((kv r).1, g (kv r).2)) ->
  as_map (rows_update p f t) = alter g k (as_map t).
Proof.
  intros Hp Hf. induction t as [|r t IH]; [symmetry; apply alter_empty|].
  change (rows_update p f (r :: t)) with ((if p r then f r else r) :: rows_update p f t).
  rewrite !as_map_cons, IH by (intros; apply Hp; by right).
  specialize (Hp r ltac:(left)). destruct (p r) eqn:Hr; symmetry in Hp.
  - apply str_eq_true in Hp. rewrite Hf by done. simpl. by rewrite Hp, alter_insert_eq, insert_alter, decide_True.
  - rewrite alter_insert_ne; [done|]. intros Hk. subst k. by rewrite str_eq_refl in Hp.
Qed.

Lemma map_rows_delete p k t : (forall r, r ∈ t -> p r = str_eq (kv r).1 k) ->
  as_map (rows_delete p t) = delete k (as_map t).
Proof.
  unfold rows_delete. intros Hp. induction t as [|r t IH]; [symmetry; apply delete_empty|].
  specialize (IH ltac:(intros; apply Hp; by right)). specialize (Hp r ltac:(left)).
  simpl List.filter. rewrite as_map_cons. destruct (p r) eqn:Hr; symmetry in Hp; simpl negb; cbv iota.
  - apply str_eq_true in Hp. rewrite IH, Hp. by rewrite delete_insert_eq.
  - rewrite as_map_cons, IH, delete_insert_ne; [done|]. intros Hk. subst k. by rewrite str_eq_refl in Hp.
Qed.

Lemma map_rows_filter p (P : string * V -> Prop) `{!forall x, Decision (P x)} t :
  NoDup ((fun r => (kv r).1) <$> t) -> (forall r, r ∈ t -> p r = false <-> P (kv r)) ->
  as_map (rows_delete p t) = filter P (as_map t).
Proof.
  unfold rows_delete. intros Hnd Hp. induction t as [|r t IH]; [symmetry; apply map_filter_empty|].
  cbn [fmap list_fmap] in Hnd. apply NoDup_cons in Hnd as [Hni Hnd].
  specialize (IH Hnd ltac:(intros; apply Hp; by right)). specialize (Hp r ltac:(left)).
  assert (Hnone : as_map t !! (kv r).1 = None).
  { apply not_elem_of_list_to_map_1. by rewrite <- list_fmap_compose. }
  simpl List.filter. rewrite as_map_cons.
  assert (Hkv : kv r = ((kv r).1, (kv r).2)) by (by destruct (kv r)).
  destruct (p r) eqn:Hr; simpl negb; cbv iota.
  - rewrite IH, map_filter_insert_False, delete_id; [done|done|]. rewrite <- Hkv. intros HP. apply Hp in HP. done.
  - rewrite as_map_cons, IH, map_filter_insert_True; [done|]. rewrite <- Hkv. by apply Hp.
Qed.

Lemma map_rows_insert r t : NoDup ((fun r => (kv r).1) <$> t ++ [r]) ->
  as_map (t ++ [r]) = <[(kv r).1 := (kv r).2]> (as_map t).
Proof.
  intros Hnd. rewrite fmap_app in Hnd. apply NoDup_app in Hnd as (_ & Hni & _).
  rewrite fmap_app. simpl. assert (Hkv : kv r = ((kv r).1, (kv r).2)) by (by destruct (kv r)).
  rewrite Hkv at 1. rewrite list_to_map_snoc; [done|].
  rewrite <- list_fmap_compose. intros Hin. apply (Hni _ Hin). left.
Qed.
End Maps.

Lemma users_NoDup d : wf_db d -> NoDup ((fun r => (owner_of r).1) <$> d_users d).
Proof. intros Hwf. apply (uniq_NoDup ru_id); [exact key_user|]. by destruct (wf_users _ Hwf). Qed.

Lemma devices_NoDup d : wf_db d -> NoDup ((fun r => (device_of r).1) <$> d_devices d).
Proof. intros Hwf. apply (uniq_NoDup rd_id); [exact key_device|]. by destruct (wf_devices _ Hwf). Qed.

Lemma boolToInt_zero b : (boolToInt b =? 0) = negb b.
Proof. by destruct b. Qed.

(** ** Operations the registry sees *)

Lemma registry_users d f t :
  list_to_map (owner_of <$> t) = f (list_to_map (owner_of <$> d_users d)) ->
  registry (setd_users t d) = on_owners f (registry d).
Proof. intros Ht. unfold registry, on_owners. simpl. by rewrite Ht. Qed.

Lemma registry_devices d f t :
  list_to_map (device_of <$> t) = f (list_to_map (device_of <$> d_devices d)) ->
  registry (setd_devices t d) = on_devices f (registry d).
Proof. intros Ht. unfold registry, on_devices. simpl. by rewrite Ht. Qed.

(** An operation on the row with an identifier, and its count. *)
Lemma wp_matched (f : Registry -> Registry) n d' w w1 :
  w_db w1 = d' -> registry d' = f (registry (w_db w)) -> (n = 0%nat -> registry d' = registry (w_db w)) ->
  wp (requireMatched n) (fun r w' => match r with
    | Ok _ => registry (w_db w') = f (registry (w_db w))
    | _ => registry (w_db w') = registry (w_db w) \/ exists a : unit, registry (w_db w') = f (registry (w_db w))
    end) w1.
Proof.
  intros Hd Hf H0. apply wp_requireMatched; simpl; rewrite Hd; [right; by exists tt|left; by apply H0|done].
Qed.

Lemma users_Create_refines c u : refines (UserRepo.Create c u) (fun u' => owner_added (usr_ID u') (negb (usr_Disabled u'))).
Proof.
  intros w Hwf. unfold UserRepo.Create. wp_step.
  assert (Hid : forall id w1, w_db w1 = w_db w -> wp (now ← now_unix;
      let u := MkUser id (usr_Email u) (usr_Role u) (usr_OIDCProvider u) (usr_OIDCSubject u)
                 (usr_Disabled u) now now (usr_PendingEmail u) (usr_PendingEmailExpiresAt u) in
      map_err on_unique (exec_insert c (UserRepo.toRow u));; mret u)
    (fun r w' => match r with
      | Ok a => registry (w_db w') = owner_added (usr_ID a) (negb (usr_Disabled a)) (registry (w_db w))
      | _ => registry (w_db w') = registry (w_db w) \/ exists a, registry (w_db w') = owner_added (usr_ID a) (negb (usr_Disabled a)) (registry (w_db w))
      end) w1).
  { intros id w1 Hw. wp_step. wp_step. cbv zeta. wp_step. wp_step. wp_step; simpl; [by rewrite Hw; left|by rewrite Hw; left|].
    wp_step. simpl. rewrite <- Hw.
    match goal with Hi : insert_violation _ _ = None |- _ => apply insert_row_ok in Hi as [Hu _] end.
    apply registry_users. rewrite (map_rows_insert owner_of).
    - simpl. by rewrite boolToInt_zero.
    - apply (uniq_NoDup ru_id); [exact key_user|exact Hu]. }
  destruct (str_eq _ _); wp_step; by apply Hid.
Qed.

Lemma users_unmatched p f d : rows_matched p (d_users d) = 0%nat ->
  registry (setd_users (rows_update p f (d_users d)) d) = registry d.
Proof. intros H0. unfold registry. simpl. by rewrite rows_update_unmatched. Qed.

Lemma devices_unmatched p f d : rows_matched p (d_devices d) = 0%nat ->
  registry (setd_devices (rows_update p f (d_devices d)) d) = registry d.
Proof. intros H0. unfold registry. simpl. by rewrite rows_update_unmatched. Qed.

(** An UPDATE of the row [id], as the registry sees it. *)
Lemma user_update_registry id f g d :
  (forall r, owner_of (f r) = (ru_id r, g (ru_disabled r =? 0))) ->
  registry (setd_users (rows_update (fun r => str_eq (ru_id r) id) f (d_users d)) d) =
    on_owners (alter g id) (registry d).
Proof. intros Hf. apply registry_users, (map_rows_update owner_of); [done|]. intros r _. apply Hf. Qed.

Lemma device_update_registry id f g d :
  (forall r, device_of (f r) = (rd_id r, g (entry_of r))) ->
  registry (setd_devices (rows_update (fun r => str_eq (rd_id r) id) f (d_devices d)) d) =
    on_devices (alter g id) (registry d).
Proof. intros Hf. apply registry_devices, (map_rows_update device_of); [done|]. intros r _. apply Hf. Qed.

Lemma users_Update_refines c u : refines (UserRepo.Update c u) (fun _ => owner_enabled (usr_ID u) (negb (usr_Disabled u))).
Proof.
  intros w Hwf. unfold UserRepo.Update. wp_step. wp_step. wp_step. wp_step. wp_step; simpl; [by left|by left|].
  apply (wp_matched _ _ _ w _ eq_refl); simpl; [|by apply users_unmatched].
  apply user_update_registry. intros r. unfold owner_of. simpl. by rewrite boolToInt_zero.
Qed.

Lemma users_SetDisabled_refines c i b : refines (UserRepo.SetDisabled c i b) (fun _ => owner_enabled i (negb b)).
Proof.
  intros w Hwf. unfold UserRepo.SetDisabled. wp_step. wp_step. wp_step. wp_step; simpl; [by left|].
  apply (wp_matched _ _ _ w _ eq_refl); simpl; [|by apply users_unmatched].
  apply user_update_registry. intros r. unfold owner_of. simpl. by rewrite boolToInt_zero.
Qed.

Lemma delete_users_registry id d : wf_db d ->
  registry (delete_users (fun r => str_eq (ru_id r) id) d) = owner_removed id (registry d).
Proof.
  intros Hwf. unfold registry, owner_removed, delete_users, delete_devices. simpl. f_equal.
  - by apply (map_rows_delete owner_of).
  - apply (map_rows_filter device_of); [by apply devices_NoDup|]. intros r Hr. simpl.
    destruct (parent_user d (rd_user_id r)) as (u & Hu & Huid).
    { eapply (fk_holds (R:=device_row)); [apply (wf_devices _ Hwf)|done|left]. }
    rewrite bool_decide_eq_false, list_elem_of_fmap. split.
    + intros Hn Hid. apply Hn. exists u. split; [done|]. apply elem_of_bfilter. split; [done|].
      apply str_eq_true. congruence.
    + intros Hne (u' & Hu' & [_ Hid%str_eq_true]%elem_of_bfilter). congruence.
Qed.

Lemma users_Delete_refines c i : refines (UserRepo.Delete c i) (fun _ => owner_removed i).
Proof.
  intros w Hwf. unfold UserRepo.Delete. wp_step. wp_step; simpl; [by left|].
  apply wp_requireMatched; simpl; rewrite delete_users_registry by done; [by right; exists tt|by right; exists tt|done].
Qed.

Lemma devices_Create_refines c d : refines (DeviceRepo.Create c d) (fun d' => device_added (dev_ID d') (new_entry d')).
Proof.
  intros w Hwf. unfold DeviceRepo.Create. wp_step.
  assert (Hok : forall d' w1, w_db w1 = w_db w -> wp (map_err on_unique (exec_insert c (deviceToRow d'));; mret d')
    (fun r w' => match r with
      | Ok a => registry (w_db w') = device_added (dev_ID a) (new_entry a) (registry (w_db w))
      | _ => registry (w_db w') = registry (w_db w) \/ exists a, registry (w_db w') = device_added (dev_ID a) (new_entry a) (registry (w_db w))
      end) w1).
  { intros d' w1 Hw. wp_step. wp_step. wp_step; simpl; [by rewrite Hw; left|by rewrite Hw; left|].
    wp_step. simpl. rewrite <- Hw.
    match goal with Hi : insert_violation _ _ = None |- _ => apply insert_row_ok in Hi as [Hu _] end.
    apply registry_devices. rewrite (map_rows_insert device_of).
    - unfold device_of, entry_of, deviceToRow, new_entry. simpl. by rewrite boolToInt_zero.
    - apply (uniq_NoDup rd_id); [exact key_device|exact Hu]. }
  destruct (str_eq _ _); wp_step; wp_step; wp_step; cbv zeta; by apply Hok.
Qed.

Lemma set_reported_registry id v4 v6 v h o x y l u d :
  registry (setd_devices (rows_update (fun r => str_eq (rd_id r) id)
    (DeviceRepo.set_reported v4 v6 v h o x y l u) (d_devices d)) d) = reported id v4 v6 (registry d).
Proof. by apply device_update_registry. Qed.

Lemma devices_UpdateIP_refines c i a b v h o l : refines (DeviceRepo.UpdateIP c i a b v h o l) (fun _ => reported i a b).
Proof.
  intros w Hwf. unfold DeviceRepo.UpdateIP, DeviceRepo.updateDeviceIP. wp_step. wp_step. wp_step. wp_step; simpl; [by left|].
  apply (wp_matched _ _ _ w _ eq_refl); simpl; [|by apply devices_unmatched].
  apply set_reported_registry.
Qed.

Lemma devices_SetDisabled_refines c i b : refines (DeviceRepo.SetDisabled c i b) (fun _ => device_enabled i (negb b)).
Proof.
  intros w Hwf. unfold DeviceRepo.SetDisabled. wp_step. wp_step. wp_step. wp_step; simpl; [by left|].
  apply (wp_matched _ _ _ w _ eq_refl); simpl; [|by apply devices_unmatched].
  apply device_update_registry. intros r. unfold device_of, entry_of. simpl. by rewrite boolToInt_zero.
Qed.

Lemma delete_devices_registry id d :
  registry (delete_devices (fun r => str_eq (rd_id r) id) d) = device_removed id (registry d).
Proof.
  unfold registry, device_removed, on_devices, delete_devices. simpl. f_equal. by apply (map_rows_delete device_of).
Qed.

Lemma devices_Delete_refines c i : refines (DeviceRepo.Delete c i) (fun _ => device_removed i).
Proof.
  intros w Hwf. unfold DeviceRepo.Delete. wp_step. wp_step; simpl; [by left|].
  apply wp_requireMatched; simpl; rewrite delete_devices_registry; [by right; exists tt|by right; exists tt|done].
Qed.

Lemma wp_shows {A} (m : M A) (Q : result A -> World -> Prop) w :
  (forall r, preserves (shows r) m) ->
  (forall r w', registry (w_db w') = registry (w_db w) -> Q r w') -> wp m Q w.
Proof. intros Hm HQ. apply HQ. exact (Hm (registry (w_db w)) w eq_refl). Qed.

Lemma append_shows r c h : preserves (shows r) (IPHistoryRepo.appendIPHistory c h).
Proof. unfold IPHistoryRepo.appendIPHistory. pres. Qed.

#[export] Hint Resolve append_shows : effects.

Lemma RecordIPChange_refines c ch :
  refines (RecordIPChange c ch) (fun _ => reported (ic_DeviceID ch) (ic_IPv4 ch) (ic_IPv6 ch)).
Proof.
  intros w Hwf. unfold RecordIPChange, DeviceRepo.updateDeviceIP. apply wp_with_tx; [by left|].
  do 4 wp_step. wp_step; simpl; [by left|]. apply wp_requireMatched; simpl; [by left|by left|intros _].
  wp_step. apply wp_shows; [intros; apply append_shows|]. intros [row|e|] w2 Hr; simpl; [|by left|by left].
  wp_step. simpl. split; [by left|]. rewrite Hr. simpl. apply set_reported_registry.
Qed.

(** The row a sweep pins is the only one of its device. *)
Lemma expire_registry id v4 v6 pin4 pin6 now d :
  wf_db d ->
  let p r := DeviceRepo.pinned id pin4 pin6 r && holds_due v4 v6 r in
  rows_matched p (d_devices d) <> 0%nat ->
  registry (setd_devices (rows_update p (expire_row v4 v6 now) (d_devices d)) d) = expired id v4 v6 (registry d).
Proof.
  intros Hwf p (row & Hin & Hp)%rows_matched_pos.
  assert (Hid : forall r, p r = true -> rd_id r = id).
  { intros r. unfold p, DeviceRepo.pinned. rewrite !andb_true_iff. intros [[[Hr _] _] _]. by apply str_eq_true. }
  apply registry_devices, (map_rows_update device_of); [|done].
  intros r Hr. simpl. destruct (str_eq (rd_id r) id) eqn:He; [|destruct (p r) eqn:Hpr; [|done]].
  - apply str_eq_true in He.
    assert (r = row) as ->; [|done]. apply (NoDup_key_eq rd_id (d_devices d)); [|done..|by rewrite He, Hid].
    apply (uniq_NoDup rd_id); [exact key_device|]. by destruct (wf_devices _ Hwf).
  - apply Hid, str_eq_true in Hpr. congruence.
Qed.

Lemma ExpireFamilies_refines c i a b x y n :
  refines (ExpireFamilies c i a b x y n) (fun r => if r.2 then expired i a b else unseen r).
Proof.
  intros w Hwf. unfold ExpireFamilies, DeviceRepo.getDeviceTx. apply wp_with_tx; [by left|].
  wp_step. wp_step; simpl; [by left|]. wp_step. wp_step; simpl; [by left|].
  destruct (Nat.eqb _ 0) eqn:Hn; [by wp_step|]. apply Nat.eqb_neq in Hn.
  wp_step. apply wp_get_one; simpl; [by left|by left|]. intros r _.
  wp_step. apply wp_shows; [intros; apply append_shows|]. intros [row|e|] w2 Hr; simpl; [|by left|by left].
  wp_step. simpl. split; [by left|]. rewrite Hr. simpl. by apply expire_registry.
Qed.

Ltac head_of t := lazymatch t with ?f _ => head_of f | _ => t end.
Ltac shows_call := match goal with |- preserves _ ?m => let h := head_of m in unfold h end; pres.

(** ** Theorems *)

(** C6: the store refines the registry: every operation that writes, under
    every fault and cancellation, either has on the registry exactly the effect
    its abstract counterpart names or has none; it always has it when it
    succeeds.  So no other operation of the program moves a device to another
    owner, changes an address, or lets a device outlive its owner. *)
Theorem store_refines_registry (c : ctx) (A : Type) (m : M A) (f : A -> Registry -> Registry)
    (Hcall : store_call c A m f) : refines m f.
Proof.
  destruct Hcall; lazymatch goal with |- refines _ unseen => apply refines_unseen; intros rg; shows_call | _ => idtac end;
    auto using users_Create_refines, users_Update_refines, users_SetDisabled_refines, users_Delete_refines,
      devices_Create_refines, devices_UpdateIP_refines, devices_SetDisabled_refines, devices_Delete_refines,
      RecordIPChange_refines, ExpireFamilies_refines.
Qed.

(** A check-in of the demo device moves it to its new address. *)
Definition demo_change : IPChange := MkIPChange "d1" "198.51.100.7" EmptyString "1.0" EmptyString EmptyString true false.

Lemma demo_change_run : (RecordIPChange background demo_change demo_world).1 =
  Ok (MkIPHistory 4 "d1" "198.51.100.7" EmptyString 1001 "1.0").
Proof. vm_compute. reflexivity. Qed.

Lemma store_refines_registry_witness :
  rg_devices (registry (w_db (RecordIPChange background demo_change demo_world).2)) !! "d1"%string =
    Some (MkEntry "u1" (Some "198.51.100.7"%string) None true).
Proof.
  pose proof (store_refines_registry background _ _ _ (call_RecordIPChange background demo_change) demo_world demo_wf) as Hw.
  pose proof (wp_elim _ _ _ _ _ Hw (run_eq _ _ demo_change_run)) as Hr. cbv beta iota in Hr.
  rewrite Hr. vm_compute. reflexivity.
Defined.

Lemma lookup_registry_device d id e : wf_db d ->
  rg_devices (registry d) !! id = Some e <-> exists r, r ∈ d_devices d /\ rd_id r = id /\ entry_of r = e.
Proof.
  intros Hwf. simpl. rewrite <- elem_of_list_to_map.
  - rewrite list_elem_of_fmap. unfold device_of. split; [intros (r & [= -> ->] & Hr); eauto|].
    intros (r & Hr & <- & <-). eauto.
  - rewrite <- list_fmap_compose. by apply devices_NoDup.
Qed.

Lemma lookup_registry_owner d id b : wf_db d ->
  rg_owners (registry d) !! id = Some b <-> exists u, u ∈ d_users d /\ ru_id u = id /\ (ru_disabled u =? 0) = b.
Proof.
  intros Hwf. simpl. rewrite <- elem_of_list_to_map.
  - rewrite list_elem_of_fmap. unfold owner_of. split; [intros (r & [= -> ->] & Hr); eauto|].
    intros (r & Hr & <- & <-). eauto.
  - rewrite <- list_fmap_compose. by apply users_NoDup.
Qed.

Lemma published_row d r : wf_db d -> r ∈ d_devices d ->
  published (entry_of r) (registry d) <-> has_enabled_owner (d_users d) r = true.
Proof.
  intros Hwf Hr. unfold published, has_enabled_owner. rewrite (lookup_registry_owner d (rd_user_id r) true Hwf).
  rewrite existsb_exists. unfold DeviceRepo.feed_row_ok. simpl. split.
  - intros (He & (u & Hu & Hid & Hen) & Ha). exists u. split; [by apply list_elem_of_In|].
    rewrite !andb_true_iff, orb_true_iff, !bool_decide_eq_true, str_eq_true. done.
  - intros (u & Hu%list_elem_of_In & Hok). rewrite !andb_true_iff, orb_true_iff, !bool_decide_eq_true, str_eq_true in Hok.
    destruct Hok as [[[Hid He] Hen] Ha]. split_and!; try done. by exists u.
Qed.

(** The feed reads the registry: ListFeed answers, in increasing order of
    the identifiers, one line for each published device (an enabled device of
    an enabled owner that holds an address) with the addresses the registry
    holds for it, and no other line. *)
Theorem ListFeed_reads_registry (c : ctx) (w : World) (Hwf : wf_db (w_db w)) :
  wp (DeviceRepo.ListFeed c) (fun r w' => w_db w' = w_db w /\ match r with
    | Ok l => StronglySorted string_lt (DeviceRepo.fd_ID <$> l) /\
        forall id v4 v6,
          (exists fd, fd ∈ l /\ DeviceRepo.fd_ID fd = id /\ DeviceRepo.fd_IPv4 fd = v4 /\ DeviceRepo.fd_IPv6 fd = v6) <->
          (exists e, rg_devices (registry (w_db w)) !! id = Some e /\ published e (registry (w_db w)) /\
             v4 = scanString (en_ipv4 e) /\ v6 = scanString (en_ipv6 e))
    | Err e => e = ErrDriver
    | Panic => False
    end) w.
Proof.
  set (d := w_db w). unfold DeviceRepo.ListFeed. wp_step; [done|]. split; [done|]. fold d.
  unfold DeviceRepo.listFeedQuery. rewrite join_filter by by apply users_NoDup. split.
  - rewrite <- list_fmap_compose.
    apply (sorted_ids (List.filter (has_enabled_owner (d_users d)) (d_devices d))).
    by apply NoDup_fmap_bfilter, devices_NoDup.
  - intros id v4 v6. setoid_rewrite lookup_registry_device; [|done]. split.
    + intros (fd & (r & -> & [Hr Hok]%elem_of_order_by%elem_of_bfilter)%list_elem_of_fmap & <- & <- & <-).
      exists (entry_of r). split; [by exists r|]. split; [|done]. by apply published_row.
    + intros (e & (r & Hr & <- & <-) & Hp%published_row & -> & ->); [|done..].
      exists (DeviceRepo.scanFeedDevice r). split; [|done]. apply list_elem_of_fmap. exists r. split; [done|].
      by apply elem_of_order_by, elem_of_bfilter.
Qed.

Lemma ListFeed_reads_registry_witness :
  exists fd, fd ∈ default [] (match (DeviceRepo.ListFeed background demo_world).1 with Ok l => Some l | _ => None end) /\
    DeviceRepo.fd_IPv4 fd = "192.0.2.1"%string.
Proof.
  pose proof (ListFeed_reads_registry background demo_world demo_wf) as Hw.
  assert (Hrun : DeviceRepo.ListFeed background demo_world =
    (Ok [DeviceRepo.MkFeedDevice "d1" "laptop" "192.0.2.1" "2001:db8::1" 900], (DeviceRepo.ListFeed background demo_world).2))
    by (apply run_eq; vm_compute; reflexivity).
  destruct (wp_elim _ _ _ _ _ Hw Hrun) as (_ & _ & Hall). rewrite Hrun. simpl.
  destruct (proj2 (Hall "d1"%string "192.0.2.1"%string "2001:db8::1"%string)) as (fd & Hin & _ & H4 & _).
  - exists (MkEntry "u1" (Some "192.0.2.1"%string) (Some "2001:db8::1"%string) true).
    split; [vm_compute; reflexivity|]. split; [|done]. split; [done|]. split; [vm_compute; reflexivity|]. left. by eexists.
  - by exists fd.
Defined.
