(* ===== verification/Config.v ===== *)
(** * internal/config/config.go: what the server accepts as its configuration

    The sections of the configuration, the keys and their prefixes, every
    validation of [Load] in its order, the derivation of the WebAuthn relying
    party and the start-up warnings.  Reading files and the environment is
    viper's; what it hands over is an argument of [Load].  The sections other
    parts read are declared with those parts (EmailSection, RetentionSection,
    FeedSection, SessionCfg, OIDCCfg).  A duration is a number of nanoseconds. *)

From S2P Require Import Prelude GoLib Schema Effects NetAddr Email Envelope Stale Pruner SignIn ApiCore.
From Stdlib Require Import Ascii.

Record WebAuthnCfg := MkWebAuthnCfg { wa_RPID : string; wa_RPOrigin : string; wa_RPDisplayName : string; wa_Timeout : Z }.

Record AuthSection := MkAuthSection {
  as_Session : SessionCfg; as_SessionTTL : Z; as_SlideWindow : Z; as_SkewWindow : Z; as_NonceTTL : Z;
  as_SecretKey : string; as_OIDC : OIDCCfg; as_WebAuthn : WebAuthnCfg; as_HideLocalLoginUI : bool;
  as_RegistrationLinkTTL : Z }.

Record NotificationsCfg := MkNotificationsCfg {
  nc_Enabled : bool; nc_AllowedPrivateCIDRs : list string; nc_Timeout : Z; nc_MaxAttempts : Z }.

Record OTLPSection := MkOTLP { ot_Enabled : bool; ot_Endpoint : string; ot_ServiceName : string }.
Record ObservabilitySection := MkObservability { ob_RequestIDHeader : string; ob_OTLP : OTLPSection }.

Record Config := MkConfig {
  cfg_Listen : string; cfg_BaseURL : string; cfg_DatabasePath : string; cfg_LogLevel : string;
  cfg_LogFormat : string; cfg_LogOutput : string; cfg_Auth : AuthSection; cfg_EmailEnabled : bool;
  cfg_Email : EmailSection; cfg_Notifications : NotificationsCfg; cfg_Feed : FeedSection;
  cfg_Retention : RetentionSection; cfg_Observability : ObservabilitySection }.

(** One constructor per message. *)
Inductive config_error :=
  | ErrRead | ErrNullSection (key : string) | ErrUnmarshal | ErrDatabasePath
  | ErrNonceTTL | ErrLinkTTL
  | ErrOIDCFields | ErrOIDCBaseURL | ErrOIDCScopes
  | ErrBaseURLMissing | ErrBaseURLParse | ErrBaseURLRelative | ErrBaseURLASCII
  | ErrEmailHost | ErrEmailPort | ErrFromMissing | ErrFromInvalid | ErrFromForm | ErrFromASCII | ErrFromUnroutable
  | ErrEmailTLS | ErrCleartextCredentials | ErrCredentialPair | ErrCredentialSpace
  | ErrPrefix (cidr : string) | ErrNotifyTimeout | ErrMaxAttempts
  | ErrRetention (name : string) | ErrFeedExpiry
  | ErrHeaderEmpty | ErrHeaderName | ErrHeaderReserved
  | ErrRPMissing | ErrRPBaseURL | ErrRPHost | ErrRPID
  | ErrKeyEncoding | ErrKeyLength.

(** ** Keys *)

Definition default_keys : list string :=
  ["server.listen"; "server.base_url"; "database.path"; "logging.level"; "logging.format"; "logging.output";
   "auth.session.cookie_name"; "auth.session.cookie_secure"; "auth.session.cookie_samesite"; "auth.session.ttl";
   "auth.session.slide_window"; "auth.hmac.skew_window"; "auth.hmac.nonce_ttl"; "auth.hmac.secret_key";
   "auth.oidc.enabled"; "auth.oidc.required"; "auth.oidc.issuer"; "auth.oidc.client_id"; "auth.oidc.client_secret";
   "auth.oidc.scopes"; "auth.oidc.auto_link_by_email"; "auth.oidc.allow_oidc_signup"; "auth.webauthn.rp_id";
   "auth.webauthn.rp_origin"; "auth.webauthn.rp_display_name"; "auth.webauthn.timeout"; "auth.hide_local_login_ui";
   "auth.registration_link_ttl"; "email.enabled"; "email.host"; "email.port"; "email.username"; "email.password";
   "email.from"; "email.tls"; "notifications.enabled"; "notifications.allowed_private_cidrs"; "notifications.timeout";
   "notifications.max_attempts"; "feed.enabled"; "feed.expire_after_days"; "retention.ip_history_days";
   "retention.ip_history_per_device_max"; "retention.audit_log_days"; "retention.notification_deliveries_days";
   "observability.request_id_header"; "observability.otlp.enabled"; "observability.otlp.endpoint";
   "observability.otlp.service_name"]%string.

(** The proper prefixes of the parts of a key, joined. *)
Definition key_prefixes (key : string) : list string :=
  let parts := split_all "." key in
  (fun i => join "." (take i parts)) <$> seq 1 (length parts - 1).

Definition sectionPrefixes : list string := default_keys ≫= key_prefixes.

(** [keys]: what the file alone holds. *)
Definition detectNullSections (keys : list string) : option config_error :=
  ErrNullSection <$> List.find (fun key => bool_decide (key ∈ sectionPrefixes)) keys.

(** [a, b := f(); if err != nil { return err }] *)
Definition first_error (l : list (option config_error)) : option config_error :=
  fold_right (fun e rest => match e with Some x => Some x | None => rest end) None l.

Definition minute : Z := 60 * 1000000000.

Definition validateAuth (cfg : Config) : option config_error :=
  let a := cfg_Auth cfg in
  if as_NonceTTL a <? as_SkewWindow a then Some ErrNonceTTL
  else if as_RegistrationLinkTTL a <? minute then Some ErrLinkTTL
  else None.

Definition validateOIDC (cfg : Config) : option config_error :=
  let o := as_OIDC (cfg_Auth cfg) in
  if negb (oc_Enabled o) then None
  else if str_eq (oc_Issuer o) EmptyString || str_eq (oc_ClientID o) EmptyString || str_eq (oc_ClientSecret o) EmptyString
  then Some ErrOIDCFields
  else if str_eq (cfg_BaseURL cfg) EmptyString then Some ErrOIDCBaseURL
  else if negb (bool_decide ("openid"%string ∈ oc_Scopes o)) then Some ErrOIDCScopes
  else None.

Definition isLocalhostHost (host : string) : bool :=
  str_eq host "localhost" || str_eq host "127.0.0.1" || str_eq host "::1".

Section Config.
Context (mail_parse : string -> option (string * string)) (url_parse : string -> option URL).

Definition validateEmailBaseURL (baseURL : string) : option config_error :=
  if str_eq baseURL EmptyString then Some ErrBaseURLMissing
  else match url_parse baseURL with
  | None => Some ErrBaseURLParse
  | Some u =>
      if str_eq (u_Scheme u) EmptyString || str_eq (u_Host u) EmptyString then Some ErrBaseURLRelative
      else if negb (IsASCII baseURL) then Some ErrBaseURLASCII
      else None
  end.

(** config.go keeps its own copy of the transport's two expressions. *)
Definition isRoutableFrom (address : string) : bool := libraryRecipientRe address.

Definition validateBareFrom (raw parsed : string) : option config_error :=
  if negb (IsASCII parsed) then Some ErrFromASCII
  else if negb (str_eq parsed raw) then Some ErrFromForm
  else if negb (isRoutableFrom raw) then Some ErrFromUnroutable
  else None.

Definition validateFromAddress (from : string) : option config_error :=
  match mail_parse from with
  | None => Some ErrFromInvalid
  | Some (name, address) =>
      if str_eq name EmptyString then validateBareFrom from address
      else if negb (IsASCII name) || negb (displayNameRe name) ||
              negb (str_eq from (name ++ " <" ++ address ++ ">"))
      then Some ErrFromForm
      else validateBareFrom address address
  end.

(** Every problem is reported: errors.Join of the list. *)
Definition validateEmail (cfg : Config) : list config_error :=
  let e := cfg_Email cfg in
  if negb (cfg_EmailEnabled cfg) then []
  else
    option_list (validateEmailBaseURL (cfg_BaseURL cfg)) ++
    (if str_eq (es_Host e) EmptyString then [ErrEmailHost] else []) ++
    (if (es_Port e <? 1) || (65535 <? es_Port e) then [ErrEmailPort] else []) ++
    (if str_eq (es_From e) EmptyString then [ErrFromMissing] else option_list (validateFromAddress (es_From e))) ++
    (if bool_decide (es_TLS e ∈ ["starttls"; "implicit"; "none"]%string) then [] else [ErrEmailTLS]) ++
    (if str_eq (es_TLS e) "none" && negb (str_eq (es_Username e) EmptyString) && negb (isLocalhostHost (es_Host e))
     then [ErrCleartextCredentials] else []) ++
    (if Bool.eqb (str_eq (es_Username e) EmptyString) (str_eq (es_Password e) EmptyString) then [] else [ErrCredentialPair]) ++
    (if negb (str_eq (trim_space (es_Username e)) (es_Username e)) || negb (str_eq (trim_space (es_Password e)) (es_Password e))
     then [ErrCredentialSpace] else []).

Definition validateNotifications (cfg : Config) : option config_error :=
  let n := cfg_Notifications cfg in
  match List.find (fun c => negb (bool_decide (is_Some (parse_prefix c)))) (nc_AllowedPrivateCIDRs n) with
  | Some c => Some (ErrPrefix c)
  | None =>
      if nc_Timeout n <=? 0 then Some ErrNotifyTimeout
      else if (nc_MaxAttempts n <? 1) || (16 <? nc_MaxAttempts n) then Some ErrMaxAttempts
      else None
  end.

(** [p.Masked().String() == "64:ff9b::/96"] *)
Definition is_nat64 (p : prefix) : bool :=
  (px_bits p =? 96) &&
  match px_addr p with V6 n _ => Z.shiftr n 32 =? Z.shiftr (hextets [100; 65435; 0; 0; 0; 0; 0; 0]) 32 | V4 _ => false end.

Definition broad (p : prefix) : bool :=
  (px_bits p =? 0) ||
  match px_addr p with V4 _ => px_bits p <? 8 | V6 _ _ => px_bits p <? 16 end ||
  is_nat64 p.

(** The prefixes the warning names; no warning without one. *)
Definition NotificationsEgressWarning (cfg : Config) : list string :=
  if negb (nc_Enabled (cfg_Notifications cfg)) then []
  else List.filter (fun c => match parse_prefix c with Some p => broad p | None => false end)
         (nc_AllowedPrivateCIDRs (cfg_Notifications cfg)).

Definition validateRPID (rpID : string) : option config_error :=
  match parse_ip rpID with None => None | Some _ => Some ErrRPID end.

(** [cmp.Or] *)
Definition cmp_or (a b : string) : string := if str_eq a EmptyString then b else a.

Definition ResolveWebAuthn (a : AuthSection) (baseURL : string) : (string * string) + config_error :=
  let rpID := wa_RPID (as_WebAuthn a) in
  let rpOrigin := wa_RPOrigin (as_WebAuthn a) in
  let checked rpID rpOrigin := match validateRPID rpID with Some e => inr e | None => inl (rpID, rpOrigin) end in
  if negb (str_eq rpID EmptyString) && negb (str_eq rpOrigin EmptyString) then checked rpID rpOrigin
  else if str_eq baseURL EmptyString then inr ErrRPMissing
  else match url_parse baseURL with
  | None => inr ErrRPBaseURL
  | Some u =>
      if str_eq (u_Hostname u) EmptyString then inr ErrRPHost
      else checked (cmp_or rpID (u_Hostname u)) (cmp_or rpOrigin (u_Scheme u ++ "://" ++ u_Host u))
  end.

Definition has_suffix (s suffix : string) : bool :=
  let n := (String.length s - String.length suffix)%nat in
  (String.length suffix <=? String.length s)%nat && str_eq (String.substring n (String.length suffix) s) suffix.

Definition isLoopbackHost (host : string) : bool :=
  if str_eq host "localhost" || has_suffix host ".localhost" then true
  else match parse_ip host with Some a => is_loopback a | None => false end.

Definition InsecureCookieWarning (cfg : Config) : bool :=
  if negb (sc_CookieSecure (as_Session (cfg_Auth cfg))) || str_eq (cfg_BaseURL cfg) EmptyString then false
  else match url_parse (cfg_BaseURL cfg) with
  | None => false
  | Some u => str_eq (u_Scheme u) "http" && negb (isLoopbackHost (u_Hostname u))
  end.

Definition DecodeSecretKey (b64 : string) : string + config_error :=
  match b64_std_decode b64 with
  | None => inr ErrKeyEncoding
  | Some raw => if negb (Nat.eqb (String.length raw) 32) then inr ErrKeyLength else inl raw
  end.

Definition maxRetentionDays : Z := 36500.

Definition validateRetention (cfg : Config) : option config_error :=
  let r := cfg_Retention cfg in
  first_error ((fun k : string * Z => if (k.2 <? 0) || (maxRetentionDays <? k.2) then Some (ErrRetention k.1) else None) <$>
    [("retention.ip_history_days"%string, ret_IPHistoryDays r);
     ("retention.ip_history_per_device_max"%string, ret_IPHistoryPerDeviceMax r);
     ("retention.audit_log_days"%string, ret_AuditLogDays r);
     ("retention.notification_deliveries_days"%string, ret_DeliveriesDays r)]).

Definition validateFeedExpiry (cfg : Config) : option config_error :=
  let d := fc_ExpireAfterDays (cfg_Feed cfg) in
  if (d <? 0) || (maxRetentionDays <? d) then Some ErrFeedExpiry else None.

(** RFC 7230 tchar. *)
Definition tchar (c : ascii) : bool :=
  cont 97 122 c || cont 65 90 c || cont 48 57 c ||
  bool_decide (c ∈ ["!"; "#"; "$"; "%"; "&"; "'"; "*"; "+"; "-"; "."; "^"; "_"; "`"; "|"; "~"]%char).

(** textproto.CanonicalMIMEHeaderKey of a name whose bytes are all valid: a
    letter is upper-case at the start and after a hyphen, lower-case elsewhere. *)
Definition upper (c : ascii) : ascii := if cont 97 122 c then chr (code c - 32) else c.

Fixpoint canonical_from (start : bool) (s : string) : string :=
  match s with
  | EmptyString => EmptyString
  | String c r => String (if start then upper c else lower c) (canonical_from (Ascii.eqb c "-") r)
  end.
Definition CanonicalMIMEHeaderKey (s : string) : string :=
  if all_chars tchar s then canonical_from true s else s.

Definition reserved_headers : list string :=
  ["Content-Length"; "Content-Type"; "Content-Encoding"; "Transfer-Encoding"; "Connection"; "Trailer"; "Upgrade";
   "Location"; "Cookie"; "Set-Cookie"; "Authorization"; "Proxy-Authorization"; "X-Csrf-Token"]%string ++
  (CanonicalMIMEHeaderKey <$> [HeaderDevice; HeaderTimestamp; HeaderNonce; HeaderSignature]).

Definition validateObservability (cfg : Config) : option config_error :=
  let h := ob_RequestIDHeader (cfg_Observability cfg) in
  if str_eq h EmptyString then Some ErrHeaderEmpty
  else if negb (all_chars tchar h) then Some ErrHeaderName
  else if bool_decide (CanonicalMIMEHeaderKey h ∈ reserved_headers) then Some ErrHeaderReserved
  else None.

(** ** Load *)

(** [file]: the keys of the configuration file, if one is given ([Some None]
    when it cannot be read); [read]: what viper unmarshals. *)
Definition Load (file : option (option (list string))) (read : option Config) : Config + list config_error :=
  let file_error := match file with
    | None => None
    | Some None => Some ErrRead
    | Some (Some keys) => detectNullSections keys
    end in
  match file_error, read with
  | Some e, _ => inr [e]
  | None, None => inr [ErrUnmarshal]
  | None, Some cfg =>
      match first_error [ (if str_eq (cfg_DatabasePath cfg) EmptyString then Some ErrDatabasePath else None);
                          validateAuth cfg; validateOIDC cfg ] with
      | Some e => inr [e]
      | None =>
          match validateEmail cfg with
          | _ :: _ as problems => inr problems
          | [] =>
              match first_error [ validateNotifications cfg; validateRetention cfg; validateFeedExpiry cfg;
                                  validateObservability cfg ] with
              | Some e => inr [e]
              | None => inl cfg
              end
          end
      end
  end.
End Config.

(** * What an accepted configuration guarantees

    [Load] lets through only values the rest of the program can use: the
    transport takes the sender, the retention cut-offs fit the machine, the
    nonces outlive the skew window, the request-id header is none of the headers
    the program itself reads. *)

From S2P Require Import Prelude GoLib Schema Effects NetAddr Email Envelope Stale Pruner SignIn Notify NotifyFacts ApiCore.

(** ** The sender: config.go against email/validate.go *)

(** net/mail reads the address inside [name <address>] as it reads the address
    alone. *)
Definition inner_address (P : string -> option (string * string)) : Prop :=
  forall name a, name <> EmptyString -> P (name ++ " <" ++ a ++ ">")%string = Some (name, a) ->
    exists n, P a = Some (n, a).

Section Sender.
Context (P : string -> option (string * string)).

Lemma validateBareFrom_none raw parsed :
  validateBareFrom raw parsed = None <-> IsASCII parsed = true /\ parsed = raw /\ IsRoutableFrom raw = true.
Proof.
  unfold validateBareFrom, isRoutableFrom, IsRoutableFrom.
  destruct (IsASCII parsed); simpl; [|naive_solver]. destruct (str_eq parsed raw) eqn:He; simpl.
  - apply str_eq_true in He as ->. destruct (libraryRecipientRe raw); simpl; naive_solver.
  - apply str_eq_false in He. naive_solver.
Qed.

Lemma checkAddress_from_none a n a' : P a = Some (n, a') ->
  checkAddress P FieldFrom a = None <-> IsASCII a' = true /\ a' = a /\ IsRoutableFrom a = true.
Proof.
  intros Ha. unfold checkAddress, NormalizeAddress. rewrite Ha.
  destruct (IsASCII a') eqn:Hi; simpl; [|naive_solver]. split.
  - destruct (P a') as [[m b]|] eqn:Hb; [|done]. destruct (str_eq b a') eqn:He; [|done].
    destruct (str_eq a' a) eqn:Hc; simpl; [|done]. apply str_eq_true in Hc as ->.
    by destruct (IsRoutableFrom a).
  - intros (_ & -> & Hr). rewrite Ha, str_eq_refl. simpl. by rewrite str_eq_refl, Hr.
Qed.

Lemma SplitFrom_accepts from : (exists p, SplitFrom P from = inl p) <->
  match P from with
  | None => False
  | Some (EmptyString, _) => checkAddress P FieldFrom from = None
  | Some (name, a) => IsASCII name = true /\ displayNameRe name = true /\ from = (name ++ " <" ++ a ++ ">")%string /\
                      checkAddress P FieldFrom a = None
  end.
Proof.
  unfold SplitFrom. destruct (P from) as [[[|c nm] a]|] eqn:Hp.
  - destruct (checkAddress P FieldFrom from); naive_solver.
  - destruct (IsASCII (String c nm)); simpl; [|naive_solver]. destruct (displayNameRe (String c nm)); simpl; [|naive_solver].
    destruct (str_eq from _) eqn:He; simpl.
    + apply str_eq_true in He. destruct (checkAddress P FieldFrom a); naive_solver.
    + apply str_eq_false in He. naive_solver.
  - unfold checkAddress, NormalizeAddress. rewrite Hp. naive_solver.
Qed.

Lemma from_accepted from (Hin : inner_address P) :
  validateFromAddress P from = None <-> exists p, SplitFrom P from = inl p.
Proof.
  rewrite SplitFrom_accepts. unfold validateFromAddress. destruct (P from) as [[[|c nm] a]|] eqn:Hp; [| |done].
  - rewrite str_eq_refl. by rewrite validateBareFrom_none, checkAddress_from_none by done.
  - change (str_eq (String c nm) EmptyString) with false. cbv iota.
    destruct (IsASCII (String c nm)); simpl; [|naive_solver]. destruct (displayNameRe (String c nm)); simpl; [|naive_solver].
    destruct (str_eq from _) eqn:He; simpl.
    + apply str_eq_true in He. rewrite He in Hp. apply Hin in Hp as [n Hn]; [|done].
      rewrite validateBareFrom_none, (checkAddress_from_none a n a) by done. naive_solver.
    + apply str_eq_false in He. naive_solver.
Qed.
End Sender.

Lemma demo_parse_inner : inner_address demo_parse.
Proof.
  intros name a Hn. unfold demo_parse at 1. destruct (str_eq _ _); [|naive_solver]. intros [= <- <-].
  by exists EmptyString.
Qed.

(** The start-up check of email.from and the check on the send path are
    separate copies that must not diverge: config accepts a sender exactly when
    the envelope check would split it, so no accepted deployment is one that
    refuses to send, and none that could send is refused at start-up. *)
Theorem validateFromAddress_agrees (P : string -> option (string * string)) (Hin : inner_address P) (from : string) :
  validateFromAddress P from = None <-> exists p, SplitFrom P from = inl p.
Proof. by apply from_accepted. Qed.

Lemma validateFromAddress_agrees_witness :
  validateFromAddress demo_parse "DIY DDNS <ddns@example.org>" = None /\
  validateFromAddress demo_parse "ddns@localhost" = Some ErrFromUnroutable /\
  (exists p, SplitFrom demo_parse "DIY DDNS <ddns@example.org>" = inl p).
Proof.
  split; [vm_compute; reflexivity|]. split; [vm_compute; reflexivity|].
  apply (validateFromAddress_agrees demo_parse demo_parse_inner). vm_compute. reflexivity.
Defined.

(** ** The request-id header *)

Fixpoint lower_all (s : string) : string :=
  match s with EmptyString => EmptyString | String c r => String (lower c) (lower_all r) end.

Lemma upper_lower c : upper (lower c) = upper c.
Proof. by_byte c. Qed.
Lemma lower_lower c : lower (lower c) = lower c.
Proof. by_byte c. Qed.
Lemma lower_hyphen c : Ascii.eqb (lower c) "-" = Ascii.eqb c "-".
Proof. by_byte c. Qed.
Lemma lower_tchar c : tchar (lower c) = tchar c.
Proof. by_byte c. Qed.

Lemma canonical_lower b s : canonical_from b (lower_all s) = canonical_from b s.
Proof.
  revert b. induction s as [|c r IH]; intros b; simpl; [done|].
  by destruct b; rewrite ?upper_lower, ?lower_lower, lower_hyphen, IH.
Qed.

Lemma tchars_lower s : all_chars tchar (lower_all s) = all_chars tchar s.
Proof. induction s as [|c r IH]; simpl; [done|]. by rewrite lower_tchar, IH. Qed.

Lemma CanonicalMIMEHeaderKey_lower s t : lower_all s = lower_all t -> all_chars tchar t = true ->
  CanonicalMIMEHeaderKey s = CanonicalMIMEHeaderKey t.
Proof.
  intros He Ht. unfold CanonicalMIMEHeaderKey. rewrite <- (tchars_lower s), He, tchars_lower, Ht.
  by rewrite <- (canonical_lower true s), He, canonical_lower.
Qed.

Lemma reserved_canonical r : r ∈ reserved_headers -> all_chars tchar r = true /\ CanonicalMIMEHeaderKey r = r.
Proof.
  intros Hr. assert (H : forallb (fun r => all_chars tchar r && str_eq (CanonicalMIMEHeaderKey r) r) reserved_headers = true)
    by (vm_compute; reflexivity).
  rewrite forallb_forall in H. apply list_elem_of_In, H, andb_true_iff in Hr as [Ht Hc].
  by rewrite str_eq_true in Hc.
Qed.

Lemma validateObservability_safe cfg r : validateObservability cfg = None -> r ∈ reserved_headers ->
  lower_all (ob_RequestIDHeader (cfg_Observability cfg)) <> lower_all r.
Proof.
  unfold validateObservability. destruct (str_eq _ EmptyString); [done|]. destruct (all_chars tchar _) eqn:Ht; simpl; [|done].
  case_bool_decide as Hin; [done|]. intros _ Hr He. apply Hin.
  destruct (reserved_canonical r Hr) as [Hrt Hrc]. by rewrite (CanonicalMIMEHeaderKey_lower _ r He Hrt), Hrc.
Qed.

(** ** Load *)

Lemma first_error_none l : first_error l = None <-> Forall (fun e => e = None) l.
Proof.
  induction l as [|e l IH]; simpl; [by split|]. rewrite Forall_cons, <- IH. destruct e; naive_solver.
Qed.

Definition days_ok (d : Z) : Prop := 0 <= d <= 36500 /\ in_int64 (d * 86400 * 10 ^ 9).

Lemma in_days d : (d <? 0) || (maxRetentionDays <? d) = false -> days_ok d.
Proof. unfold days_ok, maxRetentionDays, in_int64, min_int64, max_int64. lia. Qed.

Lemma bounded_days d (e : config_error) : (if (d <? 0) || (maxRetentionDays <? d) then Some e else None) = None -> days_ok d.
Proof. destruct (_ || _) eqn:Hb; [done|]. intros _. by apply in_days. Qed.

Section Accepted.
Context (P : string -> option (string * string)) (url_parse : string -> option URL).

Lemma Load_checks file read cfg : Load P url_parse file read = inl cfg ->
  read = Some cfg /\ str_eq (cfg_DatabasePath cfg) EmptyString = false /\ validateAuth cfg = None /\ validateOIDC cfg = None /\
  validateEmail P url_parse cfg = [] /\ validateNotifications cfg = None /\ validateRetention cfg = None /\
  validateFeedExpiry cfg = None /\ validateObservability cfg = None.
Proof.
  unfold Load. destruct (match file with None => None | Some None => _ | Some (Some _) => _ end); [done|].
  destruct read as [c|]; [|done].
  destruct (first_error _) eqn:H1; [done|]. destruct (validateEmail _ _ c) eqn:H2; [|done].
  destruct (first_error [_; _; _; _]) eqn:H3; [done|]. intros [= <-].
  apply first_error_none in H1, H3. rewrite !Forall_cons in H1, H3.
  destruct H1 as (Hd & Ha & Ho & _), H3 as (Hn & Hr & Hf & Hb). rewrite Forall_singleton in Hb.
  split_and!; try done. by destruct (str_eq (cfg_DatabasePath c) EmptyString).
Qed.

Lemma validateEmail_sender cfg : validateEmail P url_parse cfg = [] -> cfg_EmailEnabled cfg = true ->
  validateFromAddress P (es_From (cfg_Email cfg)) = None /\ 1 <= es_Port (cfg_Email cfg) <= 65535 /\
  es_Host (cfg_Email cfg) <> EmptyString /\ es_TLS (cfg_Email cfg) ∈ ["starttls"; "implicit"; "none"]%string /\
  (es_TLS (cfg_Email cfg) = "none"%string -> es_Username (cfg_Email cfg) <> EmptyString -> isLocalhostHost (es_Host (cfg_Email cfg)) = true) /\
  (es_Username (cfg_Email cfg) = EmptyString <-> es_Password (cfg_Email cfg) = EmptyString).
Proof.
  unfold validateEmail. intros H He. rewrite He in H. cbn [negb] in H. revert H. generalize (cfg_Email cfg). intros e H.
  repeat (apply app_eq_nil in H; destruct H as [? H]).
  repeat match goal with
  | X : (if ?b then _ else _) = [] |- _ => let E := fresh "E" in destruct b eqn:E; try discriminate X
  end.
  rewrite ?bool_decide_eq_true, ?str_eq_true, ?str_eq_false in *. split_and!; try done; try lia.
  - by destruct (validateFromAddress P (es_From e)).
  - intros Ht Hu. rewrite Ht in E1. apply str_eq_false in Hu. rewrite Hu in E1. by apply negb_false_iff.
  - rewrite <- !str_eq_true. destruct (str_eq (es_Username e) _), (str_eq (es_Password e) _); done.
Qed.

Lemma notification_bounds cfg : validateNotifications cfg = None ->
  0 < nc_Timeout (cfg_Notifications cfg) /\ 1 <= nc_MaxAttempts (cfg_Notifications cfg) <= 16.
Proof.
  unfold validateNotifications. destruct (List.find _ _); [done|]. destruct (Z.leb_spec (nc_Timeout (cfg_Notifications cfg)) 0); [done|].
  destruct (_ || _) eqn:Hb; [done|]. lia.
Qed.

Lemma retention_days cfg : validateRetention cfg = None ->
  days_ok (ret_IPHistoryDays (cfg_Retention cfg)) /\ days_ok (ret_AuditLogDays (cfg_Retention cfg)) /\
  days_ok (ret_DeliveriesDays (cfg_Retention cfg)).
Proof.
  unfold validateRetention. cbn [fmap list_fmap fst snd]. intros H%first_error_none. rewrite !Forall_cons in H.
  destruct H as (H1 & _ & H3 & H4 & _). split; [|split]; by eapply bounded_days.
Qed.

Lemma feed_days cfg : validateFeedExpiry cfg = None -> days_ok (fc_ExpireAfterDays (cfg_Feed cfg)).
Proof. unfold validateFeedExpiry. apply bounded_days. Qed.
End Accepted.

(** A deployment with e-mail and a webhook network. *)
Definition demo_config : Config :=
  MkConfig ":8080" "https://dns.example.org" "/var/lib/ddns.db" "info" "json" "stderr"
    (MkAuthSection (MkSessionCfg "diyddns_session" true "lax") (720 * 60 * minute) (168 * 60 * minute) (2 * minute) (2 * minute)
       EmptyString (MkOIDCCfg false false EmptyString EmptyString EmptyString ["openid"; "email"]%string false false)
       (MkWebAuthnCfg EmptyString EmptyString "diyddns" minute) false (72 * 60 * minute))
    true (MkEmailSection "smtp.example.org" 587 EmptyString EmptyString "DIY DDNS <ddns@example.org>" "starttls")
    (MkNotificationsCfg true ["10.0.0.0/8"%string] (10 * 1000000000) 6) (MkFeedSection true 30) (MkRetention 90 0 365 30)
    (MkObservability "X-Request-ID" (MkOTLP false EmptyString "diyddns")).

Definition demo_url (s : string) : option URL := Some (MkURL "https" "dns.example.org" "dns.example.org" EmptyString).

Section Loaded.
Context (P : string -> option (string * string)) (url_parse : string -> option URL).

(** The headers a request id must not go by: those that carry a credential of
    the browser's, of an API or feed client or of an agent, and those that frame
    every response. *)
Definition critical_headers : list string :=
  ["Cookie"; "Set-Cookie"; "Authorization"; "Proxy-Authorization"; "X-CSRF-Token";
   "X-Diyddns-Device"; "X-Diyddns-Timestamp"; "X-Diyddns-Nonce"; "X-Diyddns-Signature";
   "Content-Length"; "Content-Type"; "Content-Encoding"; "Transfer-Encoding"; "Connection"; "Trailer"; "Upgrade";
   "Location"]%string.

Lemma critical_reserved header : header ∈ critical_headers ->
  exists r, r ∈ reserved_headers /\ lower_all r = lower_all header.
Proof.
  intros Hh. exists (CanonicalMIMEHeaderKey header).
  assert (H : forallb (fun h => bool_decide (CanonicalMIMEHeaderKey h ∈ reserved_headers) &&
    str_eq (lower_all (CanonicalMIMEHeaderKey h)) (lower_all h)) critical_headers = true) by (vm_compute; reflexivity).
  rewrite forallb_forall in H. apply list_elem_of_In, H, andb_true_iff in Hh as [Hr Hl].
  by rewrite bool_decide_eq_true in Hr; rewrite str_eq_true in Hl.
Qed.

(** C29: a configuration [Load] lets through is one the program can run on: the
    nonces outlive the skew window, every day count is at most a century and its
    nanoseconds fit 64 bits, every attempt the worker may make has a positive
    back-off, the transport takes the sender and never sends credentials in the
    clear, and the request-id header is, whatever its case, none of the
    seventeen listed headers: those that carry a credential (cookies,
    Authorization, the CSRF token, an agent's four) and those that frame every
    response (lengths, types, encodings, the connection, Location).  Other
    headers the program sets or reads, as Cache-Control, ETag, Last-Modified and
    If-None-Match, are accepted. *)
Theorem Load_safe (file : option (option (list string))) (read : option Config) (cfg : Config) (jitter : Z -> Z) (header : string)
  (Hload : Load P url_parse file read = inl cfg)
  (Hin : inner_address P) (Hj : jitter_law jitter) (Hr : header ∈ critical_headers) :
  as_SkewWindow (cfg_Auth cfg) <= as_NonceTTL (cfg_Auth cfg) /\ minute <= as_RegistrationLinkTTL (cfg_Auth cfg) /\
  Forall days_ok [ret_IPHistoryDays (cfg_Retention cfg); ret_AuditLogDays (cfg_Retention cfg);
                  ret_DeliveriesDays (cfg_Retention cfg); fc_ExpireAfterDays (cfg_Feed cfg)] /\
  (0 < nc_Timeout (cfg_Notifications cfg) /\ 1 <= nc_MaxAttempts (cfg_Notifications cfg)) /\
  (forall a, 2 <= a <= nc_MaxAttempts (cfg_Notifications cfg) -> exists d, backoffFor jitter a = Some d /\ 0 < d <= maxBackoff) /\
  (cfg_EmailEnabled cfg = true -> (exists p, SplitFrom P (es_From (cfg_Email cfg)) = inl p) /\
     (es_TLS (cfg_Email cfg) = "none"%string -> es_Username (cfg_Email cfg) <> EmptyString ->
      isLocalhostHost (es_Host (cfg_Email cfg)) = true)) /\
  lower_all (ob_RequestIDHeader (cfg_Observability cfg)) <> lower_all header.
Proof.
  apply Load_checks in Hload as (_ & _ & Ha & _ & He & Hn & Hret & Hf & Ho). split_and!.
  - revert Ha. unfold validateAuth. destruct (Z.ltb_spec (as_NonceTTL (cfg_Auth cfg)) (as_SkewWindow (cfg_Auth cfg))); [done|lia].
  - revert Ha. unfold validateAuth. destruct (_ <? _); [done|].
    destruct (Z.ltb_spec (as_RegistrationLinkTTL (cfg_Auth cfg)) minute); [done|lia].
  - apply retention_days in Hret as (H1 & H2 & H3). repeat apply Forall_cons_2; try done. by apply feed_days.
  - apply notification_bounds in Hn. lia.
  - apply notification_bounds in Hn. lia.
  - intros a Ha'. apply notification_bounds in Hn. destruct (backoff_value jitter a Hj) as (d & Hd & _ & Hlo & Hhi); [lia|].
    exists d. split; [done|lia].
  - intros Hen. destruct (validateEmail_sender P url_parse cfg He Hen) as (Hs & _ & _ & _ & Hc & _). split; [|done].
    by apply from_accepted.
  - destruct (critical_reserved header Hr) as (r & Hin' & <-). by apply validateObservability_safe.
Qed.
End Loaded.

Lemma Load_safe_witness :
  Load demo_parse demo_url (Some (Some default_keys)) (Some demo_config) = inl demo_config /\
  lower_all "X-Request-ID" <> lower_all "COOKIE".
Proof.
  split; [vm_compute; reflexivity|].
  assert (Hj : jitter_law (fun b => b)) by (intros b Hb; lia).
  assert (Hc : "Cookie"%string ∈ critical_headers) by (by apply (bool_decide_unpack _)).
  assert (Hl : Load demo_parse demo_url None (Some demo_config) = inl demo_config) by (vm_compute; reflexivity).
  exact (proj2 (proj2 (proj2 (proj2 (proj2 (proj2
    (Load_safe demo_parse demo_url None (Some demo_config) demo_config (fun b => b) "Cookie" Hl demo_parse_inner Hj Hc))))))).
Defined.
