(* ===== verification/WebCore.v ===== *)
(** * internal/server/webui: requests, pages and guards

    The parts every page shares: view.go (statuses and times), handlers.go (the
    page data, the error page, the sign-in and registration pages), auth.go
    (the guards) and the routes of webui.go's table ([webRoute]).  A reply is the
    page with the data its template is executed on, or a redirect; the HTML of
    the templates is html/template's.  Log lines are not modelled. *)

From S2P Require Import Prelude GoLib Schema Effects Dates StoreUsers StoreDevices StoreTokens Auth ServiceDevices.
From S2P Require Import ServiceTokens NetAddr Notify Endpoints Email Envelope Passkeys Grants Stale SignIn ApiCore ApiDevices Config.
From Stdlib Require Import Ascii.

(** ** Requests *)

(** [wq_Segments] is the path after its first slash, cut at the slashes;
    [wq_Form] is the parsed body, [None] when it is malformed. *)
Record WebRequest := MkWebRequest {
  wq_ctx : ctx; wq_Method : string; wq_Path : string; wq_Segments : list string; wq_Host : string; wq_TLS : bool;
  wq_Cookie : string -> option string; wq_Query : list (string * string);
  wq_Form : option (list (string * string)); wq_PathValue : string -> string }.

(** url.Values: the first value of a key, or the empty string. *)
Definition values_get (l : list (string * string)) (key : string) : string :=
  match List.find (fun p => str_eq p.1 key) l with Some p => p.2 | None => EmptyString end.

Definition query (rq : WebRequest) (key : string) : string := values_get (wq_Query rq) key.
Definition PostFormValue (rq : WebRequest) (key : string) : string := values_get (default [] (wq_Form rq)) key.

(** ** Dependencies *)

Record WebDeps := MkWebDeps {
  wd_Sessions : SessionManager; wd_Cfg : Config.Config; wd_devNotifier : DeviceNotifier; wd_sealKey : string;
  wd_codeTTL : Z; wd_Grants : GrantService; wd_Mailer : option Mailer; wd_baseURL : string;
  wd_Notify : NotificationService; wd_Info : Info; wd_StartedAt : Z }.

Definition unix_of (now : Z) : Z := now / second.

(** ** view.go *)

Inductive Status := StatusOnline | StatusStale | StatusDisabled | StatusNeverSeen.

#[export] Instance Status_eq_dec : EqDecision Status.
Proof. solve_decision. Defined.

(** The Go constants are these texts. *)
Definition status_text (s : Status) : string :=
  match s with StatusOnline => "online" | StatusStale => "stale" | StatusDisabled => "disabled" | StatusNeverSeen => "never" end.

Definition staleAfter : Z := 15 * 60 * second.

Definition deviceStatus (d : Device) (now : Z) : Status :=
  if dev_Disabled d then StatusDisabled
  else if dev_LastSeenAt d =? 0 then StatusNeverSeen
  else if time_sub now (dev_LastSeenAt d * second) <=? staleAfter then StatusOnline
  else StatusStale.

Definition Label (s : Status) : string :=
  match s with
  | StatusOnline => "Online" | StatusStale => "Stale" | StatusDisabled => "Disabled" | StatusNeverSeen => "Never seen"
  end.

Definition Title (s : Status) : string :=
  if negb (bool_decide (s = StatusStale)) then EmptyString
  else ("No check-in for over " ++ format_int (Z.quot staleAfter (60 * second)) ++ " minutes")%string.

Definition CSSClass (s : Status) : string :=
  match s with StatusOnline => "ok" | StatusStale => "warn" | StatusDisabled => "danger" | StatusNeverSeen => "neutral" end.

Definition relTime (unix now : Z) : string :=
  if unix =? 0 then "never"%string
  else
    let d := time_sub now (unix * second) in
    if d <? 0 then "just now"%string
    else if d <? 60 * second then (format_int (Z.quot d second) ++ "s ago")%string
    else if d <? 3600 * second then (format_int (Z.quot d (60 * second)) ++ "m ago")%string
    else if d <? 24 * 3600 * second then (format_int (Z.quot d (3600 * second)) ++ "h ago")%string
    else if d <? 48 * 3600 * second then "Yesterday"%string
    else format_date (civil (day_of unix)).

Definition secondsPerDay : Z := 86400.

Definition relDays (unix now : Z) : string :=
  if unix =? 0 then "never"%string
  else
    let days := Z.quot (i64 (unix_of now - unix)) secondsPerDay in
    if days <=? 0 then "today"%string
    else if days =? 1 then "1 day ago"%string
    else (format_int days ++ " days ago")%string.

Definition absTime (unix : Z) : string :=
  if unix =? 0 then EmptyString
  else (format_date (civil (day_of unix)) ++ " " ++ format_clock unix ++ " UTC")%string.

Definition baseURL (cfg : Config.Config) (rq : WebRequest) : string :=
  let b := trim_slashes (cfg_BaseURL cfg) in
  if negb (str_eq b EmptyString) then b
  else ((if wq_TLS rq then "https" else "http") ++ "://" ++ wq_Host rq)%string.

Definition findUser (users : list User) (id : string) : option User :=
  List.find (fun u => str_eq (usr_ID u) id) users.

(** ** Page data: the types of the page files, in their order *)

Record appData := MkAppData {
  ad_CSRFToken : string; ad_Title : string; ad_Nav : string; ad_Email : string; ad_IsAdmin : bool; ad_AdminNav : bool;
  ad_NotificationsEnabled : bool; ad_FeedEnabled : bool }.

Record errorData := MkErrorData {
  ed_appData : appData; ed_Status : Z; ed_Message : string; ed_LinkText : string; ed_LinkURL : string }.
Record loginData := MkLoginData {
  lg_CSRFToken : string; lg_ShowPasskey : bool; lg_ShowOIDC : bool; lg_ShowRecover : bool }.
Record registerData := MkRegisterData {
  gd_State : RegisterState; gd_Reason : string; gd_AccountEmail : string; gd_Token : string; gd_MailEnabled : bool }.

(** devices.go *)
Record deviceRow := MkDeviceRow {
  dr_ID : string; dr_Label : string; dr_Status : Status; dr_IPv4 : string; dr_IPv6 : string; dr_LastSeenAt : string;
  dr_LastSeenAbs : string; dr_IPv4Expired : bool; dr_IPv6Expired : bool; dr_IPv4At : string; dr_IPv6At : string;
  dr_ShowExpiry : bool; dr_V4ExpiresIn : string; dr_V6ExpiresIn : string }.
Record devicesData := MkDevicesData {
  dd_appData : appData; dd_Devices : list deviceRow; dd_Q : string; dd_Status : string; dd_Total : nat; dd_Summary : string }.
Record deviceNewData := MkDeviceNewData {
  dn_appData : appData; dn_Label : string; dn_FieldErr : string; dn_Code : string; dn_Command : string;
  dn_ContainerEnroll : string; dn_ContainerRun : string; dn_DevImageNote : string; dn_ExpiresIn : string;
  dn_ExpiresAt : string; dn_BaseURLWarning : string; dn_ContainerHostNote : string }.
Record historyRow := MkHistoryRow {
  hr_ObservedRel : string; hr_ObservedAbs : string; hr_IPv4 : string; hr_IPv6 : string; hr_ClientVersion : string }.
Record deviceDetailData := MkDeviceDetailData {
  de_appData : appData; de_Device : Device; de_Status : Status; de_LastSeenRel : string; de_LastSeenAbs : string;
  de_CreatedAbs : string; de_Owner : string; de_OwnerURL : string; de_HistoryURL : string; de_History : list historyRow;
  de_Error : string; de_Secret : string; de_Credentials : string; de_BaseURLWarning : string; de_IPv4LastKnown : string;
  de_IPv4LastKnownAt : string; de_IPv6LastKnown : string; de_IPv6LastKnownAt : string; de_ShowExpiry : bool;
  de_V4ExpiresIn : string; de_V6ExpiresIn : string }.
Record pager := MkPager { pg_NextURL : string; pg_FirstURL : string; pg_RowCount : nat }.
Record deviceHistoryData := MkDeviceHistoryData {
  dh_appData : appData; dh_Device : Device; dh_Rows : list historyRow; dh_Pager : pager; dh_HasCursor : bool;
  dh_ListURL : string; dh_ListLabel : string; dh_DetailURL : string; dh_HistoryURL : string }.

(** admin_devices.go *)
Record adminDeviceRow := MkAdminDeviceRow { ar_deviceRow : deviceRow; ar_OwnerID : string; ar_OwnerEmail : string; ar_Owned : bool }.
Record ownerOption := MkOwnerOption { oo_ID : string; oo_Email : string }.
Record adminDevicesData := MkAdminDevicesData {
  md_appData : appData; md_Devices : list adminDeviceRow; md_Owners : list ownerOption; md_Owner : string;
  md_Status : string; md_Total : nat; md_Summary : string }.

(** apikeys.go and account.go *)
Record apiKeyRow := MkAPIKeyRow { kr_ID : string; kr_Label : string; kr_CreatedAbs : string; kr_LastUsedAbs : string }.
Record apiKeysSectionData := MkAPIKeysSectionData {
  ks_Keys : list apiKeyRow; ks_Label : string; ks_FieldErr : string; ks_NewLabel : string; ks_Secret : string }.
Record accountData := MkAccountData {
  ac_appData : appData; ac_OIDCLinked : bool; ac_EmailEnabled : bool; ac_PendingEmail : string; ac_PendingNotice : string;
  ac_Link : string; ac_LinkExpiresIn : string; ac_Error : string; ac_APIKeys : apiKeysSectionData }.
Record accountEmailConfirmData := MkAccountEmailConfirmData { cd_appData : appData; cd_PendingEmail : string; cd_Token : string }.

(** feed.go and endpoints.go *)
Record feedTokenRow := MkFeedTokenRow {
  fr_ID : string; fr_Label : string; fr_CreatedBy : string; fr_CreatedAbs : string; fr_LastUsedAbs : string }.
Record adminFeedData := MkAdminFeedData {
  fd_appData : appData; fd_Tokens : list feedTokenRow; fd_Total : nat; fd_Label : string; fd_FieldErr : string;
  fd_NewLabel : string; fd_Secret : string }.
Record endpointRow := MkEndpointRow {
  er_ID : string; er_Label : string; er_URL : string; er_Enabled : bool; er_CreatedAbs : string }.
Record endpointsData := MkEndpointsData {
  es_appData : appData; es_Endpoints : list endpointRow; es_Total : nat; es_Label : string; es_URL : string;
  es_FieldErr : string; es_NewLabel : string; es_Secret : string }.
Record deliveryRow := MkDeliveryRow {
  lr_ID : Z; lr_EventType : string; lr_Status : string; lr_Attempts : Z; lr_FailureClass : string; lr_CreatedAbs : string;
  lr_UpdatedAbs : string; lr_Redeliverable : bool }.
Record endpointDetailData := MkEndpointDetailData {
  ee_appData : appData; ee_Endpoint : NotificationEndpoint; ee_CreatedAbs : string; ee_Deliveries : list deliveryRow;
  ee_Error : string }.

(** admin.go *)
Record userRow := MkUserRow {
  ur_ID : string; ur_Email : string; ur_Role : string; ur_Disabled : bool; ur_Auth : string; ur_Registration : string;
  ur_RegistrationTag : string; ur_IsSelf : bool; ur_LastAdmin : bool }.
Record adminUsersData := MkAdminUsersData {
  us_appData : appData; us_Users : list userRow; us_UserCount : nat; us_DeviceCount : nat; us_DisabledAccountCount : nat;
  us_DisabledDeviceCount : nat; us_Error : string }.
Record adminUserNewData := MkAdminUserNewData {
  un_appData : appData; un_Email : string; un_Role : string; un_Error : string; un_Link : string; un_DeliveryNote : string;
  un_LinkWarning : string; un_InvitedUser : string; un_LinkTTL : string }.
Record adminUserData := MkAdminUserData {
  ua_appData : appData; ua_Target : User; ua_IsSelf : bool; ua_Error : string; ua_Notice : string; ua_Link : string;
  ua_DeliveryNote : string; ua_LinkWarning : string; ua_LinkTTL : string; ua_Registered : bool; ua_RegistrationText : string;
  ua_LinkKind : string; ua_HideActions : bool }.
Record auditRow := MkAuditRow {
  aw_TimeRel : string; aw_TimeAbs : string; aw_Actor : string; aw_EventType : string; aw_Target : string; aw_IP : string }.
Record adminAuditData := MkAdminAuditData {
  aa_appData : appData; aa_Rows : list auditRow; aa_Pager : pager; aa_EventTypes : list string; aa_EventType : string;
  aa_Actor : string; aa_From : string; aa_To : string; aa_ActorNote : string; aa_HasCursor : bool }.
Record infoRow := MkInfoRow { ir_Label : string; ir_Value : string; ir_Note : string }.
Record adminServerData := MkAdminServerData {
  as_appData : appData; as_Version : string; as_Uptime : string; as_DBSize : string; as_Devices : nat; as_Rows : list infoRow }.

(** What a template is executed on. *)
Inductive PageData :=
  | DError (d : errorData) | DLogin (d : loginData) | DRegister (d : registerData)
  | DDevices (d : devicesData) | DDeviceNew (d : deviceNewData) | DDeviceDetail (d : deviceDetailData)
  | DDeviceHistory (d : deviceHistoryData) | DAdminDevices (d : adminDevicesData)
  | DAccount (d : accountData) | DAccountEmailConfirm (d : accountEmailConfirmData)
  | DAdminFeed (d : adminFeedData) | DEndpoints (d : endpointsData) | DEndpointDetail (d : endpointDetailData)
  | DAdminUsers (d : adminUsersData) | DAdminUserNew (d : adminUserNewData) | DAdminUser (d : adminUserData)
  | DAdminAudit (d : adminAuditData) | DAdminServer (d : adminServerData).

(** [WBare] is a status without a body, [WPlainError] http.Error's text, [WFile]
    a file http.ServeContent answers with (its bytes, a range of them, or the
    304, 412 or 416 the conditional headers ask for), [WListing] a directory's
    listing, [WMoved] a 301 to a relative location with the query string. *)
Inductive WebReply :=
  | WPage (status : Z) (page : string) (data : PageData)
  | WRedirect (location : string)
  | WBare (status : Z)
  | WPlainError (status : Z)
  | WFile (path : string)
  | WListing (directory : string)
  | WMoved (location : string).

(** ** Libraries

    What the pages take from the standard library and the system: the clock's
    fraction of a second at each step, Unicode lower case and folding, the %q
    verb, net/url with another host, os.Stat, the runtime line, and whether
    html/template executes a page's layout on its data without an error. *)
Record WebURL := MkWebURL { wu_Hostname : string; wu_Port : string; wu_with_host : string -> string }.

Class WebLibs := {
  sub_second : nat -> Z;
  to_lower : string -> string;
  equal_fold : string -> string -> bool;
  strconv_Quote : string -> string;
  web_url_Parse : string -> option WebURL;
  os_Stat : string -> option Z;
  runtime_line : string;
  execute_layout : string -> PageData -> bool }.

(** time.Now, in nanoseconds. *)
Definition time_now `{WebLibs} : M Z := fun w =>
  (Ok (e_clock (w_env w) (w_n w) * second + sub_second (w_n w)), bump w).
Definition redirect_to (location : string) : M WebReply := mret (WRedirect location).

(** ** handlers.go *)

(** net/http.StatusText, of the statuses the pages use. *)
Definition StatusText (status : Z) : string :=
  if status =? 400 then "Bad Request" else if status =? 403 then "Forbidden" else if status =? 404 then "Not Found"
  else if status =? 422 then "Unprocessable Entity" else if status =? 500 then "Internal Server Error" else EmptyString.

(** webui.go *)
Definition authPages : list string := ["login"; "register"]%string.
Definition appPages : list string :=
  ["account"; "account-email-confirm"; "devices"; "device-new"; "device-detail"; "device-history"; "admin-users";
   "admin-user-new"; "admin-user"; "admin-devices"; "admin-device"; "admin-audit"; "admin-server"; "admin-feed";
   "endpoints"; "endpoint-detail"; "error"]%string.

Definition adminNavPages : list string :=
  ["admin-devices"; "admin-audit"; "admin-endpoints"; "admin-feed"; "admin-server"; "admin-users"]%string.

(** The template is executed into a buffer, so a failure is seen in time. *)
Definition renderStatus `{WebLibs} (status : Z) (page : string) (data : PageData) : M WebReply :=
  if bool_decide (page ∈ authPages ++ appPages) then
    if execute_layout page data then mret (WPage status page data) else mret (WPlainError 500)
  else mret (WPlainError 500).
Definition render `{WebLibs} (page : string) (data : PageData) : M WebReply := renderStatus 200 page data.

Definition sessionHandler : Type := WebRequest -> User -> Session -> M WebReply.

Section Handlers.
Context `{Crypto} `{WebLibs} (h : WebDeps).

Definition newAppData (usr : User) (sess : Session) (title nav : string) : appData :=
    MkAppData (sess_CSRFToken sess) title nav (usr_Email usr) (str_eq (usr_Role usr) "admin")
      (bool_decide (nav ∈ adminNavPages)) (nc_Enabled (cfg_Notifications (wd_Cfg h))) (fc_Enabled (cfg_Feed (wd_Cfg h))).

Definition renderErrorLink (usr : User) (status : Z) (message linkText linkURL : string) : M WebReply :=
    renderStatus status "error"
      (DError (MkErrorData (newAppData usr zero_session (StatusText status) EmptyString) status message linkText linkURL)).
Definition renderError (usr : User) (status : Z) (message : string) : M WebReply :=
    renderErrorLink usr status message EmptyString EmptyString.

  (** devices.go *)
Definition logAndFailMessage (usr : User) (message : string) : M WebReply := renderError usr 500 message.
Definition logAndFail (usr : User) : M WebReply := logAndFailMessage usr "Something went wrong. Please try again.".

  (** [v, err := m; if err != nil { h.logAndFail(...); return }] *)
Definition or_fail {A} (usr : User) (m : M A) (k : A -> M WebReply) : M WebReply := or_else m (fun _ => logAndFail usr) k.

Definition authenticateBrowser (rq : WebRequest) : M (User * Session) :=
    AuthenticateRequest (wq_ctx rq) (wd_Sessions h) (wq_Cookie rq (sc_CookieName (as_Session (cfg_Auth (wd_Cfg h))))).

Definition handleRoot (rq : WebRequest) : M WebReply :=
    or_else (authenticateBrowser rq) (fun _ => redirect_to "/login") (fun _ => redirect_to "/devices").

Definition handleNotFound (rq : WebRequest) : M WebReply :=
    or_else (authenticateBrowser rq) (fun _ => redirect_to "/login")
      (fun us => renderError us.1 404 "That page doesn't exist.").

Definition handleLogin (rq : WebRequest) : M WebReply :=
    r ← catch (authenticateBrowser rq);
    render "login" (DLogin (MkLoginData (match r with inl us => sess_CSRFToken us.2 | inr _ => EmptyString end)
      (negb (as_HideLocalLoginUI (cfg_Auth (wd_Cfg h)))) (oc_Enabled (as_OIDC (cfg_Auth (wd_Cfg h)))) (cfg_EmailEnabled (wd_Cfg h)))).

Definition IsGrant (d : registerData) : bool := match gd_State d with RegisterGrant => true | _ => false end.
Definition IsFirstRun (d : registerData) : bool := match gd_State d with RegisterFirstRun => true | _ => false end.
Definition IsRecovery (d : registerData) : bool := str_eq (gd_Reason d) "recovery".

Definition handleRegister (rq : WebRequest) : M WebReply :=
    let token := query rq "token" in
    or_else (ClassifyRegistration (wq_ctx rq) token)
      (fun _ =>
        b ← Cancelled (wq_ctx rq);
        if b : bool then mret (WBare statusClientClosedRequest) else logAndFail zero_user)
      (fun target => render "register"
        (DRegister (MkRegisterData (rg_State target) (rg_Reason target) (rg_Email target) token (cfg_EmailEnabled (wd_Cfg h))))).

  (** ** auth.go *)

Definition requireSession (next : sessionHandler) (rq : WebRequest) : M WebReply :=
    or_else (authenticateBrowser rq) (fun _ => redirect_to "/login") (fun us => next rq us.1 us.2).

Definition adminOnly (next : sessionHandler) : sessionHandler := fun rq usr sess =>
    if negb (str_eq (usr_Role usr) "admin") then renderError usr 403 "Admin access is required for that page."
    else next rq usr sess.

Definition requireAdmin (next : sessionHandler) : WebRequest -> M WebReply := requireSession (adminOnly next).

Definition requirePost (next : sessionHandler) : WebRequest -> M WebReply :=
    requireSession (fun rq usr sess =>
      match wq_Form rq with
      | None => renderError usr 400 "That form submission was malformed. Reload the page and try again."
      | Some _ =>
          if negb (ValidCSRF sess (PostFormValue rq "csrf")) then
            renderError usr 403 "Your session expired or the form was stale. Reload the page and try again."
          else next rq usr sess
      end).

Definition requirePostAdmin (next : sessionHandler) : WebRequest -> M WebReply := requirePost (adminOnly next).
End Handlers.
