(* ===== verification/WebDevices.v ===== *)
(** * internal/server/webui: device pages

    devices.go (an owner's list, enrollment, detail, history and actions),
    admin_device.go and admin_devices.go (the same pages for an administrator). *)

From S2P Require Import Prelude GoLib Schema Effects Dates StoreUsers StoreDevices StoreTokens Auth ServiceDevices.
From S2P Require Import ServiceTokens NetAddr Notify Endpoints Email Envelope Passkeys Grants Admin Stale SignIn ApiCore Config WebCore.
From Stdlib Require Import Ascii.

(** ** Rows *)

Section Rows.
Context `{WebLibs}.

Definition expiresInText (confirmedAt window now : Z) : string :=
    if confirmedAt =? 0 then EmptyString
    else
      let remaining := ExpiresAt confirmedAt window - unix_of now in
      if remaining <=? 0 then "0 days"%string else HumanDays (i64 (remaining * second)).

Definition expiryFields (d : Device) (feed : FeedSection) (now : Z) : bool * string * string :=
    if negb (ExpiryEnabled feed) then (false, EmptyString, EmptyString)
    else
      let window := Window feed in
      (true,
       if is_set (dev_CurrentIPv4 d) then expiresInText (dev_V4ConfirmedAt d) window now else EmptyString,
       if is_set (dev_CurrentIPv6 d) then expiresInText (dev_V6ConfirmedAt d) window now else EmptyString).

  (** An address is shown as expired when the device has none and the history does. *)
Definition shown_address (current latest : string) (latestAt now : Z) : string * bool * string :=
    if negb (is_set current) && is_set latest then (latest, true, relDays latestAt now) else (current, false, EmptyString).

Definition newDeviceRow (d : Device) (latest : IPHistoryRepo.LatestAddress) (feed : FeedSection) (now : Z) : deviceRow :=
    let '(v4, v4exp, v4at) := shown_address (dev_CurrentIPv4 d) (IPHistoryRepo.la_IPv4 latest) (IPHistoryRepo.la_IPv4At latest) now in
    let '(v6, v6exp, v6at) := shown_address (dev_CurrentIPv6 d) (IPHistoryRepo.la_IPv6 latest) (IPHistoryRepo.la_IPv6At latest) now in
    let '(show, v4in, v6in) := expiryFields d feed now in
    MkDeviceRow (dev_ID d) (dev_Label d) (deviceStatus d now) v4 v6 (relTime (dev_LastSeenAt d) now)
      (absTime (dev_LastSeenAt d)) v4exp v6exp v4at v6at show v4in v6in.

Definition matchesStatus (r : deviceRow) (status : string) : bool :=
    str_eq status EmptyString || str_eq (status_text (dr_Status r)) status.

  (** [strings.Contains] *)
Fixpoint str_contains (s sub : string) : bool :=
    String.prefix sub s || match s with EmptyString => false | String _ r => str_contains r sub end.

Definition matchesQuery (d : Device) (q : string) : bool :=
    if str_eq q EmptyString then true
    else existsb (fun field => str_contains (to_lower field) (to_lower q))
           [dev_Label d; dev_Hostname d; dev_CurrentIPv4 d; dev_CurrentIPv6 d].

Definition count_status (rows : list deviceRow) (s : Status) : Z :=
    Z.of_nat (length (List.filter (fun r => bool_decide (dr_Status r = s)) rows)).

Definition deviceSummary (total : Z) (counts : Status -> Z) : string :=
    if total =? 0 then "No devices yet"%string
    else
      let parts := omap (fun s => let n := counts s in
        if 0 <? n then Some (format_int n ++ " " ++ to_lower (Label s))%string else None)
        [StatusOnline; StatusStale; StatusNeverSeen; StatusDisabled] in
      (format_int total ++ " " ++ (if (total =? 1)%Z then "device" else "devices") ++ " · " ++ join ", " parts)%string.
End Rows.

(** ** Enrollment: the commands *)

Definition clientImageRepo : string := "ghcr.io/jacaudi/diyddns/client".
Definition clientVolume : string := "diyddns-client".
Definition clientContainer : string := "diyddns-client-run".

(** [^v\d+\.\d+\.\d+$] *)
Definition releaseTagRe (v : string) : bool :=
  match v with
  | String "v" r =>
      match split_all "." r with
      | [a; b; c] => forallb (fun p => negb (str_eq p EmptyString) && all_chars (cont 48 57) p) [a; b; c]
      | _ => false
      end
  | _ => false
  end.

Definition clientImage (v : Info) : string * string :=
  if releaseTagRe (in_Version v) then ((clientImageRepo ++ ":" ++ in_Version v)%string, EmptyString)
  else ((clientImageRepo ++ ":latest")%string,
        "This server is a development build, so the command pins :latest, which tracks main rather than the newest release. Pin a released tag in production."%string).

Definition containerHostNote : string :=
  "localhost was rewritten to host.docker.internal because, inside a container, localhost is the container itself. On Docker Desktop this alias just works; on Linux add --add-host=host.docker.internal:host-gateway to both docker run commands (enroll and run).".

Definition containerBaseURL `{WebLibs} (base : string) : string :=
  match web_url_Parse base with
  | None => base
  | Some u =>
      let host := wu_Hostname u in
      let loopback := equal_fold host "localhost" ||
        match parse_ip host with Some ip => is_loopback ip | None => false end in
      if negb loopback then base
      else wu_with_host u (if str_eq (wu_Port u) EmptyString then "host.docker.internal"
                           else "host.docker.internal:" ++ wu_Port u)%string
  end.

Definition baseURLWarning (cfg : Config.Config) (derived : string) : string :=
  if negb (str_eq (cfg_BaseURL cfg) EmptyString) then EmptyString
  else ("server.base_url is not configured, so " ++ derived ++
        " was derived from the address you are browsing. Check the scheme before running the commands below — if the server sits behind a TLS-terminating proxy this may say http:// when it should say https://.")%string.

Definition relExpiry (expiresAt now : Z) : string :=
  let d := time_sub (expiresAt * second) now in
  if d <=? 0 then "already expired"%string
  else if d <? 3600 * second then (format_int (Z.quot d (60 * second) + 1) ++ " minutes")%string
  else (format_int (Z.quot d (3600 * second) + 1) ++ " hours")%string.

(** ** The scope of a device page *)

Record deviceScope := MkDeviceScope {
  ds_OwnerID : string; ds_OwnerEmail : string; ds_OwnerURL : string; ds_Nav : string; ds_ListURL : string;
  ds_ListLabel : string; ds_DetailURL : string; ds_HistoryURL : string }.

Definition newDeviceScope (owner : User) (ownerURL nav listURL listLabel : string) (dev : Device) : deviceScope :=
  let detail := (listURL ++ "/" ++ dev_ID dev)%string in
  MkDeviceScope (usr_ID owner) (usr_Email owner) ownerURL nav listURL listLabel detail (detail ++ "/history")%string.

Definition ownerScope (usr : User) (dev : Device) : deviceScope :=
  newDeviceScope usr EmptyString "devices" "/devices" "Devices" dev.
Definition adminScope (owner : User) (dev : Device) : deviceScope :=
  newDeviceScope owner ("/admin/users/" ++ usr_ID owner)%string "admin-devices" "/admin/devices" "All Devices" dev.

Definition historyRows (rows : list IPHistory) (now : Z) : list historyRow :=
  (fun hr => MkHistoryRow (relTime (iph_ObservedAt hr) now) (absTime (iph_ObservedAt hr)) (iph_IPv4 hr) (iph_IPv6 hr)
               (iph_ClientVersion hr)) <$> rows.

Definition lastKnownFamily (rows : list IPHistory) (get : IPHistory -> string) : option (string * Z) :=
  (fun row => (get row, iph_ObservedAt row)) <$> List.find (fun row => is_set (get row)) rows.

Definition historyPageSize : Z := 50.

(** [q.Del("cursor"); q.Encode()]: the values sorted by key. *)
Definition encode_query (q : list (string * string)) : string :=
  encode_values (order_by (fun a b : string * string => String.leb a.1 b.1) q).

Definition firstPageURL (rq : WebRequest) : string :=
  let encoded := encode_query (List.filter (fun p => negb (str_eq p.1 "cursor")) (wq_Query rq)) in
  if negb (str_eq encoded EmptyString) then (wq_Path rq ++ "?" ++ encoded)%string else wq_Path rq.

Section Pages.
Context `{Crypto} `{WebAuthn Options HttpRequest} `{ApiLibs} `{WebLibs} (h : WebDeps).

  (** ** The list *)

Definition handleDevices : sessionHandler := fun rq usr sess =>
    or_fail h usr (DeviceService.ListWithExpiry (wq_ctx rq) (usr_ID usr)) (fun r =>
      let '(devices, latest) := (r : list Device * gmap string IPHistoryRepo.LatestAddress) in
      let q := trim_space (query rq "q") in
      let status := query rq "status" in
      now ← time_now;
      let row d := newDeviceRow d (default (IPHistoryRepo.MkLatestAddress EmptyString 0 EmptyString 0) (latest !! dev_ID d))
                     (cfg_Feed (wd_Cfg h)) now in
      let rows := row <$> List.filter (fun d => matchesQuery d q && matchesStatus (row d) status) devices in
      render "devices" (DDevices (MkDevicesData (newAppData h usr sess "My devices" "devices") rows q status
        (length devices) (deviceSummary (Z.of_nat (length devices)) (count_status (row <$> devices)))))).

  (** ** Enrollment *)

Definition new_device_page (usr : User) (sess : Session) (label fieldErr : string) : deviceNewData :=
    MkDeviceNewData (newAppData h usr sess "New device" "devices") label fieldErr EmptyString EmptyString EmptyString
      EmptyString EmptyString EmptyString EmptyString EmptyString EmptyString.

Definition handleDeviceNewForm : sessionHandler := fun rq usr sess =>
    render "device-new" (DDeviceNew (new_device_page usr sess EmptyString EmptyString)).

Definition handleDeviceNewCreate : sessionHandler := fun rq usr sess =>
    let label := trim_space (PostFormValue rq "label") in
    if str_eq label EmptyString then
      renderStatus 422 "device-new" (DDeviceNew (new_device_page usr sess label
        "Give the device a label so you can recognise it in the list."))
    else
      or_fail h usr (DeviceService.List (wq_ctx rq) (usr_ID usr)) (fun existing =>
        if existsb (fun d => equal_fold (dev_Label d) label) existing then
          renderStatus 422 "device-new" (DDeviceNew (new_device_page usr sess label
            ("You already have a device called " ++ label ++
             ". Labels must be unique, and a code for a duplicate label would fail when the client redeems it.")%string))
        else
          or_fail h usr (CreateCode (wd_codeTTL h) (wq_ctx rq) (usr_ID usr) label) (fun r =>
            let (code, expiresAt) := (r : string * Z) in
            let base := baseURL (wd_Cfg h) rq in
            let (ref, note) := clientImage (wd_Info h) in
            let containerBase := containerBaseURL base in
            now ← time_now;
            render "device-new" (DDeviceNew (MkDeviceNewData (newAppData h usr sess "New device" "devices") label EmptyString
              code ("diyddns-client enroll --server " ++ base ++ " --code " ++ code)%string
              ("docker run --rm -v " ++ clientVolume ++ ":/home/nonroot/.config " ++ ref ++ " enroll --server " ++
               containerBase ++ " --code " ++ code)%string
              ("docker run -d --name " ++ clientContainer ++ " --restart unless-stopped -v " ++ clientVolume ++
               ":/home/nonroot/.config " ++ ref)%string
              note (relExpiry expiresAt now) (absTime expiresAt) (baseURLWarning (wd_Cfg h) base)
              (if negb (str_eq containerBase base) then containerHostNote else EmptyString))))).

  (** ** Detail *)

  (** [dev, ok := h.ownedDevice(w, r, usr); if !ok { return }] *)
Definition ownedDevice (rq : WebRequest) (usr : User) (k : Device -> M WebReply) : M WebReply :=
    or_else (DeviceService.Get (wq_ctx rq) (usr_ID usr) (wq_PathValue rq "id"))
      (fun e => if bool_decide (e = ErrNotFound) then renderError h usr 404 "That device does not exist." else logAndFail h usr) k.

  (** What the history page, or else the latest address, says of a family
      without a current address. *)
Definition last_known (current : string) (page : list IPHistory) (get : IPHistory -> string)
      (latest : option IPHistoryRepo.LatestAddress) (addr : IPHistoryRepo.LatestAddress -> string)
      (at_ : IPHistoryRepo.LatestAddress -> Z) (now : Z) : string * string :=
    if is_set current then (EmptyString, EmptyString)
    else match lastKnownFamily page get with
    | Some (a, t) => (a, relDays t now)
    | None =>
        match latest with
        | Some l => if is_set (addr l) then (addr l, relDays (at_ l) now) else (EmptyString, EmptyString)
        | None => (EmptyString, EmptyString)
        end
    end.

Definition needs_latest (current : string) (page : list IPHistory) (get : IPHistory -> string) : bool :=
    negb (is_set current) && bool_decide (lastKnownFamily page get = None).

Definition newDetailData (rq : WebRequest) (usr : User) (sess : Session) (v : deviceScope) (dev : Device) : M deviceDetailData :=
    page ← DeviceService.History (wq_ctx rq) (ds_OwnerID v) (dev_ID dev) EmptyString 5;
    now ← time_now;
    let rows := IPHistoryRepo.hp_Rows page in
    latest ← (if needs_latest (dev_CurrentIPv4 dev) rows iph_IPv4 || needs_latest (dev_CurrentIPv6 dev) rows iph_IPv6
              then l ← DeviceService.LatestAddress (wq_ctx rq) (ds_OwnerID v) (dev_ID dev); mret (Some l)
              else mret None);
    let (v4, v4at) := last_known (dev_CurrentIPv4 dev) rows iph_IPv4 latest IPHistoryRepo.la_IPv4 IPHistoryRepo.la_IPv4At now in
    let (v6, v6at) := last_known (dev_CurrentIPv6 dev) rows iph_IPv6 latest IPHistoryRepo.la_IPv6 IPHistoryRepo.la_IPv6At now in
    let '(show, v4in, v6in) := expiryFields dev (cfg_Feed (wd_Cfg h)) now in
    mret (MkDeviceDetailData (newAppData h usr sess (dev_Label dev) (ds_Nav v)) dev (deviceStatus dev now)
      (relTime (dev_LastSeenAt dev) now) (absTime (dev_LastSeenAt dev)) (absTime (dev_CreatedAt dev)) (ds_OwnerEmail v)
      (ds_OwnerURL v) (ds_HistoryURL v) (historyRows rows now) EmptyString EmptyString EmptyString EmptyString
      v4 v4at v6 v6at show v4in v6in).

Definition with_error (msg : string) (d : deviceDetailData) : deviceDetailData :=
    MkDeviceDetailData (de_appData d) (de_Device d) (de_Status d) (de_LastSeenRel d) (de_LastSeenAbs d) (de_CreatedAbs d)
      (de_Owner d) (de_OwnerURL d) (de_HistoryURL d) (de_History d) msg (de_Secret d) (de_Credentials d)
      (de_BaseURLWarning d) (de_IPv4LastKnown d) (de_IPv4LastKnownAt d) (de_IPv6LastKnown d) (de_IPv6LastKnownAt d)
      (de_ShowExpiry d) (de_V4ExpiresIn d) (de_V6ExpiresIn d).
Definition with_secret (secret credentials warning : string) (d : deviceDetailData) : deviceDetailData :=
    MkDeviceDetailData (de_appData d) (de_Device d) (de_Status d) (de_LastSeenRel d) (de_LastSeenAbs d) (de_CreatedAbs d)
      (de_Owner d) (de_OwnerURL d) (de_HistoryURL d) (de_History d) (de_Error d) secret credentials warning
      (de_IPv4LastKnown d) (de_IPv4LastKnownAt d) (de_IPv6LastKnown d) (de_IPv6LastKnownAt d)
      (de_ShowExpiry d) (de_V4ExpiresIn d) (de_V6ExpiresIn d).

Definition handleDeviceDetail : sessionHandler := fun rq usr sess =>
    ownedDevice rq usr (fun dev =>
      or_fail h usr (newDetailData rq usr sess (ownerScope usr dev) dev) (fun data => render "device-detail" (DDeviceDetail data))).

Definition renderDetailError (rq : WebRequest) (usr : User) (sess : Session) (dev : Device) (msg : string) : M WebReply :=
    or_fail h usr (newDetailData rq usr sess (ownerScope usr dev) dev) (fun data =>
      renderStatus 422 "device-detail" (DDeviceDetail (with_error msg data))).

  (** ** Actions *)

Definition handleDeviceRename : sessionHandler := fun rq usr sess =>
    ownedDevice rq usr (fun dev =>
      let label := trim_space (PostFormValue rq "label") in
      if str_eq label EmptyString then renderDetailError rq usr sess dev "A device needs a label."
      else
        or_else (DeviceService.Rename (wq_ctx rq) (usr_ID usr) (dev_ID dev) label)
          (fun e => if bool_decide (e = ErrConflict)
                    then renderDetailError rq usr sess dev ("You already have a device called " ++ label ++ ".")%string
                    else logAndFail h usr)
          (fun _ => redirect_to ("/devices/" ++ dev_ID dev)%string)).

Definition handleDeviceSetEnabled : sessionHandler := fun rq usr sess =>
    ownedDevice rq usr (fun dev =>
      let disabled := str_eq (PostFormValue rq "disabled") "true" in
      or_fail h usr (DeviceService.SetEnabled (wd_devNotifier h) (wq_ctx rq) (usr_ID usr) (dev_ID dev) disabled)
        (fun _ => redirect_to ("/devices/" ++ dev_ID dev)%string)).

Definition lf2 : string := String (chr 10) "  ".

  (** The credentials.json body, with its %q verbs. *)
Definition credentials_json (base id encoded : string) : string :=
    ("{" ++ lf2 ++ quote ++ "server_url" ++ quote ++ ": " ++ strconv_Quote base ++ "," ++
     lf2 ++ quote ++ "device_id" ++ quote ++ ":  " ++ strconv_Quote id ++ "," ++
     lf2 ++ quote ++ "secret" ++ quote ++ ":     " ++ strconv_Quote encoded ++ String (chr 10) "}")%string.

Definition handleDeviceRotate : sessionHandler := fun rq usr sess =>
    ownedDevice rq usr (fun dev =>
      if negb (str_eq (PostFormValue rq "confirm_label") (dev_Label dev)) then
        renderDetailError rq usr sess dev "Type the device label exactly to confirm rotating its secret."
      else
        or_fail h usr (DeviceService.RotateSecret (wd_sealKey h) (wq_ctx rq) (usr_ID usr) (dev_ID dev)) (fun secret =>
          or_else (newDetailData rq usr sess (ownerScope usr dev) dev)
            (fun _ => logAndFailMessage h usr
              "The secret was rotated, but the page showing it could not be built. The new secret is not recoverable. Rotate it again to get one you can copy.")
            (fun data =>
              let base := baseURL (wd_Cfg h) rq in
              let encoded := b64_std_encode secret in
              render "device-detail" (DDeviceDetail
                (with_secret encoded (credentials_json base (dev_ID dev) encoded) (baseURLWarning (wd_Cfg h) base) data))))).

Definition handleDeviceDelete : sessionHandler := fun rq usr sess =>
    ownedDevice rq usr (fun dev =>
      if negb (str_eq (PostFormValue rq "confirm_label") (dev_Label dev)) then
        renderDetailError rq usr sess dev "Type the device label exactly to confirm deletion. Nothing was deleted."
      else
        or_fail h usr (DeviceService.Delete (wd_devNotifier h) (wq_ctx rq) (usr_ID usr) (dev_ID dev))
          (fun _ => redirect_to "/devices")).

  (** ** History *)

Definition renderBadCursor (rq : WebRequest) (usr : User) : M WebReply :=
    renderErrorLink h usr 400 "That page link is no longer valid. Start from the first page."
      "Start from the first page" (firstPageURL rq).

Definition renderDeviceHistory (rq : WebRequest) (usr : User) (sess : Session) (v : deviceScope) (dev : Device) : M WebReply :=
    let cursor := query rq "cursor" in
    or_else (DeviceService.History (wq_ctx rq) (ds_OwnerID v) (dev_ID dev) cursor historyPageSize)
      (fun _ => if is_set cursor then renderBadCursor rq usr
                else renderError h usr 500 "Something went wrong. Please try again.")
      (fun page =>
        let next := IPHistoryRepo.hp_NextCursor page in
        now ← time_now;
        render "device-history" (DDeviceHistory (MkDeviceHistoryData
          (newAppData h usr sess (dev_Label dev ++ " history")%string (ds_Nav v)) dev (historyRows (IPHistoryRepo.hp_Rows page) now)
          (MkPager (if is_set next then (ds_HistoryURL v ++ "?cursor=" ++ QueryEscape next)%string else EmptyString)
             (if is_set cursor then ds_HistoryURL v else EmptyString) (length (IPHistoryRepo.hp_Rows page)))
          (is_set cursor) (ds_ListURL v) (ds_ListLabel v) (ds_DetailURL v) (ds_HistoryURL v)))).

Definition handleDeviceHistory : sessionHandler := fun rq usr sess =>
    ownedDevice rq usr (fun dev => renderDeviceHistory rq usr sess (ownerScope usr dev) dev).

  (** ** admin_device.go *)

Definition adminDevice (rq : WebRequest) (usr : User) (k : Device -> User -> M WebReply) : M WebReply :=
    or_else (GetDevice (wq_ctx rq) (wq_PathValue rq "id"))
      (fun e => if bool_decide (e = ErrNotFound) then renderError h usr 404 "That device does not exist." else logAndFail h usr)
      (fun r => k r.1 r.2).

Definition handleAdminDeviceDetail : sessionHandler := fun rq usr sess =>
    adminDevice rq usr (fun dev owner =>
      or_fail h usr (newDetailData rq usr sess (adminScope owner dev) dev) (fun data => render "admin-device" (DDeviceDetail data))).

Definition handleAdminDeviceHistory : sessionHandler := fun rq usr sess =>
    adminDevice rq usr (fun dev owner => renderDeviceHistory rq usr sess (adminScope owner dev) dev).

Definition handleAdminDeviceSetEnabled : sessionHandler := fun rq usr sess =>
    let id := wq_PathValue rq "id" in
    let disabled := str_eq (PostFormValue rq "disabled") "true" in
    or_else (SetDeviceEnabled (wd_devNotifier h) (wd_Mailer h) (wq_ctx rq) sess id disabled)
      (fun e => if bool_decide (e = ErrNotFound) then renderError h usr 404 "That device does not exist." else logAndFail h usr)
      (fun _ => redirect_to ("/admin/devices/" ++ id)%string).

  (** ** admin_devices.go *)

Definition ownerLabel (users : list User) (userID : string) : string :=
    match findUser users userID with Some u => usr_Email u | None => userID end.

  (** [slices.SortFunc] by e-mail address. *)
Definition ownerOptions (users : list User) : list ownerOption :=
    order_by (fun a b => String.leb (oo_Email a) (oo_Email b)) ((fun u => MkOwnerOption (usr_ID u) (usr_Email u)) <$> users).

Definition handleAdminDevices : sessionHandler := fun rq usr sess =>
    or_fail h usr (ListUsers (wq_ctx rq)) (fun users =>
    or_fail h usr (ListAllDevicesWithExpiry (wq_ctx rq)) (fun r =>
      let '(devices, latest) := (r : list Device * gmap string IPHistoryRepo.LatestAddress) in
      let owner := query rq "owner" in
      let status := query rq "status" in
      now ← time_now;
      let row d := newDeviceRow d (default (IPHistoryRepo.MkLatestAddress EmptyString 0 EmptyString 0) (latest !! dev_ID d))
                     (cfg_Feed (wd_Cfg h)) now in
      let shown d := (str_eq owner EmptyString || str_eq (dev_UserID d) owner) && matchesStatus (row d) status in
      let rows := (fun d => MkAdminDeviceRow (row d) (dev_UserID d) (ownerLabel users (dev_UserID d))
                              (str_eq (dev_UserID d) (usr_ID usr))) <$> List.filter shown devices in
      render "admin-devices" (DAdminDevices (MkAdminDevicesData (newAppData h usr sess "All Devices" "admin-devices") rows
        (ownerOptions users) owner status (length devices)
        (deviceSummary (Z.of_nat (length devices)) (count_status (row <$> devices))))))).
End Pages.
