(* ===== verification/WebAccount.v ===== *)
(** * internal/server/webui: account, keys, feed tokens, endpoints

    account.go and apikeys.go (a user's own page), feed.go and endpoints.go (the
    administrator's pages of the feed and of the notifications). *)

From S2P Require Import Prelude GoLib Schema Effects Dates StoreUsers StoreDevices StoreTokens StoreNotify Auth ServiceDevices.
From S2P Require Import ServiceTokens NetAddr Notify Endpoints Email Envelope EmailChange Passkeys Grants Admin Stale SignIn.
From S2P Require Import ApiCore ApiAdmin Config WebCore WebDevices.

(** admin.go: the errors that carry a message of their own, with its status. *)
Definition adminGuardMessage (e : err) : option (string * Z) :=
  match e with
  | ErrLastAdmin => Some ("That would leave the server with no enabled admin.", 422)%string
  | ErrSelfLockout => Some ("You cannot disable, demote, or delete your own account.", 422)%string
  | ErrInvalidRole => Some ("Role must be either admin or user.", 422)%string
  | ErrInvalidEmail => Some ("Email addresses must be plain 7-bit ASCII in user@host form, with no display name and no surrounding whitespace.", 422)%string
  | ErrEmailUnchanged => Some ("That is already the account's email address.", 422)%string
  | ErrEmailManagedByOIDC => Some ("This account's email address is managed by its identity provider.", 422)%string
  | ErrEmailChangeInvalid => Some ("This confirmation link is invalid or has expired. Request the change again from your account page.", 422)%string
  | ErrConfirmationNotSent => Some ("The confirmation email could not be sent. Try again in a moment. If the account page then shows the change as already pending, cancel it and request it again.", 503)%string
  | ErrAlreadyRegistered => Some ("This account has already registered. Use the recovery link in the Danger zone instead.", 422)%string
  | ErrConflict => Some ("A user with that email address already exists.", 422)%string
  | ErrWebAuthnUnavailable => Some ("Passkey authentication is not configured on this server, so no registration link can be issued.", 503)%string
  | ErrNotFound => Some ("That user no longer exists.", 404)%string
  | _ => None
  end.

Section Account.
Context `{Crypto} `{WebAuthn Options HttpRequest} `{ApiLibs} `{WebLibs} (h : WebDeps).

  (** [if msg, status, ok := adminGuardMessage(err); ok { show; return }; fallback] *)
Definition guarded (show : Z -> string -> M WebReply) (fallback : M WebReply) (e : err) : M WebReply :=
    match adminGuardMessage e with Some (msg, status) => show status msg | None => fallback end.

  (** admin.go *)
Definition grantLink (rq : WebRequest) (link : string) : string * string :=
    if negb (has_prefix link "/") then (link, EmptyString)
    else ((baseURL (wd_Cfg h) rq ++ link)%string,
          "server.base_url is not configured, so this link was completed from the address you are browsing. Set server.base_url so links are correct for everyone."%string).

  (** ** apikeys.go: the section of the account page *)

Definition newAPIKeysSectionData (rq : WebRequest) (userID : string) : M apiKeysSectionData :=
    keys ← ListKeys (wq_ctx rq) userID;
    mret (MkAPIKeysSectionData
      ((fun k => MkAPIKeyRow (ak_ID k) (ak_Label k) (absTime (ak_CreatedAt k)) (absTime (ak_LastUsedAt k))) <$> keys)
      EmptyString EmptyString EmptyString EmptyString).

  (** ** account.go *)

Definition no_keys : apiKeysSectionData := MkAPIKeysSectionData [] EmptyString EmptyString EmptyString EmptyString.

Definition mk_accountData (usr : User) (sess : Session) (errMsg : string) (now : Z) : accountData :=
    let enabled := cfg_EmailEnabled (wd_Cfg h) in
    let pending := is_set (usr_PendingEmail usr) && (unix_of now <? usr_PendingEmailExpiresAt usr) in
    let expiry := relExpiry (usr_PendingEmailExpiresAt usr) now in
    let notice :=
      if negb pending then EmptyString
      else if enabled then
        ("A change to " ++ usr_PendingEmail usr ++ " is waiting for confirmation. Open the link sent to that address; you need to be signed in here when you do. It expires in " ++
         expiry ++ ". Did not get it? Cancel and request the change again.")%string
      else
        ("A change to " ++ usr_PendingEmail usr ++ " is waiting for confirmation. You were shown its confirmation link once, when you requested it; open it while signed in here. It expires in " ++
         expiry ++ ". Lost it? Cancel and request the change again.")%string in
    MkAccountData (newAppData h usr sess "Account" "account") (is_set (usr_OIDCSubject usr)) enabled
      (if pending then usr_PendingEmail usr else EmptyString) notice EmptyString EmptyString errMsg no_keys.

Definition with_keys (keys : apiKeysSectionData) (d : accountData) : accountData :=
    MkAccountData (ac_appData d) (ac_OIDCLinked d) (ac_EmailEnabled d) (ac_PendingEmail d) (ac_PendingNotice d)
      (ac_Link d) (ac_LinkExpiresIn d) (ac_Error d) keys.
Definition with_link (link expires : string) (d : accountData) : accountData :=
    MkAccountData (ac_appData d) (ac_OIDCLinked d) (ac_EmailEnabled d) (ac_PendingEmail d) (ac_PendingNotice d)
      link expires (ac_Error d) (ac_APIKeys d).

Definition accountPageData (rq : WebRequest) (usr : User) (sess : Session) (errMsg : string) : M accountData :=
    now ← time_now;
    let data := mk_accountData usr sess errMsg now in
    keys ← newAPIKeysSectionData rq (usr_ID usr);
    mret (with_keys keys data).

Definition handleAccount : sessionHandler := fun rq usr sess =>
    or_fail h usr (accountPageData rq usr sess EmptyString) (fun data => render "account" (DAccount data)).

Definition renderAccountError (rq : WebRequest) (usr : User) (sess : Session) (status : Z) (msg : string) : M WebReply :=
    or_fail h usr (accountPageData rq usr sess msg) (fun data => renderStatus status "account" (DAccount data)).

Definition handleAccountEmailRequest : sessionHandler := fun rq usr sess =>
    or_else (EmailChange.Request mail_ParseAddress (wd_Mailer h) (wd_baseURL h) (wq_ctx rq) usr
               (trim_space (PostFormValue rq "email")))
      (guarded (renderAccountError rq usr sess) (logAndFail h usr))
      (fun r =>
        let '(link, _, expiresAt) := (r : string * Delivery * Z) in
        if negb (str_eq link EmptyString) then
          or_fail h usr (accountPageData rq usr sess EmptyString) (fun data =>
            now ← time_now;
            render "account" (DAccount (with_link (grantLink rq link).1 (relExpiry expiresAt now) data)))
        else redirect_to "/account").

Definition handleAccountEmailCancel : sessionHandler := fun rq usr sess =>
    or_fail h usr (EmailChange.Cancel (wq_ctx rq) usr) (fun _ => redirect_to "/account").

Definition handleAccountEmailConfirmPage : sessionHandler := fun rq usr sess =>
    let token := query rq "token" in
    now ← time_now;
    if str_eq token EmptyString || str_eq (usr_PendingEmail usr) EmptyString ||
       (usr_PendingEmailExpiresAt usr <=? unix_of now) then
      renderErrorLink h usr 422
        "This confirmation link is invalid or has expired. Request the change again from your account page."
        "Back to account" "/account"
    else render "account-email-confirm" (DAccountEmailConfirm (MkAccountEmailConfirmData
           (newAppData h usr sess "Confirm email address" "account") (usr_PendingEmail usr) token)).

Definition handleAccountEmailConfirm : sessionHandler := fun rq usr sess =>
    or_else (EmailChange.Confirm (wd_Mailer h) (wq_ctx rq) usr (PostFormValue rq "token"))
      (guarded (renderAccountError rq usr sess) (logAndFail h usr))
      (fun _ => redirect_to "/account").

  (** ** apikeys.go: minting and revoking *)

Definition keys_error (label msg : string) (d : accountData) : accountData :=
    with_keys (MkAPIKeysSectionData (ks_Keys (ac_APIKeys d)) label msg EmptyString EmptyString) d.
Definition keys_minted (label secret : string) (d : accountData) : accountData :=
    with_keys (MkAPIKeysSectionData (ks_Keys (ac_APIKeys d)) EmptyString EmptyString label secret) d.

Definition handleAPIKeyMint : sessionHandler := fun rq usr sess =>
    let label := trim_space (PostFormValue rq "label") in
    or_fail h usr (accountPageData rq usr sess EmptyString) (fun data =>
      or_else (MintKey (wq_ctx rq) (usr_ID usr) label)
        (fun e => match e with
          | ErrInvalidKeyLabel => renderStatus 422 "account" (DAccount (keys_error label "Give the key a label." data))
          | ErrConflict => renderStatus 422 "account" (DAccount (keys_error label "You already have a key with that label." data))
          | _ => logAndFail h usr
          end)
        (fun r =>
          or_else (accountPageData rq usr sess EmptyString)
            (fun _ => logAndFailMessage h usr
              "The key was minted, but the page listing it could not be built. Revoke it and mint another.")
            (fun refreshed => render "account" (DAccount (keys_minted (ak_Label r.1) r.2 refreshed))))).

Definition handleAPIKeyRevoke : sessionHandler := fun rq usr sess =>
    or_else (RevokeKey (wq_ctx rq) (usr_ID usr) (wq_PathValue rq "id"))
      (fun e => if bool_decide (e = ErrNotFound) then renderError h usr 404 "That API key does not exist." else logAndFail h usr)
      (fun _ => redirect_to "/account").

  (** ** feed.go *)

Definition newAdminFeedData (rq : WebRequest) (usr : User) (sess : Session) : M adminFeedData :=
    toks ← ListTokens (wq_ctx rq);
    users ← ListUsers (wq_ctx rq);
    let by_ t := if is_set (ft_CreatedBy t) then
                   match findUser users (ft_CreatedBy t) with Some u => usr_Email u | None => ft_CreatedBy t end
                 else EmptyString in
    mret (MkAdminFeedData (newAppData h usr sess "Feed tokens" "admin-feed")
      ((fun t => MkFeedTokenRow (ft_ID t) (ft_Label t) (by_ t) (absTime (ft_CreatedAt t)) (absTime (ft_LastUsedAt t))) <$> toks)
      (length toks) EmptyString EmptyString EmptyString EmptyString).

Definition handleAdminFeed : sessionHandler := fun rq usr sess =>
    or_fail h usr (newAdminFeedData rq usr sess) (fun data => render "admin-feed" (DAdminFeed data)).

Definition feed_error (label msg : string) (d : adminFeedData) : adminFeedData :=
    MkAdminFeedData (fd_appData d) (fd_Tokens d) (fd_Total d) label msg EmptyString EmptyString.
Definition feed_minted (label secret : string) (d : adminFeedData) : adminFeedData :=
    MkAdminFeedData (fd_appData d) (fd_Tokens d) (fd_Total d) EmptyString EmptyString label secret.

Definition handleFeedTokenMint : sessionHandler := fun rq usr sess =>
    let label := trim_space (PostFormValue rq "label") in
    or_fail h usr (newAdminFeedData rq usr sess) (fun data =>
      or_else (MintToken (wq_ctx rq) (usr_ID usr) label)
        (fun e => match e with
          | ErrInvalidLabel => renderStatus 422 "admin-feed" (DAdminFeed (feed_error label "Give the token a label." data))
          | ErrConflict => renderStatus 422 "admin-feed" (DAdminFeed (feed_error label "A token with that label already exists." data))
          | _ => logAndFail h usr
          end)
        (fun r =>
          or_else (newAdminFeedData rq usr sess)
            (fun _ => logAndFailMessage h usr
              "The token was minted, but the page listing it could not be built. Revoke it and mint another.")
            (fun refreshed => render "admin-feed" (DAdminFeed (feed_minted (ft_Label r.1) r.2 refreshed))))).

Definition handleFeedTokenRevoke : sessionHandler := fun rq usr sess =>
    or_else (RevokeToken (wq_ctx rq) (usr_ID usr) (wq_PathValue rq "id"))
      (fun e => if bool_decide (e = ErrNotFound) then renderError h usr 404 "That feed token does not exist." else logAndFail h usr)
      (fun _ => redirect_to "/admin/feed").
End Account.

(** ** endpoints.go *)

Definition deliveryHistoryLimit : Z := 50.
Definition endpointActionRefusedMessage : string := "That action was refused. The endpoint is disabled or no longer exists.".
Definition deliveryRedeliverRefusedMessage : string :=
  "That delivery could not be redelivered. It may not exist, may not be in a retryable state, or its endpoint may be disabled.".

Definition endpointRows (eps : list NotificationEndpoint) : list endpointRow :=
  (fun ep => MkEndpointRow (ne_ID ep) (ne_Label ep) (ne_URL ep) (ne_Enabled ep) (absTime (ne_CreatedAt ep))) <$> eps.

Definition createErrorMessage (e : err) : option string :=
  match e with
  | ErrConflict => Some "An endpoint with that URL already exists."%string
  | ErrDenied msg => Some ("That target was rejected: " ++ msg)%string
  | _ => None
  end.

Definition failureLabels : list (string * string) :=
  [(FailureBlocked, "Blocked by destination policy"); (FailureUnreachable, "Unreachable"); (FailureTLS, "TLS error");
   (FailureRejected, "Rejected by target"); (FailureGone, "Target removed (410)"); (FailureInternal, "Internal error")]%string.

Definition failureClassLabel (class : string) : string :=
  if str_eq class EmptyString then EmptyString
  else match List.find (fun p => str_eq p.1 class) failureLabels with Some p => p.2 | None => "Unknown" end.

Definition deliveryRows (rows : list NotificationDelivery) : list deliveryRow :=
  (fun d => MkDeliveryRow (nd_ID d) (nd_EventType d) (nd_Status d) (nd_Attempts d) (failureClassLabel (nd_LastFailure d))
              (absTime (nd_CreatedAt d)) (absTime (nd_UpdatedAt d))
              (str_eq (nd_Status d) DeliveryFailed || str_eq (nd_Status d) DeliveryDelivered)) <$> rows.

Section Endpoints.
Context `{Crypto} `{ApiLibs} `{WebLibs} (h : WebDeps).

Definition newEndpointsData (rq : WebRequest) (usr : User) (sess : Session) : M endpointsData :=
    eps ← EndpointList (wq_ctx rq);
    mret (MkEndpointsData (newAppData h usr sess "Notification endpoints" "admin-endpoints") (endpointRows eps) (length eps)
      EmptyString EmptyString EmptyString EmptyString EmptyString).

Definition handleEndpoints : sessionHandler := fun rq usr sess =>
    or_fail h usr (newEndpointsData rq usr sess) (fun data => render "endpoints" (DEndpoints data)).

Definition endpoints_error (label url msg : string) (d : endpointsData) : endpointsData :=
    MkEndpointsData (es_appData d) (es_Endpoints d) (es_Total d) label url msg EmptyString EmptyString.
Definition endpoints_created (label secret : string) (d : endpointsData) : endpointsData :=
    MkEndpointsData (es_appData d) (es_Endpoints d) (es_Total d) EmptyString EmptyString EmptyString label secret.

Definition handleEndpointsCreate : sessionHandler := fun rq usr sess =>
    let label := trim_space (PostFormValue rq "label") in
    let rawURL := trim_space (PostFormValue rq "url") in
    or_fail h usr (newEndpointsData rq usr sess) (fun data =>
      if str_eq label EmptyString || str_eq rawURL EmptyString then
        renderStatus 422 "endpoints" (DEndpoints (endpoints_error label rawURL "Give the endpoint a label and a target URL." data))
      else
        or_else (EndpointCreate endpoint_url deny_text (wd_Notify h) (wq_ctx rq) (usr_ID usr)
                   label rawURL)
          (fun e => match createErrorMessage e with
            | None => logAndFail h usr
            | Some msg => renderStatus 422 "endpoints" (DEndpoints (endpoints_error label rawURL msg data))
            end)
          (fun r =>
            or_else (newEndpointsData rq usr sess)
              (fun _ => logAndFailMessage h usr
                "The endpoint was created, but the page listing it could not be built. Reload the page to see it.")
              (fun refreshed => render "endpoints" (DEndpoints (endpoints_created (ne_Label r.1) r.2 refreshed))))).

Definition loadEndpoint (rq : WebRequest) (usr : User) (k : NotificationEndpoint -> M WebReply) : M WebReply :=
    or_else (EndpointGet (wq_ctx rq) (wq_PathValue rq "id"))
      (fun e => if bool_decide (e = ErrNotFound) then renderError h usr 404 "That notification endpoint does not exist."
                else logAndFail h usr) k.

Definition newEndpointDetailData (rq : WebRequest) (usr : User) (sess : Session) (ep : NotificationEndpoint) : M endpointDetailData :=
    deliveries ← Deliveries (wq_ctx rq) (ne_ID ep) deliveryHistoryLimit;
    mret (MkEndpointDetailData (newAppData h usr sess (ne_Label ep) "admin-endpoints") ep (absTime (ne_CreatedAt ep))
      (deliveryRows deliveries) EmptyString).

Definition handleEndpointDetail : sessionHandler := fun rq usr sess =>
    loadEndpoint rq usr (fun ep =>
      or_fail h usr (newEndpointDetailData rq usr sess ep) (fun data => render "endpoint-detail" (DEndpointDetail data))).

Definition renderEndpointDetailError (rq : WebRequest) (usr : User) (sess : Session) (ep : NotificationEndpoint) (msg : string)
      : M WebReply :=
    or_fail h usr (newEndpointDetailData rq usr sess ep) (fun d =>
      renderStatus 422 "endpoint-detail" (DEndpointDetail
        (MkEndpointDetailData (ee_appData d) (ee_Endpoint d) (ee_CreatedAbs d) (ee_Deliveries d) msg))).

Definition handleEndpointSetEnabled : sessionHandler := fun rq usr sess =>
    loadEndpoint rq usr (fun ep =>
      let enabled := str_eq (PostFormValue rq "enabled") "true" in
      or_fail h usr (EndpointSetEnabled (wq_ctx rq) (usr_ID usr) (ne_ID ep) enabled)
        (fun _ => redirect_to ("/admin/endpoints/" ++ ne_ID ep)%string)).

Definition handleEndpointDelete : sessionHandler := fun rq usr sess =>
    loadEndpoint rq usr (fun ep =>
      if negb (str_eq (PostFormValue rq "confirm_label") (ne_Label ep)) then
        renderEndpointDetailError rq usr sess ep "Type the endpoint label exactly to confirm deletion. Nothing was deleted."
      else
        or_fail h usr (EndpointDelete (wq_ctx rq) (usr_ID usr) (ne_ID ep)) (fun _ => redirect_to "/admin/endpoints")).

Definition handleEndpointTest : sessionHandler := fun rq usr sess =>
    loadEndpoint rq usr (fun ep =>
      or_fail h usr (EndpointTest (wq_ctx rq) (usr_ID usr) (ne_ID ep)) (fun sent : bool =>
        if negb sent then renderEndpointDetailError rq usr sess ep endpointActionRefusedMessage
        else redirect_to ("/admin/endpoints/" ++ ne_ID ep)%string)).

Definition handleDeliveryRedeliver : sessionHandler := fun rq usr sess =>
    match parse_int (wq_PathValue rq "id") with
    | None => renderError h usr 404 deliveryRedeliverRefusedMessage
    | Some deliveryID =>
        or_fail h usr (Redeliver (wq_ctx rq) (usr_ID usr) deliveryID) (fun ok : bool =>
          if negb ok then renderError h usr 404 deliveryRedeliverRefusedMessage
          else
            let endpointID := PostFormValue rq "endpoint_id" in
            if str_eq endpointID EmptyString then redirect_to "/admin/endpoints"
            else
              ep ← catch (EndpointGet (wq_ctx rq) endpointID);
              redirect_to (match ep with inl _ => "/admin/endpoints/" ++ endpointID | inr _ => "/admin/endpoints" end)%string)
    end.
End Endpoints.
