(* ===== verification/WebAdmin.v ===== *)
(** * internal/server/webui/admin.go: accounts, audit log and server pages *)

From S2P Require Import Prelude GoLib Schema Effects Dates StoreUsers StoreDevices StoreTokens Auth ServiceDevices.
From S2P Require Import ServiceTokens NetAddr Notify Endpoints Email Envelope EmailChange Passkeys Grants Admin Stale SignIn.
From S2P Require Import ApiCore ApiAdmin Config WebCore WebDevices WebAccount.

(** ** Labels *)

Definition authLabel (u : User) (registered : bool) : string :=
  if negb registered then "—"%string else if is_set (usr_OIDCSubject u) then "OIDC"%string else "Passkey"%string.

Definition is_registered (s : RegistrationStatus) : bool :=
  match s with RegistrationRegistered => true | _ => false end.

Definition registrationLabel (s : RegistrationStatus) : string * string :=
  match s with
  | RegistrationRegistered => ("Registered", "ok")
  | RegistrationInvited => ("Invited", "neutral")
  | RegistrationRecoveryPending => ("Recovery pending", "warn")
  | RegistrationLinkExpired => ("Link expired", "danger")
  end%string.

Definition registrationText (reg : Registration) (now : Z) : string :=
  let remaining := i64 (i64 (reg_LinkExpiresAt reg - now) * second) in
  match reg_Status reg with
  | RegistrationRegistered => "registered"
  | RegistrationInvited => "invited, link expires in " ++ FormatDuration remaining
  | RegistrationRecoveryPending => "recovery pending, link expires in " ++ FormatDuration remaining
  | RegistrationLinkExpired => "no live registration link"
  end%string.

Definition deliveryNote (d : Delivery) : string :=
  if negb (dl_Attempted d) then
    match dl_Suppressed d with
    | SuppressUserDisabled => "This account is disabled, so no email was sent — send this link manually."%string
    | SuppressNone => "Email is not configured — send this link manually."%string
    end
  else if Sent d then ("Emailed to " ++ dl_To d ++ ". Send it manually as well if it does not arrive.")%string
  else "Email delivery failed — send this link manually."%string.

Definition noticeNote (d : Delivery) : string :=
  if negb (dl_Attempted d) then
    match dl_Suppressed d with
    | SuppressNone => "Address changed. Email is not configured, so the previous address was not notified."%string
    | _ => "Address changed. No notice was sent to the previous address."%string
    end
  else if Sent d then "Address changed. The previous address was notified."%string
  else "Address changed, but the notice to the previous address could not be sent."%string.

(** A missing entry of the map is Go's zero value, which the pages show like an
    expired link. *)
Definition registration_of (regs : gmap string Registration) (id : string) : Registration :=
  default (MkRegistration RegistrationLinkExpired 0) (regs !! id).

(** The loop of [renderAdminUsers]: the number of enabled administrators and
    the last one's id. *)
Definition admin_step (acc : Z * string) (u : User) : Z * string :=
  if IsEnabledAdmin u then (acc.1 + 1, usr_ID u) else acc.

Definition newUserRow (usr : User) (admins : Z * string) (regs : gmap string Registration) (u : User) : userRow :=
  let reg := registration_of regs (usr_ID u) in
  let (label, tag) := registrationLabel (reg_Status reg) in
  MkUserRow (usr_ID u) (usr_Email u) (usr_Role u) (usr_Disabled u) (authLabel u (is_registered (reg_Status reg)))
    label tag (str_eq (usr_ID u) (usr_ID usr)) ((admins.1 =? 1) && str_eq (usr_ID u) admins.2).

(** ** The audit filter *)

Definition auditPageSize : Z := 100.

Definition knownEventTypes : list string :=
  ["api_key.created"; "api_key.revoked"; "bootstrap.consumed"; "device.deleted"; "device.disabled";
   "device.disabled_by_admin"; "device.enabled"; "device.enabled_by_admin"; "device.enroll.code"; "device.enroll.oidc";
   "device.renamed"; "device.secret.rotated"; EventEmailSendFailed; "passkey.invite_issued"; "passkey.recovery_issued";
   "passkey.recovery_redeemed"; "passkey.registered"; "passkey.removed"; "passkey.renamed"; "passkey.signcount_anomaly";
   "retention.prune"; "session.revoked"; "user.created"; "user.deleted"; "user.disabled"; "user.email_change_cancelled";
   "user.email_change_requested"; "user.email_changed"; "user.email_changed_by_admin"; "user.email_changed_by_oidc";
   "user.enabled"; "user.login.oidc"; "user.login.passkey"; "user.logout"; "user.oidc.linked"; "user.role_change"]%string.

Definition parseDayStart (v : string) : option Z := parse_date v.
Definition parseDayEnd (v : string) : option Z := (fun t => t + (24 * 3600 - 1)) <$> parse_date v.

Definition actorLabel (users : list User) (actorID : string) : string :=
  if str_eq actorID EmptyString then "system"%string
  else match findUser users actorID with Some u => usr_Email u | None => actorID end.

Definition userIDByEmail `{WebLibs} (users : list User) (email : string) : option string :=
  usr_ID <$> List.find (fun u => equal_fold (usr_Email u) email) users.

(** The actor's id, or the note that refuses the filter. *)
Definition actor_filter `{WebLibs} (actor : string) (users : list User) : string + string :=
  if negb (is_set actor) then inl EmptyString
  else if str_contains actor "@" then
    match userIDByEmail users actor with
    | Some id => inl id
    | None => inr ("No user matches " ++ actor ++ ".")%string
    end
  else inl actor.

Definition day_filter (v : string) (parse : string -> option Z) (note : string) : Z + string :=
  if negb (is_set v) then inl 0 else match parse v with Some t => inl t | None => inr note end.

Definition no_filter : AuditLogRepo.AuditFilter := AuditLogRepo.MkAuditFilter EmptyString EmptyString 0 0.

Definition auditFilterFrom `{WebLibs} (q : list (string * string)) (users : list User) : AuditLogRepo.AuditFilter * string :=
  match actor_filter (trim_space (values_get q "actor")) users with
  | inr note => (no_filter, note)
  | inl actor =>
    match day_filter (values_get q "from") parseDayStart "From is not a valid date (expected YYYY-MM-DD)." with
    | inr note => (no_filter, note)
    | inl since =>
      match day_filter (values_get q "to") parseDayEnd "To is not a valid date (expected YYYY-MM-DD)." with
      | inr note => (no_filter, note)
      | inl until => (AuditLogRepo.MkAuditFilter actor (values_get q "event_type") since until, EmptyString)
      end
    end
  end.

Definition auditRowOf (users : list User) (now : Z) (e : AuditEntry) : auditRow :=
  MkAuditRow (relTime (ae_CreatedAt e) now) (absTime (ae_CreatedAt e)) (actorLabel users (ae_ActorUserID e))
    (ae_EventType e) (trim_space (ae_TargetType e ++ " " ++ ae_TargetID e)) (ae_IP e).

(** The filters of the query that are set, in the order of the loop. *)
Definition audit_filters (q : list (string * string)) : list (string * string) :=
  omap (fun k => let v := values_get q k in if is_set v then Some (k, v) else None)
    ["event_type"; "actor"; "from"; "to"]%string.

Definition audit_pager (q : list (string * string)) (nextCursor : string) (rows : nat) : pager :=
  let filters := audit_filters q in
  MkPager
    (if is_set nextCursor then ("/admin/audit?" ++ encode_query (filters ++ [("cursor", nextCursor)]))%string else EmptyString)
    (if is_set (values_get q "cursor") then
       let encoded := encode_query filters in
       if is_set encoded then ("/admin/audit?" ++ encoded)%string else "/admin/audit"%string
     else EmptyString)
    rows.

(** ** The server page *)

(** [%.1f] of a float64 quotient by a power of two: the tenths, half to even.
    Exact below 2^53 bytes. *)
Definition tenths_of_mb (size : Z) : Z :=
  let q := size * 10 / 2 ^ 20 in
  let r := size * 10 mod 2 ^ 20 in
  if r <? 2 ^ 19 then q else if 2 ^ 19 <? r then q + 1 else if Z.even q then q else q + 1.

Definition dbSize `{WebLibs} (path : string) : string :=
  match os_Stat path with
  | None => "—"%string
  | Some size =>
      let t := tenths_of_mb size in
      (format_int (t / 10) ++ "." ++ format_int (t mod 10) ++ " MB")%string
  end.

Definition enabledLabel (on : bool) : string := if on then "enabled"%string else "disabled"%string.
Definition orNotSet (v : string) : string := if str_eq v EmptyString then "not set"%string else v.
Definition baseURLNote (v : string) : string :=
  if negb (str_eq v EmptyString) then EmptyString
  else "set this — registration links and enrollment commands are derived from the request without it"%string.

(** The %t verb. *)
Definition bool_text (b : bool) : string := if b then "true"%string else "false"%string.

Definition oidcNote (cfg : Config.Config) : string :=
  let o := as_OIDC (cfg_Auth cfg) in
  if negb (oc_Enabled o) then EmptyString
  else ("issuer " ++ oc_Issuer o ++ " · client " ++ oc_ClientID o ++ " · scopes " ++ join " " (oc_Scopes o) ++
        " · required " ++ bool_text (oc_Required o) ++ " · auto-link " ++ bool_text (oc_AutoLinkByEmail o) ++
        " · signup " ++ bool_text (oc_AllowOIDCSignup o))%string.

Definition row_of (label value : string) : infoRow := MkInfoRow label value EmptyString.

Section Server.
Context `{ApiLibs} `{WebLibs} (h : WebDeps).

Definition webauthn_row : infoRow :=
    match ResolveWebAuthn url_Parse (cfg_Auth (wd_Cfg h)) (cfg_BaseURL (wd_Cfg h)) with
    | inr _ => MkInfoRow "WebAuthn" "not configured" "passkey login is unavailable until a resolvable RP ID is configured"
    | inl (rpID, rpOrigin) => MkInfoRow "WebAuthn" rpID ("origin " ++ rpOrigin)%string
    end.

Definition server_rows (rq : WebRequest) : list infoRow :=
    let cfg := wd_Cfg h in
    let auth := cfg_Auth cfg in
    [ row_of "Build" (in_Version (wd_Info h) ++ " (" ++ in_Commit (wd_Info h) ++ ", " ++ in_Date (wd_Info h) ++ ")")%string;
      row_of "Go runtime" runtime_line;
      row_of "Database" (cfg_DatabasePath cfg);
      row_of "Listen" (cfg_Listen cfg);
      MkInfoRow "Base URL" (orNotSet (cfg_BaseURL cfg)) (baseURLNote (cfg_BaseURL cfg));
      row_of "Session cookie" (sc_CookieName (as_Session auth));
      MkInfoRow "Cookie Secure" (enabledLabel (wq_TLS rq || sc_CookieSecure (as_Session auth)))
        "effective value: set whenever the request arrived over TLS, regardless of the config key";
      MkInfoRow "Cookie SameSite" "Lax"
        "the cookie_samesite config key is not currently honored — every cookie is set Lax";
      row_of "HMAC skew window" (duration_string (as_SkewWindow auth));
      MkInfoRow "Device staleness threshold" (duration_string staleAfter)
        "a device that has not checked in within this window shows as Stale";
      row_of "Local login UI" (enabledLabel (negb (as_HideLocalLoginUI auth)));
      row_of "Email" (enabledLabel (cfg_EmailEnabled cfg));
      MkInfoRow "OIDC" (enabledLabel (oc_Enabled (as_OIDC auth))) (oidcNote cfg);
      webauthn_row ].
End Server.

Section Pages.
Context `{Crypto} `{WebAuthn Options HttpRequest} `{ApiLibs} `{WebLibs} (h : WebDeps).

  (** ** Accounts *)

Definition count_by {A} (p : A -> bool) (l : list A) : nat := length (List.filter p l).

Definition renderAdminUsers (rq : WebRequest) (usr : User) (sess : Session) (status : Z) (errMsg : string) : M WebReply :=
    or_fail h usr (ListUsers (wq_ctx rq)) (fun users =>
    or_fail h usr (ListAllDevices (wq_ctx rq)) (fun devices =>
    or_fail h usr (now ← now_unix; RegistrationStatuses (wq_ctx rq) users now) (fun regs =>
      let admins := foldl admin_step (0, EmptyString) users in
      renderStatus status "admin-users" (DAdminUsers (MkAdminUsersData (newAppData h usr sess "Accounts" "admin-users")
        (newUserRow usr admins regs <$> users) (length users) (length devices)
        (count_by usr_Disabled users) (count_by dev_Disabled devices) errMsg))))).

Definition handleAdminUsers : sessionHandler := fun rq usr sess => renderAdminUsers rq usr sess 200 EmptyString.

  (** [target, ok := h.adminUser(w, r, usr); if !ok { return }] *)
Definition adminUser (rq : WebRequest) (usr : User) (k : User -> M WebReply) : M WebReply :=
    or_fail h usr (ListUsers (wq_ctx rq)) (fun users =>
      match findUser users (wq_PathValue rq "id") with
      | None => renderError h usr 404 "That user does not exist."
      | Some target => k target
      end).

Definition handleAdminUserSetEnabled : sessionHandler := fun rq usr sess =>
    adminUser rq usr (fun target =>
      let disabled := str_eq (PostFormValue rq "disabled") "true" in
      or_else (UpdateUser (wd_devNotifier h) (wq_ctx rq) (usr_ID usr) (usr_ID target) (MkUpdateUserParams None (Some disabled)))
        (guarded (renderAdminUsers rq usr sess) (logAndFail h usr))
        (fun _ => redirect_to "/admin/users")).

Definition adminUserPage (rq : WebRequest) (usr : User) (sess : Session) (target : User) : M adminUserData :=
    now ← now_unix;
    regs ← RegistrationStatuses (wq_ctx rq) [target] now;
    let reg := registration_of regs (usr_ID target) in
    mret (MkAdminUserData (newAppData h usr sess (usr_Email target) "admin-users") target (str_eq (usr_ID target) (usr_ID usr))
      EmptyString EmptyString EmptyString EmptyString EmptyString (FormatDuration (gs_linkTTL (wd_Grants h)))
      (is_registered (reg_Status reg)) (registrationText reg now) EmptyString false).

Definition user_error (msg : string) (hide : bool) (d : adminUserData) : adminUserData :=
    MkAdminUserData (ua_appData d) (ua_Target d) (ua_IsSelf d) msg (ua_Notice d) (ua_Link d) (ua_DeliveryNote d)
      (ua_LinkWarning d) (ua_LinkTTL d) (ua_Registered d) (ua_RegistrationText d) (ua_LinkKind d) hide.
Definition user_link (l : string * string) (kind note : string) (d : adminUserData) : adminUserData :=
    MkAdminUserData (ua_appData d) (ua_Target d) (ua_IsSelf d) (ua_Error d) (ua_Notice d) l.1 note l.2 (ua_LinkTTL d)
      (ua_Registered d) (ua_RegistrationText d) kind (ua_HideActions d).
Definition user_notice (notice : string) (d : adminUserData) : adminUserData :=
    MkAdminUserData (ua_appData d) (ua_Target d) (ua_IsSelf d) (ua_Error d) notice (ua_Link d) (ua_DeliveryNote d)
      (ua_LinkWarning d) (ua_LinkTTL d) (ua_Registered d) (ua_RegistrationText d) (ua_LinkKind d) (ua_HideActions d).

Definition handleAdminUserNewForm : sessionHandler := fun rq usr sess =>
    render "admin-user-new" (DAdminUserNew (MkAdminUserNewData (newAppData h usr sess "Invite user" "admin-users")
      EmptyString "user" EmptyString EmptyString EmptyString EmptyString EmptyString EmptyString)).

Definition handleAdminUserInvite : sessionHandler := fun rq usr sess =>
    let email := trim_space (PostFormValue rq "email") in
    let role := PostFormValue rq "role" in
    let page errMsg link note warning invited :=
      MkAdminUserNewData (newAppData h usr sess "Invite user" "admin-users") email role errMsg link note warning invited
        (FormatDuration (gs_linkTTL (wd_Grants h))) in
    or_else (CreateUserInvite mail_ParseAddress (Some (wd_Grants h)) (wq_ctx rq) (usr_ID usr) email role)
      (guarded
        (fun status msg => renderStatus status "admin-user-new"
           (DAdminUserNew (page msg EmptyString EmptyString EmptyString EmptyString)))
        (logAndFailMessage h usr
           "No invite link could be issued. The account may already have been created — check the users list, and send a new registration link from the user's page rather than inviting again."))
      (fun r =>
        let '(invited, link, delivery) := (r : User * string * Delivery) in
        let l := grantLink h rq link in
        render "admin-user-new" (DAdminUserNew (page EmptyString l.1 (deliveryNote delivery) l.2 (usr_Email invited)))).

Definition handleAdminUserEdit : sessionHandler := fun rq usr sess =>
    adminUser rq usr (fun target =>
      or_fail h usr (adminUserPage rq usr sess target) (fun data => render "admin-user" (DAdminUser data))).

Definition renderAdminUserError (rq : WebRequest) (usr : User) (sess : Session) (target : User) (status : Z) (msg : string)
      : M WebReply :=
    or_fail h usr (adminUserPage rq usr sess target) (fun data =>
      renderStatus status "admin-user" (DAdminUser (user_error msg (status =? 404) data))).

  (** Only a changed field is a parameter. *)
Definition update_params (rq : WebRequest) (target : User) : UpdateUserParams :=
    let role := PostFormValue rq "role" in
    let disabled := str_eq (PostFormValue rq "disabled") "true" in
    MkUpdateUserParams (if negb (str_eq role (usr_Role target)) then Some role else None)
      (if negb (Bool.eqb disabled (usr_Disabled target)) then Some disabled else None).

Definition handleAdminUserUpdate : sessionHandler := fun rq usr sess =>
    adminUser rq usr (fun target =>
      let location := ("/admin/users/" ++ usr_ID target)%string in
      match update_params rq target with
      | MkUpdateUserParams None None => redirect_to location
      | params =>
          or_else (UpdateUser (wd_devNotifier h) (wq_ctx rq) (usr_ID usr) (usr_ID target) params)
            (guarded (renderAdminUserError rq usr sess target) (logAndFail h usr))
            (fun _ => redirect_to location)
      end).

Definition handleAdminUserDelete : sessionHandler := fun rq usr sess =>
    adminUser rq usr (fun target =>
      if negb (str_eq (PostFormValue rq "confirm_email") (usr_Email target)) then
        renderAdminUserError rq usr sess target 422
          "Type the account's email address exactly to confirm deletion. Nothing was deleted."
      else
        or_else (DeleteUser (wd_devNotifier h) (wq_ctx rq) (usr_ID usr) (usr_ID target))
          (guarded (renderAdminUserError rq usr sess target) (logAndFail h usr))
          (fun _ => redirect_to "/admin/users")).

Definition handleAdminUserRecovery : sessionHandler := fun rq usr sess =>
    adminUser rq usr (fun target =>
      if negb (str_eq (PostFormValue rq "confirm_email") (usr_Email target)) then
        renderAdminUserError rq usr sess target 422
          "Type the account's email address exactly to confirm. No passkeys were revoked."
      else
        or_else (IssueRecovery (wd_Grants h) (wq_ctx rq) (usr_ID usr) target)
          (guarded (renderAdminUserError rq usr sess target)
             (logAndFailMessage h usr
                "No recovery link could be issued. This account's passkeys may already have been revoked, which would leave it locked out — issue another recovery link."))
          (fun r =>
            or_fail h usr (adminUserPage rq usr sess target) (fun data =>
              render "admin-user" (DAdminUser (user_link (grantLink h rq r.1) "recovery" (deliveryNote r.2) data))))).

Definition handleAdminUserReinvite : sessionHandler := fun rq usr sess =>
    adminUser rq usr (fun target =>
      or_else (ReissueInvite (wd_Grants h) (wq_ctx rq) (usr_ID usr) target)
        (guarded (renderAdminUserError rq usr sess target)
           (logAndFailMessage h usr
              "No registration link could be issued. Earlier links for this account may already have stopped working — send another from the user's page."))
        (fun r =>
          or_fail h usr (adminUserPage rq usr sess target) (fun data =>
            render "admin-user" (DAdminUser (user_link (grantLink h rq r.1.1) "invite" (deliveryNote r.2) data))))).

Definition handleAdminUserEmail : sessionHandler := fun rq usr sess =>
    adminUser rq usr (fun target =>
      or_else (AdminSet mail_ParseAddress (wd_Mailer h) (wq_ctx rq) (usr_ID usr) target
                 (trim_space (PostFormValue rq "email")))
        (guarded (renderAdminUserError rq usr sess target) (logAndFail h usr))
        (fun r =>
          or_fail h usr (adminUserPage rq usr sess r.1) (fun data =>
            let hint := if negb (ua_Registered data) then
                " If this account has not registered a passkey yet, send it a new registration link from the Registration card below."%string
              else EmptyString in
            render "admin-user" (DAdminUser (user_notice (noticeNote r.2 ++ hint)%string data))))).

  (** ** The audit log and the server page *)

Definition handleAdminAudit : sessionHandler := fun rq usr sess =>
    let q := wq_Query rq in
    let cursor := query rq "cursor" in
    or_fail h usr (ListUsers (wq_ctx rq)) (fun users =>
      let page rows pg note :=
        DAdminAudit (MkAdminAuditData (newAppData h usr sess "Audit log" "admin-audit") rows pg knownEventTypes
          (query rq "event_type") (trim_space (query rq "actor")) (query rq "from") (query rq "to") note (is_set cursor)) in
      let (filter, note) := auditFilterFrom q users in
      if is_set note then render "admin-audit" (page [] (MkPager EmptyString EmptyString 0) note)
      else
        or_else (ListAudit (wq_ctx rq) filter cursor auditPageSize)
          (fun _ => if is_set cursor then renderBadCursor h rq usr
                    else renderError h usr 500 "Something went wrong. Please try again.")
          (fun found =>
            let rows := AuditLogRepo.ap_Rows found in
            now ← time_now;
            render "admin-audit" (page (auditRowOf users now <$> rows)
              (audit_pager q (AuditLogRepo.ap_NextCursor found) (length rows)) EmptyString))).

Definition handleAdminServer : sessionHandler := fun rq usr sess =>
    or_fail h usr (ListAllDevices (wq_ctx rq)) (fun devices =>
      now ← time_now;
      render "admin-server" (DAdminServer (MkAdminServerData (newAppData h usr sess "Server" "admin-server")
        (in_Version (wd_Info h)) (duration_string (truncate (time_sub now (wd_StartedAt h)) (60 * second)))
        (dbSize (cfg_DatabasePath (wd_Cfg h))) (length devices) (server_rows h rq)))).
End Pages.
