(* ===== verification/WebUI.v ===== *)
(** * internal/server/webui/webui.go: the routes

    The static files and http.FileServerFS over them, the table of [New] with the
    guard of each route, and net/http's choice among its patterns.  WebFacts shows that the table's order never matters. *)

From S2P Require Import Prelude GoLib Schema Effects Auth ServiceDevices Passkeys SignIn ApiCore Api Config Stale.
From S2P Require Import WebCore WebDevices WebAccount WebAdmin.

(** What auth.go wraps around a page. *)
Inductive Guard := RequireSession | RequireAdmin | RequirePost | RequirePostAdmin.

Inductive WebHandler :=
  | Unguarded (serve : WebRequest -> M WebReply)
  | Guarded (g : Guard) (next : sessionHandler).

(** [wr_Subtree]: the pattern ends in a slash and matches every longer path. *)
Record WebRoute := MkWebRoute { wr_Method : string; wr_Path : list segment; wr_Subtree : bool; wr_Handler : WebHandler }.

Definition page_route (method : string) (path : list segment) (g : Guard) (next : sessionHandler) : WebRoute :=
  MkWebRoute method path false (Guarded g next).

(** ** The static files

    The files of //go:embed static/*, and http.FileServerFS over them. *)

Definition static_files : list string := ["app.css"; "passkey.js"; "ui.js"]%string.

(** path.Clean of a rooted path, by its segments; the last one first. *)
Definition clean_step (done : list string) (s : string) : list string :=
  if str_eq s EmptyString || str_eq s "." then done
  else if str_eq s ".." then tail done
  else s :: done.
Definition path_Clean (segs : list string) : list string := foldl clean_step [] segs.

(** path.Base of a rooted path. *)
Definition path_Base (segs : list string) : string :=
  default "/"%string (last (List.filter (fun s => negb (str_eq s EmptyString)) segs)).

Definition staticHandler (rq : WebRequest) : M WebReply :=
  let segs := wq_Segments rq in
  let base := path_Base segs in
  let slash := str_eq (default EmptyString (last segs)) EmptyString in
  let directory name :=
    if slash then mret (WListing name) else mret (WMoved (base ++ "/")) in
  if bool_decide (last segs = Some "index.html"%string) then mret (WMoved "./")
  else match path_Clean segs with
  | [] => directory "/"%string
  | [root] => if str_eq root "static" then directory "/static/"%string else mret (WPlainError 404)
  | [name; root] =>
      if str_eq root "static" && bool_decide (name ∈ static_files) then
        if negb slash then mret (WFile ("/static/" ++ name))
        else if str_eq base "/" || str_eq base "." then mret (WPlainError 500)
        else mret (WMoved ("../" ++ base))
      else mret (WPlainError 404)
  | _ => mret (WPlainError 404)
  end.

Section Routes.
Context `{Crypto} `{WebAuthn Options HttpRequest} `{ApiLibs} `{WebLibs} (h : WebDeps).

Definition public_routes : list WebRoute :=
    [ MkWebRoute "GET" [Lit EmptyString] false (Unguarded (handleRoot h));
      MkWebRoute "GET" [Lit "login"] false (Unguarded (handleLogin h));
      MkWebRoute "GET" [Lit "register"] false (Unguarded (handleRegister h)) ].

Definition account_routes : list WebRoute :=
    [ page_route "GET" [Lit "account"] RequireSession (handleAccount h);
      page_route "POST" [Lit "account"; Lit "email"] RequirePost (handleAccountEmailRequest h);
      page_route "POST" [Lit "account"; Lit "email"; Lit "cancel"] RequirePost (handleAccountEmailCancel h);
      page_route "GET" [Lit "account"; Lit "email"; Lit "confirm"] RequireSession (handleAccountEmailConfirmPage h);
      page_route "POST" [Lit "account"; Lit "email"; Lit "confirm"] RequirePost (handleAccountEmailConfirm h);
      page_route "POST" [Lit "account"; Lit "keys"] RequirePost (handleAPIKeyMint h);
      page_route "POST" [Lit "account"; Lit "keys"; Wild "id"; Lit "delete"] RequirePost (handleAPIKeyRevoke h) ].

Definition device_routes : list WebRoute :=
    [ page_route "GET" [Lit "devices"] RequireSession (handleDevices h);
      page_route "GET" [Lit "devices"; Lit "new"] RequireSession (handleDeviceNewForm h);
      page_route "POST" [Lit "devices"; Lit "new"] RequirePost (handleDeviceNewCreate h);
      page_route "GET" [Lit "devices"; Wild "id"] RequireSession (handleDeviceDetail h);
      page_route "GET" [Lit "devices"; Wild "id"; Lit "history"] RequireSession (handleDeviceHistory h);
      page_route "POST" [Lit "devices"; Wild "id"; Lit "rename"] RequirePost (handleDeviceRename h);
      page_route "POST" [Lit "devices"; Wild "id"; Lit "enabled"] RequirePost (handleDeviceSetEnabled h);
      page_route "POST" [Lit "devices"; Wild "id"; Lit "rotate-secret"] RequirePost (handleDeviceRotate h);
      page_route "POST" [Lit "devices"; Wild "id"; Lit "delete"] RequirePost (handleDeviceDelete h) ].

Definition admin_routes : list WebRoute :=
    [ page_route "GET" [Lit "admin"; Lit "users"] RequireAdmin (handleAdminUsers h);
      page_route "POST" [Lit "admin"; Lit "users"; Wild "id"; Lit "enabled"] RequirePostAdmin (handleAdminUserSetEnabled h);
      page_route "GET" [Lit "admin"; Lit "users"; Lit "new"] RequireAdmin (handleAdminUserNewForm h);
      page_route "POST" [Lit "admin"; Lit "users"; Lit "new"] RequirePostAdmin (handleAdminUserInvite h);
      page_route "GET" [Lit "admin"; Lit "users"; Wild "id"] RequireAdmin (handleAdminUserEdit h);
      page_route "POST" [Lit "admin"; Lit "users"; Wild "id"; Lit "update"] RequirePostAdmin (handleAdminUserUpdate h);
      page_route "POST" [Lit "admin"; Lit "users"; Wild "id"; Lit "email"] RequirePostAdmin (handleAdminUserEmail h);
      page_route "POST" [Lit "admin"; Lit "users"; Wild "id"; Lit "delete"] RequirePostAdmin (handleAdminUserDelete h);
      page_route "POST" [Lit "admin"; Lit "users"; Wild "id"; Lit "recovery"] RequirePostAdmin (handleAdminUserRecovery h);
      page_route "POST" [Lit "admin"; Lit "users"; Wild "id"; Lit "invite"] RequirePostAdmin (handleAdminUserReinvite h);
      page_route "GET" [Lit "admin"; Lit "devices"] RequireAdmin (handleAdminDevices h);
      page_route "GET" [Lit "admin"; Lit "devices"; Wild "id"] RequireAdmin (handleAdminDeviceDetail h);
      page_route "GET" [Lit "admin"; Lit "devices"; Wild "id"; Lit "history"] RequireAdmin (handleAdminDeviceHistory h);
      page_route "POST" [Lit "admin"; Lit "devices"; Wild "id"; Lit "enabled"] RequirePostAdmin (handleAdminDeviceSetEnabled h);
      page_route "GET" [Lit "admin"; Lit "audit"] RequireAdmin (handleAdminAudit h);
      page_route "GET" [Lit "admin"; Lit "server"] RequireAdmin (handleAdminServer h);
      MkWebRoute "GET" [Lit "static"] true (Unguarded staticHandler) ].

Definition notification_routes : list WebRoute :=
    [ page_route "GET" [Lit "admin"; Lit "endpoints"] RequireAdmin (handleEndpoints h);
      page_route "POST" [Lit "admin"; Lit "endpoints"] RequirePostAdmin (handleEndpointsCreate h);
      page_route "POST" [Lit "admin"; Lit "endpoints"; Wild "id"; Lit "enabled"] RequirePostAdmin (handleEndpointSetEnabled h);
      page_route "POST" [Lit "admin"; Lit "endpoints"; Wild "id"; Lit "test"] RequirePostAdmin (handleEndpointTest h);
      page_route "POST" [Lit "admin"; Lit "endpoints"; Wild "id"; Lit "delete"] RequirePostAdmin (handleEndpointDelete h);
      page_route "GET" [Lit "admin"; Lit "endpoints"; Wild "id"] RequireAdmin (handleEndpointDetail h);
      page_route "POST" [Lit "admin"; Lit "deliveries"; Wild "id"; Lit "redeliver"] RequirePostAdmin (handleDeliveryRedeliver h) ].

Definition feed_routes : list WebRoute :=
    [ page_route "GET" [Lit "admin"; Lit "feed"] RequireAdmin (handleAdminFeed h);
      page_route "POST" [Lit "admin"; Lit "feed"; Lit "tokens"] RequirePostAdmin (handleFeedTokenMint h);
      page_route "POST" [Lit "admin"; Lit "feed"; Lit "tokens"; Wild "id"; Lit "revoke"] RequirePostAdmin (handleFeedTokenRevoke h) ].

Definition New : list WebRoute :=
    public_routes ++ account_routes ++ device_routes ++ admin_routes
    ++ (if nc_Enabled (cfg_Notifications (wd_Cfg h)) then notification_routes else [])
    ++ (if fc_Enabled (cfg_Feed (wd_Cfg h)) then feed_routes else []).

  (** ** Serving *)

Definition guard (g : Guard) : sessionHandler -> WebRequest -> M WebReply :=
    match g with
    | RequireSession => requireSession h
    | RequireAdmin => requireAdmin h
    | RequirePost => requirePost h
    | RequirePostAdmin => requirePostAdmin h
    end.

Definition run_handler (hd : WebHandler) : WebRequest -> M WebReply :=
    match hd with Unguarded f => f | Guarded g next => guard g next end.
End Routes.

(** A trailing slash matches at least one more segment, the empty one included. *)
Definition web_path_matches (r : WebRoute) (segs : list string) : bool :=
  if wr_Subtree r then
    (length (wr_Path r) <? length segs)%nat && path_matches (wr_Path r) (take (length (wr_Path r)) segs)
  else path_matches (wr_Path r) segs.

Definition web_matches (method : string) (segs : list string) (r : WebRoute) : bool :=
  method_matches (wr_Method r) method && web_path_matches r segs.

(** The wildcards' values, as PathValue reads them. *)
Fixpoint path_value (p : list segment) (segs : list string) (name : string) : string :=
  match p, segs with
  | Lit _ :: p', _ :: s' => path_value p' s' name
  | Wild n :: p', s :: s' => if str_eq n name then s else path_value p' s' name
  | _, _ => EmptyString
  end.

Definition with_path_values (r : WebRoute) (rq : WebRequest) : WebRequest :=
  MkWebRequest (wq_ctx rq) (wq_Method rq) (wq_Path rq) (wq_Segments rq) (wq_Host rq) (wq_TLS rq) (wq_Cookie rq)
    (wq_Query rq) (wq_Form rq) (path_value (wr_Path r) (wq_Segments rq)).

Section Serve.
Context `{Crypto} `{WebAuthn Options HttpRequest} `{ApiLibs} `{WebLibs} (h : WebDeps).

Definition web_route (method : string) (segs : list string) : option WebRoute :=
    List.find (web_matches method segs) (New h).

  (** [None]: no route of the pages; the rest of the mux answers. *)
Definition web_serve (rq : WebRequest) : M (option WebReply) :=
    match web_route (wq_Method rq) (wq_Segments rq) with
    | Some r => v ← run_handler h (wr_Handler r) (with_path_values r rq); mret (Some v)
    | None => mret None
    end.
End Serve.

(** ** Specificity

    net/http prefers the pattern with a literal where the other has a wildcard. *)

Definition seg_le (a b : segment) : bool :=
  match a, b with
  | Lit x, Lit y => str_eq x y
  | _, Wild _ => true
  | Wild _, Lit _ => false
  end.

Fixpoint path_le (p q : list segment) : bool :=
  match p, q with
  | [], [] => true
  | a :: p', b :: q' => seg_le a b && path_le p' q'
  | _, _ => false
  end.

(** Two segments some text matches both. *)
Definition seg_meet (a b : segment) : bool :=
  match a, b with Lit x, Lit y => str_eq x y | Lit x, Wild _ | Wild _, Lit x => negb (str_eq x EmptyString) | Wild _, Wild _ => true end.

Fixpoint paths_meet (p q : list segment) : bool :=
  match p, q with
  | [], [] => true
  | a :: p', b :: q' => seg_meet a b && paths_meet p' q'
  | _, _ => false
  end.
