(* ===== verification/WebFacts.v ===== *)
(** * The web pages: theorems

    The guards and the open routes ([webui_authorized]), the choice among the
    routes ([web_routes_specific]), the owner's pages ([web_devices_isolated]). *)

From S2P Require Import Prelude GoLib Schema Effects Dates StoreUsers StoreDevices StoreTokens Auth ServiceDevices ServiceFacts.
From S2P Require Import ServiceTokens NetAddr Notify Endpoints Email Envelope EmailChange Passkeys Grants GrantFacts Admin Stale SignIn.
From S2P Require Import ApiCore ApiDevices ApiAdmin Api ApiFacts Config WebCore WebDevices WebAccount WebAdmin WebUI.

(** ** The guards *)

(** What a request is turned away with: the sign-in page, or an error page -
    the bare 500 if the template of the error page cannot be executed. *)
Inductive refusal `{WebLibs} : WebReply -> Prop :=
  | refused_login : refusal (WRedirect "/login")
  | refused_error status d : status ∈ [400; 403; 404; 500] -> refusal (WPage status "error" (DError d))
  | refused_plain d : execute_layout "error" (DError d) = false -> refusal (WPlainError 500).

(** What a route requires, by its method and path alone. *)
Definition web_policy (method : string) (path : list segment) : option Guard :=
  match path with
  | [Lit EmptyString] | [Lit "login"%string] | [Lit "register"%string] | Lit "static"%string :: _ => None
  | Lit "admin"%string :: _ => Some (if str_eq method "GET" then RequireAdmin else RequirePostAdmin)
  | _ => Some (if str_eq method "GET" then RequireSession else RequirePost)
  end.

Section Guards.
Context `{Crypto} `{WebLibs} (h : WebDeps) (rq : WebRequest) (w : World).

Definition web_session (usr : User) (sess : Session) : Prop :=
    session_of (wq_Cookie rq (sc_CookieName (as_Session (cfg_Auth (wd_Cfg h))))) w usr sess.

  (** The form was parsed and carries the session's token. *)
Definition form_token (sess : Session) : Prop :=
    wq_Form rq <> None /\ sess_CSRFToken sess <> EmptyString /\ PostFormValue rq "csrf" = sess_CSRFToken sess.

Definition web_granted (g : Guard) (usr : User) (sess : Session) : Prop :=
    web_session usr sess /\
    match g with
    | RequireSession => True
    | RequireAdmin => usr_Role usr = "admin"%string
    | RequirePost => form_token sess
    | RequirePostAdmin => form_token sess /\ usr_Role usr = "admin"%string
    end.

Context (Q : result WebReply -> World -> Prop).
  (** Turned away: only a session's stamps were written. *)
Hypothesis Hrefuse : forall v w', refusal v -> stamped (w_db w) (w_db w') -> Q (Ok v) w'.

Lemma wp_renderError usr status message w' : status ∈ [400; 403; 404; 500] -> stamped (w_db w) (w_db w') ->
    wp (renderError h usr status message) Q w'.
  Proof.
    intros Hs Hst. unfold renderError, renderErrorLink, renderStatus. rewrite bool_decide_true by (by apply (bool_decide_unpack _)).
    destruct (execute_layout _ _) eqn:He; apply wp_ret, Hrefuse; try done; [by constructor|by econstructor].
  Qed.

Lemma wp_requireSession (next : sessionHandler) :
    (forall usr sess w', stamped (w_db w) (w_db w') -> web_session usr sess -> wp (next rq usr sess) Q w') ->
    wp (requireSession h next rq) Q w.
  Proof.
    intros Hn. unfold requireSession, authenticateBrowser. apply wp_or_else, wp_AuthenticateRequest.
    - intros e w' Hw. apply wp_ret, Hrefuse; [constructor|]. rewrite Hw. apply stamped_refl.
    - intros u s w' Hst Hs. by apply Hn.
  Qed.

Lemma wp_adminOnly (next : sessionHandler) usr sess w' : stamped (w_db w) (w_db w') ->
    (usr_Role usr = "admin"%string -> wp (next rq usr sess) Q w') -> wp (adminOnly h next rq usr sess) Q w'.
  Proof.
    intros Hst Hn. unfold adminOnly. destruct (str_eq _ _) eqn:Hr; simpl; [by apply Hn, str_eq_true|].
    by apply wp_renderError; [set_solver|].
  Qed.

Lemma wp_requirePost (next : sessionHandler) :
    (forall usr sess w', stamped (w_db w) (w_db w') -> web_session usr sess -> form_token sess -> wp (next rq usr sess) Q w') ->
    wp (requirePost h next rq) Q w.
  Proof.
    intros Hn. apply wp_requireSession. intros usr sess w' Hst Hs.
    destruct (wq_Form rq) as [f|] eqn:Hf; [|by apply wp_renderError; [set_solver|]].
    destruct (ValidCSRF _ _) eqn:Hv; simpl; [|by apply wp_renderError; [set_solver|]].
    apply Hn; [done|done|]. unfold ValidCSRF in Hv. rewrite andb_true_iff, negb_true_iff, str_eq_true in Hv.
    destruct Hv as [Hne Heq]. apply str_eq_false in Hne. split; [by rewrite Hf|]. split; congruence.
  Qed.

Lemma wp_guard g (next : sessionHandler) :
    (forall usr sess w', stamped (w_db w) (w_db w') -> web_granted g usr sess -> wp (next rq usr sess) Q w') ->
    wp (guard h g next rq) Q w.
  Proof.
    intros Hn. destruct g; simpl.
    - apply wp_requireSession. intros usr sess w' Hst Hs. by apply Hn.
    - apply wp_requireSession. intros usr sess w' Hst Hs. apply wp_adminOnly; [done|]. intros Hr. by apply Hn.
    - apply wp_requirePost. intros usr sess w' Hst Hs Hf. by apply Hn.
    - apply wp_requirePost. intros usr sess w' Hst Hs Hf. apply wp_adminOnly; [done|]. intros Hr. by apply Hn.
  Qed.
End Guards.

(** ** The open routes *)

(** An unused, unexpired registration link of a user. *)
Definition live_link `{Crypto} (token : string) (w : World) (urow : user_row) : Prop :=
  exists row, row ∈ d_recovery (w_db w) /\ rr_token_hash row = HashToken token /\ default 0 (rr_used_at row) = 0 /\
    e_clock (w_env w) (S (w_n w)) < rr_expires_at row /\ urow ∈ d_users (w_db w) /\ ru_id urow = rr_user_id row.

(** A location relative to the request's path: no scheme, no host. *)
Definition relative_location (l : string) : Prop :=
  exists name, name ∈ "."%string :: ".."%string :: "static"%string :: static_files /\
    (l = (name ++ "/") \/ l = ("../" ++ name))%string.

Definition static_reply (v : WebReply) : Prop :=
  match v with
  | WFile p => exists name, name ∈ static_files /\ p = ("/static/" ++ name)%string
  | WListing d => d = "/"%string \/ d = "/static/"%string
  | WMoved l => relative_location l
  | WPlainError status => status = 404 \/ status = 500
  | _ => False
  end.

(** What an open route answers, and to whom. *)
Definition open_reply `{Crypto} `{WebLibs} (h : WebDeps) (path : list segment) (rq : WebRequest) (w : World) (v : WebReply)
    : Prop :=
  match path with
  | [Lit EmptyString] => v = WRedirect "/login" \/
      v = WRedirect "/devices" /\ exists usr sess, web_session h rq w usr sess
  | [Lit "login"%string] =>
      (exists d, v = WPage 200 "login" (DLogin d) /\ (lg_CSRFToken d = EmptyString \/
         exists usr sess, web_session h rq w usr sess /\ lg_CSRFToken d = sess_CSRFToken sess)) \/
      v = WPlainError 500
  | [Lit "register"%string] =>
      (exists d, v = WPage 200 "register" (DRegister d) /\ (gd_AccountEmail d = EmptyString \/
         exists urow, live_link (query rq "token") w urow /\ gd_AccountEmail d = ru_email urow)) \/
      (exists d, v = WPage 500 "error" (DError d)) \/ v = WBare statusClientClosedRequest \/ v = WPlainError 500
  | [Lit "static"%string] => static_reply v
  | _ => False
  end.

Definition open_route `{Crypto} `{WebLibs} (h : WebDeps) (path : list segment) (f : WebRequest -> M WebReply)
    (rq : WebRequest) : Prop :=
  forall w, wp (f rq) (fun res w' => stamped (w_db w) (w_db w') /\ exists v, res = Ok v /\ open_reply h path rq w v) w.

Lemma wp_render `{WebLibs} status page d (Q : result WebReply -> World -> Prop) w :
  bool_decide (page ∈ authPages ++ appPages) = true ->
  (forall v, v = WPage status page d \/ v = WPlainError 500 -> Q (Ok v) w) -> wp (renderStatus status page d) Q w.
Proof. intros Hp HQ. unfold renderStatus. rewrite Hp. destruct (execute_layout _ _); apply wp_ret, HQ; auto. Qed.

Lemma wp_ClassifyRegistration `{Crypto} c token w :
  wp (ClassifyRegistration c token) (fun r w' => w_db w' = w_db w /\
    match r with
    | Ok t => rg_Email t = EmptyString \/ exists urow, live_link token w urow /\ rg_Email t = ru_email urow
    | Err _ => True
    | Panic => False
    end) w.
Proof.
  assert (Hdead : forall w', w_db w' = w_db w -> wp (classify_dead c token) (fun r w' => w_db w' = w_db w /\
    match r with
    | Ok t => rg_Email t = EmptyString \/ exists urow, live_link token w urow /\ rg_Email t = ru_email urow
    | Err _ => True
    | Panic => False
    end) w').
  { intros w' Hd. unfold classify_dead. apply wp_bind, wp_inert; [apply inert_adminExists|intros; split; [congruence|done]|].
    intros has w1 _ Hd1 _. destruct has; [|apply wp_ret; split; [congruence|by left]].
    apply wp_bind. destruct (str_eq token EmptyString); [|apply wp_emit; intros m]; apply wp_ret; (split; [cbn; congruence|by left]). }
  unfold ClassifyRegistration, lookupGrant. apply wp_bind.
  destruct (str_eq token EmptyString); [by apply wp_ret, Hdead|].
  apply wp_bind, wp_catch, wp_get_one.
  - case_bool_decide; [by apply wp_ret, Hdead|]. apply wp_fail. by split.
  - intros _. rewrite bool_decide_true by done. by apply wp_ret, Hdead.
  - intros row [Hin%list_elem_of_In Hh%str_eq_true]%find_some. cbn [rt_UsedAt rt_ExpiresAt scanRecoveryToken].
    destruct (Z.eqb_spec (scanInt64 (rr_used_at row)) 0) as [Hu|]; cbn [negb]; [|by apply wp_ret, Hdead].
    apply wp_bind, wp_now. cbn [w_env w_n bump]. destruct (Z.leb_spec (rr_expires_at row) (e_clock (w_env w) (S (w_n w))));
      [by apply wp_ret, Hdead|].
    apply wp_ret. apply wp_bind, wp_catch, wp_get_one.
    + case_bool_decide; [by apply Hdead|]. apply wp_fail. by split.
    + intros _. rewrite bool_decide_true by done. by apply Hdead.
    + intros urow [Huin%list_elem_of_In Huid%str_eq_true]%find_some. apply wp_ret. split; [done|]. right. exists urow.
      split; [|done]. exists row. by split_and!.
Qed.

Lemma wp_Cancelled c (Q : result bool -> World -> Prop) w : (forall b, Q (Ok b) w) -> wp (Cancelled c) Q w.
Proof. intros HQ. apply HQ. Qed.

(** The static files: what the last name of the path is. *)
Lemma path_Base_cases segs : (Forall (eq EmptyString) segs /\ path_Clean segs = []) \/ path_Base segs = "."%string \/ path_Base segs = ".."%string \/
  exists rest, path_Clean segs = path_Base segs :: rest.
Proof.
  induction segs as [|s segs IH] using rev_ind; [by left|].
  assert (Hc : path_Clean (segs ++ [s]) = clean_step (path_Clean segs) s) by (unfold path_Clean; by rewrite foldl_snoc).
  rewrite Hc. unfold clean_step, path_Base in *. rewrite List.filter_app. cbn [List.filter].
  destruct (str_eq s EmptyString) eqn:Hs; cbn [negb orb].
  - rewrite app_nil_r. apply str_eq_true in Hs as ->. destruct IH as [[IH Hn]|IH]; [left|by right].
    split; [|done]. apply Forall_app. split; [done|by constructor].
  - rewrite last_snoc. cbn [default from_option]. right. destruct (str_eq s ".") eqn:H1; [left; by apply str_eq_true|].
    destruct (str_eq s "..") eqn:H2; [right; left; by apply str_eq_true|]. right; right. by eexists.
Qed.

Lemma all_empty_last segs : Forall (eq EmptyString) segs -> default EmptyString (last segs) = EmptyString.
Proof.
  intros H. destruct (last segs) as [s|] eqn:Hl; [|done]. apply last_Some in Hl as [l ->].
  apply Forall_app in H as [_ H]. by inversion H.
Qed.

Lemma staticHandler_reply rq w : exists v, staticHandler rq w = (Ok v, w) /\ static_reply v.
Proof.
  unfold staticHandler. cbv zeta. set (segs := wq_Segments rq). pose proof (path_Base_cases segs) as Hb.
  assert (Hdir : forall name, (name = "/"%string \/ name = "/static/"%string) ->
      (forall b rest, path_Clean segs = b :: rest -> b = "static"%string) ->
    exists v, (if str_eq (default EmptyString (last segs)) EmptyString then mret (WListing name)
               else mret (WMoved (path_Base segs ++ "/")) : M WebReply) w = (Ok v, w) /\ static_reply v).
  { intros name Hn Hc. destruct (str_eq _ _) eqn:Hs; eexists; (split; [reflexivity|]); [done|].
    exists (path_Base segs). split; [|by left]. destruct Hb as [[He _]|[->|[->|[rest He]]]]; [|rewrite !elem_of_cons; tauto..|].
    - by rewrite (all_empty_last _ He) in Hs.
    - rewrite (Hc _ _ He), !elem_of_cons. tauto. }
  case_bool_decide; [eexists; split; [reflexivity|]; exists "."%string; split; [set_solver|by left]|].
  destruct (path_Clean segs) as [|name [|root [|]]]; [by apply Hdir; [left|]| | |].
  - destruct (str_eq name "static") eqn:Hr; [|eexists; split; [reflexivity|by left]].
    apply str_eq_true in Hr as ->. apply Hdir; [by right|]. by intros b rest [= <-].
  - destruct (str_eq root "static" && _) eqn:Hr; [|eexists; split; [reflexivity|by left]].
    apply andb_true_iff in Hr as [_ Hin%bool_decide_eq_true].
    destruct (str_eq (default _ _) _) eqn:Hs; cbn [negb]; [|eexists; split; [reflexivity|by exists name]].
    destruct (str_eq (path_Base segs) "/" || _) eqn:Hbase; [eexists; split; [reflexivity|by right]|].
    apply orb_false_iff in Hbase as [H1 H2]. eexists. split; [reflexivity|]. exists (path_Base segs).
    split; [|by right]. destruct Hb as [[_ He]|[->|[->|[rest [= -> _]]]]]; [done|rewrite !elem_of_cons; tauto..].
  - eexists. split; [reflexivity|by left].
Qed.

(** ** Every route is behind its guard *)

(** A property of every route, whatever is enabled. *)
Ltac each_route :=
  unfold New; rewrite !Forall_app; split_and!;
  [..|destruct (nc_Enabled _); [|constructor]|destruct (fc_Enabled _); [|constructor]].

Section Table.
Context `{Crypto} `{WebAuthn Options HttpRequest} `{ApiLibs} `{WebLibs} (h : WebDeps).

Definition policy_of (hd : WebHandler) : option Guard := match hd with Unguarded _ => None | Guarded g _ => Some g end.

Lemma New_guarded : Forall (fun r => policy_of (wr_Handler r) = web_policy (wr_Method r) (wr_Path r)) (New h).
  Proof. each_route; repeat constructor. Qed.

Lemma web_route_in method segs r : web_route h method segs = Some r -> r ∈ New h /\ web_matches method segs r = true.
  Proof. intros [Hin Hm]%find_some. by split; [apply list_elem_of_In|]. Qed.

Lemma run_some {A B} (m : M A) (f : A -> B) (Q : result B -> World -> Prop) w :
    wp m (fun r w' => Q (match r with Ok v => Ok (f v) | Err e => Err e | Panic => Panic end) w') w ->
    wp (v ← m; mret (f v)) Q w.
  Proof. intros Hm. apply wp_bind. eapply wp_mono; [exact Hm|]. by intros [v|e|] w' Hq; [apply wp_ret|..]. Qed.

  (** The open routes. *)
Lemma open_root rq : open_route h [Lit EmptyString] (handleRoot h) rq.
  Proof.
    intros w. unfold handleRoot, authenticateBrowser. apply wp_or_else, wp_AuthenticateRequest.
    - intros e w' Hd. apply wp_ret. split; [rewrite Hd; apply stamped_refl|]. eexists. split; [done|]. by left.
    - intros u s w' Hst Hs. apply wp_ret. split; [done|]. eexists. split; [done|]. right. split; [done|]. by exists u, s.
  Qed.

Lemma open_login rq : open_route h [Lit "login"] (handleLogin h) rq.
  Proof.
    intros w. unfold handleLogin, authenticateBrowser. apply wp_bind, wp_catch, wp_AuthenticateRequest.
    - intros e w' Hd. apply wp_render; [done|]. intros v Hv. split; [rewrite Hd; apply stamped_refl|].
      eexists. split; [done|]. destruct Hv as [->| ->]; [left|by right]. eexists. split; [done|]. by left.
    - intros u s w' Hst Hs. apply wp_render; [done|]. intros v Hv. split; [done|].
      eexists. split; [done|]. destruct Hv as [->| ->]; [left|by right]. eexists. split; [done|]. right. by exists u, s.
  Qed.

Lemma open_register rq : open_route h [Lit "register"] (handleRegister h) rq.
  Proof.
    intros w. unfold handleRegister. apply wp_or_else. eapply wp_mono; [apply wp_ClassifyRegistration|].
    intros [t|e|] w' [Hd Ht]; [| |done].
    - apply wp_render; [done|]. intros v Hv. split; [rewrite Hd; apply stamped_refl|]. eexists. split; [done|].
      destruct Hv as [->| ->]; [left; eexists; by split|by right; right; right].
    - apply wp_bind, wp_Cancelled. intros [].
      + apply wp_ret. split; [rewrite Hd; apply stamped_refl|]. eexists. split; [done|]. by right; right; left.
      + apply wp_render; [done|]. intros v Hv. split; [rewrite Hd; apply stamped_refl|]. eexists. split; [done|].
        destruct Hv as [->| ->]; [right; left; by eexists|by right; right; right].
  Qed.

Lemma open_static rq : open_route h [Lit "static"] staticHandler rq.
  Proof.
    intros w. apply wp_intro. intros res w' Hres. destruct (staticHandler_reply rq w) as (v & Hv & Hs).
    rewrite Hv in Hres. injection Hres as <- <-. split; [apply stamped_refl|]. by exists v.
  Qed.

Lemma New_open : Forall (fun r => match wr_Handler r with
    | Unguarded f => forall rq, open_route h (wr_Path r) f rq | Guarded _ _ => True end) (New h).
  Proof.
    each_route; repeat (apply Forall_cons; split;
      [first [exact I | exact open_root | exact open_login | exact open_register | exact open_static]|]); by apply Forall_nil.
  Qed.

  (** C4: Every page is behind its guard.  A request that a route of the table
      serves is either turned away - to the sign-in page or with an error page,
      and nothing but a session's stamps was written -, or its path's guard
      was met, and the page's handler ran after nothing but those stamps: the
      cookie names a session that had not expired at the clock read in this
      request, of an enabled user; a POST carries that session's form token;
      under /admin the user is an administrator.  The four open routes - GET /,
      the sign-in, the registration and the static files - write nothing else
      than a session's stamps and answer: GET / a redirect, to the devices only
      with a live session; the sign-in page with no other form token than the
      live session's; the registration page, which names an account only to the
      bearer of one of its unused, unexpired links; a static file, a listing of
      their directory, a redirect along the path or a bare error. *)
Theorem webui_authorized (rq : WebRequest) r w (Hr : web_route h (wq_Method rq) (wq_Segments rq) = Some r) :
    wp (web_serve h rq) (fun res w' =>
      (exists v, res = Ok (Some v) /\ refusal v /\ stamped (w_db w) (w_db w')) \/
      match web_policy (wr_Method r) (wr_Path r), wr_Handler r with
      | None, Unguarded f => stamped (w_db w) (w_db w') /\
          exists v, res = Ok (Some v) /\ open_reply h (wr_Path r) rq w v
      | Some g, Guarded _ next => exists usr sess w1 r1, stamped (w_db w) (w_db w1) /\
          web_granted h rq w g usr sess /\ next (with_path_values r rq) usr sess w1 = (r1, w')
      | _, _ => False
      end) w.
  Proof.
    unfold web_serve. rewrite Hr. apply web_route_in in Hr as [Hin _].
    pose proof (proj1 (Forall_forall _ _) New_guarded r Hin) as Hp. simpl in Hp. rewrite <- Hp.
    pose proof (proj1 (Forall_forall _ _) New_open r Hin) as Ho. simpl in Ho.
    destruct (wr_Handler r) as [f|g next]; simpl; apply run_some.
    - eapply wp_mono; [apply (Ho (with_path_values r rq))|]. intros res w' [Hst (v & -> & Hv)]. right. split; [done|].
      by exists v.
    - apply (wp_guard h (with_path_values r rq) w).
      + intros v w' Hv Hst. left. by exists v.
      + intros usr sess w1 Hst Hg. apply wp_intro. intros r1 w' Hn. right. exists usr, sess, w1, r1. by destruct g.
  Qed.
End Table.

(** ** The choice among the routes *)

Definition route_key (r : WebRoute) : string * list segment * bool := (wr_Method r, wr_Path r, wr_Subtree r).

(** Some request matches both; a subtree shares its first segment at least. *)
Definition keys_meet (x y : string * list segment * bool) : bool :=
  methods_overlap x.1.1 y.1.1 &&
  if x.2 || y.2 then paths_meet (take 1 x.1.2) (take 1 y.1.2) else paths_meet x.1.2 y.1.2.

(** [x] is strictly more specific. *)
Definition key_lt (x y : string * list segment * bool) : bool :=
  str_eq x.1.1 y.1.1 && path_le x.1.2 y.1.2 && negb (path_le y.1.2 x.1.2).

(** Where two patterns of the list meet, the earlier is the more specific. *)
Fixpoint well_ordered (l : list (string * list segment * bool)) : bool :=
  match l with
  | [] => true
  | x :: l' => forallb (fun y => negb (keys_meet x y) || key_lt x y) l' && well_ordered l'
  end.

Lemma seg_meet_complete a b s : segment_matches a s = true -> segment_matches b s = true -> seg_meet a b = true.
Proof. destruct a as [x|], b as [y|]; simpl; rewrite ?str_eq_true; by intros; subst; rewrite ?str_eq_refl. Qed.

Lemma paths_meet_complete p q s : path_matches p s = true -> path_matches q s = true -> paths_meet p q = true.
Proof.
  revert q s. induction p as [|a p IH]; intros [|b q] [|s l]; try done. simpl.
  intros [Ha Hp]%andb_true_iff [Hb Hq]%andb_true_iff.
  by rewrite (seg_meet_complete a b s), (IH q l).
Qed.

Lemma path_matches_take n p s : path_matches p s = true -> path_matches (take n p) (take n s) = true.
Proof.
  revert p s. induction n as [|n IH]; intros [|a p] [|b s]; try done. simpl.
  intros [Ha Hp]%andb_true_iff. by rewrite Ha, IH.
Qed.

(** A subtree's first segment matches. *)
Lemma web_path_first r segs : wr_Path r <> [] -> web_path_matches r segs = true ->
  path_matches (take 1 (wr_Path r)) (take 1 segs) = true.
Proof.
  unfold web_path_matches. intros Hne. destruct (wr_Subtree r).
  - intros [Hlen%Nat.ltb_lt Hm]%andb_true_iff. apply (path_matches_take 1) in Hm.
    rewrite take_take in Hm. by destruct (wr_Path r).
  - apply path_matches_take.
Qed.

Lemma keys_meet_complete r r' method segs : wr_Path r <> [] -> wr_Path r' <> [] ->
  web_matches method segs r = true -> web_matches method segs r' = true -> keys_meet (route_key r) (route_key r') = true.
Proof.
  intros Hne Hne' [Hm Hp]%andb_true_iff [Hm' Hp']%andb_true_iff. unfold keys_meet. simpl.
  rewrite (methods_overlap_complete _ _ method) by done. simpl.
  destruct (wr_Subtree r || wr_Subtree r') eqn:Hs.
  - eapply paths_meet_complete; by apply web_path_first.
  - apply orb_false_iff in Hs as [Hs Hs']. unfold web_path_matches in *. rewrite Hs in Hp. rewrite Hs' in Hp'.
    by eapply paths_meet_complete.
Qed.

Lemma well_ordered_lt l i j x y : well_ordered l = true -> l !! i = Some x -> l !! j = Some y -> (i < j)%nat ->
  keys_meet x y = true -> key_lt x y = true.
Proof.
  revert i j. induction l as [|a l IH]; [done|]. intros i j [Ha Hl]%andb_true_iff Hx Hy Hij Hm.
  destruct j as [|j]; [lia|]. simpl in Hy. destruct i as [|i]; [|by apply (IH i j); try done; lia].
  injection Hx as ->. rewrite forallb_forall in Ha. specialize (Ha y). rewrite Hm in Ha. apply Ha.
  apply list_elem_of_In. by eapply list_elem_of_lookup_2.
Qed.

Lemma find_first {A} (p : A -> bool) l x : List.find p l = Some x ->
  exists i, l !! i = Some x /\ forall j y, l !! j = Some y -> p y = true -> (i <= j)%nat.
Proof.
  induction l as [|a l IH]; [done|]. simpl. destruct (p a) eqn:Ha.
  - intros [= ->]. exists 0%nat. split; [done|]. intros; lia.
  - intros (i & Hi & Hle)%IH. exists (S i). split; [done|]. intros [|j] y Hy Hp.
    + injection Hy as ->. congruence.
    + pose proof (Hle j y Hy Hp). lia.
Qed.

Section Choice.
Context `{Crypto} `{WebAuthn Options HttpRequest} `{ApiLibs} `{WebLibs} (h : WebDeps).

Lemma New_well_ordered : well_ordered (route_key <$> New h) = true.
  Proof. unfold New. by destruct (nc_Enabled _), (fc_Enabled _). Qed.

Lemma New_paths : Forall (fun r => wr_Path r <> []) (New h).
  Proof. each_route; repeat constructor; done. Qed.

  (** The order in which the routes are registered does not matter: of all
      the routes that match a request, the one that serves it is the single
      most specific - every other one has the same method and a wildcard
      somewhere where it has a literal, and nowhere the reverse. *)
Theorem web_routes_specific method segs r (Hr : web_route h method segs = Some r) :
    forall r', r' ∈ New h -> web_matches method segs r' = true -> r' = r \/
      wr_Method r' = wr_Method r /\ path_le (wr_Path r) (wr_Path r') = true /\ path_le (wr_Path r') (wr_Path r) = false.
  Proof.
    intros r' Hin Hm'. pose proof (proj2 (web_route_in h method segs r Hr)) as Hm.
    destruct (find_first _ _ _ Hr) as (i & Hi & Hle). apply list_elem_of_lookup_1 in Hin as [j Hj].
    pose proof (Hle j r' Hj Hm') as Hij. destruct (decide (i = j)) as [->|Hne]; [left; congruence|right].
    pose proof (Forall_lookup_1 _ _ _ _ New_paths Hi) as Hp. pose proof (Forall_lookup_1 _ _ _ _ New_paths Hj) as Hp'.
    assert (Hlt : key_lt (route_key r) (route_key r') = true).
    { apply (well_ordered_lt (route_key <$> New h) i j); [apply New_well_ordered|by rewrite list_lookup_fmap, ?Hi, ?Hj..|lia|].
      by eapply keys_meet_complete. }
    unfold key_lt in Hlt. simpl in Hlt. rewrite !andb_true_iff, negb_true_iff, str_eq_true in Hlt. naive_solver.
  Qed.
End Choice.

(** ** The owner's pages *)

Section Isolation.
Context `{Crypto} `{WebAuthn Options HttpRequest} `{ApiLibs} `{WebLibs} (h : WebDeps).

Definition shown_refusal (w : World) (r : result WebReply) (w' : World) : Prop :=
    (exists v, r = Ok v /\ refusal v) /\ w_db w' = w_db w.

Definition device_page (r : WebRoute) : Prop := exists rest, wr_Path r = Lit "devices" :: Wild "id" :: rest.

Definition page_isolated (r : WebRoute) : Prop :=
    exists g next, wr_Handler r = Guarded g next /\ forall rq usr sess w,
      not_owner (usr_ID usr) (wq_PathValue rq "id") (w_db w) -> wp (next rq usr sess) (shown_refusal w) w.

Lemma wp_error_page usr status message w w' : status ∈ [400; 403; 404; 500] -> w_db w' = w_db w ->
    wp (renderError h usr status message) (shown_refusal w) w'.
  Proof.
    intros Hs Hd. unfold renderError, renderErrorLink, renderStatus.
    rewrite bool_decide_true by (by apply (bool_decide_unpack _)).
    destruct (execute_layout _ _) eqn:He; apply wp_ret; (split; [|done]); eexists; (split; [done|]);
      [by constructor|by econstructor].
  Qed.

Lemma owned_page_refused rq usr (k : Device -> M WebReply) w :
    not_owner (usr_ID usr) (wq_PathValue rq "id") (w_db w) -> wp (ownedDevice h rq usr k) (shown_refusal w) w.
  Proof.
    intros Hno. apply wp_or_else. eapply wp_mono; [by apply owned_refused_only|].
    intros r w' (Hd & _ & [->| ->]); case_bool_decide; (apply wp_error_page; [set_solver|done]).
  Qed.

Lemma device_pages_isolated : Forall (fun r => device_page r -> page_isolated r) (New h).
  Proof.
    each_route; repeat (apply Forall_cons; split; [intros [rest Hp]; simpl in Hp; first
      [ discriminate Hp
      | eexists _, _; split; [reflexivity|]; intros; by apply owned_page_refused ]|]); by apply Forall_nil.
  Qed.

  (** C8: A request for a page or an action under /devices/{id} whose cookie is
      not a session of the device's owner gets the sign-in page or an error
      page, whatever it asks for, and nothing but a session's stamps is
      written. *)
Theorem web_devices_isolated (rq : WebRequest) r id w (Hr : web_route h (wq_Method rq) (wq_Segments rq) = Some r)
      (Hpath : device_page r) (Hid : wq_Segments rq !! 1%nat = Some id)
      (Hno : forall usr sess, web_session h rq w usr sess -> not_owner (usr_ID usr) id (w_db w)) :
    wp (web_serve h rq) (fun res w' =>
      (exists v, res = Ok (Some v) /\ refusal v) /\ stamped (w_db w) (w_db w')) w.
  Proof.
    unfold web_serve. rewrite Hr. apply web_route_in in Hr as [Hin _].
    destruct (proj1 (Forall_forall _ _) device_pages_isolated r Hin Hpath) as (g & next & -> & Hi).
    apply run_some, (wp_guard h (with_path_values r rq) w); [by intros v w' Hv Hst; split; [exists v|]|].
    intros usr sess w1 Hst [Hs _]. eapply wp_mono; [apply Hi|].
    - destruct Hpath as [rest Hp]. simpl. rewrite Hp. destruct (wq_Segments rq) as [|s0 [|s1 sl]]; try done.
      simpl in Hid |- *. injection Hid as ->. destruct Hst as (s & k & n & -> & _). by apply (Hno usr sess).
    - intros res w2 [(v & -> & Hv) ->]. by split; [exists v|].
  Qed.
End Isolation.
