(* ===== verification/WebPages.v ===== *)
(** * The web pages: what they show

    Every reply is a page of the table executed on the data of its template, the
    failure of that, a redirect within the site or a static file
    ([web_replies_typed]); the audit log's date filter
    ([audit_filter_days]), the mark of the last administrator
    ([last_admin_marked]) and the expiry shown for an address
    ([expiry_shown_iff_due]) mean what the services do. *)

From S2P Require Import Prelude GoLib Schema Effects Dates StoreUsers StoreDevices StoreTokens Auth ServiceDevices.
From S2P Require Import ServiceTokens NetAddr Notify Endpoints Email Envelope EmailChange Passkeys Grants Admin AdminFacts Stale SignIn.
From S2P Require Import ApiCore ApiDevices ApiAdmin Api Config WebCore WebDevices WebAccount WebAdmin WebUI WebFacts.
From Stdlib Require Import Ascii.

(** ** Results *)

(** Every value [m] returns has the property. *)
Definition always {A} (P : A -> Prop) (m : M A) : Prop := forall w a w', m w = (Ok a, w') -> P a.

Section Always.
Context {A : Type} (P : A -> Prop).

Lemma always_ret a : P a -> always P (mret a).
Proof. by intros Ha w b w' [= <- _]. Qed.

Lemma always_bind {B} (m : M B) (k : B -> M A) : (forall b, always P (k b)) -> always P (m ≫= k).
Proof.
  intros Hk w a w' He. unfold mbind, M_bind in He. destruct (m w) as [[b|e|] w1]; [|done..]. by eapply Hk.
Qed.

Lemma always_or_else {B} (m : M B) (f : err -> M A) (k : B -> M A) :
  (forall e, always P (f e)) -> (forall b, always P (k b)) -> always P (or_else m f k).
Proof. intros Hf Hk. unfold or_else. apply always_bind. by intros [b|e]. Qed.
End Always.

(** ** Replies *)

(** The template each data is for. *)
Definition data_for (page : string) (d : PageData) : bool :=
  match d with
  | DError _ => str_eq page "error"
  | DLogin _ => str_eq page "login"
  | DRegister _ => str_eq page "register"
  | DDevices _ => str_eq page "devices"
  | DDeviceNew _ => str_eq page "device-new"
  | DDeviceDetail _ => str_eq page "device-detail" || str_eq page "admin-device"
  | DDeviceHistory _ => str_eq page "device-history"
  | DAdminDevices _ => str_eq page "admin-devices"
  | DAccount _ => str_eq page "account"
  | DAccountEmailConfirm _ => str_eq page "account-email-confirm"
  | DAdminFeed _ => str_eq page "admin-feed"
  | DEndpoints _ => str_eq page "endpoints"
  | DEndpointDetail _ => str_eq page "endpoint-detail"
  | DAdminUsers _ => str_eq page "admin-users"
  | DAdminUserNew _ => str_eq page "admin-user-new"
  | DAdminUser _ => str_eq page "admin-user"
  | DAdminAudit _ => str_eq page "admin-audit"
  | DAdminServer _ => str_eq page "admin-server"
  end.

(** A path of this site: no second slash that would name another host. *)
Definition local_path (s : string) : bool :=
  match s with
  | String "/" (String c _) => negb (Ascii.eqb c "/") && negb (Ascii.eqb c "\")
  | _ => false
  end.

(** A page of the table whose template is for that data, shown if the template
    can be executed on it. *)
Definition page_of `{WebLibs} (page : string) (d : PageData) (shown : bool) : Prop :=
  page ∈ authPages ++ appPages /\ data_for page d = true /\ execute_layout page d = shown.

(** The replies of the handlers: [WPlainError] is the 500 of a page whose
    template could not be executed. *)
Definition typed `{WebLibs} (v : WebReply) : Prop :=
  match v with
  | WPage _ page d => page_of page d true
  | WRedirect l => local_path l = true
  | WBare status => status = statusClientClosedRequest
  | WPlainError status => status = 500 /\ exists page d, page_of page d false
  | WFile _ | WListing _ | WMoved _ => False
  end.

Lemma always_page `{WebLibs} status page d : bool_decide (page ∈ authPages ++ appPages) = true -> data_for page d = true ->
  always typed (renderStatus status page d).
Proof.
  intros Hp Hd. unfold renderStatus. rewrite Hp. apply bool_decide_eq_true in Hp.
  destruct (execute_layout page d) eqn:He; apply always_ret; [by split_and!|]. split; [done|]. by exists page, d.
Qed.

Lemma always_redirect `{WebLibs} l : local_path l = true -> always typed (redirect_to l).
Proof. intros Hl. by apply always_ret. Qed.

Section Replies.
Context `{Crypto} `{WebLibs} (h : WebDeps).

Lemma always_error usr status message text url : always typed (renderErrorLink h usr status message text url).
  Proof. by apply always_page. Qed.
Lemma always_fail usr : always typed (logAndFail h usr).
  Proof. apply always_error. Qed.
Lemma always_or_fail {A} usr (m : M A) (k : A -> M WebReply) :
    (forall a, always typed (k a)) -> always typed (or_fail h usr m k).
  Proof. intros Hk. apply always_or_else; [intros _; apply always_fail|done]. Qed.

Lemma always_requireSession (next : sessionHandler) rq :
    (forall rq usr sess, always typed (next rq usr sess)) -> always typed (requireSession h next rq).
  Proof. intros Hn. apply always_or_else; [intros e; by apply always_redirect|intros us; apply Hn]. Qed.
Lemma always_adminOnly (next : sessionHandler) rq usr sess :
    (forall rq usr sess, always typed (next rq usr sess)) -> always typed (adminOnly h next rq usr sess).
  Proof. intros Hn. unfold adminOnly. destruct (negb _); [apply always_error|apply Hn]. Qed.
Lemma always_requirePost (next : sessionHandler) rq :
    (forall rq usr sess, always typed (next rq usr sess)) -> always typed (requirePost h next rq).
  Proof.
    intros Hn. apply always_requireSession. intros rq' usr sess.
    destruct (wq_Form rq'); [|apply always_error]. destruct (negb _); [apply always_error|apply Hn].
  Qed.
Lemma always_guard g (next : sessionHandler) rq :
    (forall rq usr sess, always typed (next rq usr sess)) -> always typed (guard h g next rq).
  Proof.
    intros Hn. destruct g.
    - by apply always_requireSession.
    - apply always_requireSession. intros. by apply always_adminOnly.
    - by apply always_requirePost.
    - apply always_requirePost. intros. by apply always_adminOnly.
  Qed.
Lemma always_guarded show fallback e : (forall status msg, always typed (show status msg)) ->
    always typed fallback -> always typed (guarded show fallback e).
  Proof. intros Hs Hf. unfold guarded. by destruct (adminGuardMessage e) as [[]|]. Qed.
End Replies.

Create HintDb replies.
#[export] Hint Resolve always_error always_fail always_redirect always_guarded : replies.
#[export] Hint Extern 1 (always typed (renderError _ _ _ _)) => apply always_error : replies.
#[export] Hint Extern 1 (always typed (logAndFailMessage _ _ _)) => apply always_error : replies.
#[export] Hint Extern 1 (always typed (redirect_to _)) => apply always_redirect; reflexivity : replies.
#[export] Hint Extern 1 (always typed (render _ _)) => apply always_page; reflexivity : replies.
#[export] Hint Extern 1 (always typed (renderStatus _ _ _)) => apply always_page; reflexivity : replies.

Create HintDb pages.
#[export] Hint Unfold handleRoot handleLogin handleRegister
  handleAccount handleAccountEmailRequest handleAccountEmailCancel handleAccountEmailConfirmPage
  handleAccountEmailConfirm renderAccountError handleAPIKeyMint handleAPIKeyRevoke
  handleAdminFeed handleFeedTokenMint handleFeedTokenRevoke
  handleEndpoints handleEndpointsCreate loadEndpoint handleEndpointDetail renderEndpointDetailError
  handleEndpointSetEnabled handleEndpointDelete handleEndpointTest handleDeliveryRedeliver
  handleDevices handleDeviceNewForm handleDeviceNewCreate ownedDevice handleDeviceDetail renderDetailError
  handleDeviceRename handleDeviceSetEnabled handleDeviceRotate handleDeviceDelete renderBadCursor
  renderDeviceHistory handleDeviceHistory adminDevice handleAdminDeviceDetail handleAdminDeviceHistory
  handleAdminDeviceSetEnabled handleAdminDevices
  renderAdminUsers handleAdminUsers adminUser handleAdminUserSetEnabled handleAdminUserNewForm handleAdminUserInvite
  handleAdminUserEdit renderAdminUserError handleAdminUserUpdate handleAdminUserDelete handleAdminUserRecovery
  handleAdminUserReinvite handleAdminUserEmail handleAdminAudit handleAdminServer : pages.

(** One step through a handler. *)
Ltac reply_step :=
  lazymatch goal with
  | |- forall _, _ => intro
  | |- always typed (let _ := _ in _) => cbv zeta
  | |- always typed (or_fail _ _ _ _) => apply always_or_fail
  | |- always typed (or_else _ _ _) => apply always_or_else
  | |- always typed (_ ≫= _) => apply always_bind
  | |- always typed (guarded _ _ _) => apply always_guarded
  | |- always typed (mret _) => apply always_ret; reflexivity
  | |- always typed (match ?x with _ => _ end) => destruct x
  | |- always typed (redirect_to (match ?x with _ => _ end)) => destruct x
  | |- always typed _ => first [solve [auto with replies nocore] | progress autounfold with pages]
  end.

Section Typed.
Context `{Crypto} `{WebAuthn Options HttpRequest} `{ApiLibs} `{WebLibs} (h : WebDeps).

Definition typed_handler (hd : WebHandler) : Prop :=
    match hd with
    | Unguarded f => forall rq, always typed (f rq)
    | Guarded _ next => forall rq usr sess, always typed (next rq usr sess)
    end.

(** The static files are served by their own handler. *)
Definition static_route (r : WebRoute) : Prop :=
    wr_Path r = [Lit "static"] /\ wr_Subtree r = true /\ wr_Handler r = Unguarded staticHandler.

Lemma New_typed : Forall (fun r => static_route r \/ typed_handler (wr_Handler r)) (New h).
  Proof.
    each_route; repeat (apply Forall_cons; split;
      [first [left; by split_and! | right; cbn [typed_handler wr_Handler page_route]; repeat reply_step]|]).
    all: by apply Forall_nil.
  Qed.

Lemma static_route_path r method segs : static_route r -> web_matches method segs r = true ->
    exists rest, segs = "static"%string :: rest.
  Proof.
    intros (Hp & Hs & _) [_ Hm]%andb_true_iff. revert Hm. unfold web_path_matches. rewrite Hs, Hp.
    destruct segs as [|s rest]; [done|]. cbn. intros [_ Hm]%andb_true_iff. rewrite andb_true_r in Hm.
    apply str_eq_true in Hm as <-. by exists rest.
  Qed.

  (** C40: Every reply of the pages is what the browser can be shown.  Outside
      /static/ it is a page of the embedded templates with the data that template
      is written for, executed without an error; or the bare 500 of such a page
      whose template could not be executed - never that of an unknown page -; or
      a redirect to a path of this site; or the bare status of a request the
      client gave up.  Under /static/ it is one of the three embedded files, a
      listing of their directory or of its parent, a redirect along the
      request's own path, or a bare 404 or 500. *)
Theorem web_replies_typed (rq : WebRequest) w v w' (Hv : web_serve h rq w = (Ok (Some v), w')) :
    typed v \/ (exists rest, wq_Segments rq = "static"%string :: rest) /\ static_reply v.
  Proof.
    unfold web_serve in Hv. destruct (web_route h _ _) as [r|] eqn:Hr; [|done].
    apply web_route_in in Hr as [Hin Hm]. pose proof (proj1 (Forall_forall _ _) New_typed r Hin) as Ht. simpl in Ht.
    apply bind_Ok in Hv as (v0 & w1 & Hrun & Hret). injection Hret as -> _. revert Hrun.
    destruct Ht as [Hs|Ht].
    - pose proof (static_route_path _ _ _ Hs Hm) as Hseg. destruct Hs as (_ & _ & ->). cbn [run_handler]. intros Hrun.
      right. split; [done|]. destruct (staticHandler_reply (with_path_values r rq) w) as (v1 & Hv1 & Hst). congruence.
    - intros Hrun. left. revert Hrun. destruct (wr_Handler r) as [f|g next]; [apply Ht|]. by apply always_guard.
  Qed.
End Typed.

(** ** The audit log's filter *)

Lemma format_date_set d : valid_date d = true -> 0 <= dt_year d < 10000 -> is_set (format_date d) = true.
Proof. intros Hv Hy. by rewrite format_date_pairs. Qed.

(** The date fields of the audit log name whole days in UTC: with From and
    To given as dates, the filter is accepted and an entry is listed exactly
    when its day is one of From to To, and the actor and the event type, where
    they are given, are its own. *)
Theorem audit_filter_days `{WebLibs} q users a b actor
    (Ha : valid_date a = true /\ 0 <= dt_year a < 10000) (Hb : valid_date b = true /\ 0 <= dt_year b < 10000)
    (Hfrom : values_get q "from" = format_date a) (Hto : values_get q "to" = format_date b)
    (Hactor : actor_filter (trim_space (values_get q "actor")) users = inl actor) :
  exists f, auditFilterFrom q users = (f, EmptyString) /\
    forall r, 0 <= ra_created_at r -> AuditLogRepo.matches f None r = true <->
      (actor = EmptyString \/ ra_actor_user_id r = Some actor) /\
      (values_get q "event_type" = EmptyString \/ ra_event_type r = values_get q "event_type") /\
      days_of a <= day_of (ra_created_at r) <= days_of b.
Proof.
  destruct Ha as [Ha Hya], Hb as [Hb Hyb]. unfold auditFilterFrom. rewrite Hactor, Hfrom, Hto.
  unfold day_filter, parseDayStart, parseDayEnd. rewrite !format_date_set by done. simpl.
  rewrite !parse_format_date by done. simpl. eexists. split; [done|]. intros r Hr.
  unfold AuditLogRepo.matches. simpl. rewrite !andb_true_iff, !orb_true_iff, !str_eq_true, bool_decide_eq_true.
  unfold day_of. rewrite !Z.eqb_eq, !Z.leb_le.
  assert (Hs : (days_of a * 86400 = 0 \/ days_of a * 86400 <= ra_created_at r) <-> days_of a <= ra_created_at r / 86400)
    by (Z.to_euclidean_division_equations; lia).
  assert (Hu : (days_of b * 86400 + (24 * 3600 - 1) = 0 \/ ra_created_at r <= days_of b * 86400 + (24 * 3600 - 1)) <->
    ra_created_at r / 86400 <= days_of b) by (Z.to_euclidean_division_equations; lia).
  rewrite Hs, Hu. tauto.
Qed.

(** ** The last administrator *)

Lemma admin_fold users n l :
  foldl admin_step (n, l) users =
    (n + Z.of_nat (length (List.filter IsEnabledAdmin users)),
     default l (usr_ID <$> last (List.filter IsEnabledAdmin users))).
Proof.
  revert n l. induction users as [|u us IH]; intros n l; simpl; [by rewrite Z.add_0_r|].
  unfold admin_step at 2. destruct (IsEnabledAdmin u); rewrite IH; [|done]. simpl. f_equal; [lia|].
  by destruct (List.filter IsEnabledAdmin us) using rev_ind; [|rewrite app_comm_cons, !last_snoc].
Qed.

(** The accounts page marks a user as the last administrator exactly when
    the service's guard would refuse to disable, demote or delete that user. *)
Theorem last_admin_marked usr regs users u :
  ur_LastAdmin (newUserRow usr (foldl admin_step (0, EmptyString) users) regs u) =
  let (n, found) := foldl (count_step (usr_ID u)) (0%nat, false) users in found && (n <=? 1)%nat.
Proof.
  unfold newUserRow. destruct (registrationLabel _) as [label tag]. cbn [ur_LastAdmin].
  rewrite admin_fold, count_step_fold. cbn [fst snd]. rewrite Z.add_0_l, Nat.add_0_l, orb_false_l.
  assert (He : existsb (fun x => IsEnabledAdmin x && str_eq (usr_ID x) (usr_ID u)) users =
    existsb (fun x => str_eq (usr_ID x) (usr_ID u)) (List.filter IsEnabledAdmin users)).
  { induction users as [|x us IH]; [done|]. simpl. destruct (IsEnabledAdmin x); simpl; by rewrite IH. }
  rewrite He. destruct (List.filter IsEnabledAdmin users) as [|a [|b l]].
  - done.
  - simpl. rewrite orb_false_r, andb_true_r. unfold str_eq. apply bool_decide_ext. by split; intros ->.
  - rewrite (proj2 (Z.eqb_neq _ _)) by (simpl; lia). by rewrite (proj2 (Nat.leb_gt _ _)), andb_false_r by (simpl; lia).
Qed.

(** ** Expiry *)

Lemma HumanDays_not_zero d : in_int64 d -> HumanDays d <> "0 days"%string.
Proof.
  intros Hd. unfold HumanDays. case_match eqn:H0; [done|]. case_match eqn:H1; [done|]. intros He.
  apply Z.ltb_ge in H0. change (24 * 3600 * 10 ^ 9) with 86400000000000 in *. set (n := Z.quot d _) in *.
  assert (Hn : in_int64 n) by (unfold in_int64, min_int64, max_int64, n in *; Z.to_euclidean_division_equations; lia).
  change (" days")%string with (String " " "days") in He.
  apply (app_sep_inj " " _ "0" _ "days") in He as [He _]; [|by apply format_int_other|done].
  apply (f_equal parse_int) in He. rewrite parse_int_format_int in He by done.
  change (parse_int "0") with (Some 0) in He. injection He as He. lia.
Qed.

Lemma HumanDays_set d : HumanDays d <> EmptyString.
Proof. unfold HumanDays. repeat case_match; try done. by destruct (format_int _). Qed.

(** The text for a family with an address and without. *)
Lemma family_text (addr : string) c w now :
  let text := if is_set addr then expiresInText c w now else EmptyString in
  (text = "0 days"%string <-> c <> 0 /\ is_set addr && (ExpiresAt c w <=? unix_of now) = true) /\
  (text = EmptyString <-> addr = EmptyString \/ c = 0).
Proof.
  cbv zeta. destruct (is_set addr) eqn:Ha; simpl; [|split; [naive_solver|]].
  - assert (Hne : addr <> EmptyString) by (by intros ->). unfold expiresInText.
    destruct (Z.eqb_spec c 0) as [->|Hc]; [naive_solver|].
    destruct (Z.leb_spec (ExpiresAt c w - unix_of now) 0), (Z.leb_spec (ExpiresAt c w) (unix_of now)); try lia.
    + naive_solver.
    + pose proof (HumanDays_not_zero _ (i64_range ((ExpiresAt c w - unix_of now) * second))).
      pose proof (HumanDays_set (i64 ((ExpiresAt c w - unix_of now) * second))). naive_solver.
  - assert (addr = EmptyString) by (by destruct addr). naive_solver.
Qed.

(** Where addresses expire, the pages show "0 days" for an address exactly
    when the next sweep would remove it, and show nothing for a family without
    an address or without a confirmation. *)
Theorem expiry_shown_iff_due d feed now (He : ExpiryEnabled feed = true) :
  exists v4 v6, expiryFields d feed now = (true, v4, v6) /\
    (v4 = "0 days"%string <-> dev_V4ConfirmedAt d <> 0 /\ v_due d 4 (Window feed) (unix_of now) = true) /\
    (v6 = "0 days"%string <-> dev_V6ConfirmedAt d <> 0 /\ v_due d 6 (Window feed) (unix_of now) = true) /\
    (v4 = EmptyString <-> dev_CurrentIPv4 d = EmptyString \/ dev_V4ConfirmedAt d = 0) /\
    (v6 = EmptyString <-> dev_CurrentIPv6 d = EmptyString \/ dev_V6ConfirmedAt d = 0).
Proof.
  unfold expiryFields. rewrite He. simpl. eexists _, _. split; [done|].
  destruct (family_text (dev_CurrentIPv4 d) (dev_V4ConfirmedAt d) (Window feed) now) as [H1 H2].
  destruct (family_text (dev_CurrentIPv6 d) (dev_V6ConfirmedAt d) (Window feed) now) as [H3 H4].
  split_and!; done.
Qed.
