(* ===== verification/WebDemo.v ===== *)
(** * The web pages on a concrete server

    The hypotheses of WebFacts and WebPages discharged on the database of Demo,
    with both of its users signed in. *)

From S2P Require Import Prelude GoLib Schema Effects Dates Demo StoreUsers StoreDevices StoreTokens Auth ServiceDevices ServiceFacts.
From S2P Require Import ServiceTokens NetAddr Notify Endpoints Email Envelope EmailChange Passkeys Grants GrantFacts Admin Stale SignIn.
From S2P Require Import ApiCore ApiAdmin Api ApiFacts ApiDemo Config WebCore WebDevices WebAccount WebAdmin WebUI.
From S2P Require Import WebFacts WebPages.

#[local] Existing Instance toy_crypto.
#[local] Existing Instance toy_webauthn.
#[local] Existing Instance toy_libs.

Definition toy_web : WebLibs := {|
  sub_second := fun _ => 0;
  to_lower := fun s => s;
  equal_fold := str_eq;
  strconv_Quote := fun s => s;
  web_url_Parse := fun _ => None;
  os_Stat := fun _ => Some (3 * 2 ^ 20);
  runtime_line := "go1.25 · linux/amd64";
  execute_layout := fun _ _ => true |}.
#[local] Existing Instance toy_web.

(** The configuration with the feed, its expiry and the notifications on, and
    the cookie of the demo sessions. *)
Definition web_config : Config.Config :=
  let c := demo_config in
  let a := cfg_Auth c in
  MkConfig (cfg_Listen c) (cfg_BaseURL c) (cfg_DatabasePath c) (cfg_LogLevel c) (cfg_LogFormat c) (cfg_LogOutput c)
    (MkAuthSection (MkSessionCfg "diyddns_session" true "lax") (as_SessionTTL a) (as_SlideWindow a) (as_SkewWindow a)
       (as_NonceTTL a) (as_SecretKey a) (as_OIDC a) (as_WebAuthn a) false (as_RegistrationLinkTTL a))
    (cfg_EmailEnabled c) (cfg_Email c) (MkNotificationsCfg true [] 1 1) (MkFeedSection true 90) (cfg_Retention c)
    (cfg_Observability c).

Definition web_deps : WebDeps :=
  MkWebDeps (MkSessionManager 3600 600) web_config NopDeviceNotifier demo_key 900
    (MkGrantService (Some demo_passkeys_api) None "https://dns.example.org" 3600) None "https://dns.example.org"
    (MkNotificationService demo_key []) (MkInfo "v1.2.3" "abc" "today") 0.

Definition web_request (method path : string) (segs : list string) (cookie : string) (form : list (string * string))
    : WebRequest :=
  MkWebRequest background method path segs "dns.example.org" true
    (fun n => if str_eq n "diyddns_session" then Some cookie else None) [] (Some form) (fun _ => EmptyString).

(** A browser asking for a page. *)
Definition browse (rq : WebRequest) : result (option WebReply) * World := web_serve web_deps rq two_sessions.

Definition users_page : WebRequest := web_request "GET" "/admin/users" ["admin"; "users"]%string "s1" [].
Definition users_route : WebRoute :=
  page_route "GET" [Lit "admin"; Lit "users"] RequireAdmin (handleAdminUsers web_deps).

Lemma users_route_found : web_route web_deps "GET" ["admin"; "users"]%string = Some users_route.
Proof. reflexivity. Qed.

(** The administrator sees the accounts; the other user an error page. *)
Lemma webui_authorized_witness :
  (exists d, (browse users_page).1 = Ok (Some (WPage 200 "admin-users" (DAdminUsers d))) /\ us_UserCount d = 2%nat) /\
  (exists d, (browse (web_request "GET" "/admin/users" ["admin"; "users"]%string "s2" [])).1 =
     Ok (Some (WPage 403 "error" (DError d)))) /\
  (browse (web_request "GET" "/" [EmptyString] "s1" [])).1 = Ok (Some (WRedirect "/devices")) /\
  exists usr sess, web_granted web_deps users_page two_sessions RequireAdmin usr sess.
Proof.
  split_and!; [vm_compute; eexists; split; reflexivity|vm_compute; eexists; reflexivity|vm_compute; reflexivity|].
  pose proof (webui_authorized web_deps users_page users_route two_sessions users_route_found) as Hw.
  unfold wp in Hw. destruct Hw as [(v & Hv & Href & _)|(usr & sess & w1 & r1 & _ & Hg & _)].
  - exfalso. vm_compute in Hv. injection Hv as <-. inversion Href.
  - exists usr, sess. exact Hg.
Defined.

(** /devices/new is the form, not a device called new. *)
Lemma web_routes_specific_witness :
  exists r r', web_route web_deps "GET" ["devices"; "new"]%string = Some r /\
    r' ∈ New web_deps /\ web_matches "GET" ["devices"; "new"]%string r' = true /\
    wr_Path r' = [Lit "devices"; Wild "id"] /\ path_le (wr_Path r) (wr_Path r') = true.
Proof.
  exists (page_route "GET" [Lit "devices"; Lit "new"] RequireSession (handleDeviceNewForm web_deps)),
         (page_route "GET" [Lit "devices"; Wild "id"] RequireSession (handleDeviceDetail web_deps)).
  assert (Hin : page_route "GET" [Lit "devices"; Wild "id"] RequireSession (handleDeviceDetail web_deps) ∈ New web_deps).
  { apply (list_elem_of_lookup_2 _ 13). reflexivity. }
  split_and!; [reflexivity|done|reflexivity|reflexivity|].
  destruct (web_routes_specific web_deps "GET" ["devices"; "new"]%string _ eq_refl _ Hin eq_refl) as [He|(_ & Hle & _)].
  - exfalso. apply (f_equal wr_Path) in He. discriminate.
  - exact Hle.
Defined.

Definition delete_page (cookie csrf : string) : WebRequest :=
  web_request "POST" "/devices/d1/delete" ["devices"; "d1"; "delete"]%string cookie
    [("csrf"%string, csrf); ("confirm_label", "laptop")%string].
Definition delete_page_route : WebRoute :=
  page_route "POST" [Lit "devices"; Wild "id"; Lit "delete"] RequirePost (handleDeviceDelete web_deps).

Lemma delete_route_found : web_route web_deps "POST" ["devices"; "d1"; "delete"]%string = Some delete_page_route.
Proof. reflexivity. Qed.

(** The owner deletes the device; the other user is shown an error page. *)
Lemma web_devices_isolated_witness :
  (browse (delete_page "s1" "csrf")).1 = Ok (Some (WRedirect "/devices")) /\
  (rd_id <$> d_devices (w_db (browse (delete_page "s1" "csrf")).2)) = ["d2"%string] /\
  exists v, (browse (delete_page "s2" "csrf2")).1 = Ok (Some v) /\ refusal v.
Proof.
  split_and!; [vm_compute; reflexivity..|].
  refine (proj1 (web_devices_isolated web_deps (delete_page "s2" "csrf2") delete_page_route "d1" two_sessions
    delete_route_found _ eq_refl _)).
  - exists [Lit "delete"]. reflexivity.
  - intros usr sess (sid & row & urow & Hc & Hrow & Hid & _ & Hu & Huid & _ & -> & _). injection Hc as <-.
    simpl. rewrite Huid. intros dr Hdr Hdid. simpl in Hrow, Hdr.
    apply elem_of_cons in Hrow as [->|[->|Hn%elem_of_nil]%elem_of_cons]; [done| |done].
    apply elem_of_cons in Hdr as [->|[->|Hn%elem_of_nil]%elem_of_cons]; by try done.
Defined.

Definition stylesheet (segs : list string) : WebRequest := web_request "GET" "/static/app.css" segs EmptyString [].

(** The accounts page, and the style sheet with and without a stray slash. *)
Lemma web_replies_typed_witness :
  (exists v, (browse users_page).1 = Ok (Some v) /\
     (typed v \/ (exists rest, wq_Segments users_page = "static"%string :: rest) /\ static_reply v)) /\
  (browse (stylesheet ["static"; "app.css"]%string)).1 = Ok (Some (WFile "/static/app.css")) /\
  (browse (stylesheet ["static"; "app.css"; EmptyString]%string)).1 = Ok (Some (WMoved "../app.css")) /\
  (browse (stylesheet ["static"; EmptyString]%string)).1 = Ok (Some (WListing "/static/")) /\
  (browse (stylesheet ["static"; "none.css"]%string)).1 = Ok (Some (WPlainError 404)).
Proof.
  split; [|by vm_compute].
  assert (Hv : exists v, (browse users_page).1 = Ok (Some v)) by (vm_compute; eexists; reflexivity).
  destruct Hv as [v Hv]. exists v. split; [exact Hv|].
  exact (web_replies_typed web_deps users_page two_sessions v _ (run_eq _ _ Hv)).
Defined.

Definition audit_query : list (string * string) :=
  [("from", "2024-02-28"); ("to", "2024-02-29"); ("event_type", EmptyString)]%string.

(** The last second of the leap day is listed, the next one is not. *)
Lemma audit_filter_days_witness : exists f, auditFilterFrom audit_query [] = (f, EmptyString) /\
  AuditLogRepo.matches f None (AuditRow 1 None "user.created" None None None None None 1709251199) = true /\
  AuditLogRepo.matches f None (AuditRow 1 None "user.created" None None None None None 1709251200) = false.
Proof.
  destruct (audit_filter_days audit_query [] (MkDate 2024 2 28) (MkDate 2024 2 29) EmptyString) as (f & Hf & Hm);
    [split; [reflexivity|simpl; lia]..|reflexivity|reflexivity|reflexivity|].
  exists f. split; [exact Hf|]. split.
  - apply Hm; [simpl; lia|]. split; [by left|]. split; [by left|]. vm_compute. split; discriminate.
  - apply not_true_is_false. intros Ht. apply Hm in Ht; [|simpl; lia]. destruct Ht as (_ & _ & [_ Hd]).
    vm_compute in Hd. by apply Hd.
Defined.

Definition confirmed_device : Device := scanDevice demo_device.

(** Ninety days after the confirmation of its IPv4 address. *)
Lemma expiry_shown_iff_due_witness : exists v6,
  expiryFields confirmed_device (MkFeedSection true 90) ((900 + 90 * 86400) * second) = (true, "0 days"%string, v6) /\
  v_due confirmed_device 4 (Window (MkFeedSection true 90)) (900 + 90 * 86400) = true.
Proof.
  destruct (expiry_shown_iff_due confirmed_device (MkFeedSection true 90) ((900 + 90 * 86400) * second) eq_refl)
    as (v4 & v6 & He & H4 & _).
  exists v6. assert (Hv : v_due confirmed_device 4 (Window (MkFeedSection true 90)) (900 + 90 * 86400) = true) by reflexivity.
  split; [|exact Hv]. rewrite He. f_equal. f_equal. apply H4. split; [discriminate|]. exact Hv.
Defined.
