(* ===== verification/Middleware.v ===== *)
(** * internal/server/middleware and notfound.go: around every request

    A handler is what it does to its ResponseWriter: the calls it makes, in
    order, and how it ends.  The middlewares and the not-found interceptor
    transform these traces; net/http's own writer ([sent]) turns a trace into
    what the client receives.  The tracer, the meter and the logger are the
    records they are given; times are left out. *)

From S2P Require Import Prelude GoLib Schema Effects Email.
From Stdlib Require Import Ascii.

(** ** Handlers *)

Inductive writer_call := WriteHeader (code : Z) | Write (n : Z).
Inductive ending := Returned | Panicked.

#[export] Instance call_eq_dec : EqDecision writer_call.
Proof. solve_decision. Defined.
#[export] Instance ending_eq_dec : EqDecision ending.
Proof. solve_decision. Defined.

Inductive Level := LevelDebug | LevelInfo.

Inductive LogEntry :=
  | RequestLog (level : Level) (request_id method route : string) (status bytes : Z)
  | PanicLog (request_id : string) (response_started : bool).

(** The span Trace ends, with the attributes it sets: [sp_Error] when the status
    is a server error or a panic was recovered. *)
Record Span := MkSpan {
  sp_Name : string; sp_Method : string; sp_Route : string; sp_Status : Z; sp_Address : string; sp_Error : bool }.

Record HttpReq := MkHttpReq {
  hq_Method : string; hq_Path : string; hq_Host : string; hq_Header : string -> string;
  hq_requestID : string }.

(** [rn_Pattern] is the pattern the mux leaves on the request, [rn_SpanPanic]
    what Recover leaves on the current span. *)
Record HandlerRun := MkHandlerRun {
  rn_Header : list (string * string); rn_Calls : list writer_call; rn_End : ending; rn_Pattern : string;
  rn_SpanPanic : bool; rn_Log : list LogEntry; rn_Spans : list Span }.

Definition Handler : Type := HttpReq -> HandlerRun.
Definition HttpMiddleware : Type := Handler -> Handler.

(** A handler that only replies. *)
Definition replying (pattern : string) (calls : list writer_call) (e : ending) : HandlerRun := MkHandlerRun [] calls e pattern false [] [].

(** net/http's ResponseWriter: an informational status is sent on its own, the
    first other one counts, a body without one is a 200. *)
Definition informational (code : Z) : bool := (100 <=? code) && (code <=? 199) && negb (code =? 101).

Definition sent_call (r : option Z * Z) (c : writer_call) : option Z * Z :=
  match c with
  | WriteHeader code => if informational code then r else (match r.1 with Some s => Some s | None => Some code end, r.2)
  | Write n => (Some (default 200 r.1), r.2 + n)
  end.

(** The status and the body bytes the client receives. *)
Definition sent (calls : list writer_call) : Z * Z :=
  let r := foldl sent_call (None, 0) calls in (default 200 r.1, r.2).

(** ** middleware.go *)

Definition maxRequestIDLen : Z := 128.

Definition validRequestID (s : string) : bool :=
  if str_eq s EmptyString || (maxRequestIDLen <? Z.of_nat (String.length s)) then false
  else all_chars (fun c => negb ((code c <? 32) || (126 <? code c))) s.

(** [fresh] is uuid.NewV7. *)
Definition RequestID (header fresh : string) : HttpMiddleware := fun next rq =>
  let id := hq_Header rq header in
  let id := if validRequestID id then id else fresh in
  let r := next (MkHttpReq (hq_Method rq) (hq_Path rq) (hq_Host rq) (hq_Header rq) id) in
  MkHandlerRun ((header, id) :: rn_Header r) (rn_Calls r) (rn_End r) (rn_Pattern r) (rn_SpanPanic r) (rn_Log r) (rn_Spans r).

Record statusRecorder := MkStatusRecorder { sr_status : Z; sr_bytes : Z }.

Definition record_call (s : statusRecorder) (c : writer_call) : statusRecorder :=
  match c with
  | WriteHeader code => MkStatusRecorder code (sr_bytes s)
  | Write n => MkStatusRecorder (if sr_status s =? 0 then 200 else sr_status s) (sr_bytes s + n)
  end.
Definition recorder_of (calls : list writer_call) : statusRecorder := foldl record_call (MkStatusRecorder 0 0) calls.

(** [if rec.status == 0 { rec.status = http.StatusOK }] *)
Definition recorded_status (calls : list writer_call) : Z :=
  let s := sr_status (recorder_of calls) in if s =? 0 then 200 else s.

Definition healthCheckRoutes : list string := ["GET /healthz"; "GET /readyz"]%string.

(** A panic of [next] passes by without a record. *)
Definition AccessLog : HttpMiddleware := fun next rq =>
  let r := next rq in
  match rn_End r with
  | Panicked => r
  | Returned =>
      let level := if bool_decide (rn_Pattern r ∈ healthCheckRoutes) then LevelDebug else LevelInfo in
      let entry := RequestLog level (hq_requestID rq) (hq_Method rq) (rn_Pattern r) (recorded_status (rn_Calls r))
                     (sr_bytes (recorder_of (rn_Calls r))) in
      MkHandlerRun (rn_Header r) (rn_Calls r) Returned (rn_Pattern r) (rn_SpanPanic r) (rn_Log r ++ [entry]) (rn_Spans r)
  end.

Definition Recover : HttpMiddleware := fun next rq =>
  let r := next rq in
  match rn_End r with
  | Returned => r
  | Panicked =>
      let started := negb (sr_status (recorder_of (rn_Calls r)) =? 0) in
      MkHandlerRun (rn_Header r) (rn_Calls r ++ if started then [] else [WriteHeader 500]) Returned (rn_Pattern r) true
        (rn_Log r ++ [PanicLog (hq_requestID rq) started]) (rn_Spans r)
  end.

Definition spanName (method pattern : string) : string :=
  if str_eq pattern EmptyString then ("HTTP " ++ method)%string else pattern.

Definition maxServerAddressLen : Z := 253.

(** net.SplitHostPort; the brackets of an IPv6 host are dropped. *)
Definition split_plain (s : string) : option (string * string) :=
  match split2 ":" s with
  | (host, Some port) =>
      if has_char ":" port || has_char "[" s || has_char "]" s then None else Some (host, port)
  | _ => None
  end.

Definition split_host_port (s : string) : option (string * string) :=
  match s with
  | EmptyString => None
  | String c r =>
      if negb (Ascii.eqb c "[") then split_plain s
      else match split2 "]" r with
      | (host, Some (String d port)) =>
          if negb (Ascii.eqb d ":") || has_char "[" r || has_char "]" port || has_char ":" port then None
          else Some (host, port)
      | _ => None
      end
  end.

Definition serverAddress (host : string) : string :=
  if maxServerAddressLen <? Z.of_nat (String.length host) then EmptyString
  else if negb (all_chars (fun c => negb ((code c <? 32) || (126 <? code c))) host) then EmptyString
  else match split_host_port host with Some (h, _) => h | None => host end.

(** The keys of the map: httpconv's RequestMethod values. *)
Definition knownHTTPMethods : list string :=
  ["CONNECT"; "DELETE"; "GET"; "HEAD"; "OPTIONS"; "PATCH"; "POST"; "PUT"; "TRACE"; "QUERY"]%string.

Definition normalizeMethod (method : string) : string :=
  if bool_decide (method ∈ knownHTTPMethods) then method else "_OTHER"%string.

(** The deferred span.End runs on a panic as well, with the start's name. *)
Definition Trace : HttpMiddleware := fun next rq =>
  let r := next rq in
  let method := normalizeMethod (hq_Method rq) in
  let span :=
    match rn_End r with
    | Panicked => MkSpan ("HTTP " ++ method)%string EmptyString EmptyString 0 EmptyString (rn_SpanPanic r)
    | Returned =>
        let status := recorded_status (rn_Calls r) in
        MkSpan (spanName method (rn_Pattern r)) method (rn_Pattern r) status (serverAddress (hq_Host rq))
          (rn_SpanPanic r || (500 <=? status))
    end in
  MkHandlerRun (rn_Header r) (rn_Calls r) (rn_End r) (rn_Pattern r) (rn_SpanPanic r) (rn_Log r) (rn_Spans r ++ [span]).

(** The first middleware is the outermost. *)
Definition Chain (h : Handler) (mws : list HttpMiddleware) : Handler := foldr (fun m h => m h) h mws.

(** ** notfound.go *)

Definition nonWebUIPrefixes : list string := ["/api/"; "/agent/"; "/feed/"]%string.

(** strings.TrimSuffix(p, "/") of a prefix that ends in one. *)
Definition trim_slash (p : string) : string := String.substring 0 (String.length p - 1) p.

Definition isWebUIPath (path : string) : bool :=
  negb (existsb (fun p => String.prefix p path || str_eq path (trim_slash p)) nonWebUIPrefixes).

Record notFoundInterceptor := MkInterceptor { ni_wroteHeader : bool; ni_caught : bool }.

(** The state after a call and the calls handed on. *)
Definition intercept (pattern path : string) (s : notFoundInterceptor) (c : writer_call) : notFoundInterceptor * list writer_call :=
  if ni_caught s then (s, [])
  else match c with
  | WriteHeader code =>
      if negb (ni_wroteHeader s) && (code =? 404) && str_eq pattern EmptyString && isWebUIPath path
      then (MkInterceptor true true, [])
      else (MkInterceptor true false, [c])
  | Write n =>
      if ni_wroteHeader s then (s, [c]) else (MkInterceptor true false, [WriteHeader 200; c])
  end.

Fixpoint intercept_all (pattern path : string) (s : notFoundInterceptor) (calls : list writer_call)
    : notFoundInterceptor * list writer_call :=
  match calls with
  | [] => (s, [])
  | c :: rest =>
      let (s1, out) := intercept pattern path s c in
      let (s2, outs) := intercept_all pattern path s1 rest in
      (s2, out ++ outs)
  end.

Definition withNotFoundRedirect (mux notFound : Handler) : Handler := fun rq =>
  let r := mux rq in
  let (s, calls) := intercept_all (rn_Pattern r) (hq_Path rq) (MkInterceptor false false) (rn_Calls r) in
  match rn_End r with
  | Panicked => MkHandlerRun (rn_Header r) calls Panicked (rn_Pattern r) (rn_SpanPanic r) (rn_Log r) (rn_Spans r)
  | Returned =>
      if ni_caught s then
        let n := notFound rq in
        MkHandlerRun (rn_Header r ++ rn_Header n) (calls ++ rn_Calls n) (rn_End n) (rn_Pattern r) (rn_SpanPanic r)
          (rn_Log r ++ rn_Log n) (rn_Spans r ++ rn_Spans n)
      else MkHandlerRun (rn_Header r) calls Returned (rn_Pattern r) (rn_SpanPanic r) (rn_Log r) (rn_Spans r)
  end.

(** server.go: the order of [handler]. *)
Definition server_handler (header fresh : string) (mux notFound : Handler) : Handler :=
  Chain (withNotFoundRedirect mux notFound) [RequestID header fresh; Trace; AccessLog; Recover].

(** * Around every request: theorems

    Every request is answered and recorder_of as it was answered
    ([requests_recorded]), the not-found interceptor is invisible except for the
    one reply it replaces ([not_found_transparent]), what a client chooses never
    widens the labels or the log ([request_labels_bounded]). *)

From S2P Require Import Prelude GoLib Schema Effects Email Envelope.

(** ** The recorder and the writer agree *)

(** A handler that sets at most one status, before the body, and a final one: 101
    or from 200 on.  (After an informational status the recorder and the client
    may disagree: the recorder keeps it when a body follows.) *)
Fixpoint orderly (begun : bool) (calls : list writer_call) : bool :=
  match calls with
  | [] => true
  | WriteHeader code :: rest => negb begun && negb (informational code) && (100 <=? code) && orderly true rest
  | Write n :: rest => orderly true rest
  end.

Definition agree (s : statusRecorder) (r : option Z * Z) : Prop :=
  sr_bytes s = r.2 /\ match r.1 with None => sr_status s = 0 | Some x => sr_status s = x /\ x <> 0 end.

Definition begun (r : option Z * Z) : bool := match r.1 with Some _ => true | None => false end.

Lemma orderly_agree calls s r : agree s r -> orderly (begun r) calls = true ->
  agree (foldl record_call s calls) (foldl sent_call r calls).
Proof.
  revert s r. induction calls as [|[code|n] calls IH]; intros s [[x|] b] [Hb Hs] Ho; simpl in *; try done.
  - rewrite !andb_true_iff, negb_true_iff in Ho. destruct Ho as ((Hi & Hc) & Ho). rewrite Hi.
    apply IH; [|done]. split; [done|]. simpl. split; [done|lia].
  - destruct Hs as [-> Hx]. rewrite (proj2 (Z.eqb_neq x 0) Hx). apply IH; [|done]. split; simpl; [lia|done].
  - rewrite Hs. simpl. apply IH; [|done]. split; simpl; [lia|done].
Qed.

Lemma recorded_sent calls : orderly false calls = true ->
  sent calls = (recorded_status calls, sr_bytes (recorder_of calls)).
Proof.
  intros Ho. destruct (orderly_agree calls (MkStatusRecorder 0 0) (None, 0)) as [Hb Hs]; [by split|done|].
  unfold sent, recorded_status, recorder_of. rewrite Hb. f_equal.
  destruct (foldl sent_call _ calls).1 as [x|]; simpl.
  - destruct Hs as [-> Hx]. by rewrite (proj2 (Z.eqb_neq x 0) Hx).
  - by rewrite Hs.
Qed.

(** Once a status is recorded, writes keep it. *)
Lemma record_keeps calls s : sr_status s <> 0 -> orderly true calls = true ->
  sr_status (foldl record_call s calls) <> 0.
Proof.
  revert s. induction calls as [|[code|n] calls IH]; intros s Hs Ho; simpl in *; try done.
  apply IH; [|done]. simpl. by destruct (Z.eqb_spec (sr_status s) 0).
Qed.

(** Nothing recorded, nothing done. *)
Lemma unstarted calls : orderly false calls = true -> sr_status (recorder_of calls) = 0 -> calls = [].
Proof.
  destruct calls as [|[code|n] calls]; [done|..]; simpl; intros Ho Hs; exfalso; revert Hs.
  - rewrite !andb_true_iff in Ho. destruct Ho as ((_ & Hc) & Ho). apply (record_keeps calls (MkStatusRecorder code 0)); [simpl; lia|done].
  - by apply (record_keeps calls (MkStatusRecorder 200 (0 + n))).
Qed.

(** What Recover hands on is orderly again. *)
Lemma recovered_orderly calls : orderly false calls = true ->
  orderly false (calls ++ if negb (sr_status (recorder_of calls) =? 0) then [] else [WriteHeader 500]) = true.
Proof.
  intros Ho. destruct (Z.eqb_spec (sr_status (recorder_of calls)) 0) as [Hs|Hs]; simpl.
  - by rewrite (unstarted calls).
  - by rewrite app_nil_r.
Qed.

(** ** Every request *)

Definition is_request (e : LogEntry) : bool := match e with RequestLog _ _ _ _ _ _ => true | _ => false end.

Lemma health_level p : (if bool_decide (p ∈ healthCheckRoutes) then LevelDebug else LevelInfo) =
  (if str_eq p "GET /healthz" || str_eq p "GET /readyz" then LevelDebug else LevelInfo).
Proof.
  assert (bool_decide (p ∈ healthCheckRoutes) = str_eq p "GET /healthz" || str_eq p "GET /readyz") as ->; [|done].
  apply eq_true_iff_eq. rewrite bool_decide_eq_true, orb_true_iff, !str_eq_true.
  unfold healthCheckRoutes. rewrite !elem_of_cons, elem_of_nil. tauto.
Qed.


(** ** The not-found interceptor *)

Lemma intercept_wrote pattern path calls s : ni_wroteHeader s = true -> ni_caught s = false ->
  intercept_all pattern path s calls = (s, calls).
Proof.
  revert s. induction calls as [|c calls IH]; intros [w k] Hw Hk; simpl in *; subst; [done|].
  unfold intercept. simpl. destruct c; simpl; by rewrite IH.
Qed.

Lemma intercept_caught pattern path calls s : ni_caught s = true -> intercept_all pattern path s calls = (s, []).
Proof. intros Hs. induction calls as [|c calls IH]; simpl; [done|]. unfold intercept. by rewrite Hs, IH. Qed.

(** A body written before any status is a 200. *)
Definition explicit (calls : list writer_call) : list writer_call :=
  match calls with Write n :: _ => WriteHeader 200 :: calls | _ => calls end.

Lemma sent_explicit calls : sent (explicit calls) = sent calls.
Proof. by destruct calls as [|[]]. Qed.

(** The mux's own 404: no pattern matched and its first word is that status. *)
Definition unrouted (pattern path : string) (calls : list writer_call) : bool :=
  match calls with
  | WriteHeader code :: _ => (code =? 404) && str_eq pattern EmptyString && isWebUIPath path
  | _ => false
  end.

Lemma intercept_spec pattern path calls :
  intercept_all pattern path (MkInterceptor false false) calls =
  if unrouted pattern path calls then (MkInterceptor true true, [])
  else match calls with [] => (MkInterceptor false false, []) | _ => (MkInterceptor true false, explicit calls) end.
Proof.
  destruct calls as [|[code|n] calls]; [done|..]; simpl.
  - unfold intercept. simpl. destruct (_ && _); [by rewrite intercept_caught|by rewrite intercept_wrote].
  - by rewrite intercept_wrote.
Qed.

(** The not-found interceptor replaces exactly one kind of reply, the 404 the
    mux writes for a path no route matches and that belongs to the pages: then
    the client gets what the not-found handler writes and nothing of the mux's.
    Any other reply reaches the client with its status and body unchanged - the
    404 of an API or feed path and every 404 a routed handler chooses among
    them - and the handler's ending is the chain's. *)
Theorem not_found_transparent (mux notFound : Handler) (rq : HttpReq) :
  let m := mux rq in
  let r := withNotFoundRedirect mux notFound rq in
  if unrouted (rn_Pattern m) (hq_Path rq) (rn_Calls m) then
    match rn_End m with
    | Returned => rn_Calls r = rn_Calls (notFound rq) /\ rn_End r = rn_End (notFound rq)
    | Panicked => rn_Calls r = [] /\ rn_End r = Panicked
    end
  else sent (rn_Calls r) = sent (rn_Calls m) /\ rn_End r = rn_End m.
Proof.
  unfold withNotFoundRedirect. rewrite intercept_spec.
  destruct (unrouted _ _ _) eqn:Hu; [by destruct (rn_End (mux rq))|].
  destruct (rn_Calls (mux rq)) as [|c calls] eqn:Hc; [by destruct (rn_End (mux rq))|].
  destruct (rn_End (mux rq)); cbn [ni_caught rn_Calls rn_End]; by rewrite sent_explicit.
Qed.

(** ** What the client chooses *)

Definition printable_ascii (s : string) : bool := all_chars (fun c => (32 <=? code c) && (code c <=? 126)) s.

Lemma all_chars_ext p q s : (forall c, p c = q c) -> all_chars p s = all_chars q s.
Proof. intros He. induction s as [|c s IH]; simpl; [done|]. by rewrite He, IH. Qed.

Lemma printable_guard s : all_chars (fun c => negb ((code c <? 32) || (126 <? code c))) s = printable_ascii s.
Proof. apply all_chars_ext. intros c. by rewrite negb_orb, <- !Z.leb_antisym. Qed.

Lemma has_char_split2 c sep s h t : split2 sep s = (h, t) ->
  all_chars c s = true -> all_chars c h = true.
Proof.
  revert h t. induction s as [|d s IH]; simpl; intros h t; [by intros [= <- _]|].
  destruct (Ascii.eqb d sep); [by intros [= <- _]|]. destruct (split2 sep s) as [h' t'].
  intros [= <- _] [Hd Hs]%andb_true_iff. simpl. by rewrite Hd, (IH h' t').
Qed.

Lemma split2_length sep s h t : split2 sep s = (h, t) -> (String.length h <= String.length s)%nat.
Proof.
  revert h t. induction s as [|d s IH]; simpl; intros h t; [by intros [= <- _]|].
  destruct (Ascii.eqb d sep); [intros [= <- _]; simpl; lia|]. destruct (split2 sep s) as [h' t'].
  intros [= <- _]. simpl. specialize (IH h' t' eq_refl). lia.
Qed.

(** The host of an address is a part of it. *)
Lemma split2_part sep s h t : split2 sep s = (h, t) -> printable_ascii s = true ->
  printable_ascii h = true /\ (String.length h <= String.length s)%nat.
Proof. intros Hs Hp. split; [by eapply has_char_split2|by eapply split2_length]. Qed.

Lemma split_host_part s h p : split_host_port s = Some (h, p) -> printable_ascii s = true ->
  printable_ascii h = true /\ (String.length h <= String.length s)%nat.
Proof.
  unfold split_host_port, split_plain. destruct s as [|c s]; [done|]. intros Hs Hp. destruct (negb _).
  - destruct (split2 ":" _) as [host [port|]] eqn:Hc; [|done]. destruct (_ || _); [done|].
    injection Hs as <- <-. by eapply split2_part.
  - destruct (split2 "]" s) as [host [[|d port]|]] eqn:Hc; [done| |done]. destruct (_ || _); [done|].
    injection Hs as <- <-. unfold printable_ascii in Hp. simpl in Hp. apply andb_true_iff in Hp as [_ Hp].
    destruct (split2_part _ _ _ _ Hc Hp) as [H1 H2]. split; [done|]. simpl. lia.
Qed.

Lemma serverAddress_bounded host :
  printable_ascii (serverAddress host) = true /\ Z.of_nat (String.length (serverAddress host)) <= 253.
Proof.
  unfold serverAddress. rewrite printable_guard. destruct (_ <? _) eqn:Hl; [done|]. apply Z.ltb_ge in Hl.
  unfold maxServerAddressLen in Hl. destruct (printable_ascii host) eqn:Hp; simpl; [|done].
  destruct (split_host_port host) as [[h p]|] eqn:Hs; [|done].
  destruct (split_host_part _ _ _ Hs Hp). split; [done|lia].
Qed.

Lemma validRequestID_spec s : validRequestID s = true <->
  printable_ascii s = true /\ 1 <= Z.of_nat (String.length s) <= 128.
Proof.
  unfold validRequestID. rewrite printable_guard. unfold maxRequestIDLen.
  destruct s as [|c s]; [split; [done|]; intros [_ H]; simpl in H; lia|].
  replace (str_eq (String c s) EmptyString) with false by (symmetry; by apply str_eq_false). rewrite orb_false_l.
  destruct (128 <? Z.of_nat (String.length (String c s))) eqn:Hl; split; intros H; try done.
  - destruct H as [_ H]. lia.
  - split; [done|]. apply Z.ltb_ge in Hl. split; [cbn [String.length]; lia|done].
  - by destruct H.
Qed.

Lemma normalizeMethod_known m : normalizeMethod m ∈ "_OTHER"%string :: knownHTTPMethods.
Proof. unfold normalizeMethod. case_bool_decide; [by right|left]. Qed.

(** What a client puts into its headers stays within bounds in the reply
    and on the span: the request's id is printable ASCII of at most 128 bytes -
    the client's own when it is that, else the fresh one -, the method label is
    one of eleven, the span's name is the route or one of eleven names, and the
    address is printable and at most 253 bytes. *)
Theorem request_labels_bounded header fresh (mux notFound : Handler) (rq : HttpReq)
    (Hfresh : validRequestID fresh = true) :
  let r := server_handler header fresh mux notFound rq in
  exists id sp, rn_Header r !! 0%nat = Some (header, id) /\ last (rn_Spans r) = Some sp /\
    printable_ascii id = true /\ 1 <= Z.of_nat (String.length id) <= 128 /\
    (printable_ascii (hq_Header rq header) = true -> 1 <= Z.of_nat (String.length (hq_Header rq header)) <= 128 ->
       id = hq_Header rq header) /\
    sp_Method sp ∈ "_OTHER"%string :: knownHTTPMethods /\
    (sp_Name sp = rn_Pattern r \/ exists m, m ∈ "_OTHER"%string :: knownHTTPMethods /\ sp_Name sp = ("HTTP " ++ m)%string) /\
    printable_ascii (sp_Address sp) = true /\ Z.of_nat (String.length (sp_Address sp)) <= 253.
Proof.
  intros r. set (id := if validRequestID (hq_Header rq header) then hq_Header rq header else fresh).
  assert (Hid : validRequestID id = true) by (unfold id; by destruct (validRequestID (hq_Header rq header)) eqn:?).
  assert (Hsp : exists status err pattern, rn_Pattern r = pattern /\ last (rn_Spans r) = Some
    (MkSpan (spanName (normalizeMethod (hq_Method rq)) pattern) (normalizeMethod (hq_Method rq)) pattern status
       (serverAddress (hq_Host rq)) err)).
  { unfold r, server_handler, Chain, RequestID, Trace, AccessLog, Recover. cbn [foldr].
    destruct (rn_End (withNotFoundRedirect _ _ _)) eqn:He; cbn; rewrite ?He; cbn;
      rewrite last_snoc; do 3 eexists; split; done. }
  destruct Hsp as (status & err & pattern & Hp & Hsp). eexists id, _. split; [done|]. split; [exact Hsp|].
  apply validRequestID_spec in Hid as [Hi1 Hi2]. split; [done|]. split; [done|]. cbn [sp_Method sp_Name sp_Address].
  split.
  { intros H1 H2. unfold id. by rewrite (proj2 (validRequestID_spec _)). }
  split; [apply normalizeMethod_known|]. split; [|apply serverAddress_bounded].
  unfold spanName. rewrite Hp. destruct (str_eq pattern EmptyString); [right|by left].
  eexists. split; [apply normalizeMethod_known|done].
Qed.

(** ** A request whose handler panics *)

Definition panicking : Handler := fun _ => replying "GET /devices" [] Panicked.
Definition missing : Handler := fun _ => replying EmptyString [WriteHeader 404; Write 19] Returned.
Definition error_page : Handler := fun _ => replying EmptyString [WriteHeader 404; Write 500] Returned.
Definition some_request (path : string) : HttpReq :=
  MkHttpReq "PURGE" path "[2001:db8::1]:8080" (fun _ => "client id"%string) EmptyString.
Definition fresh_id : string := "0190-fresh".


(** The page of a missing path, the bare 404 of a missing operation. *)
Example not_found_page :
  rn_Calls (withNotFoundRedirect missing error_page (some_request "/nope")) = [WriteHeader 404; Write 500] /\
  rn_Calls (withNotFoundRedirect missing error_page (some_request "/api/v1/nope")) = [WriteHeader 404; Write 19].
Proof. by split. Qed.

Lemma request_labels_bounded_witness : exists sp,
  last (rn_Spans (server_handler "X-Request-ID" fresh_id panicking error_page (some_request "/devices"))) = Some sp /\
  sp_Method sp = "_OTHER"%string /\ sp_Address sp = "2001:db8::1"%string /\
  Z.of_nat (String.length (sp_Address sp)) <= 253.
Proof.
  destruct (request_labels_bounded "X-Request-ID" fresh_id panicking error_page (some_request "/devices") eq_refl)
    as (id & sp & _ & Hsp & _ & _ & _ & _ & _ & _ & Hlen).
  exists sp. split; [exact Hsp|]. assert (Hs : Some sp = last (rn_Spans (server_handler "X-Request-ID" fresh_id panicking error_page
    (some_request "/devices")))) by (symmetry; exact Hsp).
  vm_compute in Hs. injection Hs as ->. split; [reflexivity|]. split; [reflexivity|exact Hlen].
Defined.
