(* ===== verification/Server.v ===== *)
(** * internal/server/server.go: the parts put together

    [buildMux]: the services built from a configuration, what is shared between
    the API, the pages and the background jobs, and the start-up errors.  What
    [New] and [Run] do with them is in Serve.

    Parameters: the parsers of Config, the WebAuthn library's constructor, the
    transport an enabled mailer sends through (Transport models it as its own
    steps), and the slot of the OIDC manager over time. *)

From S2P Require Import Prelude GoLib Schema Effects Dates StoreUsers StoreDevices Auth ServiceDevices ServiceTokens NetAddr.
From S2P Require Import Notify Feed Endpoints Email Envelope EmailChange Passkeys Grants Stale Pruner SignIn Oidc.
From S2P Require Import ApiCore Api Config WebCore WebUI.

(** [enrollmentCodeTTL], in seconds. *)
Definition enrollmentCodeTTL : Z := 900.

(** The whole seconds of a duration, [int64(d.Seconds())]. *)
Definition seconds_of (d : Z) : Z := Z.quot d second.

(** One constructor per start-up failure of [buildMux]. *)
Inductive build_error :=
  | BuildKey (e : config_error)
  | BuildPrefix (cidr : string)
  | BuildDiscovery
  | BuildRelyingParty (e : config_error)
  | BuildPasskeys.

(** [fo_fan] is nil when neither feature needs it. *)
Record Fanout := MkFanoutParts { fo_notifier : Notifier; fo_devNotifier : DeviceNotifier; fo_fan : option fanout }.

Record Wiring := MkWiring {
  wi_api : ServerDeps; wi_web : WebDeps; wi_allowed : list prefix; wi_sweeper : option sweeper }.

(** [notify.ParseAllowed]: the first prefix that does not parse is the error. *)
Fixpoint ParseAllowed (cidrs : list string) : list prefix + build_error :=
  match cidrs with
  | [] => inl []
  | c :: rest =>
      match parse_prefix c with
      | None => inr (BuildPrefix c)
      | Some p => match ParseAllowed rest with inl ps => inl (masked p :: ps) | inr e => inr e end
      end
  end.

Section Build.
Context `{Crypto} `{WebAuthn Options HttpRequest} `{OIDCLib} `{ApiLibs} `{WebLibs}.
Context (webauthn_New : string -> string -> WebAuthnCfg -> bool).
Context (apprise_Send : EmailSection -> ctx -> string -> string -> string -> M unit).
Context (current : Info) (slot : nat -> option pstate).

Definition buildFanout (cfg : Config.Config) : Fanout :=
    let notifications := nc_Enabled (cfg_Notifications cfg) in
    if notifications || fc_Enabled (cfg_Feed cfg) then
      let fo := MkFanout notifications in
      MkFanoutParts (fanout_notifier fo) (fanout_device_notifier fo) (Some fo)
    else MkFanoutParts NopNotifier NopDeviceNotifier None.

Definition buildSweeper (cfg : Config.Config) (fan : option fanout) : option sweeper :=
    match fan with
    | Some fo => if ExpiryEnabled (cfg_Feed cfg) then Some (MkSweeper fo (cfg_Feed cfg)) else None
    | None => None
    end.

  (** email.go, [New]. *)
Definition newMailer (cfg : Config.Config) : Mailer :=
    if negb (cfg_EmailEnabled cfg) then noopMailer else MkMailer true (apprise_Send (cfg_Email cfg)).

Definition newSessions (cfg : Config.Config) : SessionManager :=
    MkSessionManager (seconds_of (as_SessionTTL (cfg_Auth cfg))) (seconds_of (as_SlideWindow (cfg_Auth cfg))).

Definition newVerifier (cfg : Config.Config) (key : string) : Verifier :=
    MkVerifier key (seconds_of (as_SkewWindow (cfg_Auth cfg))) (seconds_of (as_NonceTTL (cfg_Auth cfg))).

Definition newManager (cfg : Config.Config) : Manager :=
    MkManager (as_OIDC (cfg_Auth cfg)) (cfg_BaseURL cfg) slot.

  (** A discovery that must succeed at start-up. *)
Definition discoverRequired (c : ctx) (cfg : Config.Config) : M (option build_error) :=
    let o := as_OIDC (cfg_Auth cfg) in
    if oc_Enabled o && oc_Required o then
      r ← catch (Discover c (newManager cfg));
      mret (match r with inl _ => None | inr _ => Some BuildDiscovery end)
    else mret None.

  (** Passkeys are off, not an error, when the local sign-in is hidden. *)
Definition newPasskeys (cfg : Config.Config) (key : string) : option PasskeyService + build_error :=
    match ResolveWebAuthn url_Parse (cfg_Auth cfg) (cfg_BaseURL cfg) with
    | inr e => if as_HideLocalLoginUI (cfg_Auth cfg) then inl None else inr (BuildRelyingParty e)
    | inl (rpID, rpOrigin) =>
        if webauthn_New rpID rpOrigin (as_WebAuthn (cfg_Auth cfg)) then inl (Some (MkPasskeyService key (newSessions cfg)))
        else inr BuildPasskeys
    end.

  (** The literals [apiDeps] and [webDeps]; [recovery] is the background context
      of the recovery route, [started] time.Now. *)
Definition wire (cfg : Config.Config) (key : string) (allowed : list prefix) (passkeys : option PasskeyService)
      (recovery : ctx) (started : Z) : Wiring :=
    let fo := buildFanout cfg in
    let sessions := newSessions cfg in
    let notify := MkNotificationService key allowed in
    let mailer := newMailer cfg in
    let grants := MkGrantService passkeys (Some mailer) (cfg_BaseURL cfg) (as_RegistrationLinkTTL (cfg_Auth cfg)) in
    let auth := MkAuthCfg (as_Session (cfg_Auth cfg)) (as_SkewWindow (cfg_Auth cfg)) (as_OIDC (cfg_Auth cfg)) in
    MkWiring
      (MkServerDeps (newVerifier cfg key) sessions enrollmentCodeTTL key (fo_devNotifier fo) (fo_notifier fo)
         (MkBootstrapService passkeys key) passkeys grants
         (if nc_Enabled (cfg_Notifications cfg) then Some notify else None) (Some mailer) (cfg_BaseURL cfg)
         (Some (newManager cfg)) key auth current (fc_Enabled (cfg_Feed cfg)) recovery)
      (MkWebDeps sessions cfg (fo_devNotifier fo) key enrollmentCodeTTL grants (Some mailer) (cfg_BaseURL cfg) notify
         current started)
      allowed (buildSweeper cfg (fo_fan fo)).

Definition buildMux (c recovery : ctx) (cfg : Config.Config) : M (Wiring + build_error) :=
    match DecodeSecretKey (as_SecretKey (cfg_Auth cfg)) with
    | inr e => mret (inr (BuildKey e))
    | inl key =>
        match ParseAllowed (nc_AllowedPrivateCIDRs (cfg_Notifications cfg)) with
        | inr e => mret (inr e)
        | inl allowed =>
            failed ← discoverRequired c cfg;
            match failed with
            | Some e => mret (inr e)
            | None =>
                match newPasskeys cfg key with
                | inr e => mret (inr e)
                | inl passkeys =>
                    started ← time_now;
                    mret (inl (wire cfg key allowed passkeys recovery started))
                end
            end
        end
    end.
End Build.

(** ** The routes of the one mux *)

(** The feed's and the health routes. *)
Definition feed_stream_routes : list (string * list segment * bool) :=
  [("GET", [Lit "feed"; Lit "v1"; Lit "devices.txt"], false); ("GET", [Lit "feed"; Lit "v1"; Lit "devices.json"], false);
   ("GET", [Lit "feed"; Lit "v1"; Lit "stream"], false)]%string.
Definition health_routes : list (string * list segment * bool) :=
  [("GET", [Lit "healthz"], false); ("GET", [Lit "readyz"], false)]%string.

(** * The server put together: theorems

    One mux serves the API, the pages, the feed and the health checks without
    ambiguity ([server_routes_disjoint]); what [buildMux] builds from an accepted
    configuration meets what the parts assume of one another
    ([buildMux_spec]). *)

From S2P Require Import Prelude GoLib Schema Integrity Effects Dates Demo StoreUsers StoreDevices Auth ServiceDevices ServiceFacts.
From S2P Require Import ServiceTokens NetAddr Notify Feed FeedFacts Endpoints Email Envelope EmailChange Passkeys Grants Stale StaleFacts.
From S2P Require Import GrantFacts IdentityFacts Pruner SignIn Oidc ApiCore Api ApiFacts ApiDemo Config WebCore WebUI WebFacts WebDemo Middleware.

(** ** Routes *)

Definition key : Type := string * list segment * bool.

Definition key_matches (method : string) (segs : list string) (k : key) : bool :=
  method_matches k.1.1 method &&
  if k.2 then (length k.1.2 <? length segs)%nat && path_matches k.1.2 (take (length k.1.2) segs)
  else path_matches k.1.2 segs.

Lemma key_matches_meet method segs (x y : key) : x.1.2 <> [] -> y.1.2 <> [] ->
  key_matches method segs x = true -> key_matches method segs y = true -> keys_meet x y = true.
Proof.
  destruct x as [[m p] s], y as [[m' p'] s']. intros Hx Hy.
  apply (keys_meet_complete (MkWebRoute m p s (Unguarded staticHandler)) (MkWebRoute m' p' s' (Unguarded staticHandler)) method segs Hx Hy).
Qed.

Section Parts.
Context `{Crypto} `{WebAuthn Options HttpRequest} `{OIDCLib} `{ApiLibs} `{WebLibs}.

Definition op_pattern (op : Op HttpRequest) : key := (op_Method op, op_Path op, false).

  (** The patterns each part registers on the mux. *)
Definition mux_parts (w : Wiring) : list (list key) :=
    [ op_pattern <$> Build (wi_api w); route_key <$> New (wi_web w);
      if sv_FeedEnabled (wi_api w) then feed_stream_routes else []; health_routes ].

Definition apart (a b : list key) : bool :=
    forallb (fun x => forallb (fun y => negb (keys_meet x y)) b) a.
Definition nonempty (l : list key) : bool :=
    forallb (fun x => match x.1.2 with [] => false | _ => true end) l.

Fixpoint all_apart (l : list (list key)) : bool :=
    match l with [] => true | a :: rest => forallb (apart a) rest && all_apart rest end.

Lemma mux_parts_apart w : all_apart (mux_parts w) = true /\ forallb nonempty (mux_parts w) = true.
  Proof.
    unfold mux_parts, Build, New.
    destruct (sv_Passkey (wi_api w)), (sv_FeedEnabled (wi_api w)), (sv_Notify (wi_api w)), (nc_Enabled _), (fc_Enabled _);
      by split.
  Qed.
End Parts.

Lemma all_apart_lt l i j a b : all_apart l = true -> (i < j)%nat -> l !! i = Some a -> l !! j = Some b -> apart a b = true.
Proof.
  revert i j. induction l as [|x l IH]; intros i j; [done|]. simpl. intros [Hx Hl]%andb_true_iff Hij Ha Hb.
  destruct j as [|j]; [lia|]. simpl in Hb. destruct i as [|i]; [|by apply (IH i j); try done; lia].
  injection Ha as ->. rewrite forallb_forall in Hx. apply Hx, list_elem_of_In. by eapply list_elem_of_lookup_2.
Qed.

Lemma apart_meet a b x y : apart a b = true -> x ∈ a -> y ∈ b -> keys_meet x y = false.
Proof.
  unfold apart. rewrite forallb_forall. intros Ha Hx%list_elem_of_In Hy%list_elem_of_In. specialize (Ha x Hx).
  rewrite forallb_forall in Ha. apply negb_true_iff. by apply Ha.
Qed.

Section Disjoint.
Context `{Crypto} `{WebAuthn Options HttpRequest} `{OIDCLib} `{ApiLibs} `{WebLibs}.

Lemma mux_parts_nonempty (w : Wiring) i a x : mux_parts w !! i = Some a -> x ∈ a -> x.1.2 <> [].
  Proof.
    intros Ha%list_elem_of_lookup_2%list_elem_of_In Hx%list_elem_of_In. pose proof (proj2 (mux_parts_apart w)) as Hn.
    rewrite forallb_forall in Hn. specialize (Hn a Ha). unfold nonempty in Hn. rewrite forallb_forall in Hn.
    specialize (Hn x Hx). by destruct x.1.2.
  Qed.

  (** The API, the pages, the feed and the health checks share one mux
      without ever competing for a request: whatever features are on, a request
      that a pattern of one part matches is matched by no pattern of another. *)
Theorem server_routes_disjoint (w : Wiring) i j a b x y method segs
      (Ha : mux_parts w !! i = Some a) (Hb : mux_parts w !! j = Some b) (Hij : i <> j)
      (Hx : x ∈ a) (Hm : key_matches method segs x = true) :
    y ∈ b -> key_matches method segs y = false.
  Proof.
    intros Hy. destruct (key_matches method segs y) eqn:Hn; [exfalso|done].
    pose proof (proj1 (mux_parts_apart w)) as Hap.
    pose proof (mux_parts_nonempty w i a x Ha Hx) as Hnx. pose proof (mux_parts_nonempty w j b y Hb Hy) as Hny.
    destruct (decide (i < j)%nat) as [Hlt|Hge].
    - pose proof (apart_meet a b x y (all_apart_lt _ i j a b Hap Hlt Ha Hb) Hx Hy) as Hf.
      by rewrite (key_matches_meet method segs x y) in Hf.
    - pose proof (apart_meet b a y x (all_apart_lt _ j i b a Hap ltac:(lia) Hb Ha) Hy Hx) as Hf.
      by rewrite (key_matches_meet method segs y x) in Hf.
  Qed.
End Disjoint.

(** ** What is built *)

Lemma ParseAllowed_ok l : (forall c, c ∈ l -> parse_prefix c <> None) -> exists ps, ParseAllowed l = inl ps.
Proof.
  induction l as [|c l IH]; intros Hc; simpl; [by eexists|].
  destruct (parse_prefix c) as [p|] eqn:Hp; [|by destruct (Hc c); [left|]].
  destruct IH as [ps ->]; [|by eexists]. intros c' Hc'. apply Hc. by right.
Qed.

Section Built.
Context `{Crypto} `{WebAuthn Options HttpRequest} `{OIDCLib} `{ApiLibs} `{WebLibs}.
Context (webauthn_New : string -> string -> WebAuthnCfg -> bool).
Context (apprise_Send : EmailSection -> ctx -> string -> string -> string -> M unit).
Context (current : Info) (slot : nat -> option pstate) (cfg : Config.Config).

  (** What the parts assume of one another. *)
Record wired (w : Wiring) : Prop := {
    built_key : exists key, DecodeSecretKey (as_SecretKey (cfg_Auth cfg)) = inl key /\ String.length key = 32%nat /\
      Forall (eq key) [sv_HMACKey (wi_api w); sv_sealKey (wi_api w); v_key (sv_Verifier (wi_api w)); wd_sealKey (wi_web w);
                       ns_sealKey (wd_Notify (wi_web w)); bsv_sealKey (sv_Bootstrap (wi_api w))] /\
      (forall p, sv_Passkey (wi_api w) = Some p -> pk_sealKey p = key) /\
      (forall p, gs_passkeys (sv_Grants (wi_api w)) = Some p -> pk_sealKey p = key) /\
      (forall p, bsv_passkeys (sv_Bootstrap (wi_api w)) = Some p -> pk_sealKey p = key) /\
      (forall n, sv_Notify (wi_api w) = Some n -> ns_sealKey n = key);
    built_shared : wd_Sessions (wi_web w) = sv_Sessions (wi_api w) /\ wd_Grants (wi_web w) = sv_Grants (wi_api w) /\
      wd_devNotifier (wi_web w) = sv_devNotifier (wi_api w) /\ wd_Mailer (wi_web w) = sv_Mailer (wi_api w) /\
      gs_passkeys (sv_Grants (wi_api w)) = sv_Passkey (wi_api w) /\
      bsv_passkeys (sv_Bootstrap (wi_api w)) = sv_Passkey (wi_api w) /\
      (forall p, sv_Passkey (wi_api w) = Some p -> pk_sessions p = sv_Sessions (wi_api w)) /\
      sv_Notify (wi_api w) = (if nc_Enabled (cfg_Notifications cfg) then Some (wd_Notify (wi_web w)) else None) /\
      ns_allowed (wd_Notify (wi_web w)) = wi_allowed w /\
      wd_baseURL (wi_web w) = sv_baseURL (wi_api w) /\ gs_baseURL (sv_Grants (wi_api w)) = sv_baseURL (wi_api w) /\
      wd_codeTTL (wi_web w) = sv_codeTTL (wi_api w);
    built_skew : v_skew (sv_Verifier (wi_api w)) <= v_nonceTTL (sv_Verifier (wi_api w)) < 2 ^ 61;
    built_silent : SilentNotifier (sv_notifier (wi_api w));
    built_sweeper : match wi_sweeper w with
      | Some s => 86400 <= Window (sw_cfg s) /\ sw_cfg s = cfg_Feed cfg /\ sv_FeedEnabled (wi_api w) = true
      | None => ExpiryEnabled (cfg_Feed cfg) = false
      end;
    built_off : nc_Enabled (cfg_Notifications cfg) = false -> sv_Notify (wi_api w) = None /\
      (sv_FeedEnabled (wi_api w) = false -> sv_notifier (wi_api w) = NopNotifier /\ wi_sweeper w = None);
    built_passkeys : sv_Passkey (wi_api w) = None -> as_HideLocalLoginUI (cfg_Auth cfg) = true }.

  (** Why a start fails. *)
Definition refused_start (e : build_error) : Prop :=
    match e with
    | BuildKey e => DecodeSecretKey (as_SecretKey (cfg_Auth cfg)) = inr e
    | BuildPrefix c => False
    | BuildDiscovery => oc_Enabled (as_OIDC (cfg_Auth cfg)) = true /\ oc_Required (as_OIDC (cfg_Auth cfg)) = true
    | BuildRelyingParty e => as_HideLocalLoginUI (cfg_Auth cfg) = false /\
        ResolveWebAuthn url_Parse (cfg_Auth cfg) (cfg_BaseURL cfg) = inr e
    | BuildPasskeys => exists rp, ResolveWebAuthn url_Parse (cfg_Auth cfg) (cfg_BaseURL cfg) = inl rp
    end.

Context (mail_parse : string -> option (string * string)) (file : option (option (list string))) (read : option Config.Config).
Hypothesis Hload : Load mail_parse url_Parse file read = inl cfg.
Hypothesis Hns : in_int64 (as_NonceTTL (cfg_Auth cfg)).

Lemma newPasskeys_spec key passkeys p : newPasskeys webauthn_New cfg key = inl passkeys -> passkeys = Some p ->
    p = MkPasskeyService key (newSessions cfg).
  Proof.
    intros Hpass ->. revert Hpass. unfold newPasskeys.
    destruct (ResolveWebAuthn _ _ _) as [[rpID rpOrigin]|]; [destruct (webauthn_New _ _ _); [|done]|by destruct (as_HideLocalLoginUI _)].
    by intros [= <-].
  Qed.

Lemma wire_wired key passkeys allowed recovery started :
    DecodeSecretKey (as_SecretKey (cfg_Auth cfg)) = inl key ->
    newPasskeys webauthn_New cfg key = inl passkeys ->
    wired (wire apprise_Send current slot cfg key allowed passkeys recovery started).
  Proof.
    intros Hkey Hpass. apply Load_checks in Hload as (_ & _ & Ha & _ & _ & _ & _ & Hf & _).
    split; unfold wire, buildFanout, buildSweeper.
    - pose proof (newPasskeys_spec key passkeys) as Hp. exists key. split; [done|]. split.
      { revert Hkey. unfold DecodeSecretKey. destruct (b64_std_decode _); [|done].
        destruct (Nat.eqb_spec (String.length s) 32); [|done]. by intros [= <-]. }
      split; [by repeat constructor|]. cbn. split_and!; [by intros p ->%Hp..|].
      intros n. destruct (nc_Enabled _); [|done]. by intros [= <-].
    - cbn. split_and!; try done. by intros p ->%(newPasskeys_spec key).
    - cbn. unfold seconds_of, second. revert Ha. unfold validateAuth.
      destruct (Z.ltb_spec (as_NonceTTL (cfg_Auth cfg)) (as_SkewWindow (cfg_Auth cfg))); [done|]. intros _.
      unfold in_int64, min_int64, max_int64 in Hns. split; [apply Z.quot_le_mono; lia|].
      Z.to_euclidean_division_equations; lia.
    - cbn. destruct (_ || _); cbn; apply _.
    - cbn. unfold ExpiryEnabled. destruct (fc_Enabled (cfg_Feed cfg)) eqn:He; cbn.
      + rewrite orb_true_r. cbn. destruct (Z.ltb_spec 0 (fc_ExpireAfterDays (cfg_Feed cfg))); [|done].
        split; [apply window_large; cbn; lia|done].
      + by destruct (nc_Enabled _); cbn; unfold ExpiryEnabled; rewrite ?He.
    - cbn. intros ->. split; [done|]. intros ->. done.
    - cbn. intros ->. revert Hpass. unfold newPasskeys.
      destruct (ResolveWebAuthn _ _ _) as [[rpID rpOrigin]|]; [by destruct (webauthn_New _ _ _)|].
      by destruct (as_HideLocalLoginUI _).
  Qed.

Lemma validated_prefixes c : c ∈ nc_AllowedPrivateCIDRs (cfg_Notifications cfg) -> parse_prefix c <> None.
  Proof.
    apply Load_checks in Hload as (_ & _ & _ & _ & _ & Hn & _). intros Hc%list_elem_of_In Hp. revert Hn.
    unfold validateNotifications. destruct (List.find _ _) eqn:Hf; [done|].
    pose proof (find_none _ _ Hf c Hc) as Hx. simpl in Hx. by rewrite Hp in Hx.
  Qed.

Lemma buildMux_wired (Hl : OIDCLibLaws) c recovery w :
    wp (buildMux webauthn_New apprise_Send current slot c recovery cfg) (fun r w' =>
      w_db w' = w_db w /\
      match r with Ok (inl b) => wired b | Ok (inr e) => refused_start e | _ => False end) w.
  Proof.
    unfold buildMux. destruct (DecodeSecretKey _) as [key|e] eqn:Hkey; [|by apply wp_ret].
    destruct (ParseAllowed_ok _ validated_prefixes) as [allowed ->]. apply wp_bind.
    assert (Hd : wp (discoverRequired slot c cfg) (fun r w' => w_db w' = w_db w /\
      (r = Ok None \/ r = Ok (Some BuildDiscovery) /\ refused_start BuildDiscovery)) w).
    { unfold discoverRequired. destruct (_ && _) eqn:Hr; [|apply wp_ret; split; [done|by left]].
      apply andb_true_iff in Hr as [He Hr]. apply wp_bind, wp_catch. unfold Discover, newManager. cbn [mg_cfg].
      rewrite He. cbn [negb]. apply wp_bind. unfold wp.
      destruct (new_provider_call c (oc_Issuer (as_OIDC (cfg_Auth cfg))) w) as (Hdb & _ & _ & Hp).
      destruct (NewProvider _ _ w) as [[ep|e|] w1]; simpl in *; try done; (split; [done|]); [by left|by right]. }
    eapply wp_mono; [exact Hd|]. intros r w1 (Hdb & [->|[-> Hf]]); [|by apply wp_ret].
    destruct (newPasskeys webauthn_New cfg key) as [passkeys|e] eqn:Hpass.
    - apply wp_bind. unfold time_now, wp. simpl. split; [done|]. by apply wire_wired.
    - apply wp_ret. split; [done|]. revert Hpass. unfold newPasskeys.
      destruct (ResolveWebAuthn _ _ _) as [[rpID rpOrigin]|e'] eqn:Hres.
      + destruct (webauthn_New _ _ _); [done|]. intros [= <-]. by eexists.
      + destruct (as_HideLocalLoginUI _) eqn:Hh; [done|]. by intros [= <-].
  Qed.

  (** C37: A configuration that was accepted starts: [buildMux] writes nothing,
      and either it fails for one of four reasons - the key, a discovery that was
      required, a relying party no passkey can be bound to while passkeys are
      offered, the passkey library - or every part is built as the others assume:
      one key of 32 bytes in every part that seals, signs or verifies - of the
      API, the pages, the passkeys, the grants, the first-run claim and the
      notifications -, one session manager, one grant service, one notification
      service and one notifier behind the API and the pages, nonces that outlive the skew window,
      a notifier that hands no error back, and a sweeper exactly when addresses
      expire, with a window of at least a day. *)
Theorem buildMux_spec (Hl : OIDCLibLaws) c recovery w :
    wp (buildMux webauthn_New apprise_Send current slot c recovery cfg) (fun r w' =>
      w_db w' = w_db w /\
      match r with Ok (inl b) => wired b | Ok (inr e) => refused_start e | _ => False end) w.
  Proof. exact (buildMux_wired Hl c recovery w). Qed.
End Built.

(** ** A concrete server *)

#[local] Existing Instance toy_crypto.
#[local] Existing Instance toy_webauthn.
#[local] Existing Instance toy_idp.
#[local] Existing Instance toy_web.

Definition server_libs : ApiLibs := {|
  mail_ParseAddress := demo_parse; url_Parse := demo_url;
  deny_text := fun _ => EmptyString;
  json_claim := fun _ => None; unjson_claim := fun _ => None |}.
#[local] Existing Instance server_libs.

(** The configuration of the pages' demo, with a key. *)
Definition server_config : Config.Config :=
  let a := cfg_Auth web_config in
  MkConfig (cfg_Listen web_config) (cfg_BaseURL web_config) (cfg_DatabasePath web_config) (cfg_LogLevel web_config)
    (cfg_LogFormat web_config) (cfg_LogOutput web_config)
    (MkAuthSection (as_Session a) (as_SessionTTL a) (as_SlideWindow a) (as_SkewWindow a) (as_NonceTTL a)
       (b64_std_encode demo_key) (as_OIDC a) (as_WebAuthn a) (as_HideLocalLoginUI a) (as_RegistrationLinkTTL a))
    (cfg_EmailEnabled web_config) (cfg_Email web_config) (cfg_Notifications web_config) (cfg_Feed web_config)
    (cfg_Retention web_config) (cfg_Observability web_config).

Definition no_transport (e : EmailSection) (c : ctx) (to subject body : string) : M unit := mret tt.

Definition server_start : result (Wiring + build_error) * World :=
  buildMux (fun _ _ _ => true) no_transport (MkInfo "v1" "abc" "today") (fun _ => None) background background
    server_config demo_world.

Definition started_wiring : Wiring :=
  wire no_transport (MkInfo "v1" "abc" "today") (fun _ => None) server_config demo_key []
    (Some (MkPasskeyService demo_key (newSessions server_config))) background (1000 * second).

Lemma server_key : DecodeSecretKey (as_SecretKey (cfg_Auth server_config)) = inl demo_key.
Proof. vm_compute. reflexivity. Qed.

Lemma server_started : server_start.1 = Ok (inl started_wiring).
Proof. unfold server_start, buildMux. rewrite server_key. reflexivity. Qed.

Lemma buildMux_spec_witness :
  Load demo_parse demo_url None (Some server_config) = inl server_config /\
  exists b, server_start.1 = Ok (inl b) /\ wired server_config b.
Proof.
  assert (Hl : Load demo_parse demo_url None (Some server_config) = inl server_config) by (vm_compute; reflexivity).
  split; [exact Hl|]. exists started_wiring. split; [exact server_started|].
  assert (Hns : in_int64 (as_NonceTTL (cfg_Auth server_config))) by (vm_compute; split; discriminate).
  pose proof (wp_elim _ _ _ _ _ (buildMux_spec (fun _ _ _ => true) no_transport (MkInfo "v1" "abc" "today")
    (fun _ => None) server_config demo_parse None (Some server_config) Hl Hns toy_idp_laws background background demo_world)
    (run_eq _ _ server_started)) as [_ Hw].
  exact Hw.
Defined.

(** GET /devices is a page, not an operation of the API. *)
Lemma server_routes_disjoint_witness :
  key_matches "GET" ["devices"]%string ("GET", [Lit "devices"], false)%string = true /\
  key_matches "GET" ["devices"]%string ("GET", [Lit "api"; Lit "v1"; Lit "devices"], false)%string = false.
Proof.
  split; [reflexivity|].
  refine (server_routes_disjoint started_wiring 1 0 _ _ ("GET", [Lit "devices"], false)%string _ "GET" ["devices"]%string
    eq_refl eq_refl _ _ _ _).
  - discriminate.
  - apply (list_elem_of_lookup_2 _ 10). reflexivity.
  - reflexivity.
  - apply list_elem_of_In. vm_compute. repeat (first [by left|right]).
Defined.
