(* ===== verification/Credentials.v ===== *)
(** * internal/client/credentials: the agent's file, and the agent's world

    The computations of the client: a world with a file system, a clock, the
    server's answers and what the client has done so far.  Other processes may
    change the file system before each call ([ce_meddle]), any call may fail
    ([ce_fault]) and every call takes some time ([ce_delay]).  A file is a name
    bound to an inode, as Link and Rename need.

    Then credentials.go: [Load], and [Save], which publishes a complete
    temporary file by one Link or Rename.  File modes are not modelled. *)

From S2P Require Import Prelude GoLib Schema Integrity Effects JsonText Json JsonFacts.
From Stdlib Require Import Ascii.

(** ** The world of the client *)

(** A path is its directory and its last element. *)
Record path := MkPath { p_dir : string; p_base : string }.

#[export] Instance path_eq_dec : EqDecision path.
Proof. solve_decision. Defined.
#[export] Instance path_countable : Countable path.
Proof.
  refine (inj_countable' (fun p => (p_dir p, p_base p)) (fun x => MkPath x.1 x.2) _). by intros [].
Defined.

Record FS := MkFS { fs_names : gmap path nat; fs_data : gmap nat string }.

Definition contents (fs : FS) (p : path) : option string := i ← fs_names fs !! p; fs_data fs !! i.

(** The sentinels the client distinguishes; [ErrIO] is a failure of the
    operating system or of the network, [ErrMsg] a message it prints. *)
Inductive cerr :=
  | CredNotFound | CredExists
  | ErrDeviceUnsupported | ErrFlowGone | ErrRejected | ErrBadGateway | ErrServer (status : Z) | ErrExpired
  | ErrProtocol | ErrEnrollUnauthorized | ErrCanceled | ErrIO | ErrMsg (msg : string)
  | OutOfFuel.                                  (* of the model only *)

#[export] Instance cerr_eq_dec : EqDecision cerr.
Proof. solve_decision. Defined.

Record HttpCall := MkHttpCall { hc_Method : string; hc_URL : string; hc_ContentType : string; hc_Body : string }.

(** [Answer]: the body, if reading it does not fail before its end. *)
Inductive HttpAnswer := NoAnswer | Answer (status : Z) (body : option string).

Record ClientEnv := MkClientEnv {
  ce_fault : nat -> bool;
  ce_meddle : nat -> FS -> FS;
  ce_suffix : nat -> string;                   (* the random part of a temporary name *)
  ce_short : nat -> nat;                       (* how much a failing write writes *)
  ce_http : nat -> HttpCall -> HttpAnswer;
  ce_delay : nat -> Z;                         (* nanoseconds *)
  ce_cancel : nat -> bool }.                   (* the context ends during this sleep *)

Record ClientWorld := MkClientWorld {
  cw_env : ClientEnv; cw_n : nat; cw_clock : Z; cw_fs : FS;
  cw_changes : list (FS * FS);                 (* the client's own changes: before, after *)
  cw_calls : list HttpCall; cw_sleeps : list Z; cw_out : list string }.

Definition CM (A : Type) : Type := ClientWorld -> (A + cerr) * ClientWorld.

#[export] Instance CM_ret : MRet CM := fun A a w => (inl a, w).
#[export] Instance CM_bind : MBind CM := fun A B k m w =>
  match m w with (inl a, w') => k a w' | (inr e, w') => (inr e, w') end.

Definition cfail {A} (e : cerr) : CM A := fun w => (inr e, w).
Definition ccatch {A} (m : CM A) : CM (A + cerr) := fun w => let (r, w') := m w in (inl r, w').

(** A deferred call, whose error is dropped. *)
Definition deferring {A} (m : CM A) (cleanup : CM unit) : CM A := fun w =>
  let (r, w1) := m w in let (_, w2) := cleanup w1 in (r, w2).

(** Time passes with every call, and never backwards. *)
Definition pass (d : Z) (w : ClientWorld) : ClientWorld :=
  MkClientWorld (cw_env w) (S (cw_n w)) (cw_clock w + Z.max 0 d + Z.max 0 (ce_delay (cw_env w) (cw_n w))) (cw_fs w)
    (cw_changes w) (cw_calls w) (cw_sleeps w) (cw_out w).

Definition set_fs (fs : FS) (changes : list (FS * FS)) (w : ClientWorld) : ClientWorld :=
  MkClientWorld (cw_env w) (cw_n w) (cw_clock w) fs changes (cw_calls w) (cw_sleeps w) (cw_out w).

(** The clock and the network. *)
Definition clock_now : CM Z := fun w => (inl (cw_clock w), w).

Definition http_do (c : HttpCall) : CM HttpAnswer := fun w =>
  let w' := pass 0 w in
  (inl (ce_http (cw_env w) (cw_n w) c),
   MkClientWorld (cw_env w') (cw_n w') (cw_clock w') (cw_fs w') (cw_changes w') (cw_calls w' ++ [c]) (cw_sleeps w') (cw_out w')).

Definition say (line : string) : CM unit := fun w =>
  (inl tt, MkClientWorld (cw_env w) (cw_n w) (cw_clock w) (cw_fs w) (cw_changes w) (cw_calls w) (cw_sleeps w) (cw_out w ++ [line])).

(** ** The file system *)

(** A call of the operating system: other processes first, then [f], which
    says what the call does unless it fails. *)
Definition fs_call {A} (failed : FS -> FS) (f : FS -> (A + cerr) * FS) : CM A := fun w =>
  let n := cw_n w in
  let fs := ce_meddle (cw_env w) n (cw_fs w) in
  let '(r, fs') := if ce_fault (cw_env w) n then (inr ErrIO, failed fs) else f fs in
  (r, set_fs fs' (cw_changes w ++ [(fs, fs')]) (pass 0 w)).

(** Looking does not change anything: [None] is os.ErrNotExist. *)
Definition os_ReadFile (p : path) : CM (option string) := fs_call id (fun fs => (inl (contents fs p), fs)).
Definition os_Stat (p : path) : CM (option nat) := fs_call id (fun fs => (inl (fs_names fs !! p), fs)).
Definition os_MkdirAll (dir : string) : CM unit := fs_call id (fun fs => (inl tt, fs)).

(** A file that does not exist yet; [None] of the random names free is an error. *)
Definition os_CreateTemp (dir prefix : string) : CM (path * nat) := fun w =>
  let p := MkPath dir (prefix ++ ce_suffix (cw_env w) (cw_n w)) in
  fs_call id (fun fs =>
    match fs_names fs !! p with
    | Some _ => (inr ErrIO, fs)
    | None =>
        let i := fresh (dom (fs_data fs)) in
        (inl (p, i), MkFS (<[p := i]> (fs_names fs)) (<[i := EmptyString]> (fs_data fs)))
    end) w.

(** Through the open file: its name is not looked up again. *)
Definition os_Write (i : nat) (data : string) : CM unit := fun w =>
  fs_call (fun fs => MkFS (fs_names fs) (<[i := String.substring 0 (ce_short (cw_env w) (cw_n w)) data]> (fs_data fs)))
    (fun fs => (inl tt, MkFS (fs_names fs) (<[i := data]> (fs_data fs)))) w.
Definition os_Close (i : nat) : CM unit := fs_call id (fun fs => (inl tt, fs)).

Definition os_Remove (p : path) : CM unit := fs_call id (fun fs =>
  match fs_names fs !! p with
  | Some _ => (inl tt, MkFS (delete p (fs_names fs)) (fs_data fs))
  | None => (inr ErrIO, fs)
  end).

Definition os_Rename (p q : path) : CM unit := fs_call id (fun fs =>
  match fs_names fs !! p with
  | Some i => (inl tt, MkFS (<[q := i]> (delete p (fs_names fs))) (fs_data fs))
  | None => (inr ErrIO, fs)
  end).

(** [os.ErrExist] is [CredExists]. *)
Definition os_Link (p q : path) : CM unit := fs_call id (fun fs =>
  match fs_names fs !! p, fs_names fs !! q with
  | Some i, None => (inl tt, MkFS (<[q := i]> (fs_names fs)) (fs_data fs))
  | Some _, Some _ => (inr CredExists, fs)
  | None, _ => (inr ErrIO, fs)
  end).

(** ** credentials.go *)

Record Credentials := MkCredentials { cr_ServerURL : string; cr_DeviceID : string; cr_Secret : string }.

(** [config_dir] is os.UserConfigDir. *)
Definition DefaultPath (config_dir : option string) : option path :=
  dir ← config_dir; Some (MkPath (dir ++ "/diyddns") "credentials.json").

Definition unmarshal_credentials (text : string) : option Credentials :=
  v ← parse_json text; m ← members v;
  url ← string_field "server_url" m; id ← string_field "device_id" m; secret ← string_field "secret" m;
  Some (MkCredentials url id secret).

Definition Load (p : path) : CM Credentials :=
  data ← os_ReadFile p;
  match data with
  | None => cfail CredNotFound
  | Some text => match unmarshal_credentials text with Some c => mret c | None => cfail (ErrMsg "credentials: parse") end
  end.

(** json.MarshalIndent(c, prefix "", indent "  "). *)
Definition newline : string := str1 (chr 10).
Definition json_line (field value sep : string) : string :=
  ("  " ++ json_quote field ++ ": " ++ json_quote value ++ sep ++ newline)%string.
Definition marshal_credentials (c : Credentials) : string :=
  ("{" ++ newline ++ json_line "server_url" (cr_ServerURL c) "," ++ json_line "device_id" (cr_DeviceID c) ","
       ++ json_line "secret" (cr_Secret c) EmptyString ++ "}")%string.

(** The early check of a save that may not overwrite. *)
Definition refuse_existing (p : path) (force : bool) : CM unit :=
  if force then mret tt
  else found ← os_Stat p; match found with Some _ => cfail CredExists | None => mret tt end.

Definition Save (p : path) (c : Credentials) (force : bool) : CM unit :=
  refuse_existing p force;;
  os_MkdirAll (p_dir p);;
  let data := marshal_credentials c in
  '(tmp, f) ← os_CreateTemp (p_dir p) (p_base p ++ ".tmp.");
  deferring
    (written ← ccatch (os_Write f data);
     match written with
     | inr e => os_Close f;; cfail e
     | inl _ =>
         os_Close f;;
         if force then os_Rename tmp p else os_Link tmp p
     end)
    (os_Remove tmp).

Fixpoint all_space (s : string) : bool :=
  match s with EmptyString => true | String c r => json_space c && all_space r end.

(** ** Running the client's computations *)

Definition cwp {A} (m : CM A) (Q : A + cerr -> ClientWorld -> Prop) (w : ClientWorld) : Prop :=
  Q (m w).1 (m w).2.

Lemma cwp_ret {A} (a : A) Q w : Q (inl a) w -> cwp (mret a) Q w.
Proof. done. Qed.

Lemma cwp_fail {A} e (Q : A + cerr -> ClientWorld -> Prop) w : Q (inr e) w -> cwp (cfail e) Q w.
Proof. done. Qed.

Lemma cwp_bind {A B} (m : CM A) (k : A -> CM B) Q w :
  cwp m (fun r w' => match r with inl a => cwp (k a) Q w' | inr e => Q (inr e) w' end) w -> cwp (m ≫= k) Q w.
Proof. unfold cwp, mbind, CM_bind. by destruct (m w) as [[a|e] w']. Qed.

Lemma cwp_mono {A} (m : CM A) (P Q : A + cerr -> ClientWorld -> Prop) w :
  (forall r w', P r w' -> Q r w') -> cwp m P w -> cwp m Q w.
Proof. unfold cwp. auto. Qed.

Lemma cwp_catch {A} (m : CM A) (Q : (A + cerr) + cerr -> ClientWorld -> Prop) w :
  cwp m (fun r w' => Q (inl r) w') w -> cwp (ccatch m) Q w.
Proof. unfold cwp, ccatch. by destruct (m w). Qed.

Lemma cwp_deferring {A} (m : CM A) c Q w :
  cwp m (fun r w' => cwp c (fun _ w'' => Q r w'') w') w -> cwp (deferring m c) Q w.
Proof. unfold cwp, deferring. destruct (m w) as [r w1]. simpl. by destruct (c w1). Qed.

(** The file system a call finds, and the world after it left [fs']. *)
Definition found (w : ClientWorld) : FS := ce_meddle (cw_env w) (cw_n w) (cw_fs w).
Definition after_call (w : ClientWorld) (fs' : FS) : ClientWorld :=
  set_fs fs' (cw_changes w ++ [(found w, fs')]) (pass 0 w).

Lemma cwp_fs_call {A} failed (f : FS -> (A + cerr) * FS) Q w :
  Q (inr ErrIO) (after_call w (failed (found w))) ->
  Q (f (found w)).1 (after_call w (f (found w)).2) -> cwp (fs_call failed f) Q w.
Proof.
  unfold cwp, fs_call. fold (found w). intros HF HS. destruct (ce_fault _ _); [done|].
  by destruct (f (found w)).
Qed.

(** ** Lemmas: what [Save] does to its path *)

Section SaveFacts.
Context (p : path).

  (** A change that leaves the path bound as it was. *)
Definition unbound_change (x : FS * FS) : Prop := fs_names x.1 !! p = fs_names x.2 !! p.

  (** What publishes: the path gets the inode of the temporary file. *)
Definition publishes (force : bool) (tmp : path) (x : FS * FS) : Prop :=
    (force = false -> fs_names x.1 !! p = None) /\
    (exists i, fs_names x.1 !! tmp = Some i /\ fs_names x.2 !! p = Some i) /\ fs_data x.2 = fs_data x.1.

  (** From [w] to [w'] no change touched the path. *)
Definition path_kept (w w' : ClientWorld) : Prop :=
    cw_env w' = cw_env w /\ exists l, cw_changes w' = cw_changes w ++ l /\ Forall unbound_change l.

Lemma path_kept_refl w : path_kept w w.
Proof. split; [done|]. exists []. by rewrite app_nil_r. Qed.

Lemma path_kept_trans w1 w2 w3 : path_kept w1 w2 -> path_kept w2 w3 -> path_kept w1 w3.
Proof.
    intros (He1 & l1 & H1 & HF1) (He2 & l2 & H2 & HF2). split; [congruence|].
    exists (l1 ++ l2). rewrite H2, H1, app_assoc. split; [done|]. by apply Forall_app.
Qed.

Lemma path_kept_call w fs' : fs_names (found w) !! p = fs_names fs' !! p -> path_kept w (after_call w fs').
Proof. intros H. split; [done|]. exists [(found w, fs')]. split; [done|]. by repeat constructor. Qed.

  (** No other process touches the file [tmp] while this one runs. *)
Definition keeps_file (env : ClientEnv) (tmp : path) : Prop := forall n fs i, fs_names fs !! tmp = Some i ->
    fs_names (ce_meddle env n fs) !! tmp = Some i /\ fs_data (ce_meddle env n fs) !! i = fs_data fs !! i.

Definition holds_data (w : ClientWorld) (tmp : path) (i : nat) (d : string) : Prop :=
    keeps_file (cw_env w) tmp -> fs_names (cw_fs w) !! tmp = Some i /\ fs_data (cw_fs w) !! i = Some d.

Lemma holds_found w tmp i d : holds_data w tmp i d -> keeps_file (cw_env w) tmp ->
    fs_names (found w) !! tmp = Some i /\ fs_data (found w) !! i = Some d.
Proof. intros Hh Hk. unfold found. destruct (Hh Hk) as [Hn Hd]. destruct (Hk (cw_n w) _ _ Hn) as [-> ->]. done. Qed.

Definition kept (w0 : ClientWorld) {A} (Q : A -> ClientWorld -> Prop) (r : A + cerr) (w : ClientWorld) : Prop :=
    path_kept w0 w /\ match r with inl a => Q a w | inr _ => True end.

  (** A call that does not touch the path, after others that did not. *)
Lemma kept_call {A} w0 w (m : FS -> (A + cerr) * FS) failed (Q : A -> ClientWorld -> Prop) :
    path_kept w0 w ->
    fs_names (failed (found w)) !! p = fs_names (found w) !! p ->
    fs_names (m (found w)).2 !! p = fs_names (found w) !! p ->
    (forall a, (m (found w)).1 = inl a -> Q a (after_call w (m (found w)).2)) ->
    cwp (fs_call failed m) (kept w0 Q) w.
Proof.
    intros Hw Hf Hm HQ. apply cwp_fs_call.
    - split; [|done]. eapply path_kept_trans; [done|]. by apply path_kept_call.
    - split; [eapply path_kept_trans; [done|]; by apply path_kept_call|].
      destruct ((m (found w)).1) as [a|e] eqn:E; [by apply HQ|done].
Qed.

Lemma temp_differs dir s : MkPath dir ((p_base p ++ ".tmp.") ++ s) <> p.
Proof.
    intros H. apply (f_equal (fun q => String.length (p_base q))) in H. simpl in H.
    rewrite !string_length_app in H. simpl in H. lia.
Qed.

Lemma kept_precheck force w :
    cwp (refuse_existing p force)
      (kept w (fun (_ : unit) _ => True)) w.
Proof.
    unfold refuse_existing. destruct force; [apply cwp_ret; split; [apply path_kept_refl|done]|].
    apply cwp_bind. eapply cwp_mono; [|apply (kept_call w w _ _ (fun (_ : option nat) _ => True)); [apply path_kept_refl|done..]].
    intros [[i|]|e] w' [Hk _]; split; done.
Qed.

Lemma kept_create w0 w : path_kept w0 w ->
    cwp (os_CreateTemp (p_dir p) (p_base p ++ ".tmp."))
      (kept w0 (fun x w' => x.1 <> p /\ holds_data w' x.1 x.2 EmptyString)) w.
Proof.
    intros Hw. unfold os_CreateTemp. pose proof (temp_differs (p_dir p) (ce_suffix (cw_env w) (cw_n w))) as Hne.
    apply (kept_call w0 w _ id _ Hw); [done|..].
    - cbv beta. case_match; [done|]. simpl. by rewrite lookup_insert_ne.
    - intros a. cbv beta. case_match; [done|]. simpl. intros [= <-]. split; [done|].
      intros _. simpl. by rewrite !lookup_insert_eq.
Qed.

Lemma kept_write w0 w tmp i d data : path_kept w0 w -> holds_data w tmp i d ->
    cwp (os_Write i data) (kept w0 (fun _ w' => holds_data w' tmp i data)) w.
Proof.
    intros Hw Hh. unfold os_Write. apply (kept_call w0 w _ _ _ Hw); [done..|].
    intros [] _ Hk. simpl. rewrite lookup_insert_eq. by destruct (holds_found _ _ _ _ Hh Hk) as [-> _].
Qed.

Lemma kept_close w0 w tmp i d : path_kept w0 w -> holds_data w tmp i d ->
    cwp (os_Close i) (kept w0 (fun _ w' => holds_data w' tmp i d)) w.
Proof.
    intros Hw Hh. apply (kept_call w0 w _ id _ Hw); [done..|].
    intros [] _ Hk. simpl. by destruct (holds_found _ _ _ _ Hh Hk).
Qed.

  (** Since [w0] exactly one change touched the path, and it published a
      complete file. *)
Definition published (force : bool) (data : string) (w0 w : ClientWorld) : Prop :=
    cw_env w = cw_env w0 /\ exists tmp l1 x l2,
      cw_changes w = cw_changes w0 ++ l1 ++ x :: l2 /\ Forall unbound_change l1 /\ Forall unbound_change l2 /\
      publishes force tmp x /\
      (keeps_file (cw_env w0) tmp ->
       contents x.2 p = Some data /\ (keeps_file (cw_env w0) p -> contents (cw_fs w) p = Some data)).

Lemma published_call force data w0 w fs' :
    published force data w0 w -> fs_names (found w) !! p = fs_names fs' !! p -> fs_data fs' = fs_data (found w) ->
    published force data w0 (after_call w fs').
Proof.
    intros (He & tmp & l1 & x & l2 & Hc & H1 & H2 & Hx & Hd) Hp Hdata. split; [done|].
    exists tmp, l1, x, (l2 ++ [(found w, fs')]). split.
    - simpl. rewrite Hc. by rewrite <- !app_assoc, <- app_comm_cons.
    - split; [done|]. split; [apply Forall_app; by repeat constructor|]. split; [done|].
      intros Ht. destruct (Hd Ht) as [Hx2 Hnow]. split; [done|]. intros Hk. specialize (Hnow Hk).
      simpl. unfold contents in *. rewrite <- Hp, Hdata. unfold found. rewrite He.
      destruct (fs_names (cw_fs w) !! p) as [i|] eqn:Hi; [|done]. by destruct (Hk (cw_n w) _ _ Hi) as [-> ?]; simplify_eq/=; congruence.
Qed.

Lemma publish_now force tmp i data w0 w fs' :
    path_kept w0 w -> holds_data w tmp i data ->
    publishes force tmp (found w, fs') -> published force data w0 (after_call w fs').
Proof.
    intros (He & l & Hc & Hl) Hh Hx. split; [done|]. exists tmp, l, (found w, fs'), [].
    simpl. rewrite Hc, <- app_assoc. split; [done|]. split; [done|]. split; [constructor|]. split; [done|].
    rewrite <- He. intros Hk. destruct (holds_found _ _ _ _ Hh Hk) as [Hn Hd].
    destruct Hx as (_ & (j & Hj & Hp) & Hdata). simpl in *. unfold contents. rewrite Hp, Hdata. simpl.
    rewrite Hn in Hj. simplify_eq. done.
Qed.

Definition save_outcome (force : bool) (data : string) (w0 : ClientWorld) {A} (r : A + cerr) (w : ClientWorld) : Prop :=
    match r with inl _ => published force data w0 w | inr _ => path_kept w0 w end.

Lemma outcome_publish (force : bool) tmp i data w0 w : path_kept w0 w -> holds_data w tmp i data -> tmp <> p ->
    cwp (if force then os_Rename tmp p else os_Link tmp p) (save_outcome force data w0) w.
Proof.
    intros Hw Hh Hne.
    assert (path_kept w0 (after_call w (found w))) as Hkept.
    { eapply path_kept_trans; [done|]. by apply path_kept_call. }
    destruct force; apply cwp_fs_call; try exact Hkept.
    - case_match; [|exact Hkept]. eapply publish_now; [done..|]. split; [done|]. split; [|done].
      eexists. split; [done|]. simpl. by rewrite lookup_insert_eq.
    - case_match; [|exact Hkept]. case_match; [exact Hkept|]. eapply publish_now; [done..|]. split; [done|].
      split; [|done]. eexists. split; [done|]. simpl. by rewrite lookup_insert_eq.
Qed.

Lemma outcome_remove {A} force data w0 tmp (r : A + cerr) w : save_outcome force data w0 r w -> tmp <> p ->
    cwp (os_Remove tmp) (fun _ w' => save_outcome force data w0 r w') w.
Proof.
    intros Hr Hne. assert (forall fs', fs_names (found w) !! p = fs_names fs' !! p ->
      fs_data fs' = fs_data (found w) -> save_outcome force data w0 r (after_call w fs')) as H.
    { intros fs' Hp Hd. destruct r; [by apply published_call|]. eapply path_kept_trans; [done|]. by apply path_kept_call. }
    apply cwp_fs_call; [by apply H|]. case_match; [|by apply H]. apply H; [|done]. simpl. by rewrite lookup_delete_ne.
Qed.
End SaveFacts.

(** ** Lemmas: the document reads back *)

Definition valid_credentials (c : Credentials) : Credentials :=
  MkCredentials (to_valid_utf8 (cr_ServerURL c)) (to_valid_utf8 (cr_DeviceID c)) (to_valid_utf8 (cr_Secret c)).

Lemma scan_space first s r p : all_space s = true -> undone first p ->
  scan first (s ++ r) Between p = scan first r Between p.
Proof.
  intros Hs Hp. induction s as [|c s IH]; [done|]. cbn [all_space] in Hs. apply andb_true_iff in Hs as [Hc Hs].
  rewrite string_app_cons, (scan_feed _ _ _ _ _ Between p); [by apply IH|unfold feed, start_token; by rewrite Hc|done].
Qed.

(** A member of an object, up to what separates it from the next. *)
Lemma scan_member ph acc k field value r : ph = FirstKey \/ ph = Key ->
  scan false ("  " ++ json_quote field ++ ": " ++ json_quote value ++ r) Between (ph, [InObject acc k]) =
  scan false r Between (More, [InObject (acc ++ [(to_valid_utf8 field, JString (to_valid_utf8 value))]) (to_valid_utf8 field)]).
Proof.
  intros Hph. rewrite scan_space by (done || by destruct Hph as [->| ->]).
  rewrite (scan_quote _ _ _ _ (Colon, [InObject acc (to_valid_utf8 field)])) by (destruct Hph as [->| ->]; done).
  change (": " ++ json_quote value ++ r)%string with (String ":" (" " ++ json_quote value ++ r))%string.
  rewrite (scan_feed _ _ _ _ _ Between (Value, [InObject acc (to_valid_utf8 field)])) by done.
  rewrite scan_space by done. by apply scan_quote.
Qed.

Lemma unmarshal_marshal c : unmarshal_credentials (marshal_credentials c) = Some (valid_credentials c).
Proof.
  unfold unmarshal_credentials, parse_json, marshal_credentials, json_line.
  rewrite string_app_cons, append_nil, (scan_feed _ _ _ _ _ Between (FirstKey, [InObject [] EmptyString])) by done.
  rewrite scan_space by done. rewrite !string_app_assoc.
  rewrite scan_member by auto. rewrite string_app_cons, append_nil.
  rewrite (scan_feed _ _ _ _ _ Between (Key, [InObject [("server_url"%string, JString (to_valid_utf8 (cr_ServerURL c)))] "server_url"])) by done.
  rewrite scan_space, scan_member by (done || auto). rewrite string_app_cons, append_nil.
  rewrite (scan_feed _ _ _ _ _ Between (Key, [InObject [("server_url"%string, JString (to_valid_utf8 (cr_ServerURL c)));
    ("device_id"%string, JString (to_valid_utf8 (cr_DeviceID c)))] "device_id"])) by done.
  rewrite scan_space, scan_member by (done || auto). rewrite append_nil, scan_space by done. reflexivity.
Qed.

Lemma Save_outcome p c force w :
  save_outcome p force (marshal_credentials c) w (Save p c force w).1 (Save p c force w).2.
Proof.
  change (cwp (Save p c force) (save_outcome p force (marshal_credentials c) w) w). unfold Save.
  apply cwp_bind. eapply cwp_mono; [|apply kept_precheck]. intros [[]|e] w1 [H1 _]; [|exact H1].
  apply cwp_bind. eapply cwp_mono; [|apply (kept_call p w w1 _ _ (fun (_ : unit) _ => True)); done].
  intros [[]|e] w2 [H2 _]; [|exact H2]. cbv zeta.
  apply cwp_bind. eapply cwp_mono; [|by apply kept_create].
  intros [[tmp i]|e] w3 [H3 Hq]; [|exact H3]. destruct Hq as [Hne Hh]. simpl in Hne, Hh.
  apply cwp_deferring, cwp_mono with (P := save_outcome p force (marshal_credentials c) w).
  { intros r w' Hr. by apply outcome_remove. }
  apply cwp_bind, cwp_catch. eapply cwp_mono; [|by eapply kept_write].
  intros [[]|e] w4 [H4 Hh4].
  - apply cwp_bind. eapply cwp_mono; [|by eapply kept_close]. intros [[]|e] w5 [H5 Hh5]; [|exact H5].
    by eapply outcome_publish.
  - apply cwp_bind. eapply cwp_mono; [|apply (kept_call p w w4 _ _ (fun (_ : unit) _ => True)); done].
    intros [[]|e'] w5 [H5 _]; exact H5.
Qed.

(** A published document loads, when nobody touches existing files. *)
Lemma Load_published p force c w0 w : published p force (marshal_credentials c) w0 w ->
  (forall q, keeps_file (cw_env w0) q) -> ce_fault (cw_env w) (cw_n w) = false ->
  (Load p w).1 = inl (valid_credentials c).
Proof.
  intros (He & tmp & l1 & x & l2 & _ & _ & _ & _ & Hx) Hq Hf. destruct (Hx (Hq tmp)) as [_ Hnow].
  specialize (Hnow (Hq p)). assert (contents (found w) p = Some (marshal_credentials c)) as Hc.
  { unfold found, contents in *. rewrite He. destruct (fs_names (cw_fs w) !! p) as [i|] eqn:Hi; [|done].
    destruct (Hq p (cw_n w) _ _ Hi) as [-> Hd]. simpl in *. congruence. }
  unfold Load, mbind, CM_bind, os_ReadFile, fs_call. rewrite Hf. fold (found w). simpl.
  by rewrite Hc, unmarshal_marshal.
Qed.

(** ** Theorems *)

(** [Save] publishes a complete file by one step, or nothing.  Whatever other
    processes do before each of its calls and whichever of its calls fail: when
    it reports an error, none of its own changes touched the path; when it
    reports success, exactly one did, it bound the path to the inode of the
    temporary file, without --force only where there was no file, and if
    nobody else touched that temporary file the path holds_data the complete
    document from that change on. *)
Theorem Save_publishes p c force w :
  match (Save p c force w).1 with
  | inr _ => path_kept p w (Save p c force w).2
  | inl _ => published p force (marshal_credentials c) w (Save p c force w).2
  end.
Proof. apply Save_outcome. Qed.

(** What [Save] wrote, [Load] reads: when other processes leave existing files
    alone and a save succeeded, the next load that the system does not fail
    returns the credentials, with any invalid UTF-8 replaced as encoding/json
    does, hence unchanged when they are ASCII. *)
Theorem Save_Load p c force w (Hq : forall q, keeps_file (cw_env w) q) (Hok : (Save p c force w).1 = inl tt)
  (Hf : ce_fault (cw_env w) (cw_n (Save p c force w).2) = false) :
  (Load p (Save p c force w).2).1 = inl (valid_credentials c) /\
  (all_ascii (cr_ServerURL c) && all_ascii (cr_DeviceID c) && all_ascii (cr_Secret c) = true -> valid_credentials c = c).
Proof.
  pose proof (Save_outcome p c force w) as Ho. rewrite Hok in Ho. split.
  - eapply Load_published; [exact Ho|exact Hq|]. by rewrite (proj1 Ho).
  - intros [[H1 H2]%andb_true_iff H3]%andb_true_iff. destruct c. unfold valid_credentials. simpl in *.
    by rewrite !to_valid_ascii.
Qed.

(** ** Witnesses *)

Definition calm_env : ClientEnv :=
  MkClientEnv (fun _ => false) (fun _ fs => fs) (fun _ => "1"%string) (fun _ => O) (fun _ _ => NoAnswer)
    (fun _ => 0) (fun _ => false).
Definition calm_world : ClientWorld := MkClientWorld calm_env 0 0 (MkFS ∅ ∅) [] [] [] [].
Definition demo_path : path := MkPath "/home/agent/.config/diyddns" "credentials.json".
Definition demo_credentials : Credentials := MkCredentials "https://ddns.example" "d1" "c2VjcmV0".

Lemma Save_Load_witness : (Load demo_path (Save demo_path demo_credentials false calm_world).2).1 = inl demo_credentials.
Proof.
  rewrite (proj1 (Save_Load demo_path demo_credentials false calm_world (fun q n fs i H => conj H eq_refl) eq_refl eq_refl)).
  reflexivity.
Defined.
