(* ===== verification/Enroll.v ===== *)
(** * internal/client/enroll: enrolling the agent

    client.go (the calls of the enrollment endpoints and what each answer
    means) and oidc.go (the device-code loop), as computations of the client's
    world of Credentials.v, and finishEnroll of cmd/diyddns-client/enroll.go,
    which stores the result.  net/url's parser, the CA bundle on disk and
    x509's reader of it are parameters.  The loop takes fuel;
    [DeviceCodeEnroll_terminates] says how much is enough. *)

From S2P Require Import Prelude GoLib Schema Integrity Effects ApiCore JsonText Json JsonFacts Credentials.
From Stdlib Require Import Ascii.

Definition second : Z := 1000000000.

(** ** client.go: the answers *)

Record Capabilities := MkCapabilities { cap_ServerVersion : string; cap_OIDCEnabled : bool; cap_OIDCDeviceEnabled : bool }.
Record DeviceStart := MkDeviceStart {
  dst_FlowID : string; dst_UserCode : string; dst_VerificationURI : string; dst_VerificationURIComplete : string;
  dst_ExpiresIn : Z; dst_Interval : Z }.
Record Result := MkResult { er_DeviceID : string; er_Secret : string }.
Inductive PollResult := PollPending | PollSlowDown | PollComplete (r : Result).

(** json.NewDecoder(body).Decode: the members of the first value. *)
Definition decode_body (body : option string) : option (list (string * json)) :=
  text ← body; v ← decode_json text; members v.

Definition decode_capabilities (body : option string) : option Capabilities :=
  m ← decode_body body;
  v ← string_field "server_version" m; o ← bool_field "oidc_enabled" m; d ← bool_field "oidc_device_enabled" m;
  Some (MkCapabilities v o d).

Definition decode_start (body : option string) : option DeviceStart :=
  m ← decode_body body;
  flow ← string_field "flow_id" m; code ← string_field "user_code" m;
  uri ← string_field "verification_uri" m; full ← string_field "verification_uri_complete" m;
  expires ← int64_field "expires_in" m; interval ← int64_field "interval" m;
  Some (MkDeviceStart flow code uri full expires interval).

(** The status and the credentials of a poll; an enrollment has no status. *)
Definition decode_poll (body : option string) : option (string * Result) :=
  m ← decode_body body;
  s ← string_field "status" m; id ← string_field "device_id" m; secret ← string_field "secret" m;
  Some (s, MkResult id secret).

Definition decode_result (body : option string) : option Result :=
  m ← decode_body body; id ← string_field "device_id" m; secret ← string_field "secret" m; Some (MkResult id secret).

(** What a 200 must carry to be kept. *)
Definition usable (r : Result) : bool :=
  negb (str_eq (er_DeviceID r) EmptyString || str_eq (er_Secret r) EmptyString) &&
  match b64_std_decode (er_Secret r) with Some _ => true | None => false end.

Definition capabilities_answer (a : HttpAnswer) : Capabilities + cerr :=
  match a with
  | NoAnswer => inr ErrIO
  | Answer status body =>
      if negb (status =? 200) then inr (ErrMsg "enroll: capabilities: unexpected status")
      else match decode_capabilities body with Some c => inl c | None => inr (ErrMsg "enroll: capabilities decode") end
  end.

Definition start_answer (a : HttpAnswer) : DeviceStart + cerr :=
  match a with
  | NoAnswer => inr ErrIO
  | Answer status body =>
      if status =? 200 then match decode_start body with Some d => inl d | None => inr (ErrMsg "enroll: start decode") end
      else if status =? 501 then inr ErrDeviceUnsupported
      else if status =? 502 then inr ErrBadGateway
      else inr (ErrServer status)
  end.

Definition poll_answer (a : HttpAnswer) : PollResult + cerr :=
  match a with
  | NoAnswer => inr ErrIO
  | Answer status body =>
      if status =? 200 then
        match decode_poll body with
        | None => inr ErrProtocol
        | Some (s, r) =>
            if str_eq s "pending" then inl PollPending
            else if str_eq s "slow_down" then inl PollSlowDown
            else if str_eq s EmptyString then if usable r then inl (PollComplete r) else inr ErrProtocol
            else inr ErrProtocol
        end
      else if status =? 410 then inr ErrFlowGone
      else if status =? 401 then inr ErrRejected
      else if status =? 502 then inr ErrBadGateway
      else inr (ErrServer status)
  end.

Definition enroll_answer (a : HttpAnswer) : Result + cerr :=
  match a with
  | NoAnswer => inr ErrIO
  | Answer status body =>
      if status =? 200 then
        match decode_result body with
        | None => inr ErrProtocol
        | Some r => if usable r then inl r else inr ErrProtocol
        end
      else if status =? 401 then inr ErrEnrollUnauthorized
      else inr (ErrServer status)
  end.

(** ** client.go: the calls

    The base URL was parsed by [NewClient], so building a request does not fail. *)

Definition answered {A} (classify : HttpAnswer -> A + cerr) (call : HttpCall) : CM A :=
  a ← http_do call; match classify a with inl x => mret x | inr e => cfail e end.

Definition json_type : string := "application/json".
Definition one_field (name value : string) : string := ("{" ++ json_quote name ++ ":" ++ json_quote value ++ "}")%string.

Definition CapabilitiesOf (base : string) : CM Capabilities :=
  answered capabilities_answer (MkHttpCall "GET" (base ++ "/agent/v1/capabilities") EmptyString EmptyString).

Definition OIDCDeviceStart (base : string) : CM DeviceStart :=
  answered start_answer (MkHttpCall "POST" (base ++ "/agent/v1/enroll/oidc/start") EmptyString EmptyString).

Definition OIDCDevicePoll (base flowID : string) : CM PollResult :=
  answered poll_answer (MkHttpCall "POST" (base ++ "/agent/v1/enroll/oidc/poll") json_type (one_field "flow_id" flowID)).

Definition doEnroll (base path payload : string) : CM Result :=
  answered enroll_answer (MkHttpCall "POST" (base ++ path) json_type payload).

Definition EnrollCode (base code : string) : CM Result := doEnroll base "/agent/v1/enroll/code" (one_field "code" code).

(** ** oidc.go *)

Definition minIntervalSeconds : Z := 5.
Definition slowDownBumpSeconds : Z := 5.
Definition maxConsecutiveBadGateway : Z := 3.

(** systemClock.Sleep: the timer, or the end of the context. *)
Definition clock_sleep (d : Z) : CM unit := fun w =>
  if ce_cancel (cw_env w) (cw_n w) then (inr ErrCanceled, pass 0 w)
  else
    let w' := pass d w in
    (inl tt, MkClientWorld (cw_env w') (cw_n w') (cw_clock w') (cw_fs w') (cw_changes w') (cw_calls w')
               (cw_sleeps w' ++ [d]) (cw_out w')).

Definition isBadGateway (e : cerr) : bool := bool_decide (e = ErrBadGateway).

Definition bumped (interval : Z) : Z := i64 (interval + slowDownBumpSeconds * second).

(** The end of a turn, before the next poll. *)
Definition wait_turn (deadline interval : Z) : CM unit :=
  now ← clock_now;
  if deadline <=? now then cfail ErrExpired
  else
    let remaining := deadline - now in
    clock_sleep (if remaining <? interval then remaining else interval).

(** [None]: out of fuel. *)
Fixpoint poll_loop (fuel : nat) (base flowID : string) (deadline interval consecutive502 : Z) : CM (option Result) :=
  match fuel with
  | O => mret None
  | S fuel =>
      res ← ccatch (OIDCDevicePoll base flowID);
      match res with
      | inl (PollComplete r) => mret (Some r)
      | inl PollSlowDown => wait_turn deadline (bumped interval);; poll_loop fuel base flowID deadline (bumped interval) 0
      | inl PollPending => wait_turn deadline interval;; poll_loop fuel base flowID deadline interval 0
      | inr e =>
          if isBadGateway e then
            if maxConsecutiveBadGateway <=? consecutive502 + 1 then cfail ErrBadGateway
            else wait_turn deadline (bumped interval);;
                 poll_loop fuel base flowID deadline (bumped interval) (consecutive502 + 1)
          else cfail e
      end
  end.

(** stderrPrompter of the command. *)
Definition ShowUserCode (ds : DeviceStart) : CM unit :=
  say ("To authorize this device, visit:" ++ newline ++ "    " ++ dst_VerificationURI ds ++ newline);;
  say ("and enter code: " ++ dst_UserCode ds ++ newline);;
  if str_eq (dst_VerificationURIComplete ds) EmptyString then mret tt
  else say ("(or open directly: " ++ dst_VerificationURIComplete ds ++ ")" ++ newline).
Definition Waiting : CM unit := say ("Waiting for authorization…" ++ newline).

(** time.Duration(n) * time.Second wraps. *)
Definition seconds (n : Z) : Z := i64 (n * second).

Definition DeviceCodeEnroll (fuel : nat) (base : string) : CM (option Result) :=
  ds ← OIDCDeviceStart base;
  if dst_ExpiresIn ds <=? 0 then cfail ErrExpired
  else
    ShowUserCode ds;; Waiting;;
    now ← clock_now;
    let deadline := now + seconds (dst_ExpiresIn ds) in
    let interval := seconds (Z.max (dst_Interval ds) minIntervalSeconds) in
    poll_loop fuel base (dst_FlowID ds) deadline interval 0.

(** ** The enroll command: cmd/diyddns-client/enroll.go *)

Inductive Mode := ByCode (code : string) | ByOIDC.

Record enrollParams := MkEnrollParams {
  ep_server : string; ep_caCert : string; ep_force : bool; ep_credFile : option path }.

Section Command.
Context (config_dir : option string) (url_parse : string -> option URL) (read_ca : string -> option string)
        (has_certs : string -> bool) (fuel : nat).

  (** [NewClient]: the base URL of the client. *)
Definition NewClient (baseURL caCertPath : string) : CM string :=
    let baseURL := trim_slashes baseURL in
    let usable_url := match url_parse baseURL with
      | None => false
      | Some u => (str_eq (u_Scheme u) "http" || str_eq (u_Scheme u) "https") && negb (str_eq (u_Host u) EmptyString)
      end in
    if negb usable_url then cfail (ErrMsg "enroll: server URL must be http(s)")
    else if str_eq caCertPath EmptyString then mret baseURL
    else match read_ca caCertPath with
      | None => cfail (ErrMsg "enroll: read ca cert")
      | Some pem => if has_certs pem then mret baseURL else cfail (ErrMsg "enroll: no certificates")
      end.

Definition runOIDCEnroll (base : string) : CM Result :=
    caps ← CapabilitiesOf base;
    if negb (cap_OIDCDeviceEnabled caps) then cfail (ErrMsg "server does not support OIDC device enrollment")
    else r ← DeviceCodeEnroll fuel base; match r with Some r => mret r | None => cfail OutOfFuel end.

Definition enroll_by (m : Mode) (base : string) : CM Result :=
    match m with ByCode code => EnrollCode base code | ByOIDC => runOIDCEnroll base end.

Definition credentials_path (credFile : option path) : option path :=
    match credFile with Some p => Some p | None => DefaultPath config_dir end.

  (** Nothing is sent when a file is in the way. *)
Definition refuse_enrolled (p : path) (force : bool) : CM unit :=
    if force then mret tt
    else
      r ← ccatch (Load p);
      match r with
      | inl _ => cfail (ErrMsg "credentials already exist (use --force to overwrite)")
      | inr e => if bool_decide (e = CredNotFound) then mret tt else cfail e
      end.

Definition finishEnroll (p : enrollParams) (m : Mode) : CM unit :=
    match credentials_path (ep_credFile p) with
    | None => cfail (ErrMsg "credentials: resolve config dir")
    | Some credPath =>
        refuse_enrolled credPath (ep_force p);;
        let server := trim_slashes (ep_server p) in
        if str_eq server EmptyString then cfail (ErrMsg "server URL is required (--server or config server.url)")
        else
          base ← NewClient server (ep_caCert p);
          res ← enroll_by m base;
          Save credPath (MkCredentials server (er_DeviceID res) (er_Secret res)) (ep_force p);;
          say ("Device " ++ er_DeviceID res ++ " enrolled. Credentials written to " ++ p_dir credPath ++ "/"
                 ++ p_base credPath ++ newline)
    end.

  (** [code]: the flag, if it was given; [cfg]: what the configuration holds,
      if it loads. *)
Definition newEnrollCmd (code : option string) (useOIDC force : bool) (credFile : option path)
      (cfg : option (string * string)) : CM unit :=
    match cfg with
    | None => cfail (ErrMsg "config")
    | Some (server, caCert) =>
        let p := MkEnrollParams server caCert force credFile in
        match code with
        | Some code =>
            if str_eq code EmptyString then cfail (ErrMsg "enrollment code must not be empty")
            else finishEnroll p (ByCode code)
        | None =>
            if useOIDC then finishEnroll p ByOIDC
            else cfail (ErrMsg "choose an enrollment mode: --oidc or --code")
        end
    end.
End Command.

(** ** Lemmas: the pace of the loop *)

Definition five : Z := minIntervalSeconds * second.

(** The polls that fit before the deadline when [rest] nanoseconds are left. *)
Definition turns (rest : Z) : Z := if rest <=? 0 then 1 else rest / five + 2.

Lemma turns_pos rest : 1 <= turns rest.
Proof.
  unfold turns, five, minIntervalSeconds, second. destruct (Z.leb_spec rest 0); [lia|].
  pose proof (Z.div_pos rest (5 * 1000000000)). lia.
Qed.

Lemma turns_mono r s : r <= s -> turns r <= turns s.
Proof.
  unfold turns, five, minIntervalSeconds, second. intros H.
  destruct (Z.leb_spec r 0), (Z.leb_spec s 0); try lia.
  - pose proof (Z.div_pos s (5 * 1000000000)). lia.
  - pose proof (Z.div_le_mono r s (5 * 1000000000)). lia.
Qed.

(** A sleep of five seconds, or one up to the deadline, uses a turn up. *)
Lemma turns_step r s : 0 < r -> s <= 0 \/ s <= r - five -> turns s + 1 <= turns r.
Proof.
  intros Hr Hs. assert (turns s <= turns (Z.max 0 (r - five)) ) as Hm.
  { apply turns_mono. lia. }
  enough (turns (Z.max 0 (r - five)) + 1 <= turns r) by lia. clear Hs Hm.
  unfold turns, five, minIntervalSeconds, second in *.
  replace (r <=? 0) with false by lia. pose proof (Z.div_pos r (5 * 1000000000)).
  destruct (Z.leb_spec (Z.max 0 (r - 5 * 1000000000)) 0); [lia|].
  rewrite Z.max_r by lia. replace (r - 5 * 1000000000) with (r + (-1) * (5 * 1000000000)) by lia.
  rewrite Z.div_add by lia. lia.
Qed.

(** Every sleep but the last is of five seconds at least. *)
Fixpoint paced (sleeps : list Z) : Prop :=
  match sleeps with
  | [] => True
  | [d] => 0 < d
  | d :: r => five <= d /\ paced r
  end.

Definition total (sleeps : list Z) : Z := foldr Z.add 0 sleeps.

Definition poll_call (base flowID : string) : HttpCall :=
  MkHttpCall "POST" (base ++ "/agent/v1/enroll/oidc/poll") json_type (one_field "flow_id" flowID).

(** What a run of the loop has done from [w] to [w'] when [rest] was left. *)
Definition loop_ran (base flowID : string) (rest : Z) (w : ClientWorld) (r : option Result + cerr) (w' : ClientWorld) : Prop :=
  r <> inl None /\
  (forall res, r = inl (Some res) -> usable res = true) /\
  exists polls sleeps,
    cw_calls w' = cw_calls w ++ replicate polls (poll_call base flowID) /\ Z.of_nat polls <= turns rest /\
    cw_sleeps w' = cw_sleeps w ++ sleeps /\ paced sleeps /\ total sleeps <= Z.max 0 rest.

Lemma total_cons d sleeps : total (d :: sleeps) = d + total sleeps.
Proof. done. Qed.

Lemma five_pos : 0 < five.
Proof. done. Qed.

Lemma paced_pos sleeps : paced sleeps -> 0 <= total sleeps.
Proof.
  pose proof five_pos. induction sleeps as [|d [|e r] IH]; [done| |].
  - intros Hd. rewrite total_cons. change (total []) with 0. simpl in Hd. lia.
  - intros [Hd Hr]. specialize (IH Hr). rewrite total_cons. lia.
Qed.

Lemma paced_total sleeps : paced sleeps -> total sleeps <= 0 -> sleeps = [].
Proof.
  pose proof five_pos. destruct sleeps as [|d [|e r]]; [done| |].
  - intros Hd. rewrite total_cons. change (total []) with 0. simpl in Hd. lia.
  - intros [Hd Hr]. pose proof (paced_pos _ Hr). rewrite total_cons. lia.
Qed.

Lemma poll_answer_usable a r : poll_answer a = inl (PollComplete r) -> usable r = true.
Proof. unfold poll_answer. intros H. case_match_all; done. Qed.

(** A turn that goes on: the wait, then the rest of the loop. *)
Lemma loop_turn fuel base flowID deadline interval bad w w1 :
  (forall w2, cw_calls w2 = cw_calls w1 -> turns (deadline - cw_clock w2) + 1 <= turns (deadline - cw_clock w) ->
    cwp (poll_loop fuel base flowID deadline interval bad) (loop_ran base flowID (deadline - cw_clock w2) w2) w2) ->
  five <= interval -> cw_clock w <= cw_clock w1 -> cw_calls w1 = cw_calls w ++ [poll_call base flowID] ->
  cw_sleeps w1 = cw_sleeps w ->
  cwp (wait_turn deadline interval;; poll_loop fuel base flowID deadline interval bad)
    (loop_ran base flowID (deadline - cw_clock w) w) w1.
Proof.
  intros IH Hi Hclock Hcalls Hsleeps. set (R := deadline - cw_clock w) in *.
  assert (forall e w2, cw_calls w2 = cw_calls w1 -> cw_sleeps w2 = cw_sleeps w1 -> loop_ran base flowID R w (inr e) w2) as Hstop.
  { intros e w2 H1 H2. split; [done|]. split; [done|]. exists 1%nat, []. rewrite H1, H2, Hcalls, Hsleeps, app_nil_r.
    pose proof (turns_pos R). simpl. unfold total. simpl. repeat split; lia. }
  apply cwp_bind. unfold wait_turn. apply cwp_bind. unfold cwp at 1, clock_now. cbn [fst snd].
  destruct (Z.leb_spec deadline (cw_clock w1)); [by apply Hstop|].
  unfold cwp at 1, clock_sleep. destruct (ce_cancel _ _); [by apply Hstop|]. cbn [fst snd].
  set (d := if deadline - cw_clock w1 <? interval then _ else _). set (w2 := MkClientWorld _ _ _ _ _ _ _ _).
  pose proof five_pos.
  assert (0 < d /\ d <= R /\ (five <= d \/ deadline - cw_clock w2 <= 0) /\ deadline - cw_clock w2 <= R - d) as (Hd & HdR & Hd5 & Hw2).
  { subst d w2 R. cbn. destruct (Z.ltb_spec (deadline - cw_clock w1) interval); lia. }
  assert (turns (deadline - cw_clock w2) + 1 <= turns R) as Hturns by (apply turns_step; lia).
  eapply cwp_mono; [|by apply IH].
  intros r w3 (Hr & Hu & polls & sleeps & H1 & H2 & H3 & H4 & H5).
  split; [done|]. split; [done|]. exists (S polls), (d :: sleeps). rewrite H1, H3. unfold w2 at 1 2. cbn [cw_calls cw_sleeps pass].
  rewrite Hcalls, Hsleeps, <- !app_assoc. split; [done|]. split; [lia|]. split; [done|].
  rewrite total_cons. split; [|lia]. destruct sleeps as [|e sleeps]; [done|]. split; [|done].
  destruct Hd5 as [|Hlast]; [done|]. rewrite Z.max_l in H5 by lia. apply paced_total in H4; [done|lia].
Qed.

Lemma cwp_answered {A} (classify : HttpAnswer -> A + cerr) call (Q : A + cerr -> ClientWorld -> Prop) w :
  Q (classify (ce_http (cw_env w) (cw_n w) call)) (http_do call w).2 -> cwp (answered classify call) Q w.
Proof. unfold cwp, answered, mbind, CM_bind, http_do. cbn. by destruct (classify _). Qed.

Lemma poll_loop_ran fuel base flowID deadline interval bad w :
  turns (deadline - cw_clock w) <= Z.of_nat fuel -> five <= interval ->
  interval + five * turns (deadline - cw_clock w) <= max_int64 ->
  cwp (poll_loop fuel base flowID deadline interval bad) (loop_ran base flowID (deadline - cw_clock w) w) w.
Proof.
  revert interval bad w. induction fuel as [|fuel IH]; intros interval bad w Hf Hi Hmax.
  { pose proof (turns_pos (deadline - cw_clock w)). lia. }
  cbn [poll_loop]. apply cwp_bind, cwp_catch, cwp_answered. set (w1 := (http_do _ w).2).
  assert (cw_clock w <= cw_clock w1) as Hclock by (cbn; lia).
  pose proof (turns_pos (deadline - cw_clock w)) as Hpos. pose proof five_pos.
  assert (forall r, (forall res, r = inl (Some res) -> usable res = true) -> r <> inl None ->
    loop_ran base flowID (deadline - cw_clock w) w r w1) as Hend.
  { intros r Hu Hr. split; [done|]. split; [done|]. exists 1%nat, []. change (total []) with 0.
    split; [done|]. split; [lia|]. split; [symmetry; apply app_nil_r|]. split; [done|lia]. }
  assert (bumped interval = interval + five) as Hb.
  { apply i64_id. unfold in_int64, min_int64, max_int64 in *. unfold five, minIntervalSeconds, slowDownBumpSeconds, second in *. lia. }
  assert (forall interval' bad', interval <= interval' <= interval + five ->
    cwp (wait_turn deadline interval';; poll_loop fuel base flowID deadline interval' bad')
      (loop_ran base flowID (deadline - cw_clock w) w) w1) as Hgo.
  { intros interval' bad' Hle. apply loop_turn; [|lia|done..]. intros w2 _ Hturns. apply IH; [lia|lia|].
    assert (five * turns (deadline - cw_clock w2) + five <= five * turns (deadline - cw_clock w)); [|lia].
    replace (five * turns (deadline - cw_clock w2) + five) with (five * (turns (deadline - cw_clock w2) + 1)) by lia.
    apply Z.mul_le_mono_nonneg_l; lia. }
  destruct (poll_answer _) as [[| |r]|e] eqn:Ha.
  - apply Hgo. lia.
  - apply Hgo. lia.
  - apply cwp_ret, Hend; [|done]. intros res [= <-]. by eapply poll_answer_usable.
  - destruct (isBadGateway e); [|apply cwp_fail, Hend; done].
    destruct (_ <=? _); [apply cwp_fail, Hend; done|]. apply Hgo. lia.
Qed.

Definition start_call (base : string) : HttpCall :=
  MkHttpCall "POST" (base ++ "/agent/v1/enroll/oidc/start") EmptyString EmptyString.

Lemma cwp_say line (Q : unit + cerr -> ClientWorld -> Prop) w : Q (inl tt) (say line w).2 -> cwp (say line) Q w.
Proof. done. Qed.

(** Prompting changes only what has been printed. *)
Definition same_but_out (w w' : ClientWorld) : Prop :=
  cw_env w' = cw_env w /\ cw_n w' = cw_n w /\ cw_clock w' = cw_clock w /\ cw_calls w' = cw_calls w /\ cw_sleeps w' = cw_sleeps w /\ cw_changes w' = cw_changes w.

Lemma prompt_same ds (k : CM (option Result)) (Q : option Result + cerr -> ClientWorld -> Prop) w :
  (forall w', same_but_out w w' -> cwp k Q w') -> cwp (ShowUserCode ds;; Waiting;; k) Q w.
Proof.
  intros Hk. unfold cwp, ShowUserCode, Waiting, say, mbind, CM_bind. destruct (str_eq _ _); by apply Hk.
Qed.

Lemma seconds_small n : - 2 ^ 32 <= n <= 2 ^ 32 -> seconds n = n * second.
Proof. intros Hn. apply i64_id. unfold in_int64, min_int64, max_int64, second. lia. Qed.

Lemma turns_seconds n : 0 < n -> turns (n * second) = n / 5 + 2.
Proof.
  intros Hn. unfold turns, five, minIntervalSeconds. assert (0 < second) by done.
  replace (n * second <=? 0) with false by lia. by rewrite Z.div_mul_cancel_r by lia.
Qed.

(** ** Lemmas: what enrolling leaves alone *)

(** From [w] to [w'] time has passed: what was called before stays called. *)
Definition later (w w' : ClientWorld) : Prop :=
  cw_env w' = cw_env w /\ (cw_n w <= cw_n w')%nat /\ cw_calls w `prefix_of` cw_calls w'.

Lemma later_trans w1 w2 w3 : later w1 w2 -> later w2 w3 -> later w1 w3.
Proof. intros (? & ? & ?) (? & ? & ?). split; [congruence|]. split; [lia|]. by etrans. Qed.

Definition untouched (w w' : ClientWorld) : Prop := later w w' /\ cw_changes w' = cw_changes w.

Lemma untouched_refl w : untouched w w.
Proof. done. Qed.
#[local] Hint Resolve untouched_refl : core.

Lemma untouched_trans w1 w2 w3 : untouched w1 w2 -> untouched w2 w3 -> untouched w1 w3.
Proof. intros [] []. split; [by eapply later_trans|congruence]. Qed.

Lemma untouched_kept p w w' : untouched w w' -> path_kept p w w'.
Proof. intros [[He _] Hc]. split; [done|]. exists []. by rewrite app_nil_r. Qed.

Lemma untouched_do call w : untouched w (http_do call w).2.
Proof. split; [|done]. split; [done|]. split; [cbn; lia|]. by apply prefix_app_r. Qed.

Lemma untouched_out w w' : same_but_out w w' -> untouched w w'.
Proof. intros (He & Hn & _ & Hcalls & _ & Hc). split; [|done]. split; [done|]. rewrite Hn, Hcalls. by split. Qed.

(** What the server answered: the call that enrolls, with the one-time code or
    as a poll of the device flow, *)
Inductive enrolling (base : string) : Mode -> HttpCall -> Prop :=
  | enrolling_code code : enrolling base (ByCode code)
      (MkHttpCall "POST" (base ++ "/agent/v1/enroll/code") json_type (one_field "code" code))
  | enrolling_poll flowID : enrolling base ByOIDC (poll_call base flowID).

(** the answer that names a device, *)
Definition names_device (a : HttpAnswer) (id secret : string) : Prop :=
  exists text ms, a = Answer 200 (Some text) /\ decode_body (Some text) = Some ms /\
    string_field "device_id" ms = Some id /\ string_field "secret" ms = Some secret.

(** and the last call of the run from [w] to [w'], made in between, got it. *)
Definition server_answered (m : Mode) (base : string) (w w' : ClientWorld) (r : Result) : Prop :=
  exists earlier call n, enrolling base m call /\ cw_calls w' = cw_calls w ++ earlier ++ [call] /\
    (cw_n w <= n < cw_n w')%nat /\ names_device (ce_http (cw_env w) n call) (er_DeviceID r) (er_Secret r).

Lemma server_answered_now m base call w r : enrolling base m call ->
  names_device (ce_http (cw_env w) (cw_n w) call) (er_DeviceID r) (er_Secret r) ->
  server_answered m base w (http_do call w).2 r.
Proof. intros He Hd. exists [], call, (cw_n w). split; [done|]. split; [done|]. split; [cbn; lia|done]. Qed.

Lemma server_answered_later m base w0 w1 w2 r : later w0 w1 -> server_answered m base w1 w2 r ->
  server_answered m base w0 w2 r.
Proof.
  intros (He & Hn & l & Hl) (earlier & call & n & Hc & Hcalls & Hb & Hd). exists (l ++ earlier), call, n.
  split; [done|]. rewrite Hcalls, Hl, <- !app_assoc, <- He. split; [done|]. split; [lia|done].
Qed.

(** No file is touched, and a result is usable and the server's. *)
Definition enrolls (m : Mode) (base : string) (w : ClientWorld) (r : Result + cerr) (w' : ClientWorld) : Prop :=
  untouched w w' /\ forall res, r = inl res -> usable res = true /\ server_answered m base w w' res.

Lemma enrolls_after m base w0 w1 r w2 : untouched w0 w1 -> enrolls m base w1 r w2 -> enrolls m base w0 r w2.
Proof.
  intros H [H' Hr]. split; [by eapply untouched_trans|]. intros res [Hu Ha]%Hr. split; [done|].
  eapply server_answered_later; [apply H|done].
Qed.

Lemma poll_answer_names a r : poll_answer a = inl (PollComplete r) -> names_device a (er_DeviceID r) (er_Secret r).
Proof.
  unfold poll_answer. destruct a as [|status [text|]]; [done| |by destruct (status =? 200); [|case_match_all]].
  destruct (Z.eqb_spec status 200) as [->|]; [|intros H; case_match_all; done].
  destruct (decode_poll (Some text)) as [[st r']|] eqn:E; [|done]. intros H.
  assert (r' = r) as -> by (case_match_all; congruence). clear H. exists text. revert E. unfold decode_poll.
  destruct (decode_body (Some text)) as [ms|]; [|done]. cbn.
  destruct (string_field "status" ms); [|done]. cbn. destruct (string_field "device_id" ms) eqn:E1; [|done]. cbn.
  destruct (string_field "secret" ms) eqn:E2; [|done]. cbn. intros [= _ <-]. by exists ms.
Qed.

Lemma enroll_answer_names a r : enroll_answer a = inl r -> names_device a (er_DeviceID r) (er_Secret r).
Proof.
  unfold enroll_answer. destruct a as [|status [text|]]; [done| |by destruct (status =? 200); [|case_match_all]].
  destruct (Z.eqb_spec status 200) as [->|]; [|intros H; case_match_all; done].
  destruct (decode_result (Some text)) as [r'|] eqn:E; [|done]. intros H.
  assert (r' = r) as -> by (case_match_all; congruence). clear H. exists text. revert E. unfold decode_result.
  destruct (decode_body (Some text)) as [ms|]; [|done]. cbn. destruct (string_field "device_id" ms) eqn:E1; [|done]. cbn.
  destruct (string_field "secret" ms) eqn:E2; [|done]. cbn. intros [= <-]. by exists ms.
Qed.

Lemma untouched_wait deadline interval w : cwp (wait_turn deadline interval) (fun _ w' => untouched w w') w.
Proof.
  unfold cwp, wait_turn, clock_now, clock_sleep, mbind, CM_bind. cbn.
  destruct (_ <=? _); [done|].
  assert (forall w', cw_env w' = cw_env w -> cw_n w' = S (cw_n w) -> cw_calls w' = cw_calls w ->
    cw_changes w' = cw_changes w -> untouched w w') as Hu.
  { intros w' He Hn Hc Hch. split; [|done]. split; [done|]. rewrite Hn, Hc. split; [lia|done]. }
  destruct (ce_cancel _ _); by apply Hu.
Qed.

(** The loop, as a result that may be missing. *)
Definition polls (base : string) (w : ClientWorld) (r : option Result + cerr) (w' : ClientWorld) : Prop :=
  untouched w w' /\ forall res, r = inl (Some res) -> usable res = true /\ server_answered ByOIDC base w w' res.

Lemma polls_after base w0 w1 r w2 : untouched w0 w1 -> polls base w1 r w2 -> polls base w0 r w2.
Proof.
  intros H [H' Hr]. split; [by eapply untouched_trans|]. intros res [Hu Ha]%Hr. split; [done|].
  eapply server_answered_later; [apply H|done].
Qed.

Lemma poll_loop_quiet fuel base flowID deadline interval bad w :
  cwp (poll_loop fuel base flowID deadline interval bad) (polls base w) w.
Proof.
  revert interval bad w. induction fuel as [|fuel IH]; intros interval bad w; [by apply cwp_ret|].
  cbn [poll_loop]. apply cwp_bind, cwp_catch, cwp_answered. pose proof (untouched_do (poll_call base flowID) w) as H1.
  unfold poll_call in H1. set (w1 := (http_do _ w).2) in *.
  assert (forall interval' bad',
    cwp (wait_turn deadline interval';; poll_loop fuel base flowID deadline interval' bad') (polls base w) w1) as Hgo.
  { intros. apply cwp_bind. eapply cwp_mono; [|apply untouched_wait]. intros [[]|e] w2 H2.
    - eapply cwp_mono; [|apply IH]. intros r w3 H3. eapply polls_after; [exact (untouched_trans _ _ _ H1 H2)|done].
    - split; [|done]. eauto using untouched_trans. }
  destruct (poll_answer _) as [[| |r]|e] eqn:Ha; [apply Hgo..| |].
  - apply cwp_ret. split; [done|]. intros res [= <-]. split; [by eapply poll_answer_usable|].
    apply server_answered_now; [constructor|by apply poll_answer_names].
  - destruct (isBadGateway e); [|by apply cwp_fail]. destruct (_ <=? _); [by apply cwp_fail|apply Hgo].
Qed.

Lemma enroll_answer_usable a r : enroll_answer a = inl r -> usable r = true.
Proof. unfold enroll_answer. intros H. case_match_all; done. Qed.

Lemma enroll_by_quiet fuel m base w : cwp (enroll_by fuel m base) (enrolls m base w) w.
Proof.
  destruct m as [code|]; cbn [enroll_by].
  - apply cwp_answered. split; [apply untouched_do|]. intros res Hr. split; [by eapply enroll_answer_usable|].
    apply server_answered_now; [constructor|by apply enroll_answer_names].
  - unfold runOIDCEnroll. apply cwp_bind, cwp_answered. set (caps_call := MkHttpCall "GET" _ _ _).
    pose proof (untouched_do caps_call w) as H1. set (w1 := (http_do _ w).2) in *.
    destruct (capabilities_answer _) as [caps|e]; [|by split].
    destruct (cap_OIDCDeviceEnabled caps); [|by split]. cbn [negb]. apply cwp_bind. unfold DeviceCodeEnroll.
    apply cwp_bind, cwp_answered. set (w2 := (http_do _ w1).2).
    pose proof (untouched_trans _ _ _ H1 (untouched_do (start_call base) w1)) as H2. fold w2 in H2.
    destruct (start_answer _) as [ds|e]; [|by split].
    destruct (_ <=? 0); [by split|]. apply prompt_same.
    intros w3 H3%untouched_out. pose proof (untouched_trans _ _ _ H2 H3) as H23.
    apply cwp_bind. unfold cwp at 1, clock_now. cbn [fst snd].
    eapply cwp_mono; [|apply poll_loop_quiet]. intros [[r|]|e] w4 [H4 Hu]%(polls_after _ _ _ _ _ H23).
    + apply cwp_ret. split; [done|]. intros res [= <-]. by apply Hu.
    + by apply cwp_fail.
    + by split.
Qed.

(** ** Lemmas: the calls of the file system send nothing *)

Definition silent {A} (m : CM A) : Prop := forall w,
  cw_env (m w).2 = cw_env w /\ (cw_n w <= cw_n (m w).2)%nat /\ cw_calls (m w).2 = cw_calls w.

Lemma silent_same {A} (m : CM A) : (forall w, (m w).2 = w) -> silent m.
Proof. intros H w. by rewrite H. Qed.
Lemma silent_fs_call {A} failed (f : FS -> (A + cerr) * FS) : silent (fs_call failed f).
Proof. intros w. unfold fs_call. destruct (if ce_fault _ _ then _ else _) as [r fs']. cbn. split; [done|]. split; [lia|done]. Qed.
Lemma silent_bind {A B} (m : CM A) (k : A -> CM B) : silent m -> (forall a, silent (k a)) -> silent (m ≫= k).
Proof.
  intros Hm Hk w. unfold mbind, CM_bind. destruct (Hm w) as (He & Hn & Hc). destruct (m w) as [[a|e] w1]; [|done].
  cbn in *. destruct (Hk a w1) as (He' & Hn' & Hc'). split; [congruence|]. split; [lia|congruence].
Qed.
Lemma silent_catch {A} (m : CM A) : silent m -> silent (ccatch m).
Proof. intros Hm w. unfold ccatch. specialize (Hm w). by destruct (m w). Qed.
Lemma silent_deferring {A} (m : CM A) c : silent m -> silent c -> silent (deferring m c).
Proof.
  intros Hm Hc w. unfold deferring. destruct (Hm w) as (He & Hn & Ht). destruct (m w) as [r w1]. cbn in *.
  destruct (Hc w1) as (He' & Hn' & Ht'). destruct (c w1) as [r' w2]. cbn in *. split; [congruence|]. split; [lia|congruence].
Qed.

Ltac silence := repeat first
  [ apply silent_bind; [|intros ?] | apply silent_catch | apply silent_deferring | apply silent_fs_call
  | apply silent_same; done | case_match ].

Lemma silent_Load p : silent (Load p).
Proof. unfold Load, os_ReadFile. silence. Qed.

Lemma silent_Save p c force : silent (Save p c force).
Proof.
  unfold Save, refuse_existing, os_MkdirAll, os_CreateTemp, os_Write, os_Close, os_Rename, os_Link, os_Remove, os_Stat.
  silence; intros w; try apply silent_fs_call; eapply silent_fs_call.
Qed.

Lemma silent_refuse p force : silent (refuse_enrolled p force).
Proof. unfold refuse_enrolled. pose proof (silent_Load p). destruct force; [by apply silent_same|]. silence; done. Qed.

Lemma published_after p force d w0 w1 w2 : path_kept p w0 w1 -> published p force d w1 w2 -> published p force d w0 w2.
Proof.
  intros (He & l & Hc & Hl) (He2 & tmp & l1 & x & l2 & Hc2 & H1 & Hx). split; [congruence|].
  exists tmp, (l ++ l1), x, l2. rewrite Hc2, Hc, <- !app_assoc, <- He. split; [done|]. split; [by apply Forall_app|done].
Qed.

Lemma cwp_silent {A} (m : CM A) (Q : A + cerr -> ClientWorld -> Prop) w : silent m -> cwp m Q w ->
  cwp m (fun r w' => (cw_env w' = cw_env w /\ (cw_n w <= cw_n w')%nat /\ cw_calls w' = cw_calls w) /\ Q r w') w.
Proof. intros Hm HQ. split; [apply Hm|exact HQ]. Qed.

Lemma trim_slashes_idem s : trim_slashes (trim_slashes s) = trim_slashes s.
Proof.
  induction s as [|c r IH]; [done|]. cbn [trim_slashes]. destruct (trim_slashes r) as [|d t] eqn:E.
  - destruct (Ascii.eqb c "/") eqn:Hc; [done|]. cbn. by rewrite Hc.
  - change (trim_slashes (String c (String d t))) with
      (match trim_slashes (String d t) with
       | EmptyString => if Ascii.eqb c "/" then EmptyString else String c EmptyString | r' => String c r' end).
    by rewrite IH.
Qed.

Section FinishFacts.
Context (config_dir : option string) (url_parse : string -> option URL) (read_ca : string -> option string)
        (has_certs : string -> bool) (fuel : nat).

Lemma refuse_enrolled_spec p force w :
  cwp (refuse_enrolled p force) (fun r w' => path_kept p w w' /\ cw_calls w' = cw_calls w /\
    (r = inl tt -> force = true \/ (Load p w).1 = inr CredNotFound)) w.
Proof.
  unfold refuse_enrolled. destruct force; [apply cwp_ret; split; [apply path_kept_refl|auto]|].
  apply cwp_bind, cwp_catch. unfold cwp at 1.
  assert (path_kept p w (Load p w).2 /\ cw_calls (Load p w).2 = cw_calls w) as [Hk Hc].
  { unfold Load, mbind, CM_bind, os_ReadFile, fs_call. destruct (ce_fault _ _); cbn -[contents].
    - split; [by apply path_kept_call|done].
    - destruct (contents _ _) as [text|]; [destruct (unmarshal_credentials text)|]; (split; [by apply path_kept_call|done]). }
  destruct (Load p w) as [[c|e] w1]; cbn [fst snd] in *; [by apply cwp_fail|].
  destruct (bool_decide_reflect (e = CredNotFound)) as [->|]; [apply cwp_ret; auto|by apply cwp_fail].
Qed.

Lemma NewClient_quiet baseURL ca w :
  cwp (NewClient url_parse read_ca has_certs baseURL ca)
    (fun r w' => w' = w /\ forall base, r = inl base -> base = trim_slashes baseURL) w.
Proof. unfold cwp, NewClient. split; [by repeat case_match|]. intros base. repeat case_match; cbn; congruence. Qed.

Definition saved (params : enrollParams) (m : Mode) (p : path) (w : ClientWorld) (r : unit + cerr) (w' : ClientWorld) : Prop :=
    match r with
    | inr _ => path_kept p w w'
    | inl _ => exists r, usable r = true /\ server_answered m (trim_slashes (ep_server params)) w w' r /\
        published p (ep_force params)
          (marshal_credentials (MkCredentials (trim_slashes (ep_server params)) (er_DeviceID r) (er_Secret r))) w w'
    end.

Lemma finishEnroll_saves params m p w : credentials_path config_dir (ep_credFile params) = Some p ->
  cwp (finishEnroll config_dir url_parse read_ca has_certs fuel params m) (saved params m p w) w.
Proof.
  intros Hp. unfold finishEnroll. rewrite Hp.
  apply cwp_bind. eapply cwp_mono; [|apply cwp_silent; [apply silent_refuse|apply refuse_enrolled_spec]].
  intros [[]|e] w1 [(He1 & Hn1 & Hc1) (H1 & _ & _)]; [|exact H1].
  cbv zeta. destruct (str_eq _ EmptyString); [exact H1|].
  apply cwp_bind. eapply cwp_mono; [|apply NewClient_quiet]. intros [base|e] ? [-> Hbase]; [|exact H1].
  rewrite trim_slashes_idem in Hbase. specialize (Hbase _ eq_refl) as ->.
  apply cwp_bind. eapply cwp_mono; [|apply enroll_by_quiet].
  intros [res|e] w2 [H2 Hu]; pose proof (path_kept_trans _ _ _ _ H1 (untouched_kept p _ _ H2)) as H12; [|exact H12].
  destruct (Hu _ eq_refl) as [Husable Hans].
  apply cwp_bind. eapply cwp_mono; [|apply cwp_silent; [apply silent_Save|apply Save_outcome]].
  intros [[]|e] w3 [(He3 & Hn3 & Hc3) H3]; [|exact (path_kept_trans _ _ _ _ H12 H3)].
  apply cwp_say. exists res. split; [done|]. split; [|exact (published_after _ _ _ _ _ _ H12 H3)].
  apply (server_answered_later _ _ w w1).
  { split; [done|]. split; [done|]. by rewrite Hc1. }
  destruct Hans as (earlier & call & n & Hcall & Hcalls & Hb & Hd). exists earlier, call, n.
  change (cw_calls (say _ w3).2) with (cw_calls w3). change (cw_n (say _ w3).2) with (cw_n w3).
  split; [done|]. split; [by rewrite Hc3|]. split; [lia|done].
Qed.
End FinishFacts.

(** ** Theorems *)

(** C32: The device-code enrollment ends, and at its pace.  When the server's start
    answer names a lifetime and an interval of at most 2^31 seconds, then
    whatever the later answers, the clock and the sleeps do: the loop never
    runs out of [expires_in / 5 + 2] turns, so that it polls at most that
    often; every wait but the last is of five seconds at least, and together
    they do not exceed the lifetime; and it succeeds only with a device
    identifier and a secret that decodes. *)
Theorem DeviceCodeEnroll_terminates fuel base w ds
  (Hstart : start_answer (ce_http (cw_env w) (cw_n w) (start_call base)) = inl ds)
  (Hexpires : dst_ExpiresIn ds <= 2 ^ 31) (Hinterval : dst_Interval ds <= 2 ^ 31)
  (Hfuel : dst_ExpiresIn ds / 5 + 2 <= Z.of_nat fuel) :
  let run := DeviceCodeEnroll fuel base w in
  run.1 <> inl None /\
  (forall r, run.1 = inl (Some r) -> usable r = true) /\
  exists polls sleeps,
    cw_calls run.2 = cw_calls w ++ start_call base :: replicate polls (poll_call base (dst_FlowID ds)) /\
    Z.of_nat polls <= Z.max 0 (dst_ExpiresIn ds / 5 + 2) /\
    cw_sleeps run.2 = cw_sleeps w ++ sleeps /\ paced sleeps /\ total sleeps <= Z.max 0 (dst_ExpiresIn ds * second).
Proof.
  cbv zeta. change (cwp (DeviceCodeEnroll fuel base) (fun r w' => r <> inl None /\
    (forall res, r = inl (Some res) -> usable res = true) /\ exists polls sleeps,
    cw_calls w' = cw_calls w ++ start_call base :: replicate polls (poll_call base (dst_FlowID ds)) /\
    Z.of_nat polls <= Z.max 0 (dst_ExpiresIn ds / 5 + 2) /\
    cw_sleeps w' = cw_sleeps w ++ sleeps /\ paced sleeps /\ total sleeps <= Z.max 0 (dst_ExpiresIn ds * second)) w).
  apply cwp_bind, cwp_answered. fold (start_call base). rewrite Hstart.
  destruct (Z.leb_spec (dst_ExpiresIn ds) 0) as [|Hpos].
  { apply cwp_fail. split; [done|]. split; [done|]. exists O, []. rewrite app_nil_r. change (total []) with 0.
    split; [done|]. split; [lia|]. split; [done|]. split; [done|lia]. }
  apply prompt_same. intros w1 (He & Hn & Hc & Hcalls & Hsleeps & _). apply cwp_bind. unfold cwp at 1, clock_now. cbn [fst snd].
  assert (0 < second) by done. assert (five = 5 * second) as Hfive by done.
  rewrite !seconds_small by (unfold minIntervalSeconds; lia).
  eapply cwp_mono; [|apply poll_loop_ran].
  - intros r w' (Hr & Hu & polls & sleeps & H1 & H2 & H3 & H4 & H5). split; [done|]. split; [done|].
    exists polls, sleeps. rewrite H1, H3, Hcalls, Hsleeps. cbn [http_do snd cw_calls cw_sleeps pass].
    replace (cw_clock w1 + dst_ExpiresIn ds * second - cw_clock w1) with (dst_ExpiresIn ds * second) in H2, H5 by lia.
    rewrite turns_seconds in H2 by done. rewrite <- app_assoc. split; [done|]. split; [lia|done].
  - replace (cw_clock w1 + dst_ExpiresIn ds * second - cw_clock w1) with (dst_ExpiresIn ds * second) by lia.
    by rewrite turns_seconds.
  - rewrite Hfive. unfold minIntervalSeconds. apply Z.mul_le_mono_nonneg_r; lia.
  - replace (cw_clock w1 + dst_ExpiresIn ds * second - cw_clock w1) with (dst_ExpiresIn ds * second) by lia.
    rewrite turns_seconds by done. unfold minIntervalSeconds, max_int64.
    assert (dst_ExpiresIn ds / 5 <= 2 ^ 31 / 5) by (apply Z.div_le_mono; lia).
    assert (2 ^ 31 / 5 = 429496729) by done. unfold second in *. lia.
Qed.

(** C31: Enrolling and the credentials file.  Without --force, when the file is
    there or cannot be ruled out, the command sends nothing, so the code is not
    spent.  When it fails, at whatever point, it has not touched the file; when
    it succeeds, it has published, in one step, the server's address and a
    usable answer - without --force only where there was no file. *)
Theorem finishEnroll_safe config_dir url_parse read_ca has_certs fuel params m p w
  (Hp : credentials_path config_dir (ep_credFile params) = Some p) :
  let run := finishEnroll config_dir url_parse read_ca has_certs fuel params m w in
  (ep_force params = false -> (Load p w).1 <> inr CredNotFound -> cw_calls run.2 = cw_calls w /\ exists e, run.1 = inr e) /\
  (forall e, run.1 = inr e -> path_kept p w run.2) /\
  (run.1 = inl tt -> exists r, usable r = true /\
      published p (ep_force params)
        (marshal_credentials (MkCredentials (trim_slashes (ep_server params)) (er_DeviceID r) (er_Secret r))) w run.2).
Proof.
  split; [|pose proof (finishEnroll_saves config_dir url_parse read_ca has_certs fuel params m p w Hp) as Hs;
    unfold cwp, saved in Hs; split; [intros e He; by rewrite He in Hs|];
    intros He; rewrite He in Hs; destruct Hs as (r & Hu & _ & Hpub); by exists r].
  intros Hf Hl. pose proof (refuse_enrolled_spec p (ep_force params) w) as Hr.
  unfold finishEnroll. rewrite Hp. unfold mbind, CM_bind. unfold cwp in Hr.
  destruct (refuse_enrolled p (ep_force params) w) as [[[]|e] w1]; cbn [fst snd] in *.
  - destruct Hr as (_ & _ & Hok). destruct (Hok eq_refl); congruence.
  - destruct Hr as (_ & Hc & _). eauto.
Qed.

(** ** Witnesses *)

Definition text_member (name value : string) : string := (json_quote name ++ ":" ++ json_quote value)%string.
Definition number_member (name : string) (n : Z) : string := (json_quote name ++ ":" ++ format_int n)%string.

(** A server whose provider answers after two polls; [interval] is what it asks for. *)
Definition demo_server (interval : Z) (n : nat) (c : HttpCall) : HttpAnswer :=
  if has_prefix (hc_URL c) "https://ddns.example/agent/v1/enroll/oidc/start" then
    Answer 200 (Some ("{" ++ text_member "flow_id" "f1" ++ "," ++ number_member "expires_in" 600 ++ ","
                          ++ number_member "interval" interval ++ "}")%string)
  else if has_prefix (hc_URL c) "https://ddns.example/agent/v1/enroll/oidc/poll" && Nat.leb n 4
  then Answer 200 (Some ("{" ++ text_member "status" "pending" ++ "}")%string)
  else Answer 200 (Some ("{" ++ text_member "device_id" "d1" ++ "," ++ text_member "secret" "c2VjcmV0" ++ "}")%string).

Definition demo_client (interval : Z) : ClientWorld :=
  MkClientWorld (MkClientEnv (fun _ => false) (fun _ fs => fs) (fun _ => "1"%string) (fun _ => O) (demo_server interval)
    (fun _ => 0) (fun _ => false)) 0 0 (MkFS ∅ ∅) [] [] [] [].

Lemma DeviceCodeEnroll_terminates_witness :
  (DeviceCodeEnroll 200 "https://ddns.example" (demo_client 7)).1 = inl (Some (MkResult "d1" "c2VjcmV0")) /\
  (DeviceCodeEnroll 200 "https://ddns.example" (demo_client 7)).1 <> inl None.
Proof.
  split; [vm_compute; reflexivity|].
  apply (DeviceCodeEnroll_terminates 200 "https://ddns.example" (demo_client 7)
    (MkDeviceStart "f1" EmptyString EmptyString EmptyString 600 7)); [vm_compute; reflexivity|by vm_compute..].
Defined.

Definition demo_params : enrollParams := MkEnrollParams "https://ddns.example/" EmptyString false (Some demo_path).
Definition demo_url (s : string) : option URL := Some (MkURL "https" "ddns.example" "ddns.example" EmptyString).

Definition demo_enrollment (w : ClientWorld) : (unit + cerr) * ClientWorld :=
  finishEnroll None demo_url (fun _ => None) (fun _ => false) 200 demo_params (ByCode "c1") w.

Lemma finishEnroll_safe_witness :
  (demo_enrollment (demo_client 7)).1 = inl tt /\
  ((demo_enrollment (demo_client 7)).1 = inl tt -> exists r, usable r = true /\
   published demo_path false (marshal_credentials (MkCredentials "https://ddns.example" (er_DeviceID r) (er_Secret r)))
     (demo_client 7) (demo_enrollment (demo_client 7)).2).
Proof.
  split; [vm_compute; reflexivity|].
  exact (proj2 (proj2 (finishEnroll_safe None demo_url (fun _ => None) (fun _ => false) 200 demo_params (ByCode "c1")
    demo_path (demo_client 7) eq_refl))).
Defined.

(** time.Duration(interval) * time.Second wraps: an interval of 2^34 seconds
    becomes a negative pause, and the client polls without waiting. *)
Lemma interval_overflow_polls_at_once :
  cw_sleeps (DeviceCodeEnroll 200 "https://ddns.example" (demo_client (2 ^ 34))).2 = [seconds (2 ^ 34); seconds (2 ^ 34)] /\
  seconds (2 ^ 34) < 0 /\ cw_clock (DeviceCodeEnroll 200 "https://ddns.example" (demo_client (2 ^ 34))).2 = 0.
Proof. vm_compute. repeat split; reflexivity. Qed.
