(* ===== verification/Logging.v ===== *)
(** * The server's log, the slow-statement log and opening the store

    internal/server/logging.go (levels, sinks, the request identifier, the
    OTLP logger that resolves late), internal/store/slowlog.go (which
    statements are reported, and as what), internal/store/store.go and
    pragma.go (the handles [Open] takes and gives back), and
    internal/version.  A time is a number of nanoseconds.  slog's handlers and
    the OTLP bridge are parameters: a handler is what it does with a record. *)

From S2P Require Import Prelude GoLib Schema Integrity Effects ApiCore JsonText Json.
From Stdlib Require Import Ascii.

(** ** slog's levels *)

(** strings.ToUpper, for the runes whose upper case is an ASCII letter; every
    other rune beyond ASCII stays one. *)
Definition upper_rune (x : option string) : string :=
  match x with
  | Some (String c EmptyString) => if (97 <=? code c) && (code c <=? 122) then str1 (chr (code c - 32)) else str1 c
  | Some b =>
      if bool_decide (b = String (chr 197) (str1 (chr 191))) then "S"%string
      else if bool_decide (b = String (chr 196) (str1 (chr 177))) then "I"%string
      else b
  | None => replacement
  end.
Definition ToUpper (s : string) : string := cat (upper_rune <$> runes s).

(** The text before the first sign, and from it on. *)
Fixpoint split_sign (s : string) : string * option string :=
  match s with
  | EmptyString => (EmptyString, None)
  | String c r =>
      if Ascii.eqb c "+" || Ascii.eqb c "-" then (EmptyString, Some s)
      else let (a, b) := split_sign r in (String c a, b)
  end.

Definition level_name (name : string) : option Z :=
  if str_eq name "DEBUG" then Some (-4) else if str_eq name "INFO" then Some 0
  else if str_eq name "WARN" then Some 4 else if str_eq name "ERROR" then Some 8 else None.

(** Level.UnmarshalText. *)
Definition level_of_text (s : string) : option Z :=
  let (name, sign) := split_sign s in
  offset ← match sign with None => Some 0 | Some t => parse_int t end;
  l ← level_name (ToUpper name);
  Some (i64 (l + offset)).

(** ** logging.go *)

Definition ParseLogLevel (level : string) : option Z := level_of_text (ToUpper level).

Inductive Sink := Stderr | Stdout | LogFile (name : string).
Inductive LogFormat := FormatJSON | FormatText.
Record Logger := MkLogger { lg_Level : Z; lg_Sink : Sink; lg_Format : LogFormat; lg_OTLP : bool }.
Inductive log_error := ErrLogLevel | ErrLogOutput | ErrLogFormat.

(** [open_ok]: the file can be opened for appending; [lp]: a logger provider is given. *)
Definition NewLogger (open_ok : string -> bool) (level format output : string) (lp : bool) : Logger + log_error :=
  match ParseLogLevel level with
  | None => inr ErrLogLevel
  | Some l =>
      let sink :=
        if str_eq output EmptyString || str_eq output "stderr" then Some Stderr
        else if str_eq output "stdout" then Some Stdout
        else if open_ok output then Some (LogFile output) else None in
      match sink with
      | None => inr ErrLogOutput
      | Some w =>
          if str_eq format EmptyString || str_eq format "json" then inl (MkLogger l w FormatJSON lp)
          else if str_eq format "text" then inl (MkLogger l w FormatText lp)
          else inr ErrLogFormat
      end
  end.

Record LogRecord := MkLogRecord { lr_Level : Z; lr_Message : string; lr_Attrs : list (string * string) }.

(** requestIDHandler.Handle: the record the inner handler gets. *)
Definition with_request_id (id : string) (r : LogRecord) : LogRecord :=
  if str_eq id EmptyString then r
  else MkLogRecord (lr_Level r) (lr_Message r) (lr_Attrs r ++ [("request_id"%string, id)]).

(** ** The OTLP logger that resolves late *)

Section Lazy.
Context {P L : Type} (provider_logger : P -> L) (enabled : L -> Z -> bool).

  (** The slot of LazyLoggerProvider - empty, or a provider that may be nil -
      and the [resolved] of one lazyLogger. *)
Record Lazy := MkLazy { lz_p : option (option P); lz_resolved : option L }.

Definition Store (lp : option P) (z : Lazy) : Lazy := MkLazy (Some lp) (lz_resolved z).
Definition current_provider (z : Lazy) : option P := p ← lz_p z; p.

Definition real (z : Lazy) : option L * Lazy :=
    match lz_resolved z with
    | Some l => (Some l, z)
    | None =>
        match current_provider z with
        | None => (None, z)
        | Some lp => let l := provider_logger lp in (Some l, MkLazy (lz_p z) (Some l))
        end
    end.

Definition Enabled (level : Z) (z : Lazy) : bool * Lazy :=
    let (r, z') := real z in (match r with Some l => enabled l level | None => false end, z').

  (** [Emit]: the logger the record reaches. *)
Definition Emit (z : Lazy) : option L * Lazy := real z.

  (** slog's MultiHandler over the sink's handler and the bridge: whether a
      record reaches the sink, and which OTLP logger it reaches. *)
Definition handle_record (lg : Logger) (r : LogRecord) (z : Lazy) : bool * option L * Lazy :=
    let to_sink := lg_Level lg <=? lr_Level r in
    if lg_OTLP lg then
      let (on, z1) := Enabled (lr_Level r) z in
      if on then let (l, z2) := Emit z1 in (to_sink, l, z2) else (to_sink, None, z1)
    else (to_sink, None, z).

Inductive lazy_op := OpStore (lp : option P) | OpRecord (r : LogRecord).

Fixpoint run_lazy (lg : Logger) (ops : list lazy_op) (z : Lazy) : list (LogRecord * bool * option L) :=
    match ops with
    | [] => []
    | OpStore lp :: rest => run_lazy lg rest (Store lp z)
    | OpRecord r :: rest =>
        let '(s, o, z') := handle_record lg r z in (r, s, o) :: run_lazy lg rest z'
    end.
End Lazy.

Definition newline_char : ascii := chr 10.

(** ** slowlog.go *)

Definition maxLoggedSQL : nat := 200.

(** strings.Fields over ASCII, which the program's statements are. *)
Fixpoint fields_from (word : string) (s : string) : list string :=
  match s with
  | EmptyString => if str_eq word EmptyString then [] else [word]
  | String c r =>
      if is_space c then if str_eq word EmptyString then fields_from EmptyString r else word :: fields_from EmptyString r
      else fields_from (word ++ str1 c) r
  end.
Definition Fields (s : string) : list string := fields_from EmptyString s.

Definition loggableSQL (query : string) : string :=
  let s := join " " (Fields query) in
  if Nat.ltb maxLoggedSQL (String.length s) then String.substring 0 maxLoggedSQL s else s.

Record SlowLine := MkSlowLine { sl_sql : string; sl_duration_ms : Z }.

Definition report (threshold : Z) (query : string) (start stop : Z) : list SlowLine :=
  let elapsed := stop - start in
  if elapsed <? threshold then [] else [MkSlowLine (loggableSQL query) (Z.quot elapsed 1000000)].

(** A timed call, with the readings of the clock: a statement that returns
    when it is done, a query that fails, rows that are closed (and closed
    again, at the later times). *)
Inductive timed_call :=
  | TimedExec (query : string) (start stop : Z)
  | TimedQueryError (query : string) (start stop : Z)
  | TimedRows (query : string) (start : Z) (closes : list Z).

(** [timedRows.Close] under its [sync.Once]. *)
Fixpoint close_rows (threshold : Z) (query : string) (start : Z) (reported : bool) (closes : list Z) : list SlowLine :=
  match closes with
  | [] => []
  | stop :: rest =>
      (if reported then [] else report threshold query start stop) ++ close_rows threshold query start true rest
  end.

Definition slow_lines (threshold : Z) (t : timed_call) : list SlowLine :=
  match t with
  | TimedExec q start stop => report threshold q start stop
  | TimedQueryError q start stop => report threshold q start stop
  | TimedRows q start closes => close_rows threshold q start false closes
  end.

(** The statements of a transaction's end. *)
Definition timed_Commit (start stop : Z) : timed_call := TimedExec "COMMIT" start stop.
Definition timed_Rollback (start stop : Z) : timed_call := TimedExec "ROLLBACK" start stop.

(** ** store.go, pragma.go: opening *)

Inductive open_step := PingDB | TakeConn | RunPragma (p : string) | ReleaseConn | RunMigrations | CloseDB.

#[export] Instance open_step_eq_dec : EqDecision open_step.
Proof. solve_decision. Defined.

Definition pragmas : list string :=
  ["PRAGMA journal_mode = WAL"; "PRAGMA foreign_keys = ON"; "PRAGMA synchronous = NORMAL"; "PRAGMA busy_timeout = 5000"]%string.

Section Open.
Context (fails : open_step -> bool).

  (** The statements up to the first that fails. *)
Fixpoint applyPragmas (ps : list string) : list open_step * bool :=
    match ps with
    | [] => ([], true)
    | p :: rest =>
        if fails (RunPragma p) then ([RunPragma p], false)
        else let (steps, ok) := applyPragmas rest in (RunPragma p :: steps, ok)
    end.

  (** What [Open] does in order, and whether it returns a store. *)
Definition Open : list open_step * bool :=
    if fails PingDB then ([PingDB; CloseDB], false)
    else if fails TakeConn then ([PingDB; TakeConn; CloseDB], false)
    else
      let (steps, ok) := applyPragmas pragmas in
      let before := [PingDB; TakeConn] ++ steps in
      if negb ok then (before ++ [ReleaseConn; CloseDB], false)
      else if fails ReleaseConn then (before ++ [ReleaseConn; CloseDB], false)
      else if fails RunMigrations then (before ++ [ReleaseConn; RunMigrations; CloseDB], false)
      else (before ++ [ReleaseConn; RunMigrations], true).
End Open.

(** ** internal/version *)

Definition Info_String (i : Info) : string :=
  if str_eq (in_Version i) EmptyString then "unknown"%string
  else
    let suffix := List.filter (fun s => negb (str_eq s EmptyString)) [in_Commit i; in_Date i] in
    match suffix with
    | [] => in_Version i
    | _ => (in_Version i ++ " (" ++ join ", " suffix ++ ")")%string
    end.

(** ** Lemmas: the slow-statement log *)

Lemma fields_no_newline word s f : has_char newline_char word = false -> f ∈ fields_from word s -> has_char newline_char f = false.
Proof.
  revert word. induction s as [|c r IH]; intros word Hw Hf; cbn [fields_from] in Hf.
  - destruct (str_eq _ _); [by apply elem_of_nil in Hf|]. by apply list_elem_of_singleton in Hf as ->.
  - destruct (is_space c) eqn:Hc.
    + destruct (str_eq _ _); [by apply (IH EmptyString)|]. apply elem_of_cons in Hf as [->|Hf]; [done|].
      by apply (IH EmptyString).
    + apply (IH (word ++ str1 c)%string); [|done]. rewrite has_char_app, Hw. simpl. rewrite orb_false_r.
      apply Ascii.eqb_neq. intros ->. done.
Qed.

Lemma join_no_newline sep parts :
  has_char newline_char sep = false -> (forall f, f ∈ parts -> has_char newline_char f = false) ->
  has_char newline_char (join sep parts) = false.
Proof.
  intros Hs. induction parts as [|p [|q parts] IH]; intros Hp; [done|apply Hp; left|].
  change (join sep (p :: q :: parts)) with (p ++ sep ++ join sep (q :: parts))%string.
  rewrite !has_char_app, Hs, (Hp p) by left. apply IH. intros f Hf. apply Hp. by right.
Qed.

Lemma substring_bound n s : (String.length (String.substring 0 n s) <= n)%nat /\
  (has_char newline_char s = false -> has_char newline_char (String.substring 0 n s) = false).
Proof.
  revert s. induction n as [|n IH]; intros s; [by destruct s|].
  destruct s as [|c r]; [simpl; split; [lia|done]|]. destruct (IH r) as [H1 H2]. simpl. split; [lia|].
  intros [Hc Hr]%orb_false_iff. rewrite Hc. auto.
Qed.

Lemma loggableSQL_line query :
  (String.length (loggableSQL query) <= maxLoggedSQL)%nat /\ has_char newline_char (loggableSQL query) = false.
Proof.
  unfold loggableSQL. assert (has_char newline_char (join " " (Fields query)) = false) as Hn.
  { apply join_no_newline; [done|]. intros f. by apply fields_no_newline. }
  destruct (Nat.ltb_spec maxLoggedSQL (String.length (join " " (Fields query)))); [|done].
  destruct (substring_bound maxLoggedSQL (join " " (Fields query))). auto.
Qed.

Lemma close_rows_reported threshold q start closes : close_rows threshold q start true closes = [].
Proof. induction closes; [done|]. done. Qed.

(** A statement is reported once, or not at all if it was not slow. *)
Definition first_span (t : timed_call) : option Z :=
  match t with
  | TimedExec _ start stop | TimedQueryError _ start stop => Some (stop - start)
  | TimedRows _ start closes => stop ← head closes; Some (stop - start)
  end.

Theorem slow_statement_once threshold t :
  (length (slow_lines threshold t) <= 1)%nat /\
  (slow_lines threshold t <> [] <-> exists e, first_span t = Some e /\ threshold <= e) /\
  Forall (fun l => (String.length (sl_sql l) <= maxLoggedSQL)%nat /\ has_char newline_char (sl_sql l) = false)
    (slow_lines threshold t).
Proof.
  assert (forall q start stop, (length (report threshold q start stop) <= 1)%nat /\
    (report threshold q start stop <> [] <-> exists e, Some (stop - start) = Some e /\ threshold <= e) /\
    Forall (fun l => (String.length (sl_sql l) <= maxLoggedSQL)%nat /\ has_char newline_char (sl_sql l) = false)
      (report threshold q start stop)) as Hr.
  { intros q start stop. unfold report. destruct (Z.ltb_spec (stop - start) threshold); simpl.
    - split; [lia|]. split; [|constructor]. split; [done|]. intros (e & [= <-] & ?). lia.
    - split; [lia|]. split; [split; [eauto|done]|]. constructor; [|constructor]. apply loggableSQL_line. }
  destruct t as [q start stop|q start stop|q start [|stop closes]]; cbn [slow_lines first_span]; [apply Hr..| |].
  - split; [simpl; lia|]. split; [|constructor]. split; [done|]. intros (e & ? & _). done.
  - cbn [close_rows head mbind option_bind]. rewrite close_rows_reported, app_nil_r. apply Hr.
Qed.

(** ** Lemmas: opening the store *)

Lemma applyPragmas_ok fails ps : (applyPragmas fails ps).2 = true -> (applyPragmas fails ps).1 = RunPragma <$> ps.
Proof.
  induction ps as [|p ps IH]; [done|]. cbn [applyPragmas]. destruct (fails _); [done|].
  destruct (applyPragmas fails ps) as [steps ok]. simpl in *. intros H. by rewrite IH.
Qed.

(** [Open] gives back what it takes: a store comes out only after the four
    pragmas, in order, and the migrations; a failure ends by closing the
    database, after the connection if that was taken. *)
Theorem Open_releases fails :
  match Open fails with
  | (steps, true) => steps = [PingDB; TakeConn] ++ (RunPragma <$> pragmas) ++ [ReleaseConn; RunMigrations]
  | (steps, false) => last steps = Some CloseDB /\
      (fails TakeConn = false -> TakeConn ∈ steps -> ReleaseConn ∈ steps)
  end.
Proof.
  assert (forall l : list open_step, last (l ++ [CloseDB]) = Some CloseDB) as Hlast by (intros; apply last_snoc).
  unfold Open. destruct (fails PingDB).
  { split; [done|]. intros _ Hin. by rewrite <- (bool_decide_eq_true (TakeConn ∈ [PingDB; CloseDB])) in Hin. }
  destruct (fails TakeConn) eqn:HT; [done|].
  destruct (applyPragmas fails pragmas) as [steps ok] eqn:Hp.
  assert (forall tail, ReleaseConn ∈ tail -> ReleaseConn ∈ ([PingDB; TakeConn] ++ steps) ++ tail) as Hin
    by (intros; apply elem_of_app; by right).
  destruct ok; cbn [negb].
  - destruct (fails ReleaseConn).
    { split; [rewrite (app_assoc _ [ReleaseConn] [CloseDB]); apply Hlast|]. intros. apply Hin. left. }
    destruct (fails RunMigrations).
    { split; [rewrite (app_assoc _ [ReleaseConn; RunMigrations] [CloseDB]); apply Hlast|]. intros. apply Hin. left. }
    pose proof (applyPragmas_ok fails pragmas) as Hok. rewrite Hp in Hok. cbn [fst snd] in Hok.
    by rewrite Hok, <- app_assoc.
  - split; [rewrite (app_assoc _ [ReleaseConn] [CloseDB]); apply Hlast|]. intros. apply Hin. left.
Qed.

(** ** Lemmas: the late logger *)

Section LazyFacts.
Context {P L : Type} (provider_logger : P -> L) (enabled : L -> Z -> bool) (lg : Logger).

  (** Before a provider is stored nothing goes to OTLP. *)
Lemma lazy_silent ops (z : Lazy) :
    lz_resolved z = None -> current_provider z = None -> (forall lp, OpStore lp ∈ ops -> lp = None) ->
    Forall (fun x => x.2 = None) (run_lazy provider_logger enabled lg ops z).
Proof.
    revert z. induction ops as [|[lp|r] ops IH]; intros z Hr Hc Hops; [constructor| |].
    - cbn [run_lazy]. apply IH; [done| |intros; apply Hops; by right]. rewrite (Hops lp) by left. done.
    - cbn [run_lazy]. unfold handle_record, Enabled, real. rewrite Hr, Hc.
      destruct (lg_OTLP lg); (constructor; [done|]; apply IH; [done..|intros; apply Hops; by right]).
Qed.

  (** Once resolved, the logger stays the one it is, whatever is stored later,
      and gets exactly the records it is enabled for. *)
Lemma lazy_settled ops (z : Lazy) l :
    lg_OTLP lg = true -> lz_resolved z = Some l ->
    Forall (fun x => x.2 = if enabled l (lr_Level x.1.1) then Some l else None) (run_lazy provider_logger enabled lg ops z).
Proof.
    intros Hlg. revert z. induction ops as [|[lp|r] ops IH]; intros z Hr; [constructor|by apply IH|].
    cbn [run_lazy]. unfold handle_record, Enabled, Emit, real. rewrite Hlg, Hr.
    destruct (enabled l (lr_Level r)) eqn:He; rewrite ?Hr; (constructor; [simpl; by rewrite ?He|by apply IH]).
Qed.
End LazyFacts.
