(* ===== verification/Driver.v ===== *)
(** * The timing driver: internal/store/slowlog.go

    The wrapper between database/sql and the SQLite driver.  The driver under
    it is a record of operations on a world of its own; the wrapper's state adds
    the clock it reads, the lines it has logged and which rows have been
    reported.  The theorem says that the wrapper changes nothing of what the
    driver under it does or answers, and what it logs. *)

From S2P Require Import Prelude GoLib Schema Effects Logging.

(** The driver of the library: [c_complete] and [s_complete] say whether a
    connection or statement has every interface the wrapper forwards, and an
    optional interface of rows answers [None] where it is missing. *)
Record inner_driver (W Args Conn Tx Stmt Rows Res Col : Type) := MkInnerDriver {
  d_Open : W -> option Conn * W;
  c_complete : Conn -> bool;
  c_Close : Conn -> W -> W;
  c_Exec : Conn -> string -> Args -> W -> option Res * W;
  c_Query : Conn -> string -> Args -> W -> option Rows * W;
  c_BeginTx : Conn -> W -> option Tx * W;
  c_Prepare : Conn -> string -> W -> option Stmt * W;
  t_Commit : Tx -> W -> bool * W;
  t_Rollback : Tx -> W -> bool * W;
  s_complete : Stmt -> bool;
  s_Close : Stmt -> W -> W;
  s_Exec : Stmt -> Args -> W -> option Res * W;
  s_Query : Stmt -> Args -> W -> option Rows * W;
  r_Close : Rows -> W -> bool * W;
  r_Column : Rows -> nat -> option Col }.
#[global] Arguments d_Open {_ _ _ _ _ _ _ _}. #[global] Arguments c_complete {_ _ _ _ _ _ _ _}.
#[global] Arguments c_Close {_ _ _ _ _ _ _ _}. #[global] Arguments c_Exec {_ _ _ _ _ _ _ _}.
#[global] Arguments c_Query {_ _ _ _ _ _ _ _}. #[global] Arguments c_BeginTx {_ _ _ _ _ _ _ _}.
#[global] Arguments c_Prepare {_ _ _ _ _ _ _ _}. #[global] Arguments t_Commit {_ _ _ _ _ _ _ _}.
#[global] Arguments t_Rollback {_ _ _ _ _ _ _ _}. #[global] Arguments s_complete {_ _ _ _ _ _ _ _}.
#[global] Arguments s_Close {_ _ _ _ _ _ _ _}. #[global] Arguments s_Exec {_ _ _ _ _ _ _ _}.
#[global] Arguments s_Query {_ _ _ _ _ _ _ _}. #[global] Arguments r_Close {_ _ _ _ _ _ _ _}.
#[global] Arguments r_Column {_ _ _ _ _ _ _ _}.

Section Driver.
Context {W Args Conn Tx Stmt Rows Res Col : Type} (d : inner_driver W Args Conn Tx Stmt Rows Res Col).
Context (threshold : Z) (clock : nat -> Z) (no_column : Col).

Record Timed := MkTimed {
  tw_inner : W; tw_clock : nat; tw_next : nat; tw_done : list nat; tw_lines : list SlowLine }.

Definition TM (A : Type) : Type := Timed -> A * Timed.
#[local] Instance TM_ret : MRet TM := fun _ a w => (a, w).
#[local] Instance TM_bind : MBind TM := fun _ _ k m w => let (a, w') := m w in k a w'.

(** A call of the driver under the wrapper. *)
Definition lift {A} (f : W -> A * W) : TM A := fun w =>
  let (a, i) := f (tw_inner w) in (a, MkTimed i (tw_clock w) (tw_next w) (tw_done w) (tw_lines w)).
Definition lift_ (f : W -> W) : TM unit := lift (fun w => (tt, f w)).

Definition time_Now : TM Z := fun w =>
  (clock (tw_clock w), MkTimed (tw_inner w) (S (tw_clock w)) (tw_next w) (tw_done w) (tw_lines w)).

Definition log_lines (ls : list SlowLine) : TM unit := fun w =>
  (tt, MkTimed (tw_inner w) (tw_clock w) (tw_next w) (tw_done w) (tw_lines w ++ ls)).

Definition report_now (query : string) (start : Z) : TM unit :=
  stop ← time_Now; log_lines (report threshold query start stop).

(** [sync.Once] of rows: the object's number. *)
Definition fresh_once : TM nat := fun w =>
  (tw_next w, MkTimed (tw_inner w) (tw_clock w) (S (tw_next w)) (tw_done w) (tw_lines w)).
Definition once_Do (k : nat) (f : TM unit) : TM unit := fun w =>
  if bool_decide (k ∈ tw_done w) then (tt, w)
  else f (MkTimed (tw_inner w) (tw_clock w) (tw_next w) (k :: tw_done w) (tw_lines w)).

Record timedRows := MkTimedRows { tr_Rows : Rows; tr_query : string; tr_start : Z; tr_once : nat }.
Record timedStmt := MkTimedStmt { ts_innerStmt : Stmt; ts_query : string }.

Definition timed_exec (query : string) (call : W -> option Res * W) : TM (option Res) :=
  start ← time_Now; r ← lift call; report_now query start;; mret r.

Definition timed_query (query : string) (call : W -> option Rows * W) : TM (option timedRows) :=
  start ← time_Now; r ← lift call;
  match r with
  | None => report_now query start;; mret None
  | Some rows => k ← fresh_once; mret (Some (MkTimedRows rows query start k))
  end.

(** timedConnector.Connect *)
Definition Connect : TM (option Conn) :=
  raw ← lift (d_Open d);
  match raw with
  | None => mret None
  | Some c => if c_complete d c then mret (Some c) else lift_ (c_Close d c);; mret None
  end.

(** timedConn *)
Definition conn_ExecContext (c : Conn) (query : string) (args : Args) := timed_exec query (c_Exec d c query args).
Definition conn_QueryContext (c : Conn) (query : string) (args : Args) := timed_query query (c_Query d c query args).
Definition conn_BeginTx (c : Conn) : TM (option Tx) := lift (c_BeginTx d c).
Definition conn_Begin (c : Conn) : TM (option Tx) := conn_BeginTx c.
Definition conn_PrepareContext (c : Conn) (query : string) : TM (option timedStmt) :=
  s ← lift (c_Prepare d c query);
  match s with
  | None => mret None
  | Some s => if s_complete d s then mret (Some (MkTimedStmt s query)) else lift_ (s_Close d s);; mret None
  end.
Definition conn_Prepare (c : Conn) (query : string) : TM (option timedStmt) := conn_PrepareContext c query.

(** timedTx *)
Definition tx_end (query : string) (call : W -> bool * W) : TM bool :=
  start ← time_Now; ok ← lift call; report_now query start;; mret ok.
Definition tx_Commit (t : Tx) : TM bool := tx_end "COMMIT" (t_Commit d t).
Definition tx_Rollback (t : Tx) : TM bool := tx_end "ROLLBACK" (t_Rollback d t).

(** timedStmt *)
Definition stmt_ExecContext (s : timedStmt) (args : Args) := timed_exec (ts_query s) (s_Exec d (ts_innerStmt s) args).
Definition stmt_QueryContext (s : timedStmt) (args : Args) := timed_query (ts_query s) (s_Query d (ts_innerStmt s) args).

(** timedRows *)
Definition rows_Close (r : timedRows) : TM bool :=
  ok ← lift (r_Close d (tr_Rows r));
  once_Do (tr_once r) (report_now (tr_query r) (tr_start r));;
  mret ok.

(** The five ColumnType methods: the zero value where the interface is missing. *)
Definition rows_ColumnType (r : timedRows) (i : nat) : Col := default no_column (r_Column d (tr_Rows r) i).

(** ** The wrapper is transparent *)

(** [m] does to the driver's world what [call] does, answers what it answers up
    to the wrapping, and logs lines of [query] only. *)
Definition transparent {A B} (wraps : B -> A -> Prop) (query : option string) (m : TM B) (call : W -> A * W) : Prop :=
  forall w, tw_inner (m w).2 = (call (tw_inner w)).2 /\ wraps (m w).1 (call (tw_inner w)).1 /\
    exists ls, tw_lines (m w).2 = tw_lines w ++ ls /\
      match query with
      | None => ls = []
      | Some q => ls = [] \/ exists start stop, ls = report threshold q start stop
      end.

Definition same {A} (b a : A) : Prop := b = a.
Definition same_rows (b : option timedRows) (a : option Rows) : Prop := tr_Rows <$> b = a.
Definition same_stmt (b : option timedStmt) (a : option Stmt) : Prop := ts_innerStmt <$> b = a.

Lemma transparent_exec q call : transparent same (Some q) (timed_exec q call) call.
Proof.
  intros w. unfold timed_exec, mbind, TM_bind, lift, time_Now, report_now, log_lines. cbn.
  destruct (call (tw_inner w)) as [r i]. cbn. split; [done|]. split; [done|]. eexists. split; [done|]. right. eauto.
Qed.

Lemma transparent_tx q call : transparent same (Some q) (tx_end q call) call.
Proof.
  intros w. unfold tx_end, mbind, TM_bind, lift, time_Now, report_now, log_lines. cbn.
  destruct (call (tw_inner w)) as [r i]. cbn. split; [done|]. split; [done|]. eexists. split; [done|]. right. eauto.
Qed.

Lemma transparent_query q call : transparent same_rows (Some q) (timed_query q call) call.
Proof.
  intros w. unfold timed_query, mbind, TM_bind, lift, time_Now, report_now, log_lines, fresh_once. cbn.
  destruct (call (tw_inner w)) as [[r|] i]; cbn; (split; [done|]; split; [done|]).
  - exists []. rewrite app_nil_r. auto.
  - eexists. split; [done|]. right. eauto.
Qed.

Lemma transparent_close r :
  transparent same (Some (tr_query r)) (rows_Close r) (r_Close d (tr_Rows r)).
Proof.
  intros w. unfold rows_Close, mbind, TM_bind, lift, once_Do, report_now, time_Now, log_lines. cbn.
  destruct (r_Close d (tr_Rows r) (tw_inner w)) as [ok i]. cbn.
  destruct (bool_decide _); cbn; (split; [done|]; split; [done|]).
  - exists []. rewrite app_nil_r. auto.
  - eexists. split; [done|]. right. eauto.
Qed.

Lemma transparent_lift {A} (call : W -> A * W) : transparent same None (lift call) call.
Proof.
  intros w. unfold lift. destruct (call (tw_inner w)) as [a i]. cbn. split; [done|]. split; [done|].
  exists []. by rewrite app_nil_r.
Qed.

(** Rows are reported at their first close only. *)
Lemma second_close_silent r w : let w1 := (rows_Close r w).2 in tw_lines (rows_Close r w1).2 = tw_lines w1.
Proof.
  unfold rows_Close, mbind, TM_bind, lift, once_Do. cbn.
  destruct (r_Close d (tr_Rows r) (tw_inner w)) as [ok i]. cbn.
  assert (Hin : tr_once r ∈ tw_done ((if bool_decide (tr_once r ∈ tw_done w)
    then (tt, MkTimed i (tw_clock w) (tw_next w) (tw_done w) (tw_lines w))
    else report_now (tr_query r) (tr_start r)
           (MkTimed i (tw_clock w) (tw_next w) (tr_once r :: tw_done w) (tw_lines w))).2)).
  { destruct (bool_decide _) eqn:Hb; [by apply bool_decide_eq_true in Hb|].
    unfold report_now, mbind, TM_bind, time_Now, log_lines. cbn. left. }
  destruct (if bool_decide _ then _ else _) as [u w1]. cbn in *.
  destruct (r_Close d (tr_Rows r) (tw_inner w1)) as [ok' i']. cbn. by rewrite bool_decide_true.
Qed.

(** The timing of statements is invisible: for every driver whose connections
    and statements have the interfaces the wrapper forwards, each call through
    the wrapper leaves the driver's world and answers exactly as the call under
    it does, and adds at most one line to the log, of the statement's own text
    and never of its arguments; rows closed twice are reported once.  A
    connection or statement without an interface is closed and refused. *)
Theorem timed_driver_transparent c s t r q args :
  transparent same (Some q) (conn_ExecContext c q args) (c_Exec d c q args) /\
  transparent same_rows (Some q) (conn_QueryContext c q args) (c_Query d c q args) /\
  transparent same None (conn_Begin c) (c_BeginTx d c) /\
  transparent same (Some "COMMIT"%string) (tx_Commit t) (t_Commit d t) /\
  transparent same (Some "ROLLBACK"%string) (tx_Rollback t) (t_Rollback d t) /\
  transparent same (Some (ts_query s)) (stmt_ExecContext s args) (s_Exec d (ts_innerStmt s) args) /\
  transparent same_rows (Some (ts_query s)) (stmt_QueryContext s args) (s_Query d (ts_innerStmt s) args) /\
  transparent same (Some (tr_query r)) (rows_Close r) (r_Close d (tr_Rows r)) /\
  (forall w, let w1 := (rows_Close r w).2 in tw_lines (rows_Close r w1).2 = tw_lines w1) /\
  transparent same None Connect (fun i => match d_Open d i with
    | (Some c, i') => if c_complete d c then (Some c, i') else (None, c_Close d c i')
    | (None, i') => (None, i')
    end) /\
  transparent same_stmt None (conn_Prepare c q) (fun i => match c_Prepare d c q i with
    | (Some s, i') => if s_complete d s then (Some s, i') else (None, s_Close d s i')
    | (None, i') => (None, i')
    end).
Proof.
  split_and!; try apply transparent_exec; try apply transparent_query; try apply transparent_tx;
    try apply transparent_lift; try apply transparent_close.
  - intros w. apply second_close_silent.
  - intros w. unfold Connect, lift_, mbind, TM_bind, lift. cbn. destruct (d_Open d (tw_inner w)) as [[c'|] i]; cbn;
      [destruct (c_complete d c'); cbn|]; (split; [done|]; split; [done|]; exists []; by rewrite app_nil_r).
  - intros w. unfold conn_Prepare, conn_PrepareContext, lift_, mbind, TM_bind, lift. cbn.
    destruct (c_Prepare d c q (tw_inner w)) as [[s'|] i]; cbn;
      [destruct (s_complete d s'); cbn|]; (split; [done|]; split; [done|]; exists []; by rewrite app_nil_r).
Qed.
End Driver.
