(* ===== verification/Agent.v ===== *)
(** * The agent: its configuration, providers and run command

    internal/config/client.go, internal/client/ipdiscovery/httpprovider.go and
    cmd/diyddns-client/run.go: from what is configured and what enrolling
    stored to a discoverer and a signing client, and what the user is told when
    the loop ends.  viper is an argument, as in Config; netip's parser, net/url,
    the CA bundle and the user's configuration directory are parameters. *)

From S2P Require Import Prelude GoLib Schema Integrity Effects ApiCore NetAddr Client JsonText Json JsonFacts Credentials Enroll Logging.
From Stdlib Require Import Ascii.

(** ** config/client.go *)

Record ClientConfig := MkClientConfig {
  cc_URL : string; cc_CABundle : string; cc_LogLevel : string; cc_LogFormat : string;
  cc_Interval : Z; cc_Quorum : Z; cc_AddressFamilies : list string; cc_ProvidersV4 : list string;
  cc_ProvidersV6 : list string }.

Definition clientKeyDefaults : ClientConfig :=
  MkClientConfig EmptyString EmptyString "info" "text" (5 * 60 * second) 2 ["ipv4"; "ipv6"]%string [] [].

(** [file]: a configuration file was named, and whether it could be read;
    [read]: what viper unmarshals from the flags, the environment, the file and
    the defaults. *)
Definition LoadClient (file : option bool) (read : option ClientConfig) : option ClientConfig :=
  match file with Some false => None | _ => read end.

(** ** httpprovider.go *)

Inductive Family := FamilyV4 | FamilyV6.

Definition maxProviderBody : nat := 4096.

Definition familyMatches (a : addr) (family : Family) : bool :=
  match family, a with
  | FamilyV6, V6 _ _ => negb (is_4in6 a)
  | FamilyV6, V4 _ => false
  | FamilyV4, V4 _ => true
  | FamilyV4, V6 _ _ => false
  end.

Definition provider : Type := string * Family.

Definition ProvidersFromURLs (urls : list string) (family : Family) : list provider := (fun u => (u, family)) <$> urls.

Definition defaultURLsV4 : list string := ["https://api.ipify.org"; "https://ipv4.icanhazip.com"; "https://4.ident.me"]%string.
Definition defaultURLsV6 : list string := ["https://api6.ipify.org"; "https://ipv6.icanhazip.com"; "https://6.ident.me"]%string.
Definition DefaultProvidersV4 : list provider := ProvidersFromURLs defaultURLsV4 FamilyV4.
Definition DefaultProvidersV6 : list provider := ProvidersFromURLs defaultURLsV6 FamilyV6.

Section Providers.
Context (answer : string -> HttpAnswer).

  (** [answer]: what the provider's URL answers; the body is read up to its limit. *)
Definition Lookup (p : provider) : option addr :=
    match answer p.1 with
    | NoAnswer => None
    | Answer status body =>
        if negb (status =? 200) then None
        else
          text ← body; a ← parse_addr (trim_space (String.substring 0 maxProviderBody text));
          if familyMatches a p.2 then Some a else None
    end.

  (** The answers that count, in the order of the providers: [discoverFamily] of
      Client.v does not depend on it. *)
Definition lookups (ps : list provider) : list addr := omap Lookup ps.
End Providers.

(** ** run.go *)

Definition buildDiscoverer (rc : ClientConfig) : option (list provider * list provider * Discoverer) :=
  let pick acc fam :=
    match acc with
    | None => None
    | Some (v4, v6) =>
        if str_eq fam "ipv4" then
          Some (Some (if bool_decide (cc_ProvidersV4 rc = []) then DefaultProvidersV4
                      else ProvidersFromURLs (cc_ProvidersV4 rc) FamilyV4), v6)
        else if str_eq fam "ipv6" then
          Some (v4, Some (if bool_decide (cc_ProvidersV6 rc = []) then DefaultProvidersV6
                          else ProvidersFromURLs (cc_ProvidersV6 rc) FamilyV6))
        else None
    end in
  match foldl pick (Some (None, None)) (cc_AddressFamilies rc) with
  | None | Some (None, None) => None
  | Some (v4, v6) =>
      let ps v := default [] v in
      d ← NewDiscoverer (length (ps v4)) (length (ps v6)) (cc_Quorum rc); Some (ps v4, ps v6, d)
  end.

(** The error of the loop as the command reports it: whether the advice to
    enroll again is added.  [rejected] is errors.Is(err, checkin.ErrUnauthorized). *)
Inductive run_result := RunClean | RunFailed | RunAdvised (advice : string).

Definition explainRunError (failed rejected : bool) (serverURL : string) : run_result :=
  if negb failed then RunClean
  else if negb rejected then RunFailed
  else RunAdvised ("Mint a new enrollment code at " ++ serverURL ++ "/devices/new, then run `diyddns-client enroll --server "
                     ++ serverURL ++ " --code <code> --force`").

(** The level, the format and whether the level was not understood. *)
Definition newClientLogger (level format : string) : Z * LogFormat * bool :=
  let f := if str_eq format "json" then FormatJSON else FormatText in
  match level_of_text level with
  | Some l => (l, f, false)
  | None => (0, f, negb (str_eq level EmptyString))
  end.

(** poller.New: the interval the loop runs with. *)
Definition poll_interval (configured : Z) : Z := if configured <=? 0 then 5 * 60 * second else configured.

Section Run.
Context (config_dir : option string) (url_parse : string -> option URL) (read_ca : string -> option string)
        (has_certs : string -> bool).

Record SigningClient := MkSigningClient { sc_baseURL : string; sc_deviceID : string; sc_key : string }.

  (** checkin.NewClient *)
Definition NewSigningClient (baseURL deviceID secretB64 caCertPath : string) : SigningClient + string :=
    let baseURL := trim_slashes baseURL in
    let usable_url := match url_parse baseURL with
      | None => false
      | Some u => (str_eq (u_Scheme u) "http" || str_eq (u_Scheme u) "https") && negb (str_eq (u_Host u) EmptyString)
      end in
    if negb usable_url then inr "checkin: server URL must be http(s)"%string
    else match b64_std_decode secretB64 with
    | None | Some EmptyString => inr "checkin: secret is not valid base64"%string
    | Some key =>
        if str_eq caCertPath EmptyString then inl (MkSigningClient baseURL deviceID key)
        else match read_ca caCertPath with
          | None => inr "checkin: read ca cert"%string
          | Some pem => if has_certs pem then inl (MkSigningClient baseURL deviceID key)
                        else inr "checkin: no certificates"%string
          end
    end.

  (** The command up to the loop, with the server its messages name. *)
Definition newRunCmd (cfg : option ClientConfig) (credFile : option path)
      : CM (SigningClient * (list provider * list provider * Discoverer) * Z * string) :=
    match cfg with
    | None => cfail (ErrMsg "config")
    | Some cfg =>
        match credentials_path config_dir credFile with
        | None => cfail (ErrMsg "credentials: resolve config dir")
        | Some credPath =>
            loaded ← ccatch (Load credPath);
            match loaded with
            | inr e => cfail (if bool_decide (e = CredNotFound) then ErrMsg "no credentials, run enroll first" else e)
            | inl creds =>
                match buildDiscoverer cfg with
                | None => cfail (ErrMsg "run: address families")
                | Some disc =>
                    match NewSigningClient (cr_ServerURL creds) (cr_DeviceID creds) (cr_Secret creds) (cc_CABundle cfg) with
                    | inr msg => cfail (ErrMsg msg)
                    | inl chk => mret (chk, disc, poll_interval (cc_Interval cfg), cr_ServerURL creds)
                    end
                end
            end
        end
    end.
End Run.

(** ** Theorems *)

Lemma Lookup_family answer p a : Lookup answer p = Some a -> familyMatches a p.2 = true.
Proof.
  unfold Lookup. destruct (answer p.1) as [|status body]; [done|]. destruct (negb _); [done|].
  destruct body as [text|]; [|done]. simpl. destruct (parse_addr _) as [a'|]; [|done]. simpl.
  destruct (familyMatches a' p.2) eqn:E; [|done]. by intros [= <-].
Qed.

(** The agent reports an address only in the family it was asked for: whatever
    the providers answer, an address the quorum settles on among the answers of
    one family's providers is of that family, and no IPv4-mapped address passes
    for IPv6. *)
Theorem discovered_family answer urls family quorum order a
  (Hq : 1 <= quorum) (Hr : range_of (lookups answer (ProvidersFromURLs urls family)) order)
  (Hd : discoverFamily quorum (lookups answer (ProvidersFromURLs urls family)) order = Some a) :
  familyMatches a family = true /\ (family = FamilyV6 -> is_4in6 a = false).
Proof.
  apply discoverFamily_spec in Hd as [Hc _]; [|done..].
  assert (a ∈ lookups answer (ProvidersFromURLs urls family)) as Hin.
  { apply count_pos. clear - Hq Hc. lia. }
  unfold lookups in Hin. apply list_elem_of_omap in Hin as (p & Hp & Hl).
  apply Lookup_family in Hl. unfold ProvidersFromURLs in Hp. apply list_elem_of_fmap in Hp as (u & -> & _). simpl in Hl.
  split; [done|]. intros ->. destruct a; [done|]. cbn [familyMatches] in Hl. by apply negb_true_iff in Hl.
Qed.

Lemma trim_slashes_ascii s : all_ascii s = true -> all_ascii (trim_slashes s) = true.
Proof.
  induction s as [|c r IH]; [done|]. cbn [all_ascii trim_slashes]. intros [Hc Hr]%andb_true_iff. specialize (IH Hr).
  destruct (trim_slashes r) as [|d t]; [destruct (Ascii.eqb c "/"); cbn; by rewrite ?Hc|].
  cbn [all_ascii] in *. by rewrite Hc.
Qed.

(** Base64 is ASCII. *)
Lemma b64_value_ascii c v : b64_value c = Some v -> (code c <=? 127) = true.
Proof. unfold b64_value. intros H. apply Z.leb_le. repeat (case_match; [lia|]). done. Qed.

Lemma b64_quantums_ascii s d : b64_quantums s = Some d -> all_ascii s = true.
Proof.
  assert (forall n s d, (String.length s <= n)%nat -> b64_quantums s = Some d -> all_ascii s = true) as H; [|by eapply H].
  clear s d. induction n as [|n IH]; intros s d Hl Hs; [by destruct s; simpl in Hl; [|lia]|].
  destruct s as [|c1 [|c2 [|c3 [|c4 r]]]]; try done. cbn [b64_quantums] in Hs. cbn [String.length] in Hl.
  cbn [all_ascii]. destruct (Ascii.eqb c4 "=") eqn:E4.
  - apply Ascii.eqb_eq in E4 as ->. destruct r; [|done].
    destruct (b64_value c1) eqn:E1; [|done]. destruct (b64_value c2) eqn:E2; [|done].
    rewrite (b64_value_ascii _ _ E1), (b64_value_ascii _ _ E2).
    destruct (Ascii.eqb c3 "=") eqn:E3; [by apply Ascii.eqb_eq in E3 as ->|].
    destruct (b64_value c3) eqn:E3'; [|done]. by rewrite (b64_value_ascii _ _ E3').
  - destruct (b64_value c1) eqn:E1; [|done]. destruct (b64_value c2) eqn:E2; [|done].
    destruct (b64_value c3) eqn:E3; [|done]. destruct (b64_value c4) eqn:E4'; [|done].
    destruct (b64_quantums r) eqn:Er; [|done].
    by rewrite (b64_value_ascii _ _ E1), (b64_value_ascii _ _ E2), (b64_value_ascii _ _ E3), (b64_value_ascii _ _ E4'),
      (IH r _ ltac:(lia) Er).
Qed.

Lemma b64_std_ascii s d : b64_std_decode s = Some d -> all_ascii s = true.
Proof.
  intros H%b64_quantums_ascii. revert H. induction s as [|c r IH]; [done|]. cbn [strip_newlines all_ascii].
  destruct ((code c =? 10) || (code c =? 13)) eqn:E.
  - intros H. rewrite IH by done. apply andb_true_iff. split; [|done]. lia.
  - cbn [all_ascii]. intros [-> H]%andb_true_iff. by apply IH.
Qed.

(** The CA bundle of a configuration: none, or one with certificates. *)
Definition bundle_loads (read_ca : string -> option string) (has_certs : string -> bool) (bundle : string) : Prop :=
  bundle = EmptyString \/ exists pem, read_ca bundle = Some pem /\ has_certs pem = true.

(** What enrolling stored, running uses. *)
Lemma enrolled_runs config_dir url_parse read_ca has_certs fuel params m p cfg disc u w
  (Hp : credentials_path config_dir (ep_credFile params) = Some p)
  (Hok : (finishEnroll config_dir url_parse read_ca has_certs fuel params m w).1 = inl tt)
  (Hquiet : forall q, keeps_file (cw_env w) q)
  (Hdisc : buildDiscoverer cfg = Some disc) (Hca : bundle_loads read_ca has_certs (cc_CABundle cfg))
  (Hascii : all_ascii (ep_server params) = true)
  (Hurl : url_parse (trim_slashes (ep_server params)) = Some u)
  (Hscheme : (u_Scheme u = "http" \/ u_Scheme u = "https")%string) (Hhost : u_Host u <> EmptyString) :
  let w' := (finishEnroll config_dir url_parse read_ca has_certs fuel params m w).2 in
  exists id secret key, server_answered m (trim_slashes (ep_server params)) w w' (MkResult id secret) /\
    usable (MkResult id secret) = true /\ b64_std_decode secret = Some key /\
    (ce_fault (cw_env w) (cw_n w') = false -> key <> EmptyString ->
     (newRunCmd config_dir url_parse read_ca has_certs (Some cfg) (ep_credFile params) w').1 =
     inl (MkSigningClient (trim_slashes (ep_server params)) (to_valid_utf8 id) key, disc, poll_interval (cc_Interval cfg),
       trim_slashes (ep_server params))).
Proof.
  intros w'. pose proof (finishEnroll_saves config_dir url_parse read_ca has_certs fuel params m p w Hp) as Hs.
  unfold cwp, saved in Hs. rewrite Hok in Hs. destruct Hs as ([id secret] & Hu & Hans & Hpub). fold w' in Hpub, Hans.
  destruct (b64_std_decode secret) as [key|] eqn:Hkey.
  2:{ unfold usable in Hu. cbn [er_Secret] in Hu. by rewrite Hkey, andb_false_r in Hu. }
  exists id, secret, key. split; [done|]. split; [done|]. split; [done|]. intros Hf Hne.
  unfold newRunCmd. rewrite Hp. unfold mbind, CM_bind, ccatch.
  assert (ce_fault (cw_env w') (cw_n w') = false) as Hf' by (by rewrite (proj1 Hpub)).
  pose proof (Load_published p _ _ w w' Hpub Hquiet Hf') as Hl.
  destruct (Load p w') as [r w2]. cbn [fst] in Hl. subst r. rewrite Hdisc. unfold NewSigningClient, valid_credentials.
  cbn [cr_ServerURL cr_DeviceID cr_Secret er_DeviceID er_Secret].
  rewrite (to_valid_ascii _ (trim_slashes_ascii _ Hascii)), trim_slashes_idem, Hurl.
  rewrite (to_valid_ascii _ (b64_std_ascii _ _ Hkey)), Hkey.
  apply str_eq_false in Hhost. rewrite Hhost.
  assert ((str_eq (u_Scheme u) "http" || str_eq (u_Scheme u) "https") = true) as ->
    by (by destruct Hscheme as [-> | ->]).
  cbn [negb andb].
  destruct key as [|c key]; [done|].
  destruct Hca as [Hb | (pem & Hpem & Hcerts)]; [by rewrite Hb|]. rewrite Hpem, Hcerts. destruct (str_eq (cc_CABundle cfg) EmptyString); reflexivity.
Qed.

(** ** Witnesses *)

Definition demo_answer (url : string) : HttpAnswer := Answer 200 (Some "192.0.2.7 ").

Lemma discovered_family_witness :
  familyMatches (V4 3221225991) FamilyV4 = true /\ (FamilyV4 = FamilyV6 -> is_4in6 (V4 3221225991) = false).
Proof.
  apply (discovered_family demo_answer defaultURLsV4 FamilyV4 2 [V4 3221225991]);
    [lia| |vm_compute; reflexivity].
  assert (lookups demo_answer (ProvidersFromURLs defaultURLsV4 FamilyV4) =
          [V4 3221225991; V4 3221225991; V4 3221225991]) as -> by (vm_compute; reflexivity).
  split; [apply NoDup_singleton|]. intros a. rewrite !elem_of_cons, elem_of_nil. tauto.
Defined.
