(* ===== verification/Commands.v ===== *)
(** * The command trees: cmd/diyddns-client and cmd/diyddns-server

    The two programs from their command line to their exit code: the version
    commands, the flag groups of enroll, and what [main] makes of an error (the
    server's is in Serve).  cobra parses the arguments; the command it chose, or
    its refusal, is an argument here. *)

From S2P Require Import Prelude GoLib Schema Effects ApiCore NetAddr JsonText Json JsonFacts Credentials Enroll Client Logging Agent.
From Stdlib Require Import Ascii.

(** ** The version commands *)

Definition version_line (program : string) (i : Info) : string :=
  (program ++ " " ++ Info_String i ++ newline)%string.

(** The encoder with an indent of two blanks ends with a line break. *)
Definition version_json (i : Info) : string :=
  ("{" ++ newline ++ json_line "Version" (in_Version i) "," ++ json_line "Commit" (in_Commit i) ","
       ++ json_line "Date" (in_Date i) EmptyString ++ "}" ++ newline)%string.

Definition newVersionCmd (asJSON : bool) (i : Info) : string :=
  if asJSON then version_json i else version_line "diyddns-client" i.

(** cmd/diyddns-server/main.go *)
Definition versionCmd (i : Info) : string := version_line "diyddns-server" i.

(** ** The client *)

(** The command cobra found, with its flags: [code] and [oidc] are the values
    of flags that were given. *)
Inductive client_command :=
  | ClientVersion (asJSON : bool)
  | ClientEnroll (code : option string) (oidc : option bool) (force : bool) (credFile : option path)
      (cfg : option (string * string))
  | ClientRun (once : bool) (cfg : option ClientConfig) (credFile : option path).

(** MarkFlagsMutuallyExclusive and MarkFlagsOneRequired. *)
Definition flag_groups (code : option string) (oidc : option bool) : bool :=
  xorb (bool_decide (is_Some code)) (bool_decide (is_Some oidc)).

(** How the loop of run ends: whether with an error, and whether that is
    checkin.ErrUnauthorized.  [cycles] are the outcomes of its cycles until the
    context ends, each with the jittered interval of its turn. *)
Definition run_loop (once : bool) (interval : Z) (cycles : list (cycle * Z)) : bool * bool :=
  if once then
    match cycles with
    | (CycleUnauthorized, _) :: _ => (true, true)
    | (CycleFailed, _) :: _ => (true, false)
    | _ => (false, false)
    end
  else let stop := (poll_run interval poll_start cycles).2 in (stop, stop).

Section ClientMain.
Context (config_dir : option string) (url_parse : string -> option URL) (read_ca : string -> option string)
        (has_certs : string -> bool) (fuel : nat) (current : Info) (cycles : list (cycle * Z)).

Definition client_exec (cmd : client_command) : CM run_result :=
  match cmd with
  | ClientVersion asJSON => say (newVersionCmd asJSON current);; mret RunClean
  | ClientEnroll code oidc force credFile cfg =>
      if negb (flag_groups code oidc) then cfail (ErrMsg "flags")
      else
        newEnrollCmd config_dir url_parse read_ca has_certs fuel code (default false oidc) force credFile cfg;;
        mret RunClean
  | ClientRun once cfg credFile =>
      '(_, _, interval, server) ← newRunCmd config_dir url_parse read_ca has_certs cfg credFile;
      let '(failed, rejected) := run_loop once interval cycles in
      mret (explainRunError failed rejected server)
  end.

(** [run]: the exit code.  [None] is a command line cobra refuses. *)
Definition client_main (parsed : option client_command) : CM Z :=
  match parsed with
  | None => mret 1
  | Some cmd =>
      r ← ccatch (client_exec cmd);
      mret (match r with inl RunClean => 0 | _ => 1 end)
  end.
End ClientMain.

(** * What the commands guarantee

    The JSON of the version command is what decoding it gives; the exit code
    says whether the command did its work, and a run that stops because the
    credentials were refused names the server to enroll with again. *)

(** Decoding the machine form gives the three fields, so nothing a build puts
    into them breaks the document. *)
Theorem version_json_reads (i : Info) :
  parse_json (version_json i) =
  Some (JObject [("Version"%string, JString (to_valid_utf8 (in_Version i)));
                 ("Commit"%string, JString (to_valid_utf8 (in_Commit i)));
                 ("Date"%string, JString (to_valid_utf8 (in_Date i)))]).
Proof.
  unfold parse_json, version_json, json_line.
  rewrite string_app_cons, append_nil, (scan_feed _ _ _ _ _ Between (FirstKey, [InObject [] EmptyString])) by done.
  rewrite scan_space by done. rewrite !string_app_assoc.
  rewrite scan_member by auto. rewrite string_app_cons, append_nil.
  rewrite (scan_feed _ _ _ _ _ Between (Key, [InObject [("Version"%string, JString (to_valid_utf8 (in_Version i)))] "Version"])) by done.
  rewrite scan_space, scan_member by (done || auto). rewrite string_app_cons, append_nil.
  rewrite (scan_feed _ _ _ _ _ Between (Key, [InObject [("Version"%string, JString (to_valid_utf8 (in_Version i)));
    ("Commit"%string, JString (to_valid_utf8 (in_Commit i)))] "Commit"])) by done.
  rewrite scan_space, scan_member by (done || auto). rewrite append_nil, scan_space by done. reflexivity.
Qed.

Lemma usable_id id secret : usable (MkResult id secret) = true -> id <> EmptyString.
Proof. unfold usable. by intros H ->. Qed.

(** The mode the flags of the enroll command ask for. *)
Definition enroll_mode (code : option string) : Mode := match code with Some c => ByCode c | None => ByOIDC end.

(** An enroll command that exits with 0 has saved what it was given. *)
Lemma enroll_exit config_dir url_parse read_ca has_certs fuel current cycles code oidc force credFile server ca w :
  let run := client_main config_dir url_parse read_ca has_certs fuel current cycles
    (Some (ClientEnroll code oidc force credFile (Some (server, ca)))) w in
  run.1 = inl 0 ->
  finishEnroll config_dir url_parse read_ca has_certs fuel (MkEnrollParams server ca force credFile) (enroll_mode code) w =
    (inl tt, run.2).
Proof.
  intros run H. subst run. unfold client_main, client_exec in *. destruct (flag_groups code oidc); [|done].
  assert (Hn : forall prog : CM unit, prog = finishEnroll config_dir url_parse read_ca has_certs fuel
      (MkEnrollParams server ca force credFile) (enroll_mode code) \/ (exists e, prog = cfail e) ->
    (r ← ccatch (prog;; mret RunClean); mret (match r with inl RunClean => 0 | _ => 1 end) : CM Z) w =
      (inl 0, ((r ← ccatch (prog;; mret RunClean); mret (match r with inl RunClean => 0 | _ => 1 end) : CM Z) w).2) ->
    finishEnroll config_dir url_parse read_ca has_certs fuel (MkEnrollParams server ca force credFile) (enroll_mode code) w =
      (inl tt, ((r ← ccatch (prog;; mret RunClean); mret (match r with inl RunClean => 0 | _ => 1 end) : CM Z) w).2)).
  { intros prog [->|[e ->]] Hp; [|done]. unfold mbind, CM_bind, ccatch in *.
    by destruct (finishEnroll _ _ _ _ _ _ _ w) as [[[]|e] w1]. }
  apply Hn; [|by rewrite <- H, <- surjective_pairing].
  unfold newEnrollCmd. destruct code as [c|]; [destruct (str_eq c EmptyString); eauto|].
  destruct (default false oidc); eauto.
Qed.

(** C33: What enrolling stored, running uses.  Take an enroll command that exits
    with 0, for a server whose address is ASCII text that parses as an http(s)
    URL with a host, while other processes leave existing files alone.  Its
    last call was the enrolling one - the one-time code it was given, or a poll
    of the device flow - to that server, and was answered 200; [id] and [secret]
    are the members device_id and secret of that answer, and the secret decodes.
    If it decodes to something and the system does not fail the read, the run command under a
    configuration with providers and with no CA bundle or one that loads then
    signs for that device (the identifier as JSON can carry it, invalid UTF-8
    replaced), with the decoded secret, towards the server that was enrolled
    with; it exits with 1 exactly if the server refuses the credentials three
    times in a row, with the advice to enroll with that server again, and with 0
    if the context ends before. *)
Theorem enrolled_agent_runs config_dir url_parse read_ca has_certs fuel current code oidc force credFile server ca
    p cfg disc u w before
  (Hp : credentials_path config_dir credFile = Some p)
  (Hok : (client_main config_dir url_parse read_ca has_certs fuel current before
            (Some (ClientEnroll code oidc force credFile (Some (server, ca)))) w).1 = inl 0)
  (Hquiet : forall q, keeps_file (cw_env w) q)
  (Hdisc : buildDiscoverer cfg = Some disc) (Hca : bundle_loads read_ca has_certs (cc_CABundle cfg))
  (Hascii : all_ascii server = true)
  (Hurl : url_parse (trim_slashes server) = Some u)
  (Hscheme : (u_Scheme u = "http" \/ u_Scheme u = "https")%string) (Hhost : u_Host u <> EmptyString) :
  let w' := (client_main config_dir url_parse read_ca has_certs fuel current before
               (Some (ClientEnroll code oidc force credFile (Some (server, ca)))) w).2 in
  exists id secret key, server_answered (enroll_mode code) (trim_slashes server) w w' (MkResult id secret) /\
    id <> EmptyString /\ b64_std_decode secret = Some key /\
    (ce_fault (cw_env w) (cw_n w') = false -> key <> EmptyString ->
     (newRunCmd config_dir url_parse read_ca has_certs (Some cfg) credFile w').1 =
       inl (MkSigningClient (trim_slashes server) (to_valid_utf8 id) key, disc, poll_interval (cc_Interval cfg),
            trim_slashes server) /\
     forall cycles,
       let run parsed := (client_main config_dir url_parse read_ca has_certs fuel current cycles parsed w').1 in
       (run (Some (ClientRun false (Some cfg) credFile)) =
          inl (if has_three cycles.*1 then 1 else 0)) /\
       (has_three cycles.*1 = true <-> exists pre post,
          cycles.*1 = pre ++ [CycleUnauthorized; CycleUnauthorized; CycleUnauthorized] ++ post) /\
       (has_three cycles.*1 = true ->
        (client_exec config_dir url_parse read_ca has_certs fuel current cycles (ClientRun false (Some cfg) credFile) w').1 =
          inl (explainRunError true true (trim_slashes server)))).
Proof.
  intros w'. apply enroll_exit in Hok as Hm. fold w' in Hm.
  destruct (enrolled_runs config_dir url_parse read_ca has_certs fuel (MkEnrollParams server ca force credFile)
    (enroll_mode code) p cfg disc u w) as (id & secret & key & Hans & Hu & Hk & Hrun); try done; [by rewrite Hm|].
  rewrite Hm in Hrun, Hans. exists id, secret, key. split; [done|]. split; [by apply usable_id in Hu|].
  split; [done|]. intros Hf Hne.
  specialize (Hrun Hf Hne). cbn [ep_credFile ep_server snd] in Hrun. split; [done|]. intros cycles.
  assert (Hloop : run_loop false (poll_interval (cc_Interval cfg)) cycles =
    (has_three cycles.*1, has_three cycles.*1)).
  { unfold run_loop. by rewrite (poll_run_three _ poll_start cycles 0) by (done || lia). }
  assert (Hexec : (client_exec config_dir url_parse read_ca has_certs fuel current cycles
    (ClientRun false (Some cfg) credFile) w').1 =
    inl (explainRunError (has_three cycles.*1) (has_three cycles.*1) (trim_slashes server))).
  { unfold client_exec, mbind, CM_bind.
    destruct (newRunCmd _ _ _ _ _ _ w') as [r w2]. cbn [fst] in Hrun. subst r. by rewrite Hloop. }
  split; [|split; [apply has_three_iff|]].
  - unfold client_main, mbind, CM_bind, ccatch.
    destruct (client_exec _ _ _ _ _ _ _ _ w') as [r w2]. cbn [fst] in Hexec. subst r.
    by destruct (has_three _).
  - intros H3. by rewrite Hexec, H3.
Qed.

Definition demo_run (w : ClientWorld) :=
  newRunCmd None demo_url (fun _ => None) (fun _ => false) (Some clientKeyDefaults) (Some demo_path) w.
Definition demo_enroll : (Z + cerr) * ClientWorld :=
  client_main None demo_url (fun _ => None) (fun _ => false) 200 (MkInfo "1.2.3" EmptyString EmptyString) []
    (Some (ClientEnroll (Some "c1"%string) None false (Some demo_path) (Some ("https://ddns.example/"%string, EmptyString))))
    (demo_client 7).

Lemma enrolled_agent_runs_witness :
  exists id secret key, server_answered (ByCode "c1") "https://ddns.example" (demo_client 7) demo_enroll.2 (MkResult id secret) /\
    b64_std_decode secret = Some key /\
    (key <> EmptyString -> exists disc, (demo_run demo_enroll.2).1 =
     inl (MkSigningClient "https://ddns.example" (to_valid_utf8 id) key, disc, 300 * second, "https://ddns.example"%string)).
Proof.
  destruct (buildDiscoverer clientKeyDefaults) as [disc|] eqn:Hd; [|discriminate Hd].
  destruct (enrolled_agent_runs None demo_url (fun _ => None) (fun _ => false) 200 (MkInfo "1.2.3" EmptyString EmptyString)
    (Some "c1"%string) None false (Some demo_path) "https://ddns.example/" EmptyString demo_path
    clientKeyDefaults disc (MkURL "https" "ddns.example" "ddns.example" EmptyString) (demo_client 7) [])
    as (id & secret & key & Ha & Hid & Hk & Hrun);
    [reflexivity|vm_compute; reflexivity|intros q n fs i Hi; split; [exact Hi|reflexivity]|exact Hd
    |left; reflexivity|reflexivity..|right; reflexivity|discriminate|].
  exists id, secret, key. split; [exact Ha|]. split; [exact Hk|]. intros Hne. exists disc. exact (proj1 (Hrun eq_refl Hne)).
Defined.
