(* ===== verification/Telemetry.v ===== *)
(** * internal/telemetry: exporting traces, metrics and logs

    endpoint.go (what the configured endpoint may be), resource.go, providers.go
    and telemetry.go (building the three signals, or none), errors.go (the
    rate-limited report of failing exports).  The OpenTelemetry SDK is a
    parameter: whether an exporter, an instrument or the merged resource can be
    made.  A provider that exists is known by its signal's name; what was
    started and what was shut down is kept, in order. *)

From S2P Require Import Prelude GoLib Schema Integrity Effects ApiCore Config.
From Stdlib Require Import Ascii.

(** ** endpoint.go *)

Record otlpSignal := MkSignal { sg_name : string; sg_path : string }.
Definition signalTraces : otlpSignal := MkSignal "TRACES" "/v1/traces".
Definition signalMetrics : otlpSignal := MkSignal "METRICS" "/v1/metrics".
Definition signalLogs : otlpSignal := MkSignal "LOGS" "/v1/logs".

Inductive tel_reason :=
  | NoEndpoint | EndpointNotURL (raw : string) | EndpointPerSignal (raw path : string)
  | ResourceMerge | ExporterFailed (name : string) | HistogramFailed | CounterFailed.

Record Status := MkStatus { st_Reason : option tel_reason; st_Fatal : bool }.
Definition StatusOK : Status := MkStatus None false.
Definition fatal (r : tel_reason) : Status := MkStatus (Some r) true.

Definition has_suffix (s suffix : string) : bool :=
  let n := String.length s in let k := String.length suffix in
  Nat.leb k n && str_eq (String.substring (n - k) k s) suffix.

Section Telemetry.
Context (getenv : string -> string) (url_parse : string -> option URL) (url_join : string -> string -> option string).

Definition signalEndpoint (raw : string) (sig : otlpSignal) : string * Status :=
    let endpoint := trim_space raw in
    match url_parse endpoint with
    | None => (EmptyString, fatal (EndpointNotURL raw))
    | Some u =>
        if negb (str_eq (u_Scheme u) "http") && negb (str_eq (u_Scheme u) "https") || str_eq (u_Host u) EmptyString
        then (EmptyString, fatal (EndpointNotURL raw))
        else if has_suffix (u_Path u) (sg_path sig) then (EmptyString, fatal (EndpointPerSignal raw (sg_path sig)))
        else (default EmptyString (url_join endpoint (sg_path sig)), StatusOK)
    end.

Definition env_set (k : string) : bool := negb (str_eq (trim_space (getenv k)) EmptyString).

Definition applyOurTimeout (sig : otlpSignal) : bool :=
    if env_set "OTEL_EXPORTER_OTLP_TIMEOUT" then false
    else negb (env_set ("OTEL_EXPORTER_OTLP_" ++ sg_name sig ++ "_TIMEOUT")).

Definition anyOTLPEndpointEnv : bool :=
    existsb env_set ["OTEL_EXPORTER_OTLP_ENDPOINT"; "OTEL_EXPORTER_OTLP_TRACES_ENDPOINT";
                     "OTEL_EXPORTER_OTLP_METRICS_ENDPOINT"; "OTEL_EXPORTER_OTLP_LOGS_ENDPOINT"]%string.

  (** ** providers.go, resource.go *)

Inductive exporter_option := WithRetry | WithEndpointURL (url : string) | WithTimeout.

  (** The options of a signal's exporter, or the status that stops it. *)
Definition exporter_options (cfg : OTLPSection) (sig : otlpSignal) : list exporter_option + Status :=
    let timeout := if applyOurTimeout sig then [WithTimeout] else [] in
    if str_eq (trim_space (ot_Endpoint cfg)) EmptyString then inl ([WithRetry] ++ timeout)
    else
      let (ep, st) := signalEndpoint (ot_Endpoint cfg) sig in
      if st_Fatal st then inr st else inl ([WithRetry; WithEndpointURL ep] ++ timeout).

Context (exporter_New : otlpSignal -> list exporter_option -> bool) (histogram_ok counter_ok : bool)
        (env_service : option string) (merge_ok : list (string * string) -> bool).

  (** The attributes laid over the environment's resource. *)
Definition resource_attributes (cfg : OTLPSection) (version : string) : list (string * string) :=
    (if negb (str_eq (ot_ServiceName cfg) EmptyString) then [("service.name"%string, ot_ServiceName cfg)]
     else match env_service with None => [("service.name", "diyddns")]%string | Some _ => [] end)
    ++ [("service.version"%string, version)].

Definition buildResource (cfg : OTLPSection) (version : string) : Status :=
    if merge_ok (resource_attributes cfg version) then StatusOK else fatal ResourceMerge.

  (** A field that is [false] is the no-op of its kind; [pr_shutdown] are the
      signals whose shutdown function is kept. *)
Record Providers := MkProviders {
    pr_tracer : bool; pr_requestDur : bool; pr_deliveries : bool; pr_meter : bool; pr_loggerProvider : bool;
    pr_shutdown : list string; pr_shutdownDone : bool }.

Definition inert : Providers := MkProviders false false false false false [] false.

  (** What a build does: the providers after it, its status, and the signals
      whose provider, with the goroutine that exports, it constructed - whether
      or not its shutdown was kept. *)
Definition build : Type := Providers -> Providers * Status * list string.

Definition buildTraces (cfg : OTLPSection) : build := fun p =>
    match exporter_options cfg signalTraces with
    | inr st => (p, st, [])
    | inl opts =>
        if exporter_New signalTraces opts
        then (MkProviders true (pr_requestDur p) (pr_deliveries p) (pr_meter p) (pr_loggerProvider p)
                (pr_shutdown p ++ [sg_name signalTraces]) (pr_shutdownDone p), StatusOK, [sg_name signalTraces])
        else (p, fatal (ExporterFailed (sg_name signalTraces)), [])
    end.

Definition buildMetrics (cfg : OTLPSection) : build := fun p =>
    match exporter_options cfg signalMetrics with
    | inr st => (p, st, [])
    | inl opts =>
        if exporter_New signalMetrics opts then
          let started (dur deliveries : bool) :=
            MkProviders (pr_tracer p) dur deliveries true (pr_loggerProvider p)
              (pr_shutdown p ++ [sg_name signalMetrics]) (pr_shutdownDone p) in
          let constructed := [sg_name signalMetrics] in
          if negb histogram_ok then (started (pr_requestDur p) (pr_deliveries p), fatal HistogramFailed, constructed)
          else if negb counter_ok then (started true (pr_deliveries p), fatal CounterFailed, constructed)
          else (started true true, StatusOK, constructed)
        else (p, fatal (ExporterFailed (sg_name signalMetrics)), [])
    end.

Definition buildLogsFor (cfg : OTLPSection) : build := fun p =>
    match exporter_options cfg signalLogs with
    | inr st => (p, st, [])
    | inl opts =>
        if exporter_New signalLogs opts
        then (MkProviders (pr_tracer p) (pr_requestDur p) (pr_deliveries p) (pr_meter p) true
                (pr_shutdown p ++ [sg_name signalLogs]) (pr_shutdownDone p), StatusOK, [sg_name signalLogs])
        else (p, fatal (ExporterFailed (sg_name signalLogs)), [])
    end.

  (** ** telemetry.go *)

  (** What [Shutdown] calls, each once, the first time. *)
Definition Shutdown (p : option Providers) : option Providers * list string :=
    match p with
    | None => (None, [])
    | Some p =>
        if pr_shutdownDone p then (Some p, [])
        else (Some (MkProviders (pr_tracer p) (pr_requestDur p) (pr_deliveries p) (pr_meter p) (pr_loggerProvider p) [] true),
              pr_shutdown p)
    end.

Fixpoint build_all (builds : list build) (p : Providers) : Providers * Status * list string :=
    match builds with
    | [] => (p, StatusOK, [])
    | b :: rest =>
        let '(p', st, constructed) := b p in
        if st_Fatal st then (p', st, constructed)
        else let '(p2, st2, more) := build_all rest p' in (p2, st2, constructed ++ more)
    end.

  (** The result, the signals whose export was started by the builds, and those
      whose shutdown [New] has called. *)
Record Built := MkBuilt { bt_providers : Providers; bt_status : Status; bt_started : list string; bt_stopped : list string }.

Definition New (cfg : OTLPSection) (version : string) : Built :=
    if negb (ot_Enabled cfg) then MkBuilt inert StatusOK [] []
    else if str_eq (trim_space (ot_Endpoint cfg)) EmptyString && negb anyOTLPEndpointEnv
    then MkBuilt inert (MkStatus (Some NoEndpoint) false) [] []
    else
      let st := buildResource cfg version in
      if st_Fatal st then MkBuilt inert st [] []
      else
        let '(p, st, started) := build_all [buildTraces cfg; buildMetrics cfg; buildLogsFor cfg] inert in
        if st_Fatal st then MkBuilt inert st started (Shutdown (Some p)).2
        else MkBuilt p StatusOK started [].
End Telemetry.

(** The accessors: live, or the no-op; a nil receiver is inert. *)
Definition Tracer (p : option Providers) : bool := match p with Some p => pr_tracer p | None => false end.
Definition RequestDuration (p : option Providers) : bool := match p with Some p => pr_requestDur p | None => false end.
Definition DeliveryCount (p : option Providers) : bool := match p with Some p => pr_deliveries p | None => false end.
Definition LoggerProvider (p : option Providers) : option unit :=
  match p with Some p => if pr_loggerProvider p then Some tt else None | None => None end.
(** Whether the connection statistics are observed. *)
Definition ObserveDB (p : option Providers) (db : bool) : bool :=
  match p with Some p => db && pr_meter p | None => false end.

(** ** errors.go *)

Definition errorHandlerInterval : Z := 5 * 60 * 1000000000.

Record rateLimited := MkRateLimited { rl_lastEmit : option Z; rl_suppressed : Z }.

Definition recordFailure (t : Z) (h : rateLimited) : option Z * rateLimited :=
  if match rl_lastEmit h with Some last => t - last <? errorHandlerInterval | None => false end
  then (None, MkRateLimited (rl_lastEmit h) (rl_suppressed h + 1))
  else (Some (rl_suppressed h), MkRateLimited (Some t) 0).

(** The lines [Handle] writes for failures at the times [ts]: the time and how
    many were suppressed since the last line. *)
Fixpoint handle_failures (ts : list Z) (h : rateLimited) : list (Z * Z) * rateLimited :=
  match ts with
  | [] => ([], h)
  | t :: rest =>
      let (line, h1) := recordFailure t h in
      let (lines, h2) := handle_failures rest h1 in
      (match line with Some n => (t, n) :: lines | None => lines end, h2)
  end.

Definition fresh_handler : rateLimited := MkRateLimited None 0.

(** Whether [setDiagnostics] installs the handler. *)
Definition setDiagnostics (p : option Providers) (logger : bool) : bool :=
  match p with Some p => negb (bool_decide (pr_shutdown p = [])) && logger | None => false end.

(** ** Theorems *)

Definition all_live : Providers := MkProviders true true true true true ["TRACES"; "METRICS"; "LOGS"]%string false.

Section TelemetryFacts.
Context (getenv : string -> string) (url_parse : string -> option URL) (url_join : string -> string -> option string)
        (exporter_New : otlpSignal -> list exporter_option -> bool) (histogram_ok counter_ok : bool)
        (env_service : option string) (merge_ok : list (string * string) -> bool).

  (** An endpoint every signal accepts. *)
Definition endpoint_ok (raw : string) : Prop :=
    exists u, url_parse (trim_space raw) = Some u /\ (u_Scheme u = "http" \/ u_Scheme u = "https")%string /\
      u_Host u <> EmptyString /\
      Forall (fun sig => has_suffix (u_Path u) (sg_path sig) = false) [signalTraces; signalMetrics; signalLogs].

Lemma signalEndpoint_ok raw sig : st_Fatal (signalEndpoint url_parse url_join raw sig).2 = false ->
    exists u, url_parse (trim_space raw) = Some u /\ (u_Scheme u = "http" \/ u_Scheme u = "https")%string /\
      u_Host u <> EmptyString /\ has_suffix (u_Path u) (sg_path sig) = false.
Proof.
    unfold signalEndpoint. destruct (url_parse (trim_space raw)) as [u|]; [|done].
    destruct (_ || _) eqn:E; [done|]. destruct (has_suffix _ _) eqn:Hs; [done|]. intros _.
    apply orb_false_iff in E as [E1 E2%str_eq_false]. exists u. split; [done|]. split; [|done].
    apply andb_false_iff in E1 as [E1|E1]; apply negb_false_iff, str_eq_true in E1; auto.
Qed.

Lemma exporter_options_ok cfg sig opts : exporter_options getenv url_parse url_join cfg sig = inl opts ->
    trim_space (ot_Endpoint cfg) <> EmptyString -> st_Fatal (signalEndpoint url_parse url_join (ot_Endpoint cfg) sig).2 = false.
Proof.
    unfold exporter_options. intros H Hne%str_eq_false. rewrite Hne in H.
    destruct (signalEndpoint _ _ _ _) as [ep st]. simpl. by destruct (st_Fatal st).
Qed.

Lemma exporter_options_fatal cfg sig st : exporter_options getenv url_parse url_join cfg sig = inr st -> st_Fatal st = true.
Proof.
    unfold exporter_options. intros H. destruct (str_eq _ _); [done|].
    destruct (signalEndpoint _ _ _ _) as [ep st']. by destruct (st_Fatal st') eqn:E; simplify_eq.
Qed.

Definition built_new cfg version : Built :=
    New getenv url_parse url_join exporter_New histogram_ok counter_ok env_service merge_ok cfg version.

(** The cases in which telemetry is off. *)
Local Ltac inert_case := split; [left; split; reflexivity|split; [intros ?; (done || by split)|intros H; unfold inert, all_live in H; discriminate H]].

Lemma New_whole cfg version :
  let b := built_new cfg version in
  (bt_providers b = inert /\ bt_stopped b = bt_started b \/
   bt_providers b = all_live /\ bt_status b = StatusOK /\ bt_started b = ["TRACES"; "METRICS"; "LOGS"]%string /\ bt_stopped b = []) /\
  (ot_Enabled cfg = false -> bt_started b = [] /\ bt_status b = StatusOK) /\
  (bt_providers b = all_live -> ot_Enabled cfg = true /\
     (trim_space (ot_Endpoint cfg) <> EmptyString -> endpoint_ok (ot_Endpoint cfg)) /\
     (trim_space (ot_Endpoint cfg) = EmptyString -> anyOTLPEndpointEnv getenv = true)).
Proof.
  cbv zeta. unfold built_new, New. destruct (ot_Enabled cfg); cbn [negb]; [|inert_case].
  destruct (str_eq (trim_space (ot_Endpoint cfg)) EmptyString && negb (anyOTLPEndpointEnv getenv)) eqn:He; [inert_case|].
  destruct (st_Fatal (buildResource _ _ _ _)) eqn:Hres; [inert_case|].
  unfold build_all, buildTraces, buildMetrics, buildLogsFor.
  destruct (exporter_options _ _ _ cfg signalTraces) as [o1|st] eqn:H1.
  2:{ apply exporter_options_fatal in H1. destruct st as [r []]; [inert_case|done]. }
  destruct (exporter_New signalTraces o1); [|inert_case]. cbn [st_Fatal StatusOK].
  destruct (exporter_options _ _ _ cfg signalMetrics) as [o2|st] eqn:H2.
  2:{ apply exporter_options_fatal in H2. destruct st as [r []]; [inert_case|done]. }
  destruct (exporter_New signalMetrics o2); [|inert_case].
  destruct histogram_ok; [|inert_case]. destruct counter_ok; [|inert_case]. cbn [negb st_Fatal StatusOK].
  destruct (exporter_options _ _ _ cfg signalLogs) as [o3|st] eqn:H3.
  2:{ apply exporter_options_fatal in H3. destruct st as [r []]; [inert_case|done]. }
  destruct (exporter_New signalLogs o3); [|inert_case]. cbn [st_Fatal StatusOK].
  split; [by right|]. split; [done|]. intros _. split; [done|]. split.
  - intros Hne. pose proof (exporter_options_ok _ _ _ H1 Hne) as (u & Hu & Hs & Hh & E1)%signalEndpoint_ok.
    pose proof (exporter_options_ok _ _ _ H2 Hne) as (u2 & Hu2 & _ & _ & E2)%signalEndpoint_ok.
    pose proof (exporter_options_ok _ _ _ H3 Hne) as (u3 & Hu3 & _ & _ & E3)%signalEndpoint_ok.
    rewrite Hu in Hu2, Hu3. simplify_eq. exists u2. split; [done|]. split; [done|]. split; [done|]. by repeat constructor.
  - intros Heq%str_eq_true. rewrite Heq in He. by apply negb_false_iff.
Qed.

(** Telemetry is on as a whole or not at all.  [New] either returns the inert
    providers, and then everything it had started on the way has been shut
    down, once and in order, or all three signals are live with their shutdown
    kept and nothing has been shut down; a fatal status never comes with live
    providers, live ones only with a configured endpoint, and an endpoint that
    is set in the configuration is then an http(s) URL with a host that is not
    already the URL of a signal. *)
Theorem telemetry_all_or_nothing cfg version :
  let b := built_new cfg version in
  (bt_providers b = inert /\ bt_stopped b = bt_started b \/
   bt_providers b = all_live /\ bt_status b = StatusOK /\ bt_started b = ["TRACES"; "METRICS"; "LOGS"]%string /\ bt_stopped b = []) /\
  (ot_Enabled cfg = false -> bt_started b = [] /\ bt_status b = StatusOK) /\
  (bt_providers b = all_live -> ot_Enabled cfg = true /\
     (trim_space (ot_Endpoint cfg) <> EmptyString -> endpoint_ok (ot_Endpoint cfg)) /\
     (trim_space (ot_Endpoint cfg) = EmptyString -> anyOTLPEndpointEnv getenv = true)).
Proof. exact (New_whole cfg version). Qed.

(** A second shutdown calls nothing. *)
Lemma Shutdown_once p : (Shutdown (Shutdown p).1).2 = [].
Proof. destruct p as [p|]; [|done]. simpl. by destruct (pr_shutdownDone p) eqn:E; simpl; rewrite ?E. Qed.
End TelemetryFacts.

(** The lines' times are at least an interval apart, the first after [last]. *)
Fixpoint spaced (last : option Z) (lines : list (Z * Z)) : Prop :=
  match lines with
  | [] => True
  | (t, _) :: rest =>
      match last with Some l => errorHandlerInterval <= t - l | None => True end /\ spaced (Some t) rest
  end.

Definition accounted (lines : list (Z * Z)) : Z := foldr (fun x n => 1 + x.2 + n) 0 lines.

Lemma handle_failures_run ts h :
  let (lines, h') := handle_failures ts h in
  spaced (rl_lastEmit h) lines /\
  rl_suppressed h + Z.of_nat (length ts) = accounted lines + rl_suppressed h' /\
  (0 <= rl_suppressed h -> 0 <= rl_suppressed h' /\ Forall (fun x => 0 <= x.2) lines).
Proof.
  revert h. induction ts as [|t ts IH]; intros h; [simpl; split; [done|]; split; [lia|auto]|].
  cbn [handle_failures]. unfold recordFailure. destruct (match rl_lastEmit h with Some _ => _ | None => _ end) eqn:E.
  - specialize (IH (MkRateLimited (rl_lastEmit h) (rl_suppressed h + 1))).
    destruct (handle_failures ts _) as [lines h2]. cbn [rl_lastEmit rl_suppressed] in IH. destruct IH as (H1 & H2 & H3).
    split; [done|]. split; [cbn [length]; lia|]. intros. apply H3. lia.
  - specialize (IH (MkRateLimited (Some t) 0)). destruct (handle_failures ts _) as [lines h2].
    cbn [rl_lastEmit rl_suppressed] in IH. destruct IH as (H1 & H2 & H3). split; [|split].
    + split; [|done]. destruct (rl_lastEmit h) as [l|]; [lia|done].
    + cbn [length accounted foldr snd]. fold (accounted lines). lia.
    + intros Hn. destruct (H3 ltac:(lia)) as [H4 H5]. split; [done|]. by constructor.
Qed.

(** The report of failing exports is rate limited and loses nothing.  Over any
    sequence of failures, whatever the clock does, the first is written at
    once, two lines are at least five minutes apart, and every failure is
    either a line, or counted as suppressed by exactly one later line, or still
    waiting to be counted. *)
Theorem export_failures_accounted ts :
  let (lines, h) := handle_failures ts fresh_handler in
  spaced None lines /\ Z.of_nat (length ts) = accounted lines + rl_suppressed h /\
  0 <= rl_suppressed h /\ Forall (fun x => 0 <= x.2) lines /\
  (forall t rest, ts = t :: rest -> head lines = Some (t, 0)).
Proof.
  pose proof (handle_failures_run ts fresh_handler) as H.
  destruct (handle_failures ts fresh_handler) as [lines h] eqn:E. simpl in H. destruct H as (H1 & H2 & H3).
  destruct (H3 ltac:(lia)) as [H4 H5]. split; [done|]. split; [lia|]. split; [done|]. split; [done|].
  intros t rest ->. cbn in E. destruct (handle_failures rest _). by simplify_eq.
Qed.
