(* ===== verification/Serve.v ===== *)
(** * cmd/diyddns-server: starting and stopping the server

    main.go: the order in which the serve command loads, logs, exports, opens,
    claims and builds, and what it undoes; [New] and [Run] of
    internal/server/server.go: the background jobs it starts and how it ends.
    The parameters are those of Config, Telemetry, Logging and Server; which of
    the listener and the shutdown signal comes first, and how long closing
    takes, are arguments of [Run]. *)

From S2P Require Import Prelude GoLib Schema Integrity Effects Dates StoreUsers StoreDevices Auth ServiceDevices.
From S2P Require Import NetAddr Notify Feed Email Envelope SignIn Passkeys Oidc Stale Pruner ApiCore Api Config WebCore WebUI.
From S2P Require Import Logging Server.
From S2P Require Telemetry.

(** ** server.go: [New] and [Run] *)

Inductive job := JobListen (addr : string) | JobPruner (r : RetentionSection) (s : option sweeper) | JobRetryLoop
  | JobWorker (key : string) (allowed : list prefix) (timeout maxAttempts : Z).

Record ServerParts := MkServerParts {
  sp_Addr : string; sp_wiring : Wiring; sp_notifier : option job; sp_retention : RetentionSection; sp_observesDB : bool }.

(** The outcome of [Run]'s select: the listener fails, or the context ends and
    the hub and the listener are shut down. *)
Inductive run_end := ListenFailed | ContextDone (hub_in_time http_in_time : bool).

Inductive serve_error :=
  | ServeConfig (es : list config_error) | ServeLogger (e : log_error) | ServeTelemetry (r : option Telemetry.tel_reason)
  | ServeStore | ServeBootstrap (e : err) | ServeBuild (e : build_error) | ServeListen | ServeShutdown.

Definition Run_result (e : run_end) : option serve_error :=
  match e with
  | ListenFailed => Some ServeListen
  | ContextDone _ http => if http then None else Some ServeShutdown
  end.

Definition Run_jobs (s : ServerParts) : list job :=
  [JobListen (sp_Addr s); JobPruner (sp_retention s) (wi_sweeper (sp_wiring s)); JobRetryLoop] ++
  match sp_notifier s with Some j => [j] | None => [] end.

Section Serve.
Context `{Crypto} `{WebAuthn Options HttpRequest} `{OIDCLib} `{ApiLibs} `{WebLibs}.
Context (webauthn_New : string -> string -> WebAuthnCfg -> bool).
Context (apprise_Send : EmailSection -> ctx -> string -> string -> string -> M unit).
Context (current : Info) (slot : nat -> option pstate) (emitToken : string -> M unit).

Definition worker_of (cfg : Config.Config) (allowed : list prefix) : option job + build_error :=
    if negb (nc_Enabled (cfg_Notifications cfg)) then inl None
    else match DecodeSecretKey (as_SecretKey (cfg_Auth cfg)) with
    | inr e => inr (BuildKey e)
    | inl key => inl (Some (JobWorker key allowed (nc_Timeout (cfg_Notifications cfg)) (nc_MaxAttempts (cfg_Notifications cfg))))
    end.

  (** [recovery] is the background context of the recovery route. *)
Definition Server_New (c recovery : ctx) (cfg : Config.Config) (tel : option Telemetry.Providers) : M (ServerParts + build_error) :=
    built ← buildMux webauthn_New apprise_Send current slot c recovery cfg;
    mret match built with
    | inr e => inr e
    | inl wi =>
        match worker_of cfg (wi_allowed wi) with
        | inr e => inr e
        | inl notifier => inl (MkServerParts (cfg_Listen cfg) wi notifier (cfg_Retention cfg) (Telemetry.ObserveDB tel true))
        end
    end.

  (** ** main.go: serve *)

  (** What a run of the command came to: its error, the jobs it started, the
      signals whose export was started and stopped, and whether the OTLP logger
      was given a provider. *)
Record served := MkServed {
    se_error : option serve_error; se_jobs : list job; se_started : list string; se_stopped : list string;
    se_otlp_logger : bool }.

Definition not_started (e : serve_error) : served := MkServed (Some e) [] [] [] false.

  (** After telemetry: the deferred shutdown stops what still runs. *)
Definition ended (b : Telemetry.Built) (e : option serve_error) (jobs : list job) : served :=
    MkServed e jobs (Telemetry.bt_started b)
      (Telemetry.bt_stopped b ++ (Telemetry.Shutdown (Some (Telemetry.bt_providers b))).2)
      (match Telemetry.LoggerProvider (Some (Telemetry.bt_providers b)) with Some _ => true | None => false end).

  (** [loaded] is what config.Load returns; [telemetry] telemetry.New;
      [open_fails] the steps of store.Open that fail; [outcome] how [Run] ends. *)
Definition serveCmd (loaded : Config.Config + list config_error) (log_opens : string -> bool)
      (telemetry : OTLPSection -> Telemetry.Built) (open_fails : open_step -> bool) (c recovery : ctx) (outcome : run_end) : M served :=
    match loaded with
    | inr es => mret (not_started (ServeConfig es))
    | inl cfg =>
        match ParseLogLevel (cfg_LogLevel cfg) with
        | None => mret (not_started (ServeLogger ErrLogLevel))
        | Some _ =>
            match NewLogger log_opens (cfg_LogLevel cfg) (cfg_LogFormat cfg) (cfg_LogOutput cfg) true with
            | inr e => mret (not_started (ServeLogger e))
            | inl _ =>
                let b := telemetry (ob_OTLP (cfg_Observability cfg)) in
                if Telemetry.st_Fatal (Telemetry.bt_status b)
                then mret (ended b (Some (ServeTelemetry (Telemetry.st_Reason (Telemetry.bt_status b)))) [])
                else if negb (Logging.Open open_fails).2 then mret (ended b (Some ServeStore) [])
                else
                  started ← catch (Startup emitToken c);
                  match started with
                  | inr e => mret (ended b (Some (ServeBootstrap e)) [])
                  | inl _ =>
                      srv ← Server_New c recovery cfg (Some (Telemetry.bt_providers b));
                      mret match srv with
                      | inr e => ended b (Some (ServeBuild e)) []
                      | inl s => ended b (Run_result outcome) (Run_jobs s)
                      end
                  end
            end
        end
    end.

  (** [main]: the exit code. *)
Definition server_exit (s : served) : Z := match se_error s with Some _ => 1 | None => 0 end.
End Serve.

(** * Properties of the serve command

    What starts runs as configured, what does not start leaves nothing behind;
    the hypotheses are those of Server, of the first run (AccountFacts)
    and of telemetry. *)

From S2P Require Import Prelude GoLib Schema Integrity Effects Dates Demo StoreUsers StoreDevices Auth ServiceDevices ServiceFacts.
From S2P Require Import ServiceTokens NetAddr Notify Feed FeedFacts Endpoints Email Envelope EmailChange Passkeys Grants Stale StaleFacts.
From S2P Require Import AccountFacts GrantFacts IdentityFacts Pruner SignIn Oidc ApiCore Api ApiFacts ApiDemo Config WebCore WebUI.
From S2P Require Import WebFacts WebDemo Middleware Logging Server.

Lemma ended_stopped b e jobs : Telemetry.bt_providers b = Telemetry.inert /\ Telemetry.bt_stopped b = Telemetry.bt_started b \/
    Telemetry.bt_providers b = Telemetry.all_live /\ Telemetry.bt_status b = Telemetry.StatusOK /\
    Telemetry.bt_started b = ["TRACES"; "METRICS"; "LOGS"]%string /\ Telemetry.bt_stopped b = [] ->
  se_stopped (ended b e jobs) = se_started (ended b e jobs).
Proof.
  intros [[Hp Hs]|(Hp & _ & Hst & Hs)]; cbn [ended se_stopped se_started]; rewrite Hp, Hs.
  - apply app_nil_r.
  - by rewrite Hst.
Qed.

(** An installation that can be administered, or claimed. *)
Definition claimable (d : DB) : Prop := List.filter admin_role (d_users d) <> [] \/ pending d.

Section ServeFacts.
Context `{Crypto} `{WebAuthn Options HttpRequest} `{OIDCLib} `{ApiLibs} `{WebLibs}.
Context (webauthn_New : string -> string -> WebAuthnCfg -> bool).
Context (apprise_Send : EmailSection -> ctx -> string -> string -> string -> M unit).
Context (current : Info) (slot : nat -> option pstate).
Context (emitToken : string -> M unit) (Hemit : forall t, inert (emitToken t)) (Hsha : forall t, HashToken t <> EmptyString).
Context (mail_parse : string -> option (string * string)) (file : option (option (list string))) (read : option Config.Config).
Context (log_opens : string -> bool) (open_fails : open_step -> bool).
Context (getenv : string -> string) (url_join : string -> string -> option string)
        (exporter_New : Telemetry.otlpSignal -> list Telemetry.exporter_option -> bool) (histogram_ok counter_ok : bool)
        (env_service : option string) (merge_ok : list (string * string) -> bool).
Context (Hns : forall cfg, read = Some cfg -> in_int64 (as_NonceTTL (cfg_Auth cfg))).

Definition telemetry (o : OTLPSection) : Telemetry.Built :=
    Telemetry.New getenv url_Parse url_join exporter_New histogram_ok counter_ok env_service merge_ok o (in_Version current).

Definition run_serve : ctx -> ctx -> run_end -> M served :=
    serveCmd webauthn_New apprise_Send current slot emitToken
      (Load mail_parse url_Parse file read) log_opens telemetry open_fails.

  (** The jobs of a server under [cfg]. *)
Definition jobs_of (cfg : Config.Config) (wi : Wiring) : list job -> Prop := fun js =>
    exists workers, js = [JobListen (cfg_Listen cfg); JobPruner (cfg_Retention cfg) (wi_sweeper wi); JobRetryLoop] ++ workers /\
      match workers with
      | [] => nc_Enabled (cfg_Notifications cfg) = false
      | [JobWorker key allowed timeout attempts] => nc_Enabled (cfg_Notifications cfg) = true /\
          DecodeSecretKey (as_SecretKey (cfg_Auth cfg)) = inl key /\ String.length key = 32%nat /\
          allowed = wi_allowed wi /\ 1 <= attempts <= 16
      | _ => False
      end.

  (** What a run that started jobs had. *)
Definition running (s : served) (w' : World) : Prop :=
    exists cfg wi, Load mail_parse url_Parse file read = inl cfg /\
      wired cfg wi /\ jobs_of cfg wi (se_jobs s) /\ claimable (w_db w') /\
      is_Some (ParseLogLevel (cfg_LogLevel cfg)) /\ (Logging.Open open_fails).2 = true.

  (** The errors that come before anything is read or written. *)
Definition early (e : serve_error) : bool :=
    match e with ServeConfig _ | ServeLogger _ | ServeTelemetry _ | ServeStore => true | _ => false end.

Lemma worker_of_jobs cfg wi js tel : Load mail_parse url_Parse file read = inl cfg ->
    worker_of cfg (wi_allowed wi) = inl js -> jobs_of cfg wi (Run_jobs (MkServerParts (cfg_Listen cfg) wi js (cfg_Retention cfg) tel)).
Proof.
    intros Hload Hw. eexists. split; [reflexivity|]. cbn [sp_notifier]. unfold worker_of in Hw.
    destruct (nc_Enabled _) eqn:He; cbn [negb] in Hw; [|by simplify_eq].
    destruct (DecodeSecretKey _) as [key|e] eqn:Hk; [|done]. injection Hw as <-.
    split; [done|]. split; [done|]. split.
    { revert Hk. unfold DecodeSecretKey. destruct (b64_std_decode _); [|done].
      destruct (Nat.eqb_spec (String.length s) 32); [|done]. by intros [= <-]. }
    split; [done|]. apply Load_checks in Hload as (_ & _ & _ & _ & _ & Hn & _). revert Hn. unfold validateNotifications.
    destruct (List.find _ _); [done|]. destruct (_ <=? 0); [done|]. destruct (_ || _) eqn:E; [done|]. lia.
Qed.

Lemma telemetry_ended o e js : se_stopped (ended (telemetry o) e js) = se_started (ended (telemetry o) e js).
Proof.
    apply ended_stopped.
    exact (proj1 (Telemetry.New_whole getenv url_Parse url_join exporter_New histogram_ok counter_ok env_service merge_ok o
      (in_Version current))).
Qed.

End ServeFacts.

(** ** A concrete start *)

#[local] Existing Instance tagged_crypto.
#[local] Existing Instance toy_webauthn.
#[local] Existing Instance toy_idp.
#[local] Existing Instance toy_web.
#[local] Existing Instance server_libs.

Definition served_world : World := MkWorld demo_env 0 (setd_bootstrap [] fresh_db) empty_mem.

Definition demo_serve : result served * World :=
  run_serve (fun _ _ _ => true) no_transport (MkInfo "v1" "abc" "today") (fun _ => None) log_warn
    demo_parse None (Some server_config) (fun _ => true) (fun _ => false) (fun _ => EmptyString) (fun _ _ => None)
    (fun _ _ => true) true true None (fun _ => true) background background (ContextDone true true) served_world.

